(* ===== verification/_CoqProject ===== *)
-Q . S2P
Prelude.v
ODict.v
PyVal.v
PyStr.v
PyObj.v
Circuit.v
Signing.v
Lineage.v
SessionChain.v
ChainHelpers.v
ChainSystem.v
PolicyEngine.v
Attestation.v
RateLimit.v
Budget.v
Routing.v
Wal.v
Delivery.v
Auth.v
Storage.v
Concurrency.v
Pipeline.v
Streaming.v
ResponsePolicy.v
ToolLoop.v
ControlStore.v
ControlApi.v
ControlSync.v
Analyzers.v
Sanitizer.v
AdapterBase.v
OpenAI.v
Ollama.v
Anthropic.v
AnthropicStream.v
Generic.v
SemanticCache.v
Verdicts.v
ModelRegistry.v
Promotion.v
RecordSchema.v
WalacorClient.v
LedgerHttp.v
WalacorReader.v
SchemaIntel.v
Normalizer.v
Mapper.v
Anomaly.v
AuditRecord.v
Consistency.v
AuditWrite.v
Census.v
Readiness.v
