(* ===== verification/Prelude.v ===== *)
(** * Verification library for the TruzenAI / Walacor AI Security Gateway

    The gateway is a Python proxy between clients and language-model providers.
    A request passes authentication, then governance checks, then goes to a
    provider; afterwards its token usage is settled and a signed execution
    record joins its session's chain and is written to a local log, from which a
    background worker delivers it.  An embedded control plane holds the policies,
    attestations, budgets and keys the checks read.  This library translates the
    code of those paths (everything is under src/src/gateway/) and proves what makes
    it correct.  Where the code does not keep a promise, the theorem states what it
    does.

    ** How a request runs, and where each part is

    - Auth: [body_size_middleware] and [api_key_middleware] of main.py, API keys
      (auth/api_key.py), tokens (auth/jwt_auth.py), caller identity
      (auth/identity.py, adaptive/identity_validator.py).
    - RateLimit: middleware/ip_rate_limiter.py, middleware/token_rate_limiter.py
      and pipeline/rate_limiter.py.
    - Storage: the completeness middleware around every request
      (middleware/completeness.py), the storage router with its two backends
      (storage/), and the batch writer (wal/batch_writer.py).
    - The adapters turn a provider's format into a call and its answers into
      responses: AdapterBase (adapters/base.py, thinking.py, caching.py,
      util/session_id.py), OpenAI, Ollama, Anthropic with AnthropicStream, and
      Generic (generic.py, huggingface.py).
    - Pipeline: [_run_pre_checks] and [_handle_request_inner] of
      pipeline/orchestrator.py.  The checks are those of Attestation
      (cache/attestation_cache.py, pipeline/model_resolver.py), PolicyEngine
      (core/policy_engine.py, cache/policy_cache.py, pipeline/policy_evaluator.py,
      pipeline/shadow_policy.py), Wal, Budget (pipeline/budget_tracker.py,
      alerts/bus.py) and RateLimit, each on its own state; Concurrency is
      routing/concurrency.py.
    - Routing: routing/balancer.py, fallback.py, retry.py, ab_test.py and
      [_forward_with_resilience]; Circuit: routing/circuit.py.
    - Streaming: pipeline/forwarder.py and content/stream_safety.py; ToolLoop: the
      tool strategies and the tool loop of pipeline/tool_executor.py.
    - ResponsePolicy: response evaluation (pipeline/response_evaluator.py);
      Analyzers: the content analyzers it runs (content/); Sanitizer:
      content/pii_sanitizer.py and the steps around the forward that use it.
    - SemanticCache: the response cache (cache/semantic_cache.py) and the pipeline steps
      that read and fill it.
    - ChainSystem: the critical section in which concurrent requests stamp,
      write and advance (the write paths of pipeline/orchestrator.py), over
      SessionChain (pipeline/session_chain.py), ChainHelpers
      (pipeline/chain_helpers.py) and Signing (crypto/signing.py).  Lineage reads
      the stored records back and verifies them (lineage/reader.py,
      lineage/_normalize.py).
    - Wal: the SQLite write-ahead log (wal/writer.py); Delivery: the worker that
      drains it (wal/delivery_worker.py).
    - ControlStore: the control plane's tables and their operations
      (control/store.py); ControlApi: its HTTP handlers and the refresh of the
      caches of the running gateway (control/api.py); ControlSync: loading at start
      and synchronisation with a remote control plane (control/loader.py,
      control/sync_api.py, sync/sync_client.py).
    - AuditRecord: what becomes a record (pipeline/hasher.py, the enrichment of the
      call, the mapper's contribution, headers and settlement of
      pipeline/orchestrator.py).  AuditWrite: the whole write path of an exchange, a
      stream and a proxied call, from the answer to the rows of storage, over
      AuditRecord, ChainHelpers, Consistency (intelligence/consistency.py), Anomaly
      (schema/anomaly.py, schema/overflow.py), RecordSchema and Normalizer.
    - RecordSchema (classifier/schema.py), Normalizer (pipeline/normalizer.py and the
      normaliser and validators of classifier/unified.py), SchemaIntel (prompt
      extraction and intent of classifier/unified.py, intelligence/shadow.py), Mapper
      (schema/mapper.py with its canonical types).
    - The ledger: WalacorClient translates rows to the ledger's envelopes
      (walacor/client.py), LedgerHttp authenticates and sends them, WalacorReader reads
      them back (lineage/walacor_reader.py).
    - Verdicts: the rows the classifiers leave and the worker that stores them
      (intelligence/verdict_buffer.py, verdict_flush.py, db.py).  ModelRegistry: the
      classifiers' files, their reload and the handlers that swap them (registry.py,
      reload.py, api.py).  Promotion: shadow metrics, the promotion gate, the sanity
      fixture, the validator of promotions and the drift monitor.
    - Census: the workers of several processes that verify every session of a window,
      the store of their verdicts and what the compliance report makes of it
      (compliance/chain_worker.py, chain_store.py, [_read_chain_integrity_from_store] of
      compliance/api.py, [get_chain_verification_report] of lineage/reader.py), over
      Lineage.  Readiness: the checks, their roll-up and cache, the drift rows and the
      bootstrap key (readiness/, auth/bootstrap_key.py), over Auth, Signing and Lineage.

    Prelude holds the error type [res] with its [let!] notation, time, sorting and
    tactics; ODict ordered dictionaries; PyVal Python values, floats and [fnmatch];
    PyStr string operations; PyObj operations on decoded JSON of unknown shape, each
    with the exception it raises on a wrong one.

    ** How the code is modelled

    A class is a Record of its attributes and a method a function on it; an
    exception is a [Raise].  Clock readings, random samples and the answers of
    services are arguments, so every definition runs.  Time is in nanoseconds.
    Integers are Python's, unbounded; floats are IEEE 754 doubles ([spec_float]).
    A string or a byte string is a sequence of ASCII characters.  Where asyncio tasks
    interleave, the model is a step function on a state with the tasks' program
    counters and the theorems quantify over every sequence of events
    ([ChainSystem.exec], [Storage.batch_step], the operations of [Budget] and [Wal]);
    a stream is the list of its chunks, and the theorems quantify over how it is cut.
    Third-party code is a class or a parameter: regular expressions ([Regex],
    [Finder]), Ed25519, base64 and PEM ([Signing.Ed25519]), JSON ([Json], [JsonText]),
    the printing of a computed float ([FloatRepr]), token decoding, Redis commands.
    Their laws are named hypotheses, each instantiated in a witness.

    Components meet at classes: [SessionChain.ChainTracker] with its laws is what the
    chain's write path needs of a tracker, [Routing.Breakers] what the resilience
    layer needs of circuit breakers, [Wal.WalStore] what the delivery worker needs of
    the log, [Budget.RedisCounter] and [SessionChain.RedisHash] what the Redis
    variants need of Redis.

    ** What the theorems show

    - Governance: a request reaches a provider only if every check let it through
      ([forward_needs_governance]); the policy gate is fail-closed and blocks
      exactly on an active blocking policy that is not satisfied; attestations are
      fresh, unblocked and of the caller's tenant; the authentication gate is sound.
    - What governance sees: every text of the messages is in the joined prompt, which is
      the call's prompt unless reasoning traces are taken out of it
      ([prompt_covers_messages]); the bridge from the OpenAI to the Anthropic format
      keeps every content block ([bridge_keeps_blocks]) and its prompt is exactly the
      texts of users and assistants ([bridged_prompt]).
    - Content: a response is blocked exactly on an analyzer's verdict or a response
      policy; the floor of the PII detector cannot be configured away; restoring a
      sanitized text gives it back.
    - Streams: what is recorded is what was received and translated for the client
      ([stream_is_audited], [sent_text_is_recorded]), and does not depend on chunk
      boundaries for Anthropic ([chunking_is_irrelevant]); no chunk leaves after an
      unsafe one.
    - Tools: every tool run is recorded and the loop ends.
    - Accounting: an answered call settles its reservation at most once and leaves at
      most one record, and it is pinned when it does neither ([calls_are_accounted]);
      every tracked request leaves one attempt row; the budget counter is the exact sum of
      reservations and usage; limiter slots are given back except in two cases.
    - The chain: in every interleaving of the requests of many sessions, while the tracker
      evicts none of them and no write fails unnoticed, the written
      records form linked chains; those of a session without a failed write are
      accepted by [verify_chain], and [verify_chain] is
      valid exactly for such chains; the signed string determines the record's
      fields.
    - Durability: a pending row stays until it is acknowledged; the worker accounts
      for every row it takes off the queue and drains it when the sink accepts; the
      batch writer loses nothing while it runs; the router acknowledges only what
      the ledger confirmed.
    - Records: what the exchanges of a session hand to storage is a chain that the
      verifier accepts, whatever findings and coercions happen on the way
      ([exchanges_form_a_chain]); every exchange answered in one piece hands storage one
      row and one event per tool call under the identifier promised to the client
      ([answered_exchange_is_recorded]); rows survive the way to the ledger and back
      ([dual_write_fidelity], [signature_survives_ledger], [ledger_verdict_exact]); the
      reliability of a model accounts for its comparisons, which are fair.
    - Control plane: the store keeps its tables' keys and refines a map from keys to
      policy sets and tenants; every handler leaves the running gateway's caches in
      agreement with the store ([control_api_synced]), but the last content policy of an
      analyzer outlives its deletion ([last_policy_stays_in_force]); a revoked model is
      no longer attested from the next request on ([revocation_enforced]), until a
      request spells it with other spaces ([respelling_lifts_revocation]).
    - Classifiers: every verdict is accounted for ([verdicts_accounted]); the registry
      loses no model file ([registry_keeps_files]) and inferences use the production file
      ([reload_serves_production]); automatic promotion needs every safeguard
      ([promotion_is_gated]), but the validator can put the model it has rolled back into
      production again ([validator_restores_regression]).
    - Supervision: after a census the store holds exactly the sessions of the window,
      each with the verdict that holds of its chain ([census_is_exact]), whatever
      processes take part; a gateway that is not unready has its keys, closes its lineage
      paths when API keys are configured, and its newest long session is a chain ([serving_gateway_is_sound]); a report
      is fresh and says what its checks say ([report_is_current]).
    - Limits: the sliding window admits at most the limit in every interval, the
      per-IP table is bounded and a client cannot spoof its address; breakers keep
      their invariant and their probe budget, per model; retries are bounded.
    - Divergences: text between reasoning tags escapes governance, PII sanitization
      leaves the forwarded body alone, the response cache ignores all of a request but
      its text and its key is ambiguous, the generic adapter has blind spots, OpenAI
      events cut between chunks are not recorded, reservations of refused requests are
      kept, an outage locks a provider out, audit-only mode forgets the policies'
      verdict, conversations share a cached answer ([conversations_share_a_response]),
      usage in foreign names is free ([unmapped_usage_is_free]), a rejected row stays in
      the chain ([rejected_rows_stay_in_the_chain]), one finding overwrites another
      ([detector_overwrites_consistency]), a log that cannot be read passes the census
      ([unreadable_chain_is_forgotten]), no report is ever ready
      ([gateway_is_never_ready]), eviction or an ungated failure breaks a session's chain, and others,
      each a theorem about the code as it is.

    ** Bounds and fuel

    Loops over data are structural, and the retry and tool loops recurse on the
    attempts left.  Fuel appears in the [fnmatch] pattern parser and in the scan for
    reasoning blocks (the length of the text, of which every step consumes a
    character), in the event loop of the Anthropic translator (the length of its
    buffer) and in [_json_path] (the depth of the value); that more fuel changes
    nothing is [think_scan_more], [loop_fuel] and [path_fuel].

    ** What is not modelled

    HTTP itself, the inference and the training of machine-learned classifiers,
    read-only APIs, compliance documents and dashboards, metrics and logging, the probes
    of dependencies and directories, the connections page, attachments, alert delivery,
    the tool servers, start-up and shutdown.  Each file says what it leaves out of the
    code it models. *)
From stdpp Require Export base tactics numbers list gmap strings fin_maps sorting.
From Stdlib Require Export ZArith Lia.

Local Open Scope Z_scope.

(** ** Python's errors

    [res A] is the outcome of a call that may raise: the value or the
    exception that left the function. *)
Inductive exn :=
  | ValueError (msg : string)
  | TypeError (msg : string)
  | KeyError (msg : string)
  | IndexError (msg : string)
  | OverflowError (msg : string)
  | NameError (msg : string)
  | OtherError (msg : string).

Inductive res (A : Type) :=
  | Ok (a : A)
  | Raise (e : exn).
Arguments Ok {A} a.
Arguments Raise {A} e.

#[export] Instance exn_eq_dec : EqDecision exn.
Proof. solve_decision. Defined.
#[export] Instance res_eq_dec {A} `{EqDecision A} : EqDecision (res A).
Proof. solve_decision. Defined.

Definition res_bind {A B} (m : res A) (f : A -> res B) : res B :=
  match m with Ok a => f a | Raise e => Raise e end.

(** [try: m except Exception: h] *)
Definition res_catch {A} (m : res A) (h : exn -> res A) : res A :=
  match m with Ok a => Ok a | Raise e => h e end.

Definition is_ok {A} (m : res A) : bool :=
  match m with Ok _ => true | Raise _ => false end.

Declare Scope provn_scope.
Delimit Scope provn_scope with provn.
Notation "'let!' x := m 'in' k" := (res_bind m (fun x => k))
  (at level 10, x name, m at level 100, k at level 200) : provn_scope.
Notation "'let!' ' p := m 'in' k" := (res_bind m (fun x => match x with p => k end))
  (at level 10, p pattern, m at level 100, k at level 200) : provn_scope.
#[global] Open Scope provn_scope.

Lemma res_bind_ok {A B} (m : res A) (f : A -> res B) b :
  res_bind m f = Ok b <-> exists a, m = Ok a /\ f a = Ok b.
Proof. destruct m; simpl; naive_solver. Qed.

Lemma res_bind_assoc {A B C} (m : res A) (f : A -> res B) (g : B -> res C) :
  res_bind (res_bind m f) g = res_bind m (fun a => res_bind (f a) g).
Proof. by destruct m. Qed.

(** ** Time

    Clock readings and durations are integers counting nanoseconds, the
    resolution of Python's clocks; [seconds n] is [n] seconds. *)
Definition seconds (n : Z) : Z := n * 1000000000.

(** ** Automation *)

Create HintDb provn.
Create Rewrite HintDb provn.
#[export] Hint Resolve Z.le_refl Z.le_max_l Z.le_max_r Z.le_min_l Z.le_min_r : provn.

(** Split the matches and ifs of goal and context, simplify, and finish with
    linear arithmetic where that is enough. *)
Ltac crush_step :=
  match goal with
  | H : Some _ = Some _ |- _ => injection H as H
  | H : (_, _) = (_, _) |- _ => injection H as H
  | H : Ok _ = Ok _ |- _ => injection H as H
  | _ => progress simplify_eq/=
  | _ => case_match
  end.
Ltac crush := repeat crush_step; simplify_eq/=; try done; try lia.

(** Turn the boolean comparisons of the code into propositions. *)
Ltac zbool :=
  repeat match goal with
  | H : (_ <? _)%Z = true |- _ => apply Z.ltb_lt in H
  | H : (_ <? _)%Z = false |- _ => apply Z.ltb_ge in H
  | H : (_ <=? _)%Z = true |- _ => apply Z.leb_le in H
  | H : (_ <=? _)%Z = false |- _ => apply Z.leb_gt in H
  | H : (_ =? _)%Z = true |- _ => apply Z.eqb_eq in H
  | H : (_ =? _)%Z = false |- _ => apply Z.eqb_neq in H
  | H : negb _ = true |- _ => apply negb_true_iff in H
  | H : negb _ = false |- _ => apply negb_false_iff in H
  | H : _ && _ = true |- _ => apply andb_true_iff in H as [? ?]
  | H : _ || _ = false |- _ => apply orb_false_iff in H as [? ?]
  | H : bool_decide _ = true |- _ => apply bool_decide_eq_true in H
  | H : bool_decide _ = false |- _ => apply bool_decide_eq_false in H
  end.

(** ** Lists *)

(** Python's [len] *)
Definition zlen {A} (l : list A) : Z := Z.of_nat (length l).

Lemma zlen_nonneg {A} (l : list A) : 0 <= zlen l.
Proof. unfold zlen. lia. Qed.
#[export] Hint Resolve zlen_nonneg : provn.

Lemma zlen_app {A} (l k : list A) : zlen (l ++ k) = zlen l + zlen k.
Proof. unfold zlen. rewrite length_app. lia. Qed.

Lemma zlen_cons {A} (x : A) l : zlen (x :: l) = 1 + zlen l.
Proof. unfold zlen. simpl. lia. Qed.

Lemma zlen_snoc {A} (l : list A) x : zlen (l ++ [x]) = zlen l + 1.
Proof. unfold zlen. rewrite length_app. simpl. lia. Qed.

Lemma zlen_nil {A} : zlen (@nil A) = 0.
Proof. done. Qed.
#[export] Hint Rewrite @zlen_app @zlen_cons @zlen_nil : provn.

Lemma elem_filter {A} (f : A -> bool) l x : x ∈ List.filter f l <-> x ∈ l /\ f x = true.
Proof. rewrite !list_elem_of_In. apply List.filter_In. Qed.

(** ** Strings *)

Lemma str_length_app (a b : string) : String.length (a +:+ b) = (String.length a + String.length b)%nat.
Proof. induction a as [|x a IH]; simpl; [done|]. by rewrite IH. Qed.

(** Two concatenations with right parts of one length are equal part by part. *)
Lemma append_inj_r (a b c d : string) :
  String.length b = String.length d -> (a +:+ b = c +:+ d)%string -> a = c /\ b = d.
Proof.
  intros Hl. revert c. induction a as [|x a IH]; intros [|y c] Heq; simpl in *.
  - done.
  - apply (f_equal String.length) in Heq. rewrite !str_length_app in Heq. simpl in Heq. lia.
  - apply (f_equal String.length) in Heq. rewrite !str_length_app in Heq. simpl in Heq. lia.
  - injection Heq as -> Heq. by destruct (IH c Heq) as [-> ->].
Qed.

(** ** Sorting *)

(** A stable sort, as Python's and (on a rowid table) SQLite's. *)
Section isort.
Context {A : Type} (le : A -> A -> bool).

Fixpoint sinsert (x : A) (l : list A) : list A :=
  match l with
  | [] => [x]
  | y :: l' => if le x y then x :: l else y :: sinsert x l'
  end.
Definition isort (l : list A) : list A := foldr sinsert [] l.

Inductive ordered : list A -> Prop :=
  | ordered_nil : ordered []
  | ordered_cons x l : (forall y, y ∈ l -> le x y = true) -> ordered l -> ordered (x :: l).

Lemma isort_id l : ordered l -> isort l = l.
Proof.
  induction 1 as [|x l Hx Hl IH]; [done|]. simpl. fold (isort l). rewrite IH.
  destruct l as [|y l]; [done|]. simpl. by rewrite Hx by left.
Qed.

Lemma sinsert_perm x l : sinsert x l ≡ₚ x :: l.
Proof. induction l as [|y l IH]; simpl; [done|]. case_match; [done|]. rewrite IH. constructor. Qed.

Lemma isort_perm l : isort l ≡ₚ l.
Proof. induction l as [|x l IH]; simpl; [done|]. fold (isort l). by rewrite sinsert_perm, IH. Qed.

(** [ordered] as a test *)
Fixpoint orderedb (l : list A) : bool :=
  match l with [] => true | x :: l => forallb (le x) l && orderedb l end.

Lemma orderedb_ok l : orderedb l = true -> ordered l.
Proof.
  induction l as [|x l IH]; simpl; constructor; zbool; [|auto].
  intros y Hy. eapply forallb_forall; [done|]. by apply list_elem_of_In.
Qed.

Hypothesis total : forall x y, le x y = false -> le y x = true.
Hypothesis trans : forall x y z, le x y = true -> le y z = true -> le x z = true.

Lemma sinsert_ordered x l : ordered l -> ordered (sinsert x l).
Proof.
  induction 1 as [|y l Hy Hl IH]; simpl; [constructor; [by intros ? ?%not_elem_of_nil|constructor]|].
  destruct (le x y) eqn:Hxy.
  - constructor; [|by constructor]. intros z [->|Hz]%elem_of_cons; [done|]. eauto.
  - constructor; [|done]. intros z Hz. rewrite sinsert_perm in Hz.
    apply elem_of_cons in Hz as [->|Hz]; auto.
Qed.

Lemma isort_ordered l : ordered (isort l).
Proof. induction l; simpl; [constructor|]. by apply sinsert_ordered. Qed.

(** Sorting commutes with filtering. *)
Lemma sinsert_filter f x l :
  ordered l ->
  List.filter f (sinsert x l) = if f x then sinsert x (List.filter f l) else List.filter f l.
Proof.
  induction 1 as [|y l Hy Hl IH]; simpl; [by destruct (f x)|].
  destruct (le x y) eqn:Hxy; simpl.
  - destruct (f x) eqn:Hx; [|done]. destruct (f y) eqn:Hfy; simpl; [by rewrite Hxy|].
    assert (forall z, z ∈ l -> le x z = true) as Hz by eauto. clear -Hz.
    induction l as [|z l IH]; simpl; [done|]. destruct (f z) eqn:Hf; simpl.
    + by rewrite Hz by left.
    + apply IH. intros; apply Hz; by right.
  - rewrite IH. destruct (f x), (f y) eqn:Hfy; simpl; rewrite ?Hxy; done.
Qed.

Lemma isort_filter f l : isort (List.filter f l) = List.filter f (isort l).
Proof.
  induction l as [|x l IH]; simpl; [done|]. fold (isort l).
  rewrite sinsert_filter by apply isort_ordered. rewrite <- IH. by destruct (f x).
Qed.
End isort.

Lemma ordered_map {A B} (le : B -> B -> bool) (f : A -> B) (l : list A) :
  ordered (fun x y => le (f x) (f y)) l -> ordered le (map f l).
Proof.
  induction 1 as [|x l Hx Hl IH]; simpl; constructor; [|done].
  intros y (z & -> & Hz)%list_elem_of_fmap. auto.
Qed.
