(* ===== verification/ODict.v ===== *)
(** * Insertion-ordered dictionaries

  Python's [dict] and [collections.OrderedDict]: an association list with
  the oldest key first.  Assignment to a present key keeps its position,
  assignment to a new key appends, [move_to_end] and [popitem(last=False)]
  are the LRU operations the rate limiters and session trackers use. *)
From S2P Require Import Prelude.

Local Open Scope Z_scope.

Section odict.
Context {K V : Type} `{EqDecision K}.
Implicit Types (d : list (K * V)) (k : K) (v : V).

(** [d.get(k)] *)
Fixpoint od_get k d : option V :=
  match d with
  | [] => None
  | (k', v) :: d' => if decide (k = k') then Some v else od_get k d'
  end.

(** [d[k] = v] *)
Fixpoint od_set k v d : list (K * V) :=
  match d with
  | [] => [(k, v)]
  | (k', v') :: d' =>
      if decide (k = k') then (k, v) :: d' else (k', v') :: od_set k v d'
  end.

(** [d.pop(k, None)], the dictionary that is left *)
Fixpoint od_del k d : list (K * V) :=
  match d with
  | [] => []
  | (k', v') :: d' => if decide (k = k') then d' else (k', v') :: od_del k d'
  end.

(** [d.move_to_end(k)]; Python raises [KeyError] when [k] is absent, the
    callers only move a key they have just assigned. *)
Definition od_move_to_end k d : list (K * V) :=
  match od_get k d with
  | Some v => od_del k d ++ [(k, v)]
  | None => d
  end.

(** [while len(d) > max: d.popitem(last=False)] *)
Fixpoint od_trim (max : Z) d : list (K * V) :=
  match d with
  | [] => []
  | _ :: d' => if decide (max < zlen d) then od_trim max d' else d
  end.

Definition od_keys d : list K := d.*1.

Definition od_wf d : Prop := NoDup (od_keys d).

Lemma od_get_set_eq k v d : od_get k (od_set k v d) = Some v.
Proof. induction d as [|[k' v'] d IH]; simpl; repeat (case_decide; simpl); congruence. Qed.

Lemma od_get_set_ne k k' v d : k <> k' -> od_get k' (od_set k v d) = od_get k' d.
Proof.
  intros Hne. induction d as [|[k0 v0] d IH]; simpl; repeat (case_decide; simpl); congruence.
Qed.

Lemma od_get_del_ne k k' d : k <> k' -> od_get k' (od_del k d) = od_get k' d.
Proof.
  intros Hne. induction d as [|[k0 v0] d IH]; simpl; repeat (case_decide; simpl); congruence.
Qed.

Lemma od_get_None k d : od_get k d = None <-> k ∉ od_keys d.
Proof.
  induction d as [|[k0 v0] d IH]; simpl; [set_solver|].
  rewrite not_elem_of_cons. case_decide; naive_solver.
Qed.

Lemma od_get_Some_elem k v d : od_get k d = Some v -> (k, v) ∈ d.
Proof.
  induction d as [|[k0 v0] d IH]; simpl; [done|].
  case_decide; intros; simplify_eq; set_solver.
Qed.

Lemma od_get_key k v d : od_get k d = Some v -> k ∈ od_keys d.
Proof. intros H%od_get_Some_elem. apply list_elem_of_fmap. by exists (k, v). Qed.

Lemma od_elem_get k v d : od_wf d -> (k, v) ∈ d -> od_get k d = Some v.
Proof.
  unfold od_wf. induction d as [|[k0 v0] d IH]; simpl; [set_solver|].
  rewrite NoDup_cons, elem_of_cons. intros [Hnin Hnd] [Heq|Hin]; simplify_eq.
  - by rewrite decide_True.
  - rewrite decide_False; [auto|]. intros ->. apply Hnin, list_elem_of_fmap. by exists (k0, v).
Qed.

Lemma od_get_app k d1 d2 :
  od_get k (d1 ++ d2) = match od_get k d1 with Some v => Some v | None => od_get k d2 end.
Proof. induction d1 as [|[k0 v0] d IH]; simpl; [done|]. by case_decide. Qed.

Lemma od_keys_set_old k v d : k ∈ od_keys d -> od_keys (od_set k v d) = od_keys d.
Proof.
  induction d as [|[k0 v0] d IH]; simpl; [set_solver|].
  case_decide; simpl; [congruence|]. intros Hin. f_equal. apply IH. set_solver.
Qed.

Lemma od_keys_set_new k v d : k ∉ od_keys d -> od_keys (od_set k v d) = od_keys d ++ [k].
Proof.
  induction d as [|[k0 v0] d IH]; simpl; [done|].
  rewrite not_elem_of_cons. intros [Hne Hin]. rewrite decide_False by done. simpl. by rewrite IH.
Qed.

Lemma od_set_new k v d : k ∉ od_keys d -> od_set k v d = d ++ [(k, v)].
Proof.
  induction d as [|[k0 v0] d IH]; simpl; [done|].
  rewrite not_elem_of_cons. intros [Hne Hin]. rewrite decide_False by done. by rewrite IH.
Qed.

Lemma od_set_keys_elem k v d k' :
  k' ∈ od_keys (od_set k v d) <-> k' = k \/ k' ∈ od_keys d.
Proof.
  destruct (decide (k ∈ od_keys d)) as [Hin|Hnin].
  - rewrite od_keys_set_old by done. naive_solver.
  - rewrite od_keys_set_new by done. set_solver.
Qed.

Lemma od_set_elem k v d p : p ∈ od_set k v d -> p = (k, v) \/ p ∈ d.
Proof.
  induction d as [|[k0 v0] d IH]; simpl; [set_solver|].
  case_decide; rewrite !elem_of_cons; naive_solver.
Qed.

Lemma od_wf_set k v d : od_wf d -> od_wf (od_set k v d).
Proof.
  unfold od_wf. intros Hwf. destruct (decide (k ∈ od_keys d)) as [Hin|Hnin].
  - by rewrite od_keys_set_old.
  - rewrite od_keys_set_new by done. apply NoDup_app. split; [done|].
    split; [set_solver|apply NoDup_singleton].
Qed.

Lemma od_del_sublist k d : od_del k d `sublist_of` d.
Proof.
  induction d as [|[k0 v0] d IH]; simpl; [constructor|].
  case_decide; [by apply sublist_cons|by apply sublist_skip].
Qed.

Lemma od_keys_sublist d1 d2 : d1 `sublist_of` d2 -> od_keys d1 `sublist_of` od_keys d2.
Proof. induction 1; simpl; by constructor. Qed.

Lemma od_wf_sublist d1 d2 : d1 `sublist_of` d2 -> od_wf d2 -> od_wf d1.
Proof. intros Hs%od_keys_sublist Hnd. by eapply sublist_NoDup. Qed.

Lemma od_wf_del k d : od_wf d -> od_wf (od_del k d).
Proof. apply od_wf_sublist, od_del_sublist. Qed.

Lemma od_del_not_key k d : od_wf d -> k ∉ od_keys (od_del k d).
Proof.
  unfold od_wf. induction d as [|[k0 v0] d IH]; simpl; [set_solver|].
  rewrite NoDup_cons. intros [Hnin Hnd]. case_decide; simpl; [congruence|].
  specialize (IH Hnd). set_solver.
Qed.

Lemma od_get_del_eq k d : od_wf d -> od_get k (od_del k d) = None.
Proof. intros. by apply od_get_None, od_del_not_key. Qed.

Lemma od_del_length k d : k ∈ od_keys d -> length d = S (length (od_del k d)).
Proof.
  induction d as [|[k0 v0] d IH]; simpl; [set_solver|].
  case_decide; simpl; [done|]. intros Hin. rewrite <- IH; [done|set_solver].
Qed.

Lemma od_wf_move k d : od_wf d -> od_wf (od_move_to_end k d).
Proof.
  intros Hwf. unfold od_move_to_end. destruct (od_get k d) as [v|]; [|done].
  unfold od_wf, od_keys. rewrite fmap_app. apply NoDup_app. split; [by apply od_wf_del|].
  split; [|apply NoDup_singleton].
  intros k' Hin Hk. apply list_elem_of_singleton in Hk. simpl in Hk. subst k'.
  by apply (od_del_not_key k d).
Qed.

Lemma od_get_move k k' d : od_wf d -> od_get k' (od_move_to_end k d) = od_get k' d.
Proof.
  intros Hwf. unfold od_move_to_end. destruct (od_get k d) as [v|] eqn:Hk; [|done].
  rewrite od_get_app. simpl. destruct (decide (k = k')) as [->|Hne].
  - rewrite od_get_del_eq, decide_True; auto.
  - rewrite od_get_del_ne, decide_False by auto. by destruct (od_get k' d).
Qed.

Lemma od_move_length k d : length (od_move_to_end k d) = length d.
Proof.
  unfold od_move_to_end. destruct (od_get k d) eqn:Hk; [|done].
  rewrite length_app, (od_del_length k d); [simpl; lia|by eapply od_get_key].
Qed.

Lemma od_move_keys_elem k k' d : k' ∈ od_keys (od_move_to_end k d) <-> k' ∈ od_keys d.
Proof.
  unfold od_move_to_end. destruct (od_get k d) eqn:Hk; [|done].
  unfold od_keys at 1. rewrite fmap_app, elem_of_app. simpl. rewrite list_elem_of_singleton.
  assert (k ∈ od_keys d) as Hin by by eapply od_get_key.
  split.
  - intros [H| ->]; [|done]. by eapply elem_of_sublist, od_keys_sublist, od_del_sublist.
  - intros H. destruct (decide (k' = k)) as [->|Hne]; [by right|left].
    clear -H Hne. induction d as [|[k0 v0] d IH]; simpl in *; [done|].
    case_decide; set_solver.
Qed.

Lemma od_trim_suffix max d : exists l, d = l ++ od_trim max d.
Proof.
  induction d as [|x d [l IH]]; simpl; [by exists []|].
  case_decide; [exists (x :: l); simpl; congruence|by exists []].
Qed.

Lemma od_trim_sublist max d : od_trim max d `sublist_of` d.
Proof. destruct (od_trim_suffix max d) as [l Hl]. rewrite Hl at 2. by apply sublist_inserts_l. Qed.

Lemma od_wf_trim max d : od_wf d -> od_wf (od_trim max d).
Proof. apply od_wf_sublist, od_trim_sublist. Qed.

Lemma od_trim_le max d : 0 <= max -> zlen (od_trim max d) <= max.
Proof.
  intros Hmax. induction d as [|x d IH]; simpl; [by rewrite zlen_nil|].
  case_decide; [done|lia].
Qed.

Lemma od_trim_id max d : zlen d <= max -> od_trim max d = d.
Proof. destruct d; simpl; [done|]. intros. rewrite decide_False by lia. done. Qed.

(** Exactly the newest [max] entries survive. *)
Lemma od_trim_drop max d :
  0 <= max -> od_trim max d = drop (Z.to_nat (zlen d - max)) d.
Proof.
  intros Hmax. induction d as [|x d IH]; simpl.
  - by rewrite drop_nil.
  - case_decide as Hd.
    + rewrite IH. rewrite zlen_cons in *.
      replace (Z.to_nat (1 + zlen d - max)) with (S (Z.to_nat (zlen d - max))) by lia. done.
    + replace (Z.to_nat (zlen (x :: d) - max)) with 0%nat by lia. done.
Qed.

Lemma od_get_trim_Some max k v d : od_wf d -> od_get k (od_trim max d) = Some v -> od_get k d = Some v.
Proof.
  intros Hwf Hg. apply od_elem_get; [done|].
  apply od_get_Some_elem in Hg. by eapply elem_of_sublist, od_trim_sublist.
Qed.

(** ** Rewriting dictionaries *)

Lemma od_set_id k v d : od_get k d = Some v -> od_set k v d = d.
Proof. induction d as [|[k' v'] d IH]; simpl; [done|]. case_decide; [naive_solver|]. intros. by rewrite IH. Qed.

Lemma od_set_set k v w d : od_set k v (od_set k w d) = od_set k v d.
Proof.
  induction d as [|[k' v'] d IH]; simpl; [by rewrite decide_True|].
  case_decide; simpl; [by rewrite decide_True|]. by rewrite decide_False, IH.
Qed.

Lemma od_del_set k v d : od_del k (od_set k v d) = od_del k d.
Proof.
  induction d as [|[k' v'] d IH]; simpl; [by rewrite decide_True|].
  case_decide; simpl; [by rewrite decide_True|]. by rewrite decide_False, IH.
Qed.

Lemma od_del_none k d : od_get k d = None -> od_del k d = d.
Proof. induction d as [|[k' v'] d IH]; simpl; [done|]. case_decide; [done|]. intros. by rewrite IH. Qed.

(** A key that is there keeps its place. *)
Lemma od_set_comm k v k' v' d :
  k <> k' -> k ∈ od_keys d -> od_set k v (od_set k' v' d) = od_set k' v' (od_set k v d).
Proof.
  intros Hne. induction d as [|[j w] d IH]; simpl; [by intros []%not_elem_of_nil|]. intros Hin.
  destruct (decide (k' = j)) as [->|], (decide (k = j)) as [->|]; simpl.
  - done.
  - by rewrite decide_False, decide_True.
  - rewrite decide_True, decide_False by done. done.
  - rewrite !decide_False by done. f_equal. apply IH. apply elem_of_cons in Hin as [?|Hin]; done.
Qed.

Lemma od_del_set_comm k k' v d : k <> k' -> od_del k (od_set k' v d) = od_set k' v (od_del k d).
Proof.
  intros Hne. induction d as [|[j w] d IH]; simpl; [by rewrite decide_False|].
  destruct (decide (k' = j)) as [->|Hj]; simpl.
  - rewrite !decide_False by done. simpl. by rewrite decide_True.
  - destruct (decide (k = j)) as [->|Hk]; simpl; [done|]. by rewrite decide_False, IH.
Qed.

Lemma od_get_filter f k v d : od_get k d = Some v -> f (k, v) = true -> od_get k (List.filter f d) = Some v.
Proof.
  induction d as [|[j w] d IH]; simpl; [done|]. case_decide as Hk; intros Hg Hf.
  - simplify_eq. rewrite Hf. simpl. by rewrite decide_True.
  - specialize (IH Hg Hf). destruct (f (j, w)); simpl; [by rewrite decide_False|done].
Qed.

Lemma od_get_filter_out f k d : (forall v, f (k, v) = false) -> od_get k (List.filter f d) = None.
Proof.
  intros Hf. induction d as [|[j w] d IH]; simpl; [done|]. destruct (f (j, w)) eqn:Hj; [|done].
  simpl. case_decide; [|done]. subst. by rewrite Hf in Hj.
Qed.
End odict.

#[export] Hint Resolve od_wf_set od_wf_del od_wf_move od_wf_trim : provn.
#[export] Hint Rewrite @od_get_set_eq : provn.
