(* ===== verification/PyVal.v ===== *)
(** * The Python values and string operations the gateway uses

    JSON-like values ([pyval]), [str()] and [repr()], truthiness, [==],
    [float()], and the [str] methods [lower], [strip], [split], [startswith]
    and [in].  A Python string is a Rocq [string] of ASCII characters.  A
    float is its IEEE 754 double ([spec_float] with 53 bits of precision)
    together with the text [repr] prints for it, so that [str] of a float
    needs no shortest-digits printer.  [fnmatch] is modelled in full. *)
From Stdlib Require Export Ascii.
From Stdlib Require Import SpecFloat DecimalString DecimalZ.
From S2P Require Import Prelude ODict.

Local Open Scope Z_scope.

(** ** Characters and strings *)

Definition code (c : ascii) : Z := Z.of_N (Ascii.N_of_ascii c).

Definition is_digit (c : ascii) : bool := (48 <=? code c) && (code c <=? 57).

Definition ascii_lower (c : ascii) : ascii :=
  if (65 <=? code c) && (code c <=? 90) then Ascii.ascii_of_N (Z.to_N (code c + 32)) else c.

Fixpoint smap (f : ascii -> ascii) (s : string) : string :=
  match s with
  | EmptyString => EmptyString
  | String c s => String (f c) (smap f s)
  end.

(** [s.lower()] *)
Definition lower (s : string) : string := smap ascii_lower s.

(** [str.isspace] on ASCII *)
Definition is_space (c : ascii) : bool :=
  ((9 <=? code c) && (code c <=? 13)) || ((28 <=? code c) && (code c <=? 32)).

Fixpoint lstrip (s : string) : string :=
  match s with
  | String c s' => if is_space c then lstrip s' else s
  | EmptyString => EmptyString
  end.

Fixpoint srev_app (s acc : string) : string :=
  match s with EmptyString => acc | String c s => srev_app s (String c acc) end.
Definition srev (s : string) : string := srev_app s EmptyString.

(** [s.strip()] *)
Definition strip (s : string) : string := srev (lstrip (srev (lstrip s))).

(** [s.startswith(p)] *)
Fixpoint startswith (p s : string) : bool :=
  match p, s with
  | EmptyString, _ => true
  | String a p, String b s => Ascii.eqb a b && startswith p s
  | String _ _, EmptyString => false
  end.

(** [sub in s] *)
Fixpoint contains (sub s : string) : bool :=
  startswith sub s || match s with EmptyString => false | String _ s => contains sub s end.

(** [s.endswith(p)] *)
Definition endswith (p s : string) : bool := startswith (srev p) (srev s).

(** [s.split(c)] for a one-character separator *)
Fixpoint split_on (c : ascii) (s : string) : list string :=
  match s with
  | EmptyString => [EmptyString]
  | String a s =>
      match split_on c s with
      | w :: ws => if Ascii.eqb a c then EmptyString :: w :: ws else String a w :: ws
      | [] => [String a EmptyString]
      end
  end.

(** [c.join(l)] *)
Definition sjoin (sep : string) (l : list string) : string := String.concat sep l.

(** [s.rstrip("/")] *)
Fixpoint lstrip_slash (s : string) : string :=
  match s with
  | String c s' => if Ascii.eqb c "/"%char then lstrip_slash s' else s
  | EmptyString => EmptyString
  end.
Definition rstrip_slash (s : string) : string := srev (lstrip_slash (srev s)).

(** Characters of a string *)
Definition char_in (c : ascii) (s : string) : bool := existsb (Ascii.eqb c) (String.list_ascii_of_string s).

Definition bar : ascii := "|"%char.
Definition slash : ascii := "/"%char.

(** [str(n)] of an integer *)
Definition z_str (z : Z) : string := NilEmpty.string_of_int (Z.to_int z).

Lemma z_str_inj (a b : Z) : z_str a = z_str b -> a = b.
Proof.
  unfold z_str. intros H.
  assert (NilEmpty.int_of_string (NilEmpty.string_of_int (Z.to_int a)) =
          NilEmpty.int_of_string (NilEmpty.string_of_int (Z.to_int b))) as H' by congruence.
  rewrite !NilEmpty.isi in H'. injection H' as H'.
  by rewrite <- (DecimalZ.of_to a), <- (DecimalZ.of_to b), H'.
Qed.

Lemma z_str_no_bar (z : Z) : char_in bar (z_str z) = false.
Proof.
  assert (forall u, char_in bar (NilEmpty.string_of_uint u) = false) as Hu.
  { induction u; simpl; try done. }
  unfold z_str, NilEmpty.string_of_int. destruct (Z.to_int z) as [u|u]; [apply Hu|].
  unfold char_in in *. simpl. apply Hu.
Qed.

Lemma contains_refl (s : string) : contains s s = true.
Proof.
  assert (forall s, startswith s s = true) as Hs.
  { clear s. induction s as [|a s IH]; simpl; [done|]. rewrite IH. by rewrite Ascii.eqb_refl. }
  destruct s as [|a s]; [done|]. unfold contains; fold contains.
  rewrite Hs. done.
Qed.

Lemma lower_idem (s : string) : lower (lower s) = lower s.
Proof.
  unfold lower. induction s as [|a s IH]; simpl; [done|]. rewrite IH. f_equal.
  by destruct a as [[] [] [] [] [] [] [] []]; vm_compute.
Qed.

(** ** Doubles *)

Abbreviation prec := 53%Z.
Abbreviation emax := 1024%Z.

(** The double nearest to [m * 10 ^ e] (ties to even), [neg] its sign. *)
Definition sf_of_decimal (neg : bool) (m e : Z) : spec_float :=
  match m with
  | Zpos p =>
      if 0 <=? e then
        match Zpos p * 10 ^ e with
        | Zpos q => SFdiv prec emax (S754_finite neg q 0) (S754_finite false 1 0)
        | _ => S754_zero neg
        end
      else
        match 10 ^ (- e) with
        | Zpos q => SFdiv prec emax (S754_finite neg p 0) (S754_finite false q 0)
        | _ => S754_zero neg
        end
  | _ => S754_zero neg
  end.

Definition sf_of_Z (z : Z) : spec_float := sf_of_decimal (z <? 0) (Z.abs z) 0.

(** [a / b] of two Python integers: the double nearest to the quotient. *)
Definition py_truediv (a b : Z) : res spec_float :=
  match Z.abs a, Z.abs b with
  | _, Z0 => Raise (OtherError "ZeroDivisionError")
  | Zpos p, Zpos q =>
      match SFdiv prec emax (S754_finite (a <? 0) p 0) (S754_finite (b <? 0) q 0) with
      | S754_infinity _ => Raise (OverflowError "integer division result too large for a float")
      | f => Ok f
      end
  | _, _ => Ok (S754_zero (b <? 0))
  end.

(** Comparison of a double with an integer, exact as in Python. *)
Definition sf_compare_Z (f : spec_float) (z : Z) : option comparison :=
  match f with
  | S754_zero _ => Some (0 ?= z)
  | S754_infinity false => Some Gt
  | S754_infinity true => Some Lt
  | S754_nan => None
  | S754_finite s m e =>
      let m := if s then Zneg m else Zpos m in
      Some (if 0 <=? e then m * 2 ^ e ?= z else m ?= z * 2 ^ (- e))
  end.

(** ** Values *)

Inductive pyval :=
  | PNone
  | PBool (b : bool)
  | PInt (z : Z)
  | PFloat (f : spec_float) (repr : string)
  | PStr (s : string)
  | PList (l : list pyval)
  | PDict (d : list (string * pyval))
  | PRedacted (s : string).

Abbreviation dict := (list (string * pyval)).

(** [d.get(k)] *)
Definition dget (k : string) (d : dict) : pyval := default PNone (od_get k d).

(** [d.get(k, v)] *)
Definition dget_or (k : string) (v : pyval) (d : dict) : pyval := default v (od_get k d).

(** [bool(v)].  A [RedactedString] has [__len__]. *)
Definition truthy (v : pyval) : bool :=
  match v with
  | PNone => false
  | PBool b => b
  | PInt z => negb (z =? 0)
  | PFloat (S754_zero _) _ => false
  | PFloat _ _ => true
  | PStr s | PRedacted s => match s with EmptyString => false | _ => true end
  | PList l => match l with [] => false | _ => true end
  | PDict d => match d with [] => false | _ => true end
  end.

(** [a or b] *)
Definition por (a b : pyval) : pyval := if truthy a then a else b.

Definition quote1 : string := String (Ascii.ascii_of_N 39) EmptyString.
Definition quote2 : string := String (Ascii.ascii_of_N 34) EmptyString.
Definition backslash : string := String (Ascii.ascii_of_N 92) EmptyString.

Definition hex_digit (n : Z) : string :=
  match String.get (Z.to_nat n) "0123456789abcdef" with
  | Some c => String c EmptyString
  | None => EmptyString
  end.

(** One character inside [repr] with the quote [q]. *)
Definition repr_char (q : string) (c : ascii) : string :=
  let s := String c EmptyString in
  if bool_decide (s = q) || bool_decide (s = backslash) then (backslash +:+ s)%string
  else if code c =? 10 then (backslash +:+ "n")%string
  else if code c =? 13 then (backslash +:+ "r")%string
  else if code c =? 9 then (backslash +:+ "t")%string
  else if (code c <? 32) || (code c =? 127)
  then (backslash +:+ "x" +:+ hex_digit (code c / 16) +:+ hex_digit (code c mod 16))%string
  else s.

Fixpoint sconcat_map (f : ascii -> string) (s : string) : string :=
  match s with EmptyString => EmptyString | String c s => (f c +:+ sconcat_map f s)%string end.

(** [repr] of a string: single quotes unless it holds one and no double quote. *)
Definition str_repr (s : string) : string :=
  let q := if contains quote1 s && negb (contains quote2 s) then quote2 else quote1 in
  (q +:+ sconcat_map (repr_char q) s +:+ q)%string.

(** [repr(v)] *)
Fixpoint py_repr (v : pyval) : string :=
  match v with
  | PNone => "None"
  | PBool true => "True"
  | PBool false => "False"
  | PInt z => z_str z
  | PFloat _ r => r
  | PStr s => str_repr s
  | PList l => ("[" +:+ sjoin ", " (map py_repr l) +:+ "]")%string
  | PDict d =>
      ("{" +:+ sjoin ", " (map (fun kv => str_repr (fst kv) +:+ ": " +:+ py_repr (snd kv)) d)
       +:+ "}")%string
  | PRedacted _ => "RedactedString([REDACTED])"
  end.

(** [str(v)] *)
Definition py_str (v : pyval) : string :=
  match v with
  | PStr s => s
  | PRedacted _ => "[REDACTED]"
  | v => py_repr v
  end.

(** [a == b].  [RedactedString] objects are equal only to themselves, which
    the code never asks. *)
Fixpoint py_eqb (a b : pyval) : bool :=
  let num v := match v with PBool b => Some (if b then 1 else 0) | PInt z => Some z | _ => None end in
  match a, b with
  | PNone, PNone => true
  | PStr s, PStr t => bool_decide (s = t)
  | PFloat f _, PFloat g _ => SFeqb f g
  | PFloat f _, v | v, PFloat f _ =>
      match num v with
      | Some z => match sf_compare_Z f z with Some Eq => true | _ => false end
      | None => false
      end
  | PList l, PList m =>
      (fix go l m := match l, m with
                     | [], [] => true
                     | x :: l, y :: m => py_eqb x y && go l m
                     | _, _ => false
                     end) l m
  | PDict d, PDict e =>
      (length d =? length e)%nat &&
      (fix go d := match d with
                   | [] => true
                   | (k, x) :: d => match od_get k e with
                                    | Some y => py_eqb x y && go d
                                    | None => false
                                    end
                   end) d
  | v, w => match num v, num w with Some x, Some y => x =? y | _, _ => false end
  end.

(** ** [float()] *)

Fixpoint digits (acc : Z) (n : nat) (s : string) : Z * nat * string :=
  match s with
  | EmptyString => (acc, n, s)
  | String c s' =>
      if is_digit c then digits (acc * 10 + (code c - 48)) (S n) s'
      else if bool_decide (c = "_"%char) && (0 <? n)%nat then
        match s' with
        | String d _ => if is_digit d then digits acc n s' else (acc, n, s)
        | EmptyString => (acc, n, s)
        end
      else (acc, n, s)
  end.

Definition sign_of (s : string) : bool * string :=
  match s with
  | String c s' => if bool_decide (c = "-"%char) then (true, s')
                   else if bool_decide (c = "+"%char) then (false, s') else (false, s)
  | EmptyString => (false, s)
  end.

(** A decimal literal after its sign *)
Definition parse_decimal (neg : bool) (s : string) : option spec_float :=
  let '(ip, ni, s) := digits 0 0 s in
  let '(fp, nf, s) := match s with
                      | String c s' => if bool_decide (c = "."%char)
                                       then digits 0 0 s' else (0, 0%nat, s)
                      | EmptyString => (0, 0%nat, s)
                      end in
  if (ni + nf =? 0)%nat then None else
  let m := ip * 10 ^ Z.of_nat nf + fp in
  match s with
  | EmptyString => Some (sf_of_decimal neg m (- Z.of_nat nf))
  | String c s =>
      if bool_decide (ascii_lower c = "e"%char) then
        let '(eneg, s) := sign_of s in
        let '(e, ne, s) := digits 0 0 s in
        if (ne =? 0)%nat then None else
        match s with
        | EmptyString => Some (sf_of_decimal neg m ((if eneg then - e else e) - Z.of_nat nf))
        | _ => None
        end
      else None
  end.

Definition parse_float (s : string) : option spec_float :=
  let '(neg, s) := sign_of (strip s) in
  if bool_decide (lower s = "inf") || bool_decide (lower s = "infinity") then
    Some (S754_infinity neg)
  else if bool_decide (lower s = "nan") then Some S754_nan
  else parse_decimal neg s.

(** [float(v)] *)
Definition py_float (v : pyval) : res spec_float :=
  match v with
  | PFloat f _ => Ok f
  | PInt z => match sf_of_Z z with
              | S754_infinity _ => Raise (OverflowError "int too large to convert to float")
              | f => Ok f
              end
  | PBool b => Ok (sf_of_Z (if b then 1 else 0))
  | PStr s => match parse_float s with
              | Some f => Ok f
              | None => Raise (ValueError "could not convert string to float")
              end
  | PNone | PList _ | PDict _ | PRedacted _ => Raise (TypeError "float() argument")
  end.

(** ** [fnmatch.fnmatch] on POSIX

    [*], [?], [[seq]] and [[!seq]], compared without case folding. *)

(** The members of a bracket expression: [a-z] is a range. *)
Fixpoint set_member (c : ascii) (l : list ascii) : bool :=
  match l with
  | a :: ((d :: b :: l') as r) =>
      if bool_decide (d = "-"%char) then
        ((code a <=? code c) && (code c <=? code b)) || set_member c l'
      else Ascii.eqb a c || set_member c r
  | a :: l' => Ascii.eqb a c || set_member c l'
  | [] => false
  end.

(** The text up to the closing bracket; a [ ] ] in first place is a member. *)
Fixpoint bracket_body (first : bool) (p : list ascii) : option (list ascii * list ascii) :=
  match p with
  | [] => None
  | c :: p =>
      if bool_decide (c = "]"%char) && negb first then Some ([], p)
      else match bracket_body false p with
           | Some (b, r) => Some (c :: b, r)
           | None => None
           end
  end.

Inductive pat_item := PStar | PAny | PChar (c : ascii) | PSet (neg : bool) (l : list ascii).

(** The pattern as a list of items; an unclosed bracket is a literal. *)
Fixpoint parse_pat (fuel : nat) (p : list ascii) : list pat_item :=
  match fuel, p with
  | S fuel, c :: p =>
      if bool_decide (c = "*"%char) then PStar :: parse_pat fuel p
      else if bool_decide (c = "?"%char) then PAny :: parse_pat fuel p
      else if bool_decide (c = "["%char) then
        let '(neg, q) := match p with
                         | d :: q => if bool_decide (d = "!"%char) then (true, q) else (false, p)
                         | [] => (false, p)
                         end in
        match bracket_body true q with
        | Some (b, r) => PSet neg b :: parse_pat fuel r
        | None => PChar c :: parse_pat fuel p
        end
      else PChar c :: parse_pat fuel p
  | _, _ => []
  end.

Definition item_match (i : pat_item) (c : ascii) : bool :=
  match i with
  | PStar | PAny => true
  | PChar d => Ascii.eqb d c
  | PSet neg l => xorb neg (set_member c l)
  end.

Fixpoint pat_match (p : list pat_item) (s : list ascii) {struct p} : bool :=
  match p with
  | [] => match s with [] => true | _ => false end
  | PStar :: p =>
      (fix star s := pat_match p s || match s with [] => false | _ :: s => star s end) s
  | i :: p => match s with c :: s => item_match i c && pat_match p s | [] => false end
  end.

(** [fnmatch(name, pat)] *)
Definition fnmatch (name pat : string) : bool :=
  let p := String.list_ascii_of_string pat in
  pat_match (parse_pat (length p) p) (String.list_ascii_of_string name).

Example fnmatch_star : fnmatch "qwen3:4b" "qwen3:*" = true. Proof. reflexivity. Qed.
Example fnmatch_set : fnmatch "gpt-4" "gpt-[3-5]" = true. Proof. reflexivity. Qed.
Example fnmatch_neg : fnmatch "gpt-4" "gpt-[!4]" = false. Proof. reflexivity. Qed.
Example strip_ex : strip "  a b " = "a b". Proof. reflexivity. Qed.
Example repr_ex : py_repr (PList [PStr "a"; PInt (-3); PBool true]) = "['a', -3, True]".
Proof. reflexivity. Qed.
Example float_ex : py_float (PStr " 1_0.5e1 ") = py_float (PInt 105). Proof. vm_compute. reflexivity. Qed.
Example float_pct : exists f, py_truediv 29 100 = Ok f /\
  sf_compare_Z (SFmul prec emax f (sf_of_Z 100)) 29 = Some Lt.
Proof. eexists. split; vm_compute; reflexivity. Qed.

(** ** Optional strings as values *)

Definition ostr (o : option string) : pyval :=
  match o with Some s => PStr s | None => PNone end.

Lemma py_eqb_ostr a b : py_eqb (ostr a) (ostr b) = bool_decide (a = b).
Proof.
  destruct a, b; simpl; try done.
  destruct (decide (s = s0)); [by rewrite !bool_decide_true; congruence|by rewrite !bool_decide_false; congruence].
Qed.

Lemma py_eqb_int a b : py_eqb (PInt a) (PInt b) = (a =? b).
Proof. done. Qed.

Lemma dget_set_eq k v (d : dict) : dget k (od_set k v d) = v.
Proof. unfold dget. by rewrite od_get_set_eq. Qed.

Lemma dget_set_ne k k' v (d : dict) : k <> k' -> dget k' (od_set k v d) = dget k' d.
Proof. intros. unfold dget. by rewrite od_get_set_ne. Qed.
#[export] Hint Rewrite dget_set_eq py_eqb_ostr py_eqb_int : provn.

(** ** JSON texts *)

(** [json.dumps] and [json.loads] (util/json_utils.py: orjson or the standard
    library's).  What is read back from a text that was written is a law that
    holds of the values without floats and surrogates: where a theorem needs it, it
    assumes it of the value at hand. *)
Class JsonText := {
  to_text : pyval -> string;
  of_text : string -> res pyval;
}.

Definition round_trips `{JsonText} (v : pyval) : Prop := of_text (to_text v) = Ok v.
