(* ===== verification/PyStr.v ===== *)
(** * String operations and their lemmas

    Slices, [str.replace] and line splitting, with what the sanitizer and the stream
    parsers need of them. *)
From S2P Require Import Prelude ODict PyVal.

(** ** Slices and [replace] *)

Fixpoint stake (n : nat) (s : string) : string :=
  match n, s with S n, String c s => String c (stake n s) | _, _ => "" end.

Fixpoint sdrop (n : nat) (s : string) : string :=
  match n, s with S n, String _ s => sdrop n s | _, _ => s end.

(** [s[a:b]] for [0 <= a <= b] *)
Definition slice (a b : nat) (s : string) : string := stake (b - a) (sdrop a s).

(** [s.replace(old, new)] for a non-empty [old]; [skip] characters of a match are
    still to be passed. *)
Fixpoint replace_from (skip : nat) (old new s : string) : string :=
  match s with
  | EmptyString => ""
  | String c s' =>
      match skip with
      | S k => replace_from k old new s'
      | O => if startswith old s then (new +:+ replace_from (String.length old - 1) old new s')%string
             else String c (replace_from 0 old new s')
      end
  end.

Definition replace (old new s : string) : string := replace_from 0 old new s.

(** ** Lines *)

(** [s.splitlines()]: [sep] are the line boundaries and "\r\n" counts once. *)
Definition cr : ascii := Ascii.ascii_of_N 13.
Definition lf : ascii := Ascii.ascii_of_N 10.

(** [cur] is the line read so far; an empty last line is none. *)
Fixpoint lines_by (sep : ascii -> bool) (cur s : string) : list string :=
  match s with
  | EmptyString => if bool_decide (cur = "") then [] else [cur]
  | String a s =>
      if sep a then
        cur :: match s with
               | String b s' => if Ascii.eqb a cr && Ascii.eqb b lf then lines_by sep "" s' else lines_by sep "" s
               | EmptyString => []
               end
      else lines_by sep (cur +:+ String a "") s
  end.

(** of a [bytes] object *)
Definition bytes_break (c : ascii) : bool := Ascii.eqb c lf || Ascii.eqb c cr.
Definition bytes_lines (s : string) : list string := lines_by bytes_break "" s.

(** of a [str]: also vertical tab, form feed and the separators 28 to 30 *)
Definition str_break (c : ascii) : bool :=
  (((10 <=? code c) && (code c <=? 13)) || ((28 <=? code c) && (code c <=? 30)))%Z.
Definition splitlines (s : string) : list string := lines_by str_break "" s.

(** ** Characters *)

Fixpoint free_of (c : ascii) (s : string) : bool :=
  match s with EmptyString => true | String a s => negb (Ascii.eqb a c) && free_of c s end.

Lemma app_nil s : (s +:+ "")%string = s.
Proof. induction s as [|c s IH]; [done|]. change (String c (s +:+ "") = String c s). by rewrite IH. Qed.

Lemma app_cons c s t : (String c s +:+ t)%string = String c (s +:+ t).
Proof. done. Qed.

Lemma app_assoc_s s t u : ((s +:+ t) +:+ u = s +:+ (t +:+ u))%string.
Proof. induction s as [|c s IH]; [done|]. rewrite !app_cons. by rewrite IH. Qed.

Lemma free_app c s t : free_of c (s +:+ t) = free_of c s && free_of c t.
Proof. induction s as [|a s IH]; [done|]. rewrite app_cons. simpl. by rewrite IH, andb_assoc. Qed.

Lemma stake_drop n s : (stake n s +:+ sdrop n s)%string = s.
Proof. revert s. induction n as [|n IH]; intros [|c s]; try done. simpl. rewrite app_cons. by rewrite IH. Qed.

Lemma sdrop_app s t : sdrop (String.length s) (s +:+ t) = t.
Proof. induction s as [|c s IH]; [done|]. exact IH. Qed.

Lemma stake_app s t : stake (String.length s) (s +:+ t) = s.
Proof. induction s as [|c s IH]; [by destruct t|]. rewrite app_cons. simpl. by rewrite IH. Qed.

Lemma sdrop_sdrop n m s : sdrop n (sdrop m s) = sdrop (m + n) s.
Proof. revert s. induction m as [|m IH]; intros s; [done|]. destruct s as [|c s]; [by destruct n|]. apply IH. Qed.

Lemma length_stake n s : String.length (stake n s) = Nat.min n (String.length s).
Proof. revert s. induction n as [|n IH]; intros [|c s]; simpl; by rewrite ?IH. Qed.

Lemma length_sdrop n s : String.length (sdrop n s) = (String.length s - n)%nat.
Proof. revert s. induction n as [|n IH]; intros [|c s]; simpl; by rewrite ?IH. Qed.

Lemma startswith_app p s : startswith p (p +:+ s) = true.
Proof. induction p as [|c p IH]; [done|]. rewrite app_cons. simpl. by rewrite Ascii.eqb_refl, IH. Qed.

Lemma startswith_inv p s : startswith p s = true -> exists t, s = (p +:+ t)%string.
Proof.
  revert s. induction p as [|c p IH]; intros s Hs; [by exists s|]. destruct s as [|a s]; [done|]. simpl in Hs.
  apply andb_true_iff in Hs as [Hc Hs]. apply Ascii.eqb_eq in Hc as ->. destruct (IH s Hs) as [t ->]. by exists t.
Qed.

Lemma replace_skip k old new s : replace_from k old new s = replace_from 0 old new (sdrop k s).
Proof.
  revert s. induction k as [|k IH]; intros s; [done|]. destruct s as [|c s]; [done|]. exact (IH s).
Qed.

Lemma lower_app a b : (lower (a +:+ b) = lower a +:+ lower b)%string.
Proof.
  induction a as [|c a IH]; [done|]. rewrite app_cons.
  change (String (ascii_lower c) (lower (a +:+ b)) = String (ascii_lower c) (lower a) +:+ lower b)%string.
  by rewrite IH, app_cons.
Qed.

(** A pattern without [c] matches before [c] or not at all. *)
Lemma startswith_before c p u w :
  free_of c p = true -> startswith p (u +:+ String c w)%string = true -> startswith p u = true.
Proof.
  revert u. induction p as [|d p IH]; intros u Hp; [done|]. simpl in Hp.
  apply andb_true_iff in Hp as [Hd Hp]. destruct u as [|e u]; rewrite ?app_cons; simpl; rewrite !andb_true_iff.
  - intros [->%Ascii.eqb_eq _]. by rewrite Ascii.eqb_refl in Hd.
  - intros [-> Hs]. split; [done|by apply IH].
Qed.

(** ** Lines of known texts *)

Fixpoint sforall (f : ascii -> bool) (s : string) : bool :=
  match s with EmptyString => true | String c s => f c && sforall f s end.

Lemma lines_by_one sep cur s :
  sforall (fun c => negb (sep c)) s = true ->
  lines_by sep cur s = if bool_decide (cur +:+ s = "")%string then [] else [(cur +:+ s)%string].
Proof.
  revert cur. induction s as [|c s IH]; intros cur Hs; [by rewrite app_nil|]. simpl in *.
  apply andb_true_iff in Hs as [->%negb_true_iff Hs]. by rewrite (IH _ Hs), app_assoc_s.
Qed.

Lemma lines_by_break sep cur s t :
  sforall (fun c => negb (sep c)) s = true -> sep lf = true ->
  lines_by sep cur (s +:+ String lf t)%string = (cur +:+ s)%string :: lines_by sep "" t.
Proof.
  intros Hs Hlf. revert cur Hs. induction s as [|c s IH]; intros cur Hs.
  - change ("" +:+ String lf t)%string with (String lf t). rewrite app_nil. cbn [lines_by]. rewrite Hlf. by destruct t.
  - rewrite app_cons. simpl in Hs. apply andb_true_iff in Hs as [Hc%negb_true_iff Hs].
    cbn [lines_by]. by rewrite Hc, (IH _ Hs), app_assoc_s.
Qed.

Lemma contains_hit p s : startswith p s = true -> contains p s = true.
Proof. destruct s; simpl; by intros ->. Qed.

Lemma contains_mid p u v : contains p (u +:+ p +:+ v)%string = true.
Proof.
  induction u as [|c u IH].
  - apply contains_hit. change ("" +:+ p +:+ v)%string with (p +:+ v)%string. apply startswith_app.
  - rewrite app_cons. simpl. rewrite IH. apply orb_true_r.
Qed.

Lemma concat_cons s l : String.concat "" (s :: l) = (s +:+ String.concat "" l)%string.
Proof. destruct l; [by rewrite app_nil|done]. Qed.

(** A text without line boundaries *)
Definition unbroken (s : string) : bool := sforall (fun c => negb (str_break c)) s.

Lemma unbroken_app a b : unbroken (a +:+ b)%string = unbroken a && unbroken b.
Proof.
  unfold unbroken. induction a as [|c a IH]; [done|]. rewrite app_cons. simpl. by rewrite IH, andb_assoc.
Qed.

Lemma splitlines_one s : s <> "" -> unbroken s = true -> splitlines s = [s].
Proof. intros Hs Hu. unfold splitlines. rewrite lines_by_one by done. by rewrite bool_decide_false. Qed.

(** [hashlib.sha256(s.encode()).hexdigest()] *)
Class Digest := hexdigest : string -> string.
