(* ===== verification/PyObj.v ===== *)
(** * Operations on decoded JSON

    What Python does with a value of unknown shape: [.get], subscripts, iteration,
    [in], [+], comparison, [int()] and joining, each with the
    exception it raises on a value of the wrong type.  The values are those
    [json.loads] yields, so dictionaries have string keys.  Used by the provider
    adapters. *)
From Stdlib Require Import SpecFloat.
From S2P Require Import Prelude ODict PyVal.

Local Open Scope Z_scope.

(** ** Errors and loops *)

Definition attribute_error {A} : res A := Raise (OtherError "AttributeError").
Definition type_error {A} : res A := Raise (TypeError "").

(** A run that succeeded: each of its steps did. *)
Ltac unbind H :=
  repeat match type of H with
         | res_bind ?m _ = Ok _ => let E := fresh "Hrun" in destruct m as [?|] eqn:E; [cbn [res_bind] in H|discriminate H]
         end.

Section loops.
Context {A B : Type}.

(** A loop that builds a list. *)
Fixpoint map_res (f : A -> res B) (l : list A) : res (list B) :=
  match l with
  | [] => Ok []
  | x :: l => let! y := f x in let! ys := map_res f l in Ok (y :: ys)
  end.

(** A loop that carries a state. *)
Fixpoint fold_res (f : B -> A -> res B) (l : list A) (b : B) : res B :=
  match l with
  | [] => Ok b
  | x :: l => let! b := f b x in fold_res f l b
  end.

Lemma map_res_ok (f : A -> B) l : map_res (fun x => Ok (f x)) l = Ok (map f l).
Proof. induction l as [|x l IH]; simpl; [done|]. by rewrite IH. Qed.

Lemma map_res_Forall2 (f : A -> res B) l k :
  map_res f l = Ok k <-> Forall2 (fun x y => f x = Ok y) l k.
Proof.
  revert k. induction l as [|x l IH]; intros k; simpl.
  - split; [by intros [= <-]|by inversion 1].
  - destruct (f x) as [y|] eqn:Hx; simpl; [|split; [done|inversion 1; congruence]].
    destruct (map_res f l) as [ys|] eqn:Hl; simpl.
    + split; [intros [= <-]; constructor; [done|by apply IH]|].
      inversion 1; simplify_eq. f_equal. f_equal; [congruence|].
      match goal with H : Forall2 _ l _ |- _ => apply IH in H; congruence end.
    + split; [done|]. inversion 1; simplify_eq.
      match goal with H : Forall2 _ l _ |- _ => apply IH in H; congruence end.
Qed.

Lemma map_res_elem (f : A -> res B) l k x : map_res f l = Ok k -> x ∈ l -> exists y, f x = Ok y /\ y ∈ k.
Proof.
  intros Hk%map_res_Forall2 (i & Hi)%list_elem_of_lookup.
  destruct (Forall2_lookup_l _ _ _ _ _ Hk Hi) as (y & Hy & Hf). exists y.
  split; [done|by eapply list_elem_of_lookup_2].
Qed.

Lemma fold_res_app (f : B -> A -> res B) l k b :
  fold_res f (l ++ k) b = let! b := fold_res f l b in fold_res f k b.
Proof. revert b. induction l as [|x l IH]; intros b; simpl; [done|]. destruct (f b x); simpl; auto. Qed.
End loops.

(** ** Kinds *)

Definition is_str (v : pyval) : bool := match v with PStr _ => true | _ => false end.
Definition is_list (v : pyval) : bool := match v with PList _ => true | _ => false end.
Definition is_dict (v : pyval) : bool := match v with PDict _ => true | _ => false end.
Definition is_none (v : pyval) : bool := match v with PNone => true | _ => false end.

(** [v == s], [v in (s1, s2)] for a tuple of strings *)
Definition eq_str (v : pyval) (s : string) : bool := py_eqb v (PStr s).
Definition in_strs (v : pyval) (l : list string) : bool := existsb (eq_str v) l.

Lemma eq_str_iff v s : eq_str v s = true <-> v = PStr s.
Proof.
  unfold eq_str. destruct v as [|b|z|f ?|t|l|d|t]; simpl; try (split; congruence); try by destruct b.
  rewrite bool_decide_eq_true. split; congruence.
Qed.

Lemma eq_str_str t s : eq_str (PStr t) s = bool_decide (t = s).
Proof. done. Qed.

(** ** Access *)

(** [v.get(k, w)] *)
Definition get_or (k : string) (w v : pyval) : res pyval :=
  match v with PDict d => Ok (dget_or k w d) | _ => attribute_error end.

(** [v.get(k)] *)
Definition get (k : string) (v : pyval) : res pyval := get_or k PNone v.

(** [v.get(k) or {}], [v.get(k) or []] *)
Definition get_dict (k : string) (v : pyval) : res pyval := let! x := get k v in Ok (por x (PDict [])).
Definition get_list (k : string) (v : pyval) : res pyval := let! x := get k v in Ok (por x (PList [])).

(** [v[k]] *)
Definition item (k : string) (v : pyval) : res pyval :=
  match v with
  | PDict d => match od_get k d with Some x => Ok x | None => Raise (KeyError k) end
  | _ => type_error
  end.

(** [v[0]] *)
Definition first (v : pyval) : res pyval :=
  match v with
  | PList (x :: _) => Ok x
  | PStr (String c _) => Ok (PStr (String c ""))
  | PList [] | PStr "" => Raise (IndexError "")
  | PDict _ => Raise (KeyError "0")
  | _ => type_error
  end.

(** [for x in v] *)
Definition iter (v : pyval) : res (list pyval) :=
  match v with
  | PList l => Ok l
  | PDict d => Ok (map (fun kv => PStr (fst kv)) d)
  | PStr s => Ok (map (fun c => PStr (String c "")) (String.list_ascii_of_string s))
  | _ => type_error
  end.

(** [k in v] *)
Definition contains_key (k : string) (v : pyval) : res bool :=
  match v with
  | PDict d => Ok (match od_get k d with Some _ => true | None => false end)
  | PList l => Ok (existsb (fun x => eq_str x k) l)
  | PStr s => Ok (contains k s)
  | _ => type_error
  end.

(** [v[k] = x] *)
Definition set_item (k : string) (x v : pyval) : res pyval :=
  match v with PDict d => Ok (PDict (od_set k x d)) | _ => type_error end.

(** [{**a, **b}] *)
Definition merge (a b : dict) : dict := foldl (fun d kv => od_set (fst kv) (snd kv) d) a b.
Definition spread (v : pyval) (b : dict) : res pyval :=
  match v with PDict a => Ok (PDict (merge a b)) | _ => type_error end.

(** [v.lower()], [v.strip()] *)
Definition lower_of (v : pyval) : res string :=
  match v with PStr s => Ok (lower s) | _ => attribute_error end.
Definition strip_of (v : pyval) : res string :=
  match v with PStr s => Ok (strip s) | _ => attribute_error end.

(** [sep.join(l)] *)
Definition as_str (v : pyval) : res string := match v with PStr s => Ok s | _ => type_error end.
Definition join (sep : string) (l : list pyval) : res string :=
  let! l := map_res as_str l in Ok (sjoin sep l).

Lemma join_strs sep l : join sep (map PStr l) = Ok (sjoin sep l).
Proof.
  unfold join. assert (map_res as_str (map PStr l) = Ok l) as ->; [|done].
  induction l as [|s l IH]; simpl; [done|]. by rewrite IH.
Qed.

Lemma join_ok sep l s : join sep l = Ok s -> exists k, l = map PStr k /\ s = sjoin sep k.
Proof.
  unfold join. destruct (map_res as_str l) as [k|] eqn:Hk; simpl; [|done]. intros [= <-].
  exists k. split; [|done]. apply map_res_Forall2 in Hk.
  induction Hk as [|v w l k Hv _ IH]; [done|]. destruct v; simpl in Hv; try done.
  injection Hv as ->. simpl. by f_equal.
Qed.

(** ** Dictionaries keyed by a value of unknown type *)

Definition hashable (v : pyval) : res unit :=
  match v with PList _ | PDict _ => type_error | _ => Ok tt end.

Section vdict.
Context {A : Type}.

Fixpoint vget (k : pyval) (d : list (pyval * A)) : option A :=
  match d with
  | [] => None
  | (k', a) :: d => if py_eqb k' k then Some a else vget k d
  end.

(** A new key goes to the end, an old one keeps its place. *)
Fixpoint vset (k : pyval) (a : A) (d : list (pyval * A)) : list (pyval * A) :=
  match d with
  | [] => [(k, a)]
  | (k', b) :: d => if py_eqb k' k then (k', a) :: d else (k', b) :: vset k a d
  end.

(** Integer keys behave as in any map. *)
Lemma vget_vset i j a (d : list (pyval * A)) :
  Forall (fun ka => exists n, fst ka = PInt n) d ->
  vget (PInt i) (vset (PInt j) a d) = if i =? j then Some a else vget (PInt i) d.
Proof.
  induction 1 as [|[k b] d [n Hk] _ IH]; cbn [vset vget].
  - by rewrite py_eqb_int, Z.eqb_sym.
  - cbn [fst] in Hk. subst k. rewrite !py_eqb_int.
    destruct (Z.eqb_spec n j) as [->|Hj]; cbn [vget]; rewrite py_eqb_int.
    + rewrite (Z.eqb_sym i j). by destruct (j =? i).
    + rewrite IH. destruct (Z.eqb_spec n i) as [->|Hi]; [|done]. by destruct (Z.eqb_spec i j).
Qed.

Lemma vset_int_keys j a (d : list (pyval * A)) :
  Forall (fun ka => exists n, fst ka = PInt n) d ->
  Forall (fun ka => exists n, fst ka = PInt n) (vset (PInt j) a d).
Proof.
  induction 1 as [|[k b] d [n Hk] Hd IH]; simpl; [repeat constructor; by exists j|].
  destruct (py_eqb k (PInt j)); constructor; eauto.
Qed.
End vdict.

(** ** Arithmetic and order *)

Definition as_int (v : pyval) : option Z :=
  match v with PInt z => Some z | PBool b => Some (if b then 1 else 0) | _ => None end.

Definition as_float (v : pyval) : option spec_float :=
  match v with PFloat f _ => Some f | _ => option_map sf_of_Z (as_int v) end.

(** The order of two numbers, exact between an integer and a float; [None] with NaN. *)
Definition num_compare (a b : pyval) : option (option comparison) :=
  match as_int a, as_int b, a, b with
  | Some x, Some y, _, _ => Some (Some (x ?= y))
  | Some x, None, _, PFloat g _ => Some (option_map CompOpp (sf_compare_Z g x))
  | None, Some y, PFloat f _, _ => Some (sf_compare_Z f y)
  | None, None, PFloat f _, PFloat g _ => Some (SFcompare f g)
  | _, _, _, _ => None
  end.

Fixpoint str_ltb (a b : string) : bool :=
  match a, b with
  | _, "" => false
  | "", _ => true
  | String x a, String y b => (code x <? code y) || ((code x =? code y) && str_ltb a b)
  end.

(** The order of strings is total. *)
Definition str_leb (a b : string) : bool := negb (str_ltb b a).

Lemma str_ltb_cons x a y b :
  str_ltb (String x a) (String y b) = true <-> code x < code y \/ (x = y /\ str_ltb a b = true).
Proof.
  cbn [str_ltb]. rewrite orb_true_iff, andb_true_iff, Z.ltb_lt, Z.eqb_eq. split; intros [?|[Hc ?]]; auto; right.
  - split; [|done]. unfold code in Hc. apply N2Z.inj in Hc. apply (f_equal Ascii.ascii_of_N) in Hc.
    by rewrite !Ascii.ascii_N_embedding in Hc.
  - by subst.
Qed.

Lemma str_ltb_irrefl a : str_ltb a a = false.
Proof.
  induction a as [|x a IH]; [done|]. apply not_true_iff_false. rewrite str_ltb_cons, IH. intros [?|[_ ?]]; [lia|done].
Qed.

Lemma str_ltb_trans a : forall b c, str_ltb a b = true -> str_ltb b c = true -> str_ltb a c = true.
Proof.
  induction a as [|x a IH]; intros [|y b] [|z c]; try done. rewrite !str_ltb_cons.
  intros [?|[-> ?]] [?|[-> ?]]; [left; lia|by left..|]. right. eauto.
Qed.

Lemma str_leb_antisym a : forall b, str_leb a b = true -> str_leb b a = true -> a = b.
Proof.
  unfold str_leb. induction a as [|x a IH]; intros [|y b]; try done.
  rewrite !negb_true_iff, <- !not_true_iff_false, !str_ltb_cons. intros H1 H2.
  assert (code x = code y) as Hc by lia. unfold code in Hc. apply N2Z.inj in Hc. apply (f_equal Ascii.ascii_of_N) in Hc.
  rewrite !Ascii.ascii_N_embedding in Hc. subst y. f_equal.
  apply IH; rewrite negb_true_iff, <- not_true_iff_false; intros ?; [apply H1|apply H2]; auto.
Qed.

Lemma str_leb_total a b : str_leb a b = false -> str_leb b a = true.
Proof.
  unfold str_leb. intros Hab%negb_false_iff. apply negb_true_iff, not_true_iff_false. intros Hba.
  pose proof (str_ltb_trans _ _ _ Hab Hba) as Hbb. by rewrite str_ltb_irrefl in Hbb.
Qed.

Lemma str_leb_trans a b c : str_leb a b = true -> str_leb b c = true -> str_leb a c = true.
Proof.
  intros Hab Hbc. destruct (str_leb a c) eqn:Hac; [done|]. pose proof (str_leb_total _ _ Hac) as Hca.
  assert (b = c) as ->; [|congruence]. apply str_leb_antisym; [done|].
  unfold str_leb in *. apply negb_false_iff in Hac. apply negb_true_iff, not_true_iff_false. intros Hbc'.
  rewrite negb_true_iff in Hab. pose proof (str_ltb_trans _ _ _ Hbc' Hac) as Hba'. congruence.
Qed.

(** [a < b], [a >= b] on numbers and strings; lists are never compared here. *)
Definition py_lt (a b : pyval) : res bool :=
  match num_compare a b, a, b with
  | Some (Some Lt), _, _ => Ok true
  | Some _, _, _ => Ok false
  | None, PStr s, PStr t => Ok (str_ltb s t)
  | None, _, _ => type_error
  end.

Definition py_ge (a b : pyval) : res bool :=
  match num_compare a b, a, b with
  | Some (Some (Gt | Eq)), _, _ => Ok true
  | Some _, _, _ => Ok false
  | None, PStr s, PStr t => Ok (negb (str_ltb s t))
  | None, _, _ => type_error
  end.

Definition py_gt (a b : pyval) : res bool := py_lt b a.

(** [sum] of floats from the integer 0, with the compensation that Python has since 3.12 *)
Fixpoint fsum_loop (l : list spec_float) (s c : spec_float) : spec_float :=
  match l with
  | [] => match c with S754_finite _ _ _ => SFadd prec emax s c | _ => s end
  | x :: l =>
      let t := SFadd prec emax s x in
      let rest := if SFleb (SFabs x) (SFabs s) then SFadd prec emax (SFsub prec emax s t) x
                  else SFadd prec emax (SFsub prec emax x t) s in
      fsum_loop l t (SFadd prec emax c rest)
  end.

Definition py_fsum (l : list spec_float) : spec_float :=
  match l with
  | [] => S754_zero false
  | x :: l => fsum_loop l (SFadd prec emax (S754_zero false) x) (S754_zero false)
  end.

(** [repr] of a float, which is CPython's. *)
Class FloatRepr := float_repr : spec_float -> string.

(** [a + b] *)
Definition py_add `{FloatRepr} (a b : pyval) : res pyval :=
  match a, b with
  | PStr s, PStr t => Ok (PStr (s +:+ t))
  | PList l, PList k => Ok (PList (l ++ k))
  | _, _ =>
      match as_int a, as_int b with
      | Some x, Some y => Ok (PInt (x + y))
      | _, _ =>
          match as_float a, as_float b with
          | Some f, Some g => let h := SFadd prec emax f g in Ok (PFloat h (float_repr h))
          | _, _ => type_error
          end
      end
  end.

(** [int(s)] *)
Definition parse_int (s : string) : option Z :=
  let '(neg, s) := sign_of (strip s) in
  match digits 0 0 s with
  | (n, S _, "") => Some (if neg then - n else n)
  | _ => None
  end.

(** [int(v)]: a float is truncated. *)
Definition py_int (v : pyval) : res Z :=
  match v with
  | PInt z => Ok z
  | PBool b => Ok (if b then 1 else 0)
  | PFloat (S754_zero _) _ => Ok 0
  | PFloat (S754_finite s m e) _ =>
      let a := if 0 <=? e then Zpos m * 2 ^ e else Zpos m / 2 ^ (- e) in Ok (if s then - a else a)
  | PFloat (S754_infinity _) _ => Raise (OverflowError "cannot convert float infinity to integer")
  | PFloat S754_nan _ => Raise (ValueError "cannot convert float NaN to integer")
  | PStr s => match parse_int s with Some z => Ok z | None => Raise (ValueError "invalid literal for int()") end
  | _ => type_error
  end.

(** [sorted(d.items())] for distinct keys: a single entry is not compared, and a
    sort compares some number with some string, or [None] with something, when
    such keys occur. *)
Definition key_numeric (k : pyval) : bool := match k with PInt _ | PBool _ | PFloat _ _ => true | _ => false end.

Fixpoint vinsert {A} (x : pyval * A) (l : list (pyval * A)) : list (pyval * A) :=
  match l with
  | [] => [x]
  | y :: l => match py_lt (fst y) (fst x) with
              | Ok true => y :: vinsert x l
              | _ => x :: y :: l
              end
  end.

Definition vsorted {A} (d : list (pyval * A)) : res (list (pyval * A)) :=
  match d with
  | [] | [_] => Ok d
  | _ => if forallb (fun x => key_numeric (fst x)) d || forallb (fun x => is_str (fst x)) d
         then Ok (foldr vinsert [] d) else type_error
  end.
