(* ===== verification/Circuit.v ===== *)
(** * Circuit breakers (routing/circuit.py)

  [CircuitBreaker] is the class [_CircuitBreaker]; [Registry] is
  [CircuitBreakerRegistry].  A method that reads the clock takes the reading
  as [now]; a method that may draw [random.uniform(0, jitter)] takes the
  sample as [rnd].  The readings of one call are taken at one instant. *)
From S2P Require Import Prelude.

Local Open Scope Z_scope.

Module CircuitBreaker.

Inductive cstate := STATE_CLOSED | STATE_OPEN | STATE_HALF_OPEN.

#[export] Instance cstate_eq_dec : EqDecision cstate.
Proof. solve_decision. Defined.

(** [_MAX_BACKOFF = 300.0] *)
Definition _MAX_BACKOFF : Z := seconds 300.

(** The constructor's arguments *)
Record config := Config {
  _fail_max : Z;
  _reset_timeout : Z;
  _jitter : Z;
  _slow_call_threshold : Z;
  _half_open_max_probes : Z;
}.

(** The mutable attributes *)
Record breaker := Breaker {
  _state : cstate;
  _fail_count : Z;
  _opened_at : Z;
  _half_open_probe_count : Z;
  _half_open_success_count : Z;
  _consecutive_opens : Z;
  _effective_timeout : Z;
}.

Definition init (c : config) : breaker :=
  Breaker STATE_CLOSED 0 0 0 0 0 (_reset_timeout c).

Definition _compute_effective_timeout (c : config) (b : breaker) (rnd : Z) : Z :=
  let backoff := _reset_timeout c * 2 ^ _consecutive_opens b in
  let backoff := if _MAX_BACKOFF <? backoff then _MAX_BACKOFF else backoff in
  backoff + rnd.

Definition _trip_open (c : config) (b : breaker) (now rnd : Z) : breaker :=
  {| _state := STATE_OPEN;
     _fail_count := _fail_count b;
     _opened_at := now;
     _effective_timeout := _compute_effective_timeout c b rnd;
     _consecutive_opens := _consecutive_opens b + 1;
     _half_open_probe_count := 0;
     _half_open_success_count := 0 |}.

(** [_close] *)
Definition _close (c : config) (b : breaker) : breaker :=
  {| _state := STATE_CLOSED;
     _fail_count := 0;
     _opened_at := _opened_at b;
     _consecutive_opens := 0;
     _half_open_probe_count := 0;
     _half_open_success_count := 0;
     _effective_timeout := _reset_timeout c |}.

Definition _try_transition_to_half_open (b : breaker) (now : Z) : breaker * bool :=
  match _state b with
  | STATE_OPEN =>
      if _effective_timeout b <=? now - _opened_at b then
        ({| _state := STATE_HALF_OPEN; _fail_count := _fail_count b;
            _opened_at := _opened_at b; _half_open_probe_count := 0;
            _half_open_success_count := 0;
            _consecutive_opens := _consecutive_opens b;
            _effective_timeout := _effective_timeout b |}, true)
      else (b, false)
  | STATE_HALF_OPEN => (b, true)
  | STATE_CLOSED => (b, false)
  end.

(** The property [current_state]: the (possibly moved) breaker and its state. *)
Definition current_state (b : breaker) (now : Z) : breaker * cstate :=
  let b := match _state b with
           | STATE_OPEN => fst (_try_transition_to_half_open b now)
           | _ => b
           end in
  (b, _state b).

Definition with_probe_count (n : Z) (b : breaker) : breaker :=
  {| _state := _state b; _fail_count := _fail_count b; _opened_at := _opened_at b;
     _half_open_probe_count := n;
     _half_open_success_count := _half_open_success_count b;
     _consecutive_opens := _consecutive_opens b;
     _effective_timeout := _effective_timeout b |}.

Definition with_success_count (n : Z) (b : breaker) : breaker :=
  {| _state := _state b; _fail_count := _fail_count b; _opened_at := _opened_at b;
     _half_open_probe_count := _half_open_probe_count b;
     _half_open_success_count := n;
     _consecutive_opens := _consecutive_opens b;
     _effective_timeout := _effective_timeout b |}.

Definition with_fail_count (n : Z) (b : breaker) : breaker :=
  {| _state := _state b; _fail_count := n; _opened_at := _opened_at b;
     _half_open_probe_count := _half_open_probe_count b;
     _half_open_success_count := _half_open_success_count b;
     _consecutive_opens := _consecutive_opens b;
     _effective_timeout := _effective_timeout b |}.

Definition allow_request (c : config) (b : breaker) (now : Z) : breaker * bool :=
  let '(b, state) := current_state b now in
  match state with
  | STATE_CLOSED => (b, true)
  | STATE_OPEN => (b, false)
  | STATE_HALF_OPEN =>
      if _half_open_probe_count b <? _half_open_max_probes c
      then (with_probe_count (_half_open_probe_count b + 1) b, true)
      else (b, false)
  end.

Definition record_success (c : config) (b : breaker) (now rnd : Z) : breaker :=
  match _state b with
  | STATE_CLOSED => with_fail_count 0 b
  | STATE_HALF_OPEN | STATE_OPEN =>
      let b := fst (_try_transition_to_half_open b now) in
      match _state b with
      | STATE_HALF_OPEN =>
          let b := with_success_count (_half_open_success_count b + 1) b in
          if _half_open_max_probes c <=? _half_open_probe_count b then
            if _half_open_max_probes c / 2 <? _half_open_success_count b
            then _close c b
            else _trip_open c b now rnd
          else if _half_open_max_probes c <=? _half_open_success_count b
          then _close c b
          else b
      | _ => with_fail_count 0 b
      end
  end.

Definition record_failure (c : config) (b : breaker) (now rnd : Z) : breaker :=
  let b := with_fail_count (_fail_count b + 1) b in
  match _state b with
  | STATE_HALF_OPEN => _trip_open c b now rnd
  | _ => if _fail_max c <=? _fail_count b then _trip_open c b now rnd else b
  end.

Definition record_slow_call (c : config) (b : breaker) (now rnd : Z) : breaker :=
  record_failure c b now rnd.

Definition record_call_duration (c : config) (b : breaker) (now rnd duration : Z)
    (success : bool) : breaker :=
  if _slow_call_threshold c <=? duration then record_slow_call c b now rnd
  else if success then record_success c b now rnd
  else record_failure c b now rnd.

(** ** The breaker as a state machine *)

Inductive event :=
  | EState (now : Z)
  | EAllow (now : Z)
  | ESuccess (now rnd : Z)
  | EFailure (now rnd : Z)
  | EDuration (now rnd duration : Z) (success : bool).

(** The successor and whether the event let a request through. *)
Definition step (c : config) (b : breaker) (e : event) : breaker * bool :=
  match e with
  | EState now => (fst (current_state b now), false)
  | EAllow now => allow_request c b now
  | ESuccess now rnd => (record_success c b now rnd, false)
  | EFailure now rnd => (record_failure c b now rnd, false)
  | EDuration now rnd d ok => (record_call_duration c b now rnd d ok, false)
  end.

(** [random.uniform(0, jitter)] *)
Definition sample_ok (c : config) (e : event) : Prop :=
  match e with
  | ESuccess _ rnd | EFailure _ rnd | EDuration _ rnd _ _ => 0 <= rnd <= _jitter c
  | _ => True
  end.

(** The events of [es] in order: the final breaker and the number of requests
    let through. *)
Fixpoint exec (c : config) (b : breaker) (es : list event) : breaker * Z :=
  match es with
  | [] => (b, 0)
  | e :: es =>
      let '(b1, adm) := step c b e in
      let '(b2, n) := exec c b1 es in
      (b2, (if adm then 1 else 0) + n)
  end.

(** No event of [es] leaves the breaker closed. *)
Fixpoint never_closed (c : config) (b : breaker) (es : list event) : bool :=
  match es with
  | [] => true
  | e :: es =>
      let b1 := fst (step c b e) in
      negb (bool_decide (_state b1 = STATE_CLOSED)) && never_closed c b1 es
  end.

Definition config_ok (c : config) : Prop :=
  0 < _fail_max c /\ 0 <= _reset_timeout c /\ 0 <= _jitter c /\ 0 <= _half_open_max_probes c.

Record inv (c : config) (b : breaker) : Prop := {
  inv_idle : _state b <> STATE_HALF_OPEN ->
    _half_open_probe_count b = 0 /\ _half_open_success_count b = 0;
  inv_probes : 0 <= _half_open_probe_count b <= _half_open_max_probes c;
  inv_successes : 0 <= _half_open_success_count b /\
    (_half_open_success_count b = 0 \/ _half_open_success_count b < _half_open_max_probes c);
  inv_closed : _state b = STATE_CLOSED ->
    0 <= _fail_count b < _fail_max c /\ _consecutive_opens b = 0 /\
    _effective_timeout b = _reset_timeout c;
  inv_tripped : _state b <> STATE_CLOSED ->
    1 <= _consecutive_opens b /\
    Z.min (_reset_timeout c) _MAX_BACKOFF <= _effective_timeout b <= _MAX_BACKOFF + _jitter c;
  inv_fails : 0 <= _fail_count b;
}.

Lemma init_inv c : config_ok c -> inv c (init c).
Proof. intros (?&?&?&?). constructor; simpl; try done; try lia. Qed.

Lemma pow2_pos n : 0 <= n -> 1 <= 2 ^ n.
Proof. intros. pose proof (Z.pow_pos_nonneg 2 n). lia. Qed.

Lemma effective_timeout_bounds c b rnd :
  config_ok c -> 0 <= _consecutive_opens b -> 0 <= rnd <= _jitter c ->
  Z.min (_reset_timeout c) _MAX_BACKOFF <= _compute_effective_timeout c b rnd
    <= _MAX_BACKOFF + _jitter c.
Proof.
  intros (?&?&?&?) Hc Hr. unfold _compute_effective_timeout.
  pose proof (pow2_pos _ Hc). case_match; zbool; nia.
Qed.

Lemma trip_inv c b now rnd :
  config_ok c -> 0 <= _consecutive_opens b -> 0 <= _fail_count b -> 0 <= rnd <= _jitter c ->
  inv c (_trip_open c b now rnd).
Proof.
  intros Hc Hn Hf Hr. pose proof (effective_timeout_bounds _ b _ Hc Hn Hr).
  destruct Hc as (?&?&?&?).
  constructor; simpl; try done; try lia.
Qed.

Lemma close_inv c b : config_ok c -> inv c (_close c b).
Proof. intros (?&?&?&?). constructor; simpl; try done; lia. Qed.

Lemma opens_nonneg c b : inv c b -> 0 <= _consecutive_opens b.
Proof.
  intros H. destruct (decide (_state b = STATE_CLOSED)) as [Hs|Hs].
  - apply (inv_closed _ _ H) in Hs. lia.
  - apply (inv_tripped _ _ H) in Hs. lia.
Qed.

Lemma try_transition_inv c b now : config_ok c -> inv c b -> inv c (fst (_try_transition_to_half_open b now)).
Proof.
  intros Hc H. destruct Hc as (?&?&?&?). unfold _try_transition_to_half_open.
  destruct (_state b) eqn:Hs; try done.
  case_match; [|done].
  destruct H as [? ? ? ? Ht ?]. specialize (Ht ltac:(congruence)).
  constructor; simpl; try done; lia.
Qed.
#[export] Hint Resolve init_inv trip_inv close_inv opens_nonneg try_transition_inv : provn.

Lemma current_state_inv c b now : config_ok c -> inv c b -> inv c (fst (current_state b now)).
Proof. intros. unfold current_state. simpl. case_match; auto with provn. Qed.

Lemma allow_request_inv c b now : config_ok c -> inv c b -> inv c (fst (allow_request c b now)).
Proof.
  intros Hc H. pose proof (current_state_inv _ _ now Hc H) as H'.
  unfold allow_request, current_state in *. simpl in *.
  set (b0 := match _state b with STATE_OPEN => _ | _ => b end) in *.
  destruct (_state b0) eqn:Hs; try done.
  case_match eqn:Hp; [|done]. zbool. destruct H' as [? ? ? ? ? ?].
  constructor; simpl; rewrite ?Hs in *; try done; try lia; auto.
Qed.

Lemma record_failure_inv c b now rnd :
  config_ok c -> inv c b -> 0 <= rnd <= _jitter c -> inv c (record_failure c b now rnd).
Proof.
  intros Hc H Hr. unfold record_failure. pose proof (opens_nonneg _ _ H).
  pose proof (inv_fails _ _ H).
  assert (inv c (_trip_open c (with_fail_count (_fail_count b + 1) b) now rnd)) as Ht
    by (apply trip_inv; simpl; auto; lia).
  simpl. destruct (_state b) eqn:Hs; simpl; try case_match; try done.
  all: zbool; destruct H as [? ? ? ? ? ?]; constructor; simpl in *; rewrite ?Hs in *; auto;
    naive_solver lia.
Qed.

Lemma record_success_inv c b now rnd :
  config_ok c -> inv c b -> 0 <= rnd <= _jitter c -> inv c (record_success c b now rnd).
Proof.
  intros Hc H Hr. unfold record_success.
  assert (forall b', inv c b' -> inv c (with_fail_count 0 b')) as Hf.
  { intros b' [? ? ? ? ? ?]. destruct Hc as (?&?&?&?). constructor; simpl; auto; try lia. intros; naive_solver lia. }
  pose proof (try_transition_inv c b now Hc H) as H'.
  destruct (_state b) eqn:Hs; auto.
  all: set (b0 := fst _) in *; destruct (_state b0) eqn:Hs0; auto;
       pose proof (opens_nonneg _ _ H'); pose proof (inv_fails _ _ H');
       repeat case_match; try (apply trip_inv; simpl; auto; fail); auto with provn;
       zbool; destruct H' as [? ? ? ? ? ?]; simpl in *;
       constructor; simpl; rewrite ?Hs0 in *; auto; naive_solver lia.
Qed.

(** Every event preserves the invariant. *)
Lemma step_inv c b e : config_ok c -> inv c b -> sample_ok c e -> inv c (fst (step c b e)).
Proof.
  intros Hc H Hs. destruct e; simpl in *.
  - by apply current_state_inv.
  - by apply allow_request_inv.
  - by apply record_success_inv.
  - by apply record_failure_inv.
  - unfold record_call_duration, record_slow_call. repeat case_match;
      auto using record_success_inv, record_failure_inv.
Qed.

Lemma exec_inv c es : forall b,
  config_ok c -> inv c b -> Forall (sample_ok c) es -> inv c (fst (exec c b es)).
Proof.
  induction es as [|e es IH]; intros b Hc H Hs; simpl; [done|].
  apply Forall_cons in Hs as [He Hs]. pose proof (step_inv _ _ _ Hc H He) as Hi.
  destruct (step c b e) as [b1 adm]. specialize (IH b1 Hc Hi Hs).
  by destruct (exec c b1 es).
Qed.

(** How one event changes the probe budget while the breaker is tripped:
    admissions are paid for by the probe counter, which only a new trip
    resets. *)
Lemma step_budget c b e b1 adm :
  config_ok c -> inv c b -> sample_ok c e ->
  step c b e = (b1, adm) -> _state b <> STATE_CLOSED -> _state b1 <> STATE_CLOSED ->
  _consecutive_opens b <= _consecutive_opens b1 /\
  (if adm then 1 else 0) + _half_open_probe_count b <=
  _half_open_max_probes c * (_consecutive_opens b1 - _consecutive_opens b) + _half_open_probe_count b1.
Proof.
  intros Hc H Hs Hst Hb Hb1. destruct Hc as (?&?&?&?).
  pose proof (inv_probes _ _ H). pose proof (inv_idle _ _ H) as Hidle.
  destruct e; simpl in Hst;
    unfold allow_request, current_state, record_call_duration, record_slow_call,
      record_success, record_failure, _try_transition_to_half_open in Hst;
    destruct (_state b) eqn:Hsb; simpl in *; try congruence;
    try (destruct Hidle; [congruence|]);
    repeat (case_match; simpl in *; try congruence); simplify_eq/=; zbool; try congruence; nia.
Qed.

Lemma exec_budget c es : forall b,
  config_ok c -> inv c b -> _state b <> STATE_CLOSED ->
  Forall (sample_ok c) es -> never_closed c b es = true ->
  let '(b', n) := exec c b es in
  _consecutive_opens b <= _consecutive_opens b' /\
  n + _half_open_probe_count b <=
  _half_open_max_probes c * (_consecutive_opens b' - _consecutive_opens b) + _half_open_probe_count b'.
Proof.
  induction es as [|e es IH]; intros b Hc H Hb Hs Hn; simpl in *; [lia|].
  apply Forall_cons in Hs as [He Hs]. zbool.
  pose proof (step_inv _ _ _ Hc H He) as Hi.
  destruct (step c b e) as [b1 adm] eqn:Hst; simpl in *.
  destruct (step_budget _ _ _ _ _ Hc H He Hst Hb) as [? ?]; [done|].
  specialize (IH b1 Hc Hi). destruct (exec c b1 es) as [b2 n].
  destruct IH as [? ?]; [done..|]. nia.
Qed.

(** A breaker that trips on its first failure; the other defaults of the
    constructor. *)
Definition cfg1 : config := Config 1 (seconds 30) (seconds 5) (seconds 10) 3.

Lemma cfg1_ok : config_ok cfg1.
Proof. repeat split; vm_compute; discriminate. Qed.

Ltac samples := repeat constructor; vm_compute; discriminate.

(** ** Properties *)

(**  Every breaker reachable from [__init__] by any sequence of calls
    satisfies the type invariant: a closed breaker has seen fewer than
    [fail_max] failures since it last closed or succeeded and carries no
    backoff, a tripped breaker waits between [min(reset_timeout, 300 s)] and
    [300 s + jitter], and the half-open counters stay within
    [half_open_max_probes] and are zero outside HALF-OPEN. *)
Theorem reachable_inv c es :
  config_ok c -> Forall (sample_ok c) es -> inv c (fst (exec c (init c) es)).
Proof. intros Hc. apply exec_inv; auto with provn. Qed.

Lemma reachable_inv_witness :
  inv cfg1 (fst (exec cfg1 (init cfg1) [EFailure 7 1; EAllow 8; EAllow (seconds 31)])).
Proof.
  apply (reachable_inv cfg1); [apply cfg1_ok|samples].
Defined.

(**  While a tripped breaker has not closed, the requests it lets
    through are bounded by the probe limit per trip: whatever calls arrive
    in whatever order, from a freshly tripped (OPEN) breaker at most
    [half_open_max_probes * (trips + 1)] requests are admitted. *)
Theorem probe_budget c b es :
  config_ok c -> inv c b -> _state b = STATE_OPEN ->
  Forall (sample_ok c) es -> never_closed c b es = true ->
  snd (exec c b es) <= _half_open_max_probes c *
    (_consecutive_opens (fst (exec c b es)) - _consecutive_opens b + 1).
Proof.
  intros Hc H Hb Hs Hn.
  pose proof (exec_budget c es b Hc H ltac:(congruence) Hs Hn) as He.
  pose proof (inv_probes _ _ (exec_inv c es b Hc H Hs)). pose proof (inv_probes _ _ H).
  destruct (exec c b es) as [b' n]. simpl in *. nia.
Qed.

Lemma probe_budget_witness :
  let b := record_failure cfg1 (init cfg1) 0 0 in
  snd (exec cfg1 b [EAllow (seconds 30); EAllow (seconds 30); EFailure (seconds 31) 0;
                    EAllow (seconds 100)]) <= 3 * (2 - 1 + 1).
Proof.
  intros b.
  apply (probe_budget cfg1 b [EAllow (seconds 30); EAllow (seconds 30); EFailure (seconds 31) 0;
                              EAllow (seconds 100)]);
    [apply cfg1_ok| |reflexivity|samples|reflexivity].
  apply record_failure_inv; [apply cfg1_ok|apply init_inv, cfg1_ok|samples].
Defined.

(**  Three probes in flight together: the first success that comes back
    finds every probe slot used but only one success counted, so a healthy
    upstream re-opens the circuit with a doubled timeout -- for every breaker
    whose probe limit is at least two.  Only when the responses are
    recorded before the last probe is let through does recovery work. *)
Theorem concurrent_probes_reopen c b now rnd :
  config_ok c -> inv c b -> _state b = STATE_HALF_OPEN ->
  _half_open_success_count b = 0 ->
  _half_open_probe_count b = _half_open_max_probes c -> 2 <= _half_open_max_probes c ->
  record_success c b now rnd = _trip_open c (with_success_count 1 b) now rnd.
Proof.
  intros Hc H Hb Hsu Hp Hm. unfold record_success, _try_transition_to_half_open.
  rewrite Hb. simpl. rewrite Hb, Hsu, Hp. simpl.
  rewrite (proj2 (Z.leb_le _ _)) by lia.
  pose proof (Z.div_le_lower_bound (_half_open_max_probes c) 2 1 ltac:(lia)).
  rewrite (proj2 (Z.ltb_ge _ _)) by lia. done.
Qed.

Lemma concurrent_probes_reopen_witness :
  let b := fst (exec cfg1 (init cfg1) [EFailure 0 0; EAllow (seconds 30); EAllow (seconds 30);
                                       EAllow (seconds 30)]) in
  _state (record_success cfg1 b (seconds 31) 0) = STATE_OPEN.
Proof.
  intros b. rewrite (concurrent_probes_reopen cfg1 b); try reflexivity.
  - apply cfg1_ok.
  - apply exec_inv; [apply cfg1_ok|apply init_inv, cfg1_ok|samples].
  - vm_compute. discriminate.
Defined.
End CircuitBreaker.

(** ** The per-model registry *)
Module Registry.
Import CircuitBreaker.

(** [CircuitBreakerRegistry]: the constructor arguments every breaker gets
    and [_breakers]. *)
Record registry := Reg { _conf : config; _breakers : gmap string breaker }.

Definition init_registry (c : config) : registry := Reg c ∅.

Definition _get_breaker (r : registry) (model_id : string) : registry * breaker :=
  match _breakers r !! model_id with
  | Some b => (r, b)
  | None => let b := CircuitBreaker.init (_conf r) in
            (Reg (_conf r) (<[model_id := b]> (_breakers r)), b)
  end.

Definition put (r : registry) (model_id : string) (b : breaker) : registry :=
  Reg (_conf r) (<[model_id := b]> (_breakers r)).

Definition is_open (r : registry) (model_id : string) (now : Z) : registry * bool :=
  let '(r, b) := _get_breaker r model_id in
  let '(b, st) := current_state b now in
  (put r model_id b, bool_decide (st = STATE_OPEN)).

Definition allow_request (r : registry) (model_id : string) (now : Z) : registry * bool :=
  let '(r, b) := _get_breaker r model_id in
  let '(b, ok) := CircuitBreaker.allow_request (_conf r) b now in
  (put r model_id b, ok).

Definition record_success (r : registry) (model_id : string) (now rnd : Z) : registry :=
  let '(r, b) := _get_breaker r model_id in
  put r model_id (CircuitBreaker.record_success (_conf r) b now rnd).

Definition record_failure (r : registry) (model_id : string) (now rnd : Z) : registry :=
  let '(r, b) := _get_breaker r model_id in
  put r model_id (CircuitBreaker.record_failure (_conf r) b now rnd).

Definition record_call_duration (r : registry) (model_id : string) (now rnd duration : Z)
    (success : bool) : registry :=
  let '(r, b) := _get_breaker r model_id in
  put r model_id (CircuitBreaker.record_call_duration (_conf r) b now rnd duration success).

(** The breaker [model_id] has, or would get on its first use. *)
Definition lookup_breaker (r : registry) (model_id : string) : breaker :=
  default (CircuitBreaker.init (_conf r)) (_breakers r !! model_id).

Inductive reg_event := REvent (model_id : string) (e : event) | RIsOpen (model_id : string) (now : Z).

Definition reg_step (r : registry) (e : reg_event) : registry * bool :=
  match e with
  | RIsOpen m now => is_open r m now
  | REvent m (EState now) => (fst (is_open r m now), false)
  | REvent m (EAllow now) => allow_request r m now
  | REvent m (ESuccess now rnd) => (record_success r m now rnd, false)
  | REvent m (EFailure now rnd) => (record_failure r m now rnd, false)
  | REvent m (EDuration now rnd d ok) => (record_call_duration r m now rnd d ok, false)
  end.

Fixpoint reg_exec (r : registry) (es : list reg_event) : registry :=
  match es with [] => r | e :: es => reg_exec (fst (reg_step r e)) es end.

(** The events of one model, as its own breaker sees them. *)
Definition own_events (m : string) (es : list reg_event) : list event :=
  omap (fun e => match e with
                 | REvent m' e => if decide (m' = m) then Some e else None
                 | RIsOpen m' now => if decide (m' = m) then Some (EState now) else None
                 end) es.

Lemma get_breaker_spec r m :
  _get_breaker r m =
  (match _breakers r !! m with Some _ => r | None => put r m (CircuitBreaker.init (_conf r)) end,
   lookup_breaker r m).
Proof. unfold _get_breaker, lookup_breaker. by destruct (_breakers r !! m). Qed.

Lemma lookup_put r m m' b :
  lookup_breaker (put r m b) m' = if decide (m = m') then b else lookup_breaker r m'.
Proof.
  unfold lookup_breaker, put. simpl. case_decide as Hd.
  - subst. by rewrite lookup_insert_eq.
  - by rewrite lookup_insert_ne.
Qed.

Lemma conf_put r m b : _conf (put r m b) = _conf r.
Proof. done. Qed.

Lemma reg_step_conf r e : _conf (fst (reg_step r e)) = _conf r.
Proof.
  destruct e as [m e|m now]; [destruct e|]; simpl;
    unfold is_open, allow_request, record_success, record_failure, record_call_duration;
    rewrite get_breaker_spec; repeat case_match; simplify_eq/=; try done; by case_match.
Qed.

(** One registry call is one call on the model's own breaker. *)
Lemma reg_step_lookup r e m :
  lookup_breaker (fst (reg_step r e)) m =
  match e with
  | REvent m' e => if decide (m' = m) then fst (step (_conf r) (lookup_breaker r m) e)
                   else lookup_breaker r m
  | RIsOpen m' now => if decide (m' = m) then fst (step (_conf r) (lookup_breaker r m) (EState now))
                      else lookup_breaker r m
  end.
Proof.
  assert (forall m' b, lookup_breaker (put (match _breakers r !! m' with Some _ => r | None => put r m' (CircuitBreaker.init (_conf r)) end) m' b) m =
      if decide (m' = m) then b else lookup_breaker r m) as Hput.
  { intros m' b. rewrite lookup_put. case_decide; [done|].
    destruct (_breakers r !! m'); [done|]. rewrite lookup_put. by rewrite decide_False. }
  assert (forall m', _conf (match _breakers r !! m' with Some _ => r | None => put r m' (CircuitBreaker.init (_conf r)) end) = _conf r) as Hconf
    by (intros m'; by destruct (_breakers r !! m')).
  destruct e as [m' e|m' now]; [destruct e|]; simpl;
    unfold is_open, allow_request, record_success, record_failure, record_call_duration;
    rewrite get_breaker_spec; simpl; rewrite ?Hconf.
  all: try (destruct (CircuitBreaker.allow_request _ _ _) as [b ok] eqn:Ha); simpl;
    rewrite Hput; (case_decide; [|done]); subst; try done; by rewrite Ha.
Qed.

(**  Fault isolation: after any interleaving of calls for any models, the
    breaker of each model is exactly the one its own calls produce on a
    fresh breaker; the traffic of other models has no influence. *)
Theorem registry_isolation r es m :
  lookup_breaker (reg_exec r es) m =
  fst (exec (_conf r) (lookup_breaker r m) (own_events m es)).
Proof.
  revert r. induction es as [|e es IH]; intros r; simpl; [done|].
  rewrite IH, reg_step_conf, reg_step_lookup.
  destruct e as [m' e|m' now]; simpl; case_decide; simpl; try done.
  - destruct (step _ _ e) as [b1 adm]. simpl. by destruct (exec _ b1 _).
  - by destruct (exec _ _ _).
Qed.
End Registry.
