(* ===== verification/Signing.v ===== *)
(** * Record signing (crypto/signing.py)

    The canonical string of a record, its Ed25519 signature and the
    classification of a stored signature; loading and generating the key file.
    Ed25519, base64 and the PEM codec are third-party code: the class [Ed25519]
    names the calls, [Ed25519Laws] their documented behaviour.  Strings stand
    for their UTF-8 bytes, so [encode] is the identity. *)
From S2P Require Import Prelude ODict PyVal.

Local Open Scope Z_scope.

(** ** The calls into the cryptography package *)

Class Ed25519 := {
  private_key : Type;
  public_key : Type;
  key_public : private_key -> public_key;
  key_sign : private_key -> string -> res string;
  (** [key.verify(signature, message)] raises on a bad signature. *)
  key_verify : public_key -> string -> string -> res unit;
  b64encode : string -> string;
  b64decode : string -> res string;
  (** [private_bytes(PEM, PKCS8, NoEncryption())] and [load_pem_private_key] *)
  private_pem : private_key -> string;
  load_pem : string -> res private_key;
}.

Class Ed25519Laws `(E : Ed25519) := {
  verify_sign k m s : key_sign k m = Ok s -> key_verify (key_public k) s m = Ok tt;
  b64_round s : b64decode (b64encode s) = Ok s;
  pem_round k : load_pem (private_pem k) = Ok k;
}.

(** ** The canonical string *)

(** [x or ""] *)
Definition or_empty (o : option string) : string := default "" o.

Definition _canonical_bytes (record_id previous_record_id : option string)
    (sequence_number : Z) (execution_id timestamp : string) : string :=
  sjoin "|" [or_empty record_id; or_empty previous_record_id; z_str sequence_number;
             execution_id; timestamp].

Lemma bar_split (a b a' b' : string) :
  char_in bar a = false -> char_in bar a' = false ->
  (a +:+ "|" +:+ b = a' +:+ "|" +:+ b')%string -> a = a' /\ b = b'.
Proof.
  revert a'. induction a as [|x a IH]; intros [|x' a']; unfold char_in; simpl; intros Ha Ha' Heq.
  - by injection Heq.
  - injection Heq as <- _. done.
  - injection Heq as -> _. done.
  - injection Heq as -> Heq.
    apply orb_false_iff in Ha as [_ Ha], Ha' as [_ Ha'].
    destruct (IH a' Ha Ha' Heq) as [-> ->]. done.
Qed.

Definition no_bar_opt (o : option string) : Prop := char_in bar (or_empty o) = false.

Lemma canonical_app r p n e t :
  _canonical_bytes r p n e t =
  (or_empty r +:+ "|" +:+ (or_empty p +:+ "|" +:+ (z_str n +:+ "|" +:+ (e +:+ "|" +:+ t))))%string.
Proof. done. Qed.

(**  The canonical string determines what is signed: when the ids hold no
    separator, two records with the same canonical string have the same record
    id and predecessor (a missing one and the empty string being the same), the
    same sequence number, execution id and timestamp. *)
Theorem canonical_injective r p n e t r' p' n' e' t' :
  no_bar_opt r -> no_bar_opt p -> char_in bar e = false ->
  no_bar_opt r' -> no_bar_opt p' -> char_in bar e' = false ->
  _canonical_bytes r p n e t = _canonical_bytes r' p' n' e' t' ->
  or_empty r = or_empty r' /\ or_empty p = or_empty p' /\ n = n' /\ e = e' /\ t = t'.
Proof.
  unfold no_bar_opt. intros Hr Hp He Hr' Hp' He'. rewrite !canonical_app. intros Heq.
  apply bar_split in Heq as [-> Heq]; [|done..].
  apply bar_split in Heq as [-> Heq]; [|done..].
  apply bar_split in Heq as [Hn Heq]; [|apply z_str_no_bar..].
  apply bar_split in Heq as [-> ->]; [|done..].
  apply z_str_inj in Hn. done.
Qed.

Lemma canonical_injective_witness :
  let c := _canonical_bytes (Some "r1") None 1 "e1" "t|x" in
  c = "r1||1|e1|t|x" /\ forall n, c = _canonical_bytes (Some "r1") None n "e1" "t|x" -> 1 = n.
Proof.
  split; [reflexivity|]. intros n H.
  refine (proj1 (proj2 (proj2 (canonical_injective (Some "r1") None 1 "e1" "t|x"
            (Some "r1") None n "e1" "t|x" _ _ _ _ _ _ H)))); reflexivity.
Defined.

Section signing.
Context `{E : Ed25519}.

(** The module's globals *)
Record keys := MkKeys {
  _signing_key : option private_key;
  _verify_key : option public_key;
}.

Definition no_keys : keys := MkKeys None None.

(** The body of the [try] blocks: a base64 signature, or [None] after any
    exception. *)
Definition sign_canonical (st : keys) (record_id previous_record_id : option string)
    (sequence_number : Z) (execution_id timestamp : string)
    (private_key_arg : option private_key) : option string :=
  match (match private_key_arg with Some k => Some k | None => _signing_key st end) with
  | None => None
  | Some key =>
      let msg := _canonical_bytes record_id previous_record_id sequence_number
                                  execution_id timestamp in
      match key_sign key msg with
      | Ok signature => Some (b64encode signature)
      | Raise _ => None
      end
  end.

Definition verify_canonical (st : keys) (record_id previous_record_id : option string)
    (sequence_number : Z) (execution_id timestamp signature : string)
    (public_key_arg : option public_key) : bool :=
  match (match public_key_arg with Some k => Some k | None => _verify_key st end) with
  | None => false
  | Some key =>
      let msg := _canonical_bytes record_id previous_record_id sequence_number
                                  execution_id timestamp in
      is_ok (let! sig_bytes := b64decode signature in key_verify key sig_bytes msg)
  end.

Definition signing_key_available (st : keys) : bool := bool_decide (is_Some (_verify_key st)).

(** ** The fields of a record that the chain reads and writes

    A record is a JSON object; these are its keys that the chain, the signature
    and the verifier use, [None] for a missing key or a null. *)
End signing.

Record env_entry := MkEnv {
  env_BlockId : option string;
  env_TransId : option string;
  env_DH : option string;
  env_BL : option Z;
  env_CreatedAt : option string;
}.

Record record := MkRecord {
  execution_id : option string;
  timestamp : option string;
  sequence_number : option Z;
  record_id : option string;
  previous_record_id : option string;
  record_signature : option string;
  record_hash : option string;
  previous_record_hash : option string;
  env : list env_entry;
  walacor_block_id : option string;
  walacor_trans_id : option string;
  walacor_dh : option string;
  walacor_block_level : option Z;
  walacor_created_at : option string;
}.

(** [if x:] for a string field *)
Definition otruthy (o : option string) : bool :=
  match o with None | Some EmptyString => false | Some _ => true end.

Inductive sig_status := sig_valid | sig_invalid | sig_absent | sig_unverifiable.
#[export] Instance sig_status_dec : EqDecision sig_status.
Proof. solve_decision. Defined.

Section verify.
Context `{E : Ed25519}.

Definition verify_record_signature (st : keys) (r : record) : sig_status :=
  match record_signature r with
  | None | Some EmptyString => sig_absent
  | Some sig =>
      match _verify_key st with
      | None => sig_unverifiable
      | Some _ =>
          if verify_canonical st (record_id r) (previous_record_id r)
               (default 0 (sequence_number r)) (or_empty (execution_id r))
               (or_empty (timestamp r)) sig None
          then sig_valid else sig_invalid
      end
  end.

(** ** The key file *)

(** [load_signing_key]: [import_ok] says whether the cryptography package
    imports; the file system maps a path to the bytes of the file there. *)
Definition load_signing_key (st : keys) (import_ok : bool) (fs : gmap string string)
    (key_path : string) : keys * bool :=
  if import_ok then
    match fs !! key_path with
    | None => (st, false)
    | Some key_data =>
        match load_pem key_data with
        | Ok k => (MkKeys (Some k) (Some (key_public k)), true)
        | Raise _ => (st, false)
        end
    end
  else (st, false).

(** [ensure_signing_key]: [fresh] is the key [generate()] returns or the
    exception it raises, [wrote] the outcome of making the directory and
    writing and renaming the temporary file. *)
Definition ensure_signing_key (st : keys) (import_ok : bool) (fs : gmap string string)
    (key_path : string) (fresh : res private_key) (wrote : res unit)
    : keys * gmap string string * bool :=
  match fs !! key_path with
  | Some _ => let '(st, ok) := load_signing_key st import_ok fs key_path in (st, fs, ok)
  | None =>
      if import_ok then
        match (let! k := fresh in let! _ := wrote in Ok k) with
        | Ok k =>
            let fs := <[key_path := private_pem k]> fs in
            let '(st, ok) := load_signing_key st import_ok fs key_path in (st, fs, ok)
        | Raise _ => (st, fs, false)
        end
      else (st, fs, false)
  end.

Context {L : Ed25519Laws E}.

Lemma sign_verify st st' r p n e t k s :
  _verify_key st' = Some (key_public k) ->
  sign_canonical st r p n e t (Some k) = Some s ->
  verify_canonical st' r p n e t s None = true.
Proof.
  unfold sign_canonical, verify_canonical. intros -> Hs.
  destruct (key_sign k _) as [sg|] eqn:Hk; [|done]. injection Hs as <-.
  rewrite b64_round. simpl. by rewrite (verify_sign _ _ _ Hk).
Qed.

Lemma sign_canonical_default st r p n e t :
  sign_canonical st r p n e t None = sign_canonical st r p n e t (_signing_key st).
Proof. unfold sign_canonical. by destruct (_signing_key st). Qed.

(**  A key file survives restarts.  Once [ensure_signing_key] has
    succeeded, a new process that runs it on the resulting files loads the same
    key, and a signature made before the restart verifies after it. *)
Theorem restart_verifies fs path fresh wrote st fs' fresh2 wrote2 st2 fs2 ok2
    r p n e t s :
  ensure_signing_key no_keys true fs path fresh wrote = (st, fs', true) ->
  sign_canonical st r p n e t None = Some s ->
  ensure_signing_key no_keys true fs' path fresh2 wrote2 = (st2, fs2, ok2) ->
  ok2 = true /\ fs2 = fs' /\ st2 = st /\ verify_canonical st2 r p n e t s None = true.
Proof.
  intros H1 Hs H2.
  assert (exists d k, fs' !! path = Some d /\ load_pem d = Ok k /\
                      st = MkKeys (Some k) (Some (key_public k))) as (d & k & Hd & Hl & ->).
  { unfold ensure_signing_key, load_signing_key in H1. destruct (fs !! path) as [d|] eqn:Hf.
    - destruct (load_pem d) eqn:Hl; simplify_eq. eauto.
    - destruct (let! k := fresh in let! _ := wrote in Ok k) as [k|]; [|done].
      rewrite lookup_insert_eq, pem_round in H1. simplify_eq.
      exists (private_pem k), k. by rewrite lookup_insert_eq, pem_round. }
  unfold ensure_signing_key, load_signing_key in H2. rewrite !Hd, Hl in H2. simplify_eq.
  repeat split. rewrite sign_canonical_default in Hs. by eapply sign_verify.
Qed.
End verify.

(** A stand-in for the package: keys are strings and a signature is the key
    followed by the message. *)
Module ToyEd25519.

#[export] Instance toy : Ed25519 := {
  private_key := string;
  public_key := string;
  key_public k := k;
  key_sign k m := Ok (k +:+ m)%string;
  key_verify k s m := if decide (s = (k +:+ m)%string) then Ok tt else Raise (OtherError "InvalidSignature");
  b64encode s := s;
  b64decode s := Ok s;
  private_pem k := k;
  load_pem s := Ok s;
}.

#[global] Instance toy_laws : Ed25519Laws toy.
Proof.
  constructor; simpl; try done. intros k m s [= <-]. by rewrite decide_True.
Qed.

Definition empty_ring : keys (E := toy) := no_keys.

Lemma restart_verifies_witness :
  exists st s, sign_canonical (E := toy) st (Some "r") None 0 "e" "t" None = Some s /\
    ensure_signing_key no_keys true ∅ "key.pem" (Ok "K") (Ok tt) =
      (st, {["key.pem" := "K"]}, true) /\
    verify_canonical st (Some "r") None 0 "e" "t" s None = true.
Proof.
  exists (MkKeys (E := toy) (Some "K") (Some "K")), "Kr||0|e|t".
  split; [reflexivity|]. split; [reflexivity|].
  refine (proj2 (proj2 (proj2 (restart_verifies (E := toy) ∅ "key.pem" (Ok "K") (Ok tt)
    (MkKeys (E := toy) (Some "K") (Some "K")) {["key.pem" := "K"]} (Ok "L") (Ok tt)
    _ _ true _ _ _ _ _ _ _ _ _)))); reflexivity.
Defined.
End ToyEd25519.
