(* ===== verification/Lineage.v ===== *)
(** * Reading and verifying a session's chain (lineage/reader.py, lineage/_normalize.py)

    [get_session_timeline] over the rows of the write-ahead log files and
    [verify_chain], with the statement of what a valid verdict means.  The SQL
    of the timeline query is modelled by [select_rows]; opening the files is
    not. *)
From S2P Require Import Prelude ODict PyVal Signing.

Local Open Scope Z_scope.

(** ** The rows of the log *)

Inductive event_type := ev_execution | ev_tool_call.
#[export] Instance event_type_dec : EqDecision event_type.
Proof. solve_decision. Defined.

(** A row of [wal_records] with the columns the timeline query reads; its
    [sequence_number] column holds the record's. *)
Record wal_row := MkRow {
  row_session : option string;
  row_event : event_type;
  row_record : record;
  row_created_at : string;
}.

Definition col_seq (r : wal_row) : option Z := sequence_number (row_record r).

(** [ORDER BY sequence_number ASC, created_at ASC]: SQLite sorts a NULL before
    every value. *)
Definition sql_le (a b : wal_row) : bool :=
  match col_seq a, col_seq b with
  | None, Some _ => true
  | Some _, None => false
  | None, None => String.leb (row_created_at a) (row_created_at b)
  | Some x, Some y => (x <? y) || ((x =? y) && String.leb (row_created_at a) (row_created_at b))
  end.

Definition matches (sid : string) (r : wal_row) : bool :=
  bool_decide (row_session r = Some sid) && bool_decide (row_event r = ev_execution).

(** The query on one file *)
Definition select_rows (sid : string) (limit : nat) (file : list wal_row) : list wal_row :=
  take limit (isort sql_le (List.filter (matches sid) file)).

(** ** Normalisation *)

(** [hash_str[:32]] *)
Definition _legacy_id (hash_str : option string) : option string :=
  match hash_str with
  | None | Some EmptyString => None
  | Some h => Some ("legacy:" +:+ String.substring 0 32 h)%string
  end.

Definition normalize_record (r : record) : record :=
  let rid := match record_id r with
             | None => if otruthy (record_hash r) then _legacy_id (record_hash r) else None
             | Some i => Some i
             end in
  let prev := match previous_record_id r with
              | None => _legacy_id (previous_record_hash r)
              | Some p => Some p
              end in
  let e := match env r with e :: _ => e | [] => MkEnv None None None None None end in
  MkRecord (execution_id r) (timestamp r) (sequence_number r) rid prev (record_signature r)
    (record_hash r) (previous_record_hash r) []
    (env_BlockId e) (env_TransId e) (env_DH e) (env_BL e) (env_CreatedAt e).

(** ** The timeline *)

(** Results carry the row's [created_at] in the key ["_wal_created_at"]. *)
Definition timeline_le (a b : record * string) : bool :=
  match sequence_number a.1, sequence_number b.1 with
  | Some x, Some y => (x <? y) || ((x =? y) && String.leb a.2 b.2)
  | Some _, None => true
  | None, Some _ => false
  | None, None => String.leb a.2 b.2
  end.

Definition get_session_timeline (files : list (list wal_row)) (sid : string) (limit : nat)
    : list record :=
  let rows := concat (map (select_rows sid limit) files) in
  let results := map (fun r => (normalize_record (row_record r), row_created_at r)) rows in
  (take limit (isort timeline_le results)).*1.

(** ** The verifier *)

Inductive level := structural | unverifiable.

Record record_report := MkReport {
  rep_execution_id : string;
  rep_sequence_number : option Z;
  rep_record_id : option string;
  rep_structural_ok : bool;
  rep_signature : sig_status;
  rep_anchor_present : bool;
  rep_valid : bool;
  rep_block_id : option string;
  rep_trans_id : option string;
  rep_dh : option string;
}.

Record sig_counts := MkSigCounts {
  n_valid : Z; n_invalid : Z; n_absent : Z; n_unverifiable : Z;
}.

Record verify_result := MkResult {
  valid : bool;
  verification_level : level;
  records_checked : Z;
  errors : list string;
  result_session_id : string;
  structural_passed : Z;
  structural_failed : Z;
  signatures : sig_counts;
  verify_key_loaded : bool;
  anchors_present : Z;
  anchors_absent : Z;
  records : list record_report;
  walacor_attestation : list (option string * option string * option string * option string);
}.

Section lineage.
Context `{E : Ed25519}.

Definition _empty_verify_result (st : keys) (sid : string) : verify_result :=
  MkResult true structural 0 [] sid 0 0 (MkSigCounts 0 0 0 0) (signing_key_available st)
    0 0 [] [].

(** The variables of the loop *)
Record loop_state := MkLoop {
  errs : list string;
  expected_prev_id : option string;
  per_record : list record_report;
  counts : sig_counts;
  anchor_ok : Z;
  anchor_missing : Z;
}.

Definition count_sig (c : sig_counts) (s : sig_status) : sig_counts :=
  match s with
  | sig_valid => MkSigCounts (n_valid c + 1) (n_invalid c) (n_absent c) (n_unverifiable c)
  | sig_invalid => MkSigCounts (n_valid c) (n_invalid c + 1) (n_absent c) (n_unverifiable c)
  | sig_unverifiable => MkSigCounts (n_valid c) (n_invalid c) (n_absent c) (n_unverifiable c + 1)
  | sig_absent => MkSigCounts (n_valid c) (n_invalid c) (n_absent c + 1) (n_unverifiable c)
  end.

Definition seq_gap (i : Z) (r : record) : bool :=
  match sequence_number r with Some n => negb (n =? i) | None => false end.

Definition has_anchor (r : record) : bool :=
  otruthy (walacor_block_id r) && otruthy (walacor_trans_id r) && otruthy (walacor_dh r).

(** One iteration, for the record at index [i] *)
Definition check_record (st : keys) (l : loop_state) (i : Z) (rec : record) : loop_state :=
  let seq := sequence_number rec in
  let exec := or_empty (execution_id rec) in
  let e1 := if seq_gap i rec then
              ["sequence gap at record " +:+ z_str i +:+ ": expected " +:+ z_str i +:+
               ", got " +:+ z_str (default 0 seq) +:+ " (execution_id=" +:+ exec +:+ ")"]%string
            else [] in
  let e2 := if bool_decide (previous_record_id rec = expected_prev_id l) then [] else
              ["id pointer mismatch at sequence " +:+ z_str i +:+
               ": expected previous_record_id=" +:+ py_repr (ostr (expected_prev_id l)) +:+
               ", got " +:+ py_repr (ostr (previous_record_id rec)) +:+
               " (execution_id=" +:+ exec +:+ ")"]%string in
  let structural_ok := match e1, e2 with [], [] => true | _, _ => false end in
  let s := verify_record_signature st rec in
  let e3 := if bool_decide (s = sig_invalid) then
              ["signature invalid at sequence " +:+ z_str i +:+ " (execution_id=" +:+ exec +:+ ")"]%string
            else [] in
  let a := has_anchor rec in
  MkLoop (errs l ++ e1 ++ e2 ++ e3) (record_id rec)
    (per_record l ++ [MkReport exec seq (record_id rec) structural_ok s a
                        (structural_ok && bool_decide (s <> sig_invalid))
                        (walacor_block_id rec) (walacor_trans_id rec) (walacor_dh rec)])
    (count_sig (counts l) s)
    (anchor_ok l + if a then 1 else 0) (anchor_missing l + if a then 0 else 1).

(** [for i, rec in enumerate(records)] *)
Fixpoint check_records (st : keys) (l : loop_state) (i : Z) (recs : list record) : loop_state :=
  match recs with
  | [] => l
  | r :: recs => check_records st (check_record st l i r) (i + 1) recs
  end.

Definition count_if {A} (f : A -> bool) (l : list A) : Z := zlen (List.filter f l).

Definition verify_records (st : keys) (sid : string) (recs : list record) : verify_result :=
  match recs with
  | [] => _empty_verify_result st sid
  | r0 :: _ =>
      let l := check_records st
                 (MkLoop [] (previous_record_id r0) [] (MkSigCounts 0 0 0 0) 0 0) 0 recs in
      let clean := match errs l with [] => true | _ => false end in
      MkResult clean
        (if negb clean || (0 <? n_invalid (counts l)) then unverifiable else structural)
        (zlen recs) (errs l) sid
        (count_if rep_structural_ok (per_record l))
        (count_if (fun r => negb (rep_structural_ok r)) (per_record l))
        (counts l) (signing_key_available st) (anchor_ok l) (anchor_missing l) (per_record l)
        (map (fun r => (rep_record_id r, rep_block_id r, rep_trans_id r, rep_dh r)) (per_record l))
  end.

(** [verify_chain]: the timeline with its default limit of 500 *)
Definition verify_chain (st : keys) (files : list (list wal_row)) (sid : string) : verify_result :=
  verify_records st sid (get_session_timeline files sid 500).

(** ** What a valid verdict says *)

(** The chain condition: the record at index [i] has sequence number [i] (or
    none), points at its predecessor, and does not carry a bad signature. *)
Fixpoint chained (st : keys) (i : Z) (prev : option string) (recs : list record) : Prop :=
  match recs with
  | [] => True
  | r :: recs =>
      (sequence_number r = None \/ sequence_number r = Some i) /\
      previous_record_id r = prev /\
      verify_record_signature st r <> sig_invalid /\
      chained st (i + 1) (record_id r) recs
  end.

Lemma seq_gap_false i r :
  seq_gap i r = false <-> sequence_number r = None \/ sequence_number r = Some i.
Proof.
  unfold seq_gap. destruct (sequence_number r) as [n|]; [|naive_solver].
  rewrite negb_false_iff, Z.eqb_eq. naive_solver.
Qed.

Lemma check_record_errs st l i r :
  errs (check_record st l i r) = [] <->
  errs l = [] /\ (sequence_number r = None \/ sequence_number r = Some i) /\
  previous_record_id r = expected_prev_id l /\ verify_record_signature st r <> sig_invalid.
Proof.
  unfold check_record. simpl. rewrite <- seq_gap_false.
  destruct (seq_gap i r); repeat case_bool_decide; destruct (errs l); simpl; naive_solver.
Qed.

Lemma check_record_prev st l i r : expected_prev_id (check_record st l i r) = record_id r.
Proof. done. Qed.

Lemma check_records_errs st recs : forall l i,
  errs (check_records st l i recs) = [] <->
  errs l = [] /\ chained st i (expected_prev_id l) recs.
Proof.
  induction recs as [|r recs IH]; intros l i; simpl; [naive_solver|].
  rewrite IH, check_record_errs, check_record_prev. naive_solver.
Qed.

(** Counters and reports *)
Lemma check_records_counts st recs : forall l i,
  let l' := check_records st l i recs in
  zlen (per_record l') = zlen (per_record l) + zlen recs /\
  n_valid (counts l') + n_invalid (counts l') + n_absent (counts l') + n_unverifiable (counts l')
  = n_valid (counts l) + n_invalid (counts l) + n_absent (counts l) + n_unverifiable (counts l)
    + zlen recs /\
  anchor_ok l' + anchor_missing l' = anchor_ok l + anchor_missing l + zlen recs.
Proof.
  induction recs as [|r recs IH]; intros l i; simpl; [rewrite !Z.add_0_r; done|].
  destruct (IH (check_record st l i r) (i + 1)) as (H1 & H2 & H3).
  rewrite H1, H2, H3. clear. unfold check_record. simpl.
  rewrite zlen_app, !zlen_cons, zlen_nil.
  destruct (verify_record_signature st r), (has_anchor r); simpl; lia.
Qed.

Lemma chained_app st recs : forall i prev k,
  chained st i prev (recs ++ k) <->
  chained st i prev recs /\ chained st (i + zlen recs) (default prev (record_id <$> last recs)) k.
Proof.
  induction recs as [|r recs IH]; intros i prev k; simpl.
  - rewrite zlen_nil, Z.add_0_r. naive_solver.
  - rewrite IH, zlen_cons, last_cons. replace (i + (1 + zlen recs)) with (i + 1 + zlen recs) by lia.
    destruct (last recs); simpl; naive_solver.
Qed.

Lemma verify_chain_spec st files sid :
  let recs := get_session_timeline files sid 500 in
  let v := verify_chain st files sid in
  (valid v = true <-> chained st 0 (mbind previous_record_id (head recs)) recs) /\
  (verification_level v = unverifiable <-> valid v = false) /\
  records_checked v = zlen recs /\ zlen (records v) = zlen recs /\
  (valid v = true -> structural_failed v = 0 \/ recs = []).
Proof.
  intros recs v. subst v. unfold verify_chain. fold recs. unfold verify_records.
  destruct recs as [|r0 recs'] eqn:Hr; [simpl; naive_solver|].
  rewrite <- Hr. cbv zeta. set (l0 := MkLoop _ _ _ _ _ _).
  pose proof (check_records_errs st recs l0 0) as He.
  destruct (check_records_counts st recs l0 0) as (Hl & _ & _).
  assert (forall recs l i, errs (check_records st l i recs) = [] ->
    n_invalid (counts (check_records st l i recs)) = n_invalid (counts l) /\
    List.filter (fun r => negb (rep_structural_ok r)) (per_record (check_records st l i recs)) =
    List.filter (fun r => negb (rep_structural_ok r)) (per_record l)) as Hinv.
  { clear. induction recs as [|r recs IH]; intros l i; simpl; [done|]. intros H.
    destruct (IH _ _ H) as [-> ->].
    apply check_records_errs in H as [H _]. unfold check_record in *. simpl in *.
    apply app_nil in H as [_ [H1 [H2 H3]%app_nil]%app_nil]. rewrite H1, H2.
    rewrite List.filter_app. simpl. rewrite app_nil_r.
    case_bool_decide as Hs; [done|]. by destruct (verify_record_signature st r). }
  specialize (Hinv recs l0 0). simpl in Hl, He.
  destruct (errs (check_records st l0 0 recs)) as [|e es] eqn:Herr; simpl.
  - destruct Hinv as [Hi Hf]; [done|]. rewrite Hi. unfold count_if. rewrite Hf. simpl.
    split; [|split; [done|split; [done|split; [done|by left]]]].
    split; [intros _|done]. rewrite Hr in He. simpl in He. rewrite Hr. simpl. naive_solver.
  - split; [|naive_solver]. split; [done|]. intros Hc. exfalso.
    rewrite Hr in Hc, He. simpl in Hc, He. naive_solver.
Qed.

(** C13.  A verdict is exact.  [verify_chain] answers [valid] exactly when the
    timeline it reads is a chain: the record at index [i] is numbered [i] (or
    not numbered), every record after the first points at the record before it,
    and no signature on a record is a bad one; and the verdict's level is
    [unverifiable] exactly when it is not valid. *)
Theorem verify_chain_exact st files sid :
  let recs := get_session_timeline files sid 500 in
  let v := verify_chain st files sid in
  (valid v = true <-> chained st 0 (mbind previous_record_id (head recs)) recs) /\
  (verification_level v = unverifiable <-> valid v = false) /\
  records_checked v = zlen recs /\ zlen (records v) = zlen recs /\
  (valid v = true -> structural_failed v = 0 \/ recs = []).
Proof. exact (verify_chain_spec st files sid). Qed.

Definition ex_rec (n : Z) (id : string) (prev : option string) : record :=
  MkRecord (Some ("e" +:+ id)%string) (Some "t") (Some n) (Some id) prev None None None []
    None None None None None.

Definition ex_row (n : Z) (id : string) (prev : option string) : wal_row :=
  MkRow (Some "s") ev_execution (ex_rec n id prev) "2026-01-01".

(**  Only the first 500 records are looked at.  Whatever records are
    appended to a session of 500 well-ordered records, its verdict and the number
    of records it counts stay the same, so tampering with the tail of a long
    session is never reported. *)
Theorem verify_chain_prefix st file extra sid :
  ordered sql_le (file ++ extra) -> Forall (fun r => matches sid r = true) (file ++ extra) ->
  length file = 500%nat ->
  verify_chain st [file ++ extra] sid = verify_chain st [file] sid.
Proof.
  intros Ho Hm Hlen. unfold verify_chain, get_session_timeline. simpl. do 4 f_equal.
  unfold select_rows.
  assert (forall l, Forall (fun r => matches sid r = true) l -> List.filter (matches sid) l = l) as Hf.
  { clear. induction 1 as [|r l Hr Hl IH]; simpl; [done|]. by rewrite Hr, IH. }
  assert (ordered sql_le file) as Hof.
  { clear -Ho. induction file as [|r l IH]; [constructor|]. simpl in Ho. inversion Ho; subst.
    constructor; [|auto]. intros y Hy. apply H1. apply elem_of_app. by left. }
  pose proof Hm as [Hmf _]%Forall_app.
  rewrite !Hf by done. rewrite !isort_id by done. by rewrite take_app_le by lia.
Qed.
End lineage.

(** A session of 500 linked records and a forged one after it *)
Definition long_session : list wal_row :=
  map (fun i => ex_row (Z.of_nat i) (z_str (Z.of_nat i))
                  (match i with O => None | S j => Some (z_str (Z.of_nat j)) end)) (seq 0 500).

Lemma verify_chain_prefix_witness :
  let file := long_session in
  let bad := [ex_row 777 "x" (Some "forged")] in
  valid (verify_chain (E := ToyEd25519.toy) ToyEd25519.empty_ring [file ++ bad] "s") = true /\
  verify_chain (E := ToyEd25519.toy) ToyEd25519.empty_ring [file ++ bad] "s" = verify_chain ToyEd25519.empty_ring [file] "s".
Proof.
  split; [vm_compute; reflexivity|].
  apply (verify_chain_prefix (E := ToyEd25519.toy) ToyEd25519.empty_ring long_session
           [ex_row 777 "x" (Some "forged")] "s").
  - apply orderedb_ok. vm_compute. reflexivity.
  - apply Forall_forall. intros r Hr. apply list_elem_of_In in Hr.
    revert r Hr. apply forallb_forall. vm_compute. reflexivity.
  - reflexivity.
Defined.
