(* ===== verification/SessionChain.v ===== *)
(** * The session chain trackers (pipeline/session_chain.py)

    [Memory] is [SessionChainTracker], [Redis] is [RedisSessionChainTracker]
    over the Redis commands it issues.  [ChainTracker] is what the helpers of
    [pipeline/chain_helpers.py] need of either one, [ChainTrackerLaws] the
    contract an ID-pointer chain needs: the in-memory tracker satisfies it, the
    Redis tracker does not ([redis_sequence_repeats]). *)
From Stdlib Require Import DecimalString DecimalZ.
From S2P Require Import Prelude ODict PyVal.

Local Open Scope Z_scope.

(** ["0" * 128] *)
Definition _GENESIS_HASH : string := String.concat "" (repeat "0" 128).

Record ChainValues := MkChainValues {
  sequence_number : Z;
  previous_record_hash : string;
  previous_record_id : option string;
}.

(** ** The interface *)

Class ChainTracker (T : Type) := {
  (** [session_lock]: the tracker and the identity of the lock object *)
  ct_lock : T -> string -> T * nat;
  (** [next_chain_values session_id], at a clock reading *)
  ct_next : T -> string -> Z -> res (T * ChainValues);
  (** [update session_id sequence_number record_hash record_id] *)
  ct_update : T -> string -> Z -> string -> option string -> Z -> res T;
}.

(** The contract.  [ct_last] is the last reserved sequence number and the id
    of the last recorded record, [ct_lockof] the lock a session has now,
    [ct_fits t S] that the tracker holds only sessions of [S] and that all
    of [S] fits without eviction. *)
Class ChainTrackerLaws (T : Type) `{ChainTracker T} := {
  ct_last : T -> string -> option (Z * option string);
  ct_lockof : T -> string -> option nat;
  ct_fits : T -> gset string -> Prop;

  ct_next_law t S s now : ct_fits t S -> s ∈ S ->
    exists t' v, ct_next t s now = Ok (t', v) /\ ct_fits t' S /\
      sequence_number v = match ct_last t s with Some (n, _) => n + 1 | None => 0 end /\
      previous_record_id v = match ct_last t s with Some (_, r) => r | None => None end /\
      ct_last t' s = Some (sequence_number v, previous_record_id v) /\
      (forall s', s' <> s -> ct_last t' s' = ct_last t s') /\
      (forall s', ct_lockof t' s' = ct_lockof t s');

  ct_update_law t S s n h r now : ct_fits t S -> s ∈ S ->
    exists t', ct_update t s n h r now = Ok t' /\ ct_fits t' S /\
      ct_last t' s = Some match ct_last t s with
                          | Some (m, r') => (Z.max n m, match r with Some _ => r | None => r' end)
                          | None => (n, r)
                          end /\
      (forall s', s' <> s -> ct_last t' s' = ct_last t s') /\
      (forall s', ct_lockof t' s' = ct_lockof t s');

  ct_lock_law t S s : ct_fits t S -> s ∈ S ->
    let '(t', l) := ct_lock t s in
    ct_fits t' S /\ ct_lockof t' s = Some l /\
    (ct_lockof t s = Some l \/
     ct_lockof t s = None /\ forall s', ct_lockof t s' <> Some l) /\
    (forall s', s' <> s -> ct_lockof t' s' = ct_lockof t s') /\
    (forall s', ct_last t' s' = ct_last t s');
}.

(** ** The in-memory tracker *)
Module Memory.

Record SessionState := MkState {
  session_id : string;
  last_sequence_number : Z;
  last_record_hash : string;
  last_activity : Z;
  last_record_id : option string;
}.

(** [_session_locks] maps a session to its lock object; the objects are
    numbered in order of creation, [_next_lock] is the next one. *)
Record tracker := MkTracker {
  _max : Z;
  _ttl : Z;
  _sessions : list (string * SessionState);
  _session_locks : gmap string nat;
  _next_lock : nat;
}.

Definition init (max_sessions ttl_seconds : Z) : tracker :=
  MkTracker max_sessions ttl_seconds [] ∅ 0.

Definition with_sessions (d : list (string * SessionState)) (t : tracker) : tracker :=
  MkTracker (_max t) (_ttl t) d (_session_locks t) (_next_lock t).

Definition session_lock (t : tracker) (sid : string) : tracker * nat :=
  match _session_locks t !! sid with
  | Some l => (t, l)
  | None =>
      let l := _next_lock t in
      (MkTracker (_max t) (_ttl t) (_sessions t) (<[sid := l]> (_session_locks t)) (S l), l)
  end.

Definition next_chain_values (t : tracker) (sid : string) (now : Z) : tracker * ChainValues :=
  match od_get sid (_sessions t) with
  | None =>
      let d := od_set sid (MkState sid 0 _GENESIS_HASH now None) (_sessions t) in
      (with_sessions (od_move_to_end sid d) t, MkChainValues 0 _GENESIS_HASH None)
  | Some state =>
      let next_seq := last_sequence_number state + 1 in
      let prev_hash := last_record_hash state in
      let prev_record_id := last_record_id state in
      let state' := MkState (session_id state) next_seq prev_hash now prev_record_id in
      let d := od_set sid state' (_sessions t) in
      (with_sessions (od_move_to_end sid d) t, MkChainValues next_seq prev_hash prev_record_id)
  end.

(** [_evict_locked]: the sessions idle beyond the TTL go, then the oldest
    until the limit holds; every removed session also loses its lock entry. *)
Definition _evict_locked (t : tracker) (now : Z) : tracker :=
  let cutoff := now - seconds (_ttl t) in
  let to_delete := (filter (fun kv => last_activity kv.2 < cutoff) (_sessions t)).*1 in
  let d := foldl (fun d sid => od_del sid d) (_sessions t) to_delete in
  let locks := foldl (fun m sid => delete sid m) (_session_locks t) to_delete in
  let d' := od_trim (_max t) d in
  let popped := take (length d - length d') (od_keys d) in
  let locks := foldl (fun m sid => delete sid m) locks popped in
  MkTracker (_max t) (_ttl t) d' locks (_next_lock t).

Definition update (t : tracker) (sid : string) (seq : Z) (record_hash : string)
    (record_id : option string) (now : Z) : tracker :=
  let existing := od_get sid (_sessions t) in
  let effective_seq := match existing with
                       | Some e => Z.max seq (last_sequence_number e)
                       | None => seq
                       end in
  let hash := if bool_decide (record_hash = "") then
                match existing with Some e => last_record_hash e | None => _GENESIS_HASH end
              else record_hash in
  let rid := match record_id with
             | Some _ => record_id
             | None => match existing with Some e => last_record_id e | None => None end
             end in
  let d := od_set sid (MkState sid effective_seq hash now rid) (_sessions t) in
  let t := with_sessions (od_move_to_end sid d) t in
  if _max t <? zlen (_sessions t) then _evict_locked t now else t.

(** An entry of [warm]'s argument: a tuple of two, three or four elements. *)
Inductive warm_entry :=
  | Entry2 (sid : string) (seq : Z)
  | Entry3 (sid : string) (seq : Z) (hash_val : string)
  | Entry4 (sid : string) (seq : Z) (hash_val : string) (rec_id : option string).

Definition warm_state (e : warm_entry) (now : Z) : SessionState :=
  match e with
  | Entry2 sid seq => MkState sid seq _GENESIS_HASH now None
  | Entry3 sid seq h => MkState sid seq h now None
  | Entry4 sid seq h r => MkState sid seq h now r
  end.

Definition warm (t : tracker) (sessions : list warm_entry) (now : Z) : tracker :=
  with_sessions (foldl (fun d e => od_set (session_id (warm_state e now)) (warm_state e now) d)
                       (_sessions t) sessions) t.

Definition active_session_count (t : tracker) : Z := zlen (_sessions t).

(** ** The tracker keeps the contract while its sessions fit *)

Definition last (t : tracker) (s : string) : option (Z * option string) :=
  (fun st => (last_sequence_number st, last_record_id st)) <$> od_get s (_sessions t).

Record fits (t : tracker) (S : gset string) : Prop := {
  fits_wf : od_wf (_sessions t);
  fits_dom : forall k, k ∈ od_keys (_sessions t) -> k ∈ S;
  fits_room : Z.of_nat (size S) <= _max t;
  fits_fresh : forall k l, _session_locks t !! k = Some l -> (l < _next_lock t)%nat;
}.

Lemma fits_len t S : fits t S -> zlen (_sessions t) <= _max t.
Proof.
  intros [Hwf Hdom Hroom _]. unfold zlen.
  assert (length (od_keys (_sessions t)) <= size S)%nat; [|unfold od_keys in *; rewrite length_fmap in *; lia].
  rewrite <- (size_list_to_set (C := gset string)) by done.
  apply subseteq_size. intros k Hk. apply elem_of_list_to_set in Hk. auto.
Qed.

Lemma fits_set t S sid st :
  fits t S -> sid ∈ S ->
  fits (with_sessions (od_move_to_end sid (od_set sid st (_sessions t))) t) S.
Proof.
  intros [Hwf Hdom Hroom Hf] Hs. constructor; simpl; auto with provn.
  intros k [->|Hk]%od_move_keys_elem%od_set_keys_elem; auto.
Qed.

Lemma last_set t sid st s :
  od_wf (_sessions t) ->
  last (with_sessions (od_move_to_end sid (od_set sid st (_sessions t))) t) s =
  if decide (sid = s) then Some (last_sequence_number st, last_record_id st) else last t s.
Proof.
  intros Hwf. unfold last. simpl. rewrite od_get_move by auto with provn. case_decide as Hd.
  - subst. by rewrite od_get_set_eq.
  - by rewrite od_get_set_ne.
Qed.

Lemma update_no_evict t S sid seq h r now :
  fits t S -> sid ∈ S ->
  exists st, update t sid seq h r now =
    with_sessions (od_move_to_end sid (od_set sid st (_sessions t))) t /\
    last_sequence_number st = match last t sid with Some (m, _) => Z.max seq m | None => seq end /\
    last_record_id st = match r with
                        | Some _ => r
                        | None => match last t sid with Some (_, r') => r' | None => None end
                        end.
Proof.
  intros Hf Hs. eexists. unfold update. split.
  - pose proof (fits_len _ _ (fits_set t S sid (MkState sid
      (match od_get sid (_sessions t) with Some e => Z.max seq (last_sequence_number e) | None => seq end)
      (if bool_decide (h = "") then
         match od_get sid (_sessions t) with Some e => last_record_hash e | None => _GENESIS_HASH end
       else h) now
      (match r with Some _ => r | None =>
         match od_get sid (_sessions t) with Some e => last_record_id e | None => None end end))
      Hf Hs)) as Hlen.
    rewrite (proj2 (Z.ltb_ge _ _)) by exact Hlen. reflexivity.
  - unfold last. simpl. by destruct (od_get sid (_sessions t)).
Qed.

#[global] Instance tracker_ct : ChainTracker tracker := {
  ct_lock := session_lock;
  ct_next t s now := Ok (next_chain_values t s now);
  ct_update t s n h r now := Ok (update t s n h r now);
}.

#[global, refine] Instance tracker_laws : ChainTrackerLaws tracker := {
  ct_last := last;
  ct_lockof t s := _session_locks t !! s;
  ct_fits := fits;
}.
Proof.
  - intros t S s now Hf Hs. simpl. unfold next_chain_values.
    pose proof (fits_wf _ _ Hf) as Hwf.
    destruct (od_get s (_sessions t)) as [st|] eqn:Hg; eexists _, _; (split; [reflexivity|]);
      (split; [by apply fits_set|]); unfold last at 1 2; rewrite Hg; simpl;
      (split; [done|]); (split; [done|]);
      (split; [rewrite last_set by done; by rewrite decide_True|]);
      (split; [|done]); intros s' Hne; rewrite last_set by done; by rewrite decide_False.
  - intros t S s n h r now Hf Hs. simpl.
    destruct (update_no_evict t S s n h r now Hf Hs) as (st & -> & Hseq & Hrid).
    eexists. split; [reflexivity|]. split; [by apply fits_set|].
    rewrite !last_set by apply (fits_wf _ _ Hf). rewrite decide_True by done.
    split; [|split; [|done]].
    + rewrite Hseq, Hrid. destruct (last t s) as [[m r']|]; [done|]. by destruct r.
    + intros s' Hne. rewrite last_set by apply (fits_wf _ _ Hf). by rewrite decide_False.
  - intros t S s [Hwf Hdom Hroom Hfr] Hs. simpl. unfold session_lock.
    destruct (_session_locks t !! s) as [l|] eqn:Hl.
    + repeat split; auto.
    + split; [constructor; simpl; auto|split; [apply lookup_insert_eq|]].
      * intros k l. destruct (decide (s = k)) as [->|Hne].
        -- rewrite lookup_insert_eq. naive_solver lia.
        -- rewrite lookup_insert_ne by done. intros ?%Hfr. lia.
      * simpl. split; [right; split; [done|]|split; [|done]].
        -- intros s' ?%Hfr. lia.
        -- intros s' Hne. by rewrite lookup_insert_ne.
Defined.

End Memory.

(** ** The Redis tracker *)

(** The Redis commands the tracker sends.  [r_up] says whether a pipeline
    reaches the server; a pipeline that does not raises. *)
Class RedisHash (R : Type) := {
  r_up : R -> bool;
  r_hincrby : R -> string -> string -> Z -> R * Z;
  r_hget : R -> string -> string -> option string;
  r_hset : R -> string -> string -> string -> R;
  r_expire : R -> string -> Z -> R;
}.

(** What the Redis manual says of them: [HSET] then [HGET] gives the value,
    other fields and the connection are untouched, [HINCRBY] adds to the decimal
    integer stored (0 when there is none) and returns the sum, [EXPIRE] sets a
    time to live and keeps the fields. *)
Class RedisHashLaws (R : Type) `{RedisHash R} := {
  r_hset_get r k f v : r_hget (r_hset r k f v) k f = Some v;
  r_hset_other r k f v k' f' : (k', f') <> (k, f) ->
    r_hget (r_hset r k f v) k' f' = r_hget r k' f';
  r_hset_up r k f v : r_up (r_hset r k f v) = r_up r;
  r_hincrby_absent r k f n : r_hget r k f = None -> snd (r_hincrby r k f n) = n;
  r_hincrby_int r k f n z : r_hget r k f = Some (z_str z) -> snd (r_hincrby r k f n) = z + n;
  r_hincrby_get r k f n :
    r_hget (fst (r_hincrby r k f n)) k f = Some (z_str (snd (r_hincrby r k f n)));
  r_hincrby_other r k f n k' f' : (k', f') <> (k, f) ->
    r_hget (fst (r_hincrby r k f n)) k' f' = r_hget r k' f';
  r_hincrby_up r k f n : r_up (fst (r_hincrby r k f n)) = r_up r;
  r_expire_get r k n k' f' : r_hget (r_expire r k n) k' f' = r_hget r k' f';
  r_expire_up r k n : r_up (r_expire r k n) = r_up r;
}.

Module Redis.
Section redis.
Context {R : Type} `{RedisHash R}.

(** [_r], [_ttl] and [_session_locks] *)
Record tracker := MkTracker {
  _r : R;
  _ttl : Z;
  _session_locks : gmap string nat;
  _next_lock : nat;
}.

Definition _HASH_FIELD_SEQ : string := "seq".
Definition _HASH_FIELD_HASH : string := "hash".
Definition _HASH_FIELD_RECORD_ID : string := "record_id".

Definition with_r (r : R) (t : tracker) : tracker :=
  MkTracker r (_ttl t) (_session_locks t) (_next_lock t).

Definition session_lock (t : tracker) (sid : string) : tracker * nat :=
  match _session_locks t !! sid with
  | Some l => (t, l)
  | None =>
      let l := _next_lock t in
      (MkTracker (_r t) (_ttl t) (<[sid := l]> (_session_locks t)) (S l), l)
  end.

Definition _key (sid : string) : string := ("gateway:session:" +:+ sid)%string.

(** The empty string is false in Python. *)
Definition nonempty (o : option string) : option string :=
  match o with Some EmptyString => None | _ => o end.

Definition redis_down {A} : res A := Raise (OtherError "redis.ConnectionError").

Definition next_chain_values (t : tracker) (sid : string) : res (tracker * ChainValues) :=
  if r_up (_r t) then
    let key := _key sid in
    let '(r, new_seq_raw) := r_hincrby (_r t) key _HASH_FIELD_SEQ 1 in
    let raw_hash := r_hget r key _HASH_FIELD_HASH in
    let raw_record_id := r_hget r key _HASH_FIELD_RECORD_ID in
    let r := r_expire r key (_ttl t) in
    let seq_num := new_seq_raw - 1 in
    let prev_hash := default _GENESIS_HASH (nonempty raw_hash) in
    let prev_record_id := nonempty raw_record_id in
    Ok (with_r r t, MkChainValues seq_num prev_hash prev_record_id)
  else redis_down.

Definition update (t : tracker) (sid : string) (seq_num : Z) (record_hash : string)
    (record_id : option string) : res tracker :=
  if r_up (_r t) then
    let key := _key sid in
    let r := r_hset (_r t) key _HASH_FIELD_SEQ (z_str seq_num) in
    let r := r_hset r key _HASH_FIELD_HASH record_hash in
    let r := match record_id with
             | Some id => r_hset r key _HASH_FIELD_RECORD_ID id
             | None => r
             end in
    let r := r_expire r key (_ttl t) in
    Ok (with_r r t)
  else redis_down.

Definition active_session_count (t : tracker) : Z := -1.

#[global] Instance tracker_ct : ChainTracker tracker := {
  ct_lock := session_lock;
  ct_next t s _ := next_chain_values t s;
  ct_update t s n h r _ := update t s n h r;
}.

Context `{!RedisHashLaws R}.

Ltac other_field :=
  unfold _HASH_FIELD_SEQ, _HASH_FIELD_HASH, _HASH_FIELD_RECORD_ID; congruence.

Lemma update_seq t t' sid n h r :
  update t sid n h r = Ok t' ->
  r_up (_r t') = r_up (_r t) /\
  r_hget (_r t') (_key sid) _HASH_FIELD_SEQ = Some (z_str n) /\
  (forall id, r = Some id -> r_hget (_r t') (_key sid) _HASH_FIELD_RECORD_ID = Some id).
Proof.
  unfold update. destruct (r_up (_r t)) eqn:Hup; [|done]. intros [= <-]. simpl.
  rewrite r_expire_up. destruct r as [id|]; simpl; rewrite ?r_expire_get, ?r_hset_up.
  - split; [done|]. split.
    + rewrite r_hset_other by other_field. rewrite r_hset_other by other_field. apply r_hset_get.
    + intros ? [= <-]. by rewrite r_hset_get.
  - split; [done|]. split; [|done]. rewrite r_hset_other by other_field. apply r_hset_get.
Qed.

(**  The Redis tracker hands out every sequence number twice.  A turn
    reserves a number with [HINCRBY] and then stores that same number back with
    [update], so the counter falls by one and the next turn of the session
    reserves the number again -- for every session and every state of the
    server. *)
Theorem redis_sequence_repeats t1 v1 t2 t3 v2 t0 sid h id :
  next_chain_values t0 sid = Ok (t1, v1) ->
  update t1 sid (sequence_number v1) h (Some id) = Ok t2 ->
  next_chain_values t2 sid = Ok (t3, v2) ->
  id <> "" ->
  sequence_number v2 = sequence_number v1 /\ previous_record_id v2 = Some id.
Proof.
  intros _ Hu Hn Hid.
  destruct (update_seq _ _ _ _ _ _ Hu) as (Hup & Hs & Hr). specialize (Hr _ eq_refl).
  unfold next_chain_values in Hn. destruct (r_up (_r t2)); [|done].
  destruct (r_hincrby (_r t2) (_key sid) _HASH_FIELD_SEQ 1) as [r n] eqn:Hi.
  pose proof (r_hincrby_int (_r t2) (_key sid) _HASH_FIELD_SEQ 1 _ Hs) as Hint.
  rewrite Hi in Hint. simpl in Hint. simplify_eq/=. split; [lia|].
  pose proof (r_hincrby_other (_r t2) (_key sid) _HASH_FIELD_SEQ 1
                (_key sid) _HASH_FIELD_RECORD_ID) as Ho.
  rewrite Hi in Ho. simpl in Ho. rewrite Ho by other_field. rewrite Hr. by destruct id.
Qed.
End redis.
End Redis.

(** A server that is always up: a finite map of fields, integers stored in
    decimal. *)
Module ToyRedis.

Definition fields : Type := gmap (string * string) string.

Definition parse_int (s : string) : Z :=
  match NilEmpty.int_of_string s with Some d => Z.of_int d | None => 0 end.

#[export] Instance fields_redis : RedisHash fields := {
  r_up _ := true;
  r_hincrby m k f n :=
    let z := match m !! (k, f) with Some v => parse_int v + n | None => n end in
    (<[(k, f) := z_str z]> m, z);
  r_hget m k f := m !! (k, f);
  r_hset m k f v := <[(k, f) := v]> m;
  r_expire m _ _ := m;
}.

Lemma parse_z_str z : parse_int (z_str z) = z.
Proof. unfold parse_int, z_str. by rewrite NilEmpty.isi, DecimalZ.of_to. Qed.

#[export] Instance fields_laws : RedisHashLaws fields.
Proof.
  constructor; simpl; unfold fields; intros; simplify_map_eq; try done.
  by rewrite parse_z_str.
Qed.

Definition empty : Redis.tracker (R := fields) := Redis.MkTracker ∅ 3600 ∅ 0.

Lemma redis_sequence_repeats_witness :
  exists t1 v1 t2 t3 v2,
    Redis.next_chain_values empty "s" = Ok (t1, v1) /\
    Redis.update t1 "s" (sequence_number v1) "" (Some "rec-0") = Ok t2 /\
    Redis.next_chain_values t2 "s" = Ok (t3, v2) /\
    sequence_number v2 = sequence_number v1 /\ previous_record_id v2 = Some "rec-0".
Proof.
  do 5 eexists. split; [reflexivity|]. split; [reflexivity|]. split; [reflexivity|].
  eapply (Redis.redis_sequence_repeats _ _ _ _ _ empty "s" "" "rec-0");
    [reflexivity|reflexivity|reflexivity|discriminate].
Defined.
End ToyRedis.
