(* ===== verification/ChainHelpers.v ===== *)
(** * Attaching the session chain to a record (pipeline/chain_helpers.py)

    [apply_session_chain] reserves the chain values and signs,
    [advance_session_chain] moves the tracker after the write, and
    [_session_chain_lock] (pipeline/orchestrator.py) and
    [session_chain_critical_section] name the lock around both.  The tracker is
    any implementation of [ChainTracker]. *)
From S2P Require Import Prelude ODict PyVal SessionChain Signing.

Local Open Scope Z_scope.

Record ChainResult := MkChainResult {
  applied : bool;
  cr_sequence_number : option Z;
  cr_previous_record_id : option string;
  record_signature_attempted : bool;
  record_signature_ok : bool;
}.

Definition not_applied : ChainResult := MkChainResult false None None false false.

(** The two settings read here *)
Record settings := MkSettings {
  session_chain_enabled : bool;
  record_signing_enabled : bool;
}.

(** [record["sequence_number"] = n; record["previous_record_id"] = p] *)
Definition set_chain_fields (n : Z) (p : option string) (r : record) : record :=
  MkRecord (execution_id r) (timestamp r) (Some n) (record_id r) p (record_signature r)
    (record_hash r) (previous_record_hash r) (env r) (walacor_block_id r) (walacor_trans_id r)
    (walacor_dh r) (walacor_block_level r) (walacor_created_at r).

Definition set_signature (s : string) (r : record) : record :=
  MkRecord (execution_id r) (timestamp r) (sequence_number r) (record_id r)
    (previous_record_id r) (Some s)
    (record_hash r) (previous_record_hash r) (env r) (walacor_block_id r) (walacor_trans_id r)
    (walacor_dh r) (walacor_block_level r) (walacor_created_at r).

Section helpers.
Context `{E : Ed25519} {T : Type} `{ChainTracker T}.

(** The signing part: the record and [record_signature_ok].  [sign_canonical]
    catches every exception of its own. *)
Definition stamp_signature (st : keys) (n : Z) (r : record) : record * bool :=
  if signing_key_available st then
    match sign_canonical st (record_id r) (previous_record_id r) n
            (or_empty (execution_id r)) (or_empty (timestamp r)) None with
    | Some sig => if otruthy (Some sig) then (set_signature sig r, true) else (r, false)
    | None => (r, false)
    end
  else (r, false).

(** [ctx.session_chain] is [None] when there is no tracker; [now] is the
    clock reading of [next_chain_values]. *)
Definition apply_session_chain (st : keys) (cfg : settings) (tracker : option T)
    (r : record) (session_id : option string) (now : Z) : option T * record * ChainResult :=
  match session_id, tracker with
  | Some sid, Some t =>
      if bool_decide (sid <> "") && session_chain_enabled cfg then
        match ct_next t sid now with
        | Raise _ => (tracker, r, not_applied)
        | Ok (t, v) =>
            let seq_num := SessionChain.sequence_number v in
            let prev := SessionChain.previous_record_id v in
            let r := set_chain_fields seq_num prev r in
            let '(r, sig_ok) := if record_signing_enabled cfg
                                then stamp_signature st seq_num r else (r, false) in
            (Some t, r, MkChainResult true (Some seq_num) prev (record_signing_enabled cfg) sig_ok)
        end
      else (tracker, r, not_applied)
  | _, _ => (tracker, r, not_applied)
  end.

(** A failing update is logged and leaves the tracker as it was. *)
Definition advance_session_chain (tracker : option T) (r : record)
    (session_id : option string) (res : ChainResult) (now : Z) : option T :=
  if applied res then
    match session_id, tracker, cr_sequence_number res with
    | Some sid, Some t, Some n =>
        if bool_decide (sid <> "") then
          match ct_update t sid n "" (record_id r) now with
          | Ok t => Some t
          | Raise _ => tracker
          end
        else tracker
    | _, _, _ => tracker
    end
  else tracker.

(** The lock of the critical section: [None] when it is skipped. *)
Definition session_chain_critical_section (tracker : option T) (session_id : option string)
    : option T * option nat :=
  match session_id, tracker with
  | Some sid, Some t =>
      if bool_decide (sid <> "") then
        let '(t, l) := ct_lock t sid in (Some t, Some l)
      else (tracker, None)
  | _, _ => (tracker, None)
  end.

(** The orchestrator's copy of the same context manager *)
Definition _session_chain_lock := session_chain_critical_section.

(** ** Equations *)

Lemma stamp_signature_fields st n r :
  let r' := (stamp_signature st n r).1 in
  execution_id r' = execution_id r /\ timestamp r' = timestamp r /\
  Signing.sequence_number r' = Signing.sequence_number r /\ record_id r' = record_id r /\
  Signing.previous_record_id r' = Signing.previous_record_id r /\
  record_hash r' = record_hash r /\ previous_record_hash r' = previous_record_hash r /\
  env r' = env r.
Proof. unfold stamp_signature. repeat case_match; done. Qed.

(** A stamped record carries no bad signature under the keys that stamped it. *)
Definition matching_keys (st : keys) : Prop :=
  forall k, _signing_key st = Some k -> _verify_key st = Some (key_public k).

Lemma stamp_signature_ok {L : Ed25519Laws E} st n r :
  matching_keys st -> record_signature r = None -> Signing.sequence_number r = Some n ->
  verify_record_signature st (stamp_signature st n r).1 <> sig_invalid.
Proof.
  intros Hk Hs Hn. unfold stamp_signature.
  destruct (signing_key_available st) eqn:Ha; [|unfold verify_record_signature; simpl; by rewrite Hs].
  destruct (sign_canonical _ _ _ _ _ _ _) as [sig|] eqn:Hsig;
    [|unfold verify_record_signature; simpl; by rewrite Hs].
  destruct (otruthy (Some sig)) eqn:Ht; [|unfold verify_record_signature; simpl; by rewrite Hs].
  unfold verify_record_signature. simpl. destruct sig as [|c sig]; [done|].
  rewrite Hn. simpl. rewrite sign_canonical_default in Hsig.
  destruct (_signing_key st) as [k|] eqn:Hsk; [|unfold sign_canonical in Hsig; by rewrite Hsk in Hsig].
  rewrite (Hk k) by done. by erewrite sign_verify by eauto.
Qed.

Lemma apply_ok st cfg t t' sid r now v :
  sid <> "" -> session_chain_enabled cfg = true -> ct_next t sid now = Ok (t', v) ->
  exists r' ok,
    apply_session_chain st cfg (Some t) r (Some sid) now =
      (Some t', r', MkChainResult true (Some (SessionChain.sequence_number v))
                 (SessionChain.previous_record_id v) (record_signing_enabled cfg) ok) /\
    r' = (if record_signing_enabled cfg
          then (stamp_signature st (SessionChain.sequence_number v)
                  (set_chain_fields (SessionChain.sequence_number v)
                     (SessionChain.previous_record_id v) r)).1
          else set_chain_fields (SessionChain.sequence_number v)
                 (SessionChain.previous_record_id v) r).
Proof.
  intros Hs He Hn. unfold apply_session_chain.
  rewrite bool_decide_true by done. rewrite He, Hn. simpl.
  destruct (record_signing_enabled cfg); [|eauto].
  destruct (stamp_signature _ _ _) as [r' ok]; eauto.
Qed.
End helpers.
