(* ===== verification/ChainSystem.v ===== *)
(** * Concurrent turns of many sessions (the write path of pipeline/orchestrator.py)

    Every request runs the critical section of [_after_stream_record] and
    [_skip_governance_after_stream], or of [_build_and_write_record]: take the
    session's lock, reserve and stamp the chain values, write the record, advance
    the tracker (in the first two only when the write succeeded), release the
    lock.  A request is a task, and the asyncio loop interleaves the tasks at
    their awaits: [exec] runs any sequence of the events below.  The tracker is
    any [ChainTracker]; the theorems assume its laws, that is, that no session is
    evicted while it is in use. *)
From stdpp Require Import functions.
From S2P Require Import Prelude ODict PyVal SessionChain Signing Lineage ChainHelpers.

Local Open Scope Z_scope.

#[local] Arguments apply_session_chain : simpl never.
#[local] Arguments advance_session_chain : simpl never.
#[local] Arguments normalize_record : simpl never.

(** Where a task stands: before the lock, waiting for the lock object it
    fetched, inside the section, with a stamped record, after the write, after
    the advance, done. *)
Inductive pc :=
  | Idle
  | Waiting (l : nat)
  | Entered (l : nat)
  | Reserved (l : nat) (r : record) (res : ChainResult)
  | Written (l : nat) (r : record) (res : ChainResult)
  | Leaving (l : nat)
  | Finished.

(** [Write i ok ts]: the outcome of [storage.write_execution] and the time in
    the row. *)
Inductive event :=
  | Lock (i : nat)
  | Acquire (i : nat)
  | Reserve (i : nat) (now : Z)
  | Write (i : nat) (ok : bool) (ts : string)
  | Advance (i : nat) (now : Z)
  | Release (i : nat).

Section system.
Context `{E : Ed25519} {T : Type} `{ChainTracker T}.

(** The keys, the settings, each task's session and record, and whether the task
    advances the tracker only after a successful write: the streamed paths do,
    [_build_and_write_record] advances it in any case. *)
Variables (st : keys) (cfg : settings) (sess : nat -> string) (job : nat -> record)
  (gated : nat -> bool).

Record sys := MkSys {
  s_tracker : T;
  s_wal : list wal_row;
  s_held : gmap nat nat;
  s_pc : nat -> pc;
}.

Definition init (t : T) : sys := MkSys t [] ∅ (fun _ => Idle).

Definition exec (s : sys) (e : event) : option sys :=
  match e with
  | Lock i =>
      match s_pc s i, _session_chain_lock (Some (s_tracker s)) (Some (sess i)) with
      | Idle, (Some t, Some l) => Some (MkSys t (s_wal s) (s_held s) (<[i := Waiting l]> (s_pc s)))
      | _, _ => None
      end
  | Acquire i =>
      match s_pc s i with
      | Waiting l =>
          match s_held s !! l with
          | None => Some (MkSys (s_tracker s) (s_wal s) (<[l := i]> (s_held s))
                            (<[i := Entered l]> (s_pc s)))
          | Some _ => None
          end
      | _ => None
      end
  | Reserve i now =>
      match s_pc s i with
      | Entered l =>
          match apply_session_chain st cfg (Some (s_tracker s)) (job i) (Some (sess i)) now with
          | (Some t, r, res) =>
              Some (MkSys t (s_wal s) (s_held s) (<[i := Reserved l r res]> (s_pc s)))
          | _ => None
          end
      | _ => None
      end
  | Write i ok ts =>
      match s_pc s i with
      | Reserved l r res =>
          Some (if ok then
                  MkSys (s_tracker s) (s_wal s ++ [MkRow (Some (sess i)) ev_execution r ts])
                    (s_held s) (<[i := Written l r res]> (s_pc s))
                else MkSys (s_tracker s) (s_wal s) (s_held s)
                       (<[i := if gated i then Leaving l else Written l r res]> (s_pc s)))
      | _ => None
      end
  | Advance i now =>
      match s_pc s i with
      | Written l r res =>
          match advance_session_chain (Some (s_tracker s)) r (Some (sess i)) res now with
          | Some t => Some (MkSys t (s_wal s) (s_held s) (<[i := Leaving l]> (s_pc s)))
          | None => None
          end
      | _ => None
      end
  | Release i =>
      match s_pc s i with
      | Leaving l => Some (MkSys (s_tracker s) (s_wal s) (delete l (s_held s))
                             (<[i := Finished]> (s_pc s)))
      | _ => None
      end
  end.

Definition run (s : sys) (tr : list event) : option sys :=
  foldl (fun o e => match o with Some s => exec s e | None => None end) (Some s) tr.

Lemma run_snoc s tr e : run s (tr ++ [e]) = match run s tr with Some s' => exec s' e | None => None end.
Proof. unfold run. by rewrite foldl_app. Qed.

(** ** What is observed *)

(** The records of a session, in the order they were written *)
Definition rows_of (sid : string) (wal : list wal_row) : list record :=
  map row_record (List.filter (matches sid) wal).

(** The failed writes of a session in a trace *)
Definition failed (sid : string) (tr : list event) : Z :=
  count_if (fun e => match e with Write i false _ => bool_decide (sess i = sid) | _ => false end) tr.

(** Each record points at the one written before it. *)
Fixpoint linked (prev : option string) (l : list record) : Prop :=
  match l with
  | [] => True
  | r :: l => previous_record_id r = prev /\ linked (record_id r) l
  end.

Definition tail_id (l : list record) : option string := mbind record_id (last l).

(** Numbered, in increasing order, below [b] *)
Fixpoint numbered (a : Z) (l : list record) (b : Z) : Prop :=
  match l with
  | [] => a <= b
  | r :: l => exists n, sequence_number r = Some n /\ a <= n /\ numbered (n + 1) l b
  end.

Lemma linked_snoc prev l r :
  linked prev l -> previous_record_id r = match l with [] => prev | _ => tail_id l end ->
  linked prev (l ++ [r]).
Proof.
  revert prev. induction l as [|x l IH]; simpl; intros prev Hl Hr; [done|].
  destruct Hl as [? Hl]. split; [done|]. apply IH; [done|].
  rewrite Hr. destruct l; done.
Qed.

Lemma numbered_snoc a l b r n c :
  numbered a l b -> sequence_number r = Some n -> b <= n -> n + 1 <= c ->
  numbered a (l ++ [r]) c.
Proof.
  revert a. induction l as [|x l IH]; simpl; intros a Hl Hr Hb Hc.
  - exists n. split; [done|]. lia.
  - destruct Hl as (m & ? & ? & Hl). exists m. eauto.
Qed.

Lemma numbered_le a l b c : numbered a l b -> b <= c -> numbered a l c.
Proof.
  revert a. induction l as [|x l IH]; simpl; intros a Hl Hc; [lia|].
  destruct Hl as (m & ? & ? & Hl). eauto.
Qed.

Lemma rows_of_app sid wal r :
  rows_of sid (wal ++ [r]) =
  rows_of sid wal ++ (if matches sid r then [row_record r] else []).
Proof.
  unfold rows_of. rewrite List.filter_app, map_app. simpl. by destruct (matches sid r).
Qed.

Lemma rows_of_write sid s r ts wal :
  rows_of sid (wal ++ [MkRow (Some s) ev_execution r ts]) =
  rows_of sid wal ++ (if decide (s = sid) then [r] else []).
Proof.
  rewrite rows_of_app. unfold matches. simpl. case_decide.
  - subst. by rewrite bool_decide_true.
  - by rewrite bool_decide_false by congruence.
Qed.

Lemma failed_snoc sid tr e :
  failed sid (tr ++ [e]) =
  failed sid tr + match e with
                  | Write i false _ => if decide (sess i = sid) then 1 else 0
                  | _ => 0
                  end.
Proof.
  unfold failed, count_if. rewrite List.filter_app, zlen_app. f_equal. simpl.
  destruct e as [| | |i [] ?| |]; try done. by case_bool_decide; case_decide.
Qed.

Lemma failed_nonneg sid tr : 0 <= failed sid tr.
Proof. apply zlen_nonneg. Qed.

(** ** The invariant *)

(** A record before it is stamped: a fresh id, no chain fields, not a legacy
    record. *)
Definition fresh (r : record) : Prop :=
  is_Some (record_id r) /\ record_signature r = None /\
  record_hash r = None /\ previous_record_hash r = None /\ env r = [].

Context {LT : ChainTrackerLaws T} {LE : Ed25519Laws E}.
Variable S : gset string.

Definition lock_of_pc (p : pc) : option nat :=
  match p with
  | Idle | Finished => None
  | Waiting l | Entered l | Reserved l _ _ | Written l _ _ | Leaving l => Some l
  end.

Definition inside (p : pc) : bool :=
  match p with Entered _ | Reserved _ _ _ | Written _ _ _ | Leaving _ => true | _ => false end.

(** [r] is the stamped record of a turn that reserved [n] with [prev] *)
Definition stamped (r : record) (res : ChainResult) (n : Z) (prev : option string) : Prop :=
  sequence_number r = Some n /\ previous_record_id r = prev /\ is_Some (record_id r) /\
  record_hash r = None /\ previous_record_hash r = None /\ env r = [] /\
  (matching_keys st -> verify_record_signature st r <> sig_invalid) /\
  applied res = true /\ cr_sequence_number res = Some n.

(** A record as it is stored *)
Definition sound (r : record) : Prop :=
  is_Some (record_id r) /\ record_hash r = None /\ previous_record_hash r = None /\ env r = [] /\
  (matching_keys st -> verify_record_signature st r <> sig_invalid).

(** The state of session [sid]: the task that has reserved or written, if
    any, and what the tracker and the log then hold.  [f] is the number of
    failed writes so far: the tracker is ahead of the log by as many numbers. *)
Definition quiet (t : T) (sid : string) (rows : list record) (f : Z) : Prop :=
  ct_last t sid = None /\ rows = [] /\ f = 0 \/
  exists n, ct_last t sid = Some (n, tail_id rows) /\ n + 1 = zlen rows + f.

Definition session_ok (s : sys) (f : Z) (sid : string) : Prop :=
  let rows := rows_of sid (s_wal s) in
  linked None rows /\ numbered 0 rows (zlen rows + f) /\ Forall sound rows /\
  ((forall i l r res, sess i = sid -> s_pc s i <> Reserved l r res /\ s_pc s i <> Written l r res) /\
     quiet (s_tracker s) sid rows f \/
   (exists i l r res n, sess i = sid /\ s_pc s i = Reserved l r res /\
      ct_last (s_tracker s) sid = Some (n, tail_id rows) /\
      stamped r res n (tail_id rows) /\ n = zlen rows + f) \/
   (exists i l r res n prev, sess i = sid /\ s_pc s i = Written l r res /\
      ct_last (s_tracker s) sid = Some (n, prev) /\
      stamped r res n prev /\ last rows = Some r /\ n + 1 = zlen rows + f)).

Record inv (s : sys) (f : string -> Z) : Prop := {
  inv_fits : ct_fits (s_tracker s) S;
  inv_lock : forall i l, lock_of_pc (s_pc s i) = Some l -> ct_lockof (s_tracker s) (sess i) = Some l;
  inv_held : forall i l, inside (s_pc s i) = true -> lock_of_pc (s_pc s i) = Some l ->
    s_held s !! l = Some i;
  inv_session : forall sid, sid ∈ S -> session_ok s (f sid) sid;
}.

(** Mutual exclusion per session *)
Lemma inv_excl s f i j :
  inv s f -> sess i = sess j -> inside (s_pc s i) = true -> inside (s_pc s j) = true -> i = j.
Proof.
  intros [_ Hl Hh _] Hs Hi Hj.
  destruct (lock_of_pc (s_pc s i)) as [l|] eqn:Hli; [|by destruct (s_pc s i)].
  destruct (lock_of_pc (s_pc s j)) as [l'|] eqn:Hlj; [|by destruct (s_pc s j)].
  pose proof (Hl _ _ Hli) as H1. pose proof (Hl _ _ Hlj) as H2. rewrite Hs in H1.
  pose proof (Hh _ _ Hi Hli). pose proof (Hh _ _ Hj Hlj). congruence.
Qed.

(** ** Every event keeps it *)

Hypothesis sess_S : forall i, sess i ∈ S.
Hypothesis sess_nonempty : forall i, sess i <> "".
Hypothesis enabled : session_chain_enabled cfg = true.
Hypothesis jobs_fresh : forall i, fresh (job i).

Definition active (p : pc) : bool :=
  match p with Reserved _ _ _ | Written _ _ _ => true | _ => false end.

Lemma session_frame s s' f sid :
  rows_of sid (s_wal s') = rows_of sid (s_wal s) ->
  ct_last (s_tracker s') sid = ct_last (s_tracker s) sid ->
  (forall j, sess j = sid -> s_pc s' j = s_pc s j \/
     active (s_pc s j) = false /\ active (s_pc s' j) = false) ->
  session_ok s f sid -> session_ok s' f sid.
Proof.
  unfold session_ok, quiet. intros -> -> Hpc (Hl & Hn & Hs & Hcase).
  split; [done|]. split; [done|]. split; [done|].
  destruct Hcase as [[Hq ?]| [(i & l & r & res & n & Hi & Hp & ?)| (i & l & r & res & n & pv & Hi & Hp & ?)]].
  - left. split; [|done]. intros i l r res Hi.
    destruct (Hpc i Hi) as [->| [_ Ha]]; [by apply Hq|]. split; intros He; by rewrite He in Ha.
  - right; left. exists i, l, r, res, n. split; [done|]. split; [|done].
    destruct (Hpc i Hi) as [->| [Ha _]]; [done|]. by rewrite Hp in Ha.
  - right; right. exists i, l, r, res, n, pv. split; [done|]. split; [|done].
    destruct (Hpc i Hi) as [->| [Ha _]]; [done|]. by rewrite Hp in Ha.
Qed.

(** Locks, for an event of task [i] that keeps [i]'s lock object and the
    trackers' lock table *)
Lemma inv_lock_keep s t p (i : nat) :
  (forall j l, lock_of_pc (s_pc s j) = Some l -> ct_lockof (s_tracker s) (sess j) = Some l) ->
  (forall sid, ct_lockof t sid = ct_lockof (s_tracker s) sid) ->
  lock_of_pc p = lock_of_pc (s_pc s i) \/ lock_of_pc p = None ->
  forall j l, lock_of_pc (<[i := p]> (s_pc s) j) = Some l -> ct_lockof t (sess j) = Some l.
Proof.
  intros Hl Ht Hp j l. rewrite Ht. destruct (decide (i = j)) as [->|Hne].
  - rewrite fn_lookup_insert. destruct Hp as [->| ->]; [apply Hl|done].
  - rewrite fn_lookup_insert_ne by done. apply Hl.
Qed.

Lemma inv_held_keep s p (i : nat) :
  (forall j l, inside (s_pc s j) = true -> lock_of_pc (s_pc s j) = Some l -> s_held s !! l = Some j) ->
  lock_of_pc p = lock_of_pc (s_pc s i) -> (inside p = true -> inside (s_pc s i) = true) ->
  forall j l, inside (<[i := p]> (s_pc s) j) = true -> lock_of_pc (<[i := p]> (s_pc s) j) = Some l ->
    s_held s !! l = Some j.
Proof.
  intros Hh Hp Hin j l. destruct (decide (i = j)) as [->|Hne].
  - rewrite fn_lookup_insert, Hp. intros ??. apply Hh; auto.
  - rewrite fn_lookup_insert_ne by done. apply Hh.
Qed.

(** Other tasks' pcs do not change; task [i]'s does not matter to [sid]. *)
Lemma pcs_frame s (i : nat) p sid :
  sess i <> sid \/ active (s_pc s i) = false /\ active p = false ->
  forall j, sess j = sid -> <[i := p]> (s_pc s) j = s_pc s j \/
     active (s_pc s j) = false /\ active (<[i := p]> (s_pc s) j) = false.
Proof.
  intros Hi j Hj. destruct (decide (i = j)) as [->|Hne].
  - rewrite fn_lookup_insert. destruct Hi; [done|]. by right.
  - left. by rewrite fn_lookup_insert_ne.
Qed.

Lemma inv_init t :
  ct_fits t S -> (forall sid, ct_last t sid = None) -> inv (init t) (fun _ => 0).
Proof.
  intros Hf Hl. constructor; simpl; try done.
  intros sid _. unfold session_ok, rows_of. simpl. split; [done|]. split; [done|]. split; [constructor|].
  left. split; [done|]. left. by rewrite Hl.
Qed.

Lemma exec_lock s f i s' : inv s f -> exec s (Lock i) = Some s' -> inv s' f.
Proof.
  intros [Hf Hl Hh Hs] He. simpl in He. unfold _session_chain_lock, session_chain_critical_section in He.
  destruct (s_pc s i) eqn:Hp; try done. rewrite bool_decide_true in He by done.
  pose proof (ct_lock_law (s_tracker s) S (sess i) Hf (sess_S i)) as Hk.
  destruct (ct_lock (s_tracker s) (sess i)) as [t l]. injection He as <-.
  destruct Hk as (Hf' & Hlk & Hnew & Hoth & Hlast). constructor; simpl; [done| | |].
  - intros j l'. destruct (decide (i = j)) as [->|Hne].
    + rewrite fn_lookup_insert. simpl. by intros [= <-].
    + rewrite fn_lookup_insert_ne by done. intros Hj. apply Hl in Hj.
      destruct (decide (sess j = sess i)) as [Hs'|Hs']; [|by rewrite Hoth].
      rewrite Hs', Hlk. rewrite Hs' in Hj. destruct Hnew as [Ho| [Ho _]]; congruence.
  - intros j l'. destruct (decide (i = j)) as [->|Hne]; [by rewrite fn_lookup_insert|].
    rewrite fn_lookup_insert_ne by done. apply Hh.
  - intros sid Hsid. eapply session_frame; [..|by apply Hs]; simpl; [done|apply Hlast|].
    apply pcs_frame. rewrite Hp. auto.
Qed.

Lemma exec_acquire s f i s' : inv s f -> exec s (Acquire i) = Some s' -> inv s' f.
Proof.
  intros [Hf Hl Hh Hs] He. simpl in He. destruct (s_pc s i) eqn:Hp; try done.
  destruct (s_held s !! l) eqn:Hheld; [done|]. injection He as <-. constructor; simpl; [done| | |].
  - apply inv_lock_keep; [done|done|left; by rewrite Hp].
  - intros j l'. destruct (decide (i = j)) as [->|Hne].
    + rewrite fn_lookup_insert. simpl. intros _ [= <-]. by rewrite lookup_insert_eq.
    + rewrite fn_lookup_insert_ne by done. intros Hin Hj. specialize (Hh j l' Hin Hj).
      rewrite lookup_insert_ne by congruence. done.
  - intros sid Hsid. eapply session_frame; [..|by apply Hs]; simpl; [done|done|].
    apply pcs_frame. rewrite Hp. auto.
Qed.

Lemma exec_release s f i s' : inv s f -> exec s (Release i) = Some s' -> inv s' f.
Proof.
  intros Hinv He. pose proof Hinv as [Hf Hl Hh Hs]. simpl in He.
  destruct (s_pc s i) eqn:Hp; try done. injection He as <-. constructor; simpl; [done| | |].
  - apply inv_lock_keep; auto.
  - intros j l'. destruct (decide (i = j)) as [->|Hne]; [by rewrite fn_lookup_insert|].
    rewrite fn_lookup_insert_ne by done. intros Hin Hj. pose proof (Hh j l' Hin Hj).
    rewrite lookup_delete_ne; [done|]. intros ->.
    specialize (Hh i l'). rewrite Hp in Hh. specialize (Hh eq_refl eq_refl). congruence.
  - intros sid Hsid. eapply session_frame; [..|by apply Hs]; simpl; [done|done|].
    apply pcs_frame. rewrite Hp. auto.
Qed.

(** The session of a task inside the section, before it reserves, is quiet. *)
Lemma session_quiet s f i l :
  inv s f -> s_pc s i = Entered l -> quiet (s_tracker s) (sess i) (rows_of (sess i) (s_wal s)) (f (sess i)).
Proof.
  intros Hinv Hp. destruct (inv_session _ _ Hinv (sess i) (sess_S i)) as (_ & _ & _ & Hc).
  destruct Hc as [[_ ?]| [(j & l' & r & res & n & Hj & Hpj & _)| (j & l' & r & res & n & pv & Hj & Hpj & _)]];
    [done|exfalso..];
    (assert (j = i) as -> by (eapply inv_excl; rewrite ?Hp, ?Hpj; try done; eassumption)); congruence.
Qed.

Lemma stamped_apply t t' v (i : nat) now n prev :
  ct_next t (sess i) now = Ok (t', v) ->
  SessionChain.sequence_number v = n -> SessionChain.previous_record_id v = prev ->
  exists r res, apply_session_chain st cfg (Some t) (job i) (Some (sess i)) now = (Some t', r, res) /\
    stamped r res n prev.
Proof.
  intros Hn <- <-. destruct (jobs_fresh i) as (Hid & Hsig & Hh & Hph & Henv).
  destruct (apply_ok st cfg t t' (sess i) (job i) now v (sess_nonempty i) enabled Hn) as (r & ok & -> & ->).
  eexists _, _. split; [reflexivity|]. unfold stamped. simpl.
  set (r0 := set_chain_fields _ _ (job i)).
  destruct (record_signing_enabled cfg).
  - destruct (stamp_signature_fields st (SessionChain.sequence_number v) r0) as (_ & _ & -> & -> & -> & -> & -> & ->).
    repeat (split; [done|]). split; [|done]. intros Hk. by apply stamp_signature_ok.
  - repeat (split; [done|]). split; [|done]. intros _.
    unfold verify_record_signature. simpl. by rewrite Hsig.
Qed.

Lemma quiet_next t sid rows f :
  quiet t sid rows f ->
  match ct_last t sid with Some (n, _) => n + 1 | None => 0 end = zlen rows + f /\
  match ct_last t sid with Some (_, r) => r | None => None end = tail_id rows.
Proof. intros [(-> & -> & ->)| (n & -> & Hn)]; [done|]. by split; [lia|]. Qed.

Lemma exec_reserve s f i now s' : inv s f -> exec s (Reserve i now) = Some s' -> inv s' f.
Proof.
  intros Hinv He. pose proof Hinv as [Hf Hl Hh Hs]. simpl in He.
  destruct (s_pc s i) eqn:Hp; try done.
  destruct (ct_next_law (s_tracker s) S (sess i) now Hf (sess_S i))
    as (t & v & Hn & Hf' & Hseq & Hprev & Hlast & Hoth & Hlk).
  destruct (quiet_next _ _ _ _ (session_quiet s f i l Hinv Hp)) as [Hq1 Hq2].
  rewrite Hq1 in Hseq. rewrite Hq2 in Hprev.
  destruct (stamped_apply (s_tracker s) t v i now _ _ Hn Hseq Hprev) as (r & res & Ha & Hst).
  rewrite Ha in He. injection He as <-. constructor; simpl; [done| | |].
  - apply inv_lock_keep; [done|done|left; by rewrite Hp].
  - apply inv_held_keep; [done|by rewrite Hp|by rewrite Hp].
  - intros sid Hsid. destruct (decide (sess i = sid)) as [<-|Hne].
    + destruct (Hs _ Hsid) as (H1 & H2 & H3 & _). repeat (split; [done|]). right; left.
      exists i, l, r, res, (zlen (rows_of (sess i) (s_wal s)) + f (sess i)). simpl.
      rewrite fn_lookup_insert, Hlast, Hseq, Hprev. done.
    + eapply session_frame; [..|by apply Hs]; simpl; [done|by apply Hoth|]. apply pcs_frame. auto.
Qed.

(** The session of a task that has reserved *)
Lemma session_reserved s f i l r res :
  inv s f -> s_pc s i = Reserved l r res ->
  let rows := rows_of (sess i) (s_wal s) in
  exists n, ct_last (s_tracker s) (sess i) = Some (n, tail_id rows) /\
    stamped r res n (tail_id rows) /\ n = zlen rows + f (sess i).
Proof.
  intros Hinv Hp. destruct (inv_session _ _ Hinv (sess i) (sess_S i)) as (_ & _ & _ & Hc).
  destruct Hc as [[Hq _]| [(j & l' & r' & res' & n & Hj & Hpj & ?)| (j & l' & r' & res' & n & pv & Hj & Hpj & _)]].
  - by destruct (Hq i l r res eq_refl).
  - assert (j = i) as -> by (eapply inv_excl; rewrite ?Hp, ?Hpj; try done; eassumption).
    rewrite Hp in Hpj. simplify_eq. eauto.
  - assert (j = i) as -> by (eapply inv_excl; rewrite ?Hp, ?Hpj; try done; eassumption). congruence.
Qed.

(** No other task of the session is active. *)
Lemma session_inactive s f i p sid j l r res :
  inv s f -> sess i = sid -> inside (s_pc s i) = true -> active p = false ->
  sess j = sid -> <[i := p]> (s_pc s) j <> Reserved l r res /\ <[i := p]> (s_pc s) j <> Written l r res.
Proof.
  intros Hinv <- Hin Hp Hj. destruct (decide (i = j)) as [->|Hne].
  - rewrite fn_lookup_insert. destruct p; done.
  - rewrite fn_lookup_insert_ne by done.
    split; intros He; apply Hne; eapply inv_excl; rewrite ?He; done.
Qed.

Lemma stamped_sound r res n prev : stamped r res n prev -> sound r.
Proof. unfold stamped, sound. naive_solver. Qed.

Lemma tail_id_snoc rows r : tail_id (rows ++ [r]) = record_id r.
Proof. unfold tail_id. by rewrite last_snoc. Qed.

Lemma exec_write s f i ok ts s' :
  (ok = false -> gated i = true) -> inv s f -> exec s (Write i ok ts) = Some s' ->
  inv s' (fun sid => f sid + if ok then 0 else if decide (sess i = sid) then 1 else 0).
Proof.
  intros Hg Hinv He. pose proof Hinv as [Hf Hl Hh Hs]. simpl in He.
  destruct (s_pc s i) eqn:Hp; try done. injection He as <-.
  destruct (session_reserved s f i l r res Hinv Hp) as (n & Hlast & Hst & Hn).
  pose proof Hst as (Hseq & Hprev & _).
  destruct ok; [clear Hg|rewrite (Hg eq_refl)]; constructor; simpl; try done;
    try (apply inv_lock_keep; [done|done|left; by rewrite Hp]);
    try (apply inv_held_keep; [done|by rewrite Hp|by rewrite Hp]); intros sid Hsid.
  - rewrite Z.add_0_r. destruct (decide (sess i = sid)) as [<-|Hne].
    + destruct (Hs _ Hsid) as (H1 & H2 & H3 & _). unfold session_ok. simpl.
      rewrite rows_of_write, decide_True, zlen_snoc by done.
      split; [apply linked_snoc; [done|]; rewrite Hprev; by destruct (rows_of _ _)|].
      split; [eapply numbered_snoc; [done|done|lia|lia]|].
      split; [apply Forall_app; split; [done|]; constructor; [by eapply stamped_sound|done]|].
      right; right. exists i, l, r, res, n, (tail_id (rows_of (sess i) (s_wal s))).
      rewrite fn_lookup_insert, last_snoc. repeat (split; [done|]). lia.
    + eapply session_frame; [..|by apply Hs]; simpl; [|done|].
      * rewrite rows_of_write, decide_False by done. apply app_nil_r.
      * apply pcs_frame. auto.
  - case_decide as Hd.
    + destruct (Hs _ Hsid) as (H1 & H2 & H3 & _). unfold session_ok. simpl.
      split; [done|]. split; [eapply numbered_le; [done|lia]|]. split; [done|]. left.
      split; [intros j ? ? ? Hj; apply (session_inactive s f i _ (sess i)); [done|done|by rewrite Hp|done|congruence]|].
      right. exists n. rewrite <- Hd. split; [done|]. lia.
    + rewrite Z.add_0_r. eapply session_frame; [..|by apply Hs]; simpl; [done|done|].
      apply pcs_frame. auto.
Qed.

Lemma exec_advance s f i now s' : inv s f -> exec s (Advance i now) = Some s' -> inv s' f.
Proof.
  intros Hinv He. pose proof Hinv as [Hf Hl Hh Hs]. simpl in He.
  destruct (s_pc s i) eqn:Hp; try done.
  assert (exists n prev, ct_last (s_tracker s) (sess i) = Some (n, prev) /\ stamped r res n prev /\
            last (rows_of (sess i) (s_wal s)) = Some r /\
            n + 1 = zlen (rows_of (sess i) (s_wal s)) + f (sess i)) as (n & prev & Hct & Hst & Hla & Hn).
  { destruct (Hs (sess i) (sess_S i)) as (_ & _ & _ & Hc).
    destruct Hc as [[Hq _]| [(j & l' & r' & res' & n & Hj & Hpj & _)| (j & l' & r' & res' & n & pv & Hj & Hpj & ?)]].
    - by destruct (Hq i l r res eq_refl).
    - assert (j = i) as -> by (eapply inv_excl; rewrite ?Hp, ?Hpj; try done; eassumption). congruence.
    - assert (j = i) as -> by (eapply inv_excl; rewrite ?Hp, ?Hpj; try done; eassumption).
      rewrite Hp in Hpj. simplify_eq. naive_solver. }
  destruct Hst as (_ & _ & [id Hid] & _ & _ & _ & _ & Happ & Hres).
  destruct (ct_update_law (s_tracker s) S (sess i) n "" (record_id r) now Hf (sess_S i))
    as (t & Hu & Hf' & Hlast & Hoth & Hlk).
  unfold advance_session_chain in He. rewrite Happ, Hres, bool_decide_true, Hu in He by done.
  injection He as <-. constructor; simpl; [done| | |].
  - apply inv_lock_keep; [done|done|left; by rewrite Hp].
  - apply inv_held_keep; [done|by rewrite Hp|by rewrite Hp].
  - intros sid Hsid. destruct (decide (sess i = sid)) as [<-|Hne].
    + destruct (Hs _ Hsid) as (H1 & H2 & H3 & _). unfold session_ok. simpl. repeat (split; [done|]).
      left. split; [intros j ? ? ? Hj; apply (session_inactive s f i _ (sess i)); [done|done|by rewrite Hp|done|congruence]|].
      right. exists n. rewrite Hlast, Hct, Z.max_id, Hid. unfold tail_id. rewrite Hla. simpl.
      rewrite Hid. done.
    + eapply session_frame; [..|by apply Hs]; simpl; [done|by apply Hoth|]. apply pcs_frame. auto.
Qed.

Lemma inv_ext s f g : inv s f -> (forall sid, f sid = g sid) -> inv s g.
Proof. intros [? ? ? Hs] Hfg. constructor; try done. intros sid Hsid. rewrite <- Hfg. auto. Qed.

(** Only tasks that check the outcome of their write have failing writes. *)
Definition failures_gated (tr : list event) : Prop :=
  forall i ts, Write i false ts ∈ tr -> gated i = true.

Lemma run_inv t tr s :
  ct_fits t S -> (forall sid, ct_last t sid = None) -> failures_gated tr ->
  run (init t) tr = Some s -> inv s (fun sid => failed sid tr).
Proof.
  intros Hf Hl. revert s. induction tr as [|e tr IH] using rev_ind; intros s Hg Hr.
  - injection Hr as <-. by apply inv_init.
  - rewrite run_snoc in Hr. destruct (run (init t) tr) as [s0|] eqn:H0; [|done].
    assert (failures_gated tr) as Hg0.
    { intros i ts Hin. apply (Hg i ts). apply elem_of_app. by left. }
    specialize (IH s0 Hg0 eq_refl).
    assert (inv s (fun sid => failed sid tr + match e with
                  | Write i false _ => if decide (sess i = sid) then 1 else 0
                  | _ => 0 end)) as Hi.
    { destruct e as [i|i|i now|i ok ts|i now|i].
      4: { assert (ok = false -> gated i = true) as Hgi.
           { intros ->. apply (Hg i ts). apply elem_of_app. right. by left. }
           pose proof (exec_write _ _ _ _ _ _ Hgi IH Hr) as Hw. by destruct ok. }
      all: eapply inv_ext; [|intros sid; symmetry; apply Z.add_0_r];
        eauto using exec_lock, exec_acquire, exec_reserve, exec_advance, exec_release. }
    destruct Hi as [? ? ? Hs]. constructor; try done. intros sid Hsid.
    rewrite failed_snoc. by apply Hs.
Qed.

(** ** The theorems *)

(** C3.  The chain holds together under every interleaving.  From an empty log, with a
    tracker that holds all the sessions and evicts none ([ct_fits]), whatever order the
    loop runs the concurrent requests in, and whichever writes fail of tasks that
    check the outcome before they advance ([failures_gated]), the stored records of a
    session link up: the first has no predecessor, each later one
    points at the record stored just before it, and the sequence numbers strictly
    increase; the number of gaps is at most the number of failed writes.  (A failed
    write of a task that does not check breaks the links: see
    [Runs.ungated_failure_unlinks].) *)
Theorem chain_linked t tr s sid :
  ct_fits t S -> (forall sid, ct_last t sid = None) -> failures_gated tr ->
  run (init t) tr = Some s -> sid ∈ S ->
  let rows := rows_of sid (s_wal s) in
  linked None rows /\ numbered 0 rows (zlen rows + failed sid tr).
Proof.
  intros Hf Hl Hg Hr Hsid. destruct (run_inv t tr s Hf Hl Hg Hr) as [_ _ _ Hs].
  destruct (Hs sid Hsid) as (? & ? & _). done.
Qed.

Lemma numbered_len a l b : numbered a l b -> a + zlen l <= b.
Proof.
  revert a. induction l as [|r l IH]; intros a; simpl; [rewrite zlen_nil; lia|].
  intros (n & _ & ? & Hl). apply IH in Hl. rewrite zlen_cons. lia.
Qed.

Lemma numbered_take n a l b : numbered a l b -> numbered a (take n l) b.
Proof.
  revert a n. induction l as [|r l IH]; intros a [|n] H'; simpl in *; try done.
  - destruct H' as (m & _ & ? & Hl). apply numbered_len in Hl. pose proof (zlen_nonneg l). lia.
  - destruct H' as (m & ? & ? & Hl). eauto.
Qed.

Lemma numbered_ge a l b r : numbered a l b -> r ∈ l -> exists n, sequence_number r = Some n /\ a <= n.
Proof.
  revert a. induction l as [|x l IH]; intros a Hl Hr; [by apply not_elem_of_nil in Hr|].
  destruct Hl as (n & Hn & ? & Hl). apply elem_of_cons in Hr as [->|Hr]; [eauto|].
  destruct (IH (n + 1) Hl Hr) as (m & ? & ?). exists m. split; [done|lia].
Qed.

Lemma linked_take n prev l : linked prev l -> linked prev (take n l).
Proof.
  revert prev n. induction l as [|r l IH]; intros prev [|n]; simpl; try done. intros [? ?]. auto.
Qed.

(** A log in numbered order is in the order of the query and of the timeline. *)
Lemma numbered_sql_ordered a ws b : numbered a (map row_record ws) b -> ordered sql_le ws.
Proof.
  revert a. induction ws as [|w ws IH]; intros a; [constructor|].
  intros (n & Hn & _ & Hl). constructor; [|by eapply IH]. intros y Hy.
  destruct (numbered_ge _ _ _ (row_record y) Hl) as (m & Hm & ?).
  { apply list_elem_of_fmap. eauto. }
  unfold sql_le, col_seq. rewrite Hn, Hm. apply orb_true_iff. left. apply Z.ltb_lt. lia.
Qed.

Definition results (ws : list wal_row) : list (record * string) :=
  map (fun r => (normalize_record (row_record r), row_created_at r)) ws.

Lemma numbered_timeline_ordered a ws b :
  numbered a (map row_record ws) b -> ordered timeline_le (results ws).
Proof.
  revert a. induction ws as [|w ws IH]; intros a; [constructor|].
  intros (n & Hn & _ & Hl). constructor; [|by eapply IH].
  intros y (z & -> & Hz)%list_elem_of_fmap.
  destruct (numbered_ge _ _ _ (row_record z) Hl) as (m & Hm & ?).
  { apply list_elem_of_fmap. eauto. }
  unfold timeline_le. simpl. rewrite Hn, Hm. apply orb_true_iff. left. apply Z.ltb_lt. lia.
Qed.

Lemma timeline_sorted ws sid b limit :
  numbered 0 (rows_of sid ws) b ->
  get_session_timeline [ws] sid limit = map normalize_record (take limit (rows_of sid ws)).
Proof.
  unfold rows_of. intros Hn. unfold get_session_timeline, select_rows. simpl. rewrite app_nil_r.
  set (fs := List.filter (matches sid) ws) in *.
  rewrite (isort_id sql_le fs) by by eapply numbered_sql_ordered.
  fold (results (take limit fs)).
  rewrite (isort_id timeline_le) by (eapply numbered_timeline_ordered;
    rewrite <- firstn_map; by eapply numbered_take).
  unfold results. rewrite !firstn_map, take_take, Nat.min_id.
  induction (take limit fs) as [|w l IH]; simpl; [done|]. by f_equal.
Qed.

Lemma sound_normalize r :
  sound r ->
  sequence_number (normalize_record r) = sequence_number r /\
  record_id (normalize_record r) = record_id r /\
  previous_record_id (normalize_record r) = previous_record_id r /\
  verify_record_signature st (normalize_record r) = verify_record_signature st r.
Proof.
  intros ([id Hid] & Hh & Hph & _ & _). unfold normalize_record, verify_record_signature.
  simpl. rewrite Hid, Hph. simpl. by destruct (previous_record_id r).
Qed.

Lemma exact_chained rows : forall a prev,
  matching_keys st -> linked prev rows -> numbered a rows (a + zlen rows) -> Forall sound rows ->
  chained st a prev (map normalize_record rows).
Proof.
  induction rows as [|r rows IH]; intros a prev Hk Hl Hn Hs; cbn [map chained]; [done|].
  destruct Hl as [Hp Hl], Hn as (n & Hn & Ha & Hrest). inversion Hs as [|? ? Hr Hs']; subst.
  pose proof (numbered_len _ _ _ Hrest) as Hlen. rewrite zlen_cons in Hlen, Hrest.
  assert (n = a) as -> by lia.
  destruct (sound_normalize r Hr) as (-> & -> & -> & ->).
  split; [by right|]. split; [done|]. split; [apply Hr, Hk|].
  apply IH; try done. by replace (a + 1 + zlen rows) with (a + (1 + zlen rows)) by lia.
Qed.

Lemma valid_chained sid recs :
  chained st 0 (mbind previous_record_id (head recs)) recs ->
  valid (verify_records st sid recs) = true.
Proof.
  intros Hc. unfold verify_records. destruct recs as [|r0 recs]; [done|]. simpl in Hc. cbv zeta.
  set (l0 := MkLoop _ _ _ _ _ _).
  assert (errs (check_records st l0 0 (r0 :: recs)) = []) as H0 by by apply check_records_errs.
  simpl in H0. simpl. by rewrite H0.
Qed.

(** C2.  What the gateway writes, it verifies.  From an empty log, with a tracker that
    holds all the sessions and evicts none ([ct_fits]; an eviction breaks the chain, see
    [Runs.eviction_breaks_chain]), and a verifying key that belongs to the signing key:
    in every interleaving of concurrent requests in which no write of the session fails,
    and no write fails of a task that ignores the outcome, the verifier reads the
    session's log (its first 500 rows) back as a valid chain: numbers contiguous from
    zero, pointers linked, and no signature invalid. *)
Theorem written_chain_verifies t tr s sid :
  ct_fits t S -> (forall sid, ct_last t sid = None) -> matching_keys st -> failures_gated tr ->
  run (init t) tr = Some s -> sid ∈ S -> failed sid tr = 0 ->
  valid (verify_chain st [s_wal s] sid) = true.
Proof.
  intros Hf Hl Hk Hg Hr Hsid Hfail. destruct (run_inv t tr s Hf Hl Hg Hr) as [_ _ _ Hs].
  destruct (Hs sid Hsid) as (Hlink & Hnum & Hsound & _). rewrite Hfail, Z.add_0_r in Hnum.
  unfold verify_chain. rewrite (timeline_sorted _ _ _ _ Hnum). apply valid_chained.
  assert (chained st 0 None (map normalize_record (rows_of sid (s_wal s)))) as Hc
    by by apply exact_chained.
  rewrite <- (take_drop 500 (rows_of sid (s_wal s))), map_app in Hc.
  apply chained_app in Hc as [Hc _].
  destruct (take 500 (rows_of sid (s_wal s))) as [|r rows]; simpl in *; [done|].
  destruct Hc as (? & Hp & ?). by rewrite Hp.
Qed.

End system.

(** ** Runs of the in-memory tracker *)
Module Runs.

Definition on : settings := MkSettings true true.

(** Tasks 0 and 2 belong to session "a", task 1 to session "b". *)
Definition who (i : nat) : string := if (i =? 1)%nat then "b" else "a".

Definition rec0 (i : nat) : record :=
  let n := z_str (Z.of_nat i) in
  MkRecord (Some ("exec-" +:+ n)%string) (Some "2026-01-01") None (Some ("rec-" +:+ n)%string)
    None None None None [] None None None None None.

Definition key : keys (E := ToyEd25519.toy) := MkKeys (E := ToyEd25519.toy) (Some "K") (Some "K").

Abbreviation go t tr := (run (E := ToyEd25519.toy) key on who rec0 (fun _ => true) (init t) tr).

(** Task 2 waits for the lock while task 0 runs; task 1 runs in between. *)
Definition interleaved (ok : bool) : list event :=
  [Lock 0; Acquire 0; Lock 2; Reserve 0 1; Lock 1; Acquire 1; Reserve 1 2; Write 0 ok "t1";
   Write 1 true "t2"; Advance 1 3] ++ (if ok then [Advance 0 4] else []) ++
  [Release 0; Release 1; Acquire 2; Reserve 2 5; Write 2 true "t3"; Advance 2 6; Release 2].

Definition after (t : Memory.tracker) (tr : list event) : sys :=
  default (init t) (go t tr).

Definition fleet : gset string := {["a"; "b"]}.

Lemma fleet_fits : ct_fits (Memory.init 10 3600) fleet.
Proof. constructor; simpl; [constructor|by intros ? ?%not_elem_of_nil|vm_compute; done|done]. Qed.

Lemma who_fleet i : who i ∈ fleet.
Proof. unfold who, fleet. destruct (_ =? _)%nat; set_solver. Qed.

Lemma who_nonempty i : who i <> "".
Proof. unfold who. by destruct (_ =? _)%nat. Qed.

Lemma rec0_fresh i : fresh (rec0 i).
Proof. unfold fresh. simpl. eauto. Qed.

Lemma key_matching : matching_keys key.
Proof. by intros k [= <-]. Qed.

Lemma chain_linked_witness :
  let s := after (Memory.init 10 3600) (interleaved false) in
  map sequence_number (rows_of "a" (s_wal s)) = [Some 1] /\
  linked None (rows_of "a" (s_wal s)) /\ numbered 0 (rows_of "a" (s_wal s)) (1 + 1).
Proof.
  split; [vm_compute; reflexivity|].
  refine (chain_linked (E := ToyEd25519.toy) key on who rec0 (fun _ => true) fleet who_fleet who_nonempty
            eq_refl rec0_fresh (Memory.init 10 3600) (interleaved false) _ "a" fleet_fits _ _ _ _).
  - intros sid. reflexivity.
  - intros i ts _. reflexivity.
  - vm_compute. reflexivity.
  - apply (who_fleet 0).
Defined.

Lemma written_chain_verifies_witness :
  let s := after (Memory.init 10 3600) (interleaved true) in
  map sequence_number (rows_of "a" (s_wal s)) = [Some 0; Some 1] /\
  valid (verify_chain key [s_wal s] "a") = true.
Proof.
  split; [vm_compute; reflexivity|].
  refine (written_chain_verifies (E := ToyEd25519.toy) key on who rec0 (fun _ => true) fleet who_fleet who_nonempty
            eq_refl rec0_fresh (Memory.init 10 3600) (interleaved true) _ "a" fleet_fits _
            key_matching _ _ _ _).
  - intros sid. reflexivity.
  - intros i ts _. reflexivity.
  - vm_compute. reflexivity.
  - apply (who_fleet 0).
  - vm_compute. reflexivity.
Defined.

(** A tracker that holds one session: while task 0 is inside the section of
    session "a", session "b" finishes a turn and "a" is evicted with its lock. *)
Definition eviction_trace : list event :=
  [Lock 0; Acquire 0; Reserve 0 1;
   Lock 1; Acquire 1; Reserve 1 2; Write 1 true "t1"; Advance 1 3; Release 1;
   Lock 2; Acquire 2; Reserve 2 4; Write 2 true "t2"; Write 0 true "t3"].

(**  Eviction takes the lock of a session in use.  With one slot and two
    sessions there is a run, in which no write fails, that lets two requests of a
    session into the critical section at once: both records get number 0 and no
    predecessor, and the verifier rejects the log the gateway itself wrote. *)
Theorem eviction_breaks_chain :
  exists s, go (Memory.init 1 3600) eviction_trace = Some s /\
    failed who "a" eviction_trace = 0 /\
    inside (s_pc s 0) = true /\ inside (s_pc s 2) = true /\
    map sequence_number (rows_of "a" (s_wal s)) = [Some 0; Some 0] /\
    map previous_record_id (rows_of "a" (s_wal s)) = [None; None] /\
    valid (verify_chain key [s_wal s] "a") = false.
Proof.
  exists (after (Memory.init 1 3600) eviction_trace).
  do 6 (split; [vm_compute; reflexivity|]). vm_compute. reflexivity.
Qed.

(**  A failed write leaves a gap the verifier rejects.  The tracker calls a
    sequence gap from a failed request acceptable; with the tracker far from its
    limit, one failed write makes the session's stored chain invalid. *)
Theorem failed_write_invalidates :
  exists s, go (Memory.init 10 3600) (interleaved false) = Some s /\
    failed who "a" (interleaved false) = 1 /\
    linked None (rows_of "a" (s_wal s)) /\
    valid (verify_chain key [s_wal s] "a") = false.
Proof.
  exists (after (Memory.init 10 3600) (interleaved false)).
  do 2 (split; [vm_compute; reflexivity|]). split; [vm_compute; tauto|].
  vm_compute. reflexivity.
Qed.

(** Two turns of a session off the streaming path; the first one's write fails. *)
Definition unstreamed_trace : list event :=
  [Lock 0; Acquire 0; Reserve 0 1; Write 0 false "t1"; Advance 0 2; Release 0;
   Lock 2; Acquire 2; Reserve 2 3; Write 2 true "t2"; Advance 2 4; Release 2].

(**  Off the streaming path a failed write cuts the chain.  There the
    tracker advances whatever the write did, so the next stored record points at a
    record that was never stored: the first record of the log has a predecessor that
    exists nowhere. *)
Theorem ungated_failure_unlinks :
  exists s, run (E := ToyEd25519.toy) key on who rec0 (fun _ => false) (init (Memory.init 10 3600))
              unstreamed_trace = Some s /\
    map record_id (rows_of "a" (s_wal s)) = [Some "rec-2"] /\
    map previous_record_id (rows_of "a" (s_wal s)) = [Some "rec-0"] /\
    ~ linked None (rows_of "a" (s_wal s)) /\
    valid (verify_chain key [s_wal s] "a") = false.
Proof.
  eexists. split; [vm_compute; reflexivity|]. do 2 (split; [vm_compute; reflexivity|]).
  split; [vm_compute; intros [? _]; discriminate|]. vm_compute. reflexivity.
Qed.
End Runs.
