(* ===== verification/PolicyEngine.v ===== *)
(** * The policy engine and its callers

    [Engine] is core/policy_engine.py, [Cache] is cache/policy_cache.py,
    [PreInference] is pipeline/policy_evaluator.py and [Shadow] is
    pipeline/shadow_policy.py.  Regular expressions are Python's: the class
    [Regex] names [re.compile(p).search(s)], which raises on a bad pattern. *)
From Stdlib Require Import SpecFloat.
From S2P Require Import Prelude ODict PyVal.

Local Open Scope Z_scope.

Class Regex := re_search : string -> string -> res bool.

Module Engine.

(** [VERIFICATION_LEVEL_ORDER.get(level.lower(), 0)] *)
Definition VERIFICATION_LEVEL_ORDER : list (string * Z) :=
  [("self_reported", 1); ("loader_attested", 2); ("server_verified", 3);
   ("tee_measured", 4); ("periodically_reverified", 5)].

Definition _verification_level_rank (level : string) : Z :=
  default 0 (od_get (lower level) VERIFICATION_LEVEL_ORDER).

Definition unwrap (v : pyval) : pyval := match v with PRedacted s => PStr s | v => v end.

(** The loop over the parts: [None] is the early [return None]. *)
Fixpoint resolve_parts (current : pyval) (parts : list string) : option pyval :=
  match parts with
  | [] => Some current
  | part :: parts =>
      match current with
      | PDict d => resolve_parts (dget part d) parts
      | _ => None
      end
  end.

Definition _resolve_field (data : dict) (field_path : string) : pyval :=
  match resolve_parts (PDict data) (split_on "."%char field_path) with
  | Some v => unwrap v
  | None => PNone
  end.

Section engine.
Context `{Regex}.

Definition low_if (b : bool) (s : string) : string := if b then s else lower s.

Definition str_in (s : string) (l : list string) : bool := bool_decide (s ∈ l).

(** [try: float(actual) <op> float(expected) except (ValueError, TypeError)] *)
Definition float_test (op : spec_float -> spec_float -> bool) (actual expected : pyval)
    : res bool :=
  res_catch (let! a := py_float actual in let! b := py_float expected in Ok (op a b))
    (fun e => match e with ValueError _ | TypeError _ => Ok false | e => Raise e end).

Definition in_list (actual expected : pyval) (actual_str : string) (cs : bool) : bool :=
  match expected with
  | PList es =>
      match actual with
      | PList items =>
          let expected_strs := map (fun x => low_if cs (py_str x)) es in
          forallb (fun item => str_in (low_if cs (py_str item)) expected_strs) items
      | _ => str_in actual_str (map py_str es)
      end
  | _ => false
  end.

Definition _evaluate_rule (operator actual expected : pyval) (case_sensitive : bool)
    : res bool :=
  match actual with
  | PNone => Ok false
  | _ =>
      let actual_str := low_if case_sensitive (py_str actual) in
      let expected_str := low_if case_sensitive (py_str expected) in
      match operator with
      | PStr op =>
          if bool_decide (op = "equals") then Ok (bool_decide (actual_str = expected_str))
          else if bool_decide (op = "not_equals") then
            Ok (negb (bool_decide (actual_str = expected_str)))
          else if bool_decide (op = "contains") then Ok (contains expected_str actual_str)
          else if bool_decide (op = "not_contains") then
            Ok (negb (contains expected_str actual_str))
          else if bool_decide (op = "regex") then re_search expected_str actual_str
          else if bool_decide (op = "not_regex") then
            let! m := re_search expected_str actual_str in Ok (negb m)
          else if bool_decide (op = "greater_than") then
            float_test (fun a b => SFltb b a) actual expected
          else if bool_decide (op = "less_than") then float_test SFltb actual expected
          else if bool_decide (op = "in_list") then
            Ok (in_list actual expected actual_str case_sensitive)
          else Ok false
      | _ => Ok false
      end
  end.

(** ** Policies *)

(** [rule[k]] *)
Definition item (k : string) (d : dict) : res pyval :=
  match od_get k d with Some v => Ok v | None => Raise (KeyError k) end.

(** A rule must be a JSON object. *)
Definition as_dict (v : pyval) : res dict :=
  match v with PDict d => Ok d | _ => Raise (TypeError "not a mapping") end.

(** [for x in v] *)
Definition iter (v : pyval) : res (list pyval) :=
  match v with
  | PList l => Ok l
  | PDict d => Ok (map (fun kv => PStr kv.1) d)
  | PStr s => Ok (map (fun c => PStr (String c EmptyString)) (String.list_ascii_of_string s))
  | _ => Raise (TypeError "object is not iterable")
  end.

(** The condition of a rule, [default_cs] the default of ["case_sensitive"];
    the field and the actual value come along for the details. *)
Definition rule_condition (ctx : dict) (default_cs : bool) (r : pyval)
    : res (dict * pyval * pyval * bool) :=
  let! rule := as_dict r in
  let! fieldv := item "field" rule in
  match fieldv with
  | PStr field =>
      let actual := _resolve_field ctx field in
      let! value := item "value" rule in
      let! c := _evaluate_rule (dget_or "operator" (PStr "equals") rule) actual value
                  (truthy (dget_or "case_sensitive" (PBool default_cs) rule)) in
      Ok (rule, fieldv, actual, c)
  | _ => Raise (OtherError "AttributeError: split")
  end.

(** The loop over ["rules"]: every rule is evaluated, the details of the
    last failing one stay. *)
Fixpoint check_rules (ctx : dict) (rules : list pyval) (acc : bool * dict) : res (bool * dict) :=
  match rules with
  | [] => Ok acc
  | r :: rules =>
      let! '(rule, field, actual, condition_met) := rule_condition ctx true r in
      let action := dget_or "action" (PStr "allow") rule in
      let rule_failed := if py_eqb action (PStr "deny") then condition_met else negb condition_met in
      let! value := item "value" rule in
      check_rules ctx rules
        (if rule_failed
         then (false, od_set "actual" actual (od_set "expected" value
                        (od_set "failed_field" field acc.2)))
         else acc)
  end.

(** The loops over ["prompt_rules"] and ["rag_rules"]: stop at the first
    failure. *)
Fixpoint check_until (ctx : dict) (label : string) (default_cs : bool) (rules : list pyval)
    (acc : bool * dict) : res (bool * dict) :=
  match rules with
  | [] => Ok acc
  | r :: rules =>
      let! '(rule, field, actual, passed) := rule_condition ctx default_cs r in
      if (passed : bool) then check_until ctx label default_cs rules acc
      else Ok (false, od_set "failed_field" field (od_set "failed_check" (PStr label) acc.2))
  end.

(** The level part: an entry with [min_level] set *)
Definition check_level (ctx policy : dict) : bool * dict :=
  let min_level := dget "minimum_verification_level" policy in
  if truthy min_level then
    let current_str := py_str (unwrap (dget_or "verification_level" (PStr "self_reported") ctx)) in
    let required_str := py_str (unwrap min_level) in
    if _verification_level_rank current_str <? _verification_level_rank required_str
    then (false, [("failed_check", PStr "minimum_verification_level");
                  ("required", PStr required_str); ("actual", PStr current_str)])
    else (true, [])
  else (true, []).

(** [all_pass] and [rule_details] of one policy *)
Definition check_policy (ctx policy : dict) : res (bool * dict) :=
  let! rules := iter (dget_or "rules" (PList []) policy) in
  let! acc := check_rules ctx rules (check_level ctx policy) in
  let! prompt_rules := iter (dget_or "prompt_rules" (PList []) policy) in
  let! acc := check_until ctx "prompt_rule" false prompt_rules acc in
  let! rag_rules := iter (dget_or "rag_rules" (PList []) policy) in
  check_until ctx "rag_rule" true rag_rules acc.

Record PolicyEvalResult := MkEval {
  policy_id : string;
  policy_name : string;
  result_pass : bool;
  details : option dict;
}.

(** pydantic accepts only a string here. *)
Definition str_field (v : pyval) : res string :=
  match v with PStr s => Ok s | _ => Raise (ValueError "ValidationError") end.

Definition is_active (policy : dict) : bool := py_eqb (dget "status" policy) (PStr "active").

Definition is_blocking (policy : dict) : bool :=
  py_eqb (dget_or "enforcement_level" (PStr "blocking") policy) (PStr "blocking").

Fixpoint eval_loop (ctx : dict) (policies : list dict) : res (Z * list PolicyEvalResult) :=
  match policies with
  | [] => Ok (0, [])
  | p :: ps =>
      if is_active p then
        let! '(all_pass, rule_details) := check_policy ctx p in
        let! id := str_field (dget_or "policy_id" (PStr "") p) in
        let! name := str_field (dget_or "policy_name" (PStr "") p) in
        let! '(failures, results) := eval_loop ctx ps in
        Ok ((if negb all_pass && is_blocking p then 1 else 0) + failures,
            MkEval id name all_pass (if (all_pass : bool) then None else Some rule_details) :: results)
      else eval_loop ctx ps
  end.

Definition evaluate_policies (ctx : dict) (policies : list dict)
    : res (bool * list PolicyEvalResult) :=
  let! '(blocking_failures, results) := eval_loop ctx policies in
  Ok (0 <? blocking_failures, results).

(** ** What a policy asks *)

(** The rule holds: an allow rule's condition is met, a deny rule's is not. *)
Definition rule_holds (ctx : dict) (r : pyval) : Prop :=
  exists rule field actual c, rule_condition ctx true r = Ok (rule, field, actual, c) /\
    c = negb (py_eqb (dget_or "action" (PStr "allow") rule) (PStr "deny")).

Definition test_holds (ctx : dict) (default_cs : bool) (r : pyval) : Prop :=
  exists rule field actual, rule_condition ctx default_cs r = Ok (rule, field, actual, true).

Definition level_holds (ctx p : dict) : Prop :=
  truthy (dget "minimum_verification_level" p) = true ->
  _verification_level_rank (py_str (unwrap (dget "minimum_verification_level" p))) <=
  _verification_level_rank (py_str (unwrap (dget_or "verification_level" (PStr "self_reported") ctx))).

Definition all_of (k : string) (p : dict) (P : pyval -> Prop) : Prop :=
  exists l, iter (dget_or k (PList []) p) = Ok l /\ Forall P l.

Definition satisfied (ctx p : dict) : Prop :=
  level_holds ctx p /\ all_of "rules" p (rule_holds ctx) /\
  all_of "prompt_rules" p (test_holds ctx false) /\ all_of "rag_rules" p (test_holds ctx true).

Lemma check_level_ok ctx p : (check_level ctx p).1 = true <-> level_holds ctx p.
Proof.
  unfold check_level, level_holds. destruct (truthy _); [|naive_solver].
  destruct (_ <? _) eqn:Hlt; zbool; simpl.
  - split; [done|]. intros Hle. specialize (Hle eq_refl). lia.
  - naive_solver.
Qed.

Lemma check_rules_ok ctx rules : forall acc b d,
  check_rules ctx rules acc = Ok (b, d) ->
  b = true <-> acc.1 = true /\ Forall (rule_holds ctx) rules.
Proof.
  induction rules as [|r rules IH]; intros [b0 d0] b d Hc; simpl in Hc.
  - injection Hc as -> ->. rewrite Forall_nil. naive_solver.
  - destruct (rule_condition ctx true r) as [[[[rule field] actual] c]|] eqn:Hr; [|done]. simpl in Hc.
    destruct (item "value" rule) as [v|]; [|done]. simpl in Hc.
    assert (rule_holds ctx r <-> c = negb (py_eqb (dget_or "action" (PStr "allow") rule) (PStr "deny")))
      as Hh by (unfold rule_holds; rewrite Hr; naive_solver).
    apply IH in Hc. rewrite Hc, Forall_cons, Hh.
    destruct (py_eqb _ _), c; simpl; naive_solver.
Qed.

Lemma check_until_ok ctx label cs rules : forall acc b d,
  check_until ctx label cs rules acc = Ok (b, d) ->
  b = true <-> acc.1 = true /\ Forall (test_holds ctx cs) rules.
Proof.
  induction rules as [|r rules IH]; intros [b0 d0] b d Hc; simpl in Hc.
  - injection Hc as -> ->. rewrite Forall_nil. naive_solver.
  - destruct (rule_condition ctx cs r) as [[[[rule field] actual] c]|] eqn:Hr; [|done]. simpl in Hc.
    assert (test_holds ctx cs r <-> c = true) as Hh by (unfold test_holds; rewrite Hr; naive_solver).
    rewrite Forall_cons, Hh. destruct c.
    + apply IH in Hc. rewrite Hc. naive_solver.
    + injection Hc as <- _. naive_solver.
Qed.

Lemma check_policy_ok ctx p b d : check_policy ctx p = Ok (b, d) -> b = true <-> satisfied ctx p.
Proof.
  unfold check_policy, satisfied, all_of. intros Hc.
  destruct (iter (dget_or "rules" _ p)) as [rs|]; [|done]. simpl in Hc.
  destruct (check_rules ctx rs _) as [[b1 d1]|] eqn:H1; [|done]. simpl in Hc.
  destruct (iter (dget_or "prompt_rules" _ p)) as [ps|]; [|done]. simpl in Hc.
  destruct (check_until ctx "prompt_rule" _ ps _) as [[b2 d2]|] eqn:H2; [|done]. simpl in Hc.
  destruct (iter (dget_or "rag_rules" _ p)) as [gs|]; [|done]. simpl in Hc.
  apply check_rules_ok in H1. apply check_until_ok in H2, Hc. simpl in *.
  rewrite Hc, H2, H1, check_level_ok. naive_solver.
Qed.

Lemma eval_loop_ok ctx ps : forall n rs,
  eval_loop ctx ps = Ok (n, rs) ->
  0 <= n /\ (n = 0 <-> Forall (fun p => is_active p = true -> is_blocking p = true -> satisfied ctx p) ps) /\
  Forall2 (fun p r => result_pass r = true <-> satisfied ctx p) (List.filter is_active ps) rs.
Proof.
  induction ps as [|p ps IH]; intros n rs Hr; simpl in Hr.
  { simplify_eq. done. }
  simpl. destruct (is_active p) eqn:Ha.
  - destruct (check_policy ctx p) as [[b d]|] eqn:Hp; [|done]. simpl in Hr.
    destruct (str_field _) as [id|]; [|done]. simpl in Hr.
    destruct (str_field _) as [name|]; [|done]. simpl in Hr.
    destruct (eval_loop ctx ps) as [[m rs']|] eqn:Hl; [|done]. simplify_eq/=.
    destruct (IH _ _ eq_refl) as (Hm & Hiff & Hf). apply check_policy_ok in Hp.
    rewrite Forall_cons, <- Hp, <- Hiff, Ha.
    split; [destruct (negb b && _); lia|]. split; [|by constructor].
    destruct b, (is_blocking p); simpl; intuition (try lia; try congruence).
  - destruct (IH _ _ Hr) as (Hm & Hiff & Hf). split; [done|]. split; [|done].
    rewrite Forall_cons, <- Hiff. split; [split; [congruence|done]|by intros [_ ?]].
Qed.

Lemma evaluate_unblocked ctx ps blocked rs :
  evaluate_policies ctx ps = Ok (blocked, rs) ->
  blocked = false <-> forall p, p ∈ ps -> is_active p = true -> is_blocking p = true -> satisfied ctx p.
Proof.
  unfold evaluate_policies. intros He.
  destruct (eval_loop ctx ps) as [[n rs']|] eqn:Hl; [|done]. simplify_eq/=.
  destruct (eval_loop_ok _ _ _ _ Hl) as (Hn & Hiff & _).
  rewrite <- Forall_forall, <- Hiff, Z.ltb_ge. lia.
Qed.

(** C21.  The engine's verdict is exact.  When [evaluate_policies] answers, the
    request is blocked exactly if some active policy with blocking enforcement is
    not satisfied -- its verification level, an allow or deny rule, a prompt rule
    or a RAG rule -- and it reports one result for each active policy, in
    order, [pass] exactly when that policy is satisfied. *)
Theorem evaluate_policies_exact ctx ps blocked rs :
  evaluate_policies ctx ps = Ok (blocked, rs) ->
  (blocked = false <-> forall p, p ∈ ps -> is_active p = true -> is_blocking p = true -> satisfied ctx p) /\
  Forall2 (fun p r => result_pass r = true <-> satisfied ctx p) (List.filter is_active ps) rs.
Proof.
  intros He. split; [by eapply evaluate_unblocked|].
  unfold evaluate_policies in He. destruct (eval_loop ctx ps) as [[n rs']|] eqn:Hl; [|done].
  simplify_eq/=. by destruct (eval_loop_ok _ _ _ _ Hl) as (_ & _ & Hf).
Qed.

(**  A case-insensitive list rule compares a lowered value with the list as
    written.  A scalar equal to a list entry does not match when its lower-case
    form is not itself in the list. *)
Theorem in_list_scalar_case s (es : list string) :
  s ∈ es -> lower s ∉ es ->
  _evaluate_rule (PStr "in_list") (PStr s) (PList (map PStr es)) false = Ok false /\
  _evaluate_rule (PStr "in_list") (PList [PStr s]) (PList (map PStr es)) false = Ok true.
Proof.
  intros Hs Hl. unfold _evaluate_rule. simpl. rewrite !map_map. simpl. unfold str_in. split.
  - rewrite bool_decide_false; [done|]. by rewrite map_id.
  - rewrite bool_decide_true; [done|]. apply list_elem_of_fmap. eauto.
Qed.

(** The context and the policy of a size limit *)
Definition huge_ctx : dict := [("max", PInt (10 ^ 400))].
Definition limit_policy : dict :=
  [("status", PStr "active"); ("enforcement_level", PStr "advisory");
   ("rules", PList [PDict [("field", PStr "max"); ("operator", PStr "less_than");
                           ("value", PInt 100)]])].

(**  A number too large for a double is not a failed comparison.  The
    conversion raises [OverflowError], which the engine does not catch: one
    oversized value in the context aborts the evaluation of all policies, even
    when the policy that reads it is only advisory. *)
Theorem oversized_number_aborts :
  exists msg, evaluate_policies huge_ctx [limit_policy] = Raise (OverflowError msg).
Proof. eexists. vm_compute. reflexivity. Qed.

End engine.
End Engine.

Module Cache.

Record PolicyCacheState := MkState {
  version : Z;
  policies : list dict;
  fetched_at : Z;
}.

Record cache := MkCache {
  _threshold : Z;
  _state : option PolicyCacheState;
  _version_counter : Z;
}.

Definition init (staleness_threshold_seconds : Z) : cache :=
  MkCache staleness_threshold_seconds None 0.

Definition next_version (c : cache) : cache * Z :=
  (MkCache (_threshold c) (_state c) (_version_counter c + 1), _version_counter c + 1).

Definition set_policies (c : cache) (v : Z) (ps : list dict) (now : Z) : cache :=
  MkCache (_threshold c) (Some (MkState v ps now)) (_version_counter c).

Definition get_policies (c : cache) : list dict :=
  match _state c with None => [] | Some s => policies s end.

Definition cache_version (c : cache) : Z := match _state c with None => 0 | Some s => version s end.

Definition last_sync (c : cache) : option Z := fetched_at <$> _state c.

Definition is_stale (c : cache) (now : Z) : bool :=
  match _state c with
  | None => true
  | Some s => seconds (_threshold c) <? now - fetched_at s
  end.

Definition evaluate `{Regex} (c : cache) (ctx : dict)
    : res (bool * list Engine.PolicyEvalResult * Z) :=
  match get_policies c with
  | [] => Ok (false, [], cache_version c)
  | ps => let! '(blocked, rs) := Engine.evaluate_policies ctx ps in Ok (blocked, rs, cache_version c)
  end.

Lemma cache_unblocked `{Regex} c ctx rs v :
  evaluate c ctx = Ok (false, rs, v) ->
  forall p, p ∈ get_policies c -> Engine.is_active p = true -> Engine.is_blocking p = true ->
    Engine.satisfied ctx p.
Proof.
  unfold evaluate. destruct (get_policies c) as [|p0 ps].
  { intros _ p Hp. by apply not_elem_of_nil in Hp. }
  intros He. destruct (Engine.evaluate_policies ctx (p0 :: ps)) as [[b r]|] eqn:Hep; [|done].
  simplify_eq/=. by apply (Engine.evaluate_unblocked _ _ _ _ Hep).
Qed.

End Cache.

Module PreInference.
Import Engine.

(** An HTTP response of the gateway: status and JSON body *)
Record response := MkResponse { status_code : Z; body : dict }.

Record PolicyBlockDetail := MkDetail {
  d_policy_name : string;
  d_policy_version : Z;
  d_operator : pyval;
  d_field : pyval;
  d_expected : string;
  d_actual : string;
}.

Definition to_response_body (d : PolicyBlockDetail) : dict :=
  [("error", PStr "Blocked by policy");
   ("reason", PStr ("Policy '" +:+ d_policy_name d +:+ "' v" +:+ z_str (d_policy_version d) +:+
      " blocked: field '" +:+ py_str (d_field d) +:+ "' is '" +:+ d_actual d +:+
      "', expected '" +:+ d_expected d +:+ "'")%string);
   ("governance_decision", PDict
     [("policy_name", PStr (d_policy_name d)); ("policy_version", PInt (d_policy_version d));
      ("blocking_rule_field", d_field d); ("blocking_rule_operator", d_operator d);
      ("expected_value", PStr (d_expected d)); ("actual_value", PStr (d_actual d))])].

(** [a or b or "unknown"] *)
Definition label_of (r : PolicyEvalResult) : string :=
  if bool_decide (policy_name r <> "") then policy_name r
  else if bool_decide (policy_id r <> "") then policy_id r else "unknown".

Definition block_of (r : PolicyEvalResult) (version : Z) : dict * option string :=
  let det := default [] (details r) in
  let field := por (dget "failed_field" det) (dget_or "failed_check" (PStr "unknown") det) in
  let expected := py_str (dget_or "expected" (dget_or "required" (PStr "unknown") det) det) in
  let actual := py_str (dget_or "actual" (PStr "unknown") det) in
  let label := label_of r in
  (to_response_body (MkDetail label version (PStr "equals") field expected actual),
   Some ("policy " +:+ str_repr label +:+ " blocked field " +:+ py_str field +:+
         ": expected " +:+ str_repr expected +:+ ", got " +:+ str_repr actual)%string).

Fixpoint _extract_policy_block (results : list PolicyEvalResult) (version : Z)
    : dict * option string :=
  match results with
  | [] => ([("error", PStr "Blocked by policy")], None)
  | r :: rs => if result_pass r then _extract_policy_block rs version else block_of r version
  end.

Record outcome := MkOutcome {
  blocked : bool;
  policy_version : Z;
  policy_result : string;
  error_response : option response;
  failure_reason : option string;
}.

Definition stale_outcome (v : Z) : outcome :=
  MkOutcome true v "fail_closed"
    (Some (MkResponse 503 [("error", PStr "Policy cache stale, control plane unreachable")]))
    (Some "policy cache stale, control plane unreachable").

(** The context the policies see: the attestation's with the prompt added *)
Definition with_prompt (ctx : dict) (prompt_text : string) : dict :=
  od_set "prompt" (PDict [("text", PRedacted prompt_text)]) ctx.

Definition evaluate_pre_inference `{Regex} (c : Cache.cache) (prompt_text : string)
    (attestation_context : dict) (now : Z) : res outcome :=
  if Cache.is_stale c now then Ok (stale_outcome (Cache.cache_version c))
  else
    let! '(blocked, results, version) := Cache.evaluate c (with_prompt attestation_context prompt_text) in
    if (blocked : bool) then
      let '(b, reason) := _extract_policy_block results version in
      Ok (MkOutcome true version "blocked_by_policy" (Some (MkResponse 403 b)) reason)
    else Ok (MkOutcome false version "pass" None None).

(** A request that passes was judged by a fresh policy set it satisfies. *)
Lemma pre_inference_pass `{Regex} c prompt ctx now o :
  evaluate_pre_inference c prompt ctx now = Ok o -> error_response o = None ->
  blocked o = false /\
  exists st, Cache._state c = Some st /\
    now - Cache.fetched_at st <= seconds (Cache._threshold c) /\
    forall p, p ∈ Cache.policies st -> is_active p = true -> is_blocking p = true ->
      satisfied (with_prompt ctx prompt) p.
Proof.
  unfold evaluate_pre_inference. destruct (Cache.is_stale c now) eqn:Hst; [by intros [= <-]|].
  destruct (Cache.evaluate c (with_prompt ctx prompt)) as [[[bl rs] v]|] eqn:Hev; [|done].
  simpl. intros He Herr. destruct bl; [destruct (_extract_policy_block rs v); by simplify_eq/=|].
  injection He as <-. split; [done|].
  pose proof (Cache.cache_unblocked _ _ _ _ Hev) as Hsat. unfold Cache.is_stale in Hst.
  unfold Cache.get_policies in Hsat. destruct (Cache._state c) as [st|]; [|done]. zbool. eauto.
Qed.

(** The two kinds of outcome *)
Lemma pre_inference_cases `{Regex} c prompt ctx now o :
  evaluate_pre_inference c prompt ctx now = Ok o ->
  (blocked o = false /\ error_response o = None) \/
  (blocked o = true /\ exists r, error_response o = Some r /\
     status_code r = if Cache.is_stale c now then 503 else 403).
Proof.
  unfold evaluate_pre_inference. destruct (Cache.is_stale c now) eqn:Hst; [intros [= <-]; right; eauto|].
  destruct (Cache.evaluate c (with_prompt ctx prompt)) as [[[bl rs] v]|]; [|done]. simpl.
  destruct bl; [destruct (_extract_policy_block rs v)|]; intros [= <-]; [right; eauto|by left].
Qed.

(** C32.  The gate is fail-closed.  A request passes the pre-inference step only
    if the policy set was fetched within the staleness threshold and every active
    blocking policy of the set is satisfied on the attestation context with the
    prompt; a blocked request carries an error response, 503 when the set is
    stale and 403 when a policy blocked it. *)
Theorem pre_inference_fail_closed `{Regex} c prompt ctx now o :
  evaluate_pre_inference c prompt ctx now = Ok o ->
  (blocked o = false ->
     error_response o = None /\
     exists st, Cache._state c = Some st /\
       now - Cache.fetched_at st <= seconds (Cache._threshold c) /\
       forall p, p ∈ Cache.policies st -> is_active p = true -> is_blocking p = true ->
         satisfied (with_prompt ctx prompt) p) /\
  (blocked o = true ->
     exists r, error_response o = Some r /\
       status_code r = if Cache.is_stale c now then 503 else 403).
Proof.
  intros He. pose proof (pre_inference_pass _ _ _ _ _ He) as Hpass.
  destruct (pre_inference_cases _ _ _ _ _ He) as [[Hb Herr]|[Hb Hr]]; split; intros Hb'.
  - split; [done|]. by apply Hpass.
  - congruence.
  - congruence.
  - done.
Qed.

End PreInference.

(** ** Shadow policies *)
Module Shadow.

Inductive failed_rule :=
  | UnknownOperator (field operator : pyval)
  | Mismatch (field operator : pyval) (expected actual : string)
  | RuleError (field : pyval) (e : exn).

Record report := MkReport {
  rep_name : pyval;
  rep_version : pyval;
  would_block : bool;
  failed_rules : list failed_rule;
  error : option exn;
}.

(** [d.get(v)] for a key that may not be a string: only strings are keys, and
    a list or an object is not hashable. *)
Definition get_any {V} (v : pyval) (d : list (string * V)) : res (option V) :=
  match v with
  | PStr s => Ok (od_get s d)
  | PList _ | PDict _ => Raise (TypeError "unhashable type")
  | _ => Ok None
  end.

Definition _OPERATORS : list (string * (pyval -> pyval -> res bool)) :=
  [("equals", fun a b => Ok (bool_decide (py_str a = py_str b)));
   ("not_equals", fun a b => Ok (negb (bool_decide (py_str a = py_str b))));
   ("contains", fun a b => Ok (contains (py_str b) (py_str a)));
   ("greater_than", fun a b => let! x := py_float a in let! y := py_float b in Ok (SFltb y x))].

(** One rule: nothing, or what is appended to [failed_rules]; an exception
    here reaches the handler of the policy. *)
Definition check_rule (context : dict) (r : pyval) : res (list failed_rule) :=
  match r with
  | PDict rule =>
      let field := dget_or "field" (PStr "") rule in
      let operator := dget_or "operator" (PStr "equals") rule in
      let expected := dget_or "value" (PStr "") rule in
      let! actual := get_any field context in
      let actual := default PNone actual in
      let! op := get_any operator _OPERATORS in
      match op with
      | None => Ok [UnknownOperator field operator]
      | Some op_fn =>
          match op_fn actual expected with
          | Ok true => Ok []
          | Ok false => Ok [Mismatch field operator (py_str expected) (py_str actual)]
          | Raise (TypeError m) => Ok [RuleError field (TypeError m)]
          | Raise (ValueError m) => Ok [RuleError field (ValueError m)]
          | Raise e => Raise e
          end
      end
  | _ => Raise (OtherError "AttributeError")
  end.

Fixpoint check_rules (context : dict) (rules : list pyval) : res (list failed_rule) :=
  match rules with
  | [] => Ok []
  | r :: rules => let! f := check_rule context r in let! fs := check_rules context rules in Ok (f ++ fs)
  end.

Definition run_policy (context policy : dict) : report :=
  let name := dget_or "name" (PStr "unknown") policy in
  let version := dget_or "version" (PInt 0) policy in
  match dget_or "rules" (PList []) policy with
  | PList rules =>
      match check_rules context rules with
      | Ok fs => MkReport name version (negb (bool_decide (length fs = 0%nat))) fs None
      | Raise e => MkReport name version false [] (Some e)
      end
  | _ => MkReport name version false [] (Some (OtherError "Invalid rules type"))
  end.

Definition run_shadow_policies (policies : list dict) (context : dict) : list report :=
  map (run_policy context) policies.

(** ** Agreement with the engine *)

(** A rule both evaluate the same way: an allow rule on a top-level field that
    is present, with an operator both know and case-sensitive comparison. *)
Definition common_rule (ctx : dict) (r : pyval) : Prop :=
  exists rule f op v actual,
    r = PDict rule /\ od_get "field" rule = Some (PStr f) /\ split_on "."%char f = [f] /\
    dget_or "operator" (PStr "equals") rule = PStr op /\
    op ∈ ["equals"; "not_equals"; "contains"] /\
    od_get "value" rule = Some v /\ od_get f ctx = Some actual /\
    actual <> PNone /\ Engine.unwrap actual = actual /\
    truthy (dget_or "case_sensitive" (PBool true) rule) = true /\
    py_eqb (dget_or "action" (PStr "allow") rule) (PStr "deny") = false.

Lemma common_rule_agrees `{Regex} ctx r :
  common_rule ctx r ->
  exists fs, check_rule ctx r = Ok fs /\ (fs = [] <-> Engine.rule_holds ctx r).
Proof.
  intros (rule & f & op & v & actual & -> & Hf & Hs & Hop & Hin & Hv & Ha & Hnn & Hu & Hcs & Hact).
  assert (Engine._resolve_field ctx f = actual) as Hres.
  { unfold Engine._resolve_field. rewrite Hs. simpl. unfold dget. by rewrite Ha. }
  assert (exists c, Engine.rule_condition ctx true (PDict rule) = Ok (rule, PStr f, actual, c) /\
    c = if bool_decide (op = "equals") then bool_decide (py_str actual = py_str v)
        else if bool_decide (op = "not_equals") then negb (bool_decide (py_str actual = py_str v))
        else contains (py_str v) (py_str actual)) as (c & Hc & Hcv).
  { unfold Engine.rule_condition, Engine.item. simpl. rewrite Hf. simpl. rewrite Hres, Hv, Hop, Hcs.
    unfold Engine._evaluate_rule. simpl.
    repeat (apply elem_of_cons in Hin as [->|Hin]); [..|by apply not_elem_of_nil in Hin];
      destruct actual; try done; eexists; split; reflexivity. }
  assert (check_rule ctx (PDict rule) =
    Ok (if c then [] else [Mismatch (PStr f) (PStr op) (py_str v) (py_str actual)])) as ->.
  { assert (dget_or "field" (PStr "") rule = PStr f) as Hf' by (unfold dget_or; by rewrite Hf).
    assert (dget_or "value" (PStr "") rule = v) as Hv' by (unfold dget_or; by rewrite Hv).
    unfold check_rule. rewrite Hf', Hv', Hop. simpl. rewrite Ha. simpl. clear -Hin Hcv. subst c.
    repeat (apply elem_of_cons in Hin as [->|Hin]); [..|by apply not_elem_of_nil in Hin]; simpl;
      [by case_bool_decide|by case_bool_decide|by destruct (contains _ _)]. }
  eexists. split; [done|]. unfold Engine.rule_holds. rewrite Hc. clear Hcv.
  destruct c; split; try done.
  - intros _. eexists _, _, _, _. split; [done|]. by rewrite Hact.
  - intros (? & ? & ? & ? & Heq & Hn). injection Heq as <- <- <- <-. by rewrite Hact in Hn.
Qed.

(**  Shadow evaluation predicts the engine.  For a policy whose rules are
    all common to both, shadow mode reports [would_block] exactly when the
    engine's rules are not all satisfied, and reports no error. *)
Theorem shadow_predicts `{Regex} ctx policy rules :
  od_get "rules" policy = Some (PList rules) ->
  Forall (common_rule ctx) rules ->
  let rep := run_policy ctx policy in
  error rep = None /\ (would_block rep = false <-> Forall (Engine.rule_holds ctx) rules).
Proof.
  intros Hr Hc. unfold run_policy.
  assert (dget_or "rules" (PList []) policy = PList rules) as -> by (unfold dget_or; by rewrite Hr).
  assert (exists fs, check_rules ctx rules = Ok fs /\ (fs = [] <-> Forall (Engine.rule_holds ctx) rules))
    as (fs & -> & Hiff).
  { clear Hr. induction Hc as [|r rules Hr Hrs IH]; simpl; [exists []; by rewrite Forall_nil|].
    destruct (common_rule_agrees ctx r Hr) as (f & -> & Hf). destruct IH as (fs & -> & Hfs). simpl.
    exists (f ++ fs). split; [done|]. rewrite Forall_cons, <- Hf, <- Hfs. apply app_nil. }
  simpl. split; [done|]. rewrite <- Hiff. destruct fs; simpl; naive_solver.
Qed.

#[local] Instance contains_regex : Regex := fun p s => Ok (contains p s).

Definition gpt_rule : pyval :=
  PDict [("field", PStr "model_id"); ("operator", PStr "contains"); ("value", PStr "gpt")].
Definition gpt_policy : dict := [("status", PStr "active"); ("rules", PList [gpt_rule])].

Lemma shadow_predicts_witness :
  let rep := run_policy [("model_id", PStr "qwen")] gpt_policy in
  would_block rep = true /\ error rep = None /\
  (would_block rep = false <-> Forall (Engine.rule_holds [("model_id", PStr "qwen")]) [gpt_rule]).
Proof.
  split; [reflexivity|].
  apply (shadow_predicts [("model_id", PStr "qwen")] gpt_policy [gpt_rule]); [reflexivity|].
  constructor; [|constructor].
  exists [("field", PStr "model_id"); ("operator", PStr "contains"); ("value", PStr "gpt")],
    "model_id", "contains", (PStr "gpt"), (PStr "qwen").
  repeat (split; [try reflexivity; try discriminate|]); try reflexivity.
  apply elem_of_cons. right. apply elem_of_cons. right. apply elem_of_cons. by left.
Defined.

(**  Shadow mode does not know deny rules.  A policy that denies one model
    is satisfied by every other model, and shadow mode reports that it would
    block it; it blocks nothing of what the shadow report shows as passing. *)
Theorem shadow_inverts_deny :
  let policy := [("status", PStr "active");
    ("rules", PList [PDict [("field", PStr "model_id"); ("value", PStr "bad");
                            ("action", PStr "deny")]])] in
  (would_block (run_policy [("model_id", PStr "good")] policy) = true /\
   Engine.evaluate_policies [("model_id", PStr "good")] [policy] = Ok (false, [Engine.MkEval "" "" true None])) /\
  (would_block (run_policy [("model_id", PStr "bad")] policy) = false /\
   exists rs, Engine.evaluate_policies [("model_id", PStr "bad")] [policy] = Ok (true, rs)).
Proof.
  split; (split; [reflexivity|]); [reflexivity|]. eexists. vm_compute. reflexivity.
Qed.

End Shadow.

Module Samples.
Import Engine PreInference.

#[export] Existing Instance Shadow.contains_regex.

Definition fail_policy (name level : string) : dict :=
  [("status", PStr "active"); ("policy_name", PStr name); ("enforcement_level", PStr level);
   ("rules", PList [PDict [("field", PStr "model_id"); ("value", PStr name)]])].

Definition sample_ctx : dict := [("model_id", PStr "m"); ("verification_level", PStr "tee_measured")].

Lemma evaluate_policies_exact_witness :
  exists rs, evaluate_policies sample_ctx [fail_policy "m" "blocking"; fail_policy "x" "warning"]
             = Ok (false, rs) /\
    (forall p, p ∈ [fail_policy "m" "blocking"; fail_policy "x" "warning"] ->
       is_active p = true -> is_blocking p = true -> satisfied sample_ctx p) /\
    Forall2 (fun p r => result_pass r = true <-> satisfied sample_ctx p)
      [fail_policy "m" "blocking"; fail_policy "x" "warning"] rs.
Proof.
  eexists. split; [reflexivity|].
  epose proof (evaluate_policies_exact sample_ctx
    [fail_policy "m" "blocking"; fail_policy "x" "warning"] false _ eq_refl) as [H1 H2].
  split; [by apply H1|exact H2].
Defined.

Lemma in_list_scalar_case_witness :
  _evaluate_rule (PStr "in_list") (PStr "GPT-4") (PList [PStr "GPT-4"; PStr "gpt-3"]) false = Ok false.
Proof.
  apply (in_list_scalar_case "GPT-4" ["GPT-4"; "gpt-3"]); vm_compute.
  - apply elem_of_cons. by left.
  - intros [|]%elem_of_cons; [discriminate|].
    apply elem_of_cons in H as [|H]; [discriminate|]. by apply not_elem_of_nil in H.
Defined.

Definition fresh_cache : Cache.cache :=
  Cache.set_policies (Cache.init 900) 3 [fail_policy "m" "blocking"] 0.

Lemma pre_inference_fail_closed_witness :
  exists o, evaluate_pre_inference fresh_cache "hi" sample_ctx (seconds 900) = Ok o /\
    blocked o = false /\ exists st, Cache._state fresh_cache = Some st /\
      forall p, p ∈ Cache.policies st -> is_active p = true -> is_blocking p = true ->
        satisfied (with_prompt sample_ctx "hi") p.
Proof.
  eexists. split; [reflexivity|]. split; [reflexivity|].
  destruct (pre_inference_fail_closed fresh_cache "hi" sample_ctx (seconds 900) _ eq_refl) as [Hp _].
  destruct (Hp eq_refl) as (_ & st & Hst & _ & Hall). exists st. split; [exact Hst|exact Hall].
Defined.

(**  The block message can name the wrong policy.  When a warning policy
    that fails is listed before the blocking one, the 403 body and the reason
    name the warning policy as the one that blocked. *)
Theorem block_names_warning_policy :
  exists o r, evaluate_pre_inference
      (Cache.set_policies (Cache.init 900) 3
         [fail_policy "warn-only" "warning"; fail_policy "hard" "blocking"] 0)
      "hi" sample_ctx 0 = Ok o /\
    blocked o = true /\ error_response o = Some r /\
    exists g, dget "governance_decision" (body r) = PDict g /\
      dget "policy_name" g = PStr "warn-only".
Proof. do 2 eexists. split; [vm_compute; reflexivity|]. split; [reflexivity|]. split; [reflexivity|].
  eexists. split; reflexivity.
Qed.

(**  A stale refusal reports the cached version, not 0. *)
Theorem stale_reports_version :
  exists o, evaluate_pre_inference fresh_cache "hi" sample_ctx (seconds 900 + 1) = Ok o /\
    policy_result o = "fail_closed" /\ policy_version o = 3.
Proof. eexists. split; [reflexivity|]. split; reflexivity. Qed.
End Samples.
