(* ===== verification/Attestation.v ===== *)
(** * Model attestation

    The attestation cache (cache/attestation_cache.py), [resolve_attestation]
    (pipeline/model_resolver.py) and the orchestrator's first step,
    [_attestation_check] (pipeline/orchestrator.py).  The sync client's refresh
    is an argument: it returns whether it succeeded and the cache it leaves. *)
From S2P Require Import Prelude ODict PyVal.

Local Open Scope Z_scope.

Definition BLOCKED_STATUSES : list string := ["revoked"; "tampered"; "failed"].

Record CachedAttestation := MkAttestation {
  attestation_id : string;
  model_id : string;
  provider : string;
  status : string;
  fetched_at : Z;
  ttl_seconds : Z;
  tenant_id : string;
  verification_level : string;
  last_verified_at : option string;
  model_hash : option string;
}.

Definition is_expired (a : CachedAttestation) (now : Z) : bool :=
  seconds (ttl_seconds a) <? now - fetched_at a.

Definition is_blocked (a : CachedAttestation) : bool :=
  bool_decide (lower (status a) ∈ BLOCKED_STATUSES).

(** [_ttl] and [_cache] *)
Record cache := MkCache {
  _ttl : Z;
  _cache : gmap (string * string * string) CachedAttestation;
}.

Definition _key (prov model tenant : string) : string * string * string :=
  (lower (strip prov), strip model, strip tenant).

Definition get (c : cache) (prov model tenant : string) : option CachedAttestation :=
  _cache c !! _key prov model tenant.

Definition set (c : cache) (e : CachedAttestation) : cache :=
  MkCache (_ttl c) (<[_key (provider e) (model_id e) (tenant_id e) := e]> (_cache c)).

(** The keys [set_from_proof] reads, [None] when missing *)
Record proof := MkProof {
  p_model_id : option string;
  p_status : option string;
  p_attestation_id : option string;
  p_tenant_id : option string;
  p_verification_level : option string;
  p_last_verified_at : option string;
  p_model_hash : option string;
}.

(** [x or d] *)
Definition or_else (o : option string) (d : string) : string :=
  match o with None | Some EmptyString => d | Some s => s end.

Definition set_from_proof (c : cache) (prov : string) (p : proof) (now : Z) : cache :=
  set c (MkAttestation (or_else (p_attestation_id p) "") (or_else (p_model_id p) "") prov
           (lower (or_else (p_status p) "pending")) now (_ttl c) (or_else (p_tenant_id p) "")
           (or_else (p_verification_level p) "self_reported") (p_last_verified_at p)
           (match p_model_hash p with Some EmptyString => None | h => h end)).

Definition invalidate (c : cache) (prov model tenant : string) : cache :=
  MkCache (_ttl c) (delete (_key prov model tenant) (_cache c)).

Definition clear (c : cache) : cache := MkCache (_ttl c) ∅.

Definition entry_count (c : cache) : Z := Z.of_nat (size (_cache c)).

(** Every entry sits under its own key. *)
Definition wf (c : cache) : Prop :=
  forall k e, _cache c !! k = Some e -> k = _key (provider e) (model_id e) (tenant_id e).

Lemma wf_set c e : wf c -> wf (set c e).
Proof.
  intros Hwf k e'. unfold set. simpl.
  destruct (decide (_key (provider e) (model_id e) (tenant_id e) = k)) as [<-|Hne].
  - rewrite lookup_insert_eq. by intros [= <-].
  - rewrite lookup_insert_ne by done. apply Hwf.
Qed.

(** ** [resolve_attestation] *)

Inductive denial :=
  | Unreachable          (** 503 *)
  | NotAttested          (** 403 *)
  | Revoked              (** 403 *)
  | NotAttestedOrRevoked. (** 403 *)

Definition status_code (d : denial) : Z := match d with Unreachable => 503 | _ => 403 end.

Definition refresher : Type := cache -> cache * bool.

(** [now i] is the clock at the [i]-th look at the expiry. *)
Definition check_entry (c : cache) (e : CachedAttestation) (prov model tenant : string)
    (try_refresh : option refresher) (now : nat -> Z) : cache * (CachedAttestation + denial) :=
  if is_blocked e then (c, inr Revoked)
  else
    let last c e := if is_expired e (now 2%nat) then (c, inr Unreachable) else (c, inl e) in
    match is_expired e (now 0%nat), try_refresh with
    | true, Some refresh =>
        let '(c, refreshed) := refresh c in
        if (refreshed : bool) then
          match get c prov model tenant with
          | None => (c, inr NotAttestedOrRevoked)
          | Some e =>
              if is_blocked e then (c, inr NotAttestedOrRevoked)
              else if is_expired e (now 1%nat) then (c, inr Unreachable)
              else last c e
          end
        else (c, inr Unreachable)
    | _, _ => last c e
    end.

Definition resolve_attestation (c : cache) (prov model tenant : string)
    (try_refresh : option refresher) (now : nat -> Z) : cache * (CachedAttestation + denial) :=
  match get c prov model tenant, try_refresh with
  | None, Some refresh =>
      let '(c, ok) := refresh c in
      if (ok : bool) then
        match get c prov model tenant with
        | None => (c, inr NotAttested)
        | Some e => check_entry c e prov model tenant try_refresh now
        end
      else (c, inr Unreachable)
  | None, None => (c, inr NotAttested)
  | Some e, _ => check_entry c e prov model tenant try_refresh now
  end.

Definition refresh_wf (try_refresh : option refresher) : Prop :=
  forall f c, try_refresh = Some f -> wf c -> wf (f c).1.

Lemma check_entry_sound c e prov model tenant tr now c' a :
  wf c -> refresh_wf tr -> get c prov model tenant = Some e ->
  check_entry c e prov model tenant tr now = (c', inl a) ->
  wf c' /\ is_blocked a = false /\ is_expired a (now 2%nat) = false /\
  get c' prov model tenant = Some a.
Proof.
  intros Hwf Hr Hg. unfold check_entry. destruct (is_blocked e) eqn:Hb; [done|].
  destruct (is_expired e (now 0%nat)), tr as [f|]; cbv zeta.
  - specialize (Hr f c eq_refl Hwf). destruct (f c) as [c1 [|]]; [|done].
    destruct (get c1 prov model tenant) as [e1|] eqn:Hg1; [|done].
    destruct (is_blocked e1) eqn:Hb1; [done|]. destruct (is_expired e1 (now 1%nat)); [done|].
    destruct (is_expired e1 (now 2%nat)) eqn:He; [done|]. by intros [= <- <-].
  - destruct (is_expired e (now 2%nat)) eqn:He; [done|]. by intros [= <- <-].
  - destruct (is_expired e (now 2%nat)) eqn:He; [done|]. by intros [= <- <-].
  - destruct (is_expired e (now 2%nat)) eqn:He; [done|]. by intros [= <- <-].
Qed.

Lemma resolve_sound c prov model tenant tr now c' a :
  wf c -> refresh_wf tr ->
  resolve_attestation c prov model tenant tr now = (c', inl a) ->
  wf c' /\ is_blocked a = false /\ is_expired a (now 2%nat) = false /\
  get c' prov model tenant = Some a.
Proof.
  intros Hwf Hr. unfold resolve_attestation.
  destruct (get c prov model tenant) as [e|] eqn:Hg; [by eapply check_entry_sound|].
  destruct tr as [f|]; [|done].
  pose proof (Hr f c eq_refl Hwf) as Hwf1. destruct (f c) as [c1 [|]]; [|done].
  destruct (get c1 prov model tenant) as [e|] eqn:Hg1; [|done].
  by eapply check_entry_sound.
Qed.

(**  An attestation that is resolved is good.  The entry returned is not
    revoked, tampered or failed, has not outlived its time to live when the
    decision is made, and belongs to the caller's provider, model and tenant: an
    entry of another tenant is never served. *)
Theorem resolve_attestation_sound c prov model tenant tr now c' a :
  wf c -> refresh_wf tr ->
  resolve_attestation c prov model tenant tr now = (c', inl a) ->
  (lower (status a) ∉ BLOCKED_STATUSES) /\
  now 2%nat - fetched_at a <= seconds (ttl_seconds a) /\
  strip (tenant_id a) = strip tenant /\ strip (model_id a) = strip model /\
  lower (strip (provider a)) = lower (strip prov).
Proof.
  intros Hwf Hr H. destruct (resolve_sound _ _ _ _ _ _ _ _ Hwf Hr H) as (Hwf' & Hb & He & Hg).
  unfold is_blocked, is_expired in *. zbool. apply Hwf' in Hg. unfold _key in Hg. simplify_eq.
  repeat split; congruence || lia || done.
Qed.

(**  The cache fails closed.  When the entry is missing or too old and the
    control plane cannot be reached, the request is refused with 503; without a
    sync client a missing entry is refused with 403. *)
Theorem resolve_fails_closed c prov model tenant now f :
  (forall c, (f c).2 = false) ->
  match get c prov model tenant with Some e => is_expired e (now 0%nat) = true | None => True end ->
  exists c' d, resolve_attestation c prov model tenant (Some f) now = (c', inr d) /\
    (match get c prov model tenant with Some e => is_blocked e = false | None => True end ->
     status_code d = 503).
Proof.
  intros Hf He. unfold resolve_attestation, check_entry.
  destruct (get c prov model tenant) as [e|].
  - destruct (is_blocked e); [do 2 eexists; by split|]. rewrite He.
    specialize (Hf c). destruct (f c) as [c1 b]. simpl in Hf. subst. do 2 eexists; by split.
  - specialize (Hf c). destruct (f c) as [c1 b]. simpl in Hf. subst. do 2 eexists; by split.
Qed.

(** ** The orchestrator's first step *)

(** An attestation row of the control store, the keys the check reads *)
Record store_row := MkRow { r_model_id : string; r_provider : string; r_status : string }.

Record settings := MkSettings {
  gateway_tenant_id : string;
  attestation_cache_ttl : Z;
  strict_model_allowlist : bool;
}.

(** What the policies see of the attestation *)
Record att_context := MkAttCtx {
  c_model_id : string;
  c_provider : string;
  c_status : string;
  c_verification_level : string;
  c_tenant_id : string;
}.

Record check_result := MkCheck {
  att_id : string;
  att_ctx : att_context;
  would_block : bool;
  reason : option string;
  error : option Z;               (** the status of the error response *)
  cache_after : cache;
  upserted : option store_row;    (** what is written to the control store *)
}.

Definition _AUDIT_ONLY_ATTESTATION_ID : string := "audit_only_no_attestation".

(** [_can_auto_attest]; [control_store] is the list [list_attestations]
    returns for the gateway's tenant, [None] without a store. *)
Definition can_auto_attest (cfg : settings) (sync_client : option refresher)
    (control_store : option (list store_row)) (prov model : string) : bool :=
  match sync_client with
  | Some _ => false
  | None =>
      if strict_model_allowlist cfg then false
      else match control_store with
           | None => true
           | Some rows =>
               match List.filter (fun a => bool_decide (r_model_id a = model) &&
                                           bool_decide (r_provider a = prov)) rows with
               | [] => true
               | a :: _ => negb (bool_decide (r_status a = "revoked"))
               end
           end
  end.

Definition _attestation_check (c : cache) (cfg : settings) (is_audit_only : bool)
    (sync_client : option refresher) (control_store : option (list store_row))
    (prov model cache_tenant : string) (now : nat -> Z) : check_result :=
  (** [try_refresh] is always passed; it fails without a sync client. *)
  let try_refresh c := match sync_client with Some f => f c | None => (c, false) end in
  let audit_ctx := MkAttCtx model prov "active" "audit_only" (gateway_tenant_id cfg) in
  match resolve_attestation c prov model cache_tenant (Some try_refresh) now with
  | (c, inl a) =>
      MkCheck (attestation_id a)
        (MkAttCtx model (provider a) (status a) (verification_level a)
           (or_else (Some (tenant_id a)) (gateway_tenant_id cfg)))
        false None None c None
  | (c, inr d) =>
      if can_auto_attest cfg sync_client control_store prov model then
        let id := ("self-attested:" +:+ model)%string in
        let auto_att := MkAttestation id model prov "active" (now 3%nat)
                          (attestation_cache_ttl cfg) cache_tenant "self_attested" None None in
        MkCheck id (MkAttCtx model prov "active" "self_attested" (gateway_tenant_id cfg))
          false None None (set c auto_att)
          (match control_store with Some _ => Some (MkRow model prov "active") | None => None end)
      else if is_audit_only then
        MkCheck _AUDIT_ONLY_ATTESTATION_ID audit_ctx true (Some "attestation") None c None
      else
        MkCheck _AUDIT_ONLY_ATTESTATION_ID audit_ctx false None
          (Some (match control_store with Some _ => 403 | None => status_code d end)) c None
  end.

(**  With a sync client or a strict allowlist the gate never invents an
    attestation.  Outside audit-only mode a request that passes the first step
    then carries an attestation that resolved: unblocked, fresh and of the
    caller's tenant. *)
Theorem attestation_check_strict c cfg sync_client store prov model tenant now :
  wf c -> refresh_wf sync_client ->
  (is_Some sync_client \/ strict_model_allowlist cfg = true) ->
  let r := _attestation_check c cfg false sync_client store prov model tenant now in
  error r = None ->
  exists a, att_id r = attestation_id a /\ get (cache_after r) prov model tenant = Some a /\
    is_blocked a = false /\ is_expired a (now 2%nat) = false /\
    strip (tenant_id a) = strip tenant /\ upserted r = None.
Proof.
  intros Hwf Hr Hs r. subst r. unfold _attestation_check.
  set (tr := fun c => match sync_client with Some f => f c | None => (c, false) end).
  assert (refresh_wf (Some tr)) as Htr.
  { intros f0 c0 [= <-] Hwf0. unfold tr. destruct sync_client as [f|]; [|done]. by apply (Hr f). }
  destruct (resolve_attestation c prov model tenant (Some tr) now) as [c' [a|d]] eqn:He.
  - intros _. simpl. destruct (resolve_sound _ _ _ _ _ _ _ _ Hwf Htr He) as (Hwf' & Hb & Hx & Hg).
    exists a. repeat (split; [done|]). split; [|done].
    pose proof (Hwf' _ _ Hg) as Hk. unfold _key in Hk. congruence.
  - assert (can_auto_attest cfg sync_client store prov model = false) as ->.
    { unfold can_auto_attest. destruct sync_client; [done|]. by destruct Hs as [[? ?]| ->]. }
    done.
Qed.

(** ** Concrete runs *)

Definition good : CachedAttestation :=
  MkAttestation "att-1" "gpt-4" "openai" "active" 0 300 "t1" "server_verified" None None.
Definition tampered : CachedAttestation :=
  MkAttestation "att-2" "gpt-4" "openai" "tampered" 0 300 "t1" "server_verified" None None.
Definition one (a : CachedAttestation) : cache := set (MkCache 300 ∅) a.

Lemma wf_one a : wf (one a).
Proof. apply wf_set. intros k e. simpl. by rewrite lookup_empty. Qed.

Lemma refresh_none_wf : refresh_wf None.
Proof. by intros f c. Qed.

Lemma resolve_attestation_sound_witness :
  exists c', resolve_attestation (one good) " OpenAI" "gpt-4 " "t1" None (fun _ => seconds 300)
             = (c', inl good) /\ lower (status good) ∉ BLOCKED_STATUSES.
Proof.
  exists (one good). split; [vm_compute; reflexivity|].
  apply (resolve_attestation_sound (one good) " OpenAI" "gpt-4 " "t1" None (fun _ => seconds 300)
           (one good) good (wf_one good) refresh_none_wf).
  vm_compute. reflexivity.
Defined.

Definition offline : refresher := fun c => (c, false).

Lemma resolve_fails_closed_witness :
  exists c' d, resolve_attestation (one good) "openai" "gpt-4" "t1" (Some offline)
                 (fun _ => seconds 301) = (c', inr d) /\ status_code d = 503.
Proof.
  destruct (resolve_fails_closed (one good) "openai" "gpt-4" "t1" (fun _ => seconds 301) offline)
    as (c' & d & H & Hd); [done|vm_compute; reflexivity|].
  exists c', d. split; [exact H|]. apply Hd. vm_compute. reflexivity.
Defined.

Definition strict : settings := MkSettings "gw" 300 true.

Lemma attestation_check_strict_witness :
  exists a, att_id (_attestation_check (one good) strict false None None "openai" "gpt-4" "t1"
                      (fun _ => 0)) = attestation_id a /\ is_blocked a = false.
Proof.
  destruct (attestation_check_strict (one good) strict None None "openai" "gpt-4" "t1" (fun _ => 0))
    as (a & Ha & _ & Hb & _).
  - apply wf_one.
  - apply refresh_none_wf.
  - by right.
  - vm_compute. reflexivity.
  - exists a. split; [exact Ha|exact Hb].
Defined.

(**  Auto-attestation overrides a tampered model.  The cache refuses a
    model whose attestation is marked tampered, and [_attestation_check] then
    re-attests it as active in the cache and the control store, because it only
    looks for the status [revoked]. *)
Theorem tampered_is_reattested :
  let lax := MkSettings "gw" 300 false in
  let store := [MkRow "gpt-4" "openai" "tampered"] in
  (resolve_attestation (one tampered) "openai" "gpt-4" "t1" None (fun _ => 0)).2 = inr Revoked /\
  let r := _attestation_check (one tampered) lax false None (Some store) "openai" "gpt-4" "t1"
             (fun _ => 0) in
  error r = None /\ would_block r = false /\ c_status (att_ctx r) = "active" /\
  upserted r = Some (MkRow "gpt-4" "openai" "active").
Proof. vm_compute. repeat split. Qed.
