(* ===== verification/RateLimit.v ===== *)
(** * Rate limiting

    [Sliding] is [SlidingWindowRateLimiter] (pipeline/rate_limiter.py), [PerIP]
    is middleware/ip_rate_limiter.py with [resolve_client_ip], [Tokens] is
    middleware/token_rate_limiter.py.  Clock readings are arguments, in
    nanoseconds.  Both sliding windows admit through [slide]. *)
From S2P Require Import Prelude ODict PyVal.

Local Open Scope Z_scope.

(** The timestamps above the cutoff, and with the new one when there is room *)
Definition live (cutoff : Z) (window : list Z) : list Z := List.filter (fun t => cutoff <? t) window.

(** ** What a window promises

    [log] is the list of the admissions of one key. *)
Definition in_window (w T : Z) (log : list Z) : Z :=
  zlen (List.filter (fun t => (T - w <? t) && (t <=? T)) log).

Definition within (limit w : Z) (log : list Z) : Prop := forall T, in_window w T log <= Z.max 0 limit.

(** The stored window is the log above some cutoff not later than the next
    one, and the log lies in the past. *)
Definition tracks (w now : Z) (window log : list Z) : Prop :=
  (exists c, c <= now - w /\ window = live c log) /\ Forall (fun t => t <= now) log.

Lemma live_live c d l : c <= d -> live d (live c l) = live d l.
Proof.
  intros Hle. unfold live. induction l as [|x l IH]; simpl; [done|].
  destruct (c <? x) eqn:H1; simpl; [by rewrite IH|].
  rewrite IH. zbool. destruct (d <? x) eqn:H2; [|done]. zbool. lia.
Qed.

Lemma zlen_filter_le {A} (f g : A -> bool) l :
  (forall x, x ∈ l -> f x = true -> g x = true) ->
  zlen (List.filter f l) <= zlen (List.filter g l).
Proof.
  induction l as [|x l IH]; intros Hfg; simpl; [done|].
  assert (zlen (List.filter f l) <= zlen (List.filter g l)) by (apply IH; intros; apply Hfg; [by right|done]).
  destruct (f x) eqn:Hf; [rewrite (Hfg x) by (by left || done); rewrite !zlen_cons; lia|].
  destruct (g x); rewrite ?zlen_cons; lia.
Qed.

Lemma tracks_later w now now' window log :
  now <= now' -> tracks w now window log -> tracks w now' window log.
Proof.
  intros Hle [(c & Hc & ->) Hf]. split; [exists c; split; [lia|done]|].
  eapply Forall_impl; [done|]. simpl. lia.
Qed.

Lemma tracks_live w now window log :
  tracks w now window log -> live (now - w) window = live (now - w) log.
Proof. intros [(c & Hc & ->) _]. by apply live_live. Qed.

Lemma tracks_admit w now window log :
  0 <= w -> tracks w now window log ->
  tracks w now (live (now - w) window ++ if 0 <? w then [now] else []) (log ++ [now]).
Proof.
  intros Hw Ht. rewrite (tracks_live _ _ _ _ Ht). destruct Ht as [_ Hf]. split.
  - exists (now - w). split; [lia|]. unfold live. rewrite List.filter_app. simpl.
    destruct (0 <? w) eqn:H0; zbool.
    + by rewrite (proj2 (Z.ltb_lt _ _)) by lia.
    + by rewrite (proj2 (Z.ltb_ge _ _)) by lia.
  - apply Forall_app. split; [done|]. by constructor.
Qed.

(** Admitting when the live part has room keeps every window within the limit. *)
Lemma within_admit limit w now window log :
  tracks w now window log -> within limit w log ->
  zlen (live (now - w) window) < limit -> within limit w (log ++ [now]).
Proof.
  intros Ht Hw Hroom T. unfold in_window. rewrite List.filter_app, zlen_app. simpl.
  rewrite (tracks_live _ _ _ _ Ht) in Hroom. destruct Ht as [_ Hf].
  destruct ((T - w <? now) && (now <=? T)) eqn:Hn; rewrite ?zlen_cons, ?zlen_nil;
    [|specialize (Hw T); unfold in_window in Hw; lia].
  zbool. assert (zlen (List.filter (fun t => (T - w <? t) && (t <=? T)) log) <= zlen (live (now - w) log));
    [|lia].
  apply zlen_filter_le. intros t Ht' Hb. zbool. apply Z.ltb_lt. lia.
Qed.

(** ** [SlidingWindowRateLimiter] *)
Module Sliding.

Definition _MAX_KEYS : Z := 10000.

Definition limiter : Type := list (string * list Z).

Definition _evict_oldest (d : limiter) : limiter := od_trim _MAX_KEYS d.

(** [if key not in self._windows: self._windows[key] = []] *)
Definition ensure (key : string) (d : limiter) : limiter :=
  match od_get key d with None => od_set key [] d | Some _ => d end.

Definition check (d : limiter) (key : string) (limit w : Z) (now : Z) : limiter * (bool * Z) :=
  let d := _evict_oldest d in
  let cutoff := now - w in
  let d := ensure key d in
  let window := live cutoff (default [] (od_get key d)) in
  let d := od_set key window d in
  if limit <=? zlen window then (d, (false, 0))
  else
    let window := window ++ [now] in
    (od_set key window d, (true, limit - zlen window)).

(** [reset_time]: [wall] and [mono] are the two clocks. *)
Definition reset_time (d : limiter) (key : string) (w wall mono : Z) : Z :=
  match default [] (od_get key d) with
  | [] => wall + w
  | t :: ts => let oldest := foldr Z.min t ts in wall + (w - (mono - oldest))
  end.

(** A run: the requests of many keys, each at its time; the result is the
    limiter and the admitted requests. *)
Fixpoint run (limit w : Z) (d : limiter) (reqs : list (string * Z)) : limiter * list (string * Z) :=
  match reqs with
  | [] => (d, [])
  | (k, now) :: reqs =>
      let '(d, (ok, _)) := check d k limit w now in
      let '(d, adm) := run limit w d reqs in
      (d, if (ok : bool) then (k, now) :: adm else adm)
  end.

Definition admissions (k : string) (adm : list (string * Z)) : list Z :=
  map snd (List.filter (fun a => bool_decide (a.1 = k)) adm).

Fixpoint monotone (t : Z) (reqs : list (string * Z)) : Prop :=
  match reqs with [] => True | (_, now) :: reqs => t <= now /\ monotone now reqs end.

(** The state of every key follows its log, and only keys of [S] are held. *)
Definition good (S : gset string) (limit w t : Z) (d : limiter) (log : string -> list Z) : Prop :=
  od_wf d /\ (forall k, k ∈ od_keys d -> k ∈ S) /\
  (forall k, tracks w t (default [] (od_get k d)) (log k)) /\
  (forall k, within limit w (log k)).

Lemma keys_in_length {V} (S : gset string) (d : list (string * V)) :
  od_wf d -> (forall k, k ∈ od_keys d -> k ∈ S) -> zlen d <= Z.of_nat (size S).
Proof.
  intros Hwf Hk. unfold zlen. rewrite <- (length_fmap fst d).
  rewrite <- (size_list_to_set (C := gset string)) by done.
  apply inj_le, subseteq_size. intros k ?%elem_of_list_to_set. auto.
Qed.

(** One check, on a limiter that has room for all keys *)
Lemma check_no_evict (S : gset string) d k limit w now :
  od_wf d -> (forall k, k ∈ od_keys d -> k ∈ S) -> Z.of_nat (size S) <= _MAX_KEYS ->
  let window := live (now - w) (default [] (od_get k d)) in
  exists d', od_wf d' /\ (forall k', k' ∈ od_keys d' -> k' = k \/ k' ∈ od_keys d) /\
    (forall k', k' <> k -> od_get k' d' = od_get k' d) /\
    check d k limit w now =
      (if limit <=? zlen window then (d', (false, 0))
       else (d', (true, limit - zlen (window ++ [now])))) /\
    od_get k d' = Some (if limit <=? zlen window then window else window ++ [now]).
Proof.
  intros Hwf Hk Hroom window. unfold check, _evict_oldest. cbv zeta.
  rewrite od_trim_id by (pose proof (keys_in_length S d Hwf Hk); lia).
  set (d0 := ensure k d).
  assert (default [] (od_get k d0) = default [] (od_get k d)) as Hd0.
  { unfold d0, ensure. destruct (od_get k d) eqn:Hg; [by rewrite Hg|]. by rewrite od_get_set_eq. }
  assert (od_wf d0 /\ (forall k', k' ∈ od_keys d0 -> k' = k \/ k' ∈ od_keys d) /\
          (forall k', k' <> k -> od_get k' d0 = od_get k' d)) as (Hwf0 & Hk0 & Ho0).
  { unfold d0, ensure. destruct (od_get k d); [by auto|]. split; [by apply od_wf_set|]. split.
    - intros k' ?%od_set_keys_elem. naive_solver.
    - intros. by apply od_get_set_ne. }
  rewrite Hd0. fold window. exists (od_set k (if limit <=? zlen window then window else window ++ [now])
      (if limit <=? zlen window then d0 else od_set k window d0)).
  destruct (limit <=? zlen window); rewrite od_get_set_eq; split_and!; try done; auto with provn.
  - intros k' [->|?]%od_set_keys_elem; auto.
  - intros k' Hne. rewrite od_get_set_ne by done. auto.
  - intros k' [->|[->|?]%od_set_keys_elem]%od_set_keys_elem; auto.
  - intros k' Hne. rewrite !od_get_set_ne by done. auto.
Qed.

Lemma run_good (S : gset string) limit w reqs : forall d log t d' adm,
  0 < w -> Z.of_nat (size S) <= _MAX_KEYS -> (forall r, r ∈ reqs -> r.1 ∈ S) ->
  monotone t reqs -> good S limit w t d log -> run limit w d reqs = (d', adm) ->
  forall k, within limit w (log k ++ admissions k adm).
Proof.
  induction reqs as [|[k0 now] reqs IH]; intros d log t d' adm Hw Hroom HS Hm Hg Hr k; simpl in Hr.
  { injection Hr as <- <-. rewrite app_nil_r. apply Hg. }
  destruct Hg as (Hwf & Hk & Htr & Hwi). destruct Hm as [Hle Hm].
  destruct (check_no_evict S d k0 limit w now Hwf Hk Hroom) as (d1 & Hwf1 & Hk1 & Ho1 & Hc & Hg1).
  rewrite Hc in Hr. set (window := live (now - w) (default [] (od_get k0 d))) in *.
  assert (forall k, tracks w now (default [] (od_get k d)) (log k)) as Htr' by
    (intros; eapply tracks_later; [exact Hle|apply Htr]).
  assert (forall k', k' ∈ od_keys d1 -> k' ∈ S) as HS1.
  { intros k' [->|?]%Hk1; [apply (HS (k0, now)); by left|auto]. }
  assert (forall r, r ∈ reqs -> r.1 ∈ S) as HS' by (intros; apply HS; by right).
  destruct (limit <=? zlen window) eqn:Hlim.
  - destruct (run limit w d1 reqs) as [d2 adm2] eqn:Hr2. injection Hr as <- <-.
    eapply (IH d1 log now); try done. split_and!; try done. intros k'.
    destruct (decide (k' = k0)) as [->|Hne]; [|by rewrite Ho1].
    rewrite Hg1. simpl. destruct (Htr' k0) as [_ Hf]. split; [|done].
    exists (now - w). split; [lia|]. unfold window. by apply tracks_live.
  - destruct (run limit w d1 reqs) as [d2 adm2] eqn:Hr2. injection Hr as <- <-. zbool.
    set (log' := fun k => if decide (k = k0) then log k0 ++ [now] else log k).
    assert (log k ++ admissions k ((k0, now) :: adm2) = log' k ++ admissions k adm2) as ->.
    { unfold log', admissions. simpl. case_decide; subst.
      - rewrite bool_decide_true by done. simpl. by rewrite <- app_assoc.
      - by rewrite bool_decide_false by congruence. }
    eapply (IH d1 log' now); try done. unfold log'. split_and!; try done; intros k'; case_decide; subst; auto.
    + rewrite Hg1. simpl. pose proof (tracks_admit w now _ _ ltac:(lia) (Htr' k0)) as Ha.
      by rewrite (proj2 (Z.ltb_lt 0 w)) in Ha by done.
    + by rewrite Ho1.
    + by eapply within_admit.
Qed.

(**  The limiter limits.  For any requests in time order from at most ten
    thousand distinct keys, every interval of the window's length contains at
    most [limit] admitted requests of each key. *)
Theorem sliding_window_limits (S : gset string) limit w reqs d adm :
  0 < w -> Z.of_nat (size S) <= _MAX_KEYS -> (forall r, r ∈ reqs -> r.1 ∈ S) ->
  monotone 0 reqs -> run limit w [] reqs = (d, adm) ->
  forall k T, in_window w T (admissions k adm) <= Z.max 0 limit.
Proof.
  intros Hw Hroom HS Hm Hr k. 
  apply (run_good S limit w reqs [] (fun _ => []) 0 d adm Hw Hroom HS Hm); [|done].
  unfold good, od_wf. simpl. split; [constructor|]. split; [by intros ? ?%not_elem_of_nil|]. split.
  - intros _. split; [exists (0 - w); split; [lia|done]|constructor].
  - intros _ T. unfold in_window. simpl. rewrite zlen_nil. lia.
Qed.

(**  A key that is evicted starts over.  The eviction takes the key that
    was inserted first, however recently it was used: with more than ten thousand
    keys a key at its limit is admitted again at once. *)
Theorem eviction_resets_limit d k limit w now :
  od_get k (_evict_oldest d) = None -> 0 < limit ->
  (check d k limit w now).2 = (true, limit - 1).
Proof.
  intros Hk Hl. unfold check, ensure. rewrite Hk, od_get_set_eq. simpl.
  rewrite (proj2 (Z.leb_gt _ _)) by done. done.
Qed.

(** Ten thousand and one keys: the first is at its limit. *)
Definition crowd : limiter :=
  ("vip", [100]) :: map (fun i => (z_str (Z.of_nat i), [100])) (seq 0 (Z.to_nat 10000)).

Lemma eviction_resets_limit_witness :
  od_get "vip" crowd = Some [100] /\ (check crowd "vip" 1 60 101).2 = (true, 0).
Proof.
  split; [vm_compute; reflexivity|].
  refine (eviction_resets_limit crowd "vip" 1 60 101 _ _); [|reflexivity].
  vm_compute. reflexivity.
Defined.

Definition burst : list (string * Z) := [("a", 1); ("a", 2); ("b", 2); ("a", 3); ("a", 70)].

Lemma sliding_window_limits_witness :
  (run 2 60 [] burst).2 = [("a", 1); ("a", 2); ("b", 2); ("a", 70)] /\
  in_window 60 60 (admissions "a" (run 2 60 [] burst).2) <= Z.max 0 2.
Proof.
  split; [vm_compute; reflexivity|].
  apply (sliding_window_limits {["a"; "b"]} 2 60 burst (run 2 60 [] burst).1).
  - reflexivity.
  - vm_compute. discriminate.
  - intros r Hr. unfold burst in Hr. set_solver.
  - vm_compute. repeat split; discriminate.
  - vm_compute. reflexivity.
Defined.

End Sliding.

(** ** Per-IP limits (middleware/ip_rate_limiter.py) *)
Module PerIP.

(** [ipaddress.ip_address(s)], [ip_network(s, strict=False)] and
    [addr in net]: the arguments of this section. *)
Section networks.
Context {addr net : Type}.
Variables (ip_address : string -> option addr) (ip_network : string -> option net)
          (in_net : addr -> net -> bool).

Definition nonempty (s : string) : bool := negb (bool_decide (s = "")).

Definition stripped_items (spec : string) : list string :=
  List.filter nonempty (map strip (split_on ","%char spec)).

(** [_parse_trusted_proxies] on a string: invalid entries are skipped. *)
Definition _parse_trusted_proxies (spec : string) : list net :=
  omap ip_network (stripped_items spec).

Definition _client_ip_in_networks (ip : string) (nets : list net) : bool :=
  match nets with
  | [] => false
  | _ => match ip_address ip with None => false | Some a => existsb (in_net a) nets end
  end.

Fixpoint first_untrusted (nets : list net) (l : list string) : option string :=
  match l with
  | [] => None
  | c :: l => if _client_ip_in_networks c nets then first_untrusted nets l else Some c
  end.

Definition resolve_client_ip (direct_peer : string) (xff_header : option string)
    (trusted_proxies : list net) : string :=
  if match trusted_proxies with [] => true | _ => false end
     || negb (_client_ip_in_networks direct_peer trusted_proxies) then direct_peer
  else match xff_header with
       | None | Some EmptyString => direct_peer
       | Some x =>
           let candidates := stripped_items x in
           match first_untrusted trusted_proxies (rev candidates) with
           | Some c => c
           | None => match candidates with c :: _ => c | [] => direct_peer end
           end
       end.

Lemma split_on_app c a b :
  split_on c (a +:+ String c b)%string = split_on c a ++ split_on c b.
Proof.
  induction a as [|x a IH]; simpl.
  - destruct (split_on c b) as [|w ws] eqn:Hb; [|by rewrite Ascii.eqb_refl].
    exfalso. clear -Hb. destruct b as [|y b]; simpl in Hb; [done|].
    destruct (split_on c b); [done|]. by case_match.
  - rewrite IH. destruct (split_on c a) as [|w ws] eqn:Ha; simpl.
    + exfalso. clear -Ha. destruct a as [|y a]; simpl in Ha; [done|].
      destruct (split_on c a); [done|]. by case_match.
    + by destruct (Ascii.eqb x c).
Qed.

Lemma first_untrusted_app nets l k :
  Forall (fun c => _client_ip_in_networks c nets = true) l ->
  first_untrusted nets (l ++ k) = first_untrusted nets k.
Proof. induction 1 as [|c l Hc Hl IH]; simpl; [done|]. by rewrite Hc. Qed.

Lemma resolve_walks nets peer x :
  x <> "" -> _client_ip_in_networks peer nets = true ->
  resolve_client_ip peer (Some x) nets =
  match first_untrusted nets (rev (stripped_items x)) with
  | Some c => c
  | None => match stripped_items x with c :: _ => c | [] => peer end
  end.
Proof.
  intros Hx Hp. unfold resolve_client_ip. destruct nets as [|n nets]; [done|]. rewrite Hp.
  by destruct x.
Qed.

(**  A client cannot choose its rate-limit identity.  A peer that is not a
    trusted proxy is identified by its own address whatever header it sends; and
    behind trusted proxies, whatever the client wrote into the header before
    the first proxy appended the client's address [ip], the request counts for
    [ip]. *)
Theorem client_ip_not_spoofable nets peer ip hops forged :
  (_client_ip_in_networks peer nets = false ->
   forall xff, resolve_client_ip peer xff nets = peer) /\
  (_client_ip_in_networks peer nets = true ->
   stripped_items hops = ip :: tail (stripped_items hops) ->
   _client_ip_in_networks ip nets = false ->
   Forall (fun c => _client_ip_in_networks c nets = true) (tail (stripped_items hops)) ->
   resolve_client_ip peer (Some (forged +:+ "," +:+ hops)%string) nets = ip).
Proof.
  split.
  - intros Hp xff. unfold resolve_client_ip. rewrite Hp. by destruct nets.
  - intros Hp Hi Hu Ht. rewrite resolve_walks; [|by destruct forged|done].
    change ("," +:+ hops)%string with (String ","%char hops).
    unfold stripped_items. rewrite split_on_app, map_app, List.filter_app.
    change (List.filter nonempty (map strip (split_on ","%char hops))) with (stripped_items hops).
    rewrite Hi, rev_app_distr. simpl. rewrite <- app_assoc, first_untrusted_app.
    + simpl. by rewrite Hu.
    + by apply Forall_rev.
Qed.
End networks.

(** Addresses as text, a network an address prefix *)
Definition demo_in_net (a n : string) : bool := startswith n a.

Lemma client_ip_not_spoofable_witness :
  resolve_client_ip Some demo_in_net "10.0.0.2" (Some "1.1.1.1, 2.2.2.2, 9.9.9.9 , 10.0.0.7")%string
    ["10."] = "9.9.9.9".
Proof.
  apply (client_ip_not_spoofable Some demo_in_net ["10."] "10.0.0.2" "9.9.9.9"
           " 9.9.9.9 , 10.0.0.7" "1.1.1.1, 2.2.2.2").
  - reflexivity.
  - reflexivity.
  - reflexivity.
  - constructor; [reflexivity|constructor].
Defined.

(** ** The limiter *)

Record limiter := MkLimiter {
  _rpm : Z;
  _max_ips : Z;
  _windows : list (string * list Z);
}.

Definition check (l : limiter) (ip : string) (now : Z) : limiter * bool :=
  let window := live (now - seconds 60) (default [] (od_get ip (_windows l))) in
  if _rpm l <=? zlen window then (l, false)
  else
    let d := od_move_to_end ip (od_set ip (window ++ [now]) (_windows l)) in
    (MkLimiter (_rpm l) (_max_ips l) (od_trim (_max_ips l) d), true).

Fixpoint run (l : limiter) (reqs : list (string * Z)) : limiter * list (string * Z) :=
  match reqs with
  | [] => (l, [])
  | (ip, now) :: reqs =>
      let '(l, ok) := check l ip now in
      let '(l, adm) := run l reqs in
      (l, if (ok : bool) then (ip, now) :: adm else adm)
  end.

Lemma check_bound l ip now :
  0 <= _max_ips l -> zlen (_windows l) <= _max_ips l ->
  let l' := (check l ip now).1 in
  zlen (_windows l') <= _max_ips l' /\ _max_ips l' = _max_ips l /\ _rpm l' = _rpm l.
Proof.
  intros H0 Hb. unfold check. cbv zeta. destruct (_rpm l <=? _); simpl; [done|].
  split; [by apply od_trim_le|done].
Qed.

(**  Memory stays bounded.  However many addresses knock, in any order and
    at any times, the limiter holds at most [max_ips] windows. *)
Theorem per_ip_bounded reqs : forall l,
  0 <= _max_ips l -> zlen (_windows l) <= _max_ips l ->
  zlen (_windows (run l reqs).1) <= _max_ips l.
Proof.
  induction reqs as [|[ip now] reqs IH]; intros l H0 Hb; simpl; [done|].
  destruct (check_bound l ip now H0 Hb) as (Hb' & Hm & _).
  destruct (check l ip now) as [l1 ok]. simpl in *. specialize (IH l1).
  destruct (run l1 reqs) as [l2 adm]. simpl in *. rewrite Hm in *. auto.
Qed.

Lemma per_ip_bounded_witness :
  let reqs := [("a", 1); ("b", 2); ("c", 3)] in
  od_keys (_windows (run (MkLimiter 300 2 []) reqs).1) = ["b"; "c"] /\
  zlen (_windows (run (MkLimiter 300 2 []) reqs).1) <= 2.
Proof.
  split; [reflexivity|].
  apply (per_ip_bounded [("a", 1); ("b", 2); ("c", 3)] (MkLimiter 300 2 [])); unfold zlen; simpl; lia.
Defined.

End PerIP.

(** ** Token limits (middleware/token_rate_limiter.py) *)
Module Tokens.

Inductive scope := User | Key | Tenant | Global.

(** What the limiter looks at in a request: the authenticated identity, the
    peer's address, the authorization header. *)
Record request := MkRequest {
  caller_user_id : option string;
  caller_team : option string;
  client_host : option string;
  authorization : string;
  headers : dict;
}.

Record limiter := MkLimiter {
  _max_tokens : Z;
  _window_seconds : Z;
  _scope : scope;
  _enabled : bool;
  _counters : gmap (string * Z) Z;
  _last_cleanup : Z;
}.

Definition with_counters (m : gmap (string * Z) Z) (l : limiter) : limiter :=
  MkLimiter (_max_tokens l) (_window_seconds l) (_scope l) (_enabled l) m (_last_cleanup l).

Section tokens.
(** [hashlib.sha256(s).hexdigest()] *)
Variable sha256_hex : string -> string.

Definition or_unknown (h : option string) : string :=
  match h with None | Some EmptyString => "unknown" | Some s => s end.

Definition _get_scope_key (l : limiter) (r : request) : string :=
  match _scope l with
  | User =>
      match caller_user_id r with
      | None | Some EmptyString => ("ip:" +:+ or_unknown (client_host r))%string
      | Some u => ("user:" +:+ u)%string
      end
  | Key => String.substring 0 16 (sha256_hex (authorization r))
  | Tenant =>
      match caller_team r with
      | None | Some EmptyString => ("ip:" +:+ or_unknown (client_host r))%string
      | Some t => ("team:" +:+ t)%string
      end
  | Global => "global"
  end.

Definition _current_window (l : limiter) (now : Z) : Z := now / seconds (_window_seconds l).

Definition _cleanup_old_windows (l : limiter) (now now2 : Z) : limiter :=
  if now - _last_cleanup l <? seconds (_window_seconds l) then l
  else
    let current := _current_window l now2 in
    MkLimiter (_max_tokens l) (_window_seconds l) (_scope l) (_enabled l)
      (filter (fun kv => ~ (kv.1.2 < current - 1)) (_counters l)) now.

Definition used (l : limiter) (k : string) (bucket : Z) : Z := default 0 (_counters l !! (k, bucket)).

Definition record_tokens (l : limiter) (k : string) (tokens now : Z) : limiter :=
  let b := (k, _current_window l now) in
  with_counters (<[b := used l b.1 b.2 + tokens]> (_counters l)) l.

(** [check_limit] reads a [defaultdict], which inserts the missing bucket. *)
Definition check_limit (l : limiter) (k : string) (now : Z) : limiter * (bool * Z) :=
  let b := _current_window l now in
  let n := used l k b in
  (with_counters (<[(k, b) := n]> (_counters l)) l, (n <? _max_tokens l, n)).

#[local] Arguments check_limit : simpl never.

(** The response of [dispatch]: the inner handler's, or 429 with a
    [Retry-After] header. *)
Inductive reply := Passed | TooMany (used retry_after : Z).

Definition limited_path (path : string) : bool :=
  let p := rstrip_slash path in
  existsb (fun e => endswith e p) ["/chat/completions"; "/completions"; "/generate"; "/messages"].

(** [dispatch] up to the inner handler.  The key is kept for recording the tokens. *)
Definition dispatch (l : limiter) (r : request) (path : string) (now : Z)
    : limiter * reply * option string :=
  if negb (_enabled l) || negb (limited_path path) then (l, Passed, None)
  else
    let l := _cleanup_old_windows l now now in
    let k := _get_scope_key l r in
    let '(l, (allowed, n)) := check_limit l k now in
    if (allowed : bool) then (l, Passed, Some k)
    else (l, TooMany n (_window_seconds l - (now / seconds 1) mod _window_seconds l), None).

(** After the inner handler returned [tokens]. *)
Definition after_response (l : limiter) (k : option string) (tokens : option Z) (now : Z) : limiter :=
  match k, tokens with
  | Some k, Some n => if 0 <? n then record_tokens l k n now else l
  | _, _ => l
  end.

Lemma used_record_eq l k n now b :
  b = _current_window l now -> used (record_tokens l k n now) k b = used l k b + n.
Proof. intros ->. unfold record_tokens, used. simpl. by rewrite lookup_insert_eq. Qed.

Lemma used_record_ne l k n now k' b :
  (k', b) <> (k, _current_window l now) -> used (record_tokens l k n now) k' b = used l k' b.
Proof. intros. unfold record_tokens, used. simpl. by rewrite lookup_insert_ne. Qed.

Lemma used_check l k now k' b : used (check_limit l k now).1 k' b = used l k' b.
Proof.
  unfold check_limit, used. simpl. destruct (decide ((k, _current_window l now) = (k', b))) as [[= <- <-]|Hne].
  - by rewrite lookup_insert_eq.
  - by rewrite lookup_insert_ne.
Qed.

Lemma used_cleanup l now k b :
  _current_window l now - 1 <= b -> used (_cleanup_old_windows l now now) k b = used l k b.
Proof.
  intros Hb. unfold _cleanup_old_windows. case_match; [done|]. unfold used. simpl.
  destruct (_counters l !! (k, b)) as [n|] eqn:Hn.
  - rewrite map_lookup_filter, Hn. simpl. rewrite option_guard_True by (simpl; lia). done.
  - rewrite map_lookup_filter, Hn. done.
Qed.

(**  A spent window stays spent.  Once the tokens recorded for a scope in
    the current window reach the maximum, every further inference request of that
    scope in the window is refused with 429 whatever its headers say, the
    cleanup does not forget the window, and the wait it announces is positive and
    at most the window's length. *)
Theorem spent_window_refuses l r path now :
  _enabled l = true -> limited_path path = true -> 0 < _window_seconds l ->
  _max_tokens l <= used l (_get_scope_key l r) (_current_window l now) ->
  exists n wait, (dispatch l r path now).1.2 = TooMany n wait /\ _max_tokens l <= n /\
    1 <= wait <= _window_seconds l /\
    forall k b, _current_window l now - 1 <= b -> used (dispatch l r path now).1.1 k b = used l k b.
Proof.
  intros He Hp Hw Hu. unfold dispatch. rewrite He, Hp. cbn [negb orb].
  set (l1 := _cleanup_old_windows l now now).
  assert (_max_tokens l1 = _max_tokens l /\ _window_seconds l1 = _window_seconds l /\
          _scope l1 = _scope l) as (Hm & Hws & Hsc).
  { unfold l1, _cleanup_old_windows. by case_match. }
  assert (_get_scope_key l1 r = _get_scope_key l r) as -> by (unfold _get_scope_key; by rewrite Hsc).
  assert (_current_window l1 now = _current_window l now) as Hcw by (unfold _current_window; by rewrite Hws).
  destruct (check_limit l1 (_get_scope_key l r) now) as [l2 [al n]] eqn:Hc.
  pose proof (used_check l1 (_get_scope_key l r) now) as Huc. rewrite Hc in Huc. simpl in Huc.
  unfold check_limit in Hc. injection Hc as Hl2 Hal Hn.
  assert (used l1 (_get_scope_key l r) (_current_window l1 now) =
          used l (_get_scope_key l r) (_current_window l now)) as Hused
    by (rewrite Hcw; apply used_cleanup; lia).
  rewrite Hused in Hn, Hal. subst n.
  rewrite Hm in Hal. rewrite (proj2 (Z.ltb_ge _ _)) in Hal by lia. subst al. simpl.
  do 2 eexists. split; [reflexivity|]. split; [done|].
  assert (_window_seconds l2 = _window_seconds l) as -> by (rewrite <- Hl2; simpl; by rewrite Hws).
  pose proof (Z.mod_pos_bound (now / seconds 1) (_window_seconds l) Hw). split; [lia|].
  intros k b Hb. rewrite Huc. unfold l1. by apply used_cleanup.
Qed.

(** A run of requests whose handlers leave [tokens] on [request.state], [None]
    where the attribute is not set *)
Fixpoint serve (l : limiter) (reqs : list (request * string * option Z * Z)) : list reply :=
  match reqs with
  | [] => []
  | (r, path, tokens, now) :: reqs =>
      let '(l, rep, k) := dispatch l r path now in
      rep :: serve (after_response l k tokens now) reqs
  end.

Definition unspent (l : limiter) : Prop := forall k b, used l k b = 0.

Lemma unspent_cleanup l now : unspent l -> unspent (_cleanup_old_windows l now now).
Proof.
  intros Hu k b. unfold _cleanup_old_windows. case_match; [done|]. unfold used. simpl.
  rewrite map_lookup_filter. specialize (Hu k b). unfold used in Hu.
  destruct (_counters l !! (k, b)); simpl in *; [|done]. by case_guard.
Qed.

Lemma dispatch_unspent l r path now :
  unspent l -> 0 < _max_tokens l ->
  let '(l', rep, k) := dispatch l r path now in unspent l' /\ rep = Passed /\ _max_tokens l' = _max_tokens l.
Proof.
  intros Hu Hm. unfold dispatch. destruct (_ || _); [done|].
  set (l1 := _cleanup_old_windows l now now). assert (unspent l1) as Hu1 by by apply unspent_cleanup.
  assert (_max_tokens l1 = _max_tokens l) as Hm1 by (unfold l1, _cleanup_old_windows; by case_match).
  destruct (check_limit l1 (_get_scope_key l1 r) now) as [l2 [al n]] eqn:Hc.
  assert (forall k b, used l2 k b = used l1 k b) as Hu2.
  { intros k b. by rewrite <- (used_check l1 (_get_scope_key l1 r) now), Hc. }
  unfold check_limit in Hc. injection Hc as Hl2 Hal _. rewrite (Hu1 _ _), Hm1 in Hal.
  rewrite (proj2 (Z.ltb_lt _ _) Hm) in Hal. subst al. simpl.
  split; [intros k b; by rewrite Hu2|]. split; [done|]. by rewrite <- Hl2, <- Hm1.
Qed.

(**  A limit that is never charged never limits.  The limiter charges the
    tokens it finds in [request.state.walacor_total_tokens], which no handler of
    the gateway sets; from an unspent limiter no run of such requests, however long
    and whatever their scope, is ever refused. *)
Theorem uncharged_never_limits reqs : forall l,
  unspent l -> 0 < _max_tokens l -> Forall (fun x => x.1.2 = None) reqs ->
  Forall (fun rep => rep = Passed) (serve l reqs).
Proof.
  induction reqs as [|[[[r path] tokens] now] reqs IH]; intros l Hu Hm Hn; simpl; [constructor|].
  inversion Hn as [|x y Hx Hy]; subst. simpl in Hx. subst tokens.
  pose proof (dispatch_unspent l r path now Hu Hm) as Hd.
  destruct (dispatch l r path now) as [[l' rep] k]. destruct Hd as (Hu' & -> & Hm').
  constructor; [done|]. unfold after_response. destruct k; apply IH; auto; lia.
Qed.
End tokens.

Definition spent : limiter :=
  record_tokens (MkLimiter 100 60 User true ∅ 0) "user:u" 150 (seconds 61).
Definition spoof : request :=
  MkRequest (Some "u") None (Some "1.2.3.4") "" [("x-user-id", PStr "other")].

Lemma spent_window_refuses_witness :
  exists n wait, (dispatch (fun s => s) spent spoof "/v1/chat/completions" (seconds 100)).1.2
                 = TooMany n wait /\ 100 <= n.
Proof.
  destruct (spent_window_refuses (fun s => s) spent spoof "/v1/chat/completions" (seconds 100))
    as (n & wait & H & Hn & _).
  - reflexivity.
  - reflexivity.
  - reflexivity.
  - vm_compute. discriminate.
  - exists n, wait. split; [exact H|exact Hn].
Defined.

Lemma uncharged_never_limits_witness :
  Forall (fun rep => rep = Passed)
    (serve (fun s => s) (MkLimiter 1 60 Global true ∅ 0)
       (replicate 5 (spoof, "/v1/chat/completions", None, seconds 5))).
Proof.
  apply (uncharged_never_limits (fun s => s)).
  - intros k b. reflexivity.
  - reflexivity.
  - repeat constructor.
Defined.
End Tokens.
