(* ===== verification/Budget.v ===== *)
(** * Token budgets (pipeline/budget_tracker.py, alerts/bus.py)

    [Memory] is [BudgetTracker] with its threshold alerts, [Redis] is
    [RedisBudgetTracker] with its two Lua scripts.  A datetime is its calendar
    fields; the clock readings are arguments.  An operation runs under the
    lock of its key, so it is one step. *)
From Stdlib Require Import SpecFloat.
From S2P Require Import Prelude ODict PyVal.

Local Open Scope Z_scope.

(** ** Datetimes *)

Record datetime := MkDt { year : Z; month : Z; day : Z; time_of_day : Z }.

#[export] Instance datetime_dec : EqDecision datetime.
Proof. solve_decision. Defined.

(** [a < b] *)
Definition dt_ltb (a b : datetime) : bool :=
  match year a ?= year b with
  | Lt => true
  | Gt => false
  | Eq => match month a ?= month b with
          | Lt => true
          | Gt => false
          | Eq => match day a ?= day b with
                  | Lt => true
                  | Gt => false
                  | Eq => time_of_day a <? time_of_day b
                  end
          end
  end.

(** A period is its name; every name but ["daily"] is treated as monthly. *)
#[local] Abbreviation period := string.
Definition Daily : period := "daily".
Definition Monthly : period := "monthly".

Definition _period_start (p : period) (now : datetime) : datetime :=
  if bool_decide (p = Daily) then MkDt (year now) (month now) (day now) 0
  else MkDt (year now) (month now) 1 0.

Lemma dt_ltb_irrefl a : dt_ltb a a = false.
Proof. unfold dt_ltb. by rewrite !Z.compare_refl, Z.ltb_irrefl. Qed.

(** ** The alert bus (alerts/bus.py) *)

Inductive severity := Info | Warning | Critical.

(** A ["budget_threshold"] event; the text of its message is built from the
    same numbers. *)
Record AlertEvent := MkAlert {
  a_severity : severity;
  a_tenant : string;
  a_user : option string;
  a_threshold : Z;
  a_tokens_used : Z;
  a_max_tokens : Z;
}.

Record AlertBus := MkBus { maxsize : Z; _queue : list AlertEvent }.

(** [put_nowait]: a full queue drops the event; a [maxsize] of 0 or less is
    unbounded. *)
Definition emit (b : AlertBus) (e : AlertEvent) : AlertBus :=
  if (0 <? maxsize b) && (maxsize b <=? zlen (_queue b)) then b
  else MkBus (maxsize b) (_queue b ++ [e]).

(** [process_one]: the event handed to the dispatchers *)
Definition process_one (b : AlertBus) : option (AlertEvent * AlertBus) :=
  match _queue b with [] => None | e :: q => Some (e, MkBus (maxsize b) q) end.

Abbreviation key := (string * string)%type.

Definition user_key (u : option string) : string := default "" u.

Module Memory.

Record BudgetState := MkState {
  s_period : period;
  period_start : datetime;
  tokens_used : Z;
  max_tokens : Z;
}.

Record tracker := MkTracker {
  _states : gmap key BudgetState;
  _alert_bus : option AlertBus;
  _alert_thresholds : list Z;
  _alerted : gmap key (gset Z);
}.

Definition _UNLIMITED_SENTINEL : Z := -1.

Definition with_state (k : key) (s : BudgetState) (t : tracker) : tracker :=
  MkTracker (<[k := s]> (_states t)) (_alert_bus t) (_alert_thresholds t) (_alerted t).

Definition _period_expired (s : BudgetState) (now : datetime) : bool :=
  dt_ltb (period_start s) (_period_start (s_period s) now).

(** The lazy reset at the start of every operation *)
Definition roll (s : BudgetState) (now : datetime) : BudgetState :=
  if _period_expired s now
  then MkState (s_period s) (_period_start (s_period s) now) 0 (max_tokens s)
  else s.

Definition with_used (n : Z) (s : BudgetState) : BudgetState :=
  MkState (s_period s) (period_start s) n (max_tokens s).

Definition configure (t : tracker) (tenant : string) (user : option string) (p : period)
    (mx : Z) (now : datetime) : tracker :=
  let k := (tenant, user_key user) in
  match _states t !! k with
  | Some s =>
      if decide (s_period s = p)
      then with_state k (MkState (s_period s) (period_start s) (tokens_used s) mx) t
      else with_state k (MkState p (_period_start p now) 0 mx) t
  | None => with_state k (MkState p (_period_start p now) 0 mx) t
  end.

Definition remove (t : tracker) (tenant : string) (user : option string) : tracker :=
  MkTracker (delete (tenant, user_key user) (_states t)) (_alert_bus t) (_alert_thresholds t)
    (_alerted t).

(** [usage_pct >= threshold], for [(used / max) * 100] in doubles *)
Definition usage_pct (s : BudgetState) : res spec_float :=
  let! f := py_truediv (tokens_used s) (max_tokens s) in Ok (SFmul prec emax f (sf_of_Z 100)).

Definition crossed (pct : spec_float) (threshold : Z) : bool :=
  match sf_compare_Z pct threshold with Some Gt | Some Eq => true | _ => false end.

Definition severity_of (threshold : Z) : severity :=
  if 100 <=? threshold then Critical else if 90 <=? threshold then Warning else Info.

(** The loop over the thresholds *)
Fixpoint alert_loop (pct : spec_float) (ths : list Z) (event : Z -> AlertEvent)
    (al : gset Z) (bus : AlertBus) : gset Z * AlertBus :=
  match ths with
  | [] => (al, bus)
  | th :: ths =>
      if crossed pct th && negb (bool_decide (th ∈ al))
      then alert_loop pct ths event ({[th]} ∪ al) (emit bus (event th))
      else alert_loop pct ths event al bus
  end.

Definition _check_thresholds (t : tracker) (k : key) (s : BudgetState) (tenant : string)
    (user : option string) : res tracker :=
  match _alert_bus t, _alert_thresholds t with
  | Some bus, _ :: _ =>
      if max_tokens s <=? 0 then Ok t
      else
        let! pct := usage_pct s in
        let event th := MkAlert (severity_of th) tenant user th (tokens_used s) (max_tokens s) in
        let '(al, bus) := alert_loop pct (_alert_thresholds t) event (default ∅ (_alerted t !! k)) bus in
        Ok (MkTracker (_states t) (Some bus) (_alert_thresholds t) (<[k := al]> (_alerted t)))
  | _, _ => Ok t
  end.

(** Both operations change the state first; an exception of the threshold
    check leaves it changed. *)
Definition check_and_reserve (t : tracker) (tenant : string) (user : option string)
    (estimated : Z) (now : datetime) : tracker * res (bool * Z) :=
  let k := (tenant, user_key user) in
  match _states t !! k with
  | None => (t, Ok (true, _UNLIMITED_SENTINEL))
  | Some s =>
      let s := roll s now in
      let t := with_state k s t in
      if max_tokens s =? 0 then (t, Ok (true, _UNLIMITED_SENTINEL))
      else
        let remaining := max_tokens s - tokens_used s in
        if (remaining <=? 0) || (remaining <? estimated) then (t, Ok (false, Z.max 0 remaining))
        else
          let s := with_used (tokens_used s + estimated) s in
          let t := with_state k s t in
          match _check_thresholds t k s tenant user with
          | Ok t => (t, Ok (true, max_tokens s - tokens_used s))
          | Raise e => (t, Raise e)
          end
  end.

Definition record_usage (t : tracker) (tenant : string) (user : option string)
    (tokens estimated : Z) (now : datetime) : tracker * res unit :=
  let delta := tokens - estimated in
  if delta =? 0 then (t, Ok tt)
  else
    let k := (tenant, user_key user) in
    match _states t !! k with
    | None => (t, Ok tt)
    | Some s =>
        let s := roll s now in
        let s := with_used (Z.max 0 (tokens_used s + delta)) s in
        let t := with_state k s t in
        match _check_thresholds t k s tenant user with
        | Ok t => (t, Ok tt)
        | Raise e => (t, Raise e)
        end
    end.

(** [all_snapshots]: tenant, user, state *)
Definition all_snapshots (t : tracker) : list (string * option string * BudgetState) :=
  map (fun ks => (ks.1.1, if bool_decide (ks.1.2 = "") then None else Some ks.1.2, ks.2))
      (map_to_list (_states t)).

(** ** The ledger *)

Lemma check_thresholds_states t k s tenant user t' :
  _check_thresholds t k s tenant user = Ok t' -> _states t' = _states t.
Proof.
  unfold _check_thresholds. intros H.
  destruct (_alert_bus t) as [bus|], (_alert_thresholds t) as [|th ths]; try by simplify_eq.
  destruct (max_tokens s <=? 0); [by simplify_eq|].
  destruct (usage_pct s) as [pct|]; [|done]. cbn [res_bind] in H.
  destruct (alert_loop _ _ _ _ _). by simplify_eq/=.
Qed.

(** The budget of [k] *)
Definition budget (t : tracker) (k : key) : option BudgetState := _states t !! k.

Lemma reserve_spec t tenant user est now :
  let k := (tenant, user_key user) in
  forall s, budget t k = Some s ->
  let s1 := roll s now in
  let r := check_and_reserve t tenant user est now in
  (forall k', k' <> k -> budget r.1 k' = budget t k') /\
  if (max_tokens s1 =? 0) then r.2 = Ok (true, -1) /\ budget r.1 k = Some s1
  else if (max_tokens s1 - tokens_used s1 <=? 0) || (max_tokens s1 - tokens_used s1 <? est)
  then r.2 = Ok (false, Z.max 0 (max_tokens s1 - tokens_used s1)) /\ budget r.1 k = Some s1
  else budget r.1 k = Some (with_used (tokens_used s1 + est) s1) /\
       (r.2 = Ok (true, max_tokens s1 - (tokens_used s1 + est)) \/ exists e, r.2 = Raise e).
Proof.
  intros k s Hs. unfold budget, check_and_reserve in *. fold k. rewrite Hs. cbv zeta.
  set (s1 := roll s now).
  destruct (max_tokens s1 =? 0).
  { simpl. split; [intros; by rewrite lookup_insert_ne|]. split; [done|]. apply lookup_insert_eq. }
  destruct (_ || _).
  { simpl. split; [intros; by rewrite lookup_insert_ne|]. split; [done|]. apply lookup_insert_eq. }
  set (s2 := with_used _ s1). set (t2 := with_state k s2 _).
  destruct (_check_thresholds t2 k s2 tenant user) as [t3|e] eqn:Hc; simpl.
  - rewrite (check_thresholds_states _ _ _ _ _ _ Hc). simpl. split.
    + intros k' Hne. by rewrite !lookup_insert_ne.
    + rewrite lookup_insert_eq. split; [done|]. by left.
  - split; [intros k' Hne; by rewrite !lookup_insert_ne|].
    rewrite lookup_insert_eq. split; [done|]. right. eauto.
Qed.

Lemma record_spec t tenant user tokens est now :
  let k := (tenant, user_key user) in
  forall s, budget t k = Some s ->
  let r := record_usage t tenant user tokens est now in
  (forall k', k' <> k -> budget r.1 k' = budget t k') /\
  budget r.1 k = Some (if tokens =? est then s
                       else with_used (Z.max 0 (tokens_used (roll s now) + (tokens - est))) (roll s now)).
Proof.
  intros k s Hs. unfold budget, record_usage in *. fold k. rewrite Hs. cbv zeta.
  replace (tokens - est =? 0) with (tokens =? est) by (destruct (tokens =? est) eqn:?, (tokens - est =? 0) eqn:?; zbool; lia).
  destruct (tokens =? est); [done|].
  set (s2 := with_used _ _). set (t2 := with_state k s2 _).
  destruct (_check_thresholds t2 k s2 tenant user) as [t3|e] eqn:Hc; simpl.
  - rewrite (check_thresholds_states _ _ _ _ _ _ Hc). simpl. split.
    + intros k' Hne. by rewrite lookup_insert_ne.
    + by rewrite lookup_insert_eq.
  - split; [intros k' Hne; by rewrite lookup_insert_ne|]. by rewrite lookup_insert_eq.
Qed.

(** Requests in flight: what each reserved, per key, and what the finished
    ones used.  A request reserves, and if it was allowed later records its
    usage with the same estimate. *)
Inductive op :=
  | Reserve (tenant : string) (user : option string) (estimated : Z)
  | Record_ (tenant : string) (user : option string) (tokens estimated : Z).

Definition op_key (o : op) : key :=
  match o with Reserve t u _ | Record_ t u _ _ => (t, user_key u) end.

Record ledger := MkLedger { outstanding : list (key * Z); finished : list (key * Z) }.

Fixpoint total (k : key) (l : list (key * Z)) : Z :=
  match l with [] => 0 | (k', n) :: l => (if decide (k' = k) then n else 0) + total k l end.

(** Two readings of the clock on one day, hence in one period. *)
Definition same_day (a b : datetime) : Prop :=
  year a = year b /\ month a = month b /\ day a = day b.

Lemma roll_id s now now' : _period_expired s now = false -> same_day now now' -> roll s now' = s.
Proof.
  intros He (Hy & Hm & Hd). unfold roll, _period_expired in *.
  assert (_period_start (s_period s) now' = _period_start (s_period s) now) as ->; [|by rewrite He].
  unfold _period_start. by rewrite Hy, Hm, Hd.
Qed.

Inductive step (now : datetime) : tracker * ledger -> tracker * ledger -> Prop :=
  | step_granted t l tenant user est now' t' n :
      same_day now now' -> 0 <= est -> check_and_reserve t tenant user est now' = (t', Ok (true, n)) ->
      step now (t, l) (t', MkLedger (((tenant, user_key user), est) :: outstanding l) (finished l))
  | step_denied t l tenant user est now' t' n :
      same_day now now' -> 0 <= est -> check_and_reserve t tenant user est now' = (t', Ok (false, n)) ->
      step now (t, l) (t', l)
  | step_record t l tenant user tokens est now' t' r o1 o2 :
      same_day now now' -> 0 <= tokens -> outstanding l = o1 ++ ((tenant, user_key user), est) :: o2 ->
      record_usage t tenant user tokens est now' = (t', r) ->
      step now (t, l) (t', MkLedger (o1 ++ o2) (((tenant, user_key user), tokens) :: finished l)).

Lemma total_app k l1 l2 : total k (l1 ++ l2) = total k l1 + total k l2.
Proof. induction l1 as [|[k' n] l1 IH]; simpl; [done|]. rewrite IH. lia. Qed.

Definition nonneg (l : list (key * Z)) : Prop := Forall (fun kn => 0 <= kn.2) l.

Lemma total_nonneg k l : nonneg l -> 0 <= total k l.
Proof. induction 1 as [|[k' n] l Hn Hl IH]; simpl in *; [done|]. case_decide; lia. Qed.

(** In the current period, a limited budget's counter is what is in flight
    plus what was used. *)
Definition balanced (now : datetime) (k : key) (tl : tracker * ledger) : Prop :=
  exists s, budget tl.1 k = Some s /\ _period_expired s now = false /\ 0 < max_tokens s /\
    nonneg (outstanding tl.2) /\ nonneg (finished tl.2) /\
    tokens_used s = total k (outstanding tl.2) + total k (finished tl.2).

Lemma step_balanced now k tl tl' :
  balanced now k tl -> step now tl tl' -> balanced now k tl'.
Proof.
  intros (s & Hs & He & Hm & Ho & Hf & Hu) Hst. unfold balanced.
  inversion Hst as [t l tenant user est now' t' n Hd Hest Hr|t l tenant user est now' t' n Hd Hest Hr
                   |t l tenant user tokens est now' t' r o1 o2 Hd Htk Hout Hr]; subst; simpl in *.
  - destruct (decide ((tenant, user_key user) = k)) as [<-|Hne].
    + destruct (reserve_spec t tenant user est now' s Hs) as [_ Hsp].
      rewrite Hr, (roll_id s now now' He Hd), (proj2 (Z.eqb_neq _ 0)) in Hsp by lia. simpl in Hsp.
      destruct (_ || _); [by destruct Hsp|]. destruct Hsp as [Hb _].
      eexists. split; [done|].
      split; [done|]. split; [done|]. split; [by constructor|]. split; [done|].
      unfold with_used. simpl. lia.
    + exists s. assert (budget t' k = budget t k) as ->.
      { unfold check_and_reserve in Hr. destruct (_states t !! (tenant, user_key user)) as [s0|] eqn:Hs0.
        - destruct (reserve_spec t tenant user est now' s0 Hs0) as [Hoth _].
          unfold check_and_reserve in Hoth. rewrite Hs0 in *. rewrite Hr in Hoth. by apply Hoth.
        - by injection Hr as <-. }
      repeat (split; [done|]). split; [by constructor|]. by split.
  - exists s. destruct (decide ((tenant, user_key user) = k)) as [<-|Hne].
    + destruct (reserve_spec t tenant user est now' s Hs) as [_ Hsp].
      rewrite Hr, (roll_id s now now' He Hd), (proj2 (Z.eqb_neq _ 0)) in Hsp by lia. simpl in Hsp.
      destruct (_ || _); [by destruct Hsp as [_ ?]|]. destruct Hsp as [_ [?|[? ?]]]; done.
    + assert (budget t' k = budget t k) as ->; [|done].
      unfold check_and_reserve in Hr. destruct (_states t !! (tenant, user_key user)) as [s0|] eqn:Hs0.
      * destruct (reserve_spec t tenant user est now' s0 Hs0) as [Hoth _].
        unfold check_and_reserve in Hoth. rewrite Hs0 in *. rewrite Hr in Hoth. by apply Hoth.
      * by injection Hr as <-.
  - rewrite Hout in *. apply Forall_app in Ho as [Ho1 Ho2]. inversion Ho2; subst.
    assert (nonneg (o1 ++ o2)) as Hn by by apply Forall_app.
    pose proof (total_nonneg k _ Hn). pose proof (total_nonneg k _ Hf).
    rewrite total_app in *. simpl in *.
    destruct (decide ((tenant, user_key user) = k)) as [<-|Hne].
    + destruct (record_spec t tenant user tokens est now' s Hs) as [_ Hsp]. rewrite Hr in Hsp. simpl in Hsp.
      eexists. split; [done|]. rewrite (roll_id s now now' He Hd).
      destruct (tokens =? est) eqn:Heq; zbool; simpl; repeat (split; [done|]).
      * split; [by constructor|]. lia.
      * split; [by constructor|]. lia.
    + exists s. assert (budget t' k = budget t k) as ->.
      { unfold record_usage in Hr. destruct (_states t !! (tenant, user_key user)) as [s0|] eqn:Hs0.
        - destruct (record_spec t tenant user tokens est now' s0 Hs0) as [Hoth _].
          unfold record_usage in Hoth. rewrite Hs0 in *. rewrite Hr in Hoth. by apply Hoth.
        - destruct (tokens - est =? 0); by injection Hr as <-. }
      repeat (split; [done|]). split; [by constructor|]. lia.
Qed.

(**  The budget adds up and is not overspent by reservations.  In any
    interleaving of requests within a period, the counter of a limited budget is
    exactly the estimates in flight plus the tokens of the finished requests (no
    refund is ever clamped), and whenever a reservation is granted what is then in
    flight and used fits the maximum. *)
Theorem budget_balanced now k tl tl' :
  balanced now k tl -> rtc (step now) tl tl' ->
  balanced now k tl' /\
  forall tenant user est now' t' n, (tenant, user_key user) = k -> same_day now now' -> 0 <= est ->
    check_and_reserve tl'.1 tenant user est now' = (t', Ok (true, n)) ->
    exists s, budget t' k = Some s /\
      total k (outstanding tl'.2) + est + total k (finished tl'.2) <= max_tokens s /\
      n = max_tokens s - (total k (outstanding tl'.2) + est + total k (finished tl'.2)).
Proof.
  intros Hb Hr. assert (balanced now k tl') as Hb'.
  { induction Hr as [tl|tl1 tl2 tl3 Hst _ IH]; [done|]. by apply IH, (step_balanced now k tl1). }
  split; [done|]. destruct Hb' as (s & Hs & He & Hm & _ & _ & Hu).
  intros tenant user est now' t' n <- Hd Hest Hc.
  destruct (reserve_spec tl'.1 tenant user est now' s Hs) as [_ Hsp].
  rewrite Hc, (roll_id s now now' He Hd), (proj2 (Z.eqb_neq _ 0)) in Hsp by lia. simpl in Hsp.
  destruct (_ || _) eqn:Hor; [by destruct Hsp|]. zbool.
  destruct Hsp as [Hbt [Hn|[? Hn]]]; [|done]. exists (with_used (tokens_used s + est) s).
  split; [done|]. simpl. injection Hn as ->. lia.
Qed.

(** ** Runs *)

Definition noon (d : Z) : datetime := MkDt 2026 1 d (seconds 43200).

Definition start : tracker :=
  configure (MkTracker ∅ (Some (MkBus 1000 [])) [29; 80; 100] ∅) "t" None Daily 100 (noon 1).

Definition after_one : tracker := (check_and_reserve start "t" None 60 (noon 1)).1.
Definition after_two : tracker := (record_usage after_one "t" None 20 60 (noon 1)).1.

Lemma budget_balanced_witness :
  balanced (noon 1) ("t", "") (after_two, MkLedger [] [(("t", ""), 20)]) /\
  check_and_reserve after_two "t" None 81 (noon 1) = (after_two, Ok (false, 80)).
Proof.
  split; [|vm_compute; reflexivity].
  refine (proj1 (budget_balanced (noon 1) ("t", "") (start, MkLedger [] [])
                   (after_two, MkLedger [] [(("t", ""), 20)]) _ _)).
  - eexists. split; [vm_compute; reflexivity|]. repeat split; try reflexivity; constructor.
  - eapply rtc_l.
    + eapply (step_granted (noon 1) start (MkLedger [] []) "t" None 60 (noon 1) after_one 40);
        [by repeat split|lia|vm_compute; reflexivity].
    + apply rtc_once.
      apply (step_record (noon 1) after_one (MkLedger [(("t", ""), 60)] []) "t" None 20 60 (noon 1)
               after_two (Ok tt) [] []); [by repeat split|lia|reflexivity|vm_compute; reflexivity].
Defined.

Definition queue_of (t : tracker) : list Z :=
  match _alert_bus t with Some b => map a_threshold (_queue b) | None => [] end.

(**  A threshold is alerted once and never again.  The thresholds already
    alerted are not forgotten when the period rolls over: the same usage that
    raised two alerts on the first day raises none on the next. *)
Theorem no_alerts_after_first_period :
  let day1 := (check_and_reserve start "t" None 90 (noon 1)).1 in
  let day2 := (check_and_reserve day1 "t" None 90 (noon 2)).1 in
  queue_of day1 = [29; 80] /\
  (tokens_used <$> budget day2 ("t", "")) = Some 90 /\ queue_of day2 = [29; 80].
Proof. vm_compute. done. Qed.

(**  A threshold can be missed by rounding.  At exactly 29 of 100 tokens
    the percentage computed in doubles is below 29. *)
Theorem threshold_missed_by_rounding :
  let t := (check_and_reserve start "t" None 29 (noon 1)).1 in
  (tokens_used <$> budget t ("t", "")) = Some 29 /\ queue_of t = [].
Proof. vm_compute. done. Qed.

End Memory.

(** ** The Redis tracker *)

(** The commands the scripts call, on integer counters.  [rc_up] says whether
    [EVAL] reaches the server. *)
Class RedisCounter (R : Type) := {
  rc_up : R -> bool;
  rc_get : R -> string -> option Z;
  rc_set : R -> string -> Z -> R;
  rc_incrby : R -> string -> Z -> R * Z;
  rc_expire : R -> string -> Z -> R;
}.

Class RedisCounterLaws (R : Type) `{RedisCounter R} := {
  rc_set_get r k n k' : rc_get (rc_set r k n) k' = if decide (k = k') then Some n else rc_get r k';
  rc_set_up r k n : rc_up (rc_set r k n) = rc_up r;
  rc_incrby_val r k n : (rc_incrby r k n).2 = default 0 (rc_get r k) + n;
  rc_incrby_get r k n k' : rc_get (rc_incrby r k n).1 k' =
    if decide (k = k') then Some (default 0 (rc_get r k) + n) else rc_get r k';
  rc_incrby_up r k n : rc_up (rc_incrby r k n).1 = rc_up r;
  rc_expire_get r k n k' : rc_get (rc_expire r k n) k' = rc_get r k';
  rc_expire_up r k n : rc_up (rc_expire r k n) = rc_up r;
}.

Module Redis.

(** [%Y%m%d]: a month or day in two digits *)
Definition two (z : Z) : string := if z <? 10 then ("0" +:+ z_str z)%string else z_str z.

Definition _TTL_BUFFER_SECONDS : Z := 3600.
Definition _REDIS_PREFIX : string := "gateway:budget:".

Definition leap (y : Z) : bool :=
  ((y mod 4 =? 0) && negb (y mod 100 =? 0)) || (y mod 400 =? 0).
Definition days_in_month (y m : Z) : Z :=
  if m =? 2 then (if leap y then 29 else 28)
  else if (m =? 4) || (m =? 6) || (m =? 9) || (m =? 11) then 30 else 31.

Definition day_ns : Z := seconds 86400.

(** [int((next - now).total_seconds())] to midnight and to the next month *)
Definition secs_to_midnight (now : datetime) : Z := (day_ns - time_of_day now) / seconds 1.
Definition secs_to_month (now : datetime) : Z :=
  ((days_in_month (year now) (month now) - day now + 1) * day_ns - time_of_day now) / seconds 1.

Section redis.
Context {R : Type} `{RedisCounter R}.

Record tracker := MkTracker {
  _r : R;
  _period : period;
  _max_tokens : Z;
  _reservation_keys : gmap key (list (string * Z));
}.

Definition with_r (r : R) (t : tracker) : tracker :=
  MkTracker r (_period t) (_max_tokens t) (_reservation_keys t).
Definition with_keys (m : gmap key (list (string * Z))) (t : tracker) : tracker :=
  MkTracker (_r t) (_period t) (_max_tokens t) m.

Definition _period_key (t : tracker) (tenant : string) (user : option string) (now : datetime)
    : string * Z :=
  let '(period_str, ttl) :=
    if bool_decide (_period t = Daily)
    then ((z_str (year now) +:+ two (month now) +:+ two (day now))%string,
          secs_to_midnight now + _TTL_BUFFER_SECONDS)
    else ((z_str (year now) +:+ two (month now))%string, secs_to_month now + _TTL_BUFFER_SECONDS) in
  ((_REDIS_PREFIX +:+ tenant +:+ ":" +:+ user_key user +:+ ":" +:+ period_str)%string, ttl).

Definition configure (t : tracker) (p : period) (mx : Z) : tracker :=
  MkTracker (_r t) p mx (_reservation_keys t).

(** [_LUA_CHECK_AND_RESERVE] *)
Definition lua_check_and_reserve (r : R) (k : string) (mx estimated expire : Z) : R * (bool * Z) :=
  if mx =? 0 then (r, (true, -1))
  else
    let current := default 0 (rc_get r k) in
    if mx <? current + estimated then (r, (false, mx - current))
    else
      let '(r, new_val) := rc_incrby r k estimated in
      (rc_expire r k expire, (true, mx - new_val)).

(** [_LUA_ADJUST_USAGE] *)
Definition lua_adjust_usage (r : R) (k : string) (delta expire : Z) : R * Z :=
  let current := default 0 (rc_get r k) in
  let new_val := Z.max 0 (current + delta) in
  (rc_expire (rc_set r k new_val) k expire, new_val).

(** An empty queue loses its entry. *)
Definition put_queue (k : key) (q : list (string * Z)) (m : gmap key (list (string * Z)))
    : gmap key (list (string * Z)) :=
  match q with [] => delete k m | _ => <[k := q]> m end.

Definition check_and_reserve (t : tracker) (tenant : string) (user : option string)
    (estimated : Z) (now : datetime) : tracker * (bool * Z) :=
  let '(k, ttl) := _period_key t tenant user now in
  let ukey := (tenant, user_key user) in
  let q := default [] (_reservation_keys t !! ukey) in
  if rc_up (_r t) then
    let '(r, res) := lua_check_and_reserve (_r t) k (_max_tokens t) estimated ttl in
    (with_r r (with_keys (<[ukey := q ++ [(k, ttl)]]> (_reservation_keys t)) t), res)
  else (with_keys (put_queue ukey q (_reservation_keys t)) t, (true, -1)).

Definition record_usage (t : tracker) (tenant : string) (user : option string)
    (actual estimated : Z) (now : datetime) : tracker :=
  let delta := actual - estimated in
  if delta =? 0 then t
  else
    let ukey := (tenant, user_key user) in
    let '(k, ttl, t) :=
      match default [] (_reservation_keys t !! ukey) with
      | (k, ttl) :: q => (k, ttl, with_keys (put_queue ukey q (_reservation_keys t)) t)
      | [] => let '(k, ttl) := _period_key t tenant user now in (k, ttl, t)
      end in
    if rc_up (_r t) then with_r (lua_adjust_usage (_r t) k delta ttl).1 t else t.

Context {L : RedisCounterLaws R}.

(** The counter of a user in the period of [now] *)
Definition counter (t : tracker) (tenant : string) (user : option string) (now : datetime) : Z :=
  default 0 (rc_get (_r t) (_period_key t tenant user now).1).

(**  The script reserves atomically within the limit.  While the server is
    up, a reservation of a limited budget is granted exactly when it fits, a
    granted one adds exactly the estimate to the period's counter and answers
    what is left, and a refused one changes no counter. *)
Theorem redis_reserve_exact t tenant user est now t' ok rest :
  rc_up (_r t) = true -> _max_tokens t <> 0 ->
  check_and_reserve t tenant user est now = (t', (ok, rest)) ->
  (ok = true <-> counter t tenant user now + est <= _max_tokens t) /\
  counter t' tenant user now = counter t tenant user now + (if ok then est else 0) /\
  rest = _max_tokens t - counter t' tenant user now /\
  (forall k, k <> (_period_key t tenant user now).1 -> rc_get (_r t') k = rc_get (_r t) k).
Proof.
  intros Hup Hm. unfold check_and_reserve, counter.
  destruct (_period_key t tenant user now) as [k ttl] eqn:Hk. rewrite Hup.
  unfold lua_check_and_reserve. rewrite (proj2 (Z.eqb_neq _ _)) by done.
  assert (forall r m, (_period_key (with_r r (with_keys m t)) tenant user now).1 = k) as Hk'.
  { intros r m. unfold _period_key in *. simpl. by rewrite Hk. }
  pose proof (rc_incrby_get (_r t) k est) as Hg. pose proof (rc_incrby_val (_r t) k est) as Hv.
  destruct (_max_tokens t <? _) eqn:Hlt; zbool.
  - intros [= <- <- <-]. rewrite Hk'. simpl. split; [split; [done|lia]|]. split; [lia|]. by split.
  - destruct (rc_incrby (_r t) k est) as [r n]. intros [= <- <- <-]. simpl in *.
    rewrite Hk'. rewrite rc_expire_get, Hg, decide_True by done. simpl.
    split; [done|]. split; [done|]. split; [lia|].
    intros k' Hne. by rewrite rc_expire_get, Hg, decide_False.
Qed.
End redis.
End Redis.

(** A server that is always up *)
Module ToyCounter.
Definition counters : Type := gmap string Z.

#[global] Instance counters_redis : RedisCounter counters := {
  rc_up _ := true;
  rc_get m k := m !! k;
  rc_set m k n := <[k := n]> m;
  rc_incrby m k n := let z := default 0 (m !! k) + n in (<[k := z]> m, z);
  rc_expire m _ _ := m;
}.

#[global] Instance counters_laws : RedisCounterLaws counters.
Proof.
  constructor; simpl; unfold counters; intros; try done; case_decide; simplify_map_eq; done.
Qed.

Definition start : Redis.tracker (R := counters) := Redis.MkTracker ∅ Daily 100 ∅.
Definition noon (d : Z) : datetime := MkDt 2026 1 d (seconds 43200).

Lemma redis_reserve_exact_witness :
  exists t, Redis.check_and_reserve start "t" None 60 (noon 1) = (t, (true, 40)) /\
    Redis.counter t "t" None (noon 1) = 60.
Proof.
  eexists. split; [vm_compute; reflexivity|].
  refine (proj1 (proj2 (Redis.redis_reserve_exact start "t" None 60 (noon 1) _ true 40 _ _ _)));
    [reflexivity|discriminate|vm_compute; reflexivity].
Defined.

(**  A refund reaches the wrong day.  A request whose usage equals its
    estimate leaves its reservation key in the queue; the next day's refund takes
    that key, so the day's own counter keeps the full estimate and the limit is
    hit with most of the budget unused. *)
Theorem refund_hits_stale_key :
  let t1 := (Redis.check_and_reserve start "t" None 50 (noon 1)).1 in
  let t1 := Redis.record_usage t1 "t" None 50 50 (noon 1) in
  let t2 := (Redis.check_and_reserve t1 "t" None 90 (noon 2)).1 in
  let t2 := Redis.record_usage t2 "t" None 10 90 (noon 2) in
  Redis.counter t2 "t" None (noon 1) = 0 /\ Redis.counter t2 "t" None (noon 2) = 90 /\
  (Redis.check_and_reserve t2 "t" None 20 (noon 2)).2 = (false, 10).
Proof. vm_compute. done. Qed.
End ToyCounter.
