(* ===== verification/Routing.v ===== *)
(** * Routing to provider endpoints

    [Balancer] is routing/balancer.py, [Fallback] routing/fallback.py, [Retry]
    routing/retry.py (over tenacity's attempt loop), [ABTests] routing/ab_test.py,
    and [Resilience] is [_forward_with_resilience] of pipeline/orchestrator.py,
    which puts them together.  Random choices are arguments.  The breakers are
    any implementation of [Breakers], which the registry of [Circuit] is. *)
From S2P Require Import Prelude ODict PyVal Circuit.

Local Open Scope Z_scope.

Module Balancer.

Record Endpoint := MkEndpoint {
  url : string;
  api_key : string;
  healthy : bool;
  cooldown_until : Z;
  outstanding : Z;
}.

Record ModelGroup := MkGroup { pattern : string; endpoints : list Endpoint }.

Record balancer := MkBalancer { _groups : list ModelGroup; _last_health_check : Z }.

Definition set_healthy (h : bool) (e : Endpoint) : Endpoint :=
  MkEndpoint (url e) (api_key e) h (cooldown_until e) (outstanding e).

Definition map_endpoints (f : Endpoint -> Endpoint) (g : ModelGroup) : ModelGroup :=
  MkGroup (pattern g) (map f (endpoints g)).

Definition revive (now : Z) (e : Endpoint) : Endpoint :=
  if negb (healthy e) && (cooldown_until e <=? now) then set_healthy true e else e.

Definition check_health (b : balancer) (now : Z) : balancer :=
  MkBalancer (map (map_endpoints (revive now)) (_groups b)) (_last_health_check b).

(** The throttled sweep of [select_endpoint]; [now2] is the clock reading of
    [check_health]. *)
Definition sweep (b : balancer) (now now2 : Z) : balancer :=
  if _last_health_check b + seconds 1 <=? now then
    let b := if existsb (fun g => existsb (fun e => negb (healthy e)) (endpoints g)) (_groups b)
             then check_health b now2 else b in
    MkBalancer (_groups b) now
  else b.

Definition group_matches (model_id : string) (g : ModelGroup) : bool :=
  fnmatch (lower model_id) (lower (pattern g)).

(** [random.sample(healthy, 2)] is the pair at two different positions. *)
Definition pick (l : list Endpoint) (i j : nat) : option Endpoint :=
  match l with
  | [] => None
  | [e] => Some e
  | _ => match l !! i, l !! j with
         | Some a, Some b => Some (if outstanding a <=? outstanding b then a else b)
         | _, _ => None
         end
  end.

Definition select_endpoint (b : balancer) (model_id : string) (now now2 : Z) (i j : nat)
    : balancer * option Endpoint :=
  let b := sweep b now now2 in
  (b, match List.find (group_matches model_id) (_groups b) with
      | Some g => pick (List.filter healthy (endpoints g)) i j
      | None => None
      end).

Definition increment_outstanding (e : Endpoint) : Endpoint :=
  MkEndpoint (url e) (api_key e) (healthy e) (cooldown_until e) (outstanding e + 1).
Definition decrement_outstanding (e : Endpoint) : Endpoint :=
  MkEndpoint (url e) (api_key e) (healthy e) (cooldown_until e) (Z.max 0 (outstanding e - 1)).

(** [mark_unhealthy]: the first endpoint with that url, in the first matching
    group that has one. *)
Fixpoint mark_first (u : string) (until : Z) (l : list Endpoint) : option (list Endpoint) :=
  match l with
  | [] => None
  | e :: l => if bool_decide (url e = u)
              then Some (MkEndpoint (url e) (api_key e) false until (outstanding e) :: l)
              else cons e <$> mark_first u until l
  end.

Fixpoint mark_groups (model_id u : string) (until : Z) (gs : list ModelGroup) : list ModelGroup :=
  match gs with
  | [] => []
  | g :: gs =>
      if group_matches model_id g then
        match mark_first u until (endpoints g) with
        | Some l => MkGroup (pattern g) l :: gs
        | None => g :: mark_groups model_id u until gs
        end
      else g :: mark_groups model_id u until gs
  end.

Definition mark_unhealthy (b : balancer) (model_id u : string) (cooldown now : Z) : balancer :=
  MkBalancer (mark_groups model_id u (now + cooldown) (_groups b)) (_last_health_check b).

(** Two different positions of a list of at least two *)
Definition sample_ok (l : list Endpoint) (i j : nat) : Prop :=
  (2 <= length l)%nat -> (i < length l)%nat /\ (j < length l)%nat /\ i <> j.

Lemma pick_spec l i j e :
  pick l i j = Some e -> e ∈ l /\
  ((2 <= length l)%nat -> exists a b, l !! i = Some a /\ l !! j = Some b /\
     (e = a \/ e = b) /\ outstanding e <= outstanding a /\ outstanding e <= outstanding b).
Proof.
  unfold pick. destruct l as [|x [|y l]]; [done| |].
  - intros [= <-]. split; [by left|]. simpl. lia.
  - destruct ((x :: y :: l) !! i) as [a|] eqn:Ha; [|done].
    destruct ((x :: y :: l) !! j) as [b|] eqn:Hb; [|done].
    destruct (outstanding a <=? outstanding b) eqn:Ho; intros [= <-]; zbool.
    + split; [by eapply list_elem_of_lookup_2|]. intros _. exists a, b. split_and!; auto; lia.
    + split; [by eapply list_elem_of_lookup_2|]. intros _. exists a, b. split_and!; auto; lia.
Qed.

Lemma pick_total l i j : l <> [] -> sample_ok l i j -> is_Some (pick l i j).
Proof.
  unfold pick, sample_ok. destruct l as [|x [|y l]]; intros Hne Hs; [done|eauto|].
  destruct Hs as (Hi & Hj & _); [simpl; lia|].
  apply lookup_lt_is_Some_2 in Hi as [a ->], Hj as [b ->]. eauto.
Qed.

(**  Two choices, the less loaded one.  A selected endpoint is a healthy
    endpoint of the first group whose pattern matches the model, and it has no
    more requests in flight than either of the two sampled. *)
Theorem select_endpoint_sound b model_id now now2 i j b' e :
  select_endpoint b model_id now now2 i j = (b', Some e) ->
  exists g, List.find (group_matches model_id) (_groups b') = Some g /\
    e ∈ endpoints g /\ healthy e = true /\
    let hs := List.filter healthy (endpoints g) in
    ((2 <= length hs)%nat -> exists x y, hs !! i = Some x /\ hs !! j = Some y /\
       outstanding e <= outstanding x /\ outstanding e <= outstanding y).
Proof.
  unfold select_endpoint. intros [= <- Hp].
  destruct (List.find _ _) as [g|]; [|done]. exists g. split; [done|].
  apply pick_spec in Hp as [He Hs].
  apply list_elem_of_In, List.filter_In in He as [He Hh]. apply list_elem_of_In in He.
  split; [done|]. split; [done|]. cbv zeta. intros Hlen.
  destruct (Hs Hlen) as (x & y & ? & ? & _ & ? & ?). eauto 7.
Qed.

Lemma revive_healthy now e :
  healthy (revive now e) = healthy e || (cooldown_until e <=? now).
Proof.
  unfold revive. destruct (healthy e) eqn:Hh; simpl; [done|]. by destruct (_ <=? _).
Qed.

Lemma find_map_endpoints f model_id gs :
  List.find (group_matches model_id) (map (map_endpoints f) gs) =
  map_endpoints f <$> List.find (group_matches model_id) gs.
Proof.
  induction gs as [|g gs IH]; simpl; [done|]. rewrite IH.
  change (group_matches model_id (map_endpoints f g)) with (group_matches model_id g).
  by destruct (group_matches model_id g).
Qed.

(**  No endpoint stays down for ever.  When the last sweep is a second old
    and some endpoint of the model's group is healthy or past its cooldown, a
    selection finds an endpoint. *)
Theorem cooled_endpoint_selected b model_id now now2 i j g e :
  List.find (group_matches model_id) (_groups b) = Some g ->
  e ∈ endpoints g -> (healthy e = true \/ cooldown_until e <= now2) ->
  _last_health_check b + seconds 1 <= now ->
  (forall g', List.find (group_matches model_id) (_groups (sweep b now now2)) = Some g' ->
     sample_ok (List.filter healthy (endpoints g')) i j) ->
  is_Some (select_endpoint b model_id now now2 i j).2.
Proof.
  unfold select_endpoint, sweep. intros Hg He Hc Hl.
  rewrite (proj2 (Z.leb_le _ _)) by done. cbn [snd _groups]. intros Hs.
  destruct (existsb _ (_groups b)) eqn:Hex; simpl in Hs |- *.
  - rewrite find_map_endpoints, Hg. simpl. apply pick_total; [|apply (Hs (map_endpoints (revive now2) g)); by rewrite find_map_endpoints, Hg].
    assert (In (revive now2 e) (List.filter healthy (map (revive now2) (endpoints g)))) as Hin.
    { apply List.filter_In. split; [apply in_map; by apply list_elem_of_In|].
      rewrite revive_healthy. destruct Hc as [->|Hc]; [done|].
      rewrite (proj2 (Z.leb_le _ _)) by done. apply orb_true_r. }
    by destruct (List.filter _ _).
  - rewrite Hg. apply pick_total; [|by apply (Hs g)].
    assert (healthy e = true) as Hh.
    { destruct (healthy e) eqn:Hh; [done|]. exfalso.
      apply List.find_some in Hg as [Hg _].
      assert (existsb (fun g => existsb (fun e => negb (healthy e)) (endpoints g)) (_groups b) = true);
        [|congruence].
      apply existsb_exists. exists g. split; [done|]. apply existsb_exists. exists e.
      split; [by apply list_elem_of_In|]. by rewrite Hh. }
    assert (In e (List.filter healthy (endpoints g))) as Hin
      by (apply List.filter_In; split; [by apply list_elem_of_In|done]).
    by destruct (List.filter _ _).
Qed.

End Balancer.

Module Fallback.
Import Balancer.

Definition _CONTEXT_OVERFLOW_PHRASES : list string :=
  ["maximum context length"; "context window"; "token limit"; "too many tokens";
   "context_length_exceeded"].

Definition _CONTENT_POLICY_PHRASES : list string :=
  ["content policy"; "content_filter"; "content management policy"; "safety system";
   "flagged as inappropriate"].

Definition any_phrase (ps : list string) (body : string) : bool :=
  existsb (fun p => contains p body) ps.

Definition classify_error (status_code : Z) (body : string) : string :=
  let body_lower := lower body in
  if status_code =? 429 then "rate_limited"
  else if any_phrase _CONTEXT_OVERFLOW_PHRASES body_lower then "context_overflow"
  else if any_phrase _CONTENT_POLICY_PHRASES body_lower then "content_policy"
  else if 500 <=? status_code then "server_error"
  else "other".

(** [random.choices] picks the candidate at position [i]. *)
Definition select_fallback (error_class model_id : string) (b : balancer) (exclude_url : string)
    (i : nat) : option Endpoint :=
  if bool_decide (error_class = "content_policy") || bool_decide (error_class = "other") then None
  else match List.find (group_matches model_id) (_groups b) with
       | Some g =>
           List.filter (fun e => healthy e && negb (bool_decide (url e = exclude_url))) (endpoints g) !! i
       | None => None
       end.

Lemma select_fallback_spec c m b x i e :
  select_fallback c m b x i = Some e ->
  c <> "content_policy" /\ c <> "other" /\ healthy e = true /\ url e <> x /\
  exists g, List.find (group_matches m) (_groups b) = Some g /\ e ∈ endpoints g.
Proof.
  unfold select_fallback. destruct (_ || _) eqn:Hc; [done|]. zbool.
  destruct (List.find _ _) as [g|]; [|done]. intros He%list_elem_of_lookup_2.
  apply list_elem_of_In, List.filter_In in He as [He Hh]. apply andb_true_iff in Hh as [Hh Hu]. zbool.
  split; [done|]. split; [done|]. split; [done|]. split; [done|]. exists g.
  split; [done|]. by apply list_elem_of_In.
Qed.
End Fallback.

Module ABTests.

Record ABVariant := MkVariant { model : string; weight : Z }.
Record ABTest := MkTest { name : string; model_pattern : string; variants : list ABVariant }.

(** [__post_init__] *)
Definition test_ok (t : ABTest) : bool :=
  match variants t with [] => false | _ => forallb (fun v => 0 <? weight v) (variants t) end.

(** The loop of [select_variant]; [r] is the sample of [uniform(0, total)],
    here a rational [n / d] of integers. *)
Fixpoint select_loop (vs : list ABVariant) (cumulative n d : Z) (dflt : option ABVariant)
    : option ABVariant :=
  match vs with
  | [] => dflt
  | v :: vs =>
      let cumulative := cumulative + weight v in
      if n <=? cumulative * d then Some v else select_loop vs cumulative n d (Some v)
  end.

Definition select_variant (t : ABTest) (n d : Z) : option ABVariant :=
  select_loop (variants t) 0 n d None.

Definition matches (t : ABTest) (model_id : string) : bool :=
  fnmatch (lower model_id) (lower (model_pattern t)).

Definition resolve_ab_model (model_id : string) (tests : list ABTest) (n d : Z)
    : string * option string :=
  match List.find (fun t => matches t model_id) tests with
  | Some t => match select_variant t n d with
              | Some v => (model v, Some (name t))
              | None => (model_id, None)
              end
  | None => (model_id, None)
  end.

Lemma select_loop_elem vs : forall c n d dflt v,
  select_loop vs c n d dflt = Some v -> v ∈ vs \/ dflt = Some v.
Proof.
  induction vs as [|x vs IH]; intros c n d dflt v; simpl; [by right|].
  case_match; [intros [= <-]; left; by left|].
  intros [Hv|[= <-]]%IH; left; [by right|by left].
Qed.

(** A test only sends to its own variants. *)
Lemma resolve_ab_model_spec m ts n d m' t :
  resolve_ab_model m ts n d = (m', Some t) ->
  exists test v, test ∈ ts /\ matches test m = true /\ name test = t /\ v ∈ variants test /\ m' = model v.
Proof.
  unfold resolve_ab_model. destruct (List.find _ ts) as [test|] eqn:Hf; [|done].
  apply List.find_some in Hf as [Hin Hm].
  destruct (select_variant test n d) as [v|] eqn:Hs; [|done]. intros [= <- <-].
  exists test, v. split; [by apply list_elem_of_In|]. split; [done|]. split; [done|]. split; [|done].
  by apply select_loop_elem in Hs as [?|].
Qed.
End ABTests.

Module Retry.

(** One forward: an HTTP response, or a transport exception with its class
    name and its [status_code] attribute, if any. *)
Inductive attempt :=
  | Reply (status : Z) (body : string)
  | Transport (exc_name : string) (exc_status : option Z).

(** What [_do_forward] returns or raises *)
Inductive outcome :=
  | Returned (status : Z) (body : string)
  | ProviderHTTPError (status : Z) (body : string)
  | Raised (exc_name : string) (exc_status : option Z).

Definition do_forward (a : attempt) : outcome :=
  match a with
  | Reply s b => if 500 <=? s then ProviderHTTPError s b else Returned s b
  | Transport n s => Raised n s
  end.

Definition _RETRYABLE_STATUS_CODES : list Z := [429; 500; 502; 503; 504].

Definition status_retryable (s : option Z) : bool :=
  match s with Some s => bool_decide (s ∈ _RETRYABLE_STATUS_CODES) | None => false end.

Definition is_retryable (o : outcome) : bool :=
  match o with
  | Returned _ _ => false
  | ProviderHTTPError s _ => status_retryable (Some s)
  | Raised n s =>
      bool_decide (n ∈ ["ConnectError"; "ConnectTimeout"; "ReadTimeout"]) || status_retryable s
  end.

(** tenacity's loop: [remaining] attempts are left, [n] were made. *)
Fixpoint retry_loop (fn : nat -> outcome) (n remaining : nat) : nat * outcome :=
  let o := fn n in
  match remaining with
  | S remaining => if is_retryable o then retry_loop fn (S n) remaining else (S n, o)
  | O => (S n, o)
  end.

(** [stop_after_attempt(max_attempts)] stops after the first one already when
    [max_attempts] is 1 or less. *)
Definition forward_with_retry (fn : nat -> outcome) (max_attempts : Z) : nat * outcome :=
  retry_loop fn 0 (Z.to_nat (max_attempts - 1)).

Lemma retry_loop_spec fn k : forall n m o,
  retry_loop fn n k = (m, o) ->
  (n < m <= S (n + k))%nat /\ o = fn (pred m) /\
  (forall i, (n <= i < pred m)%nat -> is_retryable (fn i) = true) /\
  (is_retryable o = true -> m = S (n + k)).
Proof.
  induction k as [|k IH]; intros n m o; simpl.
  - intros [= <- <-]. split_and!; try done; try lia.
  - destruct (is_retryable (fn n)) eqn:Hr.
    + intros H. destruct (IH _ _ _ H) as (Hm & Ho & Hk & Hl). split_and!; try done; try lia.
      * intros i Hkn. destruct (decide (i = n)) as [->|]; [done|]. apply Hk. lia.
      * intros Hrt. rewrite Hl by done. lia.
    + intros [= <- <-]. split_and!; try done; try lia. simpl. intros; congruence.
Qed.

Lemma forward_with_retry_spec fn mx m o :
  forward_with_retry fn mx = (m, o) ->
  (1 <= m)%nat /\ Z.of_nat m <= Z.max 1 mx /\ o = fn (pred m) /\
  (forall k, (k < pred m)%nat -> is_retryable (fn k) = true).
Proof.
  intros H. destruct (retry_loop_spec _ _ _ _ _ H) as (Hm & Ho & Hk & _).
  split_and!; try done; try lia. intros k Hkm. apply Hk. lia.
Qed.
End Retry.

Module Resilience.
Import Balancer Fallback Retry.

(** What the orchestrator needs of the circuit breakers *)
Class Breakers (B : Type) := {
  b_is_open : B -> string -> Z -> B * bool;
  b_record_success : B -> string -> Z -> Z -> B;
  b_record_failure : B -> string -> Z -> Z -> B;
}.

#[export] Instance registry_breakers : Breakers Registry.registry := {
  b_is_open := Registry.is_open;
  b_record_success := Registry.record_success;
  b_record_failure := Registry.record_failure;
}.

Section resilience.
Context {B : Type} `{Breakers B}.

(** How the call ended: a response and [used_fallback], or an exception. *)
Inductive ending :=
  | Answer (status : Z) (used_fallback : bool)
  | Exception (exc_name : string).

(** The ending with what happened on the way: the base urls the adapter was
    pointed at for each forward, the adapter's base url afterwards ([None]: the
    adapter has no such attribute), the breakers. *)
Record trace := MkTrace {
  ended : ending;
  calls : list (option string);
  base_url_after : option string;
  breakers : option B;
}.

(** The parameters of one call: the world's answer to the [n]-th forward at a
    base url, the clock, the jitter sample, the choice among fallbacks. *)
Record env := MkEnv {
  forward : option string -> nat -> attempt;
  e_now : Z;
  e_rnd : Z;
  e_choice : nat;
  retry_max_attempts : Z;
}.

Definition success (e : env) (m : string) (b : option B) : option B :=
  (fun b => b_record_success b m (e_now e) (e_rnd e)) <$> b.
Definition failure (e : env) (m : string) (b : option B) : option B :=
  (fun b => b_record_failure b m (e_now e) (e_rnd e)) <$> b.

(** Without a load balancer *)
Definition plain_forward (e : env) (model_id : string) (base : option string) (b : option B) : trace :=
  match forward e base 0%nat with
  | Transport n _ =>
      let status := if contains "Timeout" n || contains "ReadTimeout" n then 504 else 502 in
      MkTrace (Answer status false) [base] base b
  | Reply s _ =>
      let b := if s <? 400 then success e model_id b
               else if 500 <=? s then failure e model_id b else b in
      MkTrace (Answer s false) [base] base b
  end.

(** The fallback after a provider error *)
Definition try_fallback (e : env) (lb : balancer) (model_id : string) (base : option string)
    (b : option B) (n : nat) (made : list (option string)) (status : Z) (body : string) : trace :=
  let failed := MkTrace (Answer status false) made base b in
  match select_fallback (classify_error status body) model_id lb "" (e_choice e), base with
  | None, _ | _, None => failed
  | Some fb, Some _ =>
      let target := Some (rstrip_slash (url fb)) in
      match forward e target n with
      | Reply s _ => MkTrace (Answer s true) (made ++ [target]) base b
      | Transport _ _ => MkTrace (Answer status false) (made ++ [target]) base b
      end
  end.

Definition _forward_with_resilience (e : env) (lb : option balancer) (b : option B)
    (model_id : string) (base : option string) : trace :=
  match lb with
  | None => plain_forward e model_id base b
  | Some lb =>
      let '(b, open) := match b with
                        | Some b => let '(b, o) := b_is_open b model_id (e_now e) in (Some b, o)
                        | None => (None, false)
                        end in
      let refused := (open : bool) &&
                     negb (bool_decide (is_Some (select_fallback "server_error" model_id lb "" (e_choice e)))) in
      if refused then MkTrace (Answer 503 true) [] base b
      else
        let '(n, o) := forward_with_retry (fun n => do_forward (forward e base n))
                         (retry_max_attempts e) in
        let made := repeat base n in
        match o with
        | Returned s _ => MkTrace (Answer s false) made base (success e model_id b)
        | ProviderHTTPError s body =>
            try_fallback e lb model_id base (failure e model_id b) n made s body
        | Raised name _ => MkTrace (Exception name) made base (failure e model_id b)
        end
  end.

(** The forwards to the adapter's own endpoint come first, one more at most
    goes to a fallback. *)
Lemma try_fallback_calls e lb m base b n made s body :
  let t := try_fallback e lb m base b n made s body in
  base_url_after t = base /\ breakers t = b /\
  (calls t = made \/
   exists fb, calls t = made ++ [Some (rstrip_slash (url fb))] /\ healthy fb = true /\
     exists g, List.find (group_matches m) (_groups lb) = Some g /\ fb ∈ endpoints g).
Proof.
  unfold try_fallback. cbv zeta.
  destruct (select_fallback _ _ _ _ _) as [fb|] eqn:Hs, base as [u|]; simpl; auto.
  destruct (select_fallback_spec _ _ _ _ _ _ Hs) as (_ & _ & Hh & _ & Hg).
  destruct (forward e _ n); simpl; eauto 8.
Qed.

(**  A call costs a bounded number of forwards and leaves the adapter as it
    was.  Whatever the provider does, at most [max(1, retry_max_attempts)]
    forwards go to the adapter's own endpoint and at most one to a fallback, which
    is a healthy endpoint of the model's group; afterwards the adapter points at
    its own endpoint again. *)
Theorem resilience_bounded e lb b m base :
  let t := _forward_with_resilience e lb b m base in
  base_url_after t = base /\
  exists n fb, calls t = repeat base n ++ fb /\ Z.of_nat n <= Z.max 1 (retry_max_attempts e) /\
    (fb = [] \/ exists ep l g, lb = Some l /\ fb = [Some (rstrip_slash (url ep))] /\
       healthy ep = true /\ List.find (group_matches m) (_groups l) = Some g /\ ep ∈ endpoints g).
Proof.
  unfold _forward_with_resilience. cbv zeta. destruct lb as [lb|].
  - destruct (match b with Some _ => _ | None => _ end) as [b' open].
    destruct (open && _); simpl; [split; [done|]; exists 0%nat, []; simpl; split; [done|]; split; [lia|auto]|].
    destruct (forward_with_retry _ _) as [n o] eqn:Hf.
    destruct (forward_with_retry_spec _ _ _ _ Hf) as (_ & Hn & _).
    destruct o as [s body|s body|name st]; simpl.
    + split; [done|]. exists n, []. rewrite app_nil_r. auto.
    + destruct (try_fallback_calls e lb m base (failure e m b') n (repeat base n) s body)
        as (-> & _ & [Hc|(fb & Hc & Hh & g & Hg & Hin)]); (split; [done|]).
      * exists n, []. rewrite app_nil_r. auto.
      * exists n, [Some (rstrip_slash (url fb))]. split; [done|]. split; [done|]. right. eauto 9.
    + split; [done|]. exists n, []. rewrite app_nil_r. auto.
  - unfold plain_forward. destruct (forward e base 0%nat); simpl;
      (split; [done|]; exists 1%nat, []; simpl; split; [done|]; split; [lia|auto]).
Qed.

(**  An open circuit with a fallback still calls the failing provider.
    When the circuit is open and a fallback endpoint exists, the first forward
    goes to the adapter's own endpoint, as with a closed circuit. *)
Theorem open_circuit_still_forwards e lb b b' m base :
  b_is_open b m (e_now e) = (b', true) ->
  is_Some (select_fallback "server_error" m lb "" (e_choice e)) ->
  exists rest, calls (_forward_with_resilience e (Some lb) (Some b) m base) = base :: rest.
Proof.
  intros Ho Hf. unfold _forward_with_resilience. rewrite Ho. rewrite bool_decide_true by done. simpl.
  destruct (forward_with_retry _ _) as [n o] eqn:Hr.
  destruct (forward_with_retry_spec _ _ _ _ Hr) as (Hn & _ & _).
  destruct n as [|n]; [lia|]. simpl. destruct o as [s body|s body|name st]; simpl; eauto.
  match goal with |- context [try_fallback _ _ _ _ ?x ?k ?made _ _] =>
    destruct (try_fallback_calls e lb m base x k made s body) as (_ & _ & [->|(fb & -> & _)])
  end; simpl; eauto.
Qed.

(**  Rate limits are never retried nor sent to a fallback.  Every response
    below 500, a 429 too, ends the call at once and counts as a success of the
    breaker. *)
Theorem rate_limit_not_retried e lb b m base body :
  forward e base 0%nat = Reply 429 body ->
  match b with Some b => (b_is_open b m (e_now e)).2 = false | None => True end ->
  let t := _forward_with_resilience e (Some lb) b m base in
  ended t = Answer 429 false /\ calls t = [base] /\
  breakers t = success e m (match b with Some b => Some (b_is_open b m (e_now e)).1 | None => None end).
Proof.
  intros Hf Hb. unfold _forward_with_resilience. cbv zeta.
  assert (forward_with_retry (fun n => do_forward (forward e base n)) (retry_max_attempts e)
          = (1%nat, Returned 429 body)) as Hr.
  { unfold forward_with_retry. destruct (Z.to_nat _); simpl; by rewrite Hf. }
  destruct b as [b|].
  - destruct (b_is_open b m (e_now e)) as [b' o]. simpl in Hb. subst. simpl. rewrite Hr. done.
  - simpl. rewrite Hr. done.
Qed.
End resilience.

(** ** Runs *)

Definition ep (u : string) (ok : bool) (load : Z) : Endpoint := MkEndpoint u "" ok 0 load.
Definition group : ModelGroup := MkGroup "gpt-*" [ep "http://a/" true 2; ep "http://b" true 1; ep "http://c" false 0].
Definition lb : balancer := MkBalancer [group] 0.

Lemma select_endpoint_sound_witness :
  exists g, List.find (group_matches "GPT-4") (_groups lb) = Some g /\
    ep "http://b" true 1 ∈ endpoints g /\ healthy (ep "http://b" true 1) = true.
Proof.
  destruct (select_endpoint_sound lb "GPT-4" 5 5 0 1 lb (ep "http://b" true 1))
    as (g & Hg & He & Hh & _); [vm_compute; reflexivity|].
  exists g. split; [exact Hg|]. split; [exact He|exact Hh].
Defined.

Lemma cooled_endpoint_selected_witness :
  is_Some (select_endpoint (MkBalancer [MkGroup "m" [ep "http://c" false 0]] 0) "m"
             (seconds 1) (seconds 1) 0 1).2.
Proof.
  apply (cooled_endpoint_selected (MkBalancer [MkGroup "m" [ep "http://c" false 0]] 0) "m"
           (seconds 1) (seconds 1) 0 1 (MkGroup "m" [ep "http://c" false 0]) (ep "http://c" false 0)).
  - vm_compute. reflexivity.
  - apply elem_of_cons. by left.
  - right. vm_compute. discriminate.
  - vm_compute. discriminate.
  - intros g' Hg'. vm_compute in Hg'. injection Hg' as <-. unfold sample_ok. simpl. lia.
Defined.

(** Every forward fails with 503. *)
Definition down : env := MkEnv (fun _ _ => Reply 503 "overloaded") 0 0 0 3.
Definition limited : env := MkEnv (fun _ _ => Reply 429 "slow down") 0 0 0 3.

Definition tripped : Registry.registry :=
  Registry.record_failure (Registry.init_registry CircuitBreaker.cfg1) "gpt-4" 0 0.

Lemma open_circuit_still_forwards_witness :
  (b_is_open tripped "gpt-4" 0).2 = true /\
  exists rest, calls (_forward_with_resilience down (Some lb) (Some tripped) "gpt-4" (Some "http://own"))
               = Some "http://own" :: rest.
Proof.
  split; [vm_compute; reflexivity|].
  apply (open_circuit_still_forwards down lb tripped (b_is_open tripped "gpt-4" 0).1 "gpt-4").
  - vm_compute. reflexivity.
  - vm_compute. eexists. reflexivity.
Defined.

Lemma rate_limit_not_retried_witness :
  calls (_forward_with_resilience (B := Registry.registry) limited (Some lb) None "gpt-4" (Some "http://own"))
  = [Some "http://own"].
Proof.
  apply (rate_limit_not_retried (B := Registry.registry) limited lb None "gpt-4" (Some "http://own") "slow down");
    [reflexivity|exact I].
Defined.

End Resilience.
