(* ===== verification/Wal.v ===== *)
(** * The write-ahead log (wal/writer.py)

    The two SQLite tables and every statement [WALWriter] runs on them, and
    the queue of the dedicated writer thread.  A timestamp column holds the
    clock reading, whose ISO text sorts the same way.  [Json] is the JSON codec.
    Connections, pragmas, schema migration and file modes are not modelled. *)
From S2P Require Import Prelude ODict PyVal PyObj Lineage.

Local Open Scope Z_scope.

(** [json.dumps] and [json.loads]; [dumps] raises on a value that is not
    JSON. *)
Class Json := {
  dumps : dict -> res string;
  loads : string -> res pyval;
}.

Record wal_record := MkRecord {
  execution_id : string;
  record_json : string;
  created_at : Z;
  delivered : bool;
  delivered_at : option Z;
  w_event_type : event_type;
  session_id : pyval;
  timestamp : pyval;
  model_id : pyval;
  provider : pyval;
  w_user : pyval;
  prompt_tokens : pyval;
  completion_tokens : pyval;
  total_tokens : pyval;
  latency_ms : pyval;
  w_sequence_number : pyval;
  policy_result : pyval;
  parent_execution_id : pyval;
  tool_name : pyval;
  tool_type : pyval;
  request_type : pyval;
  dead_letter : bool;     (** [delivery_status = 'dead_letter'] *)
}.

Record attempt := MkAttempt {
  request_id : string;
  a_timestamp : Z;
  a_tenant_id : string;
  a_path : string;
  a_disposition : string;
  a_status_code : Z;
  a_provider : option string;
  a_model_id : option string;
  a_execution_id : option string;
  a_user : option string;
  a_reason : option string;
}.

Record db := MkDb { wal_records : list wal_record; gateway_attempts : list attempt }.

Definition empty_db : db := MkDb [] [].

Definition with_records (l : list wal_record) (d : db) : db := MkDb l (gateway_attempts d).

(** [INSERT OR REPLACE]: a row with the same primary key goes, the new one is
    the last. *)
Definition insert_or_replace (r : wal_record) (l : list wal_record) : list wal_record :=
  List.filter (fun x => negb (bool_decide (execution_id x = execution_id r))) l ++ [r].

Definition insert_attempt (a : attempt) (l : list attempt) : list attempt :=
  List.filter (fun x => negb (bool_decide (request_id x = request_id a))) l ++ [a].

(** Scalars bind to a parameter; a list or an object raises. *)
Definition bindable (v : pyval) : bool :=
  match v with PList _ | PDict _ | PRedacted _ => false | _ => true end.

Section writer.
Context `{Json}.

(** An id column: a string *)
Definition id_of (v : pyval) : res string :=
  match v with PStr s => Ok s | _ => Raise (TypeError "id") end.

(** [(data.get("metadata") or {}).get("request_type")] *)
Definition meta_request_type (data : dict) : res pyval :=
  match por (dget "metadata" data) (PDict []) with
  | PDict m => Ok (dget "request_type" m)
  | _ => Raise (OtherError "AttributeError")
  end.

Definition the_time (now : Z) (v : pyval) : pyval := por v (PInt now).

(** The row of an execution record *)
Definition execution_row (id json : string) (now : Z) (data : dict) (rt : pyval) : wal_record :=
  MkRecord id json now false None ev_execution (dget "session_id" data)
    (the_time now (dget "timestamp" data)) (dget "model_id" data) (dget "provider" data)
    (dget "user" data) (por (dget "prompt_tokens" data) (PInt 0))
    (por (dget "completion_tokens" data) (PInt 0)) (por (dget "total_tokens" data) (PInt 0))
    (dget "latency_ms" data) (dget "sequence_number" data) (dget "policy_result" data)
    PNone PNone PNone rt false.

Definition tool_row (id json : string) (now : Z) (data : dict) : wal_record :=
  MkRecord id json now false None ev_tool_call (dget "session_id" data)
    (the_time now (dget "timestamp" data)) PNone PNone PNone (PInt 0) (PInt 0) (PInt 0) PNone PNone
    PNone (dget "execution_id" data) (dget "tool_name" data) (dget "tool_type" data) PNone false.

Definition columns (r : wal_record) : list pyval :=
  [session_id r; timestamp r; model_id r; provider r; w_user r; prompt_tokens r;
   completion_tokens r; total_tokens r; latency_ms r; w_sequence_number r; policy_result r;
   parent_execution_id r; tool_name r; tool_type r; request_type r].

Definition insert (r : wal_record) (d : db) : res db :=
  if forallb bindable (columns r)
  then Ok (with_records (insert_or_replace r (wal_records d)) d)
  else Raise (OtherError "sqlite3.InterfaceError").

Definition getitem (k : string) (d : dict) : res pyval :=
  match od_get k d with Some v => Ok v | None => Raise (KeyError k) end.

(** The writer thread's version reads ["request_type"] of the record too. *)
Definition _do_write_execution (d : db) (data : dict) (now : Z) : res db :=
  let! json := dumps data in
  let! idv := getitem "execution_id" data in
  let! id := id_of idv in
  let! m := (if truthy (dget "request_type" data) then Ok (dget "request_type" data)
             else meta_request_type data) in
  insert (execution_row id json now data (por m (PStr "user_message"))) d.

Definition write_durable (d : db) (data : dict) (now : Z) : res db :=
  let! json := dumps data in
  let! idv := getitem "execution_id" data in
  let! id := id_of idv in
  let! m := meta_request_type data in
  insert (execution_row id json now data (por m (PStr "user_message"))) d.

Definition _do_write_tool_event (d : db) (data : dict) (now : Z) : res db :=
  let! idv := getitem "event_id" data in
  let! id := id_of idv in
  let! json := dumps data in
  insert (tool_row id json now data) d.

(** One row of [write_batch] *)
Definition batch_row (data : dict) (now : Z) : res wal_record :=
  let is_tool := py_eqb (dget "event_type" data) (PStr "tool_call") in
  let! pk := id_of (if is_tool then dget_or "event_id" (PStr "") data
                    else dget_or "execution_id" (PStr "") data) in
  let! json := dumps data in
  let! rt := (if is_tool then Ok PNone
              else let! m := meta_request_type data in Ok (por m (PStr "user_message"))) in
  let r := execution_row pk json now data rt in
  Ok (MkRecord pk json now false None (if is_tool then ev_tool_call else ev_execution)
        (session_id r) (timestamp r) (model_id r) (provider r) (w_user r) (prompt_tokens r)
        (completion_tokens r) (total_tokens r) (latency_ms r) (w_sequence_number r)
        (policy_result r) (if is_tool then dget "execution_id" data else PNone)
        (dget "tool_name" data) (dget "tool_type" data) rt false).

(** [executemany]: a row that does not bind raises; nobody rolls the rows before it back,
    and the next commit on the connection keeps them. *)
Fixpoint executemany (rows : list wal_record) (d : db) : db * res unit :=
  match rows with
  | [] => (d, Ok tt)
  | r :: rows => match insert r d with Ok d => executemany rows d | Raise e => (d, Raise e) end
  end.

(** Every row is built before the first is written. *)
Definition write_batch (d : db) (batch : list dict) (now : Z) : db * res unit :=
  match map_res (fun data => batch_row data now) batch with
  | Ok rows => executemany rows d
  | Raise e => (d, Raise e)
  end.

(** ** Attempts *)

(** [x or None] *)
Definition or_none (o : option string) : option string :=
  match o with Some EmptyString => None | _ => o end.

Definition write_attempt (d : db) (a : attempt) (now : Z) : db :=
  MkDb (wal_records d)
    (insert_attempt (MkAttempt (request_id a) now (a_tenant_id a) (a_path a) (a_disposition a)
                       (a_status_code a) (or_none (a_provider a)) (or_none (a_model_id a))
                       (or_none (a_execution_id a)) (or_none (a_user a)) (or_none (a_reason a)))
       (gateway_attempts d)).

(** ** Delivery state *)

Definition set_delivered (now : Z) (r : wal_record) : wal_record :=
  MkRecord (execution_id r) (record_json r) (created_at r) true (Some now) (w_event_type r)
    (session_id r) (timestamp r) (model_id r) (provider r) (w_user r) (prompt_tokens r)
    (completion_tokens r) (total_tokens r) (latency_ms r) (w_sequence_number r) (policy_result r)
    (parent_execution_id r) (tool_name r) (tool_type r) (request_type r) (dead_letter r).

Definition set_dead (json : string) (now : Z) (r : wal_record) : wal_record :=
  MkRecord (execution_id r) json (created_at r) true (Some now) (w_event_type r)
    (session_id r) (timestamp r) (model_id r) (provider r) (w_user r) (prompt_tokens r)
    (completion_tokens r) (total_tokens r) (latency_ms r) (w_sequence_number r) (policy_result r)
    (parent_execution_id r) (tool_name r) (tool_type r) (request_type r) true.

(** [UPDATE ... WHERE execution_id = ?] *)
Definition update_where (id : string) (f : wal_record -> wal_record) (l : list wal_record)
    : list wal_record :=
  map (fun r => if decide (execution_id r = id) then f r else r) l.

Definition mark_delivered (d : db) (id : string) (now : Z) : db :=
  with_records (update_where id (set_delivered now) (wal_records d)) d.

(** The record with the reason added, where it is a JSON object *)
Definition patched (json reason : string) : string :=
  match loads json with
  | Ok (PDict body) =>
      match dumps (od_set "delivery_error" (PStr reason) body) with Ok s => s | Raise _ => json end
  | Ok _ => json
  | Raise _ => match dumps [("delivery_error", PStr reason)] with Ok s => s | Raise _ => json end
  end.

Definition mark_dead_lettered (d : db) (id : string) (reason : option string) (now : Z) : db :=
  with_records (update_where id (fun r =>
    set_dead (match or_none reason with Some why => patched (record_json r) why | None => record_json r end)
             now r) (wal_records d)) d.

Definition oldest_first (a b : wal_record) : bool := created_at a <=? created_at b.

Definition undelivered (d : db) : list wal_record :=
  isort oldest_first (List.filter (fun r => negb (delivered r)) (wal_records d)).

Definition get_undelivered (d : db) (limit : nat) : list (string * string * Z) :=
  map (fun r => (execution_id r, record_json r, created_at r)) (take limit (undelivered d)).

Definition pending_count (d : db) : Z := count_if (fun r => negb (delivered r)) (wal_records d).

Definition dead_letter_count (d : db) : Z := count_if dead_letter (wal_records d).

(** [oldest_pending_seconds], in nanoseconds *)
Definition oldest_pending (d : db) (now : Z) : option Z :=
  (fun r => now - created_at r) <$> head (undelivered d).

Definition hours (n : Z) : Z := seconds (3600 * n).

Definition purged (now max_age : Z) (r : wal_record) : bool :=
  delivered r && match delivered_at r with Some t => t <? now - hours max_age | None => false end.

Definition purge_delivered (d : db) (max_age now : Z) : db * Z :=
  (with_records (List.filter (fun r => negb (purged now max_age r)) (wal_records d)) d,
   count_if (purged now max_age) (wal_records d)).

Definition purge_attempts (d : db) (max_age now : Z) : db * Z :=
  let old a := a_timestamp a <? now - hours max_age in
  (MkDb (wal_records d) (List.filter (fun a => negb (old a)) (gateway_attempts d)),
   count_if old (gateway_attempts d)).

(** ** The writer thread *)

(** What the enqueue methods put on the queue *)
Inductive work :=
  | WExecution (data : dict)
  | WAttempt (a : attempt)
  | WTool (data : dict).

Definition perform (d : db) (w : work) (now : Z) : res db :=
  match w with
  | WExecution data => _do_write_execution d data now
  | WAttempt a => Ok (write_attempt d a now)
  | WTool data => _do_write_tool_event d data now
  end.

(** [_execute_batch]: a failing item is logged and skipped. *)
Definition _execute_batch (d : db) (batch : list work) (now : Z) : db :=
  foldl (fun d w => match perform d w now with Ok d => d | Raise _ => d end) d batch.

Definition _BATCH_MAX : nat := 50.

(** The log as its users see it: the tables and the queue.  [TThread n] is one
    turn of the writer loop, which takes between 1 and [_BATCH_MAX] items. *)
Record log := MkLog { l_db : db; l_queue : list work }.

Inductive wal_event :=
  | TEnqueue (w : work)
  | TThread (n : nat) (now : Z)
  | TDurable (data : dict) (now : Z)
  | TBatch (batch : list dict) (now : Z)
  | TMark (id : string) (now : Z)
  | TDead (id : string) (reason : option string) (now : Z)
  | TPurge (max_age now : Z)
  | TPurgeAttempts (max_age now : Z).

Definition with_db (d : db) (l : log) : log := MkLog d (l_queue l).

Definition keep {A} (old : A) (r : res A) : A := match r with Ok a => a | Raise _ => old end.

Definition wal_step (l : log) (e : wal_event) : log :=
  match e with
  | TEnqueue w => MkLog (l_db l) (l_queue l ++ [w])
  | TThread n now =>
      let k := Nat.min n _BATCH_MAX in
      MkLog (_execute_batch (l_db l) (take k (l_queue l)) now) (drop k (l_queue l))
  | TDurable data now => with_db (keep (l_db l) (write_durable (l_db l) data now)) l
  | TBatch batch now => with_db (write_batch (l_db l) batch now).1 l
  | TMark id now => with_db (mark_delivered (l_db l) id now) l
  | TDead id reason now => with_db (mark_dead_lettered (l_db l) id reason now) l
  | TPurge a now => with_db (purge_delivered (l_db l) a now).1 l
  | TPurgeAttempts a now => with_db (purge_attempts (l_db l) a now).1 l
  end.

Definition wal_run (l : log) (es : list wal_event) : log := foldl wal_step l es.

(** ** No record is lost before it is delivered *)

Definition acked (id : string) (es : list wal_event) : Prop :=
  exists e, e ∈ es /\ match e with TMark i _ | TDead i _ _ => i = id | _ => False end.

Definition holds (id : string) (d : db) : Prop := exists r, r ∈ wal_records d /\ execution_id r = id.

(** A row that is there undelivered *)
Definition pending (id : string) (d : db) : Prop :=
  exists r, r ∈ wal_records d /\ execution_id r = id /\ delivered r = false.

Lemma insert_pending r d d' id :
  insert r d = Ok d' -> delivered r = false -> pending id d \/ execution_id r = id -> pending id d'.
Proof.
  unfold insert, pending. destruct (forallb _ _); [|done]. intros [= <-] Hr Hp. simpl.
  unfold insert_or_replace. destruct (decide (execution_id r = id)) as [Heq|Hne].
  - exists r. split; [apply elem_of_app; right; by apply list_elem_of_singleton|done].
  - destruct Hp as [(x & Hx & Hid & Hd)|?]; [|done]. exists x. split; [|done].
    apply elem_of_app. left. apply elem_filter. split; [done|].
    apply negb_true_iff, bool_decide_eq_false. congruence.
Qed.

Lemma write_durable_pending d data now d' id :
  write_durable d data now = Ok d' -> pending id d -> pending id d'.
Proof.
  unfold write_durable. intros Hw Hp. repeat (apply res_bind_ok in Hw as (? & ? & Hw)).
  eapply insert_pending; [done|done|by left].
Qed.

Lemma executemany_pending rows id : forall d,
  (forall r, r ∈ rows -> delivered r = false) -> pending id d -> pending id (executemany rows d).1.
Proof.
  induction rows as [|r rows IH]; intros d Hr Hp; [done|]. cbn [executemany].
  destruct (insert r d) as [d1|] eqn:Hi; [|done]. apply IH; [intros x Hx; apply Hr; by right|].
  eapply insert_pending; [done|apply Hr; by left|by left].
Qed.

Lemma batch_row_fresh data now r : batch_row data now = Ok r -> delivered r = false.
Proof. unfold batch_row. intros Hr. repeat (apply res_bind_ok in Hr as (? & ? & Hr)). by injection Hr as <-. Qed.

Lemma batch_rows_fresh batch now rows r :
  map_res (fun data => batch_row data now) batch = Ok rows -> r ∈ rows -> delivered r = false.
Proof.
  intros Hm%map_res_Forall2 Hr.
  apply list_elem_of_lookup in Hr as [i Hi]. destruct (Forall2_lookup_r _ _ _ _ _ Hm Hi) as (x & _ & Hx).
  by eapply batch_row_fresh.
Qed.

Lemma write_batch_pending d batch now id : pending id d -> pending id (write_batch d batch now).1.
Proof.
  unfold write_batch. destruct (map_res _ batch) as [rows|] eqn:Hm; [|done]. apply executemany_pending.
  intros r. by eapply batch_rows_fresh.
Qed.

Lemma perform_pending d w now d' id :
  perform d w now = Ok d' -> pending id d -> pending id d'.
Proof.
  destruct w as [data|a|data]; simpl; intros Hw Hp.
  - unfold _do_write_execution in Hw. repeat (apply res_bind_ok in Hw as (? & ? & Hw)).
    eapply insert_pending; [done|done|by left].
  - by injection Hw as <-.
  - unfold _do_write_tool_event in Hw. repeat (apply res_bind_ok in Hw as (? & ? & Hw)).
    eapply insert_pending; [done|done|by left].
Qed.

Lemma execute_pending batch now id : forall d, pending id d -> pending id (_execute_batch d batch now).
Proof.
  unfold _execute_batch. induction batch as [|w batch IH]; intros d Hp; simpl; [done|].
  apply IH. destruct (perform d w now) eqn:Hw; [|done]. by eapply perform_pending.
Qed.

Lemma update_pending id id' f d :
  id' <> id -> pending id d -> pending id (with_records (update_where id' f (wal_records d)) d).
Proof.
  intros Hne (r & Hr & Hid & Hd). exists r. split; [|done]. simpl.
  apply list_elem_of_fmap. exists r. split; [|done]. by rewrite decide_False by congruence.
Qed.

Lemma step_pending l e id :
  match e with TMark i _ | TDead i _ _ => i <> id | _ => True end ->
  pending id (l_db l) -> pending id (l_db (wal_step l e)).
Proof.
  destruct e as [w|n now|data now|batch now|i now|i reason now|a now|a now]; simpl; intros Hi Hp.
  - done.
  - by apply execute_pending.
  - destruct (write_durable _ _ _) eqn:Hw; [by eapply write_durable_pending|done].
  - by apply write_batch_pending.
  - by apply update_pending.
  - by apply update_pending.
  - destruct Hp as (r & Hr & Hid & Hd). exists r. split; [|done]. apply elem_filter.
    split; [done|]. unfold purged. by rewrite Hd.
  - done.
Qed.

(** C36.  A record is never lost before it is delivered.  From the moment its row
    is pending, whatever else happens -- other writes, rewrites of the same
    record, turns of the writer thread, acknowledgements of other records,
    purges -- the row stays pending until an event marks that very record as
    delivered or dead-lettered. *)
Theorem pending_until_acked l es id :
  pending id (l_db l) -> ~ acked id es -> pending id (l_db (wal_run l es)).
Proof.
  unfold wal_run. revert l. induction es as [|e es IH]; intros l Hp Ha; simpl; [done|].
  apply IH.
  - apply step_pending; [|done]. destruct e; try done; intros ->; apply Ha; eexists; (split; [by left|done]).
  - intros (e' & He & Hm). apply Ha. exists e'. split; [by right|done].
Qed.

(** ** The undelivered query *)

Lemma oldest_first_total a b : oldest_first a b = false -> oldest_first b a = true.
Proof. unfold oldest_first. intros. zbool. apply Z.leb_le. lia. Qed.

Lemma oldest_first_trans a b c : oldest_first a b = true -> oldest_first b c = true -> oldest_first a c = true.
Proof. unfold oldest_first. intros. zbool. apply Z.leb_le. lia. Qed.

Lemma undelivered_elem d r : r ∈ undelivered d <-> r ∈ wal_records d /\ delivered r = false.
Proof. unfold undelivered. rewrite isort_perm, elem_filter, negb_true_iff. done. Qed.

Lemma undelivered_length d : zlen (undelivered d) = pending_count d.
Proof. unfold pending_count, count_if, zlen, undelivered. by rewrite isort_perm. Qed.

Lemma ordered_take {A} (le : A -> A -> bool) n l : ordered le l -> ordered le (take n l).
Proof.
  intros Ho. revert n. induction Ho as [|x l Hx Hl IH]; intros [|n]; simpl; constructor; [|done].
  intros y Hy. apply Hx. eapply elem_of_take in Hy as (i & Hi & _). by eapply list_elem_of_lookup_2.
Qed.

(**  The undelivered query is complete and ordered.  It returns pending
    rows only, oldest first, as many as the limit allows, and all of them when
    the limit is not below [pending_count]. *)
Theorem get_undelivered_exact d limit :
  let rows := get_undelivered d limit in
  (forall x, x ∈ rows -> pending x.1.1 d) /\
  ordered (fun a b => a.2 <=? b.2) rows /\
  zlen rows = Z.min (Z.of_nat limit) (pending_count d) /\
  (pending_count d <= Z.of_nat limit ->
   forall id, pending id d -> exists x, x ∈ rows /\ x.1.1 = id).
Proof.
  unfold get_undelivered. cbv zeta. split_and!.
  - intros x (r & -> & Hr)%list_elem_of_fmap. apply elem_of_take in Hr as (i & Hi & _).
    apply list_elem_of_lookup_2, undelivered_elem in Hi as [Hr Hd]. by exists r.
  - apply (ordered_map (fun a b => a.2 <=? b.2)), ordered_take.
    apply (isort_ordered oldest_first oldest_first_total oldest_first_trans).
  - rewrite <- undelivered_length. unfold zlen. rewrite length_map, length_take. lia.
  - intros Hle id (r & Hr & Hid & Hd). exists (execution_id r, record_json r, created_at r).
    split; [|done]. apply list_elem_of_fmap. exists r. split; [done|].
    rewrite <- undelivered_length in Hle. unfold zlen in Hle. rewrite take_ge by lia.
    by apply undelivered_elem.
Qed.

(** ** Marking changes only the marked row *)

Lemma filter_update_where id f l :
  (forall r, delivered (f r) = true) ->
  List.filter (fun r => negb (delivered r)) (update_where id f l) =
  List.filter (fun r => negb (bool_decide (execution_id r = id)))
    (List.filter (fun r => negb (delivered r)) l).
Proof.
  intros Hf. induction l as [|r l IH]; simpl; [done|]. rewrite IH. case_decide as Hd.
  - rewrite Hf. simpl. destruct (delivered r); simpl; [done|]. by rewrite bool_decide_true.
  - destruct (delivered r); simpl; [done|]. by rewrite bool_decide_false.
Qed.

Lemma undelivered_update id f d :
  (forall r, delivered (f r) = true) ->
  undelivered (with_records (update_where id f (wal_records d)) d) =
  List.filter (fun r => negb (bool_decide (execution_id r = id))) (undelivered d).
Proof.
  intros Hf. unfold undelivered. simpl. rewrite filter_update_where by done.
  apply isort_filter; [apply oldest_first_total|apply oldest_first_trans].
Qed.

End writer.

(** ** Delivery works on this interface *)

(** The undelivered rows, oldest first, as ids and JSON texts *)
Class WalStore (W : Type) := {
  ws_undelivered : W -> list (string * string);
  ws_mark_delivered : W -> string -> Z -> W;
  ws_mark_dead_lettered : W -> string -> string -> Z -> W;
}.

Definition without (id : string) (l : list (string * string)) : list (string * string) :=
  List.filter (fun x => negb (bool_decide (x.1 = id))) l.

Class WalStoreLaws (W : Type) `{WalStore W} := {
  ws_mark_law w id now : ws_undelivered (ws_mark_delivered w id now) = without id (ws_undelivered w);
  ws_dead_law w id why now :
    ws_undelivered (ws_mark_dead_lettered w id why now) = without id (ws_undelivered w);
}.

#[global] Instance db_store `{Json} : WalStore db := {
  ws_undelivered d := map (fun r => (execution_id r, record_json r)) (undelivered d);
  ws_mark_delivered := mark_delivered;
  ws_mark_dead_lettered d id why now := mark_dead_lettered d id (Some why) now;
}.

Lemma map_without id l :
  map (fun r => (execution_id r, record_json r))
    (List.filter (fun r => negb (bool_decide (execution_id r = id))) l) =
  without id (map (fun r => (execution_id r, record_json r)) l).
Proof.
  unfold without. induction l as [|r l IH]; simpl; [done|].
  destruct (bool_decide (execution_id r = id)); simpl; [done|]. by f_equal.
Qed.

#[global] Instance db_store_laws `{Json} : WalStoreLaws db.
Proof.
  constructor; intros; simpl; unfold mark_delivered, mark_dead_lettered;
    rewrite undelivered_update by done; apply map_without.
Qed.

(** ** Runs *)
Module WalRuns.

(** JSON text standing in: the execution id of the object *)
#[export] Instance id_json : Json := {
  dumps d := match dget "execution_id" d with PStr s => Ok s | _ => Ok "{}" end;
  loads s := Ok (PDict [("execution_id", PStr s)]);
}.

Definition rec (id : string) : dict := [("execution_id", PStr id); ("session_id", PStr "s")].

Definition started : log := wal_run (MkLog empty_db []) [TEnqueue (WExecution (rec "e1")); TThread 1 10].

Definition later : list wal_event :=
  [TEnqueue (WExecution (rec "e2")); TPurge 0 20; TThread 7 30; TMark "e2" 40; TPurge 0 50;
   TDurable (rec "e1") 60].

Lemma pending_until_acked_witness :
  pending "e1" (l_db started) /\ pending "e1" (l_db (wal_run started later)).
Proof.
  assert (pending "e1" (l_db started)) as Hp.
  { vm_compute. eexists. split; [by left|]. by split. }
  split; [exact Hp|]. apply (pending_until_acked started later "e1" Hp).
  intros (e & He & Hm). unfold later in He.
  repeat (apply elem_of_cons in He as [->|He]; [done|]). by apply not_elem_of_nil in He.
Defined.

(**  An acknowledgement that overtakes the writer thread is lost.  The
    router marks a record delivered as soon as Walacor confirms it; when the
    writer thread inserts the row only afterwards, the row is pending although
    it was acknowledged, and will be sent again. *)
Theorem early_ack_is_lost :
  let es := [TEnqueue (WExecution (rec "e1")); TMark "e1" 10; TThread 1 20] in
  acked "e1" es /\ pending "e1" (l_db (wal_run (MkLog empty_db []) es)) /\
  pending_count (l_db (wal_run (MkLog empty_db []) es)) = 1.
Proof.
  split; [exists (TMark "e1" 10); split; [right; by left|done]|].
  split; [|vm_compute; reflexivity]. vm_compute. eexists. split; [by left|]. by split.
Qed.
End WalRuns.
