(* ===== verification/Delivery.v ===== *)
(** * Background delivery (wal/delivery_worker.py)

    The two batch drainers, the per-record retry counter with its dead-letter
    promotion, and the loop's backoff, over any [WalStore].  The sink, the
    existence probe and the control plane's answers are arguments; HTTP headers,
    metrics, logging and task cancellation are not modelled. *)
From S2P Require Import Prelude ODict PyVal Wal.

Local Open Scope Z_scope.

Definition _INITIAL_BACKOFF : Z := seconds 1.
Definition _MAX_BACKOFF : Z := seconds 60.
Definition _PURGE_CYCLE : Z := 60.

(** The parts of the worker that change, and its three settings *)
Record worker := MkWorker {
  _batch_size : nat;
  _max_retries : Z;
  _batch_error_budget : Z;
  _attempt_counts : gmap string Z;
  _dlq_count : Z;
}.

Definition with_counts (m : gmap string Z) (d : Z) (k : worker) : worker :=
  MkWorker (_batch_size k) (_max_retries k) (_batch_error_budget k) m d.

(** [_attempt_counts.pop(id, None)] *)
Definition forget (id : string) (k : worker) : worker :=
  with_counts (delete id (_attempt_counts k)) (_dlq_count k) k.

(** What a write to the sink gives *)
Inductive sink_result := Accepted | AcceptedNone | Refused | SinkRaised.

(** What a POST to the control plane gives *)
Inductive post_result := Status (code : Z) (text : string) | PostRaised (msg : string).

Section delivery.
Context `{Json} {W : Type} `{WalStore W}.

(** [_record_transient_failure]: whether the record was promoted *)
Definition _record_transient_failure (w : W) (k : worker) (id reason : string) (now : Z)
    : W * worker * bool :=
  let attempts := default 0 (_attempt_counts k !! id) + 1 in
  let k := with_counts (<[id := attempts]> (_attempt_counts k)) (_dlq_count k) k in
  if attempts <? _max_retries k then (w, k, false)
  else
    let why := ("retries exhausted (" +:+ z_str attempts +:+ "/" +:+ z_str (_max_retries k) +:+
                "): " +:+ reason)%string in
    (ws_mark_dead_lettered w id (String.substring 0 512 why) now,
     with_counts (delete id (_attempt_counts k)) (_dlq_count k + 1) k, true).

(** A record that will never be accepted goes to the dead letters at once. *)
Definition park (w : W) (k : worker) (id reason : string) (now : Z) : W * worker :=
  (ws_mark_dead_lettered w id reason now,
   with_counts (delete id (_attempt_counts k)) (_dlq_count k + 1) k).

Definition deliver (w : W) (k : worker) (id : string) (now : Z) : W * worker :=
  (ws_mark_delivered w id now, forget id k).

(** ** Draining to the Walacor sink *)

(** [sink body] is the write, [probe key] the existence probe, [None] when
    the sink has no probe; a probe that raises counts as absent. *)
Record walacor := MkWalacor {
  sink : dict -> sink_result;
  probe : option (bool -> string -> res bool);
}.

Definition is_tool_event (body : dict) : bool := py_eqb (dget "event_type" body) (PStr "tool_call").

Definition sink_ok (s : walacor) (body : dict) : bool :=
  match sink s body with Accepted | AcceptedNone => true | Refused | SinkRaised => false end.

Definition already_there (s : walacor) (body : dict) : bool :=
  let key := if is_tool_event body then dget "event_id" body else dget "record_id" body in
  match probe s, key with
  | Some p, PStr (String _ _ as id) =>
      match p (is_tool_event body) id with Ok b => b | Raise _ => false end
  | _, _ => false
  end.

(** The loop over the rows, from [batch_errors] on.  A body that is valid JSON
    but not an object has no [get]: the exception leaves the batch. *)
Fixpoint walacor_loop (s : walacor) (now : Z) (rows : list (string * string)) (w : W) (k : worker)
    (batch_errors : Z) : W * worker * res bool :=
  match rows with
  | [] => (w, k, Ok (_batch_error_budget k <=? batch_errors))
  | (id, json) :: rows =>
      match loads json with
      | Raise _ =>
          let '(w, k) := park w k id "invalid record_json" now in
          walacor_loop s now rows w k batch_errors
      | Ok (PDict body) =>
          if sink_ok s body || already_there s body then
            let '(w, k) := deliver w k id now in walacor_loop s now rows w k batch_errors
          else
            let '(w, k, _) := _record_transient_failure w k id "walacor sink write failed" now in
            let batch_errors := batch_errors + 1 in
            if _batch_error_budget k <=? batch_errors then (w, k, Ok true)
            else walacor_loop s now rows w k batch_errors
      | Ok _ => (w, k, Raise (OtherError "AttributeError: get"))
      end
  end.

Definition _deliver_batch_walacor (s : walacor) (now : Z) (w : W) (k : worker)
    : W * worker * res bool :=
  match take (_batch_size k) (ws_undelivered w) with
  | [] => (w, k, Ok false)
  | rows => walacor_loop s now rows w k 0
  end.

(** ** Posting to the control plane *)

(** Unparseable JSON and transport errors reach the same handler. *)
Definition post_outcome (post : pyval -> post_result) (json : string) : post_result :=
  match loads json with Ok body => post body | Raise _ => PostRaised "json" end.

Fixpoint control_loop (post : pyval -> post_result) (now : Z) (rows : list (string * string))
    (w : W) (k : worker) (batch_errors : Z) : W * worker * bool :=
  match rows with
  | [] => (w, k, _batch_error_budget k <=? batch_errors)
  | (id, json) :: rows =>
      let failed reason :=
        let '(w, k, _) := _record_transient_failure w k id reason now in
        let batch_errors := batch_errors + 1 in
        if _batch_error_budget k <=? batch_errors then (w, k, true)
        else control_loop post now rows w k batch_errors in
      match post_outcome post json with
      | Status c text =>
          if (c =? 200) || (c =? 201) || (c =? 409) then
            let '(w, k) := deliver w k id now in control_loop post now rows w k batch_errors
          else if (400 <=? c) && (c <? 500) then
            let '(w, k) := park w k id ("HTTP " +:+ z_str c +:+ ": " +:+ String.substring 0 200 text)%string now in
            control_loop post now rows w k batch_errors
          else failed ("HTTP " +:+ z_str c)%string
      | PostRaised msg => failed msg
      end
  end.

Definition _deliver_batch (post : pyval -> post_result) (now : Z) (w : W) (k : worker)
    : W * worker * bool :=
  control_loop post now (take (_batch_size k) (ws_undelivered w)) w k 0.

(** ** The loop *)

(** What one turn of [_loop] sleeps before the poll interval, and the backoff
    and cycle count after it; [None]: the batch raised. *)
Definition backoff_step (backoff cycles : Z) (unhealthy : option bool) : Z * Z * Z :=
  match unhealthy with
  | Some true => (backoff, Z.min (backoff * 2) _MAX_BACKOFF, cycles + 1)
  | Some false => (0, _INITIAL_BACKOFF, cycles + 1)
  | None => (backoff, Z.min (backoff * 2) _MAX_BACKOFF, cycles)
  end.

Fixpoint backoff_run (backoff cycles : Z) (outcomes : list (option bool)) : list Z * (Z * Z) :=
  match outcomes with
  | [] => ([], (backoff, cycles))
  | o :: outcomes =>
      let '(slept, backoff, cycles) := backoff_step backoff cycles o in
      let '(l, r) := backoff_run backoff cycles outcomes in (slept :: l, r)
  end.

Lemma backoff_bounds outcomes : forall backoff cycles,
  _INITIAL_BACKOFF <= backoff <= _MAX_BACKOFF ->
  Forall (fun s => 0 <= s <= _MAX_BACKOFF) (backoff_run backoff cycles outcomes).1 /\
  _INITIAL_BACKOFF <= (backoff_run backoff cycles outcomes).2.1 <= _MAX_BACKOFF.
Proof.
  induction outcomes as [|o os IH]; intros backoff cycles Hb; simpl; [by split; [constructor|]|].
  unfold backoff_step. destruct o as [[]|].
  - specialize (IH (Z.min (backoff * 2) _MAX_BACKOFF) (cycles + 1)).
    destruct (backoff_run _ _ os) as [l r]. simpl in *.
    destruct IH as [Hl Hr]; [unfold _INITIAL_BACKOFF, _MAX_BACKOFF, seconds in *; lia|].
    split; [|done]. constructor; [|done]. unfold _INITIAL_BACKOFF, seconds in *. lia.
  - specialize (IH _INITIAL_BACKOFF (cycles + 1)).
    destruct (backoff_run _ _ os) as [l r]. simpl in *.
    destruct IH as [Hl Hr]; [unfold _INITIAL_BACKOFF, _MAX_BACKOFF, seconds; lia|].
    split; [|done]. constructor; [|done]. unfold _MAX_BACKOFF, seconds. lia.
  - specialize (IH (Z.min (backoff * 2) _MAX_BACKOFF) cycles).
    destruct (backoff_run _ _ os) as [l r]. simpl in *.
    destruct IH as [Hl Hr]; [unfold _INITIAL_BACKOFF, _MAX_BACKOFF, seconds in *; lia|].
    split; [|done]. constructor; [|done]. unfold _INITIAL_BACKOFF, seconds in *. lia.
Qed.

(** ** Correctness over any store *)

Context {L : WalStoreLaws W}.

(** Why a record may leave the queue in a batch *)
Definition accounted (s : walacor) (json : string) : Prop :=
  (exists body, loads json = Ok (PDict body) /\ (sink_ok s body = true \/ already_there s body = true)) \/
  (exists e, loads json = Raise e).

Lemma without_elem id l x : x ∈ without id l <-> x ∈ l /\ x.1 <> id.
Proof.
  unfold without. rewrite !list_elem_of_In, List.filter_In, negb_true_iff, bool_decide_eq_false. done.
Qed.

Lemma transient_spec w k id reason now w' k' p :
  _record_transient_failure w k id reason now = (w', k', p) ->
  _batch_size k' = _batch_size k /\ _max_retries k' = _max_retries k /\
  _batch_error_budget k' = _batch_error_budget k /\
  (forall id', id' <> id -> _attempt_counts k' !! id' = _attempt_counts k !! id') /\
  if p then ws_undelivered w' = without id (ws_undelivered w) /\
            _max_retries k <= default 0 (_attempt_counts k !! id) + 1 /\
            _attempt_counts k' !! id = None /\ _dlq_count k' = _dlq_count k + 1
  else w' = w /\ _attempt_counts k' !! id = Some (default 0 (_attempt_counts k !! id) + 1) /\
       default 0 (_attempt_counts k !! id) + 1 < _max_retries k /\ _dlq_count k' = _dlq_count k.
Proof.
  unfold _record_transient_failure. destruct (_ <? _) eqn:Hlt; simpl in Hlt; intros [= <- <- <-]; zbool; simpl.
  - rewrite lookup_insert_eq. split_and!; try done. intros. by rewrite lookup_insert_ne.
  - rewrite lookup_delete_eq, ws_dead_law. split_and!; try done.
    intros. rewrite lookup_delete_ne by done. by rewrite lookup_insert_ne.
Qed.

(** Retry counters stay below the limit. *)
Definition counts_ok (k : worker) : Prop :=
  forall id n, _attempt_counts k !! id = Some n -> 1 <= n < Z.max 1 (_max_retries k).

Lemma counts_delete id k d : counts_ok k -> counts_ok (with_counts (delete id (_attempt_counts k)) d k).
Proof. intros Hk id' n. simpl. rewrite lookup_delete_Some. intros [_ ?]. by apply (Hk id'). Qed.

Lemma transient_counts w k id reason now w' k' p :
  counts_ok k -> _record_transient_failure w k id reason now = (w', k', p) -> counts_ok k'.
Proof.
  intros Hk Ht. destruct (transient_spec _ _ _ _ _ _ _ _ Ht) as (_ & Hm & _ & Ho & Hp).
  intros id' n. rewrite Hm. destruct (decide (id' = id)) as [->|Hne].
  - destruct p; [by destruct Hp as (_ & _ & -> & _)|]. destruct Hp as (_ & -> & Hlt & _).
    intros [= <-]. destruct (_attempt_counts k !! id) as [m|] eqn:Hc; simpl in *; [|lia].
    apply Hk in Hc. lia.
  - rewrite Ho by done. apply Hk.
Qed.

(** What the handling of row [id] does to the rest *)
Record handled (id : string) (w : W) (k : worker) (w' : W) (k' : worker) : Prop := {
  h_counts : counts_ok k -> counts_ok k';
  h_size : _batch_size k' = _batch_size k;
  h_retries : _max_retries k' = _max_retries k;
  h_budget : _batch_error_budget k' = _batch_error_budget k;
  h_other : forall id', id' <> id -> _attempt_counts k' !! id' = _attempt_counts k !! id';
  h_rows : ws_undelivered w' = ws_undelivered w \/ ws_undelivered w' = without id (ws_undelivered w);
}.

Lemma park_handled w k id reason now :
  handled id w k (park w k id reason now).1 (park w k id reason now).2.
Proof.
  constructor; simpl; try done; [by apply counts_delete| |right; apply ws_dead_law].
  intros. by rewrite lookup_delete_ne.
Qed.

Lemma deliver_handled w k id now : handled id w k (deliver w k id now).1 (deliver w k id now).2.
Proof.
  constructor; simpl; try done; [by apply counts_delete| |right; apply ws_mark_law].
  intros. by rewrite lookup_delete_ne.
Qed.

Lemma transient_handled w k id reason now w' k' p :
  _record_transient_failure w k id reason now = (w', k', p) -> handled id w k w' k'.
Proof.
  intros Ht. destruct (transient_spec _ _ _ _ _ _ _ _ Ht) as (? & ? & ? & ? & Hp).
  constructor; try done; [by intros; eapply transient_counts|].
  destruct p; [by right; destruct Hp|left]. by destruct Hp as [-> _].
Qed.

Lemma handled_subset id w k w' k' x :
  handled id w k w' k' -> x ∈ ws_undelivered w' -> x ∈ ws_undelivered w.
Proof. intros [_ _ _ _ _ [->| ->]]; [done|]. by rewrite without_elem; intros [? _]. Qed.

Lemma handled_removed id w k w' k' x :
  handled id w k w' k' -> x ∈ ws_undelivered w -> x ∉ ws_undelivered w' -> x.1 = id.
Proof.
  intros [_ _ _ _ _ [->| ->]] Hx Hn; [done|]. destruct (decide (x.1 = id)) as [|Hne]; [done|].
  exfalso. apply Hn. by apply without_elem.
Qed.

(** [cause k json id]: why the row [id] could leave the queue *)
Definition cause (s : walacor) (k : worker) (id json : string) : Prop :=
  accounted s json \/ _max_retries k <= default 0 (_attempt_counts k !! id) + 1.

(** The guarantee of a run of the loop over [rows] *)
Definition safe_run (s : walacor) (rows : list (string * string)) (w : W) (k : worker) (w' : W)
    (k' : worker) : Prop :=
  (counts_ok k -> counts_ok k') /\ _max_retries k' = _max_retries k /\
  _batch_size k' = _batch_size k /\ _batch_error_budget k' = _batch_error_budget k /\
  (forall x, x ∈ ws_undelivered w' -> x ∈ ws_undelivered w) /\
  forall x, x ∈ ws_undelivered w -> x ∉ ws_undelivered w' ->
    exists json, (x.1, json) ∈ rows /\ cause s k x.1 json.

Lemma safe_nil s rows w k : safe_run s rows w k w k.
Proof. unfold safe_run. split_and!; try done. Qed.

Lemma safe_step s id json rows w k w1 k1 w' k' :
  NoDup ((id, json) :: rows).*1 ->
  handled id w k w1 k1 -> (ws_undelivered w1 <> ws_undelivered w -> cause s k id json) ->
  safe_run s rows w1 k1 w' k' -> safe_run s ((id, json) :: rows) w k w' k'.
Proof.
  intros Hnd Hh Hc (H1 & H2 & H3 & H4 & H5 & H6). pose proof Hh as [Hco Hsz Hre Hbu Hot Hro].
  unfold safe_run. rewrite H2, H3, H4, Hsz, Hre, Hbu. split_and!; auto.
  - intros x Hx. eapply handled_subset; eauto.
  - intros x Hx Hn. destruct (decide (x ∈ ws_undelivered w1)) as [Hin|Hout].
    + destruct (H6 x Hin Hn) as (j & Hj & Hcj). exists j. split; [by right|].
      destruct Hcj as [?|Hcj]; [by left|right]. rewrite Hre in Hcj. rewrite Hot in Hcj; [done|].
      intros Hxi. simpl in Hnd. apply NoDup_cons in Hnd as [Hni _]. apply Hni.
      apply list_elem_of_fmap. by exists (x.1, j).
    + pose proof (handled_removed _ _ _ _ _ _ Hh Hx Hout) as Hid. exists json.
      rewrite Hid. split; [by left|]. apply Hc. intros Heq. apply Hout. by rewrite Heq.
Qed.

Lemma safe_stop s id json rows w k w1 k1 :
  handled id w k w1 k1 -> (ws_undelivered w1 <> ws_undelivered w -> cause s k id json) ->
  safe_run s ((id, json) :: rows) w k w1 k1.
Proof.
  intros Hh Hc. pose proof Hh as [Hco Hsz Hre Hbu Hot Hro]. unfold safe_run. split_and!; auto.
  - intros x. by apply (handled_subset id w k w1 k1).
  - intros x Hx Hn. exists json. rewrite (handled_removed _ _ _ _ _ _ Hh Hx Hn).
    split; [by left|]. apply Hc. intros Heq. apply Hn. by rewrite Heq.
Qed.

Lemma walacor_loop_safe s now rows : forall w k n w' k' r,
  NoDup rows.*1 -> walacor_loop s now rows w k n = (w', k', r) -> safe_run s rows w k w' k'.
Proof.
  induction rows as [|[id json] rows IH]; intros w k n w' k' r Hnd Hr; simpl in Hr.
  { injection Hr as <- <- <-. apply safe_nil. }
  assert (NoDup rows.*1) as Hnd' by (simpl in Hnd; by apply NoDup_cons in Hnd as [_ ?]).
  destruct (loads json) as [v|e] eqn:Hj.
  - destruct v as [| | | | | |body|]; try by (injection Hr as <- <- <-; apply safe_nil).
    destruct (sink_ok s body || already_there s body) eqn:Hok.
    + eapply safe_step; [done|apply deliver_handled| |eapply IH; [done|exact Hr]].
      intros _. left. left. exists body. split; [done|]. by apply orb_true_iff.
    + destruct (_record_transient_failure w k id _ now) as [[w1 k1] p] eqn:Ht.
      pose proof (transient_handled _ _ _ _ _ _ _ _ Ht) as Hh.
      assert (ws_undelivered w1 <> ws_undelivered w -> cause s k id json) as Hc.
      { intros Hne. right. destruct (transient_spec _ _ _ _ _ _ _ _ Ht) as (_ & _ & _ & _ & Hp).
        destruct p; [by destruct Hp as (_ & ? & _)|]. by destruct Hp as [-> _]. }
      destruct (_batch_error_budget k1 <=? n + 1).
      * injection Hr as <- <- <-. by apply safe_stop.
      * eapply safe_step; [done|done|done|eapply IH; [done|exact Hr]].
  - eapply safe_step; [done|apply park_handled| |eapply IH; [done|exact Hr]]. intros _. left. right. eauto.
Qed.

(**  Nothing is dropped silently.  In a batch, however the sink and the
    probe behave, no row appears and every row that leaves the undelivered queue
    was accepted by the sink, found already present by the probe, not parseable,
    or had used up its retries; no retry counter reaches the limit. *)
Theorem walacor_batch_accounts s now w k w' k' r :
  NoDup (ws_undelivered w).*1 -> counts_ok k ->
  _deliver_batch_walacor s now w k = (w', k', r) ->
  counts_ok k' /\
  (forall x, x ∈ ws_undelivered w' -> x ∈ ws_undelivered w) /\
  forall x, x ∈ ws_undelivered w -> x ∉ ws_undelivered w' -> cause s k x.1 x.2.
Proof.
  intros Hnd Hk Hb. unfold _deliver_batch_walacor in Hb.
  set (rows := take (_batch_size k) (ws_undelivered w)) in *.
  assert (NoDup rows.*1) as Hndr.
  { unfold rows. rewrite <- (take_drop (_batch_size k) (ws_undelivered w)), fmap_app in Hnd.
    by apply NoDup_app in Hnd as [? _]. }
  assert (safe_run s rows w k w' k') as (H1 & _ & _ & _ & H5 & H6).
  { destruct rows as [|row rows'].
    - injection Hb as <- <- <-. apply safe_nil.
    - by eapply walacor_loop_safe. }
  split; [auto|]. split; [done|]. intros x Hx Hn. destruct (H6 x Hx Hn) as (j & Hj & Hc).
  assert ((x.1, j) ∈ ws_undelivered w) as Hin.
  { unfold rows in Hj. apply elem_of_take in Hj as (i & Hi & _). by eapply list_elem_of_lookup_2. }
  assert (j = x.2) as <-; [|done].
  clear -Hnd Hx Hin. destruct x as [id y]. simpl in *.
  induction (ws_undelivered w) as [|[a b] l IH]; [by apply not_elem_of_nil in Hx|].
  simpl in Hnd. apply NoDup_cons in Hnd as [Hni Hnd].
  apply elem_of_cons in Hx as [Hx|Hx]; apply elem_of_cons in Hin as [Hin|Hin]; simplify_eq; auto.
  - exfalso. apply Hni, list_elem_of_fmap. by eexists (_, _).
  - exfalso. apply Hni, list_elem_of_fmap. by eexists (_, _).
Qed.

(** ** A healthy sink drains the log *)

Lemma without_notin id l : id ∉ l.*1 -> without id l = l.
Proof.
  unfold without. induction l as [|[a b] l IH]; simpl; [done|]. intros Hn.
  apply not_elem_of_cons in Hn as [Hne Hn]. rewrite bool_decide_false by done. simpl. by rewrite IH.
Qed.

Lemma walacor_loop_drains s now rows : forall w k rest,
  (forall x, x ∈ rows -> exists body, loads x.2 = Ok (PDict body) /\ sink_ok s body = true) ->
  ws_undelivered w = rows ++ rest -> NoDup (rows ++ rest).*1 -> 0 < _batch_error_budget k ->
  exists w' k', walacor_loop s now rows w k 0 = (w', k', Ok false) /\ ws_undelivered w' = rest /\
    _batch_size k' = _batch_size k /\ _batch_error_budget k' = _batch_error_budget k.
Proof.
  induction rows as [|[id json] rows IH]; intros w k rest Hs Hw Hnd Hb; simpl.
  { rewrite (proj2 (Z.leb_gt _ _)) by done. by exists w, k. }
  destruct (Hs (id, json)) as (body & Hj & Hok); [by left|]. simpl in Hj. rewrite Hj, Hok. simpl.
  simpl in Hnd. apply NoDup_cons in Hnd as [Hni Hnd].
  destruct (IH (ws_mark_delivered w id now) (forget id k) rest) as (w' & k' & Hr & Hu & Hz & Hbu); try done.
  - intros x Hx. apply Hs. by right.
  - rewrite ws_mark_law, Hw. unfold without. simpl. rewrite bool_decide_true by done. simpl.
    by apply without_notin.
  - exists w', k'. by rewrite Hr.
Qed.

(** [n] cycles of the loop *)
Fixpoint cycles (s : walacor) (now : Z) (n : nat) (w : W) (k : worker) : W * worker :=
  match n with
  | O => (w, k)
  | S n => let '(w, k, _) := _deliver_batch_walacor s now w k in cycles s now n w k
  end.

(**  With a working sink everything is delivered.  When the sink accepts
    every undelivered record, [n] cycles empty the queue as soon as [n] batches
    cover it. *)
Theorem walacor_drains s now n : forall w k,
  (forall x, x ∈ ws_undelivered w -> exists body, loads x.2 = Ok (PDict body) /\ sink_ok s body = true) ->
  NoDup (ws_undelivered w).*1 -> 0 < _batch_error_budget k ->
  (length (ws_undelivered w) <= n * _batch_size k)%nat ->
  ws_undelivered (cycles s now n w k).1 = [].
Proof.
  induction n as [|n IH]; intros w k Hs Hnd Hb Hlen; simpl in *.
  { by apply nil_length_inv; lia. }
  set (rows := take (_batch_size k) (ws_undelivered w)).
  set (rest := drop (_batch_size k) (ws_undelivered w)).
  assert (ws_undelivered w = rows ++ rest) as Hsplit
    by (unfold rows, rest; by rewrite take_drop).
  assert (exists w' k', _deliver_batch_walacor s now w k = (w', k', Ok false) /\
            ws_undelivered w' = rest /\ _batch_size k' = _batch_size k /\
            _batch_error_budget k' = _batch_error_budget k) as (w' & k' & Hd & Hu & Hz & Hbu).
  { unfold _deliver_batch_walacor. fold rows.
    assert (exists w' k', walacor_loop s now rows w k 0 = (w', k', Ok false) /\ ws_undelivered w' = rest /\
      _batch_size k' = _batch_size k /\ _batch_error_budget k' = _batch_error_budget k) as Hl.
    { apply walacor_loop_drains; try done; [|by rewrite <- Hsplit].
      intros x Hx. apply Hs. rewrite Hsplit. apply elem_of_app. by left. }
    destruct rows as [|row rows'] eqn:Hrows; [|done].
    exists w, k. rewrite Hsplit. done. }
  rewrite Hd. apply IH.
  - intros x Hx. apply Hs. rewrite Hsplit, <- Hu. apply elem_of_app. by right.
  - rewrite Hu. rewrite Hsplit, fmap_app in Hnd. by apply NoDup_app in Hnd as (_ & _ & ?).
  - by rewrite Hbu.
  - rewrite Hu, Hz. unfold rest. rewrite length_drop. lia.
Qed.

End delivery.

(** ** Runs on the SQLite log *)
Module DeliveryRuns.
Import WalRuns.

Definition k0 : worker := MkWorker 2 10 5 ∅ 0.

Definition log3 : db :=
  l_db (wal_run (MkLog empty_db [])
    [TDurable (rec "e1") 10; TDurable (rec "e2") 20; TDurable (rec "e3") 30]).

Definition up : walacor := MkWalacor (fun _ => Accepted) None.

(** Refuses e1, accepts the rest. *)
Definition picky : walacor :=
  MkWalacor (fun b => if py_eqb (dget "execution_id" b) (PStr "e1") then Refused else Accepted) None.

Lemma log3_nodup : NoDup (ws_undelivered log3).*1.
Proof. apply (bool_decide_unpack _). vm_compute. exact I. Qed.

Lemma walacor_batch_accounts_witness :
  (_deliver_batch_walacor picky 40 log3 k0).2 = Ok false /\
  ws_undelivered (_deliver_batch_walacor picky 40 log3 k0).1.1 = [("e1", "e1"); ("e3", "e3")] /\
  cause picky k0 "e2" "e2".
Proof.
  split; [vm_compute; reflexivity|]. split; [vm_compute; reflexivity|].
  refine (proj2 (proj2 (walacor_batch_accounts picky 40 log3 k0
    (_deliver_batch_walacor picky 40 log3 k0).1.1 (_deliver_batch_walacor picky 40 log3 k0).1.2
    (_deliver_batch_walacor picky 40 log3 k0).2 log3_nodup _ _)) ("e2", "e2") _ _).
  - intros id n. simpl. by rewrite lookup_empty.
  - by destruct (_deliver_batch_walacor picky 40 log3 k0) as [[? ?] ?].
  - apply (bool_decide_unpack _). vm_compute. exact I.
  - apply (bool_decide_unpack _). vm_compute. exact I.
Defined.

Lemma walacor_drains_witness :
  length (ws_undelivered log3) = 3%nat /\ ws_undelivered (cycles up 40 2 log3 k0).1 = [].
Proof.
  split; [vm_compute; reflexivity|]. apply (walacor_drains up 40 2 log3 k0).
  - intros [i j] _. simpl. eexists. split; reflexivity.
  - exact log3_nodup.
  - reflexivity.
  - vm_compute. lia.
Defined.
End DeliveryRuns.
