(* ===== verification/Auth.v ===== *)
(** * Authentication and caller identity

    auth/api_key.py, auth/jwt_auth.py, auth/identity.py,
    adaptive/identity_validator.py, and the two gates of main.py that stand
    before every handler, [body_size_middleware] and [api_key_middleware].  Header
    names are lower case, as Starlette compares them.  Decoding a token
    (PyJWT), fetching a signing key (JWKS), hashing and IP networks are arguments.
    The cache of JWKS clients and logging are not modelled. *)
From S2P Require Import Prelude ODict PyVal RateLimit.

Local Open Scope Z_scope.

Record request := MkRequest {
  path : string;
  headers : list (string * string);
  client : option string;    (** [request.client.host] *)
}.

(** [request.headers.get(k)] *)
Definition header (k : string) (r : request) : option string := od_get k (headers r).

(** [(request.headers.get(k) or "").strip()] *)
Definition header_text (k : string) (r : request) : string := strip (default "" (header k r)).

(** [s or None] *)
Definition nonempty (s : string) : option string :=
  match s with EmptyString => None | _ => Some s end.

(** [a or b] *)
Definition sor (a b : string) : string := match a with EmptyString => b | _ => a end.

(** ** API keys *)

Definition bearer (r : request) : option string :=
  match header "authorization" r with
  | Some a => if startswith "Bearer " a then Some (strip (String.substring 7 (String.length a - 7) a))
              else None
  | None => None
  end.

Definition get_api_key_from_request (r : request) : option string :=
  match bearer r with
  | Some t => nonempty t
  | None => nonempty (header_text "x-api-key" r)
  end.

(** [s.split(":", 1)]; [None] without a colon *)
Fixpoint split_colon (s : string) : option (string * string) :=
  match s with
  | EmptyString => None
  | String c s =>
      if Ascii.eqb c ":"%char then Some (EmptyString, s)
      else match split_colon s with Some (k, t) => Some (String c k, t) | None => None end
  end.

(** The keys, and the tenant each is bound to *)
Fixpoint parse_loop (raw : list string) (keys : list string) (tenants : list (string * string))
    : list string * list (string * string) :=
  match raw with
  | [] => (keys, tenants)
  | e :: raw =>
      match strip e with
      | EmptyString => parse_loop raw keys tenants
      | entry =>
          match split_colon entry with
          | Some (k, t) =>
              match strip k, strip t with
              | EmptyString, _ => parse_loop raw keys tenants
              | key, EmptyString => parse_loop raw (keys ++ [key]) tenants
              | key, tenant => parse_loop raw (keys ++ [key]) (od_set key tenant tenants)
              end
          | None => parse_loop raw (keys ++ [entry]) tenants
          end
      end
  end.

Definition parse_api_keys_with_tenants (raw : list string) := parse_loop raw [] [].

Definition csv (s : string) : list string :=
  List.filter (fun x => negb (bool_decide (x = ""))) (map strip (split_on ","%char s)).

(** [settings.api_keys_list] and [settings.api_keys_tenant_map] *)
Definition api_keys_list (gateway_api_keys : string) : list string :=
  (parse_api_keys_with_tenants (csv gateway_api_keys)).1.
Definition api_keys_tenant_map (gateway_api_keys : string) : list (string * string) :=
  (parse_api_keys_with_tenants (csv gateway_api_keys)).2.

(** Every key is compared, whatever matched before. *)
Definition _constant_time_key_check (key : string) (keys : list string) : bool :=
  foldl (fun result valid => if String.eqb key valid then true else result) false keys.

(** Whether [require_api_key_if_configured] lets the request pass *)
Definition key_accepted (r : request) (keys : list string) : bool :=
  match keys with
  | [] => true
  | _ => match get_api_key_from_request r with
         | Some k => _constant_time_key_check k keys
         | None => false
         end
  end.

(** ** Identities *)

Record CallerIdentity := MkIdentity {
  user_id : string;
  email : string;
  roles : list string;
  team : option string;
  tenant_id : option string;
  source : string;
}.

(** [(body_metadata.get(k) or "").strip()] *)
Definition meta_text (k : string) (m : dict) : res string :=
  match por (dget k m) (PStr "") with
  | PStr s => Ok (strip s)
  | _ => Raise (OtherError "AttributeError: strip")
  end.

Definition anonymous (r : request) : string :=
  match client r with Some h => "anonymous@" +:+ h | None => "anonymous" end%string.

Definition header_roles (r : request) : list string :=
  match header_text "x-user-roles" r with
  | EmptyString =>
      match header_text "x-openwebui-user-role" r with EmptyString => [] | s => [s] end
  | s => csv s
  end.

Definition resolve_identity_from_headers (r : request) (body_metadata : option dict)
    : res CallerIdentity :=
  let uid := sor (header_text "x-user-id" r) (sor (header_text "x-openwebui-user-name" r)
               (header_text "x-openwebui-user-id" r)) in
  let mail := sor (header_text "x-user-email" r) (header_text "x-openwebui-user-email" r) in
  let rs := header_roles r in
  let tenant := nonempty (header_text "x-tenant-id" r) in
  let finish uid mail rs tenant src :=
    MkIdentity (sor uid (anonymous r)) mail rs (nonempty (header_text "x-team-id" r)) tenant
      (match uid with EmptyString => "anonymous" | _ => src end) in
  match body_metadata with
  | None | Some [] => Ok (finish uid mail rs tenant "header_unverified")
  | Some m =>
      let! '(uid, src) :=
        match uid with
        | EmptyString =>
            let! a := meta_text "user_id" m in
            let! b := (match a with EmptyString => meta_text "openwebui_user_id" m | _ => Ok a end) in
            let! c := (match b with EmptyString => meta_text "user_name" m | _ => Ok b end) in
            Ok (c, "openwebui_metadata")
        | _ => Ok (uid, "header_unverified")
        end in
      let! mail := (match mail with EmptyString => meta_text "user_email" m | _ => Ok mail end) in
      let! rs := (match rs with
                  | [] => let! role := meta_text "user_role" m in
                          Ok (match role with EmptyString => [] | s => [s] end)
                  | _ => Ok rs
                  end) in
      let! tenant := (match tenant with
                      | None => let! t := meta_text "tenant_id" m in Ok (nonempty t)
                      | _ => Ok tenant
                      end) in
      Ok (finish uid mail rs tenant src)
  end.

(** ** Tokens *)

Definition _SYMMETRIC_ALGS : list string := ["HS256"; "HS384"; "HS512"].
Definition _ASYMMETRIC_ALGS : list string :=
  ["RS256"; "RS384"; "RS512"; "ES256"; "ES384"; "ES512"; "PS256"; "PS384"; "PS512"].

Record jwt_settings := MkJwt {
  jwt_secret : string;
  jwt_jwks_url : string;
  jwt_issuer : string;
  jwt_audience : string;
  jwt_algorithms : list string;
  jwt_user_claim : string;
  jwt_email_claim : string;
  jwt_roles_claim : string;
  jwt_team_claim : string;
  jwt_tenant_claim : string;
}.

(** The key a token is checked with *)
Inductive jwt_key := Secret (s : string) | Jwks (k : string).

Definition algorithms (j : jwt_settings) : list string :=
  match jwt_algorithms j with [] => ["RS256"] | a => a end.

Definition restrict (algs allowed : list string) : list string :=
  List.filter (fun a => bool_decide (a ∈ allowed)) algs.

Definition claim_roles (v : pyval) : list string :=
  match v with
  | PStr s => csv s
  | PList l => map py_str l
  | _ => []
  end.

Fixpoint first_claim (claims : dict) (names : list string) : option string :=
  match names with
  | [] => None
  | EmptyString :: names => first_claim claims names
  | n :: names =>
      match dget n claims with
      | PNone => first_claim claims names
      | v => match strip (py_str v) with EmptyString => first_claim claims names | s => Some s end
      end
  end.

(** The configured tenant claim first, then the usual ones *)
Definition tenant_candidates (tenant_claim : string) : list string :=
  let first := match tenant_claim with EmptyString => [] | c => [c] end in
  foldl (fun l f => if bool_decide (f ∈ l) then l else l ++ [f]) first
    ["tenant_id"; "tenant"; "org"; "org_id"].

Section jwt.
(** [signing_key url token] is the JWKS lookup, [decode token key algs issuer
    audience] the claims of a valid token; [None] for any exception. *)
Variable signing_key : string -> string -> option string.
Variable decode : string -> jwt_key -> list string -> option string -> option string -> option dict.

(** The key and the algorithms allowed with it *)
Definition key_and_algs (j : jwt_settings) (token : string) : option (jwt_key * list string) :=
  match jwt_jwks_url j, jwt_secret j with
  | EmptyString, EmptyString => None
  | EmptyString, secret =>
      match restrict (algorithms j) _SYMMETRIC_ALGS with
      | [] => None
      | algs => Some (Secret secret, algs)
      end
  | url, _ =>
      match restrict (algorithms j) _ASYMMETRIC_ALGS with
      | [] => None
      | algs => match signing_key url token with Some k => Some (Jwks k, algs) | None => None end
      end
  end.

Definition identity_of_claims (j : jwt_settings) (claims : dict) : option CallerIdentity :=
  match strip (py_str (dget_or (jwt_user_claim j) (PStr "") claims)) with
  | EmptyString => None
  | uid =>
      Some (MkIdentity uid (strip (py_str (dget_or (jwt_email_claim j) (PStr "") claims)))
        (claim_roles (dget_or (jwt_roles_claim j) (PList []) claims))
        (match jwt_team_claim j with
         | EmptyString => None
         | c => nonempty (strip (py_str (dget_or c (PStr "") claims)))
         end)
        (first_claim claims (tenant_candidates (jwt_tenant_claim j))) "jwt")
  end.

Definition validate_jwt (j : jwt_settings) (token : string) : option CallerIdentity :=
  match token with
  | EmptyString => None
  | _ =>
      match key_and_algs j token with
      | None => None
      | Some (key, algs) =>
          match decode token key algs (nonempty (jwt_issuer j)) (nonempty (jwt_audience j)) with
          | None => None
          | Some claims => identity_of_claims j claims
          end
      end
  end.

Definition dots (s : string) : nat :=
  length (List.filter (Ascii.eqb "."%char) (String.list_ascii_of_string s)).

(** [_try_jwt_auth]: the identity of a valid token in the request *)
Definition _try_jwt_auth (j : jwt_settings) (r : request) : option CallerIdentity :=
  match bearer r with
  | Some t => if (dots t <? 2)%nat then None else validate_jwt j t
  | None => None
  end.
End jwt.

(** [assert_jwt_runtime_config]: the problems it raises with, [None] for none *)
Definition assert_jwt_runtime_config (auth_mode : string) (j : jwt_settings) : option (list string) :=
  let mode := lower (strip (sor auth_mode "api_key")) in
  if bool_decide (mode = "jwt") || bool_decide (mode = "both") then
    let problem (ok : bool) (msg : string) : list string := if ok then [] else [msg] in
    let set s := negb (bool_decide (strip s = "")) in
    match problem (set (jwt_secret j) || set (jwt_jwks_url j))
            "WALACOR_JWT_SECRET or WALACOR_JWT_JWKS_URL must be set"
          ++ problem (set (jwt_issuer j))
            "WALACOR_JWT_ISSUER must be set (otherwise any signed token is accepted)"
          ++ problem (set (jwt_audience j))
            "WALACOR_JWT_AUDIENCE must be set (otherwise tokens minted for any audience are accepted)" with
    | [] => None
    | ps => Some ps
    end
  else None.

(** ** Cross validation (adaptive/identity_validator.py) *)

Definition mismatch (r : request) (jwt : CallerIdentity) : list string :=
  match header_text "x-user-id" r with
  | EmptyString => []
  | h => if String.eqb h (user_id jwt) then [] else
           ["X-User-Id '" +:+ h +:+ "' does not match JWT sub '" +:+ user_id jwt +:+ "'"]%string
  end.

(** [DefaultIdentityValidator.validate]: the identity and the warnings.  The
    merged identity is built without a tenant. *)
Definition validate (jwt hdr : option CallerIdentity) (r : request)
    : option CallerIdentity * list string :=
  match jwt with
  | None => (hdr, [])
  | Some j =>
      let gap {A} (dflt : A) (f : CallerIdentity -> A) := match hdr with Some h => f h | None => dflt end in
      (Some (MkIdentity (user_id j) (sor (email j) (gap "" email))
               (match roles j with [] => gap [] roles | l => l end)
               (match team j with None => gap None team | t => t end) None "jwt_verified"),
       mismatch r j)
  end.

(** ** The gates *)

Record settings := MkSettings {
  observability_auth_required : bool;
  plugin_auth_required : bool;
  lineage_auth_required : bool;
  auth_mode : string;
  gateway_api_keys : string;
  jwt : jwt_settings;
  identity_validation_enabled : bool;
  gateway_tenant_id : string;
}.

(** [request.state], as far as the gate writes it *)
Record state := MkState {
  caller_identity : option CallerIdentity;
  header_identity : option CallerIdentity;
  jwt_identity : option CallerIdentity;
  walacor_disposition : option string;
  walacor_reason : option string;
  identity_warnings : list string;
}.

Definition initial : state := MkState None None None None None [].

Definition with_caller (i : option CallerIdentity) (s : state) : state :=
  MkState i (header_identity s) (jwt_identity s) (walacor_disposition s) (walacor_reason s)
    (identity_warnings s).

Definition denied_auth (why : string) (s : state) : state :=
  MkState (caller_identity s) (header_identity s) (jwt_identity s) (Some "denied_auth") (Some why)
    (identity_warnings s).

(** The answer of a gate: the next handler's, or its own status *)
Inductive answer := Forward | Refuse (status : Z).

#[export] Instance answer_eq_dec : EqDecision answer.
Proof. solve_decision. Defined.

Definition startswith_any (l : list string) (p : string) : bool := existsb (fun x => startswith x p) l.

Definition _is_lineage_dashboard_path (p : string) : bool :=
  bool_decide (p = "/lineage") || startswith "/lineage/" p.

Definition observability_path (p : string) : bool :=
  bool_decide (p ∈ ["/v1/readiness"; "/v1/connections"; "/metrics"]).

(** The paths that pass without a key *)
Definition exempt (s : settings) (p : string) : bool :=
  bool_decide (p ∈ ["/"; "/health"; "/v1/models"])
  || (negb (observability_auth_required s) && bool_decide (p = "/metrics"))
  || _is_lineage_dashboard_path p
  || (negb (plugin_auth_required s) && startswith_any ["/v1/openwebui/"; "/api/"] p)
  || (negb (lineage_auth_required s) && startswith_any ["/v1/lineage/"; "/v1/compliance"] p).

Definition _resolve_header_identity_fallback (r : request) (st : state) : state :=
  match resolve_identity_from_headers r None with
  | Ok i => MkState (match caller_identity st with None => Some i | c => c end) (Some i)
              (jwt_identity st) (walacor_disposition st) (walacor_reason st) (identity_warnings st)
  | Raise _ => st
  end.

Definition binding (t : string) (i : CallerIdentity) : CallerIdentity :=
  MkIdentity (user_id i) (email i) (roles i) (team i) (Some t) "api_key_tenant_binding".

Section gate.
Context {addr net : Type} (ip_address : string -> option addr) (in_net : addr -> net -> bool)
        (trusted : list net).
Variable signing_key : string -> string -> option string.
Variable decode : string -> jwt_key -> list string -> option string -> option string -> option dict.

(** The control plane's binding of a key, [None] without a control store; a
    lookup that raises counts as no binding. *)
Variable get_key_tenant : option (string -> res (option string)).

(** The tenant a key is bound to: the control plane's, or the environment's *)
Definition bound_tenant (s : settings) (key : string) : option string :=
  let db := match get_key_tenant with
            | Some f => match f key with Ok (Some t) => nonempty t | _ => None end
            | None => None
            end in
  match db with
  | Some t => Some t
  | None => od_get key (api_keys_tenant_map (gateway_api_keys s))
  end.

Definition _apply_api_key_tenant_binding (s : settings) (r : request) (st : state) : state :=
  match get_api_key_from_request r, caller_identity st with
  | Some key, Some i =>
      match bound_tenant s key with
      | Some t => if bool_decide (tenant_id i = Some t) then st
                  else with_caller (Some (binding t i)) st
      | None => st
      end
  | _, _ => st
  end.

Definition _cross_validate_identity (s : settings) (r : request) (st : state) : state :=
  if identity_validation_enabled s then
    let '(i, warnings) := validate (jwt_identity st) (header_identity st) r in
    let st := match i with Some _ => with_caller i st | None => st end in
    match warnings with
    | [] => st
    | _ => MkState (caller_identity st) (header_identity st) (jwt_identity st)
             (walacor_disposition st) (walacor_reason st) warnings
    end
  else st.

Definition with_jwt (i : CallerIdentity) (st : state) : state :=
  MkState (Some i) (header_identity st) (Some i) (walacor_disposition st) (walacor_reason st)
    (identity_warnings st).

(** What an authenticated request carries on *)
Definition jwt_state (s : settings) (r : request) (i : CallerIdentity) (st : state) : state :=
  _cross_validate_identity s r (_resolve_header_identity_fallback r (with_jwt i st)).
Definition key_state (s : settings) (r : request) (st : state) : state :=
  _cross_validate_identity s r
    (_apply_api_key_tenant_binding s r (_resolve_header_identity_fallback r st)).

Definition by_key (s : settings) (r : request) (st : state) (why : string) : answer * state :=
  if key_accepted r (api_keys_list (gateway_api_keys s)) then (Forward, key_state s r st)
  else (Refuse 401, denied_auth why st).

(** The part after the rate limit *)
Definition authenticate (s : settings) (r : request) (st : state) : answer * state :=
  let token := _try_jwt_auth signing_key decode (jwt s) r in
  if bool_decide (auth_mode s = "jwt") then
    match token with
    | Some i => (Forward, jwt_state s r i st)
    | None => (Refuse 401, denied_auth "jwt_mode: missing or invalid JWT token" st)
    end
  else if bool_decide (auth_mode s = "both") then
    match token with
    | Some i => (Forward, jwt_state s r i st)
    | None => by_key s r st "both_mode: JWT failed and API key missing/invalid"
    end
  else by_key s r st "api_key missing or not in allowlist".

Definition observability (s : settings) (r : request) : answer :=
  match api_keys_list (gateway_api_keys s) with
  | [] => Refuse 503
  | keys => match get_api_key_from_request r with
            | None => Refuse 401
            | Some k => if _constant_time_key_check k keys then Forward else Refuse 403
            end
  end.

(** [api_key_middleware] up to the next handler *)
Definition api_key_middleware (s : settings) (l : PerIP.limiter) (r : request) (st : state) (now : Z)
    : PerIP.limiter * (answer * state) :=
  if exempt s (path r) then (l, (Forward, st))
  else if observability_path (path r) && observability_auth_required s
  then (l, (observability s r, st))
  else
    let limited :=
      if startswith "/v1/" (path r) then
        PerIP.check l (PerIP.resolve_client_ip ip_address in_net (default "unknown" (client r))
                         (header "x-forwarded-for" r) trusted) now
      else (l, true) in
    if snd limited then (fst limited, authenticate s r st)
    else (fst limited, (Refuse 429, st)).

(** [_resolve_tenant] of the orchestrator *)
Definition _resolve_tenant (s : settings) (st : state) : string :=
  match caller_identity st with
  | Some (MkIdentity _ _ _ _ (Some (String _ _ as t)) _) => t
  | _ => sor (gateway_tenant_id s) "default"
  end.

(** [_inject_caller_role]: the role policies see *)
Definition caller_role (st : state) : option string :=
  match caller_identity st with
  | Some i => match roles i with
              | role :: _ => if bool_decide (source i = "jwt") then Some role else None
              | [] => None
              end
  | None => None
  end.

End gate.

(** [body_size_middleware]; [limit] is [int(max_request_body_mb * 1024 * 1024)],
    [int_of] is [int()] on the header's text.  A length that is no number raises. *)
Definition body_size_middleware (reject_chunked : bool) (limit : option Z)
    (int_of : string -> option Z) (r : request) : res answer :=
  if reject_chunked && contains "chunked" (lower (default "" (header "transfer-encoding" r)))
  then Ok (Refuse 411)
  else match limit, header "content-length" r with
       | Some max_bytes, Some (String _ _ as cl) =>
           match int_of cl with
           | None => Raise (ValueError "invalid literal for int()")
           | Some n => Ok (if max_bytes <? n then Refuse 413 else Forward)
           end
       | _, _ => Ok Forward
       end.

(** ** API keys: what is accepted *)

Lemma key_check_in k keys : _constant_time_key_check k keys = bool_decide (k ∈ keys).
Proof.
  unfold _constant_time_key_check.
  assert (forall b, foldl (fun r v => if String.eqb k v then true else r) b keys
                    = b || bool_decide (k ∈ keys)) as H; [|by rewrite H].
  induction keys as [|v keys IH]; intros b; simpl.
  - by rewrite orb_false_r.
  - rewrite IH. destruct (String.eqb_spec k v) as [->|Hne].
    + rewrite (bool_decide_true (v ∈ v :: keys)) by by left. simpl. by rewrite orb_true_r.
    + f_equal. apply bool_decide_ext. rewrite elem_of_cons. naive_solver.
Qed.

Definition no_colon (s : string) : Prop := split_colon s = None.

(** A key as the parser returns it: not empty and without a colon *)
Definition key_ok (k : string) : Prop := k <> "" /\ no_colon k.

#[local] Arguments Ascii.eqb : simpl never.

Definition colon_free (s : string) : bool := negb (char_in ":"%char s).

Lemma split_colon_free s : split_colon s = None <-> colon_free s = true.
Proof.
  unfold colon_free, char_in. induction s as [|c s IH]; simpl; [done|].
  rewrite (Ascii.eqb_sym ":"%char c). destruct (Ascii.eqb c ":"%char); simpl; [done|].
  destruct (split_colon s) as [[k t]|]; simpl; [|naive_solver]. split; [done|].
  intros H%IH. done.
Qed.

Lemma split_colon_key s k t : split_colon s = Some (k, t) -> colon_free k = true.
Proof.
  revert k. induction s as [|c s IH]; simpl; intros k; [done|].
  destruct (Ascii.eqb c ":"%char) eqn:Hc; [by intros [= <- <-]|].
  destruct (split_colon s) as [[k' t']|]; [|done]. intros [= <- <-]. specialize (IH _ eq_refl).
  unfold colon_free, char_in in *. simpl. rewrite Ascii.eqb_sym, Hc. done.
Qed.

Lemma char_in_srev_app c s acc : char_in c (srev_app s acc) = char_in c s || char_in c acc.
Proof.
  revert acc. unfold char_in. induction s as [|a s IH]; intros acc; simpl; [done|].
  rewrite IH. simpl. destruct (Ascii.eqb c a); simpl; [by rewrite orb_true_r|done].
Qed.

Lemma char_in_srev c s : char_in c (srev s) = char_in c s.
Proof. unfold srev. rewrite char_in_srev_app. apply orb_false_r. Qed.

Lemma char_in_lstrip c s : char_in c (lstrip s) = true -> char_in c s = true.
Proof.
  unfold char_in. induction s as [|a s IH]; simpl; [done|].
  destruct (is_space a); simpl; [|done]. intros H. rewrite (IH H). apply orb_true_r.
Qed.

Lemma colon_free_strip s : colon_free s = true -> colon_free (strip s) = true.
Proof.
  unfold colon_free, strip. intros H. apply negb_true_iff in H. apply negb_true_iff.
  destruct (char_in _ (srev _)) eqn:Hc; [|done]. exfalso.
  rewrite char_in_srev in Hc. apply char_in_lstrip in Hc. rewrite char_in_srev in Hc.
  apply char_in_lstrip in Hc. congruence.
Qed.

Lemma parse_loop_ok raw keys tenants :
  Forall key_ok keys -> Forall (fun kt => kt.1 ∈ keys /\ kt.2 <> "") tenants ->
  let '(ks, ts) := parse_loop raw keys tenants in
  Forall key_ok ks /\ Forall (fun kt => kt.1 ∈ ks /\ kt.2 <> "") ts.
Proof.
  revert keys tenants. induction raw as [|e raw IH]; intros keys tenants Hk Ht; cbn [parse_loop]; [done|].
  assert (forall k, key_ok k -> Forall key_ok (keys ++ [k])) as Hsnoc
    by (intros k Hok; by apply Forall_app; split; [|constructor]).
  assert (forall k, Forall (fun kt : string * string => kt.1 ∈ keys ++ [k] /\ kt.2 <> "") tenants) as Hmono
    by (intros k; eapply Forall_impl; [exact Ht|]; intros kt [? ?]; split; [set_solver|done]).
  destruct (strip e) as [|c en]; [by apply IH|].
  destruct (split_colon (String c en)) as [[k t]|] eqn:Hs.
  - apply split_colon_key, colon_free_strip in Hs.
    destruct (strip k) as [|d k'] eqn:Hsk; [apply IH; done|].
    assert (key_ok (String d k')) as Hok by (split; [done|by apply split_colon_free]).
    destruct (strip t) as [|f t']; apply IH; auto.
    apply Forall_forall. intros kt [->|Hold]%od_set_elem; [split; [set_solver|done]|].
    specialize (Hmono (String d k')). rewrite Forall_forall in Hmono. auto.
  - apply IH; [|done]. apply Hsnoc. split; done.
Qed.

(** ** The gate *)

Section gate_facts.
Context {addr net : Type} (ip_address : string -> option addr) (in_net : addr -> net -> bool)
        (trusted : list net).
Variable signing_key : string -> string -> option string.
Variable decode : string -> jwt_key -> list string -> option string -> option string -> option dict.
Variable get_key_tenant : option (string -> res (option string)).
Abbreviation gate := (api_key_middleware ip_address in_net trusted signing_key decode get_key_tenant).

(** A key of the list is in the request. *)
Definition has_key (s : settings) (r : request) : Prop :=
  exists k, get_api_key_from_request r = Some k /\ k ∈ api_keys_list (gateway_api_keys s).

(** A token the decoder accepts with the configured key, issuer and audience,
    under algorithms of the key's own kind *)
Definition has_token (s : settings) (r : request) (i : CallerIdentity) : Prop :=
  exists token key algs claims,
    bearer r = Some token /\
    decode token key algs (nonempty (jwt_issuer (jwt s))) (nonempty (jwt_audience (jwt s))) = Some claims /\
    identity_of_claims (jwt s) claims = Some i /\
    match key with
    | Secret k => k = jwt_secret (jwt s) /\ k <> "" /\ Forall (fun a => a ∈ _SYMMETRIC_ALGS) algs
    | Jwks k => signing_key (jwt_jwks_url (jwt s)) token = Some k /\
                Forall (fun a => a ∈ _ASYMMETRIC_ALGS) algs
    end.

Lemma restrict_all algs allowed : Forall (fun a => a ∈ allowed) (restrict algs allowed).
Proof.
  unfold restrict. apply Forall_forall. intros a Ha.
  rewrite list_elem_of_In, List.filter_In in Ha. destruct Ha as [_ Ha]. by apply bool_decide_eq_true in Ha.
Qed.

Lemma key_and_algs_kind j token key algs :
  key_and_algs signing_key j token = Some (key, algs) ->
  match key with
  | Secret k => k = jwt_secret j /\ k <> "" /\ Forall (fun a => a ∈ _SYMMETRIC_ALGS) algs
  | Jwks k => signing_key (jwt_jwks_url j) token = Some k /\ Forall (fun a => a ∈ _ASYMMETRIC_ALGS) algs
  end.
Proof.
  unfold key_and_algs. pose proof (restrict_all (algorithms j) _SYMMETRIC_ALGS) as Hs.
  pose proof (restrict_all (algorithms j) _ASYMMETRIC_ALGS) as Ha.
  destruct (jwt_jwks_url j) as [|c u].
  - destruct (jwt_secret j) as [|d k]; [done|].
    destruct (restrict _ _) as [|a l]; [done|]. by intros [= <- <-].
  - destruct (restrict (algorithms j) _ASYMMETRIC_ALGS) as [|a l]; [done|].
    destruct (signing_key _ _) eqn:Hk; [|done]. by intros [= <- <-].
Qed.

Lemma try_jwt_token s r i :
  _try_jwt_auth signing_key decode (jwt s) r = Some i -> has_token s r i.
Proof.
  unfold _try_jwt_auth, validate_jwt, has_token. destruct (bearer r) as [token|]; [|done].
  destruct (dots token <? 2)%nat; [done|]. destruct token as [|c token]; [done|].
  destruct (key_and_algs _ _ _) as [[key algs]|] eqn:Hk; [|done].
  destruct (decode _ _ _ _ _) as [claims|] eqn:Hd; [|done]. intros Hi.
  exists (String c token), key, algs, claims. by apply key_and_algs_kind in Hk.
Qed.

Lemma key_accepted_iff s r :
  key_accepted r (api_keys_list (gateway_api_keys s)) = true <->
  api_keys_list (gateway_api_keys s) = [] \/ has_key s r.
Proof.
  unfold key_accepted, has_key. destruct (api_keys_list _) as [|k ks] eqn:Hks; [naive_solver|].
  destruct (get_api_key_from_request r) as [key|]; [|naive_solver].
  rewrite key_check_in, bool_decide_eq_true. naive_solver.
Qed.

(** What lets a request through the gate: an open path, a valid token where
    tokens are read, or a key where keys are *)
Definition may_pass (s : settings) (r : request) : Prop :=
  exempt s (path r) = true
  \/ (observability_path (path r) && observability_auth_required s = true /\ has_key s r)
  \/ (observability_path (path r) && observability_auth_required s = false /\
      ((auth_mode s = "jwt" \/ auth_mode s = "both") /\ (exists i, has_token s r i)
       \/ auth_mode s <> "jwt" /\ (api_keys_list (gateway_api_keys s) = [] \/ has_key s r))).

Lemma by_key_forward s r st why :
  (by_key get_key_tenant s r st why).1 = Forward ->
  api_keys_list (gateway_api_keys s) = [] \/ has_key s r.
Proof. unfold by_key. destruct (key_accepted _ _) eqn:Hk; [|done]. intros _. by apply key_accepted_iff. Qed.

Lemma by_key_denied s r st why :
  (by_key get_key_tenant s r st why).1 <> Forward ->
  walacor_disposition (by_key get_key_tenant s r st why).2 = Some "denied_auth".
Proof. unfold by_key. by destruct (key_accepted _ _). Qed.

Abbreviation auth := (authenticate signing_key decode get_key_tenant).

Lemma authenticate_forward s r st : (auth s r st).1 = Forward ->
  ((auth_mode s = "jwt" \/ auth_mode s = "both") /\ exists i, has_token s r i)
  \/ (auth_mode s <> "jwt" /\ (api_keys_list (gateway_api_keys s) = [] \/ has_key s r)).
Proof.
  unfold authenticate. cbv zeta.
  destruct (_try_jwt_auth signing_key decode (jwt s) r) as [i|] eqn:Hj.
  - apply try_jwt_token in Hj. repeat case_bool_decide; [by eauto..|].
    intros H2%by_key_forward. by right.
  - repeat case_bool_decide; [done|..]; intros H2%by_key_forward; by right.
Qed.

Lemma authenticate_denied s r st : (auth s r st).1 <> Forward ->
  walacor_disposition (auth s r st).2 = Some "denied_auth".
Proof.
  unfold authenticate. cbv zeta.
  destruct (_try_jwt_auth _ _ _ _); repeat case_bool_decide; try done; apply by_key_denied.
Qed.

Lemma gate_forward s l r st now : (gate s l r st now).2.1 = Forward -> may_pass s r.
Proof.
  unfold api_key_middleware, may_pass. destruct (exempt s (path r)) eqn:Hex; [by auto|].
  destruct (observability_path (path r) && observability_auth_required s) eqn:Hob; cbv zeta.
  - cbn [fst snd]. unfold observability. intros H. right; left. split; [done|].
    unfold has_key. destruct (api_keys_list _) as [|k ks]; [done|].
    destruct (get_api_key_from_request r) as [key|]; [|done]. rewrite key_check_in in H.
    case_bool_decide; [by eauto|done].
  - destruct (if startswith _ _ then _ else _) as [l' []]; cbn [fst snd]; [|done].
    intros H%authenticate_forward. right; right. by split.
Qed.


Definition tenant_of (st : state) : option string :=
  match caller_identity st with Some i => tenant_id i | None => None end.

Lemma headers_resolve r : exists i, resolve_identity_from_headers r None = Ok i /\
  tenant_id i = nonempty (header_text "x-tenant-id" r).
Proof. by eexists. Qed.

(**  What cross validation does to a caller's tenant.  A request with an API
    key bound to tenant [t] acts for [t] when cross validation is off; when it is on
    (the default) it acts for whatever tenant its own [x-tenant-id] header names, or for
    none.  A token's tenant claim and the policy role of its roles survive only
    with cross validation off: with it on both are dropped. *)
Theorem cross_validation_drops_tenant s r key t i :
  get_api_key_from_request r = Some key -> bound_tenant get_key_tenant s key = Some t ->
  source i = "jwt" ->
  tenant_of (key_state get_key_tenant s r initial)
    = (if identity_validation_enabled s then nonempty (header_text "x-tenant-id" r) else Some t) /\
  tenant_of (jwt_state s r i initial)
    = (if identity_validation_enabled s then None else tenant_id i) /\
  caller_role (jwt_state s r i initial)
    = (if identity_validation_enabled s then None else head (roles i)).
Proof.
  intros Hkey Hb Hsrc. destruct (headers_resolve r) as (h & Hh & Ht). split; [|split].
  - unfold key_state, _cross_validate_identity, _apply_api_key_tenant_binding,
      _resolve_header_identity_fallback. rewrite Hh, Hkey. simpl. rewrite Hb.
    destruct (identity_validation_enabled s); case_bool_decide; simpl; done.
  - unfold jwt_state, _cross_validate_identity, _resolve_header_identity_fallback. rewrite Hh.
    destruct (identity_validation_enabled s); simpl; [|done].
    by destruct (mismatch r i).
  - unfold jwt_state, _cross_validate_identity, _resolve_header_identity_fallback, caller_role.
    rewrite Hh. destruct (identity_validation_enabled s); simpl.
    + destruct (mismatch r i); simpl; by destruct (match roles i with [] => _ | _ => _ end).
    + destruct (roles i); simpl; [done|]. by rewrite bool_decide_true.
Qed.
End gate_facts.

(** ** A deployment *)
Module Deployment.

Definition demo_jwt : jwt_settings :=
  MkJwt "" "" "" "" ["RS256"] "sub" "email" "roles" "" "tenant_id".
Definition demo (mode : string) : settings :=
  MkSettings false false true mode "wgk-aaaa:acme, wgk-bbbb" demo_jwt true "corp".
Definition chat (hs : list (string * string)) : request :=
  MkRequest "/v1/chat/completions" hs (Some "1.2.3.4").
Definition decode_none : string -> jwt_key -> list string -> option string -> option string -> option dict :=
  fun _ _ _ _ _ => None.
Definition no_keys : string -> string -> option string := fun _ _ => None.
Definition demo_gate (s : settings) (r : request) : answer * state :=
  (api_key_middleware Some RateLimit.PerIP.demo_in_net [] no_keys decode_none None s
     (PerIP.MkLimiter 300 50000 []) r initial 0).2.

Example demo_keys : api_keys_list "wgk-aaaa:acme, wgk-bbbb" = ["wgk-aaaa"; "wgk-bbbb"].
Proof. reflexivity. Qed.

Example demo_unauthenticated : demo_gate (demo "api_key") (chat []) =
  (Refuse 401, denied_auth "api_key missing or not in allowlist" initial).
Proof. vm_compute. reflexivity. Qed.

Definition forged : request :=
  chat [("authorization", "Bearer wgk-aaaa"); ("x-tenant-id", "globex")].


(** The key is bound to acme, the header says globex: the request acts for
    globex. *)
Lemma cross_validation_drops_tenant_witness :
  bound_tenant None (demo "api_key") "wgk-aaaa" = Some "acme" /\
  tenant_of (key_state None (demo "api_key") forged initial) = Some "globex".
Proof.
  split; [vm_compute; reflexivity|].
  exact (proj1 (cross_validation_drops_tenant None (demo "api_key") forged "wgk-aaaa" "acme"
    (MkIdentity "u" "" ["admin"] None (Some "acme") "jwt") eq_refl eq_refl eq_refl)).
Defined.
End Deployment.
