(* ===== verification/Storage.v ===== *)
(** * Storage fan-out and completeness

    storage/router.py with its two backends, wal/batch_writer.py, and
    middleware/completeness.py, over the write-ahead log of [Wal].  What the
    Walacor service answers is an argument; while a call awaits it, other events
    of the log happen, given as a list.  Shutdown drains, metrics and logging are
    not modelled. *)
From S2P Require Import Prelude ODict PyVal PyObj Lineage Wal.

Local Open Scope Z_scope.

Section storage.
Context `{Json}.

(** ** Batches (wal/batch_writer.py) *)

(** [_write_batch]: one statement, and one write per record when it fails *)
Definition _write_batch (d : db) (batch : list dict) (now : Z) : db :=
  match batch with
  | [] => d
  | _ => match write_batch d batch now with
         | (d, Ok _) => d
         | (d, Raise _) => foldl (fun d data => keep d (write_durable d data now)) d batch
         end
  end.

(** Where the flush loop is: waiting for a first record, sleeping with records
    in hand, writing them, or stopped *)
Inductive phase := Waiting | Gathering (batch : list dict) | Writing (batch : list dict) | Stopped.

Record batcher := MkBatcher { b_queue : list dict; b_phase : phase; b_db : db }.

Inductive batch_event :=
  | BEnqueue (data : dict)
  | BGet
  | BWake
  | BWrite (now : Z)
  | BStop (now : Z).

(** [get_nowait] until the batch has [max_size] records or the queue is empty *)
Definition drain (max : nat) (batch queue : list dict) : list dict * list dict :=
  let n := (max - length batch)%nat in (batch ++ take n queue, drop n queue).

(** The flush loop step by step, and [stop].  Cancelling the loop drops what it
    has in hand while it sleeps; a write that has begun goes on in its thread, but
    the fallback after it does not happen. *)
Definition batch_step (max : nat) (s : batcher) (e : batch_event) : option batcher :=
  match e, b_phase s with
  | BEnqueue data, _ => Some (MkBatcher (b_queue s ++ [data]) (b_phase s) (b_db s))
  | BGet, Waiting =>
      match b_queue s with
      | [] => None
      | first :: queue =>
          let '(batch, queue) := drain max [first] queue in
          Some (MkBatcher queue (if (length batch <? max)%nat then Gathering batch else Writing batch)
                  (b_db s))
      end
  | BWake, Gathering batch =>
      let '(batch, queue) := drain max batch (b_queue s) in
      Some (MkBatcher queue (Writing batch) (b_db s))
  | BWrite now, Writing batch => Some (MkBatcher (b_queue s) Waiting (_write_batch (b_db s) batch now))
  | BStop now, Stopped => None
  | BStop now, p =>
      let d := match p with
               | Writing batch => (write_batch (b_db s) batch now).1
               | _ => b_db s
               end in
      Some (MkBatcher [] Stopped (_write_batch d (b_queue s) now))
  | _, _ => None
  end.

Fixpoint batch_run (max : nat) (s : batcher) (es : list batch_event) : option batcher :=
  match es with
  | [] => Some s
  | e :: es => match batch_step max s e with Some s => batch_run max s es | None => None end
  end.

Definition in_hand (s : batcher) : list dict :=
  match b_phase s with Gathering b | Writing b => b | _ => [] end.

(** Records both ways of writing accept *)
Definition storable (data : dict) : Prop :=
  py_eqb (dget "event_type" data) (PStr "tool_call") = false /\
  forall d now, is_ok (write_durable d data now) = true.

Definition id_of_record (data : dict) : string :=
  match dget "execution_id" data with PStr s => s | _ => "" end.

Lemma insert_there r d d' : insert r d = Ok d' -> delivered r = false -> pending (execution_id r) d'.
Proof. intros Hi Hd. eapply insert_pending; [done|done|by right]. Qed.

Lemma write_durable_there d data now d' :
  write_durable d data now = Ok d' -> pending (id_of_record data) d'.
Proof.
  unfold write_durable. intros Hw. apply res_bind_ok in Hw as (json & _ & Hw).
  apply res_bind_ok in Hw as (idv & Hidv & Hw). apply res_bind_ok in Hw as (id & Hid & Hw).
  apply res_bind_ok in Hw as (m & _ & Hw). apply insert_there in Hw; [|done].
  unfold getitem in Hidv. unfold id_of_record, dget. destruct (od_get _ _); [|done].
  simplify_eq/=. destruct idv; by simplify_eq/=.
Qed.

Lemma batch_row_id data now r : batch_row data now = Ok r ->
  py_eqb (dget "event_type" data) (PStr "tool_call") = false -> execution_id r = id_of_record data.
Proof.
  unfold batch_row. intros Hr Ht. rewrite Ht in Hr. apply res_bind_ok in Hr as (pk & Hpk & Hr).
  repeat (apply res_bind_ok in Hr as (? & ? & Hr)). injection Hr as <-. simpl.
  unfold dget_or in Hpk. unfold id_of_record, dget. destruct (od_get _ _) as [v|]; simpl in *.
  - by destruct v; simplify_eq/=.
  - by simplify_eq/=.
Qed.

Lemma executemany_there rows r : r ∈ rows -> (forall r, r ∈ rows -> delivered r = false) ->
  forall d, (executemany rows d).2 = Ok tt -> pending (execution_id r) (executemany rows d).1.
Proof.
  induction rows as [|x rows IH]; intros Hin Hf d Hw; [by apply not_elem_of_nil in Hin|]. cbn [executemany] in *.
  assert (forall r, r ∈ rows -> delivered r = false) as Hf' by (intros y Hy; apply Hf; by right).
  destruct (insert x d) as [d1|] eqn:Hi; [|done]. apply elem_of_cons in Hin as [->|Hin]; [|by apply IH].
  apply executemany_pending; [done|]. eapply insert_there; [done|]. apply Hf. by left.
Qed.

Lemma write_batch_there batch now data d : data ∈ batch -> storable data ->
  (write_batch d batch now).2 = Ok tt -> pending (id_of_record data) (write_batch d batch now).1.
Proof.
  intros Hin [Ht _]. unfold write_batch. destruct (map_res _ batch) as [rows|] eqn:Hm; [|done]. intros Hw.
  destruct (map_res_elem _ _ _ _ Hm Hin) as (r & Hr & Hrr). rewrite <- (batch_row_id _ _ _ Hr Ht).
  apply executemany_there; [done| |done]. intros x. by eapply batch_rows_fresh.
Qed.

Lemma keep_durable_pending d data now id : pending id d -> pending id (keep d (write_durable d data now)).
Proof. intros Hp. destruct (write_durable _ _ _) eqn:Hw; simpl; [by eapply write_durable_pending|done]. Qed.

Lemma fold_durable_pending batch now id : forall d, pending id d ->
  pending id (foldl (fun d data => keep d (write_durable d data now)) d batch).
Proof. induction batch as [|x batch IH]; intros d Hp; simpl; [done|]. by apply IH, keep_durable_pending. Qed.

Lemma fold_durable_there batch now data : data ∈ batch -> storable data ->
  forall d, pending (id_of_record data) (foldl (fun d data => keep d (write_durable d data now)) d batch).
Proof.
  intros Hin [Ht Hok]. induction batch as [|x batch IH]; intros d; [by apply not_elem_of_nil in Hin|].
  simpl. apply elem_of_cons in Hin as [<-|Hin]; [|by apply IH].
  apply fold_durable_pending. specialize (Hok d now).
  destruct (write_durable d data now) eqn:Hw; [|done]. by eapply write_durable_there.
Qed.

(** A failing record does not take the others of its batch with it. *)
Lemma _write_batch_there d batch now data :
  data ∈ batch -> storable data -> pending (id_of_record data) (_write_batch d batch now).
Proof.
  intros Hin Hok. unfold _write_batch. destruct batch as [|x batch]; [by apply not_elem_of_nil in Hin|].
  pose proof (write_batch_there (x :: batch) now data d Hin Hok) as Hb.
  destruct (write_batch _ _ _) as [d' [[]|e]]; [by apply Hb|by apply fold_durable_there].
Qed.

Lemma _write_batch_pending d batch now id : pending id d -> pending id (_write_batch d batch now).
Proof.
  intros Hp. unfold _write_batch. destruct batch as [|x batch]; [done|].
  pose proof (write_batch_pending d (x :: batch) now id Hp) as Hb.
  destruct (write_batch _ _ _) as [d' [[]|e]]; [done|by apply fold_durable_pending].
Qed.

(** A record is queued, in hand, or in the log. *)
Definition accounted (s : batcher) (data : dict) : Prop :=
  data ∈ b_queue s \/ data ∈ in_hand s \/ pending (id_of_record data) (b_db s).

Lemma drain_elem max batch queue x :
  x ∈ batch \/ x ∈ queue -> x ∈ (drain max batch queue).1 \/ x ∈ (drain max batch queue).2.
Proof.
  unfold drain. simpl. intros [Hx|Hx]; [left; set_solver|].
  rewrite <- (take_drop (max - length batch) queue) in Hx. set_solver.
Qed.

#[local] Arguments drain : simpl never.

Lemma step_accounted max s e s' data :
  batch_step max s e = Some s' -> (forall now, e <> BStop now) -> storable data ->
  accounted s data -> accounted s' data.
Proof.
  unfold accounted, in_hand. intros Hs Hstop Hok Ha.
  destruct e as [x| | |now|now]; [..|by destruct (Hstop now)]; clear Hstop.
  - injection Hs as <-. simpl. rewrite elem_of_app. naive_solver.
  - cbn [batch_step] in Hs. destruct (b_phase s) eqn:Hp; [|done..].
    destruct (b_queue s) as [|first q] eqn:Hq; [done|].
    pose proof (drain_elem max [first] q data) as Hd. destruct (drain max [first] q) as [b q'].
    rewrite list_elem_of_singleton in Hd. rewrite elem_of_cons in Ha.
    injection Hs as <-. cbn [b_queue b_phase b_db fst snd] in *.
    assert (data ∈ b \/ data ∈ q' \/ pending (id_of_record data) (b_db s)) as Hc.
    { destruct Ha as [Ha|[Hn%not_elem_of_nil|Hpe]]; [|done|auto]. destruct (Hd Ha); auto. }
    destruct (length b <? max)%nat; destruct Hc as [?|[?|?]]; auto.
  - cbn [batch_step] in Hs. destruct (b_phase s) as [|b|b|] eqn:Hp; try done.
    pose proof (drain_elem max b (b_queue s) data) as Hd. destruct (drain max b (b_queue s)) as [b' q'].
    injection Hs as <-. cbn [b_queue b_phase b_db fst snd] in *.
    destruct Ha as [Ha|[Ha|Ha]]; [destruct Hd; auto|destruct Hd; auto|auto].
  - cbn [batch_step] in Hs. destruct (b_phase s) as [|b|b|] eqn:Hp; try done. injection Hs as <-. simpl.
    destruct Ha as [?|[?|?]]; [by left|right; right; by apply _write_batch_there|].
    right; right. by apply _write_batch_pending.
Qed.

Definition new_batcher : batcher := MkBatcher [] Waiting empty_db.

(**  The batch writer loses no record while it runs.  In any interleaving
    of arrivals and steps of the flush loop, whatever records share a batch and
    however often a transaction fails, every storable record that was enqueued is
    still queued, in the loop's hand, or a pending row of the log. *)
Theorem batch_writer_keeps max es : forall s s' data,
  batch_run max s es = Some s' -> (forall now, BStop now ∉ es) -> storable data ->
  accounted s data \/ BEnqueue data ∈ es -> accounted s' data.
Proof.
  induction es as [|e es IH]; intros s s' data Hr Hstop Hok Ha; simpl in Hr.
  - injection Hr as <-. destruct Ha as [?|Ha%not_elem_of_nil]; done.
  - destruct (batch_step max s e) as [s1|] eqn:Hs; [|done].
    apply (IH _ _ _ Hr); [intros now Hin; apply (Hstop now); by right|done|].
    destruct Ha as [Ha|[<-|Ha]%elem_of_cons].
    + left. eapply step_accounted; [done| |done|done]. intros now ->. apply (Hstop now). by left.
    + left. simpl in Hs. injection Hs as <-. left. apply elem_of_app. right. by apply list_elem_of_singleton.
    + by right.
Qed.

(**  Stopping the batch writer.  Stopped while it waits, it flushes every
    queued storable record; stopped while it sleeps with records in hand, it drops
    them: a record that was accepted and taken off the queue is in neither the log
    nor the queue afterwards. *)
Theorem stop_drops_gathered max now data :
  (forall s s', b_phase s = Waiting -> batch_step max s (BStop now) = Some s' -> storable data ->
     accounted s data -> pending (id_of_record data) (b_db s')) /\
  ((1 < max)%nat ->
   batch_run max new_batcher [BEnqueue data; BGet; BStop now] = Some (MkBatcher [] Stopped empty_db)).
Proof.
  split.
  - intros s s' Hp Hs Hok Ha. unfold accounted, in_hand in Ha. cbn [batch_step] in Hs.
    rewrite Hp in Hs, Ha. injection Hs as <-. cbn [b_db].
    destruct Ha as [Ha|[Ha%not_elem_of_nil|Ha]]; [by apply _write_batch_there|done|].
    by apply _write_batch_pending.
  - intros Hm. simpl. unfold drain. simpl. rewrite take_nil, drop_nil. simpl.
    by rewrite (proj2 (Nat.ltb_lt _ _)).
Qed.

(** ** The backends and the router (storage/) *)

Inductive backend := WalB | WalacorB.

#[local] Instance backend_eq_dec : EqDecision backend.
Proof. solve_decision. Defined.

Definition backend_name (b : backend) : string :=
  match b with WalB => "wal" | WalacorB => "walacor" end.

Record WriteResult := MkResult { succeeded : list string; failed : list string }.

(** What a call does to the log, before and after the service answered, and
    what it hands to the batch writer *)
Record effect := MkEffect {
  before : list wal_event;
  batched : list dict;
  after : list wal_event;
}.

Definition has_wal (backends : list backend) : bool := bool_decide (WalB ∈ backends).

Definition _mark_wal_delivered (backends : list backend) (id : string) (now : Z) : list wal_event :=
  match id with
  | EmptyString => []
  | _ => if has_wal backends then [TMark id now] else []
  end.

(** [str(record.get(k) or "")] *)
Definition key_text (k : string) (record : dict) : string := py_str (por (dget k record) (PStr "")).

(** [WALBackend.write_execution]: onto the thread's queue or the batch writer's *)
Definition wal_write_execution (batching : bool) (record : dict) : list wal_event * list dict :=
  if batching then ([], [record]) else ([TEnqueue (WExecution record)], []).

(** [results]: each backend's name with its success; [remote] is whether the
    Walacor client returned without raising. *)
Definition results (backends : list backend) (remote : bool) : list (string * bool) :=
  map (fun b => (backend_name b, match b with WalB => true | WalacorB => remote end)) backends.

Definition names_of (ok : bool) (rs : list (string * bool)) : list string :=
  map fst (List.filter (fun x => Bool.eqb x.2 ok) rs).

Definition wals (backends : list backend) : list backend :=
  List.filter (fun b => bool_decide (b = WalB)) backends.

(** The acknowledgement, once Walacor is among the successes *)
Definition acknowledge (backends : list backend) (rs : list (string * bool)) (id : string) (now : Z)
    : list wal_event :=
  if bool_decide ("walacor" ∈ names_of true rs) then _mark_wal_delivered backends id now else [].

Definition write_execution (backends : list backend) (batching remote : bool) (record : dict) (now : Z)
    : effect * WriteResult :=
  let rs := results backends remote in
  (MkEffect (wals backends ≫= fun _ => (wal_write_execution batching record).1)
     (wals backends ≫= fun _ => (wal_write_execution batching record).2)
     (acknowledge backends rs (key_text "execution_id" record) now),
   MkResult (names_of true rs) (names_of false rs)).

Definition write_tool_event (backends : list backend) (remote : bool) (record : dict) (now : Z) : effect :=
  MkEffect (map (fun _ => TEnqueue (WTool record)) (wals backends)) []
    (acknowledge backends (results backends remote) (key_text "event_id" record) now).

(** The backends [write_attempt] awaits and those it leaves to background
    tasks: with a log the log alone is awaited. *)
Fixpoint split_wal (backends : list backend) : option (list backend) :=
  match backends with
  | [] => None
  | WalB :: bs => Some bs
  | b :: bs => match split_wal bs with Some r => Some (b :: r) | None => None end
  end.

Definition write_attempt (backends : list backend) : list backend * list backend :=
  match split_wal backends with
  | Some others => ([WalB], others)
  | None => (backends, [])
  end.

Definition attempt_events (a : attempt) (legs : list backend) : list wal_event :=
  map (fun _ => TEnqueue (WAttempt a)) (wals legs).

(** ** A record waits for its acknowledgement *)

(** Queued for the writer thread, or a pending row *)
Definition awaited (data : dict) (l : log) : Prop :=
  WExecution data ∈ l_queue l \/ pending (id_of_record data) (l_db l).

(** The writer thread accepts the record. *)
Definition thread_storable (data : dict) : Prop :=
  forall d now, is_ok (_do_write_execution d data now) = true.

Lemma do_write_there d data now d' :
  _do_write_execution d data now = Ok d' -> pending (id_of_record data) d'.
Proof.
  unfold _do_write_execution. intros Hw. apply res_bind_ok in Hw as (json & _ & Hw).
  apply res_bind_ok in Hw as (idv & Hidv & Hw). apply res_bind_ok in Hw as (id & Hid & Hw).
  apply res_bind_ok in Hw as (m & _ & Hw). apply insert_there in Hw; [|done].
  unfold getitem in Hidv. unfold id_of_record, dget. destruct (od_get _ _); [|done].
  simplify_eq/=. destruct idv; by simplify_eq/=.
Qed.

Lemma execute_there batch now data : WExecution data ∈ batch -> thread_storable data ->
  forall d, pending (id_of_record data) (_execute_batch d batch now).
Proof.
  intros Hin Hok. unfold _execute_batch. induction batch as [|w batch IH]; intros d;
    [by apply not_elem_of_nil in Hin|].
  simpl. apply elem_of_cons in Hin as [<-|Hin]; [|by apply IH].
  apply execute_pending. specialize (Hok d now). simpl.
  destruct (_do_write_execution d data now) eqn:Hw; [|done]. by eapply do_write_there.
Qed.

Lemma step_awaited l e data : thread_storable data ->
  match e with TMark i _ | TDead i _ _ => i <> id_of_record data | _ => True end ->
  awaited data l -> awaited data (wal_step l e).
Proof.
  intros Hok He [Hq|Hp]; [|right; by apply step_pending].
  destruct e as [w|n now|x now|b now|i now|i why now|a now|a now]; try (by left).
  - left. apply elem_of_app. by left.
  - simpl. rewrite <- (take_drop (Nat.min n _BATCH_MAX) (l_queue l)) in Hq.
    apply elem_of_app in Hq as [Hq|Hq]; [right|by left]. by apply execute_there.
Qed.

Lemma run_awaited es data : thread_storable data -> ~ acked (id_of_record data) es ->
  forall l, awaited data l -> awaited data (wal_run l es).
Proof.
  intros Hok. unfold wal_run. induction es as [|e es IH]; intros Ha l Hl; simpl; [done|].
  apply IH.
  - intros (e' & He & Hm). apply Ha. exists e'. split; [by right|done].
  - apply step_awaited; [done| |done].
    destruct e; try done; intros ->; apply Ha; eexists; (split; [by left|done]).
Qed.

Lemma mark_not_pending d id now : ~ pending id (mark_delivered d id now).
Proof.
  intros (r & Hr & Hid & Hd). simpl in Hr. apply list_elem_of_fmap in Hr as (x & -> & _).
  case_decide; simpl in *; congruence.
Qed.

Lemma wals_events backends record :
  has_wal backends = true ->
  exists es, (wals backends ≫= fun _ => (wal_write_execution false record).1)
             = TEnqueue (WExecution record) :: es /\
    Forall (fun e => e = TEnqueue (WExecution record)) es.
Proof.
  unfold has_wal, wals. intros Hw%bool_decide_eq_true. simpl.
  induction backends as [|b bs IH]; [by apply not_elem_of_nil in Hw|]. simpl.
  case_bool_decide as Hb.
  - simpl. eexists. split; [reflexivity|]. clear. induction bs as [|b bs IH]; simpl; [constructor|].
    case_bool_decide; simpl; [constructor|]; done.
  - apply elem_of_cons in Hw as [<-|Hw]; [done|]. by apply IH.
Qed.

Lemma not_acked_enqueues es id w : Forall (fun e => e = TEnqueue w) es -> ~ acked id es.
Proof. rewrite Forall_forall. intros Hf (e & He & Hm). apply Hf in He. by subst e. Qed.

Lemma acked_app id a b : acked id (a ++ b) <-> acked id a \/ acked id b.
Proof. unfold acked. setoid_rewrite elem_of_app. naive_solver. Qed.

Lemma wal_run_app l a b : wal_run l (a ++ b) = wal_run (wal_run l a) b.
Proof. apply foldl_app. Qed.

(**  The router acknowledges exactly what Walacor confirmed.  With a log and
    the Walacor backend registered, an execution record that Walacor refused is,
    whatever happens during and after the call, still queued or pending until some
    other event acknowledges it; a record that Walacor confirmed after the writer
    thread had taken it off the queue is not pending when the call returns, and so
    will not be sent again. *)
Theorem router_acknowledges backends record remote during l now :
  has_wal backends = true -> WalacorB ∈ backends -> thread_storable record ->
  dget "execution_id" record = PStr (id_of_record record) -> id_of_record record <> "" ->
  let '(eff, r) := write_execution backends false remote record now in
  let l' := wal_run l (before eff ++ during) in
  ("walacor" ∈ succeeded r <-> remote = true) /\
  (remote = false -> ~ acked (id_of_record record) during ->
   after eff = [] /\ awaited record l') /\
  (remote = true -> ~ pending (id_of_record record) (l_db (wal_run l' (after eff)))).
Proof.
  intros Hw Hr Hok Hid Hne. unfold write_execution. cbv zeta. cbn [before after succeeded].
  assert ("walacor" ∈ names_of true (results backends remote) <-> remote = true) as Hn.
  { unfold names_of, results. rewrite list_elem_of_fmap. split.
    - intros ([n ok] & Heq & Hin). simpl in Heq. subst n. apply elem_filter in Hin as [Hin Hok2].
      apply list_elem_of_fmap in Hin as ([] & [= ->] & _). by destruct remote.
    - intros ->. exists ("walacor", true). split; [done|]. apply elem_filter. split; [|done].
      apply list_elem_of_fmap. by exists WalacorB. }
  split; [done|]. split.
  - intros -> Ha. split.
    + unfold acknowledge. by rewrite bool_decide_false by naive_solver.
    + destruct (wals_events backends record Hw) as (es & -> & Hes). rewrite wal_run_app.
      apply run_awaited; [done|done|]. simpl. apply run_awaited; [done| |].
      * by eapply not_acked_enqueues.
      * left. simpl. apply elem_of_app. right. by apply list_elem_of_singleton.
  - intros ->. unfold acknowledge. rewrite bool_decide_true by by apply Hn.
    unfold _mark_wal_delivered, key_text. rewrite Hid. cbn [por truthy].
    destruct (id_of_record record) as [|c s] eqn:Hc; [done|]. rewrite Hw. simpl.
    apply (mark_not_pending _ (String c s)).
Qed.

(** ** Completeness (middleware/completeness.py) *)

Definition _SKIP_PATHS : list string :=
  ["/"; "/health"; "/metrics"; "/v1/models"; "/v1/connections"; "/v1/readiness"].
Definition _SKIP_PREFIXES : list string :=
  ["/lineage"; "/v1/lineage"; "/v1/control"; "/v1/attestation-proofs"; "/v1/policies";
   "/v1/compliance"; "/v1/openwebui"; "/v1/attachments"; "/api"].

Definition untracked (path : string) : bool :=
  bool_decide (path ∈ _SKIP_PATHS) || existsb (fun p => startswith p path) _SKIP_PREFIXES.

(** What the handlers left on [request.state]; [None] where the attribute is
    missing and the context variable is read instead *)
Record request_state := MkState {
  walacor_disposition : option string;
  walacor_provider : option (option string);
  walacor_model_id : option (option string);
  walacor_execution_id : option (option string);
  walacor_user_id : option string;
  walacor_reason : option string;
}.

(** The context variables as the middleware sees them *)
Record context := MkContext {
  disposition_var : string;
  provider_var : option string;
  model_id_var : option string;
  execution_id_var : option string;
}.

(** [new_request_id] resets them. *)
Definition fresh_context : context := MkContext "error_gateway" None None None.

(** How the inner application left: with a response, or with an exception *)
Inductive outcome := Responded (status : Z) | Raised.

Record request := MkRequest {
  r_id : string;             (** the fresh uuid *)
  r_path : string;
  r_state : request_state;
  r_context : context;
  r_outcome : outcome;
}.

Definition status_code (o : outcome) : Z := match o with Responded s => s | Raised => 500 end.

(** The record the [finally] block builds *)
Definition attempt_of (tenant : string) (r : request) : attempt :=
  let st := r_state r in let c := r_context r in
  MkAttempt (r_id r) 0 tenant (r_path r) (default (disposition_var c) (walacor_disposition st))
    (status_code (r_outcome r))
    (default (provider_var c) (walacor_provider st))
    (default (model_id_var c) (walacor_model_id st))
    (default (execution_id_var c) (walacor_execution_id st))
    (walacor_user_id st) (walacor_reason st).

(** [completeness_middleware]: the attempt it spawns a write for *)
Definition completeness_middleware (enabled storage : bool) (tenant : string) (r : request)
    : option attempt :=
  if untracked (r_path r) then None
  else if enabled && storage then Some (attempt_of tenant r) else None.

(** The gateway over time: requests leave the middleware, everything else that
    happens to the log is in between. *)
Inductive gateway_event :=
  | Left (r : request)
  | Other (e : wal_event).

(** The log's events of one gateway event: the awaited leg of the attempt write.
    A timeout of the write cannot come between, since an enqueue never waits. *)
Definition gateway_events (backends : list backend) (enabled : bool) (tenant : string)
    (e : gateway_event) : list wal_event :=
  match e with
  | Left r =>
      match completeness_middleware enabled (negb (bool_decide (backends = []))) tenant r with
      | Some a => attempt_events a (write_attempt backends).1
      | None => []
      end
  | Other e => [e]
  end.

Definition gateway_run (backends : list backend) (enabled : bool) (tenant : string) (l : log)
    (es : list gateway_event) : log :=
  wal_run l (es ≫= gateway_events backends enabled tenant).

(** The attempts that are due *)
Definition due (tenant : string) (es : list gateway_event) : list attempt :=
  es ≫= fun e => match e with
                 | Left r => if untracked (r_path r) then [] else [attempt_of tenant r]
                 | Other _ => []
                 end.

(** A row as the log keeps it, its timestamp left out *)
Definition row_of (a : attempt) : attempt :=
  MkAttempt (request_id a) 0 (a_tenant_id a) (a_path a) (a_disposition a) (a_status_code a)
    (or_none (a_provider a)) (or_none (a_model_id a)) (or_none (a_execution_id a))
    (or_none (a_user a)) (or_none (a_reason a)).

Definition queued_attempts (q : list work) : list attempt :=
  omap (fun w => match w with WAttempt a => Some (row_of a) | _ => None end) q.

(** Everything written or on its way, in the order it was spawned *)
Definition attempts_of (l : log) : list attempt :=
  map row_of (gateway_attempts (l_db l)) ++ queued_attempts (l_queue l).

(** The other events neither purge attempts nor write any. *)
Definition no_attempts (e : wal_event) : Prop :=
  match e with TPurgeAttempts _ _ | TEnqueue (WAttempt _) => False | _ => True end.

Lemma or_none_idem o : or_none (or_none o) = or_none o.
Proof. by destruct o as [[|c s]|]. Qed.

Lemma insert_attempt_new a l :
  request_id a ∉ map request_id l -> insert_attempt a l = l ++ [a].
Proof.
  unfold insert_attempt. intros Hn. f_equal. induction l as [|x l IH]; simpl in *; [done|].
  apply not_elem_of_cons in Hn as [Hx Hn]. rewrite bool_decide_false by congruence. simpl.
  by rewrite IH.
Qed.

Lemma row_of_written d a now :
  request_id a ∉ map request_id (gateway_attempts d) ->
  map row_of (gateway_attempts (Wal.write_attempt d a now)) = map row_of (gateway_attempts d) ++ [row_of a].
Proof.
  intros Hn. unfold Wal.write_attempt. cbn [gateway_attempts]. rewrite insert_attempt_new by done.
  rewrite map_app. unfold row_of. simpl. by rewrite !or_none_idem.
Qed.

(** Everything but attempts leaves them alone. *)
Lemma perform_attempts d w now d' : perform d w now = Ok d' ->
  match w with WAttempt _ => True | _ => gateway_attempts d' = gateway_attempts d end.
Proof.
  assert (forall r d1 d2, insert r d1 = Ok d2 -> gateway_attempts d2 = gateway_attempts d1) as Hins.
  { unfold insert. intros r d1 d2. destruct (forallb _ _); [|done]. by intros [= <-]. }
  destruct w as [data|a|data]; simpl; intros Hw; [|done|].
  - unfold _do_write_execution in Hw. repeat (apply res_bind_ok in Hw as (? & ? & Hw)). by eapply Hins.
  - unfold _do_write_tool_event in Hw. repeat (apply res_bind_ok in Hw as (? & ? & Hw)). by eapply Hins.
Qed.

Lemma map_row_ids l : map request_id (map row_of l) = map request_id l.
Proof. induction l as [|a l IH]; simpl; [done|]. by rewrite IH. Qed.

Lemma execute_attempts batch now : forall d rest,
  NoDup (map request_id (map row_of (gateway_attempts d) ++ queued_attempts batch ++ rest)) ->
  map row_of (gateway_attempts (_execute_batch d batch now)) =
  map row_of (gateway_attempts d) ++ queued_attempts batch.
Proof.
  unfold _execute_batch. induction batch as [|w batch IH]; intros d rest Hnd; simpl; [by rewrite app_nil_r|].
  destruct w as [data|a|data]; simpl in *.
  - pose proof (perform_attempts d (WExecution data) now) as Hp. simpl in Hp.
    destruct (_do_write_execution d data now) as [d'|]; [|by apply IH in Hnd].
    rewrite <- (Hp d' eq_refl) in Hnd |- *. by apply IH in Hnd.
  - assert (request_id a ∉ map request_id (gateway_attempts d)) as Hn.
    { rewrite map_app in Hnd. apply NoDup_app in Hnd as (_ & Hd & _). rewrite map_row_ids in Hd.
      intros Hin. apply (Hd _ Hin). by left. }
    erewrite IH.
    + rewrite row_of_written, <- app_assoc by done. done.
    + rewrite row_of_written, <- app_assoc by done. exact Hnd.
  - pose proof (perform_attempts d (WTool data) now) as Hp. simpl in Hp.
    destruct (_do_write_tool_event d data now) as [d'|]; [|by apply IH in Hnd].
    rewrite <- (Hp d' eq_refl) in Hnd |- *. by apply IH in Hnd.
Qed.

Lemma step_attempts l e :
  no_attempts e -> NoDup (map request_id (attempts_of l)) -> attempts_of (wal_step l e) = attempts_of l.
Proof.
  unfold attempts_of. intros He Hnd.
  destruct e as [w|n now|data now|batch now|i now|i why now|a now|a now]; simpl; try done.
  - unfold queued_attempts. rewrite omap_app. simpl. destruct w; simpl; try done; by rewrite app_nil_r.
  - set (k := Nat.min n _BATCH_MAX).
    assert (queued_attempts (l_queue l) =
            queued_attempts (take k (l_queue l)) ++ queued_attempts (drop k (l_queue l))) as Hq.
    { unfold queued_attempts. by rewrite <- omap_app, take_drop. }
    rewrite Hq in Hnd. rewrite Hq, (execute_attempts _ _ _ _ Hnd). by rewrite <- app_assoc.
  - destruct (write_durable _ _ _) as [d'|] eqn:Hw; simpl; [|done]. do 2 f_equal.
    unfold write_durable in Hw. repeat (apply res_bind_ok in Hw as (? & ? & Hw)).
    unfold insert in Hw. destruct (forallb _ _); [|done]. by injection Hw as <-.
  - f_equal. f_equal. unfold write_batch. destruct (map_res _ batch) as [rows|]; [|done]. clear.
    generalize (l_db l). induction rows as [|r rows IH]; intros d; [done|]. cbn [executemany].
    destruct (insert r d) as [d1|] eqn:Hi; [|done]. rewrite IH. unfold insert in Hi.
    destruct (forallb _ _); [|done]. by injection Hi as <-.
Qed.

Lemma wal_leg backends a : has_wal backends = true ->
  attempt_events a (write_attempt backends).1 = [TEnqueue (WAttempt a)].
Proof.
  unfold has_wal. intros Hw%bool_decide_eq_true. unfold write_attempt.
  assert (exists r, split_wal backends = Some r) as [r ->]; [|done].
  induction backends as [|b bs IH]; [by apply not_elem_of_nil in Hw|].
  destruct b; [by eexists|]. apply elem_of_cons in Hw as [?|Hw]; [done|].
  destruct (IH Hw) as [r Hr]. simpl. rewrite Hr. by eexists.
Qed.

Definition ids_of (es : list gateway_event) : list string :=
  omap (fun e => match e with Left r => Some (r_id r) | Other _ => None end) es.

Definition quiet (e : gateway_event) : Prop :=
  match e with Left _ => True | Other e => no_attempts e end.

Lemma enqueue_attempts l a : attempts_of (wal_step l (TEnqueue (WAttempt a))) = attempts_of l ++ [row_of a].
Proof. unfold attempts_of, queued_attempts. simpl. rewrite omap_app. simpl. by rewrite app_assoc. Qed.

Lemma gateway_attempts_run backends tenant es : has_wal backends = true -> Forall quiet es ->
  forall l, NoDup (map request_id (attempts_of l) ++ ids_of es) ->
  attempts_of (gateway_run backends true tenant l es) = attempts_of l ++ map row_of (due tenant es).
Proof.
  intros Hw Hq. unfold gateway_run. induction Hq as [|e es He Hq IH]; intros l Hnd; [by rewrite app_nil_r|].
  simpl. rewrite wal_run_app. destruct e as [r|e]; simpl in *.
  - unfold completeness_middleware.
    assert (negb (bool_decide (backends = [])) = true) as ->
      by (apply negb_true_iff, bool_decide_eq_false; intros ->; done).
    apply NoDup_app in Hnd as (Hl & Hd & Hes). apply NoDup_cons in Hes as [Hr Hes].
    destruct (untracked (r_path r)); simpl.
    + apply IH. apply NoDup_app. split; [done|]. split; [|done]. intros x Hx Hin. apply (Hd x Hx). by right.
    + rewrite wal_leg by done. set (a := attempt_of tenant r) in *.
      change (wal_run l [TEnqueue (WAttempt a)]) with (wal_step l (TEnqueue (WAttempt a))).
      rewrite IH; rewrite enqueue_attempts; [by rewrite <- app_assoc|].
      rewrite map_app, <- app_assoc. apply NoDup_app. split; [done|]. split.
      * intros x Hx [->|Hin]%elem_of_cons; apply (Hd _ Hx); [by left|by right].
      * by apply NoDup_cons.
  - pose proof Hnd as Hnd'. apply NoDup_app in Hnd' as (Hl & _).
    change (wal_run l [e]) with (wal_step l e). rewrite IH; by rewrite step_attempts.
Qed.

(** C9.  Every tracked request leaves exactly one attempt.  With completeness
    enabled and a log registered, for any interleaving of requests -- answered or
    failing with an exception -- with any other activity of the log, the attempts
    written or queued are exactly one per tracked request, in the order in which the
    requests left, each with its request id, disposition and status (500 for an
    exception); once the writer thread has emptied its queue they are the rows of
    [gateway_attempts].  The request ids are distinct uuids, and nothing purges
    the attempts. *)
Theorem completeness_invariant backends tenant es :
  has_wal backends = true -> NoDup (ids_of es) -> Forall quiet es ->
  let l := gateway_run backends true tenant (MkLog empty_db []) es in
  attempts_of l = map row_of (due tenant es) /\
  (l_queue l = [] -> map row_of (gateway_attempts (l_db l)) = map row_of (due tenant es)) /\
  (forall r, Left r ∈ es -> untracked (r_path r) = false ->
     exists a, a ∈ attempts_of l /\ request_id a = r_id r /\ a_status_code a = status_code (r_outcome r)).
Proof.
  intros Hw Hnd Hq. cbv zeta.
  pose proof (gateway_attempts_run backends tenant es Hw Hq (MkLog empty_db []) Hnd) as Hrun.
  split; [exact Hrun|]. split.
  - intros Hempty. rewrite <- (app_nil_l (map row_of (due tenant es))).
    etransitivity; [|exact Hrun]. unfold attempts_of. rewrite Hempty. by rewrite app_nil_r.
  - intros r Hr Hu. exists (row_of (attempt_of tenant r)). split; [|done]. rewrite Hrun. simpl.
    apply list_elem_of_fmap. exists (attempt_of tenant r). split; [done|].
    unfold due. apply list_elem_of_bind. exists (Left r). split; [|done]. rewrite Hu. by left.
Qed.

(** Every path under [/api] is skipped, the chat endpoints included. *)
Lemma api_untracked p : startswith "/api" p = true -> untracked p = true.
Proof.
  intros Hp. unfold untracked. apply orb_true_iff. right. apply existsb_exists.
  exists "/api". split; [simpl; tauto|done].
Qed.
End storage.

(** ** Runs *)
Module StorageRuns.
Import Wal.WalRuns.

Definition state0 : request_state := MkState (Some "allowed") None None None (Some "u") None.
Definition chat (id : string) (o : outcome) : request :=
  MkRequest id "/v1/chat/completions" state0 fresh_context o.

Definition day : list gateway_event :=
  [Left (chat "r1" (Responded 200)); Other (TEnqueue (WExecution (rec "e1")));
   Left (MkRequest "r2" "/health" state0 fresh_context (Responded 200)); Other (TThread 2 10);
   Left (chat "r3" Raised); Other (TPurge 0 20);
   Left (MkRequest "r4" "/api/chat" state0 fresh_context (Responded 200)); Other (TThread 50 30)].

Example day_rows :
  map (fun a => (request_id a, a_status_code a))
    (gateway_attempts (l_db (gateway_run [WalB; WalacorB] true "t" (MkLog empty_db []) day)))
  = [("r1", 200); ("r3", 500)].
Proof. vm_compute. reflexivity. Qed.

Lemma completeness_invariant_witness :
  map row_of (gateway_attempts (l_db (gateway_run [WalB; WalacorB] true "t" (MkLog empty_db []) day)))
  = map row_of (due "t" day).
Proof.
  apply (completeness_invariant [WalB; WalacorB] "t" day).
  - reflexivity.
  - apply (bool_decide_unpack _). vm_compute. exact I.
  - repeat constructor.
  - vm_compute. reflexivity.
Defined.

Lemma rec_storable id d now : is_ok (write_durable d (rec id) now) = true.
Proof. reflexivity. Qed.

Definition two : list batch_event := [BEnqueue (rec "e1"); BEnqueue (rec "e2"); BGet; BWrite 10].

Lemma batch_writer_keeps_witness :
  exists s, batch_run 2 new_batcher two = Some s /\ accounted s (rec "e1") /\ b_queue s = [].
Proof.
  eexists. split; [vm_compute; reflexivity|]. split; [|reflexivity].
  eapply (batch_writer_keeps 2 two new_batcher).
  - vm_compute. reflexivity.
  - intros now Hin. unfold two in Hin.
    repeat (apply elem_of_cons in Hin as [Hin|Hin]; [discriminate Hin|]). by apply not_elem_of_nil in Hin.
  - split; [reflexivity|]. intros. apply rec_storable.
  - right. by left.
Defined.

Lemma stop_drops_gathered_witness :
  batch_run 50 new_batcher [BEnqueue (rec "e1"); BGet; BStop 7] = Some (MkBatcher [] Stopped empty_db).
Proof. apply (proj2 (stop_drops_gathered 50 7 (rec "e1"))). lia. Defined.

Lemma router_acknowledges_witness :
  ~ pending "e1" (l_db (wal_run (MkLog empty_db [])
      [TEnqueue (WExecution (rec "e1")); TThread 1 5; TMark "e1" 9])).
Proof.
  refine (proj2 (proj2 (router_acknowledges [WalB; WalacorB] (rec "e1") true [TThread 1 5]
            (MkLog empty_db []) 9 _ _ _ _ _)) _).
  - reflexivity.
  - right. by left.
  - intros d now. reflexivity.
  - reflexivity.
  - discriminate.
  - reflexivity.
Defined.
End StorageRuns.
