(* ===== verification/Concurrency.v ===== *)
(** * The adaptive concurrency limiter (routing/concurrency.py)

    Moving averages of the latency and the limit are IEEE doubles; the bounds
    are integers of at most 53 bits, so that Python's mixed comparisons of an
    integer with a float are comparisons of doubles. *)
From Stdlib Require Import SpecFloat.
From S2P Require Import Prelude PyVal.

Local Open Scope Z_scope.

Definition fadd : spec_float -> spec_float -> spec_float := SFadd prec emax.
Definition fsub : spec_float -> spec_float -> spec_float := SFsub prec emax.
Definition fmul : spec_float -> spec_float -> spec_float := SFmul prec emax.
Definition fdiv : spec_float -> spec_float -> spec_float := SFdiv prec emax.

(** [int(f)] truncates; infinities and nan raise. *)
Definition py_int (f : spec_float) : res Z :=
  match f with
  | S754_zero _ => Ok 0
  | S754_finite neg m e =>
      let n := if 0 <=? e then Z.shiftl (Zpos m) e else Z.shiftr (Zpos m) (- e) in
      Ok (if (neg : bool) then - n else n)
  | S754_infinity _ => Raise (OverflowError "cannot convert float infinity to integer")
  | S754_nan => Raise (ValueError "cannot convert float NaN to integer")
  end.

(** ** [EWMATracker] *)
Module EWMATracker.

Record tracker := MkTracker { _alpha : spec_float; _value : option spec_float }.

Definition update (t : tracker) (sample : spec_float) : tracker * spec_float :=
  let v := match _value t with
           | None => sample
           | Some v => fadd (fmul (_alpha t) sample) (fmul (fsub (sf_of_Z 1) (_alpha t)) v)
           end in
  (MkTracker (_alpha t) (Some v), v).

End EWMATracker.

(** ** [ConcurrencyLimiter] *)

Record limiter := MkLimiter {
  _min : Z;
  _max : Z;
  _limit : spec_float;
  _inflight : Z;
  _short_ewma : EWMATracker.tracker;
  _long_ewma : EWMATracker.tracker;
}.

Definition init (min_limit max_limit : Z) : limiter :=
  MkLimiter min_limit max_limit (sf_of_Z min_limit) 0
    (EWMATracker.MkTracker (sf_of_decimal false 5 (-1)) None)
    (EWMATracker.MkTracker (sf_of_decimal false 1 (-1)) None).

Definition limit (l : limiter) : res Z :=
  let! n := py_int (_limit l) in Ok (Z.max (_min l) (Z.min (_max l) n)).

Definition with_inflight (n : Z) (l : limiter) : limiter :=
  MkLimiter (_min l) (_max l) (_limit l) n (_short_ewma l) (_long_ewma l).

Definition try_acquire (l : limiter) : limiter * res bool :=
  match limit l with
  | Raise e => (l, Raise e)
  | Ok n => if n <=? _inflight l then (l, Ok false) else (with_inflight (_inflight l + 1) l, Ok true)
  end.

(** Python's [min(a, b)] and [max(a, b)] keep [a] unless [b] is strictly better. *)
Definition fmin (a b : spec_float) : spec_float := if SFltb b a then b else a.
Definition fmax (a b : spec_float) : spec_float := if SFltb a b then b else a.

Definition release (l : limiter) (rtt_seconds : spec_float) : limiter :=
  let '(short, short_val) := EWMATracker.update (_short_ewma l) rtt_seconds in
  let '(long, long_val) := EWMATracker.update (_long_ewma l) rtt_seconds in
  let gradient := if SFltb (sf_of_Z 0) short_val then fdiv long_val short_val else sf_of_Z 1 in
  let lim := if SFleb (sf_of_Z 1) gradient
             then fmin (sf_of_Z (_max l)) (fadd (_limit l) (sf_of_Z 1))
             else fmax (sf_of_Z (_min l)) (fmul (_limit l) (sf_of_decimal false 9 (-1))) in
  MkLimiter (_min l) (_max l) lim (Z.max 0 (_inflight l - 1)) short long.

(** ** Its bounds *)

Inductive op := Acquire | Release (rtt : spec_float).

(** One operation, with the number of slots it took *)
Definition step (l : limiter) (o : op) : limiter * Z :=
  match o with
  | Acquire => let '(l, r) := try_acquire l in (l, match r with Ok true => 1 | _ => 0 end)
  | Release rtt => (release l rtt, -1)
  end.

Fixpoint run (l : limiter) (ops : list op) : limiter * Z :=
  match ops with
  | [] => (l, 0)
  | o :: ops => let '(l, n) := step l o in let '(l, m) := run l ops in (l, n + m)
  end.

(** Every release gives back a slot that is held. *)
Fixpoint disciplined (l : limiter) (held : Z) (ops : list op) : Prop :=
  match ops with
  | [] => True
  | o :: ops =>
      match o with Release _ => 0 < held | Acquire => True end /\
      disciplined (step l o).1 (held + (step l o).2) ops
  end.

Lemma limit_bounds l n : limit l = Ok n -> _min l <= _max l -> _min l <= n <= _max l.
Proof.
  unfold limit. destruct (py_int (_limit l)); [|done]. intros [= <-]. lia.
Qed.

Lemma release_fields l rtt :
  _min (release l rtt) = _min l /\ _max (release l rtt) = _max l /\
  _inflight (release l rtt) = Z.max 0 (_inflight l - 1).
Proof.
  unfold release. destruct (EWMATracker.update _ _), (EWMATracker.update _ _). done.
Qed.

Lemma step_bounds l o :
  _min l <= _max l -> 0 <= _inflight l <= Z.max 0 (_max l) ->
  let l' := (step l o).1 in
  _min l' = _min l /\ _max l' = _max l /\ 0 <= _inflight l' <= Z.max 0 (_max l') /\
  (match o with Release _ => 0 < _inflight l | Acquire => True end ->
   _inflight l' = _inflight l + (step l o).2).
Proof.
  intros Hm Hi l'. subst l'. destruct o as [|rtt]; cbn [step fst snd].
  - unfold try_acquire. destruct (limit l) as [n|] eqn:Hl; simpl; [|by repeat split; lia].
    apply limit_bounds in Hl; [|done].
    destruct (n <=? _inflight l) eqn:Hn; simpl; zbool; repeat split; lia.
  - destruct (release_fields l rtt) as (-> & -> & ->). repeat split; try lia.
Qed.

(**  The limiter bounds what it lets through.  In any run the number of
    requests in flight stays between zero and the maximum; and as long as every
    release gives back a slot that is held, it is exactly the number of slots
    taken and not yet given back. *)
Theorem inflight_exact l ops :
  _min l <= _max l -> 0 <= _inflight l <= Z.max 0 (_max l) ->
  0 <= _inflight (run l ops).1 <= Z.max 0 (_max (run l ops).1) /\
  (disciplined l (_inflight l) ops -> _inflight (run l ops).1 = _inflight l + (run l ops).2).
Proof.
  revert l. induction ops as [|o ops IH]; intros l Hm Hi; cbn [run disciplined].
  { split; [done|cbn [fst snd]; lia]. }
  pose proof (step_bounds l o Hm Hi) as (Hmin & Hmax & Hi' & Hx).
  destruct (step l o) as [l1 n]. cbn [fst snd] in *. specialize (IH l1 ltac:(lia) Hi').
  destruct (run l1 ops) as [l2 m]. cbn [fst snd] in *. destruct IH as [IH1 IH2]. split; [done|].
  intros [Ho Hd]. rewrite <- Hx in Hd by done. rewrite IH2, Hx by done. lia.
Qed.

Definition busy : list op := [Acquire; Acquire; Release (sf_of_Z 1); Acquire; Acquire].

Lemma inflight_exact_witness :
  _inflight (run (init 2 8) busy).1 = 0 + (run (init 2 8) busy).2 /\ (run (init 2 8) busy).2 = 3.
Proof.
  split; [|vm_compute; reflexivity].
  apply (inflight_exact (init 2 8) busy).
  - vm_compute. discriminate.
  - split; vm_compute; discriminate.
  - vm_compute. repeat split.
Defined.

(** A full limiter stays full without a release. *)
Lemma full_refuses l n :
  limit l = Ok n -> n <= _inflight l -> try_acquire l = (l, Ok false).
Proof. intros Hl Hn. unfold try_acquire. rewrite Hl. by rewrite (proj2 (Z.leb_le _ _) Hn). Qed.

Lemma limit_with_inflight k l : limit (with_inflight k l) = limit l.
Proof. done. Qed.

Lemma free_acquires l n :
  limit l = Ok n -> _inflight l < n -> try_acquire l = (with_inflight (_inflight l + 1) l, Ok true).
Proof. intros Hl Hn. unfold try_acquire. rewrite Hl. by rewrite (proj2 (Z.leb_gt _ _) Hn). Qed.

(** ** The registry of limiters *)

(** [_get_or_create_limiter] *)
Definition _get_or_create_limiter (m : gmap string limiter) (provider : string) (mn mx : Z)
    : gmap string limiter * limiter :=
  match m !! provider with
  | Some l => (m, l)
  | None => let l := init mn mx in (<[provider := l]> m, l)
  end.
