(* ===== verification/Pipeline.v ===== *)
(** * The request pipeline (pipeline/orchestrator.py)

    [_run_pre_checks] composed from the components it calls -- attestation,
    policies, WAL back-pressure, budget, rate limit -- on their own states, and
    the control flow of [_handle_request_inner] after it as a list of effects,
    with the concurrency limiter.  What happens outside the gateway (the provider,
    the tool loop, the response analysers) is an argument.  Parsing the request,
    metadata, tool preparation, metrics, headers and the transparent proxy of
    [skip_governance] are not modelled. *)
From S2P Require Import Prelude ODict PyVal Attestation PolicyEngine RateLimit Budget Wal Concurrency.

Local Open Scope Z_scope.

(** ** The pre-checks *)

(** The parts of the pipeline context the checks use *)
Record world := MkWorld {
  w_att : option Attestation.cache;
  w_policy : option Cache.cache;
  w_wal : option (Wal.db * Z);              (** the log and its bytes on disk *)
  w_budget : option Budget.Memory.tracker;
  w_limiter : option RateLimit.Sliding.limiter;
  w_disposition : string;                   (** the last disposition *)
}.

Record settings := MkSettings {
  audit_only : bool;
  att_settings : Attestation.settings;
  opa : option (bool * string);             (** the OPA engine's answer, when it is configured *)
  wal_high_water_mark : Z;
  wal_max_bytes : Z;
  token_budget_enabled : bool;
  rate_limit_enabled : bool;
  rate_limit_rpm : Z;
  rate_limit_per_model : bool;
}.

(** The request as the checks see it *)
Record call := MkCall {
  provider : string;
  model_id : string;
  prompt_text : string;
  user : option string;
  caller_tenant : string;                   (** [_resolve_tenant] *)
  caller_role : option string;
  sync_client : option Attestation.refresher;
  control_store : option (list Attestation.store_row);
  per_key_policies : option (list dict);    (** [_get_policies_for_key] *)
}.

(** The clocks of one request *)
Record clocks := MkClocks {
  c_att : nat -> Z;
  c_policy : Z;
  c_budget : Budget.datetime;
  c_rate : Z;
}.

Definition disposed (d : string) (w : world) : world :=
  MkWorld (w_att w) (w_policy w) (w_wal w) (w_budget w) (w_limiter w) d.

(** The attestation context the policies see, the role added *)
Definition context_of (a : Attestation.att_context) (role : option string) : dict :=
  [("model_id", PStr (Attestation.c_model_id a)); ("provider", PStr (Attestation.c_provider a));
   ("status", PStr (Attestation.c_status a));
   ("verification_level", PStr (Attestation.c_verification_level a));
   ("tenant_id", PStr (Attestation.c_tenant_id a))]
  ++ match role with Some r => [("caller_role", PStr r)] | None => [] end.

(** What a check returns: its error response's status, if any, and whether it
    would have blocked *)
Record verdict := MkVerdict {
  v_error : option Z;
  v_would_block : bool;
  v_reason : option string;
}.

Definition pass (whb : bool) (why : option string) : verdict := MkVerdict None whb why.

(** [reason or d] *)
Definition or_reason (why : option string) (d : string) : option string :=
  match why with None | Some EmptyString => Some d | w => w end.

(** A block, which audit-only mode turns into a note *)
Definition block (s : settings) (w : world) (whb : bool) (why : option string)
    (status : Z) (disposition name : string) : world * verdict :=
  if audit_only s then (w, MkVerdict None true (or_reason why name))
  else (disposed disposition w, MkVerdict (Some status) whb why).

(** The policy cache a request is judged by: the caller's own policies in a
    cache just filled, or the gateway's *)
Definition judging (k : call) (now : Z) (w : world) : option Cache.cache :=
  match per_key_policies k with
  | Some ps => Some (Cache.set_policies (Cache.init 86400)
                       (match w_policy w with Some c => Cache.cache_version c | None => 0 end) ps now)
  | None => w_policy w
  end.

Section checks.
Context `{Regex}.

(** [_pre_policy_check]: the policies' version, result, and verdict *)
Definition _pre_policy_check (s : settings) (k : call) (ctx : dict) (whb : bool)
    (why : option string) (now : Z) (w : world) : world * res (Z * string * verdict) :=
  match opa s with
  | Some (allowed, opa_reason) =>
      if (allowed : bool) then (w, Ok (0, "opa_allow", pass whb why))
      else let '(w, v) := block s w whb why 403 "denied_by_opa" "opa" in
           (w, Ok (0, opa_reason, v))
  | None =>
      match judging k now w with
      | None => (w, Raise (OtherError "AttributeError"))
      | Some c =>
          match PreInference.evaluate_pre_inference c (prompt_text k) ctx now with
          | Raise e => (w, Raise e)
          | Ok o =>
              let pv := PreInference.policy_version o in
              let pr := PreInference.policy_result o in
              match PreInference.error_response o with
              | None => (w, Ok (pv, pr, pass whb why))
              | Some r =>
                  let '(w, v) := block s w whb why (PreInference.status_code r) "denied_policy" "policy" in
                  (w, Ok (pv, pr, v))
              end
          end
      end
  end.

(** [_wal_backpressure_check] *)
Definition _wal_backpressure_check (s : settings) (w : world) : world * option Z :=
  match w_wal w with
  | None => (w, None)
  | Some (d, disk_bytes) =>
      if (wal_high_water_mark s <=? Wal.pending_count d)
         || ((0 <? wal_max_bytes s) && (wal_max_bytes s <=? disk_bytes))
      then (disposed "denied_wal_full" w, Some 503)
      else (w, None)
  end.

(** [max(len(prompt) // 4, 1)] *)
Definition estimate (k : call) : Z := Z.max (Z.of_nat (String.length (prompt_text k)) / 4) 1.

Definition with_budget (t : Budget.Memory.tracker) (w : world) : world :=
  MkWorld (w_att w) (w_policy w) (w_wal w) (Some t) (w_limiter w) (w_disposition w).

(** [_budget_check]: what is left, the reservation, the verdict.  A tracker that
    raises fails open. *)
Definition _budget_check (s : settings) (k : call) (whb : bool) (why : option string)
    (now : Budget.datetime) (w : world) : world * (option Z * Z * verdict) :=
  match w_budget w, token_budget_enabled s with
  | Some t, true =>
      let '(t, r) := Budget.Memory.check_and_reserve t
                       (Attestation.gateway_tenant_id (att_settings s)) (user k) (estimate k) now in
      let w := with_budget t w in
      match r with
      | Raise _ => (w, (None, 0, pass whb why))
      | Ok (allowed, remaining) =>
          let rem := if 0 <=? remaining then Some remaining else None in
          if (allowed : bool) then (w, (rem, estimate k, pass whb why))
          else let '(w, v) := block s w whb why 429 "denied_budget" "budget" in (w, (rem, 0, v))
      end
  | _, _ => (w, (None, 0, pass whb why))
  end.

Definition rate_key (s : settings) (k : call) : string :=
  let u := default "anonymous" (user k) in
  if rate_limit_per_model s then (u +:+ ":" +:+ model_id k)%string else u.

(** [_rate_limit_check], which knows no audit-only mode *)
Definition _rate_limit_check (s : settings) (k : call) (now : Z) (w : world) : world * option Z :=
  match w_limiter w, rate_limit_enabled s with
  | Some d, true =>
      let '(d, (allowed, _)) := RateLimit.Sliding.check d (rate_key s k) (rate_limit_rpm s) (seconds 60) now in
      let w := MkWorld (w_att w) (w_policy w) (w_wal w) (w_budget w) (Some d) (w_disposition w) in
      if (allowed : bool) then (w, None) else (disposed "denied_rate_limit" w, Some 429)
  | _, _ => (w, None)
  end.

(** [_PreCheckResult] *)
Record pre_result := MkPre {
  p_error : option Z;
  p_att_id : string;
  p_version : Z;
  p_policy_result : string;
  p_budget_remaining : option Z;
  p_budget_estimated : Z;
  p_would_block : bool;
  p_reason : option string;
}.

Definition denied (status : Z) : pre_result := MkPre (Some status) "" 0 "" None 0 false None.

Definition with_att (c : Attestation.cache) (w : world) : world :=
  MkWorld (Some c) (w_policy w) (w_wal w) (w_budget w) (w_limiter w) (w_disposition w).

(** The concurrent part of [_run_pre_checks].  Policy, budget and rate limit run
    in one [gather]: all three happen, and then the first error in this order is
    returned.  The budget's verdict replaces the policy's.  A check that waits for
    a service (OPA, Redis) may finish after the next one; only the last
    disposition depends on it. *)
Definition _gather (s : settings) (k : call) (t : clocks) (a : Attestation.check_result) (w : world)
    : world * res pre_result :=
  let ctx := context_of (Attestation.att_ctx a) (caller_role k) in
  let whb := Attestation.would_block a in
  let why := Attestation.reason a in
  let '(w, policy) := _pre_policy_check s k ctx whb why (c_policy t) w in
  let '(w, (rem, est, vb)) := _budget_check s k whb why (c_budget t) w in
  let '(w, limited) := _rate_limit_check s k (c_rate t) w in
  (w, let! '(pv, pr, vp) := policy in
      Ok (match v_error vp, v_error vb, limited with
          | Some status, _, _ | None, Some status, _ | None, None, Some status => denied status
          | None, None, None =>
              MkPre None (Attestation.att_id a) pv pr rem est (v_would_block vb) (v_reason vb)
          end)).

Definition attested (s : settings) (k : call) (t : clocks) (c : Attestation.cache)
    : Attestation.check_result :=
  Attestation._attestation_check c (att_settings s) (audit_only s) (sync_client k)
    (control_store k) (provider k) (model_id k) (caller_tenant k) (c_att t).

(** [_run_pre_checks] *)
Definition _run_pre_checks (s : settings) (k : call) (t : clocks) (w : world)
    : world * res pre_result :=
  match w_att w with
  | None => (disposed "error_config" w, Ok (denied 503))
  | Some c =>
      let a := attested s k t c in
      let w := with_att (Attestation.cache_after a) w in
      match Attestation.error a with
      | Some status => (disposed "denied_attestation" w, Ok (denied status))
      | None =>
          if match w_policy w, opa s with None, None => true | _, _ => false end
          then (disposed "error_config" w, Ok (denied 503))
          else
            let '(w, full) := if audit_only s then (w, None) else _wal_backpressure_check s w in
            match full with
            | Some status => (w, Ok (denied status))
            | None => _gather s k t a w
            end
      end
  end.
End checks.

(** ** After the pre-checks *)

(** What [_handle_request_inner] does to the world around it, in order.  A
    background task counts where it is started. *)
Inductive effect :=
  | EAcquire                     (** a slot of the concurrency limiter *)
  | ERelease
  | EForward                     (** a call to the provider *)
  | ESettle (estimated : Z)      (** [_record_token_usage] *)
  | ECachePut
  | EAudit                       (** the execution record is built and written *)
  | EDisposition (d : string).

#[export] Instance effect_dec : EqDecision effect.
Proof. solve_decision. Defined.

(** How the handler leaves: with a response's status, or with an exception *)
Inductive leaving := Status (code : Z) | Failed.

(** What the other parts answer *)
Inductive tool_outcome :=
  | ToolsDone                    (** no tool call, or a loop that ended *)
  | ToolsError                   (** [tool_result.error] *)
  | ToolsStream (status : Z)     (** the loop's answer is streamed *)
  | ToolsRaise.

Record answers := MkAnswers {
  cached : option Z;             (** the status of a semantic-cache hit *)
  slot_free : res bool;          (** [try_acquire] *)
  provider_status : option Z;    (** [None] when the forward raises *)
  tools : tool_outcome;
  response_blocked : res bool;   (** [_run_response_policy] returned an error *)
  usage_ok : bool;               (** [_record_token_usage] does not raise *)
  parsed : bool;                 (** a stream is read and its buffer parses *)
  recorded : bool;               (** the record is built and handed to storage *)
}.

Record switches := MkSwitches {
  semantic_cache : bool;
  adaptive_concurrency : bool;
  asked_streaming : bool;        (** what the client asked for *)
  is_streaming : bool;           (** what is left of it at the forward *)
  has_writer : bool;             (** [ctx.wal_writer] or [ctx.walacor_client] *)
  has_storage : bool;            (** [ctx.storage] *)
  skip_audit : bool;             (** [request.state.skip_audit] *)
}.

(** [_record_token_usage] and [_finalize_audit_write] of an answer in one piece.  The
    first may raise, and the request with it; what the second raises is logged. *)
Definition settle_and_audit (x : switches) (a : answers) (est : Z) (before between after : list effect) (status : Z)
    : list effect * leaving :=
  if usage_ok a then
    (before ++ [ESettle est] ++ between
       ++ (if has_storage x && negb (skip_audit x) && recorded a then [EAudit] else []) ++ after, Status status)
  else (before, Failed).

(** [_after_stream_record]: without a writer it does nothing, and whatever raises in it
    ends it. *)
Definition after_stream (x : switches) (a : answers) (est : Z) : list effect :=
  if has_writer x && parsed a && usage_ok a then
    ESettle est :: (if has_storage x && recorded a then [EAudit] else [])
  else [].

(** The tail of the handler, from the answer of the provider on *)
Definition after_forward (x : switches) (a : answers) (est : Z) (status : Z) : list effect * leaving :=
  let release := if adaptive_concurrency x then [ERelease] else [] in
  if 500 <=? status then settle_and_audit x a est [EDisposition "error_provider"] [] [] status
  else match tools a with
       | ToolsRaise => ([], Failed)
       | ToolsError => settle_and_audit x a est [EDisposition "error_provider"] [] [] 500
       | ToolsStream code => (release ++ [EDisposition "allowed"] ++ after_stream x a est, Status code)
       | ToolsDone =>
           match response_blocked a with
           | Raise _ => ([], Failed)
           | Ok true => settle_and_audit x a est [EDisposition "denied_response_policy"] [] [] 403
           | Ok false =>
               settle_and_audit x a est [] (if semantic_cache x && (status =? 200) then [ECachePut] else [])
                 [EDisposition "allowed"] status
           end
       end.

(** [_handle_request_inner] after the pre-checks, for a prompt that is not empty *)
Definition proceed (x : switches) (a : answers) (est : Z) : list effect * leaving :=
  let forward :=
    let acquire := if adaptive_concurrency x then [EAcquire] else [] in
    let release := if adaptive_concurrency x then [ERelease] else [] in
    if is_streaming x then
      match provider_status a with
      | None => (acquire ++ [EDisposition "allowed"; EForward], Failed)
      | Some status =>
          (acquire ++ [EDisposition "allowed"; EForward] ++ release ++ after_stream x a est, Status status)
      end
    else
      match provider_status a with
      | None => (acquire ++ [EForward], Failed)
      | Some status =>
          let '(es, l) := after_forward x a est status in
          (acquire ++ [EForward] ++ release ++ es, l)
      end in
  let miss :=
    if adaptive_concurrency x then
      match slot_free a with
      | Raise _ => ([], Failed)
      | Ok false => ([EDisposition "error_overloaded"], Status 503)
      | Ok true => forward
      end
    else forward in
  match semantic_cache x && negb (asked_streaming x), cached a with
  | true, Some status => ([EDisposition "allowed"], Status status)
  | _, _ => miss
  end.

(** The handler from the pre-checks on *)
Definition handle `{Regex} (s : settings) (x : switches) (k : call) (t : clocks) (a : answers) (w : world)
    : world * (list effect * leaving) :=
  let '(w, pre) := _run_pre_checks s k t w in
  match pre with
  | Raise _ => (w, ([], Failed))
  | Ok p =>
      match p_error p with
      | Some status => (w, ([], Status status))
      | None => (w, proceed x a (p_budget_estimated p))
      end
  end.

(** ** No provider is called without governance *)

Section governance.
Context `{Regex}.

(** The policies let the request through: OPA's when it is configured, otherwise
    a fresh policy set of which every active blocking policy is satisfied. *)
Definition policies_allow (s : settings) (k : call) (ctx : dict) (now : Z) (w : world) : Prop :=
  match opa s with
  | Some (allowed, _) => allowed = true
  | None =>
      exists c st, judging k now w = Some c /\ Cache._state c = Some st /\
        now - Cache.fetched_at st <= seconds (Cache._threshold c) /\
        forall p, p ∈ Cache.policies st -> Engine.is_active p = true -> Engine.is_blocking p = true ->
          Engine.satisfied (PreInference.with_prompt ctx (prompt_text k)) p
  end.

(** The budget has room, or is not enforced, or its tracker raised. *)
Definition budget_allows (s : settings) (k : call) (now : Budget.datetime) (w : world) : Prop :=
  forall t, w_budget w = Some t -> token_budget_enabled s = true ->
  match (Budget.Memory.check_and_reserve t (Attestation.gateway_tenant_id (att_settings s))
           (user k) (estimate k) now).2 with
  | Ok (allowed, _) => allowed = true
  | Raise _ => True
  end.

Definition rate_allows (s : settings) (k : call) (now : Z) (w : world) : Prop :=
  forall d, w_limiter w = Some d -> rate_limit_enabled s = true ->
  (RateLimit.Sliding.check d (rate_key s k) (rate_limit_rpm s) (seconds 60) now).2.1 = true.

Definition wal_has_room (s : settings) (w : world) : Prop :=
  forall d bytes, w_wal w = Some (d, bytes) ->
  Wal.pending_count d < wal_high_water_mark s /\ (0 < wal_max_bytes s -> bytes < wal_max_bytes s).

(** Every check of the pipeline let the request through. *)
Definition governed (s : settings) (k : call) (t : clocks) (w : world) : Prop :=
  exists c, w_att w = Some c /\
    let a := attested s k t c in
    Attestation.error a = None /\
    wal_has_room s w /\
    policies_allow s k (context_of (Attestation.att_ctx a) (caller_role k)) (c_policy t) w /\
    budget_allows s k (c_budget t) w /\
    rate_allows s k (c_rate t) w.

(** Worlds that differ in the disposition only *)
Definition alike (w w' : world) : Prop :=
  w_att w' = w_att w /\ w_policy w' = w_policy w /\ w_wal w' = w_wal w /\
  w_budget w' = w_budget w /\ w_limiter w' = w_limiter w.

Lemma block_enforced s w whb why status d n w' v :
  audit_only s = false -> block s w whb why status d n = (w', v) -> v_error v = Some status.
Proof. unfold block. intros ->. by intros [= <- <-]. Qed.

Lemma block_alike s w whb why status d n w' v :
  block s w whb why status d n = (w', v) -> alike w w'.
Proof. unfold block. by destruct (audit_only s); intros [= <- <-]. Qed.

Lemma pre_policy_alike s k ctx whb why now w :
  alike w (_pre_policy_check s k ctx whb why now w).1.
Proof.
  unfold _pre_policy_check.
  destruct (opa s) as [[[|] why']|]; [done| |].
  { destruct (block _ _ _ _ _ _ _) eqn:Hb. by eapply block_alike. }
  destruct (judging k now w); [|done]. destruct (PreInference.evaluate_pre_inference _ _ _ _) as [o|]; [|done].
  destruct (PreInference.error_response o); [|done].
  destruct (block _ _ _ _ _ _ _) eqn:Hb. by eapply block_alike.
Qed.

Lemma pre_policy_pass s k ctx whb why now w w' pv pr v :
  audit_only s = false -> _pre_policy_check s k ctx whb why now w = (w', Ok (pv, pr, v)) ->
  v_error v = None -> policies_allow s k ctx now w.
Proof.
  intros Ha. unfold _pre_policy_check, policies_allow.
  destruct (opa s) as [[[|] why']|]; [done| |].
  { destruct (block _ _ _ _ _ _ _) eqn:Hb. apply block_enforced in Hb; [|done].
    intros [= <- <- <- <-]. congruence. }
  destruct (judging k now w) as [c|]; [|done].
  destruct (PreInference.evaluate_pre_inference _ _ _ _) as [o|] eqn:Ho; [|done].
  destruct (PreInference.error_response o) eqn:He.
  { destruct (block _ _ _ _ _ _ _) eqn:Hb. apply block_enforced in Hb; [|done].
    intros [= <- <- <- <-]. congruence. }
  intros _ _. destruct (PreInference.pre_inference_pass _ _ _ _ _ Ho He) as (_ & st & Hst).
  by exists c, st.
Qed.

Lemma budget_pass s k whb why now w w' rem est v :
  audit_only s = false -> _budget_check s k whb why now w = (w', (rem, est, v)) ->
  v_error v = None -> budget_allows s k now w.
Proof.
  intros Ha. unfold _budget_check, budget_allows. intros Hc Hv t Ht He. rewrite Ht, He in Hc.
  destruct (Budget.Memory.check_and_reserve _ _ _ _ _) as [t' [[[|] n]|]]; try done.
  destruct (block _ _ _ _ _ _ _) eqn:Hb. apply block_enforced in Hb; [|done].
  injection Hc as <- <- <- <-. simpl in *. congruence.
Qed.

Lemma budget_limiter s k whb why now w :
  w_limiter (_budget_check s k whb why now w).1 = w_limiter w.
Proof.
  unfold _budget_check. destruct (w_budget w) as [t|], (token_budget_enabled s); try done.
  destruct (Budget.Memory.check_and_reserve _ _ _ _ _) as [t' [[[|] n]|]]; try done.
  destruct (block _ _ _ _ _ _ _) eqn:Hb. apply block_alike in Hb. simpl. by apply Hb.
Qed.

Lemma rate_pass s k now w :
  (_rate_limit_check s k now w).2 = None -> rate_allows s k now w.
Proof.
  unfold _rate_limit_check, rate_allows. intros Hc d Hd He. rewrite Hd, He in Hc.
  by destruct (RateLimit.Sliding.check _ _ _ _ _) as [d' [[|] n]].
Qed.

Lemma wal_pass s w w' : _wal_backpressure_check s w = (w', None) -> w' = w /\ wal_has_room s w.
Proof.
  unfold _wal_backpressure_check, wal_has_room. destruct (w_wal w) as [[d bytes]|] eqn:Hw.
  - destruct (_ || _) eqn:Hf; [done|]. intros [= <-]. split; [done|].
    intros d' b' [= <- <-]. apply orb_false_iff in Hf as [H1 H2]. zbool. split; [done|].
    intros Hm. apply andb_false_iff in H2 as [H2|H2]; zbool; lia.
  - intros [= <-]. split; [done|]. by intros ???.
Qed.

Lemma allow_alike s k ctx now nb nr w w' :
  alike w w' ->
  (policies_allow s k ctx now w' <-> policies_allow s k ctx now w) /\
  (budget_allows s k nb w' <-> budget_allows s k nb w) /\ (rate_allows s k nr w' <-> rate_allows s k nr w).
Proof.
  intros (Ha & Hp & Hw & Hb & Hl). unfold policies_allow, budget_allows, rate_allows, judging.
  by rewrite Hp, Hb, Hl.
Qed.

(** A request that leaves the concurrent checks was let through by all three. *)
Lemma gather_pass s k t a w w' p :
  audit_only s = false -> _gather s k t a w = (w', Ok p) -> p_error p = None ->
  policies_allow s k (context_of (Attestation.att_ctx a) (caller_role k)) (c_policy t) w /\
  budget_allows s k (c_budget t) w /\ rate_allows s k (c_rate t) w.
Proof.
  intros Ha. unfold _gather. set (ctx := context_of _ _).
  set (whb := Attestation.would_block a). set (why := Attestation.reason a).
  pose proof (pre_policy_alike s k ctx whb why (c_policy t) w) as Hal.
  destruct (_pre_policy_check _ _ _ _ _ _ _) as [w1 policy] eqn:H1. simpl in Hal.
  pose proof (budget_limiter s k whb why (c_budget t) w1) as Hlim.
  destruct (_budget_check _ _ _ _ _ _) as [w2 [[rem est] vb]] eqn:H2. simpl in Hlim.
  pose proof (rate_pass s k (c_rate t) w2) as Hrate.
  destruct (_rate_limit_check _ _ _ _) as [w3 limited]. simpl in Hrate.
  destruct policy as [[[pv pr] vp]|e]; [|done]. cbn [res_bind]. intros [= <- <-] Hp.
  destruct (v_error vp) eqn:Hvp; [done|]. destruct (v_error vb) eqn:Hvb; [done|].
  destruct limited; [done|].
  split; [by eapply pre_policy_pass|].
  apply (allow_alike s k ctx (c_policy t) (c_budget t) (c_rate t)) in Hal as (_ & <- & <-).
  split; [by eapply budget_pass|]. unfold rate_allows in *. rewrite <- Hlim. by apply Hrate.
Qed.

Lemma pre_checks_pass s k t w w' p :
  audit_only s = false -> _run_pre_checks s k t w = (w', Ok p) -> p_error p = None ->
  governed s k t w.
Proof.
  intros Ha. unfold _run_pre_checks, governed. destruct (w_att w) as [c|] eqn:Hc.
  2:{ by intros [= <- <-]. }
  destruct (Attestation.error (attested s k t c)) eqn:He; [by intros [= <- <-]|].
  destruct (match w_policy _, opa s with None, None => true | _, _ => false end); [by intros [= <- <-]|].
  rewrite Ha. destruct (_wal_backpressure_check s _) as [w1 [n|]] eqn:Hw; [by intros [= <- <-]|].
  apply wal_pass in Hw as [-> Hroom]. intros Hg Hp.
  destruct (gather_pass _ _ _ _ _ _ _ Ha Hg Hp) as (H1 & H2 & H3).
  exists c. split; [done|]. split; [done|]. done.
Qed.

(** C1.  No provider is called without governance.  In enforcing mode a request
    reaches the provider only if its model's attestation passed, the write-ahead
    log has room, OPA allowed it or a fresh policy set was satisfied by the
    prompt and the caller's context, the token budget had room for its estimate
    (or the tracker raised), and the rate limiter admitted it. *)
Theorem forward_needs_governance s x k t a w w' es l :
  audit_only s = false -> handle s x k t a w = (w', (es, l)) -> EForward ∈ es ->
  governed s k t w.
Proof.
  intros Ha. unfold handle. destruct (_run_pre_checks s k t w) as [w1 [p|e]] eqn:Hp.
  - destruct (p_error p) eqn:He.
    + intros [= <- <- <-] Hin. by apply not_elem_of_nil in Hin.
    + intros _ _. by eapply pre_checks_pass.
  - intros [= <- <- <-] Hin. by apply not_elem_of_nil in Hin.
Qed.

End governance.

(** ** Every call is accounted for *)

(** The calls to the provider, the settlements and the records of a request *)
Definition accounting (es : list effect) : list effect :=
  List.filter (fun e => match e with EForward | ESettle _ | EAudit => true | _ => false end) es.

Definition forwards (es : list effect) : bool := bool_decide (EForward ∈ es).

(** What the budget reserved for a request *)
Definition reservation (s : settings) (k : call) (now : Budget.datetime) (w : world) : Z :=
  match w_budget w, token_budget_enabled s with
  | Some t, true =>
      match (Budget.Memory.check_and_reserve t (Attestation.gateway_tenant_id (att_settings s))
               (user k) (estimate k) now).2 with
      | Ok (true, _) => estimate k
      | _ => 0
      end
  | _, _ => 0
  end.

Definition is_tools_stream (o : tool_outcome) : bool := match o with ToolsStream _ => true | _ => false end.

(** The client gets a stream: as asked, or from the tool loop *)
Definition streamed (x : switches) (a : answers) : bool :=
  is_streaming x || match provider_status a with
                    | Some status => negb (500 <=? status) && is_tools_stream (tools a)
                    | None => false
                    end.

(** The reservation is settled: always with an answer in one piece, and with a stream
    that there is a writer for and that parses *)
Definition settles (x : switches) (a : answers) : bool :=
  usage_ok a && (negb (streamed x a) || has_writer x && parsed a).

(** A record follows *)
Definition records (x : switches) (a : answers) : bool :=
  settles x a && has_storage x && recorded a && (streamed x a || negb (skip_audit x)).

(** Something raises: the call, the tools, the response policy or the settlement *)
Definition breaks_off (a : answers) : Prop :=
  provider_status a = None \/ tools a = ToolsRaise \/ (exists e, response_blocked a = Raise e) \/ usage_ok a = false.

(** What an answered call leaves *)
Definition left_behind (x : switches) (a : answers) (est : Z) : list effect :=
  (if settles x a then [ESettle est] else []) ++ (if records x a then [EAudit] else []).

Lemma accounting_app es es' : accounting (es ++ es') = accounting es ++ accounting es'.
Proof. apply List.filter_app. Qed.

Lemma accounting_forwards es : forwards es = bool_decide (EForward ∈ accounting es).
Proof.
  unfold forwards, accounting. apply bool_decide_ext. rewrite !list_elem_of_In, filter_In. tauto.
Qed.

Lemma settle_and_audit_accounting x a est before between after status :
  accounting before = [] -> accounting between = [] -> accounting after = [] ->
  let '(es, l) := settle_and_audit x a est before between after status in
  accounting es =
    (if usage_ok a
     then ESettle est :: (if has_storage x && negb (skip_audit x) && recorded a then [EAudit] else [])
     else []) /\
  l = (if usage_ok a then Status status else Failed).
Proof.
  intros Hb Hm Ha. unfold settle_and_audit. destruct (usage_ok a); [|done]. split; [|done].
  rewrite !accounting_app, Hb, Hm, Ha. cbn [app accounting List.filter].
  by destruct (has_storage x && negb (skip_audit x) && recorded a).
Qed.

(** What follows the call *)
Definition aftermath (x : switches) (a : answers) (est : Z) (r : list effect * leaving) : Prop :=
  accounting r.1 = match r.2 with Status _ => left_behind x a est | Failed => [] end /\
  (r.2 <> Failed -> streamed x a = false -> settles x a = true) /\
  (r.2 = Failed -> breaks_off a).

Lemma broken_aftermath x a est : breaks_off a -> aftermath x a est ([], Failed).
Proof. intros Ha. split; [done|]. split; [done|]. by intros _. Qed.

Lemma settle_and_audit_aftermath x a est before between after status :
  streamed x a = false ->
  accounting before = [] -> accounting between = [] -> accounting after = [] ->
  aftermath x a est (settle_and_audit x a est before between after status).
Proof.
  intros Hs Hb Hm Ha. pose proof (settle_and_audit_accounting x a est _ _ _ status Hb Hm Ha) as Hacc.
  unfold aftermath. destruct (settle_and_audit _ _ _ _ _ _ _) as [es l]. destruct Hacc as [Hacc Hl].
  cbn [fst snd]. rewrite Hacc, Hl. unfold left_behind, records, settles, breaks_off. rewrite Hs.
  destruct (usage_ok a); cbn [negb orb andb app].
  - split; [|done]. f_equal. by destruct (has_storage x), (skip_audit x), (recorded a).
  - split; [done|]. split; [done|]. tauto.
Qed.

Lemma after_stream_aftermath x a est es status :
  streamed x a = true -> accounting es = [] ->
  aftermath x a est (es ++ after_stream x a est, Status status).
Proof.
  intros Hs He. unfold aftermath. cbn [fst snd].
  rewrite accounting_app, He, Hs. split; [|done]. cbn [app].
  unfold after_stream, left_behind, records, settles. rewrite Hs. cbn [negb orb].
  by destruct (has_writer x), (parsed a), (usage_ok a), (has_storage x), (recorded a).
Qed.

Lemma after_forward_aftermath x a est status :
  is_streaming x = false -> provider_status a = Some status ->
  aftermath x a est (after_forward x a est status).
Proof.
  intros Hx Hp. unfold after_forward.
  assert (streamed x a = negb (500 <=? status) && is_tools_stream (tools a)) as Hs
    by (unfold streamed; by rewrite Hx, Hp).
  destruct (500 <=? status); [by apply settle_and_audit_aftermath|].
  destruct (tools a) eqn:Ht; cbn [is_tools_stream negb andb] in Hs.
  - destruct (response_blocked a) as [[|]|] eqn:Hb.
    + by apply settle_and_audit_aftermath.
    + apply settle_and_audit_aftermath; [done|done| |done]. by destruct (semantic_cache x && _).
    + apply broken_aftermath. unfold breaks_off. eauto.
  - by apply settle_and_audit_aftermath.
  - rewrite app_assoc. apply after_stream_aftermath; [done|]. by destruct (adaptive_concurrency x).
  - apply broken_aftermath. unfold breaks_off. eauto.
Qed.

(** The whole of a request *)
Definition accounted (x : switches) (a : answers) (est : Z) (r : list effect * leaving) : Prop :=
  accounting r.1 =
    (if forwards r.1
     then EForward :: match r.2 with Status _ => left_behind x a est | Failed => [] end
     else []) /\
  (forwards r.1 = true -> r.2 <> Failed -> streamed x a = false -> settles x a = true) /\
  (forwards r.1 = true -> r.2 = Failed -> breaks_off a).

Lemma forward_accounted x a est acquire es l :
  accounting acquire = [EForward] -> aftermath x a est (es, l) -> accounted x a est (acquire ++ es, l).
Proof.
  intros Hacq (Hes & Hok & Hf). unfold accounted. cbn [fst snd] in *.
  rewrite accounting_forwards, accounting_app, Hacq, Hes. rewrite bool_decide_true by by left.
  done.
Qed.

Lemma proceed_accounted x a est : accounted x a est (proceed x a est).
Proof.
  unfold proceed. set (acquire := if adaptive_concurrency x then [EAcquire] else []).
  set (release := if adaptive_concurrency x then [ERelease] else []).
  assert (accounting acquire = []) as Hacq by by (unfold acquire; destruct (adaptive_concurrency x)).
  assert (accounting release = []) as Hrel by by (unfold release; destruct (adaptive_concurrency x)).
  assert (forall es, accounting es = [EForward] -> accounting (acquire ++ es) = [EForward]) as Hacq'
    by (intros es Hes; by rewrite accounting_app, Hacq, Hes).
  set (forward := if is_streaming x then _ else _).
  assert (accounted x a est forward) as Hfwd.
  { unfold forward. destruct (is_streaming x) eqn:Hx, (provider_status a) as [status|] eqn:Hp.
    - rewrite app_assoc. apply forward_accounted; [by apply Hacq'|].
      apply after_stream_aftermath; [unfold streamed; by rewrite Hx|done].
    - rewrite <- (app_nil_r (acquire ++ _)). apply forward_accounted; [by apply Hacq'|].
      apply broken_aftermath. by left.
    - pose proof (after_forward_aftermath x a est status Hx Hp) as (H1 & H2 & H3).
      destruct (after_forward x a est status) as [es l]. rewrite app_assoc.
      apply forward_accounted; [by apply Hacq'|].
      unfold aftermath. cbn [fst snd] in *. by rewrite accounting_app, Hrel.
    - rewrite <- (app_nil_r (acquire ++ _)). apply forward_accounted; [by apply Hacq'|].
      apply broken_aftermath. by left. }
  clearbody forward.
  destruct (semantic_cache x && negb (asked_streaming x)), (cached a); try done;
    destruct (adaptive_concurrency x), (slot_free a) as [[|]|]; done.
Qed.

Section accounted.
Context `{Regex}.

Lemma budget_estimated s k whb why now w :
  let '(_, (_, est, v)) := _budget_check s k whb why now w in
  v_error v = None -> est = reservation s k now w.
Proof.
  unfold _budget_check, reservation. destruct (w_budget w) as [t|], (token_budget_enabled s); try done.
  destruct (Budget.Memory.check_and_reserve _ _ _ _ _) as [t' [[[|] n]|]]; try done.
  by destruct (block _ _ _ _ _ _ _).
Qed.

Lemma gather_estimated s k t a w w' p :
  _gather s k t a w = (w', Ok p) -> p_error p = None ->
  p_budget_estimated p = reservation s k (c_budget t) w.
Proof.
  unfold _gather. set (ctx := context_of _ _).
  set (whb := Attestation.would_block a). set (why := Attestation.reason a).
  pose proof (pre_policy_alike s k ctx whb why (c_policy t) w) as Hal.
  destruct (_pre_policy_check _ _ _ _ _ _ _) as [w1 policy]. simpl in Hal.
  pose proof (budget_estimated s k whb why (c_budget t) w1) as Hest.
  destruct (_budget_check _ _ _ _ _ _) as [w2 [[rem est] vb]].
  destruct (_rate_limit_check _ _ _ _) as [w3 limited].
  destruct policy as [[[pv pr] vp]|e]; [|done]. cbn [res_bind]. intros [= <- <-] Hp.
  destruct (v_error vp); [done|]. destruct (v_error vb); [done|]. destruct limited; [done|].
  simpl. rewrite Hest by done. unfold reservation. by destruct Hal as (_ & _ & _ & -> & _).
Qed.

Lemma pre_checks_estimated s k t w w' p :
  _run_pre_checks s k t w = (w', Ok p) -> p_error p = None ->
  p_budget_estimated p = reservation s k (c_budget t) w.
Proof.
  unfold _run_pre_checks. destruct (w_att w) as [c|]; [|by intros [= <- <-]].
  destruct (Attestation.error _); [by intros [= <- <-]|].
  destruct (match w_policy _, opa s with None, None => true | _, _ => false end); [by intros [= <- <-]|].
  destruct (audit_only s); [intros Hg Hp; by apply (gather_estimated _ _ _ _ _ _ _ Hg Hp)|].
  destruct (_wal_backpressure_check s _) as [w1 [n|]] eqn:Hw; [by intros [= <- <-]|].
  apply wal_pass in Hw as [-> _]. intros Hg Hp. by apply (gather_estimated _ _ _ _ _ _ _ Hg Hp).
Qed.


(** ** Reservations of refused requests *)

Lemma rate_budget s k now w : w_budget (_rate_limit_check s k now w).1 = w_budget w.
Proof.
  unfold _rate_limit_check. destruct (w_limiter w) as [d|], (rate_limit_enabled s); try done.
  by destruct (RateLimit.Sliding.check _ _ _ _ _) as [d' [[|] n]].
Qed.

(** The concurrent checks leave the budget as its own check left it. *)
Lemma gather_budget s k t a w :
  w_budget (_gather s k t a w).1 =
    if token_budget_enabled s
    then (fun b => (Budget.Memory.check_and_reserve b (Attestation.gateway_tenant_id (att_settings s))
                      (user k) (estimate k) (c_budget t)).1) <$> w_budget w
    else w_budget w.
Proof.
  unfold _gather. set (ctx := context_of _ _).
  set (whb := Attestation.would_block a). set (why := Attestation.reason a).
  pose proof (pre_policy_alike s k ctx whb why (c_policy t) w) as Hal.
  destruct (_pre_policy_check _ _ _ _ _ _ _) as [w1 policy]. simpl in Hal.
  destruct Hal as (_ & _ & _ & Hb & _).
  assert (w_budget (_budget_check s k whb why (c_budget t) w1).1 =
    if token_budget_enabled s
    then (fun b => (Budget.Memory.check_and_reserve b (Attestation.gateway_tenant_id (att_settings s))
                      (user k) (estimate k) (c_budget t)).1) <$> w_budget w
    else w_budget w) as Hbud.
  { unfold _budget_check. rewrite Hb. destruct (w_budget w) as [b|], (token_budget_enabled s); try done.
    simpl. destruct (Budget.Memory.check_and_reserve _ _ _ _ _) as [b' [[[|] n]|]]; try done.
    destruct (block _ _ _ _ _ _ _) eqn:Hbl. apply block_alike in Hbl as (_ & _ & _ & Hbl & _). done. }
  destruct (_budget_check _ _ _ _ _ _) as [w2 [[rem est] vb]]. simpl in Hbud.
  pose proof (rate_budget s k (c_rate t) w2) as Hr.
  destruct (_rate_limit_check _ _ _ _) as [w3 limited]. simpl in *. congruence.
Qed.

Lemma handle_world s x k t a w c :
  w_att w = Some c -> Attestation.error (attested s k t c) = None -> is_Some (w_policy w) ->
  w_wal w = None ->
  (handle s x k t a w).1 =
    (_gather s k t (attested s k t c) (with_att (Attestation.cache_after (attested s k t c)) w)).1.
Proof.
  intros Hc He [pc Hpc] Hw. unfold handle, _run_pre_checks. rewrite Hc, He. simpl. rewrite Hpc.
  unfold _wal_backpressure_check. simpl. rewrite Hw.
  destruct (audit_only s); destruct (_gather _ _ _ _ _) as [w1 [p|e]]; try done;
    by destruct (p_error p), (proceed x a (p_budget_estimated p)).
Qed.

Lemma handle_unsettled s x k t a w n :
  forwards (handle s x k t a w).2.1 = false -> ESettle n ∉ (handle s x k t a w).2.1.
Proof.
  unfold handle. destruct (_run_pre_checks s k t w) as [w1 [p|e]]; [|by intros _ ?%not_elem_of_nil].
  destruct (p_error p); [by intros _ ?%not_elem_of_nil|].
  pose proof (proceed_accounted x a (p_budget_estimated p)) as Hacc.
  destruct (proceed x a (p_budget_estimated p)) as [es l]. destruct Hacc as [Hacc _]. cbn [fst snd] in *. intros Hf Hin. rewrite Hf in Hacc.
  assert (ESettle n ∈ accounting es) as Hn.
  { unfold accounting. apply list_elem_of_In, filter_In. by apply list_elem_of_In in Hin. }
  rewrite Hacc in Hn. by apply not_elem_of_nil in Hn.
Qed.

(**  A refused request keeps its reservation.  Once the attestation passed,
    the budget check takes the estimate from the caller's budget whatever the
    policies, the rate limiter, the cache and the concurrency limiter then decide;
    and when the provider is not called nothing is settled, so that the tokens
    stay taken. *)
Theorem refusal_keeps_reservation s x k t a w c b st :
  let tenant := Attestation.gateway_tenant_id (att_settings s) in
  let key := (tenant, Budget.user_key (user k)) in
  let now := Budget.Memory.roll st (c_budget t) in
  w_att w = Some c -> Attestation.error (attested s k t c) = None -> is_Some (w_policy w) ->
  w_wal w = None -> w_budget w = Some b -> token_budget_enabled s = true ->
  Budget.Memory.budget b key = Some st -> 0 < Budget.Memory.max_tokens now ->
  Budget.Memory.tokens_used now + estimate k <= Budget.Memory.max_tokens now ->
  (exists b', w_budget (handle s x k t a w).1 = Some b' /\
    Budget.Memory.budget b' key =
      Some (Budget.Memory.with_used (Budget.Memory.tokens_used now + estimate k) now)) /\
  (forwards (handle s x k t a w).2.1 = false -> forall n, ESettle n ∉ (handle s x k t a w).2.1).
Proof.
  intros tenant key now Hc He Hpc Hw Hb Htb Hst Hmx Hroom.
  split; [|intros Hf n; by apply handle_unsettled].
  assert (0 < estimate k) as Hest by (unfold estimate; lia).
  rewrite (handle_world _ _ _ _ _ _ _ Hc He Hpc Hw), gather_budget, Htb. simpl. rewrite Hb.
  eexists. split; [done|].
  pose proof (Budget.Memory.reserve_spec b tenant (user k) (estimate k) (c_budget t) st Hst) as [_ Hsp].
  fold now in Hsp. rewrite (proj2 (Z.eqb_neq _ _)) in Hsp by lia.
  rewrite (proj2 (orb_false_iff _ _)) in Hsp by (split; [apply Z.leb_gt|apply Z.ltb_ge]; lia).
  by destruct Hsp as [Hsp _].
Qed.

End accounted.

(** ** Slots of the concurrency limiter *)

(** Slots taken less slots given back *)
Definition net_slots (es : list effect) : Z :=
  zlen (List.filter (fun e => bool_decide (e = EAcquire)) es)
  - zlen (List.filter (fun e => bool_decide (e = ERelease)) es).

Ltac answers_cases :=
  repeat match goal with
  | |- context [if ?b then _ else _] => is_var b; destruct b
  | |- context [match ?b with _ => _ end] => is_var b; destruct b
  | |- context [500 <=? ?n] => destruct (500 <=? n)
  | |- context [?n =? 200] => destruct (n =? 200)
  | |- context [negb ?b] => is_var b; destruct b
  | |- context [?b && _] => is_var b; destruct b
  | |- context [_ && ?b] => is_var b; destruct b
  | _ => progress cbn [andb orb negb is_tools_stream]
  end.

(**  The slots of a request.  A request that takes a slot gives exactly one
    back, except in two cases: when the provider's call raises the slot is never
    given back, and when the tool loop's answer is streamed it is given back
    twice. *)
Theorem slot_balance x a est :
  let es := (proceed x a est).1 in
  net_slots es =
    if bool_decide (EAcquire ∈ es) then
      match provider_status a with
      | None => 1
      | Some status =>
          if negb (is_streaming x) && negb (500 <=? status) && is_tools_stream (tools a) then -1 else 0
      end
    else 0.
Proof.
  destruct x as [sc ac ask str wr sto sk], a as [ca sf ps tl rb us pa re].
  unfold proceed, after_forward, settle_and_audit, after_stream.
  cbn [semantic_cache adaptive_concurrency asked_streaming is_streaming has_writer has_storage skip_audit cached slot_free
       provider_status tools response_blocked usage_ok parsed recorded].
  answers_cases; reflexivity.
Qed.

Section limited.
Context (rtt : SpecFloat.spec_float).

(** The handler with the provider's limiter *)
Definition with_slot (r : res bool) (a : answers) : answers :=
  MkAnswers (cached a) r (provider_status a) (tools a) (response_blocked a) (usage_ok a) (parsed a) (recorded a).

Definition replay (l : limiter) (e : effect) : limiter :=
  match e with
  | EAcquire => (try_acquire l).1
  | ERelease => release l rtt
  | _ => l
  end.

Definition serve (x : switches) (l : limiter) (a : answers) (est : Z) : limiter * (list effect * leaving) :=
  let r := proceed x (with_slot (try_acquire l).2 a) est in
  (foldl replay l r.1, r).

Fixpoint serve_all (x : switches) (l : limiter) (as_ : list answers) (est : Z) : limiter :=
  match as_ with
  | [] => l
  | a :: as_ => serve_all x (serve x l a est).1 as_ est
  end.

(** A request the cache does not answer and whose call to the provider raises *)
Definition fails (a : answers) : Prop := cached a = None /\ provider_status a = None.

Lemma serve_full x l n a est :
  adaptive_concurrency x = true -> cached a = None ->
  limit l = Ok n -> n <= _inflight l ->
  serve x l a est = (l, ([EDisposition "error_overloaded"], Status 503)).
Proof.
  intros Hx Ha Hl Hn. unfold serve. rewrite (full_refuses _ _ Hl Hn). simpl.
  destruct x as [sc ac ask str wr sto sk], a as [ca sf ps tl rb us pa re]. simpl in *. subst. unfold proceed. simpl.
  by destruct sc, ask.
Qed.

Lemma serve_fails x l n a est :
  adaptive_concurrency x = true -> fails a -> limit l = Ok n -> _inflight l < n ->
  (serve x l a est).1 = with_inflight (_inflight l + 1) l.
Proof.
  intros Hx [Ha Hp] Hl Hn. pose proof (free_acquires _ _ Hl Hn) as Hacq.
  unfold serve. rewrite Hacq.
  destruct x as [sc ac ask str wr sto sk], a as [ca sf ps tl rb us pa re]. simpl in *. subst. unfold proceed. simpl.
  destruct sc, ask, str; simpl; by rewrite Hacq.
Qed.

Lemma outage_fills x l n as_ est :
  adaptive_concurrency x = true -> Forall fails as_ -> limit l = Ok n ->
  let l' := serve_all x l as_ est in
  limit l' = Ok n /\ (_inflight l <= n -> _inflight l' = Z.min n (_inflight l + zlen as_)).
Proof.
  intros Hx Has. revert l. induction Has as [|a as_ Ha Has IH]; intros l Hl; cbn [serve_all].
  { split; [done|]. rewrite zlen_nil. lia. }
  destruct (decide (_inflight l < n)) as [Hn|Hn].
  - rewrite (serve_fails _ _ _ _ _ Hx Ha Hl Hn).
    destruct (IH (with_inflight (_inflight l + 1) l) Hl) as [H1 H2]. split; [done|].
    intros _. rewrite H2 by (simpl; lia). simpl. rewrite zlen_cons. lia.
  - rewrite (serve_full _ _ _ _ _ Hx (proj1 Ha) Hl) by lia. cbn [fst].
    destruct (IH l Hl) as [H1 H2]. split; [done|]. intros Hle. rewrite H2 by lia.
    rewrite zlen_cons. pose proof (zlen_nonneg as_). lia.
Qed.

(**  An outage locks the provider out.  Once as many calls to a provider have
    raised as its limiter has free slots, every later request that the cache does
    not answer is refused with 503 and the limiter does not change: the provider
    is never called again. *)
Theorem outage_locks_out x l n as_ est :
  adaptive_concurrency x = true -> Forall fails as_ ->
  limit l = Ok n -> _inflight l <= n -> n - _inflight l <= zlen as_ ->
  let l' := serve_all x l as_ est in
  forall y b est', adaptive_concurrency y = true -> cached b = None ->
  serve y l' b est' = (l', ([EDisposition "error_overloaded"], Status 503)).
Proof.
  intros Hx Has Hl Hle Hn l' y b est' Hy Hb. subst l'.
  destruct (outage_fills x l n as_ est Hx Has Hl) as [Hl' Hi].
  apply (serve_full _ _ n); [done|done|done|]. rewrite Hi by done. lia.
Qed.

End limited.

(** ** Audit-only mode *)

(**  Audit-only mode forgets the policies' verdict.  Without a token budget
    the pre-checks report whether the request would have been blocked exactly as
    the attestation left it: what the policies decided is overwritten by the
    budget check's copy. *)
Theorem audit_only_forgets_policy `{Regex} s k t w w' c p :
  audit_only s = true -> token_budget_enabled s = false -> w_att w = Some c ->
  _run_pre_checks s k t w = (w', Ok p) -> p_error p = None ->
  p_would_block p = Attestation.would_block (attested s k t c) /\
  p_reason p = Attestation.reason (attested s k t c).
Proof.
  intros Ha Hb Hc. unfold _run_pre_checks. rewrite Hc, Ha. set (a := attested s k t c).
  destruct (Attestation.error a); [by intros [= <- <-]|].
  destruct (match w_policy _, opa s with None, None => true | _, _ => false end); [by intros [= <- <-]|].
  unfold _gather, _budget_check. rewrite Hb.
  destruct (_pre_policy_check _ _ _ _ _ _ _) as [w1 [[[pv pr] vp]|e]].
  2:{ destruct (w_budget w1), (_rate_limit_check _ _ _ _); done. }
  replace (match w_budget w1 with Some _ => _ | None => _ end) with
    (w1, (@None Z, 0, pass (Attestation.would_block a) (Attestation.reason a))) by by destruct (w_budget w1).
  destruct (_rate_limit_check _ _ _ _) as [w3 limited]. cbn [res_bind]. intros [= <- <-].
  destruct (v_error vp); [done|]. by destruct limited.
Qed.

(** ** Runs *)

Module Runs.
#[export] Existing Instance Shadow.contains_regex.

Definition enforcing : settings :=
  MkSettings false (Attestation.MkSettings "gw" 300 true) None 1000 0 true true 1 false.
Definition auditing : settings :=
  MkSettings true (Attestation.MkSettings "gw" 300 true) None 1000 0 false false 1 false.

Definition ask : call :=
  MkCall "openai" "gpt-4" "Tell me a story" None "t1" None None None None.
Definition zero : clocks := MkClocks (fun _ => 0) 0 (Budget.Memory.noon 1) 0.
Definition on : switches := MkSwitches false true false false true true false.
Definition ok_answer : answers := MkAnswers None (Ok true) (Some 200) ToolsDone (Ok false) true true true.

Definition tracker : Budget.Memory.tracker :=
  Budget.Memory.configure (Budget.Memory.MkTracker ∅ None [] ∅) "gw" None Budget.Daily 100
    (Budget.Memory.noon 1).

(** A gateway whose only policy asks for the model [name] *)
Definition gateway (name : string) : world :=
  MkWorld (Some (Attestation.one Attestation.good))
    (Some (Cache.set_policies (Cache.init 900) 3 [Samples.fail_policy name "blocking"] 0))
    None (Some tracker) (Some []) "error_gateway".

Lemma forward_needs_governance_witness :
  (handle enforcing on ask zero ok_answer (gateway "gpt-4")).2 =
    ([EAcquire; EForward; ERelease; ESettle 3; EAudit; EDisposition "allowed"], Status 200) /\
  governed enforcing ask zero (gateway "gpt-4").
Proof.
  split; [vm_compute; reflexivity|].
  apply (forward_needs_governance enforcing on ask zero ok_answer (gateway "gpt-4")
           (handle enforcing on ask zero ok_answer (gateway "gpt-4")).1
           [EAcquire; EForward; ERelease; ESettle 3; EAudit; EDisposition "allowed"] (Status 200)).
  - reflexivity.
  - vm_compute. reflexivity.
  - apply elem_of_cons. right. apply elem_of_cons. by left.
Defined.


(** Refused by the policy with 403, and three tokens gone *)
Lemma refusal_keeps_reservation_witness :
  (handle enforcing on ask zero ok_answer (gateway "other")).2 = ([], Status 403) /\
  exists b, w_budget (handle enforcing on ask zero ok_answer (gateway "other")).1 = Some b /\
    Budget.Memory.tokens_used <$> Budget.Memory.budget b ("gw", "") = Some 3.
Proof.
  split; [vm_compute; reflexivity|].
  destruct (refusal_keeps_reservation enforcing on ask zero ok_answer (gateway "other")
              (Attestation.one Attestation.good) tracker
              (Budget.Memory.MkState Budget.Daily (Budget._period_start Budget.Daily (Budget.Memory.noon 1)) 0 100))
    as [(b & Hb & Hu) _].
  1-9: try (vm_compute; reflexivity).
  - eexists. reflexivity.
  - vm_compute. discriminate.
  - exists b. split; [exact Hb|]. change ("gw", "") with
      (Attestation.gateway_tenant_id (att_settings enforcing), Budget.user_key (user ask)).
    rewrite Hu. vm_compute. reflexivity.
Defined.

Definition outage : answers := MkAnswers None (Ok true) None ToolsDone (Ok false) true true true.

Lemma outage_locks_out_witness :
  let l' := serve_all (SpecFloat.S754_zero false) on (init 5 100) [outage; outage; outage; outage; outage] 3 in
  _inflight l' = 5 /\
  serve (SpecFloat.S754_zero false) on l' ok_answer 3 =
    (l', ([EDisposition "error_overloaded"], Status 503)).
Proof.
  split; [vm_compute; reflexivity|].
  apply (outage_locks_out (SpecFloat.S754_zero false) on (init 5 100) 5
           [outage; outage; outage; outage; outage] 3).
  - reflexivity.
  - repeat (constructor; [split; reflexivity|]). constructor.
  - vm_compute. reflexivity.
  - vm_compute. discriminate.
  - vm_compute. discriminate.
  - reflexivity.
  - reflexivity.
Defined.

(** The policy refuses the request with 403; audit-only mode says that nothing
    would have been blocked. *)
Lemma audit_only_forgets_policy_witness :
  (handle enforcing on ask zero ok_answer (gateway "other")).2 = ([], Status 403) /\
  exists p, (_run_pre_checks auditing ask zero (gateway "other")).2 = Ok p /\
    p_policy_result p = "blocked_by_policy" /\ p_would_block p = false.
Proof.
  split; [vm_compute; reflexivity|]. eexists. split; [vm_compute; reflexivity|]. split; [reflexivity|].
  eapply (proj1 (audit_only_forgets_policy auditing ask zero (gateway "other") _
                   (Attestation.one Attestation.good) _ eq_refl eq_refl eq_refl eq_refl eq_refl)).
Defined.

End Runs.
