(* ===== verification/Streaming.v ===== *)
(** * Streaming a response (pipeline/forwarder.py, content/stream_safety.py)

    The generator of [stream_with_tee]: it forwards the upstream's chunks, tees
    them into the audit buffer, aborts on the two safety checks, and runs the
    audit task when it ends, however it ends.  Chunks are ASCII bytes.  The two
    compiled regular expressions and the translator of an adapter are
    parameters.  Opening the connection, headers and metrics are not modelled. *)
From S2P Require Import Prelude PyVal.

Local Open Scope Z_scope.

Definition text : Type := list ascii.

(** [t[-n:]] for [0 < n] *)
Definition last_chars (n : Z) (t : text) : text := drop (Z.to_nat (zlen t - n)) t.

Definition _WINDOW : Z := 4096.
Definition _PII_CHECK_INTERVAL : Z := 500.

(** How the generator ends: after the last chunk, on one of the two aborts, on an
    error of the upstream, or because the client closed the connection *)
Inductive stop := Finished | SafetyAbort | PiiAbort | Interrupted | ClientGone.

Inductive out := OChunk (c : text) | OError (kind : string) | OGovernance.

#[export] Instance out_dec : EqDecision out.
Proof. solve_decision. Defined.

Record settings := MkSettings {
  max_stream_buffer_bytes : Z;
  stream_pii_mode : string;
}.

(** [(settings.stream_pii_mode or "warn").lower()] *)
Definition pii_mode (s : settings) : string :=
  lower (if bool_decide (stream_pii_mode s = "") then "warn" else stream_pii_mode s).

Section streaming.
Context (check_stream_safety pii_search : text -> bool).
Context {T : Type} (feed : T -> text -> res (T * text)) (flush : T -> text).

(** What the generator keeps between chunks *)
Record gen := MkGen {
  buffer : list text;
  buffer_size : Z;
  accumulated_text : text;
  pii_checked_len : Z;
  stream_translator : option T;
}.

Definition check_stream_pii (t : text) (last_checked_len : Z) : bool * Z :=
  if zlen t - last_checked_len <? _PII_CHECK_INTERVAL then (false, last_checked_len)
  else (pii_search (drop (Z.to_nat (Z.max 0 (last_checked_len - 50))) t), zlen t).

(** The chunk joins the buffer and the window. *)
Definition receive (s : settings) (g : gen) (c : text) : gen :=
  let '(buf, n) := if buffer_size g <? max_stream_buffer_bytes s
                   then (buffer g ++ [c], buffer_size g + zlen c) else (buffer g, buffer_size g) in
  let acc := accumulated_text g ++ c in
  let acc := if _WINDOW <? zlen acc then last_chars _WINDOW acc else acc in
  MkGen buf n acc (pii_checked_len g) (stream_translator g).

Definition with_checked (n : Z) (g : gen) : gen :=
  MkGen (buffer g) (buffer_size g) (accumulated_text g) n (stream_translator g).

Definition with_translator (t : T) (g : gen) : gen :=
  MkGen (buffer g) (buffer_size g) (accumulated_text g) (pii_checked_len g) (Some t).

(** What the client gets of one chunk, if anything; a translator that raises ends the
    stream. *)
Definition translated (g : gen) (c : text) : gen * list out * option stop :=
  match stream_translator g with
  | None => (g, [OChunk c], None)
  | Some t =>
      match feed t c with
      | Ok (t, c) => (with_translator t g, if bool_decide (c = []) then [] else [OChunk c], None)
      | Raise _ => (g, [], Some Interrupted)
      end
  end.

(** One pass of the loop: the outputs, and why the loop stops if it does *)
Definition on_chunk (s : settings) (g : gen) (c : text) : gen * list out * option stop :=
  let g := receive s g c in
  if check_stream_safety (accumulated_text g) then (g, [OError "content_safety"], Some SafetyAbort)
  else
    let '(found, n) := check_stream_pii (accumulated_text g) (pii_checked_len g) in
    let g := with_checked n g in
    if found && bool_decide (pii_mode s = "abort") then (g, [OError "pii_detected"], Some PiiAbort)
    else translated g c.

(** The client takes [patience] outputs, [None] when it stays; it is gone at the
    yield that uses up the last one. *)
Definition deliver (patience : option nat) (os : list out) : option (option nat) :=
  match patience with
  | None => Some None
  | Some n => if (n <=? length os)%nat then
                match os with [] => Some (Some n) | _ => None end
              else Some (Some (n - length os)%nat)
  end.

(** The loop over the upstream's chunks, which may break off after the last *)
Fixpoint chunk_loop (s : settings) (broken : bool) (patience : option nat) (g : gen) (chunks : list text)
    : gen * list out * stop :=
  match chunks with
  | [] =>
      if broken then (g, [], Interrupted)
      else
        let tail := match stream_translator g with
                    | Some t => if bool_decide (flush t = []) then [] else [OChunk (flush t)]
                    | None => []
                    end in
        match deliver patience tail with
        | None => (g, tail, ClientGone)
        | Some _ => (g, tail, Finished)
        end
  | c :: chunks =>
      let '(g, os, why) := on_chunk s g c in
      match deliver patience os, why with
      | None, _ => (g, os, ClientGone)
      | Some _, Some why => (g, os, why)
      | Some patience, None =>
          let '(g, os', why) := chunk_loop s broken patience g chunks in (g, os ++ os', why)
      end
  end.

(** What is left of a run: what was sent, what the audit task saw each time it
    ran, and the end *)
Record run := MkRun {
  sent : list out;
  audited : list (list text);
  ending : stop;
  final : gen;
}.

Definition start (t : option T) : gen := MkGen [] 0 [] 0 t.

(** [generate]: the [finally] block runs the audit task; the governance event
    follows only a loop that ended by itself. *)
Definition generate (s : settings) (t : option T) (audit governance broken : bool)
    (patience : option nat) (chunks : list text) : run :=
  let '(g, os, why) := chunk_loop s broken patience (start t) chunks in
  MkRun (os ++ match why with Finished => if governance then [OGovernance] else [] | _ => [] end)
    (if audit then [buffer g] else []) why g.

(** ** The window *)

Lemma last_chars_app n a b : 0 <= n -> last_chars n (last_chars n a ++ b) = last_chars n (a ++ b).
Proof.
  intros Hn. unfold last_chars, zlen. rewrite length_app, length_drop.
  destruct (decide (Z.of_nat (length a) <= n)).
  { replace (Z.to_nat (Z.of_nat (length a) - n)) with 0%nat by lia. rewrite drop_0, length_app.
    f_equal. lia. }
  rewrite !length_app. rewrite <- (drop_app_le a b) by lia. rewrite drop_drop. f_equal. lia.
Qed.

Lemma last_chars_short n a : zlen a <= n -> last_chars n a = a.
Proof. intros. unfold last_chars. replace (Z.to_nat _) with 0%nat by lia. by rewrite drop_0. Qed.

Lemma zlen_last_chars n a : 0 <= n -> zlen (last_chars n a) = Z.min n (zlen a).
Proof. intros. unfold last_chars, zlen. rewrite length_drop. lia. Qed.

(** The window is the last 4096 characters received. *)
Definition window (chunks : list text) : text := last_chars _WINDOW (concat chunks).

Lemma receive_acc s g c :
  accumulated_text (receive s g c) = last_chars _WINDOW (accumulated_text g ++ c).
Proof.
  unfold receive. destruct (buffer_size g <? max_stream_buffer_bytes s); cbn [accumulated_text].
  all: destruct (_WINDOW <? zlen (accumulated_text g ++ c)) eqn:H; [done|].
  all: zbool; by rewrite last_chars_short.
Qed.

Lemma translated_fields g c g' os why :
  translated g c = (g', os, why) ->
  (why = None \/ why = Some Interrupted) /\
  buffer g' = buffer g /\ buffer_size g' = buffer_size g /\
  accumulated_text g' = accumulated_text g /\ pii_checked_len g' = pii_checked_len g.
Proof.
  unfold translated. destruct (stream_translator g) as [t|]; [|intros [= <- <- <-]; auto].
  destruct (feed t c) as [[t' c']|]; intros [= <- <- <-]; auto.
Qed.

Lemma on_chunk_fields s g c g' os why :
  on_chunk s g c = (g', os, why) ->
  buffer g' = buffer (receive s g c) /\ buffer_size g' = buffer_size (receive s g c) /\
  accumulated_text g' = accumulated_text (receive s g c).
Proof.
  unfold on_chunk. destruct (check_stream_safety _); [by intros [= <- <- <-]|].
  destruct (check_stream_pii _ _) as [found n]. destruct (found && _); [by intros [= <- <- <-]|].
  intros (_ & -> & -> & -> & _)%translated_fields. done.
Qed.

(** ** What is sent and what is audited *)

(** After receiving [pre]: the window, and the prefix in the buffer, which is all
    of it until the cap is reached. *)
Definition teed (s : settings) (pre : list text) (g : gen) : Prop :=
  accumulated_text g = window pre /\
  exists j, (j <= length pre)%nat /\ buffer g = take j pre /\
    buffer_size g = zlen (concat (take j pre)) /\
    ((j < length pre)%nat -> max_stream_buffer_bytes s <= buffer_size g).

Lemma concat_snoc (pre : list text) c : concat (pre ++ [c]) = concat pre ++ c.
Proof. rewrite concat_app. simpl. by rewrite app_nil_r. Qed.

Lemma receive_teed s pre g c : teed s pre g -> teed s (pre ++ [c]) (receive s g c).
Proof.
  intros (Hacc & j & Hj & Hb & Hn & Hcap). split.
  { rewrite receive_acc, Hacc. unfold window. by rewrite concat_snoc, last_chars_app. }
  unfold receive. destruct (buffer_size g <? max_stream_buffer_bytes s) eqn:Hlt; zbool;
    cbn [buffer buffer_size].
  - assert (j = length pre) as -> by lia. rewrite firstn_all in Hb, Hn.
    exists (length (pre ++ [c])). rewrite firstn_all. split; [lia|]. split; [by rewrite Hb|].
    split; [|lia]. by rewrite concat_snoc, zlen_app, Hn.
  - exists j. rewrite length_app. simpl. split; [lia|]. rewrite take_app_le by done. auto.
Qed.

Lemma on_chunk_teed s pre g c g' os why :
  teed s pre g -> on_chunk s g c = (g', os, why) -> teed s (pre ++ [c]) g'.
Proof.
  intros Ht Hc. apply (receive_teed s pre g c) in Ht. apply on_chunk_fields in Hc as (Hb & Hn & Ha).
  unfold teed. by rewrite Hb, Hn, Ha.
Qed.

(** What the client gets of one chunk and of several, and what is flushed at the end *)
Definition render_one (o : option T) (c : text) : res (option T * list text) :=
  match o with
  | None => Ok (None, [c])
  | Some t => let! '(t, c) := feed t c in Ok (Some t, if bool_decide (c = []) then [] else [c])
  end.

Fixpoint render (o : option T) (chunks : list text) : res (option T * list text) :=
  match chunks with
  | [] => Ok (o, [])
  | c :: chunks =>
      let! '(o, l) := render_one o c in
      let! '(o, l') := render o chunks in
      Ok (o, l ++ l')
  end.

Definition tail_of (o : option T) : list text :=
  match o with Some t => if bool_decide (flush t = []) then [] else [flush t] | None => [] end.

Lemma render_none chunks : render None chunks = Ok (None, chunks).
Proof. induction chunks as [|c l IH]; [done|]. cbn [render render_one res_bind]. by rewrite IH. Qed.

Lemma on_chunk_cases s pre g c g' os why :
  teed s pre g -> on_chunk s g c = (g', os, why) ->
  match why with
  | None => exists l, render_one (stream_translator g) c = Ok (stream_translator g', l) /\ os = OChunk <$> l /\
                      check_stream_safety (window (pre ++ [c])) = false
  | Some SafetyAbort => (exists e, os = [OError e]) /\ check_stream_safety (window (pre ++ [c])) = true
  | Some PiiAbort => exists e, os = [OError e]
  | Some Interrupted => os = []
  | Some _ => False
  end.
Proof.
  intros Ht. pose proof (receive_teed s pre g c Ht) as [Hacc _].
  assert (stream_translator (receive s g c) = stream_translator g) as Hn'.
  { unfold receive. by destruct (buffer_size g <? _). }
  unfold on_chunk. rewrite Hacc. destruct (check_stream_safety _) eqn:Hs.
  { intros [= <- <- <-]. eauto. }
  destruct (check_stream_pii _ _) as [found n]. destruct (found && _); [intros [= <- <- <-]; simpl; eauto|].
  unfold translated, render_one. cbn [stream_translator with_checked]. rewrite Hn'.
  destruct (stream_translator g) as [t|]; [|intros [= <- <- <-]; exists [c]; cbn; by rewrite Hn'].
  destruct (feed t c) as [[t' c']|]; cbn [res_bind]; intros [= <- <- <-]; [|done].
  eexists. split; [done|]. by case_bool_decide.
Qed.

(** How the outputs end: with an error, or with what is flushed after the last chunk *)
Definition ends (broken : bool) (why : stop) (whole : Prop) (o : option T) (es : list out) : Prop :=
  match why with
  | Finished => whole /\ broken = false /\ es = OChunk <$> tail_of o
  | ClientGone => es = [] \/ (exists e, es = [OError e]) \/ (whole /\ es = OChunk <$> tail_of o)
  | _ => es = [] \/ exists e, es = [OError e]
  end.

Lemma loop_spec s broken chunks : forall pre patience g,
  teed s pre g ->
  let '(g', os, why) := chunk_loop s broken patience g chunks in
  exists k m l o es,
    (k <= m)%nat /\ (m <= S k)%nat /\ (m <= length chunks)%nat /\
    render (stream_translator g) (take k chunks) = Ok (o, l) /\
    os = (OChunk <$> l) ++ es /\ ends broken why (k = length chunks) o es /\
    teed s (pre ++ take m chunks) g' /\
    (forall i, (i < k)%nat -> check_stream_safety (window (pre ++ take (S i) chunks)) = false) /\
    (why = SafetyAbort -> m = S k /\ check_stream_safety (window (pre ++ take m chunks)) = true).
Proof.
  induction chunks as [|c chunks IH]; intros pre patience g Ht; cbn [chunk_loop].
  { assert (OChunk <$> tail_of (stream_translator g) =
      match stream_translator g with Some t => if bool_decide (flush t = []) then [] else [OChunk (flush t)] | None => [] end) as Htail
      by (unfold tail_of; destruct (stream_translator g); [by case_bool_decide|done]).
    rewrite <- Htail. set (o := stream_translator g).
    destruct broken; [exists 0%nat, 0%nat, [], o, []|destruct (deliver _ _); exists 0%nat, 0%nat, [], o, (OChunk <$> tail_of o)];
      cbn [ends take firstn app fmap list_fmap length]; rewrite app_nil_r; split_and!; auto; intros; (lia || done). }
  destruct (on_chunk s g c) as [[g1 os1] why1] eqn:Hc.
  pose proof (on_chunk_teed _ _ _ _ _ _ _ Ht Hc) as Ht1.
  pose proof (on_chunk_cases _ _ _ _ _ _ _ Ht Hc) as Hcase.
  assert (pre ++ take 1 (c :: chunks) = pre ++ [c]) as Hone by (simpl; by rewrite take_0).
  destruct why1 as [why1|].
  - assert (os1 = [] \/ exists e, os1 = [OError e]) as He by (destruct why1; naive_solver).
    assert (why1 = SafetyAbort -> check_stream_safety (window (pre ++ [c])) = true) as Hsafe
      by (intros ->; by destruct Hcase).
    assert (why1 <> Finished) as Hnf by (by intros ->).
    assert (ends broken why1 (0%nat = length (c :: chunks)) (stream_translator g) os1 /\
            ends broken ClientGone (0%nat = length (c :: chunks)) (stream_translator g) os1) as [E1 E2]
      by (destruct why1; cbn; naive_solver).
    destruct (deliver patience os1); (exists 0%nat, 1%nat, [], (stream_translator g), os1);
      rewrite Hone; split_and!; auto; try (simpl; lia); intros; (lia || done || auto).
  - destruct Hcase as (l1 & Hl1 & -> & Hsafe). destruct (deliver patience _) as [patience'|].
    + specialize (IH (pre ++ [c]) patience' g1 Ht1).
      destruct (chunk_loop s broken patience' g1 chunks) as [[g2 os2] why2].
      destruct IH as (k & m & l & o & es & Hkm & Hmk & Hm & Hr & -> & Hes & Ht2 & Hall & Hab).
      rewrite <- app_assoc in Ht2, Hab. simpl in Ht2, Hab.
      exists (S k), (S m), (l1 ++ l), o, es. cbn [take firstn length render]. rewrite Hl1. cbn [res_bind]. rewrite Hr. split_and!; auto; try lia.
      * by rewrite fmap_app, app_assoc.
      * unfold ends in *. destruct why2; naive_solver.
      * intros [|i] Hi; [by rewrite take_0|]. specialize (Hall i ltac:(lia)).
        by rewrite <- app_assoc in Hall.
      * intros Hw. by destruct (Hab Hw) as [-> ?].
    + exists 1%nat, 1%nat, l1, (stream_translator g1), []. rewrite Hone, app_nil_r. cbn [take firstn length render].
      rewrite take_0, Hl1. cbn [res_bind render]. rewrite app_nil_r. split_and!; auto; try lia; try done.
      * by left.
      * intros [|i] Hi; [by rewrite take_0|lia].
Qed.

(** The chunks among the outputs *)
Fixpoint chunks_of (os : list out) : list text :=
  match os with
  | [] => []
  | OChunk c :: os => c :: chunks_of os
  | _ :: os => chunks_of os
  end.

Definition forwarded (r : run) : list text := chunks_of (sent r).

Lemma chunks_of_app (l : list text) os : chunks_of ((OChunk <$> l) ++ os) = l ++ chunks_of os.
Proof. induction l as [|c l IH]; simpl; [done|]. f_equal. apply IH. Qed.

Lemma chunks_of_tail broken why whole o (es : list out) (governance : bool) :
  ends broken why whole o es ->
  let got := chunks_of (es ++ match why with Finished => if governance then [OGovernance] else [] | _ => [] end) in
  (got = [] \/ whole /\ got = tail_of o) /\ (why = Finished -> whole /\ broken = false /\ got = tail_of o).
Proof.
  assert (forall l gov, (gov = [] \/ gov = [OGovernance]) -> chunks_of ((OChunk <$> l) ++ gov) = l) as Hl.
  { intros l gov Hg. rewrite chunks_of_app. destruct Hg as [-> | ->]; apply app_nil_r. }
  intros He. cbv zeta. destruct why; cbn [ends] in He; rewrite ?app_nil_r.
  - destruct He as (Hw & Hb & ->). rewrite Hl by (destruct governance; auto). auto.
  - split; [|done]. left. by destruct He as [-> |[e ->]].
  - split; [|done]. left. by destruct He as [-> |[e ->]].
  - split; [|done]. left. by destruct He as [-> |[e ->]].
  - split; [|done]. destruct He as [-> |[[e ->]|[Hw ->]]]; [by left..|]. right. split; [done|].
    rewrite <- (app_nil_r (OChunk <$> _)). apply Hl. auto.
Qed.

Lemma teed_start s t : teed s [] (start t).
Proof. split; [done|]. exists 0%nat. repeat split; simpl; lia || done. Qed.

(** C40.  What the client got was audited.  However a stream ends (after its last chunk,
    on a safety abort, on an error of the upstream or of the translator, or because the
    client left), the client got what the adapter's translator makes of a prefix of the
    upstream's chunks, and what the translator flushes only after the last of them;
    without a translator it got that prefix itself, unchanged.  At most one received
    chunk was held back, and the audit task ran exactly once, on a prefix of the
    upstream's own chunks that is cut short only by the buffer's cap.  A stream that
    ends by itself delivered every chunk and the flushed rest. *)
Theorem stream_is_audited s t audit governance broken patience chunks :
  let r := generate s t audit governance broken patience chunks in
  exists k m j l o,
    render t (take k chunks) = Ok (o, l) /\
    (forwarded r = l \/ (k = length chunks /\ forwarded r = l ++ tail_of o)) /\
    (t = None -> forwarded r = take k chunks) /\
    (k <= m <= S k)%nat /\ (m <= length chunks)%nat /\
    audited r = (if audit then [take j chunks] else []) /\ (j <= m)%nat /\
    ((j < m)%nat -> max_stream_buffer_bytes s <= zlen (concat (take j chunks))) /\
    (ending r = Finished -> k = length chunks /\ broken = false /\ forwarded r = l ++ tail_of o).
Proof.
  intros r. subst r. unfold generate.
  pose proof (loop_spec s broken chunks [] patience (start t) (teed_start s t)) as H.
  destruct (chunk_loop s broken patience (start t) chunks) as [[g os] why].
  destruct H as (k & m & l & o & es & Hkm & Hmk & Hm & Hr & -> & Hes & (_ & j & Hj & Hb & Hn & Hcap) & _ & _).
  simpl in Hj, Hb, Hn, Hcap, Hr. rewrite length_take_le in Hj, Hcap by done.
  rewrite take_take, Nat.min_l in Hb, Hn by done.
  exists k, m, j, l, o. unfold forwarded. cbn [sent audited ending].
  rewrite <- app_assoc, chunks_of_app, Hb. destruct (chunks_of_tail _ _ _ _ _ governance Hes) as [Hgot Hfin].
  split; [done|]. split.
  { destruct Hgot as [-> |[Hw ->]]; [left; apply app_nil_r|by right]. }
  split.
  { intros ->. rewrite render_none in Hr. injection Hr as <- <-.
    destruct Hgot as [-> |[_ ->]]; apply app_nil_r. }
  split; [lia|]. split; [done|]. split; [done|]. split; [done|]. split; [intros; rewrite <- Hn; by apply Hcap|].
  intros Hw. by destruct (Hfin Hw) as (Hk & Hbr & ->).
Qed.

(**  No chunk after an unsafe window.  Every chunk the client got arrived when
    the last 4096 characters received, the chunk included, did not match the
    child-safety patterns; the stream is aborted for safety at the first chunk
    that makes them match, and that chunk is not sent. *)
Theorem no_unsafe_chunk s audit governance broken patience chunks :
  let r := generate s None audit governance broken patience chunks in
  (forall i, (i < length (forwarded r))%nat -> check_stream_safety (window (take (S i) chunks)) = false) /\
  (ending r = SafetyAbort ->
   check_stream_safety (window (take (S (length (forwarded r))) chunks)) = true).
Proof.
  intros r. subst r. unfold generate.
  pose proof (loop_spec s broken chunks [] patience (start None) (teed_start s None)) as H.
  destruct (chunk_loop s broken patience (start None) chunks) as [[g os] why].
  destruct H as (k & m & l & o & es & Hkm & Hmk & Hm & Hr & -> & Hes & _ & Hall & Hab).
  simpl in Hall, Hab, Hr. unfold forwarded. cbn [sent ending].
  rewrite render_none in Hr. injection Hr as <- <-.
  destruct (chunks_of_tail _ _ _ _ _ governance Hes) as [Hgot _].
  assert (forall es, chunks_of es = [] \/ k = length chunks /\ chunks_of es = [] ->
            length (chunks_of ((OChunk <$> take k chunks) ++ es)) = k) as Hlen.
  { intros es' He. rewrite chunks_of_app. destruct He as [-> |[_ ->]]; rewrite app_nil_r; apply length_take_le; lia. }
  rewrite <- app_assoc, Hlen by exact Hgot. split; [done|].
  intros Hw. by destruct (Hab Hw) as [-> ?].
Qed.

(** ** The window of the PII check *)

(** The part of the window that was not checked is always short. *)
Definition lag_ok (g : gen) : Prop :=
  zlen (accumulated_text g) - pii_checked_len g < _PII_CHECK_INTERVAL.

Lemma receive_checked s g c : pii_checked_len (receive s g c) = pii_checked_len g.
Proof. unfold receive. by destruct (buffer_size g <? _). Qed.

Lemma receive_len s g c :
  zlen (accumulated_text (receive s g c)) = Z.min _WINDOW (zlen (accumulated_text g) + zlen c).
Proof. by rewrite receive_acc, zlen_last_chars, zlen_app by done. Qed.

(** A chunk that is checked for PII at all comes with 500 new characters. *)
Lemma on_chunk_lag s g c g' os why :
  on_chunk s g c = (g', os, why) ->
  (why = Some PiiAbort ->
   _PII_CHECK_INTERVAL <= Z.min _WINDOW (zlen (accumulated_text g) + zlen c) - pii_checked_len g) /\
  (why = None -> lag_ok g' /\
   zlen (accumulated_text g') = Z.min _WINDOW (zlen (accumulated_text g) + zlen c) /\
   pii_checked_len g <= pii_checked_len g').
Proof.
  unfold on_chunk. rewrite <- (receive_len s g c), <- (receive_checked s g c).
  set (g1 := receive s g c).
  destruct (check_stream_safety _); [by intros [= <- <- <-]|].
  unfold check_stream_pii. destruct (_ <? _PII_CHECK_INTERVAL) eqn:Hlag; zbool.
  - cbn [andb]. intros (Hw & _ & _ & Ha & Hp)%translated_fields. split; [by destruct Hw as [-> | ->]|]. intros _.
    unfold lag_ok. rewrite Ha, Hp. simpl. split_and!; lia || done.
  - destruct (pii_search _ && _); [intros [= <- <- <-]; by split|].
    intros (Hw & _ & _ & Ha & Hp)%translated_fields. split; [by destruct Hw as [-> | ->]|]. intros _.
    unfold lag_ok. rewrite Ha, Hp. simpl. unfold _PII_CHECK_INTERVAL in *. split_and!; lia || done.
Qed.

(** With the window full nothing is checked any more. *)
Lemma full_window_blind s broken chunks : forall patience g,
  lag_ok g -> zlen (accumulated_text g) = _WINDOW ->
  (chunk_loop s broken patience g chunks).2 <> PiiAbort.
Proof.
  induction chunks as [|c chunks IH]; intros patience g Hlag Hw; cbn [chunk_loop].
  { destruct broken; [done|]. by destruct (deliver patience _). }
  destruct (on_chunk s g c) as [[g1 os1] why1] eqn:Hc. apply on_chunk_lag in Hc as [Habort Hgo].
  unfold lag_ok in Hlag. rewrite Hw in *. pose proof (zlen_nonneg c).
  destruct (deliver patience os1) as [patience'|]; [|done]. destruct why1 as [why1|].
  - simpl. intros ->. specialize (Habort eq_refl). unfold _WINDOW, _PII_CHECK_INTERVAL in *. lia.
  - destruct (Hgo eq_refl) as (Hlag1 & Hlen & _).
    specialize (IH patience' g1 Hlag1 ltac:(unfold _WINDOW in *; lia)).
    by destruct (chunk_loop s broken patience' g1 chunks) as [[g2 os2] why2].
Qed.

Lemma pii_early s broken post pre : forall patience g,
  lag_ok g -> zlen (accumulated_text g) <= _WINDOW ->
  _WINDOW <= zlen (accumulated_text g) + zlen (concat pre) ->
  (chunk_loop s broken patience g (pre ++ post)).2 = PiiAbort ->
  (chunk_loop s broken patience g pre).2 = PiiAbort.
Proof.
  induction pre as [|c pre IH]; intros patience g Hlag Hle Hlen.
  { intros H. simpl in Hlen. rewrite zlen_nil in Hlen.
    by destruct (full_window_blind s broken post patience g Hlag ltac:(lia)). }
  rewrite <- app_comm_cons. cbn [chunk_loop concat] in *. rewrite zlen_app in Hlen.
  destruct (on_chunk s g c) as [[g1 os1] why1] eqn:Hc. apply on_chunk_lag in Hc as [_ Hgo].
  destruct (deliver patience os1) as [patience'|]; [|done]. destruct why1 as [why1|]; [done|].
  destruct (Hgo eq_refl) as (Hlag1 & Hl1 & _).
  pose proof (zlen_nonneg (concat pre)).
  specialize (IH patience' g1 Hlag1 ltac:(lia) ltac:(lia)).
  destruct (chunk_loop s broken patience' g1 (pre ++ post)) as [[g2 os2] why2].
  by destruct (chunk_loop s broken patience' g1 pre) as [[g3 os3] why3].
Qed.

Lemma pii_short s broken chunks : forall patience g,
  pii_checked_len g = 0 -> zlen (accumulated_text g) + zlen (concat chunks) < _PII_CHECK_INTERVAL ->
  (chunk_loop s broken patience g chunks).2 <> PiiAbort.
Proof.
  induction chunks as [|c chunks IH]; intros patience g Hp Hlen; cbn [chunk_loop].
  { destruct broken; [done|]. by destruct (deliver patience _). }
  cbn [concat] in Hlen. rewrite zlen_app in Hlen. pose proof (zlen_nonneg (concat chunks)).
  assert (check_stream_pii (accumulated_text (receive s g c)) (pii_checked_len g) =
            (false, pii_checked_len g)) as Hskip.
  { unfold check_stream_pii. rewrite receive_len, (proj2 (Z.ltb_lt _ _)) by lia. done. }
  destruct (on_chunk s g c) as [[g1 os1] why1] eqn:Hc.
  pose proof (on_chunk_lag _ _ _ _ _ _ Hc) as [Habort Hgo].
  destruct (deliver patience os1) as [patience'|]; [|done]. destruct why1 as [why1|].
  - simpl. intros ->. specialize (Habort eq_refl). lia.
  - destruct (Hgo eq_refl) as (_ & Hl1 & _).
    assert (pii_checked_len g1 = 0) as Hp1.
    { unfold on_chunk in Hc. rewrite receive_checked, Hskip in Hc.
      destruct (check_stream_safety _); [done|]. cbn [andb] in Hc.
      by apply translated_fields in Hc as (_ & _ & _ & _ & ->). }
    specialize (IH patience' g1 Hp1 ltac:(lia)).
    by destruct (chunk_loop s broken patience' g1 chunks) as [[g2 os2] why2].
Qed.

(**  The PII check has blind spots.  A stream of less than 500 characters is
    never checked, and once 4096 characters were received nothing that follows is:
    the check measures progress by the length of a window that no longer grows.
    Whatever the patterns are, an abort can only be caused by the part before. *)
Theorem pii_blind_spots s t audit governance broken patience :
  (forall chunks, zlen (concat chunks) < _PII_CHECK_INTERVAL ->
   ending (generate s t audit governance broken patience chunks) <> PiiAbort) /\
  (forall pre post, _WINDOW <= zlen (concat pre) ->
   ending (generate s t audit governance broken patience (pre ++ post)) = PiiAbort ->
   ending (generate s t audit governance broken patience pre) = PiiAbort).
Proof.
  split.
  - intros chunks Hlen. unfold generate.
    pose proof (pii_short s broken chunks patience (start t) eq_refl Hlen).
    by destruct (chunk_loop s broken patience (start t) chunks) as [[g os] why].
  - intros pre post Hlen. unfold generate.
    pose proof (pii_early s broken post pre patience (start t)) as H.
    destruct (chunk_loop s broken patience (start t) (pre ++ post)) as [[g os] why].
    destruct (chunk_loop s broken patience (start t) pre) as [[g' os'] why']. apply H; done.
Qed.

End streaming.

(** ** Runs *)

Module Streams.

Definition chars (s : string) : text := String.list_ascii_of_string s.
Definition has (p : string) (t : text) : bool := contains p (String.string_of_list_ascii t).
Definition no_translator : unit -> text -> res (unit * text) := fun u c => Ok (u, c).
Definition abort : settings := MkSettings 1000000 "abort".

(** The patterns are single words here. *)
Definition stream (chunks : list text) : run :=
  generate (has "csam") (has "123-45-6789") no_translator (fun _ => []) abort None true true false None chunks.

Example unsafe_run :
  sent (stream [chars "hello "; chars "cs"; chars "am"; chars "more"]) =
    [OChunk (chars "hello "); OChunk (chars "cs"); OError "content_safety"].
Proof. vm_compute. reflexivity. Qed.

Example pii_run : ending (stream [repeat "a"%char 500; chars " 123-45-6789"; repeat "b"%char 500]) = PiiAbort.
Proof. vm_compute. reflexivity. Qed.

(** A translator that marks every chunk *)
Definition mark : unit -> text -> res (unit * text) := fun u c => Ok (u, chars ">" ++ c).
Definition marked (chunks : list text) : run :=
  generate (has "csam") (has "123-45-6789") mark (fun _ => chars "[DONE]") abort (Some tt) true true false None chunks.

(** The client got the translation and the flushed end, the audit the original. *)
Lemma stream_is_audited_witness :
  let r := marked [chars "a"; chars "b"] in
  forwarded r = [chars ">a"; chars ">b"; chars "[DONE]"] /\ audited r = [[chars "a"; chars "b"]].
Proof.
  intros r. split; [|vm_compute; reflexivity].
  destruct (stream_is_audited (has "csam") (has "123-45-6789") mark (fun _ => chars "[DONE]") abort (Some tt)
              true true false None [chars "a"; chars "b"]) as (k & m & j & l & o & Hr & _ & _ & _ & _ & _ & _ & _ & Hfin).
  destruct Hfin as (-> & _ & Hf); [vm_compute; reflexivity|]. vm_compute in Hr. injection Hr as <- <-.
  unfold r, marked. rewrite Hf. reflexivity.
Defined.

(** After 4200 characters the same text passes. *)
Lemma pii_blind_spots_witness :
  let pre := repeat (repeat "a"%char 600) 7 in
  let r := stream (pre ++ [chars " 123-45-6789"; repeat "b"%char 600]) in
  ending r <> PiiAbort /\ last (forwarded r) = Some (repeat "b"%char 600).
Proof.
  split; [|vm_compute; reflexivity].
  intros H. unfold stream in H.
  apply (proj2 (pii_blind_spots (has "csam") (has "123-45-6789") no_translator (fun _ => []) abort None
                  true true false None)) in H.
  - vm_compute in H. discriminate.
  - vm_compute. discriminate.
Defined.

End Streams.
