(* ===== verification/ResponsePolicy.v ===== *)
(** * Content analysis of responses

    pipeline/response_evaluator.py, the decision types of content/base.py, and
    [_run_response_policy] of pipeline/orchestrator.py.  The analyzers are
    arguments: what one answers on a text, or that it timed out or raised.  The
    TTL cache (cachetools) is the class [TTLCache]; the digest and the format of a
    confidence are parameters.  Metrics and logging are not modelled. *)
From S2P Require Import Prelude ODict PyVal PolicyEngine.

Local Open Scope Z_scope.

Inductive Verdict := PASS | WARN | BLOCK.

#[export] Instance verdict_dec : EqDecision Verdict.
Proof. solve_decision. Defined.

Definition verdict_value (v : Verdict) : string :=
  match v with PASS => "pass" | WARN => "warn" | BLOCK => "block" end.

Record Decision := MkDecision {
  verdict : Verdict;
  confidence : pyval;
  analyzer_id : string;
  category : string;
  reason : string;
}.

(** One analyzer on one text *)
Inductive answer :=
  | Answered (d : option Decision)
  | TimedOut
  | Failed (e : string).

Record analyzer := MkAnalyzer {
  a_id : string;
  timeout_ms : Z;
  analyze : string -> answer;
}.

(** Timeouts and exceptions fail open. *)
Definition _run_analyzer (a : analyzer) (text : string) : option Decision :=
  match analyze a text with
  | Answered d => d
  | TimedOut =>
      Some (MkDecision PASS (PFloat (sf_of_Z 0) "0.0") (a_id a) "timeout"
              ("analyzer timed out after " +:+ z_str (timeout_ms a) +:+ "ms"))
  | Failed e => Some (MkDecision PASS (PFloat (sf_of_Z 0) "0.0") (a_id a) "error" ("analyzer error: " +:+ e))
  end.

Definition decision_dict (d : Decision) : dict :=
  [("analyzer_id", PStr (analyzer_id d)); ("verdict", PStr (verdict_value (verdict d)));
   ("confidence", confidence d); ("category", PStr (category d)); ("reason", PStr (reason d))].

Definition decisions (analyzers : list analyzer) (text : string) : list Decision :=
  omap (fun a => _run_analyzer a text) analyzers.

(** ** [analyze_text] and its cache *)

Class TTLCache (M : Type) := {
  ttl_get : M -> string -> Z -> option (list dict);
  ttl_set : M -> string -> list dict -> Z -> M;
}.

(** An entry that is found was stored under that key. *)
Class TTLCacheLaws (M : Type) `{TTLCache M} := {
  ttl_get_set m k v t k' t' v' :
    ttl_get (ttl_set m k v t) k' t' = Some v' -> (k' = k /\ v' = v) \/ exists t'', ttl_get m k' t'' = Some v';
}.

Section analysis.
Context {M : Type} `{TTLCacheLaws M} (digest : string -> string).

(** The tenant and the first 16 digits of the SHA-256 *)
Definition cache_key (tenant_id text : string) : string := (tenant_id +:+ ":" +:+ digest text)%string.

Definition analyze_text (m : M) (text : string) (analyzers : list analyzer) (tenant_id : string) (now : Z)
    : M * list dict :=
  if bool_decide (length analyzers = 0%nat) || bool_decide (text = "") then (m, [])
  else
    match ttl_get m (cache_key tenant_id text) now with
    | Some ds => (m, ds)
    | None =>
        let ds := map decision_dict (decisions analyzers text) in
        (ttl_set m (cache_key tenant_id text) ds now, ds)
    end.

(** ** The cache is transparent *)

(** The texts of a run; SHA-256's first 16 digits tell them apart. *)
Context (texts : gset string).
Hypothesis digest_length : forall t, t ∈ texts -> String.length (digest t) = 16%nat.
Hypothesis digest_inj : forall t t', t ∈ texts -> t' ∈ texts -> digest t = digest t' -> t = t'.

(** Every entry is the analysis of the text its key names. *)
Definition faithful (analyzers : list analyzer) (m : M) : Prop :=
  forall tenant text now ds, text ∈ texts -> ttl_get m (cache_key tenant text) now = Some ds ->
  ds = map decision_dict (decisions analyzers text).

Lemma cache_key_inj tenant text tenant' text' :
  text ∈ texts -> text' ∈ texts ->
  cache_key tenant text = cache_key tenant' text' -> tenant = tenant' /\ text = text'.
Proof.
  unfold cache_key. intros Ht Ht' Heq. apply append_inj_r in Heq as [-> Heq].
  - injection Heq as Heq. split; [done|]. by apply digest_inj.
  - by rewrite !str_length_app, !digest_length.
Qed.

(** What an analysis gives without a cache *)
Definition direct (analyzers : list analyzer) (text : string) : list dict :=
  if bool_decide (text = "") then [] else map decision_dict (decisions analyzers text).

Lemma analyze_faithful analyzers m text tenant now :
  text ∈ texts -> faithful analyzers m ->
  let r := analyze_text m text analyzers tenant now in
  faithful analyzers r.1 /\ r.2 = direct analyzers text.
Proof.
  intros Hin Hf r. subst r. unfold analyze_text, direct.
  destruct (bool_decide (text = "")) eqn:Htext; [by rewrite orb_true_r|]. rewrite orb_false_r.
  destruct (bool_decide (length analyzers = 0%nat)) eqn:Hn.
  { zbool. by destruct analyzers. }
  destruct (ttl_get m (cache_key tenant text) now) as [ds|] eqn:Hg.
  { simpl. split; [done|]. by apply (Hf _ _ _ _ Hin Hg). }
  simpl. split; [|done]. intros tenant' text' now' ds Hin' Hds.
  apply ttl_get_set in Hds as [[Hk ->]|[t Ht]]; [|by apply (Hf _ _ _ _ Hin' Ht)].
  by apply cache_key_inj in Hk as [-> ->].
Qed.

(** A sequence of analyses: text, tenant, time *)
Fixpoint analyze_all (m : M) (analyzers : list analyzer) (l : list (string * string * Z)) : M * list (list dict) :=
  match l with
  | [] => (m, [])
  | (text, tenant, now) :: l =>
      let '(m, ds) := analyze_text m text analyzers tenant now in
      let '(m, rest) := analyze_all m analyzers l in (m, ds :: rest)
  end.

(**  The analysis cache is transparent.  Whatever texts of whatever tenants
    were analysed before and whenever entries expired, an analysis through the
    cache is the one the analyzers give for this very text, as long as the digest
    tells the texts apart. *)
Theorem analysis_cache_transparent analyzers l m :
  faithful analyzers m -> Forall (fun x => x.1.1 ∈ texts) l ->
  (analyze_all m analyzers l).2 = map (fun x => direct analyzers x.1.1) l.
Proof.
  intros Hf Hl. revert m Hf. induction Hl as [|[[text tenant] now] l Hin Hl IH]; intros m Hf; [done|].
  cbn [analyze_all map fst] in *. destruct (analyze_faithful analyzers m text tenant now Hin Hf) as [Hf' Hds].
  destruct (analyze_text m text analyzers tenant now) as [m1 ds]. cbn [fst snd] in *.
  specialize (IH m1 Hf'). destruct (analyze_all m1 analyzers l) as [m2 rest]. cbn [snd] in *. by rewrite Hds, IH.
Qed.
End analysis.

(** ** The response policy *)

Record ContentBlockDetail := MkDetail {
  bd_analyzer_id : string;
  bd_category : string;
  bd_confidence : pyval;
  bd_reason : string;
}.

(** [evaluate_post_inference]'s answer *)
Record outcome := MkOutcome {
  blocked : bool;
  response_policy_version : Z;
  response_policy_result : string;
  analyzer_decisions : list dict;
  error_response : option PreInference.response;
}.

Section response.
Context (fmt2 : pyval -> string).             (** [f"{x:.2f}"] *)

Definition to_response_body (d : ContentBlockDetail) : dict :=
  [("error", PStr "Blocked by content analysis");
   ("reason", PStr ("Content analyzer '" +:+ bd_analyzer_id d +:+ "' flagged category '" +:+ bd_category d
                    +:+ "' (confidence: " +:+ fmt2 (bd_confidence d) +:+ ")")%string);
   ("governance_decision", PDict
      [("analyzer_id", PStr (bd_analyzer_id d)); ("category", PStr (bd_category d));
       ("confidence", bd_confidence d); ("reason", PStr (bd_reason d))])].

(** [model_response.content or model_response.thinking_content] *)
Definition text_to_analyze (content : string) (thinking_content : option string) : string :=
  if bool_decide (content = "") then default "" thinking_content else content.

Definition evaluate_post_inference (policy_version : Z) (content : string)
    (thinking_content : option string) (analyzers : list analyzer) : outcome :=
  let text := text_to_analyze content thinking_content in
  if bool_decide (length analyzers = 0%nat) || bool_decide (text = "")
  then MkOutcome false policy_version "skipped" [] None
  else
    let ds := decisions analyzers text in
    let dicts := map decision_dict ds in
    match List.filter (fun d => bool_decide (verdict d = BLOCK)) ds with
    | top :: _ =>
        let detail := MkDetail (analyzer_id top) (category top) (confidence top) (reason top) in
        MkOutcome true policy_version "blocked" dicts
          (Some (PreInference.MkResponse 403 (to_response_body detail)))
    | [] =>
        match List.filter (fun d => bool_decide (verdict d = WARN)) ds with
        | _ :: _ => MkOutcome false policy_version "flagged" dicts None
        | [] => MkOutcome false policy_version "pass" dicts None
        end
    end.

(** The decisions that say [action == "block"], by their [analyzer] *)
Definition acting (ds : list dict) : list string :=
  map (fun d => py_str (dget_or "analyzer" (PStr "unknown") d))
    (List.filter (fun d => py_eqb (dget "action" d) (PStr "block")) ds).

(** [",".join(sorted({...})) or "unknown"] over them *)
Definition blocking_analyzers (ds : list dict) : string :=
  match isort String.leb (remove_dups (acting ds)) with
  | [] => "unknown"
  | l => String.concat "," l
  end.

(** What [_run_response_policy] returns, with the reason it sets for a denial
    and the audit metadata it leaves *)
Record verdict_of_response := MkRV {
  rp_version : Z;
  rp_result : string;
  rp_decisions : list dict;
  rp_would_block : bool;
  rp_reason : option string;
  rp_error : option PreInference.response;
  denial : option string;
  counted : list string;
}.

(** [policy_version] is [None] without a policy cache. *)
Definition _run_response_policy (policy_version : option Z) (response_policy_enabled is_audit_only : bool)
    (content : string) (thinking_content : option string) (analyzers : list analyzer)
    (would_have_blocked : bool) (why : option string) : verdict_of_response :=
  match policy_version with
  | Some version =>
      if negb (bool_decide (length analyzers = 0%nat)) && response_policy_enabled then
        let o := evaluate_post_inference version content thinking_content analyzers in
        let v := response_policy_version o in
        let r := response_policy_result o in
        let ds := analyzer_decisions o in
        match error_response o with
        | None => MkRV v r ds would_have_blocked why None None []
        | Some err =>
            if is_audit_only then
              MkRV v r ds true
                (match why with None | Some EmptyString => Some "response_policy"%string | _ => why end)
                None None []
            else
              MkRV v r ds would_have_blocked why (Some err)
                (Some ("response policy blocked by analyzers: " +:+ blocking_analyzers ds
                       +:+ " (result=" +:+ r +:+ ")")%string)
                (acting ds)
        end
      else MkRV 0 "skipped" [] would_have_blocked why None None []
  | None => MkRV 0 "skipped" [] would_have_blocked why None None []
  end.

(** ** What blocks a response *)

(** The answers of the analyzers, timeouts and exceptions left out *)
Definition answered (analyzers : list analyzer) (text : string) (v : Verdict) : Prop :=
  exists a d, a ∈ analyzers /\ analyze a text = Answered (Some d) /\ verdict d = v.

Lemma decisions_verdict analyzers text v :
  v <> PASS -> (exists d, d ∈ decisions analyzers text /\ verdict d = v) <-> answered analyzers text v.
Proof.
  intros Hv. unfold decisions, answered. split.
  - intros (d & Hd & <-). apply list_elem_of_omap in Hd as (a & Ha & Hr).
    exists a, d. split; [done|]. split; [|done]. revert Hr. unfold _run_analyzer.
    destruct (analyze a text); [by intros ->|by intros [= <-]..].
  - intros (a & d & Ha & Hr & <-). exists d. split; [|done]. apply list_elem_of_omap.
    exists a. split; [done|]. unfold _run_analyzer. by rewrite Hr.
Qed.

Lemma filter_verdict_cons v (ds : list Decision) d l :
  List.filter (fun d => bool_decide (verdict d = v)) ds = d :: l -> exists d, d ∈ ds /\ verdict d = v.
Proof.
  intros Hf. assert (In d (List.filter (fun d => bool_decide (verdict d = v)) ds)) as Hin
    by (rewrite Hf; by left).
  apply filter_In in Hin as [Hin Hv]. zbool. exists d. split; [by apply list_elem_of_In|done].
Qed.

Lemma filter_verdict_nil v (ds : list Decision) :
  List.filter (fun d => bool_decide (verdict d = v)) ds = [] -> ~ exists d, d ∈ ds /\ verdict d = v.
Proof.
  intros Hf (d & Hd & Hv). assert (In d (List.filter (fun d => bool_decide (verdict d = v)) ds)) as Hin.
  { apply filter_In. apply list_elem_of_In in Hd. split; [done|]. by apply bool_decide_eq_true. }
  by rewrite Hf in Hin.
Qed.

(**  What blocks a response.  A response is blocked, with 403, exactly when
    some analyzer answers BLOCK on the text the model produced (its thinking when
    it has no other content); it is flagged exactly when none blocks and some
    warns.  An analyzer that times out or raises never blocks, and nothing is
    skipped when there are analyzers and text. *)
Theorem response_blocked_exactly version content thinking analyzers :
  let text := text_to_analyze content thinking in
  let o := evaluate_post_inference version content thinking analyzers in
  (blocked o = true <-> text <> "" /\ answered analyzers text BLOCK) /\
  (blocked o = true <-> exists r, error_response o = Some r /\ PreInference.status_code r = 403) /\
  (response_policy_result o = "flagged" <->
     text <> "" /\ ~ answered analyzers text BLOCK /\ answered analyzers text WARN) /\
  (response_policy_result o = "skipped" <-> analyzers = [] \/ text = "").
Proof.
  intros text o. subst o. unfold evaluate_post_inference. fold text.
  pose proof (decisions_verdict analyzers text BLOCK ltac:(done)) as HB.
  pose proof (decisions_verdict analyzers text WARN ltac:(done)) as HW.
  destruct (bool_decide (length analyzers = 0%nat) || bool_decide (text = "")) eqn:Hskip.
  { assert (analyzers = [] \/ text = "") as Hs.
    { apply orb_true_iff in Hskip as [H|H]; zbool; [left; by destruct analyzers|by right]. }
    assert (~ (text <> "" /\ answered analyzers text BLOCK)) as Hno.
    { intros [Ht (a & d & Ha & _)]. destruct Hs as [->|]; [by apply not_elem_of_nil in Ha|done]. }
    assert (~ (text <> "" /\ answered analyzers text WARN)) as Hno'.
    { intros [Ht (a & d & Ha & _)]. destruct Hs as [->|]; [by apply not_elem_of_nil in Ha|done]. }
    simpl. split_and!; [naive_solver..|done]. }
  apply orb_false_iff in Hskip as [Hn Ht]. zbool.
  assert (~ (analyzers = [] \/ text = "")) as Hs by (intros [->|]; done).
  destruct (List.filter _ (decisions analyzers text)) as [|top l] eqn:Hb.
  - apply filter_verdict_nil in Hb. rewrite HB in Hb.
    destruct (List.filter (fun d => bool_decide (verdict d = WARN)) _) as [|wd l'] eqn:Hw.
    + apply filter_verdict_nil in Hw. rewrite HW in Hw. simpl. split_and!; naive_solver.
    + apply filter_verdict_cons in Hw. rewrite HW in Hw. simpl. split_and!; naive_solver.
  - apply filter_verdict_cons in Hb. rewrite HB in Hb. simpl. split_and!; naive_solver.
Qed.

Lemma acting_nil l : acting (map decision_dict l) = [].
Proof. unfold acting. induction l as [|d l IH]; [done|]. exact IH. Qed.

(**  The response policy always acts on its verdict, but never says on whose.
    With a policy cache and analyzers a blocked response is refused in enforcing
    mode, and passes with the mark "would have blocked" in audit-only mode;
    the recorded reason names the analyzer "unknown" and no per-analyzer block is
    counted, because the decisions have neither the key [action] nor [analyzer]. *)
Theorem denial_names_nobody version content thinking analyzers whb why :
  answered analyzers (text_to_analyze content thinking) BLOCK -> text_to_analyze content thinking <> "" ->
  let enforced := _run_response_policy (Some version) true false content thinking analyzers whb why in
  let audited := _run_response_policy (Some version) true true content thinking analyzers whb why in
  is_Some (rp_error enforced) /\
  denial enforced = Some "response policy blocked by analyzers: unknown (result=blocked)"%string /\
  counted enforced = [] /\
  rp_error audited = None /\ rp_would_block audited = true /\ is_Some (rp_reason audited).
Proof.
  intros Hblock Htext. unfold _run_response_policy.
  destruct Hblock as (a & d & Ha & Hd). assert (bool_decide (length analyzers = 0%nat) = false) as Hn.
  { apply bool_decide_eq_false. destruct analyzers; [by apply not_elem_of_nil in Ha|done]. }
  rewrite Hn. cbn [negb andb]. unfold evaluate_post_inference. rewrite Hn, (bool_decide_eq_false_2 _ Htext).
  cbn [orb]. destruct (List.filter _ _) as [|top l] eqn:Hf.
  { apply filter_verdict_nil in Hf. destruct Hf. apply decisions_verdict; [done|]. by exists a, d. }
  simpl. unfold blocking_analyzers. rewrite acting_nil. simpl. split_and!; try done.
  destruct why as [[|]|]; eauto.
Qed.

End response.

(** ** Runs *)

Module ResponseRuns.

Definition d_block : Decision := MkDecision BLOCK (PFloat (sf_of_Z 1) "1.0") "walacor.pii.v1" "pii" "ssn".
Definition pii : analyzer :=
  MkAnalyzer "walacor.pii.v1" 50 (fun t => Answered (if contains "123-45" t then Some d_block else None)).
Definition slow : analyzer := MkAnalyzer "slow" 50 (fun _ => TimedOut).

Lemma denial_names_nobody_witness :
  let r := _run_response_policy (fun _ => "1.00") (Some 3) true false "SSN 123-45-6789" None [slow; pii] false None in
  (exists e, rp_error r = Some e /\ PreInference.status_code e = 403) /\
  denial r = Some "response policy blocked by analyzers: unknown (result=blocked)"%string.
Proof.
  split; [eexists; split; vm_compute; reflexivity|].
  apply (denial_names_nobody (fun _ => "1.00") 3 "SSN 123-45-6789" None [slow; pii] false None).
  - exists pii, d_block. split; [apply elem_of_cons; right; by apply elem_of_cons; left|].
    split; vm_compute; reflexivity.
  - vm_compute. discriminate.
Defined.

(** A cache that never expires and never evicts *)
#[export] Instance eternal : TTLCache (list (string * list dict)) := {
  ttl_get m k _ := od_get k m;
  ttl_set m k v _ := od_set k v m;
}.

#[export] Instance eternal_laws : TTLCacheLaws (list (string * list dict)).
Proof.
  constructor. intros m k v t k' t' v'. simpl. destruct (decide (k = k')) as [<-|Hne].
  - rewrite od_get_set_eq. intros [= ->]. by left.
  - rewrite od_get_set_ne by done. right. eauto.
Qed.

(** A digest of the two texts of the run *)
Definition toy_digest (t : string) : string :=
  if bool_decide (t = "SSN 123-45-6789") then "0000000000000001" else "0000000000000002".

Lemma analysis_cache_transparent_witness :
  (analyze_all toy_digest [] [pii]
     [("SSN 123-45-6789", "t1", 0); ("hello", "t1", 1); ("SSN 123-45-6789", "t1", 2)]).2 =
  [[decision_dict d_block]; []; [decision_dict d_block]].
Proof.
  apply (analysis_cache_transparent toy_digest {["SSN 123-45-6789"; "hello"]}).
  - intros t _. unfold toy_digest. by destruct (bool_decide _).
  - intros t t' Ht Ht'. apply elem_of_union in Ht as [->%elem_of_singleton| ->%elem_of_singleton];
      apply elem_of_union in Ht' as [->%elem_of_singleton| ->%elem_of_singleton]; vm_compute; congruence.
  - intros tenant text now ds _ Hg. discriminate.
  - repeat constructor; vm_compute; reflexivity.
Defined.

End ResponseRuns.
