(* ===== verification/ToolLoop.v ===== *)
(** * Tool awareness and the active tool loop (pipeline/tool_executor.py)

    Which strategy a request gets, how tool definitions enter it, the loop that
    runs the tools a model asks for and feeds their outputs back, and what of it
    is recorded.  The tool registry's servers, the adapter, the provider and the
    clock are parameters; a request body is its decoded JSON, [None] when it does
    not decode.  The answers of the content analyzers are those of
    [ResponsePolicy].  Metrics and the exception log are not modelled. *)
From S2P Require Import Prelude ODict PyVal ResponsePolicy.

Local Open Scope Z_scope.

(** ** Data *)

Record ToolInteraction := MkInteraction {
  tool_id : string;
  tool_type : string;
  tool_name : option string;
  input_data : pyval;
  output_data : pyval;
  sources : pyval;
  metadata : option dict;
}.

Record ModelCall := MkCall {
  provider : string;
  model_id : string;
  prompt_text : string;
  raw_body : option pyval;
  is_streaming : bool;
  call_metadata : dict;
}.

(** The fields of a [ModelResponse] the executor reads; its content is opaque. *)
Record ModelResponse := MkResponse {
  content : string;
  tool_interactions : list ToolInteraction;
  has_pending_tool_calls : bool;
}.

(** [mcp.client.ToolResult]; the content is a string, a dict or a list. *)
Record ToolResult := MkResult {
  r_content : pyval;
  r_is_error : bool;
  r_sources : pyval;
}.

Inductive strategy := Active | Passive | Disabled | NoTools.

#[export] Instance strategy_dec : EqDecision strategy.
Proof. solve_decision. Defined.

Record settings := MkSettings {
  tool_aware_enabled : bool;
  web_search_enabled : bool;
  mcp_servers_json : string;
  tool_max_iterations : Z;
  tool_max_output_bytes : Z;
  tool_content_analysis_enabled : bool;
}.

(** ** Rejections of tools by the provider *)

Definition _TOOL_UNSUPPORTED_PHRASES : list string :=
  ["does not support tools"; "tool use is not supported"; "tools are not supported";
   "tool_use is not supported"; "does not support function"; "function calling is not supported";
   "does not support tool_use"].

Definition is_tool_unsupported_error (status_code : Z) (body : string) : bool :=
  ((status_code =? 400) || (status_code =? 422))
  && existsb (fun p => contains p (lower body)) _TOOL_UNSUPPORTED_PHRASES.

(** ** Changing the request's body *)

Definition with_body (b : dict) (streaming : bool) (c : ModelCall) : ModelCall :=
  MkCall (provider c) (model_id c) (prompt_text c) (Some (PDict b)) streaming (call_metadata c).

(** A body that is no JSON object makes the helpers raise inside their [try]. *)
Definition strip_tools_from_call (c : ModelCall) : ModelCall :=
  match raw_body c with
  | Some (PDict b) => with_body (od_del "tool_choice" (od_del "tools" b)) (is_streaming c) c
  | _ => c
  end.

Definition _inject_tools_into_call (c : ModelCall) (tool_definitions : list dict) : ModelCall :=
  match tool_definitions, raw_body c with
  | _ :: _, Some (PDict b) =>
      if truthy (dget "tools" b) then c
      else with_body (od_set "tools" (PList (map PDict tool_definitions)) b) (is_streaming c) c
  | _, _ => c
  end.

Definition set_stream (v : bool) (c : ModelCall) : ModelCall :=
  match raw_body c with
  | Some (PDict b) => with_body (od_set "stream" (PBool v) b) v c
  | _ => c
  end.

Definition _force_non_streaming : ModelCall -> ModelCall := set_stream false.
Definition _restore_streaming : ModelCall -> ModelCall := set_stream true.

(** ** Which tools a key may use *)

(** [x in allowed] for a list of strings *)
Definition named_in (allowed : list string) (v : pyval) : bool :=
  match v with PStr s => bool_decide (s ∈ allowed) | _ => false end.

(** [t.get("function", {}).get("name") in allowed or t.get("name") in allowed] *)
Definition tool_allowed (allowed : list string) (t : dict) : res bool :=
  match dget_or "function" (PDict []) t with
  | PDict f => Ok (named_in allowed (dget "name" f) || named_in allowed (dget "name" t))
  | _ => Raise (OtherError "AttributeError")
  end.

Fixpoint keep_allowed (allowed : list string) (ts : list dict) : res (list dict) :=
  match ts with
  | [] => Ok []
  | t :: ts =>
      let! k := tool_allowed allowed t in
      let! ts := keep_allowed allowed ts in
      Ok (if (k : bool) then t :: ts else ts)
  end.

(** [get_allowed_tools] is the control store's answer for the hash of the key. *)
Definition filter_tools_for_key (tool_definitions : list dict) (api_key : option string)
    (control_store : option (string -> option (list string))) (sha256 : string -> string)
    : res (list dict) :=
  match api_key, control_store with
  | Some k, Some get_allowed_tools =>
      if bool_decide (k = "") then Ok tool_definitions
      else match get_allowed_tools (sha256 k) with
           | None => Ok tool_definitions
           | Some [] => Ok []
           | Some allowed => keep_allowed allowed tool_definitions
           end
  | _, _ => Ok tool_definitions
  end.

(** ** The strategy *)

(** [tool_count] is [None] without a registry. *)
Definition _select_strategy (c : ModelCall) (tool_count : option Z) (s : settings) : strategy :=
  let has_tools := match tool_count with Some n => 0 <? n | None => false end in
  if negb (tool_aware_enabled s) then Disabled
  else if bool_decide (provider c = "anthropic") then Passive
  else if truthy (dget "_gateway_web_search" (call_metadata c)) then Active
  else if negb (bool_decide (mcp_servers_json s = "")) && has_tools then Active
  else if web_search_enabled s && has_tools then Active
  else Passive.

(** The registry: its number of tools and their definitions, and what the
    capability registry knows of the model *)
Definition prepare_tools (c : ModelCall) (registry : option (Z * list dict)) (s : settings)
    (supports_tools : option bool) (api_key : option string)
    (control_store : option (string -> option (list string))) (sha256 : string -> string)
    : res (ModelCall * strategy) :=
  match _select_strategy c (fst <$> registry) s, registry with
  | Active, Some (_, defs) =>
      if bool_decide (supports_tools = Some false) then Ok (c, NoTools)
      else
        let! defs := filter_tools_for_key defs api_key control_store sha256 in
        match defs with
        | [] => Ok (c, Passive)
        | _ => Ok (_inject_tools_into_call c defs, Active)
        end
  | st, _ => Ok (c, st)
  end.

(** A call never carries an injected tool its key may not use. *)
Lemma keep_allowed_sound allowed ts ts' :
  keep_allowed allowed ts = Ok ts' ->
  forall t, t ∈ ts' -> t ∈ ts /\ tool_allowed allowed t = Ok true.
Proof.
  revert ts'. induction ts as [|t ts IH]; intros ts' H.
  { simplify_eq/=. by intros t ?%not_elem_of_nil. }
  cbn [keep_allowed] in H. destruct (tool_allowed allowed t) as [k|] eqn:Hk; [|done]. cbn [res_bind] in H.
  destruct (keep_allowed allowed ts) as [ts1|]; [|done]. cbn [res_bind] in H. simplify_eq.
  intros t' Ht'. destruct k.
  - apply elem_of_cons in Ht' as [->|Ht']; [by split; [left|]|].
    destruct (IH _ eq_refl t' Ht'). split; [by right|done].
  - destruct (IH _ eq_refl t' Ht'). split; [by right|done].
Qed.

(** ** Calls outside the gateway, in order *)

Inductive event :=
  | Ran (tool : string) (args : dict)          (** a tool of the registry *)
  | Forwarded (c : ModelCall)                  (** a call to the provider *)
  | Learned (model : string) (supports : bool) (** the capability registry *).

(** A computation that logs events and may raise *)
Definition M (A : Type) : Type := list event * res A.
Definition ret {A} (a : A) : M A := ([], Ok a).
Definition raise {A} (e : exn) : M A := ([], Raise e).
Definition lift {A} (r : res A) : M A := ([], r).
Definition emit (e : event) : M unit := ([e], Ok tt).
Definition bind {A B} (m : M A) (f : A -> M B) : M B :=
  match m.2 with
  | Ok a => let '(l, r) := f a in (m.1 ++ l, r)
  | Raise e => (m.1, Raise e)
  end.
Notation "'let*' x := m 'in' k" := (bind m (fun x => k))
  (at level 10, x name, m at level 100, k at level 200) : provn_scope.
Notation "'let*' ' p := m 'in' k" := (bind m (fun x => match x with p => k end))
  (at level 10, p pattern, m at level 100, k at level 200) : provn_scope.

Lemma bind_ok {A B} (m : M A) (f : A -> M B) l b :
  bind m f = (l, Ok b) <->
  exists l1 l2 a, m = (l1, Ok a) /\ f a = (l2, Ok b) /\ l = l1 ++ l2.
Proof.
  destruct m as [l1 [a|e]]; unfold bind; simpl.
  - destruct (f a) as [l2 r] eqn:Hf. split.
    + intros [= <- ->]. by exists l1, l2, a.
    + intros (l3 & l4 & a' & [= <- <-] & Hf' & ->). congruence.
  - split; [done|]. by intros (l3 & l4 & a' & ? & _).
Qed.

Lemma bind_snd {A B} l (a : A) (f : A -> M B) : (bind (l, Ok a) f).2 = (f a).2.
Proof. unfold bind. simpl. by destruct (f a). Qed.

Section executor.
(** The registry's servers, the provider, the adapter, the clock and the
    analyzers: the schema of a tool, what it answers in an iteration, how long it
    took; the answer to the nth forward; whether the deadline passed before an
    iteration; whether the final stream opens. *)
Context (get_tool_schema : string -> option dict).
Context (execute_tool : Z -> string -> dict -> res ToolResult).
Context (duration_ms : Z -> ToolInteraction -> pyval).
Context (forward : Z -> ModelCall -> res (Z * ModelResponse)).
Context (build_tool_result_call : ModelCall -> list ToolInteraction -> list dict -> res ModelCall).
Context (expired : Z -> bool).
Context (stream_opens : ModelCall -> bool).
Context (content_analyzers : list analyzer).

(** ** One tool *)

(** Iterating a JSON value *)
Definition iter_of (v : pyval) : res (list pyval) :=
  match v with
  | PList l => Ok l
  | PDict d => Ok (map (fun kv => PStr kv.1) d)
  | PStr s => Ok (map (fun c => PStr (String c EmptyString)) (String.list_ascii_of_string s))
  | _ => Raise (TypeError "object is not iterable")
  end.

(** [[f for f in required if f not in args]] *)
Fixpoint not_in (args : dict) (fs : list pyval) : res (list pyval) :=
  match fs with
  | [] => Ok []
  | f :: fs =>
      let! b := match f with
                | PStr s => Ok (bool_decide (od_get s args = None))
                | PList _ | PDict _ => Raise (TypeError "unhashable type")
                | _ => Ok true
                end in
      let! rest := not_in args fs in Ok (if (b : bool) then f :: rest else rest)
  end.

Definition args_of (tc : ToolInteraction) : dict :=
  match input_data tc with PDict d => d | _ => [] end.

Definition missing_args (tc : ToolInteraction) : res (list pyval) :=
  match tool_name tc with
  | None | Some EmptyString => Ok []
  | Some n =>
      match get_tool_schema n with
      | None | Some [] => Ok []
      | Some schema =>
          let! required := iter_of (dget_or "required" (PList []) schema) in
          not_in (args_of tc) required
      end
  end.

(** [len] and [[:n]] of a result's content *)
Definition content_len (v : pyval) : Z :=
  match v with
  | PStr s => Z.of_nat (String.length s)
  | PList l => zlen l
  | PDict d => zlen d
  | _ => 0
  end.

Definition newline : string := String (Ascii.ascii_of_N 10) EmptyString.

Definition truncated (n : Z) (v : pyval) : res pyval :=
  match v with
  | PStr s =>
      let k := if n <? 0 then Z.max 0 (Z.of_nat (String.length s) + n) else n in
      Ok (PStr (String.substring 0 (Z.to_nat k) s +:+ newline +:+ "[TRUNCATED]"))
  | PList _ => Raise (TypeError "can only concatenate list")
  | _ => Raise (TypeError "unhashable type: slice")
  end.

Definition _injection_patterns : list string :=
  ["ignore previous instructions"; "ignore all previous"; "disregard your instructions"; "you are now";
   "new instructions:"; "system prompt:"; "override:"; "<system>"].

Definition injection_detected (r : ToolResult) : bool :=
  negb (r_is_error r) && truthy (r_content r)
  && existsb (fun p => contains p (lower (py_str (r_content r)))) _injection_patterns.

Definition is_web_search (tc : ToolInteraction) : bool :=
  bool_decide (tool_name tc = Some "web_search") || bool_decide (tool_type tc = "web_search").

(** The content analysis of a tool's output: what goes back to the model, and
    whether it counts as an error.  [analyze_text] needs a string. *)
Definition screened (s : settings) (tc : ToolInteraction) (r : ToolResult) : res (pyval * bool) :=
  let out := r_content r in
  if tool_content_analysis_enabled s && negb (bool_decide (length content_analyzers = 0%nat))
     && truthy out && negb (r_is_error r)
  then
    match out with
    | PStr text =>
        match List.filter (fun d => bool_decide (verdict d = BLOCK)) (decisions content_analyzers text) with
        | [] => Ok (out, false)
        | top :: _ =>
            if is_web_search tc && bool_decide (category top = "pii") then Ok (out, false)
            else Ok (PStr ("[Tool output blocked by content policy: " +:+ category top +:+ "]"), true)
        end
    | _ => Raise (OtherError "AttributeError")
    end
  else Ok (out, r_is_error r).

Definition recorded_as (tc : ToolInteraction) (out srcs : pyval) (meta : dict) : ToolInteraction :=
  MkInteraction (tool_id tc) (tool_type tc) (tool_name tc) (input_data tc) out srcs (Some meta).

Definition result_dict (tc : ToolInteraction) (out : pyval) : dict :=
  [("tool_call_id", PStr (tool_id tc)); ("content", out)].

Definition rejection (tc : ToolInteraction) (iteration : Z) (missing : list pyval) : ToolInteraction * dict :=
  (recorded_as tc PNone PNone
     [("iteration", PInt iteration); ("duration_ms", PFloat (sf_of_Z 0) "0.0"); ("is_error", PBool true);
      ("validation_error", PStr ("missing required args: " +:+ py_str (PList missing)))],
   result_dict tc (PStr ("Tool call rejected: missing required arguments " +:+ py_str (PList missing)))).

Definition _execute_one_tool (s : settings) (iteration : Z) (tc : ToolInteraction)
    : M (ToolInteraction * dict) :=
  let* missing := lift (missing_args tc) in
  match missing with
  | _ :: _ => ret (rejection tc iteration missing)
  | [] =>
      let name := default "" (tool_name tc) in
      let* _ := emit (Ran name (args_of tc)) in
      let* r := lift (execute_tool iteration name (args_of tc)) in
      let* r := if truthy (r_content r) && (tool_max_output_bytes s <? content_len (r_content r))
                then let* c := lift (truncated (tool_max_output_bytes s) (r_content r)) in
                     ret (MkResult c (r_is_error r) (r_sources r))
                else ret r in
      let* '(out, is_error) := lift (screened s tc r) in
      let meta := [("iteration", PInt iteration); ("duration_ms", duration_ms iteration tc);
                   ("is_error", PBool is_error)]
                  ++ (if injection_detected r then [("injection_warning", PBool true)] else []) in
      ret (recorded_as tc out (r_sources r) meta, result_dict tc out)
  end.

(** The [for] loop over the pending calls *)
Fixpoint execute_pending (s : settings) (iteration : Z) (pending : list ToolInteraction)
    : M (list ToolInteraction * list dict) :=
  match pending with
  | [] => ret ([], [])
  | tc :: pending =>
      let* '(enriched, d) := _execute_one_tool s iteration tc in
      let* '(es, ds) := execute_pending s iteration pending in
      ret (enriched :: es, d :: ds)
  end.

(** ** The loop *)

Record loop_state := MkLoop {
  current_call : ModelCall;
  current_model : ModelResponse;
  all_interactions : list ToolInteraction;
  iterations : Z;
  final_http_resp : option Z;
}.

Definition may_continue (s : settings) (st : loop_state) : bool :=
  has_pending_tool_calls (current_model st)
  && negb (bool_decide (length (tool_interactions (current_model st)) = 0%nat))
  && (iterations st <? tool_max_iterations s) && negb (expired (iterations st)).

(** One pass: [inl] to go on, [inr] to stop, with the provider's error if any *)
Definition loop_body (s : settings) (st : loop_state) : M (loop_state + loop_state * option Z) :=
  let i := iterations st + 1 in
  let pending := tool_interactions (current_model st) in
  let* '(enriched, results) := execute_pending s i pending in
  let inter := all_interactions st ++ enriched in
  match build_tool_result_call (current_call st) pending results with
  | Raise (OtherError "NotImplementedError") =>
      ret (inr (MkLoop (current_call st) (current_model st) inter i (final_http_resp st), None))
  | Raise e => raise e
  | Ok c =>
      let* _ := emit (Forwarded c) in
      let* '(status, model) := lift (forward i c) in
      let st := MkLoop c model inter i (Some status) in
      ret (if 500 <=? status then inr (st, Some status) else inl st)
  end.

Fixpoint tool_loop (fuel : nat) (s : settings) (st : loop_state) : M (loop_state * option Z) :=
  match fuel with
  | O => ret (st, None)
  | S fuel =>
      if may_continue s st then
        let* next := loop_body s st in
        match next with
        | inl st => tool_loop fuel s st
        | inr r => ret r
        end
      else ret (st, None)
  end.

Record ToolExecResult := MkExec {
  x_call : ModelCall;
  x_model_response : ModelResponse;
  x_interactions : list ToolInteraction;
  x_iterations : Z;
  x_error : option Z;
  x_http_response : option Z;
  x_streamed : bool;              (** a streaming response is returned *)
  x_synthetic : bool;
}.

Definition loop_fuel (s : settings) : nat := Z.to_nat (tool_max_iterations s).

(** What follows the loop: the provider's error, the final answer streamed, or the
    answer the loop ended with *)
Definition after_loop (original_streaming : bool) (st : loop_state) (err : option Z) : M ToolExecResult :=
  let result call streamed :=
    MkExec call (current_model st) (all_interactions st) (iterations st) None (final_http_resp st) streamed false in
  match err with
  | Some status =>
      ret (MkExec (current_call st) (current_model st) (all_interactions st) (iterations st)
             (Some status) None false false)
  | None =>
      match original_streaming && (0 <? iterations st) && negb (has_pending_tool_calls (current_model st)),
            final_http_resp st with
      | true, Some _ =>
          let sc := _restore_streaming (current_call st) in
          let* _ := emit (Forwarded sc) in
          if stream_opens sc then ret (result sc true) else ret (result (current_call st) false)
      | _, _ => ret (result (current_call st) false)
      end
  end.

Definition _run_active_tool_loop (s : settings) (c : ModelCall) (model : ModelResponse)
    (original_streaming : bool) : M ToolExecResult :=
  let* '(st, err) := tool_loop (loop_fuel s) s (MkLoop c model [] 0 None) in
  after_loop original_streaming st err.

(** [execute_tools].  The provider's first answer comes with its status and body;
    the registry of tools and of capabilities may be missing; building the
    synthesized stream may fail. *)
Definition execute_tools (st : strategy) (s : settings) (c : ModelCall) (model : ModelResponse)
    (status : Z) (body : string) (has_registry learns synth_ok original_streaming : bool) : M ToolExecResult :=
  let learn b := if learns then emit (Learned (model_id c) b) else ret tt in
  let plain c model inter http streamed synth := MkExec c model inter 0 None http streamed synth in
  if is_tool_unsupported_error status body then
    let* _ := learn false in
    let c := strip_tools_from_call c in
    let* _ := emit (Forwarded c) in
    let* '(status, model) := lift (forward 0 c) in
    ret (plain c model [] (Some status) false false)
  else
    let* _ := if bool_decide (st = Active) && (status <? 400) then learn true else ret tt in
    let has_calls := negb (bool_decide (length (tool_interactions model) = 0%nat)) in
    if bool_decide (st = Passive) && has_calls
    then ret (plain c model (tool_interactions model) None false false)
    else if bool_decide (st = Active) && has_registry && has_pending_tool_calls model then
      match _run_active_tool_loop s c model original_streaming with
      | (log, Ok r) => (log, Ok r)
      | (log, Raise _) => (log, Ok (plain c model [] None false false))
      end
    else if bool_decide (st = Active) && original_streaming && negb (has_pending_tool_calls model)
            && (status <? 400) && synth_ok
    then ret (plain c model [] (Some status) true true)
    else ret (plain c model [] None false false).

(** ** What runs is recorded *)

Fixpoint ran (l : list event) : list (string * dict) :=
  match l with
  | [] => []
  | Ran n a :: l => (n, a) :: ran l
  | _ :: l => ran l
  end.

Fixpoint forwards (l : list event) : nat :=
  match l with
  | [] => 0
  | Forwarded _ :: l => S (forwards l)
  | _ :: l => forwards l
  end.

Lemma ran_app l l' : ran (l ++ l') = ran l ++ ran l'.
Proof. induction l as [|[] l IH]; simpl; by rewrite ?IH. Qed.
Lemma forwards_app l l' : forwards (l ++ l') = (forwards l + forwards l')%nat.
Proof. induction l as [|[] l IH]; simpl; by rewrite ?IH. Qed.

(** The tool an interaction reports as run, unless it was rejected *)
Definition run_of (i : ToolInteraction) : option (string * dict) :=
  match metadata i with
  | Some m => match od_get "validation_error" m with
              | Some _ => None
              | None => Some (default "" (tool_name i), args_of i)
              end
  | None => None
  end.

Fixpoint recorded (l : list ToolInteraction) : list (string * dict) :=
  match l with
  | [] => []
  | i :: l => match run_of i with Some r => r :: recorded l | None => recorded l end
  end.

Lemma recorded_app l l' : recorded (l ++ l') = recorded l ++ recorded l'.
Proof. induction l as [|i l IH]; simpl; [done|]. destruct (run_of i); by rewrite IH. Qed.

(** One tool: it ran exactly when it is recorded as run, and the model is fed
    exactly the output that is recorded. *)
Lemma execute_one_spec s iteration tc l e d :
  _execute_one_tool s iteration tc = (l, Ok (e, d)) ->
  ran l = recorded [e] /\ forwards l = 0%nat /\ tool_id e = tool_id tc /\
  (run_of e <> None -> dget "content" d = output_data e).
Proof.
  unfold _execute_one_tool. intros H.
  apply bind_ok in H as (l1 & l2 & missing & [= <- Hm] & H & ->).
  destruct missing as [|f fs]; [|injection H as <- <- <-; simpl; by split_and!].
  apply bind_ok in H as (l3 & l4 & [] & [= <-] & H & ->).
  apply bind_ok in H as (l5 & l6 & r & [= <- Hr] & H & ->).
  apply bind_ok in H as (l7 & l8 & r' & Ht & H & ->).
  assert (l7 = []) as ->.
  { destruct (truthy (r_content r) && _); [|by injection Ht].
    apply bind_ok in Ht as (l9 & l10 & c & [= <- _] & [= <- _] & ->). done. }
  apply bind_ok in H as (l9 & l10 & [out err] & [= <- Hs] & [= <- <- <-] & ->). simpl.
  assert (run_of (recorded_as tc out (r_sources r')
            ([("iteration", PInt iteration); ("duration_ms", duration_ms iteration tc); ("is_error", PBool err)]
             ++ (if injection_detected r' then [("injection_warning", PBool true)] else []))) =
          Some (default "" (tool_name tc), args_of tc)) as Hrun.
  { unfold run_of. simpl. by destruct (injection_detected r'). }
  simpl in Hrun. rewrite Hrun. by split_and!.
Qed.

Lemma execute_pending_spec s iteration pending : forall l es ds,
  execute_pending s iteration pending = (l, Ok (es, ds)) ->
  ran l = recorded es /\ forwards l = 0%nat.
Proof.
  induction pending as [|tc pending IH]; cbn [execute_pending]; intros l es ds H.
  { by injection H as <- <- <-. }
  apply bind_ok in H as (l1 & l2 & [e d] & H1 & H & ->).
  apply execute_one_spec in H1 as (Hr1 & Hf1 & _).
  apply bind_ok in H as (l3 & l4 & [es' ds'] & H2 & [= <- <- <-] & ->).
  apply IH in H2 as [Hr2 Hf2]. rewrite !ran_app, !forwards_app, Hr1, Hr2, Hf1, Hf2. simpl.
  rewrite app_nil_r. by destruct (run_of e).
Qed.

Definition next_state (n : loop_state + loop_state * option Z) : loop_state :=
  match n with inl st => st | inr (st, _) => st end.

Lemma loop_body_spec s st l n :
  loop_body s st = (l, Ok n) ->
  recorded (all_interactions (next_state n)) = recorded (all_interactions st) ++ ran l /\
  (forwards l <= 1)%nat /\ iterations (next_state n) = iterations st + 1.
Proof.
  unfold loop_body. intros H. apply bind_ok in H as (l1 & l2 & [es ds] & H1 & H & ->).
  apply execute_pending_spec in H1 as [Hr Hf]. rewrite ran_app, forwards_app, Hr, Hf.
  destruct (build_tool_result_call _ _ _) as [c|e].
  - apply bind_ok in H as (l3 & l4 & [] & [= <-] & H & ->).
    apply bind_ok in H as (l5 & l6 & [status model] & [= <- _] & [= <- <-] & ->).
    simpl. destruct (500 <=? status); simpl; rewrite recorded_app, app_nil_r; split_and!; lia || done.
  - assert (l2 = [] /\ n = inr (MkLoop (current_call st) (current_model st) (all_interactions st ++ es)
              (iterations st + 1) (final_http_resp st), None)) as [-> ->].
    { repeat (case_match; try discriminate H). by injection H as <- <-. }
    simpl. rewrite recorded_app, app_nil_r. split_and!; lia || done.
Qed.

Lemma tool_loop_spec s fuel : forall st l st' err,
  tool_loop fuel s st = (l, Ok (st', err)) ->
  recorded (all_interactions st') = recorded (all_interactions st) ++ ran l.
Proof.
  induction fuel as [|fuel IH]; cbn [tool_loop]; intros st l st' err H.
  { injection H as <- <- <-. by rewrite app_nil_r. }
  destruct (may_continue s st); [|injection H as <- <- <-; by rewrite app_nil_r].
  apply bind_ok in H as (l1 & l2 & n & H1 & H & ->). apply loop_body_spec in H1 as (Hr & _ & _).
  rewrite ran_app. destruct n as [st1|[st1 err1]]; simpl in Hr.
  - apply IH in H. by rewrite H, Hr, app_assoc.
  - injection H as <- <- <-. by rewrite Hr, app_nil_r.
Qed.

(** ** The loop ends *)

(** Log of a computation, whatever its outcome *)
Lemma bind_log {A B} (m : M A) (f : A -> M B) :
  (bind m f).1 = m.1 ++ match m.2 with Ok a => (f a).1 | Raise _ => [] end.
Proof. destruct m as [l [a|e]]; unfold bind; simpl; [by destruct (f a)|by rewrite app_nil_r]. Qed.

Lemma execute_one_log s iteration tc : forwards (_execute_one_tool s iteration tc).1 = 0%nat.
Proof.
  unfold _execute_one_tool. rewrite bind_log. simpl. destruct (missing_args tc) as [[|f fs]|]; [|done..].
  rewrite bind_log. simpl. rewrite bind_log. simpl. destruct (execute_tool _ _ _) as [r|]; [|done].
  rewrite bind_log, forwards_app. destruct (truthy (r_content r) && _); simpl.
  - rewrite bind_log. simpl. destruct (truncated _ _); simpl; [|done].
    rewrite bind_log. simpl. by destruct (screened _ _ _) as [[]|].
  - rewrite bind_log. simpl. by destruct (screened _ _ _) as [[]|].
Qed.

Lemma execute_pending_log s iteration pending : forwards (execute_pending s iteration pending).1 = 0%nat.
Proof.
  induction pending as [|tc pending IH]; [done|]. cbn [execute_pending].
  rewrite bind_log, forwards_app, execute_one_log. destruct (_execute_one_tool _ _ _).2 as [[e d]|]; [|done].
  rewrite bind_log, forwards_app, IH. by destruct (execute_pending _ _ _).2 as [[]|].
Qed.

Lemma loop_body_log s st : (forwards (loop_body s st).1 <= 1)%nat.
Proof.
  unfold loop_body. rewrite bind_log, forwards_app, execute_pending_log.
  destruct (execute_pending _ _ _).2 as [[es ds]|]; [|simpl; lia].
  destruct (build_tool_result_call _ _ _) as [c|e].
  - rewrite bind_log. simpl. rewrite bind_log. simpl. destruct (forward _ _) as [[]|]; simpl; lia.
  - repeat case_match; simpl; lia.
Qed.

Lemma tool_loop_log s fuel : forall st, (forwards (tool_loop fuel s st).1 <= fuel)%nat.
Proof.
  induction fuel as [|fuel IH]; intros st; cbn [tool_loop]; [simpl; lia|].
  destruct (may_continue s st); [|simpl; lia]. rewrite bind_log, forwards_app.
  pose proof (loop_body_log s st). destruct (loop_body s st).2 as [[st1|[st1 err]]|]; simpl; [|lia..].
  specialize (IH st1). lia.
Qed.

(** More passes than [tool_max_iterations] leave nothing to do. *)
Lemma tool_loop_fuel s k fuel : forall st,
  tool_max_iterations s - iterations st <= Z.of_nat fuel ->
  tool_loop (fuel + k) s st = tool_loop fuel s st.
Proof.
  induction fuel as [|fuel IH]; intros st Hn.
  - assert (may_continue s st = false) as Hm.
    { unfold may_continue. rewrite (proj2 (Z.ltb_ge _ _)) by lia. by rewrite andb_false_r. }
    destruct k as [|k]; [done|]. cbn [Nat.add tool_loop]. by rewrite Hm.
  - cbn [Nat.add tool_loop]. destruct (may_continue s st); [|done].
    destruct (loop_body s st) as [l [n|e]] eqn:Hb; [|done]. unfold bind. simpl.
    apply loop_body_spec in Hb as (_ & _ & Hi). destruct n as [st1|r]; [|done].
    simpl in Hi. by rewrite IH by lia.
Qed.

Lemma after_loop_log os st err : (forwards (after_loop os st err).1 <= 1)%nat.
Proof.
  unfold after_loop. destruct err as [status|]; [simpl; lia|].
  destruct (os && _ && _), (final_http_resp st); simpl; try lia. rewrite bind_log. simpl.
  destruct (stream_opens _); simpl; lia.
Qed.

Lemma after_loop_spec os st err l r :
  after_loop os st err = (l, Ok r) ->
  x_interactions r = all_interactions st /\ ran l = [] /\ x_iterations r = iterations st.
Proof.
  unfold after_loop. destruct err as [status|]; [by intros [= <- <-]|].
  destruct (os && _ && _), (final_http_resp st); try by intros [= <- <-].
  intros H. apply bind_ok in H as (l1 & l2 & [] & [= <-] & H & ->).
  destruct (stream_opens _); by injection H as <- <-.
Qed.

(** C34.  The tool loop ends.  Whatever the model, the tools and the clock do, the
    loop stops by its own condition within [tool_max_iterations] passes (more fuel
    changes nothing) and calls the provider at most once per pass and once more for
    the final stream. *)
Theorem tool_loop_terminates s c model original_streaming :
  (forall k, tool_loop (loop_fuel s + k) s (MkLoop c model [] 0 None)
             = tool_loop (loop_fuel s) s (MkLoop c model [] 0 None)) /\
  Z.of_nat (forwards (_run_active_tool_loop s c model original_streaming).1)
    <= Z.max 0 (tool_max_iterations s) + 1.
Proof.
  split; [intros k; apply tool_loop_fuel; unfold loop_fuel; simpl; lia|].
  unfold _run_active_tool_loop. rewrite bind_log, forwards_app.
  pose proof (tool_loop_log s (loop_fuel s) (MkLoop c model [] 0 None)) as Hl. unfold loop_fuel in *.
  destruct (tool_loop _ _ _).2 as [[st err]|]; [|simpl; lia].
  pose proof (after_loop_log original_streaming st err). lia.
Qed.

(**  Every tool that runs is recorded.  When the executor returns the result
    of the tool loop, the tools that ran, with their arguments, are exactly the
    ones its interactions report as run, in order; the other results come without
    a tool having run, except one: when the loop raises. *)
Theorem tool_runs_recorded st s c model status body has_registry learns synth_ok os log r :
  execute_tools st s c model status body has_registry learns synth_ok os = (log, Ok r) ->
  ran log = [] \/ ran log = recorded (x_interactions r) \/
  (exists e, (_run_active_tool_loop s c model os).2 = Raise e /\ x_interactions r = []).
Proof.
  unfold execute_tools. destruct (is_tool_unsupported_error status body).
  { intros H. left. apply bind_ok in H as (l1 & l2 & u & Hl & H & ->).
    apply bind_ok in H as (l3 & l4 & [] & [= <-] & H & ->).
    apply bind_ok in H as (l5 & l6 & [st' m] & [= <- _] & [= <- _] & ->).
    destruct learns; injection Hl as <-; done. }
  intros H. apply bind_ok in H as (l1 & l2 & u & Hl & H & ->).
  assert (ran l1 = []) as Hl1 by (destruct (_ && _), learns; injection Hl as <-; done).
  rewrite ran_app, Hl1. simpl. destruct (bool_decide (st = Passive) && _).
  { injection H as <- <-. by left. }
  destruct (bool_decide (st = Active) && has_registry && _).
  2:{ destruct (_ && synth_ok); injection H as <- <-; by left. }
  destruct (_run_active_tool_loop s c model os) as [l3 [r'|e]] eqn:Hloop; injection H as <- <-.
  2:{ right. right. by exists e. }
  right. left. unfold _run_active_tool_loop in Hloop.
  apply bind_ok in Hloop as (l4 & l5 & [st' err] & H1 & H2 & ->).
  apply tool_loop_spec in H1. apply after_loop_spec in H2 as (-> & H2 & _).
  by rewrite ran_app, H1, H2, app_nil_r.
Qed.

(**  A failed loop hides what it ran.  When the loop raises, the executor
    answers with the model's first response and no interactions, whatever tools
    ran before: their effects have no record. *)
Theorem failed_loop_unrecorded s c model status body learns synth_ok os e :
  is_tool_unsupported_error status body = false -> has_pending_tool_calls model = true ->
  (_run_active_tool_loop s c model os).2 = Raise e ->
  exists log r, execute_tools Active s c model status body true learns synth_ok os = (log, Ok r) /\
    x_interactions r = [] /\ x_model_response r = model /\
    ran log = ran (_run_active_tool_loop s c model os).1.
Proof.
  intros Hu Hp He. unfold execute_tools. rewrite Hu, Hp. cbn [bool_decide andb].
  destruct (_run_active_tool_loop s c model os) as [l [r|e']] eqn:Hl; [done|].
  simpl. destruct (status <? 400), learns; do 2 eexists; split_and!; try reflexivity; done.
Qed.

(**  Blocked outputs stay out of the model's context.  With content analysis
    on, the output of a tool that an analyzer blocks is replaced, in what the model
    is fed and in what is recorded, by a notice; unless the tool is the web search
    and the first analyzer that blocks says "pii": then the output passes as it is,
    whatever the analyzers after it say. *)
Theorem blocked_output_replaced s iteration tc r top rest text :
  missing_args tc = Ok [] ->
  execute_tool iteration (default "" (tool_name tc)) (args_of tc) = Ok r ->
  r_content r = PStr text -> text <> "" -> r_is_error r = false ->
  Z.of_nat (String.length text) <= tool_max_output_bytes s ->
  tool_content_analysis_enabled s = true ->
  List.filter (fun d => bool_decide (verdict d = BLOCK)) (decisions content_analyzers text) = top :: rest ->
  exists e d,
    (_execute_one_tool s iteration tc).2 = Ok (e, d) /\
    let out := if is_web_search tc && bool_decide (category top = "pii") then PStr text
               else PStr ("[Tool output blocked by content policy: " +:+ category top +:+ "]") in
    output_data e = out /\ dget "content" d = out.
Proof.
  intros Hm Hr Hc Hne Herr Hlen Han Hf. unfold _execute_one_tool, lift, emit.
  rewrite Hm, bind_snd, bind_snd, Hr, bind_snd, Hc.
  assert (truthy (PStr text) = true) as Ht by (by destruct text).
  change (content_len (PStr text)) with (Z.of_nat (String.length text)).
  rewrite Ht, (proj2 (Z.ltb_ge _ _) Hlen). cbn [andb]. unfold ret. rewrite bind_snd.
  assert (exists err, screened s tc r = Ok (if is_web_search tc && bool_decide (category top = "pii") then PStr text
               else PStr ("[Tool output blocked by content policy: " +:+ category top +:+ "]"), err)) as [err ->].
  { unfold screened. rewrite Hc, Ht, Han, Herr. destruct content_analyzers as [|a l]; [done|].
    cbn [length negb andb bool_decide]. rewrite Hf. destruct (is_web_search tc && _); eauto. }
  rewrite bind_snd. simpl. eauto.
Qed.
End executor.

(** ** Runs *)

Module ToolRuns.

Definition on : settings := MkSettings true true "" 3 1000 true.
Definition ask : ModelCall :=
  MkCall "ollama" "qwen3" "What is new?" (Some (PDict [("stream", PBool true)])) false [].
Definition search : ToolInteraction :=
  MkInteraction "call_1" "function" (Some "web_search") (PDict [("query", PStr "news")]) PNone PNone None.
Definition asking : ModelResponse := MkResponse "" [search] true.
Definition answered_ : ModelResponse := MkResponse "The news." [] false.

Definition no_schema : string -> option dict := fun _ => None.
Definition found (text : string) : Z -> string -> dict -> res ToolResult :=
  fun _ _ _ => Ok (MkResult (PStr text) false PNone).
Definition instant : Z -> ToolInteraction -> pyval := fun _ _ => PFloat (sf_of_Z 0) "0.0".
Definition adapter : ModelCall -> list ToolInteraction -> list dict -> res ModelCall := fun c _ _ => Ok c.
Definition never : Z -> bool := fun _ => false.
Definition answers : Z -> ModelCall -> res (Z * ModelResponse) := fun _ _ => Ok (200, answered_).
Definition breaks : Z -> ModelCall -> res (Z * ModelResponse) := fun _ _ => Raise (OtherError "ReadTimeout").

Definition run (fwd : Z -> ModelCall -> res (Z * ModelResponse)) : M ToolExecResult :=
  execute_tools no_schema (found "headlines") instant fwd adapter never (fun _ => true) []
    Active on ask asking 200 "{}" true false true true.

Lemma tool_runs_recorded_witness :
  (run answers).1 = [Ran "web_search" [("query", PStr "news")]; Forwarded ask;
                     Forwarded (_restore_streaming ask)] /\
  exists r, (run answers).2 = Ok r /\
    (ran (run answers).1 = [] \/ ran (run answers).1 = recorded (x_interactions r) \/
     (exists e, (_run_active_tool_loop no_schema (found "headlines") instant answers adapter never
                   (fun _ => true) [] on ask asking true).2 = Raise e /\ x_interactions r = [])).
Proof.
  split; [vm_compute; reflexivity|]. eexists. split; [vm_compute; reflexivity|].
  eapply (tool_runs_recorded no_schema (found "headlines") instant answers adapter never (fun _ => true) []
            Active on ask asking 200 "{}" true false true true).
  vm_compute. reflexivity.
Defined.

(** The second call to the provider times out; the search is not recorded. *)
Lemma failed_loop_unrecorded_witness :
  exists log r, run breaks = (log, Ok r) /\ x_interactions r = [] /\
    ran log = [("web_search", [("query", PStr "news")])].
Proof.
  destruct (failed_loop_unrecorded no_schema (found "headlines") instant breaks adapter never (fun _ => true) []
              on ask asking 200 "{}" false true true (OtherError "ReadTimeout")) as (log & r & H & Hi & _ & Hran).
  - vm_compute. reflexivity.
  - reflexivity.
  - vm_compute. reflexivity.
  - exists log, r. split; [exact H|]. split; [exact Hi|]. rewrite Hran. vm_compute. reflexivity.
Defined.

Definition csam : analyzer :=
  MkAnalyzer "safety" 50 (fun t => Answered (if contains "csam" t
    then Some (MkDecision BLOCK (PFloat (sf_of_Z 1) "1.0") "safety" "child_safety" "match") else None)).

(** A search result that holds a number and forbidden text: the analyzer of
    personal data comes first, so the model is fed both. *)
Lemma blocked_output_replaced_witness :
  let text := "123-45 csam" in
  (exists e d, (_execute_one_tool no_schema (found text) instant [ResponseRuns.pii; csam] on 1 search).2 = Ok (e, d) /\
     dget "content" d = PStr text) /\
  (exists e d, (_execute_one_tool no_schema (found text) instant [csam] on 1 search).2 = Ok (e, d) /\
     dget "content" d = PStr "[Tool output blocked by content policy: child_safety]").
Proof.
  split.
  - destruct (blocked_output_replaced no_schema (found "123-45 csam") instant [ResponseRuns.pii; csam] on 1 search
                (MkResult (PStr "123-45 csam") false PNone) ResponseRuns.d_block
                [MkDecision BLOCK (PFloat (sf_of_Z 1) "1.0") "safety" "child_safety" "match"] "123-45 csam") as (e & d & H & _ & Hd);
      try (vm_compute; (reflexivity || discriminate)).
    exists e, d. split; [exact H|exact Hd].
  - destruct (blocked_output_replaced no_schema (found "123-45 csam") instant [csam] on 1 search
                (MkResult (PStr "123-45 csam") false PNone)
                (MkDecision BLOCK (PFloat (sf_of_Z 1) "1.0") "safety" "child_safety" "match") [] "123-45 csam") as (e & d & H & _ & Hd);
      try (vm_compute; (reflexivity || discriminate)).
    exists e, d. split; [exact H|exact Hd].
Defined.

End ToolRuns.
