(* ===== verification/ControlStore.v ===== *)
(** * The control plane's store (control/store.py)

    The SQLite tables and every statement [ControlPlaneStore] runs on them, with
    the cache of tenants by API key.  Rows keep their insertion order (the rowid);
    a timestamp is the clock reading, whose ISO text sorts the same way; a fresh
    UUID is an argument; JSON columns are encoded and decoded by [JsonText].  The
    columns are the strings the API's request models admit.  The connection, the
    schema and its migrations are not modelled. *)
From S2P Require Import Prelude ODict PyVal.

Local Open Scope Z_scope.

(** ** Tables *)

(** A unique column (or tuple of columns) of a table *)
Section table.
Context {R K : Type} `{EqDecision K} (key : R -> K).

Definition has_row (k : K) (l : list R) : bool := existsb (fun r => bool_decide (key r = k)) l.

Definition find_row (k : K) (l : list R) : option R := List.find (fun r => bool_decide (key r = k)) l.

(** [DELETE ... WHERE key = k] with [rowcount > 0] *)
Definition delete_rows (k : K) (l : list R) : list R * bool :=
  (List.filter (fun r => negb (bool_decide (key r = k))) l, has_row k l).

(** [UPDATE ... WHERE key = k] *)
Definition update_rows (k : K) (f : R -> R) (l : list R) : list R :=
  map (fun r => if decide (key r = k) then f r else r) l.

(** [INSERT ... ON CONFLICT(key) DO UPDATE] *)
Definition upsert (merge : R -> R -> R) (r : R) (l : list R) : list R :=
  if has_row (key r) l then update_rows (key r) (merge r) l else l ++ [r].

(** [INSERT OR REPLACE]: the old row goes, the new one is the last. *)
Definition insert_or_replace (r : R) (l : list R) : list R := (delete_rows (key r) l).1 ++ [r].

Definition unique (l : list R) : Prop := NoDup (key <$> l).

Lemma has_row_in k l : has_row k l = true <-> k ∈ key <$> l.
Proof.
  unfold has_row. rewrite existsb_exists, list_elem_of_fmap. split.
  - intros (r & Hr & Hk). zbool. exists r. split; [done|]. by apply list_elem_of_In.
  - intros (r & -> & Hr). exists r. split; [by apply list_elem_of_In|]. by apply bool_decide_eq_true.
Qed.

Lemma has_row_out k l : has_row k l = false <-> k ∉ key <$> l.
Proof. rewrite <- has_row_in. destruct (has_row k l); split; congruence || done. Qed.

Lemma unique_filter f l : unique l -> unique (List.filter f l).
Proof.
  unfold unique. induction l as [|r l IH]; [done|]. intros [Hr Hl]%NoDup_cons. simpl.
  destruct (f r); simpl; [|by apply IH]. constructor; [|by apply IH].
  intros (r' & Hk & Hin)%list_elem_of_fmap. apply Hr, list_elem_of_fmap. exists r'. split; [done|].
  apply list_elem_of_In, filter_In in Hin as [Hin _]. by apply list_elem_of_In.
Qed.

Lemma keys_update k f l :
  (forall r, key r = k -> key (f r) = k) -> key <$> update_rows k f l = key <$> l.
Proof.
  intros Hf. induction l as [|r l IH]; simpl; [done|]. f_equal; [|exact IH].
  destruct (decide (key r = k)) as [<-|]; auto.
Qed.

Lemma unique_snoc r l : unique l -> key r ∉ key <$> l -> unique (l ++ [r]).
Proof.
  unfold unique. rewrite fmap_app. intros Hl Hr. apply NoDup_app. split; [done|].
  split; [|constructor; [by apply not_elem_of_nil|constructor]].
  intros k Hk [->|Hn]%elem_of_cons; [done|]. by apply not_elem_of_nil in Hn.
Qed.

Lemma unique_upsert merge r l :
  (forall x, key x = key r -> key (merge r x) = key r) -> unique l -> unique (upsert merge r l).
Proof.
  intros Hm Hl. unfold upsert. destruct (has_row (key r) l) eqn:Hh.
  - unfold unique. by rewrite keys_update.
  - apply unique_snoc; [done|]. by apply has_row_out.
Qed.

Lemma unique_replace r l : unique l -> unique (insert_or_replace r l).
Proof.
  intros Hl. apply unique_snoc; [by apply unique_filter|].
  intros (x & Hk & Hx)%list_elem_of_fmap. apply list_elem_of_In, filter_In in Hx as [_ Hx].
  rewrite <- Hk in Hx. by rewrite bool_decide_eq_true_2 in Hx.
Qed.

Lemma find_row_unique r l : unique l -> r ∈ l -> find_row (key r) l = Some r.
Proof.
  unfold unique, find_row. induction l as [|x l IH]; [by intros _ ?%not_elem_of_nil|].
  intros [Hx Hl]%NoDup_cons [<-|Hr]%elem_of_cons; simpl.
  - by rewrite bool_decide_eq_true_2.
  - rewrite bool_decide_eq_false_2; [by apply IH|].
    intros Heq. apply Hx, list_elem_of_fmap. by exists r.
Qed.

Lemma find_row_some k l r : find_row k l = Some r -> r ∈ l /\ key r = k.
Proof.
  unfold find_row. intros H. apply find_some in H as [Hin Hk]. zbool.
  split; [by apply list_elem_of_In|done].
Qed.
End table.

(** ** The rows *)

Record attestation := MkAttestation {
  attestation_id : string;
  model_id : string;
  provider : string;
  status : string;
  verification_level : string;
  a_tenant_id : string;
  notes : string;
  model_hash : string;
  a_created_at : Z;
  a_updated_at : Z;
}.

Definition natural_key (a : attestation) : string * string * string :=
  (a_tenant_id a, provider a, model_id a).

Record policy := MkPolicy {
  policy_id : string;
  policy_name : string;
  p_status : string;
  enforcement_level : string;
  rules_json : string;
  prompt_rules_json : string;
  rag_rules_json : string;
  p_tenant_id : string;
  description : string;
  p_created_at : Z;
  p_updated_at : Z;
}.

Record budget := MkBudget {
  budget_id : string;
  b_tenant_id : string;
  b_user : string;
  period : string;
  max_tokens : Z;
  b_created_at : Z;
  b_updated_at : Z;
}.

Definition budget_key (b : budget) : string * string * string := (b_tenant_id b, b_user b, period b).

Record content_policy := MkContent {
  cp_id : string;
  cp_tenant_id : string;
  analyzer_id : string;
  category : string;
  action : string;
  threshold : pyval;
  cp_created_at : Z;
  cp_updated_at : Z;
}.

Definition content_key (c : content_policy) : string * string * string :=
  (cp_tenant_id c, analyzer_id c, category c).

Record shadow_policy := MkShadow {
  s_policy_id : string;
  s_tenant_id : string;
  s_name : string;
  s_version : Z;
  s_rules_json : string;
  s_created_at : Z;
  s_updated_at : Z;
}.

Record pricing := MkPricing {
  pricing_id : string;
  model_pattern : string;
  input_cost_per_1k : pyval;
  output_cost_per_1k : pyval;
  currency : string;
  pr_created_at : Z;
  pr_updated_at : Z;
}.

Record key_policy := MkKeyPolicy {
  kp_hash : string;
  kp_policy_id : string;
  kp_tenant_id : option string;
  kp_created_at : Z;
}.

Definition kp_key (r : key_policy) : string * string := (kp_hash r, kp_policy_id r).

Record key_tool := MkKeyTool {
  kt_hash : string;
  kt_tool_name : string;
  kt_allowed : bool;
  kt_created_at : Z;
}.

Definition kt_key (r : key_tool) : string * string := (kt_hash r, kt_tool_name r).

Record store := MkStore {
  attestations : list attestation;
  policies : list policy;
  budgets : list budget;
  content_policies : list content_policy;
  shadow_policies : list shadow_policy;
  model_pricing : list pricing;
  key_policies : list key_policy;
  key_tools : list key_tool;
  _key_tenant_cache : gmap string (option string * Z);
}.

Definition empty_store : store := MkStore [] [] [] [] [] [] [] [] ∅.

Definition with_attestations (l : list attestation) (s : store) : store :=
  MkStore l (policies s) (budgets s) (content_policies s) (shadow_policies s) (model_pricing s)
    (key_policies s) (key_tools s) (_key_tenant_cache s).
Definition with_policies (l : list policy) (s : store) : store :=
  MkStore (attestations s) l (budgets s) (content_policies s) (shadow_policies s) (model_pricing s)
    (key_policies s) (key_tools s) (_key_tenant_cache s).
Definition with_budgets (l : list budget) (s : store) : store :=
  MkStore (attestations s) (policies s) l (content_policies s) (shadow_policies s) (model_pricing s)
    (key_policies s) (key_tools s) (_key_tenant_cache s).
Definition with_content (l : list content_policy) (s : store) : store :=
  MkStore (attestations s) (policies s) (budgets s) l (shadow_policies s) (model_pricing s)
    (key_policies s) (key_tools s) (_key_tenant_cache s).
Definition with_shadow (l : list shadow_policy) (s : store) : store :=
  MkStore (attestations s) (policies s) (budgets s) (content_policies s) l (model_pricing s)
    (key_policies s) (key_tools s) (_key_tenant_cache s).
Definition with_pricing (l : list pricing) (s : store) : store :=
  MkStore (attestations s) (policies s) (budgets s) (content_policies s) (shadow_policies s) l
    (key_policies s) (key_tools s) (_key_tenant_cache s).
Definition with_key_policies (l : list key_policy) (s : store) : store :=
  MkStore (attestations s) (policies s) (budgets s) (content_policies s) (shadow_policies s)
    (model_pricing s) l (key_tools s) (_key_tenant_cache s).
Definition with_key_tools (l : list key_tool) (s : store) : store :=
  MkStore (attestations s) (policies s) (budgets s) (content_policies s) (shadow_policies s)
    (model_pricing s) (key_policies s) l (_key_tenant_cache s).
Definition with_tenant_cache (m : gmap string (option string * Z)) (s : store) : store :=
  MkStore (attestations s) (policies s) (budgets s) (content_policies s) (shadow_policies s)
    (model_pricing s) (key_policies s) (key_tools s) m.

(** [if tenant_id: ... WHERE tenant_id = ?], [ORDER BY updated_at DESC] *)
Definition list_rows {R} (tenant : R -> string) (updated : R -> Z) (tenant_id : string) (l : list R) : list R :=
  isort (fun x y => updated y <=? updated x)
    (if bool_decide (tenant_id = "") then l
     else List.filter (fun r => bool_decide (tenant r = tenant_id)) l).

(** ** Attestations *)

(** The keys of the dict, [None] when missing *)
Record attestation_data := MkAttData {
  d_attestation_id : option string;
  d_tenant_id : option string;
  d_model_id : option string;
  d_provider : option string;
  d_status : option string;
  d_verification_level : option string;
  d_notes : option string;
  d_model_hash : option string;
}.

(** [explicit or fresh] *)
Definition or_new (explicit : option string) (fresh : string) : string :=
  match explicit with None | Some EmptyString => fresh | Some i => i end.

Definition list_attestations (tenant_id : string) (s : store) : list attestation :=
  list_rows a_tenant_id a_updated_at tenant_id (attestations s).

(** The row a dict describes *)
Definition attestation_row (d : attestation_data) (id : string) (now : Z) : attestation :=
  MkAttestation id (default "" (d_model_id d)) (default "ollama" (d_provider d)) (default "active" (d_status d))
    (default "admin_attested" (d_verification_level d)) (default "" (d_tenant_id d)) (default "" (d_notes d))
    (default "" (d_model_hash d)) now now.

(** [UPDATE attestations SET ... WHERE attestation_id = ?]: the hash and the
    creation time stay. *)
Definition overwritten (r x : attestation) : attestation :=
  MkAttestation (attestation_id x) (model_id r) (provider r) (status r) (verification_level r) (a_tenant_id r)
    (notes r) (model_hash x) (a_created_at x) (a_updated_at r).

(** [ON CONFLICT(tenant_id, provider, model_id) DO UPDATE] *)
Definition merged (r x : attestation) : attestation :=
  MkAttestation (attestation_id x) (model_id x) (provider x) (status r) (verification_level r) (a_tenant_id x)
    (notes r) (if bool_decide (model_hash r = "") then model_hash x else model_hash r)
    (a_created_at x) (a_updated_at r).

Definition IntegrityError : exn := OtherError "IntegrityError".

(** The constraint [UNIQUE(tenant_id, provider, model_id)] makes the update raise
    when another row has the new natural key. *)
Definition upsert_attestation (d : attestation_data) (fresh : string) (now : Z) (s : store)
    : store * res attestation :=
  let id := or_new (d_attestation_id d) fresh in
  let r := attestation_row d id now in
  let explicit := match d_attestation_id d with None | Some EmptyString => false | Some _ => true end in
  if explicit && has_row attestation_id id (attestations s) then
    if existsb (fun x => bool_decide (natural_key x = natural_key r) && negb (bool_decide (attestation_id x = id)))
         (attestations s)
    then (s, Raise IntegrityError)
    else
      let l := update_rows attestation_id id (overwritten r) (attestations s) in
      (with_attestations l s, match find_row attestation_id id l with Some x => Ok x | None => Raise IntegrityError end)
  else
    let l := upsert natural_key merged r (attestations s) in
    (with_attestations l s,
     match find_row natural_key (natural_key r) l with Some x => Ok x | None => Raise IntegrityError end).

Definition delete_attestation (id : string) (s : store) : store * bool :=
  let '(l, b) := delete_rows attestation_id id (attestations s) in (with_attestations l s, b).

Definition update_model_hash (prov model tenant hash : string) (now : Z) (s : store) : store :=
  with_attestations
    (map (fun x => if bool_decide (provider x = prov) && bool_decide (model_id x = model)
                      && bool_decide (a_tenant_id x = tenant) && bool_decide (model_hash x = "")
                   then MkAttestation (attestation_id x) (model_id x) (provider x) (status x)
                          (verification_level x) (a_tenant_id x) (notes x) hash (a_created_at x) now
                   else x) (attestations s)) s.

(** ** Policies *)

Record policy_data := MkPolData {
  d_policy_id : option string;
  d_policy_name : option string;
  d_pstatus : option string;
  d_enforcement_level : option string;
  d_rules : option pyval;
  d_prompt_rules : option pyval;
  d_rag_rules : option pyval;
  d_ptenant_id : option string;
  d_description : option string;
}.

(** The row's dict with its rules decoded *)
Record decoded_policy := MkDecoded {
  row : policy;
  rules : pyval;
  prompt_rules : pyval;
  rag_rules : pyval;
}.

Section policies.
Context `{JsonText}.

Definition decode (p : policy) : res decoded_policy :=
  let! r := of_text (rules_json p) in
  let! pr := of_text (prompt_rules_json p) in
  let! rr := of_text (rag_rules_json p) in Ok (MkDecoded p r pr rr).

Fixpoint decode_all (l : list policy) : res (list decoded_policy) :=
  match l with
  | [] => Ok []
  | p :: l => let! d := decode p in let! ds := decode_all l in Ok (d :: ds)
  end.

Definition list_policies (tenant_id : string) (s : store) : res (list decoded_policy) :=
  decode_all (list_rows p_tenant_id p_updated_at tenant_id (policies s)).

Definition get_active_policies (tenant_id : string) (s : store) : res (list decoded_policy) :=
  let! ps := list_policies tenant_id s in
  Ok (List.filter (fun d => bool_decide (p_status (row d) = "active")) ps).

Definition get_policy (id : string) (s : store) : res (option decoded_policy) :=
  match find_row policy_id id (policies s) with
  | None => Ok None
  | Some p => let! d := decode p in Ok (Some d)
  end.

Definition policy_row (d : policy_data) (id : string) (now : Z) : policy :=
  MkPolicy id (default "Untitled" (d_policy_name d)) (default "active" (d_pstatus d))
    (default "blocking" (d_enforcement_level d)) (to_text (default (PList []) (d_rules d)))
    (to_text (default (PList []) (d_prompt_rules d))) (to_text (default (PList []) (d_rag_rules d)))
    (default "" (d_ptenant_id d)) (default "" (d_description d)) now now.

Definition create_policy (d : policy_data) (fresh : string) (now : Z) (s : store) : store * res string :=
  let id := or_new (d_policy_id d) fresh in
  if has_row policy_id id (policies s) then (s, Raise IntegrityError)
  else (with_policies (policies s ++ [policy_row d id now]) s, Ok id).

(** The columns [update_policy] sets *)
Definition patched (d : policy_data) (now : Z) (p : policy) : policy :=
  let json old v := match v with Some v => to_text v | None => old end in
  MkPolicy (policy_id p) (default (policy_name p) (d_policy_name d)) (default (p_status p) (d_pstatus d))
    (default (enforcement_level p) (d_enforcement_level d)) (json (rules_json p) (d_rules d))
    (json (prompt_rules_json p) (d_prompt_rules d)) (json (rag_rules_json p) (d_rag_rules d))
    (p_tenant_id p) (default (description p) (d_description d)) (p_created_at p) now.

Definition sets_nothing (d : policy_data) : bool :=
  match d_policy_name d, d_pstatus d, d_enforcement_level d, d_description d, d_rules d, d_prompt_rules d,
        d_rag_rules d with
  | None, None, None, None, None, None, None => true
  | _, _, _, _, _, _, _ => false
  end.

Definition update_policy (id : string) (d : policy_data) (now : Z) (s : store) : store * bool :=
  if sets_nothing d then (s, false)
  else (with_policies (update_rows policy_id id (patched d now) (policies s)) s,
        has_row policy_id id (policies s)).

Definition delete_policy (id : string) (s : store) : store * bool :=
  let '(l, b) := delete_rows policy_id id (policies s) in (with_policies l s, b).

(** ** Shadow policies *)

Definition decode_shadow (p : shadow_policy) : res (shadow_policy * pyval) :=
  let! r := of_text (s_rules_json p) in Ok (p, r).

Fixpoint decode_shadows (l : list shadow_policy) : res (list (shadow_policy * pyval)) :=
  match l with
  | [] => Ok []
  | p :: l => let! d := decode_shadow p in let! ds := decode_shadows l in Ok (d :: ds)
  end.

Definition list_shadow_policies (tenant_id : string) (s : store) : res (list (shadow_policy * pyval)) :=
  decode_shadows (list_rows s_tenant_id s_updated_at tenant_id (shadow_policies s)).

(** The version counts the updates; the tenant of the first insert stays. *)
Definition revised (r x : shadow_policy) : shadow_policy :=
  MkShadow (s_policy_id x) (s_tenant_id x) (s_name r) (s_version x + 1) (s_rules_json r)
    (s_created_at x) (s_updated_at r).

Definition upsert_shadow_policy (id tenant name : string) (rules : pyval) (fresh : string) (now : Z) (s : store)
    : store * res (shadow_policy * pyval) :=
  let id := or_new (Some id) fresh in
  let l := upsert s_policy_id revised (MkShadow id tenant name 1 (to_text rules) now now) (shadow_policies s) in
  (with_shadow l s,
   match find_row s_policy_id id l with Some p => decode_shadow p | None => Raise IntegrityError end).

Definition delete_shadow_policy (id : string) (s : store) : store * bool :=
  let '(l, b) := delete_rows s_policy_id id (shadow_policies s) in (with_shadow l s, b).
End policies.

(** ** Budgets, content policies, pricing *)

Definition list_budgets (tenant_id : string) (s : store) : list budget :=
  list_rows b_tenant_id b_updated_at tenant_id (budgets s).

(** The identifier is a fresh one: the API's callers send none. *)
Definition upsert_budget (tenant user period_ : string) (mx : Z) (fresh : string) (now : Z) (s : store) : store :=
  with_budgets
    (upsert budget_key (fun r x => MkBudget (budget_id x) (b_tenant_id x) (b_user x) (period x) (max_tokens r)
                                     (b_created_at x) (b_updated_at r))
       (MkBudget fresh tenant user period_ mx now now) (budgets s)) s.

Definition delete_budget (id : string) (s : store) : store * bool :=
  let '(l, b) := delete_rows budget_id id (budgets s) in (with_budgets l s, b).

(** [ORDER BY analyzer_id, category] *)
Definition content_leb (x y : content_policy) : bool :=
  if bool_decide (analyzer_id x = analyzer_id y) then String.leb (category x) (category y)
  else String.leb (analyzer_id x) (analyzer_id y).

Definition list_content_policies (analyzer : option string) (s : store) : list content_policy :=
  match analyzer with
  | None | Some EmptyString => isort content_leb (content_policies s)
  | Some a => isort (fun x y => String.leb (category x) (category y))
                (List.filter (fun c => bool_decide (analyzer_id c = a)) (content_policies s))
  end.

Definition upsert_content_policy (tenant analyzer cat act : string) (thr : pyval) (fresh : string) (now : Z)
    (s : store) : store :=
  with_content
    (upsert content_key (fun r x => MkContent (cp_id x) (cp_tenant_id x) (analyzer_id x) (category x) (action r)
                                      (threshold r) (cp_created_at x) (cp_updated_at r))
       (MkContent fresh tenant analyzer cat act thr now now) (content_policies s)) s.

Definition delete_content_policy (id : string) (s : store) : store * bool :=
  let '(l, b) := delete_rows cp_id id (content_policies s) in (with_content l s, b).

Definition llama_guard_defaults : list (string * string * string) :=
  map (fun i => ("walacor.llama_guard.v3", ("S" +:+ z_str (Z.of_nat i))%string,
                 if (i =? 4)%nat then "block" else "warn")) (seq 1 14).

Definition default_content_policies : list (string * string * string) :=
  [("walacor.pii.v1", "credit_card", "block"); ("walacor.pii.v1", "ssn", "block");
   ("walacor.pii.v1", "aws_access_key", "block"); ("walacor.pii.v1", "api_key", "block");
   ("walacor.pii.v1", "email_address", "warn"); ("walacor.pii.v1", "phone_number", "warn");
   ("walacor.pii.v1", "ip_address", "warn")]
  ++ llama_guard_defaults ++
  [("walacor.toxicity.v1", "child_safety", "block"); ("walacor.toxicity.v1", "self_harm", "warn");
   ("walacor.toxicity.v1", "violence", "warn"); ("walacor.dlp.v1", "financial", "warn");
   ("walacor.dlp.v1", "health", "block"); ("walacor.dlp.v1", "secrets", "block");
   ("walacor.dlp.v1", "infrastructure", "warn"); ("walacor.presidio_pii.v1", "CREDIT_CARD", "block");
   ("walacor.presidio_pii.v1", "US_SSN", "block"); ("walacor.presidio_pii.v1", "US_BANK_NUMBER", "block");
   ("walacor.presidio_pii.v1", "IBAN_CODE", "block"); ("walacor.presidio_pii.v1", "CRYPTO", "block");
   ("walacor.presidio_pii.v1", "EMAIL_ADDRESS", "warn"); ("walacor.presidio_pii.v1", "PHONE_NUMBER", "warn");
   ("walacor.presidio_pii.v1", "IP_ADDRESS", "warn"); ("walacor.presidio_pii.v1", "PERSON", "warn")].

Fixpoint seed (l : list (string * string * string)) (fresh : nat -> string) (now : Z) (s : store) : store :=
  match l with
  | [] => s
  | (a, c, act) :: l =>
      seed l (fun i => fresh (S i)) now
        (upsert_content_policy "*" a c act (PFloat (sf_of_decimal false 5 (-1)) "0.5") (fresh 0%nat) now s)
  end.

Definition seed_default_content_policies (fresh : nat -> string) (now : Z) (s : store) : store :=
  match list_content_policies None s with
  | [] => seed default_content_policies fresh now s
  | _ => s
  end.

Definition list_model_pricing (s : store) : list pricing :=
  isort (fun x y => pr_updated_at y <=? pr_updated_at x) (model_pricing s).

Definition is_nan (f : SpecFloat.spec_float) : bool := match f with SpecFloat.S754_nan => true | _ => false end.

(** [float()] on both costs first; SQLite stores a NaN as NULL, which the columns
    refuse. *)
Definition upsert_model_pricing (pattern : string) (input output : pyval) (cur fresh : string)
    (repr : SpecFloat.spec_float -> string) (now : Z) (s : store) : store * res unit :=
  match py_float input with
  | Raise e => (s, Raise e)
  | Ok i =>
      match py_float output with
      | Raise e => (s, Raise e)
      | Ok o =>
          if is_nan i || is_nan o then (s, Raise IntegrityError) else
          (with_pricing
             (upsert model_pattern
                (fun r x => MkPricing (pricing_id x) (model_pattern x) (input_cost_per_1k r) (output_cost_per_1k r)
                              (currency r) (pr_created_at x) (pr_updated_at r))
                (MkPricing fresh pattern (PFloat i (repr i)) (PFloat o (repr o)) cur now now) (model_pricing s)) s,
           Ok tt)
      end
  end.

Definition delete_model_pricing (id : string) (s : store) : store * bool :=
  let '(l, b) := delete_rows pricing_id id (model_pricing s) in (with_pricing l s, b).

Definition get_model_pricing (model : string) (s : store) : option pricing :=
  List.find (fun r => fnmatch model (model_pattern r)) (list_model_pricing s).

(** ** What an API key may use: policies, tenant, tools *)

Definition _KEY_TENANT_CACHE_TTL : Z := seconds 60.

Definition rows_of (hash : string) (s : store) : list key_policy :=
  List.filter (fun r => bool_decide (kp_hash r = hash)) (key_policies s).

(** Rows come in the order of the primary key's index. *)
Definition by_policy (x y : key_policy) : bool := String.leb (kp_policy_id x) (kp_policy_id y).

Definition get_key_policies (hash : string) (s : store) : list string :=
  map kp_policy_id (isort by_policy (rows_of hash s)).

(** [SELECT tenant_id ... AND tenant_id IS NOT NULL LIMIT 1] *)
Definition bound_tenant (hash : string) (s : store) : option string :=
  match List.filter (fun r => bool_decide (is_Some (kp_tenant_id r))) (isort by_policy (rows_of hash s)) with
  | [] => None
  | r :: _ => kp_tenant_id r
  end.

Definition drop_tenant (hash : string) (s : store) : store :=
  with_tenant_cache (delete hash (_key_tenant_cache s)) s.

Definition others (hash : string) (s : store) : list key_policy :=
  List.filter (fun r => negb (bool_decide (kp_hash r = hash))) (key_policies s).

Definition set_key_policies (hash : string) (policy_ids : list string) (now : Z) (s : store) : store :=
  let tenant := bound_tenant hash s in
  drop_tenant hash
    (with_key_policies
       (foldl (fun l pid => insert_or_replace kp_key (MkKeyPolicy hash pid tenant now) l) (others hash s) policy_ids)
       s).

Definition remove_key_policy (hash pid : string) (s : store) : store * bool :=
  let '(l, b) := delete_rows kp_key (hash, pid) (key_policies s) in
  (drop_tenant hash (with_key_policies l s), b).

Definition list_key_policy_assignments (s : store) : list key_policy :=
  isort (fun x y => if bool_decide (kp_hash x = kp_hash y) then by_policy x y
                    else String.leb (kp_hash x) (kp_hash y)) (key_policies s).

(** What the table says, without the cache *)
Definition stored_tenant (hash : string) (s : store) : option string :=
  match bound_tenant hash s with
  | None | Some EmptyString => None
  | t => t
  end.

(** [now] is the first look at the clock, [later] the second. *)
Definition get_key_tenant (hash : string) (now later : Z) (s : store) : store * option string :=
  if bool_decide (hash = "") then (s, None)
  else
    let read s := let t := stored_tenant hash s in
                  (with_tenant_cache (<[hash := (t, later + _KEY_TENANT_CACHE_TTL)]> (_key_tenant_cache s)) s, t) in
    match _key_tenant_cache s !! hash with
    | Some (value, expires_at) => if now <? expires_at then (s, value) else read (drop_tenant hash s)
    | None => read s
    end.

Definition has_key (hash : string) (s : store) : bool :=
  if bool_decide (hash = "") then false else has_row kp_hash hash (key_policies s).

(** [(tenant_id or "").strip() or None] *)
Definition normalised (tenant : option string) : option string :=
  match tenant with
  | None => None
  | Some t => if bool_decide (strip t = "") then None else Some (strip t)
  end.

Definition set_key_tenant (hash : string) (tenant : option string) (s : store) : store * bool :=
  if bool_decide (hash = "") then (s, false)
  else
    (drop_tenant hash
       (with_key_policies
          (update_rows kp_hash hash
             (fun r => MkKeyPolicy (kp_hash r) (kp_policy_id r) (normalised tenant) (kp_created_at r))
             (key_policies s)) s),
     has_row kp_hash hash (key_policies s)).

Definition invalidate_key_tenant_cache (hash : option string) (s : store) : store :=
  match hash with
  | None => with_tenant_cache ∅ s
  | Some h => drop_tenant h s
  end.

Definition tool_rows (hash : string) (s : store) : list key_tool :=
  List.filter (fun r => bool_decide (kt_hash r = hash)) (key_tools s).

Definition get_allowed_tools (hash : string) (s : store) : option (list string) :=
  match List.filter kt_allowed (tool_rows hash s) with
  | [] => match tool_rows hash s with [] => None | _ => Some [] end
  | l => Some (map kt_tool_name (isort (fun x y => String.leb (kt_tool_name x) (kt_tool_name y)) l))
  end.

Definition set_tool_permission (hash tool : string) (allowed : bool) (now : Z) (s : store) : store :=
  with_key_tools (insert_or_replace kt_key (MkKeyTool hash tool allowed now) (key_tools s)) s.

(** The plain [INSERT]s of one transaction; a repeated name rolls it back. *)
Fixpoint insert_tools (hash : string) (names : list string) (now : Z) (l : list key_tool) : res (list key_tool) :=
  match names with
  | [] => Ok l
  | n :: names =>
      if has_row kt_key (hash, n) l then Raise IntegrityError
      else insert_tools hash names now (l ++ [MkKeyTool hash n true now])
  end.

Definition set_allowed_tools (hash : string) (tool_names : list string) (now : Z) (s : store)
    : store * res unit :=
  let l := List.filter (fun r => negb (bool_decide (kt_hash r = hash))) (key_tools s) in
  match tool_names with
  | [] => (with_key_tools (l ++ [MkKeyTool hash "" false now]) s, Ok tt)
  | _ => match insert_tools hash tool_names now l with
         | Ok l => (with_key_tools l s, Ok tt)
         | Raise e => (s, Raise e)
         end
  end.

Definition remove_tool_permission (hash tool : string) (s : store) : store * bool :=
  let '(l, b) := delete_rows kt_key (hash, tool) (key_tools s) in (with_key_tools l s, b).

(** ** The store as a state machine *)

(** Every operation that changes the store *)
Inductive op :=
  | UpsertAttestation (d : attestation_data) (fresh : string) (now : Z)
  | DeleteAttestation (id : string)
  | UpdateModelHash (prov model tenant hash : string) (now : Z)
  | CreatePolicy (d : policy_data) (fresh : string) (now : Z)
  | UpdatePolicy (id : string) (d : policy_data) (now : Z)
  | DeletePolicy (id : string)
  | UpsertShadow (id tenant name : string) (rules : pyval) (fresh : string) (now : Z)
  | DeleteShadow (id : string)
  | UpsertBudget (tenant user period_ : string) (mx : Z) (fresh : string) (now : Z)
  | DeleteBudget (id : string)
  | UpsertContent (tenant analyzer cat act : string) (thr : pyval) (fresh : string) (now : Z)
  | DeleteContent (id : string)
  | UpsertPricing (pattern : string) (input output : pyval) (cur fresh : string)
      (repr : SpecFloat.spec_float -> string) (now : Z)
  | DeletePricing (id : string)
  | SetKeyPolicies (hash : string) (policy_ids : list string) (now : Z)
  | RemoveKeyPolicy (hash pid : string)
  | SetKeyTenant (hash : string) (tenant : option string)
  | GetKeyTenant (hash : string) (now later : Z)
  | InvalidateTenants (hash : option string)
  | SetToolPermission (hash tool : string) (allowed : bool) (now : Z)
  | SetAllowedTools (hash : string) (tool_names : list string) (now : Z)
  | RemoveToolPermission (hash tool : string).

Definition apply `{JsonText} (o : op) (s : store) : store :=
  match o with
  | UpsertAttestation d fresh now => (upsert_attestation d fresh now s).1
  | DeleteAttestation id => (delete_attestation id s).1
  | UpdateModelHash prov model tenant hash now => update_model_hash prov model tenant hash now s
  | CreatePolicy d fresh now => (create_policy d fresh now s).1
  | UpdatePolicy id d now => (update_policy id d now s).1
  | DeletePolicy id => (delete_policy id s).1
  | UpsertShadow id tenant name rules fresh now => (upsert_shadow_policy id tenant name rules fresh now s).1
  | DeleteShadow id => (delete_shadow_policy id s).1
  | UpsertBudget tenant user p mx fresh now => upsert_budget tenant user p mx fresh now s
  | DeleteBudget id => (delete_budget id s).1
  | UpsertContent tenant analyzer cat act thr fresh now => upsert_content_policy tenant analyzer cat act thr fresh now s
  | DeleteContent id => (delete_content_policy id s).1
  | UpsertPricing pat i o cur fresh repr now => (upsert_model_pricing pat i o cur fresh repr now s).1
  | DeletePricing id => (delete_model_pricing id s).1
  | SetKeyPolicies hash ids now => set_key_policies hash ids now s
  | RemoveKeyPolicy hash pid => (remove_key_policy hash pid s).1
  | SetKeyTenant hash tenant => (set_key_tenant hash tenant s).1
  | GetKeyTenant hash now later => (get_key_tenant hash now later s).1
  | InvalidateTenants hash => invalidate_key_tenant_cache hash s
  | SetToolPermission hash tool b now => set_tool_permission hash tool b now s
  | SetAllowedTools hash names now => (set_allowed_tools hash names now s).1
  | RemoveToolPermission hash tool => (remove_tool_permission hash tool s).1
  end.

Definition run_ops `{JsonText} (ops : list op) (s : store) : store := foldl (fun s o => apply o s) s ops.

(** ** The rows of one key *)

Definition of_hash (hash : string) (l : list key_policy) : list key_policy :=
  List.filter (fun r => bool_decide (kp_hash r = hash)) l.

Lemma filter_filter {A} (f g : A -> bool) l :
  List.filter f (List.filter g l) = List.filter (fun x => g x && f x) l.
Proof.
  induction l as [|x l IH]; [done|]. simpl. destruct (g x); simpl; [|done]. destruct (f x); by rewrite IH.
Qed.

Lemma of_hash_other hash hash' f l :
  (forall r, kp_hash r = hash' -> f r = true) -> hash <> hash' ->
  of_hash hash' (List.filter f l) = of_hash hash' l.
Proof.
  intros Hf Hne. unfold of_hash. rewrite filter_filter. apply filter_ext. intros r.
  destruct (decide (kp_hash r = hash')) as [He|He].
  - by rewrite Hf, bool_decide_eq_true_2.
  - by rewrite (bool_decide_eq_false_2 _ He), andb_false_r.
Qed.

Lemma of_hash_app hash l k : of_hash hash (l ++ k) = of_hash hash l ++ of_hash hash k.
Proof. apply List.filter_app. Qed.

Lemma replace_other hash hash' pid t now l :
  hash <> hash' ->
  of_hash hash' (insert_or_replace kp_key (MkKeyPolicy hash pid t now) l) = of_hash hash' l.
Proof.
  intros Hne. unfold insert_or_replace, delete_rows. cbn [fst]. rewrite of_hash_app. simpl.
  rewrite (bool_decide_eq_false_2 (hash = hash')), app_nil_r by done.
  apply (of_hash_other hash); [|done]. intros r <-. unfold kp_key. simpl.
  rewrite bool_decide_eq_false_2; [done|]. intros [= ? ?]. congruence.
Qed.

Lemma assign_other hash hash' ids t now l :
  hash <> hash' ->
  of_hash hash' (foldl (fun l pid => insert_or_replace kp_key (MkKeyPolicy hash pid t now) l) l ids) = of_hash hash' l.
Proof.
  intros Hne. revert l. induction ids as [|pid ids IH]; intros l; [done|]. simpl. by rewrite IH, replace_other.
Qed.

Lemma update_other hash hash' f l :
  hash <> hash' -> (forall r, kp_hash (f r) = kp_hash r) ->
  of_hash hash' (update_rows kp_hash hash f l) = of_hash hash' l.
Proof.
  intros Hne Hf. induction l as [|r l IH]; [done|]. simpl.
  destruct (decide (kp_hash r = hash)) as [He|He].
  - rewrite Hf, He, bool_decide_eq_false_2 by done. exact IH.
  - destruct (bool_decide (kp_hash r = hash')); [f_equal|]; exact IH.
Qed.

(** The rows a key's assignment leaves *)
Lemma assigned_rows hash ids t now l r :
  (forall x, x ∈ l -> kp_hash x <> hash) ->
  r ∈ foldl (fun l pid => insert_or_replace kp_key (MkKeyPolicy hash pid t now) l) l ids ->
  r ∈ l \/ (r = MkKeyPolicy hash (kp_policy_id r) t now /\ kp_policy_id r ∈ ids).
Proof.
  intros _. revert l. induction ids as [|pid ids IH]; intros l; simpl; [by left|].
  intros [Hin|[Hr Hi]]%IH; [|right; split; [done|by right]].
  unfold insert_or_replace, delete_rows in Hin. cbn [fst] in Hin.
  apply elem_of_app in Hin as [Hin|Hin].
  - apply list_elem_of_In, filter_In in Hin as [Hin _]. left. by apply list_elem_of_In.
  - apply list_elem_of_singleton in Hin as ->. right. split; [done|]. by left.
Qed.

Lemma assigned_all hash ids t now l pid :
  pid ∈ ids ->
  MkKeyPolicy hash pid t now ∈ foldl (fun l pid => insert_or_replace kp_key (MkKeyPolicy hash pid t now) l) l ids.
Proof.
  assert (Hkeep : forall js l, MkKeyPolicy hash pid t now ∈ l ->
    MkKeyPolicy hash pid t now ∈ foldl (fun l pid => insert_or_replace kp_key (MkKeyPolicy hash pid t now) l) l js).
  { induction js as [|q js IH]; intros l' Hl; [exact Hl|]. simpl. apply IH.
    unfold insert_or_replace, delete_rows. cbn [fst]. apply elem_of_app.
    destruct (decide (q = pid)) as [->|Hne]; [right; by apply list_elem_of_singleton|]. left.
    apply list_elem_of_In, filter_In. split; [by apply list_elem_of_In|].
    apply negb_true_iff, bool_decide_eq_false_2. unfold kp_key. simpl. congruence. }
  revert l. induction ids as [|q ids IH]; intros l Hp; [by apply not_elem_of_nil in Hp|]. simpl.
  apply elem_of_cons in Hp as [<-|Hp]; [|by apply IH]. apply Hkeep, elem_of_app. right.
  by apply list_elem_of_singleton.
Qed.

(** ** The invariant *)

(** All rows of one key carry one tenant. *)
Definition one_tenant (s : store) : Prop :=
  forall r r', r ∈ key_policies s -> r' ∈ key_policies s -> kp_hash r = kp_hash r' ->
  kp_tenant_id r = kp_tenant_id r'.

(** The cache says what the table says. *)
Definition coherent (s : store) : Prop :=
  forall hash v expires, _key_tenant_cache s !! hash = Some (v, expires) -> v = stored_tenant hash s.

Record wf (s : store) : Prop := {
  wf_attestation_ids : unique attestation_id (attestations s);
  wf_attestations : unique natural_key (attestations s);
  wf_policies : unique policy_id (policies s);
  wf_shadow : unique s_policy_id (shadow_policies s);
  wf_budgets : unique budget_key (budgets s);
  wf_content : unique content_key (content_policies s);
  wf_pricing : unique model_pattern (model_pricing s);
  wf_key_policies : unique kp_key (key_policies s);
  wf_key_tools : unique kt_key (key_tools s);
  wf_one_tenant : one_tenant s;
  wf_coherent : coherent s;
}.

Lemma stored_tenant_rows hash s s' :
  of_hash hash (key_policies s') = of_hash hash (key_policies s) -> stored_tenant hash s' = stored_tenant hash s.
Proof. unfold stored_tenant, bound_tenant, rows_of, of_hash. by intros ->. Qed.

(** Dropping the entry of the one key whose rows change keeps the cache coherent. *)
Lemma coherent_drop hash s s' :
  coherent s -> _key_tenant_cache s' = _key_tenant_cache s ->
  (forall h, h <> hash -> of_hash h (key_policies s') = of_hash h (key_policies s)) ->
  coherent (drop_tenant hash s').
Proof.
  intros Hc Hm Hrows h v e. simpl. rewrite Hm. destruct (decide (h = hash)) as [->|Hne].
  - by rewrite lookup_delete_eq.
  - rewrite lookup_delete_ne by done. intros Hl.
    rewrite (stored_tenant_rows h s) by (by apply Hrows). by eapply Hc.
Qed.

Lemma coherent_same s s' :
  coherent s -> _key_tenant_cache s' = _key_tenant_cache s -> key_policies s' = key_policies s -> coherent s'.
Proof. intros Hc Hm Hk h v e. rewrite Hm. intros Hl. rewrite (stored_tenant_rows h s s') by (by rewrite Hk). by apply (Hc _ _ _ Hl). Qed.

Lemma insert_tools_unique hash names now l l' :
  unique kt_key l -> insert_tools hash names now l = Ok l' -> unique kt_key l'.
Proof.
  revert l. induction names as [|n names IH]; cbn [insert_tools]; intros l Hl H; [by simplify_eq|].
  destruct (has_row kt_key (hash, n) l) eqn:Hh; [done|].
  apply (IH _ (unique_snoc kt_key (MkKeyTool hash n true now) l Hl (proj1 (has_row_out _ _ _) Hh)) H).
Qed.

Lemma one_tenant_filter f s l :
  one_tenant s -> l = List.filter f (key_policies s) ->
  forall r r', r ∈ l -> r' ∈ l -> kp_hash r = kp_hash r' -> kp_tenant_id r = kp_tenant_id r'.
Proof.
  intros Ho -> r r' Hr Hr'. apply list_elem_of_In, filter_In in Hr as [Hr _].
  apply list_elem_of_In, filter_In in Hr' as [Hr' _]. apply Ho; by apply list_elem_of_In.
Qed.

Lemma wf_set_key_policies hash ids now s : wf s -> wf (set_key_policies hash ids now s).
Proof.
  intros [Hai Ha Hp Hs Hb Hc Hpr Hk Ht Ho Hco]. unfold set_key_policies.
  assert (forall x, x ∈ others hash s -> kp_hash x <> hash) as Hothers.
  { intros x Hx. apply list_elem_of_In, filter_In in Hx as [_ Hx]. by zbool. }
  split; simpl; try done.
  - assert (unique kp_key (others hash s)) as Hu by by apply unique_filter.
    revert Hu. generalize (others hash s). induction ids as [|pid ids IH]; intros l Hu; [done|].
    simpl. apply IH. by apply unique_replace.
  - intros r r' Hr Hr' Heq.
    apply assigned_rows in Hr as [Hr|[Hr _]]; [| |done]; apply assigned_rows in Hr' as [Hr'|[Hr' _]]; try done.
    + by apply (one_tenant_filter _ s (others hash s) Ho eq_refl).
    + apply Hothers in Hr. rewrite Hr' in Heq. simpl in Heq. congruence.
    + apply Hothers in Hr'. rewrite Hr in Heq. simpl in Heq. congruence.
    + rewrite Hr, Hr'. done.
  - apply (coherent_drop _ s); [done|done|]. intros h Hne. simpl.
    rewrite assign_other by done. unfold others. apply (of_hash_other hash); [|done].
    intros r <-. by rewrite bool_decide_eq_false_2.
Qed.

Lemma wf_remove_key_policy hash pid s : wf s -> wf (remove_key_policy hash pid s).1.
Proof.
  intros [Hai Ha Hp Hs Hb Hc Hpr Hk Ht Ho Hco]. unfold remove_key_policy, delete_rows. cbn [fst].
  split; simpl; try done.
  - by apply unique_filter.
  - intros r r'. by eapply one_tenant_filter.
  - apply (coherent_drop _ s); [done|done|]. intros h Hne. simpl. apply (of_hash_other hash); [|done].
    intros r <-. apply negb_true_iff, bool_decide_eq_false_2. unfold kp_key. congruence.
Qed.

Lemma wf_set_key_tenant hash tenant s : wf s -> wf (set_key_tenant hash tenant s).1.
Proof.
  intros [Hai Ha Hp Hs Hb Hc Hpr Hk Ht Ho Hco]. unfold set_key_tenant.
  destruct (bool_decide (hash = "")); [by split|]. cbn [fst].
  set (f := fun r => MkKeyPolicy (kp_hash r) (kp_policy_id r) (normalised tenant) (kp_created_at r)).
  split; simpl; try done.
  - unfold unique. replace (kp_key <$> update_rows kp_hash hash f (key_policies s)) with
      (kp_key <$> key_policies s); [done|].
    clear. induction (key_policies s) as [|r l IH]; [done|]. simpl. f_equal; [|exact IH].
    by destruct (decide (kp_hash r = hash)).
  - intros r r' Hr Hr' Heq. unfold update_rows in Hr, Hr'.
    apply list_elem_of_fmap in Hr as (x & -> & Hx). apply list_elem_of_fmap in Hr' as (x' & -> & Hx').
    destruct (decide (kp_hash x = hash)), (decide (kp_hash x' = hash)); simpl in *; try congruence.
    by apply Ho.
  - apply (coherent_drop _ s); [done|done|]. intros h Hne. simpl. apply update_other; [done|by intros r].
Qed.

Lemma wf_get_key_tenant hash now later s : wf s -> wf (get_key_tenant hash now later s).1.
Proof.
  intros Hwf. assert (forall s, wf s -> wf (with_tenant_cache
    (<[hash := (stored_tenant hash s, later + _KEY_TENANT_CACHE_TTL)]> (_key_tenant_cache s)) s)) as Hread.
  { intros s' [? ? ? ? ? ? ? ? ? ? Hco]. split; try done. intros h v e. simpl.
    destruct (decide (h = hash)) as [->|Hne].
    - rewrite lookup_insert_eq. by intros [= <- _].
    - rewrite lookup_insert_ne by done. apply Hco. }
  assert (wf (drop_tenant hash s)) as Hdrop.
  { destruct Hwf as [? ? ? ? ? ? ? ? ? ? Hco]. split; try done.
    by apply (coherent_drop hash s s). }
  unfold get_key_tenant. destruct (bool_decide (hash = "")); [done|].
  destruct (_key_tenant_cache s !! hash) as [[v e]|]; [destruct (now <? e); [done|]|]; cbn [fst]; by apply Hread.
Qed.

Lemma wf_key_tools_op s l : wf s -> unique kt_key l -> wf (with_key_tools l s).
Proof. intros [? ? ? ? ? ? ? ? ? ? Hco] Hl. by split. Qed.

(** UPDATE of one row to a natural key no other row has *)
Lemma unique_natural_update id r l :
  unique attestation_id l -> unique natural_key l ->
  existsb (fun x => bool_decide (natural_key x = natural_key r) && negb (bool_decide (attestation_id x = id))) l = false ->
  unique natural_key (update_rows attestation_id id (overwritten r) l).
Proof.
  unfold unique. induction l as [|x l IH]; [done|]. intros [Hx Hl]%NoDup_cons [Hn Hl']%NoDup_cons He.
  simpl in He. apply orb_false_iff in He as [Hex He].
  assert (forall y, y ∈ l -> natural_key y = natural_key r -> attestation_id y = id) as Honly.
  { intros y Hy Hk. destruct (decide (attestation_id y = id)) as [|Hne]; [done|].
    apply not_true_iff_false in He. destruct He. apply existsb_exists. exists y.
    split; [by apply list_elem_of_In|]. by rewrite bool_decide_eq_true_2, bool_decide_eq_false_2. }
  simpl. destruct (decide (attestation_id x = id)) as [Hid|Hid].
  - assert (update_rows attestation_id id (overwritten r) l = l) as ->.
    { clear -Hx Hid. induction l as [|y l IH]; [done|]. simpl. rewrite decide_False.
      - f_equal. apply IH. intros Hin. apply Hx. by right.
      - intros Hy. apply Hx. rewrite Hid, <- Hy. by left. }
    constructor; [|done]. intros (y & Hk & Hy)%list_elem_of_fmap. apply Hx.
    rewrite Hid, <- (Honly y Hy (eq_sym Hk)). apply list_elem_of_fmap. by exists y.
  - constructor; [|by apply IH]. intros (y & Hk & Hy)%list_elem_of_fmap.
    apply list_elem_of_fmap in Hy as (z & -> & Hz). destruct (decide (attestation_id z = id)) as [Hzid|].
    + change (natural_key (overwritten r z)) with (natural_key r) in Hk.
      rewrite bool_decide_eq_true_2 in Hex by done. rewrite bool_decide_eq_false_2 in Hex by done. done.
    + apply Hn, list_elem_of_fmap. by exists z.
Qed.

(** A fresh UUID is the identifier of no row. *)
Definition fresh_id (o : op) (s : store) : Prop :=
  match o with
  | UpsertAttestation d fresh _ =>
      has_row attestation_id (or_new (d_attestation_id d) fresh) (attestations s) = true ->
      match d_attestation_id d with None | Some EmptyString => False | Some _ => True end
  | _ => True
  end.

Lemma wf_insert_attestation r s :
  has_row attestation_id (attestation_id r) (attestations s) = false -> wf s ->
  wf (with_attestations (upsert natural_key merged r (attestations s)) s).
Proof.
  intros Hnew [Hai Ha Hp Hs Hb Hc Hpr Hk Ht Ho Hco]. split; simpl; try done; [|by apply unique_upsert].
  unfold upsert. destruct (has_row natural_key (natural_key r) (attestations s)).
  2:{ apply unique_snoc; [done|]. by apply has_row_out. }
  unfold unique. replace (attestation_id <$> update_rows natural_key (natural_key r) (merged r) (attestations s))
    with (attestation_id <$> attestations s); [done|].
  clear. induction (attestations s) as [|x l IH]; [done|]. simpl. f_equal; [|exact IH].
  by destruct (decide (natural_key x = natural_key r)).
Qed.

Lemma wf_upsert_attestation d fresh now s :
  fresh_id (UpsertAttestation d fresh now) s -> wf s -> wf (upsert_attestation d fresh now s).1.
Proof.
  intros Hf Hwf. unfold upsert_attestation. unfold fresh_id in Hf.
  set (id := or_new _ _) in *. set (r := attestation_row d id now).
  destruct (has_row attestation_id id (attestations s)) eqn:Hid.
  2:{ rewrite andb_false_r. by apply (wf_insert_attestation r). }
  specialize (Hf eq_refl). assert (match d_attestation_id d with None | Some EmptyString => false | Some _ => true end = true)
    as -> by by destruct (d_attestation_id d) as [[|]|]. cbn [andb].
  destruct (existsb _ (attestations s)) eqn:Hconf; [done|]. cbn [fst].
  destruct Hwf as [Hai Ha Hp Hs Hb Hc Hpr Hk Ht Ho Hco]. split; simpl; try done.
  - unfold unique. by rewrite keys_update.
  - by apply unique_natural_update.
Qed.

Lemma wf_apply `{JsonText} o s : fresh_id o s -> wf s -> wf (apply o s).
Proof.
  intros Hf Hwf. pose proof Hwf as [Hai Ha Hp Hs Hb Hc Hpr Hk Ht Ho Hco].
  destruct o; cbn [apply].
  all: try by apply wf_upsert_attestation.
  all: try by apply wf_set_key_policies.
  all: try by apply wf_remove_key_policy.
  all: try by apply wf_set_key_tenant.
  all: try by apply wf_get_key_tenant.
  all: try (by split; try done; simpl; by (apply unique_filter || apply unique_upsert)).
  - (** the hash of a model: no key changes *)
    split; try done; simpl; unfold unique.
    all: match goal with |- NoDup (?f <$> _) => replace (f <$> _) with (f <$> attestations s); [done|] end.
    all: clear; induction (attestations s) as [|x l IH]; [done|]; simpl; f_equal; [|exact IH].
    all: by destruct (_ && _ && _ && _).
  - (** a new policy *)
    unfold create_policy. destruct (has_row policy_id _ (policies s)) eqn:Hh; [done|]. cbn [fst].
    split; try done. simpl. apply unique_snoc; [done|]. by apply has_row_out.
  - unfold update_policy. destruct (sets_nothing d); [done|]. cbn [fst]. split; try done. simpl.
    unfold unique. by rewrite keys_update.
  - unfold upsert_model_pricing. destruct (py_float input) as [i|]; [|done]. destruct (py_float output) as [o|]; [|done].
    destruct (is_nan i || is_nan o); [done|]. cbn [fst]. split; try done. simpl. by apply unique_upsert.
  - destruct hash; cbn [invalidate_key_tenant_cache]; split; try done.
    by apply (coherent_drop _ s).
  - apply wf_key_tools_op; [done|]. by apply unique_replace.
  - unfold set_allowed_tools. set (l := List.filter _ (key_tools s)).
    assert (unique kt_key l) as Hl by by apply unique_filter.
    assert (forall n, (hash, n) ∉ kt_key <$> l) as Hnew.
    { intros n (x & Hx & Hin)%list_elem_of_fmap. apply list_elem_of_In, filter_In in Hin as [_ Hin].
      injection Hx as Hx. rewrite Hx, bool_decide_eq_true_2 in Hin; done. }
    destruct tool_names as [|n names].
    + apply wf_key_tools_op; [done|]. apply (unique_snoc kt_key); [done|]. apply Hnew.
    + destruct (insert_tools hash (n :: names) now l) as [l'|] eqn:Hi; [|done].
      apply wf_key_tools_op; [done|]. by apply (insert_tools_unique _ _ _ _ _ Hl Hi).
Qed.

(** Fresh identifiers all along a run *)
Fixpoint fresh_run `{JsonText} (ops : list op) (s : store) : Prop :=
  match ops with
  | [] => True
  | o :: ops => fresh_id o s /\ fresh_run ops (apply o s)
  end.

Lemma wf_run `{JsonText} ops s : fresh_run ops s -> wf s -> wf (run_ops ops s).
Proof.
  revert s. induction ops as [|o ops IH]; intros s; [done|]. intros [Ho Hops] Hs. simpl.
  apply IH; [done|]. by apply wf_apply.
Qed.

Lemma wf_empty : wf empty_store.
Proof.
  split; try constructor.
  - intros r r' Hr. by apply not_elem_of_nil in Hr.
  - intros h v e. simpl. by rewrite lookup_empty.
Qed.

(** ** What the keys' rows stand for

    Each API key known to the control plane has a set of policies and at most one
    tenant. *)

Abbreviation keys := (gmap string (gset string * option string)).

Definition spec_step (o : op) (m : keys) : keys :=
  match o with
  | SetKeyPolicies hash [] _ => delete hash m
  | SetKeyPolicies hash ids _ => <[hash := (list_to_set ids, m !! hash ≫= snd)]> m
  | RemoveKeyPolicy hash pid =>
      match m !! hash with
      | Some (ps, t) => if decide (ps ∖ {[pid]} = ∅) then delete hash m else <[hash := (ps ∖ {[pid]}, t)]> m
      | None => m
      end
  | SetKeyTenant hash tenant =>
      match m !! hash with
      | Some (ps, _) => if bool_decide (hash = "") then m else <[hash := (ps, normalised tenant)]> m
      | None => m
      end
  | _ => m
  end.

Definition spec_run (ops : list op) (m : keys) : keys := foldl (fun m o => spec_step o m) m ops.

(** The rows of a key and what they stand for *)
Definition stands_for (l : list key_policy) (e : option (gset string * option string)) : Prop :=
  match e with
  | None => l = []
  | Some (ps, t) => l <> [] /\ t <> Some "" /\ (forall p, p ∈ ps <-> p ∈ kp_policy_id <$> l)
                    /\ (forall r, r ∈ l -> kp_tenant_id r = t)
  end.

Definition refines (s : store) (m : keys) : Prop :=
  forall hash, stands_for (of_hash hash (key_policies s)) (m !! hash).

Lemma isort_nil {A} le (l : list A) : isort le l = [] -> l = [].
Proof. intros H. pose proof (isort_perm le l) as Hp. rewrite H in Hp. by apply Permutation_nil in Hp. Qed.

Lemma filter_all {A} (f : A -> bool) l : (forall x, x ∈ l -> f x = true) -> List.filter f l = l.
Proof.
  induction l as [|x l IH]; intros Hf; [done|]. simpl. rewrite Hf by by left. f_equal.
  apply IH. intros y Hy. apply Hf. by right.
Qed.

Lemma filter_none {A} (f : A -> bool) l : (forall x, x ∈ l -> f x = false) -> List.filter f l = [].
Proof.
  induction l as [|x l IH]; intros Hf; [done|]. simpl. rewrite Hf by by left.
  apply IH. intros y Hy. apply Hf. by right.
Qed.

Lemma stands_bound hash s e :
  stands_for (of_hash hash (key_policies s)) e -> bound_tenant hash s = e ≫= snd.
Proof.
  unfold bound_tenant, rows_of. fold (of_hash hash (key_policies s)). intros He.
  pose proof (isort_perm by_policy (of_hash hash (key_policies s))) as Hperm.
  destruct e as [[ps t]|]; simpl in *; [|by rewrite He].
  destruct He as (Hne & _ & _ & Ht).
  assert (forall r, r ∈ isort by_policy (of_hash hash (key_policies s)) -> kp_tenant_id r = t) as Hall.
  { intros r Hr. apply Ht. by rewrite <- Hperm. }
  destruct (isort by_policy (of_hash hash (key_policies s))) as [|r l] eqn:Hl; [by apply isort_nil in Hl|].
  destruct t as [t|].
  - simpl. rewrite (Hall r (list_elem_of_here _ _)), bool_decide_eq_true_2 by by eexists. simpl.
    by rewrite (Hall r (list_elem_of_here _ _)).
  - rewrite filter_none; [done|]. intros x Hx. rewrite (Hall x Hx).
    apply bool_decide_eq_false_2. by intros [? ?].
Qed.

Lemma stands_tenant hash s e :
  stands_for (of_hash hash (key_policies s)) e -> stored_tenant hash s = e ≫= snd.
Proof.
  intros He. unfold stored_tenant. rewrite (stands_bound _ _ _ He).
  destruct e as [[ps [[|]|]]|]; try done. simpl in He. naive_solver.
Qed.

Lemma of_hash_in hash l r : r ∈ of_hash hash l <-> r ∈ l /\ kp_hash r = hash.
Proof. unfold of_hash. rewrite list_elem_of_In, filter_In, <- list_elem_of_In, bool_decide_eq_true. done. Qed.

Lemma refines_others s s' m m' hash :
  refines s m -> (forall h, h <> hash -> of_hash h (key_policies s') = of_hash h (key_policies s)) ->
  (forall h, h <> hash -> m' !! h = m !! h) ->
  stands_for (of_hash hash (key_policies s')) (m' !! hash) -> refines s' m'.
Proof.
  intros Hr Hs Hm Hown h. destruct (decide (h = hash)) as [->|Hne]; [done|].
  rewrite Hs, Hm by done. apply Hr.
Qed.

Lemma refines_set_policies hash ids now s m :
  wf s -> refines s m -> refines (set_key_policies hash ids now s) (spec_step (SetKeyPolicies hash ids now) m).
Proof.
  intros Hwf Hr. apply (refines_others s _ m _ hash Hr).
  - intros h Hne. unfold set_key_policies. simpl. rewrite assign_other by done.
    apply (of_hash_other hash); [|done]. intros r <-. by rewrite bool_decide_eq_false_2.
  - intros h Hne. destruct ids; simpl; [by rewrite lookup_delete_ne|by rewrite lookup_insert_ne].
  - assert (forall x, x ∈ others hash s -> kp_hash x <> hash) as Ho.
    { intros x Hx. apply list_elem_of_In, filter_In in Hx as [_ Hx]. by zbool. }
    pose proof (stands_bound hash s _ (Hr hash)) as Hb.
    unfold set_key_policies. rewrite Hb. set (t := m !! hash ≫= snd).
    cbn [key_policies drop_tenant with_tenant_cache with_key_policies].
    set (l := foldl _ _ _).
    assert (forall r, r ∈ of_hash hash l -> r = MkKeyPolicy hash (kp_policy_id r) t now /\ kp_policy_id r ∈ ids) as Hrows.
    { intros r (Hin & Hh)%of_hash_in. apply assigned_rows in Hin as [Hin|?]; [|done|done].
      by apply Ho in Hin. }
    assert (forall p, p ∈ ids -> MkKeyPolicy hash p t now ∈ of_hash hash l) as Hback.
    { intros p Hp. apply of_hash_in. split; [|done]. by apply assigned_all. }
    destruct ids as [|i ids]; simpl.
    + rewrite lookup_delete_eq. apply filter_none. intros x Hx. apply bool_decide_eq_false_2. by apply Ho.
    + rewrite lookup_insert_eq. fold l. split_and!.
      * specialize (Hback i (list_elem_of_here _ _)). intros Heq. unfold l in *. rewrite Heq in Hback.
        by apply not_elem_of_nil in Hback.
      * unfold t. specialize (Hr hash). destruct (m !! hash) as [[ps [u|]]|]; simpl in *; naive_solver.
      * intros p. change ({[i]} ∪ list_to_set ids) with (list_to_set (C := gset string) (i :: ids)).
        rewrite elem_of_list_to_set. split.
        -- intros Hp. apply list_elem_of_fmap. exists (MkKeyPolicy hash p t now). split; [done|]. by apply Hback.
        -- intros (r & -> & Hin)%list_elem_of_fmap. by apply (Hrows r Hin).
      * intros r Hin. apply Hrows in Hin as [-> _]. done.
Qed.

Lemma refines_remove hash pid s m :
  refines s m -> refines (remove_key_policy hash pid s).1 (spec_step (RemoveKeyPolicy hash pid) m).
Proof.
  intros Hr. apply (refines_others s _ m _ hash Hr).
  - intros h Hne. unfold remove_key_policy, delete_rows. simpl. apply (of_hash_other hash); [|done].
    intros r <-. apply negb_true_iff, bool_decide_eq_false_2. unfold kp_key. congruence.
  - intros h Hne. simpl. destruct (m !! hash) as [[ps t]|]; [|done].
    destruct (decide _); [by rewrite lookup_delete_ne|by rewrite lookup_insert_ne].
  - unfold remove_key_policy, delete_rows. cbn [fst key_policies drop_tenant with_tenant_cache with_key_policies].
    set (l := List.filter _ _).
    assert (forall r, r ∈ of_hash hash l <-> r ∈ of_hash hash (key_policies s) /\ kp_policy_id r <> pid) as Hl.
    { intros r. rewrite !of_hash_in. unfold l. rewrite list_elem_of_In, filter_In, <- list_elem_of_In.
      rewrite negb_true_iff, bool_decide_eq_false. unfold kp_key. split.
      - intros [[Hin Hk] Hh]. split_and!; try done. intros Hp. apply Hk. congruence.
      - intros [[Hin Hh] Hk]. split_and!; try done. intros [= _ Hp]. done. }
    specialize (Hr hash). simpl. destruct (m !! hash) as [[ps t]|] eqn:Hm.
    + destruct Hr as (Hne & Ht & Hps & Hall).
      assert (forall p, p ∈ ps ∖ {[pid]} <-> p ∈ kp_policy_id <$> of_hash hash l) as Hps'.
      { intros p. rewrite elem_of_difference, Hps, not_elem_of_singleton, !list_elem_of_fmap. split.
        - intros [(r & -> & Hin) Hp]. exists r. split; [done|]. by apply Hl.
        - intros (r & -> & [Hin Hp]%Hl). split; [|done]. by exists r. }
      destruct (decide _) as [He|He].
      * rewrite lookup_delete_eq. simpl. destruct (of_hash hash l) as [|r l'] eqn:Hrl; [done|].
        exfalso. apply (not_elem_of_empty (C := gset string) (kp_policy_id r)). rewrite <- He, Hps'. by left.
      * rewrite lookup_insert_eq. split_and!; [| done | done |].
        -- intros Hnil. apply He, set_eq. intros p. rewrite Hps', Hnil. set_solver.
        -- intros r Hin. apply Hall. by apply Hl.
    + simpl in Hr. rewrite Hm. simpl. destruct (of_hash hash l) as [|r l'] eqn:Hrl; [done|]. exfalso.
      assert (r ∈ of_hash hash (key_policies s)) as Hin by (apply Hl; by left). rewrite Hr in Hin.
      by apply not_elem_of_nil in Hin.
Qed.

Lemma refines_set_tenant hash tenant s m :
  refines s m -> refines (set_key_tenant hash tenant s).1 (spec_step (SetKeyTenant hash tenant) m).
Proof.
  intros Hr. unfold set_key_tenant. simpl. destruct (bool_decide (hash = "")) eqn:Hh.
  { intros h. destruct (m !! hash) as [[ps t]|]; apply Hr. }
  apply (refines_others s _ m _ hash Hr).
  - intros h Hne. by apply update_other.
  - intros h Hne. destruct (m !! hash) as [[ps t]|]; [by rewrite lookup_insert_ne|done].
  - cbn [fst key_policies drop_tenant with_tenant_cache with_key_policies].
    set (f := fun r => _). specialize (Hr hash).
    assert (of_hash hash (update_rows kp_hash hash f (key_policies s)) = map f (of_hash hash (key_policies s))) as ->.
    { clear. unfold of_hash. induction (key_policies s) as [|r l IH]; [done|]. simpl.
      destruct (decide (kp_hash r = hash)) as [He|He].
      - rewrite !bool_decide_eq_true_2 by done. simpl. by rewrite IH.
      - by rewrite bool_decide_eq_false_2. }
    destruct (m !! hash) as [[ps t]|] eqn:Hm.
    + rewrite lookup_insert_eq. destruct Hr as (Hne & _ & Hps & _). split_and!.
      * intros Hn. apply Hne. by apply map_eq_nil in Hn.
      * destruct tenant as [u|]; simpl; [|done]. destruct (bool_decide (strip u = "")) eqn:Hu; [done|].
        zbool. congruence.
      * intros p. rewrite Hps. change (map f) with (fmap (M := list) f). by rewrite <- list_fmap_compose.
      * intros r Hin. change (map f) with (fmap (M := list) f) in Hin. by apply list_elem_of_fmap in Hin as (x & -> & _).
    + rewrite Hm. simpl in Hr |- *. by rewrite Hr.
Qed.

Lemma refines_same s s' m : key_policies s' = key_policies s -> refines s m -> refines s' m.
Proof. intros Hk Hr h. rewrite Hk. apply Hr. Qed.

Lemma refines_apply `{JsonText} o s m : wf s -> refines s m -> refines (apply o s) (spec_step o m).
Proof.
  intros Hwf Hr. destruct o; cbn [apply].
  all: try by apply refines_set_policies.
  all: try by apply refines_remove.
  all: try by apply refines_set_tenant.
  all: try by apply (refines_same s).
  - apply (refines_same s); [|done]. unfold upsert_attestation.
    destruct (_ && _); [destruct (existsb _ _)|]; done.
  - apply (refines_same s); [|done]. unfold create_policy. by destruct (has_row _ _ _).
  - apply (refines_same s); [|done]. unfold update_policy. by destruct (sets_nothing d).
  - apply (refines_same s); [|done]. unfold upsert_model_pricing.
    destruct (py_float input) as [i|]; [|done]. destruct (py_float output) as [o|]; [|done].
    by destruct (is_nan i || is_nan o).
  - apply (refines_same s); [|done]. unfold get_key_tenant. destruct (bool_decide (hash = "")); [done|].
    destruct (_ !! hash) as [[v e]|]; [|done]. by destruct (now <? e).
  - apply (refines_same s); [|done]. by destruct hash.
  - apply (refines_same s); [|done]. unfold set_allowed_tools. destruct tool_names; [done|].
    by destruct (insert_tools _ _ _ _).
Qed.

Lemma refines_run `{JsonText} ops s m :
  fresh_run ops s -> wf s -> refines s m -> refines (run_ops ops s) (spec_run ops m).
Proof.
  revert s m. induction ops as [|o ops IH]; intros s m; [done|]. intros [Ho Hops] Hwf Hr. simpl.
  apply IH; [done|by apply wf_apply|by apply refines_apply].
Qed.

Lemma refines_empty : refines empty_store ∅.
Proof. intros h. by rewrite lookup_empty. Qed.

(** ** The properties *)

(** The tables keep their constraints.  Every store an arbitrary run of
    operations reaches from the empty tables, each insertion under a fresh UUID, has
    unique primary keys and unique natural keys in all eight tables, one tenant for
    all the rows of an API key (the invariant a comment claims of the helpers), and a
    tenant cache that says what the table says. *)
Theorem store_well_formed `{JsonText} ops :
  fresh_run ops empty_store -> wf (run_ops ops empty_store).
Proof. intros Hf. apply wf_run; [done|]. apply wf_empty. Qed.

(** C19. What an API key may use is a set of policies and at most one tenant.  After
    any run of operations the key's policies are listed without repetition and are
    the specification's, [get_key_tenant] answers the specification's tenant at every
    clock reading, cached or not, and the key is known exactly when it has a policy:
    [set_key_policies] replaces the set and keeps the tenant, [set_key_tenant] changes
    the tenant alone, and a key that loses its last policy loses its tenant. *)
Theorem keys_refine_specification `{JsonText} ops hash now later :
  fresh_run ops empty_store -> hash <> "" ->
  let s := run_ops ops empty_store in
  let e := spec_run ops ∅ !! hash in
  NoDup (get_key_policies hash s)
  /\ list_to_set (get_key_policies hash s) = default (∅ : gset string) (fst <$> e)
  /\ (get_key_tenant hash now later s).2 = e ≫= snd
  /\ has_key hash s = bool_decide (is_Some e).
Proof.
  intros Hf Hh s e. assert (wf s) as Hwf by (apply wf_run; [done|apply wf_empty]).
  assert (stands_for (of_hash hash (key_policies s)) e) as He.
  { apply refines_run; [done|apply wf_empty|apply refines_empty]. }
  assert (get_key_policies hash s ≡ₚ kp_policy_id <$> of_hash hash (key_policies s)) as Hperm.
  { unfold get_key_policies, rows_of. change (map kp_policy_id) with (fmap (M := list) kp_policy_id).
    by rewrite isort_perm. }
  split_and!.
  - rewrite Hperm. assert (unique kp_key (of_hash hash (key_policies s))) as Hu by apply unique_filter, Hwf.
    apply (NoDup_fmap_1 (fun p => (hash, p))). unfold unique in Hu.
    rewrite <- list_fmap_compose. erewrite list_fmap_ext; [exact Hu|].
    intros i r Hr. apply list_elem_of_lookup_2, of_hash_in in Hr as [_ Hr]. unfold kp_key. simpl. by rewrite Hr.
  - apply set_eq. intros p. rewrite elem_of_list_to_set, Hperm.
    destruct e as [[ps t]|]; simpl in *.
    + destruct He as (_ & _ & Hps & _). by rewrite Hps.
    + rewrite He. set_solver.
  - rewrite <- (stands_tenant hash s e He). unfold get_key_tenant.
    rewrite (bool_decide_eq_false_2 _ Hh).
    destruct (_key_tenant_cache s !! hash) as [[v ex]|] eqn:Hc; [|done]. destruct (now <? ex); [|done].
    by apply (wf_coherent s Hwf) in Hc.
  - unfold has_key. rewrite (bool_decide_eq_false_2 _ Hh). destruct e as [[ps t]|]; simpl in He.
    + rewrite bool_decide_eq_true_2 by by eexists. apply has_row_in. destruct He as (Hne & _).
      destruct (of_hash hash (key_policies s)) as [|r l] eqn:Hr; [done|].
      assert (r ∈ of_hash hash (key_policies s)) as [Hin Hk]%of_hash_in by (rewrite Hr; by left).
      apply list_elem_of_fmap. by exists r.
    + rewrite bool_decide_eq_false_2 by (by intros [? ?]). apply has_row_out.
      intros (r & Hk & Hin)%list_elem_of_fmap. assert (r ∈ of_hash hash (key_policies s)) as Hx by (apply of_hash_in; by split).
      rewrite He in Hx. by apply not_elem_of_nil in Hx.
Qed.

(** ** Tools and policies *)

Lemma isort_map {A B} (f : A -> B) (le : B -> B -> bool) l :
  map f (isort (fun x y => le (f x) (f y)) l) = isort le (map f l).
Proof.
  assert (forall x k, map f (sinsert (fun x y => le (f x) (f y)) x k) = sinsert le (f x) (map f k)) as Hi.
  { intros x k. induction k as [|y k IH]; [done|]. simpl. destruct (le (f x) (f y)); [done|]. simpl. by f_equal. }
  induction l as [|x l IH]; [done|]. simpl. by rewrite Hi, IH.
Qed.

Lemma tool_rows_app hash l k : List.filter (fun r => bool_decide (kt_hash r = hash)) (l ++ k)
  = List.filter (fun r => bool_decide (kt_hash r = hash)) l ++ List.filter (fun r => bool_decide (kt_hash r = hash)) k.
Proof. apply List.filter_app. Qed.

Definition granted (hash : string) (now : Z) (names : list string) : list key_tool :=
  map (fun n => MkKeyTool hash n true now) names.

Lemma insert_tools_granted hash names now l :
  NoDup names -> (forall n, n ∈ names -> (hash, n) ∉ kt_key <$> l) ->
  insert_tools hash names now l = Ok (l ++ granted hash now names).
Proof.
  revert l. induction names as [|n names IH]; intros l; [by rewrite app_nil_r|].
  intros [Hn Hnames]%NoDup_cons Hnew. simpl.
  rewrite (proj2 (has_row_out kt_key (hash, n) l)) by (apply Hnew; by left).
  rewrite IH; [by rewrite <- (assoc_L (++))|done|].
  intros m Hm. rewrite fmap_app, elem_of_app. intros [Hin|Hin%list_elem_of_singleton].
  - revert Hin. apply Hnew. by right.
  - unfold kt_key in Hin. simpl in Hin. congruence.
Qed.

Lemma granted_rows hash h now names :
  List.filter (fun r => bool_decide (kt_hash r = h)) (granted hash now names) =
  if bool_decide (hash = h) then granted hash now names else [].
Proof.
  destruct (bool_decide (hash = h)) eqn:Hh; [apply filter_all|apply filter_none];
  intros x (n & <- & _)%list_elem_of_In%in_map_iff; exact Hh.
Qed.

(** The rows of the other keys *)
Definition kept_tools (hash : string) (s : store) : list key_tool :=
  List.filter (fun r => negb (bool_decide (kt_hash r = hash))) (key_tools s).

Lemma kept_rows hash h s :
  List.filter (fun r => bool_decide (kt_hash r = h)) (kept_tools hash s) =
  if bool_decide (hash = h) then [] else tool_rows h s.
Proof.
  unfold kept_tools, tool_rows. rewrite filter_filter. destruct (bool_decide (hash = h)) eqn:Hh; zbool; subst.
  - apply filter_none. intros r _. by destruct (bool_decide (kt_hash r = h)).
  - apply filter_ext. intros r. destruct (bool_decide (kt_hash r = h)) eqn:Hr; [|by rewrite andb_false_r].
    zbool. rewrite bool_decide_eq_false_2; [done|congruence].
Qed.

Lemma set_allowed_rows hash names now s :
  NoDup names ->
  set_allowed_tools hash names now s =
  (with_key_tools (kept_tools hash s ++
     match names with [] => [MkKeyTool hash "" false now] | _ => granted hash now names end) s, Ok tt).
Proof.
  intros Hnd. unfold set_allowed_tools. fold (kept_tools hash s). destruct names as [|n names]; [done|].
  rewrite insert_tools_granted; [done|done|]. intros m _ (r & Hk & Hr)%list_elem_of_fmap.
  apply list_elem_of_In, filter_In in Hr as [_ Hr]. zbool. unfold kt_key in Hk. congruence.
Qed.

Lemma allowed_of_rows hash s s' : tool_rows hash s' = tool_rows hash s ->
  get_allowed_tools hash s' = get_allowed_tools hash s.
Proof. unfold get_allowed_tools. by intros ->. Qed.

Lemma allowed_granted hash now names :
  List.filter kt_allowed (granted hash now names) = granted hash now names.
Proof. apply filter_all. by intros x (n & <- & _)%list_elem_of_In%in_map_iff. Qed.

Lemma insert_tools_distinct hash names now l l' :
  insert_tools hash names now l = Ok l' -> NoDup names /\ forall n, n ∈ names -> (hash, n) ∉ kt_key <$> l.
Proof.
  revert l. induction names as [|n names IH]; intros l; [split; [constructor|set_solver]|]. cbn [insert_tools].
  destruct (has_row kt_key (hash, n) l) eqn:Hn; [done|]. intros [Hnd Hnew]%IH.
  apply has_row_out in Hn. split.
  - constructor; [|done]. intros Hin. apply (Hnew n Hin). rewrite fmap_app. apply elem_of_app. right.
    by apply list_elem_of_singleton.
  - intros m [->|Hm]%elem_of_cons; [done|]. intros Hin. apply (Hnew m Hm). rewrite fmap_app.
    apply elem_of_app. by left.
Qed.

Lemma insert_tools_raises hash names now l e : insert_tools hash names now l = Raise e -> e = IntegrityError.
Proof.
  revert l. induction names as [|n names IH]; intros l; [done|]. cbn [insert_tools].
  destruct (has_row kt_key (hash, n) l); [by intros [= <-]|]. apply IH.
Qed.

(** The allow list of an API key.  [set_allowed_tools] with distinct names makes
    [get_allowed_tools] return exactly those names, in order, and the empty list (not
    [None]) when there are none; the other keys' lists do not change.  A repeated
    name raises and changes nothing.  But removing the only tool of the list leaves
    no row at all, so the key becomes unrestricted instead of restricted to nothing. *)
Theorem allow_list_semantics hash names now s :
  (NoDup names ->
   let s' := (set_allowed_tools hash names now s).1 in
   (set_allowed_tools hash names now s).2 = Ok tt
   /\ get_allowed_tools hash s' = Some (isort String.leb names)
   /\ (forall h, h <> hash -> get_allowed_tools h s' = get_allowed_tools h s)
   /\ (forall n, names = [n] -> get_allowed_tools hash (remove_tool_permission hash n s').1 = None))
  /\ (~ NoDup names -> set_allowed_tools hash names now s = (s, Raise IntegrityError)).
Proof.
  split; [intros Hnd|intros Hdup].
  - rewrite (set_allowed_rows _ _ _ _ Hnd). cbn [fst snd].
    split_and!; [done| | |].
    + unfold get_allowed_tools, tool_rows. cbn [key_tools with_key_tools].
      rewrite tool_rows_app, kept_rows, bool_decide_eq_true_2 by done. simpl app.
      destruct names as [|n names]; [simpl; by rewrite bool_decide_eq_true_2|].
      rewrite granted_rows, bool_decide_eq_true_2, allowed_granted by done.
      change (granted hash now (n :: names)) with (MkKeyTool hash n true now :: granted hash now names).
      cbv beta match. rewrite (isort_map kt_tool_name String.leb). cbn [map kt_tool_name].
      unfold granted. rewrite map_map. cbn [kt_tool_name]. by rewrite map_id.
    + intros h Hne. apply allowed_of_rows. unfold tool_rows. cbn [key_tools with_key_tools].
      rewrite tool_rows_app, kept_rows, bool_decide_eq_false_2 by done.
      destruct names as [|n names]; [|rewrite granted_rows];
        [simpl|]; rewrite bool_decide_eq_false_2 by done; by rewrite app_nil_r.
    + intros n ->. unfold remove_tool_permission, delete_rows. cbn [fst key_tools with_key_tools].
      set (s' := with_key_tools _ _). assert (tool_rows hash s' = []) as Hnil.
      { unfold s', tool_rows. cbn [key_tools with_key_tools]. rewrite filter_filter. apply filter_none.
        intros r [Hr|Hr]%elem_of_app.
        - apply list_elem_of_In, filter_In in Hr as [_ Hr]. zbool.
          apply andb_false_iff. right. by apply bool_decide_eq_false_2.
        - apply list_elem_of_singleton in Hr as ->. simpl. by rewrite bool_decide_eq_true_2. }
      unfold get_allowed_tools. by rewrite Hnil.
  - unfold set_allowed_tools. destruct names as [|n names]; [destruct Hdup; constructor|].
    destruct (insert_tools hash (n :: names) now _) as [l|e] eqn:Hi.
    + by apply insert_tools_distinct in Hi as [].
    + by apply insert_tools_raises in Hi as ->.
Qed.

(** ** Reading one row back *)

Section read_back.
Context {R K : Type} `{EqDecision K} (key : R -> K).

Lemma find_row_none k l : find_row key k l = None <-> has_row key k l = false.
Proof.
  unfold find_row, has_row. induction l as [|r l IH]; [done|]. simpl.
  destruct (bool_decide (key r = k)); simpl; [by split|exact IH].
Qed.

Lemma find_row_has k l r : find_row key k l = Some r -> has_row key k l = true.
Proof. intros H. destruct (has_row key k l) eqn:Hh; [done|]. apply find_row_none in Hh. congruence. Qed.

Lemma find_row_update k f l :
  (forall r, key r = k -> key (f r) = k) -> find_row key k (update_rows key k f l) = f <$> find_row key k l.
Proof.
  intros Hf. unfold find_row. induction l as [|r l IH]; [done|]. simpl.
  destruct (decide (key r = k)) as [He|He].
  - by rewrite !bool_decide_eq_true_2 by auto.
  - by rewrite !bool_decide_eq_false_2.
Qed.

Lemma find_row_update_ne k k' f l :
  k' <> k -> (forall r, key r = k -> key (f r) = k) ->
  find_row key k' (update_rows key k f l) = find_row key k' l.
Proof.
  intros Hne Hf. unfold find_row. induction l as [|r l IH]; [done|]. simpl.
  destruct (decide (key r = k)) as [He|He].
  - rewrite !bool_decide_eq_false_2; [done| |]; [congruence|]. rewrite (Hf _ He). congruence.
  - by destruct (bool_decide (key r = k')).
Qed.

Lemma find_row_app k l l' :
  find_row key k (l ++ l') = match find_row key k l with Some r => Some r | None => find_row key k l' end.
Proof.
  unfold find_row. induction l as [|r l IH]; [done|]. simpl. by destruct (bool_decide (key r = k)).
Qed.

Lemma find_row_upsert merge r l :
  (forall x, key x = key r -> key (merge r x) = key r) ->
  find_row key (key r) (upsert key merge r l)
  = Some (match find_row key (key r) l with Some x => merge r x | None => r end).
Proof.
  intros Hm. unfold upsert. destruct (find_row key (key r) l) as [x|] eqn:Hx.
  - by rewrite (find_row_has _ _ _ Hx), find_row_update, Hx.
  - rewrite (proj1 (find_row_none _ _) Hx), find_row_app, Hx. unfold find_row. simpl.
    by rewrite bool_decide_eq_true_2.
Qed.

Lemma unique_eq l r r' : unique key l -> r ∈ l -> r' ∈ l -> key r = key r' -> r = r'.
Proof.
  intros Hu Hr Hr' Hk. apply (find_row_unique key r l Hu) in Hr. apply (find_row_unique key r' l Hu) in Hr'.
  rewrite Hk in Hr. congruence.
Qed.

Lemma elem_of_update_ne k f l r :
  (forall r, key r = k -> key (f r) = k) -> key r <> k -> r ∈ update_rows key k f l <-> r ∈ l.
Proof.
  intros Hf Hr. induction l as [|x l IH]; [done|]. simpl. rewrite !elem_of_cons, IH.
  destruct (decide (key x = k)) as [He|]; [|done].
  split; intros [->|?]; auto; try by destruct Hr. destruct Hr. by apply Hf.
Qed.

Lemma delete_rows_none k l : has_row key k l = false -> (delete_rows key k l).1 = l.
Proof.
  intros Hh. apply filter_all. intros r Hr. apply negb_true_iff, bool_decide_eq_false_2. intros Hk.
  apply has_row_out in Hh. apply Hh, list_elem_of_fmap. by exists r.
Qed.

Lemma delete_rows_snoc l r : has_row key (key r) l = false -> (delete_rows key (key r) (l ++ [r])).1 = l.
Proof.
  intros Hh. unfold delete_rows. cbn [fst]. rewrite List.filter_app. simpl.
  rewrite bool_decide_eq_true_2 by done. simpl. rewrite app_nil_r. by apply (delete_rows_none (key r) l).
Qed.
End read_back.

Lemma upsert_attestation_raises d fresh now s e :
  (upsert_attestation d fresh now s).2 = Raise e -> (upsert_attestation d fresh now s).1 = s.
Proof.
  unfold upsert_attestation. set (id := or_new _ _). set (r := attestation_row d id now).
  destruct (_ && has_row _ _ _) eqn:Hh.
  - destruct (existsb _ _); [done|]. cbn [fst snd]. apply andb_true_iff in Hh as [_ Hh].
    rewrite find_row_update by done. destruct (find_row attestation_id id (attestations s)) as [x|] eqn:Hx; [done|].
    apply find_row_none in Hx. congruence.
  - cbn [fst snd]. by rewrite find_row_upsert.
Qed.

(** The check of the natural key looks for the one row that has it. *)
Lemma conflict_row r id l :
  unique natural_key l ->
  existsb (fun x => bool_decide (natural_key x = natural_key r) && negb (bool_decide (attestation_id x = id))) l
  = match find_row natural_key (natural_key r) l with
    | Some y => negb (bool_decide (attestation_id y = id))
    | None => false
    end.
Proof.
  intros Hu. destruct (find_row natural_key (natural_key r) l) as [y|] eqn:Hy.
  - apply find_row_some in Hy as [Hin Hk].
    destruct (negb (bool_decide (attestation_id y = id))) eqn:Hid.
    + apply existsb_exists. exists y. split; [by apply list_elem_of_In|]. by rewrite bool_decide_eq_true_2.
    + apply not_true_iff_false. intros (x & Hx & [Hkx Hidx]%andb_true_iff)%existsb_exists.
      apply list_elem_of_In in Hx. zbool. assert (x = y) as -> by (by apply (unique_eq natural_key l); [..|congruence]). congruence.
  - apply find_row_none, has_row_out in Hy. apply not_true_iff_false.
    intros (x & Hx & [Hb _]%andb_true_iff)%existsb_exists. apply list_elem_of_In in Hx.
    zbool. apply Hy, list_elem_of_fmap. by exists x.
Qed.

Lemma upsert_attestation_spec d fresh now s :
  wf s -> fresh_id (UpsertAttestation d fresh now) s ->
  let id := or_new (d_attestation_id d) fresh in
  let r := attestation_row d id now in
  let s' := (upsert_attestation d fresh now s).1 in
  let out := (upsert_attestation d fresh now s).2 in
  match find_row attestation_id id (attestations s), find_row natural_key (natural_key r) (attestations s) with
  | Some x, Some y =>
      if bool_decide (attestation_id y = id) then out = Ok (overwritten r x) else out = Raise IntegrityError /\ s' = s
  | Some x, None => out = Ok (overwritten r x)
  | None, Some y => out = Ok (merged r y)
  | None, None => out = Ok r
  end
  /\ (forall z, attestation_id z <> id -> natural_key z <> natural_key r ->
      z ∈ attestations s' <-> z ∈ attestations s).
Proof.
  intros Hwf Hf. cbv zeta. set (id := or_new _ _). set (r := attestation_row d id now).
  unfold upsert_attestation. fold id. fold r.
  unfold fresh_id in Hf. fold id in Hf.
  rewrite (conflict_row r id) by apply Hwf.
  destruct (find_row attestation_id id (attestations s)) as [x|] eqn:Hx.
  - rewrite (find_row_has _ _ _ _ Hx). specialize (Hf (find_row_has _ _ _ _ Hx)).
    assert (match d_attestation_id d with None | Some EmptyString => false | Some _ => true end = true) as ->
      by (by destruct (d_attestation_id d) as [[|]|]). cbn [andb].
    assert (forall z, attestation_id z <> id ->
      z ∈ update_rows attestation_id id (overwritten r) (attestations s) <-> z ∈ attestations s) as Hother.
    { intros z Hz. by apply elem_of_update_ne. }
    destruct (find_row natural_key (natural_key r) (attestations s)) as [y|] eqn:Hy.
    + destruct (bool_decide (attestation_id y = id)); cbn [negb fst snd]; [|done].
      rewrite find_row_update by done. rewrite Hx. split; [done|]. intros z Hz _. by apply Hother.
    + cbn [fst snd]. rewrite find_row_update by done. rewrite Hx. split; [done|]. intros z Hz _. by apply Hother.
  - rewrite (proj1 (find_row_none attestation_id id (attestations s)) Hx), andb_false_r. cbn [fst snd].
    destruct (find_row natural_key (natural_key r) (attestations s)) as [y|] eqn:Hy.
    + unfold upsert. rewrite (find_row_has _ _ _ _ Hy), find_row_update by done. rewrite Hy.
      split; [done|]. intros z _ Hz. by apply elem_of_update_ne.
    + unfold upsert. rewrite (proj1 (find_row_none _ _ _) Hy), find_row_app, Hy. simpl.
      rewrite bool_decide_eq_true_2 by done. split; [done|]. intros z Hz _.
      rewrite elem_of_app, list_elem_of_singleton. split; [|by left]. intros [?| ->]; done.
Qed.

(** Writing an attestation.  When the caller's identifier is that of a row, that
    row is rewritten (its hash and creation time stay), unless another row already has
    the tenant, provider and model: the write then raises an integrity error although
    it is documented as idempotent, and nothing changes.  Otherwise the row with that
    tenant, provider and model is refreshed under its old identifier (an empty hash
    does not erase the recorded one), or a new row is inserted.  No other row changes. *)
Theorem attestation_upsert d fresh now s :
  wf s -> fresh_id (UpsertAttestation d fresh now) s ->
  let id := or_new (d_attestation_id d) fresh in
  let r := attestation_row d id now in
  let s' := (upsert_attestation d fresh now s).1 in
  let out := (upsert_attestation d fresh now s).2 in
  match find_row attestation_id id (attestations s), find_row natural_key (natural_key r) (attestations s) with
  | Some x, Some y =>
      if bool_decide (attestation_id y = id) then out = Ok (overwritten r x) else out = Raise IntegrityError /\ s' = s
  | Some x, None => out = Ok (overwritten r x)
  | None, Some y => out = Ok (merged r y)
  | None, None => out = Ok r
  end
  /\ (forall z, attestation_id z <> id -> natural_key z <> natural_key r ->
      z ∈ attestations s' <-> z ∈ attestations s).
Proof. apply upsert_attestation_spec. Qed.

(** The rules a column of the row holds after a write *)
Definition stored_rules (o : option pyval) : pyval := default (PList []) o.

Definition patched_rules (old : pyval) (o : option pyval) : pyval := default old o.

Lemma decode_parts `{JsonText} p x y z :
  of_text (rules_json p) = Ok x -> of_text (prompt_rules_json p) = Ok y -> of_text (rag_rules_json p) = Ok z ->
  decode p = Ok (MkDecoded p x y z).
Proof. unfold decode. intros Hx Hy Hz. by rewrite Hx, Hy, Hz. Qed.

Lemma patched_text `{JsonText} old v o :
  of_text old = Ok v -> round_trips (patched_rules v o) ->
  of_text (match o with Some w => to_text w | None => old end) = Ok (patched_rules v o).
Proof. intros Ho Hv. by destruct o. Qed.

(** Policies written are the policies read.  A policy created under a new
    identifier is read back with the rules it was given, an update replaces exactly
    the columns it names (and says whether there was a row), deleting it gives back
    the table before; the other policies read the same after each of them.  An
    identifier already taken raises and changes nothing. *)
Theorem policy_round_trip `{JsonText} d u fresh now later s :
  round_trips (stored_rules (d_rules d)) -> round_trips (stored_rules (d_prompt_rules d)) ->
  round_trips (stored_rules (d_rag_rules d)) ->
  round_trips (patched_rules (stored_rules (d_rules d)) (d_rules u)) ->
  round_trips (patched_rules (stored_rules (d_prompt_rules d)) (d_prompt_rules u)) ->
  round_trips (patched_rules (stored_rules (d_rag_rules d)) (d_rag_rules u)) ->
  let id := or_new (d_policy_id d) fresh in
  if has_row policy_id id (policies s) then create_policy d fresh now s = (s, Raise IntegrityError)
  else
    let s1 := (create_policy d fresh now s).1 in
    let s2 := (update_policy id u later s1).1 in
    (create_policy d fresh now s).2 = Ok id
    /\ get_policy id s1 = Ok (Some (MkDecoded (policy_row d id now) (stored_rules (d_rules d))
                                     (stored_rules (d_prompt_rules d)) (stored_rules (d_rag_rules d))))
    /\ (update_policy id u later s1).2 = negb (sets_nothing u)
    /\ (if sets_nothing u then s2 = s1
        else get_policy id s2 = Ok (Some (MkDecoded (patched u later (policy_row d id now))
          (patched_rules (stored_rules (d_rules d)) (d_rules u))
          (patched_rules (stored_rules (d_prompt_rules d)) (d_prompt_rules u))
          (patched_rules (stored_rules (d_rag_rules d)) (d_rag_rules u)))))
    /\ policies (delete_policy id s2).1 = policies s /\ (delete_policy id s2).2 = true
    /\ (forall i, i <> id -> get_policy i s1 = get_policy i s /\ get_policy i s2 = get_policy i s).
Proof.
  intros Hr Hp Hg Hr' Hp' Hg'. cbv zeta. set (id := or_new _ _).
  destruct (has_row policy_id id (policies s)) eqn:Hh; unfold create_policy; fold id; rewrite Hh; [done|].
  cbn [fst snd]. set (p := policy_row d id now). set (s1 := with_policies _ s).
  assert (find_row policy_id id (policies s1) = Some p) as Hfind.
  { unfold s1. cbn [policies with_policies]. rewrite find_row_app, (proj2 (find_row_none _ _ _) Hh). simpl.
    by rewrite bool_decide_eq_true_2. }
  assert (forall i, i <> id -> find_row policy_id i (policies s1) = find_row policy_id i (policies s)) as Hother.
  { intros i Hi. unfold s1. cbn [policies with_policies]. rewrite find_row_app.
    destruct (find_row policy_id i (policies s)); [done|]. simpl. rewrite bool_decide_eq_false_2; [done|].
    intros Heq. by apply Hi. }
  unfold update_policy. destruct (sets_nothing u); cbn [fst snd negb].
  - split_and!; try done.
    + unfold get_policy. rewrite Hfind. by rewrite (decode_parts p _ _ _ Hr Hp Hg).
    + unfold delete_policy. cbn [fst]. by apply (delete_rows_snoc policy_id (policies s) p).
    + by apply (find_row_has _ _ _ p).
    + intros i Hi. unfold get_policy. by rewrite (Hother i Hi).
  - assert (find_row policy_id id (update_rows policy_id id (patched u later) (policies s1))
            = Some (patched u later p)) as Hfind' by (rewrite find_row_update; [by rewrite Hfind|done]).
    split_and!; try done.
    + unfold get_policy. rewrite Hfind. by rewrite (decode_parts p _ _ _ Hr Hp Hg).
    + by apply (find_row_has _ _ _ p).
    + unfold get_policy. cbn [policies with_policies]. rewrite Hfind'.
      rewrite (decode_parts (patched u later p) _ _ _ (patched_text _ _ _ Hr Hr') (patched_text _ _ _ Hp Hp')
        (patched_text _ _ _ Hg Hg')). done.
    + unfold delete_policy, update_rows. cbn [fst policies with_policies]. unfold s1. cbn [policies with_policies].
      rewrite map_app. rewrite (map_ext_in _ (fun r => r)), map_id.
      * simpl. rewrite decide_True by done. by apply (delete_rows_snoc policy_id (policies s) (patched u later p)).
      * intros r Hin. rewrite decide_False; [done|]. intros Hk. apply has_row_out in Hh.
        apply Hh, list_elem_of_fmap. exists r. split; [done|]. by apply list_elem_of_In.
    + by apply (find_row_has _ _ _ (patched u later p)).
    + intros i Hi. unfold get_policy. rewrite (Hother i Hi). split; [done|]. cbn [policies with_policies].
      by rewrite find_row_update_ne, (Hother i Hi).
Qed.

(** ** Runs of the store *)

Module StoreRuns.

Definition rule : pyval := PList [PStr "model == gpt-4"].

#[local] Instance json : JsonText := {
  to_text v := match v with PList [] => "[]" | _ => "[rule]" end;
  of_text t := if bool_decide (t = "[]") then Ok (PList [])
               else if bool_decide (t = "[rule]") then Ok rule else Raise IntegrityError;
}.

Definition model_data (id : option string) (model : string) : attestation_data :=
  MkAttData id (Some "acme") (Some model) (Some "openai") None None None None.

Definition ops : list op :=
  [UpsertAttestation (model_data (Some "self-attested:gpt-4") "gpt-4") "u1" 1;
   UpsertAttestation (model_data None "gpt-4o") "u2" 2;
   SetKeyPolicies "k1" ["p1"; "p2"] 3; SetKeyTenant "k1" (Some " acme "); GetKeyTenant "k1" 4 5;
   SetKeyPolicies "k1" ["p3"] 6; SetKeyPolicies "k2" ["p1"] 7].

Lemma store_well_formed_witness : wf (run_ops ops empty_store).
Proof. apply (store_well_formed ops). cbn. split_and!; try done. Defined.

(** The tenant survives a change of policies, but not the key's last policy. *)
Lemma keys_witness :
  get_key_policies "k1" (run_ops ops empty_store) = ["p3"]
  /\ (get_key_tenant "k1" 8 9 (run_ops ops empty_store)).2 = Some "acme"
  /\ (get_key_tenant "k1" 8 9 (run_ops (ops ++ [SetKeyPolicies "k1" [] 7; SetKeyPolicies "k1" ["p1"] 8]) empty_store)).2
     = None.
Proof.
  split; [reflexivity|split].
  - destruct (keys_refine_specification ops "k1" 8 9) as (_ & _ & H & _); [cbn; split_and!; try done|done|].
    rewrite H. vm_compute. reflexivity.
  - destruct (keys_refine_specification (ops ++ [SetKeyPolicies "k1" [] 7; SetKeyPolicies "k1" ["p1"] 8]) "k1" 8 9)
      as (_ & _ & H & _); [cbn; split_and!; try done|done|].
    rewrite H. vm_compute. reflexivity.
Defined.

Lemma allow_list_witness :
  get_allowed_tools "k1" (set_allowed_tools "k1" ["web_search"; "calc"] 1 empty_store).1 = Some ["calc"; "web_search"]
  /\ get_allowed_tools "k1" (remove_tool_permission "k1" "calc"
       (set_allowed_tools "k1" ["calc"] 1 empty_store).1).1 = None.
Proof.
  split.
  - apply (proj1 (allow_list_semantics "k1" ["web_search"; "calc"] 1 empty_store)).
    apply (bool_decide_unpack _). vm_compute. exact I.
  - apply (proj1 (allow_list_semantics "k1" ["calc"] 1 empty_store)); [|reflexivity].
    apply (bool_decide_unpack _). vm_compute. exact I.
Defined.

(** Re-registering [gpt-4o] under the identifier of [gpt-4] *)
Lemma attestation_witness :
  (upsert_attestation (model_data (Some "self-attested:gpt-4") "gpt-4o") "u3" 9 (run_ops ops empty_store)).2
  = Raise IntegrityError.
Proof.
  pose proof (attestation_upsert (model_data (Some "self-attested:gpt-4") "gpt-4o") "u3" 9 (run_ops ops empty_store)) as H.
  refine (_ (H _ _)).
  - intros [Hm _]. vm_compute in Hm. apply Hm.
  - apply wf_run; [cbn; split_and!; try done|apply wf_empty].
  - done.
Defined.

Definition created : policy_data :=
  MkPolData (Some "p1") (Some "models") None None (Some rule) None None None None.
Definition renamed : policy_data :=
  MkPolData None (Some "allowed models") None None None None None None None.

Lemma policy_witness :
  get_policy "p1" (update_policy "p1" renamed 2 (create_policy created "u" 1 empty_store).1).1
  = Ok (Some (MkDecoded (patched renamed 2 (policy_row created "p1" 1)) rule (PList []) (PList []))).
Proof.
  pose proof (policy_round_trip created renamed "u" 1 2 empty_store eq_refl eq_refl eq_refl eq_refl eq_refl eq_refl) as H.
  simpl in H. destruct H as (_ & _ & _ & H & _). exact H.
Defined.

End StoreRuns.
