(* ===== verification/ControlApi.v ===== *)
(** * The control plane's HTTP API (control/api.py, control/models.py)

    The handlers that change the store, each with the refresh of the caches the
    request pipeline reads: attestations, policies, budgets, content policies.  A
    handler takes the parsed body ([None] when it is not JSON or does not validate)
    and returns the context and the response.  The budget tracker is the in-memory
    one.  Listing handlers, the status page, model discovery and the files of the
    policy templates are not modelled. *)
From S2P Require Import Prelude ODict PyVal PolicyEngine Attestation Budget ControlStore.

Local Open Scope Z_scope.

(** A content analyzer, with the lists its [configure] has taken, oldest first.  Its
    state is what they left one after the other: most replace what they had, the DLP
    classifier adds to it (Analyzers has both). *)
Record analyzer := MkAnalyzer {
  an_id : option string;
  configurable : bool;
  configured : list (list content_policy);
}.

(** The parts of the pipeline context the control plane touches *)
Record context := MkContext {
  control_store : option store;
  sync_client : bool;
  attestation_cache : option Attestation.cache;
  policy_cache : option Cache.cache;
  budget_tracker : option Budget.Memory.tracker;
  content_analyzers : list analyzer;
  analysis_cache : gmap string (list dict);  (** [analyze_text]'s cache of decisions *)
}.

Definition with_store (s : store) (x : context) : context :=
  MkContext (Some s) (sync_client x) (attestation_cache x) (policy_cache x) (budget_tracker x) (content_analyzers x)
    (analysis_cache x).
Definition with_att (c : Attestation.cache) (x : context) : context :=
  MkContext (control_store x) (sync_client x) (Some c) (policy_cache x) (budget_tracker x) (content_analyzers x)
    (analysis_cache x).
Definition with_policy (c : Cache.cache) (x : context) : context :=
  MkContext (control_store x) (sync_client x) (attestation_cache x) (Some c) (budget_tracker x) (content_analyzers x)
    (analysis_cache x).
Definition with_budget (t : Budget.Memory.tracker) (x : context) : context :=
  MkContext (control_store x) (sync_client x) (attestation_cache x) (policy_cache x) (Some t) (content_analyzers x)
    (analysis_cache x).
Definition with_analyzers (l : list analyzer) (x : context) : context :=
  MkContext (control_store x) (sync_client x) (attestation_cache x) (policy_cache x) (budget_tracker x) l
    (analysis_cache x).

Definition clear_analysis_cache (x : context) : context :=
  MkContext (control_store x) (sync_client x) (attestation_cache x) (policy_cache x) (budget_tracker x)
    (content_analyzers x) ∅.

(** The clock readings of one call: for the store, for each attestation set, for the
    policy cache, for the budgets *)
Record clock := MkClock {
  c_store : Z;
  c_att : nat -> Z;
  c_policy : Z;
  c_budget : datetime;
}.

(** ** The formats of the store's rows *)

(** [get_attestation_proofs]: provider and proof *)
Definition proof_of (r : attestation) : string * Attestation.proof :=
  (provider r,
   MkProof (Some (model_id r)) (Some (status r)) (Some (attestation_id r)) (Some (a_tenant_id r))
     (Some (verification_level r)) None (Some (model_hash r))).

Definition get_attestation_proofs (tenant : string) (s : store) : list (string * Attestation.proof) :=
  map proof_of (list_attestations tenant s).

Section api.
(** [isoformat] of a clock reading *)
Context `{JsonText} (iso : Z -> string).
(** [settings.gateway_tenant_id] *)
Variable gateway_tenant_id : string.

Definition attestation_dict (r : attestation) : dict :=
  [("attestation_id", PStr (attestation_id r)); ("model_id", PStr (model_id r)); ("provider", PStr (provider r));
   ("status", PStr (status r)); ("verification_level", PStr (verification_level r));
   ("tenant_id", PStr (a_tenant_id r)); ("notes", PStr (notes r)); ("model_hash", PStr (model_hash r));
   ("created_at", PStr (iso (a_created_at r))); ("updated_at", PStr (iso (a_updated_at r)))].

Definition policy_dict (d : decoded_policy) : dict :=
  [("policy_id", PStr (policy_id (row d))); ("policy_name", PStr (policy_name (row d)));
   ("status", PStr (p_status (row d))); ("enforcement_level", PStr (enforcement_level (row d)));
   ("tenant_id", PStr (p_tenant_id (row d))); ("description", PStr (description (row d)));
   ("created_at", PStr (iso (p_created_at (row d)))); ("updated_at", PStr (iso (p_updated_at (row d))));
   ("rules", rules d); ("prompt_rules", prompt_rules d); ("rag_rules", rag_rules d)].

Definition budget_dict (b : budget) : dict :=
  [("budget_id", PStr (budget_id b)); ("tenant_id", PStr (b_tenant_id b)); ("user", PStr (b_user b));
   ("period", PStr (period b)); ("max_tokens", PInt (max_tokens b));
   ("created_at", PStr (iso (b_created_at b))); ("updated_at", PStr (iso (b_updated_at b)))].

Definition content_dict (c : content_policy) : dict :=
  [("id", PStr (cp_id c)); ("tenant_id", PStr (cp_tenant_id c)); ("analyzer_id", PStr (analyzer_id c));
   ("category", PStr (category c)); ("action", PStr (action c)); ("threshold", threshold c);
   ("created_at", PStr (iso (cp_created_at c))); ("updated_at", PStr (iso (cp_updated_at c)))].

Definition pricing_dict (p : pricing) : dict :=
  [("pricing_id", PStr (pricing_id p)); ("model_pattern", PStr (model_pattern p));
   ("input_cost_per_1k", input_cost_per_1k p); ("output_cost_per_1k", output_cost_per_1k p);
   ("currency", PStr (currency p)); ("created_at", PStr (iso (pr_created_at p)));
   ("updated_at", PStr (iso (pr_updated_at p)))].

(** ** Refreshing the caches *)

(** The loop over the proofs *)
Fixpoint set_proofs (c : Attestation.cache) (l : list (string * Attestation.proof)) (now : nat -> Z)
    : Attestation.cache :=
  match l with
  | [] => c
  | (prov, p) :: l => set_proofs (set_from_proof c prov p (now 0%nat)) l (fun i => now (S i))
  end.

Definition auto_attested (e : CachedAttestation) : bool :=
  bool_decide (Attestation.verification_level e ∈ ["self_attested"; "auto_attested"]).

(** Entries of the database first, then the snapshot of auto-attested ones *)
Definition _refresh_attestation_cache (k : clock) (x : context) : context :=
  match control_store x, attestation_cache x with
  | Some s, Some c =>
      let preserved := filter (fun ke => auto_attested ke.2 = true) (_cache c) in
      let c := set_proofs (clear c) (get_attestation_proofs gateway_tenant_id s) (c_att k) in
      with_att (Attestation.MkCache (_ttl c) (_cache c ∪ preserved)) x
  | _, _ => x
  end.

Definition _refresh_policy_cache (k : clock) (x : context) : context * res unit :=
  match control_store x, policy_cache x with
  | Some s, Some c =>
      match get_active_policies gateway_tenant_id s with
      | Raise e => (x, Raise e)
      | Ok ps =>
          let '(c, v) := Cache.next_version c in
          (with_policy (Cache.set_policies c v (map policy_dict ps) (c_policy k)) x, Ok tt)
      end
  | _, _ => (x, Ok tt)
  end.

(** [user or None] *)
Definition or_none (u : string) : option string := if bool_decide (u = "") then None else Some u.

Definition configure_budget (now : datetime) (t : Budget.Memory.tracker) (b : budget) : Budget.Memory.tracker :=
  Memory.configure t (b_tenant_id b) (or_none (b_user b)) (period b) (max_tokens b) now.

Definition configure_budgets (l : list budget) (now : datetime) (t : Budget.Memory.tracker) : Budget.Memory.tracker :=
  foldl (configure_budget now) t l.

Definition tracker_key (b : budget) : Budget.key := (b_tenant_id b, b_user b).

Definition remove_key (t : Budget.Memory.tracker) (k : Budget.key) : Budget.Memory.tracker :=
  Memory.remove t k.1 (or_none k.2).

(** All tenants' budgets, then the keys that have no row any more are removed. *)
Definition refresh_tracker (l : list budget) (now : datetime) (t : Budget.Memory.tracker) : Budget.Memory.tracker :=
  let t := configure_budgets l now t in
  let db_keys : gset Budget.key := list_to_set (map tracker_key l) in
  foldl remove_key t (elements (dom (Memory._states t) ∖ db_keys)).

Definition _refresh_budget_tracker (k : clock) (x : context) : context :=
  match control_store x, budget_tracker x with
  | Some s, Some t => with_budget (refresh_tracker (list_budgets "" s) (c_budget k) t) x
  | _, _ => x
  end.

(** [configure] of every analyzer in content/ returns at once on an empty list. *)
Definition configure (l : list content_policy) (a : analyzer) : analyzer :=
  match l with
  | [] => a
  | _ => MkAnalyzer (an_id a) (configurable a) (configured a ++ [l])
  end.

(** An analyzer's own policies, of whatever tenant *)
Definition relevant (i : string) (l : list content_policy) : list content_policy :=
  List.filter (fun p => bool_decide (analyzer_id p = i)) l.

Definition reconfigure (l : list content_policy) (a : analyzer) : analyzer :=
  match an_id a with
  | None | Some EmptyString => a
  | Some i =>
      if configurable a then configure (relevant i l) a else a
  end.

Definition _refresh_content_policies (x : context) : context :=
  match control_store x with
  | Some s =>
      clear_analysis_cache
        (with_analyzers (map (reconfigure (list_content_policies None s)) (content_analyzers x)) x)
  | None => x
  end.

(** ** The handlers *)

Definition reply (code : Z) (b : dict) : PreInference.response := PreInference.MkResponse code b.

Definition fault (code : Z) (e : string) : PreInference.response := reply code [("error", PStr e)].

(** [_store_or_503] *)
Definition or_503 (k : store -> context * PreInference.response) (x : context) : context * PreInference.response :=
  match control_store x with
  | None => (x, fault 503 "Control plane not available")
  | Some s => k s
  end.

(** [if "tenant_id" not in raw or not raw["tenant_id"]] *)
Definition or_gateway (tenant : option string) : string := or_new tenant gateway_tenant_id.

(** [AttestationUpsert], the fields the body gives *)
Record attestation_body := MkAttBody {
  ab_model_id : option string;
  ab_attestation_id : option string;
  ab_status : option string;
  ab_verification_level : option string;
  ab_tenant_id : option string;
  ab_provider : option string;
  ab_notes : option string;
  ab_model_hash : option string;
}.

(** [model_validate] and [model_dump]: the declared fields get their defaults. *)
Definition AttestationUpsert (b : attestation_body) : option attestation_data :=
  match ab_model_id b with
  | None => None
  | Some m =>
      let st := default "active" (ab_status b) in
      if bool_decide (st ∈ ["active"; "revoked"; "pending"])
      then Some (MkAttData (ab_attestation_id b) (Some (or_gateway (ab_tenant_id b))) (Some m)
                   (Some (default "" (ab_provider b))) (Some st)
                   (Some (default "self_attested" (ab_verification_level b))) (ab_notes b) (ab_model_hash b))
      else None
  end.

Definition control_upsert_attestation (b : option attestation_body) (fresh : string) (k : clock) (x : context)
    : context * PreInference.response :=
  or_503 (fun s =>
    match b ≫= AttestationUpsert with
    | None => (x, fault 400 "Invalid attestation data")
    | Some d =>
        match upsert_attestation d fresh (c_store k) s with
        | (s, Ok r) => (_refresh_attestation_cache k (with_store s x), reply 200 (attestation_dict r))
        | (s, Raise _) => (with_store s x, fault 400 "Invalid attestation data")
        end
    end) x.

(** The row as the dict given back to [upsert_attestation] *)
Definition data_of (r : attestation) (st : string) : attestation_data :=
  MkAttData (Some (attestation_id r)) (Some (a_tenant_id r)) (Some (model_id r)) (Some (provider r)) (Some st)
    (Some (verification_level r)) (Some (notes r)) (Some (model_hash r)).

Definition control_revoke_attestation (id fresh : string) (k : clock) (x : context) : context * PreInference.response :=
  or_503 (fun s =>
    match List.find (fun r => bool_decide (attestation_id r = id)) (list_attestations "" s) with
    | None => (x, fault 404 "Attestation not found")
    | Some r =>
        match upsert_attestation (data_of r "revoked") fresh (c_store k) s with
        | (s, Ok r) => (_refresh_attestation_cache k (with_store s x), reply 200 (attestation_dict r))
        | (s, Raise _) => (with_store s x, fault 500 "Internal server error")
        end
    end) x.

Definition control_delete_attestation (id : string) (k : clock) (x : context) : context * PreInference.response :=
  or_503 (fun s =>
    let '(s, deleted) := delete_attestation id s in
    let x := with_store s x in
    (if deleted then _refresh_attestation_cache k x else x, reply 200 [("deleted", PBool deleted)])) x.

(** [PolicyCreate] and [PolicyUpdate]: the store's dict, from the fields the body
    gives; the declared fields of a creation get their defaults. *)
Definition PolicyCreate (d : policy_data) : option policy_data :=
  match d_policy_name d with
  | None => None
  | Some n =>
      Some (MkPolData (d_policy_id d) (Some n) (d_pstatus d) (Some (default "blocking" (d_enforcement_level d)))
              (Some (default (PList []) (d_rules d))) (d_prompt_rules d) (d_rag_rules d)
              (Some (or_gateway (d_ptenant_id d))) (d_description d))
  end.

(** The refresh is part of the guarded block: its error is the handler's. *)
Definition refreshed (k : clock) (x : context) (ok bad : PreInference.response) : context * PreInference.response :=
  match _refresh_policy_cache k x with
  | (x, Ok _) => (x, ok)
  | (x, Raise _) => (x, bad)
  end.

Definition control_create_policy (b : option policy_data) (fresh : string) (k : clock) (x : context)
    : context * PreInference.response :=
  or_503 (fun s =>
    match b ≫= PolicyCreate with
    | None => (x, fault 400 "Invalid policy data")
    | Some d =>
        match create_policy d fresh (c_store k) s with
        | (s, Ok id) => refreshed k (with_store s x) (reply 201 [("policy_id", PStr id)]) (fault 400 "Invalid policy data")
        | (s, Raise _) => (with_store s x, fault 400 "Invalid policy data")
        end
    end) x.

Definition control_update_policy (id : string) (b : option policy_data) (k : clock) (x : context)
    : context * PreInference.response :=
  or_503 (fun s =>
    match b with
    | None => (x, fault 400 "Invalid policy data")
    | Some d =>
        let '(s, updated) := update_policy id d (c_store k) s in
        let ok := reply 200 [("updated", PBool updated)] in
        if updated then refreshed k (with_store s x) ok (fault 400 "Invalid policy data") else (with_store s x, ok)
    end) x.

Definition control_delete_policy (id : string) (k : clock) (x : context) : context * PreInference.response :=
  or_503 (fun s =>
    let '(s, deleted) := delete_policy id s in
    let ok := reply 200 [("deleted", PBool deleted)] in
    if deleted then refreshed k (with_store s x) ok (fault 500 "Internal server error") else (with_store s x, ok)) x.

(** [BudgetUpsert]; [bb_user] is the older field. *)
Record budget_body := MkBudgetBody {
  bb_tenant_id : option string;
  bb_user_id : option string;
  bb_user : option string;
  bb_period : option string;
  bb_max_tokens : option Z;
}.

Definition budget_user (b : budget_body) : string :=
  match bb_user b with
  | Some u => if bool_decide (strip u = "") then strip (default "" (bb_user_id b)) else strip u
  | None => strip (default "" (bb_user_id b))
  end.

Definition BudgetUpsert (b : budget_body) : option (string * string * string * Z) :=
  let p := default "monthly" (bb_period b) in
  let mx := default 0 (bb_max_tokens b) in
  if bool_decide (p ∈ ["daily"; "weekly"; "monthly"; "total"]) && (0 <=? mx)
  then Some (or_gateway (bb_tenant_id b), budget_user b, p, mx)
  else None.

Definition control_upsert_budget (b : option budget_body) (fresh : string) (k : clock) (x : context)
    : context * PreInference.response :=
  or_503 (fun s =>
    match b ≫= BudgetUpsert with
    | None => (x, fault 400 "Invalid budget data")
    | Some (tenant, user, p, mx) =>
        let s := upsert_budget tenant user p mx fresh (c_store k) s in
        (_refresh_budget_tracker k (with_store s x),
         reply 200 (from_option budget_dict [] (find_row budget_key (tenant, user, p) (budgets s))))
    end) x.

Definition control_delete_budget (id : string) (k : clock) (x : context) : context * PreInference.response :=
  or_503 (fun s =>
    let '(s, deleted) := delete_budget id s in
    let x := with_store s x in
    (if deleted then _refresh_budget_tracker k x else x, reply 200 [("deleted", PBool deleted)])) x.

(** The threshold is what [float()] makes of the body's. *)
Record content_body := MkContentBody {
  cb_tenant_id : string;
  cb_analyzer_id : string;
  cb_category : string;
  cb_action : string;
  cb_threshold : pyval;
}.

Definition control_upsert_content_policy (b : option content_body) (fresh : string) (k : clock) (x : context)
    : context * PreInference.response :=
  or_503 (fun s =>
    match b with
    | None => (x, fault 400 "Invalid JSON")
    | Some b =>
        if bool_decide (cb_analyzer_id b = "") || bool_decide (cb_category b = "") then
          (x, fault 400 "analyzer_id and category required")
        else if negb (bool_decide (cb_action b ∈ ["block"; "warn"; "pass"])) then
          (x, fault 400 "action must be block, warn, or pass")
        else
          let s := upsert_content_policy (cb_tenant_id b) (cb_analyzer_id b) (cb_category b) (cb_action b)
                     (cb_threshold b) fresh (c_store k) s in
          (_refresh_content_policies (with_store s x),
           reply 201 (from_option content_dict []
             (find_row content_key (cb_tenant_id b, cb_analyzer_id b, cb_category b) (content_policies s))))
    end) x.

Definition control_delete_content_policy (id : string) (x : context) : context * PreInference.response :=
  or_503 (fun s =>
    let '(s, deleted) := delete_content_policy id s in
    if deleted then (_refresh_content_policies (with_store s x), reply 200 [("deleted", PBool true)])
    else (with_store s x, fault 404 "Not found")) x.

(** The body's fields, their defaults filled in; [model_pattern] empty when missing *)
Definition control_upsert_pricing (b : option (string * pyval * pyval * string)) (fresh : string)
    (repr : SpecFloat.spec_float -> string) (k : clock) (x : context) : context * PreInference.response :=
  or_503 (fun s =>
    match b with
    | None => (x, fault 400 "Invalid pricing data")
    | Some (pattern, input, output, cur) =>
        if bool_decide (pattern = "") then (x, fault 400 "model_pattern is required")
        else
          match upsert_model_pricing pattern input output cur fresh repr (c_store k) s with
          | (s, Ok _) => (with_store s x,
                          reply 200 (from_option pricing_dict [] (find_row model_pattern pattern (model_pricing s))))
          | (s, Raise _) => (with_store s x, fault 400 "Invalid pricing data")
          end
    end) x.

Definition control_delete_pricing (id : string) (x : context) : context * PreInference.response :=
  or_503 (fun s =>
    let '(s, deleted) := delete_model_pricing id s in
    (with_store s x, reply 200 [("deleted", PBool deleted)])) x.

(** ** API keys *)

Definition str_list (l : list string) : pyval := PList (map PStr l).

Definition control_get_key_policies (hash : string) (x : context) : context * PreInference.response :=
  or_503 (fun s =>
    (x, reply 200 [("api_key_hash", PStr hash); ("policy_ids", str_list (get_key_policies hash s))])) x.

(** [policy_ids], [None] when the body has no list there *)
Definition control_set_key_policies (hash : string) (ids : option (list string)) (k : clock) (x : context)
    : context * PreInference.response :=
  or_503 (fun s =>
    match ids with
    | None => (x, fault 400 "policy_ids must be a list")
    | Some ids =>
        (with_store (set_key_policies hash ids (c_store k) s) x,
         reply 200 [("api_key_hash", PStr hash); ("policy_ids", str_list ids); ("status", PStr "updated")])
    end) x.

Definition control_remove_key_policy (hash pid : string) (x : context) : context * PreInference.response :=
  or_503 (fun s =>
    let '(s, removed) := remove_key_policy hash pid s in
    (with_store s x,
     if removed then reply 200 [("api_key_hash", PStr hash); ("policy_id", PStr pid); ("status", PStr "removed")]
     else fault 404 "Assignment not found")) x.

Definition no_policies : PreInference.response :=
  fault 404 "API key has no policy assignments; assign a policy first".

Definition opt_str (o : option string) : pyval := match o with Some t => PStr t | None => PNone end.

Definition control_get_key_tenant (hash : string) (now later : Z) (x : context) : context * PreInference.response :=
  or_503 (fun s =>
    if has_key hash s then
      let '(s, t) := get_key_tenant hash now later s in
      (with_store s x, reply 200 [("api_key_hash", PStr hash); ("tenant_id", opt_str t)])
    else (x, no_policies)) x.

(** The body: not JSON or without the field, or what the field holds *)
Definition control_set_key_tenant (hash : string) (b : option (option pyval)) (x : context)
    : context * PreInference.response :=
  or_503 (fun s =>
    match b with
    | None => (x, fault 400 "Invalid JSON")
    | Some None => (x, fault 400 "Body must be a JSON object with a 'tenant_id' field")
    | Some (Some v) =>
        let go t :=
          if has_key hash s then
            (with_store (set_key_tenant hash t s).1 x,
             reply 200 [("api_key_hash", PStr hash); ("tenant_id", opt_str t); ("status", PStr "updated")])
          else (x, no_policies) in
        match v with
        | PNone => go None
        | PStr t => go (normalised (Some t))
        | _ => (x, fault 400 "tenant_id must be a string or null")
        end
    end) x.

Definition control_get_key_tools (hash : string) (x : context) : context * PreInference.response :=
  or_503 (fun s =>
    let allowed := get_allowed_tools hash s in
    (x, reply 200 [("api_key_hash", PStr hash);
                   ("allowed_tools", match allowed with Some l => str_list l | None => PNone end);
                   ("unrestricted", PBool (match allowed with None => true | Some _ => false end))])) x.

Definition control_set_key_tools (hash : string) (names : option (list string)) (k : clock) (x : context)
    : context * PreInference.response :=
  or_503 (fun s =>
    match names with
    | None => (x, fault 400 "allowed_tools must be a list")
    | Some names =>
        match set_allowed_tools hash names (c_store k) s with
        | (s, Ok _) =>
            (with_store s x,
             reply 200 [("api_key_hash", PStr hash); ("allowed_tools", str_list names); ("status", PStr "updated")])
        | (s, Raise _) => (with_store s x, fault 400 "Invalid tool permission data")
        end
    end) x.

Definition control_remove_key_tool (hash tool : string) (x : context) : context * PreInference.response :=
  or_503 (fun s =>
    let '(s, removed) := remove_tool_permission hash tool s in
    (with_store s x,
     if removed then reply 200 [("api_key_hash", PStr hash); ("tool_name", PStr tool); ("status", PStr "removed")]
     else fault 404 "Permission not found")) x.

(** ** Policy templates *)

(** One policy of the template: the tenant is filled in when it is missing. *)
Definition template_data (tenant : string) (d : policy_data) : policy_data :=
  match d_ptenant_id d with
  | Some _ => d
  | None => MkPolData (d_policy_id d) (d_policy_name d) (d_pstatus d) (d_enforcement_level d) (d_rules d)
              (d_prompt_rules d) (d_rag_rules d) (Some tenant) (d_description d)
  end.

(** The names the response gives a created policy and a failed one *)
Definition created_name (d : policy_data) : string :=
  or_new (d_policy_id d) (default "?" (d_policy_name d)).
Definition failed_name (d : policy_data) : string :=
  match d_policy_id d with Some i => i | None => default "?" (d_policy_name d) end.

(** The loop: each policy on its own, errors collected; [fresh i] is the UUID of the
    [i]-th and [now i] its time. *)
Fixpoint apply_policies (tenant : string) (l : list policy_data) (fresh : nat -> string) (now : nat -> Z)
    (s : store) : store * list string * list string :=
  match l with
  | [] => (s, [], [])
  | d :: l =>
      let d := template_data tenant d in
      let rest s := apply_policies tenant l (fun i => fresh (S i)) (fun i => now (S i)) s in
      match create_policy d (fresh 0%nat) (now 0%nat) s with
      | (s, Ok _) => let '(s, created, errors) := rest s in (s, created_name d :: created, errors)
      | (s, Raise _) => let '(s, created, errors) := rest s in (s, created, failed_name d :: errors)
      end
  end.

(** [l] are the policies of the template's file. *)
Definition control_apply_template (name : string) (tenant : string) (l : list policy_data)
    (fresh : nat -> string) (now : nat -> Z) (k : clock) (x : context) : context * res PreInference.response :=
  match control_store x with
  | None => (x, Ok (fault 503 "Control plane not available"))
  | Some s =>
      let '(s, created, errors) := apply_policies tenant l fresh now s in
      let x := with_store s x in
      let r := reply 200 [("template", PStr name); ("created", PInt (zlen created));
                          ("errors", PList (map (fun p => PDict [("policy", PStr p);
                                                                 ("error", PStr "Failed to create policy")]) errors));
                          ("policy_ids", str_list created)] in
      match created with
      | [] => (x, Ok r)
      | _ => let '(x, out) := _refresh_policy_cache k x in (x, let! _ := out in Ok r)
      end
  end.

(** ** A run of requests *)

Inductive request :=
  | UpsertAtt (b : option attestation_body) (fresh : string)
  | RevokeAtt (id fresh : string)
  | DeleteAtt (id : string)
  | CreatePol (b : option policy_data) (fresh : string)
  | UpdatePol (id : string) (b : option policy_data)
  | DeletePol (id : string)
  | UpsertBud (b : option budget_body) (fresh : string)
  | DeleteBud (id : string)
  | UpsertCon (b : option content_body) (fresh : string)
  | DeleteCon (id : string)
  | UpsertPri (b : option (string * pyval * pyval * string)) (fresh : string) (repr : SpecFloat.spec_float -> string)
  | DeletePri (id : string)
  | SetPolicies (hash : string) (ids : option (list string))
  | RemovePolicy (hash pid : string)
  | ReadTenant (hash : string) (now later : Z)
  | SetTenant (hash : string) (b : option (option pyval))
  | SetTools (hash : string) (names : option (list string))
  | RemoveTool (hash tool : string)
  | Template (name tenant : string) (l : list policy_data) (fresh : nat -> string) (now : nat -> Z).

Definition handle (r : request) (k : clock) (x : context) : context :=
  match r with
  | UpsertAtt b fresh => (control_upsert_attestation b fresh k x).1
  | RevokeAtt id fresh => (control_revoke_attestation id fresh k x).1
  | DeleteAtt id => (control_delete_attestation id k x).1
  | CreatePol b fresh => (control_create_policy b fresh k x).1
  | UpdatePol id b => (control_update_policy id b k x).1
  | DeletePol id => (control_delete_policy id k x).1
  | UpsertBud b fresh => (control_upsert_budget b fresh k x).1
  | DeleteBud id => (control_delete_budget id k x).1
  | UpsertCon b fresh => (control_upsert_content_policy b fresh k x).1
  | DeleteCon id => (control_delete_content_policy id x).1
  | UpsertPri b fresh repr => (control_upsert_pricing b fresh repr k x).1
  | DeletePri id => (control_delete_pricing id x).1
  | SetPolicies hash ids => (control_set_key_policies hash ids k x).1
  | RemovePolicy hash pid => (control_remove_key_policy hash pid x).1
  | ReadTenant hash now later => (control_get_key_tenant hash now later x).1
  | SetTenant hash b => (control_set_key_tenant hash b x).1
  | SetTools hash names => (control_set_key_tools hash names k x).1
  | RemoveTool hash tool => (control_remove_key_tool hash tool x).1
  | Template name tenant l fresh now => (control_apply_template name tenant l fresh now k x).1
  end.

Definition handle_all (l : list (request * clock)) (x : context) : context :=
  foldl (fun x rk => handle rk.1 rk.2 x) x l.

(** ** What the caches say of the store *)

(** The cache entry a row becomes *)
Definition entry_of (ttl : Z) (r : attestation) (now : Z) : CachedAttestation :=
  Attestation.MkAttestation (attestation_id r) (model_id r) (provider r) (lower (or_else (Some (status r)) "pending"))
    now ttl (a_tenant_id r) (or_else (Some (verification_level r)) "self_reported") None
    (match Some (model_hash r) with Some EmptyString => None | h => h end).

Definition row_key (r : attestation) : string * string * string :=
  _key (provider r) (model_id r) (a_tenant_id r).

(** Under the key of a row sits the entry of a row; any other entry is auto-attested. *)
Definition attestations_match (rows : list attestation) (c : Attestation.cache) : Prop :=
  forall k, match _cache c !! k with
            | Some e => (exists r now, r ∈ rows /\ row_key r = k /\ e = entry_of (_ttl c) r now)
                        \/ (auto_attested e = true /\ k ∉ row_key <$> rows)
            | None => k ∉ row_key <$> rows
            end.

Definition policies_match (s : store) (c : Cache.cache) : Prop :=
  exists ps, get_active_policies gateway_tenant_id s = Ok ps /\ Cache.get_policies c = map policy_dict ps.

(** One budget per key, with the period and the limit of a row of that key *)
Definition budgets_match (rows : list budget) (t : Budget.Memory.tracker) : Prop :=
  forall k, match Memory._states t !! k with
            | Some st => exists b, b ∈ rows /\ tracker_key b = k /\ Memory.s_period st = period b
                                   /\ Memory.max_tokens st = max_tokens b
            | None => k ∉ tracker_key <$> rows
            end.

(** An analyzer that has policies was last configured with exactly those. *)
Definition content_matches (s : store) (l : list analyzer) : Prop :=
  forall a i, a ∈ l -> an_id a = Some i -> i <> "" -> configurable a = true ->
  let own := relevant i (list_content_policies None s) in
  own <> [] -> last (configured a) = Some own.

(** Every policy's rules are JSON. *)
Definition decodable (s : store) : Prop := forall p, p ∈ policies s -> exists d, decode p = Ok d.

Definition synced (x : context) : Prop :=
  forall s, control_store x = Some s ->
  decodable s
  /\ (forall c, attestation_cache x = Some c -> attestations_match (list_attestations gateway_tenant_id s) c)
  /\ (forall c, policy_cache x = Some c -> policies_match s c)
  /\ (forall t, budget_tracker x = Some t -> budgets_match (budgets s) t)
  /\ content_matches s (content_analyzers x).

(** ** The refreshes re-establish it *)

Lemma set_proof_entry c r now :
  set_from_proof c (proof_of r).1 (proof_of r).2 now
  = Attestation.MkCache (_ttl c) (<[row_key r := entry_of (_ttl c) r now]> (_cache c)).
Proof. unfold set_from_proof, set, row_key, entry_of. simpl. by destruct (attestation_id r), (model_id r), (a_tenant_id r). Qed.

Lemma set_proofs_lookup l c now k :
  _ttl (set_proofs c (map proof_of l) now) = _ttl c /\
  match decide (k ∈ row_key <$> l) with
  | left _ => exists r n, r ∈ l /\ row_key r = k /\
              _cache (set_proofs c (map proof_of l) now) !! k = Some (entry_of (_ttl c) r n)
  | right _ => _cache (set_proofs c (map proof_of l) now) !! k = _cache c !! k
  end.
Proof.
  revert c now. induction l as [|r l IH]; intros c now.
  { split; [done|]. by destruct (decide _) as [H'%not_elem_of_nil|]. }
  change (set_proofs c (map proof_of (r :: l)) now)
    with (set_proofs (set_from_proof c (proof_of r).1 (proof_of r).2 (now 0%nat)) (map proof_of l) (fun i => now (S i))).
  rewrite set_proof_entry. set (c1 := Attestation.MkCache _ _).
  destruct (IH c1 (fun i => now (S i))) as [Httl Hk]. split; [done|].
  destruct (decide (k ∈ row_key <$> l)) as [Hin|Hin], (decide (k ∈ row_key <$> r :: l)) as [Hin'|Hin'].
  - destruct Hk as (r' & n & Hr & Hkr & He). exists r', n. split_and!; [by right|done|done].
  - destruct Hin'. by right.
  - exists r, (now 0%nat). apply elem_of_cons in Hin' as [->|]; [|done]. split_and!; [by left|done|].
    rewrite Hk. apply lookup_insert_eq.
  - rewrite Hk. apply lookup_insert_ne. intros Heq. apply Hin'. rewrite <- Heq. by left.
Qed.

Lemma refresh_attestations_match k x s c c' :
  control_store x = Some s -> attestation_cache x = Some c ->
  attestation_cache (_refresh_attestation_cache k x) = Some c' ->
  attestations_match (list_attestations gateway_tenant_id s) c'.
Proof.
  intros Hs Hc. unfold _refresh_attestation_cache. rewrite Hs, Hc. simpl.
  intros Hc'. injection Hc' as <-. unfold get_attestation_proofs. set (rows := list_attestations _ _).
  intros key. simpl.
  destruct (set_proofs_lookup rows (clear c) (c_att k) key) as [Httl Hk]. rewrite Httl.
  set (m := set_proofs (clear c) (map proof_of rows) (c_att k)) in *.
  destruct (decide (key ∈ row_key <$> rows)) as [Hin|Hin].
  - destruct Hk as (r & n & Hr & Hkey & He). rewrite (lookup_union_Some_l _ _ _ _ He).
    left. exists r, n. done.
  - assert (_cache m !! key = None) as Hnone by (rewrite Hk; apply lookup_empty).
    rewrite (lookup_union_r _ _ _ Hnone).
    destruct (filter _ (_cache c) !! key) as [e|] eqn:He; [|done].
    right. apply map_lookup_filter_Some in He as [_ He]. done.
Qed.

Lemma decode_all_ok l : (forall p, p ∈ l -> exists d, decode p = Ok d) -> exists ds, decode_all l = Ok ds.
Proof.
  induction l as [|p l IH]; intros Hl; [by exists []|].
  destruct (Hl p) as [d Hd]; [by left|]. destruct IH as [ds Hds]; [intros q Hq; apply Hl; by right|].
  exists (d :: ds). simpl. by rewrite Hd, Hds.
Qed.

Lemma list_rows_in {R} (tenant : R -> string) updated t l r :
  r ∈ list_rows tenant updated t l -> r ∈ l.
Proof.
  unfold list_rows. rewrite isort_perm. case_bool_decide; [done|].
  by intros [Hr _]%list_elem_of_In%filter_In; apply list_elem_of_In.
Qed.

Lemma active_ok s : decodable s -> exists ps, get_active_policies gateway_tenant_id s = Ok ps.
Proof.
  intros Hd. unfold get_active_policies, list_policies.
  destruct (decode_all_ok (list_rows p_tenant_id p_updated_at gateway_tenant_id (policies s))) as [ds Hds].
  - intros p Hp. apply Hd. by apply list_rows_in in Hp.
  - rewrite Hds. by eexists.
Qed.

Lemma refresh_policies_match k x s :
  control_store x = Some s -> decodable s ->
  exists x', _refresh_policy_cache k x = (x', Ok tt)
  /\ (forall c, policy_cache x' = Some c -> policies_match s c)
  /\ control_store x' = control_store x /\ attestation_cache x' = attestation_cache x
  /\ budget_tracker x' = budget_tracker x /\ content_analyzers x' = content_analyzers x.
Proof.
  intros Hs Hd. unfold _refresh_policy_cache. rewrite Hs.
  destruct (policy_cache x) as [c|] eqn:Hc; [|exists x; split_and!; try done; by rewrite Hc].
  destruct (active_ok s Hd) as [ps Hps]. rewrite Hps. simpl.
  eexists. split; [done|]. split_and!; try done. simpl. intros c' [= <-]. by exists ps.
Qed.

Lemma configure_states now t b k :
  Memory._states (configure_budget now t b) !! k =
  if decide (tracker_key b = k)
  then Some (match Memory._states t !! k with
             | Some st => if decide (Memory.s_period st = period b)
                          then Memory.MkState (Memory.s_period st) (Memory.period_start st) (Memory.tokens_used st) (max_tokens b)
                          else Memory.MkState (period b) (_period_start (period b) now) 0 (max_tokens b)
             | None => Memory.MkState (period b) (_period_start (period b) now) 0 (max_tokens b)
             end)
  else Memory._states t !! k.
Proof.
  unfold configure_budget, Memory.configure, tracker_key, or_none.
  assert (user_key (if bool_decide (b_user b = "") then None else Some (b_user b)) = b_user b) as ->
    by (case_bool_decide; simpl; congruence).
  destruct (decide ((b_tenant_id b, b_user b) = k)) as [<-|Hne].
  - destruct (Memory._states t !! (b_tenant_id b, b_user b)) as [st|]; [destruct (decide _)|];
      simpl; by rewrite lookup_insert_eq.
  - destruct (Memory._states t !! (b_tenant_id b, b_user b)) as [st|]; [destruct (decide _)|];
      simpl; by rewrite lookup_insert_ne.
Qed.

Lemma configured_budgets l now t k :
  if decide (k ∈ tracker_key <$> l)
  then exists b st, b ∈ l /\ tracker_key b = k /\ Memory._states (configure_budgets l now t) !! k = Some st
                    /\ Memory.s_period st = period b /\ Memory.max_tokens st = max_tokens b
  else Memory._states (configure_budgets l now t) !! k = Memory._states t !! k.
Proof.
  unfold configure_budgets. induction l as [|b l IH] using rev_ind.
  { by destruct (decide _) as [H'%not_elem_of_nil|]. }
  rewrite foldl_app. simpl. set (t1 := foldl _ t l) in *. rewrite configure_states.
  destruct (decide (tracker_key b = k)) as [Hk|Hk].
  - rewrite decide_True by (rewrite fmap_app; apply elem_of_app; right; by apply list_elem_of_singleton).
    exists b. eexists. split_and!; [apply elem_of_app; right; by apply list_elem_of_singleton|done|done| |];
      destruct (Memory._states t1 !! k) as [st|]; try done; by destruct (decide (Memory.s_period st = period b)).
  - destruct (decide (k ∈ tracker_key <$> l)) as [Hin|Hin].
    + rewrite decide_True by (rewrite fmap_app; apply elem_of_app; by left).
      destruct IH as (b' & st & Hb' & ? & ? & ? & ?). exists b', st. split_and!; try done. apply elem_of_app. by left.
    + rewrite decide_False; [done|]. rewrite fmap_app. intros [?|?%list_elem_of_singleton]%elem_of_app; congruence.
Qed.

Lemma removed_states l t k :
  Memory._states (foldl remove_key t l) !! k = if decide (k ∈ l) then None else Memory._states t !! k.
Proof.
  revert t. induction l as [|k' l IH]; intros t; [by rewrite decide_False by apply not_elem_of_nil|].
  simpl. rewrite IH. unfold remove_key, Memory.remove. simpl.
  assert ((k'.1, user_key (or_none k'.2)) = k') as ->.
  { unfold or_none. destruct k' as [tn u]. simpl. case_bool_decide; simpl; congruence. }
  destruct (decide (k ∈ l)) as [Hin|Hin].
  - rewrite decide_True by (by right). done.
  - destruct (decide (k = k')) as [->|Hne].
    + rewrite decide_True by by left. by rewrite lookup_delete_eq.
    + rewrite decide_False by (intros [?|?]%elem_of_cons; done). by rewrite lookup_delete_ne.
Qed.

Lemma refresh_budgets_match l now t : budgets_match l (refresh_tracker l now t).
Proof.
  intros k. unfold refresh_tracker. rewrite removed_states.
  set (t1 := configure_budgets l now t). pose proof (configured_budgets l now t k) as Hk. fold t1 in Hk.
  change (map tracker_key l) with (tracker_key <$> l).
  destruct (decide (k ∈ tracker_key <$> l)) as [Hin|Hin].
  - rewrite decide_False.
    + destruct Hk as (b & st & ? & ? & Hst & ? & ?). rewrite Hst. by exists b.
    + rewrite elem_of_elements, elem_of_difference, elem_of_list_to_set. naive_solver.
  - destruct (decide _) as [|Hout]; [done|].
    destruct (Memory._states t1 !! k) as [st|] eqn:Hst; [|done]. exfalso. apply Hout.
    rewrite elem_of_elements, elem_of_difference, elem_of_list_to_set. split; [|done].
    apply elem_of_dom. by exists st.
Qed.

Lemma budgets_match_perm l l' t : l ≡ₚ l' -> budgets_match l t -> budgets_match l' t.
Proof. intros Hp Hm k. specialize (Hm k). destruct (Memory._states t !! k); by setoid_rewrite <- Hp. Qed.

Lemma reconfigured_matches s l : content_matches s (map (reconfigure (list_content_policies None s)) l).
Proof.
  intros a i Ha Hi Hne Hc own Hown. apply list_elem_of_In, in_map_iff in Ha as (a0 & <- & _).
  unfold reconfigure in *. destruct (an_id a0) as [[|ch i0]|] eqn:Hid; try congruence.
  destruct (configurable a0) eqn:Hconf; [|congruence].
  assert (an_id (configure (relevant (String ch i0) (list_content_policies None s)) a0) = an_id a0) as Han
    by by destruct (relevant _ _).
  rewrite Han, Hid in Hi. injection Hi as <-. fold own. unfold configure. destruct own as [|p own]; [done|].
  by rewrite <- last_snoc with (l := configured a0).
Qed.

(** The invariant after a change of some tables *)
Lemma synced_same x s s' :
  synced x -> control_store x = Some s -> attestations s' = attestations s -> policies s' = policies s ->
  budgets s' = budgets s -> content_policies s' = content_policies s -> synced (with_store s' x).
Proof.
  intros Hx Hs Ha Hp Hb Hc s0 [= <-]. destruct (Hx s Hs) as (Hd & HA & HP & HB & HC). simpl. split_and!.
  - unfold decodable. by rewrite Hp.
  - unfold list_attestations. rewrite Ha. exact HA.
  - unfold policies_match, get_active_policies, list_policies. rewrite Hp. exact HP.
  - rewrite Hb. exact HB.
  - unfold content_matches, list_content_policies. rewrite Hc. exact HC.
Qed.

Lemma synced_attestations k x s s' :
  synced x -> control_store x = Some s -> policies s' = policies s -> budgets s' = budgets s ->
  content_policies s' = content_policies s -> synced (_refresh_attestation_cache k (with_store s' x)).
Proof.
  intros Hx Hs Hp Hb Hc s0 Hs0. destruct (Hx s Hs) as (Hd & HA & HP & HB & HC).
  set (x1 := with_store s' x) in *.
  assert (control_store x1 = Some s') as Hs1 by done.
  assert (control_store (_refresh_attestation_cache k x1) = Some s'
          /\ policy_cache (_refresh_attestation_cache k x1) = policy_cache x
          /\ budget_tracker (_refresh_attestation_cache k x1) = budget_tracker x
          /\ content_analyzers (_refresh_attestation_cache k x1) = content_analyzers x
          /\ (attestation_cache x1 = None -> attestation_cache (_refresh_attestation_cache k x1) = None))
    as (Es & Ep & Eb & Ec & En).
  { unfold _refresh_attestation_cache. rewrite Hs1. by destruct (attestation_cache x1) eqn:E; split_and!. }
  rewrite Es in Hs0. injection Hs0 as <-. rewrite Ep, Eb, Ec. split_and!.
  - unfold decodable. by rewrite Hp.
  - intros c' Hc'. destruct (attestation_cache x1) as [c|] eqn:Hcache; [|rewrite En in Hc'; done].
    by apply (refresh_attestations_match k x1 s' c c').
  - unfold policies_match, get_active_policies, list_policies. rewrite Hp. exact HP.
  - rewrite Hb. exact HB.
  - unfold content_matches, list_content_policies. rewrite Hc. exact HC.
Qed.

Lemma synced_policies k x s s' :
  synced x -> control_store x = Some s -> attestations s' = attestations s -> budgets s' = budgets s ->
  content_policies s' = content_policies s -> decodable s' ->
  exists x', _refresh_policy_cache k (with_store s' x) = (x', Ok tt) /\ synced x'.
Proof.
  intros Hx Hs Ha Hb Hc Hd'. destruct (Hx s Hs) as (Hd & HA & HP & HB & HC).
  destruct (refresh_policies_match k (with_store s' x) s' eq_refl Hd') as (x' & E & Hm & Es & Ea & Eb & Ec).
  exists x'. split; [exact E|]. intros s0 Hs0. rewrite Es in Hs0. injection Hs0 as <-. rewrite Ea, Eb, Ec.
  simpl. split_and!; [done| |done| |].
  - unfold list_attestations. rewrite Ha. exact HA.
  - rewrite Hb. exact HB.
  - unfold content_matches, list_content_policies. rewrite Hc. exact HC.
Qed.

Lemma synced_refreshed k x s s' ok bad :
  synced x -> control_store x = Some s -> attestations s' = attestations s -> budgets s' = budgets s ->
  content_policies s' = content_policies s -> decodable s' -> synced (refreshed k (with_store s' x) ok bad).1.
Proof.
  intros Hx Hs Ha Hb Hc Hd. destruct (synced_policies k x s s' Hx Hs Ha Hb Hc Hd) as (x' & E & Hx').
  unfold refreshed. by rewrite E.
Qed.

Lemma list_budgets_perm s : list_budgets "" s ≡ₚ budgets s.
Proof. unfold list_budgets, list_rows. by rewrite isort_perm. Qed.

Lemma synced_budgets k x s s' :
  synced x -> control_store x = Some s -> attestations s' = attestations s -> policies s' = policies s ->
  content_policies s' = content_policies s -> synced (_refresh_budget_tracker k (with_store s' x)).
Proof.
  intros Hx Hs Ha Hp Hc. destruct (Hx s Hs) as (Hd & HA & HP & HB & HC).
  unfold _refresh_budget_tracker. simpl.
  destruct (budget_tracker x) as [t|] eqn:Ht; intros s0 [= <-]; simpl; split_and!;
    try (unfold decodable; by rewrite Hp);
    try (unfold list_attestations; rewrite Ha; exact HA);
    try (unfold policies_match, get_active_policies, list_policies; rewrite Hp; exact HP);
    try (unfold content_matches, list_content_policies; rewrite Hc; exact HC).
  - intros t' [= <-]. apply (budgets_match_perm (list_budgets "" s')); [apply list_budgets_perm|].
    apply refresh_budgets_match.
  - intros t' Ht'. congruence.
Qed.

Lemma synced_content x s s' :
  synced x -> control_store x = Some s -> attestations s' = attestations s -> policies s' = policies s ->
  budgets s' = budgets s -> synced (_refresh_content_policies (with_store s' x)).
Proof.
  intros Hx Hs Ha Hp Hb s0 [= <-]. destruct (Hx s Hs) as (Hd & HA & HP & HB & HC). simpl. split_and!.
  - unfold decodable. by rewrite Hp.
  - unfold list_attestations. rewrite Ha. exact HA.
  - unfold policies_match, get_active_policies, list_policies. rewrite Hp. exact HP.
  - rewrite Hb. exact HB.
  - apply reconfigured_matches.
Qed.

(** [json.loads] reads what [json.dumps] writes. *)
Context (json_reads : forall v, exists w, of_text (to_text v) = Ok w).

Lemma decodable_row p x y z :
  of_text (rules_json p) = Ok x -> of_text (prompt_rules_json p) = Ok y -> of_text (rag_rules_json p) = Ok z ->
  exists d, decode p = Ok d.
Proof. intros Hx Hy Hz. eexists. by apply decode_parts. Qed.

Lemma decodable_create d fresh now s :
  decodable s -> decodable (create_policy d fresh now s).1.
Proof.
  intros Hd. unfold create_policy. destruct (has_row _ _ _); [done|]. cbn [fst]. intros p. simpl.
  intros [Hp| ->%list_elem_of_singleton]%elem_of_app; [by apply Hd|].
  destruct (json_reads (default (PList []) (d_rules d))) as [a Ha].
  destruct (json_reads (default (PList []) (d_prompt_rules d))) as [b Hb].
  destruct (json_reads (default (PList []) (d_rag_rules d))) as [c Hc].
  by apply (decodable_row _ a b c).
Qed.

Lemma decode_inv p d : decode p = Ok d ->
  exists x y z, of_text (rules_json p) = Ok x /\ of_text (prompt_rules_json p) = Ok y /\ of_text (rag_rules_json p) = Ok z.
Proof.
  unfold decode. destruct (of_text (rules_json p)) as [x|]; [|done].
  destruct (of_text (prompt_rules_json p)) as [y|]; [|done].
  destruct (of_text (rag_rules_json p)) as [z|]; [|done]. intros _. by exists x, y, z.
Qed.

Lemma patched_reads old o : (exists w, of_text old = Ok w) ->
  exists w, of_text (match o with Some v => to_text v | None => old end) = Ok w.
Proof. destruct o; [intros _; apply json_reads|done]. Qed.

Lemma decodable_update id d now s : decodable s -> decodable (update_policy id d now s).1.
Proof.
  intros Hd. unfold update_policy. destruct (sets_nothing d); [done|]. cbn [fst]. intros p. simpl.
  intros (q & <- & Hq)%list_elem_of_In%in_map_iff.
  apply list_elem_of_In in Hq. destruct (Hd q Hq) as [dq Hdq]. destruct (decide _); [|by exists dq].
  apply decode_inv in Hdq as (x & y & z & Hx & Hy & Hz).
  destruct (patched_reads (rules_json q) (d_rules d) (ex_intro _ x Hx)) as [a Ha].
  destruct (patched_reads (prompt_rules_json q) (d_prompt_rules d) (ex_intro _ y Hy)) as [b Hb].
  destruct (patched_reads (rag_rules_json q) (d_rag_rules d) (ex_intro _ z Hz)) as [c Hc].
  by apply (decodable_row _ a b c).
Qed.

Lemma decodable_delete id s : decodable s -> decodable (delete_policy id s).1.
Proof.
  intros Hd p. unfold delete_policy, delete_rows. simpl. intros [Hp _]%list_elem_of_In%filter_In.
  by apply Hd, list_elem_of_In.
Qed.

Lemma update_none id d now s : (update_policy id d now s).2 = false -> policies (update_policy id d now s).1 = policies s.
Proof.
  unfold update_policy. destruct (sets_nothing d); [done|]. cbn [fst snd]. intros Hh. simpl.
  apply has_row_out in Hh. induction (policies s) as [|p l IH]; [done|]. simpl.
  rewrite decide_False by (intros He; apply Hh; rewrite <- He; by left). f_equal. apply IH.
  intros Hin. apply Hh. by right.
Qed.

Lemma apply_policies_spec tenant l fresh now s :
  let r := apply_policies tenant l fresh now s in
  attestations r.1.1 = attestations s /\ budgets r.1.1 = budgets s /\ content_policies r.1.1 = content_policies s
  /\ (decodable s -> decodable r.1.1) /\ (r.1.2 = [] -> policies r.1.1 = policies s).
Proof.
  revert fresh now s. induction l as [|d l IH]; intros fresh now s; [done|]. cbn [apply_policies].
  set (d' := template_data tenant d).
  pose proof (decodable_create d' (fresh 0%nat) (now 0%nat) s) as Hdec.
  destruct (create_policy d' (fresh 0%nat) (now 0%nat) s) as [s1 out] eqn:Hc.
  assert (attestations s1 = attestations s /\ budgets s1 = budgets s /\ content_policies s1 = content_policies s
          /\ match out with Ok _ => True | Raise _ => policies s1 = policies s end) as (Ea & Eb & Ec & Ep).
  { unfold create_policy in Hc. destruct (has_row _ _ _); by injection Hc as <- <-. }
  simpl in Hdec. specialize (IH (fun i => fresh (S i)) (fun i => now (S i)) s1). cbv zeta in IH.
  destruct (apply_policies tenant l _ _ s1) as [[s2 created] errors]. cbn [fst snd] in IH.
  destruct IH as (Ha2 & Hb2 & Hc2 & Hd2 & Hp2).
  destruct out; cbn [fst snd]; split_and!; try congruence; try by auto.
  intros Hn. rewrite Hp2 by done. exact Ep.
Qed.

Lemma synced_or_503 f x :
  synced x -> (forall s, control_store x = Some s -> synced (f s).1) -> synced (or_503 f x).1.
Proof. intros Hx Hf. unfold or_503. destruct (control_store x) as [s|] eqn:Hs; [by apply Hf|done]. Qed.

(** An attestation write changes no other table. *)
Lemma upsert_attestation_tables d fresh now s :
  let s' := (upsert_attestation d fresh now s).1 in
  policies s' = policies s /\ budgets s' = budgets s /\ content_policies s' = content_policies s.
Proof. unfold upsert_attestation. destruct (_ && _); [destruct (existsb _ _)|]; done. Qed.

Lemma synced_written d fresh k x s ok bad :
  synced x -> control_store x = Some s ->
  synced (match upsert_attestation d fresh (c_store k) s with
          | (s, Ok r) => (_refresh_attestation_cache k (with_store s x), ok r)
          | (s, Raise _) => (with_store s x, bad)
          end : context * PreInference.response).1.
Proof.
  intros Hx Hs. destruct (upsert_attestation_tables d fresh (c_store k) s) as (Hp & Hb & Hc).
  pose proof (upsert_attestation_raises d fresh (c_store k) s) as Hr.
  destruct (upsert_attestation d fresh (c_store k) s) as [s' [r|e]]; cbn [fst snd] in *.
  - by apply (synced_attestations k x s).
  - rewrite (Hr e eq_refl). by apply (synced_same x s).
Qed.

Lemma synced_attestation_handlers r k x :
  synced x -> match r with UpsertAtt _ _ | RevokeAtt _ _ | DeleteAtt _ => True | _ => False end -> synced (handle r k x).
Proof.
  intros Hx Hr. destruct r; try done; apply synced_or_503; try done; intros s Hs.
  - destruct (b ≫= AttestationUpsert); [|done]. by apply synced_written.
  - destruct (List.find _ _); [|done]. by apply synced_written.
  - unfold delete_attestation, delete_rows. destruct (has_row attestation_id id (attestations s)) eqn:Hh; simpl.
    + by apply (synced_attestations k x s).
    + apply (synced_same x s); try done. by apply (delete_rows_none attestation_id).
Qed.

Lemma synced_policy_handlers r k x :
  synced x -> match r with CreatePol _ _ | UpdatePol _ _ | DeletePol _ | Template _ _ _ _ _ => True | _ => False end ->
  synced (handle r k x).
Proof.
  intros Hx Hr. destruct r; try done; cbn [handle]; try (apply synced_or_503; [done|]; intros s Hs).
  - destruct (b ≫= PolicyCreate) as [d|]; [|done]. destruct (Hx s Hs) as (Hd & _).
    pose proof (decodable_create d fresh (c_store k) s Hd) as Hd'. unfold create_policy in *.
    destruct (has_row _ _ _); cbn [fst] in *; [by apply (synced_same x s)|by apply (synced_refreshed k x s)].
  - destruct b as [d|]; [|done]. destruct (Hx s Hs) as (Hd & _).
    pose proof (decodable_update id d (c_store k) s Hd) as Hd'.
    pose proof (update_none id d (c_store k) s) as Hn.
    assert (attestations (update_policy id d (c_store k) s).1 = attestations s
            /\ budgets (update_policy id d (c_store k) s).1 = budgets s
            /\ content_policies (update_policy id d (c_store k) s).1 = content_policies s) as (? & ? & ?).
    { unfold update_policy. by destruct (sets_nothing d). }
    destruct (update_policy id d (c_store k) s) as [s' [|]]; cbn [fst snd] in *.
    + by apply (synced_refreshed k x s).
    + apply (synced_same x s); auto.
  - destruct (Hx s Hs) as (Hd & _). pose proof (decodable_delete id s Hd) as Hd'.
    unfold delete_policy, delete_rows in *. destruct (has_row policy_id id (policies s)) eqn:Hh; simpl.
    + by apply (synced_refreshed k x s).
    + apply (synced_same x s); try done. by apply (delete_rows_none policy_id).
  - unfold control_apply_template. destruct (control_store x) as [s|] eqn:Hs; [|done].
    pose proof (apply_policies_spec tenant l fresh now s) as Hsp. cbv zeta in Hsp.
    destruct (apply_policies tenant l fresh now s) as [[s' created] errors]. cbn [fst snd] in Hsp.
    destruct Hsp as (Ha & Hb & Hc & Hd & Hp). destruct (Hx s Hs) as (Hdec & _).
    destruct created as [|n created]; [apply (synced_same x s); auto|].
    destruct (synced_policies k x s s') as (x' & E & Hx'); auto. by rewrite E.
Qed.

Lemma synced_budget_handlers r k x :
  synced x -> match r with UpsertBud _ _ | DeleteBud _ | UpsertCon _ _ | DeleteCon _ => True | _ => False end ->
  synced (handle r k x).
Proof.
  intros Hx Hr. destruct r; try done; apply synced_or_503; try done; intros s Hs.
  - destruct (b ≫= BudgetUpsert) as [[[[tn u] p] mx]|]; [|done]. by apply (synced_budgets k x s).
  - unfold delete_budget, delete_rows. destruct (has_row budget_id id (budgets s)) eqn:Hh; simpl.
    + by apply (synced_budgets k x s).
    + apply (synced_same x s); try done. by apply (delete_rows_none budget_id).
  - destruct b as [b|]; [|done]. destruct (_ || _); [done|]. destruct (negb _); [done|].
    by apply (synced_content x s).
  - unfold delete_content_policy, delete_rows. destruct (has_row cp_id id (content_policies s)) eqn:Hh; simpl.
    + by apply (synced_content x s).
    + apply (synced_same x s); try done. by apply (delete_rows_none cp_id).
Qed.

(** Prices, keys and tools concern no cache. *)
Lemma synced_other_handlers r k x :
  synced x ->
  match r with
  | UpsertPri _ _ _ | DeletePri _ | SetPolicies _ _ | RemovePolicy _ _ | ReadTenant _ _ _ | SetTenant _ _
  | SetTools _ _ | RemoveTool _ _ => True
  | _ => False
  end -> synced (handle r k x).
Proof.
  intros Hx Hr. destruct r; try done; apply synced_or_503; try done; intros s Hs.
  - destruct b as [[[[pat i] o] cur]|]; [|done]. destruct (bool_decide _); [done|].
    unfold upsert_model_pricing. destruct (py_float i); [|by apply (synced_same x s)].
    destruct (py_float o); [|by apply (synced_same x s)]. destruct (_ || _); by apply (synced_same x s).
  - by apply (synced_same x s).
  - destruct ids; [|done]. by apply (synced_same x s).
  - by apply (synced_same x s).
  - destruct (has_key hash s); [|done]. unfold get_key_tenant. destruct (bool_decide _); [by apply (synced_same x s)|].
    destruct (_ !! hash) as [[v e]|]; [destruct (now <? e)|]; by apply (synced_same x s).
  - destruct b as [[v|]|]; [|done|done].
    assert (forall t, synced (if has_key hash s then (with_store (set_key_tenant hash t s).1 x,
      reply 200 [("api_key_hash", PStr hash); ("tenant_id", opt_str t); ("status", PStr "updated")])
      else (x, no_policies)).1) as Hgo.
    { intros t. destruct (has_key hash s); [|done]. unfold set_key_tenant.
      destruct (bool_decide _); by apply (synced_same x s). }
    destruct v; try done; apply Hgo.
  - destruct names as [names|]; [|done]. unfold set_allowed_tools.
    destruct names; [by apply (synced_same x s)|]. destruct (insert_tools _ _ _ _); by apply (synced_same x s).
  - by apply (synced_same x s).
Qed.

Lemma synced_step r k x : synced x -> synced (handle r k x).
Proof.
  intros Hx. destruct r; first
    [ by apply synced_attestation_handlers | by apply synced_policy_handlers
    | by apply synced_budget_handlers | by apply synced_other_handlers ].
Qed.

Lemma control_api_synced_run l x : synced x -> synced (handle_all l x).
Proof.
  revert x. induction l as [|[r k] l IH]; intros x Hx; [done|]. simpl. apply IH. by apply synced_step.
Qed.

(** C20. The caches follow the store.  From a context whose caches agree with the
    control plane's tables, any sequence of admin requests, accepted or refused,
    leaves them in agreement: the policies in force are the active ones of the
    gateway's tenant, decoded; every attestation entry comes from a row of that tenant
    or is auto-attested under a key no row has; there is one token budget for each
    tenant and user with a row, with the limit of one of its rows, and none for the
    others; an analyzer that has content policies was last configured with exactly
    those.  (One whose last policy is deleted is not told:
    [last_policy_stays_in_force].) *)
Theorem control_api_synced l x : synced x -> synced (handle_all l x).
Proof. apply control_api_synced_run. Qed.

(** An analyzer keeps its last content policies.  Deleting the last policy of an analyzer
    leaves the analyzer as it was: [configure] ignores the empty list, so that the
    deleted policy stays in force until the process restarts or another is made. *)
Theorem last_policy_stays_in_force id k x s a i :
  control_store x = Some s -> a ∈ content_analyzers x -> an_id a = Some i ->
  relevant i (list_content_policies None (delete_content_policy id s).1) = [] ->
  a ∈ content_analyzers (handle (DeleteCon id) k x).
Proof.
  intros Hs Ha Hi Hown. cbn [handle]. unfold control_delete_content_policy, or_503. rewrite Hs.
  destruct (delete_content_policy id s) as [s' [|]]; [|exact Ha]. cbn [fst] in *.
  unfold _refresh_content_policies. cbn [control_store with_store content_analyzers with_analyzers clear_analysis_cache].
  apply list_elem_of_In, in_map_iff. exists a. split; [|by apply list_elem_of_In].
  unfold reconfigure. rewrite Hi, Hown. by destruct i, (configurable a).
Qed.

(** ** What a refresh does to the usage of a budget *)

Definition rows_of_key (k : Budget.key) (l : list budget) : list budget :=
  List.filter (fun b => bool_decide (tracker_key b = k)) l.

(** The state one row's configuration leaves *)
Definition configured_state (now : datetime) (b : budget) (o : option Memory.BudgetState) : Memory.BudgetState :=
  match o with
  | Some st => if decide (Memory.s_period st = period b)
               then Memory.MkState (Memory.s_period st) (Memory.period_start st) (Memory.tokens_used st) (max_tokens b)
               else Memory.MkState (period b) (_period_start (period b) now) 0 (max_tokens b)
  | None => Memory.MkState (period b) (_period_start (period b) now) 0 (max_tokens b)
  end.

Lemma configured_fold l now t k :
  Memory._states (configure_budgets l now t) !! k =
  foldl (fun o b => Some (configured_state now b o)) (Memory._states t !! k) (rows_of_key k l).
Proof.
  unfold configure_budgets. revert t. induction l as [|b l IH]; intros t; [done|]. simpl. rewrite IH, configure_states.
  destruct (decide (tracker_key b = k)) as [Hk|Hk].
  - by rewrite bool_decide_eq_true_2.
  - by rewrite bool_decide_eq_false_2.
Qed.

Lemma refreshed_state l now t k :
  Memory._states (refresh_tracker l now t) !! k =
  match rows_of_key k l with
  | [] => None
  | rows => foldl (fun o b => Some (configured_state now b o)) (Memory._states t !! k) rows
  end.
Proof.
  unfold refresh_tracker. rewrite removed_states, configured_fold.
  change (map tracker_key l) with (tracker_key <$> l).
  destruct (rows_of_key k l) as [|b rows] eqn:Hr.
  - destruct (decide _) as [|Hout]; [done|].
    destruct (Memory._states t !! k) as [st|] eqn:Hst; [|done]. exfalso. apply Hout.
    rewrite elem_of_elements, elem_of_difference, elem_of_list_to_set. split.
    + apply elem_of_dom. rewrite configured_fold, Hr. simpl. by rewrite Hst.
    + intros (b & -> & Hb)%list_elem_of_fmap.
      assert (b ∈ rows_of_key (tracker_key b) l) as Hin.
      { apply list_elem_of_In, filter_In. split; [by apply list_elem_of_In|]. by apply bool_decide_eq_true_2. }
      rewrite Hr in Hin. by apply not_elem_of_nil in Hin.
  - rewrite decide_False; [done|]. rewrite elem_of_elements, elem_of_difference, elem_of_list_to_set.
    intros [_ Hn]. apply Hn. assert (b ∈ rows_of_key k l) as Hin by (rewrite Hr; by left).
    apply list_elem_of_In, filter_In in Hin as [Hin Hk]. zbool. rewrite <- Hk.
    apply list_elem_of_fmap. exists b. split; [done|]. by apply list_elem_of_In.
Qed.

(** When a refresh forgets what was used.  A tenant and user with one budget
    keeps the tokens used across a refresh when the period is the same, and gets the
    new limit.  One with budgets for several periods (the store admits one row per
    period) has a single tracker entry: each refresh gives it the row updated the
    longest ago and sets its usage to zero, whatever was used.  Without a row the entry
    is gone. *)
Theorem refresh_budget_usage l now t k :
  NoDup (budget_key <$> l) ->
  match rows_of_key k l with
  | [] => Memory._states (refresh_tracker l now t) !! k = None
  | [b] => Memory._states (refresh_tracker l now t) !! k = Some (configured_state now b (Memory._states t !! k))
  | b :: rows =>
      let b' := List.last rows b in
      Memory._states (refresh_tracker l now t) !! k
      = Some (Memory.MkState (period b') (_period_start (period b') now) 0 (max_tokens b'))
  end.
Proof.
  intros Hnd. rewrite refreshed_state.
  assert (unique budget_key (rows_of_key k l)) as Hu by by apply unique_filter.
  assert (forall b, b ∈ rows_of_key k l -> tracker_key b = k) as Hk.
  { intros b Hb. apply list_elem_of_In, filter_In in Hb as [_ Hb]. by zbool. }
  destruct (rows_of_key k l) as [|b [|b1 rows]] eqn:Hrows; [done|done|]. cbv zeta. clear Hrows l Hnd.
  destruct (exists_last (l := b1 :: rows)) as (front & z & Hz); [done|].
  rewrite Hz in *. rewrite last_last.
  destruct (exists_last (l := b :: front)) as (front' & y & Hy); [done|].
  change (b :: front ++ [z]) with ((b :: front) ++ [z]) in *. rewrite Hy in *.
  rewrite !foldl_app. simpl. f_equal.
  assert (period y <> period z) as Hne.
  { intros Heq. assert (y = z) as ->.
    { apply (unique_eq budget_key ((front' ++ [y]) ++ [z])); [done| | |].
      - apply elem_of_app. left. apply elem_of_app. right. by apply list_elem_of_singleton.
      - apply elem_of_app. right. by apply list_elem_of_singleton.
      - assert (tracker_key y = tracker_key z) as Ht.
        { rewrite (Hk y), (Hk z); [done| |]; rewrite !elem_of_app, !list_elem_of_singleton; auto. }
        unfold budget_key, tracker_key in *. injection Ht as -> ->. by rewrite Heq. }
    unfold unique in Hu. rewrite !fmap_app in Hu. apply NoDup_app in Hu as (_ & Hu & _). apply (Hu (budget_key z)).
    - apply elem_of_app. right. by apply list_elem_of_singleton.
    - by apply list_elem_of_singleton. }
  set (o := foldl _ _ _).
  assert (Memory.s_period (configured_state now y o) = period y) as Hp.
  { unfold configured_state. destruct o as [st|]; [destruct (decide (Memory.s_period st = period y))|]; done. }
  revert Hp. generalize (configured_state now y o). intros w Hp.
  unfold configured_state. rewrite decide_False; [done|congruence].
Qed.

End api.

(** ** Runs *)

Module ApiRuns.

#[local] Existing Instance StoreRuns.json.

Definition iso (z : Z) : string := z_str z.

Definition start : context :=
  MkContext (Some empty_store) false (Some (Attestation.MkCache 300 ∅)) (Some (Cache.init 900))
    (Some (Memory.MkTracker ∅ None [] ∅)) [MkAnalyzer (Some "walacor.pii.v1") true []] ∅.

Definition at_ (n : Z) : clock := MkClock n (fun _ => n) n (Memory.noon 1).

Definition gpt_policy : policy_data :=
  MkPolData (Some "p1") (Some "models") (Some "active") None (Some StoreRuns.rule) None None None None.

Definition reqs : list (request * clock) :=
  [(CreatePol (Some gpt_policy) "u1", at_ 1);
   (UpsertBud (Some (MkBudgetBody None None (Some " bob ") None (Some 100))) "u2", at_ 2);
   (UpsertBud (Some (MkBudgetBody None None (Some "bob") (Some "hourly") (Some 5))) "u3", at_ 3);
   (UpsertAtt (Some (MkAttBody (Some "gpt-4") None None None None (Some "openai") None None)) "u4", at_ 4);
   (RevokeAtt "u4" "u5", at_ 5)].

Lemma control_api_synced_witness :
  let x := handle_all iso "gw" reqs start in
  synced iso "gw" x
  /\ (Cache.get_policies <$> policy_cache x) = Some [policy_dict iso (MkDecoded (policy_row (default gpt_policy
        (PolicyCreate "gw" gpt_policy)) "p1" 1) StoreRuns.rule (PList []) (PList []))].
Proof.
  cbv zeta. split; [|vm_compute; reflexivity]. apply control_api_synced.
  - intros v. simpl. destruct v as [| | | |s|[|v l]|d|s]; simpl; by eexists.
  - intros s [= <-]. split_and!.
    + intros p Hp. by apply not_elem_of_nil in Hp.
    + intros c [= <-] k. simpl. rewrite lookup_empty. apply not_elem_of_nil.
    + intros c [= <-]. exists []. done.
    + intros t [= <-] k. simpl. rewrite lookup_empty. apply not_elem_of_nil.
    + intros a i Ha. apply list_elem_of_singleton in Ha as ->. done.
Defined.

(** The analyzer's only policy is made and deleted: its table is empty again and the
    policy still in force. *)
Lemma last_policy_stays_in_force_witness :
  let x := handle iso "gw" (UpsertCon (Some (MkContentBody "gw" "walacor.pii.v1" "ssn" "block" (PInt 0))) "c1")
             (at_ 1) start in
  exists a, a ∈ content_analyzers (handle iso "gw" (DeleteCon "c1") (at_ 2) x)
    /\ map (map action) (configured a) = [["block"]].
Proof.
  intros x. exists (default (MkAnalyzer None false []) (head (content_analyzers x))).
  split; [|vm_compute; reflexivity].
  apply (last_policy_stays_in_force iso "gw" "c1" (at_ 2) x (default empty_store (control_store x)) _ "walacor.pii.v1").
  - vm_compute. reflexivity.
  - vm_compute. by left.
  - vm_compute. reflexivity.
  - vm_compute. reflexivity.
Defined.

Definition daily : budget := MkBudget "b1" "gw" "bob" "daily" 100 0 2.
Definition monthly : budget := MkBudget "b2" "gw" "bob" "monthly" 1000 0 1.

(** Fifty tokens of the monthly budget are used; the refresh forgets them. *)
Lemma refresh_budget_usage_witness :
  Memory._states (refresh_tracker [daily; monthly] (Memory.noon 1)
    (Memory.MkTracker {[("gw", "bob") := Memory.MkState "monthly" (_period_start "monthly" (Memory.noon 1)) 50 1000]}
       None [] ∅)) !! ("gw", "bob")
  = Some (Memory.MkState "monthly" (_period_start "monthly" (Memory.noon 1)) 0 1000).
Proof.
  assert (NoDup (budget_key <$> [daily; monthly])) as Hnd by (apply (bool_decide_unpack _); vm_compute; exact I).
  exact (refresh_budget_usage [daily; monthly] (Memory.noon 1) _ ("gw", "bob") Hnd).
Defined.

End ApiRuns.
