(* ===== verification/ControlSync.v ===== *)
(** * Keeping the gateway in step with a control plane

    The local loader (control/loader.py), the client of a remote control plane
    (sync/sync_client.py) with the loop that runs it (main.py), the endpoints another
    gateway serves it (control/sync_api.py), and the first step of the request
    pipeline on the store itself: [_attestation_check] with the rows it reads and the
    row it writes.  The HTTP session is an argument: what the server answers to each
    request. *)
From S2P Require Import Prelude ODict PyVal PolicyEngine Attestation Budget ControlStore ControlApi.

Local Open Scope Z_scope.

Section loader.
Context `{JsonText} (iso : Z -> string).
Variable gateway_tenant_id : string.

(** ** [load_into_caches] *)

Definition load_attestations (s : store) (k : clock) (x : context) : context :=
  match attestation_cache x with
  | Some c => with_att (set_proofs (clear c) (get_attestation_proofs gateway_tenant_id s) (c_att k)) x
  | None => x
  end.

Definition load_policies (s : store) (k : clock) (x : context) : context * res unit :=
  match policy_cache x with
  | Some c =>
      match get_active_policies gateway_tenant_id s with
      | Raise e => (x, Raise e)
      | Ok ps =>
          let '(c, v) := Cache.next_version c in
          (with_policy (Cache.set_policies c v (map (policy_dict iso) ps) (c_policy k)) x, Ok tt)
      end
  | None => (x, Ok tt)
  end.

(** Only the gateway's own tenant, and nothing is removed *)
Definition load_budgets (s : store) (k : clock) (x : context) : context :=
  match budget_tracker x with
  | Some t => with_budget (configure_budgets (list_budgets gateway_tenant_id s) (c_budget k) t) x
  | None => x
  end.

Definition load_into_caches (s : store) (k : clock) (x : context) : context * res unit :=
  let '(x, out) := if sync_client x then (x, Ok tt) else load_policies s k (load_attestations s k x) in
  match out with
  | Raise e => (x, Raise e)
  | Ok _ => (_refresh_content_policies (load_budgets s k x), Ok tt)
  end.

(** One turn of [_run_local_sync_loop]: an error is logged. *)
Definition local_sync_turn (k : clock) (x : context) : context :=
  match control_store x with None => x | Some s => (load_into_caches s k x).1 end.

(** ** The endpoints for other gateways *)

Definition sync_attestation_proofs (tenant : string) (x : context) : res (list (string * Attestation.proof)) :=
  match control_store x with
  | None => Raise (OtherError "503")
  | Some s => Ok (get_attestation_proofs tenant s)
  end.

Definition sync_policies_endpoint (tenant : string) (x : context) : res (list dict) :=
  match control_store x with
  | None => Raise (OtherError "503")
  | Some s => let! ps := get_active_policies tenant s in Ok (map (policy_dict iso) ps)
  end.
End loader.

(** ** [SyncClient] *)

Definition _ATTESTATION_FETCH_LIMIT : Z := 1000.
Definition _POLICY_FETCH_LIMIT : Z := 500.

Record client := MkClient {
  cl_attestations : Attestation.cache;
  cl_policies : Cache.cache;
  _last_attestation_sync : option Z;
  _last_policy_sync : option Z;
}.

(** The server's answers: the proofs for a limit and an offset (an HTTP error or
    invalid JSON raises), the policies likewise *)
Definition proof_server : Type := Z -> Z -> res (list Attestation.proof).
Definition policy_server : Type := Z -> Z -> res (list dict).

(** The [while True] loop; [None] when the fuel runs out *)
Fixpoint fetch_proofs (fuel : nat) (server : proof_server) (limit offset : Z) (all_proofs : list Attestation.proof)
    : option (res (list Attestation.proof)) :=
  match fuel with
  | O => None
  | S fuel =>
      match server limit offset with
      | Raise e => Some (Raise e)
      | Ok proofs =>
          let all_proofs := all_proofs ++ proofs in
          if zlen proofs <? limit then Some (Ok all_proofs)
          else fetch_proofs fuel server limit (offset + limit) all_proofs
      end
  end.

(** All proofs are filed under the one provider asked for. *)
Definition fill (prov : string) (l : list Attestation.proof) (now : nat -> Z) (c : Attestation.cache)
    : Attestation.cache :=
  set_proofs (clear c) (map (fun p => (prov, p)) l) now.

Definition sync_attestations (fuel : nat) (server : proof_server) (prov : string) (now : nat -> Z) (at_ : Z) (c : client)
    : option (client * bool) :=
  match fetch_proofs fuel server _ATTESTATION_FETCH_LIMIT 0 [] with
  | None => None
  | Some (Raise _) => Some (c, false)
  | Some (Ok l) =>
      Some (MkClient (fill prov l now (cl_attestations c)) (cl_policies c) (Some at_) (_last_policy_sync c), true)
  end.

Definition sync_policies (server : policy_server) (now at_ : Z) (c : client) : client * bool :=
  match server _POLICY_FETCH_LIMIT 0 with
  | Raise _ => (c, false)
  | Ok ps =>
      let '(pc, v) := Cache.next_version (cl_policies c) in
      (MkClient (cl_attestations c) (Cache.set_policies pc v ps now) (_last_attestation_sync c) (Some at_), true)
  end.

(** [startup_sync]: both run, then a failure of either raises. *)
Definition startup_sync (fuel : nat) (server : proof_server) (pserver : policy_server) (prov : string)
    (now : nat -> Z) (pnow at_ : Z) (c : client) : option (client * res unit) :=
  match sync_attestations fuel server prov now at_ c with
  | None => None
  | Some (c, a_ok) =>
      let '(c, p_ok) := sync_policies pserver pnow at_ c in
      Some (c, if negb a_ok then Raise (OtherError "could not fetch attestations from control plane")
               else if negb p_ok then Raise (OtherError "could not fetch policies from control plane")
               else Ok tt)
  end.

(** ** The periodic loop (main.py); seconds of back-off are whole *)

Definition _next_backoff (current cap : Z) : Z :=
  let step := if current =? 0 then 5 else current * 2 + 5 in Z.min step cap.

Definition _sync_once (fuel : nat) (server : proof_server) (pserver : policy_server) (prov : string)
    (now : nat -> Z) (pnow at_ : Z) (backoff cap : Z) (c : client) : option (client * Z) :=
  match sync_attestations fuel server prov now at_ c with
  | None => None
  | Some (c, a_ok) =>
      let '(c, p_ok) := sync_policies pserver pnow at_ c in
      Some (c, if a_ok && p_ok then 0 else _next_backoff backoff cap)
  end.

(** ** The attestation step on the store *)

Definition store_row_of (r : attestation) : Attestation.store_row := MkRow (model_id r) (provider r) (status r).

(** What auto-attestation writes: the identifier names the model only. *)
Definition self_data (gw prov model : string) : attestation_data :=
  MkAttData (Some ("self-attested:" +:+ model)%string) (Some gw) (Some model) (Some prov) (Some "active")
    (Some "auto_attested") (Some "Auto-attested on first use") None.

(** [_attestation_check] without a sync client; [c] is the context's cache.  The
    store's error is not caught. *)
Definition attest (cfg : Attestation.settings) (is_audit_only : bool) (prov model tenant : string)
    (now : nat -> Z) (at_ : Z) (c : Attestation.cache) (x : context) : context * res check_result :=
  let gw := Attestation.gateway_tenant_id cfg in
  let rows := (fun s => map store_row_of (list_attestations gw s)) <$> control_store x in
  let r := _attestation_check c cfg is_audit_only None rows prov model tenant now in
  let x := with_att (cache_after r) x in
  match upserted r, control_store x with
  | Some _, Some s =>
      match upsert_attestation (self_data gw prov model) "" at_ s with
      | (s, Ok _) => (with_store s x, Ok r)
      | (s, Raise e) => (with_store s x, Raise e)
      end
  | _, _ => (x, Ok r)
  end.

(** ** Lemmas *)

Lemma listed r gw s : gw <> "" -> r ∈ list_attestations gw s <-> r ∈ attestations s /\ a_tenant_id r = gw.
Proof.
  intros Hgw. unfold list_attestations, list_rows. rewrite isort_perm, (bool_decide_eq_false_2 _ Hgw).
  rewrite list_elem_of_In, filter_In, <- list_elem_of_In, bool_decide_eq_true. done.
Qed.

Lemma listed_all r s : r ∈ list_attestations "" s <-> r ∈ attestations s.
Proof. unfold list_attestations, list_rows. by rewrite isort_perm. Qed.

Lemma find_listed s r :
  wf s -> r ∈ attestations s ->
  List.find (fun x => bool_decide (attestation_id x = attestation_id r)) (list_attestations "" s) = Some r.
Proof.
  intros Hwf Hr. apply (find_row_unique attestation_id); [|by apply listed_all].
  unfold unique, list_attestations, list_rows. simpl. rewrite isort_perm. apply Hwf.
Qed.

(** The row a revocation leaves *)
Definition revoked_row (r : attestation) (now : Z) : attestation :=
  overwritten (attestation_row (data_of r "revoked") (attestation_id r) now) r.

Definition revoked_store (r : attestation) (now : Z) (s : store) : store :=
  with_attestations (update_rows attestation_id (attestation_id r)
    (overwritten (attestation_row (data_of r "revoked") (attestation_id r) now)) (attestations s)) s.

Lemma revoke_store r fresh now s :
  wf s -> r ∈ attestations s -> attestation_id r <> "" ->
  upsert_attestation (data_of r "revoked") fresh now s
  = (revoked_store r now s, Ok (revoked_row r now)).
Proof.
  intros Hwf Hr Hid. unfold upsert_attestation.
  assert (or_new (d_attestation_id (data_of r "revoked")) fresh = attestation_id r) as ->.
  { simpl. by destruct (attestation_id r). }
  set (r0 := attestation_row _ _ _).
  assert (find_row attestation_id (attestation_id r) (attestations s) = Some r) as Hfind
    by (apply find_row_unique; [apply Hwf|done]).
  assert (find_row natural_key (natural_key r0) (attestations s) = Some r) as Hnat.
  { replace (natural_key r0) with (natural_key r) by done. apply find_row_unique; [apply Hwf|done]. }
  rewrite (conflict_row r0 _ _ (wf_attestations s Hwf)), Hnat, (find_row_has _ _ _ _ Hfind).
  rewrite bool_decide_eq_true_2 by done.
  replace (match d_attestation_id (data_of r "revoked") with None | Some EmptyString => false | Some _ => true end)
    with true by (simpl; by destruct (attestation_id r)).
  cbn [andb negb]. by rewrite find_row_update, Hfind.
Qed.

Section revocation.
Context `{JsonText} (iso : Z -> string).

Lemma revoke_handler gw r fresh k x s :
  wf s -> control_store x = Some s -> r ∈ attestations s -> attestation_id r <> "" ->
  handle iso gw (RevokeAtt (attestation_id r) fresh) k x
  = _refresh_attestation_cache gw k (with_store (revoked_store r (c_store k) s) x).
Proof.
  intros Hwf Hs Hr Hid. cbn [handle]. unfold control_revoke_attestation, or_503.
  by rewrite Hs, (find_listed s r Hwf Hr), (revoke_store r fresh (c_store k) s Hwf Hr Hid).
Qed.

Lemma refresh_keeps_cache gw k x s c :
  control_store x = Some s -> attestation_cache x = Some c ->
  exists c', attestation_cache (_refresh_attestation_cache gw k x) = Some c'
             /\ control_store (_refresh_attestation_cache gw k x) = Some s.
Proof. intros Hs Hc. unfold _refresh_attestation_cache. rewrite Hs, Hc. by eexists. Qed.

(** The rows after the revocation *)
Lemma revoked_rows r now s y :
  wf s -> r ∈ attestations s ->
  y ∈ attestations (revoked_store r now s) -> y = revoked_row r now \/ (y ∈ attestations s /\ y <> r).
Proof.
  intros Hwf Hr Hy. unfold revoked_store, update_rows in Hy. simpl in Hy.
  apply list_elem_of_In, in_map_iff in Hy as (z & <- & Hz). apply list_elem_of_In in Hz.
  destruct (decide (attestation_id z = attestation_id r)) as [He|He].
  - left. by rewrite (unique_eq attestation_id _ z r (wf_attestation_ids s Hwf) Hz Hr He).
  - right. split; [done|congruence].
Qed.

Lemma revoked_in r now s : r ∈ attestations s -> revoked_row r now ∈ attestations (revoked_store r now s).
Proof.
  intros Hr. unfold revoked_store, update_rows. simpl. apply list_elem_of_In, in_map_iff. exists r.
  split; [by rewrite decide_True|by apply list_elem_of_In].
Qed.

Lemma revoked_entry ttl r now n : status (revoked_row r now) = "revoked" /\
  is_blocked (entry_of ttl (revoked_row r now) n) = true.
Proof. by split. Qed.

Lemma blocked_refused c e prov model tenant tr now :
  get c prov model tenant = Some e -> is_blocked e = true ->
  resolve_attestation c prov model tenant tr now = (c, inr Revoked).
Proof. intros Hg Hb. unfold resolve_attestation, check_entry. by rewrite Hg, Hb. Qed.

(** C8. A revocation takes effect.  When an admin revokes an attestation of the
    gateway's tenant, no other row being the same model of the same tenant up to case
    and spaces, the next request of that tenant for that model, spelled as in the row,
    is not attested at any time: in enforcing mode it is refused with 403, in audit-only
    mode it goes on under the audit-only identifier and is reported as one that would
    have been blocked.  Neither the refreshed cache nor auto-attestation lets it
    through, strict or not, and the store keeps the revoked row.  (Spelled with other
    spaces, it is let through: [respelling_lifts_revocation].) *)
Theorem revocation_enforced cfg audit r fresh k x s c now at_ :
  wf s -> control_store x = Some s -> attestation_cache x = Some c ->
  r ∈ attestations s -> attestation_id r <> "" ->
  a_tenant_id r = Attestation.gateway_tenant_id cfg -> a_tenant_id r <> "" ->
  (forall r', r' ∈ attestations s -> row_key r' = row_key r -> r' = r) ->
  let x' := handle iso (a_tenant_id r) (RevokeAtt (attestation_id r) fresh) k x in
  exists c', attestation_cache x' = Some c' /\
  exists x2 chk, attest cfg audit (provider r) (model_id r) (a_tenant_id r) now at_ c' x' = (x2, Ok chk)
    /\ error chk = (if audit then None else Some 403) /\ would_block chk = audit
    /\ att_id chk = _AUDIT_ONLY_ATTESTATION_ID
    /\ control_store x2 = Some (revoked_store r (c_store k) s).
Proof.
  intros Hwf Hs Hc Hr Hid Hgw Hne Huniq x'. set (gw := a_tenant_id r) in *.
  unfold x'. rewrite (revoke_handler gw r fresh k x s Hwf Hs Hr Hid).
  set (s' := revoked_store r (c_store k) s). set (x1 := with_store s' x).
  assert (control_store x1 = Some s') as Hs1 by done.
  assert (attestation_cache x1 = Some c) as Hc1 by done.
  destruct (refresh_keeps_cache gw k x1 s' c Hs1 Hc1) as (c' & Hc' & Hs').
  exists c'. split; [done|].
  pose proof (refresh_attestations_match gw k x1 s' c c' Hs1 Hc1 Hc') as Hm.
  set (rv := revoked_row r (c_store k)).
  assert (rv ∈ list_attestations gw s') as Hrv.
  { apply listed; [done|]. split; [by apply revoked_in|done]. }
  assert (exists e, get c' (provider r) (model_id r) gw = Some e /\ is_blocked e = true) as (e & He & Hb).
  { unfold get. specialize (Hm (row_key r)). change (row_key r) with (_key (provider r) (model_id r) gw) in Hm.
    destruct (_cache c' !! _key (provider r) (model_id r) gw) as [e|].
    - exists e. split; [done|]. destruct Hm as [(y & n & Hy & Hk & ->)|[_ Hno]].
      + apply listed in Hy as [Hy _]; [|done]. apply (revoked_rows r _ s y Hwf Hr) in Hy as [->|[Hy Hyr]]; [done|].
        destruct Hyr. by apply Huniq.
      + destruct Hno. apply list_elem_of_fmap. by exists rv.
    - destruct Hm. apply list_elem_of_fmap. by exists rv. }
  unfold attest, _attestation_check. rewrite <- Hgw.
  rewrite (blocked_refused c' e _ _ _ _ now He Hb).
  assert (can_auto_attest cfg None ((fun s => map store_row_of (list_attestations gw s)) <$>
    control_store (_refresh_attestation_cache gw k x1)) (provider r) (model_id r) = false) as ->.
  { rewrite Hs'. simpl. destruct (strict_model_allowlist cfg); [done|].
    destruct (List.filter _ (map store_row_of (list_attestations gw s'))) as [|a l] eqn:Hf.
    - exfalso. assert (store_row_of rv ∈ List.filter (fun a => bool_decide (r_model_id a = model_id r) &&
        bool_decide (r_provider a = provider r)) (map store_row_of (list_attestations gw s'))) as Hin.
      { apply list_elem_of_In, filter_In. split.
        - apply in_map. by apply list_elem_of_In.
        - simpl. by rewrite !bool_decide_eq_true_2. }
      rewrite Hf in Hin. by apply not_elem_of_nil in Hin.
    - assert (In a (a :: l)) as Ha by by left. rewrite <- Hf in Ha. apply filter_In in Ha as [Ha Hb'].
      apply in_map_iff in Ha as (y & <- & Hy). apply list_elem_of_In, listed in Hy as [Hy Hyt]; [|done].
      apply andb_true_iff in Hb' as [Hym Hyp]. zbool. simpl in Hym, Hyp.
      apply (revoked_rows r _ s y Hwf Hr) in Hy as [->|[Hy Hyr]]; [done|]. destruct Hyr. apply Huniq; [done|].
      unfold row_key. by rewrite Hym, Hyp, Hyt. }
  rewrite Hs'. destruct audit; eexists _, _; by split_and!.
Qed.

Lemma refresh_keeps_auto gw k x s c prov model tenant e :
  control_store x = Some s -> attestation_cache x = Some c ->
  get c prov model tenant = Some e -> auto_attested e = true ->
  _key prov model tenant ∉ row_key <$> list_attestations gw s ->
  exists c', attestation_cache (_refresh_attestation_cache gw k x) = Some c' /\ get c' prov model tenant = Some e.
Proof.
  intros Hs Hc Hg Ha Hk. unfold _refresh_attestation_cache. rewrite Hs, Hc. eexists. split; [done|].
  unfold get. simpl. unfold get_attestation_proofs.
  destruct (set_proofs_lookup (list_attestations gw s) (clear c) (c_att k) (_key prov model tenant)) as [_ Hl].
  rewrite decide_False in Hl by done. rewrite lookup_union_r by (rewrite Hl; apply lookup_empty).
  by apply map_lookup_filter_Some.
Qed.

(** An entry that is neither blocked nor expired is served. *)
Lemma served cfg audit prov model tenant now at_ c x e :
  get c prov model tenant = Some e -> is_blocked e = false -> (forall i, is_expired e (now i) = false) ->
  exists x2 chk, attest cfg audit prov model tenant now at_ c x = (x2, Ok chk)
  /\ error chk = None /\ would_block chk = false /\ att_id chk = Attestation.attestation_id e.
Proof.
  intros Hg Hb He. unfold attest, _attestation_check, resolve_attestation. rewrite Hg.
  unfold check_entry. rewrite Hb. rewrite !He. simpl. do 2 eexists. by split_and!.
Qed.

Lemma revoked_keys gw r now s k :
  wf s -> r ∈ attestations s -> k ∉ row_key <$> attestations s ->
  k ∉ row_key <$> list_attestations gw (revoked_store r now s).
Proof.
  intros Hwf Hr Hk (y & -> & Hy)%list_elem_of_fmap. apply list_rows_in in Hy.
  apply Hk, list_elem_of_fmap. apply (revoked_rows r now s y Hwf Hr) in Hy as [->|[Hy _]]; [by exists r|by exists y].
Qed.

(** A revocation does not reach the other tenants.  An auto-attested entry of the
    cache whose provider, model and tenant are no row's survives the revocation of any
    row: as long as it has not expired its tenant goes on using the model, although
    auto-attestation recorded the model under the gateway's tenant only, in the row that
    was revoked. *)
Theorem revocation_misses_other_tenants cfg gw r fresh k x s c prov model tenant e now at_ :
  wf s -> control_store x = Some s -> attestation_cache x = Some c ->
  r ∈ attestations s -> attestation_id r <> "" ->
  get c prov model tenant = Some e -> auto_attested e = true -> is_blocked e = false ->
  (forall i, is_expired e (now i) = false) -> _key prov model tenant ∉ row_key <$> attestations s ->
  let x' := handle iso gw (RevokeAtt (attestation_id r) fresh) k x in
  exists c' x2 chk, attestation_cache x' = Some c'
  /\ attest cfg false prov model tenant now at_ c' x' = (x2, Ok chk)
  /\ error chk = None /\ att_id chk = Attestation.attestation_id e.
Proof.
  intros Hwf Hs Hc Hr Hid Hg Ha Hb He Hk x'. unfold x'. rewrite (revoke_handler gw r fresh k x s Hwf Hs Hr Hid).
  destruct (refresh_keeps_auto gw k (with_store (revoked_store r (c_store k) s) x) (revoked_store r (c_store k) s) c
    prov model tenant e) as (c' & Hc' & Hg'); try done; [by apply revoked_keys|].
  destruct (served cfg false prov model tenant now at_ c'
    (_refresh_attestation_cache gw k (with_store (revoked_store r (c_store k) s) x)) e Hg' Hb He)
    as (x2 & chk & H1 & H2 & _ & H3).
  by exists c', x2, chk.
Qed.

(** A revocation is lifted by a space.  The cache knows a model by its name without the
    spaces around it, the search for revoked rows by its exact name.  A request that
    spells a revoked model with other spaces is therefore auto-attested, and the entry
    it leaves is the model's own: until it expires or the cache is refreshed, the
    requests that spell the model as it was revoked pass too. *)
Theorem respelling_lifts_revocation cfg prov model model' tenant now c s e :
  strict_model_allowlist cfg = false ->
  get c prov model tenant = Some e -> is_blocked e = true -> strip model' = strip model ->
  (forall r, r ∈ list_attestations (Attestation.gateway_tenant_id cfg) s -> model_id r <> model') ->
  let rows := Some (map store_row_of (list_attestations (Attestation.gateway_tenant_id cfg) s)) in
  let chk := _attestation_check c cfg false None rows prov model' tenant now in
  error chk = None
  /\ forall now' at_ x, (forall i, now' i - now 3%nat <= seconds (attestation_cache_ttl cfg)) ->
     exists x2 chk2, attest cfg false prov model tenant now' at_ (cache_after chk) x = (x2, Ok chk2)
       /\ error chk2 = None.
Proof.
  intros Hstrict Hg Hb Hsp Hrows rows chk.
  assert (get c prov model' tenant = Some e) as Hg' by (revert Hg; unfold get, _key; by rewrite Hsp).
  assert (can_auto_attest cfg None rows prov model' = true) as Hauto.
  { unfold can_auto_attest. rewrite Hstrict. unfold rows. simpl.
    destruct (List.filter _ _) as [|a l] eqn:Hf; [done|]. exfalso.
    assert (In a (a :: l)) as Ha by by left. rewrite <- Hf in Ha. apply filter_In in Ha as [Ha Hm].
    apply in_map_iff in Ha as (y & <- & Hy). apply andb_true_iff in Hm as [Hm _]. zbool.
    apply (Hrows y); [by apply list_elem_of_In|done]. }
  unfold chk, _attestation_check. rewrite (blocked_refused c e _ _ _ _ now Hg' Hb), Hauto.
  cbn [error cache_after]. split; [done|]. intros now' at_ x Hnow.
  destruct (served cfg false prov model tenant now' at_
    (set c (Attestation.MkAttestation ("self-attested:" +:+ model') model' prov "active" (now 3%nat)
              (attestation_cache_ttl cfg) tenant "self_attested" None None)) x
    (Attestation.MkAttestation ("self-attested:" +:+ model') model' prov "active" (now 3%nat)
       (attestation_cache_ttl cfg) tenant "self_attested" None None)) as (x2 & chk2 & H1 & H2 & _).
  - unfold get, set. cbn [_cache Attestation.provider Attestation.model_id Attestation.tenant_id].
    unfold _key. rewrite Hsp. by rewrite lookup_insert_eq.
  - done.
  - intros i. unfold is_expired. cbn [Attestation.ttl_seconds fetched_at]. apply Z.ltb_ge, Hnow.
  - by exists x2, chk2.
Qed.

(** A deleted attestation can stay in force.  Deleting the row of a model whose
    cache entry is self-attested or auto-attested (the level the API gives when none is
    named) leaves the entry in the cache, where requests keep resolving it until it
    expires or the next full load. *)
Theorem deletion_keeps_auto_attested cfg gw r k x s c e now at_ :
  wf s -> control_store x = Some s -> attestation_cache x = Some c -> r ∈ attestations s ->
  (forall r', r' ∈ attestations s -> row_key r' = row_key r -> r' = r) ->
  get c (provider r) (model_id r) (a_tenant_id r) = Some e -> auto_attested e = true -> is_blocked e = false ->
  (forall i, is_expired e (now i) = false) ->
  let x' := handle iso gw (DeleteAtt (attestation_id r)) k x in
  exists c' x2 chk, attestation_cache x' = Some c'
  /\ (forall s', control_store x' = Some s' -> r ∉ attestations s')
  /\ attest cfg false (provider r) (model_id r) (a_tenant_id r) now at_ c' x' = (x2, Ok chk)
  /\ error chk = None /\ att_id chk = Attestation.attestation_id e.
Proof.
  intros Hwf Hs Hc Hr Huniq Hg Ha Hb He x'. unfold x'. cbn [handle].
  unfold control_delete_attestation, or_503, delete_attestation, delete_rows. rewrite Hs.
  assert (has_row attestation_id (attestation_id r) (attestations s) = true) as ->
    by (apply has_row_in, list_elem_of_fmap; by exists r).
  cbn [fst]. set (l := List.filter _ _). set (s' := with_attestations l s). set (x1 := with_store s' x).
  assert (r ∉ l) as Hout.
  { intros [_ Hn]%list_elem_of_In%filter_In. by rewrite bool_decide_eq_true_2 in Hn. }
  destruct (refresh_keeps_auto gw k x1 s' c (provider r) (model_id r) (a_tenant_id r) e) as (c' & Hc' & Hg'); try done.
  { intros (y & Hk & Hy)%list_elem_of_fmap. apply list_rows_in in Hy. simpl in Hy.
    assert (y ∈ attestations s) as Hys by (apply list_elem_of_In, filter_In in Hy as [Hy _]; by apply list_elem_of_In).
    by rewrite (Huniq y Hys (eq_sym Hk)) in Hy. }
  destruct (served cfg false (provider r) (model_id r) (a_tenant_id r) now at_ c'
    (_refresh_attestation_cache gw k x1) e Hg' Hb He) as (x2 & chk & H1 & H2 & _ & H3).
  exists c', x2, chk. split_and!; try done.
  intros s0 Hs0. destruct (refresh_keeps_cache gw k x1 s' c) as (_ & _ & Hs2); [done|done|].
  rewrite Hs2 in Hs0. injection Hs0 as <-. exact Hout.
Qed.

(** Auto-attestation of one name under two providers.  The row it writes is
    identified by the model alone.  When a row with that identifier exists for another
    provider, an auto-attested request moves it: the other provider's row is gone, and
    with it its status, a revocation included.  When a row of the requested provider
    already exists under another identifier, the store raises and the request fails. *)
Theorem auto_attestation_collides cfg prov model tenant now at_ c x s r :
  let gw := Attestation.gateway_tenant_id cfg in
  wf s -> control_store x = Some s -> strict_model_allowlist cfg = false ->
  r ∈ attestations s -> attestation_id r = ("self-attested:" +:+ model)%string ->
  natural_key r <> (gw, prov, model) -> get c prov model tenant = None ->
  can_auto_attest cfg None (Some (map store_row_of (list_attestations gw s))) prov model = true ->
  match find_row natural_key (gw, prov, model) (attestations s) with
  | None => exists x2 s2 chk, attest cfg false prov model tenant now at_ c x = (x2, Ok chk) /\ error chk = None
            /\ control_store x2 = Some s2 /\ find_row natural_key (natural_key r) (attestations s2) = None
  | Some _ => exists x2, attest cfg false prov model tenant now at_ c x = (x2, Raise IntegrityError)
  end.
Proof.
  intros gw Hwf Hs Hstrict Hr Hid Hne Hg Hauto. unfold attest. fold gw. rewrite Hs. simpl fmap.
  unfold _attestation_check, resolve_attestation. rewrite Hg. fold gw.
  change (Some (map store_row_of (list_attestations gw s)))
    with ((Some (map store_row_of (list_attestations gw s))) : option (list Attestation.store_row)).
  rewrite Hauto. cbn [upserted cache_after control_store with_att]. rewrite Hs.
  unfold upsert_attestation. change (or_new _ _) with ("self-attested:" +:+ model)%string.
  cbn [self_data d_attestation_id]. rewrite <- Hid.
  assert (find_row attestation_id (attestation_id r) (attestations s) = Some r) as Hfind
    by (apply find_row_unique; [apply Hwf|done]).
  rewrite (find_row_has _ _ _ _ Hfind).
  set (r0 := attestation_row _ _ _). rewrite (conflict_row r0 _ _ (wf_attestations s Hwf)).
  change (natural_key r0) with (gw, prov, model).
  assert (match attestation_id r with EmptyString => false | String _ _ => true end = true) as Hex by by rewrite Hid.
  rewrite Hex. cbn [andb].
  destruct (find_row natural_key (gw, prov, model) (attestations s)) as [y|] eqn:Hy.
  - rewrite bool_decide_eq_false_2.
    + cbn [negb]. by eexists.
    + intros Heq. apply find_row_some in Hy as [Hin Hk].
      by rewrite (unique_eq attestation_id _ y r (wf_attestation_ids s Hwf) Hin Hr Heq) in Hk.
  - rewrite find_row_update, Hfind by done. cbn [fst snd].
    eexists _, _, _. split; [done|]. split_and!; [done|done|]. simpl.
    apply find_row_none, has_row_out. intros (y & Hk & Hin)%list_elem_of_fmap.
    unfold update_rows in Hin. apply list_elem_of_In, in_map_iff in Hin as (z & <- & Hz). apply list_elem_of_In in Hz.
    destruct (decide (attestation_id z = attestation_id r)) as [He|He]; [done|].
    apply He. by rewrite (unique_eq natural_key _ z r (wf_attestations s Hwf) Hz Hr (eq_sym Hk)).
Qed.

End revocation.

(** ** The sync client *)

(** A server that pages a fixed list *)
Definition paged (l : list Attestation.proof) : proof_server :=
  fun limit offset => Ok (take (Z.to_nat limit) (drop (Z.to_nat offset) l)).

(** The gateway's own endpoint: it reads neither the limit nor the offset. *)
Definition own_endpoint (tenant : string) (x : context) : proof_server :=
  fun _ _ => let! l := sync_attestation_proofs tenant x in Ok (map snd l).

Lemma fetch_paged fuel l limit offset acc :
  0 < limit -> 0 <= offset -> zlen (drop (Z.to_nat offset) l) < Z.of_nat fuel * limit ->
  fetch_proofs fuel (paged l) limit offset acc = Some (Ok (acc ++ drop (Z.to_nat offset) l)).
Proof.
  intros Hlim. revert offset acc. induction fuel as [|fuel IH]; intros offset acc Hoff Hf; unfold zlen in *; [lia|].
  cbn [fetch_proofs]. unfold paged at 1. unfold zlen. rewrite length_take.
  set (d := drop (Z.to_nat offset) l) in *.
  destruct (Z.of_nat (Z.to_nat limit `min` length d) <? limit) eqn:Hz; zbool.
  - rewrite take_ge by lia. done.
  - assert (drop (Z.to_nat (offset + limit)) l = drop (Z.to_nat limit) d) as Hd.
    { unfold d. rewrite drop_drop. f_equal. lia. }
    rewrite IH, Hd; [|lia|].
    + by rewrite <- (assoc_L (++)), take_drop.
    + rewrite Hd, length_drop. rewrite Nat2Z.inj_succ, Z.mul_succ_l in Hf. lia.
Qed.

Lemma fetch_endless fuel l limit offset acc :
  limit <= zlen l -> fetch_proofs fuel (fun _ _ => Ok l) limit offset acc = None.
Proof.
  intros Hl. revert offset acc. induction fuel as [|fuel IH]; intros offset acc; [done|]. cbn [fetch_proofs].
  destruct (zlen l <? limit) eqn:Hz; zbool; [lia|]. apply IH.
Qed.

(** Pulling all attestations.  Against a server that pages its list, the client
    ends after one request per full page and one more, with the whole list, in order,
    in its cache.  A request that fails leaves the client as it was.  Against the
    endpoint the gateway itself serves, which ignores the offset, it ends with one
    request when there are fewer than a thousand attestations and never ends, its list
    growing at each turn, when there are more. *)
Theorem sync_attestations_exact fuel prov now at_ c :
  (forall l, zlen l < Z.of_nat fuel * _ATTESTATION_FETCH_LIMIT ->
   sync_attestations fuel (paged l) prov now at_ c
   = Some (MkClient (fill prov l now (cl_attestations c)) (cl_policies c) (Some at_) (_last_policy_sync c), true))
  /\ (forall server e, server _ATTESTATION_FETCH_LIMIT 0 = Raise e -> fuel <> O ->
      sync_attestations fuel server prov now at_ c = Some (c, false))
  /\ (forall tenant x s, control_store x = Some s -> fuel <> O ->
      let l := map snd (get_attestation_proofs tenant s) in
      sync_attestations fuel (own_endpoint tenant x) prov now at_ c
      = if zlen l <? _ATTESTATION_FETCH_LIMIT
        then Some (MkClient (fill prov l now (cl_attestations c)) (cl_policies c) (Some at_) (_last_policy_sync c), true)
        else None).
Proof.
  split_and!.
  - intros l Hl. unfold sync_attestations. rewrite fetch_paged; [by rewrite drop_0|done|done|].
    by rewrite drop_0.
  - intros server e He Hf. unfold sync_attestations. destruct fuel; [done|]. cbn [fetch_proofs]. by rewrite He.
  - intros tenant x s Hs Hf. cbv zeta. unfold sync_attestations, own_endpoint, sync_attestation_proofs. rewrite Hs.
    cbn [res_bind]. destruct (zlen _ <? _) eqn:Hz.
    + destruct fuel; [done|]. cbn [fetch_proofs]. by rewrite Hz.
    + rewrite fetch_endless; [done|]. zbool. lia.
Qed.

(** The refresh [_attestation_check] passes to [resolve_attestation] *)
Definition refresher_of (fuel : nat) (server : proof_server) (prov : string) (now : nat -> Z) : refresher :=
  fun c => match fetch_proofs fuel server _ATTESTATION_FETCH_LIMIT 0 [] with
           | Some (Ok l) => (fill prov l now c, true)
           | _ => (c, false)
           end.

Lemma wf_set_proofs l c now : Attestation.wf c -> Attestation.wf (set_proofs c l now).
Proof.
  revert c now. induction l as [|[prov p] l IH]; intros c now Hc; [done|]. simpl. apply IH. by apply wf_set.
Qed.

Lemma refresher_wf fuel server prov now : refresh_wf (Some (refresher_of fuel server prov now)).
Proof.
  intros f c [= <-] Hc. unfold refresher_of. destruct (fetch_proofs _ _ _ _ _) as [[l|]|]; [|done|done].
  apply wf_set_proofs. intros k e. simpl. by rewrite lookup_empty.
Qed.

(** The key of a proof under a provider *)
Definition proof_key (prov : string) (p : Attestation.proof) : string * string * string :=
  _key prov (or_else (p_model_id p) "") (or_else (Attestation.p_tenant_id p) "").

Lemma set_proofs_unchanged l c now k :
  (forall prov p, (prov, p) ∈ l -> proof_key prov p <> k) -> _cache (set_proofs c l now) !! k = _cache c !! k.
Proof.
  revert c now. induction l as [|[prov p] l IH]; intros c now Hl; [done|]. cbn [set_proofs].
  rewrite IH by (intros q r Hin; apply Hl; by right). unfold set_from_proof, set. simpl.
  apply lookup_insert_ne. apply (Hl prov p). by left.
Qed.

Lemma set_proofs_ttl l c now : _ttl (set_proofs c l now) = _ttl c.
Proof. revert c now. induction l as [|[prov p] l IH]; intros c now; [done|]. cbn [set_proofs]. by rewrite IH. Qed.

(** The entry a proof becomes *)
Definition proof_entry (ttl : Z) (prov : string) (p : Attestation.proof) (now : Z) : CachedAttestation :=
  Attestation.MkAttestation (or_else (p_attestation_id p) "") (or_else (p_model_id p) "") prov
    (lower (or_else (Attestation.p_status p) "pending")) now ttl (or_else (Attestation.p_tenant_id p) "")
    (or_else (p_verification_level p) "self_reported") (p_last_verified_at p)
    (match p_model_hash p with Some EmptyString => None | h => h end).

Lemma set_proofs_entry l1 prov p l2 c now :
  (forall prov' p', (prov', p') ∈ l2 -> proof_key prov' p' <> proof_key prov p) ->
  exists n, _cache (set_proofs c (l1 ++ (prov, p) :: l2) now) !! proof_key prov p
            = Some (proof_entry (_ttl c) prov p (now n)).
Proof.
  intros Hl. revert c now. induction l1 as [|[q r] l1 IH]; intros c now; cbn [app set_proofs].
  - exists 0%nat. rewrite set_proofs_unchanged by done. apply lookup_insert_eq.
  - destruct (IH (set_from_proof c q r (now 0%nat)) (fun i => now (S i))) as [n Hn]. by exists (S n).
Qed.

(** An attestation counts for every provider.  A remote proof is filed under the
    provider of whoever asks, so once a model is attested for a tenant, a request for
    any provider whatsoever that finds nothing in the cache refreshes it and resolves to
    that proof as an attestation of its own provider. *)
Theorem proof_serves_any_provider fuel l1 p l2 prov fetched now c :
  let server := paged (l1 ++ p :: l2) in
  let model := or_else (p_model_id p) "" in
  let tenant := or_else (Attestation.p_tenant_id p) "" in
  zlen (l1 ++ p :: l2) < Z.of_nat fuel * _ATTESTATION_FETCH_LIMIT ->
  (forall p', p' ∈ l2 -> proof_key "" p' <> proof_key "" p) ->
  lower (or_else (Attestation.p_status p) "pending") ∉ BLOCKED_STATUSES ->
  (forall i j, now i - fetched j <= seconds (_ttl c)) ->
  get c prov model tenant = None ->
  exists c' a, resolve_attestation c prov model tenant (Some (refresher_of fuel server prov fetched)) now = (c', inl a)
  /\ Attestation.attestation_id a = or_else (p_attestation_id p) "" /\ Attestation.provider a = prov.
Proof.
  intros server model tenant Hf Hl2 Hst Hfresh Hg. unfold resolve_attestation. rewrite Hg.
  unfold refresher_of, server. rewrite fetch_paged by (done || by rewrite drop_0). rewrite drop_0. cbn [app].
  unfold fill. rewrite fmap_app. cbn [fmap list_fmap].
  destruct (set_proofs_entry ((fun p => (prov, p)) <$> l1) prov p ((fun p => (prov, p)) <$> l2) (clear c) fetched)
    as [n Hn].
  { intros prov' p' (p0 & [= -> ->] & Hp0)%list_elem_of_fmap. intros Hk. apply (Hl2 p0 Hp0).
    unfold proof_key, _key in *. by injection Hk as -> ->. }
  change (_key prov model tenant) with (proof_key prov p).
  unfold get at 1. change (_key prov model tenant) with (proof_key prov p). rewrite Hn.
  set (e := proof_entry _ _ _ _).
  assert (forall i, is_expired e (now i) = false) as Hexp.
  { intros i. unfold is_expired, e. simpl. specialize (Hfresh i n). apply Z.ltb_ge. lia. }
  unfold check_entry. unfold is_blocked. rewrite bool_decide_eq_false_2 by (simpl; by rewrite lower_idem).
  rewrite !Hexp. cbv zeta. eexists _, e. by split_and!.
Qed.

(** ** The loader *)

Section loading.
Context `{JsonText} (iso : Z -> string).
Variable gateway_tenant_id : string.

Lemma load_attestations_match s c k :
  attestations_match (list_attestations gateway_tenant_id s)
    (set_proofs (clear c) (get_attestation_proofs gateway_tenant_id s) (c_att k)).
Proof.
  intros key. unfold get_attestation_proofs.
  destruct (set_proofs_lookup (list_attestations gateway_tenant_id s) (clear c) (c_att k) key) as [Httl Hk].
  destruct (decide (key ∈ row_key <$> list_attestations gateway_tenant_id s)) as [Hin|Hin].
  - destruct Hk as (r & n & Hr & Hkey & ->). left. rewrite Httl. by exists r, n.
  - rewrite Hk. simpl. by rewrite lookup_empty.
Qed.

(** Starting up and then serving admins.  In embedded mode, with rules that are
    JSON, the load at start-up succeeds and leaves the attestation and policy caches and
    the analyzers in agreement with the store, and the token budgets as well when all of
    them are the gateway tenant's, so that every run of admin requests after it keeps
    them so.  A budget of another tenant is not loaded: until an admin changes a budget
    its tenant is unlimited. *)
Theorem load_then_serve (json_reads : forall v, exists w, of_text (to_text v) = Ok w) s k x t :
  control_store x = Some s -> sync_client x = false -> decodable s ->
  budget_tracker x = Some t -> Memory._states t = ∅ ->
  let '(x', out) := load_into_caches iso gateway_tenant_id s k x in
  out = Ok tt
  /\ (Forall (fun b => b_tenant_id b = gateway_tenant_id) (budgets s) ->
      forall l, synced iso gateway_tenant_id (handle_all iso gateway_tenant_id l x'))
  /\ (forall tenant user est now', tenant <> gateway_tenant_id -> gateway_tenant_id <> "" ->
      exists t', budget_tracker x' = Some t' /\
      (Memory.check_and_reserve t' tenant user est now').2 = Ok (true, Memory._UNLIMITED_SENTINEL)).
Proof.
  intros Hs Hsync Hdec Ht Hempty. unfold load_into_caches. rewrite Hsync.
  destruct (active_ok gateway_tenant_id s Hdec) as [ps Hps].
  set (x1 := load_attestations gateway_tenant_id s k x).
  assert (control_store x1 = Some s /\ budget_tracker x1 = Some t /\ content_analyzers x1 = content_analyzers x
          /\ policy_cache x1 = policy_cache x
          /\ (forall c, attestation_cache x1 = Some c -> attestations_match (list_attestations gateway_tenant_id s) c))
    as (Hs1 & Ht1 & Hc1 & Hp1 & Ha1).
  { unfold x1, load_attestations. destruct (attestation_cache x) as [c|] eqn:Hc; simpl; split_and!; try done.
    - intros c' [= <-]. apply load_attestations_match.
    - intros c' Hc'. congruence. }
  assert (exists x2, load_policies iso gateway_tenant_id s k x1 = (x2, Ok tt)
          /\ control_store x2 = Some s /\ budget_tracker x2 = Some t
          /\ attestation_cache x2 = attestation_cache x1
          /\ (forall c, policy_cache x2 = Some c -> policies_match iso gateway_tenant_id s c))
    as (x2 & -> & Hs2 & Ht2 & Ha2 & Hp2).
  { unfold load_policies. destruct (policy_cache x1) as [c|] eqn:Hc.
    - rewrite Hps. eexists. split; [done|]. split_and!; try done. simpl. intros c' [= <-]. by exists ps.
    - exists x1. split_and!; try done. intros c' Hc'. congruence. }
  split; [done|].
  unfold load_budgets. rewrite Ht2.
  set (t' := configure_budgets (list_budgets gateway_tenant_id s) (c_budget k) t).
  unfold _refresh_content_policies. cbn [control_store with_budget]. rewrite Hs2. split.
  - intros Hall l. apply (control_api_synced_run iso gateway_tenant_id json_reads). intros s0 Hs0. simpl in Hs0.
    rewrite Hs2 in Hs0. injection Hs0 as <-. simpl. rewrite Ha2. split_and!; try done.
    + intros t0 [= <-]. apply (budgets_match_perm (list_budgets gateway_tenant_id s)).
      { unfold list_budgets, list_rows. rewrite isort_perm. case_bool_decide; [done|].
        rewrite filter_all; [done|]. intros b Hb. rewrite Forall_forall in Hall.
        by apply bool_decide_eq_true_2, Hall. }
      intros key. pose proof (configured_budgets (list_budgets gateway_tenant_id s) (c_budget k) t key) as Hk.
      fold t' in Hk. destruct (decide (key ∈ tracker_key <$> list_budgets gateway_tenant_id s)) as [Hin|Hin].
      * destruct Hk as (b & st & ? & ? & -> & ? & ?). by exists b.
      * rewrite Hk, Hempty, lookup_empty. done.
    + apply reconfigured_matches.
  - intros tenant user est now' Hne Hgw. exists t'. split; [done|].
    unfold Memory.check_and_reserve. pose proof (configured_budgets (list_budgets gateway_tenant_id s) (c_budget k) t
      (tenant, user_key user)) as Hk. fold t' in Hk. rewrite decide_False in Hk.
    + by rewrite Hk, Hempty, lookup_empty.
    + intros (b & Hkey & Hb)%list_elem_of_fmap. unfold list_budgets, list_rows in Hb.
      rewrite isort_perm, (bool_decide_eq_false_2 _ Hgw) in Hb. apply list_elem_of_In, filter_In in Hb as [_ Hb].
      zbool. unfold tracker_key in Hkey. congruence.
Qed.
End loading.

(** ** Runs *)

Module SyncRuns.

#[local] Existing Instance StoreRuns.json.

Definition iso (z : Z) : string := z_str z.
Definition cfg : Attestation.settings := Attestation.MkSettings "gw" 300 false.
Definition at_ (n : Z) : clock := MkClock n (fun _ => n) n (Memory.noon 1).

(** The model [gpt-4] of OpenAI, auto-attested for the gateway's tenant *)
Definition row : attestation :=
  ControlStore.MkAttestation "self-attested:gpt-4" "gpt-4" "openai" "active" "auto_attested" "gw" "" "" 1 1.
Definition the_store : store := with_attestations [row] empty_store.

Lemma wf_the_store : wf the_store.
Proof.
  assert (the_store = run_ops [UpsertAttestation (data_of row "active") "u" 1] empty_store) as -> by reflexivity.
  apply wf_run; [|apply wf_empty]. split; [by intros ?|done].
Qed.

(** What auto-attestation put in the cache for a tenant *)
Definition self_entry (tenant : string) : CachedAttestation :=
  Attestation.MkAttestation "self-attested:gpt-4" "gpt-4" "openai" "active" 1 300 tenant "self_attested" None None.
Definition the_cache : Attestation.cache :=
  set (set (Attestation.MkCache 300 ∅) (self_entry "gw")) (self_entry "acme").

Definition ctx : context := MkContext (Some the_store) false (Some the_cache) (Some (Cache.init 900))
  (Some (Memory.MkTracker ∅ None [] ∅)) [] ∅.

Lemma only_row (r' : attestation) : r' ∈ attestations the_store -> row_key r' = row_key row -> r' = row.
Proof. by intros ->%list_elem_of_singleton _. Qed.

Lemma revocation_enforced_witness :
  exists c', attestation_cache (handle iso "gw" (RevokeAtt "self-attested:gpt-4" "u") (at_ 5) ctx) = Some c'
  /\ exists x2 chk, attest cfg false "openai" "gpt-4" "gw" (fun _ => 6) 7 c'
       (handle iso "gw" (RevokeAtt "self-attested:gpt-4" "u") (at_ 5) ctx) = (x2, Ok chk) /\ error chk = Some 403.
Proof.
  destruct (revocation_enforced iso cfg false row "u" (at_ 5) ctx the_store the_cache (fun _ => 6) 7)
    as (c' & Hc' & x2 & chk & Ha & He & _);
    [apply wf_the_store|done|done|by left|done|done|done|apply only_row|].
  exists c'. split; [exact Hc'|]. exists x2, chk. split; [exact Ha|exact He].
Defined.

(** The same revocation, seen by the tenant [acme] *)
Lemma revocation_misses_witness :
  exists c' x2 chk, attestation_cache (handle iso "gw" (RevokeAtt "self-attested:gpt-4" "u") (at_ 5) ctx) = Some c'
  /\ attest cfg false "openai" "gpt-4" "acme" (fun _ => 6) 7 c'
       (handle iso "gw" (RevokeAtt "self-attested:gpt-4" "u") (at_ 5) ctx) = (x2, Ok chk)
  /\ error chk = None /\ att_id chk = "self-attested:gpt-4".
Proof.
  apply (revocation_misses_other_tenants iso cfg "gw" row "u" (at_ 5) ctx the_store the_cache
    "openai" "gpt-4" "acme" (self_entry "acme") (fun _ => 6) 7);
    [apply wf_the_store|done|done|by left|done|done|done|done|done|].
  intros Hin%list_elem_of_singleton. vm_compute in Hin. congruence.
Defined.

(** After the revocation the tenant asks for the model with a space in front, and the
    model passes again. *)
Lemma respelling_lifts_revocation_witness :
  let x := handle iso "gw" (RevokeAtt "self-attested:gpt-4" "u") (at_ 5) ctx in
  let s := default empty_store (control_store x) in
  let rows := Some (map store_row_of (list_attestations "gw" s)) in
  let chk := _attestation_check (default the_cache (attestation_cache x)) cfg false None rows "openai" " gpt-4" "gw"
               (fun _ => 6) in
  error chk = None
  /\ exists x2 chk2, attest cfg false "openai" "gpt-4" "gw" (fun _ => 7) 8 (cache_after chk) x = (x2, Ok chk2)
       /\ error chk2 = None.
Proof.
  intros x s rows chk.
  destruct (respelling_lifts_revocation cfg "openai" "gpt-4" " gpt-4" "gw" (fun _ => 6)
              (default the_cache (attestation_cache x)) s
              (entry_of 300 (revoked_row row 5) 5)) as [He Hn].
  - reflexivity.
  - vm_compute. reflexivity.
  - reflexivity.
  - vm_compute. reflexivity.
  - intros r Hr. vm_compute in Hr. apply list_elem_of_singleton in Hr as ->. discriminate.
  - split; [exact He|]. apply Hn. intros _. vm_compute. discriminate.
Defined.

Lemma deletion_keeps_witness :
  exists c' x2 chk, attestation_cache (handle iso "gw" (DeleteAtt "self-attested:gpt-4") (at_ 5) ctx) = Some c'
  /\ attest cfg false "openai" "gpt-4" "gw" (fun _ => 6) 7 c'
       (handle iso "gw" (DeleteAtt "self-attested:gpt-4") (at_ 5) ctx) = (x2, Ok chk) /\ error chk = None.
Proof.
  destruct (deletion_keeps_auto_attested iso cfg "gw" row (at_ 5) ctx the_store the_cache (self_entry "gw")
    (fun _ => 6) 7) as (c' & x2 & chk & H1 & _ & H2 & H3 & _);
    [apply wf_the_store|done|done|by left|apply only_row|done|done|done|done|].
  exists c', x2, chk. split; [exact H1|]. split; [exact H2|exact H3].
Defined.

(** The row of OpenAI's model moves to Ollama when that name is first used there. *)
Lemma collides_witness :
  exists x2 s2 chk, attest cfg false "ollama" "gpt-4" "gw" (fun _ => 6) 7 the_cache ctx = (x2, Ok chk)
  /\ control_store x2 = Some s2 /\ find_row natural_key ("gw", "openai", "gpt-4") (attestations s2) = None.
Proof.
  pose proof (auto_attestation_collides cfg "ollama" "gpt-4" "gw" (fun _ => 6) 7 the_cache ctx the_store row
    wf_the_store eq_refl eq_refl (list_elem_of_here _ _) eq_refl) as H.
  assert (natural_key row <> ("gw", "ollama", "gpt-4")) as Hne by done.
  specialize (H Hne eq_refl eq_refl).
  assert (find_row natural_key ("gw", "ollama", "gpt-4") (attestations the_store) = None) as Hn by reflexivity.
  change (Attestation.gateway_tenant_id cfg) with "gw" in H. rewrite Hn in H.
  destruct H as (x2 & s2 & chk & H1 & _ & H2 & H3). exists x2, s2, chk. split; [exact H1|]. split; [exact H2|exact H3].
Defined.

Definition remote_proof : Attestation.proof := MkProof (Some "gpt-4") (Some "active") (Some "att-1") (Some "gw") None None None.

(** A proof of one model serves a request for any provider, here [anthropic]. *)
Lemma any_provider_witness :
  exists c' a, resolve_attestation (Attestation.MkCache 300 ∅) "anthropic" "gpt-4" "gw"
    (Some (refresher_of 2 (paged [remote_proof]) "anthropic" (fun _ => 5))) (fun _ => 6) = (c', inl a)
  /\ Attestation.attestation_id a = "att-1" /\ Attestation.provider a = "anthropic".
Proof.
  apply (proof_serves_any_provider 2 [] remote_proof [] "anthropic" (fun _ => 5) (fun _ => 6) (Attestation.MkCache 300 ∅));
    [done| | |intros; vm_compute; discriminate|done].
  - intros p' Hp'. by apply not_elem_of_nil in Hp'.
  - apply (bool_decide_unpack _). vm_compute. exact I.
Defined.

Definition acme_budget : budget := MkBudget "b1" "acme" "" "daily" 100 1 1.

(** The budget of [acme] is in the store, but not enforced after start-up. *)
Lemma load_then_serve_witness :
  exists x' t', load_into_caches iso "gw" (with_budgets [acme_budget] the_store) (at_ 1)
                  (with_store (with_budgets [acme_budget] the_store) ctx) = (x', Ok tt)
  /\ budget_tracker x' = Some t'
  /\ (Memory.check_and_reserve t' "acme" None 1000000 (Memory.noon 1)).2 = Ok (true, -1).
Proof.
  pose proof (load_then_serve iso "gw") as H.
  specialize (H ltac:(intros v; simpl; destruct v as [| | | |s|[|v l]|d|s]; simpl; by eexists)
    (with_budgets [acme_budget] the_store) (at_ 1) (with_store (with_budgets [acme_budget] the_store) ctx)
    (Memory.MkTracker ∅ None [] ∅) eq_refl eq_refl).
  specialize (H ltac:(intros p Hp; by apply not_elem_of_nil in Hp) eq_refl eq_refl).
  destruct (load_into_caches _ _ _ _ _) as [x' out]. destruct H as (-> & _ & H).
  destruct (H "acme" None 1000000 (Memory.noon 1)) as (t' & Ht' & Hc); [done|done|].
  exists x', t'. split; [reflexivity|]. split; [exact Ht'|exact Hc].
Defined.

End SyncRuns.
