(* ===== verification/Analyzers.v ===== *)
(** * The content analyzers (content/)

    The built-in analyzers as the control plane configures them: [PII]
    (pii_detector.py), [Toxicity] (toxicity_detector.py), [DLP] (dlp_classifier.py),
    [LlamaGuard] (llama_guard.py), [Presidio] (presidio_pii.py) and [PromptGuard]
    (prompt_guard.py).  A regular expression is its name; whether it matches a text is
    the class [Patterns].  What a model or a service answers is an argument. *)
From S2P Require Import Prelude ODict PyVal PyStr PolicyEngine ResponsePolicy ControlStore.

Local Open Scope Z_scope.

(** [pattern.search(text)] for a compiled pattern, by its name *)
Class Patterns := matches : string -> string -> bool.

Definition conf_0 : pyval := PFloat (sf_of_decimal false 0 0) "0.0".
Definition conf_90 : pyval := PFloat (sf_of_decimal false 9 (-1)) "0.9".
Definition conf_95 : pyval := PFloat (sf_of_decimal false 95 (-2)) "0.95".
Definition conf_99 : pyval := PFloat (sf_of_decimal false 99 (-2)) "0.99".
Definition conf_1 : pyval := PFloat (sf_of_decimal false 1 0) "1.0".

(** [{p["category"] for p in policies if p.get("action") == a}] *)
Definition categories_with (a : string) (l : list content_policy) : gset string :=
  list_to_set (map category (List.filter (fun p => bool_decide (action p = a)) l)).

(** The first pattern, in order, that the text matches *)
Definition first_match `{Patterns} (names : list string) (text : string) : option string :=
  List.find (fun n => matches n text) names.

Lemma first_match_none `{Patterns} names text :
  first_match names text = None <-> forall n, n ∈ names -> matches n text = false.
Proof.
  unfold first_match. induction names as [|n names IH]; simpl.
  - split; [intros _ n Hn; by apply not_elem_of_nil in Hn|done].
  - destruct (matches n text) eqn:Hn.
    + split; [done|]. intros Hall. rewrite Hall in Hn by by left. done.
    + rewrite IH. split; intros Hall m; [intros [->|?]%elem_of_cons; auto|intros ?; apply Hall; by right].
Qed.

Lemma first_match_some `{Patterns} names text n :
  first_match names text = Some n -> n ∈ names /\ matches n text = true.
Proof. intros Hf. apply find_some in Hf as [Hin Hm]. split; [by apply list_elem_of_In|done]. Qed.

(** ** PII *)

Module PII.

(** In the order they are tried *)
Definition _PATTERNS : list string :=
  ["credit_card"; "ssn"; "email_address"; "phone_number"; "ip_address"; "aws_access_key"; "api_key"].

Definition _BLOCK_PII_TYPES : gset string := {["credit_card"; "ssn"; "aws_access_key"; "api_key"]}.
Definition _BLOCK_FLOOR : gset string := {["credit_card"; "ssn"; "aws_access_key"; "api_key"]}.

Record detector := MkDetector {
  _block_types : gset string;
  _warn_types : gset string;
  _pass_types : gset string;
}.

Definition init : detector :=
  MkDetector _BLOCK_PII_TYPES (list_to_set _PATTERNS ∖ _BLOCK_PII_TYPES) ∅.

Definition configure (l : list content_policy) (d : detector) : detector :=
  match l with
  | [] => d
  | _ =>
      let block := categories_with "block" l in
      let warn := categories_with "warn" l in
      let skip := categories_with "pass" l in
      let demoted := (warn ∪ skip) ∩ _BLOCK_FLOOR in
      let '(warn, skip) := if decide (demoted = ∅) then (warn, skip)
                           else (warn ∖ _BLOCK_FLOOR, skip ∖ _BLOCK_FLOOR) in
      MkDetector (block ∪ _BLOCK_FLOOR) warn skip
  end.

Definition decision (v : Verdict) (conf : pyval) (reason : string) : Decision :=
  MkDecision v conf "walacor.pii.v1" "pii" reason.

Definition analyze `{Patterns} (d : detector) (text : string) : Decision :=
  match first_match _PATTERNS text with
  | Some n =>
      if decide (n ∈ _pass_types d) then decision PASS conf_99 n
      else decision (if decide (n ∈ _block_types d) then BLOCK else WARN) conf_99 n
  | None => decision PASS conf_1 "no_pii_detected"
  end.

(** The floor is blocked and never passed. *)
Definition floored (d : detector) : Prop :=
  _BLOCK_FLOOR ⊆ _block_types d /\ _pass_types d ## _BLOCK_FLOOR /\ _warn_types d ## _BLOCK_FLOOR.

Lemma floored_configure l d : floored d -> floored (configure l d).
Proof.
  intros Hd. unfold configure. destruct l as [|p l]; [done|].
  set (block := categories_with _ _). set (warn := categories_with _ _). set (skip := categories_with _ _).
  destruct (decide (_ = ∅)) as [He|He]; unfold floored; simpl; set_solver.
Qed.

Lemma floored_run ls : floored (foldl (fun d l => configure l d) init ls).
Proof.
  assert (floored init) as Hi.
  { unfold floored. split_and!; apply (bool_decide_unpack _); vm_compute; exact I. }
  revert Hi. generalize init. induction ls as [|l ls IH]; intros d Hd; [done|]. simpl. apply IH. by apply floored_configure.
Qed.

(** What the PII floor guarantees.  Whatever policies the control plane sends, in
    whatever order, card numbers, social security numbers, AWS keys and API keys stay
    in the block set, and a text is blocked exactly when the first pattern it matches
    is in that set.  So a text with a card or social security number is always blocked;
    one with an AWS or API key is blocked when no e-mail address, phone number or IP
    address is found in it, and only warned about (or passed) when one is that the
    policies do not block. *)
Theorem pii_floor `{Patterns} ls text :
  let d := foldl (fun d l => configure l d) init ls in
  (verdict (analyze d text) = BLOCK <->
   exists n, first_match _PATTERNS text = Some n /\ n ∈ _block_types d /\ n ∉ _pass_types d)
  /\ (matches "credit_card" text = true \/ matches "ssn" text = true -> verdict (analyze d text) = BLOCK)
  /\ ((forall n, n ∈ ["email_address"; "phone_number"; "ip_address"] -> matches n text = false) ->
      matches "aws_access_key" text = true \/ matches "api_key" text = true -> verdict (analyze d text) = BLOCK)
  /\ (forall n, n ∈ ["email_address"; "phone_number"; "ip_address"] -> first_match _PATTERNS text = Some n ->
      n ∉ _block_types d -> verdict (analyze d text) <> BLOCK).
Proof.
  intros d. destruct (floored_run ls) as (Hb & Hp & _). fold d in Hb, Hp.
  assert (verdict (analyze d text) = BLOCK <->
    exists n, first_match _PATTERNS text = Some n /\ n ∈ _block_types d /\ n ∉ _pass_types d) as Hiff.
  { unfold analyze. destruct (first_match _PATTERNS text) as [n|]; [|split; [done|by intros (? & ? & _)]].
    destruct (decide (n ∈ _pass_types d)) as [Hn|Hn]; [split; [done|by intros (? & [= <-] & _ & ?)]|].
    destruct (decide (n ∈ _block_types d)) as [Hn'|Hn']; simpl.
    - split; [intros _; by exists n|done].
    - split; [done|by intros (? & [= <-] & ? & _)]. }
  assert (forall n, n ∈ _BLOCK_FLOOR -> first_match _PATTERNS text = Some n -> verdict (analyze d text) = BLOCK) as Hfloor.
  { intros n Hn Hf. apply Hiff. exists n. split; [done|]. set_solver. }
  split; [done|split; [|split]].
  - intros Hm. unfold first_match, _PATTERNS in Hfloor. simpl in Hfloor.
    destruct (matches "credit_card" text); [apply (Hfloor "credit_card"); [set_solver|done]|].
    destruct Hm as [|Hm]; [done|]. rewrite Hm in Hfloor. apply (Hfloor "ssn"); [set_solver|done].
  - intros Hnone Hm. unfold first_match, _PATTERNS in Hfloor. simpl in Hfloor.
    rewrite (Hnone "email_address"), (Hnone "phone_number"), (Hnone "ip_address") in Hfloor by set_solver.
    destruct (matches "credit_card" text); [apply (Hfloor "credit_card"); [set_solver|done]|].
    destruct (matches "ssn" text); [apply (Hfloor "ssn"); [set_solver|done]|].
    destruct (matches "aws_access_key" text); [apply (Hfloor "aws_access_key"); [set_solver|done]|].
    destruct Hm as [|Hm]; [done|]. rewrite Hm in Hfloor. apply (Hfloor "api_key"); [set_solver|done].
  - intros n _ Hf Hn Hv. apply Hiff in Hv as (m & Hm & Hin & _). congruence.
Qed.

End PII.

(** ** Toxicity *)

Module Toxicity.

(** A compiled category: a built-in expression, or the escaped terms of the deny list *)
Inductive pattern := Builtin (name : string) | Terms (l : list string).

Definition search `{Patterns} (p : pattern) (text : string) : bool :=
  match p with
  | Builtin n => matches n text
  | Terms l => existsb (fun t => contains (lower t) (lower text)) l
  end.

Definition _DEFAULT_CATEGORIES : list (string * pattern) :=
  map (fun n => (n, Builtin n)) ["self_harm_indicator"; "violence_instruction"; "child_safety"].

Record detector := MkDetector {
  _categories : list (string * pattern);
  _block_categories : gset string;
  _warn_categories : gset string;
}.

Definition deny_list (terms : list string) : list (string * pattern) :=
  match terms with [] => [] | _ => [("custom_deny_list", Terms terms)] end.

Definition init (extra_terms : list string) : detector :=
  MkDetector (_DEFAULT_CATEGORIES ++ deny_list extra_terms) {["child_safety"]}
    {["self_harm_indicator"; "violence_instruction"]}.

Definition configure (l : list content_policy) (d : detector) : detector :=
  match l with
  | [] => d
  | _ => MkDetector (_categories d) (categories_with "block" l) (categories_with "warn" l)
  end.

Definition set_extra_terms (terms : list string) (d : detector) : detector :=
  MkDetector (List.filter (fun c => negb (bool_decide (c.1 = "custom_deny_list"))) (_categories d) ++ deny_list terms)
    (_block_categories d) (_warn_categories d).

Definition decision (v : Verdict) (conf : pyval) (reason : string) : Decision :=
  MkDecision v conf "walacor.toxicity.v1" "toxicity" reason.

Definition analyze `{Patterns} (d : detector) (text : string) : Decision :=
  match List.find (fun c => search c.2 text) (_categories d) with
  | Some (n, _) => decision (if decide (n ∈ _block_categories d) then BLOCK else WARN) conf_90 n
  | None => decision PASS conf_1 "no_toxicity_detected"
  end.

End Toxicity.

(** ** Data loss prevention *)

Module DLP.

Definition _CATEGORY_PATTERNS : list (string * list string) :=
  [("financial", ["bank_account"; "routing_number"; "swift_code"; "iban"]);
   ("health", ["icd10_code"; "mrn"; "nhs_number"; "drug_dosage"]);
   ("secrets", ["rsa_private_key"; "private_key_pem"; "connection_string"; "jwt_token"]);
   ("infrastructure", ["aws_arn"; "db_url"; "internal_hostname"])].

Definition _DEFAULT_ACTIONS : list (string * string) :=
  [("financial", "warn"); ("health", "block"); ("secrets", "block"); ("infrastructure", "warn")].

Record classifier := MkClassifier {
  _enabled : list (string * list string);
  _actions : gmap string string;
}.

Definition init (enabled_categories : gset string) : classifier :=
  let enabled := List.filter (fun c => bool_decide (c.1 ∈ enabled_categories)) _CATEGORY_PATTERNS in
  MkClassifier enabled (list_to_map (map (fun c => (c.1, default "warn" (od_get c.1 _DEFAULT_ACTIONS))) enabled)).

Definition set_action (m : gmap string string) (p : content_policy) : gmap string string :=
  if bool_decide (is_Some (m !! category p)) && bool_decide (action p ∈ ["block"; "warn"; "pass"])
  then <[category p := action p]> m else m.

Definition configure (l : list content_policy) (c : classifier) : classifier :=
  MkClassifier (_enabled c) (foldl set_action (_actions c) l).

Definition decision (v : Verdict) (conf : pyval) (cat reason : string) : Decision :=
  MkDecision v conf "walacor.dlp.v1" cat reason.

Section scan.
Context `{Patterns} (text : string).

(** The loop over one category's patterns: a blocking pattern returns, the first
    warning is kept. *)
Fixpoint scan_patterns (cat act : string) (names : list string) (first_warn : option (string * string))
    : Decision + option (string * string) :=
  match names with
  | [] => inr first_warn
  | n :: names =>
      if matches n text then
        if bool_decide (act = "block") then inl (decision BLOCK conf_99 ("dlp." +:+ cat) n)
        else
          let first_warn := match first_warn with
                            | None => if bool_decide (act = "warn") then Some (cat, n) else None
                            | w => w
                            end in
          scan_patterns cat act names first_warn
      else scan_patterns cat act names first_warn
  end.

Fixpoint scan (actions : gmap string string) (cats : list (string * list string)) (first_warn : option (string * string))
    : Decision + option (string * string) :=
  match cats with
  | [] => inr first_warn
  | (cat, names) :: cats =>
      let act := default "warn" (actions !! cat) in
      if bool_decide (act = "pass") then scan actions cats first_warn
      else match scan_patterns cat act names first_warn with
           | inl d => inl d
           | inr first_warn => scan actions cats first_warn
           end
  end.

Definition nothing : Decision := decision PASS conf_1 "dlp" "no_dlp_detected".

Definition analyze (c : classifier) : Decision :=
  if bool_decide (text = "") then nothing
  else match scan (_actions c) (_enabled c) None with
       | inl d => d
       | inr (Some (cat, n)) => decision WARN conf_99 ("dlp." +:+ cat) n
       | inr None => nothing
       end.

(** Some pattern of an enabled category with that action matches. *)
Definition found (c : classifier) (act : string) : Prop :=
  exists cat names n, (cat, names) ∈ _enabled c /\ n ∈ names /\ matches n text = true
                      /\ default "warn" (_actions c !! cat) = act.

Lemma scan_patterns_spec cat act names w :
  match scan_patterns cat act names w with
  | inl d => act = "block" /\ verdict d = BLOCK /\ exists n, n ∈ names /\ matches n text = true
  | inr w' =>
      (act = "block" -> forall n, n ∈ names -> matches n text = false)
      /\ (is_Some w' <-> is_Some w \/ (act = "warn" /\ exists n, n ∈ names /\ matches n text = true))
  end.
Proof.
  revert w. induction names as [|n names IH]; intros w; simpl.
  { split; [intros _ n Hn; by apply not_elem_of_nil in Hn|]. split; [by left|].
    intros [?|(_ & n & Hn & _)]; [done|by apply not_elem_of_nil in Hn]. }
  destruct (matches n text) eqn:Hn.
  - case_bool_decide as Hact; [split_and!; [done|done|exists n; split; [by left|done]]|].
    set (w1 := match w with None => _ | w => w end).
    specialize (IH w1). destruct (scan_patterns cat act names w1) as [d|w']; [by destruct IH|].
    { destruct IH as [_ Hw]. split; [done|]. rewrite Hw. unfold w1.
      destruct w as [w|]; [split; intros _; left; by eexists|].
      case_bool_decide as Hwarn.
      * split; [|intros _; left; by eexists]. intros _. right. split; [done|]. exists n. split; [by left|done].
      * split; intros [[? ?]|[? _]]; done. }
  - specialize (IH w). destruct (scan_patterns cat act names w) as [d|w'].
    + destruct IH as (? & ? & m & Hm & ?). split_and!; try done. exists m. split; [by right|done].
    + destruct IH as [Hb Hw]. split.
      * intros Ha m [->|Hm]%elem_of_cons; [done|by apply Hb].
      * rewrite Hw. split; (intros [?|(? & m & Hm & Hmm)]; [by left|right; split; [done|]; exists m; split; [|done]]).
        -- by right.
        -- apply elem_of_cons in Hm as [->|Hm]; [congruence|done].
Qed.

Lemma scan_spec actions cats w :
  match scan actions cats w with
  | inl d => verdict d = BLOCK /\ exists cat names n, (cat, names) ∈ cats /\ n ∈ names /\ matches n text = true
                                                     /\ default "warn" (actions !! cat) = "block"
  | inr w' =>
      (forall cat names n, (cat, names) ∈ cats -> default "warn" (actions !! cat) = "block" -> n ∈ names ->
       matches n text = false)
      /\ (is_Some w' <-> is_Some w \/ exists cat names n, (cat, names) ∈ cats /\ n ∈ names /\ matches n text = true
                                                          /\ default "warn" (actions !! cat) = "warn")
  end.
Proof.
  revert w. induction cats as [|[cat names] cats IH]; intros w.
  { simpl. split; [intros ? ? ? Hn; by apply not_elem_of_nil in Hn|]. split; [by left|].
    intros [?|(? & ? & ? & Hn & _)]; [done|by apply not_elem_of_nil in Hn]. }
  cbn [scan]. set (act := default "warn" (actions !! cat)) in *. case_bool_decide as Hpass.
  - specialize (IH w). destruct (scan actions cats w) as [d|w'].
    + destruct IH as (? & c & ns & n & Hin & ?). split; [done|]. exists c, ns, n. split; [by right|done].
    + destruct IH as [Hb Hw]. split.
      * intros c ns n [[= -> ->]|Hin]%elem_of_cons Ha; [fold act in Ha; congruence|by apply (Hb c ns)].
      * rewrite Hw. split; (intros [?|(c & ns & n & Hin & Hn & Hm & Ha)]; [by left|right; exists c, ns, n; split; [|done]]).
        -- by right.
        -- apply elem_of_cons in Hin as [[= -> ->]|Hin]; [|done]. fold act in Ha. congruence.
  - pose proof (scan_patterns_spec cat act names w) as Hp.
    destruct (scan_patterns cat act names w) as [d|w1].
    + destruct Hp as (Ha & Hv & n & Hn & Hm). split; [done|]. exists cat, names, n. split; [by left|done].
    + destruct Hp as [Hb1 Hw1]. specialize (IH w1). destruct (scan actions cats w1) as [d|w'].
      * destruct IH as (? & c & ns & n & Hin & ?). split; [done|]. exists c, ns, n. split; [by right|done].
      * destruct IH as [Hb Hw]. split.
        -- intros c ns n [[= -> ->]|Hin]%elem_of_cons Ha Hn; [by apply Hb1|by apply (Hb c ns)].
        -- rewrite Hw, Hw1. split.
           ++ intros [[?|(Ha & n & Hn & Hm)]|(c & ns & n & Hin & ?)]; [by left|right|right].
              ** exists cat, names, n. split; [by left|done].
              ** exists c, ns, n. split; [by right|done].
           ++ intros [?|(c & ns & n & [[= -> ->]|Hin]%elem_of_cons & Hn & Hm & Ha)]; [by left; left| |].
              ** left. right. split; [done|]. by exists n.
              ** right. by exists c, ns, n.
Qed.

(** Data loss prevention blocks whatever it must.  Under every configuration, a
    non-empty text is blocked exactly when a pattern of some enabled category whose
    action is "block" matches it, wherever it stands among the others; warned about
    exactly when none does and one of a "warn" category matches; passed otherwise. *)
Theorem dlp_exact c :
  text <> "" ->
  (verdict (analyze c) = BLOCK <-> found c "block")
  /\ (verdict (analyze c) = WARN <-> ~ found c "block" /\ found c "warn")
  /\ (verdict (analyze c) = PASS <-> ~ found c "block" /\ ~ found c "warn").
Proof.
  intros Ht. unfold analyze. rewrite (bool_decide_eq_false_2 _ Ht).
  pose proof (scan_spec (_actions c) (_enabled c) None) as Hs.
  destruct (scan (_actions c) (_enabled c) None) as [d|w].
  - destruct Hs as (-> & Hf). assert (found c "block") as Hfound by exact Hf. naive_solver.
  - destruct Hs as [Hb Hw]. assert (~ found c "block") as Hnb.
    { intros (cat & names & n & Hin & Hn & Hm & Ha). rewrite (Hb cat names n) in Hm; done. }
    destruct w as [[cat n]|]; simpl.
    + assert (found c "warn") as Hfw.
      { destruct (proj1 Hw) as [[? ?]|Hf]; [by eexists|done|exact Hf]. }
      naive_solver.
    + assert (~ found c "warn") as Hnw.
      { intros Hf. destruct (proj2 Hw) as [? ?]; [by right|done]. }
      naive_solver.
Qed.
End scan.
End DLP.

(** [s.upper()] *)
Definition ascii_upper (c : ascii) : ascii :=
  if (97 <=? code c) && (code c <=? 122) then Ascii.ascii_of_N (Z.to_N (code c - 32)) else c.
Definition upper (s : string) : string := smap ascii_upper s.

(** ** Llama Guard *)

Module LlamaGuard.

Definition _CATEGORY_MAP : list (string * string) :=
  [("S1", "violent_crimes"); ("S2", "nonviolent_crimes"); ("S3", "sex_crimes"); ("S4", "child_safety");
   ("S5", "defamation"); ("S6", "specialized_advice"); ("S7", "privacy_pii"); ("S8", "intellectual_property");
   ("S9", "indiscriminate_weapons"); ("S10", "hate_discrimination"); ("S11", "self_harm"); ("S12", "sexual_content");
   ("S13", "elections"); ("S14", "code_interpreter_abuse")].

Definition _BLOCK_CATEGORIES : list string := ["child_safety"].

(** [_category_actions] *)
Abbreviation actions := (gmap string string).

Definition init : actions := {["S4" := "block"]}.

Definition configure (l : list content_policy) (m : actions) : actions :=
  match l with
  | [] => m
  | _ => foldl (fun m p => <[category p := action p]> m) ∅ l
  end.

Definition decision (v : Verdict) (conf : pyval) (cat reason : string) : Decision :=
  MkDecision v conf "walacor.llama_guard.v3" cat reason.

(** The codes of the second line that are known, in the order of the answer *)
Definition codes_of (line : string) : list string :=
  omap (fun c => od_get c _CATEGORY_MAP)
    (map (fun c => upper (strip c)) (List.filter (fun c => negb (bool_decide (strip c = ""))) (split_on ","%char line))).

(** The loop over [_CATEGORY_MAP]: the action of the category's code *)
Definition action_of (m : actions) (cat : string) : option string :=
  match List.find (fun kc => bool_decide (kc.2 = cat) && bool_decide (is_Some (m !! kc.1))) _CATEGORY_MAP with
  | Some (code, _) => m !! code
  | None => None
  end.

Definition verdict_of (m : actions) (cat : string) : Verdict :=
  match action_of m cat with
  | Some "block" => BLOCK
  | Some "warn" => WARN
  | Some "pass" => PASS
  | _ => if bool_decide (cat ∈ _BLOCK_CATEGORIES) then BLOCK else WARN
  end.

Definition _parse_response (m : actions) (response : string) : Decision :=
  let lines := splitlines (strip response) in
  let first := match lines with l :: _ => lower (strip l) | [] => "" end in
  if bool_decide (first = "safe") then decision PASS conf_1 "safety" "safe"
  else if bool_decide (first = "unsafe") then
    let cats := match lines with _ :: l :: _ => codes_of l | _ => [] end in
    let cats := match cats with [] => ["unknown"] | _ => cats end in
    let cat := List.hd "unknown" cats in
    decision (verdict_of m cat) conf_95 cat (sjoin "," cats)
  else decision PASS conf_0 "safety" "parse_error".

(** What the request to the service gives *)
Inductive reply := Content (s : string) | Timeout | Unavailable.

Definition analyze (m : actions) (r : reply) : Decision :=
  match r with
  | Content s => _parse_response m s
  | Timeout => decision PASS conf_0 "safety" "timeout"
  | Unavailable => decision PASS conf_0 "safety" "unavailable"
  end.

End LlamaGuard.

(** ** Presidio *)

Module Presidio.

Record analyzer := MkAnalyzer {
  _block_entities : gset string;
  _warn_entities : gset string;
  _available : bool;
}.

Definition init (available : bool) : analyzer :=
  MkAnalyzer {["CREDIT_CARD"; "US_SSN"; "US_BANK_NUMBER"; "IBAN_CODE"; "CRYPTO"]}
    {["PERSON"; "EMAIL_ADDRESS"; "PHONE_NUMBER"; "LOCATION"; "DATE_TIME"; "NRP"; "MEDICAL_LICENSE";
      "US_DRIVER_LICENSE"; "US_PASSPORT"; "UK_NHS"; "IP_ADDRESS"]} available.

Definition upper_with (a : string) (l : list content_policy) : gset string :=
  list_to_set (map (fun p => upper (category p)) (List.filter (fun p => bool_decide (action p = a)) l)).

Definition configure (l : list content_policy) (x : analyzer) : analyzer :=
  match l with
  | [] => x
  | _ => MkAnalyzer (upper_with "block" l) (upper_with "warn" l) (_available x)
  end.

(** One result of the engine: the entity, its score and the score's text *)
Record entity := MkEntity { entity_type : string; score : SpecFloat.spec_float; score_repr : string }.

(** [max(results, key=score)]: the first of the highest *)
Definition top (e : entity) (l : list entity) : entity :=
  foldl (fun best x => if SpecFloat.SFltb (score best) (score x) then x else best) e l.

Definition decision (v : Verdict) (conf : pyval) (reason : string) : Decision :=
  MkDecision v conf "walacor.presidio_pii.v1" "pii" reason.

Definition _analyze_sync (x : analyzer) (results : list entity) : Decision :=
  match results with
  | [] => decision PASS conf_0 "no_pii_detected"
  | e :: l =>
      let t := top e l in
      decision (if decide (entity_type t ∈ _block_entities x) then BLOCK else WARN)
        (PFloat (score t) (score_repr t))
        ("presidio:" +:+ lower (entity_type t) +:+ ":" +:+ z_str (zlen results) +:+ "_entities:["
         +:+ sjoin "," (map entity_type results) +:+ "]")%string
  end.

(** The engine raises or gives its results. *)
Definition analyze (x : analyzer) (results : res (list entity)) : Decision :=
  if _available x then
    match results with
    | Ok l => _analyze_sync x l
    | Raise _ => decision PASS conf_0 "error"
    end
  else decision PASS conf_0 "unavailable".

End Presidio.

(** ** Prompt Guard *)

Module PromptGuard.

Definition decision (v : Verdict) (conf : pyval) (cat reason : string) : Decision :=
  MkDecision v conf "walacor.prompt_guard.v2" cat reason.

Definition class_name (c : Z) : string :=
  if c =? 0 then "benign" else if c =? 1 then "injection" else if c =? 2 then "jailbreak" else "unknown".

(** [predicted] and [confidence] are the model's; [fmt] is the format ".3f", [repr] the
    text of a float. *)
Definition _classify (fmt repr : SpecFloat.spec_float -> string) (threshold : SpecFloat.spec_float) (predicted : Z)
    (confidence : SpecFloat.spec_float) : Decision :=
  let conf := PFloat confidence (repr confidence) in
  if predicted =? 0 then decision PASS conf "safety" "benign"
  else if (predicted =? 1) && SpecFloat.SFleb threshold confidence then
    decision BLOCK conf "injection" ("injection:" +:+ fmt confidence)
  else if (predicted =? 2) && SpecFloat.SFleb threshold confidence then
    decision WARN conf "jailbreak" ("jailbreak:" +:+ fmt confidence)
  else
    let rest := SpecFloat.SFsub 53 1024 (sf_of_Z 1) confidence in
    decision PASS (PFloat rest (repr rest)) (class_name predicted)
      (class_name predicted +:+ ":" +:+ fmt confidence +:+ ":below_threshold")%string.

Definition analyze (fmt repr : SpecFloat.spec_float -> string) (available : bool) (threshold : SpecFloat.spec_float)
    (answer : res (Z * SpecFloat.spec_float)) : Decision :=
  if available then
    match answer with
    | Ok (c, conf) => _classify fmt repr threshold c conf
    | Raise _ => decision PASS conf_0 "safety" "error"
    end
  else decision PASS conf_0 "safety" "unavailable".

End PromptGuard.

(** ** What a severe finding can hide behind *)

(** Only the first finding counts.  A text that matches a self-harm expression is
    never blocked by the default toxicity detector, even when it matches the
    child-safety expression as well, nor after the control plane's default policies are
    applied; Llama Guard's verdict is that of the first category of its answer, so an
    answer that names a warned category before S4 is not blocked either. *)
Theorem first_finding_wins `{Patterns} text line c cats :
  (matches "self_harm_indicator" text = true ->
   verdict (Toxicity.analyze (Toxicity.init []) text) = WARN)
  /\ (LlamaGuard.codes_of line = c :: cats -> splitlines (strip ("unsafe" +:+ String (Ascii.ascii_of_N 10) line))
        = ["unsafe"; line] ->
      forall m, verdict (LlamaGuard._parse_response m ("unsafe" +:+ String (Ascii.ascii_of_N 10) line))
      = LlamaGuard.verdict_of m c).
Proof.
  split.
  - intros Hm. unfold Toxicity.analyze, Toxicity.init, Toxicity._DEFAULT_CATEGORIES, Toxicity.deny_list.
    cbn [map app Toxicity._categories List.find Toxicity.search snd]. rewrite Hm.
    cbn [Toxicity._block_categories]. rewrite decide_False; [done|]. apply (bool_decide_unpack _). vm_compute. exact I.
  - intros Hc Hl m. unfold LlamaGuard._parse_response. rewrite Hl.
    change (lower (strip "unsafe")) with "unsafe". cbv beta iota zeta.
    rewrite bool_decide_eq_false_2 by done. rewrite bool_decide_eq_true_2 by done. by rewrite Hc.
Qed.

(** ** Runs *)

Module AnalyzerRuns.

(** A regular expression matches the texts that contain its name. *)
#[local] Instance by_name : Patterns := fun n text => contains n text.

Definition policy_of (cat act : string) : content_policy :=
  MkContent "i" "*" "walacor.pii.v1" cat act (PInt 0) 0 0.

(** An admin passes e-mail addresses and tries to pass API keys; a text with both
    gets through, one with the key alone does not. *)
Lemma pii_floor_demo :
  let d := foldl (fun d l => PII.configure l d) PII.init [[policy_of "email_address" "pass"; policy_of "api_key" "pass"]] in
  verdict (PII.analyze d "email_address api_key") = PASS /\ verdict (PII.analyze d "api_key") = BLOCK.
Proof. vm_compute. by split. Qed.

Lemma dlp_exact_witness :
  verdict (DLP.analyze "swift_code jwt_token" (DLP.init {["financial"; "secrets"]})) = BLOCK.
Proof.
  apply (DLP.dlp_exact "swift_code jwt_token"); [done|].
  exists "secrets", ["rsa_private_key"; "private_key_pem"; "connection_string"; "jwt_token"], "jwt_token".
  split_and!; [|apply (bool_decide_unpack _); vm_compute; exact I|reflexivity|reflexivity].
  apply (bool_decide_unpack _). vm_compute. exact I.
Defined.

Lemma first_finding_witness :
  verdict (Toxicity.analyze (Toxicity.init []) "self_harm_indicator child_safety") = WARN
  /\ verdict (LlamaGuard._parse_response LlamaGuard.init ("unsafe" +:+ String (Ascii.ascii_of_N 10) "S10,S4")) = WARN.
Proof.
  destruct (first_finding_wins "self_harm_indicator child_safety" "S10,S4" "hate_discrimination" ["child_safety"]) as [H1 H2].
  split; [apply H1; reflexivity|]. rewrite H2; reflexivity.
Defined.

End AnalyzerRuns.
