(* ===== verification/Sanitizer.v ===== *)
(** * PII sanitization (content/pii_sanitizer.py)

    Replacing what the patterns match by placeholders and putting the originals back,
    with the steps of pipeline/orchestrator.py that do both around the forward.  The
    regular expressions are the class [Finder]: the spans [finditer] yields. *)
From S2P Require Import Prelude ODict PyVal PyStr.

(** ** The sanitizer *)

(** [pattern.finditer(text)]: the spans of a type's matches, in order *)
Class Finder := finditer : string -> string -> list (nat * nat).

Record SanitizationResult := MkSanitized {
  sanitized_text : string;
  mapping : list (string * string);
  pii_count : Z;
}.

Definition _SANITIZE_PATTERNS : list string := ["CREDIT_CARD"; "SSN"; "AWS_ACCESS_KEY"; "API_KEY"].

(** [PIISanitizer.__init__]: the patterns of the chosen types *)
Definition _patterns (sanitize_types : gset string) : list string :=
  List.filter (fun t => bool_decide (t ∈ sanitize_types)) _SANITIZE_PATTERNS.

Definition placeholder (pii_type : string) (count : Z) : string :=
  ("[PII_" +:+ pii_type +:+ "_" +:+ z_str count +:+ "]")%string.

(** The loop over one pattern's matches: the text so far, the offset, the count and
    the mapping *)
Fixpoint replace_matches (pii_type current : string) (spans : list (nat * nat)) (new_sanitized : string) (offset count : Z)
    (m : list (string * string)) : string * Z * list (string * string) :=
  match spans with
  | [] => (new_sanitized, count, m)
  | (a, b) :: spans =>
      let count := (count + 1)%Z in
      let ph := placeholder pii_type count in
      let original := slice a b current in
      let start := Z.to_nat (Z.of_nat a + offset) in
      let stop := Z.to_nat (Z.of_nat b + offset) in
      replace_matches pii_type current spans (stake start new_sanitized +:+ ph +:+ sdrop stop new_sanitized)%string
        (offset + (Z.of_nat (String.length ph) - Z.of_nat (String.length original)))%Z count (od_set ph original m)
  end.

(** The loop over the patterns *)
Fixpoint sanitize_loop `{Finder} (types : list string) (sanitized : string) (counter : gmap string Z)
    (m : list (string * string)) : string * list (string * string) :=
  match types with
  | [] => (sanitized, m)
  | t :: types =>
      let '(sanitized', count, m) :=
        replace_matches t sanitized (finditer t sanitized) sanitized 0 (default 0%Z (counter !! t)) m in
      sanitize_loop types sanitized' (<[t := count]> counter) m
  end.

Definition sanitize `{Finder} (sanitize_types : gset string) (text : string) : SanitizationResult :=
  let '(s, m) := sanitize_loop (_patterns sanitize_types) text ∅ [] in MkSanitized s m (zlen m).

Definition restore (text : string) (m : list (string * string)) : string :=
  foldl (fun s po => replace po.1 po.2 s) text m.

(** ** Characters *)

Definition open_b : ascii := "["%char.
Definition close_b : ascii := "]"%char.

(** No brackets *)
Definition plain (s : string) : bool := free_of open_b s && free_of close_b s.

(** ** [replace] on pieces *)

(** What brackets a placeholder has *)
Definition bracketed (p : string) : Prop :=
  exists w, p = String open_b (w +:+ String close_b "")%string /\ plain w = true.

Lemma replace_plain old new u v :
  bracketed old -> free_of open_b u = true -> replace old new (u +:+ v) = (u +:+ replace old new v)%string.
Proof.
  intros (w & -> & _). unfold replace. induction u as [|c u IH]; intros Hu; [done|].
  rewrite (app_cons c u v), (app_cons c u). simpl in Hu. apply andb_true_iff in Hu as [Hc Hu].
  cbn [replace_from startswith]. destruct (Ascii.eqb open_b c) eqn:Heq.
  { apply Ascii.eqb_eq in Heq as <-. by rewrite Ascii.eqb_refl in Hc. }
  cbn [andb]. cbv iota. by rewrite (IH Hu).
Qed.

Lemma replace_hit old new v : bracketed old -> replace old new (old +:+ v) = (new +:+ replace old new v)%string.
Proof.
  intros (w & Hold & _). unfold replace. destruct old as [|c old]; [done|]. rewrite app_cons. cbn [replace_from].
  rewrite <- (app_cons c old v), startswith_app. simpl String.length.
  replace (S (String.length old) - 1)%nat with (String.length old) by lia.
  rewrite replace_skip. by rewrite sdrop_app.
Qed.

(** Two bracketed strings, one a prefix of what follows the other *)
Lemma bracketed_prefix p q u v : bracketed p -> bracketed q -> (p +:+ u = q +:+ v)%string -> p = q.
Proof.
  intros (w & -> & Hw) (w' & -> & Hw') Heq. f_equal. rewrite !app_cons, !app_assoc_s in Heq. injection Heq as Heq.
  unfold plain in *. apply andb_true_iff in Hw as [_ Hw]. apply andb_true_iff in Hw' as [_ Hw'].
  revert w' Hw' Heq. induction w as [|a w IH]; intros w' Hw' Heq; destruct w' as [|b w'].
  - done.
  - exfalso. rewrite !app_cons in Heq. injection Heq as <- _. by cbn in Hw'.
  - exfalso. rewrite !app_cons in Heq. injection Heq as -> _. by cbn in Hw.
  - rewrite !app_cons in Heq. injection Heq as -> Heq. simpl in Hw, Hw'.
    apply andb_true_iff in Hw as [_ Hw]. apply andb_true_iff in Hw' as [_ Hw'].
    rewrite !app_cons. f_equal. by apply IH.
Qed.

Lemma replace_miss old new p v :
  bracketed old -> bracketed p -> p <> old -> replace old new (p +:+ v) = (p +:+ replace old new v)%string.
Proof.
  intros Hold Hp Hne. destruct (startswith old (p +:+ v)) eqn:Hs.
  { apply startswith_inv in Hs as [t Ht]. destruct Hne. by apply (bracketed_prefix p old v t). }
  pose proof Hp as (w & Hpw & Hw). rewrite Hpw in Hs |- *. rewrite !app_cons in *. unfold replace at 1. cbn [replace_from].
  rewrite Hs. f_equal. change (replace_from 0 old new) with (replace old new).
  assert (free_of open_b (w +:+ String close_b "") = true) as Hf.
  { rewrite free_app. unfold plain in Hw. apply andb_true_iff in Hw as [-> _]. done. }
  by rewrite replace_plain.
Qed.

(** ** Texts with holes *)

(** A plain text, or one followed by a placeholder and the rest *)
Inductive doc :=
  | End (u : string)
  | Seg (u p : string) (d : doc).

Fixpoint render (d : doc) : string :=
  match d with End u => u | Seg u p d => (u +:+ p +:+ render d)%string end.

(** The holes filled with [f] *)
Fixpoint fill (f : string -> string) (d : doc) : string :=
  match d with End u => u | Seg u p d => (u +:+ f p +:+ fill f d)%string end.

Fixpoint holes (d : doc) : list string :=
  match d with End _ => [] | Seg _ p d => p :: holes d end.

Fixpoint ok (d : doc) : Prop :=
  match d with End u => plain u = true | Seg u p d => plain u = true /\ bracketed p /\ ok d end.

Definition prepend (u : string) (d : doc) : doc :=
  match d with End v => End (u +:+ v) | Seg v p d => Seg (u +:+ v) p d end.

(** One placeholder replaced *)
Fixpoint subst (p o : string) (d : doc) : doc :=
  match d with
  | End u => End u
  | Seg u q d => if decide (q = p) then prepend (u +:+ o) (subst p o d) else Seg u q (subst p o d)
  end.

Lemma plain_app u v : plain (u +:+ v) = plain u && plain v.
Proof.
  unfold plain. rewrite !free_app.
  by destruct (free_of open_b u), (free_of open_b v), (free_of close_b u), (free_of close_b v).
Qed.

Lemma plain_app_inv u v : plain (u +:+ v) = true -> plain u = true /\ plain v = true.
Proof. rewrite plain_app. apply andb_true_iff. Qed.

Lemma render_prepend u d : render (prepend u d) = (u +:+ render d)%string.
Proof. destruct d; simpl; [done|]. by rewrite app_assoc_s. Qed.

Lemma fill_prepend f u d : fill f (prepend u d) = (u +:+ fill f d)%string.
Proof. destruct d; simpl; [done|]. by rewrite app_assoc_s. Qed.

Lemma ok_prepend u d : plain u = true -> ok d -> ok (prepend u d).
Proof. intros Hu. destruct d; simpl; rewrite plain_app, Hu; done. Qed.

Lemma holes_prepend u d : holes (prepend u d) = holes d.
Proof. by destruct d. Qed.

Lemma ok_subst p o d : plain o = true -> ok d -> ok (subst p o d).
Proof.
  intros Ho. induction d as [u|u q d IH]; [done|]. intros (Hu & Hq & Hd). simpl. destruct (decide (q = p)).
  - apply ok_prepend; [|by apply IH]. by rewrite plain_app, Hu, Ho.
  - split_and!; [done|done|by apply IH].
Qed.

Lemma holes_subst p o d q : q ∈ holes (subst p o d) <-> q ∈ holes d /\ q <> p.
Proof.
  induction d as [u|u r d IH]; simpl; [split; [by intros ?%not_elem_of_nil|by intros [?%not_elem_of_nil _]]|].
  destruct (decide (r = p)) as [->|Hne].
  - rewrite holes_prepend, IH, elem_of_cons. naive_solver.
  - simpl. rewrite !elem_of_cons, IH. naive_solver.
Qed.

Lemma fill_subst f p o d : f p = o -> fill f (subst p o d) = fill f d.
Proof.
  intros Hf. induction d as [u|u q d IH]; [done|]. simpl. destruct (decide (q = p)) as [->|Hne].
  - by rewrite fill_prepend, IH, app_assoc_s, Hf.
  - simpl. by rewrite IH.
Qed.

Lemma replace_doc p o d : bracketed p -> ok d -> replace p o (render d) = render (subst p o d).
Proof.
  intros Hp. induction d as [u|u q d IH].
  - intros Hu. simpl in *. rewrite <- (app_nil u) at 1. rewrite replace_plain; [|done|].
    + change (replace p o "") with "". apply app_nil.
    + unfold plain in Hu. by apply andb_true_iff in Hu as [? _].
  - intros (Hu & Hq & Hd). simpl. rewrite replace_plain; [|done|by unfold plain in Hu; apply andb_true_iff in Hu as [? _]].
    destruct (decide (q = p)) as [->|Hne].
    + by rewrite replace_hit, IH, render_prepend, app_assoc_s.
    + by rewrite replace_miss, IH.
Qed.

(** A mapping the sanitizer builds *)
Definition good_mapping (m : list (string * string)) : Prop :=
  NoDup m.*1 /\ forall p o, (p, o) ∈ m -> bracketed p /\ plain o = true.

Definition original_of (m : list (string * string)) (p : string) : string := default "" (od_get p m).

Lemma fill_no_holes f d : holes d = [] -> fill f d = render d.
Proof. by destruct d. Qed.

(** Restoring fills the holes. *)
Lemma restore_fill f m d :
  (forall p o, (p, o) ∈ m -> bracketed p /\ plain o = true /\ f p = o) -> ok d ->
  (forall p, p ∈ holes d -> p ∈ m.*1) -> restore (render d) m = fill f d.
Proof.
  unfold restore. revert d. induction m as [|[p o] m IH]; intros d Hm Hd Hh.
  - simpl. rewrite (fill_no_holes f); [done|]. destruct (holes d) as [|h hs]; [done|]. exfalso.
    specialize (Hh h). simpl in Hh. set_solver.
  - simpl. destruct (Hm p o) as (Hp & Ho & Hf); [by left|]. rewrite (replace_doc p o d Hp Hd).
    rewrite IH; [by apply fill_subst| |by apply ok_subst|].
    + intros p' o' Hin. apply Hm. by right.
    + intros q [Hq Hne]%holes_subst. specialize (Hh q Hq). simpl in Hh. by apply elem_of_cons in Hh as [->|?].
Qed.

(** ** Punching a hole *)

Lemma app_split (a b c d : string) :
  (a +:+ b = c +:+ d)%string ->
  (exists t, a = (c +:+ t)%string /\ d = (t +:+ b)%string) \/ (exists t, c = (a +:+ t)%string /\ b = (t +:+ d)%string).
Proof.
  revert c. induction a as [|x a IH]; intros c Heq; [right; by exists c|].
  destruct c as [|y c]; [left; by exists (String x a)|].
  rewrite !app_cons in Heq. injection Heq as -> Heq. destruct (IH c Heq) as [(t & -> & ->)|(t & -> & ->)].
  - left. by exists t.
  - right. by exists t.
Qed.

Lemma bracketed_suffix p t u : bracketed p -> p = (t +:+ u)%string -> u <> "" -> free_of close_b u = false.
Proof.
  intros (w & -> & _) Heq Hu. rewrite <- app_cons in Heq.
  apply app_split in Heq as [(v & _ & ->)|(v & Ht & Hv)].
  - rewrite free_app. simpl. apply andb_false_r.
  - destruct v as [|c v]; [change (String close_b "" = u) in Hv; by rewrite <- Hv|]. rewrite app_cons in Hv. injection Hv as _ Hv.
    destruct v; [|done]. by destruct u.
Qed.

Lemma bracketed_prefix_open p u v : bracketed p -> (p +:+ u = v)%string -> free_of open_b v = false.
Proof. intros (w & -> & _) <-. done. Qed.

Lemma plain_free u : plain u = true -> free_of open_b u = true /\ free_of close_b u = true.
Proof. unfold plain. apply andb_true_iff. Qed.

(** A plain match that is no part of a placeholder lies in one text. *)
Lemma insert_hole d x m y ph :
  ok d -> plain m = true -> m <> "" -> (forall p, p ∈ holes d -> contains m p = false) -> bracketed ph ->
  render d = (x +:+ m +:+ y)%string ->
  exists d', ok d' /\ render d' = (x +:+ ph +:+ y)%string /\ (forall p, p ∈ holes d' <-> p = ph \/ p ∈ holes d)
  /\ forall f, f ph = m -> fill f d' = fill f d.
Proof.
  revert x. induction d as [u|u p d IH]; intros x Hok Hm Hne Hout Hph Hr.
  - simpl in Hok, Hr. subst u. rewrite !plain_app in Hok. apply andb_true_iff in Hok as [Hx [_ Hy]%andb_true_iff].
    exists (Seg x ph (End y)). split_and!; [by split_and!|done|set_solver|].
    intros f Hf. simpl. by rewrite Hf.
  - destruct Hok as (Hu & Hp & Hd). cbn [render] in Hr.
    apply app_split in Hr as [(t & -> & Hr)|(t & -> & Hr)].
    + (** the match starts in the first text *)
      apply plain_app_inv in Hu as [Hx Ht].
      apply app_split in Hr as [(s & -> & Hr)|(s & -> & ->)].
      * destruct s as [|c s].
        -- rewrite (app_nil t) in *. change (p +:+ render d = y)%string in Hr. exists (Seg x ph (Seg "" p d)).
           split_and!; [by split_and!|simpl; by rewrite <- Hr|set_solver|].
           intros f Hf. simpl. by rewrite Hf, app_assoc_s.
        -- exfalso. apply plain_app_inv in Hm as [_ Hm]. apply plain_free in Hm as [Hm _].
           destruct Hp as (w & -> & _). rewrite !app_cons in Hr. injection Hr as <- _. by cbn in Hm.
      * exists (Seg x ph (Seg s p d)). apply plain_app_inv in Ht as [_ Hs].
        split_and!; [by split_and!|done|set_solver|].
        intros f Hf. simpl. by rewrite Hf, !app_assoc_s.
    + (** it starts later *)
      apply app_split in Hr as [(s & Hps & Hr)|(s & -> & Hr)].
      * (** inside the placeholder, or right after it *)
        destruct s as [|c s].
        -- rewrite (app_nil t) in Hps. subst t. change (m +:+ y = render d)%string in Hr.
           destruct (IH "" Hd Hm Hne) as (d' & Hd' & Hr' & Hh & Hf); [|done|by rewrite Hr|].
           { intros q Hq. apply Hout. simpl. by right. }
           exists (Seg u p d'). split_and!; [by split_and!|simpl; by rewrite Hr', app_assoc_s|set_solver|].
           intros f Hfp. simpl. by rewrite (Hf f Hfp).
        -- exfalso. apply app_split in Hr as [(r & -> & _)|(r & Hcs & _)].
           ++ apply plain_app_inv in Hm as [Hm _]. apply plain_free in Hm as [_ Hm].
              by rewrite (bracketed_suffix p t (String c s) Hp Hps) in Hm.
           ++ specialize (Hout p (list_elem_of_here _ _)). rewrite Hps, Hcs in Hout.
              by rewrite contains_mid in Hout.
      * destruct (IH s Hd Hm Hne) as (d' & Hd' & Hr' & Hh & Hf); [|done|done|].
        { intros q Hq. apply Hout. simpl. by right. }
        exists (Seg u p d'). split_and!; [by split_and!|simpl; by rewrite Hr', !app_assoc_s|set_solver|].
        intros f Hfp. simpl. by rewrite (Hf f Hfp).
Qed.

(** ** Placeholders *)

Lemma plain_z_str n : plain (z_str n) = true.
Proof.
  assert (forall u, plain (DecimalString.NilEmpty.string_of_uint u) = true) as Hu.
  { induction u as [|u IH|u IH|u IH|u IH|u IH|u IH|u IH|u IH|u IH|u IH]; [done|..]; exact IH. }
  unfold z_str, DecimalString.NilEmpty.string_of_int. destruct (Z.to_int n) as [u|u]; [apply Hu|exact (Hu u)].
Qed.

Lemma placeholder_bracketed t n : plain t = true -> bracketed (placeholder t n).
Proof.
  intros Ht. exists ("PII_" +:+ t +:+ "_" +:+ z_str n)%string. split.
  - unfold placeholder. rewrite !app_assoc_s. done.
  - rewrite !plain_app, Ht, plain_z_str. done.
Qed.

Lemma plain_type t : t ∈ _SANITIZE_PATTERNS -> plain t = true.
Proof. intros Ht. repeat (apply elem_of_cons in Ht as [->|Ht]; [done|]). by apply not_elem_of_nil in Ht. Qed.

Lemma app_inv_head_s u v w : (u +:+ v = u +:+ w)%string -> v = w.
Proof. induction u as [|c u IH]; [done|]. rewrite !app_cons. intros [= Heq]. by apply IH. Qed.

Lemma placeholder_inj t n t' n' :
  t ∈ _SANITIZE_PATTERNS -> t' ∈ _SANITIZE_PATTERNS -> placeholder t n = placeholder t' n' -> t = t' /\ n = n'.
Proof.
  intros Ht Ht' Heq.
  assert (t = t') as ->.
  { repeat (apply elem_of_cons in Ht as [->|Ht]; [|]); try by apply not_elem_of_nil in Ht.
    all: repeat (apply elem_of_cons in Ht' as [->|Ht']; [|]); try by apply not_elem_of_nil in Ht'.
    all: done. }
  split; [done|]. unfold placeholder in Heq. rewrite <- !app_assoc_s in Heq.
  apply append_inj_r in Heq as [Heq _]; [|done]. apply app_inv_head_s in Heq. by apply z_str_inj.
Qed.

(** ** The sanitizer's loops *)

(** The matches of a text, left to right: each one plain, not empty, and no part of a
    placeholder *)
Fixpoint valid (pos : nat) (s : string) (spans : list (nat * nat)) : Prop :=
  match spans with
  | [] => True
  | (a, b) :: spans =>
      (pos <= a < b)%nat /\ (b <= String.length s)%nat /\ plain (slice a b s) = true
      /\ (forall t n, t ∈ _SANITIZE_PATTERNS -> (0 < n)%Z -> contains (slice a b s) (placeholder t n) = false)
      /\ valid b s spans
  end.

(** The placeholders issued so far, by type *)
Definition issued (counter : string -> Z) (m : list (string * string)) : Prop :=
  forall p, p ∈ m.*1 -> exists t n, t ∈ _SANITIZE_PATTERNS /\ p = placeholder t n /\ (0 < n <= counter t)%Z.

(** The text is that of a document whose holes are the mapping's keys and which the
    mapping fills with the original. *)
Definition tracks (original new : string) (m : list (string * string)) : Prop :=
  exists d, ok d /\ render d = new /\ (forall p, p ∈ holes d <-> p ∈ m.*1) /\ fill (original_of m) d = original.

Lemma fill_ext f g d : (forall p, p ∈ holes d -> f p = g p) -> fill f d = fill g d.
Proof.
  induction d as [u|u p d IH]; [done|]. intros Hfg. simpl. rewrite (Hfg p) by (simpl; by left).
  rewrite IH; [done|]. intros q Hq. apply Hfg. simpl. by right.
Qed.

Lemma slice_split a b s : (a <= b)%nat -> sdrop a s = (slice a b s +:+ sdrop b s)%string.
Proof.
  intros Hab. unfold slice. replace b with (a + (b - a))%nat at 2 by lia. rewrite <- sdrop_sdrop.
  by rewrite stake_drop.
Qed.

Lemma length_slice a b s : (b <= String.length s)%nat -> String.length (slice a b s) = (b - a)%nat.
Proof. intros Hb. unfold slice. rewrite length_stake, length_sdrop. lia. Qed.

Definition bump (t : string) (n : Z) (counter : string -> Z) : string -> Z :=
  fun t' => if decide (t' = t) then n else counter t'.

(** One replacement *)
Lemma track_one original t count m counter x mt y :
  t ∈ _SANITIZE_PATTERNS -> (0 <= count)%Z -> issued (bump t count counter) m -> NoDup m.*1 ->
  (forall p o, (p, o) ∈ m -> plain o = true) ->
  plain mt = true -> mt <> "" ->
  (forall t' n, t' ∈ _SANITIZE_PATTERNS -> (0 < n)%Z -> contains mt (placeholder t' n) = false) ->
  tracks original (x +:+ mt +:+ y) m ->
  let ph := placeholder t (count + 1) in
  let m' := od_set ph mt m in
  tracks original (x +:+ ph +:+ y) m' /\ issued (bump t (count + 1) counter) m' /\ NoDup m'.*1
  /\ (forall p o, (p, o) ∈ m' -> plain o = true).
Proof.
  intros Ht Hc Hiss Hnd Hplain Hm Hne Hout (d & Hd & Hr & Hh & Hf) ph m'.
  assert (ph ∉ m.*1) as Hfresh.
  { intros Hin. apply Hiss in Hin as (t' & n & Ht' & Hp & Hn). apply placeholder_inj in Hp as [<- <-]; [|done|done].
    unfold bump in Hn. rewrite decide_True in Hn by done. lia. }
  assert (m' = m ++ [(ph, mt)]) as Hm' by by apply od_set_new.
  assert (m'.*1 = m.*1 ++ [ph]) as Hkeys by (by rewrite Hm', fmap_app).
  destruct (insert_hole d x mt y ph Hd Hm Hne) as (d' & Hd' & Hr' & Hh' & Hf'); [|by apply placeholder_bracketed, plain_type|done|].
  { intros p Hp. apply Hh, Hiss in Hp as (t' & n & Ht' & -> & Hn). apply Hout; [done|lia]. }
  split_and!.
  - exists d'. split_and!; [done|done| |].
    + intros p. rewrite Hh', Hh, Hkeys, elem_of_app, list_elem_of_singleton. naive_solver.
    + rewrite (Hf' (original_of m')).
      * rewrite <- Hf. apply fill_ext. intros p Hp. unfold original_of. f_equal. unfold m'. apply od_get_set_ne.
        intros <-. by apply Hfresh, Hh.
      * unfold original_of, m'. by rewrite od_get_set_eq.
  - intros p. rewrite Hkeys, elem_of_app, list_elem_of_singleton. intros [Hp| ->].
    + destruct (Hiss p Hp) as (t' & n & Ht' & -> & Hn). exists t', n. split_and!; try done; try lia.
      unfold bump in *. destruct (decide (t' = t)); lia.
    + exists t, (count + 1)%Z. unfold bump. rewrite decide_True by done. split_and!; try done; lia.
  - rewrite Hkeys. apply NoDup_app. split_and!; [done| |constructor; [apply not_elem_of_nil|constructor]].
    intros p Hp ->%list_elem_of_singleton. done.
  - intros p o. rewrite Hm', elem_of_app, list_elem_of_singleton. intros [Hin|[= _ ->]]; [by apply (Hplain p)|done].
Qed.

Lemma replace_matches_tracks original t counter s spans : forall pos P new offset count m,
  t ∈ _SANITIZE_PATTERNS -> (0 <= count)%Z -> issued (bump t count counter) m -> NoDup m.*1 ->
  (forall p o, (p, o) ∈ m -> plain o = true) ->
  (pos <= String.length s)%nat -> new = (P +:+ sdrop pos s)%string ->
  Z.of_nat (String.length P) = (Z.of_nat pos + offset)%Z -> valid pos s spans -> tracks original new m ->
  let '(s', count', m') := replace_matches t s spans new offset count m in
  tracks original s' m' /\ issued (bump t count' counter) m' /\ (0 <= count')%Z /\ NoDup m'.*1
  /\ (forall p o, (p, o) ∈ m' -> plain o = true).
Proof.
  induction spans as [|[a b] spans IH]; intros pos P new offset count m Ht Hc Hiss Hnd Hpl Hpos Hnew Hlen Hv Htr;
    [by split_and!|].
  destruct Hv as (Hab & Hb & Hm & Hout & Hv). cbn [replace_matches].
  set (mt := slice a b s) in *. set (x := (P +:+ slice pos a s)%string).
  assert (String.length mt = (b - a)%nat) as Hlmt by (apply length_slice; lia).
  assert (String.length x = (String.length P + (a - pos))%nat) as Hlx
    by (unfold x; rewrite str_length_app, length_slice; lia).
  assert (new = (x +:+ mt +:+ sdrop b s)%string) as Hnx.
  { unfold x. rewrite app_assoc_s, Hnew, (slice_split pos a s), (slice_split a b s) by lia. done. }
  assert (Z.to_nat (Z.of_nat a + offset) = String.length x) as -> by lia.
  assert (Z.to_nat (Z.of_nat b + offset) = String.length (x +:+ mt)) as -> by (rewrite str_length_app; lia).
  rewrite Hnx. rewrite stake_app. rewrite <- (app_assoc_s x mt), sdrop_app.
  rewrite Hnx in Htr.
  assert (mt <> "") as Hne by (intros He; rewrite He in Hlmt; simpl in Hlmt; lia).
  destruct (track_one original t count m counter x mt (sdrop b s) Ht Hc Hiss Hnd Hpl Hm Hne Hout Htr)
    as (Htr' & Hiss' & Hnd' & Hpl').
  set (ph := placeholder t (count + 1)) in *.
  apply (IH b (x +:+ ph)%string); try done.
  - lia.
  - by rewrite app_assoc_s.
  - rewrite str_length_app. lia.
Qed.

Lemma issued_weaken counter counter' m :
  (forall t, t ∈ _SANITIZE_PATTERNS -> (counter t <= counter' t)%Z) -> issued counter m -> issued counter' m.
Proof.
  intros Hc Hi p Hp. destruct (Hi p Hp) as (t & n & Ht & -> & Hn). exists t, n. specialize (Hc t Ht).
  split_and!; done || lia.
Qed.

Section sanitizing.
Context `{Finder}.
Context (finds : forall t u, t ∈ _SANITIZE_PATTERNS -> valid 0 u (finditer t u)).

Lemma sanitize_loop_tracks original types : forall s (counter : gmap string Z) m,
  (forall t, t ∈ types -> t ∈ _SANITIZE_PATTERNS) -> (forall t, (0 <= default 0 (counter !! t))%Z) ->
  issued (fun t => default 0%Z (counter !! t)) m -> NoDup m.*1 -> (forall p o, (p, o) ∈ m -> plain o = true) ->
  tracks original s m ->
  let '(s', m') := sanitize_loop types s counter m in
  tracks original s' m' /\ (forall p o, (p, o) ∈ m' -> bracketed p /\ plain o = true) /\ NoDup m'.*1.
Proof.
  induction types as [|t types IH]; intros s counter m Hty Hpos Hiss Hnd Hpl Htr.
  - simpl. split_and!; [done| |done]. intros p o Hin. split; [|by apply (Hpl p)].
    destruct (Hiss p) as (t & n & Ht & -> & _); [apply list_elem_of_fmap; by exists (p, o)|].
    by apply placeholder_bracketed, plain_type.
  - cbn [sanitize_loop]. set (c := default 0%Z (counter !! t)).
    pose proof (replace_matches_tracks original t (fun t => default 0%Z (counter !! t)) s (finditer t s)
      0 "" s 0 c m) as Hstep.
    destruct (replace_matches t s (finditer t s) s 0 c m) as [[s' count'] m'].
    destruct Hstep as (Htr' & Hiss' & Hc' & Hnd' & Hpl'); try done.
    + apply Hty. by left.
    + unfold c. apply Hpos.
    + apply (issued_weaken (fun t => default 0%Z (counter !! t))); [|done]. intros t' _. unfold bump, c.
      destruct (decide (t' = t)) as [->|]; lia.
    + lia.
    + apply finds, Hty. by left.
    + apply IH; try done.
      * intros t' Ht'. apply Hty. by right.
      * intros t'. destruct (decide (t = t')) as [->|Hne]; [by rewrite lookup_insert_eq|].
        rewrite lookup_insert_ne by done. apply Hpos.
      * apply (issued_weaken (bump t count' (fun t => default 0%Z (counter !! t)))); [|done]. intros t' _. unfold bump.
        destruct (decide (t' = t)) as [->|Hne]; [by rewrite lookup_insert_eq|]. by rewrite lookup_insert_ne.
Qed.

Lemma sanitize_tracks types text :
  plain text = true ->
  let r := sanitize types text in
  tracks text (sanitized_text r) (mapping r)
  /\ (forall p o, (p, o) ∈ mapping r -> bracketed p /\ plain o = true) /\ NoDup (mapping r).*1.
Proof.
  intros Htext. unfold sanitize.
  pose proof (sanitize_loop_tracks text (_patterns types) text ∅ []) as Hl.
  destruct (sanitize_loop (_patterns types) text ∅ []) as [s m]. apply Hl.
  - intros t Ht. unfold _patterns in Ht. apply list_elem_of_In, filter_In in Ht as [Ht _]. by apply list_elem_of_In.
  - intros t. by rewrite lookup_empty.
  - intros p Hp. simpl in Hp. by apply not_elem_of_nil in Hp.
  - constructor.
  - intros p o Hp. by apply not_elem_of_nil in Hp.
  - exists (End text). split_and!; [done|done|simpl; set_solver|done].
Qed.

(** Sanitizing loses nothing.  For a text without brackets, and patterns whose
    matches are not parts of placeholders, restoring the sanitized text with its mapping
    gives the text back, whatever types are sanitized and however many matches overlap
    in position with earlier replacements; and any answer made of plain text and of
    issued placeholders, in any order and number, comes back with each placeholder
    replaced by the value it stands for. *)
Theorem sanitize_restores types text :
  plain text = true ->
  let r := sanitize types text in
  restore (sanitized_text r) (mapping r) = text
  /\ (forall d, ok d -> (forall p, p ∈ holes d -> p ∈ (mapping r).*1) ->
      restore (render d) (mapping r) = fill (original_of (mapping r)) d).
Proof.
  intros Htext. cbv zeta. destruct (sanitize_tracks types text Htext) as ((d & Hd & Hr & Hh & Hf) & Hm & Hnd).
  set (m := mapping (sanitize types text)) in *.
  assert (forall p o, (p, o) ∈ m -> bracketed p /\ plain o = true /\ original_of m p = o) as Hfill.
  { intros p o Hin. destruct (Hm p o Hin). split_and!; try done. unfold original_of.
    by rewrite (od_elem_get p o m Hnd Hin). }
  split.
  - rewrite <- Hr, (restore_fill (original_of m)); [done|done|done|]. intros p. apply Hh.
  - intros d' Hd' Hh'. by apply restore_fill.
Qed.
End sanitizing.

(** ** Around the forward (pipeline/orchestrator.py, adapters/) *)

(** The settings and the call, the fields these steps use *)
Record settings := MkSettings {
  pii_sanitization_enabled : bool;
  pii_sanitization_mode : string;
  pii_sanitization_types : string;
}.

Record ModelCall := MkCall {
  prompt_text : string;
  raw_body : string;
  is_streaming : bool;
  _pii_mapping : list (string * string);
}.

(** [_get_pii_sanitizer]: the types of the setting *)
Definition sanitizer_types (cfg : settings) : gset string :=
  list_to_set (map strip (List.filter (fun t => negb (bool_decide (strip t = "")))
                            (split_on ","%char (pii_sanitization_types cfg)))).

(** Step 2.9: only the prompt text and the metadata of the call are replaced. *)
Definition sanitize_call `{Finder} (cfg : settings) (call : ModelCall) : ModelCall :=
  if pii_sanitization_enabled cfg && negb (bool_decide (prompt_text call = "")) && negb (is_streaming call) then
    let r := sanitize (sanitizer_types cfg) (prompt_text call) in
    if (0 <? pii_count r)%Z
    then MkCall (sanitized_text r) (raw_body call) (is_streaming call) (mapping r)
    else call
  else call.

(** [build_forward_request] of the adapters on their standard path: the body sent is
    the request's own. *)
Definition forwarded_body (call : ModelCall) : string := raw_body call.

(** After the response *)
Definition restore_content (cfg : settings) (call : ModelCall) (content : string) : string :=
  match _pii_mapping call with
  | [] => content
  | m => if pii_sanitization_enabled cfg && bool_decide (pii_sanitization_mode cfg = "replace")
            && negb (bool_decide (content = ""))
         then restore content m else content
  end.

(** C25. What sanitization changes.  When it applies, the text that is hashed, analysed
    and recorded has its matches replaced, and the mapping restores it; but the body
    the provider receives is byte for byte the client's, with everything the patterns
    found in it. *)
Theorem provider_gets_the_original `{Finder}
    (finds : forall t u, t ∈ _SANITIZE_PATTERNS -> valid 0 u (finditer t u)) cfg call :
  forwarded_body (sanitize_call cfg call) = raw_body call
  /\ (pii_sanitization_enabled cfg = true -> is_streaming call = false -> prompt_text call <> "" ->
      plain (prompt_text call) = true ->
      mapping (sanitize (sanitizer_types cfg) (prompt_text call)) <> [] ->
      prompt_text (sanitize_call cfg call) = sanitized_text (sanitize (sanitizer_types cfg) (prompt_text call))
      /\ restore (prompt_text (sanitize_call cfg call)) (_pii_mapping (sanitize_call cfg call)) = prompt_text call).
Proof.
  split.
  - unfold forwarded_body, sanitize_call. destruct (_ && _ && _); [|done]. by destruct (0 <? _)%Z.
  - intros Hen Hst Hne Hpl Hm. unfold sanitize_call. rewrite Hen, Hst, (bool_decide_eq_false_2 _ Hne). cbn [andb negb].
    assert (pii_count (sanitize (sanitizer_types cfg) (prompt_text call))
            = zlen (mapping (sanitize (sanitizer_types cfg) (prompt_text call)))) as Hcount.
    { unfold sanitize. by destruct (sanitize_loop _ _ _ _) as [s m]. }
    assert ((0 <? pii_count (sanitize (sanitizer_types cfg) (prompt_text call)))%Z = true) as ->.
    { rewrite Hcount. unfold zlen. destruct (mapping _); [done|]. simpl. apply Z.ltb_lt. lia. }
    split; [done|]. cbn [prompt_text _pii_mapping].
    destruct (sanitize_tracks finds (sanitizer_types cfg) (prompt_text call) Hpl) as ((d & Hd & Hr & Hh & Hf) & Hm' & Hnd).
    rewrite <- Hr, (restore_fill (original_of (mapping (sanitize (sanitizer_types cfg) (prompt_text call)))));
      [done| |done|intros p; apply Hh].
    intros p o Hin. destruct (Hm' p o Hin). split_and!; try done. unfold original_of.
    by rewrite (od_elem_get p o _ Hnd Hin).
Qed.

(** ** A run *)

Module SanitizerRuns.

Definition secret_text : string := "my ssn is 123-45-6789, and so on".

(** The one match of the one text *)
#[local] Instance ssn_finder : Finder :=
  fun t u => if bool_decide (t = "SSN") && bool_decide (u = secret_text) then [(10, 21)]%nat else [].

Lemma no_dash t n : t ∈ _SANITIZE_PATTERNS -> (0 < n)%Z -> free_of "-"%char (placeholder t n) = true.
Proof.
  intros Ht Hn. assert (free_of "-"%char (z_str n) = true) as Hz.
  { assert (forall u, free_of "-"%char (DecimalString.NilEmpty.string_of_uint u) = true) as Hu.
    { induction u as [|u IH|u IH|u IH|u IH|u IH|u IH|u IH|u IH|u IH|u IH]; [done|..]; exact IH. }
    destruct n as [|p|p]; [done| |lia]. exact (Hu _). }
  unfold placeholder. rewrite !free_app, Hz.
  repeat (apply elem_of_cons in Ht as [->|Ht]; [done|]). by apply not_elem_of_nil in Ht.
Qed.

Lemma contains_free c m s : free_of c s = true -> free_of c m = false -> contains m s = false.
Proof.
  intros Hs Hm. apply not_true_iff_false. intros Hc. assert (exists x y, s = (x +:+ m +:+ y)%string) as (x & y & ->).
  { clear Hs Hm. induction s as [|a s IH]; simpl in Hc.
    - destruct m; [|done]. by exists "", "".
    - apply orb_true_iff in Hc as [Hc|Hc].
      + apply (startswith_inv m (String a s)) in Hc as [t Ht]. exists "", t. exact Ht.
      + destruct (IH Hc) as (x & y & ->). by exists (String a x), y. }
  rewrite !free_app, Hm, andb_false_r in Hs. done.
Qed.

Lemma ssn_finds t u : t ∈ _SANITIZE_PATTERNS -> valid 0 u (finditer t u).
Proof.
  intros Ht. unfold finditer, ssn_finder. destruct (bool_decide (t = "SSN") && bool_decide (u = secret_text)) eqn:Hb; [|done].
  apply andb_true_iff in Hb as [_ Hb]. zbool. subst u. cbn [valid]. split_and!; try done; try lia.
  - vm_compute. lia.
  - intros t' n Ht' Hn. apply (contains_free "-"%char); [by apply no_dash|reflexivity].
Qed.

Lemma sanitize_restores_witness :
  let r := sanitize {["SSN"]} secret_text in
  sanitized_text r = "my ssn is [PII_SSN_1], and so on" /\ restore (sanitized_text r) (mapping r) = secret_text.
Proof.
  split; [vm_compute; reflexivity|]. apply (sanitize_restores ssn_finds {["SSN"]} secret_text). reflexivity.
Defined.

Definition cfg : settings := MkSettings true "replace" "SSN, CREDIT_CARD".

Lemma provider_gets_the_original_witness :
  let call := sanitize_call cfg (MkCall secret_text secret_text false []) in
  prompt_text call = "my ssn is [PII_SSN_1], and so on" /\ forwarded_body call = secret_text.
Proof.
  split; [vm_compute; reflexivity|].
  exact (proj1 (provider_gets_the_original ssn_finds cfg (MkCall secret_text secret_text false []))).
Defined.

End SanitizerRuns.
