(* ===== verification/AdapterBase.v ===== *)
(** * What the provider adapters share

    The request and response types (adapters/base.py), removal of reasoning traces
    (adapters/thinking.py), prompt-cache helpers (adapters/caching.py) and the session
    identifier (util/session_id.py).  Values taken from a request or a response are
    not validated by the code, so they are [pyval]s here; a body is its bytes. *)
From S2P Require Import Prelude ODict PyVal PyStr PyObj.

Local Open Scope Z_scope.

(** ** Types *)

Record ToolInteraction := MkInteraction {
  tool_id : pyval;
  tool_type : pyval;
  tool_name : pyval;
  input_data : pyval;
  output_data : pyval;
  sources : pyval;
  i_metadata : pyval;
}.

Record ModelCall := MkCall {
  provider : string;
  model_id : pyval;
  prompt_text : pyval;
  raw_body : string;
  is_streaming : pyval;
  metadata : dict;
}.

Record ModelResponse := MkResponse {
  content : pyval;
  usage : pyval;
  r_raw_body : string;
  provider_request_id : pyval;
  tool_interactions : list ToolInteraction;
  has_pending_tool_calls : bool;
  thinking_content : pyval;
}.

(** What an adapter reads of a Starlette request: header names are in lower case. *)
Record request := MkRequest {
  q_method : string;
  q_path : string;
  q_query : string;
  headers : list (string * string);
  body : string;
  _parsed_body : option pyval;
}.

(** What it hands to the HTTP client *)
Record forward := MkForward {
  f_method : string;
  f_url : string;
  f_headers : list (string * string);
  f_body : string;
}.

Record settings := MkSettings {
  thinking_strip_enabled : bool;
  session_header_names_list : list string;
  web_search_enabled : bool;
  web_search_max_results : Z;
}.

(** [request.headers.get(k, "")] *)
Definition header (k : string) (r : request) : string := default "" (od_get k (headers r)).

(** [metadata[k] = v] when [v] is truthy *)
Definition set_if (b : bool) (k : string) (v : pyval) (d : dict) : dict := if b then od_set k v d else d.

(** Every adapter starts with the cached body when it is a dict, else it decodes. *)
Definition request_data `{JsonText} (r : request) : res pyval :=
  match _parsed_body r with
  | Some (PDict d) => Ok (PDict d)
  | _ => match of_text (body r) with
         | Ok v => Ok v
         | Raise _ => Raise (ValueError "Invalid JSON body")
         end
  end.

(** ** Session identifiers *)

Definition chat_id_of (body : option pyval) : res string :=
  match body with
  | Some b =>
      if truthy b then
        let! m := get "metadata" b in
        match m with
        | PDict d => strip_of (dget_or "chat_id" (PStr "") d)
        | _ => Ok ""
        end
      else Ok ""
  | None => Ok ""
  end.

(** [fresh] is the new UUID. *)
Definition resolve_session_id (fresh : string) (r : request) (header_names : list string) (body : option pyval)
    : res string :=
  match List.find (fun v => negb (bool_decide (v = ""))) (map (fun n => strip (header (lower n) r)) header_names) with
  | Some v => Ok v
  | None => let! c := chat_id_of body in Ok (if bool_decide (c = "") then fresh else c)
  end.

(** ** Reasoning traces

    The expression <think>(.*?)</think>, case-insensitive, dots matching line ends:
    from the first opening tag to the first closing tag after it. *)

Fixpoint split_tag (tag s : string) : option (string * string) :=
  if startswith tag (lower s) then Some ("", sdrop (String.length tag) s)
  else match s with
       | EmptyString => None
       | String c s => match split_tag tag s with
                       | Some (a, b) => Some (String c a, b)
                       | None => None
                       end
       end.

Definition next_block (s : string) : option (string * string * string) :=
  match split_tag "<think>" s with
  | Some (a, s1) => match split_tag "</think>" s1 with
                    | Some (x, s2) => Some (a, x, s2)
                    | None => None
                    end
  | None => None
  end.

(** The texts between the blocks, and the blocks *)
Fixpoint think_scan (fuel : nat) (s : string) : string * list string :=
  match fuel with
  | O => (s, [])
  | S n => match next_block s with
           | Some (a, x, s') => let '(clean, parts) := think_scan n s' in (a +:+ clean, x :: parts)
           | None => (s, [])
           end
  end.

Definition strip_thinking_tokens (text : string) : string * option string :=
  match think_scan (String.length text) text with
  | (_, []) => (text, None)
  | (clean, parts) => (strip clean, Some (sjoin (String lf ("---" +:+ String lf "")) (map strip parts)))
  end.

(** The adapters strip a prompt when it shows an opening tag. *)
Definition strip_prompt (enabled : bool) (prompt : pyval) : res pyval :=
  if enabled then
    let! l := lower_of prompt in
    match prompt with
    | PStr p => Ok (PStr (if contains "<think>" l then fst (strip_thinking_tokens p) else p))
    | _ => attribute_error
    end
  else Ok prompt.

(** *** Scanning *)

Lemma split_tag_hit tag s :
  startswith tag (lower s) = true -> split_tag tag s = Some ("", sdrop (String.length tag) s).
Proof. destruct s; simpl; by intros ->. Qed.

Lemma split_tag_step tag c s :
  startswith tag (lower (String c s)) = false ->
  split_tag tag (String c s) = option_map (fun ab => (String c ab.1, ab.2)) (split_tag tag s).
Proof. simpl. intros ->. by destruct (split_tag tag s) as [[]|]. Qed.

(** A tag is found at its first occurrence: it starts with a bracket and holds no
    other, so no occurrence straddles the text before it. *)
Lemma split_tag_found t u w :
  let tag := String "<"%char t in
  free_of "<"%char t = true -> lower t = t -> contains tag (lower u) = false ->
  split_tag tag (u +:+ tag +:+ w) = Some (u, w).
Proof.
  intros tag Ht Hl. assert (lower tag = tag) as Htag by (change (String "<" (lower t) = String "<" t); by rewrite Hl).
  induction u as [|c u IH]; intros Hu.
  - change ("" +:+ tag +:+ w) with (tag +:+ w). rewrite split_tag_hit; [by rewrite sdrop_app|].
    rewrite lower_app, Htag. apply startswith_app.
  - change (startswith tag (lower (String c u)) || contains tag (lower u) = false) in Hu.
    apply orb_false_iff in Hu as [Hs Hu]. specialize (IH Hu).
    rewrite app_cons, split_tag_step; [by rewrite IH|]. rewrite <- app_cons.
    apply not_true_iff_false. intros Hx.
    rewrite !lower_app, Htag in Hx. change (lower (String c u)) with (String (ascii_lower c) (lower u)) in Hx, Hs.
    unfold tag in Hx, Hs. rewrite !app_cons in Hx. cbn [startswith] in Hx, Hs.
    apply andb_true_iff in Hx as [Hc Hx]. apply startswith_before in Hx; [|done]. by rewrite Hc, Hx in Hs.
Qed.

(** Without the tag nothing is found. *)
Lemma split_tag_none tag s : contains tag (lower s) = false -> split_tag tag s = None.
Proof.
  induction s as [|c s IH]; intros Hs.
  - apply orb_false_iff in Hs as [Hs _]. change (startswith tag (lower "") = false) in Hs. simpl. by rewrite Hs.
  - change (startswith tag (lower (String c s)) || contains tag (lower s) = false) in Hs.
    apply orb_false_iff in Hs as [Hc Hs]. by rewrite split_tag_step, (IH Hs).
Qed.

Lemma startswith_length p s : startswith p s = true -> (String.length p <= String.length s)%nat.
Proof. intros [t ->]%startswith_inv. rewrite str_length_app. lia. Qed.

Lemma length_lower s : String.length (lower s) = String.length s.
Proof. unfold lower. induction s as [|c s IH]; simpl; congruence. Qed.

Lemma hit_length tag s a b :
  startswith tag (lower s) = true -> split_tag tag s = Some (a, b) ->
  (String.length tag + String.length b <= String.length s)%nat.
Proof.
  intros Hc Hs. rewrite split_tag_hit in Hs by done. injection Hs as _ <-.
  apply startswith_length in Hc. rewrite length_lower in Hc. rewrite length_sdrop. lia.
Qed.

Lemma split_tag_length tag s a b :
  split_tag tag s = Some (a, b) -> (String.length tag + String.length b <= String.length s)%nat.
Proof.
  revert a. induction s as [|c s IH]; intros a Hs.
  - apply (hit_length tag "" a); [|done]. change (lower "") with "". simpl in Hs. change (lower "") with "" in Hs.
    by destruct (startswith tag "").
  - destruct (startswith tag (lower (String c s))) eqn:Hc; [by eapply hit_length|].
    rewrite split_tag_step in Hs by done. destruct (split_tag tag s) as [[a' b']|] eqn:Hr; [|done].
    injection Hs as <- <-. simpl. enough (String.length tag + String.length b' <= String.length s)%nat by lia.
    by apply (IH a').
Qed.

(** Blocks consume text, so any fuel from the length on gives the same result. *)
Lemma think_scan_more n s : (String.length s <= n)%nat -> think_scan (S n) s = think_scan n s.
Proof.
  revert s. induction n as [|n IH]; intros s Hn.
  - by destruct s; [|simpl in Hn; lia].
  - remember (S n) as m eqn:Hm. cbn [think_scan]. destruct (next_block s) as [[[a x] s']|] eqn:Hb;
      [|subst m; cbn [think_scan]; by rewrite Hb].
    unfold next_block in Hb. destruct (split_tag "<think>" s) as [[a1 s1]|] eqn:H1; [|done].
    destruct (split_tag "</think>" s1) as [[x2 s2]|] eqn:H2; [|done]. injection Hb as -> -> ->.
    apply split_tag_length in H1 as Hl1. apply split_tag_length in H2 as Hl2. simpl in Hl1, Hl2.
    subst m. rewrite IH by lia. cbn [think_scan]. unfold next_block. by rewrite H1, H2.
Qed.

(** One block: its text is cut out and, apart from the part that is returned, it
    leaves no trace. *)
Lemma think_one a x b :
  contains "<think>" (lower a) = false -> contains "</think>" (lower x) = false ->
  contains "<think>" (lower b) = false ->
  fst (strip_thinking_tokens (a +:+ "<think>" +:+ x +:+ "</think>" +:+ b)) = strip (a +:+ b).
Proof.
  intros Ha Hx Hb. unfold strip_thinking_tokens.
  destruct (String.length (a +:+ _)) as [|[|n]] eqn:Hn.
  - rewrite !str_length_app in Hn. simpl in Hn. lia.
  - rewrite !str_length_app in Hn. simpl in Hn. lia.
  - cbn [think_scan]. unfold next_block.
    rewrite (split_tag_found "think>"), (split_tag_found "/think>") by done.
    by rewrite (split_tag_none _ b Hb).
Qed.

(** ** Prompt caching *)

Definition eph : pyval := PDict [("type", PStr "ephemeral")].

(** The last block of a list content gets the marker unless it has one. *)
Definition mark_last (blocks : list pyval) : res pyval :=
  match rev blocks with
  | [] => Ok (PList [])
  | last :: before =>
      let! has := contains_key "cache_control" last in
      if has then Ok (PList blocks)
      else let! last := set_item "cache_control" eph last in Ok (PList (rev before ++ [last]))
  end.

Definition mark_message (msg : pyval) : res pyval :=
  let! role := get "role" msg in
  if negb (eq_str role "system") then Ok msg
  else
    let! content := item "content" msg in
    match content with
    | PStr s => let! c := mark_last [PDict [("type", PStr "text"); ("text", PStr s)]] in set_item "content" c msg
    | PList l => let! c := mark_last l in set_item "content" c msg
    | _ => Ok msg
    end.

Definition inject_cache_control (messages : pyval) : res pyval :=
  let! l := iter messages in let! l := map_res mark_message l in Ok (PList l).

Definition detect_cache_hit (usage : pyval) : res dict :=
  let! cached := get_or "cache_read_input_tokens" (PInt 0) usage in
  let cached := por cached (PInt 0) in
  let! creation := get_or "cache_creation_input_tokens" (PInt 0) usage in
  let creation := por creation (PInt 0) in
  let! details := get "prompt_tokens_details" usage in
  let cached := match por details (PDict []) with
                | PDict d => por cached (por (dget_or "cached_tokens" (PInt 0) d) (PInt 0))
                | _ => cached
                end in
  let! hit := py_gt cached (PInt 0) in
  Ok [("cache_hit", PBool hit); ("cached_tokens", cached); ("cache_creation_tokens", creation)].

(** [usage = {**usage, **detect_cache_hit(usage)}] *)
Definition with_cache_info (usage : pyval) : res pyval :=
  let! info := detect_cache_hit usage in spread usage info.
