(* ===== verification/OpenAI.v ===== *)
(** * The OpenAI adapter (adapters/openai.py)

    Requests to [ModelCall]s, the body forwarded (chat completions or the Responses
    API), responses and event streams to [ModelResponse]s, and the call that carries
    tool results back.  The Ollama adapter shares most of it.  JSON texts are the
    class [JsonText].  Log messages are not modelled. *)
From S2P Require Import Prelude ODict PyVal PyStr PyObj AdapterBase.

Local Open Scope Z_scope.

(** ** Requests *)

Definition _REASONING_MODEL_PATTERNS : list string := ["o1-*"; "o3-*"; "o4-*"].

Definition _is_reasoning_model (model_id : pyval) : res bool :=
  let! m := lower_of model_id in Ok (existsb (fnmatch m) _REASONING_MODEL_PATTERNS).

(** The texts of a content list: its blocks of type text *)
Definition block_text (block : pyval) : list pyval :=
  match block with
  | PDict b => if eq_str (dget "type" b) "text" then [dget_or "text" (PStr "") b] else []
  | _ => []
  end.

Definition message_parts (m : pyval) : res (list pyval) :=
  let! content := get "content" m in
  Ok (match content with
      | PStr s => [PStr s]
      | PList blocks => concat (map block_text blocks)
      | PNone => [PStr ""]
      | v => [PStr (py_str v)]
      end).

Definition nl : string := String lf "".

Definition _concat_messages (messages : pyval) : res pyval :=
  let! l := iter messages in
  let! parts := map_res message_parts l in
  let! s := join nl (concat parts) in
  Ok (PStr s).

Definition _INFERENCE_PARAMS : list string :=
  ["temperature"; "top_p"; "seed"; "max_tokens"; "presence_penalty"; "frequency_penalty"; "stop"].

(** [{k: data[k] for k in keys if data.get(k) is not None}] *)
Definition present (keys : list string) (data : dict) : dict :=
  concat (map (fun k => match dget k data with PNone => [] | v => [(k, v)] end) keys).

Definition _extract_inference_params (data : pyval) : res dict :=
  match data with PDict d => Ok (present _INFERENCE_PARAMS d) | _ => attribute_error end.

Definition system_parts (m : pyval) : res (list pyval) :=
  let! role := get "role" m in
  if negb (eq_str role "system") then Ok []
  else
    let! c := get_or "content" (PStr "") m in
    Ok (match c with
        | PStr s => [PStr s]
        | PList blocks => concat (map block_text blocks)
        | _ => []
        end).

Definition _extract_system_prompt (messages : pyval) : res pyval :=
  let! l := iter messages in
  let! parts := map_res system_parts l in
  match concat parts with
  | [] => Ok PNone
  | ps => let! s := join nl ps in Ok (PStr s)
  end.

Definition is_image (types : list string) (b : pyval) : bool :=
  match b with PDict d => in_strs (dget "type" d) types | _ => false end.

Definition images_in (m : pyval) : res Z :=
  let! c := get_or "content" (PStr "") m in
  Ok (match c with PList blocks => zlen (List.filter (is_image ["image_url"; "image"]) blocks) | _ => 0 end).

Definition _detect_multimodal (messages : pyval) : res (bool * Z) :=
  let! l := iter messages in
  let! counts := map_res images_in l in
  let count := foldr Z.add 0 counts in
  Ok (0 <? count, count).

Definition _OPENAI_STANDARD_FIELDS : list string :=
  ["model"; "messages"; "stream"; "temperature"; "top_p"; "n"; "stop"; "max_tokens"; "max_completion_tokens";
   "presence_penalty"; "frequency_penalty"; "logit_bias"; "logprobs"; "top_logprobs"; "user"; "tools";
   "tool_choice"; "response_format"; "seed"; "service_tier"; "stream_options"; "store"; "reasoning_effort";
   "parallel_tool_calls"; "functions"; "function_call"].

Record adapter := MkAdapter {
  _base_url : string;
  _api_key : string;
  _reasoning_summary_available : option bool;  (** of the class *)
}.

Definition init (base_url api_key : string) : adapter := MkAdapter (rstrip_slash base_url) api_key None.

Definition is_openai_direct (a : adapter) : bool := endswith "api.openai.com" (rstrip_slash (_base_url a)).

(** [messages] is truthy: its texts; else the prompt field *)
Definition prompt_of (messages data : pyval) : res pyval :=
  if truthy messages then _concat_messages messages
  else let! p := get_or "prompt" (PStr "") data in Ok (por p (PStr "")).

(** Metadata every OpenAI-style adapter collects *)
Definition user_metadata (r : request) : dict :=
  set_if (negb (bool_decide (header "x-user-id" r = ""))) "user" (PStr (header "x-user-id" r)) [].

Definition message_metadata (params : dict) (messages : pyval) (md : dict) : res dict :=
  let md := set_if (truthy (PDict params)) "inference_params" (PDict params) md in
  let! sp := _extract_system_prompt messages in
  let md := set_if (truthy sp) "system_prompt" sp md in
  let! '(has_mm, mm_count) := _detect_multimodal messages in
  Ok (set_if has_mm "multimodal_input_count" (PInt mm_count)
        (set_if has_mm "has_multimodal_input" (PBool true) md)).

Section adapter.
Context `{JsonText}.

(** The fields OpenAI does not know are removed from the body. *)
Definition cleaned_body (a : adapter) (data : pyval) (body : string) : string :=
  match data with
  | PDict d =>
      let cleaned := List.filter (fun kv => bool_decide (fst kv ∈ _OPENAI_STANDARD_FIELDS)) d in
      if is_openai_direct a && negb (py_eqb (PDict cleaned) (PDict d)) then to_text (PDict cleaned) else body
  | _ => body
  end.

Definition parse_request (s : settings) (a : adapter) (fresh : string) (r : request) : res ModelCall :=
  let! data := request_data r in
  let! model := get "model" data in
  let model := por model (PStr "") in
  let! messages := get_or "messages" (PList []) data in
  let! prompt := prompt_of messages data in
  let! prompt := strip_prompt (thinking_strip_enabled s) prompt in
  let! streaming := get_or "stream" (PBool false) data in
  let! sid := resolve_session_id fresh r (session_header_names_list s) (Some data) in
  let md := od_set "session_id" (PStr sid) (user_metadata r) in
  let! params := _extract_inference_params data in
  let! md := message_metadata params messages md in
  let! md := if is_openai_direct a then
               let! reasoning := _is_reasoning_model model in
               Ok (if reasoning then od_set "_responses_api" (PBool true) md
                   else set_if (web_search_enabled s) "_gateway_web_search" (PBool true) md)
             else Ok md in
  Ok (MkCall "openai" model prompt (cleaned_body a data (body r)) streaming md).

(** ** The forward *)

(** System messages give the instructions (the last one wins), the others the input. *)
Definition split_system (messages : pyval) : res (pyval * list pyval) :=
  let! l := iter messages in
  fold_res (fun '(ins, inp) m =>
              let! role := get_or "role" (PStr "") m in
              if eq_str role "system" then let! c := get_or "content" (PStr "") m in Ok (c, inp)
              else Ok (ins, inp ++ [m])) l (PNone, []).

Definition _build_responses_api_body (a : adapter) (c : ModelCall) : res string :=
  match of_text (raw_body c) with
  | Raise _ => Ok (raw_body c)
  | Ok data =>
      let! messages := get_or "messages" (PList []) data in
      let! '(instructions, input) := split_system messages in
      let! is_reasoning := _is_reasoning_model (model_id c) in
      let uses_web_search := truthy (dget_or "_openai_web_search" (PBool false) (metadata c)) in
      let! model := get_or "model" (model_id c) data in
      let b := [("model", model); ("input", match input with [] => messages | _ => PList input end)] in
      let b := set_if is_reasoning "reasoning"
                 (PDict (set_if (negb (bool_decide (_reasoning_summary_available a = Some false))) "summary" (PStr "auto")
                           [("effort", PStr "medium")])) b in
      let b := set_if uses_web_search "tools" (PList [PDict [("type", PStr "web_search")]]) b in
      let b := set_if (truthy instructions) "instructions" instructions b in
      let! mt := get "max_tokens" data in
      let b := set_if (truthy mt) "max_output_tokens" mt b in
      let! mc := get "max_completion_tokens" data in
      let b := set_if (truthy mc) "max_output_tokens" mc b in
      let! t := get "temperature" data in
      let b := set_if (negb (is_none t)) "temperature" t b in
      Ok (to_text (PDict b))
  end.

Definition with_query (url : string) (r : request) : string :=
  if bool_decide (q_query r = "") then url else url +:+ "?" +:+ q_query r.

Definition build_forward_request (a : adapter) (c : ModelCall) (r : request) : res forward :=
  let h := [("Content-Type", "application/json")] in
  let h := if bool_decide (_api_key a = "") then h else od_set "Authorization" ("Bearer " +:+ _api_key a) h in
  let h := if bool_decide (header "x-session-id" r = "") then h else od_set "X-Session-Id" (header "x-session-id" r) h in
  if truthy (dget "_responses_api" (metadata c)) && is_openai_direct a then
    let! b := _build_responses_api_body a c in
    Ok (MkForward "POST" (_base_url a +:+ "/v1/responses") h b)
  else Ok (MkForward (q_method r) (with_query (_base_url a +:+ q_path r) r) h (raw_body c)).

(** ** Responses *)

(** [json.loads(v)], or [v] itself when it is no JSON text *)
Definition loads_or_raw (v : pyval) : pyval :=
  match v with
  | PStr s => match of_text s with Ok x => x | Raise _ => v end
  | _ => v
  end.

Definition _tool_interaction_from_raw (tc : pyval) : res ToolInteraction :=
  let! fn := get_dict "function" tc in
  let! args := get "arguments" fn in
  let! args' := get_or "arguments" (PStr "{}") fn in
  let input := match args' with
               | PStr s => match of_text s with Ok x => x | Raise _ => args end
               | _ => args
               end in
  let! id := get_or "id" (PStr "") tc in
  let! ty := get_or "type" (PStr "function") tc in
  let! name := get "name" fn in
  Ok (MkInteraction id ty name input PNone PNone PNone).

(** [por x PNone] of a list: the list, or [None] when it is empty *)
Definition non_empty (l : list pyval) : pyval := match l with [] => PNone | _ => PList l end.

Definition text_block (block : pyval) : res (list pyval) :=
  let! ty := get "type" block in
  if in_strs ty ["text"; "output_text"] then let! t := get_or "text" (PStr "") block in Ok [t] else Ok [].

Definition cited (s : pyval) : res (list pyval) :=
  let! url := get "url" s in
  if truthy url then let! title := get "title" s in Ok [PDict [("url", url); ("title", title)]] else Ok [].

Definition fields (ks : list string) (item : pyval) : res pyval :=
  let! vs := map_res (fun k => let! v := get k item in Ok (k, v)) ks in Ok (PDict vs).

Definition _parse_responses_api_item (item : pyval) : res (string * option ToolInteraction) :=
  let! ty := get_or "type" (PStr "") item in
  if eq_str ty "message" then
    let! blocks := get_list "content" item in
    let! blocks := iter blocks in
    let! ts := map_res text_block blocks in
    let! text := join "" (concat ts) in
    Ok (text, None)
  else if eq_str ty "web_search_call" then
    let! action := get_dict "action" item in
    let! ss := get_list "sources" action in
    let! ss := iter ss in
    let! srcs := map_res cited ss in
    let! id := get_or "id" (PStr "") item in
    let! input := fields ["queries"; "type"] action in
    Ok ("", Some (MkInteraction id (PStr "web_search") PNone input PNone (non_empty (concat srcs)) PNone))
  else if eq_str ty "code_interpreter_call" then
    let! id := get_or "id" (PStr "") item in
    let! input := fields ["code"] item in
    let! output := fields ["outputs"] item in
    Ok ("", Some (MkInteraction id (PStr "code_interpreter") PNone input output PNone PNone))
  else if eq_str ty "file_search_call" then
    let! id := get_or "id" (PStr "") item in
    let! input := fields ["queries"] item in
    let! output := fields ["results"] item in
    Ok ("", Some (MkInteraction id (PStr "file_search") PNone input output PNone PNone))
  else Ok ("", None).

Definition summary_text (entry : pyval) : res (list pyval) :=
  let! ty := get "type" entry in
  if eq_str ty "summary_text" then
    let! t := get "text" entry in Ok (if truthy t then [t] else [])
  else Ok [].

Definition item_summaries (item : pyval) : res (list pyval) :=
  let! ty := get "type" item in
  if negb (eq_str ty "reasoning") then Ok []
  else
    let! es := get_list "summary" item in
    let! es := iter es in
    let! ts := map_res summary_text es in
    Ok (concat ts).

Definition _extract_reasoning_summary (output_items : list pyval) : res pyval :=
  let! ss := map_res item_summaries output_items in
  match concat ss with
  | [] => Ok PNone
  | l => let! s := join nl l in Ok (PStr s)
  end.

Definition _parse_chat_completions_choice (data : pyval) : res (pyval * list ToolInteraction * bool) :=
  let! choices := get_list "choices" data in
  if negb (truthy choices) then Ok (PStr "", [], false)
  else
    let! choice := first choices in
    let! finish_reason := get "finish_reason" choice in
    let! m := get "message" choice in
    let! t := get "text" choice in
    match por m t with
    | PStr s => Ok (PStr s, [], false)
    | PDict d =>
        let content := por (por (dget_or "content" (PStr "") d) (dget_or "text" (PStr "") d)) (PStr "") in
        let raw_tc := por (dget "tool_calls" d) (PList []) in
        let! tcs := iter raw_tc in
        let! interactions := map_res _tool_interaction_from_raw tcs in
        Ok (content, interactions, eq_str finish_reason "tool_calls" && truthy raw_tc)
    | _ => Ok (PStr "", [], false)
    end.

Definition _parse_responses_api_output (output_items : list pyval) : res (string * list ToolInteraction) :=
  let! ps := map_res _parse_responses_api_item output_items in
  Ok (String.concat "" (map fst ps), omap snd ps).

Context `{FloatRepr}.

(** [if k in usage and k' not in usage: usage[k'] = usage[k]] *)
Definition rename_field (k k' : string) (usage : pyval) : res pyval :=
  let! a := contains_key k usage in
  if a then
    let! b := contains_key k' usage in
    if b then Ok usage else let! v := item k usage in set_item k' v usage
  else Ok usage.

Definition normalize_usage (usage : pyval) : res pyval :=
  if truthy usage then
    let! u := rename_field "input_tokens" "prompt_tokens" usage in
    let! u := rename_field "output_tokens" "completion_tokens" u in
    let! has := contains_key "total_tokens" u in
    let! u := if has then Ok u
              else let! p := get_or "prompt_tokens" (PInt 0) u in
                   let! c := get_or "completion_tokens" (PInt 0) u in
                   let! t := py_add p c in set_item "total_tokens" t u in
    with_cache_info u
  else Ok usage.

(** The indicator when tokens were spent on reasoning and no summary came *)
Definition reasoning_indicator (usage : pyval) : res pyval :=
  let! o := get "output_tokens_details" usage in
  let! c := get "completion_tokens_details" usage in
  let! n := get_or "reasoning_tokens" (PInt 0) (por o (por c (PDict []))) in
  let! some := py_gt n (PInt 0) in
  Ok (if some then
        PStr ("[Reasoning: " +:+ py_str n +:+ " tokens used for internal chain-of-thought. "
              +:+ "Verify your OpenAI organization to see full reasoning summaries.]")
      else PNone).

(** The provider refuses summaries to this organization. *)
Definition summary_refused (data : pyval) : res bool :=
  let! error := get "error" data in
  match error with
  | PDict ((_ :: _) as e) =>
      if eq_str (dget_or "param" (PStr "") e) "reasoning.summary" then
        let! m := lower_of (dget_or "message" (PStr "") e) in Ok (contains "verified" m)
      else Ok false
  | _ => Ok false
  end.

Definition with_summary (v : bool) (a : adapter) : adapter := MkAdapter (_base_url a) (_api_key a) (Some v).

Definition parse_response (a : adapter) (raw : string) : res (adapter * ModelResponse) :=
  match of_text raw with
  | Raise _ => Ok (a, MkResponse (PStr "") PNone raw PNone [] false PNone)
  | Ok data =>
      let! refused := summary_refused data in
      if refused then
        Ok (with_summary false a, MkResponse (PStr "__RETRY_WITHOUT_SUMMARY__") PNone raw PNone [] false PNone)
      else
        let! '(cc_content, cc_tools, pending) := _parse_chat_completions_choice data in
        let! items := get_list "output" data in
        let! output_items := iter items in
        let! '(ra_text, ra_tools) := _parse_responses_api_output output_items in
        let! content := if bool_decide (ra_text = "") then Ok cc_content
                        else let! c := py_add cc_content (PStr ra_text) in let! c := strip_of c in Ok (PStr c) in
        let! usage := get "usage" data in
        let! usage := normalize_usage usage in
        let! thinking := _extract_reasoning_summary output_items in
        let a' := if truthy thinking && bool_decide (_reasoning_summary_available a = None)
                  then with_summary true a else a in
        let! thinking := if negb (truthy thinking) && truthy usage
                         then let! t := reasoning_indicator usage in Ok (por t thinking)
                         else Ok thinking in
        let! id := get "id" data in
        Ok (a', MkResponse content usage raw id (cc_tools ++ ra_tools) pending thinking)
  end.

(** ** Streams *)

(** An entry of the map of partial tool calls *)
Record partial_call := MkPartial { p_id : pyval; p_type : pyval; p_name : string; p_arguments : string }.

(** [content_parts], [tool_call_map] and [state] of the loop *)
Record stream_state := MkStream {
  content_parts : list pyval;
  tool_call_map : list (pyval * partial_call);
  st_provider_request_id : pyval;
  st_pending : bool;
  st_usage : pyval;
}.

Definition stream_start : stream_state := MkStream [] [] PNone false PNone.

Definition append_str (s : string) (v : pyval) : res string :=
  if truthy v then let! t := as_str v in Ok (s +:+ t) else Ok s.

Definition _accumulate_tool_call_delta (m : list (pyval * partial_call)) (tc_delta : pyval)
    : res (list (pyval * partial_call)) :=
  let! idx := get_or "index" (PInt 0) tc_delta in
  let! _ := hashable idx in
  let e := default (MkPartial (PStr "") (PStr "function") "" "") (vget idx m) in
  let! id := get "id" tc_delta in
  let! ty := get "type" tc_delta in
  let! fn := get_dict "function" tc_delta in
  let! name := get "name" fn in
  let! name := append_str (p_name e) name in
  let! args := get "arguments" fn in
  let! args := append_str (p_arguments e) args in
  Ok (vset idx (MkPartial (por id (p_id e)) (por ty (p_type e)) name args) m).

Definition from_partial (p : partial_call) : ToolInteraction :=
  MkInteraction (p_id p) (p_type p) (PStr (p_name p)) (loads_or_raw (PStr (p_arguments p))) PNone PNone PNone.

Definition _build_interactions_from_map (m : list (pyval * partial_call)) : res (list ToolInteraction) :=
  let! l := vsorted m in Ok (map (fun kp => from_partial (snd kp)) l).

Definition first_choice (obj : pyval) : res pyval :=
  let! choices := get "choices" obj in first (por choices (PList [PDict []])).

Definition _process_sse_line (payload : string) (st : stream_state) : res stream_state :=
  match of_text payload with
  | Raise _ => Ok st
  | Ok obj =>
      let! id := match st_provider_request_id st with PNone => get "id" obj | v => Ok v end in
      let! choice := first_choice obj in
      let! finish_reason := get "finish_reason" choice in
      let! delta := get_dict "delta" choice in
      let! c := get "content" delta in
      let! t := get "text" delta in
      let part := por c t in
      let! tcs := get_list "tool_calls" delta in
      let! tcs := iter tcs in
      let! m := fold_res _accumulate_tool_call_delta tcs (tool_call_map st) in
      let! u := get "usage" obj in
      Ok (MkStream (content_parts st ++ (if truthy part then [part] else [])) m id
            (st_pending st || eq_str finish_reason "tool_calls") (if truthy u then u else st_usage st))
  end.

(** The payload of a line: the text after "data: " unless it is the end marker *)
Definition payload_of (line : string) : option string :=
  if startswith "data: " line then
    let payload := strip (sdrop 6 line) in
    if bool_decide (payload = "[DONE]") then None else Some payload
  else None.

(** Each chunk is split into lines on its own. *)
Definition stream_payloads (chunks : list string) : list string :=
  omap payload_of (concat (map splitlines chunks)).

Definition parse_streamed_response (chunks : list string) : res ModelResponse :=
  let! st := fold_res (fun st p => _process_sse_line p st) (stream_payloads chunks) stream_start in
  let! interactions := _build_interactions_from_map (tool_call_map st) in
  let! content := join "" (content_parts st) in
  Ok (MkResponse (PStr content) (st_usage st) (String.concat "" chunks) (st_provider_request_id st)
        interactions (st_pending st) PNone).

(** ** Tool results *)

Definition call_entry (tc : ToolInteraction) : pyval :=
  PDict [("id", tool_id tc); ("type", PStr "function");
         ("function", PDict [("name", por (tool_name tc) (PStr ""));
                             ("arguments", match input_data tc with
                                           | PDict d => PStr (to_text (PDict d))
                                           | v => por v (PStr "{}")
                                           end)])].

Definition tool_message (result : pyval) : res pyval :=
  let! id := item "tool_call_id" result in
  let! c := item "content" result in
  Ok (PDict [("role", PStr "tool"); ("tool_call_id", id); ("content", PStr (py_str c))]).

Definition build_tool_result_call (c : ModelCall) (tool_calls : list ToolInteraction) (tool_results : list pyval)
    : res ModelCall :=
  let! body := of_text (raw_body c) in
  let! messages := get_or "messages" (PList []) body in
  let! l := match messages with PList l => Ok l | _ => attribute_error end in
  let assistant := PDict [("role", PStr "assistant"); ("content", PNone);
                          ("tool_calls", PList (map call_entry tool_calls))] in
  let! results := map_res tool_message tool_results in
  let! body := set_item "messages" (PList (l ++ assistant :: results)) body in
  Ok (MkCall (provider c) (model_id c) (prompt_text c) (to_text body) (is_streaming c) (metadata c)).
End adapter.

(** ** What is seen of a request

    The texts of a message as the chat API defines them: its content when that is a
    string, else the text blocks of it. *)
Definition texts_of (m : pyval) : list string :=
  match m with
  | PDict d => match dget "content" d with
               | PStr s => [s]
               | PList blocks =>
                   omap (fun b => match b with
                                  | PDict bd => if eq_str (dget "type" bd) "text"
                                                then match dget "text" bd with PStr t => Some t | _ => None end
                                                else None
                                  | _ => None
                                  end) blocks
               | _ => []
               end
  | _ => []
  end.

(** [t] occurs in [s]. *)
Definition infix (t s : string) : Prop := exists u v, s = u +:+ t +:+ v.

Lemma infix_sjoin sep t l : t ∈ l -> infix t (sjoin sep l).
Proof.
  induction l as [|x l IH]; [by intros ?%not_elem_of_nil|].
  intros [<-|Ht]%elem_of_cons.
  - destruct l as [|y l]; [exists "", ""; by rewrite app_nil|].
    exists "", (sep +:+ sjoin sep (y :: l)). done.
  - destruct l as [|y l]; [by apply not_elem_of_nil in Ht|]. destruct (IH Ht) as (u & v & Hs).
    exists (x +:+ sep +:+ u), v. change (sjoin sep (x :: y :: l)) with (x +:+ sep +:+ sjoin sep (y :: l)).
    by rewrite Hs, !app_assoc_s.
Qed.

Lemma message_parts_texts m ps t : message_parts m = Ok ps -> t ∈ texts_of m -> PStr t ∈ ps.
Proof.
  unfold message_parts, get, get_or, dget_or. destruct m as [| | | | | |d|]; try done. simpl. fold (dget "content" d).
  intros [= <-]. destruct (dget "content" d) as [| | | |s|bs| |]; try (intros ?%not_elem_of_nil; done).
  - intros ->%list_elem_of_singleton. apply list_elem_of_singleton. done.
  - intros (b & Hb & Ht)%list_elem_of_omap. destruct b as [| | | | | |bd|]; try done.
    destruct (eq_str (dget "type" bd) "text") eqn:Hty; [|done].
    destruct (dget "text" bd) as [| | | |t'| | |] eqn:Htx; try done. injection Ht as ->.
    apply list_elem_of_In, in_concat. exists (block_text (PDict bd)).
    split; [by apply in_map, list_elem_of_In|]. simpl. rewrite Hty. left.
    unfold dget in Htx. unfold dget_or. by destruct (od_get "text" bd); simpl in *; subst.
Qed.

Lemma concat_messages_covers ms p m t :
  _concat_messages (PList ms) = Ok p -> m ∈ ms -> t ∈ texts_of m -> exists s, p = PStr s /\ infix t s.
Proof.
  unfold _concat_messages. simpl. destruct (map_res message_parts ms) as [pss|] eqn:Hp; [|done]. simpl.
  destruct (join nl (concat pss)) as [s|] eqn:Hj; [|done]. simpl. intros [= <-] Hm Ht.
  exists s. split; [done|]. apply join_ok in Hj as (l & Hl & ->). apply infix_sjoin.
  destruct (map_res_elem _ _ _ _ Hp Hm) as (ps & Hok & Hps).
  apply (message_parts_texts _ _ t) in Hok; [|done].
  assert (PStr t ∈ map PStr l) as Hin.
  { rewrite <- Hl. apply list_elem_of_In, in_concat. exists ps. by rewrite <- !list_elem_of_In. }
  apply list_elem_of_In, in_map_iff in Hin as (t' & [= ->] & Hin). by apply list_elem_of_In.
Qed.

Section requests.
Context `{JsonText}.

(** What a successful [parse_request] computed *)
Lemma parse_request_run s a fresh r call :
  parse_request s a fresh r = Ok call ->
  exists data messages prompt,
    request_data r = Ok data /\ get_or "messages" (PList []) data = Ok messages
    /\ prompt_of messages data = Ok prompt
    /\ strip_prompt (thinking_strip_enabled s) prompt = Ok (prompt_text call)
    /\ raw_body call = cleaned_body a data (body r).
Proof.
  unfold parse_request. intros Hok. unbind Hok. injection Hok as <-. by eexists _, _, _.
Qed.

(** C38. The text that governance hashes, checks and records is made of everything the
    messages say.  Every string content and every text block of every message occurs in
    the joined prompt, and the prompt of the call is the joined prompt, unless the
    removal of reasoning traces is on (the default) and the joined prompt shows an
    opening tag: then, and only then, it is what that removal leaves of it. *)
Theorem prompt_covers_messages s a fresh r call d ms m t :
  parse_request s a fresh r = Ok call ->
  request_data r = Ok (PDict d) -> dget "messages" d = PList ms -> m ∈ ms -> t ∈ texts_of m ->
  exists p q, prompt_of (PList ms) (PDict d) = Ok (PStr p) /\ infix t p /\ prompt_text call = PStr q /\
    q = (if thinking_strip_enabled s && contains "<think>" (lower p) then fst (strip_thinking_tokens p) else p).
Proof.
  intros (data & messages & prompt & Hd & Hm & Hp & Hs & _)%parse_request_run Hdata Hms Hin Htx.
  rewrite Hdata in Hd. injection Hd as <-. simpl in Hm. injection Hm as <-.
  assert (dget_or "messages" (PList []) d = PList ms) as Hmsg.
  { unfold dget in Hms. unfold dget_or. by destruct (od_get "messages" d). }
  rewrite Hmsg in Hp. destruct ms as [|m0 ms]; [by apply not_elem_of_nil in Hin|].
  pose proof Hp as Hj. unfold prompt_of in Hj. cbn [truthy] in Hj.
  destruct (concat_messages_covers _ _ _ _ Hj Hin Htx) as (p & -> & ?). exists p.
  unfold strip_prompt in Hs. destruct (thinking_strip_enabled s); cbn in Hs; injection Hs as <-; by eexists.
Qed.

(** A user message with one reasoning block in it *)
Definition traced (a x b : string) : pyval :=
  PDict [("messages", PList [PDict [("role", PStr "user");
                                    ("content", PStr (a +:+ "<think>" +:+ x +:+ "</think>" +:+ b))]])].

(** C23. Text between reasoning tags escapes governance.  With the default setting a
    client can put any text between <think> and </think> in a user message: the
    prompt that is checked, hashed and recorded is the rest of the message, whatever
    the text is, and the body forwarded to the provider is the client's, text
    included. *)
Theorem think_tags_hide_text s ad fresh r call a x b :
  parse_request s ad fresh r = Ok call ->
  thinking_strip_enabled s = true ->
  request_data r = Ok (traced a x b) ->
  contains "<think>" (lower a) = false -> contains "</think>" (lower x) = false ->
  contains "<think>" (lower b) = false ->
  prompt_text call = PStr (strip (a +:+ b)) /\ raw_body call = body r.
Proof.
  intros (data & messages & prompt & Hd & Hm & Hp & Hs & Hb)%parse_request_run Ht Hdata Ha Hx Hbb.
  rewrite Hdata in Hd. injection Hd as <-. simpl in Hm. injection Hm as <-.
  unfold prompt_of, _concat_messages, join in Hp. simpl in Hp. injection Hp as <-.
  rewrite Ht in Hs. unfold strip_prompt in Hs. cbn [lower_of res_bind] in Hs. injection Hs as <-.
  split.
  - f_equal. rewrite !lower_app. rewrite (contains_mid "<think>" (lower a)). by apply think_one.
  - rewrite Hb. unfold cleaned_body, traced. simpl. rewrite !bool_decide_true by done. by rewrite andb_false_r.
Qed.
End requests.

(** ** What is recorded of a stream *)

Section streams.
Context `{JsonText}.

Lemma splitlines_event s : unbroken s = true -> splitlines (s +:+ String lf (String lf "")) = [s; ""].
Proof. intros Hu. unfold splitlines. by rewrite lines_by_break. Qed.

Lemma payload_data p :
  payload_of ("data: " +:+ p) = if bool_decide (strip p = "[DONE]") then None else Some (strip p).
Proof. unfold payload_of. rewrite startswith_app. change (sdrop 6 ("data: " +:+ p)) with p. done. Qed.

Definition event_end : string := String lf (String lf "").

(** An event of a chat completion stream with a piece of text *)
Definition text_event (id : pyval) (t : string) : pyval :=
  PDict [("id", id);
         ("choices", PList [PDict [("index", PInt 0); ("delta", PDict [("content", PStr t)])]])].

Lemma sse_text id t payload :
  of_text payload = Ok (text_event id t) -> t <> "" ->
  _process_sse_line payload stream_start = Ok (MkStream [PStr t] [] id false PNone).
Proof.
  intros Hp Ht. unfold _process_sse_line. rewrite Hp. destruct t as [|c t]; [done|]. by destruct id.
Qed.

(** A piece of a tool call's arguments *)
Definition args_delta (i : Z) (frag : string) : pyval :=
  PDict [("index", PInt i); ("function", PDict [("arguments", PStr frag)])].

Definition arguments_at (i : Z) (m : list (pyval * partial_call)) : string :=
  match vget (PInt i) m with Some p => p_arguments p | None => "" end.

Lemma accumulate_args i frag m :
  _accumulate_tool_call_delta m (args_delta i frag)
  = Ok (vset (PInt i) (let e := default (MkPartial (PStr "") (PStr "function") "" "") (vget (PInt i) m) in
                       MkPartial (p_id e) (p_type e) (p_name e) (p_arguments e +:+ frag)) m).
Proof.
  unfold _accumulate_tool_call_delta, args_delta. cbn. unfold append_str. cbn.
  destruct frag as [|c frag]; cbn; by rewrite ?app_nil.
Qed.

(** Tool calls that arrive in pieces are put together.  However the pieces of the
    arguments of several calls are interleaved in a stream, each call's arguments are
    the concatenation of its own pieces, in order, and every call that had a piece is
    there. *)
Theorem interleaved_arguments_assemble (frags : list (Z * string)) :
  exists m, fold_res _accumulate_tool_call_delta (map (fun f => args_delta f.1 f.2) frags) [] = Ok m
    /\ (forall i, arguments_at i m = String.concat "" (map snd (List.filter (fun f => f.1 =? i) frags)))
    /\ (forall i, (exists p, vget (PInt i) m = Some p) <-> i ∈ map fst frags).
Proof.
  assert (forall m0, Forall (fun ka => exists n, fst ka = PInt n) m0 ->
    exists m, fold_res _accumulate_tool_call_delta (map (fun f => args_delta f.1 f.2) frags) m0 = Ok m
    /\ (forall i, arguments_at i m
                 = arguments_at i m0 +:+ String.concat "" (map snd (List.filter (fun f => f.1 =? i) frags)))
    /\ (forall i, (exists p, vget (PInt i) m = Some p) <-> (exists p, vget (PInt i) m0 = Some p) \/ i ∈ map fst frags))
    as Hgen.
  { induction frags as [|[j frag] frags IH]; intros m0 Hm0.
    - exists m0. split; [done|]. split; intros i; [by rewrite app_nil|]. simpl. set_solver.
    - cbn [map fold_res fst snd]. rewrite accumulate_args. cbn [res_bind].
      edestruct IH as (m & -> & Ha & Hk); [by apply vset_int_keys|]. exists m. split; [done|].
      split; intros i.
      + rewrite Ha. unfold arguments_at. rewrite vget_vset by done. cbn [List.filter fst].
        rewrite (Z.eqb_sym j i). destruct (i =? j) eqn:Hi; [|done]. apply Z.eqb_eq in Hi as ->.
        cbn [map snd p_arguments]. rewrite concat_cons, <- app_assoc_s.
        by destruct (vget (PInt j) m0).
      + rewrite Hk, vget_vset by done. rewrite elem_of_cons.
        destruct (i =? j) eqn:Hi; [apply Z.eqb_eq in Hi as ->|apply Z.eqb_neq in Hi]; naive_solver. }
  destruct (Hgen [] ltac:(constructor)) as (m & Hm & Ha & Hk). exists m. split; [done|].
  split; intros i; [apply Ha|]. rewrite Hk. simpl. split; [by intros [[? ?]|?]|by right].
Qed.

(** What is recorded of a stream depends on how the network cuts it.  An event whose
    line is cut between two chunks is lost from the recorded response: neither part
    is an event of its own.  The same bytes in one chunk are recorded in full.  (The
    first part of a JSON text is not JSON, and the rest does not look like a new
    event.) *)
Theorem cut_event_is_lost p1 p2 id t e :
  unbroken p1 = true -> unbroken p2 = true -> startswith "data: " p2 = false ->
  of_text (strip p1) = Raise e ->
  of_text (strip (p1 +:+ p2)) = Ok (text_event id t) -> t <> "" -> strip (p1 +:+ p2) <> "[DONE]" ->
  parse_streamed_response ["data: " +:+ p1; p2 +:+ event_end]
  = Ok (MkResponse (PStr "") PNone ("data: " +:+ p1 +:+ p2 +:+ event_end) PNone [] false PNone)
  /\ parse_streamed_response ["data: " +:+ p1 +:+ p2 +:+ event_end]
  = Ok (MkResponse (PStr t) PNone ("data: " +:+ p1 +:+ p2 +:+ event_end) id [] false PNone).
Proof.
  intros Hu1 Hu2 Hd He Hok Ht Hdone. split; unfold parse_streamed_response, stream_payloads; cbn [map concat].
  - rewrite splitlines_one; [|done|by rewrite unbroken_app]. unfold event_end at 1. rewrite splitlines_event by done.
    cbn [app]. cbn [omap list_omap]. rewrite payload_data.
    replace (payload_of p2) with (@None string) by (unfold payload_of; by rewrite Hd).
    replace (payload_of "") with (@None string) by done.
    destruct (bool_decide _); cbn [fold_res]; [|unfold _process_sse_line; rewrite He];
      cbn; by rewrite !app_assoc_s.
  - rewrite <- (app_assoc_s p1), <- (app_assoc_s "data: "). unfold event_end at 1.
    rewrite splitlines_event; [|by rewrite !unbroken_app, Hu1, Hu2].
    cbn [app]. cbn [omap list_omap]. rewrite payload_data, bool_decide_false by done.
    replace (payload_of "") with (@None string) by done.
    cbn [fold_res]. rewrite (sse_text id t) by done. by rewrite app_assoc_s.
Qed.
End streams.

(** ** Runs *)

Module OpenAIRuns.

(** A codec that knows a few texts *)
Definition codec (table : list (string * pyval)) : JsonText :=
  {| to_text := fun _ => "{}";
     of_text := fun s => match od_get s table with Some v => Ok v | None => Raise (ValueError "json") end |}.

Definition local_adapter : adapter := init "http://localhost:8000/" "".
Definition defaults (strip : bool) : settings := MkSettings strip ["X-Session-ID"] false 5.
Definition post (text : string) : request := MkRequest "POST" "/v1/chat/completions" "" [("x-session-id", "s1")] text None.

Definition question : pyval :=
  PDict [("role", PStr "user");
         ("content", PList [PDict [("type", PStr "text"); ("text", PStr "hello")]; PDict [("type", PStr "image_url")]])].
Definition dialogue : list pyval := [PDict [("role", PStr "system"); ("content", PStr "be brief")]; question].
Definition chat : dict := [("model", PStr "m"); ("messages", PList dialogue)].

Lemma prompt_covers_messages_witness :
  exists call, @parse_request (codec [("B", PDict chat)]) (defaults true) local_adapter "u" (post "B") = Ok call
  /\ exists q, prompt_text call = PStr q /\ infix "hello" q.
Proof.
  eexists. split; [vm_compute; reflexivity|].
  match goal with |- exists q, prompt_text ?call = _ /\ _ =>
    destruct (@prompt_covers_messages (codec [("B", PDict chat)]) (defaults true) local_adapter "u"
                (post "B") call chat dialogue question "hello") as (p & q & Hp & Hi & Hq & Hs) end;
    [vm_compute; reflexivity|reflexivity|reflexivity| | |].
  - apply elem_of_cons. right. apply list_elem_of_singleton. reflexivity.
  - apply list_elem_of_singleton. reflexivity.
  - exists q. split; [exact Hq|]. vm_compute in Hp. injection Hp as <-. rewrite Hs. exact Hi.
Defined.

Lemma think_tags_hide_text_witness :
  exists call,
    @parse_request (codec [("B", traced "Hi " "my card is 4111" "there")]) (defaults true) local_adapter "u" (post "B")
    = Ok call
    /\ prompt_text call = PStr "Hi there" /\ raw_body call = "B".
Proof.
  eexists. split; [vm_compute; reflexivity|].
  eapply (@think_tags_hide_text (codec [("B", traced "Hi " "my card is 4111" "there")]) (defaults true) local_adapter
            "u" (post "B") _ "Hi " "my card is 4111" "there"); vm_compute; reflexivity.
Defined.

Lemma cut_event_is_lost_witness :
  @parse_streamed_response (codec [("{ab}", text_event (PStr "c1") "Hello")]) ["data: {a"; "b}" +:+ event_end]
  = Ok (MkResponse (PStr "") PNone ("data: {ab}" +:+ event_end) PNone [] false PNone)
  /\ @parse_streamed_response (codec [("{ab}", text_event (PStr "c1") "Hello")]) ["data: {ab}" +:+ event_end]
  = Ok (MkResponse (PStr "Hello") PNone ("data: {ab}" +:+ event_end) (PStr "c1") [] false PNone).
Proof.
  apply (@cut_event_is_lost (codec [("{ab}", text_event (PStr "c1") "Hello")]) "{a" "b}" (PStr "c1") "Hello"
           (ValueError "json")); try reflexivity; intros [=].
Defined.

End OpenAIRuns.
