(* ===== verification/Ollama.v ===== *)
(** * The Ollama adapter (adapters/ollama.py)

    It shares the message and stream handling of [OpenAI]; its own are the native
    sampling parameters, the separation of reasoning, and the cache of model digests.
    The body returned by the provider is its bytes. *)
From S2P Require Import Prelude ODict PyVal PyStr PyObj AdapterBase OpenAI.

Local Open Scope Z_scope.

(** ** Requests *)

Definition _OLLAMA_NATIVE_PARAMS : list string :=
  ["top_k"; "num_ctx"; "num_predict"; "repeat_penalty"; "mirostat"; "mirostat_tau"; "mirostat_eta"; "tfs_z"].

Record adapter := MkAdapter {
  _base_url : string;
  _api_key : string;
  _digest_cache_ttl : Z;                          (** seconds *)
  _thinking_strip_enabled : bool;
  _digest_cache : gmap string (string * Z);       (** digest and time fetched *)
}.

Definition init (base_url api_key : string) (ttl : Z) (strip : bool) : adapter :=
  MkAdapter (rstrip_slash base_url) api_key ttl strip ∅.

(** The native parameters, from the top level or from the options *)
Definition native_params (data options : pyval) (params : dict) : res dict :=
  fold_res (fun ps k =>
              let! v := get k data in
              let! v := match v with PNone => get k options | _ => Ok v end in
              Ok (set_if (negb (is_none v)) k v ps)) _OLLAMA_NATIVE_PARAMS params.

Definition parse_request `{JsonText} (s : settings) (a : adapter) (fresh : string) (r : request) : res ModelCall :=
  let! data := request_data r in
  let! model := get "model" data in
  let! messages := get_or "messages" (PList []) data in
  let! prompt := prompt_of messages data in
  let! prompt := strip_prompt (_thinking_strip_enabled a) prompt in
  let! streaming := get_or "stream" (PBool false) data in
  let! sid := resolve_session_id fresh r (session_header_names_list s) (Some data) in
  let md := od_set "session_id" (PStr sid) (user_metadata r) in
  let! params := _extract_inference_params data in
  let! options := get_dict "options" data in
  let! params := native_params data options params in
  let! md := message_metadata params messages md in
  Ok (MkCall "ollama" (por model (PStr "")) prompt (body r) streaming md).

Definition skipped_headers : list string :=
  ["origin"; "referer"; "sec-fetch-site"; "sec-fetch-mode"; "sec-fetch-dest"; "host"; "content-length";
   "authorization"; "x-api-key"].

Definition build_forward_request (a : adapter) (c : ModelCall) (r : request) : forward :=
  let h := List.filter (fun kv => negb (bool_decide (lower (fst kv) ∈ skipped_headers))) (headers r) in
  let h := if bool_decide (_api_key a = "") then h else od_set "Authorization" ("Bearer " +:+ _api_key a) h in
  MkForward (q_method r) (with_query (_base_url a +:+ q_path r) r) h (raw_body c).

(** ** Responses *)

Definition ostring (o : option string) : pyval := match o with Some s => PStr s | None => PNone end.

(** Reasoning: the native field, else the tags in the content, else those in the body *)
Definition separate_reasoning (data content : pyval) (raw : string) : res (pyval * pyval) :=
  let! choice := first_choice data in
  let! m := get "message" choice in
  let native := match por m (PDict []) with PDict d => dget "reasoning" d | _ => PNone end in
  if truthy native then Ok (content, native)
  else match content with
       | PStr (String _ _ as c) =>
           let '(clean, t) := strip_thinking_tokens c in Ok (PStr clean, ostring t)
       | _ =>
           if truthy content then type_error
           else if contains "<think>" (lower raw)
           then match snd (strip_thinking_tokens raw) with
                | Some (String _ _ as t) => Ok (content, PStr t)
                | _ => Ok (content, PNone)
                end
           else Ok (content, PNone)
       end.

Definition usage_with_cache (usage : pyval) : res pyval :=
  if truthy usage then with_cache_info usage else Ok usage.

Definition parse_response `{JsonText} (a : adapter) (raw : string) : res ModelResponse :=
  match of_text raw with
  | Raise _ => Ok (MkResponse (PStr "") PNone raw PNone [] false PNone)
  | Ok data =>
      let! '(content, tools, pending) := _parse_chat_completions_choice data in
      let! '(content, thinking) := if _thinking_strip_enabled a then separate_reasoning data content raw
                                   else Ok (content, PNone) in
      let! usage := get "usage" data in
      let! usage := usage_with_cache usage in
      let! id := get "id" data in
      Ok (MkResponse content usage raw id tools pending thinking)
  end.

(** The reasoning delta of an event; only attribute errors are not caught. *)
Definition reasoning_delta `{JsonText} (payload : string) : res (list pyval) :=
  match of_text payload with
  | Raise _ => Ok []
  | Ok obj =>
      match (let! choice := first_choice obj in
             let! delta := get_dict "delta" choice in
             let! r := get "reasoning" delta in
             Ok (if truthy r then [r] else [])) with
      | Ok l => Ok l
      | Raise (IndexError _) | Raise (TypeError _) => Ok []
      | Raise e => Raise e
      end
  end.

Definition parse_streamed_response `{JsonText} (a : adapter) (chunks : list string) : res ModelResponse :=
  let! '(st, reasoning) :=
    fold_res (fun '(st, rs) p => let! st := _process_sse_line p st in
                                 let! r := reasoning_delta p in Ok (st, rs ++ r))
      (stream_payloads chunks) (stream_start, []) in
  let! interactions := _build_interactions_from_map (tool_call_map st) in
  let! joined := join "" (content_parts st) in
  let! '(joined, thinking) :=
    if _thinking_strip_enabled a then
      let! native := join "" reasoning in
      if negb (bool_decide (native = "")) then Ok (joined, PStr native)
      else if bool_decide (joined = "") then Ok (joined, PNone)
      else let '(clean, t) := strip_thinking_tokens joined in Ok (clean, ostring t)
    else Ok (joined, PNone) in
  let! usage := usage_with_cache (st_usage st) in
  Ok (MkResponse (PStr joined) usage (String.concat "" chunks) (st_provider_request_id st)
        interactions (st_pending st) thinking).

(** The tool results go back in the OpenAI format. *)
Definition build_tool_result_call `{JsonText} := OpenAI.build_tool_result_call.

(** ** Model digests *)

(** The answer to /api/tags: a failed request, or a status with the decoded body *)
Definition tags_answer : Type := res (Z * res pyval).

Definition listed_digest (model_name : string) (models : list pyval) : res (option string) :=
  fold_res (fun found m =>
              match found with
              | Some d => Ok (Some d)
              | None =>
                  let! name := get "name" m in
                  let! model := get "model" m in
                  if eq_str name model_name || eq_str model model_name then
                    let! d := get "digest" m in
                    Ok (if truthy d then Some (py_str d) else None)
                  else Ok None
              end) models None.

Definition _fetch_model_digest_raw (model_name : string) (answer : tags_answer) : option string :=
  match (let! '(status, json) := answer in
         if status =? 200 then
           let! data := json in
           let! models := get_or "models" (PList []) data in
           let! models := iter models in
           listed_digest model_name models
         else Ok None) with
  | Ok d => d
  | Raise _ => None
  end.

Definition with_digests (m : gmap string (string * Z)) (a : adapter) : adapter :=
  MkAdapter (_base_url a) (_api_key a) (_digest_cache_ttl a) (_thinking_strip_enabled a) m.

Definition fetch_model_hash (model_name : string) (now : Z) (answer : tags_answer) (a : adapter)
    : adapter * option string :=
  let ttl := seconds (_digest_cache_ttl a) in
  let fetch :=
    match _fetch_model_digest_raw model_name answer with
    | Some (String _ _ as d) =>
        ((if 0 <? _digest_cache_ttl a then with_digests (<[model_name := (d, now)]> (_digest_cache a)) a else a),
         Some d)
    | d => (a, d)
    end in
  if 0 <? _digest_cache_ttl a then
    match _digest_cache a !! model_name with
    | Some (d, at_) => if now - at_ <? ttl then (a, Some d) else fetch
    | None => fetch
    end
  else fetch.

(** A run of look-ups: when, which model, and what the service would answer *)
Definition lookup_event : Type := string * Z * tags_answer.

Fixpoint run (a : adapter) (evs : list lookup_event) : adapter :=
  match evs with
  | [] => a
  | (m, now, ans) :: evs => run (fst (fetch_model_hash m now ans a)) evs
  end.

(** ** Theorems *)

Lemma fetch_ttl m now ans a : _digest_cache_ttl (fst (fetch_model_hash m now ans a)) = _digest_cache_ttl a.
Proof. unfold fetch_model_hash. crush. Qed.

Lemma run_ttl evs : forall a, _digest_cache_ttl (run a evs) = _digest_cache_ttl a.
Proof. induction evs as [|[[m now] ans] evs IH]; intros a; simpl; [done|]. by rewrite IH, fetch_ttl. Qed.

(** Every cached digest was an answer to a look-up of its model. *)
Definition from_service (past : list lookup_event) (a : adapter) : Prop :=
  forall m d t, _digest_cache a !! m = Some (d, t) ->
  exists ans, (m, t, ans) ∈ past /\ _fetch_model_digest_raw m ans = Some d.

Lemma fetch_from_service past m now ans a :
  from_service past a -> from_service (past ++ [(m, now, ans)]) (fst (fetch_model_hash m now ans a)).
Proof.
  intros Hinv. assert (from_service (past ++ [(m, now, ans)]) a) as Hold.
  { intros m' d t Hm. destruct (Hinv m' d t Hm) as (an & ? & ?). exists an. rewrite elem_of_app. auto. }
  unfold fetch_model_hash. destruct (_fetch_model_digest_raw m ans) as [[|c d]|] eqn:Hf; repeat case_match; try exact Hold.
  all: intros m' d' t' Hm; simpl in Hm; apply lookup_insert_Some in Hm as [[<- [= <- <-]]|[_ Hm]];
    [exists ans; rewrite elem_of_app; split; [right; by apply list_elem_of_singleton|done]|by apply Hold].
Qed.

Lemma run_from_service evs : forall past a, from_service past a -> from_service (past ++ evs) (run a evs).
Proof.
  induction evs as [|[[m now] ans] evs IH]; intros past a Ha; simpl; [by rewrite app_nil_r|].
  specialize (IH _ _ (fetch_from_service past m now ans a Ha)). by rewrite <- app_assoc in IH.
Qed.

(** The digest recorded for a model is recent.  Whatever look-ups came before, what
    the adapter returns is what the service answers now, or what it answered to an
    earlier look-up of the same model less than the time-to-live ago. *)
Theorem digest_is_recent url key ttl strip evs m now ans d :
  snd (fetch_model_hash m now ans (run (init url key ttl strip) evs)) = Some d ->
  _fetch_model_digest_raw m ans = Some d
  \/ exists t ans', (m, t, ans') ∈ evs /\ _fetch_model_digest_raw m ans' = Some d /\ now - t < seconds ttl.
Proof.
  assert (from_service evs (run (init url key ttl strip) evs)) as Hinv.
  { apply (run_from_service evs []). intros m' d' t'. simpl. by rewrite lookup_empty. }
  unfold fetch_model_hash. rewrite run_ttl. simpl (_digest_cache_ttl (init _ _ _ _)).
  destruct (_digest_cache _ !! m) as [[d' t]|] eqn:Hc; destruct (0 <? ttl);
    try (destruct (_fetch_model_digest_raw m ans) as [[|c s]|]; simpl; by intros [= <-]; left).
  destruct (now - t <? seconds ttl) eqn:Ht.
  - simpl. intros [= <-]. right. destruct (Hinv _ _ _ Hc) as (an & ? & ?). exists t, an. split_and!; [done|done|lia].
  - destruct (_fetch_model_digest_raw m ans) as [[|c s]|]; simpl; intros [= <-]; by left.
Qed.

Module OllamaRuns.
Definition tags (digest : string) : tags_answer :=
  Ok (200, Ok (PDict [("models", PList [PDict [("name", PStr "qwen3:4b"); ("digest", PStr digest)]])])).

Lemma digest_is_recent_witness :
  exists t ans', ("qwen3:4b", t, ans') ∈ [("qwen3:4b", seconds 5, tags "sha1")]
    /\ _fetch_model_digest_raw "qwen3:4b" ans' = Some "sha1" /\ seconds 10 - t < seconds 1800.
Proof.
  destruct (digest_is_recent "http://localhost:11434/" "" 1800 true [("qwen3:4b", seconds 5, tags "sha1")]
              "qwen3:4b" (seconds 10) (tags "sha2") "sha1") as [H|H]; [vm_compute; reflexivity| |exact H].
  vm_compute in H. discriminate H.
Defined.
End OllamaRuns.
