(* ===== verification/Anthropic.v ===== *)
(** * The Anthropic adapter (adapters/anthropic.py)

    The bridge from the OpenAI chat format to Anthropic's and back, requests, the
    forward, responses and tool results.  The streams are in AnthropicStream.  New
    identifiers and the clock are arguments. *)
From Stdlib Require Import SpecFloat.
From S2P Require Import Prelude ODict PyVal PyStr PyObj AdapterBase OpenAI.

Local Open Scope Z_scope.

Definition _DEFAULT_MAX_TOKENS : Z := 4096.
Definition _ANTHROPIC_VERSION : string := "2023-06-01".
Definition _REASONING_EFFORT_BUDGET : list (string * Z) := [("low", 2000); ("medium", 8000); ("high", 16000)].

(** ** Content blocks *)

Definition text_val (t : pyval) : pyval := PDict [("type", PStr "text"); ("text", t)].

(** [s.partition(",")]: the parts around the first comma *)
Fixpoint partition (c : ascii) (s : string) : string * string :=
  match s with
  | EmptyString => ("", "")
  | String a s => if Ascii.eqb a c then ("", s)
                  else let '(x, y) := partition c s in (String a x, y)
  end.

Definition _parse_data_url (url : string) : option string * option string :=
  if startswith "data:" url then
    let '(header, data) := partition "," (sdrop 5 url) in
    let media := fst (partition ";" header) in
    (Some (if bool_decide (media = "") then "image/png" else media), Some data)
  else (None, None).

Definition _oai_image_to_anthropic_block (image_url : pyval) : option pyval :=
  match (match image_url with PDict d => dget "url" d | v => v end) with
  | PStr url =>
      if startswith "data:" url then
        match _parse_data_url url with
        | (media, Some (String _ _ as data)) =>
            Some (PDict [("type", PStr "image");
                         ("source", PDict [("type", PStr "base64"); ("media_type", PStr (default "image/png" media));
                                           ("data", PStr data)])])
        | _ => None
        end
      else Some (PDict [("type", PStr "image"); ("source", PDict [("type", PStr "url"); ("url", PStr url)])])
  | _ => None
  end.

(** Blocks of other types, audio included, are dropped. *)
Definition block_to_anthropic (block : pyval) : list pyval :=
  match block with
  | PDict b =>
      let ty := dget "type" b in
      if eq_str ty "text" then
        let txt := por (dget "text" b) (PStr "") in if truthy txt then [text_val txt] else []
      else if eq_str ty "image_url" then
        match _oai_image_to_anthropic_block (dget "image_url" b) with Some x => [x] | None => [] end
      else if eq_str ty "image" then [PDict b]
      else []
  | _ => []
  end.

Definition _oai_content_to_anthropic_blocks (content : pyval) : list pyval :=
  match content with
  | PNone => []
  | PStr s => if bool_decide (s = "") then [] else [text_val (PStr s)]
  | PList l => concat (map block_to_anthropic l)
  | v => [text_val (PStr (py_str v))]
  end.

(** ** Messages *)

(** A translated message *)
Record turn := MkTurn { t_role : string; t_content : pyval }.

Definition turn_val (t : turn) : pyval := PDict [("role", PStr (t_role t)); ("content", t_content t)].

(** A single text block is sent as a string. *)
Definition collapse (blocks : list pyval) : pyval :=
  match blocks with
  | [PDict b] => if eq_str (dget "type" b) "text" then dget "text" b else PList blocks
  | _ => PList blocks
  end.

Definition system_text (content : pyval) : res string :=
  join "" (concat (map (fun b => match b with
                                 | PDict d => if eq_str (dget "type" d) "text" then [dget_or "text" (PStr "") d] else []
                                 | _ => []
                                 end) (_oai_content_to_anthropic_blocks content))).

Definition tool_result_text (content : pyval) : res string :=
  match content with
  | PList l => join "" (map (fun b => match b with PDict d => dget_or "text" (PStr "") d | v => PStr (py_str v) end) l)
  | PStr s => Ok s
  | v => Ok (if truthy v then py_str v else "")
  end.

Definition tool_result_block (m : dict) : res pyval :=
  let! text := tool_result_text (dget "content" m) in
  Ok (PDict [("type", PStr "tool_result");
             ("tool_use_id", por (por (dget "tool_call_id" m) (dget "name" m)) (PStr ""));
             ("content", PStr text)]).

(** A tool result joins a preceding user message whose content is a list. *)
Definition open_group (t : turn) : option (list pyval) :=
  match t_content t with
  | PList l => if bool_decide (t_role t = "user") then Some l else None
  | _ => None
  end.

Definition add_result (block : pyval) (out : list turn) : list turn :=
  match rev out with
  | t :: before => match open_group t with
                   | Some l => rev before ++ [MkTurn "user" (PList (l ++ [block]))]
                   | None => out ++ [MkTurn "user" (PList [block])]
                   end
  | [] => [MkTurn "user" (PList [block])]
  end.

Definition add_turn (role : string) (blocks : list pyval) (out : list turn) : list turn :=
  match blocks with [] => out | _ => out ++ [MkTurn role (collapse blocks)] end.

Section translation.
Context `{JsonText}.

Definition tool_use_block (tc : pyval) : res (list pyval) :=
  match tc with
  | PDict d =>
      match por (dget "function" d) (PDict []) with
      | PDict fn =>
          let parsed := match dget "arguments" fn with
                        | PStr "" => PDict []
                        | PStr s => match of_text s with Ok v => v | Raise _ => PDict [("_raw", PStr s)] end
                        | PDict a => PDict a
                        | _ => PDict []
                        end in
          Ok [PDict [("type", PStr "tool_use"); ("id", por (dget "id" d) (PStr ""));
                     ("name", por (dget "name" fn) (PStr ""));
                     ("input", if is_dict parsed then parsed else PDict [])]]
      | _ => attribute_error
      end
  | _ => Ok []
  end.

Definition _oai_tool_calls_to_anthropic_content (tool_calls : pyval) : res (list pyval) :=
  let! l := iter (por tool_calls (PList [])) in let! bs := map_res tool_use_block l in Ok (concat bs).

Definition assistant_blocks (m : dict) : res (list pyval) :=
  let blocks := _oai_content_to_anthropic_blocks (dget "content" m) in
  if truthy (dget "tool_calls" m)
  then let! tcs := _oai_tool_calls_to_anthropic_content (dget "tool_calls" m) in Ok (blocks ++ tcs)
  else Ok blocks.

(** One message, with the turns and the system prompts so far *)
Definition message_step (acc : list turn * list string) (m : pyval) : res (list turn * list string) :=
  let '(out, systems) := acc in
  match m with
  | PDict d =>
      let role := dget_or "role" (PStr "user") d in
      if eq_str role "system" then
        let! s := system_text (dget "content" d) in
        Ok (out, if bool_decide (s = "") then systems else systems ++ [s])
      else if in_strs role ["tool"; "function"] then
        let! b := tool_result_block d in Ok (add_result b out, systems)
      else if eq_str role "assistant" then
        let! bs := assistant_blocks d in Ok (add_turn "assistant" bs out, systems)
      else Ok (add_turn "user" (_oai_content_to_anthropic_blocks (dget "content" d)) out, systems)
  | _ => Ok acc
  end.

Definition _oai_messages_to_anthropic_messages (messages : pyval) : res (list turn * list string) :=
  let! l := iter (por messages (PList [])) in fold_res message_step l ([], []).

(** ** Tools *)

(** A tool in Anthropic's shape, or one the provider runs itself *)
Definition named_tool (d : dict) : list pyval :=
  match od_get "name" d with
  | Some _ => [PDict (match od_get "parameters" d, od_get "input_schema" d with
                      | Some p, None => od_set "input_schema" p (od_del "parameters" d)
                      | _, _ => d
                      end)]
  | None => []
  end.

Definition tool_to_anthropic (t : pyval) : list pyval :=
  match t with
  | PDict d =>
      match eq_str (dget "type" d) "function", dget "function" d with
      | true, PDict fn =>
          [PDict [("name", por (dget "name" fn) (PStr "")); ("description", por (dget "description" fn) (PStr ""));
                  ("input_schema", por (dget "parameters" fn)
                                     (PDict [("type", PStr "object"); ("properties", PDict [])]))]]
      | _, _ => named_tool d
      end
  | _ => []
  end.

Definition translate_oai_tools_to_anthropic (tools : pyval) : res pyval :=
  let! l := iter (por tools (PList [])) in Ok (PList (concat (map tool_to_anthropic l))).

(** ** The request body *)

Context `{FloatRepr}.

Definition effort_budget (effort : pyval) : option Z :=
  match (match effort with PDict d => dget "effort" d | v => v end) with
  | PStr s => od_get (lower s) _REASONING_EFFORT_BUDGET
  | _ => None
  end.

(** The thinking parameter: the client's own, else from the reasoning effort *)
Definition thinking_param (data : dict) : option dict :=
  let own := match dget "thinking" data with
             | PDict t => if eq_str (dget "type" t) "enabled" then Some t else None
             | _ => None
             end in
  match own with
  | Some t => Some t
  | None => option_map (fun b => [("type", PStr "enabled"); ("budget_tokens", PInt b)])
              (effort_budget (por (dget "reasoning_effort" data) (dget "reasoning" data)))
  end.

(** With thinking, the temperature is 1 and the token limit exceeds the budget. *)
Definition apply_thinking (data : dict) (max_tokens : Z) (out : dict) : res dict :=
  match thinking_param data with
  | None => Ok out
  | Some t =>
      let out := od_set "temperature" (PFloat (sf_of_Z 1) "1.0") (od_set "thinking" (PDict t) out) in
      let budget := dget_or "budget_tokens" (PInt 0) t in
      let! over := py_ge budget (PInt max_tokens) in
      if over then let! m := py_add budget (PInt 1024) in Ok (od_set "max_tokens" m out) else Ok out
  end.

Definition stop_sequences (stop : pyval) : res pyval :=
  match stop with PStr s => Ok (PList [PStr s]) | v => let! l := iter v in Ok (PList l) end.

Definition translated_choice (tool_choice : pyval) : res (option pyval) :=
  if in_strs tool_choice ["auto"; "none"] then Ok (Some (PDict [("type", tool_choice)]))
  else if eq_str tool_choice "required" then Ok (Some (PDict [("type", PStr "any")]))
  else match tool_choice with
       | PDict d =>
           let! name := get "name" (por (dget "function" d) (PDict [])) in
           Ok (if truthy name then Some (PDict [("type", PStr "tool"); ("name", name)]) else None)
       | _ => Ok None
       end.

Definition copied (keys : list string) (data out : dict) : dict :=
  foldl (fun o k => set_if (negb (is_none (dget k data))) k (dget k data) o) out keys.

Definition base_body (d : dict) (turns : list turn) (systems : list string) (max_tokens : Z) : dict :=
  let out := [("model", dget_or "model" (PStr "") d)] in
  let out := set_if (match systems with [] => false | _ => true end) "system" (PStr (sjoin (nl +:+ nl) systems)) out in
  let out := od_set "messages" (PList (map turn_val turns)) out in
  let out := od_set "max_tokens" (PInt max_tokens) out in
  copied ["temperature"; "top_p"; "top_k"; "stream"] d out.

Definition with_stop (d out : dict) : res dict :=
  if truthy (dget "stop" d) then let! s := stop_sequences (dget "stop" d) in Ok (od_set "stop_sequences" s out)
  else Ok out.

Definition with_tools (d out : dict) : res dict :=
  let! out := if truthy (dget "tools" d)
              then let! t := translate_oai_tools_to_anthropic (dget "tools" d) in Ok (od_set "tools" t out)
              else Ok out in
  let! tc := translated_choice (dget "tool_choice" d) in
  Ok (match tc with Some c => od_set "tool_choice" c out | None => out end).

Definition translate_oai_chat_to_anthropic (data : pyval) : res dict :=
  match data with
  | PDict d =>
      let! '(turns, systems) := _oai_messages_to_anthropic_messages (dget "messages" d) in
      let! mt := py_int (por (dget "max_tokens" d) (PInt _DEFAULT_MAX_TOKENS)) in
      let! out := with_stop d (base_body d turns systems mt) in
      let! out := apply_thinking d mt out in
      with_tools d out
  | _ => attribute_error
  end.

(** ** Requests *)

Record adapter := MkAdapter {
  _base_url : string;
  _api_key : string;
  _prompt_caching : bool;
  _beta_headers : string;
}.

Definition init (base_url api_key : string) (prompt_caching : bool) (beta : string) : adapter :=
  MkAdapter (rstrip_slash base_url) api_key prompt_caching (strip beta).

(** A missing content is the empty string, a null one the text None. *)
Definition message_parts (m : pyval) : res (list pyval) :=
  match m with
  | PDict d => Ok (match dget "content" d with
                   | PStr s => [PStr s]
                   | PList blocks => concat (map block_text blocks)
                   | _ => [PStr (py_str (dget_or "content" (PStr "") d))]
                   end)
  | _ => attribute_error
  end.

Definition _concat_messages_anthropic (messages : list pyval) : res pyval :=
  let! parts := map_res message_parts messages in
  let! s := join nl (concat parts) in Ok (PStr s).

Definition system_of (system : pyval) : res string :=
  match system with
  | PList l => join nl (concat (map block_text l))
  | PStr s => Ok s
  | _ => Ok ""
  end.

Definition images_of (m : pyval) : Z :=
  match m with
  | PDict d => match dget "content" d with PList l => zlen (List.filter (is_image ["image"]) l) | _ => 0 end
  | _ => 0
  end.

(** Web search is offered when it is enabled and the client brought no tools. *)
Definition offer_web_search (s : settings) (data : dict) (body : string) : dict * string :=
  if web_search_enabled s && negb (truthy (dget "tools" data)) then
    let n := if web_search_max_results s =? 0 then 3 else web_search_max_results s in
    let data := od_set "tools" (PList [PDict [("type", PStr "web_search_20250305"); ("name", PStr "web_search");
                                              ("max_uses", PInt n)]]) data in
    (data, to_text (PDict data))
  else (data, body).

Definition is_chat_path (r : request) : bool := contains "/chat/completions" (q_path r).

Definition anthropic_data (r : request) : res (dict * string) :=
  let! data := request_data r in
  if is_chat_path r then
    let! d := translate_oai_chat_to_anthropic data in Ok (d, to_text (PDict d))
  else match data with PDict d => Ok (d, body r) | _ => attribute_error end.

Definition parse_request (s : settings) (fresh : string) (r : request) : res ModelCall :=
  let! '(data, bytes) := anthropic_data r in
  let '(data, bytes) := offer_web_search s data bytes in
  let! messages := iter (por (dget "messages" data) (PList [])) in
  let! prompt := _concat_messages_anthropic messages in
  let! prompt := strip_prompt (thinking_strip_enabled s) prompt in
  let! sid := resolve_session_id fresh r (session_header_names_list s) (Some (PDict data)) in
  let md := od_set "session_id" (PStr sid) (user_metadata r) in
  let! sys := system_of (dget_or "system" (PStr "") data) in
  let md := set_if (negb (bool_decide (sys = ""))) "system_prompt" (PStr sys) md in
  let params := present ["temperature"; "top_p"; "top_k"; "max_tokens"] data in
  let md := set_if (truthy (PDict params)) "inference_params" (PDict params) md in
  let mm := foldr Z.add 0 (map images_of messages) in
  let md := set_if (negb (mm =? 0)) "multimodal_input_count" (PInt mm)
              (set_if (negb (mm =? 0)) "has_multimodal_input" (PBool true) md) in
  let md := set_if (is_chat_path r) "_translated_from_openai" (PBool true) md in
  Ok (MkCall "anthropic" (por (dget "model" data) (PStr "")) prompt bytes
        (dget_or "stream" (PBool false) data) md).

(** ** The forward *)

(** [except (json.JSONDecodeError, TypeError): pass] keeps the body. *)
Definition keep_body {A} (dflt : A) (m : res A) : res A :=
  match m with Raise (TypeError _) => Ok dflt | m => m end.

(** Tools the gateway injected in the OpenAI format are translated. *)
Definition retranslate_tools (body : string) : res string :=
  match of_text body with
  | Raise _ => Ok body
  | Ok data =>
      keep_body body
        (let! tools := get "tools" data in
         if truthy tools then
           let! l := iter tools in
           if existsb (fun t => match t with PDict d => eq_str (dget "type" d) "function" | _ => false end) l then
             let! ts := translate_oai_tools_to_anthropic tools in
             let! data := set_item "tools" ts data in
             let! tc := get "tool_choice" data in
             let! data := match tc with
                          | PStr s => if in_strs tc ["auto"; "none"] then set_item "tool_choice" (PDict [("type", tc)]) data
                                      else Ok data
                          | PDict d =>
                              if eq_str (dget "type" d) "function" then
                                let! name := get "name" (por (dget "function" d) (PDict [])) in
                                if truthy name
                                then set_item "tool_choice" (PDict [("type", PStr "tool"); ("name", name)]) data
                                else Ok data
                              else Ok data
                          | _ => Ok data
                          end in
             Ok (to_text data)
           else Ok body
         else Ok body)
  end.

Definition inject_caching (body : string) : res string :=
  match of_text body with
  | Raise _ => Ok body
  | Ok data =>
      keep_body body
        (let! messages := get "messages" data in
         if truthy messages then
           let! ms := inject_cache_control messages in
           let! data := set_item "messages" ms data in Ok (to_text data)
         else Ok body)
  end.

Definition forward_headers (a : adapter) (translated : bool) (r : request) : list (string * string) :=
  let h := if translated then
             [("content-type", "application/json"); ("accept", "application/json"); ("x-api-key", _api_key a);
              ("anthropic-version", _ANTHROPIC_VERSION)]
           else
             let h := foldl (fun h k => od_del k h) (headers r) ["content-length"; "host"; "authorization"; "x-api-key"] in
             let h := if bool_decide (_api_key a = "") then h else od_set "x-api-key" (_api_key a) h in
             match od_get "anthropic-version" h with
             | Some _ => h
             | None => od_set "anthropic-version" _ANTHROPIC_VERSION h
             end in
  if bool_decide (_beta_headers a = "") then h else od_set "anthropic-beta" (_beta_headers a) h.

Definition build_forward_request (a : adapter) (c : ModelCall) (r : request) : res forward :=
  let translated := truthy (dget_or "_translated_from_openai" (PBool false) (metadata c)) in
  let url := if translated then _base_url a +:+ "/v1/messages" else with_query (_base_url a +:+ q_path r) r in
  let! body := if translated then retranslate_tools (raw_body c)
               else if _prompt_caching a then inject_caching (raw_body c) else Ok (raw_body c) in
  Ok (MkForward (q_method r) url (forward_headers a translated r) body).
End translation.

(** ** Responses *)

Definition native : pyval := PDict [("source", PStr "anthropic_native")].

Definition search_sources (content : pyval) : list pyval :=
  match content with
  | PList l =>
      concat (map (fun r => match r with
                            | PDict d =>
                                if eq_str (dget "type" d) "web_search_result" then
                                  [PDict (map (fun k => (k, por (dget k d) (PStr ""))) ["title"; "url"; "page_age"])]
                                else []
                            | _ => []
                            end) l)
  | _ => []
  end.

Definition search_error (content : pyval) : option pyval :=
  match content with
  | PDict d => if eq_str (dget "type" d) "web_search_tool_result_error"
               then Some (PDict [("error_code", dget "error_code" d)]) else None
  | _ => None
  end.

Definition _parse_content_block (b : dict) : pyval * pyval * option ToolInteraction :=
  let ty := dget_or "type" (PStr "") b in
  if eq_str ty "text" then (dget_or "text" (PStr "") b, PStr "", None)
  else if eq_str ty "thinking" then (PStr "", dget_or "thinking" (PStr "") b, None)
  else if eq_str ty "redacted_thinking" then (PStr "", PStr "[redacted]", None)
  else if in_strs ty ["tool_use"; "server_tool_use"] then
    let client := eq_str ty "tool_use" in
    (PStr "", PStr "",
     Some (MkInteraction (dget_or "id" (PStr "") b) (PStr (if client then "function" else "server_tool"))
             (dget "name" b) (dget "input" b) PNone PNone (if client then PNone else native)))
  else if eq_str ty "web_search_tool_result" then
    let content := por (dget "content" b) (PList []) in
    let srcs := search_sources content in
    let out := match search_error content with
               | Some e => PDict [("error", e)]
               | None => PDict [("result_count", PInt (zlen srcs))]
               end in
    (PStr "", PStr "",
     Some (MkInteraction (dget_or "tool_use_id" (PStr "") b) (PStr "web_search") (PStr "web_search") PNone out
             (non_empty srcs)
             (PDict [("source", PStr "anthropic_native");
                     ("is_error", PBool (match search_error content with Some _ => true | None => false end))])))
  else (PStr "", PStr "", None).

(** A result of the provider's own search, which carries its call's identifier *)
Definition is_result (t : ToolInteraction) : bool :=
  eq_str (tool_type t) "web_search"
  && match i_metadata t with PDict d => eq_str (dget "source" d) "anthropic_native" | _ => false end
  && truthy (tool_id t).

Definition results_by_id (l : list ToolInteraction) : res (list (pyval * ToolInteraction)) :=
  fold_res (fun m t => if is_result t then let! _ := hashable (tool_id t) in Ok (vset (tool_id t) t m) else Ok m) l [].

Definition merge_one (results : list (pyval * ToolInteraction)) (t : ToolInteraction) : res (list ToolInteraction) :=
  if is_result t then Ok []
  else if eq_str (tool_type t) "server_tool" then
    let! _ := hashable (tool_id t) in
    Ok [match vget (tool_id t) results with
        | Some r => MkInteraction (tool_id t) (PStr "server_tool") (tool_name t) (input_data t) (output_data r)
                      (sources r) native
        | None => t
        end]
  else Ok [t].

Definition _merge_server_tool_pairs (l : list ToolInteraction) : res (list ToolInteraction) :=
  let! results := results_by_id l in
  match results with
  | [] => Ok l
  | _ => let! ls := map_res (merge_one results) l in Ok (concat ls)
  end.

Section responses.
Context `{JsonText}.

Definition parse_response (a : adapter) (raw : string) : res ModelResponse :=
  match of_text raw with
  | Raise _ => Raise (ValueError "Anthropic response body is not valid JSON")
  | Ok data =>
      let! stop_reason := get "stop_reason" data in
      let! blocks := get_list "content" data in
      let! blocks := iter blocks in
      let parsed := concat (map (fun b => match b with PDict d => [_parse_content_block d] | _ => [] end) blocks) in
      let! tools := _merge_server_tool_pairs (omap snd parsed) in
      let pending := eq_str stop_reason "tool_use" && existsb (fun t => eq_str (tool_type t) "function") tools in
      let! usage := get "usage" data in
      let! usage := if truthy usage && _prompt_caching a then with_cache_info usage else Ok usage in
      let! text := join "" (List.filter truthy (map (fun p => fst (fst p)) parsed)) in
      let! id := get "id" data in
      let thinking := List.filter truthy (map (fun p => snd (fst p)) parsed) in
      let! t := join "" thinking in
      Ok (MkResponse (PStr text) usage raw id tools pending (match thinking with [] => PNone | _ => PStr t end))
  end.

(** *** For an OpenAI client *)

Definition _ANTHROPIC_STOP_TO_OAI_FINISH : list (string * string) :=
  [("end_turn", "stop"); ("stop_sequence", "stop"); ("max_tokens", "length"); ("tool_use", "tool_calls")].

(** [_ANTHROPIC_STOP_TO_OAI_FINISH.get(stop_reason or "", "stop")] *)
Definition finish_of (stop_reason : pyval) : res string :=
  let! _ := hashable (por stop_reason (PStr "")) in
  Ok (match stop_reason with
      | PStr s => default "stop" (od_get s _ANTHROPIC_STOP_TO_OAI_FINISH)
      | _ => "stop"
      end).

Definition client_tool_call (d : dict) : pyval :=
  PDict [("id", dget_or "id" (PStr "") d); ("type", PStr "function");
         ("function", PDict [("name", dget_or "name" (PStr "") d);
                             ("arguments", PStr (match dget "input" d with PNone => "{}" | v => to_text v end))])].

(** The texts, reasoning and tool calls of the content blocks *)
Definition response_parts (blocks : list pyval) : list pyval * list pyval * list pyval :=
  foldl (fun '(ts, rs, cs) b =>
           match b with
           | PDict d =>
               let ty := dget "type" d in
               if eq_str ty "text" then (ts ++ [dget_or "text" (PStr "") d], rs, cs)
               else if eq_str ty "thinking" then (ts, rs ++ [dget_or "thinking" (PStr "") d], cs)
               else if eq_str ty "redacted_thinking" then (ts, rs ++ [PStr "[redacted]"], cs)
               else if in_strs ty ["tool_use"; "server_tool_use"] then (ts, rs, cs ++ [client_tool_call d])
               else (ts, rs, cs)
           | _ => (ts, rs, cs)
           end) ([], [], []) blocks.

Definition token_count (k : string) (usage : pyval) : res Z :=
  let! v := get k usage in py_int (por v (PInt 0)).

Definition client_usage (usage : pyval) : res dict :=
  let! input := token_count "input_tokens" usage in
  let! output := token_count "output_tokens" usage in
  let! create := token_count "cache_creation_input_tokens" usage in
  let! cached := token_count "cache_read_input_tokens" usage in
  let prompt := input + cached + create in
  Ok (set_if (negb (cached =? 0) || negb (create =? 0)) "prompt_tokens_details" (PDict [("cached_tokens", PInt cached)])
        [("prompt_tokens", PInt prompt); ("completion_tokens", PInt output); ("total_tokens", PInt (prompt + output))]).

(** [fresh] is the new identifier, [now] the time in seconds. *)
Definition translate_anthropic_response_to_oai (fresh : string) (now : Z) (data model_id : pyval) : res dict :=
  let! blocks := get_list "content" data in
  let! blocks := iter blocks in
  let '(ts, rs, cs) := response_parts blocks in
  let! content := join "" ts in
  let! stop := get "stop_reason" data in
  let! finish := if eq_str stop "tool_use" && negb (bool_decide (length cs = 0%nat)) then Ok "tool_calls"
                 else finish_of stop in
  let m := [("role", PStr "assistant"); ("content", por (PStr content) PNone)] in
  let m := match cs with [] => m | _ => od_set "tool_calls" (PList cs) m end in
  let! m := match rs with [] => Ok m | _ => let! r := join "" rs in Ok (od_set "reasoning_content" (PStr r) m) end in
  let! usage := get_dict "usage" data in
  let! usage := client_usage usage in
  let! id := get "id" data in
  let! model := get "model" data in
  Ok [("id", por id (PStr ("chatcmpl-" +:+ fresh))); ("object", PStr "chat.completion"); ("created", PInt now);
      ("model", por model model_id);
      ("choices", PList [PDict [("index", PInt 0); ("message", PDict m); ("finish_reason", PStr finish);
                                ("logprobs", PNone)]]);
      ("usage", PDict usage)].

Definition translate_response_body_for_client (fresh : string) (now : Z) (raw : string) (c : ModelCall) : res string :=
  match of_text raw with
  | Raise _ => Ok raw
  | Ok data => let! oai := translate_anthropic_response_to_oai fresh now data (model_id c) in Ok (to_text (PDict oai))
  end.

Definition _ANTHROPIC_TO_OAI_ERROR_TYPE : list (string * string) :=
  [("invalid_request_error", "invalid_request_error"); ("authentication_error", "authentication_error");
   ("permission_error", "permission_denied"); ("not_found_error", "not_found_error");
   ("request_too_large", "invalid_request_error"); ("rate_limit_error", "rate_limit_exceeded");
   ("api_error", "server_error"); ("overloaded_error", "server_error")].

Definition translate_anthropic_error_to_oai (raw : string) : res string :=
  match of_text raw with
  | Ok (PDict d) =>
      match dget "error" d with
      | PDict e =>
          let ty := por (dget "type" e) (PStr "api_error") in
          let! _ := hashable ty in
          let oai := match ty with PStr s => default "server_error" (od_get s _ANTHROPIC_TO_OAI_ERROR_TYPE)
                     | _ => "server_error" end in
          Ok (to_text (PDict [("error", PDict [("message", por (dget "message" e) (PStr "upstream error"));
                                               ("type", PStr oai); ("code", ty); ("param", PNone)])]))
      | _ => Ok raw
      end
  | _ => Ok raw
  end.

(** ** Tool results *)

Definition result_block (result : pyval) : res pyval :=
  let! id := item "tool_call_id" result in
  let! c := item "content" result in
  Ok (PDict [("type", PStr "tool_result"); ("tool_use_id", id); ("content", PStr (py_str c))]).

Definition use_block (tc : ToolInteraction) : pyval :=
  PDict [("type", PStr "tool_use"); ("id", tool_id tc); ("name", por (tool_name tc) (PStr ""));
         ("input", if is_dict (input_data tc) then input_data tc else PDict [])].

Definition build_tool_result_call (c : ModelCall) (tool_calls : list ToolInteraction) (tool_results : list pyval)
    : res ModelCall :=
  let! body := of_text (raw_body c) in
  let! messages := get_or "messages" (PList []) body in
  let! l := match messages with PList l => Ok l | _ => attribute_error end in
  let! results := map_res result_block tool_results in
  let! body := set_item "messages"
                 (PList (l ++ [PDict [("role", PStr "assistant"); ("content", PList (map use_block tool_calls))];
                               PDict [("role", PStr "user"); ("content", PList results)]])) body in
  Ok (MkCall (provider c) (model_id c) (prompt_text c) (to_text body) (is_streaming c) (metadata c)).
End responses.

(** ** The thinking budget *)

Section budget.
Context `{JsonText} `{FloatRepr}.

Lemma dget_set_if b k k' v (d : dict) : k <> k' -> dget k' (set_if b k v d) = dget k' d.
Proof. intros Hk. destruct b; [by apply dget_set_ne|done]. Qed.

Lemma dget_copied k keys (data out : dict) : k ∉ keys -> dget k (copied keys data out) = dget k out.
Proof.
  unfold copied. revert out. induction keys as [|k' keys IH]; intros out Hk; [done|]. simpl.
  rewrite IH by set_solver. apply dget_set_if. set_solver.
Qed.

Lemma py_ge_int v z b : as_int v = Some b -> py_ge v (PInt z) = Ok (z <=? b).
Proof.
  intros Hv. unfold py_ge, num_compare. rewrite Hv. cbn [as_int]. destruct (b ?= z) eqn:Hc.
  - apply Z.compare_eq in Hc as ->. by rewrite Z.leb_refl.
  - rewrite Z.compare_lt_iff in Hc. by destruct (z <=? b) eqn:?; [lia|].
  - rewrite Z.compare_gt_iff in Hc. by destruct (z <=? b) eqn:?; [|lia].
Qed.

Lemma py_add_int v z b : as_int v = Some b -> py_add v (PInt z) = Ok (PInt (b + z)).
Proof. intros Hv. unfold py_add. destruct v; simpl in *; congruence. Qed.

Lemma apply_thinking_fits d mt out out' th b :
  dget "thinking" out = PNone -> dget "max_tokens" out = PInt mt ->
  apply_thinking d mt out = Ok out' -> dget "thinking" out' = PDict th ->
  as_int (dget_or "budget_tokens" (PInt 0) th) = Some b ->
  exists mt', dget "max_tokens" out' = PInt mt' /\ b < mt' /\ dget "temperature" out' = PFloat (sf_of_Z 1) "1.0".
Proof.
  intros Hnone Hmt. unfold apply_thinking. destruct (thinking_param d) as [t|]; [|by intros [= <-]; rewrite Hnone].
  set (out1 := od_set "temperature" _ _).
  assert (dget "thinking" out1 = PDict t /\ dget "max_tokens" out1 = PInt mt) as [H1 H2].
  { unfold out1. rewrite !(dget_set_ne "temperature") by done. by rewrite dget_set_eq, dget_set_ne. }
  intros Hrun Hth Hb. unbind Hrun.
  assert (th = t) as ->.
  { destruct a; [|injection Hrun as <-; congruence]. unbind Hrun. injection Hrun as <-.
    rewrite dget_set_ne in Hth by done. congruence. }
  rewrite (py_ge_int _ _ b Hb) in Hrun0. injection Hrun0 as <-. destruct (mt <=? b) eqn:Hle.
  - rewrite (py_add_int _ _ b Hb) in Hrun. injection Hrun as <-. exists (b + 1024).
    rewrite dget_set_eq, dget_set_ne by done. unfold out1. rewrite dget_set_eq. split_and!; [done|lia|done].
  - injection Hrun as <-. exists mt. unfold out1 at 2. rewrite dget_set_eq. split_and!; [done|lia|done].
Qed.

Lemma with_tools_keeps k d out out' :
  k ∉ ["tools"; "tool_choice"] -> with_tools d out = Ok out' -> dget k out' = dget k out.
Proof.
  unfold with_tools. intros Hk Hrun. unbind Hrun. injection Hrun as <-.
  transitivity (dget k a); [destruct a0; [apply dget_set_ne; set_solver|done]|].
  destruct (truthy _); [unbind Hrun0|]; injection Hrun0 as <-; [apply dget_set_ne; set_solver|done].
Qed.

Lemma with_stop_keeps k d out out' : k <> "stop_sequences" -> with_stop d out = Ok out' -> dget k out' = dget k out.
Proof.
  unfold with_stop. intros Hk Hrun. destruct (truthy _); [unbind Hrun|]; injection Hrun as <-; [by apply dget_set_ne|done].
Qed.

Lemma base_body_fields d turns systems mt :
  dget "thinking" (base_body d turns systems mt) = PNone
  /\ dget "max_tokens" (base_body d turns systems mt) = PInt mt
  /\ dget "messages" (base_body d turns systems mt) = PList (map turn_val turns).
Proof.
  unfold base_body. rewrite !dget_copied by set_solver.
  rewrite dget_set_eq, !(dget_set_ne "max_tokens"), dget_set_eq, dget_set_ne, dget_set_if by done. done.
Qed.

Lemma apply_thinking_keeps k d mt out out' :
  k ∉ ["temperature"; "thinking"; "max_tokens"] -> apply_thinking d mt out = Ok out' -> dget k out' = dget k out.
Proof.
  unfold apply_thinking. intros Hk Hrun. destruct (thinking_param d) as [t|]; [|by injection Hrun as <-].
  unbind Hrun. destruct a; [unbind Hrun|]; injection Hrun as <-; by rewrite !dget_set_ne by set_solver.
Qed.

(** C35. Extended thinking in a translated request obeys the provider's constraints: when
    the translation asks for it, the temperature is 1 and the token limit is larger
    than the thinking budget, whatever limit and temperature the client sent. *)
Theorem thinking_budget_fits data out th b :
  translate_oai_chat_to_anthropic data = Ok out ->
  dget "thinking" out = PDict th -> as_int (dget_or "budget_tokens" (PInt 0) th) = Some b ->
  exists mt, dget "max_tokens" out = PInt mt /\ b < mt /\ dget "temperature" out = PFloat (sf_of_Z 1) "1.0".
Proof.
  destruct data as [| | | | | |d|]; try done. cbn [translate_oai_chat_to_anthropic]. intros Hrun.
  unbind Hrun. destruct a as [turns systems]. unbind Hrun. intros Hth Hb.
  rewrite (with_tools_keeps "thinking" _ _ _ ltac:(set_solver) Hrun) in Hth.
  rewrite (with_tools_keeps "max_tokens" _ _ _ ltac:(set_solver) Hrun).
  rewrite (with_tools_keeps "temperature" _ _ _ ltac:(set_solver) Hrun).
  destruct (base_body_fields d turns systems a) as (Hbt & Hbm & _).
  eapply apply_thinking_fits; [| |eassumption..];
    (erewrite with_stop_keeps; [|..|eassumption]; [eassumption|done]).
Qed.
End budget.

(** ** The messages *)

Section messages.
Context `{JsonText}.

(** The content blocks of a translated conversation, each with its role *)
Definition flat_turn (t : turn) : list (string * pyval) :=
  match t_content t with
  | PList l => map (pair (t_role t)) l
  | v => [(t_role t, text_val v)]
  end.

Definition flat (out : list turn) : list (string * pyval) := concat (map flat_turn out).

(** The blocks of one message, and the role Anthropic is given for them *)
Definition blocks_of (m : pyval) : res (list (string * pyval)) :=
  match m with
  | PDict d =>
      let role := dget_or "role" (PStr "user") d in
      if eq_str role "system" then Ok []
      else if in_strs role ["tool"; "function"] then let! b := tool_result_block d in Ok [("user", b)]
      else if eq_str role "assistant" then let! bs := assistant_blocks d in Ok (map (pair "assistant") bs)
      else Ok (map (pair "user") (_oai_content_to_anthropic_blocks (dget "content" d)))
  | _ => Ok []
  end.

(** A content is null, a string or a list of blocks whose texts are strings, as the
    API asks. *)
Definition text_is_string (b : pyval) : bool :=
  match b with
  | PDict d => negb (eq_str (dget "type" d) "text") || is_str (por (dget "text" d) (PStr ""))
  | _ => true
  end.

Definition well_typed (m : pyval) : bool :=
  match m with
  | PDict d => match dget "content" d with PNone | PStr _ => true | PList l => forallb text_is_string l | _ => false end
  | _ => true
  end.

(** A turn the provider accepts *)
Definition turn_ok (t : turn) : Prop :=
  t_role t ∈ ["user"; "assistant"] /\ (is_str (t_content t) || is_list (t_content t)) && truthy (t_content t) = true.

(** A block that [collapse] may turn into a string is a text. *)
Definition sane (b : pyval) : Prop :=
  forall d, b = PDict d -> eq_str (dget "type" d) "text" = true -> exists s, s <> "" /\ b = text_val (PStr s).

Lemma sane_other d : eq_str (dget "type" d) "text" = false -> sane (PDict d).
Proof. intros Hf d' [= <-]. congruence. Qed.

Lemma sane_text s : s <> "" -> sane (text_val (PStr s)).
Proof. intros Hs d _ _. by exists s. Qed.

Lemma image_sane v b : _oai_image_to_anthropic_block v = Some b -> sane b.
Proof.
  unfold _oai_image_to_anthropic_block. destruct (match v with PDict d => dget "url" d | _ => v end); try done.
  destruct (startswith _ _); [|intros [= <-]; by apply sane_other].
  destruct (_parse_data_url s) as [media [[|c data]|]]; try done. intros [= <-]. by apply sane_other.
Qed.

Lemma block_sane b : text_is_string b = true -> Forall sane (block_to_anthropic b).
Proof.
  destruct b as [| | | | | |d|]; try constructor. cbn [text_is_string block_to_anthropic]. intros Hb.
  destruct (eq_str (dget "type" d) "text") eqn:Ht.
  - cbn [negb orb] in Hb. destruct (por _ _) as [| | | |s| | |]; try done.
    destruct s as [|c s]; simpl; constructor; [by apply sane_text|constructor].
  - destruct (eq_str _ "image_url") eqn:Hi.
    + destruct (_oai_image_to_anthropic_block _) eqn:Hv; [|constructor].
      constructor; [by eapply image_sane|constructor].
    + destruct (eq_str _ "image") eqn:Hm; [|constructor]. constructor; [by apply sane_other|constructor].
Qed.

Lemma content_sane d : well_typed (PDict d) = true -> Forall sane (_oai_content_to_anthropic_blocks (dget "content" d)).
Proof.
  unfold well_typed. destruct (dget "content" d) as [| | | |s|l| |]; try done; cbn [_oai_content_to_anthropic_blocks].
  - case_bool_decide; constructor; [by apply sane_text|constructor].
  - intros Hl. rewrite forallb_forall in Hl.
    induction l as [|b l IH]; [constructor|]. cbn [map concat]. apply Forall_app. split.
    + apply block_sane, Hl. by left.
    + apply IH. intros x Hx. apply Hl. by right.
Qed.

Lemma tool_use_sane tc bs : tool_use_block tc = Ok bs -> Forall sane bs.
Proof.
  unfold tool_use_block. intros Hr. destruct tc; try (injection Hr as <-; constructor).
  destruct (por _ _); try done. injection Hr as <-. constructor; [by apply sane_other|constructor].
Qed.

Lemma assistant_sane d bs : well_typed (PDict d) = true -> assistant_blocks d = Ok bs -> Forall sane bs.
Proof.
  unfold assistant_blocks, _oai_tool_calls_to_anthropic_content. intros Hw Hr.
  destruct (truthy _); [|injection Hr as <-; by apply content_sane].
  unbind Hr. injection Hr as <-. apply Forall_app. split; [by apply content_sane|].
  unbind Hrun. injection Hrun as <-. apply map_res_Forall2 in Hrun1.
  clear Hrun0. induction Hrun1 as [|tc b l k Hb _ IH]; [constructor|]. simpl. apply Forall_app. split; [by eapply tool_use_sane|done].
Qed.

(** *** Each step appends the blocks of its message *)

Lemma flat_app a b : flat (a ++ b) = flat a ++ flat b.
Proof. unfold flat. by rewrite map_app, concat_app. Qed.

Lemma flat_one t : flat [t] = flat_turn t.
Proof. unfold flat. simpl. by rewrite app_nil_r. Qed.

Lemma flat_add_result b out : flat (add_result b out) = flat out ++ [("user", b)].
Proof.
  unfold add_result. destruct (rev out) as [|t before] eqn:Hr.
  - assert (out = []) as -> by (by rewrite <- (rev_involutive out), Hr). done.
  - assert (out = rev before ++ [t]) as -> by (by rewrite <- (rev_involutive out), Hr).
    unfold open_group. destruct t as [r c]. destruct c as [| | | | |l| |]; cbn [t_content t_role];
      try by rewrite flat_app.
    case_bool_decide as Hu; [subst r|by rewrite flat_app].
    rewrite !flat_app, !flat_one. unfold flat_turn. cbn [t_content t_role].
    by rewrite map_app, <- app_assoc.
Qed.

Lemma flat_collapse r bs : Forall sane bs -> flat_turn (MkTurn r (collapse bs)) = map (pair r) bs.
Proof.
  intros Hs. destruct bs as [|b [|b' bs]]; [done| |by destruct b].
  apply Forall_inv in Hs. destruct b as [| | | | | |d|]; try done. cbn [collapse].
  destruct (eq_str (dget "type" d) "text") eqn:Ht; [|done].
  destruct (Hs d eq_refl Ht) as (s & _ & [= ->]). done.
Qed.

Lemma flat_add_turn r bs out : Forall sane bs -> flat (add_turn r bs out) = flat out ++ map (pair r) bs.
Proof.
  intros Hs. unfold add_turn. destruct bs as [|b bs]; [by rewrite app_nil_r|].
  by rewrite flat_app, flat_one, flat_collapse.
Qed.

Lemma turn_ok_collapse r b bs : r ∈ ["user"; "assistant"] -> Forall sane (b :: bs) -> turn_ok (MkTurn r (collapse (b :: bs))).
Proof.
  intros Hr Hs. split; [done|]. cbn [t_content]. destruct bs as [|b' bs]; [|by destruct b].
  apply Forall_inv in Hs. destruct b as [| | | | | |d|]; try done. cbn [collapse].
  destruct (eq_str (dget "type" d) "text") eqn:Ht; [|done].
  destruct (Hs d eq_refl Ht) as (s & Hne & [= ->]). by destruct s.
Qed.

Lemma add_result_ok b out : Forall turn_ok out -> Forall turn_ok (add_result b out).
Proof.
  intros Ho. assert (turn_ok (MkTurn "user" (PList [b]))) as H1 by (split; [by left|done]).
  unfold add_result. destruct (rev out) as [|t before] eqn:Hr; [by constructor|].
  assert (out = rev before ++ [t]) as -> by (by rewrite <- (rev_involutive out), Hr).
  destruct (open_group t) as [l|]; [|by apply Forall_app; auto].
  apply Forall_app in Ho as [Ho _]. apply Forall_app. split; [done|]. constructor; [|constructor].
  split; [by left|]. by destruct l.
Qed.

Lemma add_turn_ok r bs out :
  r ∈ ["user"; "assistant"] -> Forall sane bs -> Forall turn_ok out -> Forall turn_ok (add_turn r bs out).
Proof.
  intros Hr Hs Ho. unfold add_turn. destruct bs as [|b bs]; [done|]. apply Forall_app. split; [done|].
  constructor; [by apply turn_ok_collapse|constructor].
Qed.

Lemma message_step_flat out systems m out' systems' :
  well_typed m = true -> message_step (out, systems) m = Ok (out', systems') ->
  exists bs, blocks_of m = Ok bs /\ flat out' = flat out ++ bs /\ (Forall turn_ok out -> Forall turn_ok out').
Proof.
  intros Hw. unfold message_step, blocks_of.
  destruct m as [| | | | | |d|]; try (intros [= <- <-]; exists []; by rewrite app_nil_r).
  destruct (eq_str _ "system"); [intros Hr; unbind Hr; injection Hr as <- <-; exists []; by rewrite app_nil_r|].
  destruct (in_strs _ _).
  { intros Hr. unbind Hr. injection Hr as <- <-. eexists. split; [done|].
    split; [apply flat_add_result|by apply add_result_ok]. }
  destruct (eq_str _ "assistant").
  - intros Hr. unbind Hr. injection Hr as <- <-. pose proof (assistant_sane d _ Hw Hrun). eexists. split; [done|].
    split; [by apply flat_add_turn|]. apply add_turn_ok; [right; by left|done].
  - intros [= <- <-]. pose proof (content_sane d Hw). eexists. split; [done|].
    split; [by apply flat_add_turn|]. apply add_turn_ok; [by left|done].
Qed.

Lemma bridge_spec ms turns systems :
  _oai_messages_to_anthropic_messages (PList ms) = Ok (turns, systems) ->
  forallb well_typed ms = true ->
  exists bss, map_res blocks_of ms = Ok bss /\ flat turns = concat bss /\ Forall turn_ok turns.
Proof.
  assert (forall ms out sys, forallb well_typed ms = true -> Forall turn_ok out ->
            fold_res message_step ms (out, sys) = Ok (turns, systems) ->
            exists bss, map_res blocks_of ms = Ok bss /\ flat turns = flat out ++ concat bss /\ Forall turn_ok turns) as Hgen.
  { clear. intros ms. induction ms as [|m ms IH]; intros out sys Hw Ho Hrun.
    - injection Hrun as -> ->. exists []. by rewrite app_nil_r.
    - simpl in Hw. apply andb_true_iff in Hw as [Hm Hw]. cbn [fold_res] in Hrun. unbind Hrun. destruct a as [out1 sys1].
      destruct (message_step_flat _ _ _ _ _ Hm Hrun0) as (bs & Hb & Hf & Hok).
      destruct (IH _ _ Hw (Hok Ho) Hrun) as (bss & Hbss & Hflat & Hturns).
      exists (bs :: bss). cbn [map_res concat]. rewrite Hb, Hbss, Hflat, Hf, <- app_assoc. done. }
  unfold _oai_messages_to_anthropic_messages. intros Hrun Hw.
  apply (Hgen ms [] []); [done|constructor|]. destruct ms; exact Hrun.
Qed.

(** The bridge from the OpenAI format loses and reorders nothing the provider can
    take.  The content blocks of the translated messages, each with its role, are
    exactly the blocks of the original messages in their order - texts, images, tool
    calls and tool results - although tool results are grouped and single texts are
    collapsed on the way; every translated message has a role Anthropic knows and a
    content that is not empty. *)
Theorem bridge_keeps_blocks ms turns systems :
  _oai_messages_to_anthropic_messages (PList ms) = Ok (turns, systems) ->
  forallb well_typed ms = true ->
  exists bss, map_res blocks_of ms = Ok bss /\ flat turns = concat bss /\ Forall turn_ok turns.
Proof. apply bridge_spec. Qed.

(** *** The prompt of a bridged request *)

(** The texts of a message that reach the prompt *)
Definition governed (m : pyval) : list string :=
  match m with
  | PDict d => if in_strs (dget_or "role" (PStr "user") d) ["system"; "tool"; "function"] then []
               else List.filter (fun s => negb (bool_decide (s = ""))) (texts_of m)
  | _ => []
  end.

Definition block_texts (bs : list (string * pyval)) : list pyval := concat (map (fun rb => block_text (snd rb)) bs).

Lemma block_texts_app a b : block_texts (a ++ b) = block_texts a ++ block_texts b.
Proof. unfold block_texts. by rewrite map_app, concat_app. Qed.

Lemma block_texts_role r bs : block_texts (map (pair r) bs) = concat (map block_text bs).
Proof. unfold block_texts. by rewrite map_map. Qed.

Lemma turn_parts t : turn_ok t -> message_parts (turn_val t) = Ok (block_texts (flat_turn t)).
Proof.
  destruct t as [r c]. intros [_ Hc]. unfold flat_turn. cbn [t_content t_role] in *.
  destruct c; try done. cbn. by rewrite block_texts_role.
Qed.

Lemma turns_parts turns :
  Forall turn_ok turns ->
  _concat_messages_anthropic (map turn_val turns) = (let! s := join nl (block_texts (flat turns)) in Ok (PStr s)).
Proof.
  intros Ht. unfold _concat_messages_anthropic.
  assert (exists l, map_res message_parts (map turn_val turns) = Ok l /\ concat l = block_texts (flat turns))
    as (l & -> & Hl); [|cbn [res_bind]; by rewrite Hl].
  induction Ht as [|t turns Ht _ (l & Hm & Hl)]; [by exists []|]. cbn [map map_res]. rewrite (turn_parts t Ht), Hm.
  eexists. split; [done|]. cbn [concat]. rewrite Hl, <- block_texts_app. done.
Qed.

Lemma block_text_anthropic b :
  text_is_string b = true ->
  concat (map block_text (block_to_anthropic b))
  = map PStr (List.filter (fun s => negb (bool_decide (s = "")))
                (match b with
                 | PDict bd => if eq_str (dget "type" bd) "text"
                               then match dget "text" bd with PStr t => [t] | _ => [] end else []
                 | _ => []
                 end)).
Proof.
  destruct b as [| | | | | |d|]; try done. cbn [text_is_string block_to_anthropic]. intros Hb.
  destruct (eq_str (dget "type" d) "text") eqn:Ht.
  - cbn [negb orb] in Hb. destruct (dget "text" d) as [|[]|z|f ?|s|l|e|s] eqn:Hx; try done; try by destruct s.
    + unfold por in *. by destruct (truthy (PInt z)).
    + unfold por in *. by destruct (truthy (PFloat f repr)).
    + by destruct l.
    + by destruct e.
  - destruct (eq_str _ "image_url").
    + destruct (_oai_image_to_anthropic_block _) as [v|] eqn:Hv; [|done].
      unfold _oai_image_to_anthropic_block in Hv. destruct (match dget "image_url" d with PDict d => dget "url" d | _ => _ end); try done.
      destruct (startswith _ _); [|by injection Hv as <-].
      destruct (_parse_data_url _) as [media [[|c data]|]]; try done. by injection Hv as <-.
    + destruct (eq_str _ "image"); [|done]. cbn. by rewrite Ht.
Qed.

Lemma omap_concat {A B} (f : A -> option B) l :
  omap f l = concat (map (fun x => match f x with Some y => [y] | None => [] end) l).
Proof. induction l as [|x l IH]; simpl; [done|]. destruct (f x); by rewrite <- IH. Qed.

Lemma content_texts d :
  well_typed (PDict d) = true ->
  concat (map block_text (_oai_content_to_anthropic_blocks (dget "content" d)))
  = map PStr (List.filter (fun s => negb (bool_decide (s = ""))) (texts_of (PDict d))).
Proof.
  unfold well_typed, texts_of. destruct (dget "content" d) as [| | | |s|l| |]; try done; cbn [_oai_content_to_anthropic_blocks].
  - intros _. simpl. by case_bool_decide.
  - rewrite forallb_forall. intros Hl. rewrite omap_concat.
    induction l as [|b l IH]; [done|]. cbn [map concat].
    rewrite map_app, concat_app, List.filter_app, map_app, IH by (intros x Hx; apply Hl; by right).
    rewrite block_text_anthropic by (apply Hl; by left). f_equal. f_equal. f_equal.
    destruct b as [| | | | | |bd|]; try done. destruct (eq_str _ _); [|done]. by destruct (dget "text" bd).
Qed.

Lemma tool_use_no_text tc bs : tool_use_block tc = Ok bs -> concat (map block_text bs) = [].
Proof.
  unfold tool_use_block. intros Hr. destruct tc; try by injection Hr as <-.
  destruct (por _ _); try done. by injection Hr as <-.
Qed.

Lemma assistant_texts d bs :
  well_typed (PDict d) = true -> assistant_blocks d = Ok bs ->
  concat (map block_text bs) = map PStr (List.filter (fun s => negb (bool_decide (s = ""))) (texts_of (PDict d))).
Proof.
  unfold assistant_blocks, _oai_tool_calls_to_anthropic_content. intros Hw Hr.
  destruct (truthy _); [|injection Hr as <-; by apply content_texts].
  unbind Hr. injection Hr as <-. rewrite map_app, concat_app, content_texts by done.
  unbind Hrun. injection Hrun as <-. apply map_res_Forall2 in Hrun1. clear Hrun0.
  replace (concat (map block_text (concat a1))) with (@nil pyval); [by rewrite app_nil_r|].
  induction Hrun1 as [|tc b l k Hb _ IH]; [done|]. cbn [concat]. by rewrite map_app, concat_app, (tool_use_no_text _ _ Hb).
Qed.

Lemma blocks_governed m bs : well_typed m = true -> blocks_of m = Ok bs -> block_texts bs = map PStr (governed m).
Proof.
  unfold blocks_of, governed. intros Hw. destruct m as [| | | | | |d|]; try by intros [= <-].
  set (role := dget_or "role" (PStr "user") d).
  replace (in_strs role ["system"; "tool"; "function"]) with (eq_str role "system" || in_strs role ["tool"; "function"]) by done.
  destruct (eq_str role "system"); [by intros [= <-]|]. cbn [orb].
  destruct (in_strs role _).
  { intros Hr. unbind Hr. injection Hr as <-. unfold tool_result_block in Hrun. unbind Hrun. by injection Hrun as <-. }
  destruct (eq_str role "assistant").
  - intros Hr. unbind Hr. injection Hr as <-. rewrite block_texts_role. by apply assistant_texts.
  - intros [= <-]. rewrite block_texts_role. by apply content_texts.
Qed.

Context `{FloatRepr}.

Lemma translated_messages d out ms :
  translate_oai_chat_to_anthropic (PDict d) = Ok out -> dget "messages" d = PList ms ->
  forallb well_typed ms = true ->
  exists turns bss, dget "messages" out = PList (map turn_val turns) /\ Forall turn_ok turns
    /\ map_res blocks_of ms = Ok bss /\ flat turns = concat bss.
Proof.
  cbn [translate_oai_chat_to_anthropic]. intros Hrun Hms Hw. rewrite Hms in Hrun. unbind Hrun.
  destruct a as [turns systems]. unbind Hrun.
  destruct (bridge_spec ms turns systems Hrun0 Hw) as (bss & Hbss & Hflat & Hok).
  exists turns, bss. split_and!; [|done..].
  rewrite (with_tools_keeps "messages" _ _ _ ltac:(set_solver) Hrun).
  erewrite (apply_thinking_keeps "messages"); [|set_solver|eassumption].
  erewrite with_stop_keeps; [|done|eassumption]. apply base_body_fields.
Qed.

Lemma governed_all ms : forall bss,
  forallb well_typed ms = true -> map_res blocks_of ms = Ok bss ->
  block_texts (concat bss) = map PStr (concat (map governed ms)).
Proof.
  induction ms as [|m ms IH]; intros bss Hw Hr; [by injection Hr as <-|].
  simpl in Hw. apply andb_true_iff in Hw as [Hm Hw]. cbn [map_res] in Hr. unbind Hr. injection Hr as <-.
  cbn [concat map]. by rewrite block_texts_app, map_app, (blocks_governed m), IH.
Qed.

(** Which texts of a bridged request governance sees.  When an OpenAI-format request
    is routed to Anthropic, the prompt that is hashed, checked and recorded is exactly
    the non-empty texts of the user and assistant messages, a line each: the texts of
    system messages and of tool results, which the provider receives all the same,
    are not in it. *)
Theorem bridged_prompt s fresh r call d ms :
  parse_request s fresh r = Ok call ->
  is_chat_path r = true -> thinking_strip_enabled s = false ->
  request_data r = Ok (PDict d) -> dget "messages" d = PList ms -> forallb well_typed ms = true ->
  prompt_text call = PStr (sjoin nl (concat (map governed ms))).
Proof.
  intros Hrun Hpath Hstrip Hdata Hms Hw. unfold parse_request in Hrun. unbind Hrun. destruct a as [data bytes].
  destruct (offer_web_search s data bytes) as [data1 bytes1] eqn:Hoffer. unbind Hrun. injection Hrun as <-. cbn [prompt_text].
  assert (dget "messages" data1 = dget "messages" data) as Hsame.
  { unfold offer_web_search in Hoffer. destruct (_ && _); injection Hoffer as <- _; [by apply dget_set_ne|done]. }
  unfold anthropic_data in Hrun0. rewrite Hdata, Hpath in Hrun0. cbn [res_bind] in Hrun0. unbind Hrun0. injection Hrun0 as -> _.
  destruct (translated_messages d data ms Hrun Hms Hw) as (turns & bss & Hmsgs & Hok & Hbss & Hflat).
  rewrite Hsame, Hmsgs in Hrun1.
  assert (a = map turn_val turns) as -> by (destruct turns; by injection Hrun1 as <-).
  rewrite (turns_parts turns Hok), Hflat, (governed_all ms bss Hw Hbss), join_strs in Hrun2. injection Hrun2 as <-.
  rewrite Hstrip in Hrun3. by injection Hrun3 as <-.
Qed.
End messages.

(** ** Runs *)

Module AnthropicRuns.

(** A codec that knows one text *)
Definition codec (text : string) (v : pyval) : JsonText :=
  {| to_text := fun _ => "{}";
     of_text := fun s => if bool_decide (s = text) then Ok v else Raise (ValueError "json") |}.
Definition no_repr : FloatRepr := fun _ => "".

Definition chat : dict :=
  [("model", PStr "claude"); ("max_tokens", PInt 1000); ("reasoning_effort", PStr "low"); ("temperature", PInt 0);
   ("messages",
     PList [PDict [("role", PStr "system"); ("content", PStr "be brief")];
            PDict [("role", PStr "user"); ("content", PStr "what is the balance?")];
            PDict [("role", PStr "assistant"); ("content", PNone);
                   ("tool_calls", PList [PDict [("id", PStr "c1");
                                                ("function", PDict [("name", PStr "balance");
                                                                    ("arguments", PStr "")])]])];
            PDict [("role", PStr "tool"); ("tool_call_id", PStr "c1"); ("content", PStr "card 4111")]])].

Definition msgs : list pyval := match dget "messages" chat with PList l => l | _ => [] end.

Lemma thinking_budget_fits_witness :
  exists out th, @translate_oai_chat_to_anthropic (codec "B" (PDict chat)) no_repr (PDict chat) = Ok out
  /\ dget "thinking" out = PDict th
  /\ exists mt, dget "max_tokens" out = PInt mt /\ 2000 < mt /\ dget "temperature" out = PFloat (sf_of_Z 1) "1.0".
Proof.
  eexists _, _. split; [vm_compute; reflexivity|]. split; [vm_compute; reflexivity|].
  eapply (@thinking_budget_fits (codec "B" (PDict chat)) no_repr (PDict chat));
    [vm_compute; reflexivity|vm_compute; reflexivity|reflexivity].
Defined.

Lemma bridge_keeps_blocks_witness :
  exists turns systems,
    @_oai_messages_to_anthropic_messages (codec "B" PNone) (PList msgs) = Ok (turns, systems)
    /\ length turns = 3%nat
    /\ exists bss, map_res (@blocks_of (codec "B" PNone)) msgs = Ok bss /\ flat turns = concat bss /\ Forall turn_ok turns.
Proof.
  eexists _, _. split; [vm_compute; reflexivity|]. split; [reflexivity|].
  eapply (@bridge_keeps_blocks (codec "B" PNone) msgs); vm_compute; reflexivity.
Defined.

Definition post : request := MkRequest "POST" "/v1/chat/completions" "" [] "B" None.

(** The card number in the tool's answer is not in the prompt. *)
Lemma bridged_prompt_witness :
  exists call,
    @parse_request (codec "B" (PDict chat)) no_repr (MkSettings false [] false 5) "u" post = Ok call
    /\ prompt_text call = PStr (sjoin nl (concat (map governed msgs)))
    /\ concat (map governed msgs) = ["what is the balance?"].
Proof.
  eexists. split; [vm_compute; reflexivity|]. split; [|reflexivity].
  eapply (@bridged_prompt (codec "B" (PDict chat)) no_repr (MkSettings false [] false 5) "u" post _ chat msgs);
    vm_compute; reflexivity.
Defined.
End AnthropicRuns.
