(* ===== verification/AnthropicStream.v ===== *)
(** * Anthropic event streams (adapters/anthropic.py)

    The same bytes are read twice: for the audit record ([parse_streamed_response]) and,
    when the client speaks the OpenAI format, by the translator that turns every event
    into the client's format as it arrives ([_AnthropicToOpenAISSE]). *)
From S2P Require Import Prelude ODict PyVal PyStr PyObj AdapterBase OpenAI Anthropic.

Local Open Scope Z_scope.

(** ** For the record *)

Record tool_block := MkBlock {
  b_id : pyval;
  b_name : pyval;
  input_json : string;
  server : bool;
  result_sources : pyval;
  result_output : pyval;
}.

Record stream := MkStream {
  content_parts : list pyval;
  thinking_parts : list pyval;
  tool_block_map : list (pyval * tool_block);
  st_request_id : pyval;
  st_stop_reason : pyval;
  st_usage : pyval;
}.

Definition stream_start : stream := MkStream [] [] [] PNone PNone PNone.

Definition with_blocks (m : list (pyval * tool_block)) (st : stream) : stream :=
  MkStream (content_parts st) (thinking_parts st) m (st_request_id st) (st_stop_reason st) (st_usage st).

(** A search result goes to the first block with its identifier. *)
Fixpoint attach (id : pyval) (srcs : list pyval) (m : list (pyval * tool_block)) : list (pyval * tool_block) :=
  match m with
  | [] => []
  | (k, b) :: m =>
      if py_eqb (b_id b) id
      then (k, MkBlock (b_id b) (b_name b) (input_json b) (server b) (PList srcs)
                 (PDict [("result_count", PInt (zlen srcs))])) :: m
      else (k, b) :: attach id srcs m
  end.

Definition on_message_start (obj : pyval) (st : stream) : res stream :=
  let! msg := get_dict "message" obj in
  let! id := get "id" msg in
  let! u := get "usage" msg in
  Ok (MkStream (content_parts st) (thinking_parts st) (tool_block_map st) id (st_stop_reason st)
        (if truthy u then u else st_usage st)).

Definition on_block_start (obj : pyval) (st : stream) : res stream :=
  let! block := get_dict "content_block" obj in
  let! ty := get "type" block in
  if in_strs ty ["tool_use"; "server_tool_use"] then
    let! idx := get_or "index" (PInt 0) obj in
    let! _ := hashable idx in
    let! id := get_or "id" (PStr "") block in
    let! name := get_or "name" (PStr "") block in
    Ok (with_blocks (vset idx (MkBlock id name "" (eq_str ty "server_tool_use") PNone PNone) (tool_block_map st)) st)
  else if eq_str ty "web_search_tool_result" then
    let! id := get_or "tool_use_id" (PStr "") block in
    let! content := get_list "content" block in
    Ok (with_blocks (attach id (search_sources content) (tool_block_map st)) st)
  else Ok st.

Definition on_delta (obj : pyval) (st : stream) : res stream :=
  let! idx := get_or "index" (PInt 0) obj in
  let! delta := get_dict "delta" obj in
  let! ty := get "type" delta in
  if eq_str ty "text_delta" then
    let! t := get_or "text" (PStr "") delta in
    Ok (MkStream (content_parts st ++ [t]) (thinking_parts st) (tool_block_map st) (st_request_id st)
          (st_stop_reason st) (st_usage st))
  else if eq_str ty "thinking_delta" then
    let! t := get_or "thinking" (PStr "") delta in
    Ok (MkStream (content_parts st) (thinking_parts st ++ [t]) (tool_block_map st) (st_request_id st)
          (st_stop_reason st) (st_usage st))
  else if eq_str ty "input_json_delta" then
    let! _ := hashable idx in
    match vget idx (tool_block_map st) with
    | Some b =>
        let! p := get_or "partial_json" (PStr "") delta in
        let! p := as_str p in
        Ok (with_blocks (vset idx (MkBlock (b_id b) (b_name b) (input_json b +:+ p) (server b) (result_sources b)
                                     (result_output b)) (tool_block_map st)) st)
    | None => Ok st
    end
  else Ok st.

Definition on_message_delta (obj : pyval) (st : stream) : res stream :=
  let! delta := get_dict "delta" obj in
  let! stop := get "stop_reason" delta in
  let! u := get "usage" obj in
  let! u := if truthy u then
              match por (st_usage st) (PDict []), u with
              | PDict prev, PDict new => Ok (PDict (merge prev new))
              | _, _ => type_error
              end
            else Ok (st_usage st) in
  Ok (MkStream (content_parts st) (thinking_parts st) (tool_block_map st) (st_request_id st) stop u).

Definition _handle_stream_event (st : stream) (obj : pyval) : res stream :=
  let! ty := get_or "type" (PStr "") obj in
  if eq_str ty "message_start" then on_message_start obj st
  else if eq_str ty "content_block_start" then on_block_start obj st
  else if eq_str ty "content_block_delta" then on_delta obj st
  else if eq_str ty "message_delta" then on_message_delta obj st
  else Ok st.

Section stream.
Context `{JsonText}.

(** All chunks are joined before they are split into lines. *)
Definition _iter_sse_objects (chunks : list string) : list pyval :=
  omap (fun p => match of_text p with Ok v => Some v | Raise _ => None end)
    (omap payload_of (splitlines (String.concat "" chunks))).

Definition from_block (b : tool_block) : ToolInteraction :=
  MkInteraction (b_id b) (PStr (if server b then "server_tool" else "function")) (b_name b)
    (if bool_decide (input_json b = "") then PDict [] else loads_or_raw (PStr (input_json b)))
    (result_output b) (result_sources b) (if server b then native else PNone).

Definition _build_tool_interactions_from_map (m : list (pyval * tool_block)) : res (list ToolInteraction) :=
  let! l := vsorted m in Ok (map (fun kb => from_block (snd kb)) l).

Definition parse_streamed_response (chunks : list string) : res ModelResponse :=
  let! st := fold_res _handle_stream_event (_iter_sse_objects chunks) stream_start in
  let! tools := _build_tool_interactions_from_map (tool_block_map st) in
  let! content := join "" (content_parts st) in
  let! thinking := join "" (thinking_parts st) in
  Ok (MkResponse (PStr content) (st_usage st) (String.concat "" chunks) (st_request_id st) tools
        (eq_str (st_stop_reason st) "tool_use" && negb (bool_decide (length tools = 0%nat)))
        (match thinking_parts st with [] => PNone | _ => PStr thinking end)).

(** ** For the client *)

Inductive sse_state := INIT | STREAMING | DONE.

Record translator := MkTranslator {
  _buf : string;
  _created : Z;
  _model : pyval;
  _chatcmpl_id : pyval;
  _state : sse_state;
  _has_tool_calls : bool;
  _tool_index_map : list (pyval * Z);
  _next_tool_index : Z;
  _server_tool_indices : list pyval;
}.

(** [fresh] is the new identifier, [now] the time in seconds. *)
Definition translator_init (fresh : string) (now : Z) (model_id : pyval) : translator :=
  MkTranslator "" now model_id (PStr ("chatcmpl-" +:+ fresh)) INIT false [] 0 [].

Definition with_buf (b : string) (t : translator) : translator :=
  MkTranslator b (_created t) (_model t) (_chatcmpl_id t) (_state t) (_has_tool_calls t) (_tool_index_map t)
    (_next_tool_index t) (_server_tool_indices t).

Definition with_state (s : sse_state) (t : translator) : translator :=
  MkTranslator (_buf t) (_created t) (_model t) (_chatcmpl_id t) s (_has_tool_calls t) (_tool_index_map t)
    (_next_tool_index t) (_server_tool_indices t).

(** What an event makes the client see: nothing, a chunk, or other bytes *)
Inductive emission :=
  | Nothing
  | Chunk (delta : dict) (finish_reason : pyval)
  | Bytes (s : string).

Definition done_event : string := "data: [DONE]" +:+ event_end.

Definition _make_chunk (t : translator) (delta : dict) (finish_reason : pyval) : string :=
  "data: " +:+
  to_text (PDict [("id", _chatcmpl_id t); ("object", PStr "chat.completion.chunk"); ("created", PInt (_created t));
                  ("model", _model t);
                  ("choices", PList [PDict [("index", PInt 0); ("delta", PDict delta);
                                            ("finish_reason", finish_reason)]])])
  +:+ event_end.

Definition render (t : translator) (e : emission) : string :=
  match e with Nothing => "" | Chunk d f => _make_chunk t d f | Bytes s => s end.

Definition started (obj : pyval) (t : translator) : res (translator * emission) :=
  let! msg := get_dict "message" obj in
  let! id := get "id" msg in
  let! model := get "model" msg in
  Ok (MkTranslator (_buf t) (_created t) (por model (_model t)) (por id (_chatcmpl_id t)) STREAMING (_has_tool_calls t)
        (_tool_index_map t) (_next_tool_index t) (_server_tool_indices t),
      Chunk [("role", PStr "assistant"); ("content", PStr "")] PNone).

Definition block_started (obj : pyval) (t : translator) : res (translator * emission) :=
  let! block := get_dict "content_block" obj in
  let! ty := get "type" block in
  if eq_str ty "tool_use" then
    let! idx := get_or "index" (PInt 0) obj in
    let! _ := hashable idx in
    let! id := get_or "id" (PStr "") block in
    let! name := get_or "name" (PStr "") block in
    let n := _next_tool_index t in
    Ok (MkTranslator (_buf t) (_created t) (_model t) (_chatcmpl_id t) (_state t) true
          (vset idx n (_tool_index_map t)) (n + 1) (_server_tool_indices t),
        Chunk [("tool_calls", PList [PDict [("index", PInt n); ("id", id); ("type", PStr "function");
                                            ("function", PDict [("name", name); ("arguments", PStr "")])]])] PNone)
  else if eq_str ty "server_tool_use" then
    let! idx := get_or "index" (PInt 0) obj in
    let! _ := hashable idx in
    Ok (MkTranslator (_buf t) (_created t) (_model t) (_chatcmpl_id t) (_state t) (_has_tool_calls t)
          (_tool_index_map t) (_next_tool_index t)
          (if existsb (py_eqb idx) (_server_tool_indices t) then _server_tool_indices t else idx :: _server_tool_indices t),
        Nothing)
  else Ok (t, Nothing).

Definition delta_arrived (obj : pyval) (t : translator) : res (translator * emission) :=
  let! delta := get_dict "delta" obj in
  let! ty := get "type" delta in
  if eq_str ty "text_delta" then
    let! text := get_or "text" (PStr "") delta in
    Ok (t, if truthy text then Chunk [("content", text)] PNone else Nothing)
  else if eq_str ty "input_json_delta" then
    let! idx := get_or "index" (PInt 0) obj in
    let! _ := hashable idx in
    if existsb (py_eqb idx) (_server_tool_indices t) then Ok (t, Nothing)
    else match vget idx (_tool_index_map t) with
         | None => Ok (t, Nothing)
         | Some n =>
             let! partial := get_or "partial_json" (PStr "") delta in
             Ok (t, if truthy partial
                    then Chunk [("tool_calls", PList [PDict [("index", PInt n);
                                                             ("function", PDict [("arguments", partial)])]])] PNone
                    else Nothing)
         end
  else Ok (t, Nothing).

Definition message_changed (obj : pyval) (t : translator) : res (translator * emission) :=
  let! delta := get_dict "delta" obj in
  let! stop := get "stop_reason" delta in
  let! finish := if eq_str stop "tool_use" then Ok (if _has_tool_calls t then "tool_calls" else "stop")
                 else finish_of stop in
  Ok (t, Chunk [] (PStr finish)).

(** The message is put between quotes as it is. *)
Definition error_event (msg : string) : string :=
  "event: error" +:+ nl +:+ "data: {" +:+ quote2 +:+ "error" +:+ quote2 +:+ ": {" +:+ quote2 +:+ "message" +:+ quote2
  +:+ ": " +:+ quote2 +:+ msg +:+ quote2 +:+ ", " +:+ quote2 +:+ "type" +:+ quote2 +:+ ": " +:+ quote2
  +:+ "server_error" +:+ quote2 +:+ "}}" +:+ event_end.

Definition failed (obj : pyval) (t : translator) : res (translator * emission) :=
  let! err := get_dict "error" obj in
  let! m := get "message" err in
  match por m (PStr "upstream error") with
  | PStr m => Ok (t, Bytes (error_event (smap (fun c => if Ascii.eqb c lf then " "%char else c) m)))
  | _ => attribute_error
  end.

Definition translate_event (t : translator) (obj : pyval) : res (translator * emission) :=
  let! ty := get_or "type" (PStr "") obj in
  if eq_str ty "message_start" then started obj t
  else if eq_str ty "content_block_start" then block_started obj t
  else if eq_str ty "content_block_delta" then delta_arrived obj t
  else if eq_str ty "message_delta" then message_changed obj t
  else if eq_str ty "message_stop" then Ok (with_state DONE t, Bytes done_event)
  else if eq_str ty "error" then failed obj t
  else Ok (t, Nothing).

(** [bytes.strip()] *)
Definition bytes_space (c : ascii) : bool := ((9 <=? code c) && (code c <=? 13)) || (code c =? 32).
Fixpoint bytes_lstrip (s : string) : string :=
  match s with String c s' => if bytes_space c then bytes_lstrip s' else s | EmptyString => "" end.
Definition bytes_strip (s : string) : string := srev (bytes_lstrip (srev (bytes_lstrip s))).

(** The payload of the first data line that has one *)
Fixpoint first_data (lines : list string) : option string :=
  match lines with
  | [] => None
  | l :: lines =>
      if startswith "data: " l then
        let payload := bytes_strip (sdrop 6 l) in
        if bool_decide (payload = "") || bool_decide (payload = "[DONE]") then first_data lines else Some payload
      else first_data lines
  end.

Definition _translate_block (t : translator) (block : string) : res (translator * string) :=
  match first_data (bytes_lines block) with
  | None => Ok (t, "")
  | Some payload =>
      match of_text payload with
      | Raise _ => Ok (t, "")
      | Ok obj =>
          if truthy obj then let! '(t, e) := translate_event t obj in Ok (t, render t e) else Ok (t, "")
      end
  end.

(** [buf.split(b"\n\n", 1)] when it holds an end of event *)
Fixpoint cut (s : string) : option (string * string) :=
  match s with
  | EmptyString => None
  | String c s' =>
      match s' with
      | String d s'' =>
          if Ascii.eqb c lf && Ascii.eqb d lf then Some ("", s'')
          else match cut s' with Some (x, y) => Some (String c x, y) | None => None end
      | EmptyString => None
      end
  end.

(** The loop of [feed] on the buffer; a step consumes two bytes at least. *)
Fixpoint feed_loop (fuel : nat) (t : translator) (buf : string) : res (translator * string) :=
  match cut buf, fuel with
  | Some (block, rest), S n =>
      let! '(t, out) := _translate_block t block in
      let! '(t, outs) := feed_loop n t rest in
      Ok (t, out +:+ outs)
  | _, _ => Ok (with_buf buf t, "")
  end.

Definition feed (t : translator) (chunk : string) : res (translator * string) :=
  let buf := _buf t +:+ chunk in feed_loop (String.length buf) t buf.

Definition flush (t : translator) : translator * string :=
  match _state t with DONE => (t, "") | _ => (with_state DONE t, done_event) end.

(** [translate_stream_for_client]: the bytes the client gets *)
Fixpoint feed_all (t : translator) (chunks : list string) : res (translator * string) :=
  match chunks with
  | [] => Ok (t, "")
  | c :: chunks => let! '(t, o) := feed t c in let! '(t, os) := feed_all t chunks in Ok (t, o +:+ os)
  end.

Definition translate_stream_for_client (fresh : string) (now : Z) (chunks : list string) (c : ModelCall) : res string :=
  let! '(t, out) := feed_all (translator_init fresh now (model_id c)) chunks in
  Ok (out +:+ snd (flush t)).
End stream.

(** ** Chunks *)

Section chunks.
Context `{JsonText}.

Lemma cut_step c d s :
  cut (String c (String d s)) =
  if Ascii.eqb c lf && Ascii.eqb d lf then Some ("", s)
  else match cut (String d s) with Some (x, y) => Some (String c x, y) | None => None end.
Proof. done. Qed.

Lemma cut_app x y p q : cut x = Some (p, q) -> cut (x +:+ y) = Some (p, q +:+ y).
Proof.
  revert p. induction x as [|c x IH]; intros p Hc; [done|]. destruct x as [|d x]; [done|].
  rewrite !app_cons, cut_step. rewrite cut_step in Hc. destruct (_ && _); [by injection Hc as <- <-|].
  destruct (cut (String d x)) as [[x' y']|]; [|done]. injection Hc as <- <-.
  rewrite app_cons in IH. by rewrite (IH x').
Qed.

Lemma cut_length s p q : cut s = Some (p, q) -> (String.length q < String.length s)%nat.
Proof.
  revert p. induction s as [|c s IH]; intros p Hc; [done|]. destruct s as [|d s]; [done|].
  rewrite cut_step in Hc. destruct (_ && _); [injection Hc as _ <-; simpl; lia|].
  destruct (cut (String d s)) as [[x' y']|]; [|done]. injection Hc as _ <-.
  specialize (IH _ eq_refl). simpl in *. lia.
Qed.

Lemma loop_step n t s :
  feed_loop (S n) t s =
  match cut s with
  | Some (block, rest) => let! '(t, out) := _translate_block t block in
                          let! '(t, outs) := feed_loop n t rest in Ok (t, out +:+ outs)
  | None => Ok (with_buf s t, "")
  end.
Proof. simpl. by destruct (cut s) as [[]|]. Qed.

Lemma loop_none n t s : cut s = None -> feed_loop n t s = Ok (with_buf s t, "").
Proof. intros Hc. by destruct n; simpl; rewrite Hc. Qed.

Lemma loop_fuel n : forall m t s, (String.length s <= n)%nat -> (String.length s <= m)%nat -> feed_loop n t s = feed_loop m t s.
Proof.
  induction n as [|n IH]; intros m t s Hn Hm; destruct (cut s) as [[p q]|] eqn:Hc; try by rewrite !loop_none.
  - apply cut_length in Hc. lia.
  - apply cut_length in Hc as Hl. destruct m as [|m]; [lia|]. rewrite !loop_step, Hc.
    destruct (_translate_block t p) as [[t1 o1]|]; [|done]. simpl. by rewrite (IH m) by lia.
Qed.

(** The rest of the buffer holds no complete event and is no longer than the input. *)
Lemma loop_rest n : forall t s t' o,
  (String.length s <= n)%nat -> feed_loop n t s = Ok (t', o) ->
  cut (_buf t') = None /\ (String.length (_buf t') <= String.length s)%nat.
Proof.
  induction n as [|n IH]; intros t s t' o Hn Hr; destruct (cut s) as [[p q]|] eqn:Hc;
    try (rewrite loop_none in Hr by done; injection Hr as <- <-; simpl; split; [done|lia]).
  - apply cut_length in Hc. lia.
  - apply cut_length in Hc as Hl. rewrite loop_step, Hc in Hr. unbind Hr. destruct a as [t1 o1]. unbind Hr.
    destruct a as [t2 o2]. injection Hr as <- <-. apply IH in Hrun0 as [? ?]; [|lia]. split; [done|lia].
Qed.

(** Events do not look at the buffer. *)
Definition on_state {A} (f : translator -> translator) (m : res (translator * A)) : res (translator * A) :=
  let! '(t, a) := m in Ok (f t, a).

Lemma event_buf b t obj : translate_event (with_buf b t) obj = on_state (with_buf b) (translate_event t obj).
Proof.
  unfold translate_event, started, block_started, delta_arrived, message_changed, failed, on_state.
  repeat (simpl; match goal with
                 | |- res_bind ?m _ = _ => destruct m; [|done]
                 | |- (if ?c then _ else _) = _ => destruct c
                 | |- context [match ?v with PStr _ => _ | _ => _ end] => destruct v
                 | |- context [match vget ?k ?m with Some _ => _ | None => _ end] => destruct (vget k m)
                 end); try done.
Qed.

Lemma block_buf b t block : _translate_block (with_buf b t) block = on_state (with_buf b) (_translate_block t block).
Proof.
  unfold _translate_block. destruct (first_data _); [|done]. destruct (of_text _); [|done].
  destruct (truthy _); [|done]. rewrite event_buf. by destruct (translate_event t a) as [[]|].
Qed.

Lemma loop_buf n : forall b t s, feed_loop n (with_buf b t) s = feed_loop n t s.
Proof.
  induction n as [|n IH]; intros b t s; destruct (cut s) as [[p q]|] eqn:Hc; try by rewrite !loop_none.
  - simpl. by rewrite Hc.
  - rewrite !loop_step, Hc, block_buf. destruct (_translate_block t p) as [[t1 o1]|]; [|done]. simpl. by rewrite IH.
Qed.

Lemma loop_app n : forall t x y, (String.length x + String.length y <= n)%nat ->
  feed_loop n t (x +:+ y)
  = let! '(t1, o1) := feed_loop n t x in
    let! '(t2, o2) := feed_loop n t1 (_buf t1 +:+ y) in Ok (t2, o1 +:+ o2).
Proof.
  assert (forall n t x y, cut x = None ->
            feed_loop n t (x +:+ y) = let! '(t1, o1) := feed_loop n t x in
                                      let! '(t2, o2) := feed_loop n t1 (_buf t1 +:+ y) in Ok (t2, o1 +:+ o2)) as Hnone.
  { intros m t x y Hc. rewrite (loop_none m t x Hc). simpl. rewrite loop_buf. by destruct (feed_loop m t (x +:+ y)) as [[]|]. }
  induction n as [|n IH]; intros t x y Hn; destruct (cut x) as [[p q]|] eqn:Hc; try by apply Hnone.
  - apply cut_length in Hc. lia.
  - apply cut_length in Hc as Hl. rewrite !loop_step, (cut_app _ _ _ _ Hc), Hc.
    destruct (_translate_block t p) as [[t1 o1]|]; [|done]. cbn [res_bind]. rewrite IH by lia.
    destruct (feed_loop n t1 q) as [[t2 o2]|] eqn:Hq; [|done]. cbn [res_bind].
    apply loop_rest in Hq as [_ Hq]; [|lia].
    rewrite (loop_fuel (S n) n) by (rewrite str_length_app; lia).
    destruct (feed_loop n t2 (_buf t2 +:+ y)) as [[t3 o3]|]; [|done]. simpl. by rewrite app_assoc_s.
Qed.

Lemma feed_app t a b :
  feed t (a +:+ b) = let! '(t1, o1) := feed t a in let! '(t2, o2) := feed t1 b in Ok (t2, o1 +:+ o2).
Proof.
  unfold feed. rewrite <- app_assoc_s.
  rewrite loop_app by (rewrite !str_length_app; lia).
  rewrite (loop_fuel _ (String.length (_buf t +:+ a)) t (_buf t +:+ a)) by (rewrite !str_length_app; lia).
  destruct (feed_loop (String.length (_buf t +:+ a)) t (_buf t +:+ a)) as [[t1 o1]|] eqn:Hf; [|done]. cbn [res_bind].
  apply loop_rest in Hf as [_ Hl]; [|done].
  by rewrite (loop_fuel _ (String.length (_buf t1 +:+ b))) by (rewrite !str_length_app in *; lia).
Qed.

Lemma feed_all_one chunks : forall t, cut (_buf t) = None -> feed_all t chunks = feed t (String.concat "" chunks).
Proof.
  induction chunks as [|c chunks IH]; intros t Ht.
  - unfold feed. simpl (String.concat _ _). rewrite app_nil, loop_none by done. by destruct t.
  - rewrite concat_cons, feed_app. cbn [feed_all].
    destruct (feed t c) as [[t1 o1]|] eqn:Hf; [|done]. cbn [res_bind]. rewrite IH; [done|].
    unfold feed in Hf. by apply loop_rest in Hf as [? _].
Qed.

(** What an OpenAI client receives of an Anthropic stream does not depend on how the
    network cuts it: for the same bytes in other chunks the translator yields the same
    bytes, or fails alike; and the response that is recorded of them is the same. *)
Theorem chunking_is_irrelevant fresh now call chunks chunks' :
  String.concat "" chunks = String.concat "" chunks' ->
  translate_stream_for_client fresh now chunks call = translate_stream_for_client fresh now chunks' call
  /\ parse_streamed_response chunks = parse_streamed_response chunks'.
Proof.
  intros Heq. unfold translate_stream_for_client, parse_streamed_response, _iter_sse_objects.
  by rewrite !feed_all_one, Heq.
Qed.
End chunks.

(** ** The two readings agree *)

(** The translator on a list of events, with what each emits *)
Fixpoint translate_events (t : translator) (objs : list pyval) : res (translator * list emission) :=
  match objs with
  | [] => Ok (t, [])
  | o :: objs => let! '(t, e) := translate_event t o in
                 let! '(t, es) := translate_events t objs in Ok (t, e :: es)
  end.

(** The texts the client is sent *)
Definition sent_text (e : emission) : list pyval :=
  match e with
  | Chunk d _ => match od_get "content" d with Some v => [v] | None => [] end
  | _ => []
  end.

(** A value [v] adds to a text what [w] does. *)
Lemma join_app a b : join "" (a ++ b) = let! x := join "" a in let! y := join "" b in Ok (x +:+ y).
Proof.
  induction a as [|v a IH]; cbn [app].
  - by destruct (join "" b).
  - assert (forall v l, join "" (v :: l) = let! s := as_str v in let! x := join "" l in Ok (s +:+ x)) as Hcons.
    { clear. intros v l. unfold join. cbn [map_res]. destruct (as_str v) as [s|]; [|done]. cbn [res_bind].
      destruct (map_res as_str l) as [k|]; [|done]. cbn [res_bind]. f_equal. apply concat_cons. }
    rewrite !Hcons, IH. destruct (as_str v) as [s|]; [|done]. cbn [res_bind].
    destruct (join "" a) as [x|]; [|done]. cbn [res_bind]. destruct (join "" b) as [y|]; [|done]. cbn [res_bind].
    by rewrite app_assoc_s.
Qed.

(** The branches of a run that succeeded *)
Ltac branches H :=
  repeat (unbind H;
          match type of H with
          | (if ?b then _ else _) = _ => destruct b
          | match ?v with PStr _ => _ | _ => _ end = _ => destruct v; try discriminate H
          | match ?o with Some _ => _ | None => _ end = _ => destruct o
          end);
  unbind H.

Lemma start_keeps_text obj st st' : on_message_start obj st = Ok st' -> content_parts st' = content_parts st.
Proof. unfold on_message_start. intros H. unbind H. by injection H as <-. Qed.

Lemma block_keeps_text obj st st' : on_block_start obj st = Ok st' -> content_parts st' = content_parts st.
Proof. unfold on_block_start. intros H. branches H; by injection H as <-. Qed.

Lemma change_keeps_text obj st st' : on_message_delta obj st = Ok st' -> content_parts st' = content_parts st.
Proof. unfold on_message_delta. intros H. unbind H. by injection H as <-. Qed.

Lemma block_sends_no_text obj t t' e : block_started obj t = Ok (t', e) -> sent_text e = [].
Proof. unfold block_started. intros H. branches H; by injection H as _ <-. Qed.

Lemma change_sends_no_text obj t t' e : message_changed obj t = Ok (t', e) -> sent_text e = [].
Proof. unfold message_changed. intros H. branches H; by injection H as _ <-. Qed.

Lemma failure_sends_no_text obj t t' e : failed obj t = Ok (t', e) -> sent_text e = [].
Proof. unfold failed. intros H. unbind H. destruct (por _ _); try done. by injection H as _ <-. Qed.

(** A delta adds the same text to both, if what it adds to the record is a text. *)
Lemma delta_agrees obj t t' e st st' s :
  delta_arrived obj t = Ok (t', e) -> on_delta obj st = Ok st' -> join "" (content_parts st') = Ok s ->
  exists new x, content_parts st' = content_parts st ++ new /\ join "" new = Ok x /\ join "" (sent_text e) = Ok x.
Proof.
  unfold delta_arrived, on_delta. intros Ht Hs Hj. unbind Ht. unbind Hs. simplify_eq.
  destruct (eq_str _ "text_delta").
  - unbind Ht. unbind Hs. simplify_eq. cbn [content_parts] in Hj. rewrite join_app in Hj. unbind Hj.
    eexists [_], _. split; [done|]. split; [done|].
    apply join_ok in Hrun4 as (k & Hk & ->). destruct k as [|x [|]]; try done. injection Hk as ->.
    destruct x; simpl; done.
  - assert (sent_text e = []) as ->.
    { branches Ht; injection Ht as _ <-; try done; by destruct (truthy _). }
    exists [], "". rewrite app_nil_r. split; [|done].
    branches Hs; by injection Hs as <-.
Qed.

(** One event: what it adds to the record, it adds to what the client is sent. *)
Lemma event_agrees t obj t' e st st' s :
  translate_event t obj = Ok (t', e) -> _handle_stream_event st obj = Ok st' ->
  join "" (content_parts st') = Ok s ->
  exists new x, content_parts st' = content_parts st ++ new /\ join "" new = Ok x /\ join "" (sent_text e) = Ok x.
Proof.
  unfold translate_event, _handle_stream_event. intros Ht Hs Hj. unbind Ht. unbind Hs. simplify_eq.
  assert (sent_text e = [] -> content_parts st' = content_parts st ->
          exists new x, content_parts st' = content_parts st ++ new /\ join "" new = Ok x /\ join "" (sent_text e) = Ok x)
    as Hsame by (intros -> Hc; exists [], ""; by rewrite app_nil_r).
  destruct (eq_str _ "message_start").
  { apply start_keeps_text in Hs. unfold started in Ht. unbind Ht. injection Ht as <- <-.
    exists [], "". by rewrite app_nil_r. }
  destruct (eq_str _ "content_block_start").
  { apply block_keeps_text in Hs. apply block_sends_no_text in Ht. auto. }
  destruct (eq_str _ "content_block_delta"); [by eapply delta_agrees|].
  destruct (eq_str _ "message_delta").
  { apply change_keeps_text in Hs. apply change_sends_no_text in Ht. auto. }
  injection Hs as <-. apply Hsame; [|done].
  destruct (eq_str _ "message_stop"); [by injection Ht as _ <-|].
  destruct (eq_str _ "error"); [by eapply failure_sends_no_text|by injection Ht as _ <-].
Qed.

Lemma events_agree objs : forall t t' es st st' s,
  translate_events t objs = Ok (t', es) -> fold_res _handle_stream_event objs st = Ok st' ->
  join "" (content_parts st') = Ok s ->
  exists new x, content_parts st' = content_parts st ++ new /\ join "" new = Ok x
                /\ join "" (concat (map sent_text es)) = Ok x.
Proof.
  induction objs as [|o objs IH]; intros t t' es st st' s Ht Hs Hj.
  - injection Ht as <- <-. injection Hs as <-. exists [], "". by rewrite app_nil_r.
  - cbn [translate_events] in Ht. unbind Ht. destruct a as [t1 e]. unbind Ht. destruct a as [t2 es']. injection Ht as <- <-.
    cbn [fold_res] in Hs. unbind Hs. rename a into st1.
    destruct (IH _ _ _ _ _ _ Hrun0 Hs Hj) as (new & x & Hc & Hn & He).
    assert (exists s1, join "" (content_parts st1) = Ok s1) as [s1 Hs1].
    { rewrite Hc, join_app in Hj. unbind Hj. by eexists. }
    destruct (event_agrees _ _ _ _ _ _ _ Hrun Hrun1 Hs1) as (new1 & x1 & Hc1 & Hn1 & He1).
    exists (new1 ++ new), (x1 +:+ x). split; [by rewrite Hc, Hc1, app_assoc|].
    split; [by rewrite join_app, Hn1, Hn|]. cbn [map concat]. by rewrite join_app, He1, He.
Qed.

(** The client of a bridged stream is sent exactly the text that is recorded.  Over
    the same events, the concatenation of the texts in the chunks the translator
    emits is the content of the recorded response. *)
Theorem sent_text_is_recorded fresh now model objs t es st s :
  translate_events (translator_init fresh now model) objs = Ok (t, es) ->
  fold_res _handle_stream_event objs stream_start = Ok st ->
  join "" (content_parts st) = Ok s ->
  join "" (concat (map sent_text es)) = Ok s.
Proof.
  intros Ht Hs Hj. destruct (events_agree _ _ _ _ _ _ _ Ht Hs Hj) as (new & x & Hc & Hn & He).
  simpl in Hc. congruence.
Qed.

(** ** Tools the provider runs itself *)

(** The event starts a call of one of the client's tools. *)
Definition starts_client_tool (obj : pyval) : bool :=
  match obj with
  | PDict d =>
      eq_str (dget_or "type" (PStr "") d) "content_block_start"
      && match dget "content_block" d with PDict b => eq_str (dget "type" b) "tool_use" | _ => false end
  | _ => false
  end.

Definition shows_tool (e : emission) : bool :=
  match e with
  | Chunk d f => eq_str f "tool_calls" || match od_get "tool_calls" d with Some _ => true | None => false end
  | _ => false
  end.

(** No client tool has been started. *)
Definition no_tool (t : translator) : Prop := _has_tool_calls t = false /\ _tool_index_map t = [].

Lemma event_hides t obj t' e :
  no_tool t -> starts_client_tool obj = false -> translate_event t obj = Ok (t', e) ->
  no_tool t' /\ shows_tool e = false.
Proof.
  intros [Hh Hm] Hc. destruct obj as [| | | | | |d|]; try done.
  unfold translate_event, get_or. cbn [res_bind]. cbn [starts_client_tool] in Hc.
  destruct (eq_str _ "message_start") eqn:H1.
  { unfold started. intros H. unbind H. by injection H as <- <-. }
  destruct (eq_str _ "content_block_start") eqn:H2.
  { cbn [andb] in Hc. unfold block_started, get_dict, get, get_or. cbn [res_bind].
    change (dget_or "content_block" PNone d) with (dget "content_block" d).
    assert (por (dget "content_block" d) (PDict []) = dget "content_block" d \/
            por (dget "content_block" d) (PDict []) = PDict []) as Hp by (unfold por; destruct (truthy _); auto).
    intros H. unbind H. rename a into ty.
    assert (eq_str ty "tool_use" = false) as Hty.
    { destruct Hp as [Hp|Hp]; rewrite Hp in Hrun; [|by injection Hrun as <-].
      destruct (dget "content_block" d); try done. by injection Hrun as <-. }
    rewrite Hty in H. branches H; by injection H as <- <-. }
  destruct (eq_str _ "content_block_delta") eqn:H3.
  { unfold delta_arrived. rewrite Hm. cbn [vget]. intros H. branches H; injection H as <- <-; try done.
    by destruct (truthy _). }
  destruct (eq_str _ "message_delta") eqn:H4.
  { unfold message_changed. rewrite Hh. intros H. unbind H. injection H as <- <-. split; [done|]. cbn [shows_tool od_get].
    rewrite orb_false_r. apply not_true_iff_false. rewrite eq_str_iff. intros [= ->].
    destruct (eq_str a0 "tool_use") eqn:Hu; [done|]. unfold finish_of in Hrun1. unbind Hrun1. injection Hrun1 as Hf.
    destruct a0 as [| | | |s| | |]; try done. unfold eq_str in Hu. simpl in Hu. apply bool_decide_eq_false in Hu.
    simpl in Hf. repeat (destruct (decide _) in Hf; [simplify_eq/=; done|]). done. }
  destruct (eq_str _ "message_stop"); [by intros [= <- <-]|].
  destruct (eq_str _ "error"); [|by intros [= <- <-]].
  unfold failed. intros H. unbind H. destruct (por _ _); try done. by injection H as <- <-.
Qed.

(** Tools the provider runs itself are hidden from the clients of a bridged stream, and
    shown to the others.  In a stream that starts no tool of the client's, whatever
    tools the provider runs, no chunk carries a tool call or ends for one.  The same
    response without streaming gives the client a tool call for each of the
    provider's, although it asks for none. *)
Theorem server_tools_hidden_in_streams_only `{JsonText} fresh now model objs t es :
  translate_events (translator_init fresh now model) objs = Ok (t, es) ->
  forallb (fun o => negb (starts_client_tool o)) objs = true ->
  existsb shows_tool es = false
  /\ forall id name input, exists m,
       translate_anthropic_response_to_oai fresh now
         (PDict [("content", PList [PDict [("type", PStr "server_tool_use"); ("id", id); ("name", name);
                                           ("input", input)]]); ("stop_reason", PStr "end_turn")]) model
       = Ok m
       /\ (let! cs := get "choices" (PDict m) in let! c := first cs in let! msg := get "message" c in
           get "tool_calls" msg)
          = Ok (PList [client_tool_call [("type", PStr "server_tool_use"); ("id", id); ("name", name); ("input", input)]]).
Proof.
  intros Ht Ho. split; [|intros id name input; eexists; split; reflexivity].
  assert (forall objs t t' es, no_tool t -> translate_events t objs = Ok (t', es) ->
            forallb (fun o => negb (starts_client_tool o)) objs = true -> existsb shows_tool es = false) as Hgen;
    [|by eapply Hgen; [|eassumption|]].
  clear. intros objs. induction objs as [|o objs IH]; intros t t' es Hn Ht Ho; [by injection Ht as _ <-|].
  simpl in Ho. apply andb_true_iff in Ho as [Hc%negb_true_iff Ho].
  cbn [translate_events] in Ht. unbind Ht. destruct a as [t1 e]. unbind Ht. destruct a as [t2 es']. injection Ht as <- <-.
  destruct (event_hides _ _ _ _ Hn Hc Hrun) as [Hn1 He]. simpl. rewrite He. by eapply IH.
Qed.

(** ** Runs *)

Module StreamRuns.

Definition codec (table : list (string * pyval)) : JsonText :=
  {| to_text := fun _ => "{}";
     of_text := fun s => match od_get s table with Some v => Ok v | None => Raise (ValueError "json") end |}.

Definition text_delta (s : string) : pyval :=
  PDict [("type", PStr "content_block_delta"); ("delta", PDict [("type", PStr "text_delta"); ("text", PStr s)])].
Definition search_start : pyval :=
  PDict [("type", PStr "content_block_start"); ("index", PInt 1);
         ("content_block", PDict [("type", PStr "server_tool_use"); ("id", PStr "s1"); ("name", PStr "web_search")])].
Definition start_event : pyval :=
  PDict [("type", PStr "message_start"); ("message", PDict [("id", PStr "msg_1"); ("model", PStr "claude")])].
Definition stop_delta : pyval :=
  PDict [("type", PStr "message_delta"); ("delta", PDict [("stop_reason", PStr "end_turn")])].

Definition events : list pyval := [start_event; text_delta "Hel"; search_start; text_delta "lo"; stop_delta].

Definition call : ModelCall := MkCall "anthropic" (PStr "claude") (PStr "hi") "B" (PBool true) [].

Lemma chunking_is_irrelevant_witness :
  @translate_stream_for_client (codec [("{a}", text_delta "Hello")]) "u" 0 ["data: {a}" +:+ event_end] call
  = @translate_stream_for_client (codec [("{a}", text_delta "Hello")]) "u" 0 ["dat"; "a: {a}" +:+ nl; nl] call
  /\ @parse_streamed_response (codec [("{a}", text_delta "Hello")]) ["data: {a}" +:+ event_end]
  = @parse_streamed_response (codec [("{a}", text_delta "Hello")]) ["dat"; "a: {a}" +:+ nl; nl].
Proof. apply (@chunking_is_irrelevant (codec [("{a}", text_delta "Hello")])). reflexivity. Defined.

Lemma sent_text_is_recorded_witness :
  exists t es, translate_events (translator_init "u" 0 (PStr "claude")) events = Ok (t, es)
  /\ join "" (concat (map sent_text es)) = Ok "Hello".
Proof.
  eexists _, _. split; [vm_compute; reflexivity|].
  eapply (sent_text_is_recorded "u" 0 (PStr "claude") events); vm_compute; reflexivity.
Defined.

Lemma server_tools_hidden_witness :
  exists t es, translate_events (translator_init "u" 0 (PStr "claude")) events = Ok (t, es)
  /\ existsb shows_tool es = false.
Proof.
  eexists _, _. split; [vm_compute; reflexivity|].
  eapply (proj1 (@server_tools_hidden_in_streams_only (codec []) "u" 0 (PStr "claude") events _ _
                   ltac:(vm_compute; reflexivity) ltac:(vm_compute; reflexivity))).
Defined.
End StreamRuns.
