(* ===== verification/Generic.v ===== *)
(** * The generic and the Hugging Face adapters (adapters/generic.py, adapters/huggingface.py)

    The generic adapter finds the model, prompt and answer by configured paths or by
    recognising a known format. *)
From S2P Require Import Prelude ODict PyVal PyStr PyObj AdapterBase OpenAI.

Local Open Scope Z_scope.

(** ** Paths *)

Fixpoint pv_depth (v : pyval) : nat :=
  match v with
  | PList l => S (foldr Nat.max 0%nat (map pv_depth l))
  | PDict d => S (foldr Nat.max 0%nat (map (fun kv => pv_depth (snd kv)) d))
  | _ => O
  end.

(** [if path.startswith("$."): path = path[2:]] on the parts of a path *)
Definition without_root (parts : list string) : list string :=
  match parts with
  | "$" :: p :: ps => p :: ps
  | _ => parts
  end.

(** The loop over the parts; [sub] resolves the rest of the path in the items of a list. *)
Fixpoint walk (sub : pyval -> list string -> pyval) (current : pyval) (parts : list string) : pyval :=
  match parts with
  | [] => current
  | p :: rest =>
      if bool_decide (p = "") then walk sub current rest
      else match current with
           | PList l =>
               if bool_decide (p = "*") then
                 if bool_decide (sjoin "." rest = "") then PStr (sjoin " " (map py_str l))
                 else PStr (sjoin " " (map (fun x => py_str (sub x rest)) l))
               else PStr (sjoin " " (map (fun x => py_str (sub x (p :: rest))) l))
           | PDict d => walk sub (dget p d) rest
           | _ => walk sub PNone rest
           end
  end.

Fixpoint path_in (fuel : nat) (obj : pyval) (parts : list string) : pyval :=
  match fuel with
  | O => walk (fun _ _ => PNone) obj (without_root parts)
  | S n => walk (path_in n) obj (without_root parts)
  end.

(** Every call goes one list deeper into the value. *)
Definition _json_path (obj : pyval) (path : string) : pyval :=
  path_in (pv_depth obj) obj (split_on "."%char path).

(** *** The depth of the value is enough fuel. *)

Lemma max_elem f (l : list nat) x : x ∈ l -> (x <= foldr Nat.max f l)%nat.
Proof. induction l as [|y l IH]; [by intros ?%not_elem_of_nil|]. intros [->|Hx]%elem_of_cons; simpl; [lia|]. apply IH in Hx. lia. Qed.

Lemma depth_item l x : x ∈ l -> (pv_depth x < pv_depth (PList l))%nat.
Proof.
  intros Hx. simpl. apply le_n_S, max_elem. apply list_elem_of_In, in_map, list_elem_of_In. done.
Qed.

Lemma depth_field k d : (pv_depth (dget k d) <= pv_depth (PDict d))%nat.
Proof.
  unfold dget. destruct (od_get k d) as [v|] eqn:Hk; [|simpl; lia]. apply od_get_Some_elem in Hk. simpl.
  transitivity (foldr Nat.max 0%nat (map (fun kv => pv_depth (snd kv)) d)); [|lia].
  apply max_elem, list_elem_of_In. apply (in_map (fun kv => pv_depth (snd kv)) d (k, v)). by apply list_elem_of_In.
Qed.

Lemma walk_ext f g b parts : forall v,
  (pv_depth v <= b)%nat ->
  (forall x ps, (pv_depth x < b)%nat -> f x ps = g x ps) -> walk f v parts = walk g v parts.
Proof.
  induction parts as [|p rest IH]; intros v Hv Hfg; [done|]. cbn [walk].
  case_bool_decide; [by apply IH|].
  destruct v as [| | | | |l|d|]; try (apply IH; [simpl; lia|done]).
  - assert (forall ps, map (fun x => py_str (f x ps)) l = map (fun x => py_str (g x ps)) l) as Hm.
    { intros ps. apply map_ext_in. intros x Hx. rewrite Hfg; [done|].
      apply list_elem_of_In, depth_item in Hx. lia. }
    by rewrite !Hm.
  - apply IH; [|done]. pose proof (depth_field p d). lia.
Qed.

Lemma path_fuel n : forall m v ps, (pv_depth v <= n)%nat -> (pv_depth v <= m)%nat -> path_in n v ps = path_in m v ps.
Proof.
  induction n as [|n IH]; intros m v ps Hn Hm; destruct m as [|m]; cbn [path_in]; try done.
  - eapply (walk_ext _ _ 0); [lia|]. lia.
  - eapply (walk_ext _ _ 0); [lia|]. lia.
  - eapply (walk_ext _ _ (Nat.min (S n) (S m))); [lia|]. intros x ps' Hx. apply IH; lia.
Qed.

(** ** Formats *)

Definition _detect_request_format (data : pyval) : res string :=
  let! m := contains_key "messages" data in
  if m then Ok "openai_messages"
  else let! i := contains_key "inputs" data in
       if i then Ok "huggingface"
       else let! p := contains_key "prompt" data in Ok (if p then "openai_legacy" else "unknown").

Definition _detect_response_format (data : pyval) : string :=
  match (match data with PList (PDict d :: _) => PDict d | v => v end) with
  | PDict d =>
      match od_get "choices" d, od_get "generated_text" d, od_get "response" d with
      | Some _, _, _ => "openai"
      | _, Some _, _ => "huggingface"
      | _, _, Some _ => "ollama_native"
      | _, _, _ => "unknown"
      end
  | _ => "unknown"
  end.

(** ** The generic adapter *)

Record adapter := MkAdapter {
  _base_url : string;
  _api_key : string;
  _model_path : string;
  _prompt_path : string;
  _response_path : string;
  _auto_detect : bool;
}.

(** The defaults of the constructor *)
Definition init (base_url api_key : string) (auto_detect : bool) : adapter :=
  MkAdapter (rstrip_slash base_url) api_key "$.model" "$.messages[*].content" "$.choices[0].message.content" auto_detect.

(** [" ".join(v) if isinstance(v, list) else str(w)] *)
Definition joined_or_str (v w : pyval) : res pyval :=
  match v with
  | PList l => let! s := join " " l in Ok (PStr s)
  | _ => Ok (PStr (py_str w))
  end.

(** The prompt and the metadata of a recognised format *)
Definition extract (a : adapter) (fmt : string) (data : pyval) (md : dict) : res (pyval * dict) :=
  if bool_decide (fmt = "openai_messages") then
    let! messages := get_or "messages" (PList []) data in
    let! prompt := _concat_messages messages in
    let! params := _extract_inference_params data in
    let! md := message_metadata params messages md in
    Ok (prompt, md)
  else if bool_decide (fmt = "huggingface") then
    let! inputs := get_or "inputs" (PStr "") data in
    let! p := joined_or_str inputs inputs in Ok (p, md)
  else if bool_decide (fmt = "openai_legacy") then
    let! p := get "prompt" data in
    let! params := _extract_inference_params data in
    Ok (por p (PStr ""), set_if (truthy (PDict params)) "inference_params" (PDict params) md)
  else
    let v := _json_path data (_prompt_path a) in
    let! p := joined_or_str v (por v (PStr "")) in Ok (p, md).

Section generic.
Context `{JsonText}.

Definition parse_request (s : settings) (a : adapter) (fresh : string) (r : request) : res ModelCall :=
  let! data := request_data r in
  let model := py_str (por (_json_path data (_model_path a)) (PStr "")) in
  let! sid := resolve_session_id fresh r (session_header_names_list s) (Some data) in
  let md := od_set "session_id" (PStr sid) (user_metadata r) in
  let! fmt := if _auto_detect a then _detect_request_format data else Ok "unknown" in
  let! '(prompt, md) := extract a fmt data md in
  let! stream := get_or "stream" (PBool false) data in
  Ok (MkCall "generic" (PStr model) prompt (body r) (PBool (truthy stream)) md).

Definition passed_headers (api_key : string) (r : request) : list (string * string) :=
  let h := foldl (fun h k => od_del k h) (headers r) ["content-length"; "host"; "authorization"; "x-api-key"] in
  if bool_decide (api_key = "") then h else od_set "Authorization" ("Bearer " +:+ api_key) h.

Definition build_forward_request (a : adapter) (c : ModelCall) (r : request) : forward :=
  MkForward (q_method r) (with_query (_base_url a +:+ q_path r) r) (passed_headers (_api_key a) r) (raw_body c).

Definition plain_response (content usage id : pyval) (raw : string) : ModelResponse :=
  MkResponse content usage raw id [] false PNone.

Definition parse_response (a : adapter) (raw : string) : res ModelResponse :=
  match of_text raw with
  | Raise _ => Ok (plain_response (PStr "") PNone PNone raw)
  | Ok data =>
      let fmt := if _auto_detect a then _detect_response_format data else "unknown" in
      if bool_decide (fmt = "openai") then
        let! '(content, tools, pending) := _parse_chat_completions_choice data in
        let! u := get "usage" data in
        let! id := get "id" data in
        Ok (MkResponse content u raw id tools pending PNone)
      else if bool_decide (fmt = "huggingface") then
        let! d := match data with PList _ => first data | _ => Ok data end in
        let! t := get "generated_text" d in
        Ok (plain_response (por t (PStr "")) PNone PNone raw)
      else if bool_decide (fmt = "ollama_native") then
        let! t := get "response" data in
        let! u := get "usage" data in
        let! id := get "id" data in
        Ok (plain_response (por t (PStr "")) u id raw)
      else
        let! u := get "usage" data in
        let! id := get "id" data in
        Ok (plain_response (PStr (py_str (por (_json_path data (_response_path a)) (PStr "")))) u id raw)
  end.

Definition with_part (st : stream_state) (part id : pyval) : stream_state :=
  MkStream (content_parts st ++ (if truthy part then [PStr (py_str part)] else [])) (tool_call_map st)
    (match st_provider_request_id st with PNone => id | v => v end) (st_pending st) (st_usage st).

(** One payload, with the format once it is detected *)
Definition stream_step (a : adapter) (acc : option string * stream_state) (payload : string)
    : res (option string * stream_state) :=
  let '(fmt, st) := acc in
  match of_text payload with
  | Raise _ => Ok acc
  | Ok obj =>
      let fmt := match fmt with
                 | None => if _auto_detect a then Some (_detect_response_format obj) else None
                 | f => f
                 end in
      if bool_decide (fmt = Some "openai") then let! st := _process_sse_line payload st in Ok (fmt, st)
      else if bool_decide (fmt = Some "huggingface") then
        let! token := get_dict "token" obj in
        let! t := get "text" token in
        let! g := get "generated_text" obj in
        let! id := match st_provider_request_id st with PNone => get "id" obj | _ => Ok PNone end in
        Ok (fmt, with_part st (por t g) id)
      else
        let! id := match st_provider_request_id st with PNone => get "id" obj | _ => Ok PNone end in
        Ok (fmt, with_part st (_json_path obj (_response_path a)) id)
  end.

Definition parse_streamed_response (a : adapter) (chunks : list string) : res ModelResponse :=
  let! '(fmt, st) := fold_res (stream_step a) (stream_payloads chunks) (None, stream_start) in
  let! tools := if bool_decide (fmt = Some "openai") then _build_interactions_from_map (tool_call_map st) else Ok [] in
  let! content := join "" (content_parts st) in
  Ok (MkResponse (PStr content) PNone (String.concat "" chunks) (st_provider_request_id st) tools (st_pending st) PNone).
End generic.

(** ** The Hugging Face adapter *)

Module HuggingFace.
Section huggingface.
Context `{JsonText}.

Record adapter := MkAdapter { _base_url : string; _api_key : string }.

Definition message_text (m : pyval) : res string :=
  let! c := get_or "content" (PStr "") m in Ok (py_str c).

Definition parse_request (r : request) : res ModelCall :=
  let! data := request_data r in
  let! model := get "model" data in
  let model := por model (PStr "") in
  let! messages := get_list "messages" data in
  let! l := iter messages in
  let! texts := map_res message_text l in
  let prompt := sjoin " " texts in
  let! prompt := if bool_decide (prompt = "") then
                   let! has := contains_key "inputs" data in
                   if has then let! i := get_or "inputs" (PStr "") data in Ok (py_str i) else Ok prompt
                 else Ok prompt in
  let! streaming := get_or "stream" (PBool false) data in
  let from_header h k md := set_if (negb (bool_decide (header h r = ""))) k (PStr (header h r)) md in
  let md := from_header "x-user-email" "caller_email"
              (from_header "x-team-id" "team"
                 (from_header "x-user-id" "user" [("adapter", PStr "huggingface"); ("model_id", model)])) in
  Ok (MkCall "huggingface" model (PStr prompt) (body r) streaming md).

Definition build_forward_request (a : adapter) (c : ModelCall) (r : request) : forward :=
  MkForward (q_method r) (with_query (_base_url a +:+ q_path r) r) (passed_headers (_api_key a) r) (raw_body c).

(** [k in v and v[k]]: the value of the key when it is truthy *)
Definition truthy_item (k : string) (v : pyval) : res (option pyval) :=
  let! has := contains_key k v in
  if has then let! x := item k v in Ok (if truthy x then Some x else None) else Ok None.

Definition parse_response (raw : string) : res ModelResponse :=
  match of_text raw with
  | Raise _ => Ok (plain_response (PStr "") PNone PNone raw)
  | Ok data =>
      let! choices := truthy_item "choices" data in
      let! content := match choices with
                      | Some cs =>
                          let! c := first cs in
                          let! m := get_dict "message" c in
                          let! t := get "content" m in
                          let! x := get "text" c in
                          Ok (por t (por x (PStr "")))
                      | None =>
                          let! has := contains_key "generated_text" data in
                          if has then item "generated_text" data else Ok (PStr "")
                      end in
      let! u := get "usage" data in
      let! id := get "id" data in
      Ok (plain_response content u id raw)
  end.

(** The texts, identifier and usage of the stream so far *)
Definition stream_step (acc : list pyval * pyval * pyval) (line : string) : res (list pyval * pyval * pyval) :=
  let '(parts, id, usage) := acc in
  match of_text (strip (sdrop 6 line)) with
  | Raise _ => Ok acc
  | Ok obj =>
      let! id := match id with PNone => get "id" obj | v => Ok v end in
      let! choices := truthy_item "choices" obj in
      let! parts := match choices with
                    | Some cs =>
                        let! c := first cs in
                        let! d := get_dict "delta" c in
                        let! t := get "content" d in
                        Ok (parts ++ (if truthy t then [t] else []))
                    | None =>
                        let! has := contains_key "token" obj in
                        if has then
                          let! tok := item "token" obj in
                          let! txt := contains_key "text" tok in
                          if txt then let! t := item "text" tok in Ok (parts ++ [t]) else Ok parts
                        else Ok parts
                    end in
      let! u := get "usage" obj in
      Ok (parts, id, if truthy u then u else usage)
  end.

Definition parse_streamed_response (chunks : list string) : res ModelResponse :=
  let lines := List.filter (startswith "data: ") (concat (map splitlines chunks)) in
  let! '(parts, id, usage) := fold_res stream_step lines ([], PNone, PNone) in
  let! content := join "" parts in
  Ok (plain_response (PStr content) usage id (String.concat "" chunks)).
End huggingface.
End HuggingFace.

(** ** What the generic adapter does not see *)

Section theorems.
Context `{JsonText}.

(** The generic adapter governs less than it forwards.  (1) With format detection off
    and the default paths, which name literal keys that no API has, every prompt is
    empty.  (2) With detection on, an empty list of messages makes it read nothing
    else: whatever the request's inputs are, which a text-generation server answers,
    the prompt is empty.  In both cases the body is forwarded as the client sent it. *)
Theorem generic_blind_spots s url key fresh r call d :
  request_data r = Ok (PDict d) ->
  (parse_request s (init url key false) fresh r = Ok call -> od_get "messages[*]" d = None ->
   prompt_text call = PStr "" /\ raw_body call = body r)
  /\ (parse_request s (init url key true) fresh r = Ok call -> od_get "messages" d = Some (PList []) ->
   prompt_text call = PStr "" /\ raw_body call = body r).
Proof.
  intros Hd. split; intros Hr Hk; unfold parse_request in Hr; rewrite Hd in Hr; cbn [res_bind] in Hr; unbind Hr;
    match goal with H : (if _auto_detect _ then _ else _) = _ |- _ => rename H into Hfmt end;
    match goal with p : (pyval * dict)%type |- _ => destruct p as [p md] end; unbind Hr; injection Hr as <-;
    cbn [prompt_text raw_body]; (split; [|done]);
    match goal with H : extract _ _ _ _ = _ |- _ => rename H into Hex end.
  - injection Hfmt as <-. unfold extract in Hex. simpl in Hex. unbind Hex.
    injection Hex as <- _.
    match goal with H : joined_or_str _ _ = _ |- _ => rename H into Hj end.
    unfold _json_path, init in Hj. cbn [_prompt_path] in Hj.
    assert (path_in (pv_depth (PDict d)) (PDict d) (split_on "." "$.messages[*].content") = PNone) as Hp.
    { cbn [path_in pv_depth]. cbn. unfold dget. by rewrite Hk. }
    rewrite Hp in Hj. by injection Hj as <-.
  - cbn [init _auto_detect] in Hfmt. unfold _detect_request_format in Hfmt. cbn [contains_key res_bind] in Hfmt.
    rewrite Hk in Hfmt. injection Hfmt as <-. unfold extract in Hex. simpl in Hex.
    unfold dget_or in Hex. rewrite Hk in Hex. cbn in Hex. unbind Hex. by injection Hex as <- _.
Qed.
End theorems.

Module GenericRuns.
Definition codec (v : pyval) : JsonText :=
  {| to_text := fun _ => "{}"; of_text := fun s => if bool_decide (s = "B") then Ok v else Raise (ValueError "json") |}.
Definition attack : dict :=
  [("messages", PList []); ("inputs", PStr "the secret text"); ("model", PStr "llama")].
Definition post : request := MkRequest "POST" "/generate" "" [] "B" None.
Definition cfg : settings := MkSettings true [] false 5.

Lemma generic_blind_spots_witness :
  exists call, @parse_request (codec (PDict attack)) cfg (init "http://tgi" "" true) "u" post = Ok call
  /\ prompt_text call = PStr "" /\ raw_body call = "B".
Proof.
  eexists. split; [vm_compute; reflexivity|].
  apply (proj2 (@generic_blind_spots (codec (PDict attack)) cfg "http://tgi" "" "u" post
                  (MkCall "generic" (PStr "llama") (PStr "") "B" (PBool false) [("session_id", PStr "u")]) attack
                  ltac:(vm_compute; reflexivity))); vm_compute; reflexivity.
Defined.
End GenericRuns.
