(* ===== verification/SemanticCache.v ===== *)
(** * The response cache (cache/semantic_cache.py)

    The exact-match cache of responses and the two steps of
    pipeline/orchestrator.py that read and fill it.  SHA-256 is a parameter. *)
From S2P Require Import Prelude ODict PyVal PyStr PyObj AdapterBase OpenAI.

Local Open Scope Z_scope.

(** ** The cache *)

Record CacheEntry := MkEntry {
  response_body : string;
  e_status_code : Z;
  content_type : string;
  created_at : Z;
  hit_count : Z;
}.

Record cache := MkCache {
  _cache : list (string * CacheEntry);
  _max_entries : Z;
  _ttl : Z;                       (** seconds *)
}.

Definition init (max_entries ttl : Z) : cache := MkCache [] max_entries ttl.

Definition with_entries (l : list (string * CacheEntry)) (c : cache) : cache := MkCache l (_max_entries c) (_ttl c).

(** The text that is hashed *)
Definition key_text (model prompt tenant : string) : string := tenant +:+ ":" +:+ model +:+ ":" +:+ prompt.

Definition _resolve_tenant (tenant_id : option string) : string :=
  match tenant_id with Some (String _ _ as t) => t | _ => "default" end.

Section cache.
Context `{Digest}.

Definition _key (model prompt tenant : string) : string := hexdigest (key_text model prompt tenant).

Definition get (model prompt : string) (tenant : option string) (now : Z) (c : cache) : cache * option CacheEntry :=
  let key := _key model prompt (_resolve_tenant tenant) in
  match od_get key (_cache c) with
  | None => (c, None)
  | Some e =>
      if seconds (_ttl c) <? now - created_at e then (with_entries (od_del key (_cache c)) c, None)
      else
        let e := MkEntry (response_body e) (e_status_code e) (content_type e) (created_at e) (hit_count e + 1) in
        (with_entries (od_set key e (_cache c)) c, Some e)
  end.

(** [min(self._cache, key=created_at)]: the first of the oldest *)
Fixpoint oldest (best : string * CacheEntry) (l : list (string * CacheEntry)) : string :=
  match l with
  | [] => fst best
  | x :: l => oldest (if created_at (snd x) <? created_at (snd best) then x else best) l
  end.

Definition evict (c : cache) : res cache :=
  if _max_entries c <=? zlen (_cache c) then
    match _cache c with
    | [] => Raise (ValueError "min() arg is an empty sequence")
    | x :: l => Ok (with_entries (od_del (oldest x l) (_cache c)) c)
    end
  else Ok c.

Definition put (model prompt body : string) (status : Z) (ctype : string) (tenant : option string) (now : Z) (c : cache)
    : res cache :=
  let! c := evict c in
  let key := _key model prompt (_resolve_tenant tenant) in
  Ok (with_entries (od_set key (MkEntry body status ctype now 0) (_cache c)) c).

Definition invalidate (model prompt : string) (tenant : option string) (c : cache) : cache * bool :=
  let key := _key model prompt (_resolve_tenant tenant) in
  (with_entries (od_del key (_cache c)) c, match od_get key (_cache c) with Some _ => true | None => false end).

Definition clear (c : cache) : cache := with_entries [] c.

Definition size (c : cache) : Z := zlen (_cache c).

Definition stats (c : cache) : dict :=
  [("size", PInt (size c)); ("total_hits", PInt (foldr Z.add 0 (map (fun e => hit_count (snd e)) (_cache c))));
   ("max_entries", PInt (_max_entries c)); ("ttl", PInt (_ttl c))].

(** ** The steps of the pipeline

    The tenant is the caller's, else the gateway's ([_resolve_tenant] of the
    orchestrator).  The text is that of the call at the time of the step: sanitization
    lies between the two. *)

Definition request_tenant (caller : option string) (gateway_tenant_id : string) : string :=
  match caller with
  | Some (String _ _ as t) => t
  | _ => if bool_decide (gateway_tenant_id = "") then "default" else gateway_tenant_id
  end.

(** Step B.4 before the forward: [Some] is the answer the client gets. *)
Definition lookup_step (caller : option string) (gateway model prompt : string) (streaming : bool) (now : Z)
    (c : option cache) : option cache * option CacheEntry :=
  match c with
  | Some c => if negb streaming && negb (bool_decide (prompt = "")) then
                let '(c, e) := get model prompt (Some (request_tenant caller gateway)) now c in (Some c, e)
              else (Some c, None)
  | None => (None, None)
  end.

(** Step B.4 after the response; an exception of [put] is logged. *)
Definition store_step (caller : option string) (gateway model prompt body : string) (status : Z) (ctype : string)
    (streaming : bool) (now : Z) (c : option cache) : option cache :=
  match c with
  | Some c =>
      if negb streaming && (status =? 200) && negb (bool_decide (prompt = "")) then
        match put model prompt body status ctype (Some (request_tenant caller gateway)) now c with
        | Ok c => Some c
        | Raise _ => Some c
        end
      else Some c
  | None => None
  end.

(** ** Runs *)

Inductive op :=
  | Get (model prompt : string) (tenant : option string) (now : Z)
  | Put (model prompt body : string) (status : Z) (ctype : string) (tenant : option string) (now : Z)
  | Invalidate (model prompt : string) (tenant : option string)
  | Clear.

Definition apply (o : op) (c : cache) : cache :=
  match o with
  | Get m p t n => fst (get m p t n c)
  | Put m p b s ct t n => match put m p b s ct t n c with Ok c => c | Raise _ => c end
  | Invalidate m p t => fst (invalidate m p t c)
  | Clear => clear c
  end.

Definition run (ops : list op) (c : cache) : cache := foldl (fun c o => apply o c) c ops.

(** *** Invariant *)

(** The keys are distinct, the table is bounded, and every entry is what a put stored
    under a text with the entry's key. *)
Record inv (ops : list op) (c : cache) : Prop := {
  inv_wf : od_wf (_cache c);
  inv_bound : 1 <= _max_entries c -> size c <= _max_entries c;
  inv_stored : forall k e, od_get k (_cache c) = Some e ->
    exists m p t, Put m p (response_body e) (e_status_code e) (content_type e) t (created_at e) ∈ ops
                  /\ _key m p (_resolve_tenant t) = k;
}.

Lemma zlen_del k (l : list (string * CacheEntry)) : zlen (od_del k l) <= zlen l.
Proof. unfold zlen. pose proof (sublist_length _ _ (od_del_sublist k l)). lia. Qed.

Lemma zlen_set_old k e (l : list (string * CacheEntry)) : k ∈ od_keys l -> zlen (od_set k e l) = zlen l.
Proof.
  intros Hk. pose proof (f_equal length (od_keys_set_old k e l Hk)) as Hl.
  unfold od_keys in Hl. rewrite !length_fmap in Hl. unfold zlen. lia.
Qed.

Lemma zlen_set k e (l : list (string * CacheEntry)) : zlen (od_set k e l) <= zlen l + 1.
Proof.
  destruct (decide (k ∈ od_keys l)) as [Hk|Hk]; [rewrite zlen_set_old by done; lia|].
  rewrite od_set_new by done. rewrite zlen_snoc. lia.
Qed.

Lemma oldest_in l : forall b, oldest b l = fst b \/ oldest b l ∈ od_keys l.
Proof.
  induction l as [|x l IH]; intros b; cbn [oldest]; [by left|]. change (od_keys (x :: l)) with (x.1 :: od_keys l).
  destruct (IH (if created_at x.2 <? created_at b.2 then x else b)) as [->|Hin]; [|right; by right].
  destruct (_ <? _); [right; by left|by left].
Qed.

Lemma evict_fields c c' :
  evict c = Ok c' ->
  _max_entries c' = _max_entries c /\ _cache c' `sublist_of` _cache c
  /\ (1 <= _max_entries c -> size c <= _max_entries c -> size c' < _max_entries c').
Proof.
  unfold evict, size. intros Hr. destruct (_ <=? _) eqn:Hfull.
  - destruct (_cache c) as [|x l] eqn:Hc; [done|]. injection Hr as <-.
    split; [done|]. split; [exact (od_del_sublist (oldest x l) (x :: l))|]. intros _ Hle.
    assert (oldest x l ∈ od_keys (x :: l)) as Hin.
    { change (od_keys (x :: l)) with (x.1 :: od_keys l). destruct (oldest_in l x) as [->|?]; [by left|by right]. }
    apply od_del_length in Hin. change (zlen (od_del (oldest x l) (x :: l)) < _max_entries c). unfold zlen in *. lia.
  - injection Hr as <-. split; [done|]. split; [done|]. lia.
Qed.

Lemma get_of_sublist k e (l l' : list (string * CacheEntry)) :
  od_wf l -> l' `sublist_of` l -> od_get k l' = Some e -> od_get k l = Some e.
Proof.
  intros Hwf Hs Hg. apply od_elem_get; [done|]. apply od_get_Some_elem in Hg. by eapply elem_of_sublist.
Qed.

Lemma inv_sub ops ops' c c' :
  inv ops c -> (forall o, o ∈ ops -> o ∈ ops') -> _cache c' `sublist_of` _cache c -> _max_entries c' = _max_entries c ->
  inv ops' c'.
Proof.
  intros [Hwf Hb Hs] Hops Hsub Hmax. split.
  - by eapply od_wf_sublist.
  - intros H1. rewrite Hmax in *. specialize (Hb H1). apply sublist_length in Hsub. unfold size, zlen in *. lia.
  - intros k e Hk. destruct (Hs k e) as (m & p & t & ? & ?); [by eapply get_of_sublist|]. exists m, p, t. auto.
Qed.

Lemma put_inv ops c c' m p b s ct t n :
  inv ops c -> put m p b s ct t n c = Ok c' -> inv (ops ++ [Put m p b s ct t n]) c'.
Proof.
  intros Hinv Hr. unfold put in Hr. unbind Hr. injection Hr as <-. rename a into c1.
  destruct (evict_fields c c1 Hrun) as (Hmax & Hsub & Hroom).
  assert (inv ops c1) as [Hwf Hb Hs] by (eapply inv_sub; [exact Hinv|auto|done|done]).
  split; cbn [with_entries _cache _max_entries size].
  - auto with provn.
  - intros H1. rewrite Hmax in H1. pose proof (inv_bound _ _ Hinv H1) as H2. specialize (Hroom H1 H2).
    pose proof (zlen_set (_key m p (_resolve_tenant t)) (MkEntry b s ct n 0) (_cache c1)). unfold size in *.
    cbn [with_entries _cache]. lia.
  - intros k e Hk. destruct (decide (k = _key m p (_resolve_tenant t))) as [->|Hne].
    + rewrite od_get_set_eq in Hk. injection Hk as <-. exists m, p, t. rewrite elem_of_app, list_elem_of_singleton. auto.
    + rewrite od_get_set_ne in Hk by done. destruct (Hs k e Hk) as (m' & p' & t' & ? & ?). exists m', p', t'.
      rewrite elem_of_app. auto.
Qed.

Lemma get_inv ops c m p t n o : inv ops c -> inv (ops ++ [o]) (fst (get m p t n c)).
Proof.
  intros Hinv. assert (inv (ops ++ [o]) c) as Hc by (eapply inv_sub; [exact Hinv|intros ?; rewrite elem_of_app; auto|done|done]).
  unfold get. destruct (od_get _ _) as [e|] eqn:Hg; [|done]. destruct (_ <? _).
  - eapply inv_sub; [exact Hc|auto|apply od_del_sublist|done].
  - destruct Hc as [Hwf Hb Hs]. split; cbn [fst with_entries _cache _max_entries size].
    + auto with provn.
    + intros H1. unfold size. cbn [_cache with_entries]. rewrite zlen_set_old by by eapply od_get_key. by apply Hb.
    + intros k e' Hk. destruct (decide (k = _key m p (_resolve_tenant t))) as [->|Hne].
      * rewrite od_get_set_eq in Hk. injection Hk as <-. exact (Hs _ _ Hg).
      * rewrite od_get_set_ne in Hk by done. by apply Hs.
Qed.

Lemma apply_inv ops c o : inv ops c -> inv (ops ++ [o]) (apply o c).
Proof.
  intros Hinv. assert (inv (ops ++ [o]) c) as Hc by (eapply inv_sub; [exact Hinv|intros ?; rewrite elem_of_app; auto|done|done]).
  destruct o; cbn [apply].
  - by apply get_inv.
  - destruct (put _ _ _ _ _ _ _ _) eqn:Hp; [by eapply put_inv|done].
  - eapply inv_sub; [exact Hc|auto|apply od_del_sublist|done].
  - eapply inv_sub; [exact Hc|auto|apply sublist_nil_l|done].
Qed.

Lemma cache_run_inv ops2 : forall ops1 c, inv ops1 c -> inv (ops1 ++ ops2) (run ops2 c).
Proof.
  induction ops2 as [|o ops2 IH]; intros ops1 c Hc; cbn; [by rewrite app_nil_r|].
  specialize (IH _ _ (apply_inv _ _ o Hc)). by rewrite <- app_assoc in IH.
Qed.

Lemma cache_run_ttl ops : forall c, _ttl (run ops c) = _ttl c.
Proof.
  induction ops as [|o ops IH]; intros c; [done|]. change (_ttl (run ops (apply o c)) = _ttl c).
  rewrite IH. destruct o; cbn [apply]; try done.
  - unfold get. destruct (od_get _ _); [|done]. by destruct (_ <? _).
  - destruct (put _ _ _ _ _ _ _ _) as [c'|] eqn:Hp; [|done]. unfold put, evict in Hp.
    destruct (_ <=? _); [destruct (_cache c); [done|]|]; by injection Hp as <-.
Qed.

Lemma cache_run_max ops : forall c, _max_entries (run ops c) = _max_entries c.
Proof.
  induction ops as [|o ops IH]; intros c; [done|]. change (_max_entries (run ops (apply o c)) = _max_entries c).
  rewrite IH. destruct o; cbn [apply]; try done.
  - unfold get. destruct (od_get _ _); [|done]. by destruct (_ <? _).
  - destruct (put _ _ _ _ _ _ _ _) as [c'|] eqn:Hp; [|done]. unfold put in Hp. unbind Hp. injection Hp as <-.
    by apply evict_fields in Hrun as (? & _).
Qed.

Lemma cache_init_inv n ttl : inv [] (init n ttl).
Proof. split; [constructor|unfold size; simpl; rewrite zlen_nil; lia|done]. Qed.

(** *** Theorems *)

(** The response cache is bounded and serves only what was stored.  After any
    operations the table has at most the configured number of entries, and a hit is
    the body, status and type that a put stored no longer than the time-to-live ago
    under the same digest of tenant, model and prompt. *)
Theorem hits_were_stored n ttl ops m p t now e :
  1 <= n ->
  snd (get m p t now (run ops (init n ttl))) = Some e ->
  size (run ops (init n ttl)) <= n
  /\ now - created_at e <= seconds ttl
  /\ exists m' p' t', Put m' p' (response_body e) (e_status_code e) (content_type e) t' (created_at e) ∈ ops
      /\ _key m' p' (_resolve_tenant t') = _key m p (_resolve_tenant t).
Proof.
  intros Hn Hg. pose proof (cache_run_inv ops [] _ (cache_init_inv n ttl)) as Hinv. cbn [app] in Hinv.
  pose proof (inv_bound _ _ Hinv) as Hb. rewrite cache_run_max in Hb. split; [by apply Hb|].
  unfold get in Hg. destruct (od_get _ _) as [e0|] eqn:Hk; [|done]. rewrite cache_run_ttl in Hg. cbn [_ttl init] in Hg.
  destruct (seconds ttl <? now - created_at e0) eqn:Hold; [done|]. cbn [snd] in Hg. injection Hg as <-.
  cbn [response_body e_status_code content_type created_at]. split; [lia|].
  destruct (inv_stored _ _ Hinv _ _ Hk) as (m' & p' & t' & Hin & Hkey). by exists m', p', t'.
Qed.

Lemma get_put m p b s ct t n c c' now m' p' t' :
  put m p b s ct t n c = Ok c' -> now - n <= seconds (_ttl c) ->
  key_text m' p' (_resolve_tenant t') = key_text m p (_resolve_tenant t) ->
  exists e, snd (get m' p' t' now c') = Some e /\ response_body e = b /\ e_status_code e = s.
Proof.
  intros Hp Hnow Hkey. unfold put in Hp. unbind Hp. injection Hp as <-. unfold get, _key. rewrite Hkey.
  cbn [_cache with_entries]. rewrite od_get_set_eq. cbn [created_at].
  assert (_ttl a = _ttl c) as Httl.
  { unfold evict in Hrun. destruct (_ <=? _); [destruct (_cache c); [done|]|]; by injection Hrun as <-. }
  cbn [_ttl with_entries]. rewrite Httl. destruct (seconds (_ttl c) <? now - n) eqn:?; [lia|].
  eexists. split; [done|]. done.
Qed.

(** The key of the response cache is ambiguous: tenant, model and prompt are joined
    by colons, which all of them may hold.  What is stored for one tenant is served to
    another whose name continues with the first part of the model's; and within a
    tenant, what is stored for the model x:y is served to the model x when the prompt
    starts with y and a colon. *)
Theorem cache_key_is_ambiguous a b x p body s ct n c c' now :
  a <> "" -> now - n <= seconds (_ttl c) ->
  put (b +:+ ":" +:+ x) p body s ct (Some a) n c = Ok c' ->
  (exists e, snd (get x p (Some (a +:+ ":" +:+ b)) now c') = Some e /\ response_body e = body)
  /\ (exists e, snd (get b (x +:+ ":" +:+ p) (Some a) now c') = Some e /\ response_body e = body).
Proof.
  intros Ha Hnow Hp. split.
  - edestruct get_put as (e & ? & ? & _); [exact Hp|exact Hnow| |by exists e].
    destruct a as [|c0 a]; [done|]. unfold key_text. cbn [_resolve_tenant]. rewrite app_cons. cbn [_resolve_tenant].
    by rewrite !app_assoc_s, !app_cons, !app_assoc_s.
  - edestruct get_put as (e & ? & ? & _); [exact Hp|exact Hnow| |by exists e].
    unfold key_text. by rewrite !app_assoc_s.
Qed.
(** What a step stores the next one serves, to whoever has the same model and text. *)
Lemma stored_is_served caller gateway model prompt body ct n now c c' :
  prompt <> "" ->
  store_step caller gateway model prompt body 200 ct false n (Some c) = Some c' ->
  1 <= _max_entries c -> now - n <= seconds (_ttl c) ->
  exists c2 e, lookup_step caller gateway model prompt false now (Some c') = (c2, Some e) /\ response_body e = body.
Proof.
  intros Hq Hst Hmax Hnow. unfold store_step, lookup_step in *.
  rewrite (bool_decide_false (prompt = "")) in * by done. cbn [negb andb] in *.
  destruct (put _ _ _ _ _ _ _ c) as [c1|] eqn:Hp.
  - injection Hst as <-. destruct (get_put _ _ _ _ _ _ _ _ _ now model prompt (Some (request_tenant caller gateway)) Hp Hnow eq_refl)
      as (e & Hg & Hbody & _).
    destruct (get _ _ _ now c1) as [c2 e'] eqn:Hgg. cbn [snd] in Hg. subst e'. by exists (Some c2), e.
  - unfold put, evict in Hp. destruct (_max_entries c <=? zlen (_cache c)) eqn:Hfull; [|done].
    destruct (_cache c); [|done]. rewrite zlen_nil in Hfull. lia.
Qed.
End cache.

(** *** What the key leaves out *)

Section images.
Context `{Digest} `{JsonText}.

(** A question about an image *)
Definition about_image (model question url : string) : dict :=
  [("model", PStr model);
   ("messages", PList [PDict [("role", PStr "user");
                              ("content", PList [PDict [("type", PStr "text"); ("text", PStr question)];
                                                 PDict [("type", PStr "image_url");
                                                        ("image_url", PDict [("url", PStr url)])]])]])].

Lemma image_prompt s a fresh r call model question url :
  thinking_strip_enabled s = false -> request_data r = Ok (PDict (about_image model question url)) ->
  parse_request s a fresh r = Ok call -> prompt_text call = PStr question.
Proof.
  intros Hs Hd (data & messages & prompt & Hd' & Hm & Hp & Hst & _)%parse_request_run.
  rewrite Hd in Hd'. injection Hd' as <-. simpl in Hm. injection Hm as <-. rewrite Hs in Hst. injection Hst as <-.
  unfold prompt_of, _concat_messages, join in Hp. simpl in Hp. by injection Hp as <-.
Qed.

(** C31. The response cache ignores everything but the text of a request.  Two requests
    that ask the same question about different images have the same key: the second
    client of the tenant is answered with what the provider said about the first
    image. *)
Theorem images_share_a_response s a fresh r1 r2 call1 call2 model question url1 url2 caller gateway body ct n now c c' :
  question <> "" ->
  thinking_strip_enabled s = false ->
  request_data r1 = Ok (PDict (about_image model question url1)) -> parse_request s a fresh r1 = Ok call1 ->
  request_data r2 = Ok (PDict (about_image model question url2)) -> parse_request s a fresh r2 = Ok call2 ->
  store_step caller gateway model question body 200 ct false n (Some c) = Some c' ->
  1 <= _max_entries c -> now - n <= seconds (_ttl c) ->
  prompt_text call1 = PStr question /\ prompt_text call2 = PStr question
  /\ exists c2 e, lookup_step caller gateway model question false now (Some c') = (c2, Some e) /\ response_body e = body.
Proof.
  intros Hq Hs Hd1 H1 Hd2 H2 Hst Hmax Hnow.
  split; [exact (image_prompt _ _ _ _ _ _ _ _ Hs Hd1 H1)|]. split; [exact (image_prompt _ _ _ _ _ _ _ _ Hs Hd2 H2)|].
  exact (stored_is_served _ _ _ _ _ _ _ _ _ _ Hq Hst Hmax Hnow).
Qed.
End images.

(** ** Runs *)

Module CacheRuns.
#[local] Instance identity : Digest := fun s => s.

Definition start : cache := init 2 3600.
Definition ops : list op := [Put "qwen3:4b" "hi" "hello" 200 "application/json" (Some "acme") (seconds 1)].

Lemma hits_were_stored_witness :
  exists e, snd (get "qwen3:4b" "hi" (Some "acme") (seconds 5) (run ops start)) = Some e
  /\ size (run ops start) <= 2 /\ seconds 5 - created_at e <= seconds 3600.
Proof.
  eexists. split; [vm_compute; reflexivity|].
  destruct (hits_were_stored 2 3600 ops "qwen3:4b" "hi" (Some "acme") (seconds 5)
              (MkEntry "hello" 200 "application/json" (seconds 1) 1)) as (H1 & H2 & _);
    [lia|vm_compute; reflexivity|exact (conj H1 H2)].
Defined.

Lemma cache_key_is_ambiguous_witness :
  exists c', put ("qwen3" +:+ ":" +:+ "4b") "hi" "hello" 200 "application/json" (Some "acme") 0 start = Ok c'
  /\ exists e, snd (get "qwen3" "4b:hi" (Some "acme") (seconds 5) c') = Some e /\ response_body e = "hello".
Proof.
  eexists. split; [vm_compute; reflexivity|].
  apply (proj2 (cache_key_is_ambiguous "acme" "qwen3" "4b" "hi" "hello" 200 "application/json" 0 start
                  (with_entries [(key_text "qwen3:4b" "hi" "acme", MkEntry "hello" 200 "application/json" 0 0)] start)
                  (seconds 5) ltac:(intros [=]) ltac:(vm_compute; discriminate) ltac:(vm_compute; reflexivity))).
Defined.

Definition codec : JsonText :=
  {| to_text := fun _ => "{}";
     of_text := fun s => if bool_decide (s = "cat") then Ok (PDict (about_image "gpt-4o" "what is this?" "cat.png"))
                         else if bool_decide (s = "dog") then Ok (PDict (about_image "gpt-4o" "what is this?" "dog.png"))
                         else Raise (ValueError "json") |}.
Definition cfg : settings := MkSettings false [] false 5.
Definition adapter : OpenAI.adapter := OpenAI.init "http://localhost" "".
Definition post (b : string) : request := MkRequest "POST" "/v1/chat/completions" "" [] b None.

Lemma images_share_a_response_witness :
  exists call1 call2 c',
    @parse_request codec cfg adapter "u" (post "cat") = Ok call1 /\ @parse_request codec cfg adapter "u" (post "dog") = Ok call2
    /\ store_step None "gw" "gpt-4o" "what is this?" "a cat" 200 "application/json" false 0 (Some start) = Some c'
    /\ exists c2 e, lookup_step None "gw" "gpt-4o" "what is this?" false (seconds 5) (Some c') = (c2, Some e)
        /\ response_body e = "a cat".
Proof.
  eexists _, _, _. split; [vm_compute; reflexivity|]. split; [vm_compute; reflexivity|]. split; [vm_compute; reflexivity|].
  eapply (fun H => proj2 (proj2 (@images_share_a_response identity codec cfg adapter "u" (post "cat") (post "dog") _ _
            "gpt-4o" "what is this?" "cat.png" "dog.png" None "gw" "a cat" "application/json" 0 (seconds 5) start _
            H eq_refl eq_refl ltac:(vm_compute; reflexivity) eq_refl ltac:(vm_compute; reflexivity)
            ltac:(vm_compute; reflexivity) ltac:(vm_compute; discriminate) ltac:(vm_compute; discriminate)))).
  intros [=].
Defined.
End CacheRuns.
