(* ===== verification/Verdicts.v ===== *)
(** * Verdicts of the classifiers (intelligence/)

    The rows the models leave behind (intelligence/types.py), the buffer on the request
    path (verdict_buffer.py), the worker that writes it to SQLite and its dead-letter
    file (verdict_flush.py), and the accuracy of a window of rows (db.py). *)
From Stdlib Require Import SpecFloat.
From AAC_tactics Require Import AAC.
From AAC_tactics Require Instances.
From Stdlib Require Import Permutation.
From S2P Require Import Prelude ODict PyVal PyStr PyObj.

Local Open Scope Z_scope.

(** ** Times

    A [datetime] in UTC is its clock reading; [isoformat] writes the microseconds only
    when there are some. *)

Fixpoint zeros (n : nat) : string := match n with O => "" | S n => String "0" (zeros n) end.

Definition pad (n : nat) (z : Z) : string := zeros (n - String.length (z_str z)) +:+ z_str z.

(** Year, month and day of a number of days since 1970-01-01 *)
Definition civil (days : Z) : Z * Z * Z :=
  let z := days + 719468 in
  let doe := z mod 146097 in
  let yoe := (doe - doe / 1460 + doe / 36524 - doe / 146096) / 365 in
  let doy := doe - (365 * yoe + yoe / 4 - yoe / 100) in
  let mp := (5 * doy + 2) / 153 in
  let m := if mp <? 10 then mp + 3 else mp - 9 in
  (yoe + 400 * (z / 146097) + (if m <=? 2 then 1 else 0), m, doy - (153 * mp + 2) / 5 + 1).

Definition isoformat (t : Z) : string :=
  let us := t / 1000 in
  let secs := us / 1000000 in
  let '(y, m, d) := civil (secs / 86400) in
  let s := secs mod 86400 in
  pad 4 y +:+ "-" +:+ pad 2 m +:+ "-" +:+ pad 2 d +:+ "T"
  +:+ pad 2 (s / 3600) +:+ ":" +:+ pad 2 (s / 60 mod 60) +:+ ":" +:+ pad 2 (s mod 60)
  +:+ (if us mod 1000000 =? 0 then "" else "." +:+ pad 6 (us mod 1000000)) +:+ "+00:00".

Example iso_ex : isoformat (seconds 1776297599) = "2026-04-15T23:59:59+00:00". Proof. reflexivity. Qed.
Example iso_us : isoformat (seconds 1709208000 + 25000) = "2024-02-29T12:00:00.000025+00:00". Proof. reflexivity. Qed.

(** ** Verdicts *)

Record ModelVerdict := MkVerdict {
  model_name : string;
  input_hash : string;
  input_features_json : string;
  prediction : string;
  confidence : pyval;
  request_id : option string;
  timestamp : string;
  divergence_signal : option string;
  divergence_source : option string;
  version : option string;
}.

(** [__post_init__] *)
Definition __post_init__ (v : ModelVerdict) : res ModelVerdict :=
  let! low := py_ge (confidence v) (PInt 0) in
  let! high := if low then py_ge (PInt 1) (confidence v) else Ok false in
  if high then Ok v else Raise (ValueError "confidence must be in [0.0, 1.0]").

Definition asdict (v : ModelVerdict) : pyval :=
  PDict [("model_name", PStr (model_name v)); ("input_hash", PStr (input_hash v));
         ("input_features_json", PStr (input_features_json v)); ("prediction", PStr (prediction v));
         ("confidence", confidence v); ("request_id", ostr (request_id v)); ("timestamp", PStr (timestamp v));
         ("divergence_signal", ostr (divergence_signal v)); ("divergence_source", ostr (divergence_source v));
         ("version", ostr (version v))].

Definition fields : list string :=
  ["model_name"; "input_hash"; "input_features_json"; "prediction"; "confidence"; "request_id"; "timestamp";
   "divergence_signal"; "divergence_source"; "version"].

Definition str_field (k : string) (d : dict) : res string :=
  match od_get k d with Some (PStr s) => Ok s | _ => type_error end.

Definition opt_field (k : string) (required : bool) (d : dict) : res (option string) :=
  match od_get k d with
  | Some (PStr s) => Ok (Some s)
  | Some PNone => Ok None
  | None => if required then type_error else Ok None
  | _ => type_error
  end.

(** [ModelVerdict] with the items of [d] as keyword arguments; the clock fills in a
    missing timestamp.  Values of other types than the fields' do not occur: the texts
    read are those [asdict] gave, or no verdicts at all. *)
Definition of_dict (now : string) (d : pyval) : res ModelVerdict :=
  match d with
  | PDict d =>
      if forallb (fun k => bool_decide (k ∈ fields)) (od_keys d) then
        let! m := str_field "model_name" d in
        let! h := str_field "input_hash" d in
        let! f := str_field "input_features_json" d in
        let! p := str_field "prediction" d in
        let! c := match od_get "confidence" d with Some c => Ok c | None => type_error end in
        let! r := opt_field "request_id" true d in
        let! t := match od_get "timestamp" d with None => Ok now | Some (PStr t) => Ok t | _ => type_error end in
        let! sig := opt_field "divergence_signal" false d in
        let! src := opt_field "divergence_source" false d in
        let! v := opt_field "version" false d in
        __post_init__ (MkVerdict m h f p c r t sig src v)
      else type_error
  | _ => type_error
  end.

(** ** The buffer *)

Record buffer := MkBuffer {
  _buf : list ModelVerdict;
  _dropped : Z;
  _max : Z;
}.

Definition buffer_init (max_size : Z) : buffer := MkBuffer [] 0 (Z.max 1 max_size).

Definition record (v : ModelVerdict) (b : buffer) : res buffer :=
  if _max b <=? zlen (_buf b) then
    match _buf b with
    | [] => Raise (IndexError "pop from an empty deque")
    | _ :: l => Ok (MkBuffer (l ++ [v]) (_dropped b + 1) (_max b))
    end
  else Ok (MkBuffer (_buf b ++ [v]) (_dropped b) (_max b)).

Definition drain (max_batch : Z) (b : buffer) : list ModelVerdict * buffer :=
  let n := Z.to_nat max_batch in
  (take n (_buf b), MkBuffer (drop n (_buf b)) (_dropped b) (_max b)).

(** ** The flush worker *)

Definition _DLQ_MAX_BYTES : Z := 50 * 1024 * 1024.

Section flush.
Context `{JsonText}.

Definition line_of (v : ModelVerdict) : string := to_text (asdict v) +:+ String lf "".

Definition lines_of (vs : list ModelVerdict) : string := String.concat "" (map line_of vs).

(** What parking meets on the disk: whether the size could be read, and after how many
    characters the disk was full, if it was. *)
Record park_env := MkPark { size_read : bool; full_after : option nat }.

(** [_park_to_dlq]: the new file, and the batch that was refused *)
Definition _park_to_dlq (e : park_env) (batch : list ModelVerdict) (file : option string)
    : option string * list ModelVerdict :=
  let existing := if size_read e then match file with Some t => Z.of_nat (String.length t) | None => 0 end else 0 in
  if _DLQ_MAX_BYTES <=? existing then (file, batch)
  else
    match full_after e with
    | None => (Some (default "" file +:+ lines_of batch), [])
    | Some k => (Some (default "" file +:+ stake k (lines_of batch)), batch)
    end.

(** What replaying meets: can the file be read, is the batch written, is the file removed *)
Record replay_env := MkReplay { readable : bool; inserted : bool; unlinked : bool; r_now : string }.

Definition recovered (now : string) (lines : list string) : list ModelVerdict :=
  omap (fun l => match (let! d := of_text l in of_dict now d) with Ok v => Some v | Raise _ => None end) lines.

(** [_try_replay_dlq]: the rows that are inserted and the file that is left *)
Definition _try_replay_dlq (e : replay_env) (file : option string) : list ModelVerdict * option string :=
  match file with
  | None => ([], None)
  | Some t =>
      if negb (readable e) then ([], file)
      else
        let lines := List.filter (fun l => negb (bool_decide (strip l = ""))) (splitlines t) in
        let removed := if unlinked e then None else file in
        match lines with
        | [] => ([], removed)
        | _ =>
            match recovered (r_now e) lines with
            | [] => ([], file)
            | vs => if inserted e then (vs, removed) else ([], file)
            end
        end
  end.

(** Where the loop of [run] is *)
Inductive phase := Asleep | Replayed | Writing (batch : list ModelVerdict).

Record worker := MkWorker {
  w_buf : buffer;
  _batch : Z;
  onnx_verdicts : list ModelVerdict;   (** the table *)
  dlq : option string;
  w_phase : phase;
  w_refused : list ModelVerdict;       (** the batches logged as dropped *)
}.

Definition worker_init (max_size batch : Z) : worker := MkWorker (buffer_init max_size) batch [] None Asleep [].

Inductive event :=
  | Record_ (v : ModelVerdict)                (** an inference *)
  | Replay (e : replay_env)                   (** the sleep is over *)
  | Drain
  | Written (ok : bool) (e : park_env).       (** the write came back *)

(** One step of the event loop; an event that does not fit the phase cannot happen. *)
Definition step (o : event) (w : worker) : worker :=
  match o, w_phase w with
  | Record_ v, p =>
      match record v (w_buf w) with
      | Ok b => MkWorker b (_batch w) (onnx_verdicts w) (dlq w) p (w_refused w)
      | Raise _ => w
      end
  | Replay e, Asleep =>
      let '(rows, file) := _try_replay_dlq e (dlq w) in
      MkWorker (w_buf w) (_batch w) (onnx_verdicts w ++ rows) file Replayed (w_refused w)
  | Drain, Replayed =>
      let '(batch, b) := drain (_batch w) (w_buf w) in
      MkWorker b (_batch w) (onnx_verdicts w) (dlq w) (match batch with [] => Asleep | _ => Writing batch end) (w_refused w)
  | Written ok e, Writing batch =>
      if ok then MkWorker (w_buf w) (_batch w) (onnx_verdicts w ++ batch) (dlq w) Asleep (w_refused w)
      else
        let '(file, lost) := _park_to_dlq e batch (dlq w) in
        MkWorker (w_buf w) (_batch w) (onnx_verdicts w) file Asleep (w_refused w ++ lost)
  | _, _ => w
  end.

Definition run (evs : list event) (w : worker) : worker := foldl (fun w o => step o w) w evs.

(** [stop_and_drain], with what each write meets *)
Fixpoint stop_loop (n : nat) (writes : list (bool * park_env)) (w : worker) : worker :=
  match n with
  | O => w
  | S n =>
      let '(batch, b) := drain (_batch w) (w_buf w) in
      match batch with
      | [] => w
      | _ =>
          let '(ok, e) := match writes with x :: _ => x | [] => (true, MkPark true None) end in
          if ok then
            stop_loop n (tail writes) (MkWorker b (_batch w) (onnx_verdicts w ++ batch) (dlq w) (w_phase w) (w_refused w))
          else
            let '(file, lost) := _park_to_dlq e batch (dlq w) in
            MkWorker b (_batch w) (onnx_verdicts w) file (w_phase w) (w_refused w ++ lost)
      end
  end.

Definition stop_and_drain (writes : list (bool * park_env)) (w : worker) : worker :=
  let max_iterations := Z.max 1 (zlen (_buf (w_buf w)) / Z.max 1 (_batch w) + 2) in
  stop_loop (Z.to_nat max_iterations) writes w.
End flush.

(** ** The accuracy of a window *)

Record AccuracySnapshot := MkSnapshot {
  s_model : string;
  s_version : option string;
  sample_count : Z;
  total_rows : Z;
  accuracy : spec_float;
  coverage : spec_float;
  window_start : Z;
  window_end : Z;
}.

(** [WHERE model_name = ? AND timestamp >= ? AND timestamp < ? AND version = ?] *)
Definition in_window (m : string) (v : option string) (start stop : Z) (r : ModelVerdict) : bool :=
  bool_decide (model_name r = m)
  && negb (str_ltb (timestamp r) (isoformat start)) && str_ltb (timestamp r) (isoformat stop)
  && match v with None => true | Some v => bool_decide (version r = Some v) end.

Definition signalled (r : ModelVerdict) : bool := match divergence_signal r with Some _ => true | None => false end.
Definition correct (r : ModelVerdict) : bool := bool_decide (divergence_signal r = Some (prediction r)).

(** [a / b if b else 0.0] *)
Definition ratio (a b : Z) : spec_float :=
  match py_truediv a b with Ok f => f | Raise _ => S754_zero false end.

Definition accuracy_in_window (rows : list ModelVerdict) (m : string) (v : option string) (start stop : Z)
    : AccuracySnapshot :=
  let rows := List.filter (in_window m v start stop) rows in
  let total := zlen rows in
  let with_signal := zlen (List.filter signalled rows) in
  let right := zlen (List.filter correct rows) in
  MkSnapshot m v with_signal total (if with_signal =? 0 then S754_zero false else ratio right with_signal)
    (if total =? 0 then S754_zero false else ratio with_signal total) start stop.

Definition count_verdicts_in_window (rows : list ModelVerdict) (m : string) (start stop : Z) : Z :=
  zlen (List.filter (in_window m None start stop) rows).

(** ** Properties *)

(** *** The buffer *)

(** The buffer is within its bound, which is at least one. *)
Definition bounded (b : buffer) : Prop := 1 <= _max b /\ zlen (_buf b) <= _max b /\ 0 <= _dropped b.

Lemma bounded_init n : bounded (buffer_init n).
Proof. unfold bounded, buffer_init. cbn. rewrite zlen_nil. lia. Qed.

(** A record keeps everything but at most the oldest verdict, which it counts. *)
Lemma buffer_record_spec v b :
  bounded b ->
  exists b' gone, record v b = Ok b' /\ bounded b' /\ _max b' = _max b
    /\ gone ++ _buf b' = _buf b ++ [v] /\ _dropped b' = _dropped b + zlen gone.
Proof.
  unfold bounded, record. intros (H1 & H2 & H3). destruct (_max b <=? zlen (_buf b)) eqn:Hfull.
  - destruct (_buf b) as [|x l] eqn:Hb; [rewrite zlen_nil in *; lia|].
    eexists _, [x]. split; [done|]. cbn [_buf _max _dropped app]. rewrite ?zlen_snoc, ?zlen_cons, ?zlen_nil in *.
    split_and!; try lia; done.
  - eexists _, []. split; [done|]. cbn [_buf _max _dropped app]. rewrite ?zlen_snoc.
    change (zlen (@nil ModelVerdict)) with 0. split_and!; try lia; done.
Qed.

Lemma drain_spec n b :
  bounded b ->
  let '(batch, b') := drain n b in
  batch ++ _buf b' = _buf b /\ bounded b' /\ _max b' = _max b /\ _dropped b' = _dropped b.
Proof.
  unfold bounded, drain. intros (H1 & H2 & H3). cbn. split; [apply take_drop|]. split_and!; try lia.
  unfold zlen in *. rewrite length_drop. lia.
Qed.

(** *** The dead-letter file *)

Section accounts.
Context `{JsonText}.
Import Instances.Lists.

(** Lists up to order, for [aac_reflexivity] *)
#[local] Instance permutation_lift {A} : AAC_lift (@Permutation A) (@Permutation A).
Proof. constructor; apply _. Defined.

(** A verdict that can be parked: it is a verdict, and its text is one line that is read
    back as it was written. *)
Record storable (v : ModelVerdict) : Prop := {
  st_valid : __post_init__ v = Ok v;
  st_reads : round_trips (asdict v);
  st_line : unbroken (to_text (asdict v)) = true;
  st_text : strip (to_text (asdict v)) <> "";
}.

Lemma of_dict_asdict now v : __post_init__ v = Ok v -> of_dict now (asdict v) = Ok v.
Proof.
  destruct v as [m h f p c r t sig src ver]. intros Hv.
  assert (forall o k b d, od_get k d = Some (ostr o) -> opt_field k b d = Ok o) as Hopt.
  { intros o k b d Hk. unfold opt_field. rewrite Hk. by destruct o. }
  unfold of_dict, asdict. cbn [model_name input_hash input_features_json prediction confidence request_id timestamp
    divergence_signal divergence_source version].
  cbn.
  rewrite (Hopt r) by done. cbn. rewrite (Hopt sig) by done. cbn. rewrite (Hopt src) by done. cbn.
  by rewrite (Hopt ver) by done.
Qed.

Lemma lines_of_app a b : lines_of (a ++ b) = (lines_of a +:+ lines_of b)%string.
Proof.
  unfold lines_of. induction a as [|v a IH]; [done|]. cbn [map app]. rewrite !concat_cons, IH. by rewrite app_assoc_s.
Qed.

Lemma splitlines_lines vs :
  Forall storable vs -> splitlines (lines_of vs) = map (fun v => to_text (asdict v)) vs.
Proof.
  induction 1 as [|v vs Hv _ IH]; [done|]. unfold lines_of. cbn [map]. rewrite concat_cons. unfold line_of at 1.
  rewrite app_assoc_s, app_cons. change ("" +:+ String.concat "" (map line_of vs))%string with (lines_of vs).
  unfold splitlines in *. rewrite lines_by_break by (done || apply Hv). by rewrite IH.
Qed.

Lemma recovered_lines now vs : Forall storable vs -> recovered now (map (fun v => to_text (asdict v)) vs) = vs.
Proof.
  unfold recovered. induction 1 as [|v vs Hv _ IH]; [done|]. cbn [map omap list_omap].
  rewrite (st_reads _ Hv). cbn [res_bind]. rewrite of_dict_asdict by apply Hv. by f_equal.
Qed.

Lemma full_lines vs :
  Forall storable vs ->
  List.filter (fun l => negb (bool_decide (strip l = ""))) (map (fun v => to_text (asdict v)) vs)
  = map (fun v => to_text (asdict v)) vs.
Proof.
  induction 1 as [|v vs Hv _ IH]; [done|]. cbn [map List.filter].
  rewrite bool_decide_false by apply Hv. cbn [negb]. by rewrite IH.
Qed.

Definition file_holds (file : option string) (vs : list ModelVerdict) : Prop :=
  match file with Some t => t = lines_of vs | None => vs = [] end.

Definition file_size (file : option string) : Z :=
  match file with Some t => Z.of_nat (String.length t) | None => 0 end.

Lemma park_spec e batch file parked :
  full_after e = None -> file_holds file parked ->
  let '(file', lost) := _park_to_dlq e batch file in
  (lost = [] /\ file_holds file' (parked ++ batch)) \/ (lost = batch /\ file' = file /\ _DLQ_MAX_BYTES <= file_size file).
Proof.
  intros He Hf. unfold _park_to_dlq. rewrite He. fold (file_size file).
  destruct (_DLQ_MAX_BYTES <=? _) eqn:Hcap.
  - right. split_and!; [done..|]. destruct (size_read e); [lia|]. unfold _DLQ_MAX_BYTES in Hcap. lia.
  - left. split; [done|]. cbn. rewrite lines_of_app. destruct file; simpl in *; by subst.
Qed.

Lemma replay_spec e file parked :
  unlinked e = true -> Forall storable parked -> file_holds file parked ->
  let '(rows, file') := _try_replay_dlq e file in
  (rows = [] /\ file_holds file' parked) \/ (rows = parked /\ file' = None).
Proof.
  intros He Hs Hf. unfold _try_replay_dlq. destruct file as [t|]; [|by left]. cbn in Hf. subst t. rewrite He.
  destruct (readable e); cbn [negb]; [|by left]. rewrite splitlines_lines, full_lines by done.
  destruct parked as [|v vs]; [by left|]. pose proof (recovered_lines (r_now e) (v :: vs) Hs) as Hr.
  cbn [map] in *. rewrite Hr. destruct (inserted e); [by right|by left].
Qed.

(** *** Every verdict is accounted for *)

Definition in_flight (w : worker) : list ModelVerdict :=
  match w_phase w with Writing batch => batch | _ => [] end.

(** What was recorded, up to order *)
Definition recorded (evs : list event) : list ModelVerdict :=
  omap (fun o => match o with Record_ v => Some v | _ => None end) evs.

(** The disk takes what is written to it and the file can be removed. *)
Definition calm (o : event) : Prop :=
  match o with
  | Record_ v => storable v
  | Replay e => unlinked e = true
  | Drain => True
  | Written _ e => full_after e = None
  end.

(** [gone] are the verdicts the buffer has counted as dropped, [parked] those of the file. *)
Record accounted (recs gone parked : list ModelVerdict) (w : worker) : Prop := {
  acc_all : recs ≡ₚ gone ++ w_refused w ++ onnx_verdicts w ++ parked ++ in_flight w ++ _buf (w_buf w);
  acc_gone : _dropped (w_buf w) = zlen gone;
  acc_file : file_holds (dlq w) parked;
  acc_bound : bounded (w_buf w);
  acc_ok : Forall storable (parked ++ in_flight w ++ _buf (w_buf w));
}.

Lemma accounted_record recs gone parked w v :
  accounted recs gone parked w -> storable v ->
  exists gone', accounted (recs ++ [v]) gone' parked (step (Record_ v) w) /\ w_refused (step (Record_ v) w) = w_refused w.
Proof.
  intros [Hall Hgone Hfile Hb Hok] Hv. destruct (buffer_record_spec v _ Hb) as (b' & g & Hr & Hb' & _ & Hsplit & Hd).
  cbn [step]. rewrite Hr. exists (gone ++ g). split; [|done]. split; cbn [w_buf w_refused onnx_verdicts dlq].
  - change (in_flight (MkWorker b' _ _ _ _ _)) with (in_flight w). rewrite Hall.
    transitivity (gone ++ w_refused w ++ onnx_verdicts w ++ parked ++ in_flight w ++ (_buf (w_buf w) ++ [v]));
      [by rewrite <- !app_assoc|]. rewrite <- Hsplit. aac_reflexivity.
  - rewrite Hd, zlen_app. lia.
  - done.
  - done.
  - change (in_flight (MkWorker b' _ _ _ _ _)) with (in_flight w).
    apply Forall_app in Hok as [? [? Hbuf]%Forall_app]. rewrite !Forall_app. split_and!; [done..|].
    assert (Forall storable (_buf (w_buf w) ++ [v])) as Hv' by (apply Forall_app; auto).
    rewrite <- Hsplit in Hv'. by apply Forall_app in Hv' as [_ ?].
Qed.

Lemma accounted_replay recs gone parked w e :
  accounted recs gone parked w -> unlinked e = true ->
  exists parked', accounted recs gone parked' (step (Replay e) w) /\ w_refused (step (Replay e) w) = w_refused w.
Proof.
  intros Hacc He. pose proof Hacc as [Hall Hgone Hfile Hb Hok]. pose proof Hok as [Hp [_ Hbuf]%Forall_app]%Forall_app.
  cbn [step]. destruct (w_phase w) eqn:Hph; [|by exists parked..].
  pose proof (replay_spec e _ _ He Hp Hfile) as Hs. destruct (_try_replay_dlq e (dlq w)) as [rows file'].
  unfold in_flight in Hall, Hok. rewrite Hph in Hall, Hok. cbn [app] in Hall, Hok.
  destruct Hs as [[-> Hf]|[-> ->]]; [exists parked|exists []]; (split; [split|done]); cbn; try done.
  - by rewrite app_nil_r.
  - rewrite Hall. aac_reflexivity.
Qed.

Lemma accounted_drain recs gone parked w :
  accounted recs gone parked w -> accounted recs gone parked (step Drain w) /\ w_refused (step Drain w) = w_refused w.
Proof.
  intros Hacc. pose proof Hacc as [Hall Hgone Hfile Hb Hok]. cbn [step]. destruct (w_phase w) eqn:Hph; try done.
  pose proof (drain_spec (_batch w) _ Hb) as Hd. destruct (drain _ _) as [batch b] eqn:Hdr.
  destruct Hd as (Hsplit & Hb' & _ & Hdrop). split; [|done]. unfold in_flight in Hall, Hok. rewrite Hph in Hall, Hok.
  cbn [app] in Hall, Hok. rewrite <- Hsplit in Hall, Hok.
  assert (in_flight (MkWorker b (_batch w) (onnx_verdicts w) (dlq w)
            (match batch with [] => Asleep | _ => Writing batch end) (w_refused w)) = batch) as Hfl by by destruct batch.
  split; cbn [w_buf w_refused onnx_verdicts dlq]; rewrite ?Hfl; try done. congruence.
Qed.

Lemma accounted_written recs gone parked w ok e :
  accounted recs gone parked w -> full_after e = None ->
  exists parked', accounted recs gone parked' (step (Written ok e) w)
    /\ (w_refused (step (Written ok e) w) = w_refused w \/ _DLQ_MAX_BYTES <= file_size (dlq w)).
Proof.
  intros Hacc He. pose proof Hacc as [Hall Hgone Hfile Hb Hok]. cbn [step].
  destruct (w_phase w) as [| |batch] eqn:Hph; [exists parked; auto..|]. unfold in_flight in Hall, Hok. rewrite Hph in Hall, Hok.
  pose proof Hok as [Hp [Hba Hbuf]%Forall_app]%Forall_app. destruct ok.
  - exists parked. split; [split|by left]; cbn; try done; [|by rewrite Forall_app].
    rewrite Hall. aac_reflexivity.
  - pose proof (park_spec e batch _ _ He Hfile) as Hs. destruct (_park_to_dlq e batch (dlq w)) as [file' lost].
    destruct Hs as [[-> Hf]|(-> & -> & Hcap)].
    + exists (parked ++ batch). cbn [w_refused]. rewrite app_nil_r. split; [split|by left]; cbn; try done.
      * rewrite Hall. aac_reflexivity.
      * by rewrite !Forall_app.
    + exists parked. split; [split|by right]; cbn; try done; [|by rewrite Forall_app]. rewrite Hall. aac_reflexivity.
Qed.

Lemma accounted_step recs gone parked w o :
  accounted recs gone parked w -> calm o ->
  exists gone' parked', accounted (recs ++ recorded [o]) gone' parked' (step o w)
    /\ (w_refused (step o w) = w_refused w \/ _DLQ_MAX_BYTES <= file_size (dlq w)).
Proof.
  intros Hacc Hc. destruct o as [v|e| |ok e]; cbn [recorded omap list_omap]; rewrite ?app_nil_r.
  - destruct (accounted_record _ _ _ _ _ Hacc Hc) as (g & ? & ?). exists g, parked. auto.
  - destruct (accounted_replay _ _ _ _ _ Hacc Hc) as (p & ? & ?). exists gone, p. auto.
  - destruct (accounted_drain _ _ _ _ Hacc) as [? ?]. exists gone, parked. auto.
  - destruct (accounted_written _ _ _ _ ok _ Hacc Hc) as (p & ? & ?). exists gone, p. auto.
Qed.

Lemma step_max o w : _max (w_buf (step o w)) = _max (w_buf w).
Proof.
  destruct o as [v|e| |ok e]; cbn [step]; destruct (w_phase w); try done.
  1-3: unfold record; destruct (_ <=? _); [destruct (_buf _)|]; done.
  - by destruct (_try_replay_dlq _ _).
  - destruct ok; [done|]. by destruct (_park_to_dlq _ _ _).
Qed.

Lemma run_buf_max n batch evs : _max (w_buf (run evs (worker_init n batch))) = Z.max 1 n.
Proof.
  induction evs as [|o evs IH] using rev_ind; [done|]. unfold run in *. rewrite foldl_app. cbn [foldl].
  by rewrite step_max.
Qed.

Lemma accounted_init n batch : accounted [] [] [] (worker_init n batch).
Proof. split; try done; apply bounded_init. Qed.

Lemma accounted_run n batch evs :
  Forall calm evs -> exists gone parked, accounted (recorded evs) gone parked (run evs (worker_init n batch)).
Proof.
  induction evs as [|o evs IH] using rev_ind; intros Hc; [exists [], []; apply accounted_init|].
  apply Forall_app in Hc as [Hc [Ho _]%Forall_cons]. destruct (IH Hc) as (gone & parked & Hacc).
  destruct (accounted_step _ _ _ _ _ Hacc Ho) as (gone' & parked' & Hacc' & _). exists gone', parked'.
  unfold run. rewrite foldl_app. unfold recorded in *. by rewrite omap_app.
Qed.

Lemma refused_run n batch evs :
  Forall calm evs ->
  (forall k, file_size (dlq (run (take k evs) (worker_init n batch))) < _DLQ_MAX_BYTES) ->
  w_refused (run evs (worker_init n batch)) = [].
Proof.
  induction evs as [|o evs IH] using rev_ind; intros Hc Hsmall; [done|].
  apply Forall_app in Hc as [Hc [Ho _]%Forall_cons]. destruct (accounted_run n batch evs Hc) as (gone & parked & Hacc).
  destruct (accounted_step _ _ _ _ _ Hacc Ho) as (gone' & parked' & _ & [Hr|Hcap]).
  - unfold run in *. rewrite foldl_app. cbn [foldl]. rewrite Hr. apply IH; [done|]. intros k.
    specialize (Hsmall (Nat.min k (length evs))). rewrite take_app_le in Hsmall by lia.
    destruct (decide (k <= length evs)%nat); [by rewrite Nat.min_l in Hsmall by lia|].
    rewrite Nat.min_r in Hsmall by lia. rewrite take_ge by lia. by rewrite take_ge in Hsmall by lia.
  - specialize (Hsmall (length evs)). rewrite take_app_length in Hsmall. unfold run in *. lia.
Qed.

(** Every verdict of a classifier is accounted for.  In every interleaving of
    inferences with the flush worker, with writes that fail and a dead-letter file that
    cannot be read or replayed, each recorded verdict is exactly once in the table, in
    the dead-letter file, in the batch being written, in the buffer, among the drops the
    buffer counts or among the batches the worker logs as refused; and none is refused
    while the file stays under its cap. *)
Theorem verdicts_accounted n batch evs :
  Forall calm evs ->
  let w := run evs (worker_init n batch) in
  (exists gone parked,
     recorded evs ≡ₚ gone ++ w_refused w ++ onnx_verdicts w ++ parked ++ in_flight w ++ _buf (w_buf w)
     /\ _dropped (w_buf w) = zlen gone
     /\ (forall now, recovered now (splitlines (default "" (dlq w))) = parked)
     /\ zlen (_buf (w_buf w)) <= Z.max 1 n)
  /\ ((forall k, file_size (dlq (run (take k evs) (worker_init n batch))) < _DLQ_MAX_BYTES) -> w_refused w = []).
Proof.
  intros Hc w. split; [|by apply refused_run]. destruct (accounted_run n batch evs Hc) as (gone & parked & Hacc).
  exists gone, parked. pose proof Hacc as [Hall Hgone Hfile Hb Hok]. split_and!; try done.
  - intros now. apply Forall_app in Hok as [Hp _]. fold w in Hfile. destruct (dlq w) as [t|]; cbn in Hfile; subst; [|done].
    cbn [default from_option id]. change (id (lines_of parked)) with (lines_of parked).
    rewrite splitlines_lines by done. by apply recovered_lines.
  - rewrite <- (run_buf_max n batch evs). apply Hb.
Qed.

(** *** Shutdown *)

Lemma stop_loop_drains n : forall writes w,
  1 <= _batch w -> forallb fst writes = true -> zlen (_buf (w_buf w)) <= Z.of_nat n * _batch w ->
  onnx_verdicts (stop_loop n writes w) = onnx_verdicts w ++ _buf (w_buf w) /\ _buf (w_buf (stop_loop n writes w)) = []
  /\ dlq (stop_loop n writes w) = dlq w.
Proof.
  induction n as [|n IH]; intros writes w Hb Hw Hn.
  - cbn. assert (_buf (w_buf w) = []) as -> by (apply length_zero_iff_nil; unfold zlen in Hn; lia). by rewrite app_nil_r.
  - cbn [stop_loop]. unfold drain. destruct (take _ _) as [|v vs] eqn:Ht.
    + assert (_buf (w_buf w) = []) as ->; [|by rewrite app_nil_r].
      apply (f_equal length) in Ht. rewrite length_take in Ht. simpl in Ht. apply length_zero_iff_nil. lia.
    + rewrite <- Ht. clear v vs Ht.
      assert (forall x ws, writes = x :: ws -> x.1 = true /\ forallb fst ws = true) as Hfst
        by (intros x ws ->; by apply andb_true_iff in Hw).
      assert (exists ok e, match writes with x :: _ => x | [] => (true, MkPark true None) end = (ok, e) /\ ok = true
              /\ forallb fst (tail writes) = true) as (ok & e & -> & -> & Htl).
      { destruct writes as [|[ok e] ws]; [by eexists _, _|]. destruct (Hfst _ _ eq_refl). by exists ok, e. }
      destruct (IH (tail writes) (MkWorker (MkBuffer (drop (Z.to_nat (_batch w)) (_buf (w_buf w))) (_dropped (w_buf w))
        (_max (w_buf w))) (_batch w) (onnx_verdicts w ++ take (Z.to_nat (_batch w)) (_buf (w_buf w))) (dlq w) (w_phase w)
        (w_refused w))) as (Ho & Hnil & Hd); [done..| |].
      * cbn. unfold zlen in *. rewrite length_drop. lia.
      * rewrite Ho. cbn [onnx_verdicts w_buf _buf]. by rewrite <- app_assoc, take_drop.
Qed.

(** A graceful shutdown loses verdicts.  When the writes succeed, [stop_and_drain]
    leaves the buffer empty and everything in the table; but when the first write fails
    it parks that batch and stops: all that is behind it in the buffer is neither in the
    table nor in the dead-letter file when the process ends. *)
Theorem shutdown_parks_one_batch w writes :
  1 <= _batch w -> _batch w < zlen (_buf (w_buf w)) -> file_size (dlq w) < _DLQ_MAX_BYTES ->
  (forallb fst writes = true ->
     onnx_verdicts (stop_and_drain writes w) = onnx_verdicts w ++ _buf (w_buf w)
     /\ _buf (w_buf (stop_and_drain writes w)) = [])
  /\ (forall e rest, full_after e = None -> writes = (false, e) :: rest ->
     let n := Z.to_nat (_batch w) in
     onnx_verdicts (stop_and_drain writes w) = onnx_verdicts w
     /\ dlq (stop_and_drain writes w) = Some (default "" (dlq w) +:+ lines_of (take n (_buf (w_buf w))))
     /\ _buf (w_buf (stop_and_drain writes w)) = drop n (_buf (w_buf w))
     /\ drop n (_buf (w_buf w)) <> []).
Proof.
  intros Hb Hlong Hfile. split.
  - intros Hw. destruct (stop_loop_drains (Z.to_nat (Z.max 1 (zlen (_buf (w_buf w)) / Z.max 1 (_batch w) + 2))) writes w)
      as (? & ? & _); [done..| |done]. rewrite (Z.max_r 1 (_batch w)) by lia.
    pose proof (Z.div_mod (zlen (_buf (w_buf w))) (_batch w)).
    pose proof (Z.mod_pos_bound (zlen (_buf (w_buf w))) (_batch w)). pose proof (zlen_nonneg (_buf (w_buf w))).
    rewrite Z2Nat.id by lia. nia.
  - intros e rest He -> n. unfold stop_and_drain. destruct (Z.to_nat (Z.max 1 _)) as [|k] eqn:Hk; [lia|].
    cbn [stop_loop]. unfold drain. destruct (take _ _) as [|v vs] eqn:Ht.
    + apply (f_equal length) in Ht. rewrite length_take in Ht. unfold zlen in *. simpl in Ht. lia.
    + rewrite <- Ht. unfold _park_to_dlq. rewrite He. fold (file_size (dlq w)).
      destruct (_DLQ_MAX_BYTES <=? (if size_read e then file_size (dlq w) else 0)) eqn:Hcap.
      { destruct (size_read e); [lia|]. unfold _DLQ_MAX_BYTES in Hcap. lia. }
      cbn. split_and!; try done. intros Hd%(f_equal length). rewrite length_drop in Hd. unfold zlen, n in *. simpl in Hd. lia.
Qed.
End accounts.

(** ** Runs *)

Module VerdictRuns.
Definition verdict (p t : string) : ModelVerdict :=
  MkVerdict "intent" "h" "{}" p (PInt 1) None t None None None.

(** Two verdicts and their texts *)
Definition v1 := verdict "a" "2026-04-15T00:00:01+00:00".
Definition v2 := verdict "b" "2026-04-15T00:00:02+00:00".
#[local] Instance codec : JsonText :=
  {| to_text := fun v => if py_eqb v (asdict v1) then "v1" else if py_eqb v (asdict v2) then "v2" else "?";
     of_text := fun s => if bool_decide (s = "v1") then Ok (asdict v1)
                         else if bool_decide (s = "v2") then Ok (asdict v2) else Raise (ValueError "json") |}.

Definition failing : event := Written false (MkPark true None).
Definition day : list event :=
  [Record_ v1; Replay (MkReplay true true true ""); Drain; Record_ v2; failing; Replay (MkReplay true false true "")].

Lemma storable_demo v : v = v1 \/ v = v2 -> storable v.
Proof. by intros [-> | ->]; split; vm_compute. Qed.

Lemma verdicts_accounted_witness :
  let w := run day (worker_init 10 5) in
  dlq w = Some (line_of v1) /\ _buf (w_buf w) = [v2] /\ w_refused w = [].
Proof.
  split; [vm_compute; reflexivity|]. split; [vm_compute; reflexivity|].
  apply (verdicts_accounted 10 5 day).
  - unfold day. repeat constructor; cbn [calm]; try done; apply storable_demo; auto.
  - intros k. do 7 (destruct k as [|k]; [vm_compute; reflexivity|]). vm_compute; reflexivity.
Defined.

Lemma shutdown_parks_one_batch_witness :
  let w := MkWorker (MkBuffer [v1; v2] 0 10) 1 [] None Asleep [] in
  let w' := stop_and_drain [(false, MkPark true None)] w in
  dlq w' = Some (line_of v1) /\ onnx_verdicts w' = [] /\ _buf (w_buf w') = [v2].
Proof.
  pose proof (proj2 (shutdown_parks_one_batch (MkWorker (MkBuffer [v1; v2] 0 10) 1 [] None Asleep [])
    [(false, MkPark true None)] ltac:(vm_compute; discriminate) ltac:(reflexivity) ltac:(reflexivity))
    (MkPark true None) [] eq_refl eq_refl) as (H1 & H2 & H3 & _).
  exact (conj H2 (conj H1 H3)).
Defined.
End VerdictRuns.
