(* ===== verification/ModelRegistry.v ===== *)
(** * The model registry (intelligence/registry.py, reload.py, api.py)

    The files of the classifiers: production, candidates, archive; promotion and rollback;
    the reload of the running sessions; and the HTTP handlers that promote, reject and
    roll back.  [promote] and [rollback] hold the model's lock and do not await inside
    it, so each is one step. *)
From Stdlib Require Import Permutation.
From S2P Require Import Prelude ODict PyVal PyStr PyObj.

Local Open Scope Z_scope.

(** ** The file system

    The files below the base path: a directory and a name give a content.  Names hold no
    slash. *)

Inductive dir := Production | Candidates | Archive | Failed.

#[export] Instance dir_eq_dec : EqDecision dir.
Proof. solve_decision. Defined.

#[export] Instance dir_countable : Countable dir.
Proof.
  refine (inj_countable' (fun d => match d with Production => 0 | Candidates => 1 | Archive => 2 | Failed => 3 end)%nat
    (fun n => match n with 0 => Production | 1 => Candidates | 2 => Archive | _ => Failed end)%nat _).
  by intros [].
Defined.

Abbreviation path := (dir * string)%type.
Abbreviation files := (gmap path string).

Definition file_not_found {A} : res A := Raise (OtherError "FileNotFoundError").

(** [os.rename]: an existing target is replaced. *)
Definition rename (src dst : path) (f : files) : res files :=
  match f !! src with
  | Some content => Ok (<[dst := content]> (delete src f))
  | None => file_not_found
  end.

Definition exists_ (p : path) (f : files) : bool := match f !! p with Some _ => true | None => false end.

(** [Path.iterdir], as far as files go *)
Definition iterdir (d : dir) (f : files) : list string :=
  omap (fun '((d', n), _) => if decide (d' = d) then Some n else None) (map_to_list f).

(** [Path.suffix == ".onnx"]: a name that is nothing but the suffix has none. *)
Definition is_onnx (name : string) : bool := endswith ".onnx" name && negb (bool_decide (name = ".onnx")).

(** ** Names *)

Definition ALLOWED_MODEL_NAMES : list string := ["intent"; "schema_mapper"; "safety"].

Definition _validate_model_name (model : string) : res unit :=
  if bool_decide (model ∈ ALLOWED_MODEL_NAMES) then Ok tt else Raise (ValueError "unknown model name").

Definition _validate_archived_filename (filename model : string) : res unit :=
  if contains "/" filename || contains backslash filename || contains ".." filename
  then Raise (ValueError "invalid archived_filename")
  else if negb (startswith (model +:+ "-") filename) then Raise (ValueError "does not belong to model") else Ok tt.

Definition production_name (model : string) : string := model +:+ ".onnx".
Definition candidate_name (model version : string) : string := model +:+ "-" +:+ version +:+ ".onnx".
Definition marker_name (model : string) : string := "." +:+ model +:+ ".active".

(** ** The registry *)

Record registry := MkRegistry {
  base : files;
  _generations : list (string * Z);
  emitted : list (string * string);     (** the calls every promotion listener has had *)
}.

Definition init (f : files) : registry := MkRegistry f (map (fun m => (m, 0)) ALLOWED_MODEL_NAMES) [].

Definition with_base (f : files) (r : registry) : registry := MkRegistry f (_generations r) (emitted r).

Definition get_generation (model : string) (r : registry) : res Z :=
  let! _ := _validate_model_name model in
  match od_get model (_generations r) with Some g => Ok g | None => Raise (KeyError model) end.

Definition bump (model : string) (r : registry) : registry :=
  MkRegistry (base r) (od_set model (default 0 (od_get model (_generations r)) + 1) (_generations r)) (emitted r).

Definition _emit_promotion (model version : string) (r : registry) : registry :=
  MkRegistry (base r) (_generations r) (emitted r ++ [(model, version)]).

Definition production_path (model : string) : res path :=
  let! _ := _validate_model_name model in Ok (Production, production_name model).

Definition candidate_path (model version : string) : res path :=
  let! _ := _validate_model_name model in Ok (Candidates, candidate_name model version).

(** [p.stem] of a name with the suffix *)
Definition stem (name : string) : string := stake (String.length name - 5) name.

Definition list_production_models (r : registry) : list string :=
  isort str_leb
    (List.filter (fun s => negb (startswith "." s) && negb (contains "-" s) && bool_decide (s ∈ ALLOWED_MODEL_NAMES))
       (map stem (List.filter is_onnx (iterdir Production (base r))))).

(** The candidate regex on a name: the model is everything before the first dash (it
    holds none itself), the version the rest. *)
Definition model_char (c : ascii) : bool := ((97 <=? code c) && (code c <=? 122)) || (code c =? 95).
Definition version_char (c : ascii) : bool :=
  ((97 <=? code c) && (code c <=? 122)) || ((65 <=? code c) && (code c <=? 90)) || is_digit c
  || (code c =? 95) || (code c =? 46) || (code c =? 45).

Definition parse_candidate (name : string) : option (string * string) :=
  let s := stem name in
  match split_on "-"%char s with
  | m :: (_ :: _) as parts =>
      let v := sdrop (S (String.length m)) s in
      if negb (bool_decide (m = "")) && sforall model_char m && negb (bool_decide (v = "")) && sforall version_char v
      then Some (m, v) else None
  | _ => None
  end.

Definition pair_leb (a b : string * string) : bool :=
  str_ltb (fst a) (fst b) || (bool_decide (fst a = fst b) && str_leb (snd a) (snd b)).

Definition list_candidates (r : registry) : list (string * string) :=
  isort pair_leb
    (List.filter (fun c => bool_decide (fst c ∈ ALLOWED_MODEL_NAMES))
       (omap parse_candidate (List.filter is_onnx (iterdir Candidates (base r))))).

(** *** The shadow marker *)

Definition enable_shadow (model version : string) (r : registry) : res registry :=
  let! _ := _validate_model_name model in
  if exists_ (Candidates, candidate_name model version) (base r)
  then Ok (with_base (<[(Candidates, marker_name model) := version]> (base r)) r)
  else file_not_found.

Definition disable_shadow (model : string) (r : registry) : res registry :=
  let! _ := _validate_model_name model in Ok (with_base (delete (Candidates, marker_name model) (base r)) r).

(** The version of the active candidate; a stale marker is removed. *)
Definition active_candidate (model : string) (r : registry) : res (registry * option string) :=
  let! _ := _validate_model_name model in
  match base r !! (Candidates, marker_name model) with
  | None => Ok (r, None)
  | Some text =>
      let version := strip text in
      if bool_decide (version = "") then Ok (r, None)
      else if exists_ (Candidates, candidate_name model version) (base r) then Ok (r, Some version)
      else Ok (with_base (delete (Candidates, marker_name model) (base r)) r, None)
  end.

(** *** Promotion and rollback *)

Definition archived (model ts suffix : string) : string := model +:+ "-archived-" +:+ ts +:+ suffix +:+ ".onnx".

(** The first free name among the counters [i], [i + 1], ... *)
Fixpoint free_archive (n : nat) (i : Z) (model ts : string) (f : files) : res string :=
  match n with
  | O => Raise (OtherError "RuntimeError")
  | S n =>
      let alt := archived model ts ("-" +:+ z_str i) in
      if exists_ (Archive, alt) f then free_archive n (i + 1) model ts f else Ok alt
  end.

(** [ts] is the UTC time of the call, as in 20260415T235959.000000Z. *)
Definition _archive_filename (model ts : string) (f : files) : res string :=
  let candidate := archived model ts "" in
  if exists_ (Archive, candidate) f then free_archive 999 1 model ts f else Ok candidate.

(** The production file, if any, goes to the archive. *)
Definition retire (model ts : string) (f : files) : res files :=
  let prod := (Production, production_name model) in
  if exists_ prod f then let! name := _archive_filename model ts f in rename prod (Archive, name) f else Ok f.

Definition promote (model version ts : string) (r : registry) : res registry :=
  let! _ := _validate_model_name model in
  let cand := (Candidates, candidate_name model version) in
  if exists_ cand (base r) then
    let! f := retire model ts (base r) in
    let! f := rename cand (Production, production_name model) f in
    Ok (_emit_promotion model version (bump model (with_base f r)))
  else file_not_found.

Definition rollback (model archived_filename ts : string) (r : registry) : res registry :=
  let! _ := _validate_model_name model in
  let! _ := _validate_archived_filename archived_filename model in
  let target := (Archive, archived_filename) in
  if exists_ target (base r) then
    let! f := retire model ts (base r) in
    let! f := rename target (Production, production_name model) f in
    Ok (bump model (with_base f r))
  else file_not_found.

(** The archived files of a model in the order of their names; the last one is restored.
    (the handler and the validator of post-promotion regressions) *)
Definition archive_matches (model : string) (r : registry) : list string :=
  isort str_leb (List.filter (fun n => is_onnx n && startswith (model +:+ "-") n) (iterdir Archive (base r))).

Definition latest_archive (model : string) (r : registry) : option string := last (archive_matches model r).

(** ** Lifecycle events

    The rows of the mirror table, in the order in which they were written; their
    timestamp text is that of a clock reading.  The payload is stored as JSON. *)

Inductive EventType :=
  | TRAINING_DATASET_FINGERPRINT | CANDIDATE_CREATED | SHADOW_VALIDATION_COMPLETE | MODEL_PROMOTED
  | MODEL_REJECTED | MODEL_ROLLED_BACK | MODEL_PROMOTION_BLOCKED.

#[export] Instance event_type_eq_dec : EqDecision EventType.
Proof. solve_decision. Defined.

Record LifecycleEvent := MkEvent { event_type : EventType; payload : dict; e_timestamp : Z }.

Definition build_promotion_event (model version dataset_hash : string) (metrics : dict) (approver : string) (now : Z)
    : LifecycleEvent :=
  MkEvent MODEL_PROMOTED
    [("model_name", PStr model); ("candidate_version", PStr version); ("dataset_hash", PStr dataset_hash);
     ("shadow_metrics", PDict metrics); ("approver", PStr approver)] now.

Definition build_model_rejected (model version reason stage : string) (now : Z) : LifecycleEvent :=
  MkEvent MODEL_REJECTED
    [("model_name", PStr model); ("candidate_version", PStr version); ("reason", PStr reason); ("stage", PStr stage)] now.

Definition build_rollback_event (model : string) (from_version : pyval) (to_archive reason : string)
    (delta sample_count : option pyval) (now : Z) : LifecycleEvent :=
  MkEvent MODEL_ROLLED_BACK
    ([("model_name", PStr model); ("from_version", from_version); ("to_archive", PStr to_archive); ("reason", PStr reason)]
     ++ match delta with Some d => [("delta", d)] | None => [] end
     ++ match sample_count with Some n => [("sample_count", n)] | None => [] end) now.

Definition build_shadow_validation_complete (model version : string) (metrics : dict) (passed : bool) (now : Z)
    : LifecycleEvent :=
  MkEvent SHADOW_VALIDATION_COMPLETE
    [("model_name", PStr model); ("candidate_version", PStr version); ("metrics", PDict metrics); ("passed", PBool passed)]
    now.

Definition of_type (t : EventType) (e : LifecycleEvent) : bool := bool_decide (event_type e = t).

(** [SELECT ... WHERE event_type = 'model_promoted' ORDER BY written_at DESC] *)
Definition promotions (mirror : list LifecycleEvent) : list LifecycleEvent :=
  List.filter (of_type MODEL_PROMOTED) (rev mirror).

(** The version of the newest promotion of the model, if it is a string *)
Definition current_version (mirror : list LifecycleEvent) (model : string) : option string :=
  match List.filter (fun e => eq_str (dget "model_name" (payload e)) model) (promotions mirror) with
  | e :: _ => match dget "candidate_version" (payload e) with PStr v => Some v | _ => None end
  | [] => None
  end.

(** ** Reloading (reload.py)

    A session is the content it was built from; [builds] says whether ONNX accepts it. *)

Record ReloadState := MkReload {
  rs_model : string;
  last_generation : Z;
  rs_version : option string;
  session : option string;
}.

Definition maybe_reload (builds : string -> bool) (mirror : list LifecycleEvent) (r : registry) (s : ReloadState)
    : ReloadState :=
  match get_generation (rs_model s) r with
  | Raise _ => s
  | Ok current =>
      if current =? last_generation s then s
      else
        match base r !! (Production, production_name (rs_model s)) with
        | Some content =>
            if builds content then MkReload (rs_model s) current (current_version mirror (rs_model s)) (Some content)
            else MkReload (rs_model s) current (rs_version s) (session s)
        | None => MkReload (rs_model s) current (rs_version s) (session s)
        end
  end.

(** ** The handlers (api.py)

    The mirror row of an event is written by the lifecycle writer when there is one;
    writing it awaits the ledger, so other requests run before it. *)

Record sys := MkSys { reg : registry; mirror : list LifecycleEvent }.

Definition _write_lifecycle_event (writer : bool) (e : LifecycleEvent) (s : sys) : sys :=
  MkSys (reg s) (if writer then mirror s ++ [e] else mirror s).

Inductive reply := Status (code : Z) | Done (body : dict).

(** The newest promotion of the model: [_last_promotion_per_model(db).get(model)].  A
    model name that is no string is not one the caller can ask for. *)
Definition last_promotion (mirror : list LifecycleEvent) (model : string) : option LifecycleEvent :=
  match List.filter (fun e => eq_str (dget "model_name" (payload e)) model) (promotions mirror) with
  | e :: _ => Some e
  | [] => None
  end.

Definition already_promoted (db : bool) (model version : string) (s : sys) : bool :=
  db && match last_promotion (mirror s) model with
        | Some e => eq_str (dget "candidate_version" (payload e)) version
        | None => false
        end.

(** The status for an exception of the registry; what is not caught is a 500. *)
Definition raised_status (e : exn) : Z :=
  if decide (e = OtherError "FileNotFoundError") then 404 else match e with ValueError _ => 400 | _ => 500 end.

(** [promote_candidate] up to its event *)
Definition promote_files (db : bool) (model version ts : string) (s : sys) : sys * option reply :=
  if negb (bool_decide (model ∈ ALLOWED_MODEL_NAMES)) then (s, Some (Status 400))
  else if already_promoted db model version s then (s, Some (Status 409))
  else if negb (exists_ (Candidates, candidate_name model version) (base (reg s))) then (s, Some (Status 404))
  else
    match promote model version ts (reg s) with
    | Ok r => match disable_shadow model r with
              | Ok r => (MkSys r (mirror s), None)
              | Raise _ => (MkSys r (mirror s), Some (Status 500))
              end
    | Raise e => (s, Some (Status (raised_status e)))
    end.

Definition promote_candidate (db writer : bool) (model version ts approver : string) (now : Z) (s : sys) : sys * reply :=
  match promote_files db model version ts s with
  | (s, Some answer) => (s, answer)
  | (s, None) =>
      (_write_lifecycle_event writer (build_promotion_event model version "" [] approver now) s,
       Done [("promoted", PBool true); ("model_name", PStr model); ("version", PStr version); ("approver", PStr approver)])
  end.

Definition reject_candidate (writer : bool) (model version reason : string) (now : Z) (s : sys) : sys * reply :=
  let name := candidate_name model version in
  match rename (Candidates, name) (Failed, name) (base (reg s)) with
  | Raise _ => (s, Status 404)
  | Ok f =>
      let reason := if bool_decide (strip reason = "") then "manual_rejection" else strip reason in
      let cleared :=
        let! '(r, active) := active_candidate model (with_base f (reg s)) in
        match active with
        | Some v => if bool_decide (v = version) then disable_shadow model r else Ok r
        | None => disable_shadow model r
        end in
      match cleared with
      | Raise _ => (MkSys (with_base f (reg s)) (mirror s), Status 500)
      | Ok r =>
          (_write_lifecycle_event writer (build_model_rejected model version reason "manual" now) (MkSys r (mirror s)),
           Done [("rejected", PBool true); ("model_name", PStr model); ("version", PStr version); ("reason", PStr reason)])
      end
  end.

Definition rollback_model (writer : bool) (model ts approver : string) (now : Z) (s : sys) : sys * reply :=
  match latest_archive model (reg s) with
  | None => (s, Status 404)
  | Some target =>
      match rollback model target ts (reg s) with
      | Raise e => (s, Status (raised_status e))
      | Ok r =>
          let from_version := match last_promotion (mirror s) model with
                              | Some e => dget "candidate_version" (payload e) | None => PNone end in
          (_write_lifecycle_event writer
             (build_rollback_event model from_version target ("manual rollback by " +:+ approver) None None now)
             (MkSys r (mirror s)),
           Done [("rolled_back", PBool true); ("model_name", PStr model); ("restored_from", PStr target);
                 ("approver", PStr approver)])
      end
  end.

(** ** Properties *)

Lemma validate_ok model u : _validate_model_name model = Ok u -> model ∈ ALLOWED_MODEL_NAMES.
Proof. unfold _validate_model_name. by case_bool_decide. Qed.

Lemma validate_allowed model : model ∈ ALLOWED_MODEL_NAMES -> _validate_model_name model = Ok tt.
Proof. intros. unfold _validate_model_name. by rewrite bool_decide_true. Qed.

(** *** Files *)

(** Model files are those whose names do not start with a dot: the markers' do. *)
Definition visible (p : path) : bool := negb (startswith "." p.2).

(** The contents of the model files, in no particular order *)
Definition contents (f : files) : list string :=
  omap (fun '(p, c) => if visible p then Some c else None) (map_to_list f).

Lemma contents_insert p c f :
  f !! p = None -> contents (<[p := c]> f) ≡ₚ (if visible p then [c] else []) ++ contents f.
Proof. intros Hp. unfold contents. rewrite map_to_list_insert by done. cbn. by destruct (visible p). Qed.

Lemma contents_delete p c f : f !! p = Some c -> (if visible p then [c] else []) ++ contents (delete p f) ≡ₚ contents f.
Proof.
  intros Hp. rewrite <- contents_insert by apply lookup_delete_eq. by rewrite insert_delete_id.
Qed.

Lemma contents_hidden p f f' :
  visible p = false -> delete p f' = delete p f -> contents f' ≡ₚ contents f.
Proof.
  intros Hv Hd. assert (forall f, contents f ≡ₚ contents (delete p f)) as Hdel.
  { intros g. destruct (g !! p) as [c|] eqn:Hg; [|by rewrite delete_id]. rewrite <- (contents_delete p c g) by done.
    by rewrite Hv. }
  by rewrite (Hdel f'), (Hdel f), Hd.
Qed.

Lemma rename_ok src dst f f' :
  rename src dst f = Ok f' -> exists c, f !! src = Some c /\ f' = <[dst := c]> (delete src f).
Proof. unfold rename. destruct (f !! src); [|done]. intros [= <-]. eauto. Qed.

Lemma rename_contents src dst f f' :
  rename src dst f = Ok f' -> f !! dst = None -> visible src = visible dst -> contents f' ≡ₚ contents f.
Proof.
  intros (c & Hs & ->)%rename_ok Hd Hv. rewrite contents_insert by (apply lookup_delete_None; auto).
  rewrite <- Hv. by apply contents_delete.
Qed.

Lemma exists_true p f : exists_ p f = true <-> exists c, f !! p = Some c.
Proof. unfold exists_. destruct (f !! p); naive_solver. Qed.

Lemma exists_false p f : exists_ p f = false <-> f !! p = None.
Proof. unfold exists_. destruct (f !! p); naive_solver. Qed.

(** The archive name is new and belongs to the model. *)
Lemma free_archive_spec n : forall i model ts f name,
  free_archive n i model ts f = Ok name -> exists_ (Archive, name) f = false /\ exists suffix, name = archived model ts suffix.
Proof.
  induction n as [|n IH]; intros i model ts f name Hr; [done|]. cbn [free_archive] in Hr.
  destruct (exists_ _ _) eqn:He; [by eapply IH|]. injection Hr as <-. eauto.
Qed.

Lemma archive_filename_spec model ts f name :
  _archive_filename model ts f = Ok name -> f !! (Archive, name) = None /\ exists suffix, name = archived model ts suffix.
Proof.
  unfold _archive_filename. intros Hr. rewrite <- exists_false. destruct (exists_ _ _) eqn:He; [by eapply free_archive_spec|].
  injection Hr as <-. eauto.
Qed.

Lemma visible_archived model ts s : model ∈ ALLOWED_MODEL_NAMES -> visible (Archive, archived model ts s) = true.
Proof. unfold ALLOWED_MODEL_NAMES. set_unfold. by intros [-> |[-> |[-> |[]]]]. Qed.

Lemma visible_production model : model ∈ ALLOWED_MODEL_NAMES -> visible (Production, production_name model) = true.
Proof. unfold ALLOWED_MODEL_NAMES. set_unfold. by intros [-> |[-> |[-> |[]]]]. Qed.

Lemma visible_candidate model version :
  model ∈ ALLOWED_MODEL_NAMES -> visible (Candidates, candidate_name model version) = true.
Proof. unfold ALLOWED_MODEL_NAMES. set_unfold. by intros [-> |[-> |[-> |[]]]]. Qed.

Lemma visible_of_model model name d :
  model ∈ ALLOWED_MODEL_NAMES -> startswith (model +:+ "-") name = true -> visible (d, name) = true.
Proof.
  unfold ALLOWED_MODEL_NAMES. intros Hm Hs. apply startswith_inv in Hs as (t & ->). set_unfold.
  by destruct Hm as [-> |[-> |[-> |[]]]].
Qed.

(** What retiring does: the production file moves to a new archive name. *)
Lemma retire_spec model ts f f' :
  model ∈ ALLOWED_MODEL_NAMES -> retire model ts f = Ok f' ->
  (f !! (Production, production_name model) = None /\ f' = f)
  \/ (exists c name suffix, f !! (Production, production_name model) = Some c /\ f !! (Archive, name) = None
        /\ name = archived model ts suffix /\ f' = <[(Archive, name) := c]> (delete (Production, production_name model) f)).
Proof.
  unfold retire. intros Hm Hr. destruct (exists_ _ _) eqn:He.
  - right. unbind Hr. apply archive_filename_spec in Hrun as [Hnone (s & Hn)]. apply rename_ok in Hr as (c & Hc & ->).
    by exists c, a, s.
  - left. apply exists_false in He. by injection Hr as <-.
Qed.

Lemma retire_contents model ts f f' :
  model ∈ ALLOWED_MODEL_NAMES -> retire model ts f = Ok f' ->
  contents f' ≡ₚ contents f /\ f' !! (Production, production_name model) = None.
Proof.
  intros Hm [(? & ->)|(c & name & s & Hc & Hn & -> & ->)]%retire_spec; [done| |done]. split.
  - rewrite contents_insert by (apply lookup_delete_None; auto). rewrite visible_archived by done.
    rewrite <- (contents_delete _ c f) by done. by rewrite visible_production.
  - rewrite lookup_insert_ne by done. apply lookup_delete_eq.
Qed.

(** Both swaps: the production file is retired, then [src] takes its place. *)
Definition swapped (model ts : string) (src : path) (f f' : files) : Prop :=
  exists f1 c, retire model ts f = Ok f1 /\ f1 !! src = Some c /\ f' = <[(Production, production_name model) := c]> (delete src f1).

Lemma promote_spec model version ts r r' :
  promote model version ts r = Ok r' ->
  model ∈ ALLOWED_MODEL_NAMES /\ swapped model ts (Candidates, candidate_name model version) (base r) (base r')
  /\ _generations r' = _generations (bump model r) /\ emitted r' = emitted r ++ [(model, version)].
Proof.
  unfold promote. intros Hr. destruct (_validate_model_name model) eqn:Hv; [|done]. cbn [res_bind] in Hr.
  destruct (exists_ _ _); [|done]. unbind Hr. injection Hr as <-.
  match goal with H : rename _ _ _ = Ok _ |- _ => apply rename_ok in H as (c & Hc & ->) end.
  split; [by eapply validate_ok|]. split; [by eexists _, c|done].
Qed.

Lemma rollback_spec model name ts r r' :
  rollback model name ts r = Ok r' ->
  model ∈ ALLOWED_MODEL_NAMES /\ startswith (model +:+ "-") name = true
  /\ swapped model ts (Archive, name) (base r) (base r')
  /\ _generations r' = _generations (bump model r) /\ emitted r' = emitted r.
Proof.
  unfold rollback. intros Hr. destruct (_validate_model_name model) eqn:Hv; [|done].
  destruct (_validate_archived_filename name model) eqn:Ha; [|done]. cbn [res_bind] in Hr.
  destruct (exists_ _ _); [|done]. unbind Hr. injection Hr as <-.
  match goal with H : rename _ _ _ = Ok _ |- _ => apply rename_ok in H as (c & Hc & ->) end.
  split; [by eapply validate_ok|]. split; [|split; [by eexists _, c|done]].
  unfold _validate_archived_filename in Ha. destruct (_ || _); [done|]. by destruct (startswith _ _).
Qed.

Lemma swapped_contents model ts src f f' :
  model ∈ ALLOWED_MODEL_NAMES -> visible src = true -> swapped model ts src f f' -> contents f' ≡ₚ contents f.
Proof.
  intros Hm Hv (f1 & c & Hr & Hc & ->). destruct (retire_contents _ _ _ _ Hm Hr) as [<- Hn].
  rewrite contents_insert by (apply lookup_delete_None; auto). rewrite visible_production by done.
  rewrite <- (contents_delete src c f1) by done. by rewrite Hv.
Qed.

(** The other models' production files stay. *)
Lemma production_name_inj m m' : production_name m = production_name m' -> m = m'.
Proof. intros H. by apply append_inj_r in H as [? _]. Qed.

Lemma swapped_other model ts src f f' m :
  model ∈ ALLOWED_MODEL_NAMES -> src.1 <> Production -> swapped model ts src f f' -> m <> model ->
  f' !! (Production, production_name m) = f !! (Production, production_name m).
Proof.
  intros Hm Hsrc (f1 & c & Hr & Hc & ->) Hne.
  assert ((Production, production_name model) <> (Production, production_name m)) as Hp
    by (intros [= Heq%production_name_inj]; congruence).
  assert (src <> (Production, production_name m)) as Hs by (intros ->; by apply Hsrc).
  rewrite lookup_insert_ne, lookup_delete_ne by done.
  apply retire_spec in Hr as [[_ ->]|(c' & name & s & _ & _ & _ & ->)]; [done| |done].
  by rewrite lookup_insert_ne, lookup_delete_ne.
Qed.

Lemma swapped_self model ts src f f' :
  swapped model ts src f f' -> exists c, f' !! (Production, production_name model) = Some c.
Proof. intros (f1 & c & _ & _ & ->). exists c. apply lookup_insert_eq. Qed.

Inductive op :=
  | Promote (model version ts : string)
  | Rollback (model name ts : string)
  | EnableShadow (model version : string)
  | DisableShadow (model : string)
  | ActiveCandidate (model : string).

Definition on_registry (o : op) (r : registry) : res registry :=
  match o with
  | Promote m v ts => promote m v ts r
  | Rollback m n ts => rollback m n ts r
  | EnableShadow m v => enable_shadow m v r
  | DisableShadow m => disable_shadow m r
  | ActiveCandidate m => let! '(r, _) := active_candidate m r in Ok r
  end.

(** A call that raises leaves the registry as it is. *)
Definition apply (o : op) (r : registry) : registry := match on_registry o r with Ok r' => r' | Raise _ => r end.

Definition run (ops : list op) (r : registry) : registry := foldl (fun r o => apply o r) r ops.

Lemma hidden_marker m : visible (Candidates, marker_name m) = false.
Proof. done. Qed.

(** The model whose production file an operation may replace, and what the other kind of
    operation does: at most to the marker of one model. *)
Definition swaps (o : op) : option string :=
  match o with Promote m _ _ | Rollback m _ _ => Some m | _ => None end.

Lemma marker_ops o r r' :
  swaps o = None -> on_registry o r = Ok r' ->
  _generations r' = _generations r /\ emitted r' = emitted r
  /\ exists m, delete (Candidates, marker_name m) (base r') = delete (Candidates, marker_name m) (base r).
Proof.
  destruct o as [| |m v|m|m]; [done..| | |]; intros _ Hr; cbn [on_registry] in Hr.
  - unfold enable_shadow in Hr. unbind Hr. destruct (exists_ _ _); [|done]. injection Hr as <-.
    split_and!; try done. exists m. cbn [base with_base]. apply delete_insert_eq.
  - unfold disable_shadow in Hr. unbind Hr. injection Hr as <-. split_and!; try done. exists m. apply delete_delete_eq.
  - unfold active_candidate in Hr. unbind Hr. destruct a as [r1 v]. injection Hr as <-. unbind Hrun.
    destruct (base r !! _) as [text|]; [|injection Hrun as <- <-; split_and!; [done..|by exists m]].
    case_bool_decide; [injection Hrun as <- <-; split_and!; [done..|by exists m]|].
    destruct (exists_ _ _); injection Hrun as <- <-; [split_and!; [done..|by exists m]|]. split_and!; try done. exists m. apply delete_delete_eq.
Qed.

Lemma apply_cases o r :
  apply o r = r
  \/ (exists m ts src, swaps o = Some m /\ m ∈ ALLOWED_MODEL_NAMES /\ visible src = true /\ src.1 <> Production
        /\ swapped m ts src (base r) (base (apply o r)) /\ _generations (apply o r) = _generations (bump m r))
  \/ (swaps o = None /\ _generations (apply o r) = _generations r
        /\ exists m, delete (Candidates, marker_name m) (base (apply o r)) = delete (Candidates, marker_name m) (base r)).
Proof.
  unfold apply. destruct (on_registry o r) as [r'|] eqn:Hr; [|by left]. right.
  destruct (swaps o) as [m|] eqn:Hs.
  - left. destruct o as [m' v ts|m' n ts| | |]; try done; injection Hs as ->; cbn [on_registry] in Hr.
    + apply promote_spec in Hr as (Hm & Hsw & Hg & _). exists m, ts, (Candidates, candidate_name m v).
      split_and!; try done. by apply visible_candidate.
    + apply rollback_spec in Hr as (Hm & Hn & Hsw & Hg & _). exists m, ts, (Archive, n).
      split_and!; try done. by eapply visible_of_model.
  - right. destruct (marker_ops _ _ _ Hs Hr) as (? & _ & ?). auto.
Qed.

Lemma production_unmarked (m k : string) (f f' : files) :
  delete (Candidates, marker_name k) f' = delete (Candidates, marker_name k) f ->
  f' !! (Production, production_name m) = f !! (Production, production_name m).
Proof.
  intros Hd. rewrite <- (lookup_delete_ne f' (Candidates, marker_name k)) by done. rewrite Hd.
  by rewrite lookup_delete_ne.
Qed.

Lemma apply_keeps o r :
  contents (base (apply o r)) ≡ₚ contents (base r)
  /\ forall m, is_Some (base r !! (Production, production_name m)) ->
               is_Some (base (apply o r) !! (Production, production_name m)).
Proof.
  destruct (apply_cases o r) as [->|[(m & ts & src & _ & Hm & Hv & Hsrc & Hsw & _)|(_ & _ & k & Hd)]]; [done| |].
  - split; [by eapply swapped_contents|]. intros m' Hs. destruct (decide (m' = m)) as [->|Hne].
    + apply swapped_self in Hsw as [c ->]. by exists c.
    + by rewrite (swapped_other _ _ _ _ _ _ Hm Hsrc Hsw Hne).
  - split; [by apply (contents_hidden _ _ _ (hidden_marker k))|]. intros m Hs. by rewrite (production_unmarked _ _ _ _ Hd).
Qed.

(** The registry loses no model file.  After any sequence of promotions, rollbacks
    and shadow-marker operations, failed ones included, the contents of the model files
    are those of the beginning up to order (nothing is overwritten or removed), and a
    model that had a production file has one. *)
Theorem registry_keeps_files ops r :
  contents (base (run ops r)) ≡ₚ contents (base r)
  /\ forall m, is_Some (base r !! (Production, production_name m)) ->
               is_Some (base (run ops r) !! (Production, production_name m)).
Proof.
  revert r. induction ops as [|o ops IH]; intros r; [done|]. change (run (o :: ops) r) with (run ops (apply o r)).
  destruct (IH (apply o r)) as [Hc Hp]. destruct (apply_keeps o r) as [Hc' Hp']. split; [by rewrite Hc|auto].
Qed.

(** *** The sessions *)

Definition generation (m : string) (r : registry) : Z := default 0 (od_get m (_generations r)).

Lemma get_generation_ok m r : m ∈ ALLOWED_MODEL_NAMES -> is_Some (od_get m (_generations r)) -> get_generation m r = Ok (generation m r).
Proof. intros Hm [g Hg]. unfold get_generation, generation. by rewrite validate_allowed, Hg. Qed.

(** A generation moves with every change of the production file. *)
Lemma apply_generation o r m :
  is_Some (od_get m (_generations r)) ->
  is_Some (od_get m (_generations (apply o r))) /\ generation m r <= generation m (apply o r)
  /\ (generation m (apply o r) = generation m r ->
      base (apply o r) !! (Production, production_name m) = base r !! (Production, production_name m)).
Proof.
  intros Hs. unfold generation.
  destruct (apply_cases o r) as [->|[(k & ts & src & _ & Hk & Hv & Hsrc & Hsw & ->)|(_ & -> & k & Hd)]]; [auto with lia| |].
  - unfold bump. cbn [_generations]. destruct (decide (m = k)) as [->|Hne].
    + rewrite od_get_set_eq. split; [done|]. cbn [default from_option id]. split; lia.
    + rewrite od_get_set_ne by done. split_and!; [done|lia|]. intros _. by eapply swapped_other.
  - split_and!; [done|lia|]. intros _. by eapply production_unmarked.
Qed.

(** The operations of the registry interleaved with inferences of one classifier *)
Inductive event := Registry (o : op) | Infer (mirror : list LifecycleEvent).

Definition react (builds : string -> bool) (e : event) (x : registry * ReloadState) : registry * ReloadState :=
  match e with
  | Registry o => (apply o x.1, x.2)
  | Infer mirror => (x.1, maybe_reload builds mirror x.1 x.2)
  end.

Definition reacts (builds : string -> bool) (evs : list event) (x : registry * ReloadState) : registry * ReloadState :=
  foldl (fun x e => react builds e x) x evs.

Definition unloaded (m : string) : ReloadState := MkReload m (-1) None None.

(** The session of the last generation seen is that of the production file. *)
Record in_step (m : string) (x : registry * ReloadState) : Prop := {
  is_model : rs_model x.2 = m;
  is_known : is_Some (od_get m (_generations x.1));
  is_behind : last_generation x.2 <= generation m x.1;
  is_fresh : last_generation x.2 = generation m x.1 ->
    forall c, base x.1 !! (Production, production_name m) = Some c -> session x.2 = Some c;
}.

Lemma reload_in_step builds m mirror x :
  m ∈ ALLOWED_MODEL_NAMES -> (forall c, builds c = true) -> in_step m x ->
  in_step m (x.1, maybe_reload builds mirror x.1 x.2)
  /\ last_generation (maybe_reload builds mirror x.1 x.2) = generation m x.1.
Proof.
  intros Hm Hb [Hmod Hk Hle Hf]. destruct x as [r s]. cbn [fst snd] in *. unfold maybe_reload.
  rewrite Hmod, get_generation_ok by done. destruct (generation m r =? last_generation s) eqn:He.
  - split; [done|lia].
  - destruct (base r !! _) as [c|] eqn:Hc; [rewrite Hb|]; (split; [split|]); cbn; try done; try lia; [|].
    + intros _ c' Hc'. congruence.
    + intros _ c' Hc'. congruence.
Qed.

(** After the next inference a classifier serves the production file.  However
    promotions, rollbacks and inferences interleave, the session an inference uses is
    built from the file that is then in production. *)
Theorem reload_serves_production builds m f evs mirror c :
  m ∈ ALLOWED_MODEL_NAMES -> (forall x, builds x = true) ->
  let '(r, s) := reacts builds evs (init f, unloaded m) in
  base r !! (Production, production_name m) = Some c -> session (maybe_reload builds mirror r s) = Some c.
Proof.
  intros Hm Hb. assert (in_step m (reacts builds evs (init f, unloaded m))) as Hs.
  { assert (is_Some (od_get m (_generations (init f))) /\ generation m (init f) = 0) as [Hk Hg].
    { unfold ALLOWED_MODEL_NAMES in Hm. set_unfold. by destruct Hm as [-> |[-> |[-> |[]]]]. }
    assert (in_step m (init f, unloaded m)) as H0 by (split; cbn [fst snd]; rewrite ?Hg; done).
    induction evs as [|e evs IH] using rev_ind; [done|]. unfold reacts in *. rewrite foldl_app. cbn [foldl].
    destruct e as [o|mi]; cbn [react]; [|by apply reload_in_step].
    destruct IH as [Hmod Hkn Hle Hf]. destruct (apply_generation o _ _ Hkn) as (Hk' & Hle' & Hsame).
    split; cbn [fst snd]; [done..|lia|]. intros Heq c' Hc'. apply Hf; [lia|]. by rewrite <- Hsame by lia. }
  destruct (reacts _ _ _) as [r s]. intros Hc. destruct (reload_in_step builds m mirror _ Hm Hb Hs) as [[_ _ _ Hf] Hg].
  by apply Hf.
Qed.

(** *** The version of a session *)

Lemma promotions_snoc mirror e :
  promotions (mirror ++ [e]) = if of_type MODEL_PROMOTED e then e :: promotions mirror else promotions mirror.
Proof. unfold promotions. rewrite rev_app_distr. cbn. by destruct (of_type _ _). Qed.

Lemma current_version_promoted mirror model version hash metrics approver now :
  current_version (mirror ++ [build_promotion_event model version hash metrics approver now]) model = Some version.
Proof.
  unfold current_version. rewrite promotions_snoc. change (of_type MODEL_PROMOTED _) with true. cbn [List.filter].
  assert (eq_str (dget "model_name" (payload (build_promotion_event model version hash metrics approver now))) model = true)
    as -> by by apply eq_str_iff. done.
Qed.

Lemma current_version_other mirror e model :
  event_type e <> MODEL_PROMOTED -> current_version (mirror ++ [e]) model = current_version mirror model.
Proof. intros He. unfold current_version. rewrite promotions_snoc. unfold of_type. by rewrite bool_decide_false. Qed.

Lemma disable_spec m r r' :
  disable_shadow m r = Ok r' ->
  _generations r' = _generations r /\ forall k, base r' !! (Production, k) = base r !! (Production, k).
Proof.
  unfold disable_shadow. intros Hr. unbind Hr. injection Hr as <-. split; [done|]. intros k. cbn. by rewrite lookup_delete_ne.
Qed.

(** The handler has moved the files. *)
Lemma promote_files_spec db model version ts s s' :
  promote_files db model version ts s = (s', None) ->
  model ∈ ALLOWED_MODEL_NAMES /\ mirror s' = mirror s
  /\ base (reg s') !! (Production, production_name model) = base (reg s) !! (Candidates, candidate_name model version)
  /\ is_Some (base (reg s) !! (Candidates, candidate_name model version))
  /\ _generations (reg s') = _generations (bump model (reg s)).
Proof.
  unfold promote_files. case_bool_decide as Hm; [|done]. cbn [negb]. destruct (already_promoted _ _ _ _); [done|].
  destruct (exists_ _ _) eqn:He; [|done]. cbn [negb]. destruct (promote _ _ _ _) as [r|e] eqn:Hr; [|done].
  destruct (disable_shadow model r) as [r'|] eqn:Hd; [|done]. intros [= <-].
  apply promote_spec in Hr as (_ & (f1 & c & Hret & Hc & Hb) & Hg & _). apply disable_spec in Hd as [Hg' Hp].
  split_and!; try done; cbn [reg].
  - rewrite Hp, Hb, lookup_insert_eq, <- Hc.
    apply retire_spec in Hret as [[_ ->]|(c' & name & sfx & _ & _ & _ & ->)]; [done| |done].
    by rewrite lookup_insert_ne, lookup_delete_ne.
  - by apply exists_true.
  - by rewrite Hg', Hg.
Qed.

(** A promotion can leave its model under the version before it.  The handler moves
    the files and bumps the generation first and writes the event after the ledger has
    answered; an inference in between loads the new model but reads the version from the
    events, which still name the old one.  It has then seen the generation: no later
    inference reads the version again, although the event is there. *)
Theorem reload_races_the_event builds db model version ts approver now s s' x c :
  promote_files db model version ts s = (s', None) ->
  base (reg s) !! (Candidates, candidate_name model version) = Some c -> builds c = true ->
  rs_model x = model -> last_generation x <= generation model (reg s) ->
  let during := maybe_reload builds (mirror s') (reg s') x in
  let s2 := (promote_candidate db true model version ts approver now s).1 in
  session during = Some c
  /\ rs_version during = current_version (mirror s) model
  /\ current_version (mirror s2) model = Some version
  /\ reg s2 = reg s'
  /\ maybe_reload builds (mirror s2) (reg s2) during = during.
Proof.
  intros Hp Hc Hb Hx Hle during s2. pose proof Hp as (Hm & Hmi & Hprod & _ & Hg)%promote_files_spec.
  assert (get_generation model (reg s') = Ok (generation model (reg s) + 1)) as Hgen.
  { assert (od_get model (_generations (reg s')) = Some (generation model (reg s) + 1)) as Ho
      by (rewrite Hg; apply od_get_set_eq).
    rewrite get_generation_ok by (done || by eexists). unfold generation at 1. by rewrite Ho. }
  assert (during = MkReload model (generation model (reg s) + 1) (current_version (mirror s) model) (Some c)) as Hd.
  { unfold during, maybe_reload. rewrite Hx, Hgen. destruct (_ =? last_generation x) eqn:?; [lia|].
    rewrite Hprod, Hc, Hb, Hmi. done. }
  assert (s2 = _write_lifecycle_event true (build_promotion_event model version "" [] approver now) s') as Hs2
    by (unfold s2, promote_candidate; by rewrite Hp).
  rewrite Hs2, Hd. cbn [session rs_version]. split_and!; try done.
  - cbn [_write_lifecycle_event mirror]. apply current_version_promoted.
  - unfold maybe_reload. cbn [_write_lifecycle_event reg rs_model last_generation]. rewrite Hgen. by rewrite Z.eqb_refl.
Qed.

(** *** Promotion and rollback *)

Lemma isort_last l x :
  x ∈ l -> (forall y, y ∈ l -> str_leb y x = true) -> last (isort str_leb l) = Some x.
Proof.
  intros Hx Hmax. pose proof (isort_ordered _ str_leb_total str_leb_trans l) as Ho.
  pose proof (isort_perm str_leb l) as Hperm. rewrite <- Hperm in Hx.
  assert (forall y, y ∈ isort str_leb l -> str_leb y x = true) as Hmax' by (intros y Hy; apply Hmax; by rewrite <- Hperm).
  clear Hmax Hperm. induction Ho as [|a l' Ha Ho IH]; [by apply not_elem_of_nil in Hx|].
  apply elem_of_cons in Hx as [->|Hx].
  - destruct l' as [|b l']; [done|]. assert (a = b) as -> by (apply str_leb_antisym; [apply Ha; by left|apply Hmax'; by right; left]).
    cbn [last]. apply IH; [by left|]. intros y Hy. apply Hmax'. by right.
  - destruct l' as [|b l']; [by apply not_elem_of_nil in Hx|]. cbn [last]. apply IH; [done|].
    intros y Hy. apply Hmax'. by right.
Qed.

Lemma srev_app_eq s : forall acc, srev_app s acc = (srev s +:+ acc)%string.
Proof.
  unfold srev. induction s as [|c s IH]; intros acc; [done|]. cbn [srev_app]. rewrite (IH (String c "")), (IH (String c acc)).
  by rewrite app_assoc_s.
Qed.

Lemma srev_append a b : srev (a +:+ b)%string = (srev b +:+ srev a)%string.
Proof.
  induction a as [|c a IH]; [by rewrite app_nil|]. rewrite app_cons.
  change (srev (String c (a +:+ b))) with (srev_app (a +:+ b) (String c "")).
  change (srev (String c a)) with (srev_app a (String c "")).
  by rewrite !srev_app_eq, IH, app_assoc_s.
Qed.

Lemma endswith_app a p : endswith p (a +:+ p)%string = true.
Proof. unfold endswith. rewrite srev_append. apply startswith_app. Qed.

Lemma archived_onnx model ts s : model ∈ ALLOWED_MODEL_NAMES -> is_onnx (archived model ts s) = true.
Proof.
  intros Hm. unfold is_onnx, archived. rewrite <- !app_assoc_s, endswith_app, !app_assoc_s. cbn [andb].
  rewrite bool_decide_false; [done|]. unfold ALLOWED_MODEL_NAMES in Hm. set_unfold.
  by destruct Hm as [-> |[-> |[-> |[]]]].
Qed.

Lemma archived_of_model model ts s : startswith (model +:+ "-") (archived model ts s) = true.
Proof.
  unfold archived. change "-archived-" with ("-" +:+ "archived-")%string.
  rewrite (app_assoc_s "-" "archived-"), <- (app_assoc_s model "-"). apply startswith_app.
Qed.

Lemma elem_iterdir d f n : n ∈ iterdir d f <-> is_Some (f !! (d, n)).
Proof.
  unfold iterdir. rewrite list_elem_of_omap. split.
  - intros ([[d' n'] c] & Hin & Hd). apply elem_of_map_to_list in Hin. case_decide; simplify_eq. eauto.
  - intros [c Hc]. exists ((d, n), c). split; [by apply elem_of_map_to_list|]. by rewrite decide_True.
Qed.

Lemma elem_archive_matches model r n :
  n ∈ archive_matches model r <->
  is_onnx n = true /\ startswith (model +:+ "-") n = true /\ is_Some (base r !! (Archive, n)).
Proof.
  unfold archive_matches. rewrite isort_perm, list_elem_of_In, filter_In, <- list_elem_of_In, elem_iterdir, andb_true_iff.
  naive_solver.
Qed.

(** The archive name [ts] gives is new and the last of the model's. *)
Definition newest (model ts : string) (r : registry) : Prop :=
  base r !! (Archive, archived model ts "") = None
  /\ forall n, n ∈ archive_matches model r -> str_leb n (archived model ts "") = true.

Lemma retire_fresh model ts f c :
  f !! (Production, production_name model) = Some c -> f !! (Archive, archived model ts "") = None ->
  retire model ts f = Ok (<[(Archive, archived model ts "") := c]> (delete (Production, production_name model) f)).
Proof.
  intros Hp Hn. unfold retire, _archive_filename. rewrite (proj2 (exists_true _ _)) by eauto.
  rewrite (proj2 (exists_false _ _) Hn). cbn [res_bind]. unfold rename. by rewrite Hp.
Qed.

(** A rollback to the last archived file puts it into production, and the file it
    replaces is the last of the archive. *)
Lemma rollback_latest model name ts r good bad :
  model ∈ ALLOWED_MODEL_NAMES -> latest_archive model r = Some name -> _validate_archived_filename name model = Ok tt ->
  base r !! (Archive, name) = Some good -> base r !! (Production, production_name model) = Some bad -> newest model ts r ->
  exists r', rollback model name ts r = Ok r'
    /\ base r' !! (Production, production_name model) = Some good
    /\ latest_archive model r' = Some (archived model ts "")
    /\ base r' !! (Archive, archived model ts "") = Some bad
    /\ (forall n, n ∈ archive_matches model r' -> n ∈ archive_matches model r \/ n = archived model ts "")
    /\ generation model r' = generation model r + 1.
Proof.
  intros Hm _ Hv Hg Hb [Hfree Hnew]. unfold rollback. rewrite validate_allowed, Hv by done. cbn [res_bind].
  rewrite (proj2 (exists_true _ _)) by eauto. rewrite (retire_fresh _ _ _ _ Hb Hfree). cbn [res_bind].
  assert (name <> archived model ts "") as Hne by (intros ->; congruence).
  assert (<[(Archive, archived model ts "") := bad]> (delete (Production, production_name model) (base r)) !! (Archive, name)
          = Some good) as Hl by by rewrite lookup_insert_ne, lookup_delete_ne by congruence.
  unfold rename. rewrite Hl. cbn [res_bind]. eexists. split; [done|].
  assert (forall n, base r !! (Archive, n) = None -> n <> archived model ts "" ->
    <[(Production, production_name model) := good]> (delete (Archive, name)
      (<[(Archive, archived model ts "") := bad]> (delete (Production, production_name model) (base r)))) !! (Archive, n) = None)
    as Hout.
  { intros n Hn Hn'. rewrite lookup_insert_ne by done. apply lookup_delete_None. right.
    by rewrite lookup_insert_ne, lookup_delete_ne by congruence. }
  cbn [bump with_base base]. assert (forall n, n ∈ archive_matches model (bump model (with_base (<[(Production, production_name model) := good]>
    (delete (Archive, name) (<[(Archive, archived model ts "") := bad]> (delete (Production, production_name model) (base r))))) r)) ->
    n ∈ archive_matches model r \/ n = archived model ts "") as Hold.
  { intros n (Ho & Hp & Hs)%elem_archive_matches. destruct (decide (n = archived model ts "")) as [->|Hnn]; [by right|].
    left. apply elem_archive_matches. split_and!; [done..|]. apply not_eq_None_Some. intros Hn.
    cbn [bump with_base base] in Hs. rewrite Hout in Hs by done. by destruct Hs. }
  split_and!.
  - apply lookup_insert_eq.
  - apply isort_last.
    + cut (archived model ts "" ∈ archive_matches model (bump model (with_base (<[(Production, production_name model) := good]>
        (delete (Archive, name) (<[(Archive, archived model ts "") := bad]> (delete (Production, production_name model) (base r))))) r))).
      { unfold archive_matches. by rewrite isort_perm. }
      apply elem_archive_matches. split_and!; [by apply archived_onnx|apply archived_of_model|]. cbn [bump with_base base].
      rewrite lookup_insert_ne, lookup_delete_ne, lookup_insert_eq by congruence. done.
    + intros n Hn. destruct (Hold n) as [Hin| ->]; [unfold archive_matches; by rewrite isort_perm|by apply Hnew|].
      unfold str_leb. by rewrite str_ltb_irrefl.
  - by rewrite lookup_insert_ne, lookup_delete_ne, lookup_insert_eq by congruence.
  - exact Hold.
  - unfold generation, bump. cbn [_generations with_base]. by rewrite od_get_set_eq.
Qed.

(** Rolling back twice brings the rejected model back.  A rollback restores the
    archived file with the last name; the file it retires gets a later name, so the next
    rollback restores exactly that file: production is what it was before the first. *)
Theorem rollback_toggles model name ts1 ts2 r good bad :
  model ∈ ALLOWED_MODEL_NAMES -> latest_archive model r = Some name ->
  base r !! (Archive, name) = Some good -> base r !! (Production, production_name model) = Some bad ->
  _validate_archived_filename name model = Ok tt ->
  _validate_archived_filename (archived model ts1 "") model = Ok tt ->
  newest model ts1 r -> str_ltb (archived model ts1 "") (archived model ts2 "") = true ->
  exists r1 r2,
    rollback model name ts1 r = Ok r1 /\ base r1 !! (Production, production_name model) = Some good
    /\ latest_archive model r1 = Some (archived model ts1 "")
    /\ rollback model (archived model ts1 "") ts2 r1 = Ok r2
    /\ base r2 !! (Production, production_name model) = Some bad.
Proof.
  intros Hm Hlast Hg Hb Hv Hv1 Hnew Hlt.
  destruct (rollback_latest _ _ _ _ _ _ Hm Hlast Hv Hg Hb Hnew) as (r1 & Hr1 & Hp1 & Hl1 & Ha1 & Hold & _).
  assert (newest model ts2 r1) as Hnew2.
  { assert (forall n, n ∈ archive_matches model r1 -> str_ltb n (archived model ts2 "") = true) as Hall.
    { intros n [Hn| ->]%Hold; [|done]. destruct Hnew as [_ Hn']. specialize (Hn' n Hn).
      destruct (str_ltb n (archived model ts2 "")) eqn:He; [done|].
      pose proof (str_leb_trans (archived model ts2 "") n (archived model ts1 "")) as Ht. unfold str_leb in *.
      rewrite He, Hlt in Ht. specialize (Ht eq_refl Hn'). done. }
    split.
    - apply eq_None_not_Some. intros Hs. specialize (Hall (archived model ts2 "")). rewrite str_ltb_irrefl in Hall.
      discriminate Hall. apply elem_archive_matches. split_and!; [by apply archived_onnx|apply archived_of_model|done].
    - intros n Hn. specialize (Hall n Hn). apply str_leb_total. unfold str_leb. by rewrite Hall. }
  destruct (rollback_latest _ _ _ _ _ _ Hm Hl1 Hv1 Ha1 Hp1 Hnew2) as (r2 & Hr2 & Hp2 & _).
  by exists r1, r2.
Qed.

(** ** Runs *)

Module RegistryRuns.
Definition disk : files :=
  list_to_map [((Production, "intent.onnx"), "new weights"); ((Archive, "intent-archived-20260101T000000.000000Z.onnx"), "old weights");
               ((Candidates, "intent-v3.onnx"), "candidate weights"); ((Candidates, ".intent.active"), "v3")].

Definition gateway : sys := MkSys (init disk) [build_promotion_event "intent" "v2" "" [] "ops" 0].

Definition evs : list event :=
  [Infer []; Registry (Promote "intent" "v3" "20260415T000000.000000Z"); Registry (Promote "intent" "v9" "20260415T000000.000000Z")].

Lemma reload_serves_production_witness :
  let '(r, s) := reacts (fun _ => true) evs (init disk, unloaded "intent") in
  session s = Some "new weights" /\ session (maybe_reload (fun _ => true) [] r s) = Some "candidate weights".
Proof.
  split; [vm_compute; reflexivity|].
  apply (reload_serves_production (fun _ => true) "intent" disk evs [] "candidate weights" ltac:(set_solver) (fun _ => eq_refl)).
  vm_compute. reflexivity.
Defined.

Definition serving : ReloadState := MkReload "intent" 0 (Some "v2") (Some "new weights").

Definition moved : sys := (promote_files true "intent" "v3" "20260415T000000.000000Z" gateway).1.
Definition during : ReloadState := maybe_reload (fun _ => true) (mirror moved) (reg moved) serving.

Lemma moved_files : promote_files true "intent" "v3" "20260415T000000.000000Z" gateway = (moved, None).
Proof. rewrite (surjective_pairing (promote_files _ _ _ _ _)). apply pair_equal_spec. split; [done|]. vm_compute. reflexivity. Qed.

Lemma gateway_version : current_version (mirror gateway) "intent" = Some "v2".
Proof. vm_compute. reflexivity. Qed.

Lemma reload_races_the_event_witness : session during = Some "candidate weights" /\ rs_version during = Some "v2".
Proof.
  destruct (reload_races_the_event (fun _ => true) true "intent" "v3" "20260415T000000.000000Z" "ops" 0 gateway moved serving
    "candidate weights" moved_files eq_refl eq_refl eq_refl ltac:(vm_compute; discriminate)) as (H1 & H2 & _).
  rewrite gateway_version in H2. exact (conj H1 H2).
Defined.

Lemma rollback_toggles_witness :
  exists r1 r2,
    rollback "intent" "intent-archived-20260101T000000.000000Z.onnx" "20260415T000000.000000Z" (init disk) = Ok r1
    /\ base r1 !! (Production, "intent.onnx") = Some "old weights"
    /\ rollback "intent" "intent-archived-20260415T000000.000000Z.onnx" "20260416T000000.000000Z" r1 = Ok r2
    /\ base r2 !! (Production, "intent.onnx") = Some "new weights".
Proof.
  destruct (rollback_toggles "intent" "intent-archived-20260101T000000.000000Z.onnx" "20260415T000000.000000Z"
    "20260416T000000.000000Z" (init disk) "old weights" "new weights" ltac:(set_solver) ltac:(vm_compute; reflexivity)
    eq_refl eq_refl eq_refl eq_refl) as (r1 & r2 & H1 & H2 & _ & H3 & H4).
  - split; [reflexivity|]. intros n Hn. vm_compute in Hn. apply list_elem_of_singleton in Hn as ->. reflexivity.
  - reflexivity.
  - exists r1, r2. exact (conj H1 (conj H2 (conj H3 H4))).
Defined.
End RegistryRuns.
