(* ===== verification/Promotion.v ===== *)
(** * Promotion of classifiers and its safeguards (intelligence/)

    The metrics of a shadow run (shadow_metrics.py), the gate and automatic promotion
    (shadow_gate.py) with the sanity fixture (sanity_runner.py), the validator that rolls
    a regressed model back (post_promotion_validator.py) and the drift monitor
    (drift_monitor.py).  ONNX inference and scipy's binomial test are parameters. *)
From Stdlib Require Import SpecFloat.
From Stdlib Require Permutation.
From S2P Require Import Prelude ODict PyVal PyStr PyObj Verdicts ModelRegistry.

Local Open Scope Z_scope.

(** ** Floats *)

(** The integer nearest to [a / b], ties to even *)
Definition round_half_even (a b : Z) : Z :=
  let q := a / b in
  match 2 * (a mod b) ?= b with
  | Lt => q
  | Gt => q + 1
  | Eq => if Z.even q then q else q + 1
  end.

(** [round(f, 6)] *)
Definition round6 (f : spec_float) : spec_float :=
  match f with
  | S754_finite s m e =>
      if 0 <=? e then f else sf_of_decimal s (round_half_even (Zpos m * 10 ^ 6) (2 ^ (- e))) (-6)
  | _ => f
  end.

Definition fsub (a b : spec_float) : spec_float := SFsub prec emax a b.
Definition zero : spec_float := S754_zero false.
Definition one : spec_float := sf_of_Z 1.

Example round6_ex : round6 (ratio 2 3) = sf_of_decimal false 666667 (-6). Proof. reflexivity. Qed.

(** ** Shadow metrics *)

(** The rows of [shadow_comparisons] *)
Record comparison_row := MkComparison {
  c_model : string;
  c_version : string;
  c_input_hash : string;
  production_prediction : string;
  candidate_prediction : option string;
  candidate_error : option string;
}.

(** The signal of the newest verdict on the same input that has one *)
Definition ground_truth (verdicts : list ModelVerdict) (c : comparison_row) : option string :=
  match isort (fun a b => str_leb (timestamp b) (timestamp a))
          (List.filter (fun v => bool_decide (model_name v = c_model c) && bool_decide (input_hash v = c_input_hash c)
                                 && signalled v) verdicts) with
  | v :: _ => divergence_signal v
  | [] => None
  end.

(** [_fetch_rows]: the comparisons with their ground truth *)
Definition _fetch_rows (verdicts : list ModelVerdict) (table : list comparison_row) (model version : string)
    : list (comparison_row * option string) :=
  map (fun c => (c, ground_truth verdicts c))
    (List.filter (fun c => bool_decide (c_model c = model) && bool_decide (c_version c = version)) table).

Record ShadowMetrics := MkMetrics {
  m_model : string;
  m_version : string;
  m_sample_count : Z;
  labeled_count : Z;
  candidate_accuracy : spec_float;
  production_accuracy : spec_float;
  disagreement_rate : spec_float;
  candidate_error_rate : spec_float;
  mcnemar_p_value : spec_float;
}.

Definition count {A} (f : A -> bool) (l : list A) : Z := zlen (List.filter f l).

Definition failed (r : comparison_row * option string) : bool :=
  match candidate_error r.1 with Some _ => true | None => false end.
Definition disagrees (r : comparison_row * option string) : bool :=
  failed r || negb (bool_decide (candidate_prediction r.1 = Some (production_prediction r.1))).
Definition labeled (r : comparison_row * option string) : bool :=
  match r.2 with Some _ => negb (failed r) | None => false end.
Definition p_ok (r : comparison_row * option string) : bool := bool_decide (r.2 = Some (production_prediction r.1)).
Definition c_ok (r : comparison_row * option string) : bool :=
  match r.2 with Some g => bool_decide (candidate_prediction r.1 = Some g) | None => false end.

Section gate.
(** The p-value of scipy's two-sided [binomtest(k, n, 0.5)], if it can be computed *)
Variable binomtest : Z -> Z -> option spec_float.

Definition _mcnemar_exact (b c : Z) : spec_float :=
  if b + c =? 0 then one else match binomtest (Z.min b c) (b + c) with Some p => p | None => one end.

Definition _empty (model version : string) : ShadowMetrics := MkMetrics model version 0 0 zero zero zero zero one.

Definition compute_metrics (verdicts : list ModelVerdict) (table : list comparison_row) (model version : string)
    : ShadowMetrics :=
  let rows := _fetch_rows verdicts table model version in
  let sample_count := zlen rows in
  if sample_count =? 0 then _empty model version
  else
    let error_rate := ratio (count failed rows) sample_count in
    let disagreement := ratio (count disagrees rows) sample_count in
    let lab := List.filter labeled rows in
    let n := zlen lab in
    if n =? 0 then MkMetrics model version sample_count 0 zero zero (round6 disagreement) (round6 error_rate) one
    else
      let p := _mcnemar_exact (count (fun r => p_ok r && negb (c_ok r)) lab) (count (fun r => c_ok r && negb (p_ok r)) lab) in
      MkMetrics model version sample_count n (round6 (ratio (count c_ok lab) n)) (round6 (ratio (count p_ok lab) n))
        (round6 disagreement) (round6 error_rate) (round6 p).

(** ** The gate *)

Record settings := MkSettings {
  shadow_sample_target : Z;
  shadow_min_accuracy_delta : spec_float;
  shadow_max_disagreement : spec_float;
  shadow_max_error_rate : spec_float;
  auto_promote_models_list : list string;
}.

(** The reasons, without the wording of their numbers *)
Inductive reason :=
  | InsufficientSamples (n : Z)
  | AccuracyDelta (delta : spec_float)
  | DisagreementRate (r : spec_float)
  | ErrorRate (r : spec_float)
  | NotSignificant (p : spec_float)
  | AllPassed
  | Sanity (why : string).

#[local] Instance spec_float_eq_dec : EqDecision spec_float.
Proof. solve_decision. Defined.
#[local] Instance reason_eq_dec : EqDecision reason.
Proof. solve_decision. Defined.

Definition _MCNEMAR_ALPHA : spec_float := sf_of_decimal false 5 (-2).

(** [a > b], [a >= b] *)
Definition fgt (a b : spec_float) : bool := SFltb b a.
Definition fge (a b : spec_float) : bool := SFleb b a.

Definition accuracy_delta (m : ShadowMetrics) : spec_float := fsub (candidate_accuracy m) (production_accuracy m).

Definition violations (m : ShadowMetrics) (s : settings) : list reason :=
  (if m_sample_count m <? shadow_sample_target s then [InsufficientSamples (m_sample_count m)] else [])
  ++ (if (0 <? labeled_count m) && SFltb (accuracy_delta m) (shadow_min_accuracy_delta s)
      then [AccuracyDelta (accuracy_delta m)] else [])
  ++ (if fgt (disagreement_rate m) (shadow_max_disagreement s) then [DisagreementRate (disagreement_rate m)] else [])
  ++ (if fgt (candidate_error_rate m) (shadow_max_error_rate s) then [ErrorRate (candidate_error_rate m)] else [])
  ++ (if fge (mcnemar_p_value m) _MCNEMAR_ALPHA then [NotSignificant (mcnemar_p_value m)] else []).

(** [passed] and [reasons] of the result *)
Definition evaluate_gate (m : ShadowMetrics) (s : settings) : bool * list reason :=
  match violations m s with [] => (true, [AllPassed]) | r => (false, r) end.

(** ** The sanity fixture *)

Record SanityResult := MkSanity {
  sanity_passed : bool;
  overall_accuracy : spec_float;
  per_class_accuracy : list (string * spec_float);
  failing_classes : list string;
  total_examples : Z;
  error_count : Z;
}.

(** The labels in the order of their first example *)
Fixpoint classes (seen : list string) (l : list (pyval * string)) : list string :=
  match l with
  | [] => []
  | (_, c) :: l => if bool_decide (c ∈ seen) then classes seen l else c :: classes (c :: seen) l
  end.

Definition of_class (c : string) (e : pyval * string) : bool := bool_decide (e.2 = c).

(** [infer] gives the text of the predicted label, or raises. *)
Definition right (infer : pyval -> res string) (e : pyval * string) : bool :=
  match infer e.1 with Ok p => bool_decide (p = e.2) | Raise _ => false end.

Definition class_accuracy (infer : pyval -> res string) (examples : list (pyval * string)) (c : string) : spec_float :=
  let mine := List.filter (of_class c) examples in
  ratio (count (right infer) mine) (zlen mine).

Definition min_per_class_accuracy : spec_float := sf_of_decimal false 7 (-1).

(** [SanityRunner.run] on the examples of the model's fixture *)
Definition run (examples : list (pyval * string)) (infer : pyval -> res string) : SanityResult :=
  match examples with
  | [] => MkSanity false zero [] ["<no fixture>"] 0 0
  | _ =>
      let per := map (fun c => (c, class_accuracy infer examples c)) (classes [] examples) in
      let failing := isort str_leb (map fst (List.filter (fun x => SFltb x.2 min_per_class_accuracy) per)) in
      MkSanity (match failing with [] => true | _ => false end)
        (round6 (ratio (count (right infer) examples) (zlen examples))) (map (fun x => (x.1, round6 x.2)) per)
        failing (zlen examples) (count (fun e => negb (is_ok (infer e.1))) examples)
  end.

Definition WIRED_MODELS : list string := ["intent"; "safety"; "schema_mapper"].

(** What the gate's helper needs of its surroundings: the adapter that opens a candidate,
    and the fixture of a model *)
Record sanity_env := MkEnv {
  build_infer_fn : string -> path -> res (pyval -> res string);
  fixture : string -> list (pyval * string);
}.

(** The reason for an adapter that raised *)
Definition adapter_error (x : exn) : string :=
  if decide (x = OtherError "FileNotFoundError") then "sanity adapter: candidate file missing" else "sanity adapter raised".

Definition _run_sanity_check (e : sanity_env) (model version : string) : option SanityResult * option string :=
  if negb (bool_decide (model ∈ WIRED_MODELS)) then (None, None)
  else
    match candidate_path model version with
    | Raise _ => (None, Some "sanity adapter: invalid model name")
    | Ok p =>
        match build_infer_fn e model p with
        | Raise x => (None, Some (adapter_error x))
        | Ok infer =>
            let r := run (fixture e model) infer in
            if sanity_passed r then (Some r, None)
            else (Some r, Some (if total_examples r =? 0 then "sanity: no fixture authored"
                                else "sanity: per-class accuracy below floor for " +:+ sjoin "," (failing_classes r)))
        end
    end.

(** ** Automatic promotion *)

Record GateResult := MkResult {
  passed : bool;
  reasons : list reason;
  promoted : bool;
  blocked : bool;                 (** a promotion_blocked_event *)
  sanity_result : option SanityResult;
}.

Definition metrics_dict (m : ShadowMetrics) : dict :=
  [("model_name", PStr (m_model m)); ("candidate_version", PStr (m_version m)); ("sample_count", PInt (m_sample_count m));
   ("labeled_count", PInt (labeled_count m)); ("candidate_accuracy", PFloat (candidate_accuracy m) "");
   ("production_accuracy", PFloat (production_accuracy m) ""); ("disagreement_rate", PFloat (disagreement_rate m) "");
   ("candidate_error_rate", PFloat (candidate_error_rate m) ""); ("mcnemar_p_value", PFloat (mcnemar_p_value m) "")].

Definition build_promotion_blocked (m : ShadowMetrics) (r : option SanityResult) (why : string) (now : Z) : LifecycleEvent :=
  MkEvent MODEL_PROMOTION_BLOCKED
    ([("model_name", PStr (m_model m)); ("candidate_version", PStr (m_version m));
      ("failing_classes", PList (map PStr (match r with Some r => failing_classes r | None => [] end)))]
     ++ match r with
        | Some r => [("per_class_accuracy", PDict (map (fun x => (x.1, PFloat x.2 "")) (per_class_accuracy r)));
                     ("overall_accuracy", PFloat (overall_accuracy r) ""); ("total_examples", PInt (total_examples r));
                     ("error_count", PInt (error_count r))]
        | None => []
        end ++ [("detail", PStr why)]) now.

Definition process_candidate (m : ShadowMetrics) (cfg : settings) (e : sanity_env) (writer : bool)
    (dataset_hash approver ts : string) (now : Z) (s : sys) : sys * GateResult :=
  let '(gate_passed, gate_reasons) := evaluate_gate m cfg in
  let should_auto := gate_passed && bool_decide (m_model m ∈ auto_promote_models_list cfg) in
  let '(sanity, why) := if should_auto then _run_sanity_check e (m_model m) (m_version m) else (None, None) in
  let is_blocked := match why with Some _ => true | None => false end in
  let reasons := match why with
                 | Some w => if decide (gate_reasons = [AllPassed]) then [Sanity w] else gate_reasons ++ [Sanity w]
                 | None => gate_reasons
                 end in
  let s := match why with
           | Some w => _write_lifecycle_event writer (build_promotion_blocked m sanity w now) s
           | None => s
           end in
  let done := if should_auto && negb is_blocked then
                let! r := promote (m_model m) (m_version m) ts (reg s) in disable_shadow (m_model m) r
              else Raise (OtherError "not promoted") in
  match done with
  | Ok r =>
      (_write_lifecycle_event writer
         (build_promotion_event (m_model m) (m_version m) dataset_hash (metrics_dict m) approver now) (MkSys r (mirror s)),
       MkResult gate_passed reasons true is_blocked sanity)
  | Raise _ =>
      (_write_lifecycle_event writer
         (build_shadow_validation_complete (m_model m) (m_version m) (metrics_dict m) (gate_passed && negb is_blocked) now) s,
       MkResult gate_passed reasons false is_blocked sanity)
  end.
End gate.

(** ** The validator of promotions *)

Definition hours (n : Z) : Z := seconds (3600 * n).
Definition minutes (n : Z) : Z := seconds (60 * n).

Record _PromotionRow := MkPromotion {
  p_model : string;
  p_version : string;
  promoted_at : Z;
  previous_version : option string;
  previous_promoted_at : option Z;
}.

Record validator := MkValidator {
  _threshold : spec_float;
  _window : Z;
  _min_samples : Z;
  _min_coverage : spec_float;
  _cooldown : Z;
  _settle : Z;
}.

(** [__init__], with the defaults of its keyword arguments as [default_validator] *)
Definition validator_init (threshold : spec_float) (window_h min_samples : Z) (min_coverage : spec_float)
    (cooldown_h settle_minutes : Z) : validator :=
  MkValidator threshold (hours window_h) (Z.max 1 min_samples) min_coverage (hours cooldown_h) (minutes settle_minutes).

Definition default_validator : validator :=
  validator_init (sf_of_decimal false 5 (-2)) 24 200 (sf_of_decimal false 30 (-2)) 12 15.

(** Model, version and time of a promotion event whose names are strings *)
Definition promotion_of (e : LifecycleEvent) : option (string * (string * Z)) :=
  match dget "model_name" (payload e), dget "candidate_version" (payload e) with
  | PStr m, PStr v => Some (m, (v, e_timestamp e))
  | _, _ => None
  end.

(** The promotions by model, newest first *)
Definition by_model (mirror : list LifecycleEvent) : list (string * list (string * Z)) :=
  foldl (fun d x => od_set x.1 (default [] (od_get x.1 d) ++ [x.2]) d) [] (omap promotion_of (promotions mirror)).

Definition promotion_row (cutoff : Z) (x : string * list (string * Z)) : option _PromotionRow :=
  match x.2 with
  | [] => None
  | (v, at_) :: older =>
      if at_ <? cutoff then None
      else Some (MkPromotion x.1 v at_ (fst <$> head older) (snd <$> head older))
  end.

Definition _recent_promotions (c : validator) (mirror : list LifecycleEvent) (now : Z) : list _PromotionRow :=
  omap (promotion_row (now - _window c)) (by_model mirror).

Inductive outcome :=
  | Skipped (model : string) (delta : spec_float)                       (** no archive *)
  | Failed_ (model : string) (e : exn) (delta : spec_float)
  | RolledBack (model from_version to_archive : string) (delta : spec_float).

Record vstate := MkVState { v_sys : sys; _last_rollback_at : list (string * Z) }.

(** The accuracy the model has lost, if both windows have enough rows to tell *)
Definition regression (c : validator) (rows : list ModelVerdict) (p : _PromotionRow) (now : Z) : option spec_float :=
  let current := accuracy_in_window rows (p_model p) (Some (p_version p)) (promoted_at p) now in
  let start := match previous_promoted_at p with Some t => t | None => promoted_at p - _window c end in
  let previous := accuracy_in_window rows (p_model p) (previous_version p) start (promoted_at p) in
  if (sample_count current <? _min_samples c) || (sample_count previous <? _min_samples c)
     || SFltb (coverage current) (_min_coverage c) || SFltb (coverage previous) (_min_coverage c) then None
  else
    let delta := fsub (accuracy previous) (accuracy current) in
    if SFltb delta (_threshold c) then None else Some delta.

(** [_evaluate]; the event is mirrored with or without a writer, and [ts] names the
    archived file. *)
Definition _evaluate (c : validator) (rows : list ModelVerdict) (p : _PromotionRow) (ts : string) (now : Z) (s : vstate)
    : vstate * option outcome :=
  let cooling := match od_get (p_model p) (_last_rollback_at s) with Some last => now - last <? _cooldown c | None => false end in
  if (now - promoted_at p <? _settle c) || cooling || negb (bool_decide (p_model p ∈ ALLOWED_MODEL_NAMES)) then (s, None)
  else
    match regression c rows p now with
    | None => (s, None)
    | Some delta =>
        match latest_archive (p_model p) (reg (v_sys s)) with
        | None => (s, Some (Skipped (p_model p) delta))
        | Some target =>
            match rollback (p_model p) target ts (reg (v_sys s)) with
            | Raise e => (s, Some (Failed_ (p_model p) e delta))
            | Ok r =>
                let current := accuracy_in_window rows (p_model p) (Some (p_version p)) (promoted_at p) now in
                let e := build_rollback_event (p_model p) (PStr (p_version p)) target "regression"
                           (Some (PFloat delta "")) (Some (PInt (sample_count current))) now in
                (MkVState (MkSys r (mirror (v_sys s) ++ [e])) (od_set (p_model p) now (_last_rollback_at s)),
                 Some (RolledBack (p_model p) (p_version p) target delta))
            end
        end
    end.

(** [check_once]; the file names of one cycle are told apart by [ts]. *)
Definition check_once (c : validator) (rows : list ModelVerdict) (ts : string -> string) (now : Z) (s : vstate)
    : vstate * list outcome :=
  foldl (fun '(s, out) p => let '(s, o) := _evaluate c rows p (ts (p_model p)) now s in
                            (s, out ++ match o with Some o => [o] | None => [] end))
    (s, []) (_recent_promotions c (mirror (v_sys s)) now).

(** ** The drift monitor *)

Record monitor := MkMonitor {
  d_window : Z;
  _baseline_window_count : Z;
  d_threshold : spec_float;
  d_min_samples : Z;
  d_min_coverage : spec_float;
  _models : list string;
}.

Record DriftSignal := MkSignal { d_model : string; window_hours : Z; baseline_accuracy : spec_float;
                                 current_accuracy : spec_float; d_delta : spec_float; d_sample_count : Z; detected_at : Z }.

Definition drift_of (d : monitor) (rows : list ModelVerdict) (now : Z) (m : string) : option DriftSignal :=
  let recent_start := now - d_window d in
  let recent := accuracy_in_window rows m None recent_start now in
  let baseline := accuracy_in_window rows m None (recent_start - d_window d * _baseline_window_count d) recent_start in
  let delta := fsub (accuracy baseline) (accuracy recent) in
  if (sample_count recent <? d_min_samples d) || (sample_count baseline <? d_min_samples d)
     || SFltb (coverage recent) (d_min_coverage d) || SFltb (coverage baseline) (d_min_coverage d)
     || SFltb delta (d_threshold d) then None
  else
    let h := d_window d / hours 1 in
    Some (MkSignal m (if h =? 0 then 1 else h) (accuracy baseline) (accuracy recent) delta (sample_count recent) now).

Definition _compute_signals (d : monitor) (rows : list ModelVerdict) (now : Z) : list DriftSignal :=
  omap (drift_of d rows now) (_models d).

(** ** Properties *)

(** *** Promotion *)

(** The gate passes exactly when no threshold is violated. *)
Lemma evaluate_gate_spec m cfg :
  (evaluate_gate m cfg).1 = true <->
  shadow_sample_target cfg <= m_sample_count m
  /\ (0 < labeled_count m -> SFltb (accuracy_delta m) (shadow_min_accuracy_delta cfg) = false)
  /\ fgt (disagreement_rate m) (shadow_max_disagreement cfg) = false
  /\ fgt (candidate_error_rate m) (shadow_max_error_rate cfg) = false
  /\ fge (mcnemar_p_value m) _MCNEMAR_ALPHA = false.
Proof.
  unfold evaluate_gate. transitivity (violations m cfg = []); [by destruct (violations m cfg)|]. unfold violations.
  destruct (_ <? shadow_sample_target cfg) eqn:?, (0 <? labeled_count m) eqn:?,
    (SFltb _ (shadow_min_accuracy_delta cfg)), (fgt _ _), (fgt _ _), (fge _ _);
    cbn [andb app]; naive_solver lia.
Qed.

(** Without a labeled row the test cannot be significant. *)
Lemma unlabeled_p binomtest verdicts table model version :
  let m := compute_metrics binomtest verdicts table model version in
  labeled_count m = 0 -> fge (mcnemar_p_value m) _MCNEMAR_ALPHA = true.
Proof.
  cbn. unfold compute_metrics. destruct (_ =? 0) eqn:He; [done|]. destruct (zlen (List.filter labeled _) =? 0) eqn:Hl; [done|].
  cbn [labeled_count]. lia.
Qed.

Lemma metrics_names binomtest verdicts table model version :
  m_model (compute_metrics binomtest verdicts table model version) = model
  /\ m_version (compute_metrics binomtest verdicts table model version) = version.
Proof. unfold compute_metrics. destruct (_ =? 0); [done|]. by destruct (zlen (List.filter labeled _) =? 0). Qed.

Lemma labeled_nonneg binomtest verdicts table model version :
  0 <= labeled_count (compute_metrics binomtest verdicts table model version).
Proof.
  unfold compute_metrics. destruct (_ =? 0); [done|]. destruct (zlen (List.filter labeled _) =? 0); [done|]. apply zlen_nonneg.
Qed.

(** *** The sanity fixture *)

Lemma classes_elem l : forall seen x c, (x, c) ∈ l -> c ∈ seen \/ c ∈ classes seen l.
Proof.
  induction l as [|[y d] l IH]; intros seen x c Hin; [by apply not_elem_of_nil in Hin|]. cbn [classes].
  apply elem_of_cons in Hin as [[= -> ->]|Hin].
  - case_bool_decide; [by left|]. right. by left.
  - case_bool_decide; [by eapply IH|]. destruct (IH (d :: seen) x c Hin) as [[->|?]%elem_of_cons|?]; auto.
    + right. by left.
    + right. by right.
Qed.

(** Every class of a fixture that passed is at or above the floor. *)
Lemma sanity_floor examples infer :
  sanity_passed (run examples infer) = true ->
  examples <> [] /\ forall x c, (x, c) ∈ examples -> SFltb (class_accuracy infer examples c) min_per_class_accuracy = false.
Proof.
  destruct examples as [|e0 ex]; [done|]. set (examples := e0 :: ex). intros Hp. split; [done|]. intros x c Hin.
  change (sanity_passed (run examples infer)) with
    (match isort str_leb (map fst (List.filter (fun y => SFltb y.2 min_per_class_accuracy)
       (map (fun c => (c, class_accuracy infer examples c)) (classes [] examples)))) with [] => true | _ => false end) in Hp.
  destruct (isort _ _) eqn:Hs; [|done].
  assert (map fst (List.filter (fun y => SFltb y.2 min_per_class_accuracy)
    (map (fun c => (c, class_accuracy infer examples c)) (classes [] examples))) = []) as Hnil.
  { apply Permutation.Permutation_nil. etransitivity; [|apply (isort_perm str_leb)]. by rewrite Hs. }
  apply fmap_nil_inv in Hnil. apply not_true_iff_false. intros Hlow.
  assert ((c, class_accuracy infer examples c) ∈ List.filter (fun y => SFltb y.2 min_per_class_accuracy)
    (map (fun c => (c, class_accuracy infer examples c)) (classes [] examples))) as Hbad.
  { apply list_elem_of_In, filter_In. split; [|done]. apply in_map_iff. exists c. split; [done|].
    apply list_elem_of_In. by destruct (classes_elem _ [] _ _ Hin) as [?%not_elem_of_nil|]. }
  rewrite Hnil in Hbad. by apply not_elem_of_nil in Hbad.
Qed.

(** What the helper answers when it does not stand in the way of a known model *)
Lemma sanity_check_spec e model version sanity :
  model ∈ ALLOWED_MODEL_NAMES -> _run_sanity_check e model version = (sanity, None) ->
  exists infer, build_infer_fn e model (Candidates, candidate_name model version) = Ok infer
    /\ fixture e model <> []
    /\ forall x c, (x, c) ∈ fixture e model ->
         SFltb (class_accuracy infer (fixture e model) c) min_per_class_accuracy = false.
Proof.
  intros Hm. unfold _run_sanity_check, candidate_path. rewrite bool_decide_true
    by (unfold ALLOWED_MODEL_NAMES, WIRED_MODELS in *; set_solver). rewrite validate_allowed by done. cbn [negb res_bind].
  destruct (build_infer_fn _ _ _) as [infer|x]; [|done].
  destruct (sanity_passed _) eqn:Hp; [|done]. intros _. exists infer. split; [done|]. by apply sanity_floor.
Qed.

Lemma promotions_app_other mirror e :
  event_type e <> MODEL_PROMOTED -> promotions (mirror ++ [e]) = promotions mirror.
Proof. intros He. rewrite promotions_snoc. unfold of_type. by rewrite bool_decide_false. Qed.

Lemma write_other writer e s :
  event_type e <> MODEL_PROMOTED ->
  reg (_write_lifecycle_event writer e s) = reg s
  /\ promotions (mirror (_write_lifecycle_event writer e s)) = promotions (mirror s).
Proof. intros He. split; [done|]. destruct writer; [|done]. by apply promotions_app_other. Qed.

(** The production file after a promotion *)
Lemma promote_production model version ts r r' :
  promote model version ts r = Ok r' ->
  model ∈ ALLOWED_MODEL_NAMES
  /\ base r' !! (Production, production_name model) = base r !! (Candidates, candidate_name model version)
  /\ is_Some (base r !! (Candidates, candidate_name model version)).
Proof.
  intros Hp. pose proof Hp as (Hm & (f1 & c & Hret & Hc & Hb) & _)%promote_spec.
  assert (f1 !! (Candidates, candidate_name model version) = base r !! (Candidates, candidate_name model version)) as Hf1.
  { apply retire_spec in Hret as [[_ ->]|(c' & name & sfx & _ & _ & _ & ->)]; [done| |done].
    by rewrite lookup_insert_ne, lookup_delete_ne. }
  split_and!; [done| |rewrite <- Hf1; eauto]. by rewrite Hb, lookup_insert_eq, <- Hf1, Hc.
Qed.

(** C39. A candidate is promoted automatically only when every safeguard agrees.  The
    metrics of its shadow run hold at least one labeled row and violate no threshold, the
    model is on the allow-list, and every class of a non-empty sanity fixture is at or
    above the floor; then its file is what production serves and its promotion is
    mirrored.  In every other case the registry and the promotions are as before. *)
Theorem promotion_is_gated binomtest verdicts table model version cfg e hash approver ts now s s' r :
  let m := compute_metrics binomtest verdicts table model version in
  process_candidate m cfg e true hash approver ts now s = (s', r) ->
  (promoted r = true ->
     0 < labeled_count m /\ shadow_sample_target cfg <= m_sample_count m
     /\ SFltb (accuracy_delta m) (shadow_min_accuracy_delta cfg) = false
     /\ fgt (disagreement_rate m) (shadow_max_disagreement cfg) = false
     /\ fgt (candidate_error_rate m) (shadow_max_error_rate cfg) = false
     /\ fge (mcnemar_p_value m) _MCNEMAR_ALPHA = false
     /\ model ∈ auto_promote_models_list cfg
     /\ (exists infer, build_infer_fn e model (Candidates, candidate_name model version) = Ok infer
           /\ fixture e model <> []
           /\ forall x c, (x, c) ∈ fixture e model ->
                SFltb (class_accuracy infer (fixture e model) c) min_per_class_accuracy = false)
     /\ base (reg s') !! (Production, production_name model) = base (reg s) !! (Candidates, candidate_name model version)
     /\ current_version (mirror s') model = Some version)
  /\ (promoted r = false -> reg s' = reg s /\ promotions (mirror s') = promotions (mirror s)).
Proof.
  intros m. destruct (metrics_names binomtest verdicts table model version) as [Hmod Hver]. fold m in Hmod, Hver.
  unfold process_candidate. rewrite Hmod, Hver. pose proof (evaluate_gate_spec m cfg) as Hgate.
  destruct (evaluate_gate m cfg) as [gp gr]. cbn [fst] in Hgate.
  destruct (if gp && bool_decide (model ∈ auto_promote_models_list cfg) then _run_sanity_check e model version else (None, None))
    as [sanity why] eqn:Hsan.
  destruct (if gp && bool_decide (model ∈ auto_promote_models_list cfg) && negb (match why with Some _ => true | None => false end)
            then _ else _) as [r0|x] eqn:Hdone; intros [= <- <-]; (split; [|try done]); [|done|].
  - intros _. destruct gp; [|done]. case_bool_decide as Hauto; [|done]. destruct why; [done|]. cbn [andb negb] in Hdone.
    unbind Hdone. destruct (promote_production _ _ _ _ _ Hrun) as (Hm & Hp & _). apply disable_spec in Hdone as [_ Hp'].
    destruct (proj1 Hgate eq_refl) as (H1 & H2 & H3 & H4 & H5).
    assert (0 < labeled_count m) as Hl.
    { pose proof (labeled_nonneg binomtest verdicts table model version) as Hn. fold m in Hn.
      destruct (decide (labeled_count m = 0)) as [H0|]; [|lia]. apply unlabeled_p in H0. fold m in H0. congruence. }
    split_and!; auto.
    + by eapply sanity_check_spec.
    + cbn [_write_lifecycle_event reg]. by rewrite Hp'.
    + cbn [_write_lifecycle_event mirror]. apply current_version_promoted.
  - intros _. cbn [_write_lifecycle_event reg mirror]. rewrite promotions_app_other by done. destruct why; [|done].
    split; [done|]. cbn [_write_lifecycle_event mirror]. by apply promotions_app_other.
Qed.

(** *** The validator *)

Lemma evaluate_rolled_back c rows p ts now s s' m v name d :
  _evaluate c rows p ts now s = (s', Some (RolledBack m v name d)) ->
  m = p_model p /\ v = p_version p /\ p_model p ∈ ALLOWED_MODEL_NAMES /\ _settle c <= now - promoted_at p
  /\ regression c rows p now = Some d /\ latest_archive (p_model p) (reg (v_sys s)) = Some name
  /\ rollback (p_model p) name ts (reg (v_sys s)) = Ok (reg (v_sys s'))
  /\ promotions (mirror (v_sys s')) = promotions (mirror (v_sys s))
  /\ od_get (p_model p) (_last_rollback_at s') = Some now.
Proof.
  unfold _evaluate. destruct (_ || _) eqn:Hg; [done|].
  apply orb_false_iff in Hg as [[Hsettle _]%orb_false_iff Hm%negb_false_iff%bool_decide_eq_true].
  destruct (regression c rows p now) as [delta|]; [|done]. destruct (latest_archive _ _) as [target|]; [|done].
  destruct (rollback _ _ _ _) as [r|e] eqn:Hr; [|done]. intros [= <- <- <- <- <-]. cbn [v_sys reg mirror _last_rollback_at].
  split_and!; try done; [lia| |apply od_get_set_eq]. by apply promotions_app_other.
Qed.

(** Rows that are there already do not fall out of a window that is extended. *)
Lemma accuracy_later rows m v start now1 now2 :
  Forall (fun r => str_ltb (timestamp r) (isoformat now1) = true /\ str_ltb (timestamp r) (isoformat now2) = true) rows ->
  let a := accuracy_in_window rows m v start now1 in
  let b := accuracy_in_window rows m v start now2 in
  sample_count a = sample_count b /\ coverage a = coverage b /\ accuracy a = accuracy b.
Proof.
  intros Hrows. assert (List.filter (in_window m v start now1) rows = List.filter (in_window m v start now2) rows) as Heq.
  { induction Hrows as [|r rows [H1 H2] _ IH]; [done|]. cbn [List.filter]. rewrite IH. unfold in_window. by rewrite H1, H2. }
  unfold accuracy_in_window. by rewrite Heq.
Qed.

Lemma regression_later c rows p now1 now2 :
  Forall (fun r => str_ltb (timestamp r) (isoformat now1) = true /\ str_ltb (timestamp r) (isoformat now2) = true) rows ->
  regression c rows p now1 = regression c rows p now2.
Proof.
  intros Hrows. destruct (accuracy_later rows (p_model p) (Some (p_version p)) (promoted_at p) now1 now2 Hrows) as (H1 & H2 & H3).
  unfold regression. by rewrite H1, H2, H3.
Qed.

Lemma promotion_row_later c1 c2 x p :
  promotion_row c1 x = Some p -> c2 <= promoted_at p -> promotion_row c2 x = Some p.
Proof.
  unfold promotion_row. destruct x.2 as [|[v t] older]; [done|]. destruct (t <? c1); [done|]. intros [= <-]. cbn.
  intros Hle. by destruct (t <? c2) eqn:?; [lia|].
Qed.

Lemma rollback_generation model name ts r r' :
  rollback model name ts r = Ok r' -> get_generation model r' = Ok (generation model r + 1).
Proof.
  intros (Hm & _ & _ & Hg & _)%rollback_spec.
  assert (od_get model (_generations r') = Some (generation model r + 1)) as Ho by (rewrite Hg; apply od_get_set_eq).
  rewrite get_generation_ok by (done || by eexists). unfold generation at 1. by rewrite Ho.
Qed.

(** C37. The validator puts the regressed model back into production.  A rollback writes
    no promotion event, so the next check still takes the regressed version for the
    current one, whose rows still show the regression; and the archived file with the
    last name is by then the regressed model itself.  Once the cooldown is over, while the
    promotion is in the window, the second rollback restores it.  In between, sessions
    are stamped with the regressed version although they serve the older model. *)
Theorem validator_restores_regression c rows p ts1 ts2 now1 now2 s s1 name d good bad builds x :
  p ∈ _recent_promotions c (mirror (v_sys s)) now1 ->
  _evaluate c rows p ts1 now1 s = (s1, Some (RolledBack (p_model p) (p_version p) name d)) ->
  base (reg (v_sys s)) !! (Archive, name) = Some good ->
  base (reg (v_sys s)) !! (Production, production_name (p_model p)) = Some bad ->
  _validate_archived_filename name (p_model p) = Ok tt ->
  _validate_archived_filename (archived (p_model p) ts1 "") (p_model p) = Ok tt ->
  newest (p_model p) ts1 (reg (v_sys s)) ->
  str_ltb (archived (p_model p) ts1 "") (archived (p_model p) ts2 "") = true ->
  Forall (fun r => str_ltb (timestamp r) (isoformat now1) = true /\ str_ltb (timestamp r) (isoformat now2) = true) rows ->
  now1 <= now2 -> _cooldown c <= now2 - now1 -> now2 - _window c <= promoted_at p ->
  rs_model x = p_model p -> last_generation x <= generation (p_model p) (reg (v_sys s)) -> builds good = true ->
  let y := maybe_reload builds (mirror (v_sys s1)) (reg (v_sys s1)) x in
  (session y = Some good /\ rs_version y = current_version (mirror (v_sys s)) (p_model p))
  /\ p ∈ _recent_promotions c (mirror (v_sys s1)) now2
  /\ exists s2, _evaluate c rows p ts2 now2 s1
                = (s2, Some (RolledBack (p_model p) (p_version p) (archived (p_model p) ts1 "") d))
       /\ base (reg (v_sys s2)) !! (Production, production_name (p_model p)) = Some bad.
Proof.
  intros Hp He Hgood Hbad Hv Hv1 Hnew Hlt Hrows Hnow Hcool Hwin Hx Hle Hb y.
  pose proof He as (_ & _ & Hm & Hset & Hreg & Hlast & Hr & Hpro & Hlr)%evaluate_rolled_back.
  destruct (rollback_latest _ _ _ _ _ _ Hm Hlast Hv Hgood Hbad Hnew) as (r1' & Hr' & Hp1 & Hl1 & Ha1 & _ & Hgen).
  rewrite Hr in Hr'. injection Hr' as <-.
  destruct (rollback_toggles _ _ _ _ _ _ _ Hm Hlast Hgood Hbad Hv Hv1 Hnew Hlt) as (r1 & r2 & Hr1 & _ & _ & Hr2 & Hp2).
  rewrite Hr in Hr1. injection Hr1 as <-.
  assert (current_version (mirror (v_sys s1)) (p_model p) = current_version (mirror (v_sys s)) (p_model p)) as Hcv
    by (unfold current_version; by rewrite Hpro).
  split; [|split].
  - unfold y, maybe_reload. rewrite Hx, (rollback_generation _ _ _ _ _ Hr). destruct (_ =? last_generation x) eqn:?; [lia|].
    by rewrite Hp1, Hb, Hcv.
  - unfold _recent_promotions, by_model in *. rewrite Hpro. apply list_elem_of_omap in Hp as (z & Hz & Hrow).
    apply list_elem_of_omap. exists z. split; [done|]. by eapply promotion_row_later.
  - eexists. unfold _evaluate. rewrite Hlr. rewrite (regression_later c rows p now1 now2 Hrows) in Hreg. rewrite Hreg, Hl1, Hr2.
    rewrite bool_decide_true by done. destruct (_ <? _settle c) eqn:?; [lia|]. destruct (_ <? _cooldown c) eqn:?; [lia|].
    split; [reflexivity|]. done.
Qed.

(** ** Runs *)

Module PromotionRuns.
Definition verdict (p g t v : string) : ModelVerdict :=
  MkVerdict "intent" "h" "{}" p (PInt 1) None t (Some g) (Some "harvester") (Some v).

(** A candidate that is right where production is wrong *)
Definition shadow_rows : list comparison_row := [MkComparison "intent" "v3" "h" "a" (Some "b") None].
Definition labels : list ModelVerdict := [verdict "a" "b" "2026-04-15T00:00:01+00:00" "v2"].
Definition p_of (k n : Z) : option spec_float := Some (sf_of_decimal false 1 (-2)).
Definition cfg : settings :=
  MkSettings 1 (sf_of_decimal false 2 (-2)) one (sf_of_decimal false 5 (-2)) ["intent"].
Definition env : sanity_env :=
  MkEnv (fun _ _ => Ok (fun _ => Ok "b")) (fun _ => [(PStr "hello", "b")]).
Definition metrics : ShadowMetrics := compute_metrics p_of labels shadow_rows "intent" "v3".
Definition outcome_of : sys * GateResult :=
  process_candidate metrics cfg env true "" "auto" "20260415T000000.000000Z" 0 RegistryRuns.gateway.

Lemma outcome_eq :
  process_candidate metrics cfg env true "" "auto" "20260415T000000.000000Z" 0 RegistryRuns.gateway = (outcome_of.1, outcome_of.2).
Proof. by destruct outcome_of eqn:He; unfold outcome_of in He. Qed.

Lemma promotion_is_gated_witness :
  promoted outcome_of.2 = true /\ 0 < labeled_count metrics /\ "intent" ∈ auto_promote_models_list cfg.
Proof.
  assert (promoted outcome_of.2 = true) as Hp by (vm_compute; reflexivity). split; [exact Hp|].
  destruct (proj1 (promotion_is_gated p_of labels shadow_rows "intent" "v3" cfg env "" "auto" "20260415T000000.000000Z" 0
    RegistryRuns.gateway outcome_of.1 outcome_of.2 outcome_eq) Hp) as (H1 & _ & _ & _ & _ & _ & H2 & _).
  exact (conj H1 H2).
Defined.

(** Version 2 replaced version 1 and is worse; a day of checks *)
Definition t0 : Z := seconds 1776211200.        (** 2026-04-15 *)
Definition history : list LifecycleEvent :=
  [build_promotion_event "intent" "v1" "" [] "ops" (t0 - hours 20); build_promotion_event "intent" "v2" "" [] "ops" t0].
Definition rows : list ModelVerdict :=
  [verdict "a" "a" "2026-04-14T08:00:00+00:00" "v1"; verdict "a" "b" "2026-04-15T00:10:00+00:00" "v2"].
Definition check : validator := validator_init (sf_of_decimal false 5 (-2)) 24 1 (sf_of_decimal false 30 (-2)) 12 15.
Definition promo : _PromotionRow := MkPromotion "intent" "v2" t0 (Some "v1") (Some (t0 - hours 20)).
Definition before : vstate := MkVState (MkSys (init RegistryRuns.disk) history) [].
Definition first_check : vstate := (_evaluate check rows promo "20260415T003000.000000Z" (t0 + minutes 30) before).1.
Definition session2 : ReloadState := MkReload "intent" 0 (Some "v2") (Some "new weights").

Lemma validator_restores_regression_witness :
  base (reg (v_sys first_check)) !! (Production, "intent.onnx") = Some "old weights"
  /\ exists s2 d, _evaluate check rows promo "20260415T130000.000000Z" (t0 + hours 13) first_check
       = (s2, Some (RolledBack "intent" "v2" "intent-archived-20260415T003000.000000Z.onnx" d))
     /\ base (reg (v_sys s2)) !! (Production, "intent.onnx") = Some "new weights".
Proof.
  split; [vm_compute; reflexivity|].
  destruct (validator_restores_regression check rows promo "20260415T003000.000000Z" "20260415T130000.000000Z"
    (t0 + minutes 30) (t0 + hours 13) before first_check "intent-archived-20260101T000000.000000Z.onnx" one
    "old weights" "new weights" (fun _ => true) session2) as (_ & _ & s2 & H1 & H2).
  - by apply list_elem_of_singleton; vm_compute.
  - vm_compute. reflexivity.
  - vm_compute. reflexivity.
  - vm_compute. reflexivity.
  - vm_compute. reflexivity.
  - vm_compute. reflexivity.
  - split; [vm_compute; reflexivity|]. intros n Hn. vm_compute in Hn. apply list_elem_of_singleton in Hn as ->. reflexivity.
  - vm_compute. reflexivity.
  - repeat constructor.
  - vm_compute. discriminate.
  - vm_compute. discriminate.
  - vm_compute. discriminate.
  - reflexivity.
  - vm_compute. discriminate.
  - reflexivity.
  - exists s2, one. exact (conj H1 H2).
Defined.
End PromotionRuns.
