(* ===== verification/RecordSchema.v ===== *)
(** * Record validation before a ledger write (classifier/schema.py)

    [validate_record] over the three schemas: a missing or null required field
    is filled in, a value of the wrong type is coerced or replaced by the
    default.  The log line that reports the issues is not modelled. *)
From Stdlib Require Import SpecFloat.
From S2P Require Import Prelude ODict PyVal PyObj.

Local Open Scope Z_scope.

(** ** Schemas *)

Inductive ftype := Tstr | Tint | Tfloat | Tbool.
#[export] Instance ftype_dec : EqDecision ftype.
Proof. solve_decision. Defined.

(** One entry; a field without a default has [None], which is what
    [field_spec.get("default")] gives. *)
Record spec := MkSpec { ty : ftype; required : bool; dflt : pyval }.

Abbreviation schema := (list (string * spec)).

Definition must (t : ftype) : spec := MkSpec t true PNone.
Definition may (t : ftype) (d : pyval) : spec := MkSpec t false d.

Definition EXECUTION_SCHEMA : schema :=
  [("execution_id", must Tstr); ("tenant_id", must Tstr); ("gateway_id", must Tstr);
   ("timestamp", must Tstr); ("policy_version", must Tint); ("policy_result", must Tstr);
   ("model_attestation_id", may Tstr (PStr "")); ("model_id", may Tstr (PStr "unknown"));
   ("provider", may Tstr (PStr "unknown")); ("user", may Tstr PNone);
   ("session_id", may Tstr PNone); ("prompt_text", may Tstr PNone);
   ("response_content", may Tstr PNone); ("provider_request_id", may Tstr PNone);
   ("model_hash", may Tstr PNone); ("thinking_content", may Tstr PNone);
   ("prompt_tokens", may Tint (PInt 0)); ("completion_tokens", may Tint (PInt 0));
   ("total_tokens", may Tint (PInt 0)); ("latency_ms", may Tfloat PNone);
   ("cache_hit", may Tbool (PBool false)); ("cached_tokens", may Tint (PInt 0));
   ("cache_creation_tokens", may Tint (PInt 0)); ("retry_of", may Tstr PNone);
   ("variant_id", may Tstr PNone); ("metadata_json", may Tstr PNone);
   ("estimated_cost_usd", may Tfloat PNone); ("sequence_number", may Tint PNone);
   ("record_hash", may Tstr PNone); ("previous_record_hash", may Tstr PNone)].

Definition TOOL_EVENT_SCHEMA : schema :=
  [("event_id", must Tstr); ("execution_id", must Tstr); ("tenant_id", must Tstr);
   ("gateway_id", must Tstr); ("timestamp", must Tstr); ("tool_name", may Tstr (PStr "unknown"));
   ("tool_type", may Tstr (PStr "function")); ("tool_source", may Tstr (PStr "gateway"));
   ("session_id", may Tstr PNone); ("input_data", may Tstr PNone); ("input_hash", may Tstr PNone);
   ("output_data", may Tstr PNone); ("output_hash", may Tstr PNone); ("sources", may Tstr PNone);
   ("duration_ms", may Tfloat PNone); ("iteration", may Tint PNone);
   ("is_error", may Tbool (PBool false)); ("content_analysis", may Tstr PNone)].

Definition ATTEMPT_SCHEMA : schema :=
  [("request_id", must Tstr); ("timestamp", must Tstr); ("tenant_id", must Tstr);
   ("disposition", must Tstr); ("status_code", must Tint); ("path", may Tstr (PStr ""));
   ("provider", may Tstr PNone); ("model_id", may Tstr PNone); ("execution_id", may Tstr PNone);
   ("user", may Tstr PNone)].

(** ** Validation *)

(** [isinstance(value, expected_type)]: a [bool] is an [int]. *)
Definition isinstance (t : ftype) (v : pyval) : bool :=
  match t, v with
  | Tstr, PStr _ | Tint, PInt _ | Tint, PBool _ | Tfloat, PFloat _ _ | Tbool, PBool _ => true
  | _, _ => false
  end.

(** [default if default is not None else ""] *)
Definition fill (s : spec) : pyval := if is_none (dflt s) then PStr "" else dflt s.

(** [except (ValueError, TypeError)] *)
Definition caught (e : exn) : bool := match e with ValueError _ | TypeError _ => true | _ => false end.

Section validate.
Context `{FloatRepr}.

Definition coerce (t : ftype) (v : pyval) : res pyval :=
  match t with
  | Tint => if truthy v then let! f := py_float v in let! z := py_int (PFloat f "") in Ok (PInt z)
            else Ok (PInt 0)
  | Tfloat => if truthy v then let! f := py_float v in Ok (PFloat f (float_repr f))
              else Ok (PFloat (S754_zero false) "0.0")
  | Tstr => Ok (PStr (py_str v))
  | Tbool => Ok (PBool (truthy v))
  end.

(** One turn of the loop *)
Definition validate_field (cleaned : dict) (field : string * spec) : res dict :=
  let '(field_name, s) := field in
  let value := dget field_name cleaned in
  if is_none value then
    if required s then Ok (od_set field_name (fill s) cleaned) else Ok cleaned
  else if isinstance (ty s) value then Ok cleaned
  else match coerce (ty s) value with
       | Ok w => Ok (od_set field_name w cleaned)
       | Raise e => if caught e then Ok (od_set field_name (dflt s) cleaned) else Raise e
       end.

Definition validate_record (record : dict) (sc : schema) : res dict := fold_res validate_field sc record.

Definition validate_execution (record : dict) : res dict := validate_record record EXECUTION_SCHEMA.
Definition validate_tool_event (record : dict) : res dict := validate_record record TOOL_EVENT_SCHEMA.
Definition validate_attempt (record : dict) : res dict := validate_record record ATTEMPT_SCHEMA.

(** ** The value of one field *)

Definition validate_value (s : spec) (v : pyval) : res pyval :=
  if is_none v then Ok (if required s then fill s else PNone)
  else if isinstance (ty s) v then Ok v
  else match coerce (ty s) v with
       | Ok w => Ok w
       | Raise e => if caught e then Ok (dflt s) else Raise e
       end.

Lemma validate_field_value name s d d' :
  validate_field d (name, s) = Ok d' ->
  validate_value s (dget name d) = Ok (dget name d') /\ forall k, k <> name -> od_get k d' = od_get k d.
Proof.
  unfold validate_field, validate_value. intros Hv.
  assert (forall w, validate_value s (dget name d) = Ok w -> d' = od_set name w d ->
            validate_value s (dget name d) = Ok (dget name d') /\
            forall k, k <> name -> od_get k d' = od_get k d) as Hset.
  { intros w Hw ->. rewrite dget_set_eq. split; [done|]. intros k Hk. by rewrite od_get_set_ne. }
  unfold validate_value in Hset. destruct (is_none _) eqn:Hn.
  - destruct (required s); injection Hv as <-; [by eapply Hset|]. by destruct (dget name d).
  - destruct (isinstance _ _); [by injection Hv as <-|].
    destruct (coerce _ _) as [w|e]; [injection Hv as <-; by eapply Hset|].
    destruct (caught e); [injection Hv as <-; by eapply Hset|done].
Qed.

Lemma validate_field_raises name s d e :
  validate_field d (name, s) = Raise e <-> validate_value s (dget name d) = Raise e.
Proof. unfold validate_field, validate_value. repeat case_match; naive_solver. Qed.

(** Each field of the schema gets its validated value; no other key changes. *)
Lemma validate_record_values sc : forall d d',
  NoDup sc.*1 -> validate_record d sc = Ok d' ->
  (forall name s, (name, s) ∈ sc -> validate_value s (dget name d) = Ok (dget name d')) /\
  (forall k, k ∉ sc.*1 -> od_get k d' = od_get k d).
Proof.
  unfold validate_record. induction sc as [|[n s] sc IH]; intros d d' Hnd Hv; simpl in Hv.
  - injection Hv as <-. split; [|done]. intros ?? []%not_elem_of_nil.
  - apply res_bind_ok in Hv as (d1 & Hf & Hv). apply validate_field_value in Hf as [Hf Hk].
    simpl in Hnd. apply NoDup_cons in Hnd as [Hn Hnd]. destruct (IH _ _ Hnd Hv) as [H1 H2].
    assert (dget n d' = dget n d1) as Hn1 by (unfold dget; by rewrite H2).
    split.
    + intros name s' [[= -> ->]|Hin]%elem_of_cons; [by rewrite Hn1|].
      rewrite <- (H1 _ _ Hin). f_equal. unfold dget. rewrite Hk; [done|]. intros ->. apply Hn.
      apply list_elem_of_fmap. by exists (n, s').
    + intros k Hks. simpl in Hks. apply not_elem_of_cons in Hks as [Hk1 Hk2]. rewrite H2 by done. by apply Hk.
Qed.

Lemma validate_record_raises sc : forall d e,
  NoDup sc.*1 -> validate_record d sc = Raise e ->
  exists name s, (name, s) ∈ sc /\ validate_value s (dget name d) = Raise e.
Proof.
  unfold validate_record. induction sc as [|[n s] sc IH]; intros d e Hnd Hv; cbn [fold_res] in Hv; [done|].
  simpl in Hnd. apply NoDup_cons in Hnd as [Hn Hnd].
  destruct (validate_field d (n, s)) as [d1|e1] eqn:Hf; cbn [res_bind] in Hv.
  - destruct (IH _ _ Hnd Hv) as (name & s' & Hin & Hr). exists name, s'. split; [by right|].
    apply validate_field_value in Hf as [_ Hk]. rewrite <- Hr. f_equal. unfold dget. rewrite Hk; [done|].
    intros ->. apply Hn. apply list_elem_of_fmap. by exists (n, s').
  - simplify_eq. exists n, s. split; [by left|]. by apply validate_field_raises.
Qed.

Lemma validate_field_wf d x d' : od_wf d -> validate_field d x = Ok d' -> od_wf d'.
Proof.
  destruct x as [n s]. unfold validate_field. intros Hwf Hv. repeat case_match; simplify_eq; auto using od_wf_set.
Qed.

Lemma validate_record_wf sc : forall d d', od_wf d -> validate_record d sc = Ok d' -> od_wf d'.
Proof.
  unfold validate_record. induction sc as [|x sc IH]; intros d d' Hwf Hv; cbn [fold_res] in Hv.
  - by injection Hv as <-.
  - apply res_bind_ok in Hv as (d1 & H1 & Hv). eapply IH; [|done]. by eapply validate_field_wf.
Qed.

(** A key outside the schema can be set before or after. *)
Lemma validate_field_set k v d x :
  k <> x.1 -> k ∈ od_keys d ->
  validate_field (od_set k v d) x = (let! d := validate_field d x in Ok (od_set k v d)) /\
  forall d', validate_field d x = Ok d' -> k ∈ od_keys d'.
Proof.
  destruct x as [n s]. simpl. intros Hne Hin. unfold validate_field.
  rewrite dget_set_ne by done. destruct (is_none _).
  { destruct (required s); cbn [res_bind];
      (split; [by rewrite ?(od_set_comm k v)|intros d' [= <-]; rewrite ?od_set_keys_elem; auto]). }
  destruct (isinstance _ _); [by split; [|intros ? [= <-]]|].
  destruct (coerce _ _) as [w|e]; [|destruct (caught e); [|done]]; cbn [res_bind];
    (split; [by rewrite (od_set_comm k v)|]; intros d' [= <-]; apply od_set_keys_elem; by right).
Qed.

Lemma validate_record_set k v sc : forall d,
  k ∉ sc.*1 -> k ∈ od_keys d ->
  validate_record (od_set k v d) sc = let! d := validate_record d sc in Ok (od_set k v d).
Proof.
  unfold validate_record. induction sc as [|x sc IH]; intros d Hk Hin; [done|]. cbn [fold_res].
  apply not_elem_of_cons in Hk as [Hx Hk]. destruct (validate_field_set k v d x Hx Hin) as [-> Hkeys].
  destruct (validate_field d x) as [d1|e]; cbn [res_bind]; [|done]. apply IH; [done|by apply Hkeys].
Qed.

(** What the conversions raise *)
Lemma py_float_raises v e : py_float v = Raise e -> caught e = true \/ exists m, e = OverflowError m.
Proof. unfold py_float. repeat case_match; naive_solver. Qed.

Lemma py_int_raises v e : py_int v = Raise e -> caught e = true \/ exists m, e = OverflowError m.
Proof. unfold py_int, type_error. repeat case_match; naive_solver. Qed.

Lemma coerce_type t v w : coerce t v = Ok w -> isinstance t w = true.
Proof. destruct t; simpl; repeat case_match; intros Hc; unbind Hc; naive_solver. Qed.

Lemma coerce_raises t v e : coerce t v = Raise e -> caught e = true \/ exists m, e = OverflowError m.
Proof.
  unfold coerce. destruct t; try done; destruct (truthy v); try done;
    (destruct (py_float v) as [f|e'] eqn:Hf; cbn [res_bind];
       [|intros [= <-]; by eapply py_float_raises]); [|done].
  destruct (py_int (PFloat f "")) as [z|e'] eqn:Hz; cbn [res_bind]; [done|].
  intros [= <-]. by eapply py_int_raises.
Qed.

(** A value of a field after validation: of its type; absent, because it was and is not
    required or because it could not be converted and has no default; or the empty text
    that stands for a required value that was not given, whatever the field's type *)
Definition typed (s : spec) (given v : pyval) : Prop :=
  isinstance (ty s) v = true
  \/ (v = PNone /\ given = PNone /\ required s = false)
  \/ (v = PNone /\ given <> PNone /\ exists e, coerce (ty s) given = Raise e /\ caught e = true)
  \/ (v = PStr "" /\ given = PNone /\ required s = true).

Definition schema_ok (sc : schema) : bool :=
  bool_decide (NoDup sc.*1) && forallb (fun x => is_none (dflt x.2) || isinstance (ty x.2) (dflt x.2)) sc.

Lemma validate_value_typed s v w :
  is_none (dflt s) || isinstance (ty s) (dflt s) = true -> validate_value s v = Ok w -> typed s v w.
Proof.
  unfold validate_value, typed, fill. intros Hd Hv. destruct (is_none v) eqn:Hn.
  - assert (v = PNone) as -> by by destruct v. destruct (required s) eqn:Hr; injection Hv as <-; [|naive_solver].
    destruct (is_none (dflt s)) eqn:Hn2; naive_solver.
  - destruct (isinstance (ty s) v) eqn:Hi; [injection Hv as <-; by left|].
    destruct (coerce _ _) as [w'|e] eqn:Hc; [injection Hv as <-; left; by eapply coerce_type|].
    destruct (caught e) eqn:Hca; [|done]. injection Hv as <-. destruct (is_none (dflt s)) eqn:Hn2; [|naive_solver].
    right. right. left. split; [by destruct (dflt s)|]. split; [by intros ->|by exists e].
Qed.

(** A required field keeps its value in a second validation only if it has its type. *)
Lemma validate_value_fixed s v :
  is_none (dflt s) || isinstance (ty s) (dflt s) = true -> required s = true ->
  validate_value s v = Ok v -> isinstance (ty s) v = true.
Proof.
  unfold validate_value, fill. intros Hd Hr Hv. rewrite Hr in Hv. destruct (is_none v) eqn:Hn.
  - destruct (is_none (dflt s)) eqn:Hn2; injection Hv as <-; [done|]. by rewrite Hn in Hn2.
  - destruct (isinstance (ty s) v) eqn:Hi; [done|].
    destruct (coerce _ _) as [w|e] eqn:Hc; [injection Hv as ->; by apply coerce_type in Hc; rewrite Hc in Hi|].
    destruct (caught e); [|done]. injection Hv as <-. rewrite Hn, Hi in Hd. done.
Qed.

Lemma validate_value_id s v : isinstance (ty s) v = true -> validate_value s v = Ok v.
Proof. unfold validate_value. intros Hi. rewrite Hi. destruct v; simpl; try done. by destruct (ty s). Qed.

(** Validation of a record whose fields have their types changes nothing. *)
Lemma validate_settled sc d :
  Forall (fun x => isinstance (ty x.2) (dget x.1 d) = true \/ (dget x.1 d = PNone /\ required x.2 = false)) sc ->
  validate_record d sc = Ok d.
Proof.
  unfold validate_record. induction 1 as [|[n s] sc Hx Hs IH]; [done|]. cbn [fold_res]. simpl in Hx.
  assert (validate_field d (n, s) = Ok d) as ->; [|done]. unfold validate_field.
  destruct Hx as [Hi|[-> ->]]; [|done]. rewrite Hi. destruct (is_none _) eqn:Hn; [|done].
  exfalso. destruct (dget n d); try done. by destruct (ty s).
Qed.

(** A required number that is missing is filled with the empty text, which is no number;
    and the next validation of the cleaned record makes it 0. *)
Lemma filled_number_is_text sc name record cleaned :
  NoDup sc.*1 -> (name, must Tint) ∈ sc -> dget name record = PNone -> validate_record record sc = Ok cleaned ->
  dget name cleaned = PStr "" /\
  forall again, validate_record cleaned sc = Ok again -> dget name again = PInt 0.
Proof.
  intros Hnd Hin Hg Hv. destruct (validate_record_values _ _ _ Hnd Hv) as [H1 _]. apply H1 in Hin as Hc.
  rewrite Hg in Hc. injection Hc as Hc. split; [done|]. intros again Ha.
  destruct (validate_record_values _ _ _ Hnd Ha) as [H2 _]. apply H2 in Hin. rewrite <- Hc in Hin. by injection Hin.
Qed.

(** C33. What validation makes of a record.  Every field of the schema ends up with a value
    of its type, except that a field that was absent and is not required stays absent, a
    value that cannot be converted and has no default is dropped, and a required field
    that was absent gets the empty text, whatever its type is.  A value that had its
    type is kept, and so is every key outside the schema.  A second validation changes
    nothing exactly when every required field has its type after the first, so not when
    a required number was absent.  Validation raises only when a number overflows, which
    is the conversion of one of its fields. *)
Theorem validated_records_are_typed sc record :
  schema_ok sc = true ->
  (forall cleaned, validate_record record sc = Ok cleaned ->
     (forall name s, (name, s) ∈ sc -> typed s (dget name record) (dget name cleaned)) /\
     (forall name s, (name, s) ∈ sc -> isinstance (ty s) (dget name record) = true ->
        dget name cleaned = dget name record) /\
     (forall name s, (name, s) ∈ sc -> dget name record = PNone -> required s = true ->
        dget name cleaned = fill s) /\
     (forall k, k ∉ sc.*1 -> od_get k cleaned = od_get k record) /\
     (validate_record cleaned sc = Ok cleaned <->
      forall name s, (name, s) ∈ sc -> required s = true -> isinstance (ty s) (dget name cleaned) = true)) /\
  (forall e, validate_record record sc = Raise e ->
     (exists m, e = OverflowError m) /\
     exists name s, (name, s) ∈ sc /\ (ty s = Tint \/ ty s = Tfloat) /\
       coerce (ty s) (dget name record) = Raise e).
Proof.
  unfold schema_ok. rewrite andb_true_iff, bool_decide_eq_true, forallb_forall.
  intros [Hnd Hd].
  assert (forall name s, (name, s) ∈ sc -> is_none (dflt s) || isinstance (ty s) (dflt s) = true) as Hdf
    by (intros name s Hin; apply list_elem_of_In in Hin; by apply (Hd (name, s))).
  split.
  - intros cleaned Hv. destruct (validate_record_values _ _ _ Hnd Hv) as [H1 H2].
    assert (forall name s, (name, s) ∈ sc -> typed s (dget name record) (dget name cleaned)) as Ht
      by (intros name s Hin; eapply validate_value_typed; [by eapply Hdf|by apply H1]).
    split; [done|]. split.
    { intros name s Hin Hi. apply H1 in Hin. rewrite validate_value_id in Hin by done. by injection Hin. }
    split. { intros name s Hin Hg Hr. apply H1 in Hin. rewrite Hg in Hin. cbn in Hin. rewrite Hr in Hin. by injection Hin. }
    split; [done|]. split.
    + intros Hv2 name s Hin Hr. destruct (validate_record_values _ _ _ Hnd Hv2) as [H3 _].
      eapply validate_value_fixed; [by eapply Hdf|done|by apply H3].
    + intros Hr. apply validate_settled, Forall_forall. intros [n s] Hin. simpl.
      destruct (required s) eqn:Hq; [left; by apply Hr|].
      destruct (Ht _ _ Hin) as [Hi|[[Hn _]|[[Hn _]|(_ & _ & Hq')]]]; [by left|by right..|congruence].
  - intros e Hv. destruct (validate_record_raises _ _ _ Hnd Hv) as (name & s & Hin & Hr).
    unfold validate_value in Hr. destruct (is_none _); [done|]. destruct (isinstance _ _); [done|].
    destruct (coerce _ _) as [|e'] eqn:Hc; [done|]. destruct (caught e') eqn:Hca; [done|]. simplify_eq.
    destruct (coerce_raises _ _ _ Hc) as [?|Hm]; [congruence|]. split; [done|].
    exists name, s. split; [done|]. split; [|done]. destruct (ty s); simpl in Hc; try done; auto.
Qed.
End validate.

(** A provider that reports an infinite token count makes the record
    undeliverable; a text that is no number is replaced by the default. *)
Lemma validated_records_are_typed_witness :
  let H : FloatRepr := fun _ => "" in
  let record := [("prompt_tokens", PFloat (S754_infinity false) "inf"); ("total_tokens", PStr "many")] in
  schema_ok EXECUTION_SCHEMA = true /\
  (exists m, (OverflowError "cannot convert float infinity to integer") = OverflowError m) /\
  validate_execution record = Raise (OverflowError "cannot convert float infinity to integer") /\
  (forall cleaned, validate_execution [("total_tokens", PStr "many")] = Ok cleaned ->
     dget "total_tokens" cleaned = PInt 0).
Proof.
  intros H record. split; [vm_compute; reflexivity|]. split.
  - refine (proj1 (proj2 (validated_records_are_typed EXECUTION_SCHEMA record _) _ _));
      vm_compute; reflexivity.
  - split; [vm_compute; reflexivity|]. intros cleaned Hc. vm_compute in Hc. injection Hc as <-. reflexivity.
Defined.
