(* ===== verification/WalacorClient.v ===== *)
(** * The ledger client (walacor/client.py, util/errors.py)

    [WalacorClient]: the record it makes of an execution or tool event, the
    submit, login and query calls with their retries, the delivery log and the
    refresh of the token.  The HTTP service is the class [Http]; JSON texts are
    [JsonText].  Times are whole microseconds.  Log lines, the construction of
    the HTTP client and its closing are not modelled. *)
From Stdlib Require Import SpecFloat.
From S2P Require Import Prelude ODict PyVal PyStr PyObj RecordSchema.

Local Open Scope Z_scope.

(** ** Constants *)

Definition _METADATA_JSON_MAX_BYTES : Z := 60000.
Definition _TOOL_EVENT_BLOB_MAX_BYTES : Z := 60000.

Definition _EXPLICIT_INTERNAL_KEYS : list string :=
  ["_translated_from_openai"; "schema_mapper_confidence"; "schema_mapper_mapped";
   "schema_mapper_unmapped"; "schema_mapper_overflow_keys"; "schema_mapper_timing";
   "schema_mapper_citations"].

Definition _EXECUTION_SCHEMA_FIELDS : list string :=
  ["execution_id"; "model_attestation_id"; "model_id"; "provider"; "tenant_id"; "gateway_id";
   "timestamp"; "user"; "session_id"; "policy_version"; "policy_result"; "prompt_text";
   "response_content"; "thinking_content"; "metadata_json"; "provider_request_id"; "model_hash";
   "prompt_tokens"; "completion_tokens"; "total_tokens"; "cached_tokens"; "cache_creation_tokens";
   "cache_hit"; "latency_ms"; "sequence_number"; "record_id"; "previous_record_id"; "record_hash";
   "previous_record_hash"; "record_signature"; "tool_strategy"; "tool_count"; "variant_id";
   "retry_of"].

Definition _INTENTIONAL_NON_SCHEMA_KEYS : list string :=
  ["prompt_hash"; "response_hash"; "metadata"; "file_metadata"; "timings"].

Definition _METADATA_KEEP_FIELDS : list string :=
  ["session_id"; "prompt_id"; "request_type"; "received_at"; "client_context"; "chat_id";
   "user_email"; "user_name"; "caller_email"; "caller_roles"; "identity_source"; "user";
   "walacor_audit"; "analyzer_decisions"; "pii_decisions"; "response_policy_version";
   "response_policy_result"; "input_analysis"; "enforcement_mode"; "content_analysis";
   "delivery_error"; "timings"; "file_metadata"; "tool_strategy"; "tool_interaction_count";
   "tool_interactions"; "tool_loop_iterations"; "tool_events_detail"; "sequence_number";
   "record_hash"; "previous_record_hash"; "canonical"; "_internal"].

Definition _TOOL_EVENT_SCHEMA_FIELDS : list string :=
  ["event_id"; "execution_id"; "session_id"; "tenant_id"; "gateway_id"; "prompt_id"; "timestamp";
   "tool_name"; "tool_type"; "tool_source"; "mcp_server_name"; "input_data"; "input_hash";
   "output_data"; "output_hash"; "sources"; "duration_ms"; "iteration"; "is_error";
   "content_analysis"].

Definition _TOOL_EVENT_EXTRA_KEYS : list string :=
  ["event_type"; "tool_id"; "mcp_server_url"; "client_context"].

(** The keys of OpenWebUI that [write_execution] pops from the metadata *)
Definition strip_keys : list string :=
  ["features"; "tool_ids"; "files"; "variables"; "params"; "knowledge"; "citations"].

Definition mem (k : string) (l : list string) : bool := bool_decide (k ∈ l).

Definition has_key (k : string) (d : dict) : bool := mem k (od_keys d).

(** [sorted(l)] of strings *)
Definition ssort (l : list string) : list string := isort str_leb l.

(** [PList] of strings *)
Definition pstrs (l : list string) : pyval := PList (map PStr l).

(** ** The metadata *)

Definition internal_key (k : string) : bool := startswith "_" k || mem k _EXPLICIT_INTERNAL_KEYS.

(** [_split_internal_keys], the loop over [meta.items()] and then the bucket *)
Definition split_step (st : dict * dict) (kv : string * pyval) : dict * dict :=
  let '(rehomed, internal) := st in
  if bool_decide (kv.1 = "_internal") then st
  else if internal_key kv.1 then (rehomed, od_set kv.1 kv.2 internal)
  else (od_set kv.1 kv.2 rehomed, internal).

Definition _split_internal_keys (meta : dict) : dict :=
  let existing := match dget "_internal" meta with PDict d => d | _ => [] end in
  let '(rehomed, internal) := foldl split_step ([], existing) meta in
  match internal with
  | [] => rehomed
  | _ => od_set "_internal" (PDict internal) rehomed
  end.

Section client.
Context `{JsonText} `{FloatRepr}.

(** [len(s)] *)
Definition slen (s : string) : Z := Z.of_nat (String.length s).

Definition _truncate_metadata_json (meta : dict) (keep : list string) (max_bytes : Z)
    : string * list string :=
  let raw := to_text (PDict meta) in
  if slen raw <=? max_bytes then (raw, [])
  else (to_text (PDict (List.filter (fun kv => mem kv.1 keep) meta)),
        ssort (map fst (List.filter (fun kv => negb (mem kv.1 keep)) meta))).

(** [data[field] = meta[key]] when the metadata has it and the record does not *)
Definition promote (key field : string) (meta : pyval) (data : dict) : res dict :=
  let! v := get key meta in
  Ok (if truthy v && negb (has_key field data) then od_set field v data else data).

(** The metadata dictionary: its value after the timings and the file metadata
    have been put into it, and whether it is still the object that the caller's
    record holds. *)
Definition rehome_timings (timings meta : pyval) : res (pyval * bool) :=
  let own := negb (is_none meta) in
  if truthy timings then
    if own then let! m := set_item "timings" timings meta in Ok (m, true)
    else Ok (PDict [("timings", timings)], false)
  else Ok (meta, own).

Definition rehome_files (fm meta : pyval) (own : bool) : res (pyval * bool) :=
  if truthy fm then
    if truthy meta then let! m := set_item "file_metadata" fm meta in Ok (m, own)
    else Ok (PDict [("file_metadata", fm)], false)
  else Ok (meta, own).

Definition strip_metadata (m : dict) : dict := foldl (fun d k => od_del k d) m strip_keys.

(** The text stored as [metadata_json] *)
Definition metadata_text (max_bytes : Z) (m : dict) : res string :=
  let '(raw, dropped) :=
    _truncate_metadata_json (_split_internal_keys m) _METADATA_KEEP_FIELDS max_bytes in
  match dropped with
  | [] => Ok raw
  | _ => let! pruned := of_text raw in
         let! pruned := set_item "metadata_truncated_keys" (pstrs dropped) pruned in
         Ok (to_text pruned)
  end.

Definition expected_key (k : string) : bool :=
  mem k _EXECUTION_SCHEMA_FIELDS || mem k _INTENTIONAL_NON_SCHEMA_KEYS.

Definition unexpected_execution_keys (record : dict) : list string :=
  ssort (map fst (List.filter (fun kv => negb (is_none kv.2) && negb (expected_key kv.1)) record)).

(** The evidence of the keys that are lost, inside [metadata_json] *)
Definition mark_stripped (drops : list string) (data : dict) : res dict :=
  let attempt :=
    let v := dget "metadata_json" data in
    let! mj := if truthy v then let! s := as_str v in of_text s else Ok (PDict []) in
    let! mj := set_item "schema_stripped_keys" (pstrs drops) mj in
    Ok (od_set "metadata_json" (PStr (to_text mj)) data) in
  match drops with
  | [] => Ok data
  | _ => res_catch attempt (fun e => match e with
                                     | ValueError _ | TypeError _ | KeyError _ => Ok data
                                     | _ => Raise e
                                     end)
  end.

Definition in_schema (fields : list string) (data : dict) : dict :=
  List.filter (fun kv => negb (is_none kv.2) && mem kv.1 fields) data.

(** [write_execution] up to the submit: the caller's record as it is afterwards
    (its metadata is the object that was changed) and the record to submit *)
Definition prepare_execution (max_bytes : Z) (record : dict) : res (dict * dict) :=
  let! data := validate_execution record in
  let meta := dget "metadata" data in
  let data := od_del "metadata" data in
  let fm := dget "file_metadata" data in
  let data := od_del "file_metadata" data in
  let timings := dget "timings" data in
  let data := od_del "timings" data in
  let! ' (meta, own) := rehome_timings timings meta in
  let! data := if truthy meta then promote "tool_strategy" "tool_strategy" meta data else Ok data in
  let! data := if truthy meta then promote "tool_interaction_count" "tool_count" meta data else Ok data in
  let! ' (meta, own) := rehome_files fm meta own in
  let! ' (meta, data) :=
    match meta with
    | PDict ((_ :: _) as m) =>
        let m := strip_metadata m in
        let! raw := metadata_text max_bytes m in
        Ok (PDict m, od_set "metadata_json" (PStr raw) data)
    | _ => Ok (meta, data)
    end in
  let! data := mark_stripped (unexpected_execution_keys data) data in
  Ok (if own then od_set "metadata" meta record else record,
      in_schema _EXECUTION_SCHEMA_FIELDS data).

(** ** Tool events *)

Definition is_json (v : pyval) : bool := is_dict v || is_list v.

(** [json.dumps] of a dictionary or list in [key] *)
Definition serialise (key : string) (data : dict) : dict :=
  let v := dget key data in if is_json v then od_set key (PStr (to_text v)) data else data.

Definition blob_keys : list string := ["input_data"; "output_data"; "sources"].

(** The suffix of a cut blob; the model's strings have three dots for the
    ellipsis character. *)
Definition cut_blob (max_bytes : Z) (s : string) : string :=
  let keep := max_bytes - 200 in
  (stake (Z.to_nat keep) s +:+ "...[truncated " +:+ z_str (slen s - keep) +:+ " chars]")%string.

Definition cap_step (max_bytes : Z) (st : dict * list string) (key : string) : dict * list string :=
  let '(data, truncated) := st in
  match dget key data with
  | PStr s => if slen s <=? max_bytes then st
              else (od_set key (PStr (cut_blob max_bytes s)) data, truncated ++ [key])
  | _ => st
  end.

Definition _cap_tool_event_blobs (max_bytes : Z) (data : dict) : dict * list string :=
  foldl (cap_step max_bytes) (data, []) blob_keys.

(** The dictionary [_extras] is put into *)
Definition extras_wrapper (existing : pyval) : res dict :=
  match existing with
  | PNone => Ok []
  | PDict d => Ok d
  | PStr s =>
      match of_text s with
      | Ok (PDict parsed) => Ok parsed
      | Ok parsed => Ok [("content_analysis", parsed)]
      | Raise e => if caught e then Ok [("content_analysis", existing)] else Raise e
      end
  | _ => Ok [("content_analysis", existing)]
  end.

Definition extra_key (k : string) : bool :=
  negb (mem k _TOOL_EVENT_SCHEMA_FIELDS) && mem k _TOOL_EVENT_EXTRA_KEYS.

Definition _pack_tool_event_extras (data : dict) : res dict :=
  let extras := List.filter (fun kv => extra_key kv.1) data in
  let data := List.filter (fun kv => negb (extra_key kv.1)) data in
  match extras with
  | [] => Ok data
  | _ => let! wrapper := extras_wrapper (dget "content_analysis" data) in
         Ok (od_set "content_analysis" (PDict (od_set "_extras" (PDict extras) wrapper)) data)
  end.

(** [content_analysis] as text *)
Definition finish_analysis (truncated : list string) (data : dict) : dict :=
  let set v := od_set "content_analysis" (PStr (to_text v)) data in
  match dget "content_analysis" data with
  | PDict ca =>
      set (PDict (match truncated with
                  | [] => ca
                  | _ => od_set "tool_event_truncated_keys" (pstrs truncated) ca
                  end))
  | PList l => set (PList l)
  | _ => match truncated with
         | [] => data
         | _ => set (PDict [("tool_event_truncated_keys", pstrs truncated)])
         end
  end.

(** [write_tool_event] up to the submit *)
Definition prepare_tool_event (max_bytes : Z) (record : dict) : res dict :=
  let data := foldl (fun d k => serialise k d) record blob_keys in
  let pending := dget "content_analysis" data in
  let data := od_del "content_analysis" data in
  let! data := validate_tool_event data in
  let data := if is_none pending then data else od_set "content_analysis" pending data in
  let data := match od_get "source" data with
              | Some v => od_set "tool_source" v (od_del "source" data)
              | None => data
              end in
  let '(data, truncated) := _cap_tool_event_blobs max_bytes data in
  let! data := _pack_tool_event_extras data in
  Ok (in_schema _TOOL_EVENT_SCHEMA_FIELDS (finish_analysis truncated data)).

(** ** What the metadata text holds *)

(** The metadata that is kept when the text is too long *)
Definition kept_metadata (m : dict) : dict :=
  List.filter (fun kv => mem kv.1 _METADATA_KEEP_FIELDS) (_split_internal_keys m).

Definition dropped_keys (m : dict) : list string :=
  ssort (map fst (List.filter (fun kv => negb (mem kv.1 _METADATA_KEEP_FIELDS)) (_split_internal_keys m))).

(** The dictionary whose text [metadata_text] is *)
Definition metadata_dict (max_bytes : Z) (m : dict) : dict :=
  if slen (to_text (PDict (_split_internal_keys m))) <=? max_bytes then _split_internal_keys m
  else match dropped_keys m with
       | [] => kept_metadata m
       | dropped => od_set "metadata_truncated_keys" (pstrs dropped) (kept_metadata m)
       end.

(** A text that is read back as it was written, and is not empty *)
Definition readable (d : dict) : Prop := round_trips (PDict d) /\ to_text (PDict d) <> "".

Lemma metadata_text_dict max_bytes m :
  readable (kept_metadata m) -> metadata_text max_bytes m = Ok (to_text (PDict (metadata_dict max_bytes m))).
Proof.
  intros [Hr _]. unfold metadata_text, metadata_dict, _truncate_metadata_json.
  destruct (_ <=? _); [done|]. fold (kept_metadata m) (dropped_keys m).
  destruct (dropped_keys m) as [|k l]; [done|]. rewrite Hr. done.
Qed.

Lemma mem_true k l : mem k l = true <-> k ∈ l.
Proof. apply bool_decide_eq_true. Qed.

Lemma mem_false k l : mem k l = false <-> k ∉ l.
Proof. apply bool_decide_eq_false. Qed.

(** Two lists of key names without a common one *)
Lemma apart l l' k : forallb (fun k => negb (mem k l')) l = true -> k ∈ l -> k ∉ l'.
Proof.
  rewrite forallb_forall. intros Hf Hk%list_elem_of_In%Hf. apply negb_true_iff in Hk. by apply mem_false.
Qed.

Lemma ssort_elem k l : k ∈ ssort l <-> k ∈ l.
Proof. unfold ssort. by rewrite isort_perm. Qed.

(** The fold of [_split_internal_keys], key by key *)
Lemma split_fold meta : forall r i r' i',
  od_wf meta -> foldl split_step (r, i) meta = (r', i') ->
  forall k, k <> "_internal" ->
    (if internal_key k then od_get k i' = match od_get k meta with Some v => Some v | None => od_get k i end
     else od_get k r' = match od_get k meta with Some v => Some v | None => od_get k r end).
Proof.
  induction meta as [|[j w] meta IH]; intros r i r' i' Hwf Hf k Hk; simpl in Hf.
  - simplify_eq. by destruct (internal_key k).
  - apply NoDup_cons in Hwf as [Hj Hwf]. simpl in Hj. simpl.
    destruct (decide (k = j)) as [<-|Hne].
    + rewrite bool_decide_false in Hf by done. apply od_get_None in Hj.
      destruct (internal_key k) eqn:Hi;
        (specialize (IH _ _ _ _ Hwf Hf k Hk); rewrite Hi, Hj in IH; by rewrite IH, od_get_set_eq).
    + case_bool_decide; [by eapply IH|]. destruct (internal_key j) eqn:Hij;
        (specialize (IH _ _ _ _ Hwf Hf k Hk); destruct (internal_key k) eqn:Hi; rewrite IH;
         destruct (od_get k meta); by rewrite ?od_get_set_ne).
Qed.

Lemma split_outer meta k v :
  od_wf meta -> od_get k meta = Some v -> internal_key k = false ->
  od_get k (_split_internal_keys meta) = Some v.
Proof.
  intros Hwf Hg Hi. assert (k <> "_internal") as Hk by (intros ->; done).
  unfold _split_internal_keys. destruct (foldl _ _ _) as [r i] eqn:Hf.
  pose proof (split_fold _ _ _ _ _ Hwf Hf k Hk) as Hs. rewrite Hi, Hg in Hs.
  destruct i; [done|]. by rewrite od_get_set_ne.
Qed.

Lemma split_inner meta k v :
  od_wf meta -> od_get k meta = Some v -> internal_key k = true -> k <> "_internal" ->
  exists b, od_get "_internal" (_split_internal_keys meta) = Some (PDict b) /\ od_get k b = Some v.
Proof.
  intros Hwf Hg Hi Hk. unfold _split_internal_keys. destruct (foldl _ _ _) as [r i] eqn:Hf.
  pose proof (split_fold _ _ _ _ _ Hwf Hf k Hk) as Hs. rewrite Hi, Hg in Hs.
  destruct i as [|x i]; [done|]. exists (x :: i). by rewrite od_get_set_eq.
Qed.

(** A key of the metadata is stored: at the top, in the bucket of internal
    keys, or by name among those that were cut. *)
Definition stored (k : string) (v : pyval) (mj : dict) : Prop :=
  od_get k mj = Some v \/
  (exists b, od_get "_internal" mj = Some (PDict b) /\ od_get k b = Some v) \/
  (exists l, od_get "metadata_truncated_keys" mj = Some (pstrs l) /\ k ∈ l).

Lemma stored_set k v j w mj :
  stored k v mj -> k <> j -> j <> "_internal" -> j <> "metadata_truncated_keys" -> stored k v (od_set j w mj).
Proof.
  intros [Hg|[(b & Hb & Hg)|(l & Hl & Hg)]] H1 H2 H3.
  - left. by rewrite od_get_set_ne.
  - right. left. exists b. by rewrite od_get_set_ne.
  - right. right. exists l. by rewrite od_get_set_ne.
Qed.

Lemma metadata_dict_stored max_bytes m k v :
  od_wf m -> od_get k m = Some v -> k <> "_internal" -> k <> "metadata_truncated_keys" ->
  stored k v (metadata_dict max_bytes m).
Proof.
  intros Hwf Hg H1 H2. pose proof (split_outer m k v Hwf Hg) as Hout.
  pose proof (split_inner m k v Hwf Hg) as Hin. unfold metadata_dict.
  destruct (_ <=? _).
  { destruct (internal_key k); [right; left; auto|left; auto]. }
  assert (forall j w, j <> "metadata_truncated_keys" -> mem j _METADATA_KEEP_FIELDS = true ->
            od_get j (_split_internal_keys m) = Some w ->
            od_get j (match dropped_keys m with
                      | [] => kept_metadata m
                      | ds => od_set "metadata_truncated_keys" (pstrs ds) (kept_metadata m)
                      end) = Some w) as Hkept.
  { intros j w Hj Hm Hw. assert (od_get j (kept_metadata m) = Some w) as Hk by by apply od_get_filter.
    destruct (dropped_keys m); [done|]. by rewrite od_get_set_ne. }
  destruct (internal_key k) eqn:Hi.
  { destruct Hin as (b & Hb & Hkb); [done|done|]. right. left. exists b. split; [|done]. by apply Hkept. }
  destruct (mem k _METADATA_KEEP_FIELDS) eqn:Hm; [left; auto|].
  right. right. exists (dropped_keys m).
  assert (k ∈ dropped_keys m) as Hd.
  { apply ssort_elem, list_elem_of_fmap. exists (k, v). split; [done|]. apply elem_filter.
    split; [by apply od_get_Some_elem, Hout|]. simpl. by rewrite Hm. }
  split; [|done]. destruct (dropped_keys m); [by apply not_elem_of_nil in Hd|]. by rewrite od_get_set_eq.
Qed.

(** ** What an execution record keeps *)

(** The metadata with the timings and the file metadata *)
Definition full_metadata (m : dict) (timings fm : pyval) : dict :=
  let m := if truthy timings then od_set "timings" timings m else m in
  if truthy fm then od_set "file_metadata" fm m else m.

(** The record without the keys that are rehomed *)
Definition base_data (data : dict) : dict :=
  od_del "timings" (od_del "file_metadata" (od_del "metadata" data)).

Definition promoted (key field : string) (m data : dict) : dict :=
  if truthy (dget key m) && negb (has_key field data) then od_set field (dget key m) data else data.

Definition promoted_tools (m data : dict) : dict :=
  promoted "tool_interaction_count" "tool_count" m (promoted "tool_strategy" "tool_strategy" m data).

Lemma set_nonempty k v (m : dict) : exists x m', od_set k v m = x :: m'.
Proof. destruct m as [|[j w] m]; simpl; [eauto|]. case_decide; eauto. Qed.

Lemma base_fields data :
  od_wf data ->
  let d := od_del "metadata" data in
  dget "file_metadata" d = dget "file_metadata" data /\
  dget "timings" (od_del "file_metadata" d) = dget "timings" data.
Proof. intros Hwf d. subst d. unfold dget. by rewrite !od_get_del_ne. Qed.

(** With metadata in the record, the steps as one composition *)
Lemma prepare_run max_bytes record cleaned m :
  validate_execution record = Ok cleaned -> dget "metadata" cleaned = PDict m -> m <> [] ->
  let t := dget "timings" cleaned in
  let fm := dget "file_metadata" cleaned in
  let m1 := if truthy t then od_set "timings" t m else m in
  let m2 := strip_metadata (full_metadata m t fm) in
  prepare_execution max_bytes record =
    let! raw := metadata_text max_bytes m2 in
    let data := od_set "metadata_json" (PStr raw) (promoted_tools m1 (base_data cleaned)) in
    let! data := mark_stripped (unexpected_execution_keys data) data in
    Ok (od_set "metadata" (PDict m2) record, in_schema _EXECUTION_SCHEMA_FIELDS data).
Proof.
  intros Hv Hm Hne t fm m1 m2. unfold prepare_execution. rewrite Hv. cbn [res_bind]. rewrite Hm.
  assert (dget "file_metadata" (od_del "metadata" cleaned) = fm) as ->.
  { unfold fm, dget. by rewrite od_get_del_ne. }
  assert (dget "timings" (od_del "file_metadata" (od_del "metadata" cleaned)) = t) as ->.
  { unfold t, dget. by rewrite !od_get_del_ne. }
  assert (rehome_timings t (PDict m) = Ok (PDict m1, true)) as ->
    by (unfold rehome_timings, m1; simpl; by destruct (truthy t)).
  cbn [res_bind]. assert (exists x m1', m1 = x :: m1') as (x & m1' & Hm1).
  { unfold m1. destruct (truthy t); [apply set_nonempty|]. destruct m; [done|eauto]. }
  assert (truthy (PDict m1) = true) as -> by by rewrite Hm1.
  change (promote "tool_strategy" "tool_strategy" (PDict m1) ?d) with (Ok (promoted "tool_strategy" "tool_strategy" m1 d)).
  cbn [res_bind].
  change (promote "tool_interaction_count" "tool_count" (PDict m1) ?d)
    with (Ok (promoted "tool_interaction_count" "tool_count" m1 d)).
  cbn [res_bind]. fold (base_data cleaned). fold (promoted_tools m1 (base_data cleaned)).
  assert (rehome_files fm (PDict m1) true = Ok (PDict (full_metadata m t fm), true)) as ->.
  { unfold rehome_files, full_metadata. fold m1. rewrite Hm1. by destruct (truthy fm). }
  cbn [res_bind]. assert (exists y k, full_metadata m t fm = y :: k) as (y & k & Hf).
  { unfold full_metadata. fold m1. destruct (truthy fm); [apply set_nonempty|eauto]. }
  unfold m2. rewrite Hf. cbv beta iota. destruct (metadata_text _ _); reflexivity.
Qed.

Lemma promoted_keeps key field m data k v :
  od_get k data = Some v -> od_get k (promoted key field m data) = Some v.
Proof.
  intros Hg. unfold promoted, has_key. destruct (truthy _); [|done]. simpl.
  destruct (mem field (od_keys data)) eqn:Hm; [done|]. simpl. rewrite od_get_set_ne; [done|].
  intros ->. apply mem_false in Hm. apply Hm. by eapply od_get_key.
Qed.

Lemma base_keeps data k v :
  od_get k data = Some v -> k ∉ ["metadata"; "file_metadata"; "timings"] -> od_get k (base_data data) = Some v.
Proof.
  intros Hg Hk. unfold base_data.
  rewrite !od_get_del_ne by (intros <-; apply Hk; set_solver). done.
Qed.

Lemma mark_stripped_ok drops data mj :
  dget "metadata_json" data = PStr (to_text (PDict mj)) -> readable mj ->
  mark_stripped drops data =
    Ok (match drops with
        | [] => data
        | _ => od_set "metadata_json" (PStr (to_text (PDict (od_set "schema_stripped_keys" (pstrs drops) mj)))) data
        end).
Proof.
  intros Hd [Hr Hne]. unfold mark_stripped. destruct drops as [|x drops]; [done|]. rewrite Hd.
  assert (truthy (PStr (to_text (PDict mj))) = true) as -> by (simpl; by destruct (to_text (PDict mj))).
  cbn [as_str res_bind]. rewrite Hr. done.
Qed.

Lemma in_schema_get fields data k v :
  od_get k data = Some v -> v <> PNone -> k ∈ fields -> od_get k (in_schema fields data) = Some v.
Proof.
  intros Hg Hv Hk. apply od_get_filter; [done|]. simpl. rewrite (proj2 (mem_true k fields) Hk).
  by destruct v.
Qed.

Lemma dget_some k (d : dict) v : dget k d = v -> v <> PNone -> od_get k d = Some v.
Proof. unfold dget. destruct (od_get k d); simpl; congruence. Qed.

Lemma rehomed_not_schema k :
  k ∈ _EXECUTION_SCHEMA_FIELDS -> k ∉ ["metadata"; "file_metadata"; "timings"].
Proof. by apply apart. Qed.

Lemma unexpected_elem k v data :
  od_get k data = Some v -> v <> PNone -> expected_key k = false -> k ∈ unexpected_execution_keys data.
Proof.
  intros Hg Hv Hk. apply ssort_elem, list_elem_of_fmap. exists (k, v). split; [done|]. apply elem_filter.
  split; [by apply od_get_Some_elem|]. simpl. rewrite Hk. by destruct v.
Qed.

(** Exactly the OpenWebUI keys are taken out of the metadata. *)
Lemma fold_del_get ks k : forall m : dict, od_wf m ->
  od_get k (foldl (fun d k => od_del k d) m ks) = if mem k ks then None else od_get k m.
Proof.
  induction ks as [|j ks IH]; intros m Hwf; [done|]. cbn [foldl]. rewrite IH by by apply od_wf_del.
  destruct (decide (k = j)) as [->|Hne].
  - rewrite od_get_del_eq by done. assert (mem j (j :: ks) = true) as -> by (apply mem_true; by left).
    by destruct (mem j ks).
  - rewrite od_get_del_ne by done. replace (mem k (j :: ks)) with (mem k ks); [done|].
    unfold mem. apply bool_decide_ext. rewrite elem_of_cons. naive_solver.
Qed.

Lemma fold_del_id ks : forall m : dict, (forall k, k ∈ ks -> od_get k m = None) ->
  foldl (fun d k => od_del k d) m ks = m.
Proof.
  induction ks as [|j ks IH]; intros m Hn; [done|]. cbn [foldl].
  rewrite od_del_none by (apply Hn; by left). apply IH. intros k Hk. apply Hn. by right.
Qed.

Lemma strip_get m k : od_wf m -> od_get k (strip_metadata m) = if mem k strip_keys then None else od_get k m.
Proof. apply fold_del_get. Qed.

Lemma strip_idem m : od_wf m -> strip_metadata (strip_metadata m) = strip_metadata m.
Proof.
  intros Hwf. apply fold_del_id. intros k Hk%mem_true. by rewrite strip_get, Hk.
Qed.

Lemma strip_wf m : od_wf m -> od_wf (strip_metadata m).
Proof. intros Hwf. unfold strip_metadata, strip_keys. simpl. by repeat apply od_wf_del. Qed.

Lemma full_wf m t fm : od_wf m -> od_wf (full_metadata m t fm).
Proof. unfold full_metadata. intros Hwf. destruct (truthy t), (truthy fm); auto using od_wf_set. Qed.

(** C10.  What is lost on the way to the ledger leaves a trace, with two exceptions.  For a
    record with metadata: every column of the ledger's schema is sent with its validated
    value; every other field is either one of the five dropped on purpose or named
    in [schema_stripped_keys] inside the metadata text; and every metadata key
    is in that text, at the top or in the bucket of internal keys, or named in
    [metadata_truncated_keys], apart from the seven keys of OpenWebUI, which
    [strip_metadata] drops without a trace, and the three names that the writer itself
    puts there. *)
Theorem dual_write_fidelity max_bytes record cleaned m :
  validate_execution record = Ok cleaned -> dget "metadata" cleaned = PDict m -> m <> [] -> od_wf m ->
  let m2 := strip_metadata (full_metadata m (dget "timings" cleaned) (dget "file_metadata" cleaned)) in
  readable (kept_metadata m2) -> readable (metadata_dict max_bytes m2) ->
  exists record' data mj,
    prepare_execution max_bytes record = Ok (record', data) /\
    dget "metadata_json" data = PStr (to_text (PDict mj)) /\
    (forall k v, dget k cleaned = v -> v <> PNone -> k <> "metadata_json" ->
       k ∈ _EXECUTION_SCHEMA_FIELDS /\ dget k data = v \/
       k ∈ _INTENTIONAL_NON_SCHEMA_KEYS \/
       exists l, od_get "schema_stripped_keys" mj = Some (pstrs l) /\ k ∈ l) /\
    (forall k v, od_get k (full_metadata m (dget "timings" cleaned) (dget "file_metadata" cleaned)) = Some v ->
       k ∉ ["_internal"; "metadata_truncated_keys"; "schema_stripped_keys"] ->
       k ∈ strip_keys \/ stored k v mj).
Proof.
  intros Hv Hm Hne Hwf m2 [Hr1 Hr1'] Hr2.
  pose proof (prepare_run max_bytes record cleaned m Hv Hm Hne) as Hp. cbv zeta in Hp. fold m2 in Hp.
  rewrite metadata_text_dict in Hp by done. cbn [res_bind] in Hp.
  set (mj := metadata_dict max_bytes m2) in *. set (d1 := promoted_tools _ _) in Hp.
  set (d2 := od_set "metadata_json" _ d1) in Hp. set (drops := unexpected_execution_keys d2) in Hp.
  rewrite (mark_stripped_ok drops d2 mj) in Hp by (done || by apply dget_set_eq). cbn [res_bind] in Hp.
  assert (forall k v, od_get k cleaned = Some v -> k <> "metadata_json" ->
            k ∉ ["metadata"; "file_metadata"; "timings"] -> od_get k d2 = Some v) as Hd2.
  { intros k v Hg Hk Hk2. unfold d2. rewrite od_get_set_ne by done. by apply promoted_keeps, promoted_keeps, base_keeps. }
  set (final := match drops with [] => mj | _ => od_set "schema_stripped_keys" (pstrs drops) mj end).
  set (d3 := match drops with [] => _ | _ => _ end) in Hp.
  assert (forall k, k <> "metadata_json" -> od_get k d3 = od_get k d2) as Hd3.
  { intros k Hk. unfold d3. destruct drops; [done|]. by rewrite od_get_set_ne. }
  assert (od_get "metadata_json" d3 = Some (PStr (to_text (PDict final)))) as Hmj.
  { unfold d3, final. destruct drops; [|by rewrite od_get_set_eq]. unfold d2. by rewrite od_get_set_eq. }
  eexists _, _, final. split; [exact Hp|]. split.
  { unfold dget. erewrite in_schema_get; [done|exact Hmj|done|by apply mem_true]. }
  split.
  - intros k v Hk Hvn Hkj. apply dget_some in Hk; [|done].
    destruct (mem k _EXECUTION_SCHEMA_FIELDS) eqn:Hs.
    { left. apply mem_true in Hs. split; [done|]. unfold dget.
      erewrite in_schema_get; [done| |done|done]. rewrite Hd3 by done. by apply Hd2, rehomed_not_schema. }
    right. destruct (mem k _INTENTIONAL_NON_SCHEMA_KEYS) eqn:Hi; [left; by apply mem_true|right].
    assert (k ∈ drops) as Hin.
    { apply (unexpected_elem k v); [|done|by unfold expected_key; rewrite Hs, Hi].
      apply Hd2; [done|done|]. apply mem_false in Hi. unfold _INTENTIONAL_NON_SCHEMA_KEYS in Hi. set_solver. }
    exists drops. split; [|done]. unfold final. destruct drops; [by apply not_elem_of_nil in Hin|].
    by rewrite od_get_set_eq.
  - intros k v Hg Hk. destruct (mem k strip_keys) eqn:Hs; [left; by apply mem_true|right].
    apply mem_false in Hs. assert (stored k v mj) as Hst.
    { apply metadata_dict_stored; [by apply strip_wf, full_wf| |set_solver..]. unfold m2. rewrite strip_get by by apply full_wf.
      apply mem_false in Hs. by rewrite Hs. }
    unfold final. destruct drops; [done|]. apply stored_set; [done|set_solver|done|done].
Qed.

(** ** The columns of a record *)

Lemma promote_keeps key field meta data d :
  promote key field meta data = Ok d -> od_wf data -> od_wf d /\ forall k, k <> field -> dget k d = dget k data.
Proof.
  unfold promote. intros Hp Hwf. apply res_bind_ok in Hp as (v & _ & Hp). injection Hp as <-.
  destruct (_ && _); [|done]. split; [by apply od_wf_set|]. intros k Hk. by rewrite dget_set_ne.
Qed.

Lemma mark_stripped_keeps drops data d :
  mark_stripped drops data = Ok d -> od_wf data ->
  od_wf d /\ forall k, k <> "metadata_json" -> dget k d = dget k data.
Proof.
  unfold mark_stripped. intros Hm Hwf. destruct drops as [|x drops]; [by injection Hm as <-|].
  destruct (let! mj := _ in _) as [d1|e] eqn:Ha; simpl in Hm.
  - injection Hm as <-. unbind Ha. injection Ha as <-. split; [by apply od_wf_set|]. intros k Hk. by rewrite dget_set_ne.
  - destruct e; simplify_eq; done.
Qed.

Lemma in_schema_dget fields d k : od_wf d -> k ∈ fields -> dget k (in_schema fields d) = dget k d.
Proof.
  intros Hwf Hk. unfold dget. destruct (od_get k d) as [v|] eqn:Hg.
  - destruct (is_none v) eqn:Hn.
    + assert (od_get k (in_schema fields d) = None) as ->; [|by destruct v].
      apply od_get_None. intros Hin. unfold od_keys in Hin. apply list_elem_of_fmap in Hin as ([j w] & -> & Hin).
      apply elem_filter in Hin as [Hin Hf]. simpl in *. rewrite (od_elem_get j w d) in Hg by done.
      injection Hg as ->. by rewrite Hn in Hf.
    + rewrite (in_schema_get fields d k v); [done|done|by intros ->|done].
  - assert (od_get k (in_schema fields d) = None) as ->; [|done].
    apply od_get_None. intros Hin. apply od_get_None in Hg. apply Hg.
    unfold od_keys in *. apply list_elem_of_fmap in Hin as (x & -> & Hin). apply elem_filter in Hin as [Hin _].
    apply list_elem_of_fmap. by exists x.
Qed.

(** What every column but three holds *)
Lemma prepare_columns max_bytes record record' data cleaned :
  od_wf record -> validate_execution record = Ok cleaned ->
  prepare_execution max_bytes record = Ok (record', data) ->
  forall k, k ∈ _EXECUTION_SCHEMA_FIELDS -> k ∉ ["metadata_json"; "tool_strategy"; "tool_count"] ->
    dget k data = dget k cleaned.
Proof.
  intros Hwf Hv Hp k Hk Hk3. unfold prepare_execution in Hp. rewrite Hv in Hp. cbn [res_bind] in Hp.
  assert (k <> "metadata_json" /\ k <> "tool_strategy" /\ k <> "tool_count") as (N1 & N2 & N3) by (clear -Hk3; set_solver).
  apply rehomed_not_schema in Hk as Hk2.
  set (base := od_del "timings" _) in Hp.
  assert (od_wf base) as Hb by (unfold base; repeat apply od_wf_del; by eapply validate_record_wf).
  assert (dget k base = dget k cleaned) as Hbk.
  { unfold base, dget. rewrite !od_get_del_ne by (intros <-; clear -Hk2; set_solver). done. }
  apply res_bind_ok in Hp as ([meta own] & _ & Hp).
  apply res_bind_ok in Hp as (d1 & H1 & Hp). apply res_bind_ok in Hp as (d2 & H2 & Hp).
  assert (forall key field d d', field <> k -> od_wf d ->
            (if truthy meta then promote key field meta d else Ok d) = Ok d' ->
            od_wf d' /\ dget k d' = dget k d) as Hprom.
  { intros key field d d' Hf Hd Hpr. destruct (truthy meta); [|by injection Hpr as <-].
    apply promote_keeps in Hpr as [? Hpr]; [|done]. split; [done|]. apply Hpr. congruence. }
  apply Hprom in H1 as [W1 E1]; [|done|done]. apply Hprom in H2 as [W2 E2]; [|done|done].
  apply res_bind_ok in Hp as ([meta2 own2] & _ & Hp). apply res_bind_ok in Hp as ([meta3 d3] & H3 & Hp).
  assert (od_wf d3 /\ dget k d3 = dget k d2) as [W3 E3].
  { destruct meta2 as [| | | | | |[|x m]|]; try (by injection H3 as _ <-).
    unbind H3. injection H3 as _ <-. split; [by apply od_wf_set|by rewrite dget_set_ne]. }
  apply res_bind_ok in Hp as (d4 & H4 & Hp). injection Hp as _ <-.
  apply mark_stripped_keeps in H4 as [W4 E4]; [|done]. rewrite in_schema_dget by done.
  rewrite E4, E3, E2, E1 by done. done.
Qed.

(** ** Sending a record again *)

Lemma full_get m t fm k : k <> "timings" -> k <> "file_metadata" -> od_get k (full_metadata m t fm) = od_get k m.
Proof. intros H1 H2. unfold full_metadata. destruct (truthy t), (truthy fm); by rewrite ?od_get_set_ne. Qed.

Lemma full_timings m t fm : truthy t = true -> od_get "timings" (full_metadata m t fm) = Some t.
Proof. intros Ht. unfold full_metadata. rewrite Ht. destruct (truthy fm); [rewrite od_get_set_ne by done|]; by rewrite od_get_set_eq. Qed.

Lemma full_files m t fm : truthy fm = true -> od_get "file_metadata" (full_metadata m t fm) = Some fm.
Proof. intros Ht. unfold full_metadata. by rewrite Ht, od_get_set_eq. Qed.

(** Metadata that went through a write once is not changed by a second one. *)
Lemma full_again m t fm :
  od_wf m -> let m2 := strip_metadata (full_metadata m t fm) in
  (if truthy t then od_set "timings" t m2 else m2) = m2 /\ full_metadata m2 t fm = m2.
Proof.
  intros Hwf m2.
  assert ((if truthy t then od_set "timings" t m2 else m2) = m2) as H1.
  { destruct (truthy t) eqn:Ht; [|done]. apply od_set_id. unfold m2.
    rewrite strip_get by by apply full_wf. by apply full_timings. }
  split; [done|]. unfold full_metadata. rewrite H1. destruct (truthy fm) eqn:Hf; [|done].
  apply od_set_id. unfold m2. rewrite strip_get by by apply full_wf. by apply full_files.
Qed.

Lemma validated_metadata record cleaned :
  validate_execution record = Ok cleaned -> od_get "metadata" cleaned = od_get "metadata" record.
Proof.
  intros Hv. apply validate_record_values in Hv as [_ Hk]; [|by apply (bool_decide_unpack _)].
  apply Hk. by apply (bool_decide_unpack _).
Qed.

(**  A write changes the record it is given, and only its metadata.  Afterwards
    the metadata object that the caller holds, which the write-ahead log
    serialises later in its own thread, has lost the seven OpenWebUI keys and
    gained the timings and the file metadata; sending the changed record again
    sends the same payload and changes nothing more. *)
Theorem write_edits_its_record max_bytes record record' data m :
  od_wf m -> od_get "metadata" record = Some (PDict m) -> m <> [] ->
  prepare_execution max_bytes record = Ok (record', data) ->
  exists m2, record' = od_set "metadata" (PDict m2) record /\
    (forall k, k ∈ strip_keys -> od_get k m2 = None) /\
    (forall k, k ∉ strip_keys -> k <> "timings" -> k <> "file_metadata" -> od_get k m2 = od_get k m) /\
    (truthy (dget "timings" record) = true -> od_get "timings" m2 = Some (dget "timings" record)) /\
    (m2 <> [] -> prepare_execution max_bytes record' = Ok (record', data)).
Proof.
  intros Hwf Hm Hne Hp. destruct (validate_execution record) as [cleaned|] eqn:Hv;
    [|unfold prepare_execution in Hp; by rewrite Hv in Hp].
  pose proof (validated_metadata _ _ Hv) as Hmc. rewrite Hm in Hmc.
  assert (dget "metadata" cleaned = PDict m) as Hd by (unfold dget; by rewrite Hmc).
  rewrite (prepare_run _ _ _ _ Hv Hd Hne) in Hp. cbv zeta in Hp.
  set (t := dget "timings" cleaned) in *. set (fm := dget "file_metadata" cleaned) in *.
  set (m2 := strip_metadata _) in *.
  apply res_bind_ok in Hp as (raw & Hraw & Hp). apply res_bind_ok in Hp as (d3 & Hd3 & Hp).
  injection Hp as <- <-. exists m2. pose proof (full_wf m t fm Hwf) as Hfwf.
  assert (dget "timings" record = t) as Ht.
  { unfold t. apply validate_record_values in Hv as [_ Hk]; [|by apply (bool_decide_unpack _)].
    unfold dget. rewrite Hk; [done|by apply (bool_decide_unpack _)]. }
  split; [done|]. split; [intros k Hk%mem_true; unfold m2; by rewrite strip_get, Hk|].
  split; [intros k Hk%mem_false H1 H2; unfold m2; rewrite strip_get, Hk by done; by apply full_get|].
  split; [rewrite Ht; intros Htt; unfold m2; rewrite strip_get by done; by apply full_timings|].
  intros Hne2. destruct (full_again m t fm Hwf) as [Hm1 Hfull]. fold m2 in Hm1, Hfull.
  assert (validate_execution (od_set "metadata" (PDict m2) record) =
          Ok (od_set "metadata" (PDict m2) cleaned)) as Hv2.
  { unfold validate_execution in *. rewrite validate_record_set; [by rewrite Hv| |by eapply od_get_key].
    by apply (bool_decide_unpack _). }
  rewrite (prepare_run _ _ _ m2 Hv2); [|apply dget_set_eq|done]. cbv zeta.
  rewrite !dget_set_ne by done. fold t fm. rewrite Hm1, Hfull.
  assert (strip_metadata m2 = m2) as -> by by apply strip_idem.
  rewrite Hraw. cbn [res_bind].
  assert (base_data (od_set "metadata" (PDict m2) cleaned) = base_data cleaned) as ->
    by (unfold base_data; by rewrite od_del_set).
  assert (forall k, k ∉ strip_keys -> k <> "file_metadata" ->
            dget k m2 = dget k (if truthy t then od_set "timings" t m else m)) as Hsame.
  { intros k Hk%mem_false H1. unfold dget, m2. rewrite strip_get, Hk by done. unfold full_metadata.
    destruct (truthy fm); by rewrite ?od_get_set_ne. }
  assert (forall key field d, key ∉ strip_keys -> key <> "file_metadata" ->
            promoted key field m2 d = promoted key field (if truthy t then od_set "timings" t m else m) d) as Hprom.
  { intros key field d H1 H2. unfold promoted. by rewrite Hsame. }
  unfold promoted_tools in *. rewrite !Hprom by (done || by apply (bool_decide_unpack _)).
  rewrite Hd3. cbn [res_bind]. by rewrite od_set_set.
Qed.

(** ** What a tool event keeps *)

Definition too_long (max_bytes : Z) (v : pyval) : bool :=
  match v with PStr s => max_bytes <? slen s | _ => false end.

Definition capped (max_bytes : Z) (v : pyval) : pyval :=
  match v with PStr s => if slen s <=? max_bytes then v else PStr (cut_blob max_bytes s) | _ => v end.

Lemma cap_step_get max_bytes d tr j :
  cap_step max_bytes (d, tr) j =
    (if too_long max_bytes (dget j d)
     then (od_set j (capped max_bytes (dget j d)) d, tr ++ [j]) else (d, tr)).
Proof.
  unfold cap_step, too_long, capped. destruct (dget j d) as [| | | |s| | |]; try done.
  rewrite Z.ltb_antisym. by destruct (slen s <=? max_bytes).
Qed.

Lemma capped_short max_bytes v : too_long max_bytes v = false -> capped max_bytes v = v.
Proof. destruct v; simpl; try done. rewrite Z.ltb_antisym. by destruct (_ <=? _). Qed.

Lemma cap_fold max_bytes keys : forall d tr d' tr',
  NoDup keys -> foldl (cap_step max_bytes) (d, tr) keys = (d', tr') ->
  (forall k, dget k d' = if mem k keys then capped max_bytes (dget k d) else dget k d) /\
  tr' = tr ++ List.filter (fun k => too_long max_bytes (dget k d)) keys.
Proof.
  induction keys as [|j keys IH]; intros d tr d' tr' Hnd Hf; cbn [foldl] in Hf.
  { injection Hf as <- <-. split; [done|]. by rewrite app_nil_r. }
  apply NoDup_cons in Hnd as [Hj Hnd]. rewrite cap_step_get in Hf.
  assert (forall k, k <> j -> mem k (j :: keys) = mem k keys) as Hmem.
  { intros k Hk. apply bool_decide_ext. rewrite elem_of_cons. naive_solver. }
  assert (mem j (j :: keys) = true) as Hjj by (apply mem_true; by left). apply mem_false in Hj as Hj'.
  assert (forall d1, (forall k, k <> j -> dget k d1 = dget k d) ->
            List.filter (fun k => too_long max_bytes (dget k d1)) keys =
            List.filter (fun k => too_long max_bytes (dget k d)) keys) as Hext.
  { intros d1 Hd1. apply List.filter_ext_in. intros k Hk%list_elem_of_In. rewrite Hd1; [done|].
    intros ->. done. }
  destruct (too_long max_bytes (dget j d)) eqn:Ht; destruct (IH _ _ _ _ Hnd Hf) as [Hk Htr].
  - split.
    + intros k. rewrite Hk. destruct (decide (k = j)) as [->|Hne].
      * by rewrite Hj', Hjj, dget_set_eq.
      * by rewrite Hmem, dget_set_ne.
    + rewrite Htr. rewrite Hext by (intros k Hne; by rewrite dget_set_ne). simpl. rewrite Ht.
      by rewrite <- app_assoc.
  - split.
    + intros k. rewrite Hk. destruct (decide (k = j)) as [->|Hne]; [|by rewrite Hmem].
      by rewrite Hj', Hjj, capped_short.
    + rewrite Htr. simpl. by rewrite Ht.
Qed.

Lemma cap_keys max_bytes keys : forall d tr d' tr',
  foldl (cap_step max_bytes) (d, tr) keys = (d', tr') -> od_keys d' = od_keys d.
Proof.
  induction keys as [|j keys IH]; intros d tr d' tr' Hf; cbn [foldl] in Hf; [by injection Hf as <- _|].
  rewrite cap_step_get in Hf. destruct (too_long _ _) eqn:Ht; apply IH in Hf as ->; [|done].
  apply od_keys_set_old. unfold dget in Ht. destruct (od_get j d) eqn:Hg; [by eapply od_get_key|done].
Qed.

Lemma pack_none d : (forall k, k ∈ od_keys d -> extra_key k = false) -> _pack_tool_event_extras d = Ok d.
Proof.
  intros Hk. unfold _pack_tool_event_extras.
  assert (List.filter (fun kv => extra_key kv.1) d = [] /\ List.filter (fun kv => negb (extra_key kv.1)) d = d)
    as [-> ->]; [|done].
  induction d as [|[j w] d IH]; [done|]. simpl. rewrite Hk by by left.
  destruct IH as [-> ->]; [|done]. intros k Hin. apply Hk. by right.
Qed.

(** The event after validation, with its analysis put back and [source] renamed *)
Definition renamed_event (pending : pyval) (cleaned : dict) : dict :=
  let data := if is_none pending then cleaned else od_set "content_analysis" pending cleaned in
  match od_get "source" data with
  | Some v => od_set "tool_source" v (od_del "source" data)
  | None => data
  end.

Lemma renamed_get pending cleaned k :
  k ∉ ["content_analysis"; "source"; "tool_source"] ->
  dget k (renamed_event pending cleaned) = dget k cleaned.
Proof.
  intros Hk. unfold renamed_event. set (d := if is_none pending then _ else _).
  assert (dget k d = dget k cleaned) as <-.
  { unfold d. destruct (is_none pending); [done|]. rewrite dget_set_ne; [done|set_solver]. }
  destruct (od_get "source" d); [|done]. rewrite dget_set_ne by set_solver.
  unfold dget. by rewrite od_get_del_ne by set_solver.
Qed.

Lemma extras_got (d : dict) k v :
  dget k d = v -> v <> PNone -> extra_key k = true ->
  od_get k (List.filter (fun kv => extra_key kv.1) d) = Some v.
Proof. intros Hd Hv Hk. apply od_get_filter; [by apply dget_some|done]. Qed.

Lemma pack_get d d' k :
  _pack_tool_event_extras d = Ok d' -> extra_key k = false -> k <> "content_analysis" ->
  dget k d' = dget k d \/ dget k d = PNone.
Proof.
  unfold _pack_tool_event_extras. intros Hp Hk Hne.
  assert (dget k d = PNone \/ dget k d <> PNone) as [?|Hv] by (destruct (dget k d); auto); [by right|left].
  assert (dget k (List.filter (fun kv => negb (extra_key kv.1)) d) = dget k d) as Hf.
  { unfold dget at 1. erewrite od_get_filter; [|by apply dget_some|simpl; by rewrite Hk]. done. }
  destruct (List.filter (fun kv => extra_key kv.1) d); [by injection Hp as <-|].
  unbind Hp. injection Hp as <-. by rewrite dget_set_ne.
Qed.

Lemma pack_extras d d' k :
  _pack_tool_event_extras d = Ok d' -> extra_key k = true -> dget k d <> PNone ->
  exists ca ex, dget "content_analysis" d' = PDict ca /\ od_get "_extras" ca = Some (PDict ex) /\
    od_get k ex = Some (dget k d).
Proof.
  unfold _pack_tool_event_extras. intros Hp Hk Hv.
  pose proof (extras_got d k _ eq_refl Hv Hk) as Hg. destruct (List.filter (fun kv => extra_key kv.1) d) as [|x ex]; [done|].
  unbind Hp. injection Hp as <-. rewrite dget_set_eq. eexists _, (x :: ex). split; [done|].
  by rewrite od_get_set_eq.
Qed.

Lemma finish_get truncated d k :
  k <> "content_analysis" -> dget k (finish_analysis truncated d) = dget k d.
Proof.
  intros Hk. unfold finish_analysis. destruct (dget "content_analysis" d); destruct truncated;
    rewrite ?dget_set_ne by done; done.
Qed.

(**  A tool event reaches the ledger whole, or says what is missing.  Of a
    validated event every column apart from the analysis and the tool's source is
    sent, a blob over the limit cut; the four keys without a column are in the
    analysis text under [_extras]; a cut blob is named in that text when the event
    has such a key, which every event of the gateway does.  Without one, a text
    that was the analysis is replaced by the mark of the cut. *)
Theorem tool_event_fidelity max_bytes record cleaned data :
  let serial := foldl (fun d k => serialise k d) record blob_keys in
  let pending := dget "content_analysis" serial in
  let event := renamed_event pending cleaned in
  validate_tool_event (od_del "content_analysis" serial) = Ok cleaned ->
  prepare_tool_event max_bytes record = Ok data ->
  (forall k v, k ∈ _TOOL_EVENT_SCHEMA_FIELDS -> k ∉ ["content_analysis"; "tool_source"] ->
     dget k cleaned = v -> v <> PNone ->
     dget k data = if mem k blob_keys then capped max_bytes v else v) /\
  (forall k v, k ∈ _TOOL_EVENT_EXTRA_KEYS -> dget k cleaned = v -> v <> PNone ->
     exists ca ex, dget "content_analysis" data = PStr (to_text (PDict ca)) /\
       od_get "_extras" ca = Some (PDict ex) /\ od_get k ex = Some v /\
       forall b, b ∈ blob_keys -> too_long max_bytes (dget b cleaned) = true ->
         exists cut, dget "tool_event_truncated_keys" ca = pstrs cut /\ b ∈ cut) /\
  ((forall k, k ∈ od_keys event -> extra_key k = false) ->
   forall s b, pending = PStr s -> b ∈ blob_keys -> too_long max_bytes (dget b cleaned) = true ->
     exists cut, dget "content_analysis" data = PStr (to_text (PDict [("tool_event_truncated_keys", pstrs cut)]))).
Proof.
  intros serial pending event Hv Hp. unfold prepare_tool_event in Hp. fold serial pending in Hp.
  rewrite Hv in Hp. cbn [res_bind] in Hp. fold (renamed_event pending cleaned) event in Hp.
  destruct (_cap_tool_event_blobs max_bytes event) as [d3 tr] eqn:Hcap.
  assert (NoDup blob_keys) as Hnd by by apply (bool_decide_unpack _).
  destruct (cap_fold _ _ _ _ _ _ Hnd Hcap) as [Hc Htr]. rewrite app_nil_l in Htr.
  apply res_bind_ok in Hp as (d4 & Hpack & Hp). injection Hp as <-.
  assert (forall k, k ∉ ["content_analysis"; "source"; "tool_source"] ->
            dget k d3 = if mem k blob_keys then capped max_bytes (dget k cleaned) else dget k cleaned) as Hd3.
  { intros k Hk. rewrite Hc. unfold event. by rewrite renamed_get. }
  assert (forall v, v <> PNone -> capped max_bytes v <> PNone) as Hcv.
  { intros v Hvn. unfold capped. repeat case_match; done. }
  assert (forall b, b ∈ blob_keys -> too_long max_bytes (dget b cleaned) = true -> b ∈ tr) as Hcut.
  { intros b Hb Hl. rewrite Htr. apply elem_filter. split; [done|]. unfold event. rewrite renamed_get; [done|].
    by apply (apart blob_keys). }
  assert (forall ca, dget "content_analysis" d4 = PDict ca ->
    dget "content_analysis" (finish_analysis tr d4) =
      PStr (to_text (PDict (match tr with [] => ca | _ => od_set "tool_event_truncated_keys" (pstrs tr) ca end)))) as Hfin.
  { intros ca Hca. unfold finish_analysis. rewrite Hca. by rewrite dget_set_eq. }
  assert (forall k v, dget k (finish_analysis tr d4) = v -> v <> PNone -> k ∈ _TOOL_EVENT_SCHEMA_FIELDS ->
            dget k (in_schema _TOOL_EVENT_SCHEMA_FIELDS (finish_analysis tr d4)) = v) as Hin.
  { intros k v Hk Hvn Hs. unfold dget at 1. rewrite (in_schema_get _ _ k v); [done|by apply dget_some|done|done]. }
  split; [|split].
  - intros k v Hs Hk Hkv Hvn.
    assert (extra_key k = false) as Hx by (unfold extra_key; by rewrite (proj2 (mem_true k _) Hs)).
    assert (k <> "content_analysis" /\ k <> "tool_source" /\ k <> "source") as (H1 & H2 & H4).
    { apply mem_true in Hs. clear -Hk Hs. split; [set_solver|]. split; [set_solver|]. by intros ->. }
    assert (k ∉ ["content_analysis"; "source"; "tool_source"]) as Hk3 by (clear -H1 H2 H4; set_solver).
    apply Hin; [|destruct (mem k blob_keys); auto|done]. rewrite finish_get by done.
    pose proof (Hd3 k Hk3) as H3. rewrite Hkv in H3.
    destruct (pack_get _ _ k Hpack Hx) as [->|Hn]; [done|done|].
    exfalso. rewrite H3 in Hn. destruct (mem k blob_keys); [by eapply Hcv|done].
  - intros k v Hk Hkv Hvn.
    assert (extra_key k = true /\ k ∉ ["content_analysis"; "source"; "tool_source"] /\ mem k blob_keys = false)
      as (Hx & Hk3 & Hb).
    { apply list_elem_of_In in Hk. simpl in Hk.
      destruct_or! Hk; try subst k; try done; (split; [done|split; [by apply (bool_decide_unpack _)|done]]). }
    pose proof (Hd3 k Hk3) as H3. rewrite Hb, Hkv in H3.
    destruct (pack_extras _ _ k Hpack Hx) as (ca & ex & Hca & He & Hex); [by rewrite H3|].
    rewrite H3 in Hex. eexists _, ex. split; [apply Hin; [by apply Hfin|done|by apply mem_true]|].
    split; [destruct tr; [done|]; by rewrite od_get_set_ne|]. split; [done|].
    intros b Hbb Hl. exists tr. specialize (Hcut b Hbb Hl). split; [|done].
    destruct tr; [by apply not_elem_of_nil in Hcut|]. apply dget_set_eq.
  - intros Hno s b Hs Hb Hl. exists tr. specialize (Hcut b Hb Hl).
    rewrite pack_none in Hpack by (by rewrite (cap_keys _ _ _ _ _ _ Hcap)). injection Hpack as <-.
    assert (dget "content_analysis" d3 = PStr s) as Hca.
    { rewrite Hc. cbn. unfold event, renamed_event. rewrite Hs. cbn [is_none].
      destruct (od_get "source" _); [|by rewrite dget_set_eq].
      rewrite dget_set_ne by done. unfold dget. rewrite od_get_del_ne by done. by rewrite od_get_set_eq. }
    apply Hin; [|done|by apply mem_true]. unfold finish_analysis. rewrite Hca.
    destruct tr; [by apply not_elem_of_nil in Hcut|]. by rewrite dget_set_eq.
Qed.
End client.

(** ** Examples *)

Module Examples.

(** Texts are Python's; the ones in the table are read back. *)
Definition codec (table : list pyval) : JsonText := {|
  to_text := py_repr;
  of_text s := match find (fun v => bool_decide (py_repr v = s)) table with
               | Some v => Ok v
               | None => Raise (ValueError s)
               end
|}.

Definition reprs : FloatRepr := fun _ => "1.0".

Definition meta : dict :=
  [("features", PStr "f"); ("_intent", PStr "chat"); ("analyzer_decisions", PList []); ("junk", PStr "x")].

Definition record : dict :=
  [("execution_id", PStr "e1"); ("tenant_id", PStr "t"); ("gateway_id", PStr "g"); ("timestamp", PStr "now");
   ("policy_version", PInt 1); ("policy_result", PStr "pass"); ("total_tokens", PStr "7");
   ("timings", PDict [("forward", PInt 3)]); ("new_panel", PInt 5); ("metadata", PDict meta)].

Definition cleaned : dict := Eval vm_compute in
  match validate_execution (H := reprs) record with Ok d => d | Raise _ => [] end.

Definition full : dict := Eval vm_compute in
  strip_metadata (full_metadata meta (PDict [("forward", PInt 3)]) PNone).

Definition kept : dict := Eval vm_compute in kept_metadata full.
Definition written : dict := Eval vm_compute in metadata_dict (H := codec []) 40 full.

Definition json : JsonText := codec [PDict kept; PDict written].
#[local] Existing Instance json.
#[local] Existing Instance reprs.

(** The text is cut to 40 characters: [junk] is named as cut, [new_panel] as
    stripped. *)
Lemma dual_write_fidelity_witness :
  exists record' data mj, prepare_execution 40 record = Ok (record', data) /\
    dget "total_tokens" data = PInt 7 /\ stored "junk" (PStr "x") mj /\ stored "_intent" (PStr "chat") mj /\
    exists l, od_get "schema_stripped_keys" mj = Some (pstrs l) /\ "new_panel" ∈ l.
Proof.
  destruct (dual_write_fidelity 40 record cleaned meta) as (record' & data & mj & Hp & Hmj & Hcols & Hmeta).
  - vm_compute. reflexivity.
  - vm_compute. reflexivity.
  - discriminate.
  - apply (bool_decide_unpack _). vm_compute. exact I.
  - split; [vm_compute; reflexivity|vm_compute; discriminate].
  - split; [vm_compute; reflexivity|vm_compute; discriminate].
  - exists record', data, mj. split; [exact Hp|]. split; [|split; [|split]].
    + destruct (Hcols "total_tokens" (PInt 7)) as [[_ Hc]|[Hc|(l & Hl & Hc)]];
        [vm_compute; reflexivity|discriminate|discriminate|exact Hc| |].
      * exfalso. apply mem_true in Hc. vm_compute in Hc. discriminate.
      * vm_compute in Hp. injection Hp as <- <-. vm_compute. reflexivity.
    + destruct (Hmeta "junk" (PStr "x")) as [Hc|Hc];
        [vm_compute; reflexivity|apply mem_false; vm_compute; reflexivity| |exact Hc].
      exfalso. apply mem_true in Hc. vm_compute in Hc. discriminate.
    + destruct (Hmeta "_intent" (PStr "chat")) as [Hc|Hc];
        [vm_compute; reflexivity|apply mem_false; vm_compute; reflexivity| |exact Hc].
      exfalso. apply mem_true in Hc. vm_compute in Hc. discriminate.
    + destruct (Hcols "new_panel" (PInt 5)) as [[Hc _]|[Hc|Hc]];
        [vm_compute; reflexivity|discriminate|discriminate| | |exact Hc];
        exfalso; apply mem_true in Hc; vm_compute in Hc; discriminate.
Defined.

Definition sent : res (dict * dict) := Eval vm_compute in prepare_execution (H := json) (H0 := reprs) 40 record.
Definition changed : dict := match sent with Ok p => p.1 | Raise _ => [] end.
Definition payload : dict := match sent with Ok p => p.2 | Raise _ => [] end.

Lemma write_edits_its_record_witness :
  prepare_execution 40 record = Ok (changed, payload) /\
  exists m2, changed = od_set "metadata" (PDict m2) record /\ od_get "features" m2 = None /\
    od_get "timings" m2 = Some (PDict [("forward", PInt 3)]) /\
    (m2 <> [] -> prepare_execution 40 changed = Ok (changed, payload)).
Proof.
  assert (prepare_execution 40 record = Ok (changed, payload)) as Hp by (vm_compute; reflexivity).
  split; [exact Hp|].
  destruct (write_edits_its_record 40 record changed payload meta) as (m2 & H1 & H2 & _ & H4 & H5).
  - apply (bool_decide_unpack _). vm_compute. exact I.
  - vm_compute. reflexivity.
  - discriminate.
  - exact Hp.
  - exists m2. split; [exact H1|]. split; [apply H2; left|]. split; [apply H4; vm_compute; reflexivity|exact H5].
Defined.

Definition event : dict :=
  [("event_id", PStr "v1"); ("execution_id", PStr "e1"); ("tenant_id", PStr "t"); ("gateway_id", PStr "g");
   ("timestamp", PStr "now"); ("event_type", PStr "tool_call"); ("source", PStr "mcp");
   ("output_data", PStr "0123456789"); ("content_analysis", PStr "ok")].

Definition event_cleaned : dict := Eval vm_compute in
  match validate_tool_event (H := reprs) (od_del "content_analysis" event) with Ok d => d | Raise _ => [] end.

Definition event_sent : dict := Eval vm_compute in
  match prepare_tool_event (H := codec []) (H0 := reprs) 5 event with Ok d => d | Raise _ => [] end.

Lemma tool_event_fidelity_witness :
  prepare_tool_event (H := codec []) 5 event = Ok event_sent /\
  dget "output_data" event_sent = capped 5 (PStr "0123456789") /\
  exists ca ex, dget "content_analysis" event_sent = PStr (py_repr (PDict ca)) /\
    od_get "_extras" ca = Some (PDict ex) /\ od_get "event_type" ex = Some (PStr "tool_call").
Proof.
  assert (prepare_tool_event (H := codec []) 5 event = Ok event_sent) as Hp by (vm_compute; reflexivity).
  split; [exact Hp|].
  destruct (tool_event_fidelity (H := codec []) 5 event event_cleaned event_sent) as (H1 & H2 & _);
    [vm_compute; reflexivity|exact Hp|].
  split.
  - refine (H1 "output_data" _ _ _ _ _); [apply mem_true; vm_compute; reflexivity
      |apply mem_false; vm_compute; reflexivity|vm_compute; reflexivity|discriminate].
  - destruct (H2 "event_type" (PStr "tool_call")) as (ca & ex & Hca & He & Hx & _);
      [apply mem_true; vm_compute; reflexivity|vm_compute; reflexivity|discriminate|].
    exists ca, ex. split; [exact Hca|]. split; [exact He|exact Hx].
Defined.
End Examples.
