(* ===== verification/LedgerHttp.v ===== *)
(** * Talking to the ledger (walacor/client.py, util/errors.py, storage/walacor_backend.py)

    Login, submit, query and existence probes with their single retry, the
    public write methods, the delivery log and the refresh of the token.  The
    service is the class [Http]: how it answers a request, and how that changes
    it.  Every request and its answer is kept in [sent].  Times are whole
    microseconds. *)
From Stdlib Require Import SpecFloat.
From S2P Require Import Prelude ODict PyVal PyStr PyObj RecordSchema WalacorClient.
From S2P Require Wal Storage.

Local Open Scope Z_scope.

(** ** HTTP *)

Record request := MkRequest { url : string; headers : dict; body : pyval }.

(** What the code asks of a response: its status, [raise_for_status()] and
    [json()] *)
Record reply := MkReply { status_code : Z; raise_for_status : res unit; json_body : res pyval }.

Class Http (W : Type) := respond : request -> W -> W * res reply.

(** ** Errors (util/errors.py) *)

Definition class_name (e : exn) : string :=
  match e with
  | ValueError _ => "ValueError"
  | TypeError _ => "TypeError"
  | KeyError _ => "KeyError"
  | IndexError _ => "IndexError"
  | OverflowError _ => "OverflowError"
  | NameError _ => "NameError"
  | OtherError name => name
  end.

Definition _SAFE_REASONS : list (string * string) :=
  [("TimeoutException", "timeout"); ("ReadTimeout", "timeout"); ("WriteTimeout", "timeout");
   ("ConnectTimeout", "timeout"); ("ConnectError", "connection_refused");
   ("RemoteProtocolError", "protocol_error"); ("NetworkError", "network_error");
   ("TransportError", "transport_error"); ("HTTPStatusError", "http_error");
   ("JSONDecodeError", "decode_error"); ("ValueError", "validation_error");
   ("KeyError", "validation_error"); ("NotImplementedError", "not_implemented");
   ("CancelledError", "cancelled")].

Definition classify_exception (e : exn) : string :=
  default (class_name e) (od_get (class_name e) _SAFE_REASONS).

(** ** The client *)

Record config := MkConfig {
  _server : string;
  _username : string;
  _password : string;
  _executions_etid : Z;
  _attempts_etid : Z;
  _tool_events_etid : Z;
}.

Record delivery := MkDelivery { d_ts : Z; d_op : string; d_ok : bool; d_detail : option string }.

Record client (W : Type) := MkClient {
  _token : pyval;
  _delivery_log : list delivery;
  sent : list (request * res reply);
  world : W;
}.
Arguments MkClient {W}.
Arguments _token {W}.
Arguments _delivery_log {W}.
Arguments sent {W}.
Arguments world {W}.

Section http.
Context {W : Type} `{Http W} `{JsonText} `{FloatRepr} (cfg : config).

(** Calls that may raise and that change the client *)
Definition io (A : Type) : Type := client W -> client W * res A.

Definition ret {A} (a : A) : io A := fun c => (c, Ok a).
Definition lift {A} (m : res A) : io A := fun c => (c, m).
Definition bind {A B} (m : io A) (f : A -> io B) : io B :=
  fun c => match m c with
           | (c, Ok a) => f a c
           | (c, Raise e) => (c, Raise e)
           end.
Notation "'do!' x := m 'in' k" := (bind m (fun x => k)) (at level 10, x name, m at level 100, k at level 200).

Definition post (r : request) : io reply :=
  fun c => let '(w, a) := respond r (world c) in
           (MkClient (_token c) (_delivery_log c) (sent c ++ [(r, a)]) w, a).

Definition set_token (t : pyval) : io unit :=
  fun c => (MkClient t (_delivery_log c) (sent c) (world c), Ok tt).

Definition token : io pyval := fun c => (c, Ok (_token c)).

Definition login_request : request :=
  MkRequest (_server cfg +:+ "/auth/login") []
    (PDict [("userName", PStr (_username cfg)); ("password", PStr (_password cfg))]).

Definition _authenticate : io unit :=
  do! resp := post login_request in
  do! _ := lift (raise_for_status resp) in
  do! b := lift (json_body resp) in
  do! t := lift (item "api_token" b) in
  set_token t.

Definition _headers (tok : pyval) (etid : Z) : dict :=
  [("Authorization", por tok (PStr "")); ("Content-Type", PStr "application/json"); ("ETId", PStr (z_str etid))].

(** ** Submit *)

(** The answer to a submit that is not sent again *)
Definition accepted (resp : reply) : res unit :=
  let! _ := raise_for_status resp in
  match json_body resp with
  | Ok (PDict b) =>
      match dget "success" b with
      | PBool false => Raise (OtherError "RuntimeError")
      | _ => Ok tt
      end
  | Ok _ | Raise (ValueError _) | Raise (KeyError _) => Ok tt
  | Raise e => Raise e
  end.

Definition submit_request (tok : pyval) (etid : Z) (records : list dict) : request :=
  MkRequest (_server cfg +:+ "/envelopes/submit") (_headers tok etid)
    (PDict [("Data", PList (map PDict records))]).

(** One turn of [for attempt in range(2)]: whether the call returns *)
Definition submit_attempt (attempt : nat) (etid : Z) (records : list dict) : io bool :=
  do! tok := token in
  do! resp := post (submit_request tok etid records) in
  if (status_code resp =? 401) && (attempt =? 0)%nat then
    do! _ := _authenticate in ret false
  else do! _ := lift (accepted resp) in ret true.

Fixpoint attempts {A} (turn : nat -> io (option A)) (fallback : A) (from n : nat) : io A :=
  match n with
  | O => ret fallback
  | S n => do! r := turn from in
           match r with Some a => ret a | None => attempts turn fallback (S from) n end
  end.

Definition _submit (etid : Z) (records : list dict) : io unit :=
  attempts (fun a => do! b := submit_attempt a etid records in ret (if b : bool then Some tt else None)) tt 0 2.

(** ** Queries *)

Definition query_request (tok : pyval) (etid : Z) (pipeline : pyval) : request :=
  MkRequest (_server cfg +:+ "/query/getcomplex") (_headers tok etid) pipeline.

Definition query_attempt (attempt : nat) (etid : Z) (pipeline : pyval) : io (option pyval) :=
  do! tok := token in
  do! resp := post (query_request tok etid pipeline) in
  if (status_code resp =? 401) && (attempt =? 0)%nat then
    do! _ := _authenticate in ret None
  else
    do! _ := lift (raise_for_status resp) in
    do! b := lift (json_body resp) in
    ret (Some (match b with
               | PDict d => dget_or "data" (PList []) d
               | PList l => PList l
               | _ => PList []
               end)).

Definition query_complex (etid : Z) (pipeline : pyval) : io pyval :=
  attempts (fun a => query_attempt a etid pipeline) (PList []) 0 2.

Definition probe_pipeline (key id : string) : pyval :=
  PList [PDict [("$match", PDict [(key, PStr id)])]; PDict [("$limit", PInt 1)]].

Definition probe_exists (etid : Z) (key id : string) : io bool :=
  match id with
  | EmptyString => ret false
  | _ => fun c => match query_complex etid (probe_pipeline key id) c with
                  | (c, Ok rows) => (c, Ok (truthy rows))
                  | (c, Raise _) => (c, Ok false)
                  end
  end.

Definition execution_exists (record_id : string) : io bool := probe_exists (_executions_etid cfg) "record_id" record_id.
Definition tool_event_exists (event_id : string) : io bool := probe_exists (_tool_events_etid cfg) "event_id" event_id.

(** ** Delivery log *)

(** A deque of a hundred entries *)
Definition _record_delivery (now : Z) (op : string) (ok : bool) (detail : option string) (c : client W) : client W :=
  let l := _delivery_log c ++ [MkDelivery now op ok detail] in
  MkClient (_token c) (drop (length l - 100) l) (sent c) (world c).

(** ** Writes *)

Definition write_execution (now : Z) (max_bytes : Z) (record : dict) : io unit :=
  do! p := lift (prepare_execution max_bytes record) in
  fun c => match _submit (_executions_etid cfg) [p.2] c with
           | (c, Ok _) => (_record_delivery now "write_execution" true None c, Ok tt)
           | (c, Raise e) =>
               (_record_delivery now "write_execution" false (Some (classify_exception e)) c, Raise e)
           end.

(** An optional text is sent when it is not empty. *)
Definition opt_field (k : string) (v : option string) (d : dict) : dict :=
  match v with None | Some EmptyString => d | Some s => od_set k (PStr s) d end.

Definition attempt_record (iso : string) (a : Wal.attempt) : dict :=
  opt_field "reason" (Wal.a_reason a)
  (opt_field "user" (Wal.a_user a)
  (opt_field "execution_id" (Wal.a_execution_id a)
  (opt_field "model_id" (Wal.a_model_id a)
  (opt_field "provider" (Wal.a_provider a)
    [("request_id", PStr (Wal.request_id a)); ("timestamp", PStr iso);
     ("tenant_id", PStr (Wal.a_tenant_id a)); ("path", PStr (Wal.a_path a));
     ("disposition", PStr (Wal.a_disposition a)); ("status_code", PInt (Wal.a_status_code a))])))).

Definition write_attempt (now : Z) (iso : string) (a : Wal.attempt) : io unit :=
  fun c => match _submit (_attempts_etid cfg) [attempt_record iso a] c with
           | (c, Ok _) => (_record_delivery now "write_attempt" true None c, Ok tt)
           | (c, Raise e) =>
               (_record_delivery now "write_attempt" false (Some (classify_exception e)) c, Ok tt)
           end.

Definition write_tool_event (max_bytes : Z) (record : dict) : io unit :=
  do! data := lift (prepare_tool_event max_bytes record) in
  fun c => match _submit (_tool_events_etid cfg) [data] c with
           | (c, _) => (c, Ok tt)
           end.

(** [WalacorBackend] (storage/walacor_backend.py): whether the client returned *)
Definition backend_write_execution (now max_bytes : Z) (record : dict) (c : client W) : client W * bool :=
  let '(c, r) := write_execution now max_bytes record c in (c, is_ok r).

Definition backend_write_tool_event (max_bytes : Z) (record : dict) (c : client W) : client W * bool :=
  let '(c, r) := write_tool_event max_bytes record c in (c, is_ok r).

(** What [delivery_snapshot] reports; times as clock readings *)
Record snapshot := MkSnapshot {
  success_rate_60s : res spec_float;
  last_failure : option (Z * string * option string);
  last_success_ts : option Z;
  time_since_last_success_s : option Z;
}.

Definition zmax_opt (l : list Z) : option Z :=
  match l with [] => None | x :: l => Some (foldl Z.max x l) end.

Definition delivery_snapshot (now : Z) (c : client W) : snapshot :=
  let recent := List.filter (fun e => now - d_ts e <=? 60 * 1000000) (_delivery_log c) in
  match recent with
  | [] => MkSnapshot (Ok (sf_of_Z 1)) None None None
  | _ =>
      let last_success := match zmax_opt (map d_ts (List.filter d_ok (_delivery_log c))) with
                          | Some 0 | None => None
                          | Some t => Some t
                          end in
      MkSnapshot
        (py_truediv (zlen (List.filter d_ok recent)) (zlen recent))
        (match find (fun e => negb (d_ok e)) (rev recent) with
         | Some e => Some (d_ts e, d_op e, d_detail e)
         | None => None
         end)
        last_success
        (match last_success with Some t => Some (now - t) | None => None end)
  end.

(** ** The token's expiry *)

(** [base64.urlsafe_b64decode]: characters outside the alphabet are skipped, and
    padding ends the text once a group is complete. *)
Definition b64_value (c : ascii) : option Z :=
  let n := code c in
  if (65 <=? n) && (n <=? 90) then Some (n - 65)
  else if (97 <=? n) && (n <=? 122) then Some (n - 71)
  else if (48 <=? n) && (n <=? 57) then Some (n + 4)
  else if (n =? 43) || (n =? 45) then Some 62
  else if (n =? 47) || (n =? 95) then Some 63
  else None.

Definition chr (n : Z) : ascii := Ascii.ascii_of_N (Z.to_N n).

Fixpoint a2b_base64 (s : string) (quad pads left : Z) : res string :=
  match s with
  | EmptyString => if quad =? 0 then Ok "" else Raise (ValueError "Incorrect padding")
  | String c s =>
      if code c =? 61 then
        if 2 <=? quad then if 4 <=? quad + pads + 1 then Ok "" else a2b_base64 s quad (pads + 1) left
        else a2b_base64 s quad pads left
      else match b64_value c with
           | None => a2b_base64 s quad pads left
           | Some v =>
               if quad =? 0 then a2b_base64 s 1 0 v
               else if quad =? 1 then
                 let! r := a2b_base64 s 2 0 (Z.land v 15) in
                 Ok (String (chr (Z.lor (Z.shiftl left 2) (Z.shiftr v 4))) r)
               else if quad =? 2 then
                 let! r := a2b_base64 s 3 0 (Z.land v 3) in
                 Ok (String (chr (Z.lor (Z.shiftl left 4) (Z.shiftr v 2))) r)
               else
                 let! r := a2b_base64 s 0 0 0 in
                 Ok (String (chr (Z.lor (Z.shiftl left 6) v)) r)
           end
  end.

Definition urlsafe_b64decode (s : string) : res string := a2b_base64 s 0 0 0.

(** [datetime.fromtimestamp(t, tz=utc)] *)
Definition fromtimestamp (t : Z) : res Z :=
  if (t <? - 2 ^ 63) || (2 ^ 63 <=? t) then Raise (OverflowError "timestamp out of range")
  else if (-62135596800 <=? t) && (t <=? 253402300799) then Ok (t * 1000000)
  else Raise (ValueError "year is out of range").

Definition removeprefix (p s : string) : string := if startswith p s then sdrop (String.length p) s else s.

Fixpoint repeat_char (c : ascii) (n : nat) : string :=
  match n with O => "" | S n => String c (repeat_char c n) end.

(** [payload_b64 += "=" * (4 - len(payload_b64) % 4)] *)
Definition padded (s : string) : string :=
  (s +:+ repeat_char "="%char (4 - String.length s mod 4))%string.

Definition _parse_jwt_exp (token : pyval) : res (option Z) :=
  if negb (truthy token) then Ok None
  else match token with
       | PStr s =>
           match split_on "."%char (strip (removeprefix "Bearer " s)) with
           | [_; payload_b64; _] =>
               match (let! bytes := urlsafe_b64decode (padded payload_b64) in of_text bytes) with
               | Raise (ValueError _ | KeyError _ | TypeError _) => Ok None
               | Raise e => Raise e
               | Ok payload =>
                   let! exp := get "exp" payload in
                   if is_none exp then Ok None
                   else match (let! n := py_int exp in fromtimestamp n) with
                        | Ok t => Ok (Some t)
                        | Raise (ValueError _) => Ok None
                        | Raise e => Raise e
                        end
               end
           | _ => Ok None
           end
       | _ => attribute_error
       end.

Definition sec (n : Z) : Z := n * 1000000.
Definition _REFRESH_LEAD_SECONDS : Z := 300.
Definition _FALLBACK_REFRESH_INTERVAL : Z := 3000.
Definition _MAX_SLEEP_SECONDS : Z := 3600.

Definition _next_refresh_delay_seconds (token : pyval) (now : Z) : res Z :=
  let! exp := _parse_jwt_exp (por token (PStr "")) in
  Ok (match exp with
      | Some exp =>
          if now <? exp then Z.max 0 (Z.min (exp - now - sec _REFRESH_LEAD_SECONDS) (sec _MAX_SLEEP_SECONDS))
          else sec _FALLBACK_REFRESH_INTERVAL
      | None => sec _FALLBACK_REFRESH_INTERVAL
      end).

(** One turn of [_refresh_loop] from [now], the login taking [latency]: the time
    of the next turn.  An exception outside the [try] ends the task. *)
Definition refresh_turn (now latency : Z) : io Z :=
  do! tok := token in
  do! delay := lift (_next_refresh_delay_seconds tok now) in
  fun c => match _authenticate c with
           | (c, Ok _) => (c, Ok (now + delay + latency))
           | (c, Raise _) => (c, Ok (now + delay + latency + sec 60))
           end.

(** ** Submitting *)

(** How a login turns out *)
Lemma authenticate_run c c' r :
  _authenticate c = (c', r) ->
  exists a, sent c' = sent c ++ [(login_request, a)] /\ (is_ok r = false -> _token c' = _token c) /\
    _delivery_log c' = _delivery_log c.
Proof.
  unfold _authenticate, bind, post, lift, set_token. destruct (respond login_request (world c)) as [w a].
  destruct a as [resp|e]; [|intros [= <- <-]; by exists (Raise e)].
  destruct (raise_for_status resp); [|intros [= <- <-]; by exists (Ok resp)].
  destruct (json_body resp) as [b|]; [|intros [= <- <-]; by exists (Ok resp)].
  destruct (item "api_token" b); intros [= <- <-]; by exists (Ok resp).
Qed.

Lemma submit_attempt_run attempt etid records c c' r :
  submit_attempt attempt etid records c = (c', r) ->
  exists a, 
    (exists l, sent c' = sent c ++ (submit_request (_token c) etid records, a) :: l /\
      ((l = [] /\ (r = Ok true \/ is_ok r = false) /\ _token c' = _token c) \/
       (attempt = 0%nat /\ exists b, l = [(login_request, b)] /\ (r = Ok false \/ is_ok r = false)))) /\
    (r = Ok true -> exists resp, a = Ok resp /\ accepted resp = Ok tt).
Proof.
  unfold submit_attempt, bind, token, post, lift, ret.
  set (q := submit_request (_token c) etid records).
  destruct (respond q (world c)) as [w a]. destruct a as [resp|e].
  2:{ intros [= <- <-]. exists (Raise e). split; [|done]. exists []. split; [done|]. left. auto. }
  destruct ((status_code resp =? 401) && (attempt =? 0)%nat) eqn:H401.
  - apply andb_true_iff in H401 as [_ Hz%Nat.eqb_eq].
    destruct (_authenticate _) as [c1 r1] eqn:Ha. apply authenticate_run in Ha as (b & Hs & _). simpl in Hs.
    intros Hr. exists (Ok resp). split; [|destruct r1; simplify_eq; done].
    exists [(login_request, b)]. rewrite <- app_assoc in Hs.
    split; [destruct r1; simplify_eq; done|]. right. split; [done|]. exists b. split; [done|].
    destruct r1; simplify_eq; auto.
  - destruct (accepted resp) as [[]|e] eqn:Hacc; intros [= <- <-]; exists (Ok resp).
    + split; [exists []; split; [done|left; auto]|]. intros _. by exists resp.
    + split; [exists []; split; [done|left; auto]|done].
Qed.

(**  A submit is bounded and honest.  It sends the records, and after a 401
    logs in and sends the same records once more, never anything else; and it
    returns only when the last answer it got accepts them: a success status, and a
    body that does not say [success: false]. *)
Theorem submit_is_bounded etid records c c' r :
  _submit etid records c = (c', r) ->
  let put t := submit_request t etid records in
  exists a l, sent c' = sent c ++ (put (_token c), a) :: l /\
    (l = [] \/ (exists b, l = [(login_request, b)] /\ is_ok r = false) \/
     (exists b t a2, l = [(login_request, b); (put t, a2)])) /\
    (r = Ok tt -> exists t resp, last (sent c') = Some (put t, Ok resp) /\ accepted resp = Ok tt).
Proof.
  intros Hr put. unfold _submit in Hr. cbn [attempts] in Hr. unfold bind at 1 2 in Hr.
  destruct (submit_attempt 0 etid records c) as [c1 r1] eqn:Hs1.
  destruct (submit_attempt_run _ _ _ _ _ _ Hs1) as (a & (l & Hs & Hl) & Hok). fold put in Hs.
  destruct r1 as [[]|e]; simpl in Hr.
  - injection Hr as <- <-. destruct (Hok eq_refl) as (resp & -> & Hacc).
    exists (Ok resp), l. split; [done|].
    destruct Hl as [(-> & _)|(_ & b & _ & [?|?])]; [|done..]. split; [by left|]. intros _.
    exists (_token c), resp. rewrite Hs. by rewrite last_snoc.
  - unfold bind at 1 2 in Hr. destruct (submit_attempt 1 etid records c1) as [c2 r2] eqn:Hs2'.
    destruct (submit_attempt_run _ _ _ _ _ _ Hs2') as (a2 & (l2 & Hs2 & Hl2) & Hok2). fold put in Hs2.
    destruct Hl as [(_ & [?|?] & _)|(_ & b & -> & _)]; [done..|].
    destruct Hl2 as [(-> & Hr2 & _)|(? & _)]; [|done].
    exists a, [(login_request, b); (put (_token c1), a2)].
    assert (sent c2 = sent c ++ (put (_token c), a) :: [(login_request, b); (put (_token c1), a2)]) as Hs3
      by (rewrite Hs2, Hs; by rewrite <- app_assoc).
    assert (c' = c2 /\ (r = Ok tt -> r2 = Ok true)) as [-> Hrr].
    { destruct r2 as [[]|e2]; simpl in Hr; unfold ret in Hr; simplify_eq; try done.
      destruct Hr2 as [?|?]; done. }
    split; [done|]. split; [right; right; eauto|]. intros Hr3. destruct (Hok2 (Hrr Hr3)) as (resp & -> & Hacc).
    exists (_token c1), resp. split; [|done]. rewrite Hs2. by rewrite last_snoc.
  - simplify_eq. exists a, l. split; [done|]. split; [|done].
    destruct Hl as [(-> & _)|(_ & b & -> & _)]; [by left|right; left; eauto].
Qed.

(** ** Best effort *)

Lemma write_tool_event_returns max_bytes record data c :
  prepare_tool_event max_bytes record = Ok data ->
  exists c', write_tool_event max_bytes record c = (c', Ok tt).
Proof.
  intros Hp. unfold write_tool_event, bind, lift. rewrite Hp.
  destruct (_submit _ _ _) as [c' r]. by exists c'.
Qed.

(** C28.  A tool event the ledger refuses is acknowledged all the same.  The client
    swallows the failure of a submit and returns, so the backend reports success
    whatever the ledger answered, and the router marks the event's row in the
    write-ahead log delivered: it will never be sent again. *)
Theorem tool_event_loss_is_acknowledged `{Wal.Json} max_bytes record data c backends l during now :
  prepare_tool_event max_bytes record = Ok data ->
  Storage.has_wal backends = true -> Storage.WalacorB ∈ backends ->
  Storage.key_text "event_id" record <> "" ->
  let ok := (backend_write_tool_event max_bytes record c).2 in
  let eff := Storage.write_tool_event backends ok record now in
  ok = true /\
  ~ Wal.pending (Storage.key_text "event_id" record)
      (Wal.l_db (Wal.wal_run l (Storage.before eff ++ during ++ Storage.after eff))).
Proof.
  intros Hp Hw Hb Hid ok eff. unfold ok in *.
  destruct (write_tool_event_returns _ _ _ c Hp) as (c' & Hc).
  assert ((backend_write_tool_event max_bytes record c).2 = true) as Hok
    by (unfold backend_write_tool_event; by rewrite Hc).
  split; [done|]. subst eff. rewrite Hok. unfold Storage.write_tool_event. cbn [Storage.before Storage.after].
  unfold Storage.acknowledge. rewrite bool_decide_true.
  2:{ unfold Storage.names_of, Storage.results. apply list_elem_of_fmap. exists ("walacor", true).
      split; [done|]. apply elem_filter. split; [|done]. apply list_elem_of_fmap. by exists Storage.WalacorB. }
  unfold Storage._mark_wal_delivered. destruct (Storage.key_text _ _) as [|x s] eqn:Hk; [done|].
  rewrite Hw, app_assoc, Storage.wal_run_app. simpl. apply Storage.mark_not_pending.
Qed.

(** ** Refreshing *)

Lemma refresh_delay_spec tok now delay :
  _next_refresh_delay_seconds tok now = Ok delay ->
  0 <= delay <= sec 3600 /\
  (forall e, _parse_jwt_exp (por tok (PStr "")) = Ok (Some e) ->
     (now + sec 300 < e -> now + delay <= e - sec 300) /\
     (now < e <= now + sec 300 -> delay = 0) /\
     (e <= now -> delay = sec 3000)) /\
  (_parse_jwt_exp (por tok (PStr "")) = Ok None -> delay = sec 3000).
Proof.
  unfold _next_refresh_delay_seconds, sec, _REFRESH_LEAD_SECONDS, _FALLBACK_REFRESH_INTERVAL, _MAX_SLEEP_SECONDS.
  destruct (_parse_jwt_exp _) as [[e|]|] eqn:Hp; cbn [res_bind]; [| |done]; intros [= <-].
  - split; [destruct (now <? e) eqn:?; lia|]. split; [|done]. intros e' [= <-].
    destruct (Z.ltb_spec now e); lia.
  - split; [lia|]. split; [done|]. lia.
Qed.

(**  The refresh delay.  Whatever the token, the task sleeps between nothing
    and one hour.  While the token has more than five minutes to live it wakes no
    later than five minutes before the expiry; in the last five minutes it does
    not sleep at all; and with an expired token or one without an expiry it sleeps
    fifty minutes. *)
Theorem refresh_delay_bounds tok now delay :
  _next_refresh_delay_seconds tok now = Ok delay ->
  0 <= delay <= sec 3600 /\
  (forall e, _parse_jwt_exp (por tok (PStr "")) = Ok (Some e) ->
     (now + sec 300 < e -> now + delay <= e - sec 300) /\
     (now < e <= now + sec 300 -> delay = 0) /\
     (e <= now -> delay = sec 3000)) /\
  (_parse_jwt_exp (por tok (PStr "")) = Ok None -> delay = sec 3000).
Proof. apply refresh_delay_spec. Qed.

(** The client has a token that lives more than five minutes. *)
Definition live (s : Z * client W) : Prop :=
  exists e, _parse_jwt_exp (por (_token s.2) (PStr "")) = Ok (Some e) /\ s.1 + sec 300 < e.

(** A turn whose login succeeds within five minutes and brings such a token *)
Definition good_turn (s s' : Z * client W) : Prop :=
  exists latency, 0 <= latency <= sec 300 /\
    refresh_turn s.1 latency s.2 = (s'.2, Ok s'.1) /\ live s'.

(**  The token in use never expires.  From a client with a live token, through
    any number of turns of the refresh loop whose logins succeed, the token held
    during each turn is valid until the next one has replaced it. *)
Theorem token_never_expires s s' s'' :
  live s -> rtc good_turn s s' -> good_turn s' s'' ->
  exists e, _parse_jwt_exp (por (_token s'.2) (PStr "")) = Ok (Some e) /\
    s'.1 <= s''.1 /\ (is_ok (_authenticate s'.2).2 = true -> s''.1 <= e).
Proof.
  intros Hlive Hrun (latency & Hl & Hturn & _).
  assert (live s') as (e & He & Hlt).
  { induction Hrun as [|x y z (? & _ & _ & Hy)]; auto. }
  exists e. split; [done|]. unfold refresh_turn, bind, token, lift in Hturn.
  destruct (_next_refresh_delay_seconds _ _) as [delay|] eqn:Hd; [|done].
  destruct (refresh_delay_spec _ _ _ Hd) as (Hb & Hx & _). destruct (Hx _ He) as [Hw _].
  specialize (Hw Hlt). destruct (_authenticate s'.2) as [c1 [[]|e1]]; injection Hturn as _ <-; simpl;
    unfold sec in *; split; try done; lia.
Qed.
End http.

(** ** Examples *)

Module HttpExamples.

Definition cfg : config := MkConfig "https://ledger" "u" "p" 31 32 33.

(** A service that accepts the token [t2] only, gives it out at login, and
    refuses every tool event (column set 33) *)
Definition reply_of (status : Z) (b : dict) : reply :=
  MkReply status (if (200 <=? status) && (status <? 300) then Ok tt else Raise (OtherError "HTTPStatusError"))
    (Ok (PDict b)).

Definition service (r : request) : reply :=
  if endswith "/auth/login" (url r) then reply_of 200 [("api_token", PStr "t2")]
  else if eq_str (dget "ETId" (headers r)) "33" then reply_of 503 []
  else if eq_str (dget "Authorization" (headers r)) "t2" then reply_of 200 [("success", PBool true)]
  else reply_of 401 [].

#[local] Instance http : Http unit := fun r w => (w, Ok (service r)).

Definition start : client unit := MkClient (PStr "t1") [] [] tt.

Lemma submit_is_bounded_witness :
  exists c', _submit cfg 31 [[("execution_id", PStr "e")]] start = (c', Ok tt) /\ length (sent c') = 3%nat /\
    exists t resp, last (sent c') = Some (submit_request cfg t 31 [[("execution_id", PStr "e")]], Ok resp) /\
      accepted resp = Ok tt.
Proof.
  eexists. split; [vm_compute; reflexivity|]. split; [vm_compute; reflexivity|].
  destruct (submit_is_bounded cfg 31 [[("execution_id", PStr "e")]] start
              (_submit cfg 31 [[("execution_id", PStr "e")]] start).1 (Ok tt)) as (_ & _ & _ & _ & Hl);
    [vm_compute; reflexivity|]. exact (Hl eq_refl).
Defined.

#[local] Existing Instance Examples.reprs.
#[local] Instance text : JsonText := Examples.codec [].

#[local] Instance wal_json : Wal.Json := {
  Wal.dumps d := Ok (py_repr (PDict d));
  Wal.loads s := Raise (ValueError s);
}.

Lemma tool_event_loss_is_acknowledged_witness :
  let event := Examples.event in
  let c' := backend_write_tool_event cfg 60000 event start in
  map (fun x => status_code (match x.2 with Ok r => r | Raise _ => service (login_request cfg) end)) (sent c'.1) = [503] /\
  c'.2 = true /\
  let eff := Storage.write_tool_event [Storage.WalB; Storage.WalacorB] c'.2 event 9 in
  ~ Wal.pending "v1" (Wal.l_db (Wal.wal_run (Wal.MkLog Wal.empty_db []) (Storage.before eff ++ [] ++ Storage.after eff))).
Proof.
  intros event c'. split; [vm_compute; reflexivity|].
  destruct (prepare_tool_event 60000 Examples.event) as [data|e] eqn:Hp; [|vm_compute in Hp; discriminate].
  refine (tool_event_loss_is_acknowledged cfg 60000 Examples.event data start
            [Storage.WalB; Storage.WalacorB] (Wal.MkLog Wal.empty_db []) [] 9 Hp _ _ _).
  - reflexivity.
  - right. left.
  - vm_compute. discriminate.
Defined.

(** Tokens whose payload is the expiry in seconds *)
Definition exp_codec : JsonText := {|
  to_text := py_repr;
  of_text s := match parse_int s with Some n => Ok (PDict [("exp", PInt n)]) | None => Raise (ValueError s) end
|}.

(** The payload is the base64 text of [9000]. *)
Lemma refresh_delay_bounds_witness :
  let H := exp_codec in
  _parse_jwt_exp (PStr "Bearer h.OTAwMA.s") = Ok (Some (sec 9000)) /\
  _next_refresh_delay_seconds (PStr "Bearer h.OTAwMA.s") (sec 6000) = Ok (sec 2700) /\
  sec 6000 + sec 2700 <= sec 9000 - sec 300.
Proof.
  intros H. split; [vm_compute; reflexivity|]. split; [vm_compute; reflexivity|].
  refine (proj1 (proj1 (proj2 (refresh_delay_bounds (PStr "Bearer h.OTAwMA.s") (sec 6000) (sec 2700) _))
                   (sec 9000) _) _); vm_compute; reflexivity.
Defined.

(** A service that gives out a token living for ever *)
#[local] Instance long_http : Http unit :=
  fun r w => (w, Ok (reply_of 200 [("api_token", PStr "h.OTkwMDAwMDAw.s")])).

Definition c0 : client unit := MkClient (PStr "h.OTAwMA.s") [] [] tt.
Definition c1 : client unit := (refresh_turn (H := long_http) (H0 := exp_codec) cfg (sec 6000) (sec 5) c0).1.

Lemma token_never_expires_witness :
  exists e, _parse_jwt_exp (H0 := exp_codec) (por (_token c0) (PStr "")) = Ok (Some e) /\
    sec 6000 <= sec 8705 /\ (is_ok (_authenticate (H := long_http) cfg c0).2 = true -> sec 8705 <= e).
Proof.
  refine (token_never_expires (H := long_http) (H0 := exp_codec) cfg (sec 6000, c0) (sec 6000, c0) (sec 8705, c1) _ _ _).
  - exists (sec 9000). split; vm_compute; reflexivity.
  - constructor.
  - exists (sec 5). split; [split; vm_compute; discriminate|]. split; [vm_compute; reflexivity|].
    exists (sec 990000000). split; vm_compute; reflexivity.
Defined.
End HttpExamples.
