(* ===== verification/WalacorReader.v ===== *)
(** * Reading sessions back from the ledger (lineage/walacor_reader.py, lineage/_normalize.py)

    [WalacorLineageReader] over the rows its queries return: the record format,
    the session timeline and its removal of duplicates, the execution and tool
    event views, the session list with its indicators and chain status, and
    [verify_chain] with its anchor round trips.  The aggregation pipelines run in
    the ledger; their answers are arguments.  Dashboards' time series are not
    modelled. *)
From S2P Require Import Prelude ODict PyVal PyStr PyObj Signing Lineage RecordSchema WalacorClient.

Local Open Scope Z_scope.

(** ** The record format *)

Definition envelope_keys : list string :=
  ["_id"; "ORGId"; "UID"; "IsDeleted"; "SV"; "LastModifiedBy"; "CreatedAt"; "UpdatedAt"; "EId"].

Definition chain_keys : list string := ["sequence_number"; "record_hash"; "previous_record_hash"].

Section reader.
Context `{JsonText}.

(** [json.loads] with [except (JSONDecodeError, ValueError)] *)
Definition loads_or (fallback : pyval) (s : string) : res pyval :=
  match of_text s with
  | Raise (ValueError _) => Ok fallback
  | r => r
  end.

Definition _has_content_analysis (raw : dict) : res bool :=
  if truthy (dget "content_analysis" raw) then Ok true
  else
    let meta := dget "metadata_json" raw in
    if negb (truthy meta) then Ok false
    else let! meta := match meta with PStr s => loads_or PNone s | v => Ok v end in
         Ok (match meta with
             | PDict m => truthy (por (dget "analyzer_decisions" m) (dget "content_analysis" m))
             | _ => false
             end).

(** The chain fields of older records *)
Definition promote_chain (meta r : dict) : dict :=
  foldl (fun r k => if is_none (dget k r) && negb (is_none (dget k meta))
                    then od_set k (dget k meta) r else r) r chain_keys.

Definition strip_envelope (r : dict) : dict := foldl (fun r k => od_del k r) r envelope_keys.

Definition _deserialize_record (r : dict) : res dict :=
  let mj := dget "metadata_json" r in
  let r := od_del "metadata_json" r in
  let! r := match mj with
            | PStr (String _ _ as s) => let! m := loads_or (PDict []) s in Ok (od_set "metadata" m r)
            | PDict (_ :: _) => Ok (od_set "metadata" mj r)
            | _ => Ok r
            end in
  Ok (strip_envelope
        match dget "metadata" r with
        | PDict meta =>
            let fm := dget "file_metadata" meta in
            let meta := od_del "file_metadata" meta in
            let r := od_set "metadata" (PDict meta) r in
            let r := if truthy fm then od_set "file_metadata" fm r else r in
            promote_chain meta r
        | _ => r
        end).

(** [normalize_record] on a dictionary; a hash is a text. *)
Definition legacy_of (v : pyval) : res pyval :=
  if negb (truthy v) then Ok PNone
  else match v with
       | PStr h => Ok (PStr ("legacy:" +:+ stake 32 h)%string)
       | _ => type_error
       end.

Definition _normalize_record (r : dict) : res dict :=
  let! r := if is_none (dget "record_id" r) && truthy (dget "record_hash" r)
            then let! i := legacy_of (dget "record_hash" r) in Ok (od_set "record_id" i r)
            else Ok r in
  let! r := if is_none (dget "previous_record_id" r)
            then let! i := legacy_of (dget "previous_record_hash" r) in Ok (od_set "previous_record_id" i r)
            else Ok r in
  let env_list := por (dget "env" r) (PList []) in
  let r := od_del "env" r in
  let! env := if truthy env_list then first env_list else Ok (PDict []) in
  let! b := get "BlockId" env in
  let! t := get "TransId" env in
  let! h := get "DH" env in
  let! l := get "BL" env in
  let! c := get "CreatedAt" env in
  Ok (od_set "walacor_created_at" c (od_set "walacor_block_level" l (od_set "walacor_dh" h
       (od_set "walacor_trans_id" t (od_set "walacor_block_id" b r))))).

(** A row as the reader returns it *)
Definition read_row (row : dict) : res dict :=
  let eid := dget "EId" row in
  let! r := _deserialize_record row in
  _normalize_record (od_set "_walacor_eid" eid r).

(** ** The timeline *)

(** [seen_record_ids]: the first row of a record id is kept. *)
Fixpoint dedupe (seen : list pyval) (rows : list dict) : list dict :=
  match rows with
  | [] => []
  | r :: rows =>
      let rid := dget "record_id" r in
      if is_none rid then r :: dedupe seen rows
      else if existsb (py_eqb rid) seen then dedupe seen rows
      else r :: dedupe (rid :: seen) rows
  end.

Definition get_session_timeline (rows : list dict) : res (list dict) :=
  let! rs := map_res read_row rows in Ok (dedupe [] rs).

(** ** Executions and tool events *)

Definition get_execution (rows : list dict) : res (option dict) :=
  match rows with
  | [] => Ok None
  | r :: _ => let! r := read_row r in Ok (Some r)
  end.

Definition parse_field (r : dict) (key : string) : dict :=
  match dget key r with
  | PStr s => match of_text s with Ok v => od_set key v r | Raise _ => r end
  | _ => r
  end.

Definition read_tool_event (r : dict) : dict :=
  let r := match od_get "tool_source" r, od_get "source" r with
           | Some v, None => od_set "source" v (od_del "tool_source" r)
           | _, _ => r
           end in
  foldl parse_field r ["input_data"; "sources"; "content_analysis"].

Definition get_tool_events (rows : list dict) : list dict := map read_tool_event rows.

Definition trace_timings (execution : dict) : res pyval :=
  let timings := por (dget "timings" execution) (PDict []) in
  let! timings := match timings with PStr s => loads_or (PDict []) s | v => Ok v end in
  if truthy timings then Ok timings
  else
    let raw_meta := dget "metadata_json" execution in
    if negb (truthy raw_meta) then Ok timings
    else
      res_catch
        (let! meta := match raw_meta with PStr s => of_text s | v => Ok v end in get_dict "timings" meta)
        (fun e => match e with
                  | ValueError _ => Ok timings
                  | OtherError n => if bool_decide (n = "AttributeError") then Ok timings else Raise e
                  | _ => Raise e
                  end).

Definition get_execution_trace (rows tool_rows : list dict) : res (option dict) :=
  let! e := get_execution rows in
  match e with
  | None | Some [] => Ok None
  | Some execution =>
      let! timings := trace_timings execution in
      Ok (Some [("execution", PDict execution); ("tool_events", PList (map PDict (get_tool_events tool_rows)));
                ("timings", timings)])
  end.

(** ** Indicators of the session list *)

(** [",".join(sorted(set))] *)
Definition joined_set (l : list string) : string := sjoin "," (ssort (remove_dups l)).

(** [x.get(a) or x.get(b) or c] *)
Definition either (a b : string) (c : pyval) (d : dict) : pyval := por (dget a d) (por (dget b d) c).

(** The names and the [name:source] texts of the tools; a name that is no text
    makes [sorted] or [join] raise. *)
Fixpoint tool_sets (l : list pyval) : res (list string * list string) :=
  match l with
  | [] => Ok ([], [])
  | PDict ti :: l =>
      let name := either "tool_name" "name" (PStr "") ti in
      let source := either "source" "tool_type" (PStr "unknown") ti in
      let! '(names, details) := tool_sets l in
      if truthy name then
        let! n := as_str name in
        Ok (n :: names, (n +:+ ":" +:+ py_str source)%string :: details)
      else Ok (names, details)
  | _ :: l => tool_sets l
  end.

Definition _parse_session_metadata (metadata_json : pyval) : res dict :=
  if negb (truthy metadata_json) then Ok []
  else
    let! meta := match metadata_json with PStr s => loads_or PNone s | v => Ok v end in
    match meta with
    | PDict m =>
        let audit := dget_or "walacor_audit" (PDict []) m in
        let request_type := por (dget "request_type" m) (PStr "") in
        let! is_system := match request_type with PStr s => Ok (startswith "system_task" s) | _ => attribute_error end in
        let! '(names, details) :=
          match dget_or "tool_interactions" (PList []) m with
          | PList l => tool_sets l
          | _ => Ok ([], [])
          end in
        let flag (v : res pyval) : res pyval := if is_system then Ok (PBool false) else v in
        let! question := if is_system then Ok PNone
                         else let! q := get "user_question" audit in Ok (por q PNone) in
        let! rag := flag (get_or "has_rag_context" (PBool false) audit) in
        let! files := flag (let! f := get_or "has_files" (PBool false) audit in
                            if truthy f then Ok f
                            else let! n := get_or "file_count" (PInt 0) audit in
                                 let! b := py_gt n (PInt 0) in Ok (PBool b)) in
        let! images := flag (get_or "has_images" (PBool false) audit) in
        let! turns := get_or "conversation_turns" (PInt 0) audit in
        Ok [("user_question", question); ("has_rag_context", rag); ("has_files", files);
            ("has_images", images); ("request_type", request_type);
            ("user_message_count", por turns (PInt 0));
            ("tool_names", PStr (joined_set names)); ("tool_details", PStr (joined_set details))]
    | _ => Ok []
    end.

(** The last user record of each session, its flags or-ed over the rows *)
Definition user_record_step (result : list (string * dict)) (r : dict) : res (list (string * dict)) :=
  match dget "session_id" r with
  | PStr (String _ _ as sid) =>
      let! meta := _parse_session_metadata (dget "metadata_json" r) in
      if negb (truthy (dget "user_question" meta)) then Ok result
      else match od_get sid result with
           | None => Ok (od_set sid meta result)
           | Some kept =>
               Ok (od_set sid
                     (foldl (fun d flag => if truthy (dget flag meta) then od_set flag (PBool true) d else d)
                        kept ["has_rag_context"; "has_files"; "has_images"]) result)
           end
  | _ => Ok result
  end.

(** [rows] is the query's answer or the exception it raised. *)
Definition _get_user_record_metadata (rows : res (list dict)) : res (list (string * dict)) :=
  match rows with
  | Raise _ => Ok []
  | Ok rows => fold_res user_record_step rows []
  end.

Definition tools_of (l : list (string * (list string * list string))) (sid : string) : list string * list string :=
  default ([], []) (od_get sid l).

Definition tool_indicator_step (tools : list (string * (list string * list string))) (r : dict)
    : res (list (string * (list string * list string))) :=
  let name := dget "tool_name" r in
  match dget "session_id" r with
  | PStr (String _ _ as sid) =>
      if truthy name then
        let! n := as_str name in
        let source := either "tool_source" "tool_type" (PStr "unknown") r in
        let '(names, details) := tools_of tools sid in
        Ok (od_set sid (names ++ [n], details ++ [(n +:+ ":" +:+ py_str source)%string]) tools)
      else Ok tools
  | _ => Ok tools
  end.

Definition _get_session_tool_indicators (rows : res (list dict)) : res (list (string * dict)) :=
  match rows with
  | Raise _ => Ok []
  | Ok rows =>
      let! tools := fold_res tool_indicator_step rows [] in
      Ok (map (fun x => (x.1, [("tool_names", PStr (joined_set x.2.1)); ("tool_details", PStr (joined_set x.2.2))]))
            tools)
  end.
End reader.

(** ** Chain status of the session list *)

(** A text or nothing, a whole number or nothing *)
Definition sfield (k : string) (d : dict) : option string := match dget k d with PStr s => Some s | _ => None end.
Definition zfield (k : string) (d : dict) : option Z := match dget k d with PInt z => Some z | _ => None end.

Definition env_of (v : pyval) : env_entry :=
  match v with
  | PDict e => MkEnv (sfield "BlockId" e) (sfield "TransId" e) (sfield "DH" e) (zfield "BL" e) (sfield "CreatedAt" e)
  | _ => MkEnv None None None None None
  end.

(** The fields of a row that the chain reads, as [Signing.record] *)
Definition view (d : dict) : record :=
  MkRecord (sfield "execution_id" d) (sfield "timestamp" d) (zfield "sequence_number" d)
    (sfield "record_id" d) (sfield "previous_record_id" d) (sfield "record_signature" d)
    (sfield "record_hash" d) (sfield "previous_record_hash" d)
    (match dget "env" d with PList l => map env_of l | _ => [] end)
    (sfield "walacor_block_id" d) (sfield "walacor_trans_id" d) (sfield "walacor_dh" d)
    (zfield "walacor_block_level" d) (sfield "walacor_created_at" d).

(** The sort key: an unnumbered record comes last. *)
Definition status_seq (r : record) : Z := default (2 ^ 31) (sequence_number r).

Definition status_le (a b : record) : bool :=
  (status_seq a <? status_seq b) ||
  ((status_seq a =? status_seq b) && str_leb (or_empty (record_id a)) (or_empty (record_id b))).

Fixpoint linked_from (expected_prev : option string) (recs : list record) : bool :=
  match recs with
  | [] => true
  | r :: recs => bool_decide (previous_record_id r = expected_prev) && linked_from (record_id r) recs
  end.

Definition session_status (recs : list record) : string :=
  if linked_from None (isort status_le recs) then "verified" else "warn".

(** [by_session]: the rows of each session in the order they came *)
Definition group_step (by_session : list (string * list record)) (x : option string * record)
    : list (string * list record) :=
  match x.1 with
  | None | Some EmptyString => by_session
  | Some sid => od_set sid (default [] (od_get sid by_session) ++ [x.2]) by_session
  end.

Definition _compute_chain_status_map (session_ids : list string)
    (rows : res (list (option string * record))) : list (string * string) :=
  match session_ids, rows with
  | [], _ | _, Raise _ => []
  | _, Ok rows => map (fun x => (x.1, session_status x.2)) (foldl group_step [] rows)
  end.

(** ** The session list *)

(** One entry, from the row of the grouped query and the three maps *)
Definition session_entry `{JsonText} (tool_map user_meta_map : list (string * dict))
    (chain_status_map : list (string * string)) (r : dict) : res dict :=
  let sid := por (dget "_id" r) (dget "session_id" r) in
  let at_sid {A} (m : list (string * A)) : option A := match sid with PStr s => od_get s m | _ => None end in
  let! meta := _parse_session_metadata (dget "metadata_json" r) in
  let meta := if truthy (dget "user_question" meta) then meta
              else match at_sid user_meta_map with Some u => merge meta u | None => meta end in
  let tools := default [] (at_sid tool_map) in
  let tools := if negb (truthy (dget "tool_names" tools)) && truthy (dget "tool_names" meta)
               then [("tool_names", dget "tool_names" meta);
                     ("tool_details", dget_or "tool_details" (PStr "") meta)]
               else tools in
  Ok [("session_id", sid); ("record_count", dget_or "record_count" (PInt 0) r);
      ("user_message_count", dget_or "user_message_count" (dget_or "record_count" (PInt 0) r) meta);
      ("last_activity", dget "last_activity" r); ("model", dget "model" r); ("user", dget "user" r);
      ("user_question", dget "user_question" meta); ("has_rag_context", dget "has_rag_context" meta);
      ("has_files", dget "has_files" meta); ("has_images", dget "has_images" meta);
      ("request_type", dget "request_type" meta); ("tool_names", dget_or "tool_names" (PStr "") tools);
      ("tool_details", dget_or "tool_details" (PStr "") tools);
      ("chain_status", PStr (default "verified" (at_sid chain_status_map)))].

Definition list_sessions `{JsonText} (rows : list dict) (tool_rows user_rows : res (list dict))
    (chain_rows : res (list (option string * record))) : res (list dict) :=
  let sids := omap (fun r => match por (dget "_id" r) (dget "session_id" r) with PStr s => Some s | _ => None end)
                (List.filter (fun r => truthy (por (dget "_id" r) (dget "session_id" r))) rows) in
  let! tool_map := match sids with [] => Ok [] | _ => _get_session_tool_indicators tool_rows end in
  let! user_meta_map := match sids with [] => Ok [] | _ => _get_user_record_metadata user_rows end in
  let chain_status_map := _compute_chain_status_map sids chain_rows in
  map_res (session_entry tool_map user_meta_map chain_status_map) rows.

(** ** The verifier *)

Inductive anchor := an_verified | an_present | an_absent | an_mismatched | an_unverifiable.
#[export] Instance anchor_dec : EqDecision anchor.
Proof. solve_decision. Defined.

Inductive ledger_level := lv_verified | lv_structural | lv_unverifiable.
#[export] Instance ledger_level_dec : EqDecision ledger_level.
Proof. solve_decision. Defined.

Record ledger_report := MkLedgerReport {
  lr_execution_id : string;
  lr_sequence_number : Z;
  lr_record_id : option string;
  lr_structural_ok : bool;
  lr_signature : sig_status;
  lr_anchor : anchor;
  lr_valid : bool;
  lr_block_id : option string;
  lr_trans_id : option string;
  lr_dh : option string;
}.

Record ledger_result := MkLedgerResult {
  lv_valid : bool;
  lv_level : ledger_level;
  lv_records_checked : Z;
  lv_errors : list string;
  lv_reports : list ledger_report;
  lv_key_loaded : bool;
}.

Definition o_text (o : option string) : string := default "None" o.

Section ledger.
Context `{E : Ed25519} (st : keys).

(** The round trip of one anchor: [fetch eid] is the envelope of the first row
    the query returns (none when it returns none), or the exception. *)
Definition round_trip (fetch : string -> res (option env_entry)) (eid : option string) (r : record)
    : anchor * option env_entry :=
  if has_anchor r then
    match eid with
    | None | Some EmptyString => (an_present, None)
    | Some i =>
        match fetch i with
        | Raise _ => (an_unverifiable, None)
        | Ok e =>
            let e := default (MkEnv None None None None None) e in
            if bool_decide ((env_BlockId e, env_TransId e, env_DH e) =
                            (walacor_block_id r, walacor_trans_id r, walacor_dh r))
            then (an_verified, Some e) else (an_mismatched, Some e)
        end
    end
  else (an_absent, None).

(** One iteration, for the record at index [i] *)
Definition ledger_check (fetch : string -> res (option env_entry)) (expected_prev_id : option string)
    (i : Z) (x : record * option string) : list string * ledger_report :=
  let '(r, eid) := x in
  let seq := default i (sequence_number r) in
  let exec := or_empty (execution_id r) in
  let e1 := if negb (seq =? i) then
              ["sequence gap at record " +:+ z_str i +:+ ": expected " +:+ z_str i +:+
               ", got " +:+ z_str seq +:+ " (execution_id=" +:+ exec +:+ ")"]%string
            else [] in
  let e2 := if bool_decide (previous_record_id r = expected_prev_id) then [] else
              ["id pointer mismatch at sequence " +:+ z_str i +:+
               ": expected previous_record_id=" +:+ py_repr (ostr expected_prev_id) +:+
               ", got " +:+ py_repr (ostr (previous_record_id r)) +:+
               " (execution_id=" +:+ exec +:+ ")"]%string in
  let structural_ok := match e1, e2 with [], [] => true | _, _ => false end in
  let s := verify_record_signature st r in
  let e3 := if bool_decide (s = sig_invalid) then
              ["signature invalid at sequence " +:+ z_str i +:+ " (execution_id=" +:+ exec +:+ ")"]%string
            else [] in
  let '(a, env) := round_trip fetch eid r in
  let e4 := match a, env with
            | an_mismatched, Some e =>
                ["walacor anchor mismatch at sequence " +:+ z_str i +:+
                 ": initial=(block=" +:+ o_text (walacor_block_id r) +:+ ", trans=" +:+
                 o_text (walacor_trans_id r) +:+ ", dh=" +:+ o_text (walacor_dh r) +:+
                 ") roundtrip=(block=" +:+ o_text (env_BlockId e) +:+ ", trans=" +:+
                 o_text (env_TransId e) +:+ ", dh=" +:+ o_text (env_DH e) +:+ ")"]%string
            | _, _ => []
            end in
  (e1 ++ e2 ++ e3 ++ e4,
   MkLedgerReport exec seq (record_id r) structural_ok s a
     (structural_ok && bool_decide (s <> sig_invalid) && bool_decide (a <> an_mismatched))
     (walacor_block_id r) (walacor_trans_id r) (walacor_dh r)).

Fixpoint ledger_checks (fetch : string -> res (option env_entry)) (expected_prev_id : option string)
    (i : Z) (recs : list (record * option string)) : list string * list ledger_report :=
  match recs with
  | [] => ([], [])
  | x :: recs =>
      let '(es, rep) := ledger_check fetch expected_prev_id i x in
      let '(es', reps) := ledger_checks fetch (record_id x.1) (i + 1) recs in
      (es ++ es', rep :: reps)
  end.

Definition count_anchor (a : anchor) (reps : list ledger_report) : Z :=
  count_if (fun r => bool_decide (lr_anchor r = a)) reps.

Definition count_sigs (s : sig_status) (reps : list ledger_report) : Z :=
  count_if (fun r => bool_decide (lr_signature r = s)) reps.

Definition level_of (errors : list string) (reps : list ledger_report) : ledger_level :=
  let clean := match errors with [] => true | _ => false end in
  let signatures_clean := count_sigs sig_invalid reps =? 0 in
  let no_anchor_failures := (count_anchor an_mismatched reps =? 0) && (count_anchor an_unverifiable reps =? 0) in
  if clean && signatures_clean && no_anchor_failures
     && (count_anchor an_absent reps =? 0) && (count_anchor an_present reps =? 0)
  then lv_verified
  else if clean && signatures_clean && no_anchor_failures then lv_structural
  else lv_unverifiable.

(** [verify_chain]; a session without records gets [_empty_verify_result]. *)
Definition ledger_verify_chain (fetch : string -> res (option env_entry))
    (recs : list (record * option string)) : ledger_result :=
  match recs with
  | [] => MkLedgerResult true lv_structural 0 [] [] (signing_key_available st)
  | x :: _ =>
      let '(errors, reps) := ledger_checks fetch (previous_record_id x.1) 0 recs in
      let level := level_of errors reps in
      MkLedgerResult (bool_decide (level = lv_verified)) level (zlen recs) errors reps
        (signing_key_available st)
  end.

(** ** What the ledger's verdict says *)

Definition anchor_of (fetch : string -> res (option env_entry)) (x : record * option string) : anchor :=
  (round_trip fetch x.2 x.1).1.

Lemma ledger_check_errs fetch prev i x :
  (ledger_check fetch prev i x).1 = [] <->
  (sequence_number x.1 = None \/ sequence_number x.1 = Some i) /\ previous_record_id x.1 = prev /\
  verify_record_signature st x.1 <> sig_invalid /\ anchor_of fetch x <> an_mismatched.
Proof.
  destruct x as [r eid]. unfold ledger_check, anchor_of. cbn [fst snd].
  assert (negb (default i (sequence_number r) =? i) = false <->
          sequence_number r = None \/ sequence_number r = Some i) as Hseq.
  { rewrite negb_false_iff, Z.eqb_eq. destruct (sequence_number r); simpl; naive_solver. }
  assert (forall a e, round_trip fetch eid r = (a, e) -> a = an_mismatched -> is_Some e) as Hmis.
  { unfold round_trip. intros a e. repeat case_match; naive_solver. }
  destruct (round_trip fetch eid r) as [a e]. specialize (Hmis a e eq_refl). cbn [fst].
  rewrite <- Hseq. destruct (negb _); [naive_solver|]. cbn [app].
  destruct (bool_decide_reflect (previous_record_id r = prev)); [|naive_solver]. cbn [app].
  destruct (bool_decide_reflect (verify_record_signature st r = sig_invalid)); [naive_solver|]. cbn [app].
  destruct a; try naive_solver. destruct Hmis as [x ->]; naive_solver.
Qed.

Lemma ledger_checks_errs fetch recs : forall prev i,
  (ledger_checks fetch prev i recs).1 = [] <->
  chained st i prev (map fst recs) /\ Forall (fun x => anchor_of fetch x <> an_mismatched) recs.
Proof.
  induction recs as [|x recs IH]; intros prev i; [simpl; naive_solver|].
  cbn [ledger_checks map chained]. pose proof (ledger_check_errs fetch prev i x) as Hc.
  specialize (IH (record_id x.1) (i + 1)).
  destruct (ledger_check fetch prev i x) as [es rep], (ledger_checks fetch (record_id x.1) (i + 1) recs) as [es' reps].
  cbn [fst] in *. rewrite Forall_cons. split.
  - intros [H1 H2]%List.app_eq_nil. naive_solver.
  - intros (H1 & H2). destruct Hc as [_ Hc], IH as [_ IH]. rewrite Hc, IH by naive_solver. done.
Qed.

(** What a report says of its record *)
Lemma ledger_checks_reports fetch recs : forall prev i,
  map lr_anchor (ledger_checks fetch prev i recs).2 = map (anchor_of fetch) recs /\
  map lr_signature (ledger_checks fetch prev i recs).2 = map (fun x => verify_record_signature st x.1) recs.
Proof.
  induction recs as [|x recs IH]; intros prev i; [done|]. cbn [ledger_checks].
  specialize (IH (record_id x.1) (i + 1)).
  assert (lr_anchor (ledger_check fetch prev i x).2 = anchor_of fetch x /\
          lr_signature (ledger_check fetch prev i x).2 = verify_record_signature st x.1) as [H1 H2].
  { destruct x as [r eid]. unfold ledger_check, anchor_of. simpl. by destruct (round_trip _ _ _). }
  destruct (ledger_check fetch prev i x), (ledger_checks fetch _ _ recs). simpl in *.
  destruct IH as [-> ->]. by rewrite H1, H2.
Qed.

Lemma count_zero {A} (f : A -> bool) l : (count_if f l =? 0) = true <-> Forall (fun x => f x = false) l.
Proof.
  rewrite Z.eqb_eq. unfold count_if, zlen. induction l as [|x l IH]; [simpl; naive_solver|].
  simpl. rewrite Forall_cons. destruct (f x); simpl; [split; [lia|naive_solver]|]. rewrite IH. naive_solver.
Qed.

Lemma Forall_map_eq {A B C} (f : A -> B) (g : C -> B) (P : B -> Prop) k : forall l,
  map f k = map g l -> Forall (fun x => P (f x)) k <-> Forall (fun x => P (g x)) l.
Proof.
  induction k as [|x k IH]; intros [|y l] Heq; simplify_eq/=; [done|].
  rewrite !Forall_cons, (IH l) by done. by rewrite H.
Qed.

Lemma count_anchor_zero fetch prev i recs a :
  (count_anchor a (ledger_checks fetch prev i recs).2 =? 0) = true <->
  Forall (fun x => anchor_of fetch x <> a) recs.
Proof.
  unfold count_anchor. rewrite count_zero.
  rewrite <- (Forall_map_eq lr_anchor (anchor_of fetch) (fun b => b <> a) _ _
               (proj1 (ledger_checks_reports fetch recs prev i))).
  apply Forall_iff. intros r. by rewrite bool_decide_eq_false.
Qed.

Lemma count_sigs_zero fetch prev i recs s :
  (count_sigs s (ledger_checks fetch prev i recs).2 =? 0) = true <->
  Forall (fun x => verify_record_signature st x.1 <> s) recs.
Proof.
  unfold count_sigs. rewrite count_zero.
  rewrite <- (Forall_map_eq lr_signature (fun x => verify_record_signature st x.1) (fun b => b <> s) _ _
               (proj2 (ledger_checks_reports fetch recs prev i))).
  apply Forall_iff. intros r. by rewrite bool_decide_eq_false.
Qed.

Lemma chained_signatures recs : forall i prev,
  chained st i prev recs -> Forall (fun r => verify_record_signature st r <> sig_invalid) recs.
Proof. induction recs as [|r recs IH]; intros i prev Hc; constructor; [apply Hc|]. eapply IH. apply Hc. Qed.

(** The level, from the chain condition and the anchors *)
Lemma level_exact fetch prev recs :
  let '(errors, reps) := ledger_checks fetch prev 0 recs in
  let none a := Forall (fun x => anchor_of fetch x <> a) recs in
  (level_of errors reps = lv_unverifiable <->
     ~ (chained st 0 prev (map fst recs) /\ none an_mismatched /\ none an_unverifiable)) /\
  (level_of errors reps = lv_verified <->
     chained st 0 prev (map fst recs) /\ Forall (fun x => anchor_of fetch x = an_verified) recs).
Proof.
  pose proof (ledger_checks_errs fetch recs prev 0) as He.
  pose proof (count_anchor_zero fetch prev 0 recs) as Ha.
  pose proof (count_sigs_zero fetch prev 0 recs sig_invalid) as Hs.
  destruct (ledger_checks fetch prev 0 recs) as [errors reps]. intros none. cbn [fst snd] in He, Ha, Hs.
  assert (chained st 0 prev (map fst recs) -> Forall (fun x => verify_record_signature st x.1 <> sig_invalid) recs) as Hsig.
  { intros Hc%chained_signatures. rewrite Forall_forall in Hc. apply Forall_forall. intros x Hx.
    apply Hc, list_elem_of_fmap. by exists x. }
  assert (Forall (fun x => anchor_of fetch x = an_verified) recs <->
          none an_mismatched /\ none an_unverifiable /\ none an_absent /\ none an_present) as Hall.
  { unfold none. rewrite <- !Forall_and. apply Forall_iff. intros x. destruct (anchor_of fetch x); naive_solver. }
  rewrite Hall. unfold level_of.
  assert ((match errors with [] => true | _ => false end && (count_sigs sig_invalid reps =? 0) &&
           ((count_anchor an_mismatched reps =? 0) && (count_anchor an_unverifiable reps =? 0))) = true <->
          chained st 0 prev (map fst recs) /\ none an_mismatched /\ none an_unverifiable) as Hbase.
  { rewrite !andb_true_iff, Hs, !Ha. destruct errors; naive_solver. }
  pose proof (Ha an_absent) as H1. pose proof (Ha an_present) as H2.
  destruct (_ && _ && (_ && _)) eqn:Hb; cbn [andb].
  - clear -H1 H2 Hbase.
    destruct (count_anchor an_absent reps =? 0), (count_anchor an_present reps =? 0); cbn [andb];
      intuition discriminate.
  - split; [|naive_solver]. split; [|done]. intros _ Hc. apply Hbase in Hc. done.
Qed.

(** C11.  The ledger's verdict is exact.  A session with records is reported
    [valid] exactly when its records form a chain (numbered in order, each pointing
    at the one before, no bad signature) and the anchor of every record was fetched
    again and matched; its level is [unverifiable] exactly when the chain is broken,
    some anchor did not match, or some round trip failed, and [structural]
    otherwise, so a record without an anchor, or without an envelope id to fetch it
    by, is enough to lose [valid] but not to be [unverifiable].  A session without
    records is [valid] at the level [structural]. *)
Theorem ledger_verdict_exact fetch x recs :
  let all := x :: recs in
  let v := ledger_verify_chain fetch all in
  let none a := Forall (fun y => anchor_of fetch y <> a) all in
  let chain := chained st 0 (previous_record_id x.1) (map fst all) in
  (lv_valid v = true <-> chain /\ Forall (fun y => anchor_of fetch y = an_verified) all) /\
  (lv_valid v = true <-> lv_level v = lv_verified) /\
  (lv_level v = lv_unverifiable <-> ~ (chain /\ none an_mismatched /\ none an_unverifiable)) /\
  lv_records_checked v = zlen all /\
  lv_valid (ledger_verify_chain fetch []) = true /\ lv_level (ledger_verify_chain fetch []) = lv_structural.
Proof.
  intros all v none chain. pose proof (level_exact fetch (previous_record_id x.1) all) as Hl.
  destruct (ledger_checks fetch (previous_record_id x.1) 0 all) as [errors reps] eqn:Hc.
  assert (v = MkLedgerResult (bool_decide (level_of errors reps = lv_verified)) (level_of errors reps)
                (zlen all) errors reps (signing_key_available st)) as ->
    by (unfold v, ledger_verify_chain, all in *; by rewrite Hc).
  cbn [lv_valid lv_level lv_records_checked]. rewrite bool_decide_eq_true. cbv zeta in Hl.
  destruct Hl as [Hu Hv]. split; [exact Hv|]. split; [done|]. split; [exact Hu|]. done.
Qed.

(** ** The two verifiers *)

Definition local_view (r : record_report) := (rep_execution_id r, rep_record_id r, rep_structural_ok r, rep_signature r).
Definition ledger_view (r : ledger_report) := (lr_execution_id r, lr_record_id r, lr_structural_ok r, lr_signature r).

Lemma same_report fetch l i x :
  exists rep, per_record (check_record st l i x.1) = per_record l ++ [rep] /\
    local_view rep = ledger_view (ledger_check fetch (expected_prev_id l) i x).2.
Proof.
  destruct x as [r eid]. unfold check_record, ledger_check, local_view, ledger_view, seq_gap.
  destruct (round_trip fetch eid r). destruct (sequence_number r) as [n|] eqn:Hq; simpl;
    (eexists; split; [reflexivity|]); simpl; rewrite Hq; [done|]. by rewrite Z.eqb_refl.
Qed.

Lemma same_reports fetch recs : forall l i prev, expected_prev_id l = prev ->
  map local_view (per_record (check_records st l i (map fst recs))) =
  map local_view (per_record l) ++ map ledger_view (ledger_checks fetch prev i recs).2.
Proof.
  induction recs as [|x recs IH]; intros l i prev Hp; [simpl; by rewrite app_nil_r|].
  cbn [map check_records ledger_checks]. rewrite (IH _ _ (record_id x.1)) by apply check_record_prev.
  destruct (same_report fetch l i x) as (rep & -> & Hrep). rewrite Hp in Hrep.
  destruct (ledger_check fetch prev i x) as [es r2], (ledger_checks fetch _ _ recs) as [es' reps].
  simpl in *. rewrite map_app, <- app_assoc. simpl. by rewrite Hrep.
Qed.

(**  The two readers agree on a chain.  For the same records the local verifier
    and the ledger's make the same report of every record (ids, linkage, signature
    status); a session the ledger calls [valid] is valid locally; and when no anchor
    is contradicted and no round trip fails, a session is valid locally exactly when
    the ledger does not call it [unverifiable]. *)
Theorem readers_agree fetch x recs sid :
  let all := x :: recs in
  let here := verify_records st sid (map fst all) in
  let there := ledger_verify_chain fetch all in
  map local_view (records here) = map ledger_view (lv_reports there) /\
  (lv_valid there = true -> valid here = true) /\
  (Forall (fun y => anchor_of fetch y <> an_mismatched) all ->
   Forall (fun y => anchor_of fetch y <> an_unverifiable) all ->
   (valid here = true <-> lv_level there <> lv_unverifiable)).
Proof.
  intros all here there. pose proof (level_exact fetch (previous_record_id x.1) all) as Hl.
  set (l0 := MkLoop [] (previous_record_id x.1) [] (MkSigCounts 0 0 0 0) 0 0).
  pose proof (same_reports fetch all l0 0 (previous_record_id x.1) eq_refl) as Hrep.
  pose proof (check_records_errs st (map fst all) l0 0) as Herr.
  destruct (ledger_checks fetch (previous_record_id x.1) 0 all) as [errors reps] eqn:Hc.
  assert (there = MkLedgerResult (bool_decide (level_of errors reps = lv_verified)) (level_of errors reps)
                    (zlen all) errors reps (signing_key_available st)) as ->
    by (unfold there, ledger_verify_chain, all in *; by rewrite Hc).
  assert (valid here = true <-> chained st 0 (previous_record_id x.1) (map fst all)) as Hv.
  { unfold here, verify_records. cbn [map all]. fold l0. change (x.1 :: map fst recs) with (map fst all).
    cbn [valid]. simpl in Herr. destruct (errs _); naive_solver. }
  assert (records here = per_record (check_records st l0 0 (map fst all))) as -> by done.
  cbn [lv_reports lv_valid lv_level]. rewrite bool_decide_eq_true, Hv. cbv zeta in Hl.
  destruct Hl as [Hu Hve]. split; [exact Hrep|]. split; [intros H%Hve; by destruct H|].
  intros H1 H2. rewrite Hu. split; [tauto|]. intros Hn.
  assert (chained st 0 (previous_record_id x.1) (map fst all) \/ ~ chained st 0 (previous_record_id x.1) (map fst all))
    as [?|Hnc]; [|done|].
  - destruct (valid here) eqn:Hvh; [left; by apply Hv|right; rewrite <- Hv; done].
  - exfalso. apply Hn. intros (? & _). done.
Qed.
End ledger.

(** ** Duplicates *)

Section timeline.
Context `{JsonText}.

Definition id_of (r : dict) : option string := sfield "record_id" r.

(** Record ids are texts or missing. *)
Definition ids_ok (rs : list dict) : Prop :=
  Forall (fun r => is_none (dget "record_id" r) || is_str (dget "record_id" r) = true) rs.

Lemma seen_str s seen : existsb (py_eqb (PStr s)) seen = true <-> PStr s ∈ seen.
Proof.
  rewrite existsb_exists. split.
  - intros (v & Hv%list_elem_of_In & He). destruct v; simpl in He; try done. apply bool_decide_eq_true in He. by subst.
  - intros Hv. exists (PStr s). split; [by apply list_elem_of_In|]. simpl. by apply bool_decide_eq_true.
Qed.

Lemma dedupe_sublist rs : forall seen, dedupe seen rs `sublist_of` rs.
Proof.
  induction rs as [|r rs IH]; intros seen; [constructor|]. simpl.
  destruct (is_none _); [by constructor|]. destruct (existsb _ _); by constructor.
Qed.

(** Dropping is by record id: the first row of an id stays, the others go. *)
Lemma dedupe_spec rs : ids_ok rs -> forall seen,
  NoDup (omap id_of (dedupe seen rs)) /\
  (forall s, PStr s ∈ seen -> s ∉ omap id_of (dedupe seen rs)) /\
  (forall r, r ∈ rs -> id_of r = None -> r ∈ dedupe seen rs) /\
  (forall r s, r ∈ rs -> id_of r = Some s -> PStr s ∈ seen \/ s ∈ omap id_of (dedupe seen rs)).
Proof.
  induction 1 as [|r rs Hr Hrs IH]; intros seen.
  { split; [constructor|]. split; [by intros ? _ ?%not_elem_of_nil|]. split; [by intros ? ?%not_elem_of_nil|by intros ? ? ?%not_elem_of_nil]. }
  cbn [dedupe]. unfold id_of, sfield in *. destruct (dget "record_id" r) as [| | | |s| | |] eqn:Hd; try done; cbn [is_none].
  - destruct (IH seen) as (I1 & I2 & I3 & I4). cbn [omap list_omap]. rewrite Hd. split; [done|]. split; [done|]. split.
    + intros r' [->|Hin]%elem_of_cons Hn; [by left|right; by apply I3].
    + intros r' s [->|Hin]%elem_of_cons Hs; [by rewrite Hd in Hs|by eapply I4].
  - destruct (existsb (py_eqb (PStr s)) seen) eqn:Hse.
    + apply seen_str in Hse. destruct (IH seen) as (I1 & I2 & I3 & I4). split; [done|]. split; [done|]. split.
      * intros r' [->|Hin]%elem_of_cons Hn; [by rewrite Hd in Hn|by apply I3].
      * intros r' s' [->|Hin]%elem_of_cons Hs; [rewrite Hd in Hs; injection Hs as <-; by left|by eapply I4].
    + destruct (IH (PStr s :: seen)) as (I1 & I2 & I3 & I4). cbn [omap list_omap]. rewrite Hd.
      assert (s ∉ omap (fun r => match dget "record_id" r with PStr s => Some s | _ => None end) (dedupe (PStr s :: seen) rs))
        as Hns by (apply I2; by left).
      split; [by constructor|]. split.
      * intros s' Hs' [->|Hin]%elem_of_cons; [apply seen_str in Hs'; congruence|]. eapply I2; [|exact Hin]. by right.
      * split.
        -- intros r' [->|Hin]%elem_of_cons Hn; [by rewrite Hd in Hn|right; by apply I3].
        -- intros r' s' [->|Hin]%elem_of_cons Hs'; [rewrite Hd in Hs'; injection Hs' as <-; right; by left|].
           destruct (I4 r' s' Hin Hs') as [[[= ->]|Hin2]%elem_of_cons|Hin2];
             [right; by left|by left|right; by right].
Qed.

(** A row whose id was seen before it is not there. *)
Lemma dedupe_insert s r k : id_of r = Some s -> forall l seen,
  PStr s ∈ seen \/ s ∈ omap id_of l -> ids_ok l -> dedupe seen (l ++ r :: k) = dedupe seen (l ++ k).
Proof.
  intros Hr. assert (dget "record_id" r = PStr s) as Hd.
  { unfold id_of, sfield in Hr. destruct (dget "record_id" r); simplify_eq/=; done. }
  induction l as [|x l IH]; intros seen Hseen Hok.
  - destruct Hseen as [Hseen|Hseen]; [|by apply not_elem_of_nil in Hseen]. cbn [app dedupe]. rewrite Hd. cbn [is_none].
    by rewrite (proj2 (seen_str s seen) Hseen).
  - apply Forall_cons in Hok as [Hx Hok]. cbn [app dedupe]. cbn [omap list_omap] in Hseen.
    unfold id_of at 1, sfield in Hseen.
    destruct (dget "record_id" x) as [| | | |s'| | |] eqn:Hdx; try done; cbn [is_none] in *.
    + f_equal. by apply IH.
    + destruct (existsb (py_eqb (PStr s')) seen) eqn:He.
      * apply IH; [|done]. destruct Hseen as [?|[->|?]%elem_of_cons]; [by left|left; by apply seen_str|by right].
      * f_equal. apply IH; [|done]. destruct Hseen as [?|[->|?]%elem_of_cons]; [left; by right|left; by left|by right].
Qed.

Lemma map_res_app {A B} (f : A -> res B) l k :
  map_res f (l ++ k) = let! x := map_res f l in let! y := map_res f k in Ok (x ++ y).
Proof.
  induction l as [|a l IH]; simpl; [by destruct (map_res f k)|].
  destruct (f a); simpl; [|done]. rewrite IH. destruct (map_res f l), (map_res f k); done.
Qed.

(**  A record delivered twice is read once.  The timeline is a part of the
    rows, in their order, in which no record id occurs twice and every id of the
    rows occurs, and records without an id are all there; and a further row with
    the id of an earlier one changes nothing. *)
Theorem timeline_tolerates_resends rows rs :
  map_res read_row rows = Ok rs -> ids_ok rs ->
  exists recs, get_session_timeline rows = Ok recs /\
    recs `sublist_of` rs /\ NoDup (omap id_of recs) /\
    (forall r, r ∈ rs -> match id_of r with None => r ∈ recs | Some s => s ∈ omap id_of recs end) /\
    (forall before after again s r, rows = before ++ after -> read_row again = Ok r -> id_of r = Some s ->
       (exists row x, row ∈ before /\ read_row row = Ok x /\ id_of x = Some s) ->
       get_session_timeline (before ++ again :: after) = Ok recs).
Proof.
  intros Hrs Hok. exists (dedupe [] rs). unfold get_session_timeline. rewrite Hrs. split; [done|].
  destruct (dedupe_spec rs Hok []) as (H1 & _ & H3 & H4). split; [apply dedupe_sublist|]. split; [done|]. split.
  - intros r Hr. destruct (id_of r) as [s|] eqn:Hs; [|by apply H3].
    destruct (H4 r s Hr Hs) as [Hn|]; [by apply not_elem_of_nil in Hn|done].
  - intros before after again s r -> Hread Hs (row & x & Hrow & Hx & Hxs).
    rewrite map_res_app in Hrs. apply res_bind_ok in Hrs as (xs & Hxs1 & Hrs).
    apply res_bind_ok in Hrs as (ys & Hys & [= <-]).
    rewrite map_res_app. cbn [map_res]. rewrite Hxs1, Hread, Hys. cbn [res_bind]. f_equal.
    apply (dedupe_insert s); [done| |by apply Forall_app in Hok as [? _]].
    right. apply list_elem_of_omap. destruct (map_res_elem _ _ _ _ Hxs1 Hrow) as (y & Hy & Hin).
    exists y. rewrite Hx in Hy. injection Hy as <-. done.
Qed.

(** ** What survives the ledger *)

Lemma promote_chain_keeps meta k : forall r v,
  dget k r = v -> v <> PNone -> dget k (promote_chain meta r) = v.
Proof.
  unfold promote_chain. induction chain_keys as [|j ks IH]; intros r v Hv Hn; [done|]. cbn [foldl].
  apply IH; [|done]. destruct (is_none (dget j r)) eqn:Hj; [|done]. cbn [andb].
  destruct (negb _); [|done]. rewrite dget_set_ne; [done|]. intros ->. rewrite Hv in Hj. by destruct v.
Qed.

Lemma promote_chain_other meta k : k ∉ chain_keys -> forall r, dget k (promote_chain meta r) = dget k r.
Proof.
  unfold promote_chain. induction chain_keys as [|j ks IH]; intros Hk r; [done|]. cbn [foldl].
  apply not_elem_of_cons in Hk as [Hj Hk]. rewrite (IH Hk). destruct (_ && _); [|done]. by rewrite dget_set_ne.
Qed.

Lemma strip_envelope_get k r : k ∉ envelope_keys -> dget k (strip_envelope r) = dget k r.
Proof.
  intros Hk. unfold strip_envelope, dget, envelope_keys in *. simpl.
  rewrite !od_get_del_ne by (intros <-; apply Hk; apply (bool_decide_unpack _); exact I). done.
Qed.

Definition normal_keys : list string :=
  ["env"; "walacor_block_id"; "walacor_trans_id"; "walacor_dh"; "walacor_block_level"; "walacor_created_at"].

Definition reader_keys : list string :=
  ["metadata_json"; "metadata"; "file_metadata"; "_walacor_eid"] ++ normal_keys ++ envelope_keys.

(** Deserialising leaves a field alone, except that it may fill in a missing
    chain field from the metadata. *)
Lemma deserialize_keeps row r k :
  _deserialize_record row = Ok r -> k ∉ reader_keys ->
  (k ∉ chain_keys \/ dget k row <> PNone) -> dget k r = dget k row.
Proof.
  unfold _deserialize_record. intros Hd Hk Hc.
  assert (k ∉ envelope_keys /\ k <> "metadata_json" /\ k <> "metadata" /\ k <> "file_metadata")
    as (He & N1 & N2 & N3) by (unfold reader_keys in Hk; clear -Hk; set_solver).
  apply res_bind_ok in Hd as (r1 & H1 & Hd). injection Hd as <-. rewrite strip_envelope_get by done.
  assert (dget k r1 = dget k row) as Hr1.
  { assert (dget k (od_del "metadata_json" row) = dget k row) as Hdel
      by (unfold dget; by rewrite od_get_del_ne).
    destruct (dget "metadata_json" row) as [| | | |[|c s]| |[|x m]|]; try (injection H1 as <-; done).
    - apply res_bind_ok in H1 as (m & _ & [= <-]). by rewrite dget_set_ne.
    - injection H1 as <-. by rewrite dget_set_ne. }
  destruct (dget "metadata" r1) as [| | | | | |meta|]; try done.
  set (r2 := if truthy (dget "file_metadata" meta) then _ else _).
  assert (dget k r2 = dget k row) as Hr2.
  { unfold r2. destruct (truthy _); by rewrite ?dget_set_ne. }
  destruct Hc as [Hc|Hc]; [by rewrite promote_chain_other|].
  apply promote_chain_keeps; [done|done].
Qed.

Lemma normalize_keeps d r k :
  _normalize_record d = Ok r -> k ∉ normal_keys ->
  (k ∉ ["record_id"; "previous_record_id"] \/ dget k d <> PNone) -> dget k r = dget k d.
Proof.
  unfold _normalize_record. intros Hn Hk Hc. apply res_bind_ok in Hn as (d1 & H1 & Hn).
  apply res_bind_ok in Hn as (d2 & H2 & Hn). unbind Hn. injection Hn as <-.
  assert (forall j, j ∈ normal_keys -> k <> j) as Hne by (intros j Hj ->; done).
  rewrite !dget_set_ne by (intros Heq; symmetry in Heq; revert Heq; apply Hne; apply (bool_decide_unpack _); exact I).
  assert (dget k (od_del "env" d2) = dget k d2) as ->.
  { unfold dget. rewrite od_get_del_ne; [done|]. intros Heq; symmetry in Heq; revert Heq.
    apply Hne, (bool_decide_unpack _). exact I. }
  assert (dget k d1 = dget k d) as E1.
  { destruct (is_none (dget "record_id" d) && _) eqn:Hr; [|by injection H1 as <-].
    apply res_bind_ok in H1 as (i & _ & [= <-]). apply andb_true_iff in Hr as [Hr _].
    rewrite dget_set_ne; [done|]. intros <-. destruct Hc as [Hc|Hc]; [set_solver|by destruct (dget "record_id" d)]. }
  destruct (is_none (dget "previous_record_id" d1)) eqn:Hp; [|by injection H2 as <-].
  apply res_bind_ok in H2 as (i & _ & [= <-]). rewrite dget_set_ne; [done|].
  intros <-. destruct Hc as [Hc|Hc]; [set_solver|]. rewrite <- E1 in Hc. by destruct (dget "previous_record_id" d1).
Qed.

(** A record as the orchestrator writes it, in the fields of the chain *)
Definition chain_typed (record : dict) : bool :=
  is_str (dget "execution_id" record) && is_str (dget "timestamp" record) && is_str (dget "record_id" record) &&
  match dget "sequence_number" record with PInt _ => true | _ => false end &&
  (is_none (dget "previous_record_id" record) || is_str (dget "previous_record_id" record)) &&
  (is_none (dget "record_signature" record) || is_str (dget "record_signature" record)).

Lemma read_keeps row r k :
  read_row row = Ok r -> k ∉ reader_keys ->
  (k ∉ chain_keys ++ ["record_id"; "previous_record_id"] \/ dget k row <> PNone) -> dget k r = dget k row.
Proof.
  unfold read_row. intros Hr Hk Hc. apply res_bind_ok in Hr as (d & Hd & Hn).
  assert (dget k d = dget k row) as Hdk.
  { eapply deserialize_keeps; [done|done|]. destruct Hc as [Hc|Hc]; [left; set_solver|by right]. }
  assert (k <> "_walacor_eid") as Hne by (intros ->; apply Hk, (bool_decide_unpack _); exact I).
  assert (k ∉ normal_keys) as Hk2 by (unfold reader_keys in Hk; clear -Hk; set_solver).
  rewrite (normalize_keeps _ _ k Hn Hk2); [by rewrite dget_set_ne|].
  rewrite dget_set_ne, Hdk by done. destruct Hc as [Hc|Hc]; [left; set_solver|by right].
Qed.

(** A first record of a chain, which points at nothing, still does when read. *)
Lemma read_first row r :
  read_row row = Ok r -> dget "previous_record_id" row = PNone -> dget "previous_record_hash" r = PNone ->
  dget "previous_record_id" r = PNone.
Proof.
  unfold read_row. intros Hr Hp Hh. apply res_bind_ok in Hr as (d & Hd & Hn).
  assert (dget "previous_record_id" d = PNone) as Hdp.
  { rewrite <- Hp. eapply deserialize_keeps; [done|by apply (bool_decide_unpack _)|left; by apply (bool_decide_unpack _)]. }
  rewrite (normalize_keeps _ _ "previous_record_hash" Hn) in Hh
    by (try left; by apply (bool_decide_unpack _)).
  rewrite dget_set_ne in Hh by done. unfold _normalize_record in Hn.
  apply res_bind_ok in Hn as (d1 & H1 & Hn). apply res_bind_ok in Hn as (d2 & H2 & Hn). unbind Hn. injection Hn as <-.
  rewrite !dget_set_ne by done.
  assert (forall j, j <> "record_id" -> dget j d1 = dget j (od_set "_walacor_eid" (dget "EId" row) d)) as E1.
  { intros j Hj. destruct (_ && _); [|by injection H1 as <-].
    apply res_bind_ok in H1 as (i & _ & [= <-]). by rewrite dget_set_ne. }
  rewrite (E1 "previous_record_id"), dget_set_ne, Hdp in H2 by done. cbn [is_none] in H2.
  rewrite (E1 "previous_record_hash"), dget_set_ne, Hh in H2 by done. injection H2 as <-.
  unfold dget. rewrite od_get_del_ne by done. by rewrite od_get_set_eq.
Qed.

(** The columns of the chain and the signature come back as they were recorded. *)
Lemma chain_columns_kept `{FloatRepr} max_bytes record record' data row :
  od_wf record -> prepare_execution max_bytes record = Ok (record', data) ->
  (forall k, k ∈ _EXECUTION_SCHEMA_FIELDS -> dget k row = dget k data) -> chain_typed record = true ->
  dget "execution_id" row = dget "execution_id" record /\ dget "timestamp" row = dget "timestamp" record /\
  dget "sequence_number" row = dget "sequence_number" record /\
  (forall k, k ∈ ["record_id"; "previous_record_id"; "record_signature"] -> dget k row = dget k record).
Proof.
  intros Hwf Hp Hrow Ht.
  destruct (validate_execution record) as [cleaned|] eqn:Hv;
    [|unfold prepare_execution in Hp; by rewrite Hv in Hp].
  pose proof (prepare_columns _ _ _ _ _ Hwf Hv Hp) as Hcol.
  apply validate_record_values in Hv as [Hv1 Hv2]; [|by apply (bool_decide_unpack _)].
  unfold chain_typed in Ht. rewrite !andb_true_iff in Ht. destruct Ht as (((((T1 & T2) & T3) & T4) & T5) & T6).
  assert (forall k, k ∈ _EXECUTION_SCHEMA_FIELDS -> k ∉ ["metadata_json"; "tool_strategy"; "tool_count"] ->
            dget k row = dget k cleaned) as Hrc by (intros k H1 H2; rewrite Hrow, Hcol by done; done).
  assert (forall k, k ∉ EXECUTION_SCHEMA.*1 -> dget k cleaned = dget k record) as Hout
    by (intros k Hk; unfold dget; by rewrite Hv2).
  assert (forall k s, (k, s) ∈ EXECUTION_SCHEMA -> isinstance (ty s) (dget k record) = true ->
            dget k cleaned = dget k record) as Hin.
  { intros k s Hk Hi. apply Hv1 in Hk. rewrite validate_value_id in Hk by done. by injection Hk. }
  assert (dget "execution_id" row = dget "execution_id" record /\ dget "timestamp" row = dget "timestamp" record /\
          dget "sequence_number" row = dget "sequence_number" record) as (E1 & E2 & E3).
  { rewrite !Hrc by (apply (bool_decide_unpack _); exact I).
    split; [|split]; [apply (Hin _ (must Tstr))|apply (Hin _ (must Tstr))|apply (Hin _ (may Tint PNone))];
      try (unfold EXECUTION_SCHEMA; repeat (first [left; reflexivity|right]); fail).
    - by destruct (dget "execution_id" record).
    - by destruct (dget "timestamp" record).
    - by destruct (dget "sequence_number" record). }
  split_and!; try done.
  intros k Hk. assert (k ∈ _EXECUTION_SCHEMA_FIELDS).
  { apply list_elem_of_In in Hk. simpl in Hk. destruct_or! Hk; try subst k; try done; by apply mem_true. }
  rewrite Hrc, Hout; [done|..]; [|done|]; revert Hk; by apply apart.
Qed.

(** C12.  A signature survives the ledger.  When a record is written through the
    client and a row with the same columns is read back, the fields the chain and
    the signature use (ids, predecessor, sequence number, time, signature) are the
    record's, whatever else the ledger adds to the row and whatever the metadata
    hold, so the signature of what is read has the status of what was written. *)
Theorem signature_survives_ledger `{FloatRepr} `{E : Ed25519} (st : keys) max_bytes record record' data row r :
  od_wf record -> prepare_execution max_bytes record = Ok (record', data) ->
  (forall k, k ∈ _EXECUTION_SCHEMA_FIELDS -> dget k row = dget k data) -> read_row row = Ok r ->
  chain_typed record = true ->
  (dget "previous_record_id" record = PNone -> dget "previous_record_hash" r = PNone) ->
  (forall k, k ∈ ["execution_id"; "timestamp"; "sequence_number"; "record_id"; "previous_record_id";
                  "record_signature"] -> dget k r = dget k record) /\
  verify_record_signature st (view r) = verify_record_signature st (view record).
Proof.
  intros Hwf Hp Hrow Hr Ht Hfirst.
  assert (forall k, k ∈ ["execution_id"; "timestamp"; "sequence_number"; "record_id"; "previous_record_id";
                  "record_signature"] -> dget k r = dget k record) as Hall.
  2:{ split; [done|]. unfold verify_record_signature, view, sfield, zfield. cbn [record_signature].
      rewrite !Hall by (apply (bool_decide_unpack _); exact I). done. }
  destruct (chain_columns_kept _ _ _ _ _ Hwf Hp Hrow Ht) as (E1 & E2 & E3 & E4).
  unfold chain_typed in Ht. rewrite !andb_true_iff in Ht. destruct Ht as (((((T1 & T2) & T3) & T4) & T5) & T6).
  intros k Hk. apply list_elem_of_In in Hk. simpl in Hk.
  assert (forall k, dget k row = dget k record -> k ∉ reader_keys -> dget k record <> PNone -> dget k r = dget k record)
    as Hkeep by (intros j Hj H1 H2; rewrite <- Hj; apply read_keeps; [done|done|right; congruence]).
  destruct_or! Hk; try subst k; try done.
  - apply Hkeep; [done|by apply (bool_decide_unpack _)|by destruct (dget "execution_id" record)].
  - apply Hkeep; [done|by apply (bool_decide_unpack _)|by destruct (dget "timestamp" record)].
  - apply Hkeep; [done|by apply (bool_decide_unpack _)|by destruct (dget "sequence_number" record)].
  - apply Hkeep; [apply E4; left|by apply (bool_decide_unpack _)|by destruct (dget "record_id" record)].
  - assert (dget "previous_record_id" row = dget "previous_record_id" record) as Ep by (apply E4; right; left).
    destruct (is_none (dget "previous_record_id" record)) eqn:Hn.
    + assert (dget "previous_record_id" record = PNone) as Hpn by by destruct (dget "previous_record_id" record).
      rewrite Hpn in *. apply (read_first row); [done|done|by apply Hfirst].
    + apply Hkeep; [done|by apply (bool_decide_unpack _)|by intros Hpn; rewrite Hpn in Hn].
  - rewrite <- E4 by (right; right; left). apply read_keeps; [done|by apply (bool_decide_unpack _)|].
    left. by apply (bool_decide_unpack _).
Qed.

(** ** Timings *)

Lemma read_drops_text row r :
  od_wf row -> read_row row = Ok r -> dget "metadata_json" r = PNone.
Proof.
  unfold read_row. intros Hwf Hr. apply res_bind_ok in Hr as (d & Hd & Hn).
  rewrite (normalize_keeps _ _ "metadata_json" Hn) by (try left; by apply (bool_decide_unpack _)).
  rewrite dget_set_ne by done. unfold _deserialize_record in Hd. apply res_bind_ok in Hd as (r1 & H1 & [= <-]).
  rewrite strip_envelope_get by (by apply (bool_decide_unpack _)).
  assert (dget "metadata_json" r1 = PNone) as Hr1.
  { assert (dget "metadata_json" (od_del "metadata_json" row) = PNone) as Hdel
      by (unfold dget; by rewrite od_get_del_eq).
    destruct (dget "metadata_json" row) as [| | | |[|c s]| |[|x m]|]; try (injection H1 as <-; done).
    - apply res_bind_ok in H1 as (m & _ & [= <-]). by rewrite dget_set_ne.
    - injection H1 as <-. by rewrite dget_set_ne. }
  destruct (dget "metadata" r1) as [| | | | | |meta|]; try done.
  rewrite promote_chain_other by (by apply (bool_decide_unpack _)).
  destruct (truthy _); by rewrite !dget_set_ne.
Qed.

(**  The pipeline timings are written to the ledger and never read back.  They
    have no column and are kept in the metadata text; the trace looks for them in
    that text, which reading the record has already removed, so for every row the
    ledger returns the trace shows none. *)
Theorem trace_loses_timings row rows tool_rows t :
  od_wf row -> dget "timings" row = PNone ->
  get_execution_trace (row :: rows) tool_rows = Ok (Some t) -> dget "timings" t = PDict [].
Proof.
  intros Hwf Hnone Ht. unfold get_execution_trace, get_execution in Ht.
  apply res_bind_ok in Ht as (e & He & Ht). apply res_bind_ok in He as (r & Hr & [= <-]).
  assert (dget "timings" r = PNone) as Htr.
  { rewrite <- Hnone. eapply read_keeps; [done|by apply (bool_decide_unpack _)|]. left. by apply (bool_decide_unpack _). }
  pose proof (read_drops_text _ _ Hwf Hr) as Hmj. destruct r as [|x r]; [done|].
  apply res_bind_ok in Ht as (tm & Htm & [= <-]). unfold trace_timings in Htm. rewrite Htr, Hmj in Htm.
  injection Htm as <-. reflexivity.
Qed.
End timeline.

(** ** A duplicate and the session list *)

Lemma linked_app prev l k :
  linked_from prev (l ++ k) = true -> exists p, linked_from p k = true.
Proof.
  revert prev. induction l as [|r l IH]; intros prev Hl; [by exists prev|]. simpl in Hl.
  apply andb_true_iff in Hl as [_ Hl]. by apply IH in Hl.
Qed.

(**  The session list and the verifier disagree on a resent record.  Where a
    record's row occurs twice in a session, the list marks the session [warn],
    although the timeline that is verified drops the second row. *)
Theorem resend_warns l r k :
  ordered status_le (l ++ r :: r :: k) -> record_id r <> previous_record_id r ->
  session_status (l ++ r :: r :: k) = "warn".
Proof.
  intros Ho Hne. unfold session_status. rewrite isort_id by done.
  destruct (linked_from None (l ++ r :: r :: k)) eqn:Hl; [|done]. exfalso.
  apply linked_app in Hl as (p & Hl). cbn [linked_from] in Hl. rewrite !andb_true_iff, !bool_decide_eq_true in Hl.
  destruct Hl as (_ & Hr & _). done.
Qed.

(** ** Examples *)

Module ReaderExamples.
#[local] Existing Instance Examples.reprs.
#[local] Instance json : JsonText := Examples.codec [].

Definition plain (id : string) (n : Z) (prev : pyval) : dict :=
  [("execution_id", PStr ("e" +:+ id)%string); ("tenant_id", PStr "t"); ("gateway_id", PStr "g");
   ("timestamp", PStr "now"); ("policy_version", PInt 1); ("policy_result", PStr "pass");
   ("sequence_number", PInt n); ("record_id", PStr id); ("previous_record_id", prev);
   ("record_signature", PStr ("K" +:+ id +:+ "||0|e" +:+ id +:+ "|now")%string)].

Definition written : dict := Eval vm_compute in
  match prepare_execution 60000 (plain "a" 0 PNone) with Ok p => p.2 | Raise _ => [] end.

(** What the ledger returns: the columns, and its own fields *)
Definition row : dict :=
  written ++ [("_id", PStr "x"); ("EId", PStr "E1"); ("CreatedAt", PInt 7); ("env", PList [])].

Definition read : dict := Eval vm_compute in match read_row row with Ok r => r | Raise _ => [] end.

Definition ring : keys (E := ToyEd25519.toy) := MkKeys (E := ToyEd25519.toy) (Some "K") (Some "K").

Lemma signature_survives_ledger_witness :
  dget "record_id" read = dget "record_id" (plain "a" 0 PNone) /\
  verify_record_signature (E := ToyEd25519.toy) ring (view (plain "a" 0 PNone)) = sig_valid /\
  verify_record_signature (E := ToyEd25519.toy) ring (view read) =
    verify_record_signature (E := ToyEd25519.toy) ring (view (plain "a" 0 PNone)).
Proof.
  destruct (signature_survives_ledger (E := ToyEd25519.toy) ring 60000 (plain "a" 0 PNone)
              (plain "a" 0 PNone) written row read) as [H1 H2].
  - apply (bool_decide_unpack _). vm_compute. exact I.
  - vm_compute. reflexivity.
  - intros k Hk. apply list_elem_of_In in Hk. simpl in Hk. destruct_or! Hk; try subst k; try reflexivity; destruct Hk.
  - vm_compute. reflexivity.
  - reflexivity.
  - intros _. reflexivity.
  - split; [apply H1; right; right; right; left|]. split; [vm_compute; reflexivity|exact H2].
Defined.

Definition row2 : dict := od_set "_id" (PStr "y") row.

Lemma timeline_tolerates_resends_witness :
  get_session_timeline [row] = Ok [read] /\ get_session_timeline ([row] ++ row2 :: []) = Ok [read].
Proof.
  destruct (timeline_tolerates_resends [row] [read]) as (recs & Ht & _ & _ & _ & Hr).
  - vm_compute. reflexivity.
  - constructor; [reflexivity|constructor].
  - assert (recs = [read]) as Hrecs.
    { assert (get_session_timeline [row] = Ok [read]) as Ht2 by (vm_compute; reflexivity). congruence. }
    rewrite Hrecs in Ht, Hr. split; [exact Ht|].
    apply (Hr [row] [] row2 "a" read); [reflexivity|vm_compute; reflexivity|reflexivity|].
    exists row, read. split; [left|]. split; [vm_compute; reflexivity|reflexivity].
Defined.

(** A row whose metadata text holds timings *)
Definition timed : dict :=
  [("execution_id", PStr "e"); ("record_id", PStr "a"); ("metadata_json", PStr "{timings}")].

Definition timed_json : JsonText := {|
  to_text := py_repr;
  of_text s := Ok (PDict [("timings", PDict [("forward", PInt 3)])])
|}.

Definition timed_trace : dict := Eval vm_compute in
  match get_execution_trace (H := timed_json) [timed] [] with Ok (Some t) => t | _ => [] end.

Lemma trace_loses_timings_witness :
  get_execution_trace (H := timed_json) [timed] [] = Ok (Some timed_trace) /\
  dget "timings" timed_trace = PDict [].
Proof.
  assert (get_execution_trace (H := timed_json) [timed] [] = Ok (Some timed_trace)) as Ht by (vm_compute; reflexivity).
  split; [exact Ht|].
  apply (trace_loses_timings (H := timed_json) timed [] [] timed_trace);
    [apply (bool_decide_unpack _); vm_compute; exact I|reflexivity|exact Ht].
Defined.

Lemma resend_warns_witness :
  let r := view read in
  session_status [r] = "verified" /\ session_status ([] ++ r :: r :: []) = "warn".
Proof.
  intros r. split; [vm_compute; reflexivity|].
  apply (resend_warns [] r []); [apply orderedb_ok; vm_compute; reflexivity|vm_compute; discriminate].
Defined.
End ReaderExamples.
