(* ===== verification/SchemaIntel.v ===== *)
(** * Prompts and intents (classifier/unified.py)

    The extraction of the question from a conversation, the two tiers of the intent
    classifier and the enrichment of a request; with the entry point of shadow
    inference (intelligence/shadow.py) that every classification calls.

    The ONNX runtime and numpy are parameters. *)
From Stdlib Require Import SpecFloat.
From S2P Require Import Prelude ODict PyVal PyStr PyObj.
From S2P Require Verdicts Promotion.

Local Open Scope Z_scope.

(** ** Labels and results *)

Definition NORMAL : string := "normal".
Definition WEB_SEARCH : string := "web_search".
Definition RAG : string := "rag".
Definition MCP_TOOLS : string := "mcp_tools".
Definition REASONING : string := "reasoning".
Definition SYSTEM_TASK : string := "system_task".

Definition CONFIDENCE_AUTO : spec_float := sf_of_decimal false 95 (-2).
Definition CONFIDENCE_FLAG : spec_float := sf_of_decimal false 70 (-2).

Record IntentResult := MkIntent {
  intent : string;
  confidence : spec_float;
  tier : string;
  reason : string;
}.

Record PromptExtraction := MkExtraction {
  user_question : string;
  conversation_context : string;
  conversation_turns : Z;
  has_system_prompt : bool;
  has_rag_context : bool;
  has_files : bool;
  extraction_method : string;
}.

(** ** Prompt extraction *)

(** What one block of a content list adds *)
Definition block_text (block : pyval) : list pyval :=
  match block with
  | PDict d => if eq_str (dget "type" d) "text" then [dget_or "text" (PStr "") d] else []
  | PStr s => [PStr s]
  | _ => []
  end.

Definition _extract_text (content : pyval) : res string :=
  match content with
  | PStr s => Ok s
  | PList l => join (String lf "") (concat (map block_text l))
  | PNone => Ok ""
  | v => Ok (py_str v)
  end.

Definition rag_keywords : list string :=
  ["context:"; "document:"; "reference:"; "based on the following"; "retrieved"; "source:"; "knowledge base"].

Definition looks_like_rag (content : string) : bool :=
  (500 <? Z.of_nat (String.length content)) || existsb (fun kw => contains kw (lower content)) rag_keywords.

Definition is_file (block : pyval) : bool :=
  match block with
  | PDict d => in_strs (dget "type" d) ["image_url"; "image"; "file"]
  | _ => false
  end.

(** The variables of the loop over the messages *)
Record roles := MkRoles {
  system_msgs : list string;
  user_msgs : list string;
  assistant_msgs : list string;
  files_seen : bool;
  rag_seen : bool;
}.

Definition no_roles : roles := MkRoles [] [] [] false false.

Definition message_step (r : roles) (msg : pyval) : res roles :=
  let! role := get_or "role" (PStr "") msg in
  let! c := get_or "content" (PStr "") msg in
  let! content := _extract_text c in
  if eq_str role "system" then
    Ok (MkRoles (system_msgs r ++ [content]) (user_msgs r) (assistant_msgs r) (files_seen r)
          (looks_like_rag content || rag_seen r))
  else if eq_str role "user" then
    let! raw_content := get "content" msg in
    let files := match raw_content with PList l => existsb is_file l | _ => false end in
    Ok (MkRoles (system_msgs r) (user_msgs r ++ [content]) (assistant_msgs r) (files || files_seen r) (rag_seen r))
  else if eq_str role "assistant" then
    Ok (MkRoles (system_msgs r) (user_msgs r) (assistant_msgs r ++ [content]) (files_seen r) (rag_seen r))
  else Ok r.

(** [u[:100] + "..." if len(u) > 100 else u] *)
Definition preview (u : string) : string :=
  if 100 <? Z.of_nat (String.length u) then stake 100 u +:+ "..." else u.

Definition turn_part (i : nat) (ua : string * string) : string :=
  "[turn " +:+ z_str (Z.of_nat i + 1) +:+ ": Q=" +:+ preview (fst ua) +:+ " A=" +:+ preview (snd ua) +:+ "]".

Definition context_parts (r : roles) : list string :=
  match system_msgs r with
  | [] => []
  | s :: _ => ["[system: " +:+ stake 200 s +:+ "]"]
  end ++
  (if 1 <? zlen (user_msgs r)
   then imap turn_part (zip (removelast (user_msgs r)) (assistant_msgs r)) else []).

Definition extraction_of (r : roles) : PromptExtraction :=
  MkExtraction (stake 5000 (List.last (user_msgs r) ""))
    (stake 10000 (sjoin (String lf "") (context_parts r)))
    (zlen (user_msgs r))
    (match system_msgs r with [] => false | _ => true end)
    (rag_seen r) (files_seen r)
    (if zlen (user_msgs r) <=? 1 then "single_turn" else "last_user_message").

Definition extract_prompt (messages : pyval) : res PromptExtraction :=
  if truthy messages then
    let! l := iter messages in
    let! r := fold_res message_step l no_roles in
    Ok (extraction_of r)
  else Ok (MkExtraction "" "" 0 false false false "empty_messages").

Section prompts.
Context `{Digest}.

(** The fields in the order of the dict *)
Definition build_prompt_fields (messages : pyval) : res (PromptExtraction * dict) :=
  let! e := extract_prompt messages in
  let fp := stake 16 (hexdigest (user_question e)) in
  Ok (e, [("user_question", PStr (user_question e)); ("prompt_text", PStr (user_question e));
          ("conversation_context", PStr (conversation_context e));
          ("conversation_turns", PInt (conversation_turns e));
          ("has_system_prompt", PBool (has_system_prompt e));
          ("has_rag_context", PBool (has_rag_context e)); ("has_files", PBool (has_files e));
          ("question_fingerprint", PStr fp); ("extraction_method", PStr (extraction_method e))]).
End prompts.

(** ** The deterministic tier *)

Definition one : spec_float := sf_of_decimal false 1 0.
Definition surely (i why : string) : option IntentResult := Some (MkIntent i one "deterministic" why).

Definition reasoning_prefixes : list string := ["o1-"; "o1"; "o3-"; "o3"; "o4-"; "o4"].

(** [len(v)] *)
Definition py_len (v : pyval) : res Z :=
  match v with
  | PStr s | PRedacted s => Ok (Z.of_nat (String.length s))
  | PList l => Ok (zlen l)
  | PDict d => Ok (zlen d)
  | _ => type_error
  end.

(** [model_id and any(model_id.startswith(p) for p in ps)] *)
Definition has_prefix (ps : list string) (model_id : pyval) : res bool :=
  if truthy model_id then
    match model_id with
    | PStr m => Ok (existsb (fun p => startswith p m) ps)
    | _ => attribute_error
    end
  else Ok false.

Definition is_system_task (v : pyval) : bool :=
  match v with PStr s => startswith "system_task" s | _ => false end.

Definition _tier1_deterministic (has_mcp_tools : bool) (prompt : string) (metadata : dict) (model_id : pyval)
    : res (option IntentResult) :=
  let request_type := dget_or "request_type" (PStr "") metadata in
  if is_system_task request_type then Ok (surely SYSTEM_TASK ("request_type=" +:+ py_str request_type))
  else if startswith "### Task:" (lstrip prompt) then Ok (surely SYSTEM_TASK "prompt_starts_with_task")
  else
    let! reasoning := has_prefix reasoning_prefixes model_id in
    if reasoning then Ok (surely REASONING ("reasoning_model=" +:+ py_str model_id))
    else
      let body_meta := por (dget "_body_metadata" metadata) (PDict []) in
      let! features := get_dict "features" body_meta in
      let! web := get "web_search" features in
      if match web with PBool b => b | _ => false end then Ok (surely WEB_SEARCH "features.web_search=true")
      else if has_mcp_tools then Ok (surely MCP_TOOLS "mcp_servers_configured")
      else
        let audit := por (dget "walacor_audit" metadata) (PDict []) in
        let! rag := get "has_rag_context" audit in
        if truthy rag then Ok (surely RAG "has_rag_context=true")
        else
          let! files := get "files" body_meta in
          let files := por files (por (dget "files" metadata) (PList [])) in
          if truthy files then let! n := py_len files in Ok (surely RAG ("files_attached=" +:+ z_str n))
          else Ok None.

(** ** The ONNX tier *)

(** What [run_with_timeout] raises besides what the session raises *)
Inductive failure := InferenceTimeout | Failed (message : string).

(** A session reads the prompt or its tokens.  The first kind answers a label and
    the values of the probability table, the second logits. *)
Inductive session :=
  | PromptSession (run : string -> failure + string * list spec_float)
  | TokenSession (run : list Z * list Z -> failure + list spec_float).

(** Softmax and its largest entry, as numpy computes them: the index and the
    probability *)
Class Numpy := softmax_best : list spec_float -> failure + nat * spec_float.

(** [max] of a list of floats *)
Definition py_max (l : list spec_float) : failure + spec_float :=
  match l with
  | [] => inl (Failed "max() iterable argument is empty")
  | x :: l => inr (foldl (fun best y => if SFltb best y then y else best) x l)
  end.

Definition ord (c : ascii) : Z := code c.

Definition _tokenize (text : string) : list Z * list Z :=
  let ids := map (fun c => ord c mod 30000) (String.list_ascii_of_string (stake 128 text)) in
  let n := String.length text in
  (ids ++ replicate (128 - length ids) 0, replicate (Nat.min n 128) 1 ++ replicate (128 - n) 0).

Definition gate (i : string) (c : spec_float) : IntentResult :=
  if SFleb CONFIDENCE_AUTO c then MkIntent i c "ml_onnx" "onnx_auto_accept"
  else if SFleb CONFIDENCE_FLAG c then MkIntent i c "ml_onnx" "onnx_flagged_for_review"
  else MkIntent NORMAL c "ml_onnx" "onnx_low_confidence_default".

Definition zero : spec_float := S754_zero false.

Section classify.
Context `{Numpy}.

Definition infer (s : session) (label_map : nat -> option string) (prompt : string) : failure + string * spec_float :=
  match s with
  | PromptSession run =>
      match run (stake 1000 prompt) with
      | inr (l, probs) => match py_max probs with inr c => inr (l, c) | inl e => inl e end
      | inl e => inl e
      end
  | TokenSession run =>
      match run (_tokenize prompt) with
      | inr logits => match softmax_best logits with
                      | inr (idx, c) => inr (default NORMAL (label_map idx), c)
                      | inl e => inl e
                      end
      | inl e => inl e
      end
  end.

Definition _tier2_onnx (s : session) (label_map : nat -> option string) (prompt : string) : IntentResult :=
  match infer s label_map prompt with
  | inr (i, c) => gate i c
  | inl InferenceTimeout => MkIntent NORMAL zero "deterministic" "onnx_timeout"
  | inl (Failed m) => MkIntent NORMAL zero "ml_onnx" ("onnx_error: " +:+ m)
  end.
End classify.

(** ** Shadow inference (intelligence/shadow.py)

    What one classification leaves behind: the verdicts in the buffer and the
    candidate versions a background inference was started on. *)

Record observed := MkObserved {
  verdicts : option Verdicts.buffer;
  shadows : list (string * string);
}.

(** How the classifier is wired when it is called.  [active_candidate] is the
    version the registry has under its model name; [loop_running] says whether the
    thread that classifies runs an event loop. *)
Record wiring := MkWiring {
  has_mcp_tools : bool;
  onnx_session : option session;
  label_map : nat -> option string;
  shadow_runner : bool;
  registry_wired : bool;
  model_name : option string;
  active_candidate : option string;
  loop_running : bool;
  current_version : option string;
  rid : option string;
  now : string;
}.

(** [asyncio.create_task] raises [RuntimeError] without a running loop, which is
    caught: the comparison is skipped. *)
Definition maybe_fire_shadow (w : wiring) (ts : list (string * string)) : list (string * string) :=
  if shadow_runner w && registry_wired w then
    match model_name w, active_candidate w with
    | Some (String _ _ as m), Some version => if loop_running w then ts ++ [(m, version)] else ts
    | _, _ => ts
    end
  else ts.

(** [ModelVerdict.from_inference] without features (intelligence/types.py) *)
Definition from_inference `{Digest} `{FloatRepr} (model input prediction : string) (c : spec_float) (rid : option string)
    (version : option string) (now : string) : res Verdicts.ModelVerdict :=
  Verdicts.__post_init__
    (Verdicts.MkVerdict model (hexdigest input) "{}" prediction (PFloat c (float_repr c)) rid now None None version).

Section engine.
Context `{Digest} `{FloatRepr} `{Numpy}.

(** Whatever recording the verdict raises is logged. *)
Definition record_verdict (w : wiring) (prompt : string) (r : IntentResult) (b : option Verdicts.buffer)
    : option Verdicts.buffer :=
  match b with
  | Some b =>
      let rid := match rid w with Some (String _ _ as s) => Some s | _ => None end in
      match from_inference "intent" prompt (intent r) (confidence r) rid (current_version w) (now w) with
      | Ok v => match Verdicts.record v b with Ok b => Some b | Raise _ => Some b end
      | Raise _ => Some b
      end
  | None => None
  end.

(** [classify_intent], after [_maybe_reload] *)
Definition decide_intent (w : wiring) (prompt : string) (metadata : dict) (model_id : pyval) : res IntentResult :=
  let! tier1 := _tier1_deterministic (has_mcp_tools w) prompt metadata model_id in
  match tier1 with
  | Some r => Ok r
  | None => match onnx_session w with
            | Some s => Ok (_tier2_onnx s (label_map w) prompt)
            | None => Ok (MkIntent NORMAL (sf_of_decimal false 5 (-1)) "deterministic" "no_ml_model_default")
            end
  end.

Definition classify_intent (w : wiring) (prompt : string) (metadata : dict) (model_id : pyval) (o : observed)
    : res (IntentResult * observed) :=
  let! r := decide_intent w prompt metadata model_id in
  Ok (r, MkObserved (record_verdict w prompt r (verdicts o)) (maybe_fire_shadow w (shadows o))).

(** ** The enrichment of a request *)

Definition routing_of (i : string) (metadata : dict) (model_id : pyval) : res dict :=
  let! routing :=
    if bool_decide (i = WEB_SEARCH) then Ok [("_gateway_web_search", PBool true)]
    else if bool_decide (i = SYSTEM_TASK) then Ok [("_gateway_web_search", PBool false)]
    else if bool_decide (i = REASONING) then
      let! r := has_prefix ["o1"; "o3"; "o4"] model_id in
      Ok (if r then [("_responses_api", PBool true)] else [])
    else Ok [] in
  Ok (if truthy (dget "_gateway_web_search" metadata) && negb (bool_decide (i ∈ [WEB_SEARCH; MCP_TOOLS]))
      then od_set "_gateway_web_search" (PBool false) routing else routing).

Definition intent_fields (r : IntentResult) : dict :=
  [("_intent", PStr (intent r)); ("_intent_confidence", PFloat (confidence r) (float_repr (confidence r)));
   ("_intent_tier", PStr (tier r)); ("_intent_reason", PStr (reason r))].

Definition process_request (w : wiring) (messages : pyval) (metadata : dict) (model_id : pyval) (o : observed)
    : res (dict * observed) :=
  let! '(e, prompt_fields) := build_prompt_fields messages in
  let! '(r, o) := classify_intent w (user_question e) metadata model_id o in
  let! routing := routing_of (intent r) metadata model_id in
  Ok (merge (merge prompt_fields (intent_fields r)) routing, o).

(** [_classify_intent_si] (pipeline/orchestrator.py) with an engine: it runs in a
    worker thread, which has no event loop; whatever it raises gives no
    enrichment. *)
Definition in_worker_thread (w : wiring) : wiring :=
  MkWiring (has_mcp_tools w) (onnx_session w) (label_map w) (shadow_runner w) (registry_wired w) (model_name w)
    (active_candidate w) false (current_version w) (rid w) (now w).

Definition _classify_intent_si (skip_governance : bool) (w : wiring) (call_metadata : dict) (model_id body_dict body_meta : pyval)
    (o : observed) : dict * observed :=
  if skip_governance then ([], o)
  else
    let metadata := if is_dict body_meta then od_set "_body_metadata" body_meta call_metadata else call_metadata in
    let messages := match body_dict with PDict d => dget_or "messages" (PList []) d | _ => PList [] end in
    match process_request (in_worker_thread w) messages metadata (por model_id (PStr "")) o with
    | Ok r => r
    | Raise _ => ([], o)
    end.
End engine.

(** ** What is extracted *)

(** The texts of the messages of a role *)
Definition role_text (role : string) (msg : pyval) : option string :=
  match msg with
  | PDict d => if eq_str (dget_or "role" (PStr "") d) role
               then match _extract_text (dget_or "content" (PStr "") d) with Ok t => Some t | Raise _ => None end
               else None
  | _ => None
  end.
Definition role_texts (role : string) (l : list pyval) : list string := omap (role_text role) l.

(** A message that can be extracted from *)
Definition extractable (msg : pyval) : bool :=
  match msg with PDict d => is_ok (_extract_text (dget_or "content" (PStr "") d)) | _ => false end.

Lemma message_step_texts r msg r' :
  message_step r msg = Ok r' ->
  extractable msg = true /\
  system_msgs r' = system_msgs r ++ option_list (role_text "system" msg) /\
  user_msgs r' = user_msgs r ++ option_list (role_text "user" msg) /\
  assistant_msgs r' = assistant_msgs r ++ option_list (role_text "assistant" msg).
Proof.
  unfold message_step, extractable, role_text. destruct msg; try done. cbn [get_or get res_bind].
  destruct (_extract_text _) as [t|]; cbn [res_bind]; [|done]. intros Hs. split; [done|].
  destruct (eq_str _ "system") eqn:H1.
  { apply eq_str_iff in H1. rewrite H1 in *. injection Hs as <-. cbn. by rewrite !app_nil_r. }
  destruct (eq_str _ "user") eqn:H2.
  { apply eq_str_iff in H2. rewrite H2 in *. injection Hs as <-. cbn. by rewrite !app_nil_r. }
  destruct (eq_str _ "assistant") eqn:H3; injection Hs as <-; cbn; by rewrite !app_nil_r.
Qed.

Lemma fold_messages l : forall r r',
  fold_res message_step l r = Ok r' ->
  forallb extractable l = true /\
  system_msgs r' = system_msgs r ++ role_texts "system" l /\
  user_msgs r' = user_msgs r ++ role_texts "user" l /\
  assistant_msgs r' = assistant_msgs r ++ role_texts "assistant" l.
Proof.
  induction l as [|m l IH]; intros r r' Hf; cbn [fold_res] in Hf.
  { injection Hf as <-. cbn. by rewrite !app_nil_r. }
  apply res_bind_ok in Hf as (r1 & (He & Hs & Hu & Ha)%message_step_texts & (Hl & -> & -> & ->)%IH).
  cbn [forallb]. rewrite He, Hl, Hs, Hu, Ha, <- !app_assoc. unfold role_texts. cbn [omap list_omap].
  destruct (role_text "system" m), (role_text "user" m), (role_text "assistant" m); done.
Qed.

Lemma message_step_ok r msg : extractable msg = true -> exists r', message_step r msg = Ok r'.
Proof.
  unfold message_step, extractable. destruct msg; try done. cbn [get_or get res_bind].
  destruct (_extract_text _) as [t|]; [|done]. intros _. cbn [res_bind]. repeat case_match; eauto.
Qed.

Lemma fold_messages_ok l : forall r, forallb extractable l = true -> exists r', fold_res message_step l r = Ok r'.
Proof.
  induction l as [|m l IH]; intros r Hl; [by eexists|]. cbn [forallb] in Hl. apply andb_true_iff in Hl as [Hm Hl].
  cbn [fold_res]. destruct (message_step_ok r m Hm) as [r1 ->]. by apply IH.
Qed.

Lemma stake_length n s : (String.length (stake n s) <= n)%nat.
Proof. revert s. induction n as [|n IH]; intros [|c s]; cbn; [lia|lia|lia|]. specialize (IH s). lia. Qed.

Lemma extract_prompt_list l e :
  l <> [] -> extract_prompt (PList l) = Ok e ->
  forallb extractable l = true /\
  user_question e = stake 5000 (List.last (role_texts "user" l) "") /\
  conversation_turns e = zlen (role_texts "user" l) /\
  has_system_prompt e = negb (bool_decide (role_texts "system" l = [])) /\
  conversation_context e =
    stake 10000 (sjoin (String lf "")
      (context_parts (MkRoles (role_texts "system" l) (role_texts "user" l) (role_texts "assistant" l) false false))) /\
  extraction_method e = (if zlen (role_texts "user" l) <=? 1 then "single_turn" else "last_user_message").
Proof.
  intros Hl He. unfold extract_prompt in He. destruct l as [|m l]; [done|]. cbn [truthy iter res_bind] in He.
  apply res_bind_ok in He as (r & (Hx & Hs & Hu & Ha)%fold_messages & [= <-]). split; [done|].
  cbn [system_msgs user_msgs assistant_msgs no_roles app] in Hs, Hu, Ha.
  unfold extraction_of, context_parts. cbn. rewrite Hs, Hu, Ha. split; [done|]. split; [done|]. split; [|done].
  change (match role_texts "system" (m :: l) with [] => false | _ => true end
          = negb (bool_decide (role_texts "system" (m :: l) = []))).
  by destruct (role_texts "system" (m :: l)).
Qed.

(** A conversation is extracted iff every message is a dict whose content is a text
    or has texts in its text blocks. *)
Lemma extract_prompt_total l :
  l <> [] -> (exists e, extract_prompt (PList l) = Ok e) <-> (forallb extractable l = true).
Proof.
  intros Hl. split; [intros [e He]; by apply extract_prompt_list in He as [? _]|]. intros (r & Hr)%(fun H => fold_messages_ok l no_roles H).
  unfold extract_prompt. destruct l; [done|]. cbn [truthy iter res_bind]. rewrite Hr. by eexists.
Qed.

(** The recorded question is the last user message, at most its first 5000
    characters.  A conversation is extracted exactly when every message is a dict whose
    content is text, and everything after the user's last message, the roles that are not
    known and all but a preview of the rest leave the question unchanged. *)
Theorem question_is_last_user_message pre msg post question :
  role_text "user" msg = Some question ->
  Forall (fun m => role_text "user" m = None) post ->
  let l := pre ++ msg :: post in
  (forallb extractable l = true <-> exists e, extract_prompt (PList l) = Ok e) /\
  (forall e, extract_prompt (PList l) = Ok e ->
     user_question e = stake 5000 question /\
     conversation_turns e = zlen (role_texts "user" pre) + 1 /\
     (String.length (user_question e) <= 5000)%nat /\ (String.length (conversation_context e) <= 10000)%nat /\
     (has_system_prompt e = true <-> role_texts "system" l <> [])).
Proof.
  intros Hm Hpost l. assert (l <> []) as Hne by (unfold l; by destruct pre).
  split; [split; apply extract_prompt_total; done|].
  intros e (_ & Hq & Ht & Hs & Hc & _)%extract_prompt_list; [|done].
  assert (role_texts "user" l = role_texts "user" pre ++ [question]) as Hu.
  { unfold l, role_texts. rewrite omap_app. f_equal. cbn [omap list_omap]. rewrite Hm. f_equal.
    clear -Hpost. induction Hpost as [|m post Hn _ IH]; [done|]. cbn [omap list_omap]. by rewrite Hn, IH. }
  rewrite Hu in Hq, Ht. rewrite last_last in Hq. rewrite zlen_snoc in Ht.
  split; [done|]. split; [done|]. rewrite Hq, Hc. split; [apply stake_length|]. split; [apply stake_length|].
  rewrite Hs. split.
  - intros ?%negb_true_iff%bool_decide_eq_false. done.
  - intros ?. by apply negb_true_iff, bool_decide_eq_false.
Qed.

Definition says (role text : string) : pyval := PDict [("role", PStr role); ("content", PStr text)].

Lemma question_is_last_user_message_witness :
  role_text "user" (says "user" "and in winter?") = Some "and in winter?" /\
  Forall (fun m => role_text "user" m = None) [says "assistant" "Cold."] /\
  (exists e, extract_prompt (PList [says "system" "Be brief."; says "user" "Is Oslo warm?"; says "assistant" "No.";
                                     says "user" "and in winter?"; says "assistant" "Cold."]) = Ok e /\
     user_question e = "and in winter?" /\
     conversation_context e = "[system: Be brief.]" +:+ String lf "[turn 1: Q=Is Oslo warm? A=No.]").
Proof.
  split; [reflexivity|]. split; [repeat constructor|].
  eexists. split; [reflexivity|]. split; [|reflexivity].
  refine (proj1 (proj2 (question_is_last_user_message
    [says "system" "Be brief."; says "user" "Is Oslo warm?"; says "assistant" "No."] (says "user" "and in winter?")
    [says "assistant" "Cold."] "and in winter?" eq_refl _) _ _)); [repeat constructor|reflexivity].
Defined.

(** ** Intents *)

Section intents.
Context `{Digest} `{FloatRepr} `{Numpy}.

Lemma gate_cases i c :
  (intent (gate i c) = NORMAL /\ confidence (gate i c) = c) \/
  (intent (gate i c) = i /\ confidence (gate i c) = c /\
   (SFleb CONFIDENCE_AUTO c = true \/ SFleb CONFIDENCE_FLAG c = true)).
Proof. unfold gate. destruct (SFleb CONFIDENCE_AUTO c) eqn:?; [right; auto|]. destruct (SFleb CONFIDENCE_FLAG c); [right|left]; auto. Qed.

(** [CONFIDENCE_AUTO] passes [CONFIDENCE_FLAG], so one comparison is the gate. *)
Definition accepted (c : spec_float) : Prop := SFleb CONFIDENCE_AUTO c = true \/ SFleb CONFIDENCE_FLAG c = true.

(** The intent of a request.  An explicit signal of the request decides alone, with
    certainty; without one the model's label counts only when its confidence reaches the
    threshold, and a slow, failing, unsure or missing model leaves the request normal:
    no failure of the model is raised. *)
Theorem intent_is_gated w prompt metadata model_id :
  (forall r, _tier1_deterministic (has_mcp_tools w) prompt metadata model_id = Ok (Some r) ->
     decide_intent w prompt metadata model_id = Ok r /\ confidence r = one /\ intent r <> NORMAL) /\
  (_tier1_deterministic (has_mcp_tools w) prompt metadata model_id = Ok None ->
     exists r, decide_intent w prompt metadata model_id = Ok r /\
       (intent r <> NORMAL -> exists s, onnx_session w = Some s /\
          infer s (label_map w) prompt = inr (intent r, confidence r) /\ accepted (confidence r)) /\
       (forall s f, onnx_session w = Some s -> infer s (label_map w) prompt = inl f ->
          intent r = NORMAL /\ confidence r = zero)) /\
  (forall e, decide_intent w prompt metadata model_id = Raise e <->
     _tier1_deterministic (has_mcp_tools w) prompt metadata model_id = Raise e).
Proof.
  unfold decide_intent. split_and!.
  - intros r Hr. rewrite Hr. split; [done|]. clear -Hr. unfold _tier1_deterministic, surely in Hr.
    repeat first [progress simplify_eq | case_match | apply res_bind_ok in Hr as (? & _ & Hr)]; done.
  - intros ->. cbn [res_bind]. destruct (onnx_session w) as [s|]; [|eexists; split; [done|]; split; [by intros []|done]].
    exists (_tier2_onnx s (label_map w) prompt). split; [done|]. unfold _tier2_onnx. destruct (infer s (label_map w) prompt) as [[|m]|[i c]] eqn:Hi.
    + split; [by intros []|done].
    + split; [by intros []|done].
    + split; [|intros ? ? [= <-]; congruence]. intros Hn. exists s. split; [done|]. rewrite Hi.
      destruct (gate_cases i c) as [[Hg _]|(H1' & H2' & Hc)]; [done|]. rewrite H1', H2'. by split.
  - intros e. destruct (_tier1_deterministic _ _ _ _) as [[r|]|]; cbn [res_bind]; [done| |split; congruence].
    by destruct (onnx_session w).
Qed.
End intents.

Lemma intent_is_gated_witness :
  let H : Numpy := fun _ => inr (0%nat, one) in
  let s := PromptSession (fun _ => inr ("rag", [sf_of_decimal false 3 (-1); sf_of_decimal false 69 (-2)])) in
  let w := MkWiring false (Some s) (fun _ => None) false false None None false None None "" in
  (exists r, decide_intent w "hello" [] (PStr "o3-mini") = Ok r /\ confidence r = one /\ intent r = REASONING) /\
  (exists r, decide_intent w "hello" [] (PStr "gpt-4o") = Ok r /\ intent r = NORMAL
     /\ reason r = "onnx_low_confidence_default").
Proof.
  intros H s w. split.
  - exists (MkIntent REASONING one "deterministic" "reasoning_model=o3-mini").
    split; [|split; reflexivity].
    exact (proj1 (proj1 (intent_is_gated (H1 := H) w "hello" [] (PStr "o3-mini")) _ eq_refl)).
  - eexists. split; [vm_compute; reflexivity|]. split; vm_compute; reflexivity.
Defined.

(** ** Shadow evidence *)

Section shadow.
Context `{Digest} `{FloatRepr} `{Numpy}.

(** One request as the orchestrator hands it to the classifier *)
Record ask := MkAsk {
  a_skip : bool;
  a_wiring : wiring;
  a_metadata : dict;
  a_model_id : pyval;
  a_body : pyval;
  a_body_meta : pyval;
}.

Definition serve (asks : list ask) (o : observed) : observed :=
  foldl (fun o a => snd (_classify_intent_si (a_skip a) (a_wiring a) (a_metadata a) (a_model_id a) (a_body a)
                           (a_body_meta a) o)) o asks.

Lemma classify_intent_shadows w prompt metadata model_id o r o' :
  classify_intent w prompt metadata model_id o = Ok (r, o') -> shadows o' = maybe_fire_shadow w (shadows o).
Proof. unfold classify_intent. intros Hc. unbind Hc. by injection Hc as _ <-. Qed.

Lemma thread_fires_nothing w ts : maybe_fire_shadow (in_worker_thread w) ts = ts.
Proof. unfold maybe_fire_shadow. repeat case_match; done. Qed.

Lemma classify_si_shadows skip w md model body meta o :
  shadows (snd (_classify_intent_si skip w md model body meta o)) = shadows o.
Proof.
  unfold _classify_intent_si. destruct skip; [done|]. destruct (process_request _ _ _ _ _) as [[e o']|] eqn:Hp; [|done].
  unfold process_request in Hp. apply res_bind_ok in Hp as ([x f] & _ & Hp). apply res_bind_ok in Hp as ([r o1] & Hc & Hp).
  unbind Hp. injection Hp as _ <-. apply classify_intent_shadows in Hc. cbn. by rewrite Hc, thread_fires_nothing.
Qed.

Lemma serve_shadows asks : forall o, shadows (serve asks o) = shadows o.
Proof.
  unfold serve. induction asks as [|a asks IH]; intros o; [done|]. cbn [foldl]. by rewrite IH, classify_si_shadows.
Qed.

(** C26. No shadow comparison is ever made.  The orchestrator is the only caller of the
    classifier and calls it in a worker thread; the hook that starts the comparison needs
    a running event loop and is skipped there, whatever candidate is registered.  So the
    table of comparisons stays empty and the promotion gate refuses every candidate,
    whatever its thresholds.  On the loop's own thread the same call would start one. *)
Theorem shadow_evidence_is_never_collected binomtest labels cfg table asks o :
  shadows o = [] ->
  Forall (fun c => (Promotion.c_model c, Promotion.c_version c) ∈ shadows (serve asks o)) table ->
  shadows (serve asks o) = [] /\
  (forall model version,
     fst (Promotion.evaluate_gate (Promotion.compute_metrics binomtest labels table model version) cfg) = false) /\
  (forall w prompt metadata model_id r o' m version,
     shadow_runner w = true -> registry_wired w = true -> model_name w = Some m -> m <> "" ->
     active_candidate w = Some version -> loop_running w = true ->
     classify_intent w prompt metadata model_id o = Ok (r, o') -> shadows o' = [(m, version)]).
Proof.
  intros Ho Ht. assert (shadows (serve asks o) = []) as He by by rewrite serve_shadows.
  split; [done|]. split.
  - intros model version. rewrite He in Ht. destruct table as [|c table].
    + unfold Promotion.compute_metrics, Promotion._fetch_rows, Promotion.evaluate_gate. cbn [List.filter map].
      rewrite zlen_nil. cbn [Z.eqb]. destruct (Promotion.violations _ _) eqn:Hv; [|done]. exfalso.
      unfold Promotion.violations in Hv. do 4 apply List.app_eq_nil in Hv as [_ Hv]. done.
    + apply Forall_cons in Ht as [Hc _]. by apply not_elem_of_nil in Hc.
  - intros w prompt metadata model_id r o' m version Hr Hg Hm Hne Hc Hl Hx.
    apply classify_intent_shadows in Hx. rewrite Hx. unfold maybe_fire_shadow. rewrite Hr, Hg, Hm, Hc, Hl, Ho.
    by destruct m.
Qed.
End shadow.

(** A candidate is registered and everything is wired: still no comparison. *)
Lemma shadow_evidence_is_never_collected_witness :
  let H : Digest := fun s => s in
  let H0 : FloatRepr := fun _ => "" in
  let H1 : Numpy := fun _ => inr (0%nat, one) in
  let w := MkWiring false None (fun _ => None) true true (Some "intent") (Some "v2") true (Some "v1") None "" in
  let asks := [MkAsk false w [] (PStr "gpt-4o") (PDict [("messages", PList [says "user" "hello"])]) PNone] in
  let o := MkObserved (Some (Verdicts.buffer_init 10)) [] in
  shadows o = [] /\
  (exists b, verdicts (serve asks o) = Some b /\ zlen (Verdicts._buf b) = 1) /\ shadows (serve asks o) = [] /\
  exists o', classify_intent w "hello" [] (PStr "gpt-4o") o = Ok (MkIntent NORMAL (sf_of_decimal false 5 (-1)) "deterministic" "no_ml_model_default", o')
    /\ shadows o' = [("intent", "v2")].
Proof.
  intros H H0 H1 w asks o. split; [reflexivity|]. split; [eexists; split; vm_compute; reflexivity|]. split.
  - exact (proj1 (shadow_evidence_is_never_collected (H := H) (H0 := H0) (H1 := H1) (fun _ _ => None) []
      (Promotion.MkSettings 100 zero zero zero []) [] asks o eq_refl (List.Forall_nil _))).
  - eexists. split; vm_compute; reflexivity.
Defined.
