(* ===== verification/Normalizer.v ===== *)
(** * Normalisation of responses and the validation before a write

    The two normalisers of a [ModelResponse] (classifier/unified.py and
    pipeline/normalizer.py) and the validators of classifier/unified.py with their
    reports.  The orchestrator uses the first of each pair when the schema engine
    exists. *)
From Stdlib Require Import SpecFloat.
From S2P Require Import Prelude ODict PyVal PyStr PyObj AdapterBase RecordSchema.

Local Open Scope Z_scope.

(** ** The two normalisers *)

Definition _RETRY_SENTINEL : string := "__RETRY_WITHOUT_SUMMARY__".

Definition _PROVIDER_USAGE_MAPS : list (string * list (string * string)) :=
  [("anthropic", [("input_tokens", "prompt_tokens"); ("output_tokens", "completion_tokens")]);
   ("openai", []);
   ("ollama", [("prompt_eval_count", "prompt_tokens"); ("eval_count", "completion_tokens")])].

(** The lines of [report.changes] *)
Inductive change :=
  | UsageMapped (src dst : string)
  | TotalComputed (total : pyval)
  | CacheEnriched
  | SentinelCleared
  | NoneToEmpty
  | ThinkingFallback.

(** [dict(usage)]: an adapter gives a dict, or what a falsy usage of the provider is. *)
Definition dict_of (usage : pyval) : res dict :=
  match usage with
  | PDict d => Ok d
  | PList [] | PStr "" => Ok []
  | _ => type_error
  end.

(** [if src in u and dst not in u: u[dst] = u[src]] *)
Definition copy_field (src dst : string) (u : dict) : dict * bool :=
  match od_get src u, od_get dst u with
  | Some v, None => (od_set dst v u, true)
  | _, _ => (u, false)
  end.

Definition map_step (st : dict * list change) (f : string * string) : dict * list change :=
  match copy_field (fst f) (snd f) (fst st) with
  | (u, true) => (u, snd st ++ [UsageMapped (fst f) (snd f)])
  | (u, false) => (u, snd st)
  end.

Definition map_usage (u : dict) (fields : list (string * string)) : dict * list change := foldl map_step (u, []) fields.

Section normalise.
Context `{FloatRepr}.

(** [total_tokens] when it is missing: the new value, if there is one *)
Definition missing_total (u : dict) : res (option pyval) :=
  if truthy (dget "total_tokens" u) then Ok None
  else
    let pt := por (dget_or "prompt_tokens" (PInt 0) u) (PInt 0) in
    let ct := por (dget_or "completion_tokens" (PInt 0) u) (PInt 0) in
    let! a := py_gt pt (PInt 0) in
    let! b := if a then Ok true else py_gt ct (PInt 0) in
    if b then let! s := py_add pt ct in Ok (Some s) else Ok None.

(** The cache fields of a usage that does not name them *)
Definition enrich (u : dict) : res (dict * bool) :=
  match od_get "cache_hit" u with
  | Some _ => Ok (u, false)
  | None => let! info := detect_cache_hit (PDict u) in Ok (merge u info, true)
  end.

(** Content: the flag says whether it changed. *)
Definition fix_content (content thinking : pyval) : res (pyval * list change) :=
  let '(content, l1) := if eq_str content _RETRY_SENTINEL then (PStr "", [SentinelCleared]) else (content, []) in
  let '(content, l2) := if is_none content then (PStr "", [NoneToEmpty]) else (content, []) in
  let! stripped := strip_of content in
  let '(content, l3) := if bool_decide (stripped = "") && truthy thinking then (thinking, [ThinkingFallback])
                        else (content, []) in
  Ok (content, l1 ++ l2 ++ l3).

Definition replace_response (r : ModelResponse) (content usage : pyval) : ModelResponse :=
  MkResponse content usage (r_raw_body r) (provider_request_id r) (tool_interactions r) (has_pending_tool_calls r)
    (thinking_content r).

(** [SchemaIntelligence.normalize_response]: the usage by the names of the provider *)
Definition provider_usage (provider : string) (u : dict) : res (dict * list change) :=
  let '(u, mapped) := map_usage u (default [] (od_get provider _PROVIDER_USAGE_MAPS)) in
  let! total := missing_total u in
  let '(u, totals) := match total with
                      | Some t => (od_set "total_tokens" t u, [TotalComputed t])
                      | None => (u, [])
                      end in
  let! '(u, enriched) := enrich u in
  Ok (u, mapped ++ totals ++ (if enriched then [CacheEnriched] else [])).

Definition normalize_response (r : ModelResponse) (provider : string) : res (ModelResponse * list change) :=
  let! '(new_usage, changed, l1) :=
    if is_none (usage r) then Ok (usage r, false, [])
    else
      let! u := dict_of (usage r) in
      let! '(u, changes) := provider_usage provider u in
      if py_eqb (PDict u) (usage r) then Ok (usage r, false, changes) else Ok (PDict u, true, changes) in
  let! '(new_content, l2) := fix_content (content r) (thinking_content r) in
  let changed := changed || match l2 with [] => false | _ => true end in
  Ok (if changed then replace_response r new_content new_usage else r, l1 ++ l2).

(** [normalize_model_response], for when there is no engine: the same names are
    mapped for every provider. *)
Definition any_usage (u : dict) : res (dict * bool) :=
  let '(u, m1) := copy_field "input_tokens" "prompt_tokens" u in
  let '(u, m2) := copy_field "output_tokens" "completion_tokens" u in
  let! total := missing_total u in
  let '(u, m3) := match total with Some t => (od_set "total_tokens" t u, true) | None => (u, false) end in
  let! '(u, m4) := enrich u in
  Ok (u, m1 || m2 || m3 || m4).

Definition normalize_model_response (r : ModelResponse) (provider : string) : res ModelResponse :=
  let! '(new_usage, changed) :=
    if is_none (usage r) then Ok (usage r, false)
    else
      let! u := dict_of (usage r) in
      let! '(u, modified) := any_usage u in
      if modified then Ok (PDict u, true) else Ok (usage r, false) in
  let! '(new_content, l) := fix_content (content r) (thinking_content r) in
  let changed := changed || match l with [] => false | _ => true end in
  Ok (if changed then replace_response r new_content new_usage else r).
End normalise.

(** ** Comparison of dicts *)

Lemma py_eqb_dict d e :
  py_eqb (PDict d) (PDict e) = true ->
  length d = length e /\ forall k x, (k, x) ∈ d -> exists y, od_get k e = Some y /\ py_eqb x y = true.
Proof.
  intros H. cbn [py_eqb] in H. apply andb_true_iff in H as [Hl%Nat.eqb_eq Hd]. split; [done|]. clear Hl. revert Hd.
  induction d as [|[k x] d IH]; intros Hd k' x' Hin; [by apply not_elem_of_nil in Hin|].
  destruct (od_get k e) as [y|] eqn:Hk; [|done]. apply andb_true_iff in Hd as [Hx Hd].
  apply elem_of_cons in Hin as [[= -> ->]|Hin]; [by exists y|]. by apply IH.
Qed.

Lemma length_od_set {V} (k : string) (v : V) d :
  length (od_set k v d) = (if decide (k ∈ od_keys d) then length d else S (length d)).
Proof.
  destruct (decide _) as [Hk|Hk].
  - pose proof (f_equal length (od_keys_set_old k v d Hk)) as Hl. unfold od_keys in Hl. by rewrite !length_fmap in Hl.
  - rewrite od_set_new by done. rewrite length_app. simpl. lia.
Qed.

Lemma od_set_longer {V} (k : string) (v : V) d : (length d <= length (od_set k v d))%nat.
Proof. rewrite length_od_set. destruct (decide _); lia. Qed.

Lemma merge_longer (d e : dict) : (length d <= length (merge d e))%nat.
Proof.
  unfold merge. revert d. induction e as [|[k v] e IH]; intros d; [done|]. cbn [foldl fst snd].
  pose proof (od_set_longer k v d). specialize (IH (od_set k v d)). lia.
Qed.

(** ** Token counts *)

Definition count_keys : list string :=
  ["prompt_tokens"; "completion_tokens"; "input_tokens"; "output_tokens"; "prompt_eval_count"; "eval_count"].

(** An absent count, null, or a natural number *)
Definition count_val (v : pyval) : Prop := v = PNone \/ exists n, 0 <= n /\ v = PInt n.
Definition counts_ok (u : dict) : Prop := forall k, k ∈ count_keys -> count_val (dget k u).

Section usage.
Context `{FloatRepr}.

Lemma copy_field_get src dst u :
  (copy_field src dst u = (u, false) /\ (od_get src u = None \/ od_get dst u <> None)) \/
  (exists v, od_get src u = Some v /\ od_get dst u = None /\ copy_field src dst u = (od_set dst v u, true)).
Proof. unfold copy_field. destruct (od_get src u) as [v|]; [|auto]. destruct (od_get dst u); [auto|]. right. by exists v. Qed.

Lemma dget_found k v (u : dict) : od_get k u = Some v -> dget k u = v.
Proof. unfold dget. by intros ->. Qed.

Lemma counts_copy src dst u : src ∈ count_keys -> counts_ok u -> counts_ok (fst (copy_field src dst u)).
Proof.
  intros Hs Hu. destruct (copy_field_get src dst u) as [[-> _]|(v & Hv & _ & ->)]; [done|].
  intros k Hk. cbn [fst]. destruct (decide (dst = k)) as [->|Hne].
  - rewrite dget_set_eq. apply dget_found in Hv. rewrite <- Hv. by apply Hu.
  - rewrite dget_set_ne by congruence. by apply Hu.
Qed.

Lemma py_gt_int a b : py_gt (PInt a) (PInt b) = Ok (b <? a).
Proof. unfold py_gt, py_lt, num_compare, Z.ltb. cbn [as_int as_float]. by destruct (b ?= a). Qed.

(** What [usage.get(k, 0) or 0] gives *)
Definition count (k : string) (u : dict) : pyval := por (dget_or k (PInt 0) u) (PInt 0).

Lemma count_int k u : count_val (dget k u) -> exists n, 0 <= n /\ count k u = PInt n.
Proof.
  unfold count, dget, dget_or. destruct (od_get k u) as [v|]; cbn [default]; [|by exists 0].
  intros [->|(n & Hn & ->)]; [by exists 0|]. exists n. split; [done|]. unfold por. cbn [truthy].
  destruct (n =? 0) eqn:?; cbn [negb]; [f_equal; lia|done].
Qed.

Lemma missing_total_spec u :
  counts_ok u ->
  exists o, missing_total u = Ok o /\
    match o with
    | Some t => truthy (dget "total_tokens" u) = false /\ exists a b, count "prompt_tokens" u = PInt a
        /\ count "completion_tokens" u = PInt b /\ 0 <= a /\ 0 <= b /\ 0 < a + b /\ t = PInt (a + b)
    | None => truthy (dget "total_tokens" u) = true \/
              (count "prompt_tokens" u = PInt 0 /\ count "completion_tokens" u = PInt 0)
    end.
Proof.
  intros Hu. unfold missing_total. destruct (truthy _); [exists None; split; [done|by left]|].
  destruct (count_int "prompt_tokens" u) as (a & Ha & Ea); [apply Hu; apply (bool_decide_unpack _); exact I|].
  destruct (count_int "completion_tokens" u) as (b & Hb & Eb); [apply Hu; apply (bool_decide_unpack _); exact I|].
  unfold count in *. rewrite Ea, Eb.
  rewrite !py_gt_int. cbn [res_bind]. destruct (Z.ltb_spec 0 a) as [Hp|Hp].
  { exists (Some (PInt (a + b))). split; [done|]. split; [done|]. exists a, b. repeat split; lia. }
  destruct (Z.ltb_spec 0 b) as [Hq|Hq].
  { exists (Some (PInt (a + b))). split; [done|]. split; [done|]. exists a, b. repeat split; lia. }
  exists None. split; [done|]. right. split; f_equal; lia.
Qed.

Definition cache_keys : list string := ["cache_hit"; "cached_tokens"; "cache_creation_tokens"].

Lemma enrich_spec u u' b :
  enrich u = Ok (u', b) ->
  (b = false /\ u' = u /\ od_get "cache_hit" u <> None) \/
  (b = true /\ (length u < length u')%nat /\ od_get "cache_hit" u' <> None /\
   (forall k, k ∉ cache_keys -> od_get k u' = od_get k u)).
Proof.
  unfold enrich. destruct (od_get "cache_hit" u) eqn:Hc; [intros [= <- <-]; auto|]. intros He.
  apply res_bind_ok in He as (info & Hd & [= <- <-]). right. split; [done|].
  unfold detect_cache_hit in Hd. unbind Hd. injection Hd as <-. unfold merge. cbn [foldl fst snd].
  set (u1 := od_set "cache_hit" _ u). split.
  { assert (length u1 = S (length u)) as Hl.
    { unfold u1. rewrite length_od_set. apply od_get_None in Hc. by destruct (decide _). }
    eapply Nat.lt_le_trans; [|apply od_set_longer]. eapply Nat.lt_le_trans; [|apply od_set_longer]. lia. }
  split.
  - rewrite !od_get_set_ne by done. unfold u1. by rewrite od_get_set_eq.
  - intros k Hk. unfold u1. rewrite !od_get_set_ne; [done|..]; intros <-; apply Hk; apply (bool_decide_unpack _); exact I.
Qed.

(** Mapping only adds the canonical names. *)
Lemma map_usage_fst u fields :
  fst (map_usage u fields) = foldl (fun u f => fst (copy_field (fst f) (snd f) u)) u fields.
Proof.
  unfold map_usage. generalize (@nil change). revert u. induction fields as [|f fields IH]; intros u l; [done|].
  cbn [foldl]. unfold map_step at 2. cbn [fst snd]. destruct (copy_field (fst f) (snd f) u) as [u1 []]; apply IH.
Qed.

Lemma copy_field_grows src dst u :
  (length u <= length (fst (copy_field src dst u)))%nat /\
  (length (fst (copy_field src dst u)) = length u -> copy_field src dst u = (u, false)).
Proof.
  destruct (copy_field_get src dst u) as [[-> _]|(v & _ & Hd & ->)]; [done|]. cbn [fst]. rewrite length_od_set.
  apply od_get_None in Hd. destruct (decide _); [done|]. split; lia.
Qed.

Lemma copies_grow fields : forall u,
  let u' := foldl (fun u f => fst (copy_field (fst f) (snd f) u)) u fields in
  (length u <= length u')%nat /\ (length u' = length u -> u' = u).
Proof.
  induction fields as [|f fields IH]; intros u; [done|]. cbn [foldl].
  destruct (copy_field_grows (fst f) (snd f) u) as [H1 H2]. destruct (IH (fst (copy_field (fst f) (snd f) u))) as [H3 H4].
  split; [lia|]. intros Hl. rewrite H4 by lia. by rewrite H2 by lia.
Qed.

Lemma counts_copies fields : forall u,
  Forall (fun f => fst f ∈ count_keys) fields -> counts_ok u ->
  counts_ok (foldl (fun u f => fst (copy_field (fst f) (snd f) u)) u fields).
Proof.
  induction fields as [|f fields IH]; intros u Hf Hu; [done|]. apply Forall_cons in Hf as [Hf Hfs].
  apply IH; [done|]. by apply counts_copy.
Qed.

(** What comes after the mapping *)
Definition finish_usage (u : dict) : res (dict * bool * bool) :=
  let! total := missing_total u in
  let '(u, m3) := match total with Some t => (od_set "total_tokens" t u, true) | None => (u, false) end in
  let! '(u, m4) := enrich u in Ok (u, m3, m4).

Lemma finish_usage_grows u u' a b : finish_usage u = Ok (u', a, b) -> (length u <= length u')%nat.
Proof.
  unfold finish_usage. intros Hf. apply res_bind_ok in Hf as (t & _ & Hf).
  assert (exists u1 m, (match t with Some t => (od_set "total_tokens" t u, true) | None => (u, false) end) = (u1, m)
            /\ (length u <= length u1)%nat) as (u1 & m & Hm & Hl).
  { destruct t; eexists _, _; (split; [done|]); [apply od_set_longer|done]. }
  rewrite Hm in Hf. apply res_bind_ok in Hf as ([u2 m4] & He & [= <- _ _]).
  apply enrich_spec in He as [(_ & -> & _)|(_ & ? & _)]; lia.
Qed.

(** A usage that compares equal to what it was is what it was. *)
Lemma finish_usage_same u u' a b :
  counts_ok u -> finish_usage u = Ok (u', a, b) -> length u' = length u ->
  (forall x y, od_get "total_tokens" u' = Some x -> od_get "total_tokens" u = Some y -> py_eqb x y = true) ->
  u' = u /\ a = false /\ b = false.
Proof.
  unfold finish_usage. intros Hu Hf Hl Hx. destruct (missing_total_spec u Hu) as (o & Ho & Hspec).
  rewrite Ho in Hf. cbn [res_bind] in Hf. destruct o as [t|].
  - exfalso. destruct Hspec as (Hf0 & x & y & _ & _ & Ha & Hb & Hlt & ->).
    apply res_bind_ok in Hf as ([u2 m4] & He & [= <- _ _]). pose proof (od_set_longer "total_tokens" (PInt (x + y)) u) as Hg.
    apply enrich_spec in He as [(_ & -> & _)|(_ & ? & _)]; [|lia].
    rewrite length_od_set in Hl. destruct (decide _) as [Hk|_]; [|lia].
    destruct (od_get "total_tokens" u) as [old|] eqn:Hold; [|by apply od_get_None in Hold].
    specialize (Hx _ old (od_get_set_eq _ _ _) eq_refl). apply dget_found in Hold. rewrite Hold in Hf0.
    destruct old as [|[]|z|f r|s|l|d|s]; cbn in Hx, Hf0; try done.
    + lia.
    + apply negb_false_iff, Z.eqb_eq in Hf0. apply Z.eqb_eq in Hx. lia.
    + destruct f; try done. cbn in Hx. destruct (x + y) eqn:?; [lia|done|lia].
  - apply res_bind_ok in Hf as ([u2 m4] & He & [= <- <- <-]).
    apply enrich_spec in He as [(-> & -> & _)|(_ & ? & _)]; [done|lia].
Qed.

Lemma finish_usage_idle u u' : finish_usage u = Ok (u', false, false) -> u' = u /\ od_get "cache_hit" u <> None.
Proof.
  unfold finish_usage. intros Hf. apply res_bind_ok in Hf as ([t|] & _ & Hf);
    apply res_bind_ok in Hf as ([u2 m4] & He & [= <- ->]); try done.
  by apply enrich_spec in He as [(_ & -> & ?)|[? _]].
Qed.

(** The result is settled: nothing is left to compute. *)
Lemma finish_usage_settled u u' a b :
  counts_ok u -> finish_usage u = Ok (u', a, b) ->
  finish_usage u' = Ok (u', false, false) /\ forall k, k ∉ "total_tokens" :: cache_keys -> od_get k u' = od_get k u.
Proof.
  intros Hu Hf. unfold finish_usage in Hf. destruct (missing_total_spec u Hu) as (o & Ho & Hspec). rewrite Ho in Hf.
  cbn [res_bind] in Hf.
  assert (exists u1, enrich u1 = Ok (u', b) /\ (forall k, k <> "total_tokens" -> od_get k u1 = od_get k u)
            /\ missing_total u1 = Ok None) as (u1 & He & Hk & Hm).
  { destruct o as [t|]; apply res_bind_ok in Hf as ([u2 m4] & He & [= <- <- <-]); eexists; (split; [done|]).
    - split; [intros k Hk; by rewrite od_get_set_ne|]. unfold missing_total. rewrite dget_set_eq.
      destruct Hspec as (_ & x & y & _ & _ & _ & _ & Hlt & ->). cbn [truthy]. by destruct (x + y =? 0) eqn:?; [lia|].
    - split; [done|]. done. }
  assert (od_get "cache_hit" u' <> None /\ forall k, k ∉ cache_keys -> od_get k u' = od_get k u1) as [Hc Hk'].
  { by apply enrich_spec in He as [(_ & -> & ?)|(_ & _ & ? & ?)]. }
  split.
  - unfold finish_usage. assert (missing_total u' = Ok None) as ->.
    { rewrite <- Hm. unfold missing_total, dget, dget_or.
      rewrite !Hk' by (apply (bool_decide_unpack _); exact I). done. }
    cbn [res_bind]. unfold enrich. by destruct (od_get "cache_hit" u').
  - intros k Hn. apply not_elem_of_cons in Hn as [Hn1 Hn2]. by rewrite Hk', Hk.
Qed.

(** *** The mapped fields *)

Definition fields_of (provider : string) : list (string * string) := default [] (od_get provider _PROVIDER_USAGE_MAPS).
Definition mapped (fields : list (string * string)) (u : dict) : dict :=
  foldl (fun u f => fst (copy_field (fst f) (snd f) u)) u fields.

(** No field of the list would be copied. *)
Definition idle (fields : list (string * string)) (u : dict) : Prop :=
  Forall (fun f => od_get (fst f) u = None \/ od_get (snd f) u <> None) fields.

Lemma idle_mapped fields u : idle fields u -> mapped fields u = u.
Proof.
  unfold mapped. induction 1 as [|f fields Hf _ IH]; [done|]. cbn [foldl].
  destruct (copy_field_get (fst f) (snd f) u) as [[-> _]|(v & Hs & Hd & _)]; [done|]. destruct Hf; congruence.
Qed.

Lemma copy_field_keeps src dst u k :
  (k <> dst -> od_get k (fst (copy_field src dst u)) = od_get k u) /\
  (od_get k u <> None -> od_get k (fst (copy_field src dst u)) <> None).
Proof.
  destruct (copy_field_get src dst u) as [[-> _]|(v & _ & Hd & ->)]; [done|]. cbn [fst]. split.
  - intros Hk. by rewrite od_get_set_ne.
  - intros Hk. rewrite od_get_set_ne; [done|]. by intros <-.
Qed.

Lemma mapped_keeps fields : forall u k,
  (k ∉ map snd fields -> od_get k (mapped fields u) = od_get k u) /\
  (od_get k u <> None -> od_get k (mapped fields u) <> None).
Proof.
  unfold mapped. induction fields as [|f fields IH]; intros u k; [done|]. cbn [foldl map].
  destruct (copy_field_keeps (fst f) (snd f) u k) as [H1 H2], (IH (fst (copy_field (fst f) (snd f) u)) k) as [H3 H4].
  split.
  - intros Hk. apply not_elem_of_cons in Hk as [Hk1 Hk2]. by rewrite H3, H1.
  - auto.
Qed.

Lemma mapped_idle fields : forall u,
  (forall f, f ∈ fields -> fst f ∉ map snd fields) -> idle fields (mapped fields u).
Proof.
  unfold idle. induction fields as [|f fields IH]; intros u Hf; [constructor|]. constructor.
  - change (mapped (f :: fields) u) with (mapped fields (fst (copy_field (fst f) (snd f) u))).
    assert (fst f ∉ map snd (f :: fields)) as Hn by (apply Hf; by left).
    cbn [map] in Hn. apply not_elem_of_cons in Hn as [Hn1 Hn2].
    set (u1 := fst (copy_field (fst f) (snd f) u)).
    destruct (mapped_keeps fields u1 (fst f)) as [-> _]; [|done]. destruct (mapped_keeps fields u1 (snd f)) as [_ Hk].
    destruct (copy_field_get (fst f) (snd f) u) as [[Hc [?|?]]|(v & _ & _ & Hc)]; unfold u1 in *; rewrite Hc in *; cbn [fst] in *.
    + by left.
    + right. by apply Hk.
    + right. apply Hk. by rewrite od_get_set_eq.
  - apply (IH (fst (copy_field (fst f) (snd f) u))). intros g Hg Hn. apply (Hf g); [by right|]. cbn [map]. by right.
Qed.

Lemma provider_usage_spec p u :
  match finish_usage (mapped (fields_of p) u) with
  | Ok (u', _, _) => exists l, provider_usage p u = Ok (u', l)
  | Raise e => provider_usage p u = Raise e
  end.
Proof.
  unfold provider_usage, finish_usage. rewrite (surjective_pairing (map_usage u _)), map_usage_fst.
  fold (fields_of p) (mapped (fields_of p) u). destruct (missing_total _) as [[t|]|]; cbn [res_bind]; [| |done];
    (destruct (enrich _) as [[u' b]|]; cbn [res_bind]; [by eexists|done]).
Qed.

Lemma any_usage_spec u :
  match finish_usage (mapped (fields_of "anthropic") u) with
  | Ok (u', a, b) => exists m, any_usage u = Ok (u', m || a || b) /\ (m = false -> mapped (fields_of "anthropic") u = u)
  | Raise e => any_usage u = Raise e
  end.
Proof.
  unfold any_usage, finish_usage, mapped.
  change (fields_of "anthropic") with [("input_tokens", "prompt_tokens"); ("output_tokens", "completion_tokens")].
  cbn [foldl fst snd].
  destruct (copy_field "input_tokens" _ u) as [u1 m1] eqn:H1. cbn [fst].
  destruct (copy_field "output_tokens" _ u1) as [u2 m2] eqn:H2. cbn [fst].
  assert (m1 || m2 = false -> u2 = u) as Hm.
  { intros [-> ->]%orb_false_iff. destruct (copy_field_get "input_tokens" "prompt_tokens" u) as [[E _]|(? & _ & _ & E)]; [|congruence].
    destruct (copy_field_get "output_tokens" "completion_tokens" u1) as [[E2 _]|(? & _ & _ & E2)]; congruence. }
  destruct (missing_total u2) as [[t|]|]; cbn [res_bind]; [| |done];
    (destruct (enrich _) as [[u' b]|]; cbn [res_bind]; [|done]); exists (m1 || m2); done.
Qed.
End usage.

(** ** The two agree *)

Section agreement.
Context `{FloatRepr}.

Lemma fix_content_idle c t c' : fix_content c t = Ok (c', []) -> c' = c.
Proof.
  unfold fix_content. repeat case_match; intros Hf; unbind Hf; repeat case_match; simplify_eq; done.
Qed.

Lemma replace_same r : replace_response r (content r) (usage r) = r.
Proof. by destruct r. Qed.

(** The flag only saves the copy. *)
Lemma replaced r c' new (changed : bool) (l : list change) :
  (l = [] -> c' = content r) -> (changed = false -> new = usage r) ->
  (if changed || match l with [] => false | _ => true end then replace_response r c' new else r)
  = replace_response r c' new.
Proof.
  intros Hc Hu. destruct changed; [done|]. rewrite Hu by done. destruct l; [|done]. cbn. by rewrite Hc, replace_same.
Qed.

Lemma dict_of_usage v u k : dict_of v = Ok u -> od_get k u <> None -> v = PDict u.
Proof. unfold dict_of. destruct v as [| | | |[]|[]| |]; intros [= <-]; done. Qed.

(** A usage that is kept is the normalised one. *)
Lemma usage_kept fields u u' a b :
  Forall (fun f => fst f ∈ count_keys) fields -> counts_ok u -> finish_usage (mapped fields u) = Ok (u', a, b) ->
  py_eqb (PDict u') (PDict u) = true -> u' = u /\ mapped fields u = u /\ a = false /\ b = false.
Proof.
  intros Hf Hu Hfin [Hl Hd]%py_eqb_dict. destruct (copies_grow fields u) as [H1 H2].
  fold (mapped fields u) in H1, H2. apply finish_usage_grows in Hfin as H3.
  assert (mapped fields u = u) as E by (apply H2; lia). rewrite E in Hfin.
  destruct (finish_usage_same u u' a b Hu Hfin Hl) as (-> & -> & ->); [|done].
  intros x y Hx Hy. destruct (Hd "total_tokens" x) as (z & Hz & ?); [by apply od_get_Some_elem|]. congruence.
Qed.

Lemma fields_counted p : Forall (fun f => fst f ∈ count_keys) (fields_of p).
Proof.
  unfold fields_of. destruct (od_get p _PROVIDER_USAGE_MAPS) as [l|] eqn:Hp; [|constructor].
  apply od_get_Some_elem in Hp. unfold _PROVIDER_USAGE_MAPS in Hp.
  repeat (apply elem_of_cons in Hp as [[= -> ->]|Hp]); [..|by apply not_elem_of_nil in Hp];
    repeat constructor; apply (bool_decide_unpack _); exact I.
Qed.

Lemma fields_disjoint p f : f ∈ fields_of p -> fst f ∉ map snd (fields_of p).
Proof.
  unfold fields_of. destruct (od_get p _PROVIDER_USAGE_MAPS) as [l|] eqn:Hp; [|by intros ?%not_elem_of_nil].
  apply od_get_Some_elem in Hp. unfold _PROVIDER_USAGE_MAPS in Hp.
  repeat (apply elem_of_cons in Hp as [[= -> ->]|Hp]); [..|by apply not_elem_of_nil in Hp]; cbn [default map fst snd]; intros Hf;
    repeat (apply elem_of_cons in Hf as [->|Hf]); try (by apply not_elem_of_nil in Hf);
    apply (bool_decide_unpack _); exact I.
Qed.

(** What the usage of the result is *)
Lemma normalize_response_spec r p :
  (forall u, dict_of (usage r) = Ok u -> counts_ok u) ->
  match (if is_none (usage r) then Ok PNone
         else let! u := dict_of (usage r) in
              let! x := finish_usage (mapped (fields_of p) u) in Ok (PDict (fst (fst x)))) with
  | Ok new => match fix_content (content r) (thinking_content r) with
              | Ok (c, _) => exists l, normalize_response r p = Ok (replace_response r c new, l)
              | Raise e => normalize_response r p = Raise e
              end
  | Raise e => normalize_response r p = Raise e
  end.
Proof.
  intros Hu. unfold normalize_response. destruct (is_none (usage r)) eqn:Hn.
  { cbn [res_bind]. destruct (fix_content _ _) as [[c l]|] eqn:Hf; cbn [res_bind]; [|done].
    eexists. rewrite replaced; [|intros ->; by apply fix_content_idle in Hf|done].
    by destruct (usage r). }
  destruct (dict_of (usage r)) as [u|] eqn:Hd; cbn [res_bind]; [|done].
  pose proof (provider_usage_spec p u) as Hp.
  destruct (finish_usage (mapped (fields_of p) u)) as [[[u' a] b]|] eqn:Hfin; [|by rewrite Hp].
  destruct Hp as [l1 ->]. cbn [res_bind fst].
  assert (py_eqb (PDict u') (usage r) = true -> usage r = PDict u') as Hsame.
  { intros He. destruct (usage r) as [| | | | | |d|] eqn:Hr; try done. injection Hd as ->.
    by destruct (usage_kept _ _ _ _ _ (fields_counted p) (Hu u eq_refl) Hfin He) as (-> & _). }
  destruct (py_eqb _ _); cbn [res_bind]; (destruct (fix_content _ _) as [[c l]|] eqn:Hf; cbn [res_bind]; [|done]);
    eexists; rewrite replaced; try done; try (intros ->; by apply fix_content_idle in Hf).
  by rewrite Hsame.
Qed.

Lemma normalize_model_response_spec r p :
  (forall u, dict_of (usage r) = Ok u -> counts_ok u) ->
  match (if is_none (usage r) then Ok PNone
         else let! u := dict_of (usage r) in
              let! x := finish_usage (mapped (fields_of "anthropic") u) in Ok (PDict (fst (fst x)))) with
  | Ok new => match fix_content (content r) (thinking_content r) with
              | Ok (c, _) => normalize_model_response r p = Ok (replace_response r c new)
              | Raise e => normalize_model_response r p = Raise e
              end
  | Raise e => normalize_model_response r p = Raise e
  end.
Proof.
  intros Hu. unfold normalize_model_response. destruct (is_none (usage r)) eqn:Hn.
  { cbn [res_bind]. destruct (fix_content _ _) as [[c l]|] eqn:Hf; cbn [res_bind]; [|done].
    rewrite replaced; [|intros ->; by apply fix_content_idle in Hf|done]. by destruct (usage r). }
  destruct (dict_of (usage r)) as [u|] eqn:Hd; cbn [res_bind]; [|done].
  pose proof (any_usage_spec u) as Hp.
  destruct (finish_usage (mapped (fields_of "anthropic") u)) as [[[u' a] b]|] eqn:Hfin; [|by rewrite Hp].
  destruct Hp as (m & -> & Hm). cbn [res_bind fst].
  assert (m || a || b = false -> usage r = PDict u') as Hsame.
  { intros [[Hm0 ->]%orb_false_iff ->]%orb_false_iff. rewrite Hm in Hfin by done.
    apply finish_usage_idle in Hfin as [-> Hc]. by eapply dict_of_usage. }
  destruct (m || a || b); cbn [res_bind]; (destruct (fix_content _ _) as [[c l]|] eqn:Hf; cbn [res_bind]; [|done]);
    rewrite replaced; try done; try (intros ->; by apply fix_content_idle in Hf).
  by rewrite Hsame.
Qed.

(** The provider's own names are those the other normaliser maps, or nothing is mapped
    by either. *)
Definition same_names (p : string) (u : dict) : Prop :=
  p = "anthropic" \/ (idle (fields_of "anthropic") u /\ idle (fields_of p) u).

(** Two normalisers, one answer.  Whether the schema engine exists or not, a response
    with sane counts is normalised alike, or raises alike, as long as its usage carries
    the canonical names or those of Anthropic's own provider. *)
Theorem normalizers_agree r p :
  (forall u, dict_of (usage r) = Ok u -> counts_ok u /\ same_names p u) ->
  normalize_model_response r p = let! '(r', _) := normalize_response r p in Ok r'.
Proof.
  intros Hu. pose proof (normalize_response_spec r p (fun u Hd => proj1 (Hu u Hd))) as H1.
  pose proof (normalize_model_response_spec r p (fun u Hd => proj1 (Hu u Hd))) as H2.
  assert (forall u, dict_of (usage r) = Ok u -> mapped (fields_of p) u = mapped (fields_of "anthropic") u) as Hm.
  { intros u Hd. destruct (Hu u Hd) as [_ [->|[Ha Hp]]]; [done|]. by rewrite !idle_mapped. }
  destruct (is_none (usage r)).
  { destruct (fix_content _ _) as [[c l]|]; [destruct H1 as [l' ->]|rewrite H1]; done. }
  destruct (dict_of (usage r)) as [u|] eqn:Hd; cbn [res_bind] in *; [|by rewrite H1, H2].
  rewrite Hm in H1 by done. destruct (finish_usage _) as [x|]; cbn [res_bind] in *; [|by rewrite H1, H2].
  destruct (fix_content _ _) as [[c l]|]; [destruct H1 as [l' ->]|rewrite H1]; done.
Qed.

Definition text_or_none (v : pyval) : Prop := v = PNone \/ exists s, v = PStr s.

Lemma fix_content_settled c t c' l :
  text_or_none t -> fix_content c t = Ok (c', l) ->
  (exists l', fix_content c' t = Ok (c', l')) /\ is_str c' = true /\
  (truthy t = true -> exists s, c' = PStr s /\ (strip s <> "" \/ c' = t)).
Proof.
  intros Ht Hf. unfold fix_content in Hf.
  destruct (if eq_str c _RETRY_SENTINEL then _ else _) as [c1 l1] eqn:E1.
  destruct (if is_none c1 then _ else _) as [c2 l2] eqn:E2.
  apply res_bind_ok in Hf as (s & Hs & Hf). destruct c2 as [| | | |s2| | |] eqn:Hc2; try done. injection Hs as <-.
  destruct (if bool_decide _ && _ then _ else _) as [c3 l3] eqn:E3. injection Hf as <- <-.
  destruct (bool_decide (strip s2 = "") && truthy t) eqn:Hb; injection E3 as <- <-.
  - apply andb_true_iff in Hb as [Hb Htr]. destruct Ht as [->|(s & ->)]; [done|].
    split; [|split; [done|]; intros _; exists s; auto].
    unfold fix_content. destruct (eq_str (PStr s) _RETRY_SENTINEL) eqn:He.
    + cbn [is_none strip_of res_bind]. change (strip "") with "". rewrite bool_decide_true, Htr by done. by eexists.
    + cbn [is_none strip_of res_bind]. rewrite Htr.
      destruct (bool_decide (strip s = "")); eexists; reflexivity.
  - split; [|split; [done|]].
    + unfold fix_content. destruct (eq_str (PStr s2) _RETRY_SENTINEL) eqn:He.
      * apply eq_str_iff in He. injection He as ->. exfalso.
        destruct (eq_str c _RETRY_SENTINEL) eqn:Hc; injection E1 as <- <-; [done|].
        destruct (is_none c); [done|]. injection E2 as -> <-. done.
      * cbn [is_none strip_of res_bind]. rewrite Hb. by eexists.
    + intros Htr. rewrite Htr, andb_true_r in Hb. exists s2. split; [done|]. left. by apply bool_decide_eq_false in Hb.
Qed.
End agreement.

(** ** Properties *)

Section contract.
Context `{FloatRepr}.

(** The contract of a normalised response.  Normalising again changes nothing; the
    content is text, and it is blank only when there is no reasoning trace to show
    instead; a usage names its cache fields, the provider's names and, when anything was
    counted, the total; nothing but content and usage changes. *)
Theorem normalisation_is_settled r p r' l :
  (forall u, dict_of (usage r) = Ok u -> counts_ok u) -> text_or_none (thinking_content r) ->
  normalize_response r p = Ok (r', l) ->
  (exists l', normalize_response r' p = Ok (r', l')) /\
  r' = replace_response r (content r') (usage r') /\ is_str (content r') = true /\
  (truthy (thinking_content r) = true ->
     exists s, content r' = PStr s /\ (strip s <> "" \/ content r' = thinking_content r)) /\
  (usage r <> PNone -> exists u, usage r' = PDict u /\ idle (fields_of p) u /\ od_get "cache_hit" u <> None /\
     (truthy (dget "total_tokens" u) = true \/
      (count "prompt_tokens" u = PInt 0 /\ count "completion_tokens" u = PInt 0))).
Proof.
  intros Hu Ht Hr. pose proof (normalize_response_spec r p Hu) as Hs.
  assert (exists c new l1, fix_content (content r) (thinking_content r) = Ok (c, l1) /\ r' = replace_response r c new /\
            ((usage r = PNone /\ new = PNone) \/
             (usage r <> PNone /\ exists u u' a b, dict_of (usage r) = Ok u /\
                finish_usage (mapped (fields_of p) u) = Ok (u', a, b) /\ new = PDict u')))
    as (c & new & l1 & Hc & -> & Hnew).
  { destruct (is_none (usage r)) eqn:Hn.
    - destruct (fix_content _ _) as [[c l1]|] eqn:Hf; [|congruence]. destruct Hs as [l' Hs]. rewrite Hs in Hr.
      injection Hr as <- <-. exists c, PNone, l1. split_and!; try done. left. split; [|done]. by destruct (usage r).
    - destruct (dict_of (usage r)) as [u|] eqn:Hd; cbn [res_bind] in Hs; [|congruence].
      destruct (finish_usage _) as [[[u' a] b]|] eqn:Hfin; cbn [res_bind fst] in Hs; [|congruence].
      destruct (fix_content _ _) as [[c l1]|] eqn:Hf; [|congruence]. destruct Hs as [l' Hs]. rewrite Hs in Hr.
      injection Hr as <- <-. exists c, (PDict u'), l1. split_and!; try done. right. split; [by intros E; rewrite E in Hn|].
      exists u, u', a, b. done. }
  destruct (fix_content_settled _ _ _ _ Ht Hc) as ((l2 & Hc2) & Hstr & Hthink).
  cbn [content usage replace_response thinking_content].
  assert (forall u u' a b, dict_of (usage r) = Ok u -> finish_usage (mapped (fields_of p) u) = Ok (u', a, b) ->
            counts_ok u' /\ mapped (fields_of p) u' = u' /\ idle (fields_of p) u' /\
            finish_usage u' = Ok (u', false, false)) as Hset.
  { intros u u' a b Hd Hfin. pose proof (counts_copies (fields_of p) u (fields_counted p) (Hu u Hd)) as Hcm.
    destruct (finish_usage_settled _ _ _ _ Hcm Hfin) as [Hfin' Hk].
    assert (forall k, k ∈ count_keys -> od_get k u' = od_get k (mapped (fields_of p) u)) as Hkc.
    { intros k Hin. apply Hk. intros Hx. revert Hin. clear -Hx.
      repeat (apply elem_of_cons in Hx as [->|Hx]); [..|by apply not_elem_of_nil in Hx]; apply (bool_decide_unpack _); exact I. }
    assert (counts_ok u') as Hcu by (intros k Hin; unfold dget; rewrite Hkc by done; by apply Hcm).
    assert (idle (fields_of p) u') as Hi.
    { pose proof (mapped_idle (fields_of p) u (fields_disjoint p)) as Hi. unfold idle in *.
      pose proof (fields_counted p) as Hfc. rewrite Forall_forall in *. intros f Hf.
      rewrite Hkc by (by apply Hfc). destruct (Hi f Hf) as [?|Hd']; [by left|right].
      rewrite Hkc; [done|]. clear -Hf. unfold fields_of in Hf.
      destruct (od_get p _PROVIDER_USAGE_MAPS) as [m|] eqn:Hp; [|by apply not_elem_of_nil in Hf].
      apply od_get_Some_elem in Hp. unfold _PROVIDER_USAGE_MAPS in Hp.
      repeat (apply elem_of_cons in Hp as [[= -> ->]|Hp]); [..|by apply not_elem_of_nil in Hp]; cbn [default] in Hf;
        repeat (apply elem_of_cons in Hf as [->|Hf]); try (by apply not_elem_of_nil in Hf); apply (bool_decide_unpack _); exact I. }
    split_and!; try done. by apply idle_mapped. }
  split_and!; try done.
  - pose proof (normalize_response_spec (replace_response r c new) p) as Hs2.
    cbn [content usage replace_response thinking_content] in Hs2. rewrite Hc2 in Hs2.
    assert (forall n, replace_response (replace_response r c new) c n = replace_response r c n) as Hrr by done.
    destruct Hnew as [[_ ->]|(_ & u & u' & a & b & Hd & Hfin & ->)].
    + apply Hs2. done.
    + destruct (Hset _ _ _ _ Hd Hfin) as (Hcu & Hm & _ & Hf2). cbn [is_none dict_of res_bind] in Hs2.
      rewrite Hm, Hf2 in Hs2. cbn [res_bind fst] in Hs2. apply Hs2. by intros ? [= <-].
  - intros Hne. destruct Hnew as [[? _]|(_ & u & u' & a & b & Hd & Hfin & ->)]; [done|]. exists u'.
    destruct (Hset _ _ _ _ Hd Hfin) as (Hcu & _ & Hi & Hf2). split_and!; try done.
    + by apply finish_usage_idle in Hf2 as [_ ?].
    + unfold finish_usage in Hf2. destruct (missing_total_spec u' Hcu) as (o & Ho & Hsp). rewrite Ho in Hf2.
      destruct o; [|done]. cbn [res_bind] in Hf2. apply res_bind_ok in Hf2 as ([? ?] & _ & [=]).
Qed.
End contract.

(** Counts of a gateway that speaks Anthropic's names under another provider *)
Definition named_usage (i o : Z) : dict := [("input_tokens", PInt i); ("output_tokens", PInt o)].

Lemma engine_loses_tokens_spec `{FloatRepr} r p i o :
  p <> "anthropic" -> usage r = PDict (named_usage i o) -> 0 <= i -> 0 <= o -> 0 < i + o -> is_str (content r) = true ->
  (exists r' l, normalize_response r p = Ok (r', l) /\ exists u, usage r' = PDict u /\
     od_get "prompt_tokens" u = None /\ od_get "completion_tokens" u = None /\ od_get "total_tokens" u = None) /\
  (exists r', normalize_model_response r p = Ok r' /\ exists u, usage r' = PDict u /\
     od_get "prompt_tokens" u = Some (PInt i) /\ od_get "completion_tokens" u = Some (PInt o) /\
     od_get "total_tokens" u = Some (PInt (i + o))).
Proof.
  intros Hp Hr Hi Ho Hio Hc.
  assert (forall u, dict_of (usage r) = Ok u -> counts_ok u) as Hu.
  { intros u Hd. rewrite Hr in Hd. injection Hd as <-. intros k Hk. unfold named_usage.
    repeat (apply elem_of_cons in Hk as [->|Hk]); [..|by apply not_elem_of_nil in Hk]; cbn; unfold count_val; eauto. }
  destruct (content r) as [| | | |s| | |] eqn:Es; try done.
  assert (exists c l, fix_content (content r) (thinking_content r) = Ok (c, l)) as (c & l & Hf).
  { rewrite Es. unfold fix_content. destruct (eq_str (PStr s) _RETRY_SENTINEL); cbn [is_none strip_of res_bind];
      (destruct (bool_decide _ && truthy (thinking_content r))); eexists _, _; reflexivity. }
  pose proof (normalize_response_spec r p Hu) as H1. pose proof (normalize_model_response_spec r p Hu) as H2.
  rewrite Hr, Hf in H1, H2. cbn [is_none dict_of res_bind] in H1, H2.
  assert (idle (fields_of p) (named_usage i o)) as Hidle.
  { unfold fields_of. destruct (od_get p _PROVIDER_USAGE_MAPS) as [m|] eqn:Hm; [|constructor].
    apply od_get_Some_elem in Hm. unfold _PROVIDER_USAGE_MAPS in Hm.
    repeat (apply elem_of_cons in Hm as [[= -> ->]|Hm]); [done|..|by apply not_elem_of_nil in Hm]; cbn [default];
      repeat constructor; by left. }
  rewrite idle_mapped in H1 by done. split.
  - destruct (finish_usage (named_usage i o)) as [x|] eqn:Hfin; [|done].
    vm_compute in Hfin. injection Hfin as <-. cbn [res_bind fst] in H1. destruct H1 as [l' ->].
    eexists _, _. split; [done|]. eexists. split; [done|]. done.
  - change (mapped (fields_of "anthropic") (named_usage i o))
      with (od_set "completion_tokens" (PInt o) (od_set "prompt_tokens" (PInt i) (named_usage i o))) in H2.
    set (u := od_set _ _ _) in H2. assert (counts_ok u) as Hcu.
    { apply (counts_copies (fields_of "anthropic") (named_usage i o) (fields_counted _)). by apply Hu; rewrite Hr. }
    destruct (count_int "prompt_tokens" u) as (a & _ & Ha); [apply Hcu; apply (bool_decide_unpack _); exact I|].
    destruct (count_int "completion_tokens" u) as (b & _ & Hb); [apply Hcu; apply (bool_decide_unpack _); exact I|].
    assert (forall n, por (PInt n) (PInt 0) = PInt n) as Hpor
      by (intros n; unfold por; cbn [truthy]; by destruct (Z.eqb_spec n 0) as [->|]).
    change (por (PInt i) (PInt 0) = PInt a) in Ha. change (por (PInt o) (PInt 0) = PInt b) in Hb.
    rewrite Hpor in Ha, Hb. injection Ha as <-. injection Hb as <-.
    assert (missing_total u = Ok (Some (PInt (i + o)))) as Hm.
    { destruct (missing_total_spec u Hcu) as ([t|] & -> & Hsp).
      - destruct Hsp as (_ & a & b & Ha & Hb & _ & _ & _ & ->).
        change (por (PInt i) (PInt 0) = PInt a) in Ha. change (por (PInt o) (PInt 0) = PInt b) in Hb.
        rewrite Hpor in Ha, Hb. injection Ha as <-. by injection Hb as <-.
      - destruct Hsp as [?|[Ha Hb]]; [done|].
        change (por (PInt i) (PInt 0) = PInt 0) in Ha. change (por (PInt o) (PInt 0) = PInt 0) in Hb.
        rewrite Hpor in Ha, Hb. injection Ha as ->. injection Hb as ->. lia. }
    unfold finish_usage in H2. rewrite Hm in H2. cbn [res_bind] in H2.
    change (enrich (od_set "total_tokens" (PInt (i + o)) u))
      with (Ok (merge (od_set "total_tokens" (PInt (i + o)) u)
                  [("cache_hit", PBool false); ("cached_tokens", PInt 0); ("cache_creation_tokens", PInt 0)], true)) in H2.
    cbn [res_bind fst] in H2. rewrite H2. eexists. split; [done|]. eexists. split; [done|]. done.
Qed.

(** Tokens of a generic upstream are lost.  When the schema engine exists, a usage
    that names its counts in Anthropic's way is left as it is for every other provider
    than Anthropic, so no canonical count and no total is there to be recorded and
    charged; without the engine the same response is counted. *)
Theorem engine_loses_tokens `{FloatRepr} r p i o :
  p <> "anthropic" -> usage r = PDict (named_usage i o) -> 0 <= i -> 0 <= o -> 0 < i + o -> is_str (content r) = true ->
  (exists r' l, normalize_response r p = Ok (r', l) /\ exists u, usage r' = PDict u /\
     od_get "prompt_tokens" u = None /\ od_get "completion_tokens" u = None /\ od_get "total_tokens" u = None) /\
  (exists r', normalize_model_response r p = Ok r' /\ exists u, usage r' = PDict u /\
     od_get "prompt_tokens" u = Some (PInt i) /\ od_get "completion_tokens" u = Some (PInt o) /\
     od_get "total_tokens" u = Some (PInt (i + o))).
Proof. exact (engine_loses_tokens_spec r p i o). Qed.

Lemma engine_loses_tokens_witness :
  let H : FloatRepr := fun _ => "" in
  let r := MkResponse (PStr "hi") (PDict (named_usage 40 2)) "" PNone [] false PNone in
  is_str (content r) = true /\
  (exists r' l, normalize_response r "generic" = Ok (r', l) /\ exists u, usage r' = PDict u /\
     od_get "prompt_tokens" u = None /\ od_get "completion_tokens" u = None /\ od_get "total_tokens" u = None).
Proof.
  intros H r. split; [reflexivity|].
  exact (proj1 (engine_loses_tokens (H := H) r "generic" 40 2 ltac:(discriminate) eq_refl ltac:(lia) ltac:(lia) ltac:(lia) eq_refl)).
Defined.

(** A reasoning model that answers nothing, and an empty usage *)
Definition silent : ModelResponse :=
  MkResponse (PStr _RETRY_SENTINEL) (PDict [("prompt_tokens", PInt 3); ("completion_tokens", PInt 4)]) "" PNone [] false
    (PStr "Let me see.").

Lemma sane_silent u : dict_of (usage silent) = Ok u -> counts_ok u.
Proof.
  intros [= <-] k Hk. repeat (apply elem_of_cons in Hk as [->|Hk]); [..|by apply not_elem_of_nil in Hk]; cbn;
    unfold count_val; try (right; eexists; split; [|reflexivity]; lia); by left.
Qed.

Lemma normalisation_is_settled_witness :
  let H : FloatRepr := fun _ => "" in
  exists r' l, normalize_response silent "openai" = Ok (r', l) /\ content r' = PStr "Let me see." /\
    exists l', normalize_response r' "openai" = Ok (r', l').
Proof.
  intros H. eexists _, _. split; [vm_compute; reflexivity|]. split; [reflexivity|].
  refine (proj1 (normalisation_is_settled (H := H) silent "openai" _ _ sane_silent (or_intror _) _)).
  - exists "Let me see."; reflexivity.
  - vm_compute; reflexivity.
Defined.

Lemma normalizers_agree_witness :
  let H : FloatRepr := fun _ => "" in
  (forall u, dict_of (usage silent) = Ok u -> counts_ok u /\ same_names "ollama" u) /\
  normalize_model_response silent "ollama" = let! '(r', _) := normalize_response silent "ollama" in Ok r'.
Proof.
  intros H.
  assert (forall u, dict_of (usage silent) = Ok u -> counts_ok u /\ same_names "ollama" u) as Hs.
  { intros u Hd. split; [by apply sane_silent|]. injection Hd as <-. right. split; repeat constructor; left; reflexivity. }
  split; [exact Hs|]. exact (normalizers_agree (H := H) silent "ollama" Hs).
Defined.

(** ** The validation before a write

    classifier/unified.py has its own schemas and two validators: the engine's, and a
    standalone one for when there is no engine. *)

Module Gate.
Definition EXECUTION_SCHEMA : schema :=
  [("execution_id", must Tstr); ("tenant_id", must Tstr); ("gateway_id", must Tstr);
   ("timestamp", must Tstr); ("policy_version", must Tint); ("policy_result", must Tstr);
   ("model_attestation_id", may Tstr (PStr "")); ("model_id", may Tstr (PStr "unknown"));
   ("provider", may Tstr (PStr "unknown")); ("user", may Tstr PNone);
   ("session_id", may Tstr PNone); ("prompt_text", may Tstr PNone);
   ("response_content", may Tstr PNone); ("provider_request_id", may Tstr PNone);
   ("model_hash", may Tstr PNone); ("thinking_content", may Tstr PNone);
   ("prompt_tokens", may Tint (PInt 0)); ("completion_tokens", may Tint (PInt 0));
   ("total_tokens", may Tint (PInt 0)); ("latency_ms", may Tfloat PNone);
   ("cache_hit", may Tbool (PBool false)); ("cached_tokens", may Tint (PInt 0));
   ("cache_creation_tokens", may Tint (PInt 0)); ("retry_of", may Tstr PNone);
   ("variant_id", may Tstr PNone); ("metadata_json", may Tstr PNone);
   ("estimated_cost_usd", may Tfloat PNone); ("sequence_number", may Tint PNone);
   ("record_hash", may Tstr PNone); ("previous_record_hash", may Tstr PNone)].

Definition TOOL_EVENT_SCHEMA : schema :=
  [("event_id", must Tstr); ("execution_id", must Tstr); ("tenant_id", must Tstr);
   ("gateway_id", must Tstr); ("timestamp", must Tstr); ("tool_name", may Tstr (PStr "unknown"));
   ("tool_type", may Tstr (PStr "function")); ("tool_source", may Tstr (PStr "gateway"));
   ("session_id", may Tstr PNone); ("input_data", may Tstr PNone); ("input_hash", may Tstr PNone);
   ("output_data", may Tstr PNone); ("output_hash", may Tstr PNone); ("sources", may Tstr PNone);
   ("duration_ms", may Tfloat PNone); ("iteration", may Tint PNone);
   ("is_error", may Tbool (PBool false)); ("content_analysis", may Tstr PNone)].

Definition ATTEMPT_SCHEMA : schema :=
  [("request_id", must Tstr); ("timestamp", must Tstr); ("tenant_id", must Tstr);
   ("disposition", must Tstr); ("status_code", must Tint); ("path", may Tstr (PStr ""));
   ("provider", may Tstr PNone); ("model_id", may Tstr PNone); ("execution_id", may Tstr PNone);
   ("user", may Tstr PNone)].

Inductive issue := Missing (field : string) | Coerced (field : string) | CoerceFailed (field : string).

Record ValidationReport := MkReport {
  record_type : string;
  issues : list issue;
  coercions : Z;
  defaults_applied : Z;
}.

Section validate.
Context `{FloatRepr}.

(** One turn of the loop of [_validate] *)
Definition validate_step (st : dict * ValidationReport) (field : string * spec) : res (dict * ValidationReport) :=
  let '(cleaned, report) := st in
  let '(field_name, s) := field in
  let value := dget field_name cleaned in
  if is_none value then
    if required s then
      Ok (od_set field_name (fill s) cleaned,
          MkReport (record_type report) (issues report ++ [Missing field_name]) (coercions report) (defaults_applied report + 1))
    else Ok st
  else if isinstance (ty s) value then Ok st
  else match coerce (ty s) value with
       | Ok w => Ok (od_set field_name w cleaned,
                     MkReport (record_type report) (issues report ++ [Coerced field_name]) (coercions report + 1)
                       (defaults_applied report))
       | Raise e =>
           if caught e then
             Ok (od_set field_name (dflt s) cleaned,
                 MkReport (record_type report) (issues report ++ [CoerceFailed field_name]) (coercions report)
                   (defaults_applied report))
           else Raise e
       end.

Definition _validate (record : dict) (sc : schema) (record_type : string) : res (dict * ValidationReport) :=
  fold_res validate_step sc (record, MkReport record_type [] 0 0).

Definition si_validate_execution (record : dict) := _validate record EXECUTION_SCHEMA "execution".
Definition si_validate_tool_event (record : dict) := _validate record TOOL_EVENT_SCHEMA "tool_event".
Definition si_validate_attempt (record : dict) := _validate record ATTEMPT_SCHEMA "attempt".

(** One turn of the loop of [_standalone_validate], which reports only the missing fields *)
Definition standalone_step (st : dict * ValidationReport) (field : string * spec) : res (dict * ValidationReport) :=
  let '(cleaned, report) := st in
  let '(field_name, s) := field in
  let value := dget field_name cleaned in
  if is_none value then
    if required s then
      Ok (od_set field_name (fill s) cleaned,
          MkReport (record_type report) (issues report ++ [Missing field_name]) (coercions report) (defaults_applied report + 1))
    else Ok st
  else if isinstance (ty s) value then Ok st
  else match coerce (ty s) value with
       | Ok w => Ok (od_set field_name w cleaned,
                     MkReport (record_type report) (issues report) (coercions report + 1) (defaults_applied report))
       | Raise e => if caught e then Ok (od_set field_name (dflt s) cleaned, report) else Raise e
       end.

Definition _standalone_validate (record : dict) (sc : schema) (record_type : string) : res (dict * ValidationReport) :=
  fold_res standalone_step sc (record, MkReport record_type [] 0 0).

Definition validate_execution (record : dict) := _standalone_validate record EXECUTION_SCHEMA "execution".
Definition validate_tool_event (record : dict) := _standalone_validate record TOOL_EVENT_SCHEMA "tool_event".
Definition validate_attempt (record : dict) := _standalone_validate record ATTEMPT_SCHEMA "attempt".

(** *** Agreement *)

Definition is_missing (i : issue) : bool := match i with Missing _ => true | _ => false end.

(** The reports of the two on the same record *)
Definition reports_agree (a b : ValidationReport) : Prop :=
  issues b = List.filter is_missing (issues a) /\ coercions b = coercions a /\ defaults_applied b = defaults_applied a
  /\ zlen (issues b) = defaults_applied b.

Lemma steps_agree d ra rb f :
  reports_agree ra rb ->
  match validate_field d f with
  | Ok d' => exists ra' rb', validate_step (d, ra) f = Ok (d', ra') /\ standalone_step (d, rb) f = Ok (d', rb')
               /\ reports_agree ra' rb'
  | Raise e => validate_step (d, ra) f = Raise e /\ standalone_step (d, rb) f = Raise e
  end.
Proof.
  intros (Hi & Hc & Hd & Hn). destruct f as [k s]. unfold validate_field, validate_step, standalone_step.
  assert (forall i, is_missing i = false -> List.filter is_missing (issues ra ++ [i]) = issues rb) as Hf.
  { intros i Hm. rewrite List.filter_app, <- Hi. cbn [List.filter]. by rewrite Hm, app_nil_r. }
  unfold reports_agree. destruct (is_none _).
  - destruct (required s); eexists _, _; (split; [done|]; split; [done|]); [|done]. cbn.
    rewrite List.filter_app, zlen_snoc. cbn. rewrite <- Hi. repeat split; congruence || lia.
  - destruct (isinstance _ _); [by eexists _, _|].
    destruct (coerce _ _) as [w|e]; [|destruct (caught e); [|done]]; eexists _, _; (split; [done|]; split; [done|]); cbn;
      rewrite Hf by done; repeat split; congruence.
Qed.

Lemma folds_agree sc : forall d ra rb,
  reports_agree ra rb ->
  match validate_record d sc with
  | Ok d' => exists ra' rb', fold_res validate_step sc (d, ra) = Ok (d', ra')
               /\ fold_res standalone_step sc (d, rb) = Ok (d', rb') /\ reports_agree ra' rb'
  | Raise e => fold_res validate_step sc (d, ra) = Raise e /\ fold_res standalone_step sc (d, rb) = Raise e
  end.
Proof.
  unfold validate_record. induction sc as [|f sc IH]; intros d ra rb Hr; cbn [fold_res]; [by exists ra, rb|].
  pose proof (steps_agree d ra rb f Hr) as Hs. destruct (validate_field d f) as [d'|e]; cbn [res_bind].
  - destruct Hs as (ra' & rb' & -> & -> & Hr'). cbn [res_bind]. by apply IH.
  - destruct Hs as [-> ->]. done.
Qed.

(** Three validators, one record.  The schemas written twice are the same; the
    engine's validator, the standalone one and that of classifier/schema.py clean every
    record alike, or raise the same, so what is written does not depend on the engine.
    Only the reports differ: without the engine a coerced value leaves no issue. *)
Theorem validators_agree record :
  EXECUTION_SCHEMA = RecordSchema.EXECUTION_SCHEMA /\ TOOL_EVENT_SCHEMA = RecordSchema.TOOL_EVENT_SCHEMA /\
  ATTEMPT_SCHEMA = RecordSchema.ATTEMPT_SCHEMA /\
  forall sc rt,
    match validate_record record sc with
    | Ok cleaned => exists a b, _validate record sc rt = Ok (cleaned, a) /\
        _standalone_validate record sc rt = Ok (cleaned, b) /\ reports_agree a b
    | Raise e => _validate record sc rt = Raise e /\ _standalone_validate record sc rt = Raise e
    end.
Proof. split_and!; try done. intros sc rt. by apply folds_agree. Qed.
End validate.
End Gate.
