(* ===== verification/Mapper.v ===== *)
(** * The schema mapper (schema/mapper.py, schema/canonical.py, schema/features.py)

    Mapping of any provider's response to one canonical form: the response is
    flattened, every field is classified by the table of known paths, else by the
    ONNX model, else by rules, and the canonical response is assembled.

    The model is a parameter from the fields to class indices and confidences; the
    features it reads are not modelled. *)
From Stdlib Require Import SpecFloat.
From S2P Require Import Prelude ODict PyVal PyStr PyObj RecordSchema.

Local Open Scope Z_scope.

(** ** Canonical responses *)

Record CanonicalUsage := MkUsage {
  prompt_tokens : Z;
  completion_tokens : Z;
  total_tokens : Z;
  reasoning_tokens : option Z;
  cached_tokens : option Z;
  cache_creation_tokens : option Z;
  cost_usd : option spec_float;
}.

Definition no_usage : CanonicalUsage := MkUsage 0 0 0 None None None None.

Definition compute_total (u : CanonicalUsage) : CanonicalUsage :=
  if (total_tokens u =? 0) && (negb (prompt_tokens u =? 0) || negb (completion_tokens u =? 0))
  then MkUsage (prompt_tokens u) (completion_tokens u) (prompt_tokens u + completion_tokens u) (reasoning_tokens u)
         (cached_tokens u) (cache_creation_tokens u) (cost_usd u)
  else u.

Record CanonicalToolCall := MkToolCall { tc_id : string; tc_name : string; tc_arguments : pyval; tc_type : string }.
Record CanonicalCitation := MkCitation { url : string; title : option string; snippet : option string }.

Record CanonicalTiming := MkTiming {
  total_ms : option spec_float;
  prompt_ms : option spec_float;
  completion_ms : option spec_float;
  queue_ms : option spec_float;
}.

Record CanonicalSafety := MkSafety { blocked : bool; categories : list (pyval * pyval) }.

Record MappingReport := MkMapping {
  confidence : spec_float;
  confidence_on_mapped : spec_float;
  incomplete : bool;
  mapped_fields : list string;
  unmapped_fields : list string;
}.

Record CanonicalResponse := MkCanonical {
  content : string;
  thinking_content : option string;
  finish_reason : string;
  response_id : option string;
  model : option string;
  model_hash : option string;
  usage : CanonicalUsage;
  tool_calls : list CanonicalToolCall;
  citations : list CanonicalCitation;
  timing : option CanonicalTiming;
  safety : option CanonicalSafety;
  overflow : dict;
  mapping : MappingReport;
}.

Definition zero : spec_float := S754_zero false.
Definition one : spec_float := sf_of_decimal false 1 0.
Definition fadd (a b : spec_float) : spec_float := SFadd prec emax a b.
Definition fdiv (a b : spec_float) : spec_float := SFdiv prec emax a b.

(** [CanonicalResponse(mapping=MappingReport(incomplete=True))] *)
Definition nothing_mapped : CanonicalResponse :=
  MkCanonical "" None "stop" None None None no_usage [] [] None None [] (MkMapping one one true [] []).

Definition is_complete (c : CanonicalResponse) : bool :=
  (negb (bool_decide (content c = "")) || match thinking_content c with Some (String _ _) => true | _ => false end)
  && negb (incomplete (mapping c)).

(** ** Flattening *)

(** Decidability of an empty list needs no equality. *)
#[local] Instance nil_dec {A} (l : list A) : Decision (l = []).
Proof. destruct l; [by left|by right]. Defined.

Record FlatField := MkField {
  path : string;
  key : string;
  value : pyval;
  value_type : string;
  depth : Z;
  parent_key : string;
  sibling_keys : list string;
  sibling_types : list string;
  int_siblings : list pyval;
}.

Definition _type_of (v : pyval) : string :=
  match v with
  | PNone => "null"
  | PBool _ => "bool"
  | PInt _ => "int"
  | PFloat _ _ => "float"
  | PStr _ => "string"
  | PList _ => "array"
  | PDict _ => "object"
  | PRedacted _ => "unknown"
  end.

Definition is_number (v : pyval) : bool := match v with PInt _ | PFloat _ _ => true | _ => false end.

(** [f"{prefix}.{key}" if prefix else key] *)
Definition dotted (prefix k : string) : string := if bool_decide (prefix = "") then k else prefix +:+ "." +:+ k.

(** The field of an entry, with its siblings *)
Definition field_at (obj : dict) (prefix : string) (d : Z) (parent : string) (kv : string * pyval) : FlatField :=
  MkField (dotted prefix (fst kv)) (fst kv) (snd kv) (_type_of (snd kv)) d parent (map fst obj)
    (map (fun kv => _type_of (snd kv)) obj) (List.filter is_number (map snd obj)).

(** Of an array the first element alone is looked at. *)
Fixpoint flatten_json (v : pyval) (prefix : string) (d : Z) (parent : string) : list FlatField :=
  match v with
  | PDict obj =>
      (fix go (l : dict) : list FlatField :=
         match l with
         | [] => []
         | (k, x) :: l =>
             field_at obj prefix d parent (k, x) ::
             match x with
             | PList (y :: _) => flatten_json y (dotted prefix k +:+ ".0") (d + 1) k
             | _ => flatten_json x (dotted prefix k) (d + 1) k
             end ++ go l
         end) obj
  | _ => []
  end.

(** ** Labels *)

Definition UNKNOWN : string := "UNKNOWN".
Definition ENVELOPE_LABEL : string := "envelope".

Definition ENVELOPE_PATH_DISQUALIFIERS : list string := ["arguments"; "input"; "parameters"].
Definition ENVELOPE_KEYS : list string :=
  ["object"; "created"; "index"; "role"; "refusal"; "logprobs"; "service_tier"; "system_fingerprint"; "type";
   "stop_sequence"].

Definition _PATH_FALLBACK_RULES : list (list string * string * string) :=
  [
   (["content"], "content", "content"); (["text"], "text", "content"); (["generated"], "generated_text", "content");
   (["output"], "outputText", "content"); (["output"], "output", "content");
   (["reasoning"], "reasoning_content", "thinking_content"); (["reasoning"], "reasoning", "thinking_content");
   (["thinking"], "thinking", "thinking_content"); (["tool_plan"], "tool_plan", "thinking_content");
   (["finish"], "finish_reason", "finish_reason"); (["stop"], "stop_reason", "finish_reason");
   (["done"], "done_reason", "finish_reason"); (["completion"], "completionReason", "finish_reason");
   (["status"], "status", "finish_reason"); (["prompt"], "prompt_tokens", "prompt_tokens");
   (["input"], "input_tokens", "prompt_tokens"); (["prompt"], "promptTokenCount", "prompt_tokens");
   (["prompt"], "prompt_eval_count", "prompt_tokens"); (["input"], "inputTextTokenCount", "prompt_tokens");
   (["completion"], "completion_tokens", "completion_tokens"); (["output"], "output_tokens", "completion_tokens");
   (["candidates"], "candidatesTokenCount", "completion_tokens"); (["eval"], "eval_count", "completion_tokens");
   (["token"], "tokenCount", "completion_tokens"); (["generated"], "generated_tokens", "completion_tokens");
   (["total"], "total_tokens", "total_tokens"); (["total"], "totalTokenCount", "total_tokens");
   (["cache"], "cached_tokens", "cached_tokens"); (["cache"; "read"], "cache_read_input_tokens", "cached_tokens");
   (["cache"; "hit"], "prompt_cache_hit_tokens", "cached_tokens");
   (["cache"; "creation"], "cache_creation_input_tokens", "cache_creation_tokens"); ([], "object", "envelope");
   ([], "created", "envelope"); ([], "index", "envelope"); ([], "role", "envelope"); ([], "refusal", "envelope");
   ([], "logprobs", "envelope"); ([], "service_tier", "envelope"); ([], "system_fingerprint", "envelope");
   ([], "type", "envelope"); ([], "stop_sequence", "envelope")].

Definition _PROVIDER_PATH_MAP : list (string * string) :=
  [
   ("usage.prompt_tokens", "prompt_tokens"); ("usage.completion_tokens", "completion_tokens");
   ("usage.total_tokens", "total_tokens"); ("usage.prompt_tokens_details.cached_tokens", "cached_tokens");
   ("usage.prompt_tokens_details.audio_tokens", "UNKNOWN");
   ("usage.completion_tokens_details.reasoning_tokens", "reasoning_tokens");
   ("usage.completion_tokens_details.audio_tokens", "UNKNOWN");
   ("usage.completion_tokens_details.accepted_prediction_tokens", "UNKNOWN");
   ("usage.completion_tokens_details.rejected_prediction_tokens", "UNKNOWN");
   ("usage.input_tokens", "prompt_tokens"); ("usage.output_tokens", "completion_tokens");
   ("usage.cache_creation_input_tokens", "cache_creation_tokens");
   ("usage.cache_read_input_tokens", "cached_tokens");
   ("usage.cache_creation.ephemeral_5m_input_tokens", "cache_creation_tokens");
   ("usage.cache_creation.ephemeral_1h_input_tokens", "cache_creation_tokens");
   ("prompt_eval_count", "prompt_tokens"); ("eval_count", "completion_tokens");
   ("prompt_eval_duration", "timing_value"); ("eval_duration", "timing_value"); ("load_duration", "timing_value");
   ("total_duration", "timing_value"); ("id", "response_id"); ("model", "model");
   ("choices.0.message.content", "content"); ("choices.0.message.reasoning_content", "thinking_content");
   ("choices.0.finish_reason", "finish_reason"); ("choices.0.message.tool_calls.0.id", "tool_call_id");
   ("choices.0.message.tool_calls.0.type", "tool_call_type");
   ("choices.0.message.tool_calls.0.function.name", "tool_call_name");
   ("choices.0.message.tool_calls.0.function.arguments", "tool_call_arguments"); ("content.0.text", "content");
   ("content.0.thinking", "thinking_content"); ("content.0.id", "tool_call_id");
   ("content.0.name", "tool_call_name"); ("content.0.input", "tool_call_arguments");
   ("content.0.citations.0.url", "citation_url"); ("stop_reason", "finish_reason"); ("message.content", "content");
   ("message.thinking", "thinking_content"); ("message.reasoning_content", "thinking_content");
   ("done_reason", "finish_reason"); ("message.tool_calls.0.function.name", "tool_call_name");
   ("message.tool_calls.0.function.arguments", "tool_call_arguments")].

(** [s[:s.find("[")]] when there is a bracket *)
Fixpoint before_bracket (s : string) : string :=
  match s with
  | EmptyString => EmptyString
  | String c s => if Ascii.eqb c "["%char then EmptyString else String c (before_bracket s)
  end.

Definition segments (p : string) : list string := split_on "."%char p.

Definition mem (k : string) (l : list string) : bool := bool_decide (k ∈ l).

Definition _is_envelope_field (k p : string) : bool :=
  mem k ENVELOPE_KEYS
  && forallb (fun seg => negb (mem (before_bracket seg) ENVELOPE_PATH_DISQUALIFIERS)) (removelast (segments p)).

(** A rule of the table: path tokens, leaf, label *)
Definition rule_matches (k p : string) (r : list string * string * string) : bool :=
  let '(path_tokens, leaf_match, _) := r in
  (bool_decide (lower k = lower leaf_match) || bool_decide (k = leaf_match))
  && forallb (fun tok => contains tok (lower p)) path_tokens.

Definition classify_overflow_path (p : string) : option string :=
  if bool_decide (p = "") then None
  else
    let leaf := before_bracket (List.last (segments p) "") in
    option_map snd
      (List.find (fun r => rule_matches leaf p r && (negb (bool_decide (snd r = ENVELOPE_LABEL)) || _is_envelope_field leaf p))
         _PATH_FALLBACK_RULES).

Definition is_container (t : string) : bool := mem t ["object"; "array"].

Abbreviation verdict := (string * spec_float)%type.

Definition three_quarters : spec_float := sf_of_decimal false 75 (-2).

(** One turn of the loop of [_apply_path_fallbacks] *)
Definition path_fallback (f : FlatField) (c : verdict) : verdict :=
  let '(label, conf) := c in
  let label := if bool_decide (label = ENVELOPE_LABEL) && negb (_is_envelope_field (key f) (path f)) then UNKNOWN else label in
  if negb (bool_decide (label = UNKNOWN)) then (label, conf)
  else if _is_envelope_field (key f) (path f) then (ENVELOPE_LABEL, one)
  else if is_container (value_type f) then (label, conf)
  else match List.find (fun r => negb (bool_decide (snd r = ENVELOPE_LABEL)) && rule_matches (key f) (path f) r)
               _PATH_FALLBACK_RULES with
       | Some r => (snd r, three_quarters)
       | None => (label, conf)
       end.

Definition _apply_path_fallbacks (fields : list FlatField) (cs : list verdict) : list verdict :=
  zip_with path_fallback fields cs.

(** ** Classification *)

Definition any_in (subs : list string) (s : string) : bool := existsb (fun k => contains k s) subs.

(** [s.count(" ")] *)
Fixpoint spaces (s : string) : Z :=
  match s with EmptyString => 0 | String c s => (if Ascii.eqb c " "%char then 1 else 0) + spaces s end.

Definition conf (hundredths : Z) : spec_float := sf_of_decimal false hundredths (-2).

(** The rules for text *)
Definition text_rule (k p s : string) : option verdict :=
  if (50 <? Z.of_nat (String.length s)) && (5 <=? spaces s) && any_in ["content"; "text"; "generated"; "output"] k
  then if any_in ["think"; "reason"; "plan"] k then Some ("thinking_content", conf 90) else Some ("content", conf 90)
  else if mem k ["content"; "text"; "generated_text"; "output_text"] then Some ("content", conf 80)
  else if mem k ["reasoning"; "reasoning_content"; "thinking"; "tool_plan"] then Some ("thinking_content", conf 85)
  else if mem k ["finish_reason"; "stop_reason"; "done_reason"; "completion_reason"; "status"]
  then Some ("finish_reason", conf 85)
  else if bool_decide (k = "id") && negb (contains "message" p) then Some ("response_id", conf 70)
  else if mem k ["model"; "model_version"] then Some ("model", conf 80)
  else if mem k ["system_fingerprint"; "model_hash"; "version"] then Some ("model_hash", conf 70)
  else None.

(** The rules for numbers *)
Definition number_rule (k : string) : option verdict :=
  if any_in ["prompt_token"; "input_token"; "prompt_eval"] k then Some ("prompt_tokens", conf 90)
  else if any_in ["completion_token"; "output_token"; "eval_count"; "generated_token"] k
  then Some ("completion_tokens", conf 90)
  else if contains "total_token" k then Some ("total_tokens", conf 90)
  else if contains "cache" k && contains "token" k then
    if contains "creation" k then Some ("cache_creation_tokens", conf 85) else Some ("cached_tokens", conf 85)
  else if contains "reasoning_token" k then Some ("reasoning_tokens", conf 85)
  else if any_in ["duration"; "time"; "latency"; "elapsed"] k then Some ("timing_value", conf 75)
  else None.

Definition _heuristic_classify_one (f : FlatField) : verdict :=
  if _is_envelope_field (key f) (path f) then (ENVELOPE_LABEL, one)
  else
    let k := lower (key f) in
    let p := lower (path f) in
    let text := if bool_decide (value_type f = "string") then match value f with PStr s => text_rule k p s | _ => None end
                else None in
    let number := if mem (value_type f) ["int"; "float"] then number_rule k else None in
    match text, number with
    | Some c, _ => c
    | None, Some c => c
    | None, None =>
        if bool_decide (k = "name") && contains "function" p then ("tool_call_name", conf 80)
        else if bool_decide (k = "arguments") && contains "function" p then ("tool_call_arguments", conf 80)
        else (UNKNOWN, conf 50)
    end.

Definition _classify_heuristic (fields : list FlatField) : list verdict := map _heuristic_classify_one fields.

(** What the model answers for a batch: an index per field and, when it has a second
    output, the probabilities of each field, by class or by position. *)
Inductive failure := InferenceTimeout | Failed (message : string).
Inductive probs := ByClass (l : list spec_float) | ByPosition (l : list spec_float).
Abbreviation session := (list FlatField -> failure + list nat * option (list probs)).

Definition label_of (labels : list string) (idx : nat) : string := default UNKNOWN (labels !! idx).

(** [max] of a non-empty list *)
Definition fmax (x : spec_float) (l : list spec_float) : spec_float :=
  foldl (fun best y => if SFltb best y then y else best) x l.

Definition confidence_of (idx : nat) (p : probs) : failure + spec_float :=
  match p with
  | ByClass [] => inr zero
  | ByClass (x :: l) => inr (fmax x l)
  | ByPosition l => match l !! idx with Some c => inr c | None => inl (Failed "index out of range") end
  end.

Fixpoint with_probs (labels : list string) (idxs : list nat) (ps : list probs) : failure + list verdict :=
  match idxs, ps with
  | [], _ => inr []
  | _ :: _, [] => inl (Failed "list index out of range")
  | i :: idxs, p :: ps =>
      match confidence_of i p, with_probs labels idxs ps with
      | inr c, inr l => inr ((label_of labels i, c) :: l)
      | inl e, _ => inl e
      | _, inl e => inl e
      end
  end.

Definition _classify_onnx (run : session) (labels : list string) (fields : list FlatField) : failure + list verdict :=
  match run fields with
  | inl e => inl e
  | inr (idxs, Some ps) => with_probs labels idxs ps
  | inr (idxs, None) => inr (map (fun i => (label_of labels i, conf 80)) idxs)
  end.

Definition known (f : FlatField) : option string := od_get (path f) _PROVIDER_PATH_MAP.
Definition unresolved (fields : list FlatField) : list FlatField :=
  List.filter (fun f => match known f with Some _ => false | None => true end) fields.

(** The answers for the unresolved fields put back between the known ones; a model that
    answers too little leaves [UNKNOWN]. *)
Fixpoint merge_verdicts (fields : list FlatField) (answers : list verdict) : list verdict :=
  match fields with
  | [] => []
  | f :: fields =>
      match known f, answers with
      | Some label, _ => (label, one) :: merge_verdicts fields answers
      | None, a :: answers => a :: merge_verdicts fields answers
      | None, [] => (UNKNOWN, zero) :: merge_verdicts fields []
      end
  end.

(** The flag says that the model timed out. *)
Definition _classify_fields (s : option session) (labels : list string) (fields : list FlatField)
    : res (list verdict * bool) :=
  let rest := unresolved fields in
  match rest, s with
  | [], _ => Ok (merge_verdicts fields [], false)
  | _, Some run =>
      match _classify_onnx run labels rest with
      | inr answers => Ok (merge_verdicts fields answers, false)
      | inl InferenceTimeout => Ok (merge_verdicts fields (_classify_heuristic rest), true)
      | inl (Failed m) => Raise (OtherError m)
      end
  | _, None => Ok (merge_verdicts fields (_classify_heuristic rest), false)
  end.

(** ** Assembly *)

Definition classified : Type := list (FlatField * verdict).

(** The values of a label: containers are no values. *)
Definition entries (label : string) (cs : classified) : list (FlatField * spec_float) :=
  omap (fun c => if bool_decide (fst (snd c) = label) && negb (is_container (value_type (fst c)))
                 then Some (fst c, snd (snd c)) else None) cs.

Fixpoint dots (s : string) : Z :=
  match s with EmptyString => 0 | String c s => (if Ascii.eqb c "."%char then 1 else 0) + dots s end.

(** [(a.path.count("."), -conf a) < (b.path.count("."), -conf b)] *)
Definition better (a b : FlatField * spec_float) : bool :=
  (dots (path (fst a)) <? dots (path (fst b)))
  || ((dots (path (fst a)) =? dots (path (fst b))) && SFltb (snd b) (snd a)).

(** [min]: the first of the best *)
Definition best (label : string) (cs : classified) : option FlatField :=
  match entries label cs with
  | [] => None
  | x :: l => Some (fst (foldl (fun b y => if better y b then y else b) x l))
  end.

Definition finish_reasons : list (string * string) :=
  [("stop", "stop"); ("end_turn", "stop"); ("eos_token", "stop"); ("complete", "stop"); ("finished", "stop");
   ("succeeded", "stop"); ("length", "length"); ("max_tokens", "length"); ("tool_calls", "tool_calls");
   ("tool_use", "tool_calls"); ("content_filter", "content_filter"); ("safety", "content_filter");
   ("error", "error"); ("failed", "error")].

Definition _normalize_finish_reason (raw : string) : string :=
  let r := strip (lower raw) in default r (od_get r finish_reasons).

Definition str_of (f : FlatField) : string := py_str (value f).

(** [int(float(v))]; [None] when the error is caught *)
Definition count_of (f : option FlatField) : res (option Z) :=
  match f with
  | Some f =>
      if is_none (value f) then Ok None
      else match (let! x := py_float (value f) in py_int (PFloat x "")) with
           | Ok z => Ok (Some z)
           | Raise e => if caught e then Ok None else Raise e
           end
  | None => Ok None
  end.

Definition cost_of (f : option FlatField) : res (option spec_float) :=
  match f with
  | Some f =>
      if is_none (value f) then Ok None
      else match py_float (value f) with
           | Ok x => Ok (Some x)
           | Raise e => if caught e then Ok None else Raise e
           end
  | None => Ok None
  end.

Definition assemble_usage (cs : classified) : res CanonicalUsage :=
  let! p := count_of (best "prompt_tokens" cs) in
  let! c := count_of (best "completion_tokens" cs) in
  let! t := count_of (best "total_tokens" cs) in
  let! r := count_of (best "reasoning_tokens" cs) in
  let! h := count_of (best "cached_tokens" cs) in
  let! w := count_of (best "cache_creation_tokens" cs) in
  let! usd := cost_of (best "cost_usd" cs) in
  Ok (compute_total (MkUsage (default 0 p) (default 0 c) (default 0 t) r h w usd)).

Definition assemble_tools (cs : classified) : list CanonicalToolCall :=
  let names := map fst (entries "tool_call_name" cs) in
  let args := map fst (entries "tool_call_arguments" cs) in
  let ids := map fst (entries "tool_call_id" cs) in
  let types := map fst (entries "tool_call_type" cs) in
  map (fun i => MkToolCall (default "" (option_map str_of (ids !! i))) (default "" (option_map str_of (names !! i)))
                  (match args !! i with
                   | Some f => match value f with
                               | PDict d => PDict d
                               | PStr s => PStr s
                               | v => PStr (py_str v)
                               end
                   | None => PDict []
                   end)
                  (default "function" (option_map str_of (types !! i))))
    (seq 0 (Nat.max (length names) (length args))).

Definition assemble_citations (cs : classified) : list CanonicalCitation :=
  concat (map (fun e => match value (fst e) with
                        | PList l => map (fun u => MkCitation (py_str u) None None) l
                        | PStr s => [MkCitation s None None]
                        | _ => []
                        end) (entries "citation_url" cs)).

(** What is above a million is taken for nanoseconds and becomes milliseconds. *)
Definition ms (v : spec_float) : spec_float := if SFltb (sf_of_Z 1000000) v then fdiv v (sf_of_Z 1000000) else v.

(** One timing: [float], nanoseconds to milliseconds, then a slot by the key *)
Definition timing_step (t : CanonicalTiming) (f : FlatField) : res CanonicalTiming :=
  match py_float (value f) with
  | Ok v =>
      let v := ms v in
      let k := lower (key f) in
      Ok (if contains "total" k || contains "overall" k then MkTiming (Some v) (prompt_ms t) (completion_ms t) (queue_ms t)
          else if contains "prompt" k || (contains "eval" k && contains "prompt" (lower (path f)))
          then MkTiming (total_ms t) (Some v) (completion_ms t) (queue_ms t)
          else if contains "queue" k then MkTiming (total_ms t) (prompt_ms t) (completion_ms t) (Some v)
          else match completion_ms t with
               | None => MkTiming (total_ms t) (prompt_ms t) (Some v) (queue_ms t)
               | Some _ => t
               end)
  | Raise e => if caught e then Ok t else Raise e
  end.

Definition assemble_timing (cs : classified) : res (option CanonicalTiming) :=
  match map fst (entries "timing_value" cs) with
  | [] => Ok None
  | l => let! t := fold_res timing_step l (MkTiming None None None None) in Ok (Some t)
  end.

(** Only arrays are looked into, and arrays are containers. *)
Definition assemble_safety (cs : classified) : res (option CanonicalSafety) :=
  match map fst (entries "safety_category" cs) with
  | [] => Ok None
  | l =>
      let! s := fold_res (fun s f =>
        match value f with
        | PList items => fold_res (fun s item =>
            match item with
            | PDict d =>
                let cat := dget_or "category" (PStr "") d in
                let prob := dget_or "probability" (PStr "") d in
                let! _ := hashable cat in
                Ok (MkSafety (blocked s || in_strs prob ["HIGH"; "VERY_HIGH"]) (vset cat prob (categories s)))
            | _ => Ok s
            end) items s
        | _ => Ok s
        end) l (MkSafety false []) in
      Ok (Some s)
  end.

Definition is_label (label : string) (c : FlatField * verdict) : bool := bool_decide (fst (snd c) = label).

(** Fields with a canonical label, and unknown leaves *)
Definition is_mapped (c : FlatField * verdict) : bool := negb (is_label UNKNOWN c) && negb (is_label ENVELOPE_LABEL c).
Definition is_unmapped (c : FlatField * verdict) : bool := is_label UNKNOWN c && negb (is_container (value_type (fst c))).

Definition overflow_of (cs : classified) : dict :=
  foldl (fun d c => if is_unmapped c && negb (bool_decide (value_type (fst c) = "null"))
                    then od_set (path (fst c)) (value (fst c)) d else d) [] cs.

(** [sum(confs) / n if n else 0.0] *)
Definition average (confs : list spec_float) (n : Z) : spec_float :=
  if n =? 0 then zero else fdiv (py_fsum confs) (sf_of_Z n).

Definition _assemble (cs : classified) : res CanonicalResponse :=
  let text := match best "content" cs with
              | Some f => if is_none (value f) then "" else str_of f
              | None => ""
              end in
  let thinking := match best "thinking_content" cs with
                  | Some f => if is_none (value f) then None else Some (str_of f)
                  | None => None
                  end in
  let reason := match best "finish_reason" cs with Some f => _normalize_finish_reason (str_of f) | None => "stop" end in
  let! u := assemble_usage cs in
  let! t := assemble_timing cs in
  let! s := assemble_safety cs in
  let mapped := List.filter is_mapped cs in
  let unmapped := List.filter is_unmapped cs in
  let confs := map (fun c => snd (snd c)) mapped in
  Ok (MkCanonical text thinking reason (option_map str_of (best "response_id" cs)) (option_map str_of (best "model" cs))
        (option_map str_of (best "model_hash" cs)) u (assemble_tools cs) (assemble_citations cs) t s (overflow_of cs)
        (MkMapping (average confs (zlen mapped + zlen unmapped)) (average confs (zlen mapped))
           (bool_decide (text = "") && match thinking with Some (String _ _) => false | _ => true end)
           (map (fun c => path (fst c)) mapped) (map (fun c => path (fst c)) unmapped))).

(** [map_response], after the reload, and whether the model timed out; the novel-shape
    log is below. *)
Definition map_fields (s : option session) (labels : list string) (fields : list FlatField) : res (CanonicalResponse * bool) :=
  if bool_decide (fields = []) then Ok (nothing_mapped, false)
  else
    let! '(cs, timed_out) := _classify_fields s labels fields in
    let cs := _apply_path_fallbacks fields cs in
    let! c := _assemble (zip fields cs) in
    Ok (c, timed_out).

Definition map_response (s : option session) (labels : list string) (raw : pyval) : res (CanonicalResponse * bool) :=
  map_fields s labels (flatten_json raw "" 0 "").

(** ** Drift and timeouts

    The time stamps of the last 512 events, and the fingerprints seen. *)

Record drift := MkDrift {
  _seen_shape_fingerprints : list string;
  _novel_shape_events : list Z;
  _timeout_events : list Z;
}.

Definition no_drift : drift := MkDrift [] [] [].

(** A [deque(maxlen=512)] *)
Definition push (t : Z) (l : list Z) : list Z := drop (length (l ++ [t]) - 512) (l ++ [t]).

Definition _record_timeout (now : Z) (d : drift) : drift :=
  MkDrift (_seen_shape_fingerprints d) (_novel_shape_events d) (push now (_timeout_events d)).

(** Events before the cut are dropped from the left. *)
Fixpoint expire (cutoff : Z) (l : list Z) : list Z :=
  match l with
  | [] => []
  | t :: l' => if t <? cutoff then expire cutoff l' else l
  end.

Definition timeout_count_60s (now : Z) (d : drift) : Z * drift :=
  let l := expire (now - seconds 60) (_timeout_events d) in
  (zlen l, MkDrift (_seen_shape_fingerprints d) (_novel_shape_events d) l).

Definition novel_shapes_60s (now : Z) (d : drift) : Z * drift :=
  let l := expire (now - seconds 60) (_novel_shape_events d) in
  (zlen l, MkDrift (_seen_shape_fingerprints d) l (_timeout_events d)).

Definition _record_novel_shape `{Digest} (now : Z) (fields : list FlatField) (overflow_keys : list string) (d : drift) : drift :=
  let skeleton := sjoin (String lf "") (isort str_leb (map (fun f => path f +:+ ":" +:+ value_type f) fields)) in
  let fp := stake 16 (hexdigest skeleton) in
  if mem fp (_seen_shape_fingerprints d) then d
  else
    let seen := if zlen (_seen_shape_fingerprints d) <? 4096 then _seen_shape_fingerprints d ++ [fp]
                else _seen_shape_fingerprints d in
    MkDrift seen
      (match overflow_keys with [] => _novel_shape_events d | _ => push now (_novel_shape_events d) end)
      (_timeout_events d).

(** ** Only first elements count *)

(** A response with every array cut to its first element *)
Fixpoint heads (v : pyval) : pyval :=
  match v with
  | PList (x :: _) => PList [heads x]
  | PDict d => PDict (map (fun kv => (fst kv, heads (snd kv))) d)
  | v => v
  end.

Definition head_field (f : FlatField) : FlatField :=
  MkField (path f) (key f) (heads (value f)) (value_type f) (depth f) (parent_key f) (sibling_keys f) (sibling_types f)
    (int_siblings f).

Lemma pyval_induction (P : pyval -> Prop) :
  (forall l, Forall P l -> P (PList l)) -> (forall d, Forall (fun kv => P (snd kv)) d -> P (PDict d)) ->
  (forall v, is_list v = false -> is_dict v = false -> P v) -> forall v, P v.
Proof.
  intros Hl Hd Hv. fix IH 1. intros [| | | | |l|d|]; try (by apply Hv).
  - apply Hl. induction l; constructor; auto.
  - apply Hd. induction d; constructor; auto.
Qed.

Lemma type_of_heads v : _type_of (heads v) = _type_of v.
Proof. by destruct v as [| | | | |[|]| |]. Qed.

Lemma numbers_heads vs : List.filter is_number (map heads vs) = List.filter is_number vs.
Proof.
  induction vs as [|v vs IH]; [done|]. cbn [map List.filter]. rewrite IH. by destruct v as [| | | | |[|]| |].
Qed.

Lemma field_at_heads obj prefix d parent k x :
  field_at (map (fun kv => (fst kv, heads (snd kv))) obj) prefix d parent (k, heads x)
  = head_field (field_at obj prefix d parent (k, x)).
Proof.
  unfold field_at, head_field. cbn [fst snd path key value value_type depth parent_key sibling_keys sibling_types int_siblings].
  assert (map snd (map (fun kv : string * pyval => (fst kv, heads (snd kv))) obj) = map heads (map snd obj)) as ->
    by by rewrite !map_map.
  rewrite numbers_heads, !map_map, type_of_heads. f_equal. apply map_ext. intros [? ?]. apply type_of_heads.
Qed.

(** The entries of an object, each with what is under it *)
Definition flatten_entry (obj : dict) (prefix : string) (d : Z) (parent : string) (kv : string * pyval) : list FlatField :=
  field_at obj prefix d parent kv ::
  match snd kv with
  | PList (y :: _) => flatten_json y (dotted prefix (fst kv) +:+ ".0") (d + 1) (fst kv)
  | _ => flatten_json (snd kv) (dotted prefix (fst kv)) (d + 1) (fst kv)
  end.

Lemma flatten_dict obj prefix d parent :
  flatten_json (PDict obj) prefix d parent = concat (map (flatten_entry obj prefix d parent) obj).
Proof.
  cbn [flatten_json]. generalize obj at 2 4. intros l. induction l as [|[k x] l IH]; [done|].
  cbn [map concat]. rewrite <- IH. by destruct x as [| | | | |[|]| |].
Qed.

Definition cuts (v : pyval) : Prop := forall prefix d parent,
  flatten_json (heads v) prefix d parent = map head_field (flatten_json v prefix d parent).

Lemma flatten_heads_deep v : cuts v /\ match v with PList (y :: _) => cuts y | _ => True end.
Proof.
  induction v as [l Hl|obj IH|v Hl Hd] using pyval_induction.
  - destruct l as [|y l]; [done|]. apply Forall_cons in Hl as [[Hy _] _]. done.
  - split; [|done]. intros prefix d parent. cbn [heads]. rewrite !flatten_dict, concat_map, !map_map. f_equal.
    set (obj' := map (fun kv : string * pyval => (fst kv, heads (snd kv))) obj).
    assert (forall l, Forall (fun kv => cuts (snd kv) /\ match snd kv with PList (y :: _) => cuts y | _ => True end) l ->
      map (fun x : string * pyval => flatten_entry obj' prefix d parent (fst x, heads (snd x))) l =
      map (fun x => map head_field (flatten_entry obj prefix d parent x)) l) as Hm; [|by apply Hm].
    induction 1 as [|[k x] l [Hx Hy] _ IHl]; [done|]. cbn [map]. rewrite IHl. f_equal. cbn [fst snd] in *.
    unfold flatten_entry. cbn [fst snd map]. f_equal; [apply field_at_heads|].
    destruct x as [| | | | |[|y ys]| |]; try apply Hx. apply Hy.
  - by destruct v.
Qed.

Lemma flatten_heads v prefix d parent :
  flatten_json (heads v) prefix d parent = map head_field (flatten_json v prefix d parent).
Proof. apply flatten_heads_deep. Qed.

(** The rules look at names and at text. *)
Lemma heuristic_heads f : _heuristic_classify_one (head_field f) = _heuristic_classify_one f.
Proof.
  unfold _heuristic_classify_one, head_field. cbn [path key value value_type].
  by destruct (value f) as [| | | | |[|]| |].
Qed.

Lemma merge_heads fields : forall answers, merge_verdicts (map head_field fields) answers = merge_verdicts fields answers.
Proof.
  induction fields as [|f fields IH]; intros answers; [done|]. cbn [map merge_verdicts].
  change (known (head_field f)) with (known f). destruct (known f); [by rewrite IH|].
  destruct answers; by rewrite IH.
Qed.

Lemma unresolved_heads fields : unresolved (map head_field fields) = map head_field (unresolved fields).
Proof.
  unfold unresolved. induction fields as [|f fields IH]; [done|]. cbn [map List.filter].
  change (known (head_field f)) with (known f). rewrite IH. by destruct (known f).
Qed.

Lemma classify_heads labels fields :
  _classify_fields None labels (map head_field fields) = _classify_fields None labels fields.
Proof.
  unfold _classify_fields. rewrite unresolved_heads.
  assert (_classify_heuristic (map head_field (unresolved fields)) = _classify_heuristic (unresolved fields)) as He.
  { unfold _classify_heuristic. rewrite map_map. apply map_ext, heuristic_heads. }
  destruct (unresolved fields) as [|f l]; [by rewrite merge_heads|]. cbn [map] in *. by rewrite merge_heads, He.
Qed.

Lemma fallbacks_heads fields cs : _apply_path_fallbacks (map head_field fields) cs = _apply_path_fallbacks fields cs.
Proof.
  unfold _apply_path_fallbacks. revert cs. induction fields as [|f fields IH]; intros [|c cs]; [done..|].
  cbn [map zip_with]. by rewrite IH.
Qed.

(** A field's type is that of its value. *)
Definition well_typed (c : FlatField * verdict) : Prop := value_type (fst c) = _type_of (value (fst c)).

Lemma leaf_heads f : value_type f = _type_of (value f) -> is_container (value_type f) = false -> head_field f = f.
Proof.
  intros Ht Hc. rewrite Ht in Hc. unfold head_field. destruct f as [p k v t d n ks ts ns]; cbn in *. f_equal.
  destruct v as [| | | | |[|]| |]; done.
Qed.

Definition head_entry (c : FlatField * verdict) : FlatField * verdict := (head_field (fst c), snd c).

Lemma entries_heads label cs : Forall well_typed cs -> entries label (map head_entry cs) = entries label cs.
Proof.
  induction 1 as [|[f c] cs Hf _ IH]; [done|]. unfold entries in *. cbn [map omap list_omap]. rewrite IH.
  unfold head_entry. cbn [fst snd value_type head_field] in *.
  destruct (bool_decide _ && negb _) eqn:Hb; [|done]. apply andb_true_iff in Hb as [_ Hb%negb_true_iff].
  by rewrite leaf_heads.
Qed.

Lemma filter_heads (g : FlatField * verdict -> bool) cs :
  (forall c, g (head_entry c) = g c) -> List.filter g (map head_entry cs) = map head_entry (List.filter g cs).
Proof.
  intros Hg. induction cs as [|c cs IH]; [done|]. cbn [map List.filter]. rewrite Hg, IH. by destruct (g c).
Qed.

Lemma overflow_heads cs : Forall well_typed cs -> overflow_of (map head_entry cs) = overflow_of cs.
Proof.
  unfold overflow_of. generalize (@nil (string * pyval)). intros d Hcs. revert d.
  induction Hcs as [|[f c] cs Hf _ IH]; intros d; [done|]. cbn [map foldl]. rewrite IH. f_equal.
  unfold head_entry, is_unmapped, is_label. cbn [fst snd head_field path value value_type].
  destruct (bool_decide (fst c = UNKNOWN)); [|done]. destruct (is_container (value_type f)) eqn:Hc; [done|]. cbn [negb andb].
  destruct (bool_decide _); [done|]. cbn [negb]. apply leaf_heads in Hc; [|done]. apply (f_equal value) in Hc.
  cbn [head_field value] in Hc. by rewrite Hc.
Qed.

Lemma assemble_heads cs : Forall well_typed cs -> _assemble (map head_entry cs) = _assemble cs.
Proof.
  intros Hcs. unfold _assemble, assemble_usage, assemble_timing, assemble_safety, assemble_tools, assemble_citations, best.
  rewrite !entries_heads, overflow_heads by done. rewrite !filter_heads by done.
  rewrite !map_map. unfold zlen. rewrite !length_map. done.
Qed.

Lemma flatten_typed v : forall prefix d parent,
  Forall (fun f => value_type f = _type_of (value f)) (flatten_json v prefix d parent)
  /\ match v with PList (y :: _) => Forall (fun f => value_type f = _type_of (value f)) (flatten_json y prefix d parent) | _ => True end.
Proof.
  induction v as [l Hl|obj IH|v Hl Hd] using pyval_induction; intros prefix d parent.
  - split; [constructor|]. destruct l as [|y l]; [done|]. apply Forall_cons in Hl as [Hy _]. apply Hy.
  - split; [|done]. rewrite flatten_dict. apply Forall_concat, Forall_map.
    eapply Forall_impl; [exact IH|]. intros [k x] Hx. cbn [fst snd] in *. unfold flatten_entry. constructor; [done|]. cbn [fst snd].
    destruct x as [| | | | |[|y ys]| |]; apply Hx.
  - split; [|by destruct v]. destruct v; done.
Qed.

Lemma flatten_ne v prefix d parent :
  flatten_json (heads v) prefix d parent = [] <-> flatten_json v prefix d parent = [].
Proof. rewrite flatten_heads. by destruct (flatten_json v prefix d parent). Qed.

(** A model that judges every field by itself *)
Definition row_wise (run : session) (labels : list string) (v : FlatField -> verdict) : Prop :=
  forall fields, _classify_onnx run labels fields = inr (map v fields).

(** The verdict on a field before the fallbacks *)
Definition verdict_on (v : FlatField -> verdict) (f : FlatField) : verdict :=
  match known f with Some label => (label, one) | None => v f end.

Lemma merge_map v fields : merge_verdicts fields (map v (unresolved fields)) = map (verdict_on v) fields.
Proof.
  unfold unresolved, verdict_on. induction fields as [|f fields IH]; [done|]. cbn [map merge_verdicts List.filter].
  destruct (known f); cbn [map]; by rewrite IH.
Qed.

Lemma classify_row_wise run labels v fields :
  row_wise run labels v -> _classify_fields (Some run) labels fields = Ok (map (verdict_on v) fields, false).
Proof.
  intros Hv. rewrite <- merge_map. unfold _classify_fields. destruct (unresolved fields) as [|f l] eqn:Hu; [done|].
  by rewrite Hv.
Qed.

(** Fields with the verdicts the assembly gets *)
Definition judged (v : FlatField -> verdict) (fields : list FlatField) : classified :=
  map (fun f => (f, path_fallback f (verdict_on v f))) fields.

Lemma zip_judged v fields :
  zip fields (_apply_path_fallbacks fields (map (verdict_on v) fields)) = judged v fields.
Proof. unfold _apply_path_fallbacks. induction fields as [|f l IH]; [done|]. cbn. f_equal. exact IH. Qed.

Definition typed (f : FlatField) : Prop := value_type f = _type_of (value f).

Lemma entries_cons label c cs :
  entries label (c :: cs) =
    (if bool_decide (fst (snd c) = label) && negb (is_container (value_type (fst c)))
     then [(fst c, snd (snd c))] else []) ++ entries label cs.
Proof. unfold entries. cbn [omap list_omap]. by destruct (_ && _). Qed.

Lemma judged_entries v label fields :
  Forall typed fields -> entries label (judged v (map head_field fields)) = entries label (judged v fields).
Proof.
  induction 1 as [|f fields Hf _ IH]; [done|]. cbn [judged map] in *. rewrite !entries_cons. f_equal; [|exact IH].
  cbn [fst snd value_type head_field]. destruct (is_container (value_type f)) eqn:Hc; [by rewrite !andb_false_r|].
  by rewrite leaf_heads.
Qed.

Lemma judged_cons v f fields :
  judged v (f :: fields) = (f, path_fallback f (verdict_on v f)) :: judged v fields.
Proof. done. Qed.

(** Among the unmapped there are leaves only. *)
Lemma unmapped_leaf v f :
  typed f -> is_unmapped (f, v f) = is_unmapped (head_field f, v (head_field f)) /\
  (is_unmapped (f, v f) = true -> head_field f = f).
Proof.
  intros Hf. unfold is_unmapped. cbn [fst snd value_type head_field].
  destruct (is_container (value_type f)) eqn:Hc; [by rewrite !andb_false_r|]. by rewrite leaf_heads.
Qed.

Lemma judged_unmapped v fields :
  Forall typed fields ->
  List.filter is_unmapped (judged v (map head_field fields)) = List.filter is_unmapped (judged v fields).
Proof.
  induction 1 as [|f fields Hf _ IH]; [done|]. cbn [map]. rewrite !judged_cons. cbn [List.filter]. rewrite IH.
  destruct (unmapped_leaf (fun f => path_fallback f (verdict_on v f)) f Hf) as [<- Hl].
  destruct (is_unmapped _); [by rewrite Hl|done].
Qed.

Lemma judged_overflow v fields :
  Forall typed fields -> overflow_of (judged v (map head_field fields)) = overflow_of (judged v fields).
Proof.
  unfold overflow_of. generalize (@nil (string * pyval)). intros d Hf. revert d.
  induction Hf as [|f fields Hf _ IH]; intros d; [done|]. cbn [map]. rewrite !judged_cons. cbn [foldl]. rewrite IH. f_equal.
  destruct (unmapped_leaf (fun f => path_fallback f (verdict_on v f)) f Hf) as [<- Hl].
  destruct (is_unmapped _); [by rewrite Hl|done].
Qed.

(** A canonical response up to the report on the mapped fields, containers among them *)
Definition blur (c : CanonicalResponse) : CanonicalResponse :=
  MkCanonical (content c) (thinking_content c) (finish_reason c) (response_id c) (model c) (model_hash c) (usage c)
    (tool_calls c) (citations c) (timing c) (safety c) (overflow c)
    (MkMapping zero zero (incomplete (mapping c)) [] (unmapped_fields (mapping c))).
Definition blurred (r : res (CanonicalResponse * bool)) : res (CanonicalResponse * bool) :=
  let! '(c, timed_out) := r in Ok (blur c, timed_out).

Lemma judged_assembled v fields :
  Forall typed fields ->
  (let! c := _assemble (judged v (map head_field fields)) in Ok (blur c)) =
  (let! c := _assemble (judged v fields) in Ok (blur c)).
Proof.
  intros Hf. pose proof (fun label => judged_entries v label fields Hf) as He.
  assert (assemble_usage (judged v (map head_field fields)) = assemble_usage (judged v fields)) as Hu
    by (unfold assemble_usage, best; by rewrite !He).
  assert (assemble_timing (judged v (map head_field fields)) = assemble_timing (judged v fields)) as Ht
    by (unfold assemble_timing; by rewrite !He).
  assert (assemble_safety (judged v (map head_field fields)) = assemble_safety (judged v fields)) as Hs
    by (unfold assemble_safety; by rewrite !He).
  unfold _assemble. rewrite Hu, Ht, Hs.
  clear Hu Ht Hs. generalize (assemble_usage (judged v fields)) (assemble_timing (judged v fields)) (assemble_safety (judged v fields)).
  intros [u|] [t|] [sf|]; cbn [res_bind]; try done.
  unfold assemble_tools, assemble_citations, best.
  rewrite !He, (judged_overflow v fields Hf), (judged_unmapped v fields Hf).
  reflexivity.
Qed.

(** C30. Of every array the first element alone reaches the canonical record.  Without a
    model, a response and the same response with every array cut to its first element
    have the same canonical form: other choices, further tool calls and content blocks
    are not mapped, not counted as unmapped and not kept as overflow either.  With a
    model that judges every field by itself, whatever it looks at (the length of an
    array, say), they can differ in the report on the mapped fields only, its list and
    the two confidences, where arrays and objects count: text, usage, tool calls,
    overflow, unmapped fields and everything else are the same, or the same exception is
    raised. *)
Theorem later_elements_are_invisible labels raw :
  map_response None labels raw = map_response None labels (heads raw) /\
  forall run v, row_wise run labels v ->
    blurred (map_response (Some run) labels raw) = blurred (map_response (Some run) labels (heads raw)).
Proof.
  unfold map_response, map_fields. rewrite flatten_heads. pose proof (proj1 (flatten_typed raw "" 0 "")) as Ht.
  generalize dependent (flatten_json raw "" 0 ""). intros fields Ht.
  rewrite (bool_decide_ext (map head_field fields = []) (fields = [])) by by destruct fields.
  split.
  - rewrite classify_heads. destruct (bool_decide _); [done|].
    destruct (_classify_fields _ _ _) as [[cs t]|]; cbn [res_bind]; [|done]. rewrite fallbacks_heads.
    assert (forall cs, zip (map head_field fields) cs = map head_entry (zip fields cs)) as ->.
    { clear. induction fields as [|g l IH]; intros [|c cs]; [done..|]. cbn. by rewrite IH. }
    rewrite assemble_heads; [done|].
    apply Forall_forall. intros [f c] Hin. apply elem_of_zip_l in Hin. rewrite Forall_forall in Ht. by apply Ht.
  - intros run v Hv. destruct (bool_decide _); [done|]. rewrite !(classify_row_wise _ _ _ _ Hv). cbn [res_bind].
    rewrite !zip_judged. pose proof (judged_assembled v fields Ht) as Ha.
    unfold blurred. destruct (_assemble (judged v (map head_field fields))), (_assemble (judged v fields));
      cbn [res_bind] in *; congruence.
Qed.

(** A model that labels an array by its length *)
Definition by_length : session := fun fields =>
  inr (map (fun f => match value f with PList l => length l | _ => 0%nat end) fields, None).
Definition two_answers : pyval :=
  PDict [("items", PList [PDict [("note", PStr "one")]; PDict [("note", PStr "two")]])].

(** Two elements or one: the verdict on the array differs, the record does not. *)
Lemma later_elements_are_invisible_witness :
  let labels := [UNKNOWN; UNKNOWN; "content"] in
  mapped_fields <$> (option_map (fun x => mapping (fst x)) (match map_response (Some by_length) labels two_answers with Ok x => Some x | _ => None end))
    <> mapped_fields <$> (option_map (fun x => mapping (fst x)) (match map_response (Some by_length) labels (heads two_answers) with Ok x => Some x | _ => None end)) /\
  blurred (map_response (Some by_length) labels two_answers) = blurred (map_response (Some by_length) labels (heads two_answers)).
Proof.
  intros labels. split; [vm_compute; discriminate|].
  apply (proj2 (later_elements_are_invisible labels two_answers) by_length
           (fun f => (label_of labels (match value f with PList l => length l | _ => 0%nat end), conf 80))).
  intros fields. unfold _classify_onnx, by_length. by rewrite map_map.
Defined.

(** ** One table, two readers *)

(** The finite facts about the two tables: no canonical rule names an envelope key, and
    every envelope key has its rule. *)
Definition rule_is_envelope (r : list string * string * string) : bool := bool_decide (snd r = ENVELOPE_LABEL).
Definition leaf_named (k : string) (r : list string * string * string) : bool :=
  bool_decide (lower k = lower (snd (fst r))) || bool_decide (k = snd (fst r)).

Lemma envelope_keys_have_rules :
  forallb (fun k => forallb (fun r => if rule_is_envelope r then match fst (fst r) with [] => true | _ => false end
                                      else negb (leaf_named k r)) _PATH_FALLBACK_RULES
                    && existsb (fun r => rule_is_envelope r && leaf_named k r) _PATH_FALLBACK_RULES) ENVELOPE_KEYS = true.
Proof. vm_compute. reflexivity. Qed.

Lemma find_ext {A} (f g : A -> bool) l : (forall x, x ∈ l -> f x = g x) -> List.find f l = List.find g l.
Proof.
  induction l as [|x l IH]; intros Hx; [done|]. cbn [List.find]. rewrite Hx by by left. rewrite IH; [done|].
  intros y Hy. apply Hx. by right.
Qed.

Lemma rule_matches_leaf k p r : rule_matches k p r = leaf_named k r && forallb (fun tok => contains tok (lower p)) (fst (fst r)).
Proof. destruct r as [[toks leaf] label]. done. Qed.

(** The harvester labels what the mapper would have.  For a leaf field that the model
    left unknown, the label [classify_overflow_path] gives its path is the label the
    mapper's own fallback gives the field, at the fallback's confidence. *)
Theorem harvester_agrees_with_mapper f c :
  path f <> "" -> key f = before_bracket (List.last (segments (path f)) "") -> is_container (value_type f) = false ->
  path_fallback f (UNKNOWN, c) =
    match classify_overflow_path (path f) with
    | Some label => (label, if bool_decide (label = ENVELOPE_LABEL) then one else three_quarters)
    | None => (UNKNOWN, c)
    end.
Proof.
  intros Hp Hk Hc. unfold path_fallback, classify_overflow_path. rewrite (bool_decide_false (path f = "")) by done.
  rewrite <- Hk, Hc. cbn [bool_decide andb negb].
  rewrite (bool_decide_true (UNKNOWN = UNKNOWN)) by done. change (bool_decide (UNKNOWN = ENVELOPE_LABEL)) with false.
  cbn [andb negb]. destruct (_is_envelope_field (key f) (path f)) eqn:He.
  - assert (key f ∈ ENVELOPE_KEYS) as Hin.
    { unfold _is_envelope_field, mem in He. apply andb_true_iff in He as [He _]. by apply bool_decide_eq_true in He. }
    pose proof envelope_keys_have_rules as Ht. rewrite forallb_forall in Ht.
    apply list_elem_of_In, Ht in Hin. apply andb_true_iff in Hin as [H1 H2]. rewrite forallb_forall in H1.
    rewrite (find_ext _ (fun r => rule_is_envelope r && leaf_named (key f) r)).
    + destruct (List.find _ _) as [r|] eqn:Hf.
      * apply List.find_some in Hf as [_ Hf]. apply andb_true_iff in Hf as [Hf _]. apply bool_decide_eq_true in Hf.
        cbn [option_map]. by rewrite Hf, bool_decide_true.
      * apply existsb_exists in H2 as (r & Hr & Hb). eapply List.find_none in Hf; [|exact Hr]. cbn in Hf. congruence.
    + intros r Hr%list_elem_of_In. apply H1 in Hr. rewrite rule_matches_leaf, orb_true_r, andb_true_r.
      fold (rule_is_envelope r) in *. destruct (rule_is_envelope r).
      * destruct (fst (fst r)); [|done]. cbn. by rewrite andb_true_r.
      * apply negb_true_iff in Hr. by rewrite Hr.
  - rewrite (find_ext (fun r => rule_matches _ _ r && _) (fun r => negb (bool_decide (snd r = ENVELOPE_LABEL)) && rule_matches (key f) (path f) r)).
    + destruct (List.find _ _) as [r|] eqn:Hf; [|done]. apply List.find_some in Hf as [_ Hf].
      apply andb_true_iff in Hf as [Hf _]. apply negb_true_iff in Hf. cbn [option_map]. by rewrite Hf.
    + intros r _. by rewrite orb_false_r, andb_comm.
Qed.

Lemma harvester_agrees_with_mapper_witness :
  let f := MkField "usageMetadata.promptTokenCount" "promptTokenCount" (PInt 7) "int" 1 "usageMetadata" [] [] [] in
  path f <> "" /\ key f = before_bracket (List.last (segments (path f)) "") /\ is_container (value_type f) = false /\
  path_fallback f (UNKNOWN, zero) = ("prompt_tokens", three_quarters).
Proof.
  intros f. assert (path f <> "") as H1 by discriminate.
  split; [exact H1|]. split; [vm_compute; reflexivity|]. split; [vm_compute; reflexivity|].
  rewrite (harvester_agrees_with_mapper f zero H1); vm_compute; reflexivity.
Defined.

(** ** What is kept *)

(** No unknown leaf is dropped.  Every flattened leaf that no step could name and that
    is not null is in the overflow under its path, with its value when paths are distinct,
    and the overflow has nothing else. *)
Theorem unknown_leaves_are_kept cs :
  (forall f c, (f, (UNKNOWN, c)) ∈ cs -> is_container (value_type f) = false -> value_type f <> "null" ->
     exists v, od_get (path f) (overflow_of cs) = Some v /\
       (NoDup (map (fun c => path (fst c)) cs) -> v = value f)) /\
  (forall p v, od_get p (overflow_of cs) = Some v ->
     exists f c, (f, (UNKNOWN, c)) ∈ cs /\ path f = p /\ value f = v /\ is_container (value_type f) = false).
Proof.
  unfold overflow_of. set (step := fun (d : dict) (c : FlatField * verdict) => _).
  induction cs as [|[g [label c']] cs IH] using rev_ind.
  { split; [by intros ? ? ?%not_elem_of_nil|done]. }
  destruct IH as [IH1 IH2]. rewrite foldl_app. cbn [foldl]. set (d := foldl step [] cs) in *.
  assert (step d (g, (label, c')) = d \/ (step d (g, (label, c')) = od_set (path g) (value g) d /\ label = UNKNOWN
            /\ is_container (value_type g) = false)) as Hs.
  { unfold step, is_unmapped, is_label. cbn [fst snd]. destruct (bool_decide (label = UNKNOWN)) eqn:Hl; [|by left].
    apply bool_decide_eq_true in Hl. destruct (is_container _); [by left|]. cbn. destruct (bool_decide _); [by left|by right]. }
  split.
  - intros f c Hin Hc Hn. apply elem_of_app in Hin as [Hin|Hin].
    + destruct (IH1 f c Hin Hc Hn) as (v & Hv & Hval). destruct Hs as [->|(-> & _ & _)].
      * exists v. split; [done|]. intros Hnd. apply Hval. rewrite map_app in Hnd. by apply NoDup_app in Hnd as [? _].
      * destruct (decide (path g = path f)) as [Heq|Hne].
        -- exists (value g). rewrite Heq, od_get_set_eq. split; [done|]. intros Hnd. exfalso. rewrite map_app in Hnd.
           apply NoDup_app in Hnd as (_ & Hd & _). apply (Hd (path f)); [|rewrite <- Heq; by left].
           apply list_elem_of_In, in_map_iff. exists (f, (UNKNOWN, c)). split; [done|]. by apply list_elem_of_In.
        -- exists v. rewrite od_get_set_ne by done. split; [done|]. intros Hnd. apply Hval. rewrite map_app in Hnd.
           by apply NoDup_app in Hnd as [? _].
    + apply list_elem_of_singleton in Hin. injection Hin as <- <- <-. exists (value f). split; [|done].
      unfold step, is_unmapped, is_label. cbn [fst snd]. rewrite bool_decide_true by done. rewrite Hc.
      rewrite bool_decide_false by done. cbn. apply od_get_set_eq.
  - intros p v Hv. destruct Hs as [Hs|(Hs & -> & Hc)]; rewrite Hs in Hv.
    + destruct (IH2 p v Hv) as (f & c & Hin & ?). exists f, c. split; [|done]. apply elem_of_app. by left.
    + destruct (decide (path g = p)) as [<-|Hne].
      * rewrite od_get_set_eq in Hv. injection Hv as <-. exists g, c'. split; [|done]. apply elem_of_app. right. by left.
      * rewrite od_get_set_ne in Hv by done. destruct (IH2 p v Hv) as (f & c & Hin & ?). exists f, c. split; [|done].
        apply elem_of_app. by left.
Qed.

(** ** Known shapes *)

Module Shapes.
(** An OpenAI chat completion *)
Definition chat (id model text reason : string) (created p c t : Z) : pyval :=
  PDict [("id", PStr id); ("object", PStr "chat.completion"); ("created", PInt created); ("model", PStr model);
         ("choices", PList [PDict [("index", PInt 0);
                                   ("message", PDict [("role", PStr "assistant"); ("content", PStr text)]);
                                   ("finish_reason", PStr reason)]]);
         ("usage", PDict [("prompt_tokens", PInt p); ("completion_tokens", PInt c); ("total_tokens", PInt t)])].

Definition chat_fields (id model text reason : string) (created p c t : Z) : list FlatField :=
  Eval vm_compute in flatten_json (chat id model text reason created p c t) "" 0 "".

Definition chat_verdicts : list verdict := Eval vm_compute in
  match _classify_fields None [] (chat_fields "" "" "" "" 0 0 0 0) with
  | Ok (cs, _) => _apply_path_fallbacks (chat_fields "" "" "" "" 0 0 0 0) cs
  | Raise _ => []
  end.

(** What the mapper is to find: the exact counts, when they survive [int(float(v))] *)
Definition exact (z : Z) : Prop := (let! x := py_float (PInt z) in py_int (PFloat x "")) = Ok z.

Lemma count_exact f z : value f = PInt z -> exact z -> count_of (Some f) = Ok (Some z).
Proof. unfold count_of, exact. intros -> Hx. cbn [is_none]. by rewrite Hx. Qed.

Lemma chat_flat id model text reason created p c t :
  flatten_json (chat id model text reason created p c t) "" 0 "" = chat_fields id model text reason created p c t.
Proof. reflexivity. Qed.

Section chat.
Variables (labels : list string) (id model_name text reason : string) (created p c t : Z).

Definition chat_cs : classified := zip (chat_fields id model_name text reason created p c t) chat_verdicts.

Lemma chat_classified :
  exists cs, _classify_fields None labels (chat_fields id model_name text reason created p c t) = Ok (cs, false) /\
    _apply_path_fallbacks (chat_fields id model_name text reason created p c t) cs = chat_verdicts.
Proof. eexists. split; vm_compute; reflexivity. Qed.

Definition found (l : string) : option pyval := option_map value (best l chat_cs).

Lemma chat_best :
  found "content" = Some (PStr text) /\
  found "thinking_content" = None /\
  found "finish_reason" = Some (PStr reason) /\
  found "response_id" = Some (PStr id) /\
  found "model" = Some (PStr model_name) /\
  found "model_hash" = None /\
  found "prompt_tokens" = Some (PInt p) /\
  found "completion_tokens" = Some (PInt c) /\
  found "total_tokens" = Some (PInt t) /\
  found "reasoning_tokens" = None /\
  found "cached_tokens" = None /\
  found "cache_creation_tokens" = None /\
  found "cost_usd" = None.
Proof. repeat split; vm_compute; reflexivity. Qed.

(** The counts *)
Lemma count_best l z :
  found l = Some (PInt z) -> exact z -> count_of (best l chat_cs) = Ok (Some z).
Proof. unfold found. destruct (best l chat_cs) as [f|]; [|done]. intros [= Hv]. by apply count_exact. Qed.

Lemma count_none l : found l = None -> count_of (best l chat_cs) = Ok None /\ cost_of (best l chat_cs) = Ok None.
Proof. unfold found. by destruct (best l chat_cs). Qed.

Lemma chat_usage : exact p -> exact c -> exact t -> t <> 0 -> assemble_usage chat_cs = Ok (MkUsage p c t None None None None).
Proof.
  intros Hp Hc Ht Hne. destruct chat_best as (_ & _ & _ & _ & _ & _ & Bp & Bc & Bt & Br & Bh & Bw & Bu).
  unfold assemble_usage. rewrite (count_best _ _ Bp Hp), (count_best _ _ Bc Hc), (count_best _ _ Bt Ht).
  cbn [res_bind]. rewrite (proj1 (count_none _ Br)), (proj1 (count_none _ Bh)), (proj1 (count_none _ Bw)). cbn [res_bind].
  rewrite (proj2 (count_none _ Bu)). cbn [res_bind].
  change (Ok (compute_total (MkUsage p c t None None None None)) = Ok (MkUsage p c t None None None None)).
  unfold compute_total. cbn [total_tokens]. by rewrite (proj2 (Z.eqb_neq t 0) Hne).
Qed.

(** An OpenAI chat completion is mapped without loss.  Whatever its texts and counts,
    the canonical response of the plain shape has its content, identifiers and reason, the
    three counts, and nothing unmapped or overflowing; no model is needed. *)
Theorem chat_completion_is_mapped :
  exact p -> exact c -> exact t -> t <> 0 ->
  exists r, map_response None labels (chat id model_name text reason created p c t) = Ok (r, false) /\
    content r = text /\ thinking_content r = None /\ finish_reason r = _normalize_finish_reason reason /\
    response_id r = Some id /\ model r = Some model_name /\ usage r = MkUsage p c t None None None None /\
    tool_calls r = [] /\ citations r = [] /\ timing r = None /\ overflow r = [] /\ unmapped_fields (mapping r) = [] /\
    is_complete r = negb (bool_decide (text = "")).
Proof.
  intros Hp Hc Ht Hne. unfold map_response, map_fields. rewrite chat_flat.
  change (bool_decide (chat_fields id model_name text reason created p c t = [])) with false. cbn [negb].
  destruct chat_classified as (cs & -> & E). cbn [res_bind]. rewrite E. fold chat_cs.
  destruct chat_best as (B1 & B2 & B3 & B4 & B5 & _). unfold found in *.
  unfold _assemble. rewrite (chat_usage Hp Hc Ht Hne). cbn [res_bind].
  change (assemble_timing chat_cs) with (Ok (@None CanonicalTiming)).
  change (assemble_safety chat_cs) with (Ok (@None CanonicalSafety)). cbn [res_bind].
  destruct (best "content" chat_cs) as [f1|]; [|done]. destruct (best "thinking_content" chat_cs); [done|].
  destruct (best "finish_reason" chat_cs) as [f3|]; [|done]. destruct (best "response_id" chat_cs) as [f4|]; [|done].
  destruct (best "model" chat_cs) as [f5|]; [|done]. cbn [option_map] in *.
  injection B1 as B1. injection B3 as B3. injection B4 as B4. injection B5 as B5.
  unfold str_of. rewrite B1, B3, B4, B5. cbn [is_none py_str]. eexists. split; [reflexivity|].
  cbn [content thinking_content finish_reason response_id model usage tool_calls citations timing overflow mapping unmapped_fields].
  do 7 (split; [reflexivity|]). do 4 (split; [vm_compute; reflexivity|]).
  unfold is_complete. cbn [content thinking_content mapping incomplete]. destruct (bool_decide (text = "")); done.
Qed.
End chat.

Lemma chat_completion_is_mapped_witness :
  exact 12 /\ exact 3 /\ exact 15 /\ 15 <> 0 /\
  exists r, map_response None [] (chat "c-1" "gpt-4o" "Hi." "stop" 1700000000 12 3 15) = Ok (r, false) /\
    usage r = MkUsage 12 3 15 None None None None.
Proof.
  assert (exact 12) as H1 by (vm_compute; reflexivity). assert (exact 3) as H2 by (vm_compute; reflexivity).
  assert (exact 15) as H3 by (vm_compute; reflexivity). assert (15 <> 0) as H4 by discriminate.
  split; [exact H1|]. split; [exact H2|]. split; [exact H3|]. split; [exact H4|].
  destruct (chat_completion_is_mapped [] "c-1" "gpt-4o" "Hi." "stop" 1700000000 12 3 15 H1 H2 H3 H4)
    as (r & Hr & _ & _ & _ & _ & _ & Hu & _).
  exists r. split; [exact Hr|exact Hu].
Defined.

(** ** A model that mislabels *)

(** It calls the creation time a count of prompt tokens; all else is unknown to it. *)
Definition mislabel : session :=
  fun fields => inr (map (fun f => if bool_decide (key f = "created") then 1%nat else 0%nat) fields, None).

Definition mislabelled : list verdict := Eval vm_compute in
  match _classify_fields (Some mislabel) [UNKNOWN; "prompt_tokens"] (chat_fields "" "" "" "" 0 0 0 0) with
  | Ok (cs, _) => _apply_path_fallbacks (chat_fields "" "" "" "" 0 0 0 0) cs
  | Raise _ => []
  end.

(** The model overrides the table of known paths.  A field of the table has full
    confidence, but of two fields with a label the one with the shorter path wins before
    confidence is looked at: when the model takes the creation time for a token count, the
    canonical prompt count of an OpenAI response is its creation time, although the table
    names the real count. *)
Theorem shallow_mislabel_wins id model_name text reason created p c t r timed_out :
  exact created ->
  map_response (Some mislabel) [UNKNOWN; "prompt_tokens"] (chat id model_name text reason created p c t) = Ok (r, timed_out) ->
  od_get "usage.prompt_tokens" _PROVIDER_PATH_MAP = Some "prompt_tokens" /\ prompt_tokens (usage r) = created.
Proof.
  intros Hx Hr. split; [reflexivity|]. unfold map_response, map_fields in Hr. rewrite chat_flat in Hr.
  change (bool_decide (chat_fields id model_name text reason created p c t = [])) with false in Hr. cbn [negb] in Hr.
  apply res_bind_ok in Hr as ([cs to] & Hc & Hr).
  assert (_apply_path_fallbacks (chat_fields id model_name text reason created p c t) cs = mislabelled) as E.
  { vm_compute in Hc. injection Hc as <- _. vm_compute. reflexivity. }
  rewrite E in Hr. apply res_bind_ok in Hr as (r' & Ha & [= <- _]). unfold _assemble in Ha.
  apply res_bind_ok in Ha as (u & Hu & Ha). apply res_bind_ok in Ha as (? & _ & Ha). apply res_bind_ok in Ha as (? & _ & [= <-]).
  cbn [usage]. unfold assemble_usage in Hu.
  set (cs' := zip (chat_fields id model_name text reason created p c t) mislabelled) in *.
  assert (option_map value (best "prompt_tokens" cs') = Some (PInt created)) as Hb by (vm_compute; reflexivity).
  assert (count_of (best "prompt_tokens" cs') = Ok (Some created)) as Hk.
  { destruct (best "prompt_tokens" cs') as [f|]; [|done]. injection Hb as Hb. by apply count_exact. }
  rewrite Hk in Hu. cbn [res_bind] in Hu. do 6 (apply res_bind_ok in Hu as (? & _ & Hu)). injection Hu as <-.
  unfold compute_total. cbn [default]. destruct (_ && _); done.
Qed.

Lemma shallow_mislabel_wins_witness :
  exact 1700000000 /\
  exists r, map_response (Some mislabel) [UNKNOWN; "prompt_tokens"] (chat "c-1" "gpt-4o" "Hi." "stop" 1700000000 12 3 15) = Ok (r, false)
    /\ prompt_tokens (usage r) = 1700000000.
Proof.
  assert (exact 1700000000) as H1 by (vm_compute; reflexivity). split; [exact H1|].
  eexists. split; [vm_compute; reflexivity|].
  exact (proj2 (shallow_mislabel_wins "c-1" "gpt-4o" "Hi." "stop" 1700000000 12 3 15 _ false H1 ltac:(vm_compute; reflexivity))).
Defined.

(** *** Ollama *)

Definition ollama (model text reason : string) (total load pc pd ec ed : Z) : pyval :=
  PDict [("model", PStr model); ("created_at", PStr "2026-01-05T10:00:00Z");
         ("message", PDict [("role", PStr "assistant"); ("content", PStr text)]);
         ("done_reason", PStr reason); ("done", PBool true);
         ("total_duration", PInt total); ("load_duration", PInt load); ("prompt_eval_count", PInt pc);
         ("prompt_eval_duration", PInt pd); ("eval_count", PInt ec); ("eval_duration", PInt ed)].

Definition ollama_fields (model text reason : string) (total load pc pd ec ed : Z) : list FlatField :=
  Eval vm_compute in flatten_json (ollama model text reason total load pc pd ec ed) "" 0 "".

(** The verdicts when the model is not asked, or times out *)
Definition ollama_verdicts : list verdict := Eval vm_compute in
  match _classify_fields None [] (ollama_fields "" "" "" 0 0 0 0 0 0) with
  | Ok (cs, _) => _apply_path_fallbacks (ollama_fields "" "" "" 0 0 0 0 0 0) cs
  | Raise _ => []
  end.

(** Ollama's load time is recorded as its completion time.  The first duration that
    names neither the total nor the prompt fills the completion slot, and Ollama reports
    the load time before the evaluation time, so the time of the answer itself is lost; a
    duration of at most a million nanoseconds is taken for milliseconds. *)
Theorem completion_time_is_load_time labels model_name text reason total load pc pd ec ed r timed_out vt vl vp ve :
  py_float (PInt total) = Ok vt -> py_float (PInt load) = Ok vl -> py_float (PInt pd) = Ok vp -> py_float (PInt ed) = Ok ve ->
  map_response None labels (ollama model_name text reason total load pc pd ec ed) = Ok (r, timed_out) ->
  timing r = Some (MkTiming (Some (ms vt)) (Some (ms vp)) (Some (ms vl)) None).
Proof.
  intros Ht Hl Hp He Hr. unfold map_response, map_fields in Hr.
  change (flatten_json _ _ _ _) with (ollama_fields model_name text reason total load pc pd ec ed) in Hr.
  set (F := ollama_fields model_name text reason total load pc pd ec ed) in Hr.
  change (bool_decide (F = [])) with false in Hr. cbn [negb] in Hr.
  apply res_bind_ok in Hr as ([cs to] & Hc & Hr).
  assert (_apply_path_fallbacks F cs = ollama_verdicts) as E.
  { vm_compute in Hc. injection Hc as <- _. vm_compute. reflexivity. }
  rewrite E in Hr. apply res_bind_ok in Hr as (r' & Ha & [= <- _]). unfold _assemble in Ha.
  apply res_bind_ok in Ha as (u & _ & Ha). apply res_bind_ok in Ha as (tm & Htm & Ha). apply res_bind_ok in Ha as (? & _ & [= <-]).
  cbn [timing]. unfold assemble_timing in Htm.
  assert (map (fun f => (key f, path f, value f)) (map fst (entries "timing_value" (zip F ollama_verdicts)))
          = [("total_duration", "total_duration", PInt total); ("load_duration", "load_duration", PInt load);
             ("prompt_eval_duration", "prompt_eval_duration", PInt pd); ("eval_duration", "eval_duration", PInt ed)]) as Hm
    by (vm_compute; reflexivity).
  destruct (map fst (entries _ _)) as [|f1 [|f2 [|f3 [|f4 [|]]]]]; try discriminate Hm.
  cbn [map] in Hm. injection Hm as K1 P1 V1 K2 P2 V2 K3 P3 V3 K4 P4 V4.
  cbn [fold_res] in Htm. unfold timing_step in Htm.
  rewrite V1, V2, V3, V4, Ht, Hl, Hp, He, K1, K2, K3, K4, P1, P2, P3, P4 in Htm.
  revert Htm. generalize (ms vt) (ms vl) (ms vp) (ms ve). intros a b c d Htm. vm_compute in Htm. congruence.
Qed.

Lemma completion_time_is_load_time_witness :
  exists vt vl vp ve, py_float (PInt 5000000000) = Ok vt /\ py_float (PInt 3000000000) = Ok vl /\
    py_float (PInt 200000000) = Ok vp /\ py_float (PInt 1800000000) = Ok ve /\
  exists r, map_response None [] (ollama "llama3" "Hi." "stop" 5000000000 3000000000 12 200000000 3 1800000000) = Ok (r, false)
    /\ timing r = Some (MkTiming (Some (ms vt)) (Some (ms vp)) (Some (ms vl)) None) /\ ms vl = sf_of_Z 3000.
Proof.
  do 4 eexists. do 4 (split; [vm_compute; reflexivity|]). eexists. split; [vm_compute; reflexivity|]. split.
  - refine (completion_time_is_load_time [] "llama3" "Hi." "stop" 5000000000 3000000000 12 200000000 3 1800000000 _ false _ _ _ _
             _ _ _ _ _); vm_compute; reflexivity.
  - vm_compute. reflexivity.
Defined.
End Shapes.
