(* ===== verification/Anomaly.v ===== *)
(** * Flags on execution records (schema/anomaly.py, schema/overflow.py)

    The rules and the running statistics of the anomaly detector, and the registry of
    fields no step of the mapper could name.

    Token counts are integers here; a provider's fractional count is outside the model. *)
From Stdlib Require Import SpecFloat.
From S2P Require Import Prelude ODict PyVal PyStr PyObj.
From S2P Require SchemaIntel.

Local Open Scope Z_scope.

(** ** Reports *)

Record AnomalyReport := MkAnomalies { anomalies : list string; warnings : list string }.

Definition no_flags : AnomalyReport := MkAnomalies [] [].
Definition has_anomalies (r : AnomalyReport) : bool := 0 <? zlen (anomalies r).
Definition to_list (r : AnomalyReport) : list string := anomalies r ++ map (fun w => "warn:" +:+ w) (warnings r).

Definition anomaly_if (b : bool) (a : string) (r : AnomalyReport) : AnomalyReport :=
  if b then MkAnomalies (anomalies r ++ [a]) (warnings r) else r.
Definition warn_if (b : bool) (w : string) (r : AnomalyReport) : AnomalyReport :=
  if b then MkAnomalies (anomalies r) (warnings r ++ [w]) else r.

(** ** The rules *)

(** [record.get(k, 0) or 0] *)
Definition count (k : string) (record : dict) : res Z :=
  match as_int (por (dget_or k (PInt 0) record) (PInt 0)) with Some z => Ok z | None => type_error end.

Definition half : spec_float := sf_of_decimal false 5 (-1).
Definition hundredth : spec_float := sf_of_decimal false 1 (-2).

(** [abs(total - expected) > max(2, expected * 0.01)] *)
Definition far_from (total expected : Z) : bool :=
  let diff := Z.abs (total - expected) in
  let slack := SFmul prec emax (sf_of_Z expected) hundredth in
  if match sf_compare_Z slack 2 with Some Gt => true | _ => false end
  then match sf_compare_Z slack diff with Some Lt => true | _ => false end
  else 2 <? diff.

(** The ratio of characters to tokens: too low, too high *)
Definition ratio_flags (len tokens : Z) : res (bool * bool) :=
  let! ratio := py_truediv len tokens in
  let low := SFltb ratio half in
  Ok (low, negb low && match sf_compare_Z ratio 20 with Some Gt => true | _ => false end).

(** The latency is a float, an integer or absent. *)
Definition latency_of (record : dict) : res spec_float :=
  match as_float (por (dget_or "latency_ms" (PInt 0) record) (PInt 0)) with Some f => Ok f | None => type_error end.

Definition above (f : spec_float) (z : Z) : bool := match sf_compare_Z f z with Some Gt => true | _ => false end.
Definition below (f : spec_float) (z : Z) : bool := match sf_compare_Z f z with Some Lt => true | _ => false end.

Definition _check_rules (record : dict) (r : AnomalyReport) : res AnomalyReport :=
  let response := por (dget "response_content" record) (PStr "") in
  let thinking := por (dget "thinking_content" record) (PStr "") in
  let r := anomaly_if (negb (truthy response) && negb (truthy thinking)) "empty_response" r in
  let! prompt_tokens := count "prompt_tokens" record in
  let! completion_tokens := count "completion_tokens" record in
  let! total_tokens := count "total_tokens" record in
  let r := warn_if (truthy (por (dget "prompt_text" record) (PStr "")) && (prompt_tokens =? 0)) "prompt_tokens_zero" r in
  let r := anomaly_if ((0 <? total_tokens) && (0 <? prompt_tokens) && (0 <? completion_tokens)
                       && far_from total_tokens (prompt_tokens + completion_tokens)) "token_sum_mismatch" r in
  let! r := if (0 <? completion_tokens) && truthy response then
              let! len := SchemaIntel.py_len response in
              let! '(low, high) := ratio_flags len completion_tokens in
              Ok (warn_if high "token_ratio_high" (warn_if low "token_ratio_low" r))
            else Ok r in
  let! latency := latency_of record in
  let r := if above latency 0 then
             anomaly_if (above latency 300000) "latency_extreme"
               (warn_if (below latency 10 && (5 <? completion_tokens)) "latency_suspiciously_fast" r)
           else r in
  let r := anomaly_if (negb (truthy (dget "execution_id" record))) "missing_execution_id" r in
  let r := warn_if (negb (truthy (dget "session_id" record))) "missing_session_id" r in
  let r := warn_if (negb (truthy (dget "model_id" record)) && negb (truthy (dget "model_attestation_id" record)))
             "missing_model_id" r in
  let r := warn_if (negb (is_none (dget "sequence_number" record)) && negb (truthy (dget "record_hash" record)))
             "chain_hash_missing" r in
  let r := warn_if (eq_str (dget_or "policy_result" (PStr "") record) "denied" && truthy response) "response_after_deny" r in
  let! finish := get "finish_reason" (por (dget "metadata" record) (PDict [])) in
  let finish := por finish (por (dget "finish_reason" record) (PStr "")) in
  if eq_str finish "error" && truthy response then
    let! len := SchemaIntel.py_len response in Ok (warn_if (50 <? len) "content_after_error_finish" r)
  else Ok r.

(** ** The statistics *)

Record _ModelStats := MkStats { ema : spec_float; emv : spec_float; s_count : Z; _last_delta : spec_float }.

Definition zero : spec_float := S754_zero false.
Definition one : spec_float := sf_of_decimal false 1 0.
Definition fresh_stats : _ModelStats := MkStats zero zero 0 zero.

Definition alpha : spec_float := sf_of_decimal false 5 (-2).
Definition fmul (a b : spec_float) : spec_float := SFmul prec emax a b.
Definition fadd (a b : spec_float) : spec_float := SFadd prec emax a b.
Definition fsub (a b : spec_float) : spec_float := SFsub prec emax a b.

(** [alpha * x + (1 - alpha) * y] *)
Definition blend (x y : spec_float) : spec_float := fadd (fmul alpha x) (fmul (fsub one alpha) y).

Definition observe (v : spec_float) (s : _ModelStats) : _ModelStats :=
  if s_count s =? 0 then MkStats v zero 1 zero
  else
    let d := fsub v (ema s) in
    MkStats (blend v (ema s)) (blend (fmul d d) (emv s)) (s_count s + 1) d.

Definition thousandth : spec_float := sf_of_decimal false 1 (-3).

Definition z_score (s : _ModelStats) : spec_float :=
  if s_count s <=? 1 then zero
  else
    let std := if SFltb zero (emv s) then SFsqrt prec emax (emv s) else one in
    if SFltb thousandth std then SFdiv prec emax (_last_delta s) std else zero.

(** [f"{z:.1f}"]: to one decimal, ties to even *)
Definition half_even (p q : Z) : Z :=
  let n := p / q in
  let r := 2 * (p - n * q) in
  if r <? q then n else if q <? r then n + 1 else if Z.even n then n else n + 1.

Definition fmt1 (f : spec_float) : string :=
  let signed (s : bool) (n : Z) := (if s then "-" else "") +:+ z_str (n / 10) +:+ "." +:+ z_str (n mod 10) in
  match f with
  | S754_zero s => signed s 0
  | S754_infinity s => (if s then "-" else "") +:+ "inf"
  | S754_nan => "nan"
  | S754_finite s m e =>
      signed s (if 0 <=? e then Zpos m * 2 ^ e * 10 else half_even (Zpos m * 10) (2 ^ (- e)))
  end.

(** The detector: statistics and request counts by model *)
Record detector := MkDetector {
  _stats : list (pyval * list (string * _ModelStats));
  _request_counts : list (pyval * Z);
}.

Definition new_detector : detector := MkDetector [] [].

Definition model_stats (m : pyval) (d : detector) : list (string * _ModelStats) := default [] (vget m (_stats d)).
Definition requests (m : pyval) (d : detector) : Z := default 0 (vget m (_request_counts d)).

Definition Z_THRESHOLD : Z := 3.

(** [abs(z) > 3] *)
Definition extreme (z : spec_float) : bool := above (SFabs z) Z_THRESHOLD.

(** [stats[k].update(v)] *)
Definition update (k : string) (v : spec_float) (st : list (string * _ModelStats)) : list (string * _ModelStats) * spec_float :=
  let s := observe v (default fresh_stats (od_get k st)) in (od_set k s st, z_score s).

Definition flag_name (k : string) (z : spec_float) : string := k +:+ "_" +:+ fmt1 z +:+ "sigma".

(** One metric: updated when there is a value, and flagged *)
Definition metric (k : string) (v : option spec_float) (as_anomaly : bool) (x : list (string * _ModelStats) * AnomalyReport)
    : list (string * _ModelStats) * AnomalyReport :=
  match v with
  | Some v =>
      let '(st, z) := update k v (fst x) in
      (st, (if as_anomaly then anomaly_if else warn_if) (extreme z) (flag_name k z) (snd x))
  | None => x
  end.

Definition _check_stats (record : dict) (r : AnomalyReport) (d : detector) : res (detector * AnomalyReport) :=
  let m := por (dget "model_id" record) (por (dget "model_attestation_id" record) (PStr "unknown")) in
  let! _ := hashable m in
  let st := model_stats m d in
  let n := requests m d + 1 in
  let counts := vset m n (_request_counts d) in
  if n <? 10 then Ok (MkDetector (vset m st (_stats d)) counts, r)
  else
    let! latency := latency_of record in
    let! ct := count "completion_tokens" record in
    let response := por (dget "response_content" record) (PStr "") in
    let! len := if truthy response then SchemaIntel.py_len response else Ok 0 in
    let! pt := count "prompt_tokens" record in
    let positive z := if 0 <? z then Some (sf_of_Z z) else None in
    let x := metric "latency" (if above latency 0 then Some latency else None) true (st, r) in
    let x := metric "completion_tokens" (positive ct) false x in
    let x := metric "response_length" (if truthy response then Some (sf_of_Z len) else None) false x in
    let x := metric "prompt_tokens" (positive pt) false x in
    Ok (MkDetector (vset m (fst x) (_stats d)) counts, snd x).

Definition detect (record : dict) (d : detector) : res (detector * AnomalyReport) :=
  let! r := _check_rules record no_flags in _check_stats record r d.

(** A sequence of requests; what raises is logged by the caller and flags nothing. *)
Definition detect_all (records : list dict) (d : detector) : detector :=
  foldl (fun d r => match detect r d with Ok (d, _) => d | Raise _ => d end) d records.

(** ** Unknown fields *)

Definition _NOISE_PREFIXES : list string := ["x-"; "_"; "x_"; "__"].
Definition _NOISE_KEYS : list string :=
  ["object"; "type"; "role"; "index"; "logprobs"; "refusal"; "created"; "created_at"; "updated_at"].

Definition cut100 (s : string) : string := stake 100 s +:+ "...".
Definition longer (s : string) : bool := 100 <? Z.of_nat (String.length s).

Definition _safe_sample (v : pyval) : pyval :=
  match v with
  | PStr s => if longer s then PStr (cut100 s) else v
  | PList _ | PDict _ => let s := py_str v in PStr (if longer s then cut100 s else s)
  | _ => v
  end.

Definition _type_name (v : pyval) : string :=
  match v with
  | PNone => "null"
  | PBool _ => "bool"
  | PInt _ => "int"
  | PFloat _ _ => "float"
  | PStr _ => "string"
  | PList _ => "array"
  | PDict _ => "object"
  | PRedacted _ => "RedactedString"
  end.

Record FieldRecord := MkRecord {
  f_type : string;
  f_first_seen : Z;
  f_last_seen : Z;
  f_count : Z;
  f_sample : pyval;
  f_promoted : bool;
}.

(** Keyed by path and provider *)
Record registry := MkRegistry {
  _fields : list (string * string * FieldRecord);
  _promotion_candidates : list string;
}.

Definition empty_registry : registry := MkRegistry [] [].
Definition PROMOTION_THRESHOLD : Z := 10.

Definition is_noise (field_path : string) : bool :=
  let leaf := lower (List.last (split_on "."%char field_path) "") in
  bool_decide (leaf ∈ _NOISE_KEYS) || existsb (fun p => startswith p leaf) _NOISE_PREFIXES.

Definition record (field_path : string) (v : pyval) (vtype provider : string) (now : Z) (g : registry) : registry :=
  if is_noise field_path then g
  else
    let key := (field_path, provider) in
    match od_get key (_fields g) with
    | Some rec =>
        let n := f_count rec + 1 in
        let promote := (n =? PROMOTION_THRESHOLD) && negb (f_promoted rec) in
        MkRegistry (od_set key (MkRecord (f_type rec) (f_first_seen rec) now n (f_sample rec) (promote || f_promoted rec)) (_fields g))
          (if promote then _promotion_candidates g ++ [field_path] else _promotion_candidates g)
    | None => MkRegistry (od_set key (MkRecord vtype now now 1 (_safe_sample v) false) (_fields g)) (_promotion_candidates g)
    end.

(** The envelope of a record's overflow *)
Definition build_overflow_envelope (overflow : dict) (provider : string) (now : Z) (g : option registry)
    : dict * option registry :=
  match overflow with
  | [] => ([], g)
  | _ =>
      let entry v := PDict [("value", _safe_sample v); ("type", PStr (_type_name v)); ("provider", PStr provider)] in
      ([("_schema_version", PInt 1);
        ("_overflow_fields", PDict (foldl (fun d kv => od_set (fst kv) (entry (snd kv)) d) [] overflow))],
       option_map (fun g => foldl (fun g kv => record (fst kv) (snd kv) (_type_name (snd kv)) provider now g) g overflow) g)
  end.

(** ** Flags are never taken back *)

Definition keeps (a b : AnomalyReport) : Prop :=
  (forall x, x ∈ anomalies a -> x ∈ anomalies b) /\ (forall x, x ∈ warnings a -> x ∈ warnings b).

#[local] Instance keeps_preorder : PreOrder keeps.
Proof. split; [done|]. intros a b c [? ?] [? ?]. split; auto. Qed.

Lemma anomaly_if_keeps b x r : keeps r (anomaly_if b x r).
Proof. destruct b; [|done]. split; cbn; [intros y Hy; apply elem_of_app; by left|done]. Qed.
Lemma warn_if_keeps b x r : keeps r (warn_if b x r).
Proof. destruct b; [|done]. split; cbn; [done|intros y Hy; apply elem_of_app; by left]. Qed.
Create HintDb flags.
#[local] Hint Resolve anomaly_if_keeps warn_if_keeps : flags.

Lemma metric_keeps k v b x : keeps (snd x) (snd (metric k v b x)).
Proof. unfold metric. destruct v as [v|]; [|done]. destruct (update k v _) as [st z]. cbn. destruct b; auto with flags. Qed.

Lemma check_stats_keeps rec r d d' r' : _check_stats rec r d = Ok (d', r') -> keeps r r'.
Proof.
  unfold _check_stats. intros Hc. apply res_bind_ok in Hc as (? & _ & Hc). destruct (_ <? 10); [by injection Hc as _ <-|].
  unbind Hc. injection Hc as _ <-. do 3 (etransitivity; [|apply metric_keeps]). apply (metric_keeps _ _ _ (_, r)).
Qed.

Lemma chained_flags rec d d' r :
  dget "sequence_number" rec <> PNone -> truthy (dget "record_hash" rec) = false ->
  detect rec d = Ok (d', r) -> "chain_hash_missing" ∈ warnings r /\ to_list r <> [].
Proof.
  intros Hs Hh Hd. unfold detect in Hd. apply res_bind_ok in Hd as (r1 & Hr & Hd). apply check_stats_keeps in Hd as [_ Hk].
  assert ("chain_hash_missing" ∈ warnings r1) as Hin.
  { unfold _check_rules in Hr. do 3 (apply res_bind_ok in Hr as (? & _ & Hr)). apply res_bind_ok in Hr as (ra & _ & Hr).
    apply res_bind_ok in Hr as (? & _ & Hr). apply res_bind_ok in Hr as (? & _ & Hr).
    assert (negb (is_none (dget "sequence_number" rec)) && negb (truthy (dget "record_hash" rec)) = true) as Hb.
    { rewrite Hh. by destruct (dget "sequence_number" rec). }
    rewrite Hb in Hr.
    match type of Hr with context [warn_if true "chain_hash_missing" ?q] => set (q0 := q) in * end.
    assert ("chain_hash_missing" ∈ warnings (warn_if true "chain_hash_missing" q0)) as H0
      by (cbn; apply elem_of_app; right; by left).
    set (q1 := warn_if _ "response_after_deny" _) in Hr.
    assert ("chain_hash_missing" ∈ warnings q1) as H1 by (by apply warn_if_keeps).
    match type of Hr with (if ?b then _ else _) = _ => destruct b end; [|by injection Hr as <-]. apply res_bind_ok in Hr as (? & _ & [= <-]). by apply warn_if_keeps. }
  apply Hk in Hin. split; [done|]. unfold to_list. intros Hnil. apply List.app_eq_nil in Hnil as [_ Hnil].
  apply List.map_eq_nil in Hnil. rewrite Hnil in Hin. by apply not_elem_of_nil in Hin.
Qed.

(** A chained record is always flagged.  The chain links records by identifier and no
    longer sets a record hash, and the detector warns of every numbered record without
    one: each report on a chained record has a flag, whatever else the record says. *)
Theorem chained_records_are_flagged rec d d' r :
  dget "sequence_number" rec <> PNone -> truthy (dget "record_hash" rec) = false ->
  detect rec d = Ok (d', r) -> "chain_hash_missing" ∈ warnings r /\ to_list r <> [].
Proof. exact (chained_flags rec d d' r). Qed.

(** ** The first baseline *)

(** A request with nothing but a latency *)
Definition timed (m : string) (ms : Z) : dict :=
  [("execution_id", PStr "e"); ("model_id", PStr m); ("response_content", PStr "ok"); ("latency_ms", PInt ms)].

Lemma timed_rules m ms : exists r, _check_rules (timed m ms) no_flags = Ok r.
Proof.
  unfold _check_rules. change (count _ (timed m ms)) with (Ok 0). cbn [res_bind].
  change (latency_of (timed m ms)) with
    (match as_float (por (PInt ms) (PInt 0)) with Some f => Ok f | None => (type_error : res spec_float) end).
  assert (exists f, as_float (por (PInt ms) (PInt 0)) = Some f) as [f ->].
  { unfold por. destruct (truthy _); by eexists. }
  cbn. by eexists.
Qed.

Lemma vget_vset_same {A} k (a : A) l : py_eqb k k = true -> vget k (vset k a l) = Some a.
Proof.
  intros Hk. induction l as [|[k' b] l IH]; cbn [vset vget]; [by rewrite Hk|].
  destruct (py_eqb k' k) eqn:He; cbn [vget]; by rewrite He.
Qed.

Lemma py_eqb_str_same m : py_eqb (PStr m) (PStr m) = true.
Proof. cbn. by apply bool_decide_eq_true. Qed.

(** While a model has fewer than ten requests nothing is observed. *)
Lemma warming m ms d :
  m <> "" -> requests (PStr m) d + 1 < 10 -> model_stats (PStr m) d = [] ->
  exists d' r, detect (timed m ms) d = Ok (d', r) /\ requests (PStr m) d' = requests (PStr m) d + 1
    /\ model_stats (PStr m) d' = [].
Proof.
  intros Hm Hn Hs. destruct (timed_rules m ms) as [r Hr]. unfold detect. rewrite Hr. cbn [res_bind]. unfold _check_stats.
  assert (por (dget "model_id" (timed m ms)) (por (dget "model_attestation_id" (timed m ms)) (PStr "unknown")) = PStr m) as ->.
  { change (por (PStr m) (PStr "unknown") = PStr m). unfold por. cbn. by destruct m. }
  cbn [hashable res_bind]. rewrite (proj2 (Z.ltb_lt _ _) Hn). eexists _, _. split; [done|].
  unfold requests, model_stats. cbn [_stats _request_counts]. rewrite !vget_vset_same by apply py_eqb_str_same. cbn.
  split; [done|]. exact Hs.
Qed.

Lemma warm_up m mss : forall d,
  m <> "" -> requests (PStr m) d + zlen mss < 10 -> model_stats (PStr m) d = [] ->
  let d' := detect_all (map (timed m) mss) d in
  requests (PStr m) d' = requests (PStr m) d + zlen mss /\ model_stats (PStr m) d' = [].
Proof.
  unfold detect_all. induction mss as [|ms mss IH]; intros d Hm Hn Hs; [cbn [map foldl]; rewrite zlen_nil; split; [lia|done]|].
  rewrite zlen_cons in Hn. pose proof (Zle_0_nat (length mss)) as Hl. fold (zlen mss) in Hl.
  destruct (warming m ms d Hm ltac:(lia) Hs) as (d1 & r & Hd & Hr & Hs1).
  cbn [map foldl]. rewrite Hd. destruct (IH d1 Hm ltac:(lia) Hs1) as [H1 H2]. split; [rewrite H1, Hr, zlen_cons; lia|done].
Qed.

(** What the statistics say of two whole numbers *)
Definition jumps (a b : Z) : bool :=
  above (sf_of_Z a) 0 && above (sf_of_Z b) 0
  && (Bool.eqb (extreme (z_score (observe (sf_of_Z b) (observe (sf_of_Z a) fresh_stats)))) (negb (a =? b))).

Lemma two_values_jump : forallb (fun a => forallb (fun b => jumps (Z.of_nat a) (Z.of_nat b)) (seq 1 64)) (seq 1 64) = true.
Proof. vm_compute. reflexivity. Qed.

Lemma jump a b : 1 <= a <= 64 -> 1 <= b <= 64 -> jumps a b = true.
Proof.
  intros Ha Hb. pose proof two_values_jump as H. rewrite forallb_forall in H.
  assert (In (Z.to_nat a) (seq 1 64)) as H1 by (apply in_seq; lia). apply H in H1. rewrite forallb_forall in H1.
  assert (In (Z.to_nat b) (seq 1 64)) as H2 by (apply in_seq; lia). apply H1 in H2. by rewrite !Z2Nat.id in H2 by lia.
Qed.

Lemma metric_flag k v st r :
  let s := observe v (default fresh_stats (od_get k st)) in
  od_get k (fst (metric k (Some v) true (st, r))) = Some s /\
  (extreme (z_score s) = true -> flag_name k (z_score s) ∈ anomalies (snd (metric k (Some v) true (st, r)))).
Proof.
  intros s. unfold metric, update. cbn [fst snd]. fold s. split; [apply od_get_set_eq|].
  intros ->. cbn. apply elem_of_app. right. by left.
Qed.

(** A timed request once the model is warm *)
Lemma warm m ms d :
  m <> "" -> 9 <= requests (PStr m) d -> ms <> 0 -> above (sf_of_Z ms) 0 = true ->
  exists d' r, detect (timed m ms) d = Ok (d', r) /\
    let s := observe (sf_of_Z ms) (default fresh_stats (od_get "latency" (model_stats (PStr m) d))) in
    requests (PStr m) d' = requests (PStr m) d + 1 /\ od_get "latency" (model_stats (PStr m) d') = Some s /\
    (extreme (z_score s) = true -> flag_name "latency" (z_score s) ∈ anomalies r).
Proof.
  intros Hm Hn Hz Ha. destruct (timed_rules m ms) as [r Hr]. unfold detect. rewrite Hr. cbn [res_bind]. unfold _check_stats.
  assert (por (dget "model_id" (timed m ms)) (por (dget "model_attestation_id" (timed m ms)) (PStr "unknown")) = PStr m) as ->.
  { change (por (PStr m) (PStr "unknown") = PStr m). unfold por. cbn. by destruct m. }
  cbn [hashable res_bind]. destruct (Z.ltb_spec (requests (PStr m) d + 1) 10) as [?|_]; [lia|].
  assert (latency_of (timed m ms) = Ok (sf_of_Z ms)) as ->.
  { change (latency_of (timed m ms)) with
      (match as_float (por (PInt ms) (PInt 0)) with Some f => Ok f | None => (type_error : res spec_float) end).
    unfold por. cbn [truthy]. by rewrite (proj2 (Z.eqb_neq ms 0) Hz). }
  change (count _ (timed m ms)) with (Ok 0). cbn [res_bind]. rewrite Ha.
  change (dget "response_content" (timed m ms)) with (PStr "ok"). cbn [por truthy SchemaIntel.py_len res_bind].
  set (x1 := metric "latency" _ true _).
  set (x2 := metric "completion_tokens" _ false x1). set (x3 := metric "response_length" _ false x2).
  set (x4 := metric "prompt_tokens" _ false x3). eexists _, _. split; [done|].
  change x4 with x3. unfold requests, model_stats. cbn [_stats _request_counts].
  rewrite !vget_vset_same by apply py_eqb_str_same. cbn [default id]. split; [done|].
  change x2 with x1 in x3.
  assert (od_get "latency" (fst x3) = od_get "latency" (fst x1)) as ->.
  { subst x3. unfold metric. destruct (update "response_length" _ _) as [st z] eqn:Hu. cbn [fst].
    unfold update in Hu. injection Hu as <- _. by rewrite od_get_set_ne. }
  pose proof (metric_keeps "response_length" (Some (sf_of_Z 2)) false x1) as [Hk _]. change (metric _ _ false x1) with x3 in Hk.
  destruct (metric_flag "latency" (sf_of_Z ms) (model_stats (PStr m) d) r) as [H1 H2].
  split; [exact H1|]. intros He. apply Hk. by apply H2.
Qed.

(** The eleventh request of a model is an anomaly.  The detector observes nothing
    during the first nine requests, takes the tenth alone for its baseline and compares
    the eleventh with it: the variance is then that single difference, so every change of
    latency between them is reported as more than four standard deviations (proved for
    whole milliseconds up to 64), and no change as none. *)
Theorem eleventh_request_is_an_anomaly m warmup a b :
  m <> "" -> length warmup = 9%nat -> 1 <= a <= 64 -> 1 <= b <= 64 -> a <> b ->
  exists d r z, detect (timed m b) (detect_all (map (timed m) (warmup ++ [a])) new_detector) = Ok (d, r) /\
    above (SFabs z) 3 = true /\ flag_name "latency" z ∈ anomalies r.
Proof.
  intros Hm Hl Ha Hb Hab. rewrite map_app. unfold detect_all. rewrite foldl_app. fold (detect_all (map (timed m) warmup) new_detector).
  destruct (warm_up m warmup new_detector Hm) as [Hn Hs]; [unfold zlen; rewrite Hl; done|done|].
  set (d9 := detect_all _ _) in *. assert (requests (PStr m) d9 = 9) as Hn9 by (rewrite Hn; unfold zlen; by rewrite Hl).
  pose proof (jump a b Ha Hb) as Hj. unfold jumps in Hj. apply andb_true_iff in Hj as [[Hpa Hpb]%andb_true_iff Hj].
  destruct (warm m a d9 Hm ltac:(lia) ltac:(lia) Hpa) as (d10 & r10 & H10 & Hn10 & Hs10 & _).
  cbn [map foldl]. rewrite H10. rewrite Hs in Hs10. cbn [od_get default] in Hs10.
  destruct (warm m b d10 Hm ltac:(lia) ltac:(lia) Hpb) as (d11 & r11 & H11 & _ & _ & Hflag).
  rewrite Hs10 in Hflag. cbn [default] in Hflag. eexists _, _, _. split; [exact H11|].
  apply Bool.eqb_prop in Hj. rewrite (proj2 (Z.eqb_neq a b) Hab) in Hj. cbn [negb] in Hj. split; [exact Hj|]. by apply Hflag.
Qed.

Lemma eleventh_request_is_an_anomaly_witness :
  length [40; 41; 39; 40; 42; 40; 41; 40; 40] = 9%nat /\
  exists d r z, detect (timed "gpt-4o" 41)
      (detect_all (map (timed "gpt-4o") ([40; 41; 39; 40; 42; 40; 41; 40; 40] ++ [40])) new_detector) = Ok (d, r) /\
    above (SFabs z) 3 = true /\ flag_name "latency" z ∈ anomalies r.
Proof.
  split; [reflexivity|].
  exact (eleventh_request_is_an_anomaly "gpt-4o" [40; 41; 39; 40; 42; 40; 41; 40; 40] 40 41 ltac:(discriminate) eq_refl
           ltac:(lia) ltac:(lia) ltac:(lia)).
Defined.

Lemma chained_records_are_flagged_witness :
  let rec := od_set "sequence_number" (PInt 0) (timed "gpt-4o" 40) in
  exists d r, detect rec new_detector = Ok (d, r) /\ "chain_hash_missing" ∈ warnings r /\ to_list r <> [].
Proof.
  intros rec. eexists _, _. split; [vm_compute; reflexivity|].
  refine (chained_records_are_flagged rec new_detector _ _ _ eq_refl _); [vm_compute; discriminate|vm_compute; reflexivity].
Defined.

(** ** The registry counts *)

Record sighting := MkSighting { g_path : string; g_value : pyval; g_provider : string; g_now : Z }.

Definition see (g : registry) (x : sighting) : registry :=
  record (g_path x) (g_value x) (_type_name (g_value x)) (g_provider x) (g_now x) g.
Definition seen (xs : list sighting) : registry := foldl see empty_registry xs.

Definition times (p q : string) (xs : list sighting) : Z :=
  zlen (List.filter (fun x => bool_decide (g_path x = p) && bool_decide (g_provider x = q) && negb (is_noise p)) xs).

(** The registry counts what it is shown.  A field that is no noise has a record per
    provider with the number of times it was seen and the sample of its first value; it
    is promoted, once, when the tenth sighting by one provider arrives; noise leaves no
    trace. *)
Theorem registry_counts xs :
  (forall p q, match od_get (p, q) (_fields (seen xs)) with
               | Some rec => f_count rec = times p q xs /\ 0 < times p q xs /\
                   f_promoted rec = (PROMOTION_THRESHOLD <=? times p q xs)
               | None => times p q xs = 0
               end) /\
  (forall p, p ∈ _promotion_candidates (seen xs) <-> exists q, PROMOTION_THRESHOLD <= times p q xs) /\
  (forall p q, is_noise p = true -> od_get (p, q) (_fields (seen xs)) = None).
Proof.
  induction xs as [|x xs IH] using rev_ind.
  { split; [done|]. split; [|done]. intros p. split; [by intros ?%not_elem_of_nil|]. intros [q Hq].
    change (times p q []) with 0 in Hq. unfold PROMOTION_THRESHOLD in Hq. lia. }
  destruct IH as (IH1 & IH2 & IH3). unfold seen in *. rewrite foldl_app. cbn [foldl]. set (g := foldl see _ xs) in *.
  assert (forall p q, times p q (xs ++ [x]) = times p q xs +
            (if decide (g_path x = p /\ g_provider x = q /\ is_noise p = false) then 1 else 0)) as Ht.
  { intros p q. unfold times. rewrite List.filter_app, zlen_app. f_equal. cbn [List.filter].
    destruct (decide _) as [(-> & -> & ->)|Hn]; [by rewrite !bool_decide_true|].
    destruct (bool_decide_reflect (g_path x = p)), (bool_decide_reflect (g_provider x = q)), (is_noise p); try done.
    exfalso. by apply Hn. }
  unfold see, record. destruct (is_noise (g_path x)) eqn:Hnoise.
  { assert (forall p q, times p q (xs ++ [x]) = times p q xs) as Hs.
    { intros p q. rewrite Ht. destruct (decide _) as [(<- & _ & ?)|_]; [congruence|lia]. }
    split; [intros p q; rewrite Hs; apply IH1|]. split; [|done]. intros p. rewrite IH2. by setoid_rewrite Hs. }
  set (key := (g_path x, g_provider x)). pose proof (IH1 (g_path x) (g_provider x)) as Hold. fold key in Hold.
  pose proof (Ht (g_path x) (g_provider x)) as Hnew. rewrite decide_True in Hnew by done.
  assert (forall p q, (p, q) <> key -> times p q (xs ++ [x]) = times p q xs) as Hother.
  { intros p q Hne. rewrite Ht. destruct (decide _) as [(<- & <- & _)|_]; [done|lia]. }
  assert (forall p q, is_noise p = true -> (p, q) <> key) as Hnk by (intros p q Hp [= -> ->]; congruence).
  destruct (od_get key (_fields g)) as [rec|] eqn:Hk; cbn [_fields _promotion_candidates].
  - destruct Hold as (Hc & Hpos & Hpr). rewrite Hc. set (n := times (g_path x) (g_provider x) xs) in *.
    assert ((n + 1 =? PROMOTION_THRESHOLD) && negb (f_promoted rec) = (n + 1 =? PROMOTION_THRESHOLD)) as ->.
    { rewrite Hpr. unfold PROMOTION_THRESHOLD. destruct (Z.eqb_spec (n + 1) 10), (Z.leb_spec 10 n); try done; lia. }
    split; [|split].
    + intros p q. destruct (decide ((p, q) = key)) as [Heq|Hne]; [unfold key in Heq; injection Heq as -> ->|].
      * rewrite od_get_set_eq, Hnew. cbn. split; [done|]. split; [lia|]. rewrite Hpr. unfold PROMOTION_THRESHOLD.
        destruct (Z.eqb_spec (n + 1) 10), (Z.leb_spec 10 n), (Z.leb_spec 10 (n + 1)); try done; lia.
      * rewrite od_get_set_ne by done. rewrite Hother by done. apply IH1.
    + intros p. transitivity ((exists q, PROMOTION_THRESHOLD <= times p q xs) \/ (p = g_path x /\ n + 1 = PROMOTION_THRESHOLD)).
      { rewrite <- IH2. destruct (Z.eqb_spec (n + 1) PROMOTION_THRESHOLD).
        - rewrite elem_of_app, list_elem_of_singleton. naive_solver.
        - naive_solver. }
      split.
      * intros [[q Hq]|[-> Hq]]; [exists q; rewrite Ht; case_decide; lia|]. exists (g_provider x). lia.
      * intros [q Hq]. destruct (decide ((p, q) = key)) as [Heq|Hne]; [unfold key in Heq; injection Heq as -> ->|rewrite Hother in Hq by done; left; by exists q].
        rewrite Hnew in Hq. fold n in Hq. destruct (decide (PROMOTION_THRESHOLD <= n)); [left; by eexists|]. right. split; [done|lia].
    + intros p q Hp. rewrite od_get_set_ne by (intros Heq; symmetry in Heq; by eapply Hnk). by apply IH3.
  - split; [|split].
    + intros p q. destruct (decide ((p, q) = key)) as [Heq|Hne]; [unfold key in Heq; injection Heq as -> ->|].
      * rewrite od_get_set_eq, Hnew, Hold. done.
      * rewrite od_get_set_ne by done. rewrite Hother by done. apply IH1.
    + intros p. rewrite IH2. split; intros [q Hq]; exists q.
      * rewrite Ht. case_decide; lia.
      * destruct (decide ((p, q) = key)) as [Heq|Hne]; [unfold key in Heq; injection Heq as -> ->|by rewrite Hother in Hq].
        rewrite Hnew, Hold in Hq. unfold PROMOTION_THRESHOLD in Hq. lia.
    + intros p q Hp. rewrite od_get_set_ne by (intros Heq; symmetry in Heq; by eapply Hnk). by apply IH3.
Qed.

(** Overflow is a sample.  The envelope written for a text of more than a hundred
    characters holds its first hundred and an ellipsis, so the rest of a field that the
    mapper could not name is dropped: the record cannot tell two such texts apart. *)
Theorem overflow_is_a_sample p provider now s t :
  longer s = true -> longer t = true -> stake 100 s = stake 100 t ->
  fst (build_overflow_envelope [(p, PStr s)] provider now None) = fst (build_overflow_envelope [(p, PStr t)] provider now None).
Proof.
  intros Hs Ht Hst. unfold build_overflow_envelope. cbn [foldl fst snd]. unfold _safe_sample. rewrite Hs, Ht.
  unfold cut100. by rewrite Hst.
Qed.

Lemma overflow_is_a_sample_witness :
  let s := "0123456789012345678901234567890123456789012345678901234567890123456789012345678901234567890123456789a" in
  let t := "0123456789012345678901234567890123456789012345678901234567890123456789012345678901234567890123456789b" in
  s <> t /\ fst (build_overflow_envelope [("x", PStr s)] "openai" 0 None) = fst (build_overflow_envelope [("x", PStr t)] "openai" 0 None).
Proof.
  intros s t. split; [discriminate|].
  exact (overflow_is_a_sample "x" "openai" 0 s t ltac:(vm_compute; reflexivity) ltac:(vm_compute; reflexivity)
           ltac:(vm_compute; reflexivity)).
Defined.
