(* ===== verification/AuditRecord.v ===== *)
(** * What is recorded of an exchange (pipeline/hasher.py, pipeline/orchestrator.py, pipeline/tool_executor.py)

    The record of an execution, the metadata it carries, the enrichment of a call by the
    intent engine and of a response by the schema mapper, the cost, and the governance
    headers.  Fresh identifiers, clock readings and durations are arguments. *)
From Stdlib Require Import SpecFloat.
From S2P Require Import Prelude ODict PyVal PyStr PyObj AdapterBase.
From S2P Require ResponsePolicy Budget SemanticCache SchemaIntel Normalizer Mapper Anomaly.

Local Open Scope Z_scope.

(** ** Rounding *)

(** [round(x, n)] of a double: the double nearest to the decimal with [n] places that is
    nearest to it, ties to even. *)
Definition py_round (n : Z) (x : spec_float) : spec_float :=
  match x with
  | S754_finite s m e =>
      if 0 <=? e then x else sf_of_decimal s (Anomaly.half_even (Zpos m * 10 ^ n) (2 ^ (- e))) (- n)
  | _ => x
  end.

(** [round(x)] of a double: the nearest integer, ties to even *)
Definition py_round0 (x : spec_float) : res Z :=
  match x with
  | S754_zero _ => Ok 0
  | S754_infinity _ => Raise (OverflowError "cannot convert float infinity to integer")
  | S754_nan => Raise (ValueError "cannot convert float NaN to integer")
  | S754_finite s m e =>
      let n := if 0 <=? e then Zpos m * 2 ^ e else Anomaly.half_even (Zpos m) (2 ^ (- e)) in
      Ok (if s then - n else n)
  end.

(** ** Governance headers *)

Definition _compute_budget_percent (budget_remaining : option Z) (max_tokens : Z) : res (option Z) :=
  match budget_remaining with
  | None => Ok None
  | Some rem =>
      if (rem <? 0) || (max_tokens <=? 0) then Ok None
      else
        let! share := py_truediv (max_tokens - rem) max_tokens in
        let! p := py_round0 (SFmul prec emax share (sf_of_Z 100)) in
        Ok (Some (Z.min 100 (Z.max 0 p)))
  end.

(** [sub in v] *)
Definition py_in (sub : string) (v : pyval) : res bool :=
  match v with
  | PStr s => Ok (contains sub s)
  | PList l => Ok (existsb (fun x => eq_str x sub) l)
  | PDict d => Ok (match od_get sub d with Some _ => true | None => false end)
  | _ => type_error
  end.

(** [any(f(x) for x in l)] *)
Fixpoint any_res {A} (f : A -> res bool) (l : list A) : res bool :=
  match l with
  | [] => Ok false
  | x :: l => let! b := f x in if b then Ok true else any_res f l
  end.

(** The early return of the first loop, then the verdicts *)
Definition _summarize_content_analysis (decisions : list dict) : res string :=
  if existsb (fun d => eq_str (dget "action" d) "block") decisions then Ok "blocked"
  else
    let verdicts := map (dget_or "verdict" (PStr "")) decisions in
    let! pii := any_res (py_in "pii") verdicts in
    if pii then Ok "pii_warn"
    else
      let! toxic := any_res (fun v => let! a := py_in "toxic" v in if a then Ok true else py_in "warn" v) verdicts in
      Ok (if toxic then "toxicity_warn" else "clean").

(** The headers of a governed answer; a value is sent as its text. *)
Record governance := MkGovernance {
  g_execution_id : pyval;
  g_attestation_id : pyval;
  g_chain_seq : pyval;
  g_policy_result : pyval;
  g_content_analysis : pyval;
  g_budget_remaining : pyval;
  g_budget_percent : pyval;
  g_model_id : pyval;
}.

Definition header_if (b : bool) (name : string) (v : pyval) (h : list (string * string)) : list (string * string) :=
  if b then od_set name (py_str v) h else h.

Definition _add_governance_headers (g : governance) (h : list (string * string)) : list (string * string) :=
  let h := header_if (truthy (g_execution_id g)) "x-walacor-execution-id" (g_execution_id g) h in
  let h := header_if (truthy (g_attestation_id g)) "x-walacor-attestation-id" (g_attestation_id g) h in
  let h := header_if (negb (is_none (g_chain_seq g))) "x-walacor-chain-seq" (g_chain_seq g) h in
  let h := header_if (truthy (g_policy_result g)) "x-walacor-policy-result" (g_policy_result g) h in
  let h := header_if (truthy (g_content_analysis g)) "x-walacor-content-analysis" (g_content_analysis g) h in
  let h := header_if (negb (is_none (g_budget_remaining g))) "x-walacor-budget-remaining" (g_budget_remaining g) h in
  let h := header_if (negb (is_none (g_budget_percent g))) "x-walacor-budget-percent" (g_budget_percent g) h in
  header_if (truthy (g_model_id g)) "x-walacor-model-id" (g_model_id g) h.

(** ** The record *)

(** The arguments of [build_execution_record] beside the call and the response, with
    what it draws: two identifiers and the time *)
Record filing := MkFiling {
  fresh_execution_id : string;
  fresh_record_id : string;
  now : string;
  attestation_id : pyval;
  policy_version : pyval;
  policy_result : pyval;
  tenant_id : pyval;
  gateway_id : pyval;
  user : pyval;
  session_id : pyval;
  f_metadata : pyval;
  f_model_id : pyval;
  f_provider : pyval;
  latency_ms : pyval;
  timings : pyval;
  variant_id : pyval;
  file_metadata : pyval;
  model_hash : pyval;
}.

(** [x or None] *)
Definition or_none (v : pyval) : pyval := por v PNone.

(** A usage that is no dict has no [get]. *)
Definition build_execution_record (call : ModelCall) (r : ModelResponse) (f : filing) : res dict :=
  let u := por (usage r) (PDict []) in
  let! pt := get "prompt_tokens" u in
  let! ct := get "completion_tokens" u in
  let! tt := get "total_tokens" u in
  let! hit := get_or "cache_hit" (PBool false) u in
  let! cached := get_or "cached_tokens" (PInt 0) u in
  let! creation := get_or "cache_creation_tokens" (PInt 0) u in
  Ok [("execution_id", PStr (fresh_execution_id f)); ("record_id", PStr (fresh_record_id f));
      ("model_attestation_id", attestation_id f); ("model_id", por (f_model_id f) (model_id call));
      ("provider", f_provider f); ("policy_version", policy_version f); ("policy_result", policy_result f);
      ("tenant_id", tenant_id f); ("gateway_id", gateway_id f); ("timestamp", PStr (now f));
      ("user", user f); ("session_id", session_id f); ("metadata", f_metadata f);
      ("prompt_text", or_none (prompt_text call)); ("response_content", or_none (content r));
      ("provider_request_id", provider_request_id r); ("model_hash", model_hash f);
      ("thinking_content", or_none (thinking_content r)); ("latency_ms", latency_ms f);
      ("prompt_tokens", por pt (PInt 0)); ("completion_tokens", por ct (PInt 0)); ("total_tokens", por tt (PInt 0));
      ("retry_of", PNone); ("timings", timings f); ("cache_hit", hit); ("cached_tokens", cached);
      ("cache_creation_tokens", creation); ("variant_id", variant_id f);
      ("file_metadata", por (file_metadata f) (PList []))].

(** ** Tools in the metadata *)

Definition _serialize_tool_interaction (t : ToolInteraction) (source : string) : res pyval :=
  let d := [("tool_id", tool_id t); ("tool_type", tool_type t); ("tool_name", tool_name t); ("source", PStr source)] in
  let d := if truthy (sources t) then od_set "sources" (sources t) d else d in
  if truthy (i_metadata t) then match i_metadata t with PDict m => Ok (PDict (merge d m)) | _ => type_error end
  else Ok (PDict d).

Definition tool_source (strategy : string) : string :=
  if bool_decide (strategy = "passive") then "provider" else "gateway".

Definition build_tool_audit_metadata (interactions : list ToolInteraction) (strategy : string) (iterations : Z) : res dict :=
  match interactions with
  | [] => Ok []
  | _ =>
      let! l := map_res (fun t => _serialize_tool_interaction t (tool_source strategy)) interactions in
      Ok ([("tool_strategy", PStr strategy); ("tool_interaction_count", PInt (zlen interactions));
           ("tool_interactions", PList l)]
          ++ (if 0 <? iterations then [("tool_loop_iterations", PInt iterations)] else []))
  end.

(** One element of [tool_events_detail] *)
Definition tool_detail (t : ToolInteraction) : pyval :=
  PDict [("tool_id", tool_id t); ("tool_type", tool_type t); ("tool_name", tool_name t); ("input_data", input_data t);
         ("output_data", output_data t); ("sources", sources t); ("metadata", i_metadata t)].

Definition with_tool_details (ts : list ToolInteraction) (m : dict) : dict :=
  match ts with [] => m | _ => od_set "tool_events_detail" (PList (map tool_detail ts)) m end.

(** ** Enrichment of the call

    The metadata of the call has been merged with [extra] before, so both hold the same
    [walacor_audit] dict, unless it is missing or empty: an update of it shows in both. *)

Definition audit_updates (enrichment audit : dict) : dict :=
  let a := od_set "user_question" (dget_or "user_question" (dget_or "user_question" (PStr "") audit) enrichment) audit in
  let a := od_set "conversation_context" (dget_or "conversation_context" (PStr "") enrichment) a in
  let a := od_set "conversation_turns" (dget_or "conversation_turns" (PInt 0) enrichment) a in
  let a := od_set "question_fingerprint" (dget_or "question_fingerprint" (PStr "") enrichment) a in
  let a := od_set "extraction_method" (dget_or "extraction_method" (PStr "fallback") enrichment) a in
  let a := od_set "has_rag_context" (dget_or "has_rag_context" (dget_or "has_rag_context" (PBool false) a) enrichment) a in
  od_set "has_files" (dget_or "has_files" (dget_or "has_files" (PBool false) a) enrichment) a.

(** The entries of the enrichment that go into the metadata of the call *)
Definition meta_updates (enrichment : dict) (body_meta : pyval) : dict :=
  let m := List.filter (fun kv => startswith "_" (fst kv) || bool_decide (fst kv ∈ ["chat_id"; "message_id"])) enrichment in
  match body_meta with
  | PDict b =>
      let m := if truthy (dget "chat_id" b) then od_set "chat_id" (dget "chat_id" b) m else m in
      if truthy (dget "message_id" b) then od_set "message_id" (dget "message_id" b) m else m
  | _ => m
  end.

Definition with_prompt (p : pyval) (c : ModelCall) : ModelCall :=
  MkCall (provider c) (model_id c) p (raw_body c) (is_streaming c) (metadata c).
Definition with_metadata (m : dict) (c : ModelCall) : ModelCall :=
  MkCall (provider c) (model_id c) (prompt_text c) (raw_body c) (is_streaming c) m.

(** The question replaces the prompt; the result is the call and [extra]. *)
Definition _apply_intent_enrichment (call : ModelCall) (extra enrichment : dict) (body_meta : pyval) : res (ModelCall * dict) :=
  match enrichment with
  | [] => Ok (call, extra)
  | _ =>
      let question := dget_or "user_question" (PStr "") enrichment in
      let call := if truthy question then with_prompt question call else call in
      let held := dget_or "walacor_audit" (PDict []) extra in
      match por held (PDict []) with
      | PDict audit =>
          let audit := PDict (audit_updates enrichment audit) in
          let shown := if truthy held then od_set "walacor_audit" audit (metadata call) else metadata call in
          Ok (with_metadata (merge shown (meta_updates enrichment body_meta)) call, od_set "walacor_audit" audit extra)
      | _ => type_error
      end
  end.

(** ** Enrichment of the response by the schema mapper *)

Definition with_usage (u : pyval) (r : ModelResponse) : ModelResponse :=
  MkResponse (content r) u (r_raw_body r) (provider_request_id r) (tool_interactions r) (has_pending_tool_calls r)
    (thinking_content r).
Definition with_content (c : pyval) (r : ModelResponse) : ModelResponse :=
  MkResponse c (usage r) (r_raw_body r) (provider_request_id r) (tool_interactions r) (has_pending_tool_calls r)
    (thinking_content r).
Definition with_thinking (t : pyval) (r : ModelResponse) : ModelResponse :=
  MkResponse (content r) (usage r) (r_raw_body r) (provider_request_id r) (tool_interactions r) (has_pending_tool_calls r) t.

(** What is missing of the response is taken from its canonical form. *)
Definition fill_response (c : Mapper.CanonicalResponse) (r : ModelResponse) : res ModelResponse :=
  let u := por (usage r) (PDict []) in
  let cu := Mapper.usage c in
  let! pt := get "prompt_tokens" u in
  let! r :=
    if negb (truthy pt) && negb (Mapper.prompt_tokens cu =? 0) then
      let! u := Normalizer.dict_of u in
      let u := od_set "prompt_tokens" (PInt (Mapper.prompt_tokens cu)) u in
      let u := od_set "completion_tokens" (PInt (Mapper.completion_tokens cu)) u in
      Ok (with_usage (PDict (od_set "total_tokens" (PInt (Mapper.total_tokens cu)) u)) r)
    else Ok r in
  let r := if negb (truthy (content r)) && negb (bool_decide (Mapper.content c = ""))
           then with_content (PStr (Mapper.content c)) r else r in
  Ok (match Mapper.thinking_content c with
      | Some (String _ _ as t) => if truthy (thinking_content r) then r else with_thinking (PStr t) r
      | _ => r
      end).

Section values.
Context `{FloatRepr}.

Definition float_val (f : spec_float) : pyval := PFloat f (float_repr f).
Definition float_opt (o : option spec_float) : pyval := match o with Some f => float_val f | None => PNone end.
Definition int_opt (o : option Z) : pyval := match o with Some z => PInt z | None => PNone end.

(** [dataclasses.asdict] of a timing *)
Definition timing_dict (t : Mapper.CanonicalTiming) : pyval :=
  PDict [("total_ms", float_opt (Mapper.total_ms t)); ("prompt_ms", float_opt (Mapper.prompt_ms t));
         ("completion_ms", float_opt (Mapper.completion_ms t)); ("queue_ms", float_opt (Mapper.queue_ms t))].

Definition keys_upto (n : nat) (d : dict) : pyval := PList (map (fun kv => PStr (fst kv)) (firstn n d)).

(** The metadata of a mapping; [timeouts] is the count of the last minute. *)
Definition mapping_meta (c : Mapper.CanonicalResponse) (timeouts : Z) : dict :=
  let m := Mapper.mapping c in
  [("schema_mapper_confidence", float_val (py_round 3 (Mapper.confidence m)));
   ("schema_mapper_confidence_on_mapped", float_val (py_round 3 (Mapper.confidence_on_mapped m)));
   ("schema_mapper_mapped", PInt (zlen (Mapper.mapped_fields m)));
   ("schema_mapper_unmapped", PInt (zlen (Mapper.unmapped_fields m)))]
  ++ (match Mapper.overflow c with [] => [] | o => [("schema_mapper_overflow_keys", keys_upto 20 o)] end)
  ++ (match Mapper.timing c with Some t => [("schema_mapper_timing", timing_dict t)] | None => [] end)
  ++ (match Mapper.citations c with [] => [] | l => [("schema_mapper_citations", PInt (zlen l))] end)
  ++ (if timeouts =? 0 then [] else [("schema_mapper_timeouts_60s", PInt timeouts)]).

(** The mapper of the context: its session, its labels and its drift counters *)
Record mapper := MkMapper {
  m_session : option Mapper.session;
  m_labels : list string;
  m_drift : Mapper.drift;
}.

Definition with_drift (d : Mapper.drift) (m : mapper) : mapper := MkMapper (m_session m) (m_labels m) d.

(** [SchemaMapper.map_response] with its counters *)
Definition map_counted `{Digest} (m : mapper) (raw : pyval) (now : Z) : mapper * res Mapper.CanonicalResponse :=
  match Mapper.map_response (m_session m) (m_labels m) raw with
  | Raise e => (m, Raise e)
  | Ok (c, timed_out) =>
      let d := if timed_out then Mapper._record_timeout now (m_drift m) else m_drift m in
      let fields := Mapper.flatten_json raw "" 0 "" in
      let d := match fields with
               | [] => d
               | _ => Mapper._record_novel_shape now fields (map fst (Mapper.overflow c)) d
               end in
      (with_drift d m, Ok c)
  end.

(** Nothing is mapped of an error, and whatever raises leaves the response as it was;
    [body] is the decoded body.  The third result is the canonical response stashed for
    the record. *)
Definition _run_schema_mapper `{Digest} (m : option mapper) (status : Z) (body : res pyval) (r : ModelResponse) (now : Z)
    : option mapper * ModelResponse * dict * option Mapper.CanonicalResponse :=
  match m with
  | None => (None, r, [], None)
  | Some m =>
      if 400 <=? status then (Some m, r, [], None)
      else
        match body with
        | Raise _ => (Some m, r, [], None)
        | Ok raw =>
            let '(m, mapped) := map_counted m raw now in
            match mapped with
            | Raise _ => (Some m, r, [], None)
            | Ok c =>
                match fill_response c r with
                | Raise _ => (Some m, r, [], None)
                | Ok r =>
                    let '(timeouts, d) := Mapper.timeout_count_60s now (m_drift m) in
                    (Some (with_drift d m), r, mapping_meta c timeouts, Some c)
                end
            end
        end
  end.

(** ** The metadata of a record *)

(** The canonical view: text lengths, identifiers, usage and what else was found *)
Definition canonical_dict (c : Mapper.CanonicalResponse) : dict :=
  let u := Mapper.usage c in
  let strlen s := PInt (Z.of_nat (String.length s)) in
  [("content_length", strlen (Mapper.content c));
   ("thinking_content_length", strlen (default "" (Mapper.thinking_content c)));
   ("finish_reason", PStr (Mapper.finish_reason c)); ("response_id", ostr (Mapper.response_id c));
   ("model", ostr (Mapper.model c)); ("mapping_confidence", float_val (py_round 3 (Mapper.confidence (Mapper.mapping c))));
   ("usage", PDict [("prompt_tokens", PInt (Mapper.prompt_tokens u)); ("completion_tokens", PInt (Mapper.completion_tokens u));
                    ("total_tokens", PInt (Mapper.total_tokens u)); ("reasoning_tokens", int_opt (Mapper.reasoning_tokens u));
                    ("cached_tokens", int_opt (Mapper.cached_tokens u));
                    ("cache_creation_tokens", int_opt (Mapper.cache_creation_tokens u));
                    ("cost_usd", float_opt (Mapper.cost_usd u))])]
  ++ (match Mapper.tool_calls c with
      | [] => []
      | l => [("tool_calls", PList (map (fun t => PDict [("id", PStr (Mapper.tc_id t)); ("name", PStr (Mapper.tc_name t));
                                                         ("arguments", Mapper.tc_arguments t); ("type", PStr (Mapper.tc_type t))]) l))]
      end)
  ++ (match Mapper.citations c with
      | [] => []
      | l => [("citations", PList (map (fun x => PDict [("url", PStr (Mapper.url x)); ("title", ostr (Mapper.title x));
                                                        ("snippet", ostr (Mapper.snippet x))]) l))]
      end)
  ++ (match Mapper.timing c with Some t => [("timing", timing_dict t)] | None => [] end)
  ++ (match Mapper.overflow c with [] => [] | o => [("overflow_keys", keys_upto 30 o)] end).

(** [_AuditParams] *)
Record params := MkParams {
  p_attestation_id : pyval;
  p_policy_version : pyval;
  p_policy_result : pyval;
  budget_remaining : option Z;
  audit_metadata : dict;
  interactions : list ToolInteraction;
  tool_strategy : string;
  tool_iterations : Z;
  rp_version : Z;
  rp_result : string;
  rp_decisions : list dict;
  p_provider : string;
  p_latency_ms : pyval;
  p_timings : pyval;
  p_variant_id : pyval;
}.

(** Of an exchange that was answered in one piece *)
Definition full_metadata (call : ModelCall) (r : ModelResponse) (p : params) (mode : string)
    (canonical : option Mapper.CanonicalResponse) : res dict :=
  let! tool_meta := build_tool_audit_metadata (interactions p) (tool_strategy p) (tool_iterations p) in
  let m := merge (merge (merge (metadata call) (audit_metadata p)) tool_meta)
             [("response_policy_version", PInt (rp_version p)); ("response_policy_result", PStr (rp_result p));
              ("analyzer_decisions", PList (map PDict (rp_decisions p))); ("token_usage", usage r);
              ("budget_remaining", int_opt (budget_remaining p)); ("enforcement_mode", PStr mode);
              ("thinking_content", thinking_content r); ("provider_response_id", provider_request_id r)] in
  let m := with_tool_details (interactions p) m in
  Ok (match canonical with Some c => od_set "canonical" (PDict (canonical_dict c)) m | None => m end).

(** Of a stream *)
Definition stream_metadata (call : ModelCall) (r : ModelResponse) (audit : dict) (rp_version : Z) (rp_result : string)
    (rp_decisions : list dict) (mode : string) : res dict :=
  let! tool_meta := build_tool_audit_metadata (tool_interactions r) "passive" 0 in
  let m := merge (merge (merge (metadata call) audit) tool_meta)
             [("response_policy_version", PInt rp_version); ("response_policy_result", PStr rp_result);
              ("analyzer_decisions", PList (map PDict rp_decisions)); ("enforcement_mode", PStr mode);
              ("thinking_content", thinking_content r); ("provider_response_id", provider_request_id r)] in
  let m := with_tool_details (tool_interactions r) m in
  Ok (if truthy (usage r) then od_set "token_usage" (usage r) m else m).

(** ** Cost *)

(** [tokens * per_1k / 1000] *)
Definition cost_part (tokens : pyval) (per_1k : spec_float) : res spec_float :=
  match tokens with
  | PInt _ | PBool _ | PFloat _ _ =>
      let! t := py_float tokens in Ok (SFdiv prec emax (SFmul prec emax t per_1k) (sf_of_Z 1000))
  | _ => type_error
  end.

(** The prices of the model, if there are any; whatever raises leaves the record as it is. *)
Definition attribute_cost (pricing : option (spec_float * spec_float)) (record : dict) : dict :=
  match pricing with
  | None => record
  | Some (input, output) =>
      let tokens k := por (dget_or k (PInt 0) record) (PInt 0) in
      match
        let! a := cost_part (tokens "prompt_tokens") input in
        let! b := cost_part (tokens "completion_tokens") output in
        Ok (py_round 6 (SFadd prec emax a b))
      with
      | Ok cost => od_set "estimated_cost_usd" (float_val cost) record
      | Raise _ => record
      end
  end.
End values.

(** ** Token accounting *)

(** The tokens of a response, settled against the reservation; the counters fail on
    values that are no numbers and are logged.  The trackers count in integers: a
    fractional total is outside the model and stops it. *)
Definition _record_token_usage (r : ModelResponse) (tenant : string) (u : option string) (estimated : Z)
    (now : Budget.datetime) (t : option Budget.Memory.tracker) : option Budget.Memory.tracker * res pyval :=
  match
    let us := por (usage r) (PDict []) in
    let! total := get_or "total_tokens" (PInt 0) us in
    let total := por total (PInt 0) in
    let! used := py_gt total (PInt 0) in
    Ok (total, used)
  with
  | Raise e => (t, Raise e)
  | Ok (total, used) =>
      let settle tokens :=
        match t with
        | None => (t, Ok total)
        | Some b =>
            let '(b, r) := Budget.Memory.record_usage b tenant u tokens estimated now in
            (Some b, let! _ := r in Ok total)
        end in
      if used then match as_int total with Some z => settle z | None => (t, type_error) end
      else if 0 <? estimated then settle 0 else (t, Ok total)
  end.

(** ** Two conversations, one answer *)

Lemma merge_get k (b : dict) : forall a, od_get k b = None -> od_get k (merge a b) = od_get k a.
Proof.
  unfold merge. induction b as [|[k' v] b IH]; intros a Hb; [done|]. cbn [foldl fst snd].
  cbn [od_get] in Hb. case_decide; [done|]. rewrite IH by done. by apply od_get_set_ne.
Qed.

Section questions.
Context `{Digest} `{FloatRepr} `{SchemaIntel.Numpy}.

Definition last_question (l : list pyval) : string := List.last (SchemaIntel.role_texts "user" l) "".

Lemma routing_quiet i md m d : SchemaIntel.routing_of i md m = Ok d -> od_get "user_question" d = None.
Proof.
  unfold SchemaIntel.routing_of. intros Hr. apply res_bind_ok in Hr as (d0 & Hd & [= <-]).
  assert (od_get "user_question" d0 = None) as Hd0.
  { repeat case_match; simplify_eq; try done. unbind Hd. by repeat case_match; simplify_eq. }
  by destruct (_ && _); [rewrite od_get_set_ne|].
Qed.

Lemma process_request_question w l md m o enr o' :
  l <> [] -> SchemaIntel.process_request w (PList l) md m o = Ok (enr, o') ->
  od_get "user_question" enr = Some (PStr (stake 5000 (last_question l))) /\ enr <> [].
Proof.
  intros Hl Hp. unfold SchemaIntel.process_request in Hp.
  apply res_bind_ok in Hp as ([e f] & Hf & Hp). apply res_bind_ok in Hp as ([r o1] & _ & Hp).
  apply res_bind_ok in Hp as (d & Hd%routing_quiet & Hp).
  assert (enr = merge (merge f (SchemaIntel.intent_fields r)) d) as -> by congruence. clear Hp.
  unfold SchemaIntel.build_prompt_fields in Hf. apply res_bind_ok in Hf as (e1 & He & Hf).
  apply SchemaIntel.extract_prompt_list in He as (_ & Hq & _); [|done].
  assert (od_get "user_question" f = Some (PStr (SchemaIntel.user_question e1))) as Hf0 by by inversion Hf.
  rewrite Hq in Hf0. clear Hf. set (g := merge _ d).
  assert (od_get "user_question" g = Some (PStr (stake 5000 (last_question l)))) as Hg
    by (unfold g; by rewrite !merge_get).
  split; [done|]. intros E. by rewrite E in Hg.
Qed.

Lemma enriched_prompt w l md m o enr o' call extra bm call' extra' :
  l <> [] -> last_question l <> "" ->
  SchemaIntel.process_request w (PList l) md m o = Ok (enr, o') ->
  _apply_intent_enrichment call extra enr bm = Ok (call', extra') ->
  prompt_text call' = PStr (stake 5000 (last_question l)) /\ raw_body call' = raw_body call.
Proof.
  intros Hl Hq (Hg & Hne)%process_request_question Ha; [|done]. unfold _apply_intent_enrichment in Ha.
  destruct enr as [|kv enr]; [done|]. set (enr0 := kv :: enr) in *.
  assert (dget_or "user_question" (PStr "") enr0 = PStr (stake 5000 (last_question l))) as Hd
    by (unfold dget_or; by rewrite Hg).
  rewrite Hd in Ha.
  assert (truthy (PStr (stake 5000 (last_question l))) = true) as Ht by by destruct (last_question l).
  rewrite Ht in Ha. destruct (por _ _); try done. injection Ha as <- _. done.
Qed.

(** C14. Conversations share a response.  Before the cache is asked, the intent engine
    has replaced the prompt by the first 5000 characters of the last user message.  So the
    answer of one conversation is served to every other one of the tenant that ends in the
    same question, whatever was said before it and whatever system prompt it has; what
    would have been forwarded still holds the whole conversation. *)
Theorem conversations_share_a_response w1 w2 l1 l2 md1 md2 m1 m2 o1 o2 enr1 enr2 o1' o2' call1 call2 extra1 extra2 bm1 bm2
    call1' call2' extra1' extra2' caller gateway model body ct n now c c' :
  l1 <> [] -> l2 <> [] -> last_question l1 <> "" ->
  stake 5000 (last_question l1) = stake 5000 (last_question l2) ->
  SchemaIntel.process_request w1 (PList l1) md1 m1 o1 = Ok (enr1, o1') ->
  SchemaIntel.process_request w2 (PList l2) md2 m2 o2 = Ok (enr2, o2') ->
  _apply_intent_enrichment call1 extra1 enr1 bm1 = Ok (call1', extra1') ->
  _apply_intent_enrichment call2 extra2 enr2 bm2 = Ok (call2', extra2') ->
  let question := stake 5000 (last_question l1) in
  SemanticCache.store_step caller gateway model question body 200 ct false n (Some c) = Some c' ->
  1 <= SemanticCache._max_entries c -> now - n <= seconds (SemanticCache._ttl c) ->
  prompt_text call1' = PStr question /\ prompt_text call2' = PStr question /\
  raw_body call1' = raw_body call1 /\ raw_body call2' = raw_body call2 /\
  exists c2 e, SemanticCache.lookup_step caller gateway model question false now (Some c') = (c2, Some e) /\
    SemanticCache.response_body e = body.
Proof.
  intros Hl1 Hl2 Hq Hs Hp1 Hp2 Ha1 Ha2 question Hst Hmax Hnow.
  assert (last_question l2 <> "") as Hq2 by (intros E; rewrite E in Hs; by destruct (last_question l1)).
  destruct (enriched_prompt _ _ _ _ _ _ _ _ _ _ _ _ Hl1 Hq Hp1 Ha1) as [-> ->].
  destruct (enriched_prompt _ _ _ _ _ _ _ _ _ _ _ _ Hl2 Hq2 Hp2 Ha2) as [-> ->]. rewrite <- Hs. do 4 (split; [done|]).
  apply (SemanticCache.stored_is_served _ _ _ _ _ _ _ _ _ _) with (2 := Hst); [|done..].
  unfold question. by destruct (last_question l1).
Qed.

(** What the record holds of an exchange.  It is built exactly when the usage is a
    dict or falsy.  Its prompt is the question alone, at most 5000 characters of it; its
    texts are those of the response, an empty one as null; its counts are those of the
    usage, a missing or null one as zero; its identifiers and its time are the fresh ones. *)
Theorem record_of_an_exchange w l md m o enr o' call extra bm call' extra' r f :
  l <> [] -> last_question l <> "" ->
  SchemaIntel.process_request w (PList l) md m o = Ok (enr, o') ->
  _apply_intent_enrichment call extra enr bm = Ok (call', extra') ->
  (is_dict (usage r) || negb (truthy (usage r)) = true <-> exists rec, build_execution_record call' r f = Ok rec) /\
  (forall rec, build_execution_record call' r f = Ok rec ->
     dget "prompt_text" rec = PStr (stake 5000 (last_question l)) /\
     dget "response_content" rec = or_none (content r) /\ dget "thinking_content" rec = or_none (thinking_content r) /\
     dget "execution_id" rec = PStr (fresh_execution_id f) /\ dget "record_id" rec = PStr (fresh_record_id f) /\
     dget "timestamp" rec = PStr (now f) /\ dget "session_id" rec = session_id f /\
     (forall k, k ∈ ["prompt_tokens"; "completion_tokens"; "total_tokens"] ->
        dget k rec = match usage r with PDict u => por (dget k u) (PInt 0) | _ => PInt 0 end)).
Proof.
  intros Hl Hq Hp Ha. destruct (enriched_prompt _ _ _ _ _ _ _ _ _ _ _ _ Hl Hq Hp Ha) as [Hc _].
  assert (or_none (prompt_text call') = PStr (stake 5000 (last_question l))) as Ho
    by (rewrite Hc; unfold or_none, por; by destruct (last_question l)).
  unfold build_execution_record. rewrite Ho. set (question := PStr (stake 5000 (last_question l))). clearbody question.
  assert (por (usage r) (PDict []) = PDict match usage r with PDict u => u | _ => [] end \/
          (is_dict (usage r) || negb (truthy (usage r)) = false /\ por (usage r) (PDict []) = usage r)) as Hu.
  { unfold por. destruct (truthy (usage r)) eqn:Ht; destruct (usage r) as [| | | | | |[|x u]|]; try (by left); try done; by right. }
  destruct Hu as [Hu|[Hb Hu]]; rewrite Hu.
  - cbn [get get_or res_bind]. split.
    + split; [by eexists|]. intros _. revert Hu. unfold por. by destruct (truthy (usage r)), (usage r).
    + intros rec [= <-]. do 7 (split; [reflexivity|]). intros k Hk.
      assert (match usage r with PDict u => por (dget k u) (PInt 0) | _ => PInt 0 end
              = por (dget k match usage r with PDict u => u | _ => [] end) (PInt 0)) as -> by by destruct (usage r).
      repeat (apply elem_of_cons in Hk as [->|Hk]); [reflexivity..|by apply not_elem_of_nil in Hk].
  - split; [split; [by rewrite Hb|]|]; destruct (usage r); try done; by intros [? ?].
Qed.
End questions.

(** ** The summary of the content analysis *)

Lemma any_res_map {A B} (f : B -> res bool) (g : A -> B) (h : A -> bool) l :
  (forall x, f (g x) = Ok (h x)) -> any_res f (map g l) = Ok (existsb h l).
Proof. intros Hf. induction l as [|x l IH]; [done|]. cbn [map any_res existsb]. rewrite Hf. cbn [res_bind]. by case_match. Qed.

#[local] Existing Instance ResponsePolicy.verdict_dec.

Definition warns (d : ResponsePolicy.Decision) : bool := bool_decide (ResponsePolicy.verdict d = ResponsePolicy.WARN).

Lemma summary_of_decisions ds :
  _summarize_content_analysis (map ResponsePolicy.decision_dict ds) = Ok (if existsb warns ds then "toxicity_warn" else "clean").
Proof.
  unfold _summarize_content_analysis.
  assert (existsb (fun d => eq_str (dget "action" d) "block") (map ResponsePolicy.decision_dict ds) = false) as ->
    by (induction ds as [|d ds IH]; [done|exact IH]).
  rewrite map_map.
  rewrite (any_res_map _ _ (fun _ => false)) by by intros [[]]. rewrite (any_res_map _ _ warns) by by intros [[]].
  assert (existsb (fun _ => false) ds = false) as -> by by induction ds. cbn [res_bind]. by destruct (existsb warns ds).
Qed.

(** A blocked stream is called clean.  The summary of the content analysis looks for an
    action and for the names of categories in the verdicts, but a decision has no action and
    its verdict is pass, warn or block.  So it never says that a response was blocked or
    warned for personal data: a blocked one is clean unless another analyzer warned, and
    every warning is one for toxicity. *)
Theorem blocked_stream_is_called_clean fmt2 version content thinking analyzers :
  let o := ResponsePolicy.evaluate_post_inference fmt2 version content thinking analyzers in
  let ds := ResponsePolicy.decisions analyzers (ResponsePolicy.text_to_analyze content thinking) in
  ResponsePolicy.blocked o = true ->
  _summarize_content_analysis (ResponsePolicy.analyzer_decisions o)
  = Ok (if existsb (fun d => bool_decide (ResponsePolicy.verdict d = ResponsePolicy.WARN)) ds then "toxicity_warn" else "clean").
Proof.
  intros o ds Hb. refine (eq_trans _ (summary_of_decisions ds)). f_equal. subst o ds. revert Hb.
  unfold ResponsePolicy.evaluate_post_inference. destruct (_ || _); [done|]. repeat case_match; done.
Qed.

(** ** What the mapper adds *)

(** The schema mapper fills gaps only, but for the counts.  Texts the adapter found,
    the identifier and the tools stay; the usage stays when it has prompt tokens.  When it
    has none and the mapper found some, all three counts become the mapper's, also a
    completion count the provider had reported. *)
Theorem mapper_fills_gaps_and_overrides_counts c r r' :
  fill_response c r = Ok r' ->
  (truthy (content r) = true -> content r' = content r) /\
  (truthy (thinking_content r) = true -> thinking_content r' = thinking_content r) /\
  provider_request_id r' = provider_request_id r /\ tool_interactions r' = tool_interactions r /\
  (forall u, usage r = PDict u -> truthy (dget "prompt_tokens" u) = true -> usage r' = usage r) /\
  (forall u, usage r = PDict u -> truthy (dget "prompt_tokens" u) = false -> Mapper.prompt_tokens (Mapper.usage c) <> 0 ->
     exists u', usage r' = PDict u' /\
       dget "prompt_tokens" u' = PInt (Mapper.prompt_tokens (Mapper.usage c)) /\
       dget "completion_tokens" u' = PInt (Mapper.completion_tokens (Mapper.usage c)) /\
       dget "total_tokens" u' = PInt (Mapper.total_tokens (Mapper.usage c))).
Proof.
  unfold fill_response. intros Hf. apply res_bind_ok in Hf as (pt & Hpt & Hf). apply res_bind_ok in Hf as (r1 & H1 & Hf).
  assert (content r1 = content r /\ thinking_content r1 = thinking_content r /\
          provider_request_id r1 = provider_request_id r /\ tool_interactions r1 = tool_interactions r) as (Ec & Et & Ei & Ex).
  { destruct (negb _ && negb _); [|by injection H1 as <-]. unbind H1. by injection H1 as <-. }
  set (r2 := if _ && _ then with_content _ r1 else r1) in Hf.
  assert (usage r2 = usage r1 /\ thinking_content r2 = thinking_content r1 /\
          provider_request_id r2 = provider_request_id r1 /\ tool_interactions r2 = tool_interactions r1 /\
          (truthy (content r1) = true -> content r2 = content r1)) as (Eu2 & Et2 & Ei2 & Ex2 & Ec2).
  { unfold r2. destruct (truthy (content r1)); cbn [negb andb]; [done|]. by destruct (bool_decide (Mapper.content c = "")). }
  clearbody r2.
  assert (usage r' = usage r2 /\ content r' = content r2 /\
          provider_request_id r' = provider_request_id r2 /\ tool_interactions r' = tool_interactions r2 /\
          (truthy (thinking_content r2) = true -> thinking_content r' = thinking_content r2)) as (Eu3 & Ec3 & Ei3 & Ex3 & Et3).
  { injection Hf as <-. repeat case_match; done. }
  split; [intros Ht; rewrite Ec3, Ec2, Ec; congruence|]. split; [intros Ht; rewrite Et3, Et2, Et; congruence|].
  split; [congruence|]. split; [congruence|]. rewrite Eu3, Eu2.
  assert (forall u, usage r = PDict u -> pt = dget "prompt_tokens" u) as Hp.
  { intros u Hu. rewrite Hu in Hpt. destruct u; cbn in Hpt; by injection Hpt as <-. }
  split; intros u Hu Ht; rewrite (Hp u Hu) in H1; rewrite Ht in H1; cbn [negb andb] in H1; [by injection H1 as <-|].
  intros Hn. rewrite (proj2 (Z.eqb_neq _ _) Hn) in H1. cbn [negb] in H1. unbind H1. injection H1 as <-.
  eexists. split; [reflexivity|].
  repeat split; repeat (rewrite dget_set_ne by done); apply dget_set_eq.
Qed.

(** ** Tokens that are not counted *)

Section uncounted.
Import Budget Budget.Memory.

Lemma no_total_settles r u tenant user est now t :
  usage r = PDict u -> od_get "total_tokens" u = None ->
  _record_token_usage r tenant user est now (Some t)
  = if 0 <? est then let '(t, x) := record_usage t tenant user 0 est now in (Some t, let! _ := x in Ok (PInt 0))
    else (Some t, Ok (PInt 0)).
Proof.
  intros Hu Hn. unfold _record_token_usage. rewrite Hu.
  assert (get_or "total_tokens" (PInt 0) (por (PDict u) (PDict [])) = Ok (PInt 0)) as ->.
  { unfold por. destruct u; [done|]. cbn [truthy get_or]. unfold dget_or. by rewrite Hn. }
  cbn [res_bind]. change (py_gt (por (PInt 0) (PInt 0)) (PInt 0)) with (Ok false). done.
Qed.

(** C18. Tokens of a generic upstream are free.  A provider without a name map reports its
    counts in Anthropic's names, the engine leaves them unmapped, and the settlement takes
    the missing total for a response without usage: the whole reservation is refunded and
    the exchange leaves the budget as it found it, however many tokens it used. *)
Theorem unmapped_usage_is_free `{FloatRepr} r p i o r' l tenant user est now1 now2 t s t1 rem :
  p <> "anthropic" -> usage r = PDict (Normalizer.named_usage i o) -> 0 <= i -> 0 <= o -> 0 < i + o ->
  is_str (content r) = true -> Normalizer.normalize_response r p = Ok (r', l) ->
  budget t (tenant, user_key user) = Some s -> _period_expired s now1 = false -> same_day now1 now2 ->
  0 <= tokens_used s -> 0 <= est -> check_and_reserve t tenant user est now1 = (t1, Ok (true, rem)) ->
  exists t2 x s2, _record_token_usage r' tenant user est now2 (Some t1) = (Some t2, x) /\
    budget t2 (tenant, user_key user) = Some s2 /\ tokens_used s2 <= tokens_used s /\ max_tokens s2 = max_tokens s.
Proof.
  intros Hp Hr Hi Ho Hio Hc Hn Hs He Hd Hu Hest Hres.
  destruct (Normalizer.engine_loses_tokens_spec r p i o Hp Hr Hi Ho Hio Hc) as [(r2 & l2 & Hn2 & u & Hu2 & _ & _ & Ht) _].
  rewrite Hn in Hn2. injection Hn2 as <- <-. rewrite (no_total_settles _ _ _ _ _ _ _ Hu2 Ht).
  assert (roll s now1 = s) as Hroll by (by apply (roll_id s now1 now1)).
  pose proof (reserve_spec t tenant user est now1 s Hs) as [_ Hspec]. rewrite Hres, Hroll in Hspec. cbn [fst snd] in Hspec.
  assert (exists s1, budget t1 (tenant, user_key user) = Some s1 /\ tokens_used s1 <= tokens_used s + est /\
                     roll s1 now2 = s1 /\ max_tokens s1 = max_tokens s) as (s1 & Hs1 & Hle & Hr1 & Hm).
  { destruct (max_tokens s =? 0); [|destruct (_ || _)].
    - destruct Hspec as [_ ->]. exists s. split; [done|]. split; [lia|]. split; [|done]. by apply (roll_id s now1).
    - by destruct Hspec as [[=] _].
    - destruct Hspec as [-> _]. eexists. split; [done|]. split; [done|]. split; [|done]. by apply (roll_id _ now1). }
  destruct (Z.ltb_spec 0 est).
  - pose proof (record_spec t1 tenant user 0 est now2 s1 Hs1) as [_ Hrec].
    destruct (record_usage t1 tenant user 0 est now2) as [t2 x]. cbn [fst] in Hrec.
    destruct (Z.eqb_spec 0 est); [lia|]. rewrite Hr1 in Hrec.
    eexists _, _, _. split; [done|]. split; [exact Hrec|]. cbn [tokens_used with_used max_tokens]. split; [lia|done].
  - eexists _, _, _. split; [done|]. split; [exact Hs1|]. split; [lia|done].
Qed.
End uncounted.

(** ** Runs *)

Module Exchanges.
#[local] Instance digest : Digest := fun s => s.
#[local] Instance repr : FloatRepr := fun _ => "0.0".
#[local] Instance numpy : SchemaIntel.Numpy := fun _ => inl (SchemaIntel.Failed "").

Definition quiet : SchemaIntel.wiring :=
  SchemaIntel.MkWiring false None (fun _ => None) false false None None false None None "t".
Definition unseen : SchemaIntel.observed := SchemaIntel.MkObserved None [].

(** Two chats that end in the same question *)
Definition lisbon : list pyval :=
  [SchemaIntel.says "user" "I move to Lisbon."; SchemaIntel.says "assistant" "Nice."; SchemaIntel.says "user" "Is it warm there?"].
Definition oslo : list pyval :=
  [SchemaIntel.says "system" "Be terse."; SchemaIntel.says "user" "I move to Oslo."; SchemaIntel.says "assistant" "Nice.";
   SchemaIntel.says "user" "Is it warm there?"].

Definition call_of (whole : string) : ModelCall := MkCall "openai" (PStr "m") (PStr whole) whole (PBool false) [].
Definition enriched (l : list pyval) : dict :=
  match SchemaIntel.process_request quiet (PList l) [] (PStr "m") unseen with Ok (e, _) => e | Raise _ => [] end.
Definition asked (l : list pyval) (whole : string) : ModelCall :=
  match _apply_intent_enrichment (call_of whole) [] (enriched l) PNone with Ok (c, _) => c | Raise _ => call_of whole end.

Definition empty_cache : SemanticCache.cache := SemanticCache.init 10 3600.
Definition filled : SemanticCache.cache :=
  default empty_cache (SemanticCache.store_step (Some "acme") "gw" "m" "Is it warm there?" "Yes." 200 "text" false 0 (Some empty_cache)).

Lemma conversations_share_a_response_witness :
  prompt_text (asked lisbon "all of lisbon") = PStr "Is it warm there?" /\
  prompt_text (asked oslo "all of oslo") = PStr "Is it warm there?" /\
  raw_body (asked lisbon "all of lisbon") = "all of lisbon" /\ raw_body (asked oslo "all of oslo") = "all of oslo" /\
  exists c2 e, SemanticCache.lookup_step (Some "acme") "gw" "m" "Is it warm there?" false 5 (Some filled) = (c2, Some e) /\
    SemanticCache.response_body e = "Yes.".
Proof.
  exact (conversations_share_a_response quiet quiet lisbon oslo [] [] (PStr "m") (PStr "m") unseen unseen
    (enriched lisbon) (enriched oslo) unseen unseen (call_of "all of lisbon") (call_of "all of oslo") [] [] PNone PNone
    (asked lisbon "all of lisbon") (asked oslo "all of oslo") _ _ (Some "acme") "gw" "m" "Yes." "text" 0 5 empty_cache filled
    ltac:(discriminate) ltac:(discriminate) ltac:(discriminate) eq_refl eq_refl eq_refl eq_refl eq_refl eq_refl
    ltac:(vm_compute; discriminate) ltac:(vm_compute; discriminate)).
Defined.

Definition answered : ModelResponse :=
  MkResponse (PStr "Yes.") (PDict [("prompt_tokens", PInt 9); ("completion_tokens", PInt 2)]) "" PNone [] false PNone.
Definition filed : filing :=
  MkFiling "e-1" "r-1" "t" (PStr "att") (PInt 1) (PStr "pass") (PStr "gw") (PStr "g") PNone (PStr "s") (PDict []) PNone
    (PStr "openai") PNone PNone PNone PNone PNone.
Definition recorded : dict :=
  match build_execution_record (asked oslo "all of oslo") answered filed with Ok d => d | Raise _ => [] end.

Lemma record_of_an_exchange_witness :
  dget "prompt_text" recorded = PStr "Is it warm there?" /\ dget "total_tokens" recorded = PInt 0.
Proof.
  destruct (record_of_an_exchange quiet oslo [] (PStr "m") unseen (enriched oslo) unseen (call_of "all of oslo") [] PNone
              (asked oslo "all of oslo") _ answered filed ltac:(discriminate) ltac:(discriminate) eq_refl eq_refl) as [_ Hr].
  destruct (Hr recorded eq_refl) as (Hp & _ & _ & _ & _ & _ & _ & Ht). split; [exact Hp|].
  exact (Ht "total_tokens" ltac:(apply (bool_decide_unpack _); exact I)).
Defined.

(** A stream that a PII analyzer blocks *)
Lemma blocked_stream_is_called_clean_witness :
  let o := ResponsePolicy.evaluate_post_inference (fun _ => "1.00") 1 "my ssn is 123-45-6789" None [ResponsePolicy.ResponseRuns.pii] in
  ResponsePolicy.blocked o = true /\ _summarize_content_analysis (ResponsePolicy.analyzer_decisions o) = Ok "clean".
Proof.
  split; [vm_compute; reflexivity|].
  exact (blocked_stream_is_called_clean (fun _ => "1.00") 1 "my ssn is 123-45-6789" None [ResponsePolicy.ResponseRuns.pii] eq_refl).
Defined.

(** The provider counted only the completion; the mapper found a prompt count and none for it. *)
Definition half_counted : ModelResponse :=
  MkResponse (PStr "Yes.") (PDict [("completion_tokens", PInt 7)]) "" PNone [] false PNone.
Definition found : Mapper.CanonicalResponse :=
  Mapper.MkCanonical "Other." None "stop" None None None (Mapper.MkUsage 5 0 5 None None None None) [] [] None None []
    (Mapper.MkMapping Mapper.one Mapper.one false [] []).

Lemma mapper_fills_gaps_and_overrides_counts_witness :
  exists r' u', fill_response found half_counted = Ok r' /\ content r' = PStr "Yes." /\ usage r' = PDict u' /\
    dget "completion_tokens" u' = PInt 0.
Proof.
  destruct (fill_response found half_counted) as [r'|] eqn:Hf; [|discriminate].
  destruct (mapper_fills_gaps_and_overrides_counts found half_counted r' Hf) as (Hc & _ & _ & _ & _ & Hu).
  destruct (Hu _ eq_refl eq_refl ltac:(discriminate)) as (u' & Hu' & _ & Hk & _).
  exists r', u'. split; [reflexivity|]. split; [exact (Hc eq_refl)|]. split; [exact Hu'|exact Hk].
Defined.

Definition named : ModelResponse := MkResponse (PStr "hi") (PDict (Normalizer.named_usage 40 2)) "" PNone [] false PNone.
Definition named' : ModelResponse := match Normalizer.normalize_response named "generic" with Ok (r, _) => r | Raise _ => named end.
Definition reserved : Budget.Memory.tracker :=
  fst (Budget.Memory.check_and_reserve Budget.Memory.start "t" None 60 (Budget.Memory.noon 1)).

Lemma unmapped_usage_is_free_witness :
  exists t2 x s2, _record_token_usage named' "t" None 60 (Budget.Memory.noon 1) (Some reserved) = (Some t2, x) /\
    Budget.Memory.budget t2 ("t", Budget.user_key None) = Some s2 /\ Budget.Memory.tokens_used s2 <= 0.
Proof.
  destruct (unmapped_usage_is_free named "generic" 40 2 named' [Normalizer.CacheEnriched] "t" None 60 (Budget.Memory.noon 1) (Budget.Memory.noon 1)
    Budget.Memory.start (Budget.Memory.MkState Budget.Daily (Budget._period_start Budget.Daily (Budget.Memory.noon 1)) 0 100) reserved 40
    ltac:(discriminate) eq_refl ltac:(lia) ltac:(lia) ltac:(lia) eq_refl eq_refl ltac:(vm_compute; reflexivity) eq_refl ltac:(by repeat split)
    ltac:(done) ltac:(lia) ltac:(vm_compute; reflexivity)) as (t2 & x & s2 & H1 & H2 & H3 & _).
  exists t2, x, s2. split; [exact H1|]. split; [exact H2|exact H3].
Defined.
End Exchanges.
