(* ===== verification/Consistency.v ===== *)
(** * Consistency of answers (intelligence/consistency.py)

    The tracker compares the answers of a model to prompts that are alike: prompts and
    answers become vectors of word frequencies, and the best match of the last hour among
    the last two hundred prompts of other sessions is judged.  The probe generator asks a
    model the same question in several ways and compares the answers.

    Texts are ASCII; a character beyond it counts as a letter that is not in [a-z], as most
    are.  The order in which Python iterates a set of words is a parameter, and so is what
    the chat service answers. *)
From Stdlib Require Import SpecFloat.
From S2P Require Import Prelude ODict PyVal PyStr PyObj.
From S2P Require AuditRecord.

Local Open Scope Z_scope.

Definition decimal (hundredths : Z) : spec_float := sf_of_decimal false hundredths (-2).
Definition SIMILARITY_THRESHOLD : spec_float := decimal 60.
Definition MAX_HISTORY_PER_MODEL : nat := 200.
Definition MAX_PROBE_BATCH : nat := 5.
Definition CONSISTENCY_WINDOW : Z := seconds 3600.

Definition zero : spec_float := S754_zero false.
Definition one : spec_float := decimal 100.
Definition fmul (a b : spec_float) : spec_float := SFmul prec emax a b.
Definition fadd (a b : spec_float) : spec_float := SFadd prec emax a b.

(** [a / b] of two counts, [b] positive *)
Definition share (a b : Z) : spec_float := match py_truediv a b with Ok f => f | Raise _ => zero end.

(** ** Words *)

Definition _STOP_WORDS : list string :=
  ["the"; "a"; "an"; "is"; "are"; "was"; "were"; "be"; "been"; "being"; "have"; "has"; "had"; "do"; "does"; "did";
   "will"; "would"; "could"; "should"; "may"; "might"; "shall"; "can"; "need"; "must"; "i"; "me"; "my"; "you"; "your";
   "he"; "she"; "it"; "we"; "they"; "this"; "that"; "these"; "those"; "what"; "which"; "who"; "whom"; "in"; "on"; "at";
   "to"; "for"; "of"; "with"; "by"; "from"; "as"; "into"; "through"; "during"; "before"; "after"; "above"; "below";
   "and"; "but"; "or"; "nor"; "not"; "so"; "yet"; "both"; "either"; "if"; "then"; "than"; "too"; "very"; "just";
   "about"; "how"].

Definition is_lower (c : ascii) : bool := (97 <=? code c) && (code c <=? 122).
(** [\w] *)
Definition is_word (c : ascii) : bool :=
  is_lower (ascii_lower c) || is_digit c || Ascii.eqb c "_"%char || (128 <=? code c).

(** The maximal runs of word characters; [cur] is the run that is being read. *)
Fixpoint word_runs (cur s : string) : list string :=
  match s with
  | EmptyString => if bool_decide (cur = "") then [] else [cur]
  | String c s =>
      if is_word c then word_runs (cur +:+ String c "") s
      else (if bool_decide (cur = "") then [] else [cur]) ++ word_runs "" s
  end.

(** [\b[a-z]{2,}\b] finds the runs of at least two letters and nothing else. *)
Definition is_match (w : string) : bool :=
  (2 <=? Z.of_nat (String.length w)) && forallb is_lower (String.list_ascii_of_string w).

Definition _tokenize (text : string) : list string :=
  List.filter (fun w => is_match w && negb (bool_decide (w ∈ _STOP_WORDS))) (word_runs "" (lower text)).

(** ** Similarity *)

Definition count_words (tokens : list string) : list (string * Z) :=
  foldl (fun d t => od_set t (default 0 (od_get t d) + 1) d) [] tokens.

Definition _term_freq (tokens : list string) : list (string * spec_float) :=
  let total := match tokens with [] => 1 | _ => zlen tokens end in
  map (fun tc => (fst tc, share (snd tc) total)) (count_words tokens).

(** The order in which a set of words is iterated *)
Class SetOrder := set_order : list string -> list string.

Definition freq (t : string) (d : list (string * spec_float)) : spec_float := default zero (od_get t d).
Definition magnitude (d : list (string * spec_float)) : spec_float :=
  SFsqrt prec emax (py_fsum (map (fun tv => fmul (snd tv) (snd tv)) d)).

Definition cosine_similarity `{SetOrder} (text_a text_b : string) : spec_float :=
  if bool_decide (text_a = "") || bool_decide (text_b = "") then zero
  else
    let tf_a := _term_freq (_tokenize text_a) in
    let tf_b := _term_freq (_tokenize text_b) in
    match remove_dups (map fst tf_a ++ map fst tf_b) with
    | [] => zero
    | all_terms =>
        let dot := py_fsum (map (fun t => fmul (freq t tf_a) (freq t tf_b)) (set_order all_terms)) in
        let mag_a := magnitude tf_a in
        let mag_b := magnitude tf_b in
        if SFeqb mag_a zero || SFeqb mag_b zero then zero else SFdiv prec emax dot (fmul mag_a mag_b)
    end.

Definition prompt_fingerprint `{Digest} (text : string) : string :=
  stake 16 (hexdigest (sjoin " " (isort str_leb (remove_dups (_tokenize text))))).

(** ** Data *)

Record PromptResponsePair := MkPair {
  prompt : string;
  response : string;
  p_execution_id : string;
  p_session_id : string;
  p_user : pyval;
  p_timestamp : Z;
  fingerprint : string;
  prompt_tokens : list string;
}.

Record ConsistencyResult := MkResult {
  execution_id_a : string;
  execution_id_b : string;
  prompt_similarity : spec_float;
  response_similarity : spec_float;
  consistent : bool;
}.

Record ModelReliability := MkReliability {
  total_comparisons : Z;
  consistent_count : Z;
  inconsistent_count : Z;
  avg_response_similarity : spec_float;
  reliability_score : spec_float;
  last_updated : Z;
}.

Definition unjudged (now : Z) : ModelReliability := MkReliability 0 0 0 zero one now.

Definition update (ok : bool) (response_sim : spec_float) (now : Z) (r : ModelReliability) : ModelReliability :=
  let total := total_comparisons r + 1 in
  let good := consistent_count r + (if ok then 1 else 0) in
  let bad := inconsistent_count r + (if ok then 0 else 1) in
  let alpha := decimal 10 in
  MkReliability total good bad
    (fadd (fmul alpha response_sim) (fmul (SFsub prec emax one alpha) (avg_response_similarity r)))
    (if 0 <? total then share good total else one) now.

(** ** The tracker *)

Record tracker := MkTracker {
  _history : list (pyval * list PromptResponsePair);
  _reliability : list (pyval * ModelReliability);
  _recent_results : list ConsistencyResult;
}.

Definition new_tracker : tracker := MkTracker [] [] [].

(** Appending to a [deque(maxlen=n)] *)
Definition push {A} (n : nat) (x : A) (l : list A) : list A := drop (length (l ++ [x]) - n) (l ++ [x]).

Definition history (m : pyval) (t : tracker) : list PromptResponsePair := default [] (vget m (_history t)).

Section tracker.
Context `{Digest} `{SetOrder}.

Definition prompt_sim (text fp : string) (prev : PromptResponsePair) : spec_float :=
  if bool_decide (fingerprint prev = fp) then one else cosine_similarity (prompt prev) text.

(** Of another session, or of none, and not older than the window *)
Definition comparable (session_id : string) (now : Z) (prev : PromptResponsePair) : bool :=
  negb (bool_decide (p_session_id prev = session_id) && negb (bool_decide (session_id = "")))
  && negb (CONSISTENCY_WINDOW <? now - p_timestamp prev).

(** One turn of the search: the match so far and its similarity *)
Definition search_step (text fp session_id : string) (now : Z) (best : option PromptResponsePair * spec_float)
    (prev : PromptResponsePair) : option PromptResponsePair * spec_float :=
  if comparable session_id now prev then
    let sim := prompt_sim text fp prev in
    if SFleb SIMILARITY_THRESHOLD sim && SFltb (snd best) sim then (Some prev, sim) else best
  else best.

Definition search (text fp session_id : string) (now : Z) (h : list PromptResponsePair)
    : option PromptResponsePair * spec_float :=
  foldl (search_step text fp session_id now) (None, zero) h.

(** [response_sim >= min(best * 0.5, 0.5) or response_sim >= 0.35] *)
Definition alike (prompt_sim response_sim : spec_float) : bool :=
  let half := decimal 50 in
  let bound := fmul prompt_sim half in
  SFleb (if SFltb half bound then half else bound) response_sim || SFleb (decimal 35) response_sim.

Definition judge (m : pyval) (text answer execution_id : string) (best : PromptResponsePair) (sim : spec_float) (now : Z) (t : tracker)
    : ConsistencyResult * tracker :=
  let response_sim := cosine_similarity (response best) answer in
  let ok := alike sim response_sim in
  let r := MkResult (p_execution_id best) execution_id (AuditRecord.py_round 3 sim) (AuditRecord.py_round 3 response_sim) ok in
  let rel := default (unjudged now) (vget m (_reliability t)) in
  (r, MkTracker (_history t) (vset m (update ok response_sim now rel) (_reliability t)) (push 100 r (_recent_results t))).

(** A model that cannot be a key raises. *)
Definition check (text answer : string) (m : pyval) (execution_id session_id : string) (u : pyval) (now : Z) (t : tracker)
    : res (option ConsistencyResult * tracker) :=
  if bool_decide (text = "") || bool_decide (answer = "") || (Z.of_nat (String.length text) <? 10) then Ok (None, t)
  else
    let! _ := hashable m in
    let fp := prompt_fingerprint text in
    let pair := MkPair (stake 500 text) (stake 1000 answer) execution_id session_id u now fp (_tokenize text) in
    let h := history m t in
    let '(result, t) := match search text fp session_id now h with
                        | (Some best, sim) => let '(r, t) := judge m text answer execution_id best sim now t in (Some r, t)
                        | (None, _) => (None, t)
                        end in
    Ok (result, MkTracker (vset m (push MAX_HISTORY_PER_MODEL pair h) (_history t)) (_reliability t) (_recent_results t)).
End tracker.

Definition get_reliability (m : pyval) (t : tracker) : option ModelReliability := vget m (_reliability t).

(** [l[-limit:]], which for the limit zero is all of it *)
Definition last_n {A} (limit : Z) (l : list A) : list A :=
  if limit <=? 0 then drop (Z.to_nat (- limit)) l else drop (length l - Z.to_nat limit) l.
Definition get_recent_results (limit : Z) (t : tracker) : list ConsistencyResult := last_n limit (_recent_results t).

Record stats := MkStats { models_tracked : Z; total_pairs_stored : Z; s_total_comparisons : Z; recent_inconsistencies : Z }.

Definition get_stats (t : tracker) : stats :=
  MkStats (zlen (_history t)) (foldr (fun mh n => zlen (snd mh) + n) 0 (_history t))
    (foldr (fun mr n => total_comparisons (snd mr) + n) 0 (_reliability t))
    (zlen (List.filter (fun r => negb (consistent r)) (_recent_results t))).

(** ** Probes *)

Record ProbeResult := MkProbe {
  original_prompt : string;
  probes : list pyval;
  responses : list pyval;
  similarities : list spec_float;
  avg_similarity : spec_float;
  min_similarity : spec_float;
  probe_consistent : bool;
}.

Record generator := MkGenerator { _results : list ProbeResult; _probes_run : Z }.

(** What the chat service answers to a body: the status and the decoded JSON, or an
    exception *)
Definition chat_service : Type := dict -> res (Z * res pyval).

Definition chat_body (model content : pyval) (options : dict) : dict :=
  [("model", model); ("messages", PList [PDict [("role", PStr "user"); ("content", content)]]);
   ("stream", PBool false); ("options", PDict [("num_predict", PInt 200)])] ++ options.

(** [resp.json().get("message", {}).get("content", "")] *)
Definition message_content (body : res pyval) : res pyval :=
  let! b := body in let! m := get_or "message" (PDict []) b in get_or "content" (PStr "") m.

Definition probe_instruction (question : string) : string :=
  sjoin (String lf "")
    ["Generate exactly 5 different ways to ask this same question.";
     "Each rephrasing must ask for the same information but use different words.";
     ("Respond ONLY with JSON: {" +:+ quote2 +:+ "probes" +:+ quote2 +:+ ": ["
      +:+ sjoin ", " (map (fun q => quote2 +:+ q +:+ quote2) ["q1"; "q2"; "q3"; "q4"; "q5"]) +:+ "]}")%string; "";
     ("Original question: " +:+ question)%string].

(** [l[:n]] *)
Definition py_slice (n : nat) (v : pyval) : res pyval :=
  match v with
  | PList l => Ok (PList (firstn n l))
  | PStr s => Ok (PStr (stake n s))
  | _ => type_error
  end.

(** Whatever raises gives no probes. *)
Definition _generate_probes `{JsonText} (chat : chat_service) (question : string) (probe_model : pyval) : list pyval :=
  match
    let! '(status, body) := chat (chat_body probe_model (PStr (probe_instruction (stake 300 question))) [("format", PStr "json")]) in
    if status =? 200 then
      let! content := message_content body in
      let! text := as_str content in
      let! parsed := of_text text in
      let! l := get_or "probes" (PList []) parsed in
      let! l := py_slice (MAX_PROBE_BATCH - 1) l in
      match l with PList l => Ok (PStr question :: l) | _ => type_error end
    else Ok []
  with
  | Ok l => l
  | Raise _ => []
  end.

(** An answer to one probe: empty unless the service gave one *)
Definition probe_response (chat : chat_service) (model probe : pyval) : pyval :=
  match
    let! '(status, body) := chat (chat_body model probe []) in
    if status =? 200 then message_content body else Ok (PStr "")
  with
  | Ok c => c
  | Raise _ => PStr ""
  end.

Section probing.
Context `{JsonText} `{SetOrder}.

(** [cosine_similarity(ref, r) if r else 0.0], rounded; a value that is no text raises
    unless one of the two is falsy. *)
Definition against (ref r : pyval) : res spec_float :=
  if truthy r && truthy ref then
    match ref, r with
    | PStr a, PStr b => Ok (AuditRecord.py_round 3 (cosine_similarity a b))
    | _, _ => attribute_error
    end
  else Ok zero.

(** [min] of floats: the first of the smallest *)
Definition fmin (l : list spec_float) : spec_float :=
  match l with [] => zero | x :: l => foldl (fun b y => if SFltb y b then y else b) x l end.

Definition probe_model (chat : chat_service) (question : string) (model probe_model_ : pyval) (g : generator)
    : res (option ProbeResult * generator) :=
  let ps := _generate_probes chat question probe_model_ in
  if (length ps <? 3)%nat then Ok (None, g)
  else
    let rs := map (probe_response chat model) ps in
    if negb (existsb truthy rs) then Ok (None, g)
    else
      match rs with
      | [] => Ok (None, g)
      | ref :: rest =>
          let! sims := map_res (against ref) rest in
          let avg := match sims with [] => zero | _ => SFdiv prec emax (py_fsum sims) (sf_of_Z (zlen sims)) end in
          let low := fmin sims in
          let! texts := map_res (py_slice 300) rs in
          let r := MkProbe (stake 200 question) ps texts sims (AuditRecord.py_round 3 avg) (AuditRecord.py_round 3 low)
                     (SFleb SIMILARITY_THRESHOLD low) in
          Ok (Some r, MkGenerator (push 50 r (_results g)) (_probes_run g + 1))
      end.
End probing.

(** ** Fingerprints *)

Section sorted.
Context {A : Type} (le : A -> A -> bool).
Hypothesis total : forall x y, le x y = false -> le y x = true.
Hypothesis trans : forall x y z, le x y = true -> le y z = true -> le x z = true.
Hypothesis antisym : forall x y, le x y = true -> le y x = true -> x = y.

Lemma ordered_perm l k : ordered le l -> ordered le k -> l ≡ₚ k -> l = k.
Proof.
  intros Hl. revert k. induction Hl as [|x l Hx Hl IH]; intros k Hk Hp.
  - by apply Permutation_nil in Hp as ->.
  - destruct Hk as [|y k Hy Hk]; [by apply Permutation_sym, Permutation_nil in Hp|].
    assert (x = y) as ->.
    { assert (x ∈ y :: k) as [->|Hxk]%elem_of_cons by (rewrite <- Hp; by left); [done|].
      assert (y ∈ x :: l) as [->|Hyl]%elem_of_cons by (rewrite Hp; by left); [done|]. auto. }
    f_equal. apply IH; [done|]. by apply Permutation_cons_inv in Hp.
Qed.

Lemma isort_of_perm l k : l ≡ₚ k -> isort le l = isort le k.
Proof.
  intros Hp. apply ordered_perm; [by apply isort_ordered..|]. by rewrite !isort_perm.
Qed.
End sorted.

Lemma fingerprint_spec `{Digest} a b :
  (forall w, w ∈ _tokenize a <-> w ∈ _tokenize b) -> prompt_fingerprint a = prompt_fingerprint b.
Proof.
  intros Hw. unfold prompt_fingerprint. do 3 f_equal.
  apply isort_of_perm; [exact str_leb_total|intros ???; apply str_leb_trans|intros ??; apply str_leb_antisym|].
  apply NoDup_Permutation; [apply NoDup_remove_dups..|]. intros w. by rewrite !elem_of_remove_dups.
Qed.

(** ** The order of the doubles *)

Lemma SFltb_trans a b c : SFltb a b = true -> SFltb b c = true -> SFltb a c = true.
Proof.
  unfold SFltb, SFcompare.
  destruct a as [[]|[]| |[] m1 e1], b as [[]|[]| |[] m2 e2], c as [[]|[]| |[] m3 e3]; try done;
    repeat match goal with
      | |- context [(?x ?= ?y)%Z] => destruct (Z.compare_spec x y)
      end; subst; try done; try lia;
    repeat match goal with
      | |- context [Pos.compare_cont Eq ?x ?y] => change (Pos.compare_cont Eq x y) with (Pos.compare x y); destruct (Pos.compare_spec x y)
      end; subst; try done; try lia.
Qed.

Lemma SFltb_irrefl a : SFltb a a = false.
Proof.
  unfold SFltb, SFcompare. destruct a as [[]|[]| |[] m e]; try done; rewrite Z.compare_refl; change (Pos.compare_cont Eq m m) with (Pos.compare m m);
    by rewrite Pos.compare_refl.
Qed.

(** ** Comparisons *)

Section search.
Context `{Digest} `{SetOrder}.

Definition better (text fp sid : string) (now : Z) (q : PromptResponsePair) : bool :=
  comparable sid now q && SFleb SIMILARITY_THRESHOLD (prompt_sim text fp q).

Lemma search_from text fp sid now h : forall b,
  let r := foldl (search_step text fp sid now) b h in
  (r = b \/ exists q, q ∈ h /\ fst r = Some q /\ better text fp sid now q = true /\ snd r = prompt_sim text fp q) /\
  (snd r = snd b \/ SFltb (snd b) (snd r) = true) /\
  (forall q, q ∈ h -> better text fp sid now q = true -> SFltb (snd r) (prompt_sim text fp q) = false).
Proof.
  induction h as [|p h IH]; intros b; cbn [foldl].
  { split; [by left|]. split; [by left|]. by intros q Hq%not_elem_of_nil. }
  specialize (IH (search_step text fp sid now b p)). set (b' := search_step text fp sid now b p) in *.
  destruct IH as (Hr & Hs & Hm). set (r := foldl _ b' h) in *.
  assert ((b' = b /\ (better text fp sid now p = true -> SFltb (snd b) (prompt_sim text fp p) = false)) \/
          (b' = (Some p, prompt_sim text fp p) /\ better text fp sid now p = true /\
           SFltb (snd b) (prompt_sim text fp p) = true)) as Hb.
  { unfold b', search_step, better. destruct (comparable sid now p); [|by left].
    destruct (SFleb _ _); [|by left]. destruct (SFltb (snd b) _); [by right|by left]. }
  split; [|split].
  - destruct Hr as [Hr|(q & Hq & Hf)]; [|right; exists q; split; [by right|done]].
    destruct Hb as [[Hb _]|(Hb & Hg & _)]; [left; by rewrite Hr|]. right. exists p.
    rewrite Hr, Hb. split; [by left|done].
  - destruct Hb as [[-> _]|(Hb & _ & Hl)]; [done|]. right. rewrite Hb in Hs. cbn [snd] in Hs.
    destruct Hs as [->|Hs]; [done|]. by apply SFltb_trans with (prompt_sim text fp p).
  - intros q [->|Hq]%elem_of_cons Hg; [|by apply Hm]. destruct Hb as [[Hb Hn]|(Hb & _ & Hl)].
    + specialize (Hn Hg). rewrite Hb in Hs. destruct Hs as [->|Hs]; [done|].
      destruct (SFltb (snd r) _) eqn:E; [|done]. by rewrite (SFltb_trans _ _ _ Hs E) in Hn.
    + rewrite Hb in Hs. cbn [snd] in Hs. destruct Hs as [->|Hs]; [apply SFltb_irrefl|].
      destruct (SFltb (snd r) _) eqn:E; [|done]. pose proof (SFltb_trans _ _ _ Hs E) as Hx. by rewrite SFltb_irrefl in Hx.
Qed.

Lemma search_spec text fp sid now h :
  match search text fp sid now h with
  | (None, sim) => forall q, q ∈ h -> better text fp sid now q = true -> SFltb zero (prompt_sim text fp q) = false
  | (Some q, sim) =>
      q ∈ h /\ better text fp sid now q = true /\ sim = prompt_sim text fp q /\
      (forall q', q' ∈ h -> better text fp sid now q' = true -> SFltb sim (prompt_sim text fp q') = false)
  end.
Proof.
  pose proof (search_from text fp sid now h (None, zero)) as (Hr & Hs & Hm). unfold search.
  destruct Hr as [Hr|(q & Hq & Hf & Hb & Hsim)].
  - rewrite Hr in *. by apply Hm.
  - destruct (foldl _ _ _) as [o sim]. cbn [fst snd] in *. subst o sim. split; [done|]. split; [done|]. split; done.
Qed.

(** What is compared.  A result of a check names a record of the model's history that
    belongs to another session, or is compared outside any, and is at most an hour old; its
    prompt has the same words or a similarity of at least 0.60, and none of the history that
    is comparable is more alike.  Whatever the result, the prompt is remembered, at most two
    hundred per model, and the other models' histories are untouched. *)
Theorem comparisons_are_fair text answer m eid sid u now t o t' :
  check text answer m eid sid u now t = Ok (o, t') ->
  (forall r, o = Some r ->
     exists prev, prev ∈ history m t /\ execution_id_a r = p_execution_id prev /\ execution_id_b r = eid /\
       (sid <> "" -> p_session_id prev <> sid) /\ now - p_timestamp prev <= CONSISTENCY_WINDOW /\
       (fingerprint prev = prompt_fingerprint text \/ SFleb SIMILARITY_THRESHOLD (cosine_similarity (prompt prev) text) = true) /\
       (forall q, q ∈ history m t -> better text (prompt_fingerprint text) sid now q = true ->
          SFltb (prompt_sim text (prompt_fingerprint text) prev) (prompt_sim text (prompt_fingerprint text) q) = false)) /\
  (t' = t \/ exists pair, p_execution_id pair = eid /\ p_session_id pair = sid /\
     _history t' = vset m (push MAX_HISTORY_PER_MODEL pair (history m t)) (_history t)).
Proof.
  unfold check. destruct (_ || _).
  { intros [= <- <-]. split; [done|by left]. }
  intros Hc. apply res_bind_ok in Hc as ([] & _ & Hc).
  pose proof (search_spec text (prompt_fingerprint text) sid now (history m t)) as Hs.
  destruct (search _ _ _ _ _) as [[prev|] sim].
  - destruct Hs as (Hin & Hb & -> & Hmax). unfold judge in Hc. injection Hc as <- <-. split.
    + intros r [= <-]. exists prev. split; [done|]. do 2 (split; [done|]).
      unfold better, comparable in Hb. apply andb_true_iff in Hb as [Hb Hsim]. apply andb_true_iff in Hb as [Hse Hti].
      split; [|split; [|split; [|exact Hmax]]].
      * intros Hne. rewrite (bool_decide_false (sid = "")) in Hse by done. cbn [negb andb] in Hse. by case_bool_decide.
      * zbool. lia.
      * unfold prompt_sim in Hsim. case_bool_decide; [by left|by right].
    + right. eexists. split; [|split; [|reflexivity]]; reflexivity.
  - injection Hc as <- <-. split; [done|]. right. eexists. split; [|split; [|reflexivity]]; reflexivity.
Qed.
End search.

(** ** Prompts without words *)

Lemma py_eqb_name s : py_eqb (PStr s) (PStr s) = true.
Proof. exact (proj2 (eq_str_iff (PStr s) s) eq_refl). Qed.

Section words.
Context `{Digest} `{SetOrder}.

(** The order of the words is ignored.  Two prompts with the same words, stop words and
    numbers left out, have the same fingerprint, and the one counts as identical to the
    other, whatever order and number the words have. *)
Theorem same_words_match a b prev :
  (forall w, w ∈ _tokenize a <-> w ∈ _tokenize b) -> fingerprint prev = prompt_fingerprint a ->
  prompt_sim b (prompt_fingerprint b) prev = one.
Proof.
  intros Hw Hf. unfold prompt_sim. rewrite Hf, (fingerprint_spec a b Hw). by rewrite bool_decide_true.
Qed.

Lemma wordless_cosine a b : _tokenize a = [] -> _tokenize b = [] -> cosine_similarity a b = zero.
Proof. intros Ha Hb. unfold cosine_similarity. rewrite Ha, Hb. by destruct (_ || _). Qed.

(** Prompts without words are all alike.  A prompt of stop words, numbers or letters
    outside the alphabet a to z has no words, and all of these have one fingerprint.  So the
    second one within an hour, from another session, is taken for the same question as the
    first; answers without words are not alike at all, so it is flagged as inconsistent and
    the reliability of the model is zero. *)
Theorem wordless_prompts_are_alike name text1 text2 a1 a2 e1 e2 s1 s2 u1 u2 n1 n2 :
  10 <= Z.of_nat (String.length text1) -> 10 <= Z.of_nat (String.length text2) -> a1 <> "" -> a2 <> "" ->
  _tokenize text1 = [] -> _tokenize text2 = [] -> _tokenize (stake 1000 a1) = [] -> _tokenize a2 = [] ->
  s1 <> s2 -> n2 - n1 <= CONSISTENCY_WINDOW ->
  exists t1 t2 r,
    check text1 a1 (PStr name) e1 s1 u1 n1 new_tracker = Ok (None, t1) /\
    check text2 a2 (PStr name) e2 s2 u2 n2 t1 = Ok (Some r, t2) /\
    execution_id_a r = e1 /\ prompt_similarity r = one /\ response_similarity r = zero /\ consistent r = false /\
    option_map reliability_score (get_reliability (PStr name) t2) = Some zero.
Proof.
  intros L1 L2 Ha1 Ha2 T1 T2 Tr1 Tr2 Hs Hn.
  assert (forall text a, 10 <= Z.of_nat (String.length text) -> a <> "" ->
            bool_decide (text = "") || bool_decide (a = "") || (Z.of_nat (String.length text) <? 10) = false) as Hlen.
  { intros text a Hl Ha. rewrite (bool_decide_false (a = "")) by done. rewrite bool_decide_false by by intros ->.
    cbn [orb]. by apply Z.ltb_ge. }
  assert (prompt_fingerprint text1 = prompt_fingerprint text2) as Hf.
  { apply fingerprint_spec. intros w. by rewrite T1, T2. }
  unfold check. rewrite !Hlen by done. cbn [hashable res_bind]. change (history (PStr name) new_tracker) with (@nil PromptResponsePair).
  unfold search at 1. cbn [foldl]. eexists _, _, _. split; [reflexivity|].
  change (@nil PromptResponsePair) with (history (PStr name) new_tracker).
  assert (forall pair, history (PStr name) (MkTracker (vset (PStr name) (push MAX_HISTORY_PER_MODEL pair
            (history (PStr name) new_tracker)) (_history new_tracker)) (_reliability new_tracker) (_recent_results new_tracker))
          = [pair]) as Hh.
  { intros pair. unfold history. cbn [_history new_tracker vset vget default]. by rewrite py_eqb_name. }
  rewrite Hh. unfold search. cbn [foldl]. unfold search_step at 1.
  cbn [snd]. set (prev := MkPair _ _ _ _ _ _ _ _).
  assert (comparable s2 n2 prev = true) as ->.
  { unfold comparable. cbn [p_session_id p_timestamp prev]. rewrite bool_decide_false by done. cbn [andb negb].
    apply negb_true_iff, Z.ltb_ge. lia. }
  assert (prompt_sim text2 (prompt_fingerprint text2) prev = one) as ->
    by (unfold prompt_sim; cbn [fingerprint prev]; by rewrite bool_decide_true).
  change (SFleb SIMILARITY_THRESHOLD one && SFltb zero one) with true. cbv iota.
  unfold judge. cbn [response prev]. rewrite (wordless_cosine (stake 1000 a1) a2) by done.
  split; [reflexivity|]. do 4 (split; [reflexivity|]). unfold get_reliability. cbn [_reliability new_tracker vget vset].
  rewrite py_eqb_name. reflexivity.
Qed.
End words.

(** ** Accounts *)

Section accounts.
Context `{Digest} `{SetOrder}.

Record asking := MkAsking {
  a_text : string;
  a_answer : string;
  a_model : pyval;
  a_execution : string;
  a_session : string;
  a_user : pyval;
  a_time : Z;
}.

(** A check that raises is logged by the caller. *)
Definition observe (t : tracker) (a : asking) : tracker :=
  match check (a_text a) (a_answer a) (a_model a) (a_execution a) (a_session a) (a_user a) (a_time a) t with
  | Ok (_, t) => t
  | Raise _ => t
  end.

Definition accounts (r : ModelReliability) : Prop :=
  total_comparisons r = consistent_count r + inconsistent_count r /\ 0 <= consistent_count r /\ 0 <= inconsistent_count r /\
  1 <= total_comparisons r /\ reliability_score r = share (consistent_count r) (total_comparisons r).

Definition comparisons (l : list (pyval * ModelReliability)) : Z := foldr (fun mr n => total_comparisons (snd mr) + n) 0 l.

Record well_kept (t : tracker) : Prop := {
  kept_history : Forall (fun mh => (length (snd mh) <= MAX_HISTORY_PER_MODEL)%nat) (_history t);
  kept_reliability : Forall (fun mr => accounts (snd mr)) (_reliability t);
  kept_recent : zlen (_recent_results t) = Z.min 100 (comparisons (_reliability t));
}.

Lemma vset_Forall {A} (P : A -> Prop) k a (d : list (pyval * A)) :
  P a -> Forall (fun x => P (snd x)) d -> Forall (fun x => P (snd x)) (vset k a d).
Proof. intros Ha. induction 1 as [|[k' b] d Hb Hd IH]; cbn [vset]; [by constructor|]. case_match; by constructor. Qed.

Lemma vget_Forall {A} (P : A -> Prop) k (d : list (pyval * A)) a :
  Forall (fun x => P (snd x)) d -> vget k d = Some a -> P a.
Proof. induction 1 as [|[k' b] d Hb Hd IH]; cbn [vget]; [done|]. case_match; [by intros [= <-]|done]. Qed.

Lemma push_length {A} n (x : A) l : (length l <= n)%nat -> length (push n x l) = Nat.min n (S (length l)).
Proof. unfold push. rewrite length_drop, length_app. cbn. lia. Qed.

Lemma comparisons_set k r (d : list (pyval * ModelReliability)) now :
  total_comparisons r = total_comparisons (default (unjudged now) (vget k d)) + 1 ->
  comparisons (vset k r d) = comparisons d + 1.
Proof.
  induction d as [|[k' b] d IH]; cbn [vset vget comparisons foldr snd]; [cbn; lia|].
  destruct (py_eqb k' k); cbn [foldr snd]; [cbn; lia|]. intros Hr. specialize (IH Hr). unfold comparisons in IH. lia.
Qed.

Lemma update_accounts ok sim now r : accounts r \/ r = unjudged now -> accounts (update ok sim now r).
Proof.
  intros Hr. unfold accounts, update. cbn [total_comparisons consistent_count inconsistent_count reliability_score].
  assert (0 <= total_comparisons r /\ 0 <= consistent_count r /\ 0 <= inconsistent_count r /\
          total_comparisons r = consistent_count r + inconsistent_count r) as (? & ? & ? & ?)
    by (destruct Hr as [(? & ? & ? & ? & ?)| ->]; cbn; lia).
  rewrite (proj2 (Z.ltb_lt 0 (total_comparisons r + 1))) by lia. destruct ok; repeat split; lia.
Qed.

Lemma observe_well_kept t a : well_kept t -> well_kept (observe t a).
Proof.
  intros Ht. unfold observe. destruct (check _ _ _ _ _ _ _ t) as [[o t']|] eqn:Hc; [|done].
  unfold check in Hc. destruct (_ || _); [by injection Hc as <- <-|]. apply res_bind_ok in Hc as ([] & _ & Hc).
  set (pair := MkPair _ _ _ _ _ _ _ _) in Hc. set (m := a_model a) in *.
  assert (length (history m t) <= MAX_HISTORY_PER_MODEL)%nat as Hh.
  { unfold history. destruct (vget m (_history t)) eqn:E; cbn; [|unfold MAX_HISTORY_PER_MODEL; lia].
    by apply (vget_Forall (fun h => (length h <= MAX_HISTORY_PER_MODEL)%nat) m (_history t)); [apply Ht|]. }
  assert (forall r q, well_kept (MkTracker (_history t) r q) ->
            well_kept (MkTracker (vset m (push MAX_HISTORY_PER_MODEL pair (history m t)) (_history t)) r q)) as Hnew.
  { intros r q [K1 K2 K3]. split; cbn in *; [|done..].
    apply (vset_Forall (fun h => (length h <= MAX_HISTORY_PER_MODEL)%nat)); [|done]. rewrite push_length by done. lia. }
  destruct (search _ _ _ _ _) as [[best|] sim]; cbn [judge] in Hc.
  - injection Hc as _ <-. cbn [_history _reliability _recent_results].
    apply Hnew. destruct Ht as [K1 K2 K3]. split; cbn [_history _reliability _recent_results]; [done|..].
    + apply (vset_Forall accounts); [|done]. apply update_accounts.
      destruct (vget m (_reliability t)) eqn:E; cbn [default id]; [left|by right].
      by apply (vget_Forall accounts m (_reliability t)).
    + rewrite (comparisons_set _ _ _ (a_time a)) by reflexivity.
      assert (0 <= comparisons (_reliability t)) as Hnn.
      { clear -K2. unfold comparisons. induction K2 as [|[k r] l (? & ? & ? & ? & ?) _ IH]; cbn [foldr snd] in *; lia. }
      unfold zlen in *. rewrite push_length; lia.
  - injection Hc as <- <-. apply Hnew. by destruct t.
Qed.

(** The accounts of reliability.  Whatever is asked, no history is longer than two
    hundred, every model that has a score has been compared, its comparisons are the
    consistent and the inconsistent ones and its score is their share, and the recent
    results are the last hundred comparisons of all models. *)
Theorem reliability_accounts asks :
  let t := foldl observe new_tracker asks in
  Forall (fun mh => (length (snd mh) <= 200)%nat) (_history t) /\
  Forall (fun mr => accounts (snd mr)) (_reliability t) /\
  zlen (_recent_results t) = Z.min 100 (s_total_comparisons (get_stats t)).
Proof.
  intros t. assert (well_kept t) as [K1 K2 K3].
  { unfold t. assert (well_kept new_tracker) as Hn by by split; [constructor..|].
    revert Hn. generalize new_tracker. induction asks as [|a asks IH]; intros s Hs; [done|].
    by apply IH, observe_well_kept. }
  split; [done|]. split; [done|]. exact K3.
Qed.
End accounts.

(** ** Probing *)

Section probes.
Context `{JsonText} `{SetOrder}.

Lemma against_nothing ref rs : truthy ref = false -> map_res (against ref) rs = Ok (map (fun _ => zero) rs).
Proof.
  intros Hr. induction rs as [|r rs IH]; [done|]. cbn [map_res map]. unfold against at 1. rewrite Hr, andb_false_r.
  cbn [res_bind]. by rewrite IH.
Qed.

Lemma fmin_zeros {A} (l : list A) : fmin (map (fun _ => zero) l) = zero.
Proof. destruct l as [|x l]; [done|]. cbn [map fmin]. clear x. induction l as [|x l IH]; [done|exact IH]. Qed.

(** A failed reference condemns the model.  The answers to the probes are compared with
    the answer to the first one.  When that one failed and any other did not, every
    similarity is zero and the model is called inconsistent, however alike its answers are. *)
Theorem failed_reference_condemns chat question model pm g first rest :
  map (probe_response chat model) (_generate_probes chat question pm) = first :: rest ->
  (2 <= length rest)%nat -> truthy first = false -> existsb truthy rest = true ->
  Forall (fun v => is_str v = true) (first :: rest) ->
  exists r g', probe_model chat question model pm g = Ok (Some r, g') /\
    probe_consistent r = false /\ min_similarity r = zero /\ Forall (eq zero) (similarities r).
Proof.
  intros Hm Hlen Hf Hx Hs. unfold probe_model.
  assert (length (_generate_probes chat question pm) = S (length rest)) as Hl
    by (rewrite <- (length_map (probe_response chat model)), Hm; done).
  rewrite Hl, Hm. destruct (Nat.ltb_spec (S (length rest)) 3); [lia|]. cbn [existsb]. rewrite Hf, Hx. cbn [orb negb].
  rewrite (against_nothing _ _ Hf). cbn [res_bind]. rewrite fmin_zeros.
  assert (exists texts, map_res (py_slice 300) (first :: rest) = Ok texts) as [texts ->].
  { clear -Hs. induction Hs as [|v l Hv _ [k IH]]; [by eexists|]. destruct v; try done. cbn [map_res py_slice res_bind].
    rewrite IH. by eexists. }
  cbn [res_bind]. eexists _, _. split; [reflexivity|]. cbn [probe_consistent min_similarity similarities].
  split; [reflexivity|]. split; [reflexivity|]. apply Forall_forall. by intros x (? & -> & _)%list_elem_of_fmap.
Qed.
End probes.

(** ** Runs *)

Module Checks.
#[local] Instance digest : Digest := fun s => s.
#[local] Instance order : SetOrder := fun l => l.
#[local] Instance codec : JsonText :=
  {| to_text := py_str;
     of_text := fun _ => Ok (PDict [("probes", PList [PStr "b?"; PStr "c?"])]) |}.

(** A question and its paraphrase in another session *)
Definition asked : tracker :=
  observe new_tracker (MkAsking "Which capital does France have?" "Paris." (PStr "m") "e-1" "s-1" PNone 0).

Lemma comparisons_are_fair_witness :
  exists r t', check "France: which capital?" "Paris, of course." (PStr "m") "e-2" "s-2" PNone 5 asked = Ok (Some r, t') /\
    execution_id_b r = "e-2" /\ exists prev, prev ∈ history (PStr "m") asked /\ execution_id_a r = p_execution_id prev.
Proof.
  destruct (check "France: which capital?" "Paris, of course." (PStr "m") "e-2" "s-2" PNone 5 asked) as [[[r|] t']|] eqn:E;
    [|vm_compute in E; discriminate E..].
  destruct (proj1 (comparisons_are_fair _ _ _ _ _ _ _ _ _ _ E) r eq_refl) as (prev & Hp & Ha & Hb & _).
  exists r, t'. split; [reflexivity|]. split; [exact Hb|]. exists prev. split; [exact Hp|exact Ha].
Defined.

Lemma same_words_match_witness :
  (forall w, w ∈ _tokenize "dog bites man" <-> w ∈ _tokenize "man bites the dog!") /\
  prompt_sim "man bites the dog!" (prompt_fingerprint "man bites the dog!")
    (MkPair "dog bites man" "no" "e" "s" PNone 0 (prompt_fingerprint "dog bites man") []) = one.
Proof.
  assert (forall w, w ∈ _tokenize "dog bites man" <-> w ∈ _tokenize "man bites the dog!") as Hw.
  { intros w. change (w ∈ ["dog"; "bites"; "man"] <-> w ∈ ["man"; "bites"; "dog"]). set_solver. }
  split; [exact Hw|]. exact (same_words_match _ _ (MkPair "dog bites man" "no" "e" "s" PNone 0 (prompt_fingerprint "dog bites man") []) Hw eq_refl).
Defined.

(** Two sums *)
Lemma wordless_prompts_are_alike_witness :
  exists t1 t2 r,
    check "12 * 34 + 5 = ?" "413" (PStr "m") "e-1" "s-1" PNone 0 new_tracker = Ok (None, t1) /\
    check "99 - 17 * 2 = ?" "65" (PStr "m") "e-2" "s-2" PNone 60 t1 = Ok (Some r, t2) /\
    execution_id_a r = "e-1" /\ prompt_similarity r = one /\ response_similarity r = zero /\ consistent r = false /\
    option_map reliability_score (get_reliability (PStr "m") t2) = Some zero.
Proof.
  exact (wordless_prompts_are_alike "m" "12 * 34 + 5 = ?" "99 - 17 * 2 = ?" "413" "65" "e-1" "e-2" "s-1" "s-2" PNone PNone 0 60
    ltac:(vm_compute; discriminate) ltac:(vm_compute; discriminate) ltac:(discriminate) ltac:(discriminate)
    eq_refl eq_refl eq_refl eq_refl ltac:(discriminate) ltac:(vm_compute; discriminate)).
Defined.

(** The first probe fails, the others are answered alike. *)
Definition flaky : chat_service := fun body =>
  match body with
  | [_; ("messages", PList [PDict [_; ("content", PStr "a?")]]); _; _] => Raise (OtherError "ReadTimeout")
  | _ => Ok (200, Ok (PDict [("message", PDict [("content", PStr "Paris is the capital.")])]))
  end.

Lemma failed_reference_condemns_witness :
  exists r g', probe_model flaky "a?" (PStr "m") (PStr "p") (MkGenerator [] 0) = Ok (Some r, g') /\
    probe_consistent r = false /\ min_similarity r = zero /\ Forall (eq zero) (similarities r).
Proof.
  exact (failed_reference_condemns flaky "a?" (PStr "m") (PStr "p") (MkGenerator [] 0) (PStr "")
    [PStr "Paris is the capital."; PStr "Paris is the capital."]
    eq_refl ltac:(cbn; lia) eq_refl eq_refl ltac:(repeat constructor)).
Defined.
End Checks.
