(* ===== verification/AuditWrite.v ===== *)
(** * Writing the record of an exchange (pipeline/orchestrator.py, pipeline/tool_executor.py)

    From the answered call to the rows handed to the storage router: the record takes its
    place in the session chain and is signed, the consistency and the anomaly findings and
    the unknown fields are added, it is validated and written, its tool events follow and
    the chain is advanced.  The same for streams, and for the transparent proxy mode.

    The storage router is a predicate that says which execution it accepts; identifiers and
    clock readings are arguments.  Spans, exporters and the background worker are left
    out.  A tracker that raises is logged by the caller and keeps its state. *)
From Stdlib Require Import SpecFloat.
From S2P Require Import Prelude ODict PyVal PyStr PyObj AdapterBase SessionChain Signing ChainHelpers AuditRecord.
From S2P Require Import Lineage.
From S2P Require ResponsePolicy RecordSchema WalacorReader Consistency Anomaly Normalizer Mapper Budget ChainSystem.

Local Open Scope Z_scope.

(** ** The environment *)

(** What of the context and the settings does not change *)
Record gateway := MkGateway {
  engine : bool;                                      (** the intent and schema engine exists *)
  mapper_wired : bool;
  analyzers : list ResponsePolicy.analyzer;
  policy_version_ : option Z;                          (** [None] without a policy cache *)
  response_policy_enabled : bool;
  storage : option (dict -> bool);
  pricing : pyval -> option (spec_float * spec_float);
  enforcement_mode : string;
  g_tenant : string;
  g_gateway : string;
}.

(** What the state of the request holds *)
Record request_state := MkState {
  skip_audit : bool;
  preallocated : option string;
  canonical_response : option Mapper.CanonicalResponse;
  files : pyval;
}.

(** The identifiers and readings of one write *)
Record moment := MkMoment {
  m_execution_id : string;
  m_record_id : string;
  m_timestamp : string;
  at_reserve : Z;
  at_check : Z;
  at_overflow : Z;
  at_advance : Z;
  chain_ms : pyval;
  m_latency : pyval;
  event : nat -> string * string;                      (** identifier and time of each tool event *)
}.

Section write.
Context `{E : Ed25519} {T : Type} `{ChainTracker T} `{FloatRepr} `{Digest} `{Consistency.SetOrder} `{JsonText}.
Context (st : keys) (cfg : settings) (g : gateway).

(** What a write changes.  [rows] holds the executions handed to storage with its
    answer, [shown_execution] and [shown_sequence] what the request state holds for the
    headers and for the completeness middleware. *)
Record world := MkWorld {
  chain : option T;
  consistency : option Consistency.tracker;
  detector : option Anomaly.detector;
  fields_seen : option Anomaly.registry;
  rows : list (dict * bool);
  tool_rows : list dict;
  shown_execution : pyval;
  shown_sequence : pyval;
}.

Definition with_chain (c : option T) (w : world) : world :=
  MkWorld c (consistency w) (detector w) (fields_seen w) (rows w) (tool_rows w) (shown_execution w) (shown_sequence w).
Definition with_findings (c : option Consistency.tracker) (d : option Anomaly.detector) (f : option Anomaly.registry) (w : world) : world :=
  MkWorld (chain w) c d f (rows w) (tool_rows w) (shown_execution w) (shown_sequence w).
Definition with_row (r : dict) (ok : bool) (w : world) : world :=
  MkWorld (chain w) (consistency w) (detector w) (fields_seen w) (rows w ++ [(r, ok)]) (tool_rows w)
    (if ok then dget "execution_id" r else shown_execution w) (shown_sequence w).
Definition with_tools (l : list dict) (w : world) : world :=
  MkWorld (chain w) (consistency w) (detector w) (fields_seen w) (rows w) (tool_rows w ++ l) (shown_execution w) (shown_sequence w).
Definition with_sequence (v : pyval) (w : world) : world :=
  MkWorld (chain w) (consistency w) (detector w) (fields_seen w) (rows w) (tool_rows w) (shown_execution w) v.

(** ** The chain fields of a record *)

Definition session_of (call : ModelCall) : option string :=
  match dget "session_id" (metadata call) with PStr s => Some s | _ => None end.

(** [apply_session_chain] on the record's dict *)
Definition apply_chain (t : option T) (record : dict) (session : option string) (now : Z) : option T * dict * ChainResult :=
  let '(t, r, res) := apply_session_chain st cfg t (WalacorReader.view record) session now in
  let record :=
    match applied res, cr_sequence_number res with
    | true, Some n =>
        let d := od_set "previous_record_id" (ostr (cr_previous_record_id res)) (od_set "sequence_number" (PInt n) record) in
        if record_signature_ok res then od_set "record_signature" (ostr (record_signature r)) d else d
    | _, _ => record
    end in
  (t, record, res).

Definition advance_chain (t : option T) (record : dict) (session : option string) (res : ChainResult) (now : Z) : option T :=
  advance_session_chain t (WalacorReader.view record) session res now.

(** ** The findings *)

(** [meta = record.get("metadata") or {}]; the metadata of a record is a dict. *)
Definition metadata_of (record : dict) : dict := match dget "metadata" record with PDict m => m | _ => [] end.
Definition with_meta (m : dict) (record : dict) : dict := od_set "metadata" (PDict m) record.

Definition consistency_meta (r : Consistency.ConsistencyResult) (m : dict) : dict :=
  let m := od_set "consistency_check"
             (PDict [("compared_with", PStr (stake 12 (Consistency.execution_id_a r)));
                     ("prompt_similarity", float_val (Consistency.prompt_similarity r));
                     ("response_similarity", float_val (Consistency.response_similarity r));
                     ("consistent", PBool (Consistency.consistent r))]) m in
  if Consistency.consistent r then m
  else
    match dget_or "anomalies" (PList []) m with
    | PList l => od_set "anomalies" (PList (l ++ [PStr "consistency_flag"])) m
    | _ => m
    end.

(** What is no text is not compared, whether the tracker skips it or raises. *)
Definition text_or_empty (v : pyval) : res string :=
  match v with PStr s => Ok s | PNone => Ok "" | _ => attribute_error end.

Definition check_consistency (record : dict) (session : option string) (now : Z) (t : option Consistency.tracker)
    : option Consistency.tracker * dict :=
  match t with
  | None => (None, record)
  | Some c =>
      match
        let! text := text_or_empty (dget_or "prompt_text" (PStr "") record) in
        let! answer := text_or_empty (dget_or "response_content" (PStr "") record) in
        let! eid := as_str (dget_or "execution_id" (PStr "") record) in
        Consistency.check text answer (dget_or "model_id" (PStr "") record) eid (default "" session)
          (dget_or "user" (PStr "") record) now c
      with
      | Raise _ => (Some c, record)
      | Ok (None, c) => (Some c, record)
      | Ok (Some r, c) => (Some c, with_meta (consistency_meta r (metadata_of record)) record)
      end
  end.

Definition detect_anomalies (record : dict) (d : option Anomaly.detector) : option Anomaly.detector * dict :=
  match d with
  | None => (None, record)
  | Some d =>
      match Anomaly.detect record d with
      | Raise _ => (Some d, record)
      | Ok (d, report) =>
          (Some d, match Anomaly.to_list report with
                   | [] => record
                   | l => with_meta (od_set "anomalies" (PList (map PStr l)) (metadata_of record)) record
                   end)
      end
  end.

Definition capture_overflow (c : option Mapper.CanonicalResponse) (record : dict) (now : Z) (f : option Anomaly.registry)
    : option Anomaly.registry * dict :=
  match c, f, mapper_wired g with
  | Some c, Some reg, true =>
      match Mapper.overflow c, dget_or "provider" (PStr "unknown") record with
      | [], _ => (f, record)
      | o, PStr p =>
          let '(envelope, f) := Anomaly.build_overflow_envelope o p now (Some reg) in
          (f, with_meta (od_set "_overflow" (PDict envelope) (metadata_of record)) record)
      | _, _ => (f, record)
      end
  | _, _, _ => (f, record)
  end.

(** ** Storing *)

(** The validator of the engine, or the standalone one; a failure is logged and the
    record written as it is. *)
Definition clean (sc : RecordSchema.schema) (kind : string) (record : dict) : dict :=
  match (if engine g then Normalizer.Gate._validate record sc kind else Normalizer.Gate._standalone_validate record sc kind) with
  | Ok (r, _) => r
  | Raise _ => record
  end.

Definition write_execution (record : dict) (w : world) : world :=
  match storage g with None => w | Some accepts => with_row record (accepts record) w end.

Definition _store_execution (record : dict) (w : world) : world :=
  write_execution (clean Normalizer.Gate.EXECUTION_SCHEMA "execution" record) w.

(** ** Tool events *)

Definition set_some (k : string) (v : pyval) (d : dict) : dict := if is_none v then d else od_set k v d.
Definition set_true (k : string) (v : pyval) (d : dict) : dict := if truthy v then od_set k v d else d.

(** The metadata of an interaction is a dict: else the record had failed before. *)
Definition _build_tool_event_record (t : ToolInteraction) (execution_id session prompt_id : pyval) (source : string)
    (fresh : string * string) : dict :=
  let d := [("event_id", PStr (fst fresh)); ("execution_id", execution_id); ("session_id", session);
            ("prompt_id", prompt_id); ("tenant_id", PStr (g_tenant g)); ("gateway_id", PStr (g_gateway g));
            ("timestamp", PStr (snd fresh)); ("event_type", PStr "tool_call"); ("tool_id", tool_id t);
            ("tool_type", tool_type t); ("tool_name", por (tool_name t) (tool_type t)); ("source", PStr source)] in
  let d := set_some "input_data" (input_data t) d in
  let d := set_some "output_data" (output_data t) d in
  let d := set_true "sources" (sources t) d in
  match i_metadata t with
  | PDict ((_ :: _) as m) =>
      od_set "is_error" (dget "is_error" m) (od_set "duration_ms" (dget "duration_ms" m) (od_set "iteration" (dget "iteration" m) d))
  | _ => d
  end.

(** The output is analysed as text, its JSON when it is none. *)
Definition analysed (t : ToolInteraction) (d : dict) : dict :=
  match analyzers g, output_data t with
  | [], _ | _, PNone => d
  | l, out =>
      let text := match out with PStr s => s | v => to_text v end in
      match map ResponsePolicy.decision_dict (ResponsePolicy.decisions l text) with
      | [] => d
      | ds => od_set "content_analysis" (PList (map PDict ds)) d
      end
  end.

Definition tool_event (call : ModelCall) (execution_id : pyval) (source : string) (m : moment) (i : nat) (t : ToolInteraction) : dict :=
  clean Normalizer.Gate.TOOL_EVENT_SCHEMA "tool_event"
    (analysed t (_build_tool_event_record t execution_id (dget "session_id" (metadata call))
                   (dget_or "prompt_id" (PStr "") (metadata call)) source (event m i))).

Definition write_tool_events (ts : list ToolInteraction) (execution_id : pyval) (call : ModelCall) (strategy : string)
    (m : moment) (w : world) : world :=
  match storage g with
  | None => w
  | Some _ => with_tools (imap (tool_event call execution_id (tool_source strategy) m) ts) w
  end.

(** ** A record of an exchange that was answered in one piece *)

Definition filing_of (p : params) (call : ModelCall) (q : request_state) (m : moment) (meta : dict) (hash : pyval) : filing :=
  MkFiling (m_execution_id m) (m_record_id m) (m_timestamp m) (p_attestation_id p) (p_policy_version p) (p_policy_result p)
    (PStr (g_tenant g)) (PStr (g_gateway g)) (dget "user" (metadata call)) (dget "session_id" (metadata call)) (PDict meta)
    (model_id call) (PStr (p_provider p)) (p_latency_ms p) (p_timings p) (p_variant_id p) (files q) hash.

(** The time of the chain step goes into the dict of timings that the record holds. *)
Definition chain_timed (v : pyval) (record : dict) : dict :=
  match dget "timings" record with PDict d => od_set "timings" (PDict (od_set "chain_ms" v d)) record | _ => record end.

(** The record before the chain: built, with the identifier promised in the response
    header, and with its cost *)
Definition draft_record (call : ModelCall) (r : ModelResponse) (p : params) (q : request_state) (m : moment) (hash : pyval) : res dict :=
  let! meta := full_metadata call r p (enforcement_mode g) (canonical_response q) in
  let! record := build_execution_record call r (filing_of p call q m meta hash) in
  let record := match preallocated q with
                | Some (String _ _ as eid) => od_set "execution_id" (PStr eid) record
                | _ => record
                end in
  Ok (attribute_cost (pricing g (por (model_id call) (PStr ""))) record).

(** The findings, in their order *)
Definition add_findings (record : dict) (session : option string) (q : request_state) (m : moment) (w : world) : dict * world :=
  let '(c, record) := check_consistency record session (at_check m) (consistency w) in
  let '(d, record) := detect_anomalies record (detector w) in
  let '(f, record) := capture_overflow (canonical_response q) record (at_overflow m) (fields_seen w) in
  (record, with_findings c d f w).

Definition _build_and_write_record (call : ModelCall) (r : ModelResponse) (p : params) (q : request_state) (m : moment)
    (hash : pyval) (w : world) : res world :=
  if skip_audit q then Ok w
  else
    let session := session_of call in
    let! record := draft_record call r p q m hash in
    let '(t, record, res) := apply_chain (chain w) record session (at_reserve m) in
    let record := chain_timed (chain_ms m) record in
    let '(record, w) := add_findings record session q m (with_chain t w) in
    let w := _store_execution record w in
    let w := with_sequence (dget "sequence_number" record) w in
    let w := write_tool_events (interactions p) (dget "execution_id" record) call (tool_strategy p) m w in
    Ok (with_chain (advance_chain (chain w) record session res (at_advance m)) w).

(** [_finalize_audit_write]: the deferred mapping, then the record; whatever raises is
    logged, and the record is lost.  [answer] is the status and the decoded body of the
    response, when there is one. *)
Definition _finalize_audit_write (call : ModelCall) (r : ModelResponse) (answer : option (Z * res pyval)) (deferred : bool)
    (p : params) (q : request_state) (m : moment) (hash : pyval) (mp : option mapper) (now : Z) (w : world) : option mapper * world :=
  let '(mp, call, r, q) :=
    match deferred, answer with
    | true, Some (status, body) =>
        let '(mp, r, meta, c) := _run_schema_mapper mp status body r now in
        let call := match meta with [] => call | _ => with_metadata (merge (metadata call) meta) call end in
        (mp, call, r, MkState (skip_audit q) (preallocated q) (match c with Some _ => c | None => canonical_response q end) (files q))
    | _, _ => (mp, call, r, q)
    end in
  (mp, match _build_and_write_record call r p q m hash w with Ok w => w | Raise _ => w end).

(** ** A record of a stream *)

(** The verdict after the stream: version, result and decisions *)
Definition _eval_post_stream_policy (fmt2 : pyval -> string) (r : ModelResponse) : res (Z * string * list dict) :=
  match policy_version_ g with
  | Some version =>
      if negb (bool_decide (length (analyzers g) = 0%nat)) && response_policy_enabled g then
        let! text := text_or_empty (content r) in
        let! thinking := text_or_empty (thinking_content r) in
        let o := ResponsePolicy.evaluate_post_inference fmt2 version text (Some thinking) (analyzers g) in
        let result := ResponsePolicy.response_policy_result o in
        Ok (ResponsePolicy.response_policy_version o, if bool_decide (result = "blocked") then "flagged_post_stream" else result,
            ResponsePolicy.analyzer_decisions o)
      else Ok (0, "skipped", [])
  | None => Ok (0, "skipped", [])
  end.

(** The engine's normaliser, or the standalone one; a failure leaves the response. *)
Definition normalised (r : ModelResponse) (provider : string) : ModelResponse :=
  match (if engine g then let! '(r, _) := Normalizer.normalize_response r provider in Ok r
         else Normalizer.normalize_model_response r provider) with
  | Ok r => r
  | Raise _ => r
  end.

(** The arguments of the background task of a stream *)
Record streamed := MkStreamed {
  s_call : ModelCall;
  s_provider : string;
  s_attestation_id : pyval;
  s_policy_version : pyval;
  s_policy_result : pyval;
  s_audit : dict;
  s_estimated : Z;
  s_files : pyval;
  s_has_request : bool;
}.

Definition stream_filing (s : streamed) (m : moment) (meta : dict) (hash : pyval) : filing :=
  MkFiling (m_execution_id m) (m_record_id m) (m_timestamp m) (s_attestation_id s) (s_policy_version s) (s_policy_result s)
    (PStr (g_tenant g)) (PStr (g_gateway g)) (dget "user" (metadata (s_call s))) (dget "session_id" (metadata (s_call s)))
    (PDict meta) (model_id (s_call s)) (PStr (s_provider s)) (m_latency m) PNone PNone (s_files s) hash.

(** Write, show the identifier, and say whether it was accepted *)
Definition write_streamed (record : dict) (shown : bool) (w : world) : world * bool :=
  match storage g with
  | None => (w, false)
  | Some accepts =>
      let ok := accepts record in
      let w' := with_row record ok w in
      (MkWorld (chain w') (consistency w') (detector w') (fields_seen w') (rows w') (tool_rows w')
         (if ok && shown then dget "execution_id" record else shown_execution w) (shown_sequence w'), ok)
  end.

(** The governance event at the end of the stream *)
Record stream_governance := MkSG { sg_execution_id : pyval; sg_chain_seq : pyval; sg_content_analysis : string }.

(** [_after_stream_record].  [parsed] is the response: built before, or parsed from the
    buffer.  Whatever raises is logged and ends the task; the budget is settled before. *)
Definition _after_stream_record (fmt2 : pyval -> string) (writers : bool) (parsed : res ModelResponse) (s : streamed) (hash : pyval)
    (m : moment) (now : Budget.datetime) (b : option Budget.Memory.tracker) (w : world)
    : option Budget.Memory.tracker * world * option stream_governance :=
  if negb writers then (b, w, None)
  else
    match parsed with
    | Raise _ => (b, w, None)
    | Ok r =>
        let r := normalised r (s_provider s) in
        let u := match dget "user" (metadata (s_call s)) with PStr x => Some x | _ => None end in
        let '(b, settled) := _record_token_usage r (g_tenant g) u (s_estimated s) now b in
        match
          let! _ := settled in
          let! '(version, result, decisions) := _eval_post_stream_policy fmt2 r in
          let! meta := stream_metadata (s_call s) r (s_audit s) version result decisions (enforcement_mode g) in
          let! record := build_execution_record (s_call s) r (stream_filing s m meta hash) in
          let session := session_of (s_call s) in
          let '(t, record, res) := apply_chain (chain w) record session (at_reserve m) in
          let '(w, ok) := write_streamed record (s_has_request s) (with_chain t w) in
          let w := write_tool_events (tool_interactions r) (dget "execution_id" record) (s_call s) "passive" m w in
          let w := if ok then with_chain (advance_chain (chain w) record session res (at_advance m)) w else w in
          let! summary := _summarize_content_analysis decisions in
          Ok (w, MkSG (dget "execution_id" record) (dget "sequence_number" record) summary)
        with
        | Ok (w, sg) => (b, w, Some sg)
        | Raise _ => (b, w, None)
        end
    end.

(** ** Transparent proxy mode *)

Definition proxy_filing (call : ModelCall) (provider : string) (q : request_state) (m : moment) (hash : pyval) : filing :=
  MkFiling (m_execution_id m) (m_record_id m) (m_timestamp m) (PStr "skip_governance") (PInt 0) (PStr "pass")
    (PStr (g_tenant g)) (PStr (g_gateway g)) (dget "user" (metadata call)) (dget "session_id" (metadata call))
    (PDict [("enforcement_mode", PStr "skip_governance")]) (model_id call) (PStr provider) (m_latency m) PNone PNone (files q) hash.

(** The answer in one piece: no chain, no signature.  An exception is the request's. *)
Definition _handle_skip_governance_non_streaming (call : ModelCall) (r : ModelResponse) (provider : string) (q : request_state)
    (m : moment) (hash : pyval) (w : world) : res world :=
  match storage g with
  | None => Ok w
  | Some _ =>
      if skip_audit q then Ok w
      else
        let! record := build_execution_record call r (proxy_filing call provider q m hash) in
        Ok (write_execution record w)
  end.

(** After a stream: chained and signed, and shown whether it was accepted or not *)
Definition _skip_governance_after_stream (parsed : res ModelResponse) (call : ModelCall) (provider : string) (q : request_state)
    (m : moment) (hash : pyval) (w : world) : world :=
  match storage g with
  | None => w
  | Some accepts =>
      if skip_audit q then w
      else
        match
          let! r := parsed in
          let! record := build_execution_record call r (proxy_filing call provider q m hash) in
          let session := session_of call in
          let '(t, record, res) := apply_chain (chain w) record session (at_reserve m) in
          let ok := accepts record in
          let w := with_row record ok (with_chain t w) in
          let w := if ok && applied res then with_chain (advance_chain (chain w) record session res (at_advance m)) w else w in
          Ok (MkWorld (chain w) (consistency w) (detector w) (fields_seen w) (rows w) (tool_rows w)
                (dget "execution_id" record) (shown_sequence w))
        with
        | Ok w => w
        | Raise _ => w
        end
  end.

(** ** What the models learn from *)

Record HarvesterSignal := MkSignal { h_model : string; h_prediction : pyval; h_payload : dict; h_prompt : pyval; h_response : pyval }.

(** The signals of a finalised record: intent, mapping, safety *)
Definition _emit_harvester_signals (record : dict) : res (list HarvesterSignal) :=
  let meta := metadata_of record in
  let signal model prediction := MkSignal model prediction meta (por (dget "prompt_text" record) (PStr ""))
                                   (por (dget "response_content" record) (PStr "")) in
  let intent := match dget "_intent" meta with PStr (String _ _ as i) => [signal "intent" (PStr i)] | _ => [] end in
  let! mapped := match dget "canonical" meta with
                 | PDict c =>
                     let! found := py_gt (dget_or "content_length" (PInt 0) c) (PInt 0) in
                     Ok [signal "schema_mapper" (PStr (if found then "complete" else "incomplete"))]
                 | _ => Ok []
                 end in
  let safety := match por (dget "analyzer_decisions" meta) (PList []) with
                | PList l =>
                    match List.find (fun d => match d with PDict d => eq_str (dget "analyzer_id" d) "truzenai.safety.v1" | _ => false end) l with
                    | Some (PDict d) => [signal "safety" (por (dget "category" d) (PStr "safe"))]
                    | _ => []
                    end
                | _ => []
                end in
  Ok (intent ++ mapped ++ safety).
End write.

(** ** What the steps leave alone *)

Definition chain_keys : list string := ["previous_record_id"; "sequence_number"; "record_signature"].

(** The fields that the signature covers, and the signature *)
Definition signed_keys : list string :=
  ["execution_id"; "timestamp"; "sequence_number"; "record_id"; "previous_record_id"; "record_signature"].

Section sound.
Context `{E : Ed25519} `{L : !Ed25519Laws E} {T : Type} `{ChainTracker T} `{FloatRepr} `{Digest} `{Consistency.SetOrder} `{JsonText}.
Context (st : keys) (cfg : settings) (g : gateway).

Lemma apply_chain_keeps t record session now k :
  k ∉ chain_keys -> dget k (apply_chain st cfg t record session now).1.2 = dget k record.
Proof.
  intros Hk. unfold chain_keys in Hk. rewrite !not_elem_of_cons in Hk. destruct Hk as (K1 & K2 & K3 & _).
  unfold apply_chain. destruct (apply_session_chain _ _ _ _ _ _) as [[t' r] res]. cbn [fst snd].
  destruct (applied res), (cr_sequence_number res), (record_signature_ok res); cbn [fst snd];
    rewrite ?dget_set_ne by congruence; done.
Qed.

Lemma verify_same a b :
  Forall (fun k => dget k a = dget k b) signed_keys ->
  verify_record_signature st (WalacorReader.view a) = verify_record_signature st (WalacorReader.view b).
Proof.
  unfold signed_keys. rewrite !Forall_cons. intros (K1 & K2 & K3 & K4 & K5 & K6 & _).
  unfold verify_record_signature, WalacorReader.view, WalacorReader.sfield, WalacorReader.zfield. cbn.
  by rewrite K1, K2, K3, K4, K5, K6.
Qed.

Lemma unsigned_verifies record :
  dget "record_signature" record = PNone -> verify_record_signature st (WalacorReader.view record) <> sig_invalid.
Proof. intros Hs. unfold verify_record_signature, WalacorReader.view, WalacorReader.sfield. cbn. by rewrite Hs. Qed.

Lemma sfield_ostr o k d : dget k d = ostr o -> WalacorReader.sfield k d = o.
Proof. unfold WalacorReader.sfield. intros ->. by destruct o. Qed.

Lemma verify_record_fields r r' :
  execution_id r = execution_id r' -> timestamp r = timestamp r' -> Signing.sequence_number r = Signing.sequence_number r' ->
  record_id r = record_id r' -> Signing.previous_record_id r = Signing.previous_record_id r' ->
  record_signature r = record_signature r' -> verify_record_signature st r = verify_record_signature st r'.
Proof. unfold verify_record_signature. intros -> -> -> -> -> ->. done. Qed.

(** The chain step: what it writes into the record, and that it verifies *)
Lemma apply_chain_sound t record sid now t1 v :
  sid <> "" -> session_chain_enabled cfg = true -> ct_next t sid now = Ok (t1, v) -> dget "record_signature" record = PNone ->
  exists record' ok,
    apply_chain st cfg (Some t) record (Some sid) now =
      (Some t1, record', MkChainResult true (Some (SessionChain.sequence_number v)) (SessionChain.previous_record_id v)
                 (record_signing_enabled cfg) ok) /\
    dget "sequence_number" record' = PInt (SessionChain.sequence_number v) /\
    dget "previous_record_id" record' = ostr (SessionChain.previous_record_id v) /\
    (matching_keys st -> verify_record_signature st (WalacorReader.view record') <> sig_invalid).
Proof.
  intros Hs He Hn Hu. unfold apply_chain.
  destruct (apply_ok st cfg t t1 sid (WalacorReader.view record) now v Hs He Hn) as (r' & ok & Ha & Hr'). rewrite Ha. cbn.
  set (d := od_set "previous_record_id" _ _).
  assert (dget "sequence_number" d = PInt (SessionChain.sequence_number v)) as Hn'.
  { unfold d. by rewrite dget_set_ne, dget_set_eq. }
  assert (dget "previous_record_id" d = ostr (SessionChain.previous_record_id v)) as Hp by apply dget_set_eq.
  assert (dget "record_signature" d = PNone) as Hd by (unfold d; by rewrite !dget_set_ne).
  destruct ok; [|exists d, false; split_and!; [done..|intros _; by apply unsigned_verifies]].
  eexists _, true. split; [reflexivity|]. rewrite !(dget_set_ne "record_signature") by done. split; [done|]. split; [done|]. intros Hk.
  destruct (record_signing_enabled cfg) eqn:Hg.
  - pose proof (stamp_signature_fields st (SessionChain.sequence_number v)
      (set_chain_fields (SessionChain.sequence_number v) (SessionChain.previous_record_id v) (WalacorReader.view record)))
      as (F1 & F2 & F3 & F4 & F5 & _).
    rewrite <- Hr' in F1, F2, F3, F4, F5. cbn in F1, F2, F3, F4, F5.
    rewrite (verify_record_fields _ r'); unfold WalacorReader.view; cbn [Signing.execution_id Signing.timestamp
      Signing.sequence_number Signing.record_id Signing.previous_record_id Signing.record_signature].
    + rewrite Hr'. apply stamp_signature_ok; [done| |done]. by apply (sfield_ostr None).
    + rewrite F1. unfold WalacorReader.sfield, d. by rewrite !dget_set_ne.
    + rewrite F2. unfold WalacorReader.sfield, d. by rewrite !dget_set_ne.
    + rewrite F3. unfold WalacorReader.zfield. by rewrite dget_set_ne, Hn'.
    + rewrite F4. unfold WalacorReader.sfield, d. by rewrite !dget_set_ne.
    + rewrite F5. apply sfield_ostr. by rewrite dget_set_ne.
    + apply sfield_ostr, dget_set_eq.
  - exfalso. unfold apply_session_chain in Ha. rewrite bool_decide_true in Ha by done. rewrite He, Hn, Hg in Ha. cbn in Ha. congruence.
Qed.

(** Cleaning leaves a value of its field's type, and what is no field. *)
Lemma clean_keeps sc kind record k :
  od_wf sc -> (forall s, od_get k sc = Some s -> RecordSchema.validate_value s (dget k record) = Ok (dget k record)) ->
  dget k (clean g sc kind record) = dget k record.
Proof.
  intros Hnd Hk. unfold clean.
  pose proof (Normalizer.Gate.folds_agree sc record (Normalizer.Gate.MkReport kind [] 0 0) (Normalizer.Gate.MkReport kind [] 0 0)
    ltac:(done)) as Hf.
  unfold Normalizer.Gate._validate, Normalizer.Gate._standalone_validate.
  destruct (RecordSchema.validate_record record sc) as [d|e] eqn:Hv.
  - destruct Hf as (ra & rb & -> & -> & _). assert (dget k d = dget k record) as Hd; [|by destruct (engine g)].
    apply RecordSchema.validate_record_values in Hv as [Hin Hout]; [|done].
    destruct (decide (k ∈ sc.*1)) as [Hks|Hks]; [|unfold dget; by rewrite Hout].
    apply list_elem_of_fmap in Hks as ([k' s] & -> & Hs). cbn [fst] in *. specialize (Hin _ _ Hs).
    rewrite (Hk _ (od_elem_get _ _ _ Hnd Hs)) in Hin. by injection Hin.
  - destruct Hf as [-> ->]. by destruct (engine g).
Qed.

Lemma execution_fields : od_wf Normalizer.Gate.EXECUTION_SCHEMA.
Proof. by apply (bool_decide_unpack _); exact I. Qed.
Lemma tool_event_fields : od_wf Normalizer.Gate.TOOL_EVENT_SCHEMA.
Proof. by apply (bool_decide_unpack _); exact I. Qed.

Lemma chain_timed_keeps v record k : k <> "timings" -> dget k (chain_timed v record) = dget k record.
Proof. intros Hk. unfold chain_timed. destruct (dget "timings" record); try done. by rewrite dget_set_ne. Qed.

Lemma with_meta_keeps m record k : k <> "metadata" -> dget k (with_meta m record) = dget k record.
Proof. intros Hk. unfold with_meta. by rewrite dget_set_ne. Qed.

Lemma consistency_keeps record session now t k :
  k <> "metadata" -> dget k (check_consistency record session now t).2 = dget k record.
Proof.
  intros Hk. unfold check_consistency. destruct t; [|done].
  match goal with |- context [match ?x with Ok _ => _ | Raise _ => _ end] => destruct x as [[[res|] c]|e] end; try done.
  by apply with_meta_keeps.
Qed.

Lemma anomalies_keep record d k : k <> "metadata" -> dget k (detect_anomalies record d).2 = dget k record.
Proof.
  intros Hk. unfold detect_anomalies. destruct d as [d|]; [|done]. destruct (Anomaly.detect record d) as [[d' r]|e]; [|done].
  cbn [snd]. destruct (Anomaly.to_list r); [done|]. by apply with_meta_keeps.
Qed.

Lemma overflow_keeps c record now f k : k <> "metadata" -> dget k (capture_overflow g c record now f).2 = dget k record.
Proof.
  intros Hk. unfold capture_overflow. destruct c as [c|], f as [f|], (mapper_wired g); try done.
  destruct (Mapper.overflow c), (dget_or "provider" (PStr "unknown") record); try done.
  destruct (Anomaly.build_overflow_envelope _ _ _ _). by apply with_meta_keeps.
Qed.

Lemma findings_keep record session q m w record' w' k :
  add_findings (T := T) g record session q m w = (record', w') -> k <> "metadata" -> dget k record' = dget k record.
Proof.
  intros Hf Hk. unfold add_findings in Hf.
  pose proof (consistency_keeps record session (at_check m) (consistency w) k Hk) as K1.
  destruct (check_consistency _ _ _ _) as [c r1]. pose proof (anomalies_keep r1 (detector w) k Hk) as K2.
  destruct (detect_anomalies _ _) as [d r2].
  pose proof (overflow_keeps (canonical_response q) r2 (at_overflow m) (fields_seen w) k Hk) as K3.
  destruct (capture_overflow _ _ _ _ _) as [f r3]. cbn [snd] in *. injection Hf as <- _. congruence.
Qed.

(** The findings touch neither the chain nor what is stored. *)
Lemma findings_world record session q m w record' w' :
  add_findings (T := T) g record session q m w = (record', w') -> chain w' = chain w /\ rows w' = rows w /\ tool_rows w' = tool_rows w.
Proof.
  unfold add_findings. intros Hf. destruct (check_consistency _ _ _ _), (detect_anomalies _ _), (capture_overflow _ _ _ _ _).
  by injection Hf as _ <-.
Qed.

(** ** The record before the chain *)

Definition unhashed : list string := ["record_hash"; "previous_record_hash"; "env"].

(** A record that has not met the chain *)
Definition unchained (rid eid ts : string) (record : dict) : Prop :=
  dget "record_id" record = PStr rid /\ dget "execution_id" record = PStr eid /\ dget "timestamp" record = PStr ts /\
  dget "record_signature" record = PNone /\ dget "sequence_number" record = PNone /\ dget "previous_record_id" record = PNone /\
  Forall (fun k => dget k record = PNone) unhashed.

Lemma build_unchained call r f record :
  build_execution_record call r f = Ok record ->
  unchained (fresh_record_id f) (fresh_execution_id f) (AuditRecord.now f) record /\ dget "metadata" record = f_metadata f.
Proof.
  unfold build_execution_record. intros Hb. unbind Hb. injection Hb as <-.
  split; [|done]. split_and!; try done. unfold unhashed. by rewrite !Forall_cons, Forall_nil.
Qed.

Lemma cost_keeps pr record k : k <> "estimated_cost_usd" -> dget k (attribute_cost pr record) = dget k record.
Proof.
  intros Hk. unfold attribute_cost. destruct pr as [[a b]|]; [|done].
  match goal with |- context [match ?x with Ok _ => _ | Raise _ => _ end] => destruct x end; [|done]. by rewrite dget_set_ne.
Qed.

Definition execution_of (q : request_state) (m : moment) : string :=
  match preallocated q with Some (String _ _ as eid) => eid | _ => m_execution_id m end.

Lemma draft_unchained call r p q m hash record :
  draft_record g call r p q m hash = Ok record ->
  unchained (m_record_id m) (execution_of q m) (m_timestamp m) record.
Proof.
  unfold draft_record, execution_of, unchained, unhashed. intros Hd. apply res_bind_ok in Hd as (meta & _ & Hd).
  apply res_bind_ok in Hd as (rec & Hb & Hd). apply build_unchained in Hb as [(B1 & B2 & B3 & B4 & B5 & B6 & B7) _].
  unfold unhashed in B7. rewrite !Forall_cons, Forall_nil in B7 |- *. injection Hd as <-. rewrite !cost_keeps by done.
  destruct (preallocated q) as [[|c eid]|]; rewrite ?dget_set_eq, ?dget_set_ne by done; done.
Qed.

(** ** A record with its place in the chain *)

Definition chained_as (rid eid ts : string) (v : ChainValues) (row : dict) : Prop :=
  dget "record_id" row = PStr rid /\ dget "execution_id" row = PStr eid /\ dget "timestamp" row = PStr ts /\
  dget "sequence_number" row = PInt (SessionChain.sequence_number v) /\
  dget "previous_record_id" row = ostr (SessionChain.previous_record_id v) /\
  (matching_keys st -> verify_record_signature st (WalacorReader.view row) <> sig_invalid) /\
  Forall (fun k => dget k row = PNone) unhashed.

Lemma chained_as_same rid eid ts v a b :
  Forall (fun k => dget k a = dget k b) (signed_keys ++ unhashed) -> chained_as rid eid ts v b -> chained_as rid eid ts v a.
Proof.
  rewrite Forall_app. intros [Hs Hu] (C1 & C2 & C3 & C4 & C5 & C6 & C7). unfold chained_as.
  rewrite (verify_same a b Hs). unfold signed_keys in Hs. rewrite !Forall_cons in Hs. destruct Hs as (-> & -> & -> & -> & -> & _).
  split_and!; try done. rewrite Forall_forall in Hu, C7 |- *. intros k Hk. by rewrite Hu, C7.
Qed.

Lemma apply_chain_as t record rid eid ts sid now t1 v :
  sid <> "" -> session_chain_enabled cfg = true -> ct_next t sid now = Ok (t1, v) -> unchained rid eid ts record ->
  exists record' ok,
    apply_chain st cfg (Some t) record (Some sid) now =
      (Some t1, record', MkChainResult true (Some (SessionChain.sequence_number v)) (SessionChain.previous_record_id v)
                 (record_signing_enabled cfg) ok) /\ chained_as rid eid ts v record'.
Proof.
  intros Hs He Hn (U1 & U2 & U3 & U4 & _ & _ & U7).
  destruct (apply_chain_sound t record sid now t1 v Hs He Hn U4) as (record' & ok & Ha & A1 & A2 & A3).
  exists record', ok. split; [done|].
  assert (forall k, k ∉ chain_keys -> dget k record' = dget k record) as Hkeep.
  { intros k Hc. pose proof (apply_chain_keeps (Some t) record (Some sid) now k Hc) as Hx. by rewrite Ha in Hx. }
  unfold chained_as, unhashed in *. rewrite !Forall_cons, Forall_nil in U7 |- *.
  split_and!; try done; rewrite Hkeep by (by apply (bool_decide_unpack _)); naive_solver.
Qed.

Lemma row_keys_apart k : k ∈ signed_keys ++ unhashed -> k <> "timings" /\ k <> "metadata".
Proof. unfold signed_keys, unhashed. cbn [app]. rewrite !elem_of_cons, elem_of_nil. naive_solver congruence. Qed.

(** The findings leave the place in the chain. *)
Lemma findings_chained rid eid ts v record session q m w record' w' ms :
  chained_as rid eid ts v record -> add_findings (T := T) g (chain_timed ms record) session q m w = (record', w') ->
  chained_as rid eid ts v record'.
Proof.
  intros Hc Hf. eapply chained_as_same; [|exact Hc]. apply Forall_forall. intros k Hk.
  apply row_keys_apart in Hk as [K1 K2]. rewrite (findings_keep _ _ _ _ _ _ _ _ Hf K2). by apply chain_timed_keeps.
Qed.

(** So does the validation. *)
Lemma clean_chained rid eid ts v record kind :
  chained_as rid eid ts v record -> chained_as rid eid ts v (clean g Normalizer.Gate.EXECUTION_SCHEMA kind record).
Proof.
  intros Hc. eapply chained_as_same; [|exact Hc]. destruct Hc as (_ & He & Ht & Hn & _ & _ & Hu).
  unfold signed_keys, unhashed in *. rewrite !Forall_cons, Forall_nil in Hu. destruct Hu as (U1 & U2 & _).
  cbn [app]. rewrite !Forall_cons.
  split_and!; [..|apply Forall_nil_2]; (apply clean_keeps; [apply execution_fields|]); intros s Hs; try discriminate Hs;
    injection Hs as <-; [by rewrite He|by rewrite Ht|by rewrite Hn|by rewrite U1|by rewrite U2].
Qed.

(** One write: the row that is stored, and the chain after it *)
Lemma written_row call r p q m hash (w w' : world (T := T)) accepts t sid t1 v :
  storage g = Some accepts -> skip_audit q = false ->
  session_of call = Some sid -> sid <> "" -> session_chain_enabled cfg = true ->
  chain w = Some t -> ct_next t sid (at_reserve m) = Ok (t1, v) ->
  _build_and_write_record st cfg g call r p q m hash w = Ok w' ->
  exists row, rows w' = rows w ++ [(row, accepts row)] /\
    chained_as (m_record_id m) (execution_of q m) (m_timestamp m) v row /\
    chain w' = Some match ct_update t1 sid (SessionChain.sequence_number v) "" (Some (m_record_id m)) (at_advance m) with
                    | Ok t2 => t2
                    | Raise _ => t1
                    end.
Proof.
  intros Hst Hq Hs Hsid He Ht Hn Hw. unfold _build_and_write_record in Hw. rewrite Hq in Hw.
  apply res_bind_ok in Hw as (record & Hd & Hw). apply draft_unchained in Hd.
  rewrite Ht, Hs in Hw. destruct (apply_chain_as t record _ _ _ sid (at_reserve m) t1 v Hsid He Hn Hd) as (rec1 & ok & Ha & Hc).
  rewrite Ha in Hw. destruct (add_findings _ _ _ _ _ _) as [rec2 w2] eqn:Hf.
  pose proof (findings_world _ _ _ _ _ _ _ Hf) as (W1 & W2 & _). cbn [chain rows with_chain] in W1, W2.
  apply findings_chained with (1 := Hc) in Hf.
  exists (clean g Normalizer.Gate.EXECUTION_SCHEMA "execution" rec2).
  injection Hw as <-. cbn [rows chain with_chain with_tools with_sequence]. unfold _store_execution, write_execution.
  rewrite Hst. unfold write_tool_events. rewrite Hst. cbn [rows chain with_chain with_tools with_sequence with_row].
  rewrite W2. split_and!; [done|by apply clean_chained|].
  rewrite W1. unfold advance_chain, advance_session_chain. cbn [applied cr_sequence_number].
  rewrite bool_decide_true by done.
  assert (record_id (WalacorReader.view rec2) = Some (m_record_id m)) as ->
    by (unfold WalacorReader.view, WalacorReader.sfield; cbn; by rewrite (proj1 Hf)).
  by destruct (ct_update _ _ _ _ _ _).
Qed.
End sound.

(** ** The rows of a session *)

Record exchange := MkExchange {
  x_call : ModelCall;
  x_response : ModelResponse;
  x_params : params;
  x_state : request_state;
  x_moment : moment;
  x_hash : pyval;
}.

Section session.
Context `{E : Ed25519} `{L : !Ed25519Laws E} {T : Type} `{C : ChainTracker T} `{CL : !ChainTrackerLaws T}.
Context `{FloatRepr} `{Digest} `{Consistency.SetOrder} `{JsonText}.
Context (st : keys) (cfg : settings) (g : gateway).

Definition write_one (w : world (T := T)) (x : exchange) : res world :=
  _build_and_write_record st cfg g (x_call x) (x_response x) (x_params x) (x_state x) (x_moment x) (x_hash x) w.
Definition write_each (xs : list exchange) (w : world) : res world := fold_res write_one xs w.

(** A recorded exchange of session [sid] *)
Definition of_session (sid : string) (x : exchange) : Prop :=
  session_of (x_call x) = Some sid /\ skip_audit (x_state x) = false.

(** The number and the pointer that the next record gets *)
Definition next_place (t : T) (sid : string) : Z * option string :=
  match ct_last t sid with Some (n, r) => (n + 1, r) | None => (0, None) end.

Lemma chained_as_sound rid eid ts v row :
  matching_keys st -> chained_as st rid eid ts v row ->
  let r := normalize_record (WalacorReader.view row) in
  Signing.sequence_number r = Some (SessionChain.sequence_number v) /\
  Signing.previous_record_id r = SessionChain.previous_record_id v /\ record_id r = Some rid /\
  verify_record_signature st r <> sig_invalid.
Proof.
  intros Hk (C1 & _ & _ & C4 & C5 & C6 & C7). unfold unhashed in C7. rewrite !Forall_cons in C7. destruct C7 as (U1 & U2 & U3 & _).
  assert (ChainSystem.sound st (WalacorReader.view row)) as Hs.
  { unfold ChainSystem.sound, WalacorReader.view, WalacorReader.sfield. cbn. rewrite C1, U1, U2, U3. split_and!; try done.
    intros _. pose proof (C6 Hk) as Hv. unfold WalacorReader.view, WalacorReader.sfield in Hv. by rewrite C1, U1, U2, U3 in Hv. }
  cbv zeta. destruct (ChainSystem.sound_normalize st _ Hs) as (-> & -> & -> & ->).
  unfold WalacorReader.view at 1 2 3. cbn [Signing.sequence_number Signing.previous_record_id record_id].
  unfold WalacorReader.zfield. rewrite C4. split_and!; [done|by apply sfield_ostr|by apply (sfield_ostr (Some rid))|by apply C6].
Qed.

Lemma written_rows accepts sid S xs : forall t w w',
  matching_keys st -> storage g = Some accepts -> session_chain_enabled cfg = true -> sid <> "" -> sid ∈ S ->
  Forall (of_session sid) xs -> chain w = Some t -> ct_fits t S -> write_each xs w = Ok w' ->
  exists new, rows w' = rows w ++ map (fun r => (r, accepts r)) new /\
    map (dget "record_id") new = map (fun x => PStr (m_record_id (x_moment x))) xs /\
    chained st (next_place t sid).1 (next_place t sid).2 (map (fun r => normalize_record (WalacorReader.view r)) new).
Proof.
  induction xs as [|x xs IH]; intros t w w' Hk Hst He Hsid HS Hxs Ht Hfit Hw.
  - injection Hw as <-. exists []. cbn. by rewrite List.app_nil_r.
  - apply Forall_cons in Hxs as [[Hs Hq] Hxs]. unfold write_each in Hw. cbn [fold_res] in Hw.
    apply res_bind_ok in Hw as (w1 & Hw1 & Hw).
    destruct (ct_next_law t S sid (at_reserve (x_moment x)) Hfit HS) as (t1 & v & Hn & Hfit1 & Hv & Hp & Hlast & _ & _).
    destruct (written_row st cfg g _ _ _ _ _ _ _ _ accepts t sid t1 v Hst Hq Hs Hsid He Ht Hn Hw1) as (row & Hrows & Hrow & Hchain).
    destruct (ct_update_law t1 S sid (SessionChain.sequence_number v) "" (Some (m_record_id (x_moment x))) (at_advance (x_moment x)) Hfit1 HS)
      as (t2 & Hu & Hfit2 & Hlast2 & _ & _).
    rewrite Hu in Hchain. rewrite Hlast, Z.max_id in Hlast2.
    destruct (IH t2 w1 w' Hk Hst He Hsid HS Hxs Hchain Hfit2 Hw) as (new & Hnew & Hids & Hc).
    exists (row :: new). rewrite Hnew, Hrows, <- List.app_assoc. split; [done|].
    destruct (chained_as_sound _ _ _ _ _ Hk Hrow) as (S1 & S2 & S3 & S4). unfold next_place in Hc. rewrite Hlast2 in Hc.
    split; [cbn; by rewrite Hids, (proj1 Hrow)|]. cbn [map chained]. rewrite S1, S2, S3. unfold next_place.
    split; [right; rewrite Hv; by destruct (ct_last t sid) as [[]|]|].
    split; [rewrite Hp; by destruct (ct_last t sid) as [[]|]|]. split; [done|].
    cbn [fst snd] in Hc. rewrite Hv in Hc. by destruct (ct_last t sid) as [[]|].
Qed.

(** C4. What the exchanges of a session write, the verifier accepts.  For every tracker
    that keeps its contract and every list of answered calls of a session, whatever
    providers, tools, findings or unknown fields they bring and whatever the validator
    coerces, the rows handed to storage are numbered from zero, each points to the one
    before it, and no signature is invalid under matching keys.  The rows that storage
    rejects are part of that chain: the tracker moves past them as well. *)
Theorem exchanges_form_a_chain accepts sid S xs t w w' :
  matching_keys st -> storage g = Some accepts -> session_chain_enabled cfg = true -> sid <> "" -> sid ∈ S ->
  Forall (of_session sid) xs -> chain w = Some t -> ct_fits t S -> ct_last t sid = None -> write_each xs w = Ok w' ->
  exists new, rows w' = rows w ++ map (fun r => (r, accepts r)) new /\
    map (dget "record_id") new = map (fun x => PStr (m_record_id (x_moment x))) xs /\
    valid (verify_records st sid (map (fun r => normalize_record (WalacorReader.view r)) new)) = true.
Proof.
  intros Hk Hst He Hsid HS Hxs Ht Hfit Hl Hw.
  destruct (written_rows accepts sid S xs t w w' Hk Hst He Hsid HS Hxs Ht Hfit Hw) as (new & Hnew & Hids & Hc).
  exists new. split; [done|]. split; [done|]. apply ChainSystem.valid_chained. unfold next_place in Hc. rewrite Hl in Hc.
  destruct new as [|r new]; [done|]. cbn [map chained fst snd] in Hc. destruct Hc as (A & B & D & F).
  cbn [map head chained mbind option_bind]. by rewrite B.
Qed.
End session.

(** ** One exchange, one row, one identifier *)

Section recorded.
Context `{E : Ed25519} {T : Type} `{ChainTracker T} `{FloatRepr} `{Digest} `{Consistency.SetOrder} `{JsonText}.
Context (st : keys) (cfg : settings) (g : gateway).

(** What a parsed response and its tools look like: the usage is a dict or nothing, the
    metadata of an interaction likewise *)
Definition plain_usage (u : pyval) : Prop := truthy u = true -> exists d, u = PDict d.
Definition plain_tool (t : ToolInteraction) : Prop := truthy (i_metadata t) = true -> exists d, i_metadata t = PDict d.

Lemma serialized source ts :
  Forall plain_tool ts -> exists l, map_res (fun t => _serialize_tool_interaction t source) ts = Ok l.
Proof.
  induction 1 as [|t ts Ht Hts [l IH]]; [by eexists|]. cbn [map_res]. unfold _serialize_tool_interaction at 1.
  destruct (truthy (i_metadata t)) eqn:Hm; [destruct (Ht Hm) as [d ->]|]; cbn [res_bind]; rewrite IH; by eexists.
Qed.

Lemma audit_metadata_ok ts strategy n : Forall plain_tool ts -> exists d, build_tool_audit_metadata ts strategy n = Ok d.
Proof.
  intros Hts. unfold build_tool_audit_metadata. destruct (serialized (tool_source strategy) ts Hts) as [l Hl]. rewrite Hl.
  destruct ts; by eexists.
Qed.

Lemma build_ok call r f : plain_usage (usage r) -> exists d, build_execution_record call r f = Ok d.
Proof.
  intros Hu. unfold build_execution_record.
  assert (exists d, por (usage r) (PDict []) = PDict d) as [d ->].
  { unfold por. destruct (truthy (usage r)) eqn:Ht; [destruct (Hu Ht) as [d Hd]; by exists d|by exists []]. }
  by eexists.
Qed.

Lemma draft_ok call r p q m hash :
  plain_usage (usage r) -> Forall plain_tool (interactions p) -> exists d, draft_record g call r p q m hash = Ok d.
Proof.
  intros Hu Ht. unfold draft_record, full_metadata.
  destruct (audit_metadata_ok (interactions p) (tool_strategy p) (tool_iterations p) Ht) as [tm ->]. cbn [res_bind].
  edestruct (build_ok call r) as [d ->]; [done|]. by eexists.
Qed.

Lemma clean_text kind record k v :
  dget k record = PStr v -> od_get k Normalizer.Gate.TOOL_EVENT_SCHEMA = Some (RecordSchema.must RecordSchema.Tstr) ->
  dget k (clean g Normalizer.Gate.TOOL_EVENT_SCHEMA kind record) = PStr v.
Proof. intros Hv Hk. rewrite clean_keeps; [done|apply tool_event_fields|]. rewrite Hk. intros s [= <-]. by rewrite Hv. Qed.

Lemma analysed_keeps t d k : k <> "content_analysis" -> dget k (analysed g t d) = dget k d.
Proof. intros Hk. unfold analysed. repeat case_match; try done; by rewrite dget_set_ne. Qed.

Lemma event_fields t eid session prompt source fresh k :
  k ∈ ["event_id"; "execution_id"; "session_id"; "timestamp"] ->
  dget k (_build_tool_event_record g t eid session prompt source fresh) =
  dget k [("event_id", PStr (fst fresh)); ("execution_id", eid); ("session_id", session); ("timestamp", PStr (snd fresh))].
Proof.
  unfold _build_tool_event_record, set_some, set_true. rewrite !elem_of_cons, elem_of_nil.
  intros Hk. assert (k <> "input_data" /\ k <> "output_data" /\ k <> "sources" /\ k <> "is_error" /\ k <> "duration_ms" /\ k <> "iteration")
    as (K1 & K2 & K3 & K4 & K5 & K6) by naive_solver congruence.
  repeat case_match; rewrite ?dget_set_ne by congruence; naive_solver.
Qed.

(** An event carries its own identifier and that of the record. *)
Lemma event_of_record call eid source m i t :
  let e := tool_event g call (PStr eid) source m i t in
  dget "execution_id" e = PStr eid /\ dget "event_id" e = PStr (event m i).1.
Proof.
  unfold tool_event. split; apply clean_text; try done; rewrite analysed_keeps by done;
    by rewrite event_fields by (by apply (bool_decide_unpack _)).
Qed.

(** C6. An answered exchange is recorded, under one identifier.  With storage configured
    and an audit that is not skipped, whatever the tracker, the chain, the findings and
    the validator do, an exchange answered in one piece whose usage and tool metadata
    are dicts hands exactly one row to storage, which accepts or rejects it, and one
    event per tool call; the identifier promised in the
    response header is that of the row and of every event, and once storage has accepted
    the row it is the one that the attempt of the request is joined to. *)
Theorem answered_exchange_is_recorded call r p q m hash (w : world (T := T)) accepts :
  storage g = Some accepts -> skip_audit q = false -> plain_usage (usage r) -> Forall plain_tool (interactions p) ->
  exists w' row events,
    _build_and_write_record st cfg g call r p q m hash w = Ok w' /\
    rows w' = rows w ++ [(row, accepts row)] /\ tool_rows w' = tool_rows w ++ events /\
    dget "execution_id" row = PStr (execution_of q m) /\
    map (fun e => (dget "execution_id" e, dget "event_id" e)) events =
      imap (fun i _ => (PStr (execution_of q m), PStr (event m i).1)) (interactions p) /\
    shown_execution w' = (if accepts row then PStr (execution_of q m) else shown_execution w).
Proof.
  intros Hst Hq Hu Ht. destruct (draft_ok call r p q m hash Hu Ht) as [record Hd].
  unfold _build_and_write_record. rewrite Hq, Hd. cbn [res_bind]. apply draft_unchained in Hd as (_ & D2 & _).
  pose proof (apply_chain_keeps st cfg (chain w) record (session_of call) (at_reserve m) "execution_id"
                ltac:(by apply (bool_decide_unpack _))) as Ha.
  destruct (apply_chain _ _ _ _ _ _) as [[t rec1] res]. cbn [fst snd] in Ha.
  destruct (add_findings _ _ _ _ _ _) as [rec2 w2] eqn:Hf.
  pose proof (findings_keep g _ _ _ _ _ _ _ "execution_id" Hf ltac:(done)) as Hk. rewrite chain_timed_keeps, Ha, D2 in Hk by done.
  pose proof (findings_world g _ _ _ _ _ _ _ Hf) as (_ & W2 & W3). cbn [rows tool_rows with_chain] in W2, W3.
  assert (shown_execution w2 = shown_execution w) as W4.
  { unfold add_findings in Hf. destruct (check_consistency _ _ _ _), (detect_anomalies _ _), (capture_overflow _ _ _ _ _).
    by injection Hf as _ <-. }
  assert (dget "execution_id" (clean g Normalizer.Gate.EXECUTION_SCHEMA "execution" rec2) = PStr (execution_of q m)) as Hrow.
  { rewrite clean_keeps; [done|apply execution_fields|]. intros s [= <-]. by rewrite Hk. }
  eexists _, _, _. split; [reflexivity|]. unfold _store_execution, write_execution, write_tool_events. rewrite Hst.
  cbn [rows tool_rows shown_execution with_chain with_tools with_sequence with_row]. rewrite W2, W3, W4, Hrow, Hk.
  split; [reflexivity|]. split; [reflexivity|]. split; [done|]. split; [|done].
  apply list_eq. intros i. rewrite list_lookup_fmap, !list_lookup_imap. destruct (interactions p !! i) as [t0|]; [|done].
  cbn. destruct (event_of_record call (execution_of q m) (tool_source (tool_strategy p)) m i t0) as [-> ->]. done.
Qed.
End recorded.

(** ** What storage rejects *)

Section rejected.
Context `{E : Ed25519} `{L : !Ed25519Laws E} {T : Type} `{C : ChainTracker T} `{CL : !ChainTrackerLaws T}.
Context `{FloatRepr} `{Digest} `{Consistency.SetOrder} `{JsonText}.
Context (st : keys) (cfg : settings) (g : gateway).

Lemma streamed_chain fmt2 parsed s hash m now b (w w' : world (T := T)) b' sg accepts t sid t1 v :
  storage g = Some accepts -> session_of (s_call s) = Some sid -> sid <> "" -> session_chain_enabled cfg = true ->
  chain w = Some t -> ct_next t sid (at_reserve m) = Ok (t1, v) ->
  _after_stream_record st cfg g fmt2 true parsed s hash m now b w = (b', w', Some sg) ->
  exists row, rows w' = rows w ++ [(row, accepts row)] /\
    chained_as st (m_record_id m) (m_execution_id m) (m_timestamp m) v row /\
    chain w' = Some (if accepts row
                     then match ct_update t1 sid (SessionChain.sequence_number v) "" (Some (m_record_id m)) (at_advance m) with
                          | Ok t2 => t2
                          | Raise _ => t1
                          end
                     else t1).
Proof.
  intros Hst Hs Hsid He Ht Hn. unfold _after_stream_record. cbn [negb]. destruct parsed as [r|]; [|done].
  destruct (_record_token_usage _ _ _ _ _ _) as [b1 settled]. intros Hw.
  match type of Hw with match ?x with Ok _ => _ | Raise _ => _ end = _ => destruct x as [[w1 sg1]|] eqn:Hx; [|done] end.
  assert (w1 = w') as -> by congruence. clear Hw.
  apply res_bind_ok in Hx as (? & _ & Hx). apply res_bind_ok in Hx as ([[vn rs] ds] & _ & Hx).
  apply res_bind_ok in Hx as (meta & _ & Hx). apply res_bind_ok in Hx as (record & Hb & Hx).
  apply build_unchained in Hb as [Hb _]. cbn [fresh_record_id fresh_execution_id AuditRecord.now stream_filing] in Hb.
  rewrite Ht, Hs in Hx. destruct (apply_chain_as st cfg t record _ _ _ sid (at_reserve m) t1 v Hsid He Hn Hb) as (row & ok & Ha & Hc).
  rewrite Ha in Hx. unfold write_streamed in Hx. rewrite Hst in Hx. apply res_bind_ok in Hx as (sum & _ & Hx).
  exists row. unfold write_tool_events in Hx. rewrite Hst in Hx. injection Hx as Hx _. subst w'.
  split; [by destruct (accepts row)|]. split; [done|]. destruct (accepts row); [|done].
  cbn [chain with_chain with_tools with_row]. unfold advance_chain, advance_session_chain. cbn [applied cr_sequence_number].
  rewrite bool_decide_true by done.
  assert (record_id (WalacorReader.view row) = Some (m_record_id m)) as ->
    by (unfold WalacorReader.view, WalacorReader.sfield; cbn; by rewrite (proj1 Hc)).
  by destruct (ct_update _ _ _ _ _ _).
Qed.

(** C15. A rejected row stays in the chain, or not, by the way the answer came.  When storage
    rejects the row, an exchange answered in one piece has moved the session on: the next
    record points to a row that exists nowhere.  After a stream the next record points to
    the last row that was accepted.  Either way its number leaves a gap. *)
Theorem rejected_rows_stay_in_the_chain sid S t w x fmt2 parsed s hash m now b w1 b' w2 sg :
  storage g = Some (fun _ => false) -> session_chain_enabled cfg = true -> sid <> "" -> sid ∈ S ->
  chain w = Some t -> ct_fits t S -> of_session sid x -> session_of (s_call s) = Some sid ->
  write_one st cfg g w x = Ok w1 ->
  _after_stream_record st cfg g fmt2 true parsed s hash m now b w = (b', w2, Some sg) ->
  exists t1 t2, chain w1 = Some t1 /\ chain w2 = Some t2 /\
    next_place t1 sid = ((next_place t sid).1 + 1, Some (m_record_id (x_moment x))) /\
    next_place t2 sid = ((next_place t sid).1 + 1, (next_place t sid).2) /\
    List.filter snd (rows w1) = List.filter snd (rows w) /\ List.filter snd (rows w2) = List.filter snd (rows w).
Proof.
  intros Hst He Hsid HS Ht Hfit [Hx Hq] Hs Hw1 Hw2.
  destruct (ct_next_law t S sid (at_reserve (x_moment x)) Hfit HS) as (ta & va & Hna & Hfa & Hva & Hpa & Hla & _).
  destruct (ct_next_law t S sid (at_reserve m) Hfit HS) as (tb & vb & Hnb & Hfb & Hvb & Hpb & Hlb & _).
  destruct (written_row st cfg g _ _ _ _ _ _ _ _ _ t sid ta va Hst Hq Hx Hsid He Ht Hna Hw1) as (row1 & R1 & _ & C1).
  destruct (streamed_chain _ _ _ _ _ _ _ _ _ _ _ _ t sid tb vb Hst Hs Hsid He Ht Hnb Hw2) as (row2 & R2 & _ & C2).
  destruct (ct_update_law ta S sid (SessionChain.sequence_number va) "" (Some (m_record_id (x_moment x))) (at_advance (x_moment x)) Hfa HS)
    as (tc & Hu & _ & Hlc & _). rewrite Hu in C1. rewrite Hla, Z.max_id in Hlc.
  exists tc, tb. split; [done|]. split; [done|]. rewrite R1, R2, !List.filter_app. cbn. rewrite !List.app_nil_r.
  unfold next_place. rewrite Hlc, Hlb, Hva, Hpb, Hvb. by destruct (ct_last t sid) as [[]|].
Qed.
End rejected.

(** ** One finding replaces another *)

Section findings.
Context `{FloatRepr} `{Digest} `{Consistency.SetOrder}.

(** The detector has no flag of the consistency check. *)
Definition unflagged (r : Anomaly.AnomalyReport) : Prop := "consistency_flag" ∉ Anomaly.anomalies r.

Lemma unflagged_anomaly b x r : x <> "consistency_flag" -> unflagged r -> unflagged (Anomaly.anomaly_if b x r).
Proof.
  intros Hx Hr. destruct b; [|done]. unfold unflagged. cbn. rewrite elem_of_app, list_elem_of_singleton. intros [?|?]; [done|congruence].
Qed.
Lemma unflagged_warn b x r : unflagged r -> unflagged (Anomaly.warn_if b x r).
Proof. by destruct b. Qed.
Lemma unflagged_if (b : bool) x y : unflagged x -> unflagged y -> unflagged (if b then x else y).
Proof. by destruct b. Qed.

Lemma unflagged_metric k v b x : k = "latency" \/ b = false -> unflagged (snd x) -> unflagged (snd (Anomaly.metric k v b x)).
Proof.
  intros Hk Hx. unfold Anomaly.metric. destruct v as [v|]; [|done]. destruct (Anomaly.update k v _) as [st z]. cbn.
  destruct b; [|by apply unflagged_warn]. apply unflagged_anomaly; [|done]. destruct Hk as [->|]; [|done]. by unfold Anomaly.flag_name.
Qed.

Create HintDb unflagged.
#[local] Hint Resolve unflagged_anomaly unflagged_warn unflagged_if : unflagged.
#[local] Hint Extern 1 (_ <> _) => discriminate : unflagged.

Lemma rules_unflagged rec r : Anomaly._check_rules rec Anomaly.no_flags = Ok r -> unflagged r.
Proof.
  assert (unflagged Anomaly.no_flags) as Hz by apply not_elem_of_nil.
  unfold Anomaly._check_rules. intros Hr. apply res_bind_ok in Hr as (pt & _ & Hr). apply res_bind_ok in Hr as (ct & _ & Hr).
  apply res_bind_ok in Hr as (tt & _ & Hr). apply res_bind_ok in Hr as (ra & Hra & Hr).
  assert (unflagged ra) as Ha.
  { match type of Hra with (if ?b then _ else _) = _ => destruct b end; [unbind Hra; match type of Hra with (let '(_, _) := ?x in _) = _ => destruct x end|];
      injection Hra as <-; auto 8 with unflagged. }
  apply res_bind_ok in Hr as (lat & _ & Hr). apply res_bind_ok in Hr as (fin & _ & Hr).
  match type of Hr with (if ?b then _ else _) = _ => destruct b end; [apply res_bind_ok in Hr as (len & _ & Hr)|];
    injection Hr as <-; repeat first [apply unflagged_warn | apply unflagged_anomaly; [discriminate|]]; auto with unflagged.
Qed.

Lemma detect_unflagged rec d d' r : Anomaly.detect rec d = Ok (d', r) -> "consistency_flag" ∉ Anomaly.to_list r.
Proof.
  unfold Anomaly.detect. intros Hd. apply res_bind_ok in Hd as (r1 & Hr & Hd). apply rules_unflagged in Hr.
  assert (unflagged r) as Hu.
  { unfold Anomaly._check_stats in Hd. apply res_bind_ok in Hd as (? & _ & Hd). destruct (_ <? 10); [by injection Hd as _ <-|].
    unbind Hd. injection Hd as _ <-. do 4 (apply unflagged_metric; [auto|]). done. }
  unfold Anomaly.to_list. rewrite elem_of_app. intros [?|Hin]; [done|].
  apply list_elem_of_In, List.in_map_iff in Hin as (w & Hw & _). discriminate Hw.
Qed.

(** The consistency finding does not survive the detector.  The check appends its flag to
    the anomalies of the metadata and the detector then assigns that list anew; since
    every chained record has a warning, the list of a record that reaches storage from a
    session never holds the flag, whatever the check found. *)
Theorem detector_overwrites_consistency record session now c d n :
  dget "sequence_number" record = PInt n -> truthy (dget "record_hash" record) = false ->
  let checked := (check_consistency record session now c).2 in
  forall d' report, Anomaly.detect checked d = Ok (d', report) ->
    exists flags, dget "anomalies" (metadata_of (detect_anomalies checked (Some d)).2) = PList (map PStr flags) /\
      "chain_hash_missing" ∈ Anomaly.warnings report /\ "consistency_flag" ∉ flags.
Proof.
  intros Hn Hh checked d' report Hd. exists (Anomaly.to_list report).
  assert (dget "sequence_number" checked <> PNone) as Hc by (unfold checked; by rewrite consistency_keeps, Hn).
  assert (truthy (dget "record_hash" checked) = false) as Hc2 by (unfold checked; by rewrite consistency_keeps).
  destruct (Anomaly.chained_flags _ _ _ _ Hc Hc2 Hd) as [Hin Hne]. apply detect_unflagged in Hd as Hout.
  split; [|done]. unfold detect_anomalies. rewrite Hd. cbn [snd]. destruct (Anomaly.to_list report) as [|f fs] eqn:Hl; [done|].
  unfold metadata_of at 1, with_meta. rewrite dget_set_eq. by rewrite dget_set_eq.
Qed.
End findings.

(** ** What a tool event holds *)

Section events.
Context `{FloatRepr} `{JsonText}.
Context (g : gateway).

(** Cleaning gives a field its validated value. *)
Lemma clean_value sc kind record k s v :
  od_wf sc -> od_get k sc = Some s -> (forall e, RecordSchema.validate_record record sc <> Raise e) ->
  RecordSchema.validate_value s (dget k record) = Ok v -> dget k (clean g sc kind record) = v.
Proof.
  intros Hwf Hs Hok Hv. unfold clean.
  pose proof (Normalizer.Gate.folds_agree sc record (Normalizer.Gate.MkReport kind [] 0 0) (Normalizer.Gate.MkReport kind [] 0 0)
    ltac:(done)) as Hf.
  unfold Normalizer.Gate._validate, Normalizer.Gate._standalone_validate.
  destruct (RecordSchema.validate_record record sc) as [d|e] eqn:Hd; [|by destruct (Hok e)].
  destruct Hf as (ra & rb & -> & -> & _). assert (dget k d = v) as Hk; [|by destruct (engine g)].
  apply RecordSchema.validate_record_values in Hd as [Hin _]; [|done]. apply od_get_Some_elem in Hs.
  specialize (Hin _ _ Hs). rewrite Hv in Hin. by injection Hin.
Qed.

(** An event without a duration and an iteration is always validated. *)
Lemma untimed_event_ok record :
  dget "duration_ms" record = PNone -> dget "iteration" record = PNone ->
  forall e, RecordSchema.validate_record record Normalizer.Gate.TOOL_EVENT_SCHEMA <> Raise e.
Proof.
  intros Hd Hi e Hr. apply RecordSchema.validate_record_raises in Hr as (name & s & Hin & Hr); [|apply tool_event_fields].
  apply od_elem_get in Hin; [|apply tool_event_fields].
  unfold RecordSchema.validate_value in Hr. destruct (is_none _) eqn:Hn; [done|]. destruct (RecordSchema.isinstance _ _); [done|].
  destruct (decide (name = "duration_ms")) as [->|N1]; [by rewrite Hd in Hn|].
  destruct (decide (name = "iteration")) as [->|N2]; [by rewrite Hi in Hn|].
  destruct (RecordSchema.coerce _ _) eqn:Hc; [done|]. cbn in Hin.
  repeat (destruct (decide _) in Hin; [injection Hin as <-; first [discriminate Hc|congruence]|]). done.
Qed.

Lemma event_payload t eid session prompt source fresh :
  truthy (i_metadata t) = false -> is_none (input_data t) = false ->
  let e := _build_tool_event_record g t eid session prompt source fresh in
  dget "input_data" e = input_data t /\ dget "duration_ms" e = PNone /\ dget "iteration" e = PNone.
Proof.
  intros Hm Hi. unfold _build_tool_event_record, set_some, set_true. cbv zeta. rewrite Hi.
  destruct (i_metadata t) as [| | | | | |[|]|]; try discriminate Hm; destruct (is_none (output_data t)), (truthy (sources t));
    rewrite ?dget_set_ne by done; by rewrite dget_set_eq.
Qed.

Lemma parse_field_keeps k key d : k <> key -> dget k (WalacorReader.parse_field d key) = dget k d.
Proof. intros Hk. unfold WalacorReader.parse_field. repeat case_match; try done. by rewrite dget_set_ne. Qed.

Lemma read_event_field d s e :
  dget "input_data" d = PStr s -> of_text s = Raise e -> dget "input_data" (WalacorReader.read_tool_event d) = PStr s.
Proof.
  intros Hd He. unfold WalacorReader.read_tool_event. cbn [foldl]. rewrite !parse_field_keeps by done.
  match goal with |- dget _ (WalacorReader.parse_field ?x _) = _ => set (d' := x) end.
  assert (dget "input_data" d' = PStr s) as Hd'.
  { unfold d'. repeat case_match; try done. rewrite dget_set_ne by done. unfold dget. by rewrite od_get_del_ne. }
  unfold WalacorReader.parse_field. by rewrite Hd', He.
Qed.

(** The arguments of a tool call are stored as Python writes them.  The schema of the
    events says text, so the validator turns the dict of arguments into its repr on the
    way to storage; the reader of the ledger expects JSON, and where the repr is none (a
    dict with a text key never is) the trace shows the repr and not the arguments. *)
Theorem tool_arguments_are_stored_as_repr call eid source m i t d e :
  input_data t = PDict d -> truthy (i_metadata t) = false -> of_text (py_str (PDict d)) = Raise e ->
  let stored := tool_event g call eid source m i t in
  dget "input_data" stored = PStr (py_str (PDict d)) /\
  dget "input_data" (WalacorReader.read_tool_event stored) = PStr (py_str (PDict d)).
Proof.
  intros Ht Hm He stored. assert (dget "input_data" stored = PStr (py_str (PDict d))) as Hs; [|split; [done|by eapply read_event_field]].
  unfold stored, tool_event.
  edestruct (event_payload t eid (dget "session_id" (metadata call)) (dget_or "prompt_id" (PStr "") (metadata call)) source (event m i))
    as (P1 & P2 & P3); [done|by rewrite Ht|].
  eapply clean_value; [apply tool_event_fields|reflexivity| |].
  - apply untimed_event_ok; by rewrite analysed_keeps.
  - by rewrite analysed_keeps, P1, Ht by done.
Qed.
End events.

(** ** Transparent proxy *)

Section proxy.
Context `{E : Ed25519} `{L : !Ed25519Laws E} {T : Type} `{ChainTracker T} `{FloatRepr} `{Digest} `{JsonText}.
Context (st : keys) (cfg : settings) (g : gateway).

(** The proxy chains streams and nothing else.  With governance skipped, an exchange of
    the same session is chained and signed when it was streamed, and when it was answered
    in one piece its row has no number, no predecessor and no signature, and the session
    does not move: the mode of the answer decides whether a row can be verified. *)
Theorem proxy_chains_only_streams call r provider q m hash (w w1 : world (T := T)) accepts t sid t1 v :
  storage g = Some accepts -> skip_audit q = false -> session_of call = Some sid -> sid <> "" ->
  session_chain_enabled cfg = true -> chain w = Some t -> ct_next t sid (at_reserve m) = Ok (t1, v) ->
  _handle_skip_governance_non_streaming g call r provider q m hash w = Ok w1 ->
  let w2 := _skip_governance_after_stream st cfg g (Ok r) call provider q m hash w in
  exists plain streamed,
    rows w1 = rows w ++ [(plain, accepts plain)] /\ unchained (m_record_id m) (m_execution_id m) (m_timestamp m) plain /\
    verify_record_signature st (WalacorReader.view plain) = sig_absent /\ chain w1 = chain w /\
    rows w2 = rows w ++ [(streamed, accepts streamed)] /\
    chained_as st (m_record_id m) (m_execution_id m) (m_timestamp m) v streamed /\
    shown_execution w2 = PStr (m_execution_id m).
Proof.
  intros Hst Hq Hs Hsid He Ht Hn Hw w2. unfold _handle_skip_governance_non_streaming in Hw. rewrite Hst, Hq in Hw.
  apply res_bind_ok in Hw as (plain & Hb & Hw). injection Hw as <-.
  assert (w2 = _skip_governance_after_stream st cfg g (Ok r) call provider q m hash w) as Hw2 by done. clearbody w2.
  unfold _skip_governance_after_stream in Hw2. rewrite Hst, Hq in Hw2. cbn [res_bind] in Hw2. rewrite Hb in Hw2. cbn [res_bind] in Hw2.
  apply build_unchained in Hb as [Hb _]. cbn [fresh_record_id fresh_execution_id AuditRecord.now proxy_filing] in Hb.
  rewrite Ht, Hs in Hw2. destruct (apply_chain_as st cfg t plain _ _ _ sid (at_reserve m) t1 v Hsid He Hn Hb) as (row & ok & Ha & Hc).
  rewrite Ha in Hw2. exists plain, row. unfold write_execution. rewrite Hst. cbn [rows chain with_row].
  split; [done|]. split; [done|].
  split; [unfold verify_record_signature, WalacorReader.view, WalacorReader.sfield; cbn; by rewrite (proj1 (proj2 (proj2 (proj2 Hb))))|].
  split; [done|]. subst w2. cbn [shown_execution rows]. cbn [applied]. destruct (accepts row); cbn [andb rows with_chain with_row];
    (split; [done|]; split; [done|]; apply Hc).
Qed.
End proxy.

(** ** Runs *)

Module Writes.
Import ToyEd25519.
#[local] Instance digest : Digest := fun s => s.
#[local] Instance repr : FloatRepr := fun _ => "0.0".
#[local] Instance order : Consistency.SetOrder := fun l => l.

(** The parser knows no text that starts with a quote in braces. *)
#[local] Instance codec : JsonText :=
  {| to_text := py_str; of_text := fun s => if startswith "{'" s then Raise (ValueError "Expecting property name") else Ok PNone |}.

Definition key : keys (E := toy) := MkKeys (E := toy) (Some "K") (Some "K").
Definition on : settings := MkSettings true true.
Definition team : gset string := {["s-1"]}.

Definition gate (accepts : dict -> bool) : gateway :=
  MkGateway true false [] None true (Some accepts) (fun _ => None) "enforced" "acme" "gw".
Definition all_accepted : dict -> bool := fun _ => true.
Definition none_accepted : dict -> bool := fun _ => false.

Definition call : ModelCall :=
  MkCall "openai" (PStr "m") (PStr "Is it warm there?") "{}" (PBool false) [("session_id", PStr "s-1")].
Definition search : ToolInteraction :=
  MkInteraction (PStr "t-1") (PStr "web_search") (PStr "web_search") (PDict [("q", PStr "oslo")]) (PStr "cold") PNone (PDict []).
Definition answer : ModelResponse :=
  MkResponse (PStr "No.") (PDict [("prompt_tokens", PInt 9); ("completion_tokens", PInt 2); ("total_tokens", PInt 11)]) "{}" PNone
    [] false PNone.
Definition ps : params :=
  MkParams (PStr "att") (PInt 1) (PStr "pass") None [] [search] "active" 1 0 "skipped" [] "openai" PNone PNone PNone.
Definition state : request_state := MkState false (Some "e-promised") None PNone.
Definition at_ (n : nat) : moment :=
  let i := z_str (Z.of_nat n) in
  MkMoment ("e-" +:+ i) ("r-" +:+ i) "2026-01-01" 1 2 3 4 PNone PNone (fun k => ("v-" +:+ z_str (Z.of_nat k), "2026-01-01")).
Definition turn (n : nat) : exchange := MkExchange call answer ps state (at_ n) PNone.

Definition empty : Memory.tracker := Memory.init 10 3600.
Definition start : world := MkWorld (Some empty) None (Some Anomaly.new_detector) None [] [] PNone PNone.

Lemma team_fits : ct_fits empty team.
Proof. constructor; simpl; [constructor|by intros ? ?%not_elem_of_nil|vm_compute; done|done]. Qed.
Lemma key_matches : matching_keys key.
Proof. by intros k [= <-]. Qed.
Lemma one_session n : of_session "s-1" (turn n).
Proof. done. Qed.

Definition after (accepts : dict -> bool) (xs : list exchange) : world :=
  match write_each key on (gate accepts) xs start with Ok w => w | Raise _ => start end.

Lemma exchanges_form_a_chain_witness :
  exists new, rows (after all_accepted [turn 1; turn 2]) = map (fun r => (r, true)) new /\
    map (dget "record_id") new = [PStr "r-1"; PStr "r-2"] /\
    valid (verify_records key "s-1" (map (fun r => normalize_record (WalacorReader.view r)) new)) = true.
Proof.
  exact (exchanges_form_a_chain key on (gate all_accepted) all_accepted "s-1" team [turn 1; turn 2] empty start
    (after all_accepted [turn 1; turn 2]) key_matches eq_refl eq_refl ltac:(discriminate) ltac:(set_solver)
    ltac:(repeat constructor) eq_refl team_fits eq_refl ltac:(vm_compute; reflexivity)).
Defined.

Lemma answered_exchange_is_recorded_witness :
  exists w' row events,
    _build_and_write_record key on (gate all_accepted) call answer ps state (at_ 1) PNone start = Ok w' /\
    rows w' = [(row, true)] /\ dget "execution_id" row = PStr "e-promised" /\
    map (fun e => (dget "execution_id" e, dget "event_id" e)) events = [(PStr "e-promised", PStr "v-0")] /\
    shown_execution w' = PStr "e-promised".
Proof.
  destruct (answered_exchange_is_recorded key on (gate all_accepted) call answer ps state (at_ 1) PNone start all_accepted eq_refl eq_refl
    ltac:(by eexists) ltac:(repeat constructor; by eexists)) as (w' & row & events & A & B & _ & D & F & G).
  exists w', row, events. split; [exact A|]. split; [exact B|]. split; [exact D|]. split; [exact F|exact G].
Defined.

Definition stream : streamed := MkStreamed call "openai" (PStr "att") (PInt 1) (PStr "pass") [] 0 PNone true.
Definition streamed_out (accepts : dict -> bool) :=
  _after_stream_record key on (gate accepts) (fun _ => "1.00") true (Ok answer) stream PNone (at_ 2) (Budget.Memory.noon 1) None start.
Definition said : stream_governance := MkSG (PStr "e-2") (PInt 0) "clean".

Lemma rejected_rows_stay_in_the_chain_witness :
  exists t1 t2, chain (after none_accepted [turn 1]) = Some t1 /\ chain (streamed_out none_accepted).1.2 = Some t2 /\
    next_place t1 "s-1" = (1, Some "r-1") /\ next_place t2 "s-1" = (1, None).
Proof.
  destruct (rejected_rows_stay_in_the_chain key on (gate none_accepted) "s-1" team empty start (turn 1) (fun _ => "1.00") (Ok answer) stream PNone
    (at_ 2) (Budget.Memory.noon 1) None (after none_accepted [turn 1]) (streamed_out none_accepted).1.1 (streamed_out none_accepted).1.2
    (default said (streamed_out none_accepted).2) eq_refl eq_refl ltac:(discriminate) ltac:(set_solver) eq_refl team_fits (one_session 1)
    eq_refl ltac:(vm_compute; reflexivity) ltac:(vm_compute; reflexivity)) as (t1 & t2 & A & B & D & F & _).
  exists t1, t2. split; [exact A|]. split; [exact B|]. split; [exact D|exact F].
Defined.

(** The same question in another session, answered otherwise *)
Definition judged : Consistency.tracker :=
  Consistency.observe Consistency.new_tracker
    (Consistency.MkAsking "Which capital does France have?" "Paris." (PStr "m") "e-0" "s-0" PNone 0).
Definition chained_record : dict :=
  [("execution_id", PStr "e-1"); ("model_id", PStr "m"); ("prompt_text", PStr "Which capital does France have?");
   ("response_content", PStr "Oslo is warm"); ("sequence_number", PInt 0); ("metadata", PDict [])].

Lemma detector_overwrites_consistency_witness :
  let checked := (check_consistency chained_record (Some "s-1") 5 (Some judged)).2 in
  dget "anomalies" (metadata_of checked) = PList [PStr "consistency_flag"] /\
  exists flags, dget "anomalies" (metadata_of (detect_anomalies checked (Some Anomaly.new_detector)).2) = PList (map PStr flags) /\
    "consistency_flag" ∉ flags.
Proof.
  split; [vm_compute; reflexivity|].
  destruct (Anomaly.detect (check_consistency chained_record (Some "s-1") 5 (Some judged)).2 Anomaly.new_detector) as [[d' report]|e] eqn:Hd;
    [|vm_compute in Hd; discriminate Hd].
  destruct (detector_overwrites_consistency chained_record (Some "s-1") 5 (Some judged) Anomaly.new_detector 0 eq_refl eq_refl d' report Hd)
    as (flags & A & _ & B).
  exists flags. split; [exact A|exact B].
Defined.

Lemma tool_arguments_are_stored_as_repr_witness :
  let stored := tool_event (gate all_accepted) call (PStr "e-1") "gateway" (at_ 1) 0 search in
  dget "input_data" stored = PStr "{'q': 'oslo'}" /\
  dget "input_data" (WalacorReader.read_tool_event stored) = PStr "{'q': 'oslo'}".
Proof.
  exact (tool_arguments_are_stored_as_repr (gate all_accepted) call (PStr "e-1") "gateway" (at_ 1) 0 search _ _ eq_refl eq_refl eq_refl).
Defined.

Definition proxied : world :=
  match _handle_skip_governance_non_streaming (gate all_accepted) call answer "openai" state (at_ 3) PNone start with
  | Ok w => w | Raise _ => start end.

Lemma proxy_chains_only_streams_witness :
  exists plain streamed, rows proxied = [(plain, true)] /\
    verify_record_signature key (WalacorReader.view plain) = sig_absent /\
    rows (_skip_governance_after_stream key on (gate all_accepted) (Ok answer) call "openai" state (at_ 3) PNone start) = [(streamed, true)] /\
    dget "sequence_number" streamed = PInt 0.
Proof.
  destruct (proxy_chains_only_streams key on (gate all_accepted) call answer "openai" state (at_ 3) PNone start proxied all_accepted empty "s-1"
    (Memory.next_chain_values empty "s-1" 1).1 (Memory.next_chain_values empty "s-1" 1).2 eq_refl eq_refl eq_refl ltac:(discriminate)
    eq_refl eq_refl eq_refl eq_refl) as (plain & streamed & A & _ & B & _ & D & F & _).
  exists plain, streamed. split; [exact A|]. split; [exact B|]. split; [exact D|exact (proj1 (proj2 (proj2 (proj2 F))))].
Defined.
End Writes.
