(* ===== verification/Census.v ===== *)
(** * The census of chains (compliance/chain_worker.py, compliance/chain_store.py)

    A worker in every process of the gateway verifies the chains of the sessions of the
    last days and keeps the verdicts in a file that all processes share; a lock file lets
    one of them work at a time.  The compliance report reads the verdicts from the file
    (compliance/api.py).  The enumeration of the sessions is that of the local reader
    (lineage/reader.py); each verdict is [Lineage.verify_chain].

    The store is its two tables.  Its statements commit one by one, as the connection is in
    autocommit mode, so an insertion of many rows can fail half-way.  The steps of the
    workers between two awaits are the events of a system; a process can die at any of
    them, which frees its lock. *)
From stdpp Require Import functions.
From S2P Require Import Prelude ODict PyVal PyStr PyObj Signing Lineage.
From S2P Require Verdicts.

Local Open Scope Z_scope.

(** ** The store *)

(** What [verify_chain] says of a session *)
Record verification := MkVerification {
  v_session_id : string;
  v_valid : bool;
  v_level : string;
  v_errors : list string;
  v_records_checked : Z;
}.

(** A row of [chain_verifications]; the session is its key *)
Record row := MkRow {
  r_valid : Z;
  r_level : string;
  errors_json : string;
  r_records_checked : Z;
  verified_at : string;
}.

Record store := MkStore { rows : list (string * row); meta : list (string * string) }.

Definition new_store : store := MkStore [] [].

Section store.
Context `{JsonText}.

Definition row_of (now : string) (v : verification) : row :=
  MkRow (if v_valid v then 1 else 0) (if bool_decide (v_level v = "") then "unknown" else v_level v)
    (to_text (PList (map PStr (v_errors v)))) (v_records_checked v) now.

Definition named (v : verification) : bool := negb (bool_decide (v_session_id v = "")).

Definition upsert_row (now : string) (t : list (string * row)) (v : verification) : list (string * row) :=
  od_set (v_session_id v) (row_of now v) t.

(** [upsert_many], of which the first [n] statements are executed; all of them when
    nothing fails *)
Definition upsert_some (n : nat) (results : list verification) (now : string) (s : store) : store :=
  MkStore (foldl (upsert_row now) (rows s) (firstn n (List.filter named results))) (meta s).
Definition upsert_many (results : list verification) (now : string) (s : store) : store * Z :=
  (upsert_some (length (List.filter named results)) results now s, zlen (List.filter named results)).

Definition prune_keep (session_ids : list string) (s : store) : store * Z :=
  let ids := List.filter (fun sid => negb (bool_decide (sid = ""))) session_ids in
  match ids with
  | [] => (MkStore [] (meta s), zlen (rows s))
  | _ =>
      let kept := List.filter (fun x => bool_decide (fst x ∈ ids)) (rows s) in
      (MkStore kept (meta s), zlen (rows s) - zlen kept)
  end.

Definition set_meta (key value : string) (s : store) : store := MkStore (rows s) (od_set key value (meta s)).
Definition get_meta (key : string) (s : store) : option string := od_get key (meta s).
Definition count (s : store) : Z := zlen (rows s).

(** [json.loads(errors_json)], which holds what [json.dumps] wrote *)
Definition errors_of (text : string) : pyval :=
  if bool_decide (text = "") then PList []
  else match of_text text with Ok v => v | Raise _ => PList [] end.

Record session_entry := MkEntry {
  e_session_id : string;
  e_valid : bool;
  e_level : string;
  e_errors : pyval;
  e_records_checked : Z;
  e_verified_at : string;
}.

Definition entry_of (x : string * row) : session_entry :=
  MkEntry (fst x) (negb (r_valid (snd x) =? 0)) (r_level (snd x)) (errors_of (errors_json (snd x)))
    (r_records_checked (snd x)) (verified_at (snd x)).

Definition newest_first (a b : string * row) : bool := str_leb (verified_at (snd b)) (verified_at (snd a)).
Definition get_all (s : store) : list session_entry := map entry_of (isort newest_first (rows s)).

(** ** The compliance report *)

Record integrity := MkIntegrity {
  sessions_verified : Z;
  all_valid : bool;
  sessions : list session_entry;
  pending : bool;
  total_sessions_in_window : Z;
  last_verification_at : option string;
}.

(** The store of the context, and whether it could be read *)
Definition _read_chain_integrity_from_store (total_executions : Z) (executions : nat) (total_sessions : option Z)
    (s : option (res store)) : integrity :=
  let fallback := match total_sessions with
                  | Some n => n
                  | None => if total_executions =? 0 then Z.of_nat executions else total_executions
                  end in
  match s with
  | None | Some (Raise _) => MkIntegrity 0 true [] true fallback None
  | Some (Ok s) =>
      match get_all s with
      | [] => MkIntegrity 0 true [] true fallback (get_meta "last_tick_at" s)
      | l => MkIntegrity (zlen l) (forallb e_valid l) l false fallback (get_meta "last_tick_at" s)
      end
  end.

(** ** The sessions of a window *)

Section reader.
Context `{Ed25519}.

(** A session with an execution in the window, and the time of it *)
Definition seen_in (start stop : string) (r : wal_row) : option (string * string) :=
  match row_session r, timestamp (row_record r) with
  | Some sid, Some ts =>
      if bool_decide (row_event r = ev_execution) && str_leb start ts && str_ltb ts stop then Some (sid, ts) else None
  | _, _ => None
  end.

(** [MAX(timestamp)] per session *)
Definition group_step (d : list (string * string)) (x : string * string) : list (string * string) :=
  match od_get (fst x) d with
  | Some ts => if str_ltb ts (snd x) then od_set (fst x) (snd x) d else d
  | None => od_set (fst x) (snd x) d
  end.

Definition latest_first (a b : string * string) : bool := str_leb (snd b) (snd a).

(** The query on one file *)
Definition recent_sessions (start stop : string) (limit : nat) (file : list wal_row) : list (string * string) :=
  firstn limit (isort latest_first (foldl group_step [] (omap (seen_in start stop) file))).

Definition of_result (v : verify_result) : verification :=
  MkVerification (result_session_id v) (valid v)
    (match verification_level v with structural => "structural" | unverifiable => "unverifiable" end)
    (Lineage.errors v) (records_checked v).

(** [get_chain_verification_report] of the local reader.  A file that cannot be read
    gives no rows, to this query and to those of [verify_chain]. *)
Definition sessions_in (files : list (option (list wal_row))) (start stop : string) (limit : nat) : list string :=
  map fst (firstn limit (isort latest_first (concat (map (recent_sessions start stop limit) (omap id files))))).
Definition get_chain_verification_report (st : keys) (files : list (option (list wal_row))) (start stop : string) (limit : nat)
    : list verification :=
  map (fun sid => of_result (verify_chain st (omap id files) sid)) (sessions_in files start stop limit).
End reader.

(** ** The worker *)

Definition _CENSUS_SAMPLE_LIMIT : nat := Z.to_nat 1000000.

Definition day : Z := seconds 86400.

(** Whole seconds, at least one day back *)
Definition _window_bounds (days_back now : Z) : string * string :=
  let stop := now / seconds 1 * seconds 1 in
  (Verdicts.isoformat (stop - Z.max 1 days_back * day), Verdicts.isoformat stop).

(** Where a tick is: after the lock, with the results, inserted, pruned, stamped *)
Inductive phase :=
  | Idle
  | Enumerating (window : string * string)
  | Enumerated (results : list verification)
  | Inserted (results : list verification) (now : string) (written : Z)
  | Pruned (results : list verification) (now : string) (written : Z)
  | Stamped (results : list verification) (now : string) (written : Z).

Record worker := MkWorker {
  window_days : Z;
  tick_ok : bool;
  tick_at : option Z;
  tick_error : option exn;                       (** its text *)
  sessions_seen : Z;
  was_leader : bool;
  at_ : phase;
}.

Definition new_worker (days : Z) : worker := MkWorker (Z.max 1 days) false None None 0 false Idle.

(** The processes share the store and the lock. *)
Record system := MkSystem {
  disk : store;
  lock : option nat;
  procs : nat -> worker;
}.

Definition started (days : nat -> Z) : system := MkSystem new_store None (fun i => new_worker (days i)).

Inductive event :=
  | Begin (i : nat) (now : Z) (openable : bool)          (** the lock is tried *)
  | Census (i : nat) (answer : res (list verification))  (** the reader has answered *)
  | Insert (i : nat) (now : string) (failed_at : option nat)
  | Prune (i : nat) (ok : bool)
  | Stamp (i : nat) (now : string) (ok : bool)           (** [last_tick_at] *)
  | Finish (i : nat) (ok : bool)                         (** [window_days], and the end of the tick *)
  | Die (i : nat).                                       (** the process ends and another takes its place *)

Definition set_worker (i : nat) (w : worker) (s : system) : system := MkSystem (disk s) (lock s) (<[i := w]> (procs s)).
Definition set_phase (p : phase) (w : worker) : worker :=
  MkWorker (window_days w) (tick_ok w) (tick_at w) (tick_error w) (sessions_seen w) (was_leader w) p.
Definition with_disk (d : store) (s : system) : system := MkSystem d (lock s) (procs s).

Definition locked : exn := OtherError "database is locked".

(** [last_tick_ok = False; last_error = str(exc)]; the lock file is closed. *)
Definition give_up_tick (i : nat) (e : exn) (s : system) : system :=
  let w := procs s i in
  MkSystem (disk s) None
    (<[i := MkWorker (window_days w) false (tick_at w) (Some e) (sessions_seen w) (was_leader w) Idle]> (procs s)).

(** [self._acquire_leadership()] at the start of [_tick_once] *)
Definition begin_tick (i : nat) (now : Z) (openable : bool) (s : system) : system :=
  let w := procs s i in
  match openable, lock s with
  | true, None =>
      MkSystem (disk s) (Some i)
        (<[i := MkWorker (window_days w) (tick_ok w) (Some now) (tick_error w) (sessions_seen w) true
                  (Enumerating (_window_bounds (window_days w) now))]> (procs s))
  | _, _ => set_worker i (MkWorker (window_days w) true (Some now) (tick_error w) (sessions_seen w) false Idle) s
  end.

(** One event; [None] when it cannot happen there. *)
Definition exec (s : system) (e : event) : option system :=
  match e with
  | Begin i now openable =>
      match at_ (procs s i) with Idle => Some (begin_tick i now openable s) | _ => None end
  | Census i answer =>
      match at_ (procs s i) with
      | Enumerating _ =>
          match answer with
          | Ok rs => Some (set_worker i (set_phase (Enumerated rs) (procs s i)) s)
          | Raise e => Some (give_up_tick i e s)
          end
      | _ => None
      end
  | Insert i now failed_at =>
      match at_ (procs s i) with
      | Enumerated rs =>
          match failed_at with
          | None =>
              let '(d, n) := upsert_many rs now (disk s) in
              Some (with_disk d (set_worker i (set_phase (Inserted rs now n) (procs s i)) s))
          | Some k => Some (give_up_tick i locked (with_disk (upsert_some k rs now (disk s)) s))
          end
      | _ => None
      end
  | Prune i ok =>
      match at_ (procs s i) with
      | Inserted rs now n =>
          if ok then Some (with_disk (prune_keep (map v_session_id (List.filter named rs)) (disk s)).1
                             (set_worker i (set_phase (Pruned rs now n) (procs s i)) s))
          else Some (give_up_tick i locked s)
      | _ => None
      end
  | Stamp i stamp ok =>
      match at_ (procs s i) with
      | Pruned rs now n =>
          if ok then Some (with_disk (set_meta "last_tick_at" stamp (disk s))
                             (set_worker i (set_phase (Stamped rs now n) (procs s i)) s))
          else Some (give_up_tick i locked s)
      | _ => None
      end
  | Finish i ok =>
      match at_ (procs s i) with
      | Stamped rs _ _ =>
          let w := procs s i in
          if ok then
            Some (MkSystem (set_meta "window_days" (z_str (window_days w)) (disk s)) None
                    (<[i := MkWorker (window_days w) true (tick_at w) None (zlen rs) (was_leader w) Idle]> (procs s)))
          else Some (give_up_tick i locked s)
      | _ => None
      end
  | Die i =>
      Some (MkSystem (disk s) (if bool_decide (lock s = Some i) then None else lock s)
              (<[i := new_worker (window_days (procs s i))]> (procs s)))
  end.

Fixpoint run (s : system) (tr : list event) : option system :=
  match tr with
  | [] => Some s
  | e :: tr => match exec s e with Some s => run s tr | None => None end
  end.
End store.

(** ** One leader *)

Definition leading (p : phase) : bool := match p with Idle => false | _ => true end.

(** A process is in a tick exactly when it holds the lock. *)
Definition led (s : system) : Prop := forall i, leading (at_ (procs s i)) = true <-> lock s = Some i.

Section runs.
Context `{JsonText}.

Lemma run_extends s tr e s' : run s (tr ++ [e]) = Some s' <-> exists s1, run s tr = Some s1 /\ exec s1 e = Some s'.
Proof.
  revert s. induction tr as [|x tr IH]; intros s; cbn [app run].
  - destruct (exec s e) eqn:He; split; [intros [= <-]; by exists s|intros (s1 & [= <-] & <-); by rewrite He|done|intros (s1 & [= <-] & ?); congruence].
  - destruct (exec s x); [apply IH|]. split; [done|]. by intros (? & ? & _).
Qed.

(** A step of the holder that keeps the lock, and one that ends its tick *)
Lemma led_keeps i w (s : system) d :
  led s -> lock s = Some i -> leading (at_ w) = true -> led (MkSystem d (lock s) (<[i := w]> (procs s))).
Proof.
  intros Hl Hi Hw j. cbn [procs lock]. destruct (decide (j = i)) as [->|Hj].
  - by rewrite fn_lookup_insert, Hi.
  - rewrite fn_lookup_insert_ne by done. apply Hl.
Qed.

Lemma led_ends i w (s : system) d :
  led s -> lock s = Some i -> leading (at_ w) = false -> led (MkSystem d None (<[i := w]> (procs s))).
Proof.
  intros Hl Hi Hw j. cbn [procs lock]. destruct (decide (j = i)) as [->|Hj].
  - by rewrite fn_lookup_insert, Hw.
  - rewrite fn_lookup_insert_ne by done. split; [|done]. intros Hb. apply Hl in Hb. congruence.
Qed.

Lemma led_holder s i : led s -> leading (at_ (procs s i)) = true -> lock s = Some i.
Proof. intros Hl. apply Hl. Qed.

Lemma exec_led s e s' : led s -> exec s e = Some s' -> led s'.
Proof.
  intros Hl He. destruct e as [i now ok|i answer|i now k|i ok|i stamp ok|i ok|i]; cbn [exec] in He;
    try (match type of He with context [match at_ ?w with _ => _ end] => destruct (at_ w) eqn:Hp end; try discriminate He);
    try (pose proof (led_holder s i Hl) as Hlock; rewrite Hp in Hlock; specialize (Hlock eq_refl)).
  - injection He as <-. unfold begin_tick. intros j. assert (lock s <> Some i) as Hn by (intros Hi; apply Hl in Hi; by rewrite Hp in Hi).
    pose proof (Hl j) as Hj. destruct (decide (j = i)) as [->|Hne].
    + destruct ok, (lock s) eqn:Hlk; cbn [procs lock set_worker]; rewrite fn_lookup_insert; cbn [at_ leading]; split; congruence.
    + destruct ok, (lock s) eqn:Hlk; cbn [procs lock set_worker]; rewrite fn_lookup_insert_ne by done; rewrite Hj; split; congruence.
  - destruct answer; injection He as <-; [by apply led_keeps|by apply led_ends].
  - destruct k; [|destruct (upsert_many _ _ _)]; injection He as <-; [by apply (led_ends i _ s)|by apply (led_keeps i _ s)].
  - destruct ok; injection He as <-; [by apply (led_keeps i _ s)|by apply (led_ends i _ s)].
  - destruct ok; injection He as <-; [by apply (led_keeps i _ s)|by apply (led_ends i _ s)].
  - destruct ok; injection He as <-; by apply led_ends.
  - injection He as <-. case_bool_decide as Hi; [by apply led_ends|]. intros j. cbn [procs lock]. destruct (decide (j = i)) as [->|Hj].
    + rewrite fn_lookup_insert. cbn. naive_solver.
    + rewrite fn_lookup_insert_ne by done. apply Hl.
Qed.

Lemma run_led days tr s : run (started days) tr = Some s -> led s.
Proof.
  revert s. induction tr as [|e tr IH] using rev_ind; intros s Hr.
  - injection Hr as <-. by intros i.
  - apply run_extends in Hr as (s1 & H1 & He). eapply exec_led; [by apply IH|exact He].
Qed.

(** ** What the table holds *)

Definition about (sid : string) (v : verification) : bool := bool_decide (v_session_id v = sid) && named v.
Definition last_verdict (sid : string) (rs : list verification) : option verification := last (List.filter (about sid) rs).

(** Every verdict is in the table; and nothing else *)
Definition covers (rs : list verification) (now : string) (t : list (string * row)) : Prop :=
  forall sid v, last_verdict sid rs = Some v -> od_get sid t = Some (row_of now v).
Definition published (rs : list verification) (now : string) (t : list (string * row)) : Prop :=
  forall sid, od_get sid t = row_of now <$> last_verdict sid rs.

Lemma upserted now l : forall t sid,
  Forall (fun v => named v = true) l ->
  od_get sid (foldl (upsert_row now) t l) = match last (List.filter (about sid) l) with Some v => Some (row_of now v) | None => od_get sid t end.
Proof.
  induction l as [|v l IH] using rev_ind; intros t sid Hn; [done|]. apply Forall_app in Hn as [Hn Hv]. apply Forall_cons_1 in Hv as [Hv _].
  rewrite foldl_snoc, List.filter_app. cbn [List.filter]. unfold upsert_row at 1.
  assert (about sid v = bool_decide (v_session_id v = sid)) as -> by (unfold about; rewrite Hv; by destruct (bool_decide _)).
  case_bool_decide as Hs.
  - subst sid. by rewrite od_get_set_eq, last_snoc.
  - rewrite od_get_set_ne by done. rewrite List.app_nil_r. by apply IH.
Qed.

Lemma filter_about sid rs : List.filter (about sid) (List.filter named rs) = List.filter (about sid) rs.
Proof.
  induction rs as [|v rs IH]; [done|]. cbn [List.filter]. destruct (named v) eqn:Hn; cbn [List.filter]; [by rewrite IH|].
  assert (about sid v = false) as -> by (unfold about; rewrite Hn; by destruct (bool_decide _)). done.
Qed.

Lemma upsert_covers rs now s : covers rs now (rows (upsert_many rs now s).1).
Proof.
  intros sid v Hv. unfold upsert_many, upsert_some. cbn [fst rows]. rewrite firstn_all, upserted.
  - rewrite filter_about. unfold last_verdict in Hv. by rewrite Hv.
  - apply Forall_forall. intros x Hx. apply list_elem_of_In, List.filter_In in Hx as [_ Hx]. done.
Qed.

Lemma about_ids sid rs :
  sid ∈ map v_session_id (List.filter named rs) <-> exists v, last_verdict sid rs = Some v.
Proof.
  unfold last_verdict. rewrite <- filter_about. split.
  - intros Hin. apply list_elem_of_In, List.in_map_iff in Hin as (v & Hs & Hv).
    destruct (last (List.filter (about sid) (List.filter named rs))) eqn:Hl; [by eexists|]. apply last_None in Hl.
    assert (v ∈ List.filter (about sid) (List.filter named rs)) as Hx; [|rewrite Hl in Hx; by apply not_elem_of_nil in Hx].
    apply list_elem_of_In, List.filter_In. split; [done|]. apply List.filter_In in Hv as [_ Hv]. unfold about. by rewrite bool_decide_true, Hv.
  - intros [v Hl]. apply last_Some_elem_of, list_elem_of_In, List.filter_In in Hl as [Hin Ha]. apply list_elem_of_In, List.in_map_iff.
    exists v. split; [|done]. unfold about in Ha. apply andb_true_iff in Ha as [Ha _]. by apply bool_decide_eq_true in Ha.
Qed.

Lemma filter_nonempty rs :
  List.filter (fun sid => negb (bool_decide (sid = ""))) (map v_session_id (List.filter named rs)) = map v_session_id (List.filter named rs).
Proof.
  induction rs as [|v rs IH]; [done|]. cbn [List.filter]. destruct (named v) eqn:Hn; [|done]. cbn [map List.filter].
  unfold named in Hn. by rewrite Hn, IH.
Qed.

Lemma prune_get ids sid s :
  Forall (fun i => i <> "") ids ->
  od_get sid (rows (prune_keep ids s).1) = if bool_decide (sid ∈ ids) then od_get sid (rows s) else None.
Proof.
  intros Hids. unfold prune_keep.
  assert (List.filter (fun i => negb (bool_decide (i = ""))) ids = ids) as ->.
  { induction Hids as [|i ids Hi Hids IH]; [done|]. cbn [List.filter]. by rewrite bool_decide_false, IH. }
  destruct ids as [|i ids]; [done|]. set (l := i :: ids). cbn [fst rows].
  case_bool_decide as Hin; [|by apply od_get_filter_out; intros v; cbn; rewrite bool_decide_false].
  destruct (od_get sid (rows s)) as [v|] eqn:Hg; [by apply od_get_filter; [|cbn; rewrite bool_decide_true]|].
  apply od_get_None. apply od_get_None in Hg. intros Hk. apply Hg. revert Hk. unfold od_keys. intros (x & -> & Hx)%list_elem_of_fmap.
  apply list_elem_of_In, List.filter_In in Hx as [Hx _]. apply list_elem_of_fmap. exists x. split; [done|]. by apply list_elem_of_In.
Qed.

Lemma prune_published rs now s :
  covers rs now (rows s) -> published rs now (rows (prune_keep (map v_session_id (List.filter named rs)) s).1).
Proof.
  intros Hc sid. rewrite prune_get.
  - case_bool_decide as Hin.
    + apply about_ids in Hin as [v Hv]. rewrite Hv. by apply Hc.
    + destruct (last_verdict sid rs) eqn:Hl; [|done]. exfalso. apply Hin, about_ids. by eexists.
  - apply Forall_forall. intros i Hi ->. apply list_elem_of_In, List.in_map_iff in Hi as (v & Hs & Hv).
    apply List.filter_In in Hv as [_ Hv]. unfold named in Hv. by rewrite Hs in Hv.
Qed.

(** The results that the last answer to process [i] brought *)
Definition answer_to (i : nat) (e : event) : option (list verification) :=
  match e with Census j (Ok rs) => if bool_decide (j = i) then Some rs else None | _ => None end.
Definition got (i : nat) (tr : list event) : option (list verification) := last (omap (answer_to i) tr).

(** How far the holder of the lock has come *)
Definition progress (tr : list event) (s : system) : Prop :=
  forall i, match at_ (procs s i) with
            | Idle | Enumerating _ => True
            | Enumerated rs => got i tr = Some rs
            | Inserted rs now _ => got i tr = Some rs /\ covers rs now (rows (disk s))
            | Pruned rs now _ | Stamped rs now _ => got i tr = Some rs /\ published rs now (rows (disk s))
            end.

Lemma got_other i tr e : answer_to i e = None -> got i (tr ++ [e]) = got i tr.
Proof. intros He. unfold got. rewrite omap_app. cbn. by rewrite He, List.app_nil_r. Qed.
Lemma got_answer i tr rs : got i (tr ++ [Census i (Ok rs)]) = Some rs.
Proof. unfold got. rewrite omap_app. cbn. rewrite bool_decide_true by done. by rewrite last_snoc. Qed.

(** A step of the holder: the others are idle. *)
Lemma progress_step i tr e s d l w :
  led s -> lock s = Some i -> (forall j, j <> i -> answer_to j e = None) ->
  match at_ w with
  | Idle | Enumerating _ => True
  | Enumerated rs => got i (tr ++ [e]) = Some rs
  | Inserted rs now _ => got i (tr ++ [e]) = Some rs /\ covers rs now (rows d)
  | Pruned rs now _ | Stamped rs now _ => got i (tr ++ [e]) = Some rs /\ published rs now (rows d)
  end -> progress (tr ++ [e]) (MkSystem d l (<[i := w]> (procs s))).
Proof.
  intros Hl Hi He Hw j. cbn [procs disk]. destruct (decide (j = i)) as [->|Hj]; [by rewrite fn_lookup_insert|].
  rewrite fn_lookup_insert_ne by done. destruct (leading (at_ (procs s j))) eqn:Hb; [apply Hl in Hb; congruence|].
  by destruct (at_ (procs s j)).
Qed.

Lemma progress_exec tr s e s' : led s -> progress tr s -> exec s e = Some s' -> progress (tr ++ [e]) s'.
Proof.
  intros Hl Hp He. destruct e as [i now ok|i answer|i now k|i ok|i stamp ok|i ok|i]; cbn [exec] in He;
    pose proof (Hp i) as Hi;
    try (match type of He with context [match at_ ?w with _ => _ end] => destruct (at_ w) eqn:Ha end; try discriminate He);
    try (pose proof (led_holder s i Hl) as Hlock; rewrite Ha in Hlock; specialize (Hlock eq_refl));
    try (assert (forall j, j <> i -> answer_to j (Census i answer) = None) as Hother
           by (intros j Hj; cbn; destruct answer; [by rewrite bool_decide_false|done])).
  - injection He as <-. intros j. rewrite got_other by done. unfold begin_tick. specialize (Hp j).
    destruct (decide (j = i)) as [->|Hj]; destruct ok, (lock s); cbn [procs disk set_worker];
      rewrite ?fn_lookup_insert, ?fn_lookup_insert_ne by done; done.
  - destruct answer; injection He as <-; apply (progress_step i _ _ s); try done. apply got_answer.
  - destruct k as [k|]; [|destruct (upsert_many _ _ _) as [d n] eqn:Hu]; injection He as <-; apply (progress_step i _ _ s); try done.
    cbn [at_ set_phase]. rewrite got_other by done. split; [done|]. pose proof (upsert_covers results now (disk s)) as Hc. by rewrite Hu in Hc.
  - destruct ok; injection He as <-; apply (progress_step i _ _ s); try done. cbn [at_ set_phase]. rewrite got_other by done.
    destruct Hi as [Hg Hc]. split; [done|]. by apply prune_published.
  - destruct ok; injection He as <-; apply (progress_step i _ _ s); try done. cbn [at_ set_phase]. by rewrite got_other.
  - destruct ok; injection He as <-; apply (progress_step i _ _ s); done.
  - injection He as <-. intros j. rewrite got_other by done. cbn [procs disk]. destruct (decide (j = i)) as [->|Hj];
      [by rewrite fn_lookup_insert|rewrite fn_lookup_insert_ne by done; apply Hp].
Qed.

Lemma run_progress days tr s : run (started days) tr = Some s -> progress tr s.
Proof.
  revert s. induction tr as [|e tr IH] using rev_ind; intros s Hr.
  - injection Hr as <-. by intros i.
  - apply run_extends in Hr as (s1 & H1 & He). eapply progress_exec; [by eapply run_led|by apply IH|exact He].
Qed.

(** What a finished tick leaves *)
Lemma finished days tr i s :
  run (started days) (tr ++ [Finish i true]) = Some s ->
  exists rs now, got i tr = Some rs /\ published rs now (rows (disk s)) /\ tick_ok (procs s i) = true /\ lock s = None.
Proof.
  intros Hr. apply run_extends in Hr as (s1 & H1 & He). pose proof (run_progress _ _ _ H1 i) as Hp. cbn [exec] in He.
  destruct (at_ (procs s1 i)) eqn:Ha; try discriminate He. injection He as <-. destruct Hp as [Hg Hpub].
  exists results, now. cbn [disk procs lock set_meta rows]. rewrite fn_lookup_insert. done.
Qed.
End runs.

(** ** The sessions of the window *)

Section census.
Context `{JsonText} `{Ed25519}.

(** An execution of the session in the window, in a file that can be read *)
Definition seen (files : list (option (list wal_row))) (start stop sid : string) : Prop :=
  exists file r ts, Some file ∈ files /\ r ∈ file /\ seen_in start stop r = Some (sid, ts).

Definition entries (files : list (option (list wal_row))) (start stop : string) : list (string * string) :=
  concat (map (fun file => foldl group_step [] (omap (seen_in start stop) file)) (omap id files)).

Lemma grouped l : forall d sid, sid ∈ od_keys (foldl group_step d l) <-> sid ∈ od_keys d \/ sid ∈ l.*1.
Proof.
  induction l as [|[s ts] l IH]; intros d sid; cbn [foldl fmap list_fmap]; [rewrite elem_of_nil; naive_solver|].
  rewrite IH, elem_of_cons. unfold group_step. cbn [fst snd].
  destruct (od_get s d) as [t0|] eqn:Hg; [apply od_get_key in Hg|]; [destruct (str_ltb t0 ts)|];
    rewrite ?od_set_keys_elem; naive_solver.
Qed.

Lemma elem_omap_id {A} (l : list (option A)) x : x ∈ omap id l <-> Some x ∈ l.
Proof. rewrite list_elem_of_omap. unfold id. naive_solver. Qed.

Lemma recent_all start stop limit file :
  Z.of_nat (length (foldl group_step [] (omap (seen_in start stop) file))) <= Z.of_nat limit ->
  recent_sessions start stop limit file ≡ₚ foldl group_step [] (omap (seen_in start stop) file).
Proof. intros Hl. unfold recent_sessions. rewrite firstn_all2; [apply isort_perm|]. rewrite isort_perm. lia. Qed.

Lemma recent_concat start stop limit files :
  Z.of_nat (length (concat (map (fun file => foldl group_step [] (omap (seen_in start stop) file)) files))) <= Z.of_nat limit ->
  concat (map (recent_sessions start stop limit) files)
    ≡ₚ concat (map (fun file => foldl group_step [] (omap (seen_in start stop) file)) files).
Proof.
  induction files as [|f files IH]; intros Hl; [done|]. cbn [map concat] in *. rewrite length_app in Hl.
  rewrite IH, recent_all by lia. done.
Qed.

(** With room for all, the enumeration is complete. *)
Lemma sessions_seen_in files start stop limit sid :
  zlen (entries files start stop) <= Z.of_nat limit ->
  sid ∈ sessions_in files start stop limit <-> seen files start stop sid.
Proof.
  intros Hl. unfold entries, zlen in Hl. pose proof (recent_concat start stop limit (omap id files) Hl) as Hp. unfold sessions_in.
  rewrite firstn_all2 by (rewrite isort_perm, Hp; lia). change (map fst) with (fmap (M := list) (@fst string string)).
  rewrite isort_perm, Hp. rewrite list_elem_of_fmap. unfold seen. split.
  - intros ([s ts] & -> & Hin). apply list_elem_of_In, List.in_concat in Hin as (d & Hd & Hin). apply List.in_map_iff in Hd as (file & <- & Hf).
    apply list_elem_of_In, elem_omap_id in Hf. exists file.
    assert (s ∈ od_keys (foldl group_step [] (omap (seen_in start stop) file))) as Hk
      by (unfold od_keys; apply list_elem_of_fmap; exists (s, ts); by rewrite list_elem_of_In).
    apply grouped in Hk as [Hk|Hk]; [by apply not_elem_of_nil in Hk|]. apply list_elem_of_fmap in Hk as ([s' t'] & -> & Hk).
    apply list_elem_of_omap in Hk as (r & Hr & Hs). by exists r, t'.
  - intros (file & r & ts & Hf & Hr & Hs).
    assert (sid ∈ od_keys (foldl group_step [] (omap (seen_in start stop) file))) as Hk.
    { apply grouped. right. apply list_elem_of_fmap. exists (sid, ts). split; [done|]. apply list_elem_of_omap. by exists r. }
    unfold od_keys in Hk. apply list_elem_of_fmap in Hk as (x & -> & Hx). exists x. split; [done|].
    apply list_elem_of_In, List.in_concat. eexists. split; [apply List.in_map_iff; exists file; split; [done|]|by apply list_elem_of_In].
    by apply list_elem_of_In, elem_omap_id.
Qed.

Lemma verify_session st files sid : result_session_id (verify_chain st files sid) = sid.
Proof. unfold verify_chain, verify_records. by destruct (get_session_timeline files sid 500). Qed.

(** The last verdict of a report on a session is that of its chain. *)
Lemma report_verdict st files start stop limit sid :
  sid <> "" ->
  last_verdict sid (get_chain_verification_report st files start stop limit) =
    if bool_decide (sid ∈ sessions_in files start stop limit) then Some (of_result (verify_chain st (omap id files) sid)) else None.
Proof.
  intros Hne. unfold get_chain_verification_report. generalize (sessions_in files start stop limit). intros l.
  unfold last_verdict. set (f := fun s => of_result (verify_chain st (omap id files) s)).
  assert (forall s, about sid (f s) = bool_decide (s = sid)) as Hab.
  { intros s. unfold about, named, f. cbn. rewrite verify_session. repeat case_bool_decide; naive_solver. }
  induction l as [|s l IH] using rev_ind; [done|]. rewrite List.map_app, List.filter_app. cbn [map List.filter]. rewrite Hab.
  destruct (decide (s = sid)) as [->|Hs].
  - rewrite (bool_decide_true (sid = sid)), last_snoc, bool_decide_true; [done| |done]. apply elem_of_app. right. by left.
  - rewrite (bool_decide_false (s = sid)), List.app_nil_r, IH by done.
    assert (bool_decide (sid ∈ l ++ [s]) = bool_decide (sid ∈ l)) as ->; [|done].
    apply bool_decide_ext. rewrite elem_of_app, list_elem_of_singleton. naive_solver.
Qed.

(** ** Keys are unique *)

Lemma upsert_wf now l : forall t, od_wf t -> od_wf (foldl (upsert_row now) t l).
Proof. induction l as [|v l IH]; intros t Ht; [done|]. cbn. apply IH. by apply od_wf_set. Qed.

Lemma filter_sub {A} (f : A -> bool) l : List.filter f l `sublist_of` l.
Proof. induction l as [|x l IH]; [done|]. cbn [List.filter]. destruct (f x); by constructor. Qed.

Lemma prune_wf ids s : od_wf (rows s) -> od_wf (rows (prune_keep ids s).1).
Proof.
  intros Hs. unfold prune_keep. destruct (List.filter _ ids); cbn [fst rows]; [apply NoDup_nil_2|].
  eapply od_wf_sublist; [|exact Hs]. apply filter_sub.
Qed.

Lemma exec_wf s e s' : od_wf (rows (disk s)) -> exec s e = Some s' -> od_wf (rows (disk s')).
Proof.
  intros Hs He. destruct e as [i now ok|i answer|i now k|i ok|i stamp ok|i ok|i]; cbn [exec] in He;
    try (match type of He with context [match at_ ?w with _ => _ end] => destruct (at_ w) eqn:Ha end; try discriminate He).
  - injection He as <-. unfold begin_tick. by destruct ok, (lock s).
  - by destruct answer; injection He as <-.
  - destruct k; [|unfold upsert_many in He]; injection He as <-; by apply upsert_wf.
  - destruct ok; injection He as <-; [by apply prune_wf|done].
  - destruct ok; by injection He as <-.
  - destruct ok; by injection He as <-.
  - by injection He as <-.
Qed.

Lemma run_wf days tr s : run (started days) tr = Some s -> od_wf (rows (disk s)).
Proof.
  revert s. induction tr as [|e tr IH] using rev_ind; intros s Hr.
  - injection Hr as <-. apply NoDup_nil_2.
  - apply run_extends in Hr as (s1 & H1 & He). eapply exec_wf; [by apply IH|exact He].
Qed.

Lemma stored_entry s e : od_wf (rows s) -> e ∈ get_all s <-> exists r, od_get (e_session_id e) (rows s) = Some r /\ e = entry_of (e_session_id e, r).
Proof.
  intros Hwf. unfold get_all. change (map entry_of) with (fmap (M := list) entry_of). rewrite list_elem_of_fmap. split.
  - intros ([sid r] & -> & Hin). rewrite isort_perm in Hin. exists r. split; [by apply od_elem_get|done].
  - intros (r & Hg & ->). eexists. split; [done|]. rewrite isort_perm. apply od_get_Some_elem in Hg. cbn in Hg. done.
Qed.

(** ** The theorems *)

(** The timeline that the readable files give is a chain. *)
Definition chain_holds (st : keys) (files : list (option (list wal_row))) (sid : string) : Prop :=
  let recs := get_session_timeline (omap id files) sid 500 in chained st 0 (mbind previous_record_id (head recs)) recs.

Lemma entry_valid st files sid now : e_valid (entry_of (sid, row_of now (of_result (verify_chain st files sid)))) = valid (verify_chain st files sid).
Proof. cbn. by destruct (valid _). Qed.

Lemma no_nameless rs : List.filter (about "") rs = [].
Proof.
  induction rs as [|v rs IH]; [done|]. cbn [List.filter]. unfold about, named. by destruct (bool_decide (v_session_id v = "")).
Qed.

Lemma census_spec days tr i s st files start stop limit e :
  run (started days) (tr ++ [Finish i true]) = Some s ->
  got i tr = Some (get_chain_verification_report st files start stop limit) ->
  zlen (entries files start stop) <= Z.of_nat limit ->
  e ∈ get_all (disk s) <->
    exists sid now, e = entry_of (sid, row_of now (of_result (verify_chain st (omap id files) sid))) /\ sid <> "" /\
      seen files start stop sid /\ od_get sid (rows (disk s)) = Some (row_of now (of_result (verify_chain st (omap id files) sid))).
Proof.
  intros Hr Hg Hl. destruct (finished _ _ _ _ Hr) as (rs & now & Hgot & Hpub & _ & _). rewrite Hg in Hgot. injection Hgot as <-.
  rewrite stored_entry by by eapply run_wf. split.
  - intros (r & Hget & He). set (sid := e_session_id e) in *. pose proof (Hpub sid) as Hp. rewrite Hget in Hp.
    destruct (decide (sid = "")) as [Hs|Hs].
    + rewrite Hs in Hp. unfold last_verdict in Hp.
      by rewrite no_nameless in Hp.
    + rewrite report_verdict in Hp by done. case_bool_decide as Hin; [|done]. injection Hp as Hp. exists sid, now. rewrite <- Hp.
      split; [done|]. split; [done|]. split; [by apply (sessions_seen_in _ _ _ limit)|]. exact Hget.
  - intros (sid & now' & -> & _ & _ & Hget). eexists. split; [exact Hget|done].
Qed.

(** C7. The census is exact.  However the workers of many processes interleave, fail and die,
    after a tick has finished the store holds the sessions with an execution in its window,
    in the files that could be read, and no others; each is stored as valid exactly when
    its timeline is a chain, and the compliance report says all valid exactly when all of
    them are. *)
Theorem census_is_exact days tr i s st files start stop limit total n known :
  run (started days) (tr ++ [Finish i true]) = Some s ->
  got i tr = Some (get_chain_verification_report st files start stop limit) ->
  zlen (entries files start stop) <= Z.of_nat limit ->
  (forall sid, sid ∈ map e_session_id (get_all (disk s)) <-> sid <> "" /\ seen files start stop sid) /\
  (forall e, e ∈ get_all (disk s) -> e_valid e = true <-> chain_holds st files (e_session_id e)) /\
  (all_valid (_read_chain_integrity_from_store total n known (Some (Ok (disk s)))) = true <->
     forall sid, sid <> "" -> seen files start stop sid -> chain_holds st files sid).
Proof.
  intros Hr Hg Hl. pose proof (fun e => census_spec days tr i s st files start stop limit e Hr Hg Hl) as Hspec.
  destruct (finished _ _ _ _ Hr) as (rs & now & Hgot & Hpub & _ & _). rewrite Hg in Hgot. injection Hgot as <-.
  assert (forall sid, sid <> "" -> seen files start stop sid -> entry_of (sid, row_of now (of_result (verify_chain st (omap id files) sid))) ∈ get_all (disk s)) as Hin.
  { intros sid Hne Hs. apply Hspec. exists sid, now. split_and!; try done. rewrite Hpub, report_verdict by done.
    rewrite bool_decide_true; [done|]. by apply sessions_seen_in. }
  assert (forall e, e ∈ get_all (disk s) -> e_valid e = true <-> chain_holds st files (e_session_id e)) as Hval.
  { intros e He. apply Hspec in He as (sid & now' & -> & _ & _ & _). rewrite entry_valid.
    exact (proj1 (verify_chain_spec st (omap id files) sid)). }
  split_and!; [|exact Hval|].
  - intros sid. split.
    + intros Hk. apply list_elem_of_In, List.in_map_iff in Hk as (e & <- & He). apply list_elem_of_In, Hspec in He as (sid & now' & -> & ? & ? & _). done.
    + intros [Hne Hs]. apply list_elem_of_In, List.in_map_iff. eexists. split; [|apply list_elem_of_In, (Hin sid); done]. done.
  - assert (all_valid (_read_chain_integrity_from_store total n known (Some (Ok (disk s)))) = forallb e_valid (get_all (disk s))) as ->
      by (unfold _read_chain_integrity_from_store; by destruct (get_all (disk s))).
    rewrite List.forallb_forall. split.
    + intros Hall sid Hne Hs. pose proof (Hin sid Hne Hs) as Hx. apply Hval in Hx as Hx2. apply Hx2, Hall. by apply list_elem_of_In.
    + intros Hall e He. apply list_elem_of_In in He. apply Hval; [done|]. apply Hspec in He as (sid & now' & -> & ? & ? & _). by apply Hall.
Qed.

(** C24. One tick at a time.  In every run at most one process is inside a tick, it is the one
    that holds the lock, and only it changes a verdict. *)
Theorem one_census_at_a_time days tr s e s' :
  run (started days) tr = Some s -> exec s e = Some s' ->
  (forall i j, leading (at_ (procs s i)) = true -> leading (at_ (procs s j)) = true -> i = j) /\
  (rows (disk s') <> rows (disk s) ->
     exists i, lock s = Some i /\ leading (at_ (procs s i)) = true /\ ((exists now k, e = Insert i now k) \/ e = Prune i true)).
Proof.
  intros Hr He. pose proof (run_led _ _ _ Hr) as Hl. split.
  - intros i j Hi Hj. apply Hl in Hi, Hj. congruence.
  - intros Hd. destruct e as [i now ok|i answer|i now k|i ok|i stamp ok|i ok|i]; cbn [exec] in He;
      try (match type of He with context [match at_ ?w with _ => _ end] => destruct (at_ w) eqn:Ha end; try discriminate He).
    + exfalso. apply Hd. injection He as <-. unfold begin_tick. by destruct ok, (lock s).
    + exfalso. apply Hd. by destruct answer; injection He as <-.
    + exists i. split; [apply Hl; by rewrite Ha|]. split; [by rewrite Ha|]. left. by exists now, k.
    + destruct ok; [|exfalso; apply Hd; by injection He as <-]. exists i. split; [apply Hl; by rewrite Ha|]. split; [by rewrite Ha|]. by right.
    + exfalso. apply Hd. by destruct ok; injection He as <-.
    + exfalso. apply Hd. by destruct ok; injection He as <-.
    + exfalso. apply Hd. by injection He as <-.
Qed.

(** A log that cannot be read passes.  The readers skip a file that fails, so a tick over
    it succeeds: the verdicts of its sessions, a broken chain's included, are pruned, and
    when the sessions that are left are chains the report says that all are valid. *)
Theorem unreadable_chain_is_forgotten days tr i s st files start stop limit total n known sid :
  run (started days) (tr ++ [Finish i true]) = Some s ->
  got i tr = Some (get_chain_verification_report st files start stop limit) ->
  zlen (entries files start stop) <= Z.of_nat limit ->
  (forall file, Some file ∈ files -> Forall (fun r => row_session r <> Some sid) file) ->
  (forall sid', sid' <> "" -> seen files start stop sid' -> chain_holds st files sid') ->
  sid ∉ map e_session_id (get_all (disk s)) /\ tick_ok (procs s i) = true /\ tick_error (procs s i) = None /\
  all_valid (_read_chain_integrity_from_store total n known (Some (Ok (disk s)))) = true.
Proof.
  intros Hr Hg Hl Hsid Hrest. pose proof (fun e => census_spec days tr i s st files start stop limit e Hr Hg Hl) as Hspec. split_and!.
  - intros Hk. apply list_elem_of_In, List.in_map_iff in Hk as (e & <- & He). apply list_elem_of_In, Hspec in He as (sid' & now' & -> & _ & Hs & _).
    destruct Hs as (file & r & ts & Hf & Hin & Hs). apply Hsid in Hf. rewrite Forall_forall in Hf. apply (Hf r Hin). cbn.
    unfold seen_in in Hs. destruct (row_session r), (timestamp (row_record r)); try done. case_match; [|done]. by injection Hs as -> _.
  - by destruct (finished _ _ _ _ Hr) as (? & ? & _ & _ & ? & _).
  - apply run_extends in Hr as (s1 & _ & He). cbn [exec] in He. destruct (at_ (procs s1 i)); try discriminate He. injection He as <-.
    cbn [procs]. by rewrite fn_lookup_insert.
  - assert (all_valid (_read_chain_integrity_from_store total n known (Some (Ok (disk s)))) = forallb e_valid (get_all (disk s))) as ->
      by (unfold _read_chain_integrity_from_store; by destruct (get_all (disk s))).
    apply List.forallb_forall. intros e He. apply list_elem_of_In, Hspec in He as (sid' & now' & -> & ? & ? & _). rewrite entry_valid.
    destruct (verify_chain_spec st (omap id files) sid') as [Hv _]. apply Hv. by apply Hrest.
Qed.
End census.

(** ** Runs *)

Module Weeks.
Import ToyEd25519.
#[local] Instance codec : JsonText := {| to_text := py_str; of_text := fun _ => Ok (PList []) |}.

Definition row_at (sid id : string) (prev : option string) (n : Z) : wal_row :=
  Lineage.MkRow (Some sid) ev_execution
    (MkRecord (Some ("e-" +:+ id)) (Some "2026-04-15T12:00:00+00:00") (Some n) (Some id) prev None None None [] None None None None None) "t".

(** A chain, and one whose second record points nowhere *)
Definition whole : list wal_row := [row_at "s-1" "a" None 0; row_at "s-1" "b" (Some "a") 1].
Definition broken : list wal_row := [row_at "s-2" "c" None 0; row_at "s-2" "d" (Some "x") 1].

Definition now : Z := seconds 1776297599.
Definition window : string * string := _window_bounds 7 now.
Definition census (files : list (option (list wal_row))) : list verification :=
  get_chain_verification_report empty_ring files (fst window) (snd window) 100.

(** A tick of process 0, while process 1 follows; then one over an unreadable file *)
Definition tick (files : list (option (list wal_row))) : list event :=
  [Begin 0 now true; Begin 1 now true; Census 0 (Ok (census files)); Insert 0 "t1" None; Prune 0 true; Stamp 0 "t1" true].
Definition two_ticks : list event := tick [Some whole; Some broken] ++ [Finish 0 true] ++ tick [Some whole; None].

Definition after (tr : list event) : system := default (started (fun _ => 7)) (run (started (fun _ => 7)) tr).

Lemma ran tr : (if run (started (fun _ => 7)) tr then true else false) = true -> run (started (fun _ => 7)) tr = Some (after tr).
Proof. unfold after. by destruct (run (started (fun _ => 7)) tr). Qed.

Definition both : list (option (list wal_row)) := [Some whole; Some broken].
Definition first_tick : list event := tick both ++ [Finish 0 true].
Definition second_tick : list event := two_ticks ++ [Finish 0 true].
Definition begun : list event := [Begin 0 now true; Begin 1 now true].

Lemma first_ran : run (started (fun _ => 7)) first_tick = Some (after first_tick).
Proof. apply ran. vm_compute. reflexivity. Qed.
Lemma second_ran : run (started (fun _ => 7)) second_tick = Some (after second_tick).
Proof. apply ran. vm_compute. reflexivity. Qed.
Lemma begun_ran : run (started (fun _ => 7)) begun = Some (after begun).
Proof. apply ran. vm_compute. reflexivity. Qed.
Lemma first_got : got 0 (tick both) = Some (get_chain_verification_report empty_ring both (fst window) (snd window) 100).
Proof. reflexivity. Qed.
Lemma second_got : got 0 two_ticks = Some (get_chain_verification_report empty_ring [Some whole; None] (fst window) (snd window) 100).
Proof. reflexivity. Qed.

Lemma whole_holds sid : seen [Some whole; None] (fst window) (snd window) sid -> chain_holds empty_ring [Some whole; None] sid.
Proof.
  intros (file & r & ts & Hf & Hr & Hs). rewrite !elem_of_cons, elem_of_nil in Hf. destruct Hf as [[= ->]|[[=]|[]]].
  assert (sid = "s-1") as ->.
  { unfold whole in Hr. rewrite !elem_of_cons, elem_of_nil in Hr. destruct Hr as [->|[->|[]]]; vm_compute in Hs; by injection Hs as <- _. }
  apply (verify_chain_spec empty_ring (omap id [Some whole; None]) "s-1"). vm_compute. reflexivity.
Qed.

Lemma census_is_exact_witness :
  map (fun e => (e_session_id e, e_valid e)) (get_all (disk (after first_tick))) = [("s-1", true); ("s-2", false)] /\
  ("s-2" ∈ map e_session_id (get_all (disk (after first_tick))) <-> "s-2" <> "" /\ seen both (fst window) (snd window) "s-2").
Proof.
  split; [vm_compute; reflexivity|].
  destruct (census_is_exact (fun _ => 7) (tick both) 0 (after first_tick) empty_ring both (fst window) (snd window)
    100 0 0%nat None first_ran first_got ltac:(vm_compute; discriminate)) as [A _].
  exact (A "s-2").
Defined.

Lemma one_census_at_a_time_witness :
  leading (at_ (procs (after begun) 0%nat)) = true /\ leading (at_ (procs (after begun) 1%nat)) = false /\
  (forall i j, leading (at_ (procs (after begun) i)) = true -> leading (at_ (procs (after begun) j)) = true -> i = j).
Proof.
  split; [vm_compute; reflexivity|]. split; [vm_compute; reflexivity|].
  destruct (one_census_at_a_time (fun _ => 7) begun (after begun) (Die 1) _ begun_ran eq_refl) as [A _]. exact A.
Defined.

Lemma unreadable_chain_is_forgotten_witness :
  map e_session_id (get_all (disk (after first_tick))) = ["s-1"; "s-2"] /\
  "s-2" ∉ map e_session_id (get_all (disk (after second_tick))) /\
  all_valid (_read_chain_integrity_from_store 4 4 None (Some (Ok (disk (after second_tick))))) = true.
Proof.
  split; [vm_compute; reflexivity|].
  destruct (unreadable_chain_is_forgotten (fun _ => 7) two_ticks 0 (after second_tick) empty_ring [Some whole; None] (fst window) (snd window)
    100 4 4%nat None "s-2" second_ran second_got ltac:(vm_compute; discriminate)
    ltac:(intros file Hf; rewrite !elem_of_cons, elem_of_nil in Hf; destruct Hf as [[= ->]|[[=]|[]]]; repeat constructor; discriminate)
    (fun sid _ => whole_holds sid)) as (A & _ & _ & B).
  split; [exact A|exact B].
Defined.
End Weeks.
