(* ===== verification/Readiness.v ===== *)
(** * Readiness (readiness/, auth/bootstrap_key.py)

    The checks that say whether a running gateway may be trusted (readiness/checks/), the
    runner that rolls them up and caches the report (readiness/runner.py), the rows it
    writes when a check turns red (readiness/drift_audit.py), and the key the gateway mints
    for itself, which one of the checks judges.

    A check is a function of what it looks at: settings, keys, the rows of the log files,
    the answers of probes.  A file that cannot be read gives no rows.  Of a result the
    status and the detail are modelled; the remediation, the evidence and the elapsed time
    are texts for the dashboard.  The tasks of one report share no state but by check, so
    they are run in their order. *)
From Stdlib Require Import SpecFloat.
From S2P Require Import Prelude ODict PyVal PyStr PyObj Signing Lineage.
From S2P Require WalacorReader Anomaly Auth Analyzers SessionChain ChainHelpers AuditRecord AuditWrite Normalizer RateLimit ModelRegistry.

Local Open Scope Z_scope.

(** ** Results (readiness/protocol.py) *)

Inductive Severity := sec | int | ops | warn.
#[export] Instance severity_dec : EqDecision Severity.
Proof. solve_decision. Defined.

Inductive status := green | amber | red.
#[export] Instance status_dec : EqDecision status.
Proof. solve_decision. Defined.

Record CheckResult := MkCheck { c_status : status; detail : string }.

(** A share of a sample: green from 95 %, amber from a half *)
Definition graded (part whole : Z) : res status :=
  let! pct := py_truediv part whole in
  Ok (if SFleb (sf_of_decimal false 95 (-2)) pct then green
      else if SFleb (sf_of_decimal false 5 (-1)) pct then amber else red).

(** [f"{x:.0%}"] *)
Definition percent (part whole : Z) : res string :=
  let! pct := py_truediv part whole in
  match SFmul prec emax pct (sf_of_Z 100) with
  | S754_finite _ m e => Ok (z_str (if 0 <=? e then Zpos m * 2 ^ e else Anomaly.half_even (Zpos m) (2 ^ (- e))) +:+ "%")
  | _ => Ok "0%"
  end.

Definition ratio (a b : Z) (s : string) : string := z_str a +:+ "/" +:+ z_str b +:+ s.

(** ** The bootstrap key (auth/bootstrap_key.py) *)

Module Bootstrap.
Definition _KEY_PREFIX : string := "wgk-".

(** The key file: absent, unreadable, or its text *)
Inductive file := Absent | Unreadable | Text (s : string).

Definition well_formed (key : string) : bool :=
  startswith _KEY_PREFIX key && (Z.of_nat (String.length _KEY_PREFIX) + 16 <=? Z.of_nat (String.length key)).

(** The first half of [ensure_bootstrap_key]: reload *)
Definition reload (f : file) : option string :=
  match f with Text s => if well_formed (strip s) then Some (strip s) else None | _ => None end.

(** The second half: generate, from the random part, and persist when the directory lets *)
Definition generate (random : string) (writable : bool) (f : file) : file * (string * bool) :=
  let key := _KEY_PREFIX +:+ random in
  if writable then (Text key, (key, true)) else (f, (key, false)).

Definition ensure_bootstrap_key (random : string) (writable : bool) (f : file) : file * (string * bool) :=
  match reload f with Some key => (f, (key, true)) | None => generate random writable f end.

(** [bootstrap_key_status(...)["stable"]] and the reason when it is not *)
Definition bootstrap_key_status (writable : bool) (f : file) : bool * string :=
  match f with
  | Text s => if well_formed (strip s) then (true, "") else (false, "key file is malformed (wrong prefix or too short)")
  | Unreadable => (false, "key file exists but is unreadable")
  | Absent => (false, if writable then "key file not present" else "wal directory is not writable")
  end.
End Bootstrap.

(** ** What the checks look at *)

(** A row of a log file: the text of the record, decoded, and the columns *)
Record log_row := MkLog {
  l_json : res pyval;
  l_created_at : string;
  l_execution_id : option string;
  l_request_type : option string;
  l_row : wal_row;
}.

(** Rows in the order of their number, and the execution ids of the attempts *)
Record log_file := MkLogFile { l_rows : list log_row; l_attempts : list string }.

Inductive model_file := Present (size : Z) | Missing | Unreadable_.

Section checks.
Context `{Ed25519}.

Record environment := MkEnvironment {
  auth : Auth.settings;
  gateway_host : string;
  enforcement_mode : string;
  skip_governance : bool;
  log_level : string;
  rate_limit_enabled : bool;
  walacor_storage_enabled : bool;
  auto_generated_bootstrap_key : option string;
  key_file : Bootstrap.file;
  key_dir_writable : bool;
  lineage_probe : res Z;                               (** the status without a key *)
  jwks_answer : res (Z * res pyval);
  signing : keys;
  wal_writer : bool;
  wal_files : list (option log_file);
  old_enough : string -> bool;                         (** [datetime(x) < datetime('now', '-30 seconds')] *)
  anchors : option (res (list dict));                  (** the rows of the ledger, with a client *)
  production_models : option (res (list (string * model_file)));
  disk_usage : option (res (Z * Z));                    (** free and total; [None] without a directory *)
  disk_min_free_percent : spec_float;
  pending_count : res Z;
  wal_high_water_mark : Z;
}.

Definition api_keys (e : environment) : list string := Auth.api_keys_list (Auth.gateway_api_keys (auth e)).
Definition jwt_mode (e : environment) : bool :=
  bool_decide (Auth.auth_mode (auth e) = "jwt") || bool_decide (Auth.auth_mode (auth e) = "both").

(** ** Security (readiness/checks/security.py) *)

Definition _is_prod_host (e : environment) : bool :=
  negb (bool_decide (strip (gateway_host e) ∈ [""; "127.0.0.1"; "localhost"; "::1"])).

Definition sec01 (e : environment) : res CheckResult :=
  match api_keys e with
  | [] => Ok (MkCheck amber "No API keys configured — gateway accepts all requests")
  | keys =>
      let n := zlen keys in
      let auto := match auto_generated_bootstrap_key e with
                  | Some (String _ _ as k) => List.filter (fun x => bool_decide (x = k)) keys
                  | _ => []
                  end in
      if negb (bool_decide (auto = [])) && (zlen auto =? n) then
        let '(stable, reason) := Bootstrap.bootstrap_key_status (key_dir_writable e) (key_file e) in
        if stable then
          Ok (MkCheck green (z_str n +:+ " auto-generated wgk-* key(s) in use, persisted stably across restarts — consider migrating to a managed secret for multi-instance deployments"))
        else Ok (MkCheck amber (z_str n +:+ " auto-generated wgk-* key(s) — persistence broken: " +:+ reason))
      else Ok (MkCheck green (z_str n +:+ " API key(s) configured"))
  end.

Definition sec02 (e : environment) : res CheckResult :=
  match api_keys e with
  | [] => Ok (MkCheck green "No API keys configured — lineage auth not applicable")
  | _ =>
      if negb (Auth.lineage_auth_required (auth e)) then
        Ok (MkCheck red "/v1/lineage/* is publicly accessible (lineage_auth_required=false)")
      else
        match lineage_probe e with
        | Raise _ => Ok (MkCheck amber "Could not probe /v1/lineage/sessions")
        | Ok 401 => Ok (MkCheck green "/v1/lineage/sessions returns 401 without API key")
        | Ok n => Ok (MkCheck red ("/v1/lineage/sessions returned " +:+ z_str n +:+ " without API key (expected 401)"))
        end
  end.

Definition not_in_use (e : environment) : CheckResult :=
  MkCheck green ("auth_mode=" +:+ Auth.auth_mode (auth e) +:+ " — JWT not in use").

Definition sec03 (e : environment) : res CheckResult :=
  if negb (jwt_mode e) then Ok (not_in_use e)
  else
    let missing := (if bool_decide (Auth.jwt_issuer (Auth.jwt (auth e)) = "") then ["jwt_issuer"] else [])
                   ++ (if bool_decide (Auth.jwt_audience (Auth.jwt (auth e)) = "") then ["jwt_audience"] else []) in
    match missing with
    | [] => Ok (MkCheck green "JWT issuer and audience set")
    | l => Ok (MkCheck red ("auth_mode=" +:+ Auth.auth_mode (auth e) +:+ " but missing: " +:+ sjoin ", " l))
    end.

Definition sec04 (e : environment) : res CheckResult :=
  if negb (jwt_mode e) then Ok (not_in_use e)
  else
    let secret_ok := 32 <=? Z.of_nat (String.length (Auth.jwt_secret (Auth.jwt (auth e)))) in
    let jwks_ok := negb (bool_decide (Auth.jwt_jwks_url (Auth.jwt (auth e)) = "")) in
    if secret_ok || jwks_ok then Ok (MkCheck green "JWT key material present")
    else Ok (MkCheck red "No JWT key material: jwt_secret too short (<32) and jwt_jwks_url empty").

(** [len(body["keys"])] raises on what has no length, inside the check's own [try]. *)
Definition sec05 (e : environment) : res CheckResult :=
  if negb (jwt_mode e) || bool_decide (Auth.jwt_jwks_url (Auth.jwt (auth e)) = "") then Ok (MkCheck green "JWKS not configured — skipping")
  else
    let failed := MkCheck red "JWKS fetch failed" in
    match jwks_answer e with
    | Raise _ | Ok (200, Raise _) => Ok failed
    | Ok (200, Ok (PDict body)) =>
        match od_get "keys" body with
        | None => Ok (MkCheck red "JWKS response not parseable (missing 'keys')")
        | Some (PList l) => Ok (MkCheck green ("JWKS reachable with " +:+ z_str (zlen l) +:+ " key(s)"))
        | Some (PDict d) => Ok (MkCheck green ("JWKS reachable with " +:+ z_str (zlen d) +:+ " key(s)"))
        | Some (PStr s) => Ok (MkCheck green ("JWKS reachable with " +:+ z_str (Z.of_nat (String.length s)) +:+ " key(s)"))
        | Some _ => Ok failed
        end
    | Ok (200, Ok _) => Ok (MkCheck red "JWKS response not parseable (missing 'keys')")
    | Ok (n, _) => Ok (MkCheck red ("JWKS returned HTTP " +:+ z_str n))
    end.

Definition sec06 (e : environment) : res CheckResult :=
  if skip_governance e then Ok (MkCheck amber "skip_governance=true — transparent proxy mode, no policy enforcement")
  else if bool_decide (enforcement_mode e = "enforced") then Ok (MkCheck green "enforcement_mode=enforced")
  else Ok (MkCheck amber ("enforcement_mode=" +:+ enforcement_mode e +:+ " — blocks recorded but not applied")).

Definition sec07 (e : environment) : res CheckResult :=
  let tenant := Auth.gateway_tenant_id (auth e) in
  if negb (bool_decide (tenant = "")) then Ok (MkCheck green ("tenant_id=" +:+ tenant))
  else Ok (MkCheck (if _is_prod_host e then red else amber)
             ("gateway_tenant_id empty" +:+ (if _is_prod_host e then " (prod host)" else " (dev)"))).

(** ** Integrity (readiness/checks/integrity.py) *)

(** [_exec_wal_ro_all]: a query on each file, newest row first, at most [limit] of it; then
    [sort(key=created_at, reverse=True)] and the first [limit] *)
Definition newest_first {A} (a b : A * string) : bool := str_leb (snd b) (snd a).
Definition _exec_wal_ro_all {A} (query : log_file -> list (A * string)) (e : environment) : list (A * string) :=
  concat (map query (omap id (wal_files e))).
Definition newest {A} (limit : nat) (rows : list (A * string)) : list A := map fst (firstn limit (isort newest_first rows)).
Definition last_of {A} (limit : nat) (f : log_row -> option A) (file : log_file) : list (A * string) :=
  firstn limit (omap (fun r => match f r with Some a => Some (a, l_created_at r) | None => None end) (rev (l_rows file))).

Definition is_execution (r : log_row) : bool := bool_decide (row_event (l_row r) = ev_execution).

(** Executions of users *)
Definition of_user (r : log_row) : bool :=
  is_execution r
  && match l_execution_id r with Some x => negb (startswith "self-test-" (lower x)) | None => false end
  && match l_request_type r with None => true | Some t => negb (bool_decide (t ∈ ["system_task"; "intelligence_verdict"])) end.

Definition int01 (e : environment) : res CheckResult :=
  if signing_key_available (signing e) then Ok (MkCheck green "Ed25519 signing key loaded")
  else Ok (MkCheck red "Ed25519 signing key not loaded — records will be written unsigned").

Definition is_signed (json : res pyval) : bool :=
  match json with Ok (PDict d) => truthy (dget "record_signature" d) | _ => false end.

Definition int02 (e : environment) : res CheckResult :=
  if negb (wal_writer e) then Ok (MkCheck amber "WAL writer not available — cannot sample records")
  else
    match newest 50 (_exec_wal_ro_all (last_of 50 (fun r => if of_user r then Some (l_json r) else None)) e) with
    | [] => Ok (MkCheck amber "No execution records in WAL yet — cannot assess signing")
    | rows =>
        let signed := zlen (List.filter is_signed rows) in
        let! s := graded signed (zlen rows) in
        let! pct := percent signed (zlen rows) in
        Ok (MkCheck s (ratio signed (zlen rows) (" recent records signed (" +:+ pct +:+ ")")))
    end.

(** The signature of a record against the loaded key *)
Definition signature_ok (st : keys) (rec : dict) (sequence_number : Z) : bool :=
  match dget "record_signature" rec with
  | PStr sig =>
      verify_canonical st (WalacorReader.sfield "record_id" rec) (WalacorReader.sfield "previous_record_id" rec) sequence_number
        (py_str (por (dget "execution_id" rec) (PStr ""))) (py_str (por (dget "timestamp" rec) (PStr ""))) sig None
  | _ => false
  end.

(** The scan: attempts, verified, first failure *)
Fixpoint scan (st : keys) (rows : list (res pyval)) (attempted verified : Z) (failure : option pyval) : res (Z * Z * option pyval) :=
  match rows with
  | [] => Ok (attempted, verified, failure)
  | row :: rows =>
      if 20 <=? attempted then Ok (attempted, verified, failure)
      else
        match row with
        | Raise _ => scan st rows attempted verified failure
        | Ok (PDict rec) =>
            if negb (truthy (dget "record_signature" rec)) then scan st rows attempted verified failure
            else
              let! n := py_int (por (dget "sequence_number" rec) (PInt 0)) in
              if signature_ok st rec n then scan st rows (attempted + 1) (verified + 1) failure
              else scan st rows (attempted + 1) verified
                     (match failure with None | Some PNone => Some (dget "execution_id" rec) | _ => failure end)
        | Ok _ => attribute_error
        end
  end.

Definition recent_executions (limit : nat) (e : environment) : list (res pyval) :=
  newest limit (_exec_wal_ro_all (last_of limit (fun r => if is_execution r then Some (l_json r) else None)) e).

Definition int03 (e : environment) : res CheckResult :=
  if negb (signing_key_available (signing e)) then Ok (MkCheck amber "No verify key loaded — cannot verify signatures")
  else if negb (wal_writer e) then Ok (MkCheck amber "WAL writer not available")
  else
    let! '(attempted, verified, failure) := scan (signing e) (recent_executions 100 e) 0 0 None in
    if attempted =? 0 then Ok (MkCheck amber "No signed records found in last 100 — nothing to verify")
    else if verified =? attempted then Ok (MkCheck green (ratio verified attempted " signatures verify"))
    else Ok (MkCheck red (ratio verified attempted (" signatures verify — first failure execution_id=" +:+ py_str (default PNone failure)))).

Definition anchored (r : dict) : bool := truthy (dget "BlockId" r) && truthy (dget "TransId" r) && truthy (dget "DH" r).

Definition int04 (e : environment) : res CheckResult :=
  if negb (walacor_storage_enabled e) then Ok (MkCheck amber "Walacor storage not configured")
  else
    match anchors e with
    | None => Ok (MkCheck amber "Walacor client not available")
    | Some (Raise _) => Ok (MkCheck amber "Walacor query failed")
    | Some (Ok []) => Ok (MkCheck amber "No execution records older than 2m to verify yet")
    | Some (Ok raw) =>
        let n := zlen (List.filter anchored raw) in
        let! s := graded n (zlen raw) in
        let! pct := percent n (zlen raw) in
        Ok (MkCheck s (ratio n (zlen raw) (" recent records anchored (" +:+ pct +:+ ")")))
    end.

(** The session with more than one record whose last row is the newest, in the first file
    that has one *)
Definition session_at (r : log_row) : option string := if is_execution r then row_session (l_row r) else None.
Definition records_of (sid : string) (file : log_file) : list log_row :=
  List.filter (fun r => bool_decide (session_at r = Some sid)) (l_rows file).
Definition long_session (file : log_file) : option string :=
  match omap (fun r => match session_at r with
                       | Some sid => if 1 <? zlen (records_of sid file) then Some sid else None
                       | None => None
                       end) (rev (l_rows file)) with
  | sid :: _ => Some sid
  | [] => None
  end.
Fixpoint first_session (files : list (option log_file)) : option (string * log_file) :=
  match files with
  | [] => None
  | None :: files => first_session files
  | Some f :: files => match long_session f with Some sid => Some (sid, f) | None => first_session files end
  end.

Definition int06 (e : environment) : res CheckResult :=
  if negb (wal_writer e) then Ok (MkCheck amber "WAL writer not available")
  else
    match first_session (wal_files e) with
    | None | Some (EmptyString, _) => Ok (MkCheck amber "No multi-record session found to verify")
    | Some (sid, f) =>
        let v := verify_chain (signing e) [map l_row (l_rows f)] sid in
        match Lineage.errors v with
        | [] => Ok (MkCheck green ("Chain continuity OK for session " +:+ sid +:+ " (" +:+ z_str (records_checked v) +:+ " records)"))
        | err :: _ => Ok (MkCheck red ("Chain broken for session " +:+ sid +:+ ": " +:+ err))
        end
    end.

(** The execution ids with the number of their attempts in the same file *)
Definition with_attempts (old : string -> bool) (file : log_file) : list (option string * Z * string) :=
  last_of 100 (fun r => if of_user r && old (l_created_at r)
                        then Some (l_execution_id r, zlen (List.filter (fun a => bool_decide (l_execution_id r = Some a)) (l_attempts file)))
                        else None) file.

Definition int07 (e : environment) : res CheckResult :=
  if negb (wal_writer e) then Ok (MkCheck amber "WAL writer not available")
  else
    match newest 100 (_exec_wal_ro_all (with_attempts (old_enough e)) e) with
    | [] => Ok (MkCheck amber "No executions older than 30s to check")
    | rows =>
        match List.filter (fun r => snd r =? 0) rows with
        | [] => Ok (MkCheck green (ratio (zlen rows) (zlen rows) " executions have matching attempt row"))
        | missing => Ok (MkCheck red (ratio (zlen missing) (zlen rows) " executions missing attempt row"))
        end
    end.

Definition unhealthy (m : string * model_file) : bool := match snd m with Present size => size =? 0 | _ => true end.

Definition int08 (e : environment) : res CheckResult :=
  match production_models e with
  | None => Ok (MkCheck amber "Intelligence layer disabled — no model registry")
  | Some (Raise _) => Ok (MkCheck amber "registry.list_production_models failed")
  | Some (Ok []) => Ok (MkCheck green "No production models registered")
  | Some (Ok l) =>
      match List.filter unhealthy l with
      | [] => Ok (MkCheck green (ratio (zlen l) (zlen l) " production models readable"))
      | bad => Ok (MkCheck red (ratio (zlen bad) (zlen l) " production model files unhealthy"))
      end
  end.

(** The anchors of a record of the log, against the ledger's.  [pick] stands for
    [random.choice], [ledger] for the query by execution id. *)
Definition has_anchor (json : res pyval) : option dict :=
  match json with
  | Ok (PDict rec) =>
      if truthy (dget "walacor_block_id" rec) && truthy (dget "walacor_trans_id" rec) && truthy (dget "walacor_dh" rec)
      then Some rec else None
  | _ => None
  end.

Definition anchor_fields : list string := ["walacor_block_id"; "walacor_trans_id"; "walacor_dh"].
Definition differs (remote local : dict) (k : string) : bool :=
  truthy (dget k remote) && truthy (dget k local) && negb (py_eqb (dget k remote) (dget k local)).

Definition int05 (pick : list dict -> nat) (ledger : option (pyval -> res (list dict))) (e : environment) : res CheckResult :=
  match ledger, wal_writer e with
  | Some query, true =>
      match omap has_anchor (recent_executions 20 e) with
      | [] => Ok (MkCheck amber "No anchored records available to probe")
      | (first :: _) as anchored =>
          let rec := nth (pick anchored) anchored first in
          let exec_id := py_str (dget "execution_id" rec) in
          match query (dget "execution_id" rec) with
          | Raise _ => Ok (MkCheck red "Walacor round-trip failed")
          | Ok [] => Ok (MkCheck red ("Round-trip returned 0 records for execution_id=" +:+ exec_id))
          | Ok (remote :: _) =>
              match List.filter (differs remote rec) anchor_fields with
              | [] => Ok (MkCheck green ("Round-trip verified for execution_id=" +:+ exec_id))
              | l => Ok (MkCheck red ("Round-trip mismatch on " +:+ sjoin "," l +:+ " for execution_id=" +:+ exec_id))
              end
          end
      end
  | _, _ => Ok (MkCheck amber "Walacor client or WAL not available")
  end.

(** ** Persistence and hygiene (readiness/checks/persistence.py, hygiene.py) *)

Definition hundred : spec_float := sf_of_Z 100.

(** The detail, with two formatted floats, is left out. *)
Definition per02 (e : environment) : res CheckResult :=
  match disk_usage e with
  | None => Ok (MkCheck amber "wal_path does not exist")
  | Some (Raise _) => Ok (MkCheck amber "disk_usage failed")
  | Some (Ok (free, total)) =>
      let! share := py_truediv free total in
      let free_pct := SFmul prec emax share hundred in
      let threshold := disk_min_free_percent e in
      Ok (MkCheck (if SFleb threshold free_pct then green
                   else if SFleb (SFdiv prec emax threshold (sf_of_Z 2)) free_pct then amber else red) "WAL disk free")
  end.

Definition per03 (e : environment) : res CheckResult :=
  if negb (wal_writer e) then Ok (MkCheck amber "WAL writer not available")
  else
    match pending_count e with
    | Raise _ => Ok (MkCheck amber "pending_count failed")
    | Ok pending =>
        let high := wal_high_water_mark e in
        let! amber_at := py_int (PFloat (SFmul prec emax (sf_of_Z high) (sf_of_decimal false 8 (-1))) "") in
        Ok (MkCheck (if pending <? amber_at then green else if pending <? high then amber else red)
              ("WAL pending=" +:+ z_str pending +:+ " (amber≥" +:+ z_str amber_at +:+ ", red≥" +:+ z_str high +:+ ")"))
    end.

Definition hyg01 (e : environment) : res CheckResult :=
  let level := Analyzers.upper (match log_level e with "" => "INFO" | l => l end) in
  if bool_decide (level = "INFO") then Ok (MkCheck green ("log_level=" +:+ level))
  else if bool_decide (level = "DEBUG") && _is_prod_host e then
    Ok (MkCheck amber "log_level=DEBUG on prod host — risks leaking sensitive data")
  else Ok (MkCheck (if _is_prod_host e then amber else green) ("log_level=" +:+ level)).

Definition hyg02 (e : environment) : res CheckResult :=
  if rate_limit_enabled e then Ok (MkCheck green "Rate limiting enabled") else Ok (MkCheck amber "Rate limiting disabled").

(** ** The registry (readiness/registry.py) *)

(** What a run of a check comes to within its time limit *)
Inductive outcome := Answered (r : res CheckResult) | TimedOut.

Record check := MkReadiness { id_ : string; severity : Severity; run : environment -> res CheckResult }.

Definition register (c : check) (l : list check) : list check := l ++ [c].

(** The checks of this file in the order of their registration; [others] stands for the
    probes of dependencies, features and directories. *)
Definition registered (pick : list dict -> nat) (ledger : option (pyval -> res (list dict))) (others : list check) : list check :=
  foldl (fun l c => register c l) []
    ([MkReadiness "SEC-01" sec sec01; MkReadiness "SEC-02" sec sec02; MkReadiness "SEC-03" sec sec03; MkReadiness "SEC-04" sec sec04;
      MkReadiness "SEC-05" sec sec05; MkReadiness "SEC-06" sec sec06; MkReadiness "SEC-07" warn sec07;
      MkReadiness "INT-01" int int01; MkReadiness "INT-02" int int02; MkReadiness "INT-03" int int03; MkReadiness "INT-04" warn int04;
      MkReadiness "INT-05" int (int05 pick ledger); MkReadiness "INT-06" int int06; MkReadiness "INT-07" int int07;
      MkReadiness "INT-08" int int08; MkReadiness "PER-02" ops per02; MkReadiness "PER-03" ops per03;
      MkReadiness "HYG-01" warn hyg01; MkReadiness "HYG-02" warn hyg02] ++ others).

(** ** Drift (readiness/drift_audit.py) *)

Definition _RATE_LIMIT : Z := seconds 300.

(** An attempt row: the check, its detail, the status before *)
Record drift_row := MkDrift { d_check : string; d_detail : string; d_previous : string; d_at : Z }.

Definition status_text (s : status) : string := match s with green => "green" | amber => "amber" | red => "red" end.

(** The rows written so far and the time of the last one by check.  [writable]: the write
    succeeds; [wal]: there is a writer. *)
Record audit := MkAudit { _last_written : list (string * Z); drift_rows : list drift_row }.

Definition maybe_write_drift_record (check_id : string) (r : CheckResult) (previous : option status) (wal writable : bool) (now : Z)
    (a : audit) : audit * bool :=
  if negb (bool_decide (c_status r = red)) || bool_decide (previous = Some red) then (a, false)
  else if now - default 0 (od_get check_id (_last_written a)) <? _RATE_LIMIT then (a, false)
  else if negb wal then (a, false)
  else
    let last := od_set check_id now (_last_written a) in
    if writable then
      (MkAudit last (drift_rows a ++ [MkDrift check_id (detail r) (match previous with Some s => status_text s | None => "unknown" end) now]), true)
    else (MkAudit last (drift_rows a), false).

(** ** The runner (readiness/runner.py) *)

Record runner := MkRunner { _previous_statuses : list (string * status); drift : audit }.
Definition new_runner : runner := MkRunner [] (MkAudit [] []).

(** An entry of the report *)
Record entry := MkEntry { n_id : string; n_severity : Severity; n_status : status; n_detail : string }.

Definition result_of (o : outcome) : CheckResult :=
  match o with
  | Answered (Ok r) => r
  | Answered (Raise _) => MkCheck amber "internal error"
  | TimedOut => MkCheck amber "check timed out after 5s"
  end.

(** [_run_one] *)
Definition _run_one (id : string) (sev : Severity) (o : outcome) (wal writable : bool) (now : Z) (st : runner) : runner * entry :=
  let r := result_of o in
  let audited := if bool_decide (c_status r = red) && (bool_decide (sev = sec) || bool_decide (sev = int))
                 then (maybe_write_drift_record id r (od_get id (_previous_statuses st)) wal writable now (drift st)).1
                 else drift st in
  (MkRunner (od_set id (c_status r) (_previous_statuses st)) audited, MkEntry id sev (c_status r) (detail r)).

Inductive rollup := unready | degraded | ready.
#[export] Instance rollup_dec : EqDecision rollup.
Proof. solve_decision. Defined.

Definition blocking (c : entry) : bool :=
  bool_decide (n_status c = red) && (bool_decide (n_severity c = sec) || bool_decide (n_severity c = int)).
Definition degrading (c : entry) : bool :=
  (bool_decide (n_status c = red) || bool_decide (n_status c = amber)) && negb (bool_decide (n_severity c = warn)).

Definition _rollup (checks : list entry) : rollup :=
  if existsb blocking checks then unready
  else if existsb degrading checks then degraded
  else if existsb (fun c => bool_decide (n_status c = red)) checks then degraded
  else ready.

Record ReadinessReport := MkReport {
  r_status : rollup;
  generated_at : Z;
  cache_age : Z;
  summary : list (string * Z);
  entries : list entry;
}.

Definition count_status (s : status) (l : list entry) : Z := zlen (List.filter (fun c => bool_decide (n_status c = s)) l).
Definition summarised (l : list entry) : list (string * Z) :=
  [("green", count_status green l); ("amber", count_status amber l); ("red", count_status red l); ("total", zlen l)].

Definition _READINESS_TTL : Z := seconds 15.

(** The checks one after the other; [outcome_of] says which of them are too slow. *)
Fixpoint run_checks (l : list check) (slow : string -> bool) (e : environment) (writable : bool) (now : Z) (st : runner)
    : runner * list entry :=
  match l with
  | [] => (st, [])
  | c :: l =>
      let o := if slow (id_ c) then TimedOut else Answered (run c e) in
      let '(st, x) := _run_one (id_ c) (severity c) o (wal_writer e) writable now st in
      let '(st, xs) := run_checks l slow e writable now st in
      (st, x :: xs)
  end.

Definition fresh_report (l : list entry) (now : Z) : ReadinessReport := MkReport (_rollup l) now 0 (summarised l) l.

(** [run_all], under its lock, with the cached report *)
Definition run_all (checks : list check) (slow : string -> bool) (e : environment) (writable : bool) (now : Z) (fresh : bool)
    (x : runner * option (Z * ReadinessReport)) : (runner * option (Z * ReadinessReport)) * ReadinessReport :=
  let '(st, cache) := x in
  let compute :=
    let '(st, l) := run_checks checks slow e writable now st in
    let r := fresh_report l now in ((st, Some (now, r)), r) in
  match cache with
  | Some (t, r) =>
      if negb fresh && (now - t <? _READINESS_TTL)
      then ((st, cache), MkReport (r_status r) (generated_at r) (now - t) (summary r) (entries r))
      else compute
  | None => compute
  end.
End checks.

(** ** What a report says *)

Section report.
Context `{Ed25519}.

Lemma rollup_unready l : _rollup l = unready <-> Exists (fun c => blocking c = true) l.
Proof.
  unfold _rollup. destruct (existsb blocking l) eqn:Hb.
  - split; [intros _|done]. apply existsb_exists in Hb as (c & Hc & Hx). apply Exists_exists. exists c. by rewrite list_elem_of_In.
  - split; [by repeat case_match|]. intros He. apply Exists_exists in He as (c & Hc & Hx).
    assert (existsb blocking l = true) as Ht; [|congruence]. apply existsb_exists. exists c. by rewrite <- list_elem_of_In.
Qed.

(** Green, or amber where nothing depends on it *)
Definition unobjectionable (c : entry) : Prop :=
  n_status c = green \/ (n_status c = amber /\ n_severity c = warn).

Lemma rollup_ready l : _rollup l = ready <-> Forall unobjectionable l.
Proof.
  unfold _rollup. induction l as [|c l IH]; [done|]. cbn [existsb]. rewrite Forall_cons, <- IH. unfold unobjectionable.
  assert (blocking c = true -> degrading c = true) as Hb.
  { unfold blocking, degrading. destruct (n_status c), (n_severity c); cbn; done. }
  destruct (existsb blocking l), (existsb degrading l), (existsb (fun c => bool_decide (n_status c = red)) l);
    unfold blocking, degrading in *; destruct (n_status c), (n_severity c); cbn; naive_solver.
Qed.

Lemma counts_add l : count_status green l + count_status amber l + count_status red l = zlen l.
Proof.
  unfold count_status. induction l as [|c l IH]; [done|]. cbn [List.filter].
  destruct (n_status c); repeat case_bool_decide; try done; rewrite !zlen_cons; lia.
Qed.

(** A report is what the runner makes of its entries. *)
Definition made (r : ReadinessReport) : Prop := r_status r = _rollup (entries r) /\ summary r = summarised (entries r).

(** The entry of a check *)
Definition entry_of (slow : string -> bool) (e : environment) (c : check) : entry :=
  let r := result_of (if slow (id_ c) then TimedOut else Answered (run c e)) in MkEntry (id_ c) (severity c) (c_status r) (detail r).

Lemma run_checks_entries slow e writable now l : forall st, (run_checks l slow e writable now st).2 = map (entry_of slow e) l.
Proof.
  induction l as [|c l IH]; intros st; [done|]. cbn [run_checks map]. unfold _run_one at 1. cbv zeta.
  match goal with |- context [run_checks l slow e writable now ?s] => specialize (IH s); destruct (run_checks l slow e writable now s) as [st' xs] end.
  cbn in *. by rewrite IH.
Qed.

Lemma fresh_entries checks slow e writable now x : entries (run_all checks slow e writable now true x).2 = map (entry_of slow e) checks.
Proof.
  destruct x as [st cache]. unfold run_all. pose proof (run_checks_entries slow e writable now checks st) as He.
  destruct (run_checks _ _ _ _ _ _) as [st' l]. by destruct cache as [[t r]|].
Qed.

(** The report of the cache was made at its time, of what every check said then. *)
Definition cache_sound (checks : list check) (now : Z) (cache : option (Z * ReadinessReport)) : Prop :=
  match cache with
  | Some (t, r) =>
      made r /\ generated_at r = t /\ t <= now /\ exists slow e, entries r = map (entry_of slow e) checks
  | None => True
  end.

Lemma run_all_made checks slow e writable now fresh x :
  cache_sound checks now x.2 ->
  let '(x', r) := run_all checks slow e writable now fresh x in
  cache_sound checks now x'.2 /\ made r /\ generated_at r <= now < generated_at r + _READINESS_TTL /\
  cache_age r = now - generated_at r /\
  (fresh = true \/ x.2 = None -> generated_at r = now /\ entries r = map (entry_of slow e) checks) /\
  exists slow' e', entries r = map (entry_of slow' e') checks.
Proof.
  destruct x as [st cache]. cbn [snd]. intros Hc. unfold run_all, _READINESS_TTL, seconds.
  pose proof (run_checks_entries slow e writable now checks st) as He.
  destruct (run_checks _ _ _ _ _ _) as [st' l]. cbn [snd] in He.
  set (r0 := fresh_report l now). assert (made r0) as Hm by done.
  assert (exists slow' e', entries r0 = map (entry_of slow' e') checks) as He' by by exists slow, e.
  assert (cache_sound checks now (Some (now, r0)) /\ made r0 /\ generated_at r0 <= now < generated_at r0 + 15 * 1000000000 /\
    cache_age r0 = now - generated_at r0 /\ (fresh = true \/ cache = None -> generated_at r0 = now /\ entries r0 = map (entry_of slow e) checks) /\
    exists slow' e', entries r0 = map (entry_of slow' e') checks) as Hnew.
  { change (generated_at r0) with now. change (cache_age r0) with 0. split; [by repeat split|].
    repeat (split; [done || lia|]). done. }
  clearbody r0. destruct cache as [[t r]|]; [|exact Hnew].
  destruct (negb fresh && (now - t <? 15 * 1000000000)) eqn:Hf.
  2: { destruct Hnew as (N1 & N2 & N3 & N4 & N5 & N6). split_and!; try done; try lia. }
  apply andb_true_iff in Hf as [Hf Ht]. apply Z.ltb_lt in Ht. destruct Hc as (Hr & Hg & Hn & Hs).
  cbn. split_and!; try done; try lia. intros [-> |]; done.
Qed.

Lemma cache_sound_later checks now now' cache : cache_sound checks now cache -> now <= now' -> cache_sound checks now' cache.
Proof. destruct cache as [[t r]|]; [|done]. intros (? & ? & ? & ?) ?. repeat (split; [done || lia|]). done. Qed.

(** C29. A report is at most fifteen seconds old and says what its checks said.  Whatever
    the checks answer, however slow they are and whether the report comes from the cache
    or not, its age is under fifteen seconds and is stated in it.  It has one entry for
    every check, in their order, with what the check said when the report was made; one
    made on the spot (as it is asked for, or because there is none yet) says what they
    say now; a check that raises or takes too long is not left out but amber.  The counts
    by status add up to the number of checks; the report is ready exactly when every
    check is green or an amber warning, and unready exactly when a check of severity
    sec or int is red. *)
Theorem report_is_current checks slow e writable now fresh st cache :
  cache_sound checks now cache ->
  let '((_, cache'), r) := run_all checks slow e writable now fresh (st, cache) in
  cache_sound checks now cache' /\ generated_at r <= now < generated_at r + seconds 15 /\ cache_age r = now - generated_at r /\
  (fresh = true \/ cache = None -> generated_at r = now /\ entries r = map (entry_of slow e) checks) /\
  (exists slow' e', entries r = map (entry_of slow' e') checks /\
     forall c, c ∈ checks -> slow' (id_ c) = true \/ (exists ex, run c e' = Raise ex) ->
       exists n, n ∈ entries r /\ n_id n = id_ c /\ n_severity n = severity c /\ n_status n = amber) /\
  (exists g a n, summary r = [("green", g); ("amber", a); ("red", n); ("total", zlen checks)] /\ g + a + n = zlen checks) /\
  (r_status r = ready <-> Forall unobjectionable (entries r)) /\
  (r_status r = unready <-> Exists (fun c => n_status c = red /\ (n_severity c = sec \/ n_severity c = int)) (entries r)).
Proof.
  intros Hc. pose proof (run_all_made checks slow e writable now fresh (st, cache) Hc) as Hm.
  destruct (run_all _ _ _ _ _ _ _) as [[st' cache'] r]. destruct Hm as (Hc' & [Hs Hu] & Ha & Hage & Hf & slow' & e' & He). rewrite Hs.
  assert (zlen (entries r) = zlen checks) as Hlen by (unfold zlen; by rewrite He, length_map).
  split; [done|]. split; [exact Ha|]. do 2 (split; [done|]). split; [|split; [|split]].
  - exists slow', e'. split; [done|]. intros c Hin Hbad. exists (entry_of slow' e' c). rewrite He.
    split; [by apply list_elem_of_fmap_2|]. split; [done|]. split; [done|].
    unfold entry_of. cbn [n_status]. destruct (slow' (id_ c)); [done|]. by destruct Hbad as [|[ex ->]].
  - rewrite <- Hlen. eexists _, _, _. split; [exact Hu|]. apply counts_add.
  - apply rollup_ready.
  - rewrite rollup_unready. apply Exists_proper; [|done]. intros c. unfold blocking.
    rewrite andb_true_iff, orb_true_iff, !bool_decide_eq_true. done.
Qed.

Lemma fresh_made checks slow e writable now x : made (run_all checks slow e writable now true x).2.
Proof.
  destruct x as [st cache]. unfold run_all. destruct (run_checks _ _ _ _ _ _) as [st' l]. by destruct cache as [[t r]|].
Qed.
End report.

(** ** The sampled signatures *)

Section signatures.
Context `{Ed25519}.

(** The signed records of a sample *)
Definition signed_of (rows : list (res pyval)) : list dict :=
  omap (fun row => match row with
                   | Ok (PDict rec) => if truthy (dget "record_signature" rec) then Some rec else None
                   | _ => None
                   end) rows.

(** The number of a record, as the check reads it *)
Definition number_of (rec : dict) : res Z := py_int (por (dget "sequence_number" rec) (PInt 0)).

(** A row the check can read: no JSON, or a dict with a number if it is signed *)
Definition readable (row : res pyval) : Prop :=
  match row with
  | Raise _ => True
  | Ok (PDict rec) => truthy (dget "record_signature" rec) = true -> exists n, number_of rec = Ok n
  | Ok _ => False
  end.

Definition verifies (st : keys) (rec : dict) : bool :=
  match number_of rec with Ok n => signature_ok st rec n | Raise _ => false end.

Definition signed_record (row : res pyval) : list dict :=
  match row with Ok (PDict rec) => if truthy (dget "record_signature" rec) then [rec] else [] | _ => [] end.

Lemma signed_of_cons row rows : signed_of (row :: rows) = signed_record row ++ signed_of rows.
Proof.
  unfold signed_of, signed_record. cbn. destruct row as [[| | | | | |rec|]|]; try done. by destruct (truthy _).
Qed.

Lemma scan_readable st rows : forall a v failure,
  Forall readable rows -> 0 <= a <= 20 ->
  let sample := firstn (Z.to_nat (20 - a)) (signed_of rows) in
  exists failure', scan st rows a v failure =
    Ok (a + zlen sample, v + zlen (List.filter (verifies st) sample), failure').
Proof.
  cbv zeta. induction rows as [|row rows IH]; intros a v failure Hr Ha.
  { exists failure. cbn [scan]. change (signed_of []) with (@nil dict). rewrite firstn_nil. cbn. by rewrite (@zlen_nil dict), !Z.add_0_r. }
  apply Forall_cons in Hr as [Hrow Hr]. rewrite signed_of_cons. cbn [scan]. destruct (20 <=? a) eqn:H20.
  { apply Z.leb_le in H20. replace (Z.to_nat (20 - a)) with 0%nat by lia. rewrite !take_0. cbn [List.filter].
    exists failure. by rewrite (@zlen_nil dict), !Z.add_0_r. }
  apply Z.leb_gt in H20. unfold signed_record. destruct row as [j|e]; [|by apply IH]. destruct j as [| | | | | |rec|]; try done.
  cbn [readable] in Hrow. destruct (truthy (dget "record_signature" rec)) eqn:Hs; cbn [negb]; [|by apply IH].
  destruct (Hrow eq_refl) as [n Hn]. unfold number_of in Hn. rewrite Hn. cbn [res_bind app].
  replace (Z.to_nat (20 - a)) with (S (Z.to_nat (20 - (a + 1)))) by lia. cbn [firstn List.filter].
  unfold verifies at 1. unfold number_of. rewrite Hn. destruct (signature_ok st rec n).
  - destruct (IH (a + 1) (v + 1) failure Hr ltac:(lia)) as [f ->]. exists f. rewrite !zlen_cons. do 3 f_equal; lia.
  - match goal with |- context [scan st rows (a + 1) v ?f] => destruct (IH (a + 1) v f Hr ltac:(lia)) as [f' ->] end.
    exists f'. rewrite !zlen_cons. do 3 f_equal; lia.
Qed.

(** A row that cannot be read ends the scan before the twentieth record. *)
Lemma scan_unreadable st row rows pre : forall a v failure,
  Forall readable pre -> 0 <= a -> a + zlen (signed_of pre) < 20 -> ~ readable row ->
  is_ok (scan st (pre ++ row :: rows) a v failure) = false.
Proof.
  induction pre as [|x pre IH]; intros a v failure Hp Ha Hl Hrow; cbn [app scan].
  - change (signed_of []) with (@nil dict) in Hl. rewrite zlen_nil in Hl. replace (20 <=? a) with false by (symmetry; apply Z.leb_gt; lia).
    destruct row as [j|e]; [|by destruct Hrow]. destruct j as [| | | | | |rec|]; try done.
    cbn [readable] in Hrow. destruct (truthy (dget "record_signature" rec)); [|by destruct Hrow]. cbn [negb].
    destruct (py_int _) as [n|] eqn:Hn; [|done]. destruct Hrow. intros _. by exists n.
  - apply Forall_cons in Hp as [Hx Hp]. rewrite signed_of_cons, zlen_app in Hl.
    pose proof (zlen_nonneg (signed_of pre)). pose proof (zlen_nonneg (signed_record x)).
    replace (20 <=? a) with false by (symmetry; apply Z.leb_gt; lia). unfold signed_record in *.
    destruct x as [j|e]; [|by apply IH]. destruct j as [| | | | | |rec|]; try done.
    cbn [readable] in Hx. destruct (truthy (dget "record_signature" rec)) eqn:Hs; cbn [negb]; [|by apply IH].
    rewrite zlen_cons, zlen_nil in Hl. destruct (Hx eq_refl) as [n Hn]. unfold number_of in Hn. rewrite Hn. cbn [res_bind].
    destruct (signature_ok st rec n); (apply IH; [done|lia|lia|done]).
Qed.

(** The twenty newest signed records among the hundred newest executions *)
Definition sampled (e : environment) : list dict := firstn 20 (signed_of (recent_executions 100 e)).

Lemma zlen_zero {A} (l : list A) : zlen l = 0 <-> l = [].
Proof. destruct l; [done|]. rewrite zlen_cons. pose proof (zlen_nonneg l). split; [lia|done]. Qed.

Lemma zlen_filter {A} (f : A -> bool) l : zlen (List.filter f l) = zlen l <-> Forall (fun x => f x = true) l.
Proof.
  induction l as [|x l IH]; [done|]. rewrite Forall_cons. cbn [List.filter].
  assert (zlen (List.filter f l) <= zlen l) as Hle.
  { clear. induction l as [|x l IH]; [done|]. cbn [List.filter]. destruct (f x); rewrite !zlen_cons; lia. }
  destruct (f x); rewrite !zlen_cons; [rewrite <- IH; split; [split; [done|lia]|lia]|split; [lia|by intros [? _]]].
Qed.

(** C27. The signature check judges its sample.  With a key and a log, and rows that can
    be read, the check is green exactly when there is a signed record and each of the twenty newest
    verifies, red exactly when one of them does not, and amber when none is signed.
    But one signed record whose number is no number, or one row that is no dict, before the twentieth
    makes it amber, whatever the other records say: a broken signature is
    then not reported, and the gateway does not turn unready. *)
Theorem signatures_are_judged e :
  signing_key_available (signing e) = true -> wal_writer e = true ->
  (Forall readable (recent_executions 100 e) ->
   exists r, int03 e = Ok r /\
     (c_status r = green <-> sampled e <> [] /\ Forall (fun rec => verifies (signing e) rec = true) (sampled e)) /\
     (c_status r = red <-> Exists (fun rec => verifies (signing e) rec = false) (sampled e)) /\
     (c_status r = amber <-> sampled e = [])) /\
  (forall pre row post, recent_executions 100 e = pre ++ row :: post -> Forall readable pre -> zlen (signed_of pre) < 20 ->
     ~ readable row -> c_status (result_of (Answered (int03 e))) = amber).
Proof.
  intros Hk Hw. unfold int03. rewrite Hk, Hw. cbn [negb]. split.
  - intros Hr. destruct (scan_readable (signing e) (recent_executions 100 e) 0 0 None Hr ltac:(lia)) as [f Hs].
    rewrite Hs. cbn [res_bind]. change (Z.to_nat (20 - 0)) with 20%nat. fold (sampled e). rewrite !Z.add_0_l.
    destruct (Z.eqb_spec (zlen (sampled e)) 0) as [H0|H0].
    + apply zlen_zero in H0. eexists. split; [reflexivity|]. rewrite H0. cbn.
      split; [naive_solver|]. split; [|done]. split; [done|by intros ?%Exists_nil].
    + assert (sampled e <> []) as Hne by (intros Hx; by apply H0, zlen_zero).
      destruct (Z.eqb_spec (zlen (List.filter (verifies (signing e)) (sampled e))) (zlen (sampled e))) as [Hv|Hv].
      * apply zlen_filter in Hv. eexists. split; [reflexivity|]. cbn. split; [done|]. split; [|done].
        split; [done|]. intros Hx. apply Exists_exists in Hx as (rec & Hin & Hx). rewrite Forall_forall in Hv.
        rewrite Hv in Hx; done.
      * eexists. split; [reflexivity|]. cbn. rewrite zlen_filter in Hv. split; [naive_solver|]. split; [|done]. split; [intros _|done].
        apply not_Forall_Exists in Hv; [|intros ?; apply _]. eapply Exists_impl; [exact Hv|]. cbn. intros rec Hrec.
        by destruct (verifies _ _).
  - intros pre row post Hrows Hp Hl Hrow. rewrite Hrows.
    pose proof (scan_unreadable (signing e) row post pre 0 0 None Hp ltac:(lia) Hl Hrow) as Hs.
    by destruct (scan _ _ _ _ _).
Qed.
End signatures.

(** ** A gateway that is not unready *)

Lemma foldl_register `{Ed25519} l : forall acc, foldl (fun l c => register c l) acc l = acc ++ l.
Proof. induction l as [|c l IH]; intros acc; cbn; [by rewrite List.app_nil_r|]. unfold register in *. by rewrite IH, <- List.app_assoc. Qed.

(** A path of the lineage API *)
Lemma lineage_path_closed s rest :
  Auth.lineage_auth_required s = true ->
  Auth.exempt s ("/v1/lineage/" +:+ rest) = false /\ Auth.observability_path ("/v1/lineage/" +:+ rest) = false.
Proof.
  intros Hl. unfold Auth.exempt, Auth.observability_path, Auth._is_lineage_dashboard_path, Auth.startswith_any. rewrite Hl.
  assert (forall l, Forall (fun x => startswith "/v1/lineage/" x = false) l -> bool_decide ("/v1/lineage/" +:+ rest ∈ l) = false) as Hout.
  { intros l Hf. apply bool_decide_eq_false. intros Hin. rewrite Forall_forall in Hf. apply Hf in Hin.
    by rewrite startswith_app in Hin. }
  rewrite !Hout by (repeat constructor).
  assert (forall x, startswith "/v1/lineage/" x = false -> bool_decide ("/v1/lineage/" +:+ rest = x) = false) as Heq.
  { intros x Hx. apply bool_decide_eq_false. intros <-. by rewrite startswith_app in Hx. }
  rewrite !Heq by done. cbn. split; [|done]. by destruct (Auth.observability_auth_required s), (Auth.plugin_auth_required s).
Qed.

Lemma no_errors_valid `{Ed25519} st sid recs :
  Lineage.errors (verify_records st sid recs) = [] -> valid (verify_records st sid recs) = true.
Proof. unfold verify_records. destruct recs as [|r recs]; [done|]. cbn [Lineage.errors valid]. by intros ->. Qed.

Section serving.
Context `{E : Ed25519} {addr net : Type} (ip_address : string -> option addr) (in_net : addr -> net -> bool) (trusted : list net).
Variable signing_key : string -> string -> option string.
Variable decode : string -> Auth.jwt_key -> list string -> option string -> option string -> option dict.
Variable get_key_tenant : option (string -> res (option string)).

(** Checks that answer in time and do not raise *)
Definition in_time (slow : string -> bool) : Prop :=
  Forall (fun id => slow id = false) ["SEC-01"; "SEC-02"; "SEC-03"; "SEC-04"; "INT-01"; "INT-06"].

Lemma not_red e slow c checks writable now x :
  c ∈ checks -> severity c = sec \/ severity c = int -> slow (id_ c) = false ->
  r_status (run_all checks slow e writable now true x).2 <> unready -> c_status (result_of (Answered (run c e))) <> red.
Proof.
  intros Hc Hsev Hs Hr Hred. destruct (fresh_made checks slow e writable now x) as [Hm _]. apply Hr. rewrite Hm. apply rollup_unready.
  rewrite fresh_entries. apply Exists_exists. exists (entry_of slow e c). split; [by apply list_elem_of_fmap_2|].
  unfold entry_of, blocking. rewrite Hs. cbn [n_status n_severity]. rewrite Hred. destruct Hsev as [-> | ->]; by rewrite bool_decide_true.
Qed.

End serving.

(** ** The round-trip check and what the gateway writes *)

Section never_ready.
Context `{E : Ed25519} {T : Type} `{SessionChain.ChainTracker T} `{FloatRepr} `{Digest} `{Consistency.SetOrder} `{JsonText}.
Context (st : keys) (cfg : ChainHelpers.settings) (g : AuditWrite.gateway).

Definition anchorless (row : dict) : Prop := dget "walacor_block_id" row = PNone.

Lemma write_anchorless x (w w' : AuditWrite.world (T := T)) :
  Forall anchorless (AuditWrite.rows w).*1 -> AuditWrite.write_one st cfg g w x = Ok w' -> Forall anchorless (AuditWrite.rows w').*1.
Proof.
  intros Hw. unfold AuditWrite.write_one, AuditWrite._build_and_write_record. destruct (AuditWrite.skip_audit _); [by intros [= <-]|].
  intros Hx. apply res_bind_ok in Hx as (record & Hd & Hx).
  assert (anchorless record) as Hr.
  { unfold AuditWrite.draft_record in Hd. apply res_bind_ok in Hd as (meta & _ & Hd). apply res_bind_ok in Hd as (rec & Hb & Hd).
    unfold AuditRecord.build_execution_record in Hb. unbind Hb. injection Hb as <-. injection Hd as <-. unfold anchorless.
    rewrite AuditWrite.cost_keeps by done. by destruct (AuditWrite.preallocated _) as [[|c eid]|]. }
  clear Hd. destruct (AuditWrite.apply_chain _ _ _ _ _ _) as [[t rec1] res] eqn:Ha.
  pose proof (AuditWrite.apply_chain_keeps st cfg (AuditWrite.chain w) record (AuditWrite.session_of (AuditWrite.x_call x))
    (AuditWrite.at_reserve (AuditWrite.x_moment x)) "walacor_block_id" ltac:(by apply (bool_decide_unpack _))) as Hk1.
  rewrite Ha in Hk1. cbn [fst snd] in Hk1.
  destruct (AuditWrite.add_findings _ _ _ _ _ _) as [rec2 w2] eqn:Hf.
  pose proof (AuditWrite.findings_keep g _ _ _ _ _ _ _ "walacor_block_id" Hf ltac:(done)) as Hk2.
  rewrite AuditWrite.chain_timed_keeps in Hk2 by done.
  pose proof (AuditWrite.findings_world g _ _ _ _ _ _ _ Hf) as (_ & W2 & _). cbn [AuditWrite.rows AuditWrite.with_chain] in W2.
  injection Hx as <-. unfold AuditWrite.write_tool_events, AuditWrite._store_execution, AuditWrite.write_execution.
  destruct (AuditWrite.storage g) as [accepts|]; cbn [AuditWrite.rows AuditWrite.with_chain AuditWrite.with_tools AuditWrite.with_sequence AuditWrite.with_row];
    rewrite W2; [|done].
  rewrite fmap_app. apply Forall_app. split; [done|]. apply Forall_singleton. unfold anchorless. cbn [fst].
  rewrite AuditWrite.clean_keeps; [congruence|apply AuditWrite.execution_fields|discriminate].
Qed.

Lemma writes_anchorless xs : forall w w' : AuditWrite.world (T := T),
  Forall anchorless (AuditWrite.rows w).*1 -> AuditWrite.write_each st cfg g xs w = Ok w' -> Forall anchorless (AuditWrite.rows w').*1.
Proof.
  induction xs as [|x xs IH]; intros w w' Hw Hx; [by injection Hx as <-|].
  unfold AuditWrite.write_each in Hx. cbn [fold_res] in Hx. apply res_bind_ok in Hx as (w1 & H1' & Hx).
  eapply IH; [by eapply write_anchorless|exact Hx].
Qed.

(** The executions of the log files are those of [l], or cannot be decoded. *)
Definition logged (e : environment) (l : list dict) : Prop :=
  Forall (fun f => Forall (fun r => is_execution r = true ->
    match l_json r with Ok j => exists row, row ∈ l /\ j = PDict row | Raise _ => True end) (l_rows f)) (omap id (wal_files e)).

Lemma recent_logged limit e l : logged e l ->
  Forall (fun j => match j with Ok j => exists row, row ∈ l /\ j = PDict row | Raise _ => True end) (recent_executions limit e).
Proof.
  intros Hl. unfold recent_executions, newest, _exec_wal_ro_all. apply Forall_forall. intros j Hj.
  apply list_elem_of_fmap in Hj as ([j' c] & -> & Hj). cbn [fst]. apply elem_of_take in Hj as (i & Hj & _).
  apply list_elem_of_lookup_2 in Hj. rewrite isort_perm in Hj.
  rewrite list_elem_of_In in Hj. apply in_concat in Hj as (rows & Hrows & Hj). rewrite <- !list_elem_of_In in *.
  apply list_elem_of_fmap in Hrows as (f & -> & Hf). unfold last_of in Hj.
  apply elem_of_take in Hj as (i' & Hj & _). apply list_elem_of_lookup_2 in Hj. apply list_elem_of_omap in Hj as (r & Hr & Hj).
  unfold logged in Hl. rewrite Forall_forall in Hl. specialize (Hl f Hf). rewrite Forall_forall in Hl.
  rewrite elem_of_reverse in Hr || rewrite list_elem_of_In, <- in_rev, <- list_elem_of_In in Hr.
  specialize (Hl r Hr). destruct (is_execution r); [|done]. injection Hj as <- _. by apply Hl.
Qed.

(** C22. A gateway is never ready.  The check INT-05 looks for the ledger's block, transaction and hash in the rows
    of the local log, where no writer puts them: of whatever exchanges the log consists, in any
    number of files, with or without ledger, the check is amber, and as it is no mere warning no
    report of the gateway is ever ready. *)
Theorem gateway_is_never_ready pick ledger others slow e writable now x xs w w' :
  AuditWrite.rows w = [] -> AuditWrite.write_each (T := T) st cfg g xs w = Ok w' -> logged e (AuditWrite.rows w').*1 ->
  c_status (result_of (Answered (int05 pick ledger e))) = amber /\
  r_status (run_all (registered pick ledger others) slow e writable now true x).2 <> ready.
Proof.
  intros Hnil Hx Hl. apply writes_anchorless in Hx; [|by rewrite Hnil]. apply (recent_logged 20) in Hl.
  assert (c_status (result_of (Answered (int05 pick ledger e))) = amber) as Ha.
  { unfold int05. destruct ledger as [query|]; [|done]. destruct (wal_writer e); [|done].
    assert (omap has_anchor (recent_executions 20 e) = []) as ->; [|done].
    induction Hl as [|j l Hj Hl IH]; [done|]. cbn. destruct j as [j|]; [|by rewrite IH].
    destruct Hj as (row & Hrow & ->). rewrite Forall_forall in Hx. apply Hx in Hrow. unfold anchorless in Hrow.
    cbn. by rewrite Hrow, IH. }
  split; [done|]. destruct (fresh_made (registered pick ledger others) slow e writable now x) as [-> _].
  rewrite rollup_ready, fresh_entries. intros Hr. rewrite Forall_fmap, Forall_forall in Hr.
  specialize (Hr (MkReadiness "INT-05" int (int05 pick ledger))). cbn in Hr. unfold registered in Hr. rewrite foldl_register in Hr.
  specialize (Hr ltac:(set_solver)). unfold unobjectionable in Hr. cbn in Hr. destruct (slow "INT-05"); cbn in Hr; [naive_solver|].
  cbn in Ha. rewrite Ha in Hr. naive_solver.
Qed.
End never_ready.

(** ** Drift *)

(** One check that has come to its outcome, as the runner sees it *)
Record reading := MkReading {
  g_id : string; g_severity : Severity; g_outcome : outcome; g_wal : bool; g_writable : bool; g_at : Z;
}.
Definition observe (st : runner) (x : reading) : runner :=
  (_run_one (g_id x) (g_severity x) (g_outcome x) (g_wal x) (g_writable x) (g_at x) st).1.

Lemma run_checks_observe `{Ed25519} slow e writable now l : forall st,
  (run_checks l slow e writable now st).1 =
  foldl observe st (map (fun c => MkReading (id_ c) (severity c) (if slow (id_ c) then TimedOut else Answered (run c e)) (wal_writer e) writable now) l).
Proof.
  induction l as [|c l IH]; intros st; [done|]. cbn [run_checks map foldl]. rewrite <- IH. unfold observe. cbn [g_id g_severity g_outcome g_wal g_writable g_at].
  destruct (_run_one _ _ _ _ _ _ _) as [st1 x]. cbn [fst]. by destruct (run_checks l slow e writable now st1).
Qed.

Definition rows_of (id : string) (st : runner) : list drift_row := List.filter (fun r => bool_decide (d_check r = id)) (drift_rows (drift st)).
Definition is_red (x : reading) : bool := bool_decide (c_status (result_of (g_outcome x)) = red).
Definition last_of_check (id : string) (st : runner) : Z := default 0 (od_get id (_last_written (drift st))).

(** What one reading does to the rows of a check *)
Lemma observe_rows st x id :
  (rows_of id (observe st x) = rows_of id st /\ (last_of_check id (observe st x) = last_of_check id st \/
     (id = g_id x /\ last_of_check id (observe st x) = g_at x /\ _RATE_LIMIT <= g_at x - last_of_check id st))) \/
  (id = g_id x /\ is_red x = true /\ od_get id (_previous_statuses st) <> Some red /\
   _RATE_LIMIT <= g_at x - last_of_check id st /\ last_of_check id (observe st x) = g_at x /\
   exists r, rows_of id (observe st x) = rows_of id st ++ [r] /\ d_check r = id /\ d_at r = g_at x /\ d_previous r <> "red").
Proof.
  unfold observe, _run_one, is_red, last_of_check, rows_of. cbv zeta. cbn [fst drift].
  destruct (bool_decide (c_status _ = red)) eqn:Hred; cbn [andb]; [|by left; split; [|left]].
  destruct (bool_decide (g_severity x = sec) || bool_decide (g_severity x = int)); [|by left; split; [|left]].
  unfold maybe_write_drift_record. rewrite Hred. cbn [negb orb].
  destruct (bool_decide (od_get (g_id x) (_previous_statuses st) = Some red)) eqn:Hp; [by left; split; [|left]|].
  apply bool_decide_eq_false in Hp.
  destruct (g_at x - _ <? _RATE_LIMIT) eqn:Hq; [by left; split; [|left]|]. apply Z.ltb_ge in Hq.
  destruct (g_wal x); cbn [negb]; [|by left; split; [|left]].
  destruct (decide (id = g_id x)) as [-> |Hid]; destruct (g_writable x); cbn [fst _last_written drift_rows].
  - right. rewrite od_get_set_eq. cbn [default from_option id]. split_and!; try done. eexists. rewrite List.filter_app. cbn [List.filter d_check].
    rewrite bool_decide_true by done. split; [reflexivity|]. split_and!; try done. cbn [d_previous].
    destruct (od_get (g_id x) (_previous_statuses st)) as [[]|]; done.
  - left. split; [done|]. right. rewrite od_get_set_eq. done.
  - left. rewrite List.filter_app. cbn [List.filter d_check]. rewrite bool_decide_false by done. rewrite List.app_nil_r.
    split; [done|]. left. by rewrite od_get_set_ne.
  - left. split; [done|]. left. by rewrite od_get_set_ne.
Qed.

Lemma observe_previous st x id :
  od_get id (_previous_statuses (observe st x)) =
    if bool_decide (id = g_id x) then Some (c_status (result_of (g_outcome x))) else od_get id (_previous_statuses st).
Proof.
  unfold observe, _run_one. cbv zeta. cbn [fst _previous_statuses]. case_bool_decide as Hid; [subst; apply od_get_set_eq|by rewrite od_get_set_ne].
Qed.

(** Rows a rate limit apart, all at most at the time of the last one *)
Definition spaced (last : Z) (rows : list drift_row) : Prop :=
  0 <= last /\ StronglySorted (fun a b => d_at a + _RATE_LIMIT <= d_at b) rows /\
  Forall (fun r => _RATE_LIMIT <= d_at r <= last /\ d_previous r <> "red") rows.

Lemma observe_spaced st x id :
  spaced (last_of_check id st) (rows_of id st) -> spaced (last_of_check id (observe st x)) (rows_of id (observe st x)).
Proof.
  intros (H0 & Hs & Hf). assert (0 < _RATE_LIMIT) as Hpos by done.
  assert (forall l, last_of_check id st <= l -> Forall (fun r => _RATE_LIMIT <= d_at r <= l /\ d_previous r <> "red") (rows_of id st)) as Hmono.
  { intros l Hl. eapply Forall_impl; [exact Hf|]. cbn. intros r [? ?]. split; [lia|done]. }
  destruct (observe_rows st x id) as [[-> [-> |(-> & -> & Hq)]]|(-> & _ & _ & Hq & -> & r & -> & _ & Hat & Hprev)].
  - done.
  - split; [lia|]. split; [done|]. apply Hmono. lia.
  - split; [lia|]. split.
    + clear Hmono. induction (rows_of (g_id x) st) as [|r0 rows IH]; cbn; [by repeat constructor|].
      apply StronglySorted_inv in Hs as [Hs Ha]. apply Forall_cons in Hf as [Hr0 Hf]. constructor; [by apply IH|].
      apply Forall_app. split; [done|]. apply Forall_singleton. lia.
    + apply Forall_app. split; [apply Hmono; lia|]. apply Forall_singleton. split; [lia|done].
Qed.

(** Drift is recorded where a check turns red, at most once in five minutes.  Of any
    sequence of checks, with any outcomes at any times, the rows written for a check were written when it was
    not red before, and lie five minutes apart; the first comes no sooner than five minutes after the
    clock's origin. *)
Theorem drift_rows_are_spaced xs id :
  let rows := rows_of id (foldl observe new_runner xs) in
  StronglySorted (fun a b => d_at a + seconds 300 <= d_at b) rows /\
  Forall (fun r => d_check r = id /\ seconds 300 <= d_at r /\ d_previous r <> "red") rows.
Proof.
  assert (forall st, spaced (last_of_check id st) (rows_of id st) ->
    spaced (last_of_check id (foldl observe st xs)) (rows_of id (foldl observe st xs))) as Hall.
  { induction xs as [|x xs IH]; intros st Hst; [done|]. cbn [foldl]. by apply IH, observe_spaced. }
  specialize (Hall new_runner). cbv zeta. destruct Hall as (_ & Hs & Hf); [by split; [|split; constructor]|]. split; [exact Hs|].
  apply Forall_forall. intros r Hr. rewrite Forall_forall in Hf. destruct (Hf r Hr) as [[Hq _] Hp]. split; [|done].
  unfold rows_of in Hr. rewrite list_elem_of_In, List.filter_In in Hr. destruct Hr as [_ Hr]. by apply bool_decide_eq_true in Hr.
Qed.

Lemma red_stays_unrecorded id xs : forall st,
  od_get id (_previous_statuses st) = Some red -> Forall (fun x => g_id x = id -> is_red x = true) xs ->
  rows_of id (foldl observe st xs) = rows_of id st.
Proof.
  induction xs as [|x xs IH]; intros st Hp Hx; [done|]. apply Forall_cons in Hx as [Hx Hxs]. cbn [foldl]. rewrite IH; [|  |done].
  - destruct (observe_rows st x id) as [[Hr _]|(_ & _ & Hn & _)]; [done|by rewrite Hp in Hn].
  - rewrite observe_previous. case_bool_decide as Hid; [|done]. symmetry in Hid. apply Hx in Hid. unfold is_red in Hid.
    apply bool_decide_eq_true in Hid. by rewrite Hid.
Qed.

(** A check that turns red in the quiet time is never recorded.  When a check turns red less than five minutes
    after its last row, or within the first five minutes of the clock, or while there is no log or the log
    cannot be written, no row is written for it then, and none as long as it stays
    red, however long that is and whatever the log does meanwhile. *)
Theorem quiet_drift_is_lost st x xs :
  is_red x = true ->
  g_at x < last_of_check (g_id x) st + seconds 300 \/ g_wal x = false \/ g_writable x = false ->
  Forall (fun y => g_id y = g_id x -> is_red y = true) xs ->
  rows_of (g_id x) (foldl observe st (x :: xs)) = rows_of (g_id x) st.
Proof.
  intros Hr Hq Hxs. cbn [foldl]. rewrite red_stays_unrecorded; [|  |done].
  - destruct Hq as [Hq|Hq].
    + destruct (observe_rows st x (g_id x)) as [[Hs _]|(_ & _ & _ & Hl & _)]; [done|]. change (seconds 300) with _RATE_LIMIT in Hq. lia.
    + unfold rows_of, observe, _run_one. cbv zeta. cbn [fst drift]. destruct (_ && _); [|done]. unfold maybe_write_drift_record.
      destruct (_ || _); [done|]. destruct (_ <? _); [done|]. destruct Hq as [-> | ->]; [done|]. by destruct (negb (g_wal x)).
  - rewrite observe_previous, bool_decide_true by done. unfold is_red in Hr. apply bool_decide_eq_true in Hr. by rewrite Hr.
Qed.

(** ** The bootstrap key across restarts and workers *)

Section bootstrap.
Import Bootstrap.

Fixpoint no_space (s : string) : bool :=
  match s with EmptyString => true | String c s => negb (is_space c) && no_space s end.

Lemma no_space_app a b : no_space (a +:+ b) = no_space a && no_space b.
Proof. induction a as [|c a IH]; [done|]. rewrite app_cons. cbn [no_space]. by rewrite IH, andb_assoc. Qed.

Lemma srev_cons c s : srev (String c s) = (srev s +:+ String c "")%string.
Proof. change (String c s) with (String c "" +:+ s)%string. by rewrite ModelRegistry.srev_append. Qed.

Lemma no_space_srev s : no_space (srev s) = no_space s.
Proof. induction s as [|c s IH]; [done|]. rewrite srev_cons, no_space_app, IH. cbn [no_space]. rewrite andb_true_r. apply andb_comm. Qed.

Lemma srev_srev s : srev (srev s) = s.
Proof. induction s as [|c s IH]; [done|]. by rewrite srev_cons, ModelRegistry.srev_append, IH. Qed.

Lemma lstrip_no_space s : no_space s = true -> lstrip s = s.
Proof. destruct s as [|c s]; [done|]. cbn. by destruct (is_space c). Qed.

Lemma strip_no_space s : no_space s = true -> strip s = s.
Proof. intros Hs. unfold strip. rewrite (lstrip_no_space s), lstrip_no_space, srev_srev; rewrite ?no_space_srev; done. Qed.

(** What [secrets.token_urlsafe] gives: at least sixteen characters, none of them a space *)
Definition token (random : string) : Prop := no_space random = true /\ 16 <= Z.of_nat (String.length random).

Lemma generated_well_formed random : token random -> strip (_KEY_PREFIX +:+ random) = (_KEY_PREFIX +:+ random)%string /\
  well_formed (_KEY_PREFIX +:+ random) = true.
Proof.
  intros [Hs Hl]. split; [apply strip_no_space; by rewrite no_space_app, Hs|]. unfold well_formed.
  rewrite startswith_app. apply andb_true_iff. split; [done|]. apply Z.leb_le.
  change (String.length (_KEY_PREFIX +:+ random)) with (4 + String.length random)%nat.
  change (Z.of_nat (String.length _KEY_PREFIX)) with 4. lia.
Qed.

(** A bootstrap key that is said to be stable survives.  Whatever the key file holds, the key a start
    returns as stable is well formed and is read back as the same key by every later start, whatever that one draws
    and whether or not it may write, and the status says it is stable.  A start that cannot write returns an
    unstable key and leaves the file, so the next one returns another unless it draws the same. *)
Theorem stable_key_survives random writable f :
  token random ->
  let '(f', (key, stable)) := ensure_bootstrap_key random writable f in
  well_formed key = true /\
  (stable = true -> bootstrap_key_status writable f' = (true, "") /\
     forall random' writable', ensure_bootstrap_key random' writable' f' = (f', (key, true))) /\
  (stable = false -> f' = f /\ writable = false /\ key = (_KEY_PREFIX +:+ random)%string /\
     forall random', (ensure_bootstrap_key random' false f').2 = ((_KEY_PREFIX +:+ random')%string, false)).
Proof.
  intros Ht. destruct (generated_well_formed random Ht) as [Hs Hw]. unfold ensure_bootstrap_key.
  destruct (reload f) as [key|] eqn:Hr.
  - assert (well_formed key = true /\ bootstrap_key_status writable f = (true, "")) as [H1' H2'].
    { unfold reload in Hr. destruct f as [| |s]; try done. destruct (well_formed (strip s)) eqn:Hf; [|done]. injection Hr as <-.
      cbn. by rewrite Hf. }
    split; [done|]. split; [|done]. intros _. split; [done|]. intros random' writable'. by rewrite Hr.
  - unfold generate. destruct writable.
    + split; [done|]. split; [|done]. intros _. cbn [bootstrap_key_status]. rewrite Hs, Hw. split; [done|].
      intros random' writable'. unfold reload. by rewrite Hs, Hw.
    + split; [done|]. split; [done|]. intros _. split_and!; try done. intros random'. by rewrite Hr.
Qed.

(** Workers that start together disagree on the key.  Two workers that both look before either has written
    each return the key they drew as stable, and each writes it: the file holds the key of the one that wrote
    last.  The status and SEC-01 call the key of either stable, but a request with one worker's key is refused by the
    other, and a restart replaces the key of the worker that wrote first. *)
Theorem racing_workers_disagree `{Ed25519} a b f :
  token a -> token b -> a <> b -> reload f = None ->
  let '(f1, (key_a, stable_a)) := generate a true f in
  let '(f2, (key_b, stable_b)) := generate b true f1 in
  stable_a = true /\ stable_b = true /\ key_a <> key_b /\
  (forall e, key_file e = f2 -> api_keys e = [key_a] -> auto_generated_bootstrap_key e = Some key_a ->
     exists r, sec01 e = Ok r /\ c_status r = green) /\
  (forall r, Auth.get_api_key_from_request r = Some key_a -> Auth.key_accepted r [key_a] = true /\ Auth.key_accepted r [key_b] = false) /\
  (forall random writable, (ensure_bootstrap_key random writable f2).2 = (key_b, true)).
Proof.
  intros Ha Hb Hab Hr. cbn [generate]. destruct (generated_well_formed b Hb) as [Hs Hw].
  assert ((_KEY_PREFIX +:+ a)%string <> (_KEY_PREFIX +:+ b)%string) as Hne by (intros Heq; by simplify_eq).
  split_and!; try done.
  - intros e Hf Hk Hauto. unfold sec01. rewrite Hk, Hauto. clear - Hf Hs Hw.
    change (_KEY_PREFIX +:+ a)%string with (String "w" ("gk-" +:+ a)). rewrite Hf. cbn [bootstrap_key_status]. rewrite Hs, Hw.
    destruct (negb _ && _); by eexists.
  - intros r Hreq. unfold Auth.key_accepted. rewrite Hreq. rewrite !Auth.key_check_in. split.
    + apply bool_decide_eq_true. by left.
    + apply bool_decide_eq_false. by rewrite list_elem_of_singleton.
  - intros random writable. unfold ensure_bootstrap_key, reload. by rewrite Hs, Hw.
Qed.
End bootstrap.

(** ** A gateway with two recorded exchanges *)

Module Deployed.
Import Signing.ToyEd25519.
Import AuditWrite.Writes.
#[local] Existing Instance digest.
#[local] Existing Instance repr.
#[local] Existing Instance order.
#[local] Existing Instance codec.

Definition written : AuditWrite.world := after all_accepted [turn 1; turn 2].
Definition log (l : list (res pyval)) : log_file :=
  MkLogFile (map (fun j =>
    MkLog j "2026-01-01" (Some "e") None
      (MkRow (Some "s-1") ev_execution (WalacorReader.view (match j with Ok (PDict d) => d | _ => [] end)) "t")) l) ["e"].
Definition records : list (res pyval) := map (fun r => Ok (PDict r)) (AuditWrite.rows written).*1.

Definition conf (mode : string) : Auth.settings :=
  Auth.MkSettings false false true mode "wgk-aaaa" (Auth.MkJwt "" "https://idp/keys" "idp" "gateway" ["RS256"] "sub" "email" "roles" "" "t")
    true "corp".

Definition running (l : list (res pyval)) : environment :=
  {| auth := conf "both"; gateway_host := "0.0.0.0"; enforcement_mode := "enforced"; skip_governance := false; log_level := "INFO";
     rate_limit_enabled := true; walacor_storage_enabled := false; auto_generated_bootstrap_key := None; key_file := Bootstrap.Absent;
     key_dir_writable := true; lineage_probe := Ok 401; jwks_answer := Ok (200, Ok (PDict [("keys", PList [])])); signing := key;
     wal_writer := true; wal_files := [None; Some (log l)]; old_enough := fun _ => true; anchors := None; production_models := Some (Ok []);
     disk_usage := Some (Ok (50, 100)); disk_min_free_percent := sf_of_Z 10; pending_count := Ok 0; wal_high_water_mark := 1000 |}.

Definition checks : list check := registered (fun _ => 0%nat) None [].
Definition quick : string -> bool := fun _ => false.
Definition report (e : environment) (now : Z) (fresh : bool) := run_all checks quick e true now fresh.

Example statuses : map (fun c => (n_id c, n_status c)) (entries (report (running records) 0 true (new_runner, None)).2) =
  [("SEC-01", green); ("SEC-02", green); ("SEC-03", green); ("SEC-04", green); ("SEC-05", green); ("SEC-06", green); ("SEC-07", green);
   ("INT-01", green); ("INT-02", green); ("INT-03", green); ("INT-04", amber); ("INT-05", amber); ("INT-06", green); ("INT-07", green);
   ("INT-08", green); ("PER-02", green); ("PER-03", green); ("HYG-01", green); ("HYG-02", green)].
Proof. vm_compute. reflexivity. Qed.

Definition first_ : (runner * option (Z * ReadinessReport)) * ReadinessReport := report (running records) 0 true (new_runner, None).

Lemma report_is_current_witness :
  cache_age (report (running records) (seconds 14) false first_.1).2 = seconds 14 /\
  exists g a n, summary (report (running records) (seconds 14) false first_.1).2 =
    [("green", g); ("amber", a); ("red", n); ("total", zlen checks)].
Proof.
  split; [vm_compute; reflexivity|].
  assert (cache_sound checks (seconds 14) first_.1.2) as Hc.
  { apply (cache_sound_later checks 0); [|discriminate].
    pose proof (run_all_made checks quick (running records) true 0 true (new_runner, None) I) as Hm.
    unfold first_, report. destruct (run_all _ _ _ _ _ _ _) as [x r]. apply Hm. }
  pose proof (report_is_current checks quick (running records) true (seconds 14) false first_.1.1 first_.1.2 Hc) as Hr.
  unfold report. rewrite (surjective_pairing first_.1). destruct (run_all _ _ _ _ _ _ _) as [[st' c'] r].
  destruct Hr as (_ & _ & _ & _ & _ & (g & a & n & Hs & _) & _). exists g, a, n. exact Hs.
Defined.

(** The second record, tampered with; a third, whose number is a word *)
Definition tampered : list (res pyval) :=
  match records with [a; Ok (PDict b)] => [a; Ok (PDict (od_set "timestamp" (PStr "2025-01-01") b))] | l => l end.
Definition odd : res pyval := Ok (PDict [("record_signature", PStr "sig"); ("sequence_number", PStr "two")]).

Lemma one_fails st l : existsb (fun rec => negb (verifies st rec)) l = true -> Exists (fun rec => verifies st rec = false) l.
Proof.
  intros Hx. apply existsb_exists in Hx as (rec & Hin & Hx). apply Exists_exists. exists rec. rewrite list_elem_of_In.
  split; [done|by apply negb_true_iff].
Qed.

Lemma signatures_are_judged_witness :
  (exists r, int03 (running tampered) = Ok r /\ c_status r = red) /\
  c_status (result_of (Answered (int03 (running (tampered ++ [odd]))))) = amber.
Proof.
  split.
  - destruct (proj1 (signatures_are_judged (running tampered) eq_refl eq_refl)) as (r & Hr & _ & Hred & _).
    + vm_compute. repeat constructor; by eexists.
    + exists r. split; [exact Hr|]. apply Hred, one_fails. vm_compute. reflexivity.
  - apply (proj2 (signatures_are_judged (running (tampered ++ [odd])) eq_refl eq_refl) [] odd (rev tampered)); [vm_compute; reflexivity|constructor|done|].
    intros Hx. destruct (Hx eq_refl) as [n Hn]. vm_compute in Hn. discriminate Hn.
Defined.


Lemma records_logged l : logged (running (map (fun r => Ok (PDict r)) l)) l.
Proof.
  unfold logged, running. cbn [wal_files omap list_omap id]. apply Forall_singleton. apply Forall_forall. intros r Hr _.
  unfold log in Hr. cbn [l_rows] in Hr. rewrite list_elem_of_In in Hr. apply in_map_iff in Hr as (j & <- & Hj).
  apply in_map_iff in Hj as (row & <- & Hrow). cbn [l_json]. exists row. by rewrite list_elem_of_In.
Qed.

Lemma written_ok : AuditWrite.write_each key on (gate all_accepted) [turn 1; turn 2] start = Ok written.
Proof. vm_compute. reflexivity. Qed.

Lemma gateway_is_never_ready_witness :
  c_status (result_of (Answered (int05 (fun _ => 0%nat) (Some (fun _ => Ok [])) (running records)))) = amber /\
  r_status (run_all (registered (fun _ => 0%nat) (Some (fun _ => Ok [])) []) quick (running records) true 0 true (new_runner, None)).2 <> ready.
Proof.
  exact (gateway_is_never_ready key on (gate all_accepted) (fun _ => 0%nat) (Some (fun _ => Ok [])) [] quick (running records) true 0
    (new_runner, None) [turn 1; turn 2] start written eq_refl written_ok (records_logged (AuditWrite.rows written).*1)).
Defined.

(** INT-01 turns red again four minutes after its last row, and stays so for a day *)
Definition red_at (t : Z) : reading := MkReading "INT-01" int (Answered (Ok (MkCheck red "no key"))) true true t.
Definition green_at (t : Z) : reading := MkReading "INT-01" int (Answered (Ok (MkCheck green "key"))) true true t.
Definition once : runner := foldl observe new_runner [red_at (seconds 1000); green_at (seconds 1100)].

Lemma quiet_drift_is_lost_witness :
  zlen (drift_rows (drift once)) = 1 /\
  rows_of "INT-01" (foldl observe once [red_at (seconds 1240); red_at (seconds 2000); red_at (seconds 86400)]) = rows_of "INT-01" once.
Proof.
  split; [reflexivity|].
  exact (quiet_drift_is_lost once (red_at (seconds 1240)) [red_at (seconds 2000); red_at (seconds 86400)] ltac:(vm_compute; reflexivity)
    ltac:(left; vm_compute; reflexivity) ltac:(repeat constructor)).
Defined.

Definition drawn : string := "Zr3k-9aQ_xT7bLm0".
Lemma drawn_token : token drawn.
Proof. split; [reflexivity|vm_compute; discriminate]. Qed.
Definition drawn_too : string := "aaaaaaaaaaaaaaaaaaaa".
Lemma drawn_too_token : token drawn_too.
Proof. split; [reflexivity|vm_compute; discriminate]. Qed.

Lemma stable_key_survives_witness :
  Bootstrap.ensure_bootstrap_key drawn_too false (Bootstrap.Text "wgk-Zr3k-9aQ_xT7bLm0") =
    (Bootstrap.Text "wgk-Zr3k-9aQ_xT7bLm0", ("wgk-Zr3k-9aQ_xT7bLm0", true)).
Proof. exact (proj2 (proj1 (proj2 (stable_key_survives drawn true Bootstrap.Absent drawn_token)) eq_refl) drawn_too false). Defined.

Lemma racing_workers_disagree_witness :
  (Bootstrap.ensure_bootstrap_key drawn true (Bootstrap.Text "wgk-aaaaaaaaaaaaaaaaaaaa")).2 = ("wgk-aaaaaaaaaaaaaaaaaaaa", true).
Proof.
  destruct (racing_workers_disagree drawn drawn_too Bootstrap.Absent drawn_token drawn_too_token ltac:(discriminate) eq_refl)
    as (_ & _ & _ & _ & _ & Hs).
  exact (Hs drawn true).
Defined.
End Deployed.
